(* ===== verification/_CoqProject ===== *)
-Q . S2P
Prelude.v
Bytes.v
MemLib.v
StrLib.v
Time.v
KState.v
Blocks.v
Paging.v
Threads.v
Sched.v
Ipc.v
User.v
Vfs.v
Fat32.v
Fat32File.v
Packet.v
Inet.v
Tcp.v
Ide.v
Pci.v
Descr.v
ProcCalls.v
Screen.v
Term.v
Clock.v
Uds.v
Elf.v
SockCalls.v
Wide.v
Pe.v
ProcFs.v
Dispatch.v
NinjaLib.v
Seh.v
NtImport.v
NtLoad.v
Crt.v
NtStart.v
Boot.v
Nic.v
FileCalls.v
