(* ===== verification/Prelude.v ===== *)
(** * CarrotOS: a verification development

    CarrotOS is a 64-bit kernel written as C headers under src/.  This library
    translates its core into Rocq functions, one per C function and under the
    same name, and proves what those functions do.

    ** The program and the files that model it

    - [Prelude] (this file): machine integers as [Z] with the wrap of their
      width written out ([u8] .. [u64], [s32], [s64]), the outcomes and the
      state monad [ST], bounded search, byte-addressed memory.
    - [MemLib] models src/libs/mem/mem.h: copy, compare, erase, byte order, and
      the ring buffers the devices and sockets share.
    - [StrLib] models src/libs/string/string.h over NUL-terminated strings in
      memory.
    - [Time] models src/core/time.h: the calendar, the CMOS clock behind the
      interface [PortIO] with its behaviour [CmosClock], time arithmetic,
      random numbers.
    - [KState] holds the data of src/core/scheduler.h (states, thread and
      process structures) and the kernel state [kstate]: memory map, page
      table words, the two tables, the per-core words behind gs, the locks.
      The class [Machine] gives the constants of the boot code.
    - [Blocks] models the physical block map, [Paging] the four-level page
      tables, [Threads] the threads and processes of src/core/scheduler.h and
      the spin locks of src/core/interrupt.h.
    - [Sched] models src/core/interrupt.h: interrupt gates, the wake-up pass,
      the three scheduler entries ([timer_tick_from_idle],
      [timer_tick_from_non_idle], [timer_tick1]) and signal handling.
    - [Ipc] models src/core/ipc/: signal masks and delivery, futexes, shared
      memory.
    - [User] models src/core/user/user.h: identities, the user file, path
      permissions.
    - [Vfs] models src/core/filesytem/vfs.h and the file calls of
      src/core/filesytem/filesystem.h.  The table of operations of a file
      system is the class [PartitionDriver]; the file calls are defined over it.
    - [Fat32] and [Fat32File] model src/core/filesytem/fat32.h: sectors,
      clusters and the allocation table in the first, names, directories, files
      and the driver table in the second.  The block driver is the class
      [BlockDevice] with the laws [BlockDeviceLaws]; [fat32_driver] discharges
      [PartitionDriver].

    - [Bytes] holds little and big endian fields of byte lists; [Packet] models
      the headers of src/core/network/network.h and the checksums.
    - [Inet] models src/core/network/af_inet/af_inet.h and the descriptor rings
      of src/core/network/e1000.h: socket and listen tables, ports, routes,
      address resolution, sending of IPv4 packets.  [Tcp] models tcp.h and
      udp.h of the same directory and the packet handlers, timers and the
      network thread built on them.
    - [Ide] models src/core/driver/ide.h over a disk controller behind ports and
      discharges [BlockDevice]; [Pci] models src/libs/pci/pci.h, the search for
      the network card and the memory map of src/libs/grub/grub.h.
    - [Descr] models the descriptor calls of src/core/syscall/syscall1.h, the
      pipes of syscall2.h and the special names of
      src/core/filesytem/special_file.h; the backends of read and write are the
      class [FileBackends].
    - [ProcCalls] models the process calls of src/core/syscall/syscall2.h: fork
      with the copy of the page tables, exit, mmap, brk, signals.

    - [Screen] models src/core/vga.h and src/core/gui/: the text screen, the
      numbers printed on it and the frame buffers; [Term] models
      src/core/input/: scan codes, the event ring, terminals, mouse.
    - [Clock] models the clock calls of src/core/syscall/syscall3.h over the
      clock of [Time]; [SockCalls] the socket calls of the same file over the
      tables of [Inet] and of [Uds], which models local sockets
      (src/core/network/af_unix/).
    - [Elf] models src/core/elf/loader.h and execve; [Wide] models
      src/core/exe/common.h (UTF-8 and UTF-16, counted strings, module lists)
      and [Pe] the loader of Windows programs, src/core/exe/loader.h.
    - [ProcFs] models the contents of special files
      (src/core/filesytem/special_file.h); [Dispatch] models the system call
      table of src/core/syscall/syscall.h and the calls of syscall4.h.
    - [Boot] models the driver and device tables of src/core/driver/driver.h,
      the registration of disk driver and file system, the first process and
      [kernel_main] of src/kernel.c, which composes the other files; [Nic]
      models the set-up of the network card (src/core/network/e1000.h) over the
      configuration space of [Pci] and the tables of [Inet]; [FileCalls] the
      remaining calls on paths, descriptors and terminals of syscall1.h and
      syscall2.h.

    - The library a Windows program runs with, src/core/exe/ninja/ntdll/, works
      on the memory of the program.  The system call instruction, the code of
      other modules, the base of gs and the addresses of literals are the class
      [UserMachine] of [NinjaLib], which models libs.h, errorno.h and the
      strings and module lists of ntdll_libs.h.  [NtImport] models relocation,
      export search and the binding of imports of ntdll_libs.h, [NtLoad] models
      tls.h: loading of libraries with what they import, thread storage.  [Seh]
      models seh.h (exception tables and unwinding), [Crt] models crt.h (command
      line, heap, start of the program) and [NtStart] models ninja_dll.c with
      [LdrInitializeThunk].

    ** How the code is translated

    State is passed explicitly: byte memory for the libraries, [kstate] for the
    kernel, the disk for the file systems.  A call ends in [Done] with a result
    and a state, in [Panicked] when it calls panic, in [Faulted] when it uses a
    null or wild pointer or an uninitialised buffer, and in [Stuck] when a loop
    is out of fuel.  Pointers to structures are addresses into a heap of
    structures where the code aliases them ([processes_info_ptr]), and table
    keys where it does not ([threads_info_ptr]).  An index past the end of the
    memory map is the byte of physical memory that far behind the map, so a wild
    index changes page tables; the structures that are components of their own
    (the thread and process tables, the memory of a program, the disk) are not
    reached by such a stray write.  The arrays to which the routines of [Vfs],
    [Descr] and [ProcFs] copy paths and their components without a bound have the
    size they have in the code, and an overrun is [Faulted].  Reads of the clock
    during a call, the interrupted stack and the saved FPU area are arguments
    ([frame]).  Calls that give the processor up are modelled up to that point.

    ** What the theorems show

    - Scheduling: one core per running thread over every entry (a thread that
      gives the processor up while marked running is left on no core), round-robin
      choice, bounded waiting, deadlines of sleeping threads, suspension of a
      signalled process.
    - Memory: first-fit allocation of different blocks outside the kernel,
      mapping of one page with the tree kept well formed, isolation of address
      spaces, lowest free virtual region, what unmapping releases and what it
      does not.
    - Threads and processes: the full effect of registration and of ending.
    - Files: the allocation table and the data area behave as two arrays;
      chains are extended and freed exactly; reads return the bytes of the
      chain; writes change the bytes they cover; lookup names agree with stored
      names; paths go to the longest matching mount.
    - Devices: the IDE driver is the block device the file system assumes; the
      search of the PCI bus.
    - Network: checksums verify and headers round trip; the longest route is
      chosen; a packet sent is one well-formed frame in the ring of the card;
      socket creation keeps the tables well formed; every TCP segment is an edge
      of the abstract state machine; received bytes are queued in order; how
      much one write sends.
    - System calls: pipes deliver what was written, brk and mmap map exactly
      their pages, fork copies the address space and the caller; which number
      reaches which call; the text of the status file of a process; for which
      sockets binding is exclusive; what opening a path decides; the clock round
      trip.
    - Loaders: the bytes of segments and sections are placed exactly, the initial stack has
      its layout, relocation adds the distance, exports are redirected, modules
      join their lists, UTF-8 and UTF-16 convert back and forth.
    - Windows libraries: imports and forwarded imports get the addresses of the
      functions the libraries export, up to the first name that is missing, loaded modules and images are found, the
      halves of the code that the kernel and the program share agree, thread
      data are installed.
    - Start: the tables after the registration of disk and file system, the
      interrupt gates, the transmit ring of the network card.
    - Terminal and screen: a key reaches the queue of the terminal, a line read
      delivers the keys before Enter, the cursor stays on the screen, rows of a
      picture go to the rows of the screen.
    - Local sockets: datagrams reach the first socket bound to the path; what
      connect and accept do to the backlog.
    - Libraries: the rings refine queues, printing and parsing of numbers round
      trip, string routines against lists of characters, day numbers against
      the calendar, clock registers round trip.
    - Behaviour that differs from the intent is stated as it is:
      [fat32_write_never_extends], [delete_file_does_nothing],
      [unlink_leaks_chain], [stat_ignores_extension],
      [register_a_thread_corrupts_table], [sys_close_wipes_table],
      [sys_pipe_one_descriptor], [sys_open_special_names],
      [sys_kill_ends_caller], [tty_delivers_one_line],
      [single_connection_is_lost], [execve_ends_caller],
      [relocation_backwards], [proc_fd_ignores_number], [list_proc_faults],
      [syscall_table_reach], [library_half_relocated],
      [rewind_mirrors_registers], [chained_unwind_never_ends],
      [split_yields_no_arguments], [malloc_runs_into_process_heap],
      [start_needs_msvcrt], [missing_forward_binds_header],
      [increase_paging_of_process_never_returns] and others.

    ** Bounds and fuel

    Table scans run over the constants of the code.  Loops without such a bound
    take fuel, and the theorems say how much is enough: the length of a string,
    the number of pages of the lower half, the number of imports of an image,
    the length of a cluster chain plus one, and [loop_bound] rounds for file
    transfers, which need no argument.
    The volume of the FAT32 theorems has 512-byte sectors and the eight sectors
    per cluster the code assumes.

    ** Not modelled

    - Assembly: the context switch, the switches of cr3, cli and sti, the stubs
      of interrupts and system calls, the final jump of an exception.  A call of
      such code is where a modelled operation ends.
    - [get_ipv4], [register_ipv4], [register_lo], [handle_syscall_interrupt] and
      [handle_slepping_threads]: they read or write a table of pointers under
      the type of what it points to, or an address that is a block number, and
      the tables here are not bytes.  The first three have no caller; the last
      writes only a local copy.
    - The commented-out DHCP client, the drafts of src/futurecode.c and the test
      programs. *)

From Stdlib Require Export ZArith Lia.
From stdpp Require Export base gmap list numbers.

Open Scope Z_scope.

(** ** Machine integers

    A w-bit unsigned value is a [Z] in [0 .. 2^w); every arithmetic operation
    whose C type is w bits wide is followed by the wrap of that width. *)
Definition u8 (x : Z) : Z := x mod 2 ^ 8.
Definition u16 (x : Z) : Z := x mod 2 ^ 16.
Definition u32 (x : Z) : Z := x mod 2 ^ 32.
Definition u64 (x : Z) : Z := x mod 2 ^ 64.

(** Two's complement reading of a w-bit pattern. *)
Definition sgn (w x : Z) : Z :=
  let y := x mod 2 ^ w in if y <? 2 ^ (w - 1) then y else y - 2 ^ w.
Definition s8 (x : Z) : Z := sgn 8 x.
Definition s32 (x : Z) : Z := sgn 32 x.
Definition s64 (x : Z) : Z := sgn 64 x.

(** A negative constant returned through an unsigned 64-bit type. *)
Definition neg64 (e : Z) : Z := u64 (- e).

Create HintDb carrot discriminated.

Section Wrap.
Lemma u8_range x : 0 <= u8 x < 256.
Proof. apply Z.mod_pos_bound; lia. Qed.
Lemma u16_range x : 0 <= u16 x < 65536.
Proof. apply Z.mod_pos_bound; lia. Qed.
Lemma u32_range x : 0 <= u32 x < 4294967296.
Proof. apply Z.mod_pos_bound; lia. Qed.
Lemma u64_range x : 0 <= u64 x < 2 ^ 64.
Proof. apply Z.mod_pos_bound; lia. Qed.
Lemma u8_id x : 0 <= x < 256 -> u8 x = x.
Proof. intros; apply Z.mod_small; lia. Qed.
Lemma u16_id x : 0 <= x < 65536 -> u16 x = x.
Proof. intros; apply Z.mod_small; lia. Qed.
Lemma u32_id x : 0 <= x < 4294967296 -> u32 x = x.
Proof. intros; apply Z.mod_small; lia. Qed.
Lemma u64_id x : 0 <= x < 2 ^ 64 -> u64 x = x.
Proof. intros; apply Z.mod_small; lia. Qed.
Lemma s64_id x : - 2 ^ 63 <= x < 2 ^ 63 -> s64 x = x.
Proof.
  intros. unfold s64, sgn. change (64 - 1) with 63.
  destruct (Z.ltb_spec (x mod 2 ^ 64) (2 ^ 63));
    Z.to_euclidean_division_equations; lia.
Qed.
Lemma s32_id x : - 2 ^ 31 <= x < 2 ^ 31 -> s32 x = x.
Proof.
  intros. unfold s32, sgn. change (32 - 1) with 31.
  destruct (Z.ltb_spec (x mod 2 ^ 32) (2 ^ 31));
    Z.to_euclidean_division_equations; lia.
Qed.
Lemma s8_id x : 0 <= x < 128 -> s8 x = x.
Proof.
  intros. unfold s8, sgn. rewrite Z.mod_small by lia.
  change (2 ^ (8 - 1)) with 128. destruct (Z.ltb_spec x 128); lia.
Qed.
Lemma land_le a b : 0 <= a -> 0 <= b -> Z.land a b <= a.
Proof.
  intros Ha Hb. rewrite <- (Z2N.id a), <- (Z2N.id b), <- N2Z.inj_land by done.
  apply N2Z.inj_le, N.land_le_l.
Qed.
End Wrap.
#[export] Hint Resolve u8_range u16_range u32_range u64_range : carrot.

(** Turns boolean integer tests into propositions, in the goal and the context. *)
Ltac zbool :=
  repeat match goal with
  | H : (_ =? _) = true |- _ => apply Z.eqb_eq in H
  | H : (_ =? _) = false |- _ => apply Z.eqb_neq in H
  | H : (_ <? _) = true |- _ => apply Z.ltb_lt in H
  | H : (_ <? _) = false |- _ => apply Z.ltb_ge in H
  | H : (_ <=? _) = true |- _ => apply Z.leb_le in H
  | H : (_ <=? _) = false |- _ => apply Z.leb_gt in H
  | H : negb _ = true |- _ => apply negb_true_iff in H
  | H : negb _ = false |- _ => apply negb_false_iff in H
  | H : _ && _ = true |- _ => apply andb_true_iff in H as [? ?]
  | H : _ || _ = false |- _ => apply orb_false_iff in H as [? ?]
  | |- (_ =? _) = true => apply Z.eqb_eq
  | |- (_ =? _) = false => apply Z.eqb_neq
  | |- (_ <? _) = true => apply Z.ltb_lt
  | |- (_ <? _) = false => apply Z.ltb_ge
  | |- (_ <=? _) = true => apply Z.leb_le
  | |- (_ <=? _) = false => apply Z.leb_gt
  | |- negb _ = true => apply negb_true_iff
  end.

(** Case split on the first boolean integer test found in the goal. *)
Ltac ztest :=
  match goal with
  | |- context [?a =? ?b] => destruct (Z.eqb_spec a b)
  | |- context [?a <? ?b] => destruct (Z.ltb_spec a b)
  | |- context [?a <=? ?b] => destruct (Z.leb_spec a b)
  end.

(** ** Outcomes and the state monad

    [Panicked]: [panic] was called, the core halts for ever.  [Faulted]: an
    access through a null or wild pointer, outside every modelled object.
    [Stuck]: a loop of the code did not end within the given fuel. *)
Inductive outcome (A : Type) : Type :=
| Done (a : A)
| Panicked
| Faulted
| Stuck.
Arguments Done {A} a.
Arguments Panicked {A}.
Arguments Faulted {A}.
Arguments Stuck {A}.

Definition ST (S A : Type) : Type := S -> outcome (A * S).

Section StateMonad.
Context {S : Type}.
#[global] Instance st_ret : MRet (ST S) := fun A a s => Done (a, s).
#[global] Instance st_bind : MBind (ST S) := fun A B k c s =>
  match c s with
  | Done (a, s') => k a s'
  | Panicked => Panicked
  | Faulted => Faulted
  | Stuck => Stuck
  end.

Definition gets {A} (f : S -> A) : ST S A := fun s => Done (f s, s).
Definition modify (f : S -> S) : ST S unit := fun s => Done (tt, f s).
Definition panic {A} : ST S A := fun _ => Panicked.
Definition fault {A} : ST S A := fun _ => Faulted.
(** Dereference: [None] is a pointer to no object. *)
Definition deref {A} (o : option A) : ST S A :=
  match o with Some a => mret a | None => fault end.
Definition when (b : bool) (c : ST S unit) : ST S unit :=
  if b then c else mret tt.

(** [for (i = lo; i < lo + n; i++) body(i)] *)
Fixpoint for_m (n : nat) (i : Z) (body : Z -> ST S unit) : ST S unit :=
  match n with
  | O => mret tt
  | Datatypes.S n' => body i ≫= fun _ => for_m n' (i + 1) body
  end.

(** The same loop with an early exit carrying a value. *)
Fixpoint loop_m {A} (n : nat) (i : Z) (body : Z -> ST S (option A)) : ST S (option A) :=
  match n with
  | O => mret None
  | Datatypes.S n' =>
      body i ≫= fun r =>
      match r with Some a => mret (Some a) | None => loop_m n' (i + 1) body end
  end.

Lemma bind_done {A B} (c : ST S A) (k : A -> ST S B) s a s' :
  c s = Done (a, s') -> (c ≫= k) s = k a s'.
Proof. unfold mbind, st_bind. by intros ->. Qed.

Lemma bind_done_inv {A B} (c : ST S A) (k : A -> ST S B) s b s' :
  (c ≫= k) s = Done (b, s') -> exists a s1, c s = Done (a, s1) /\ k a s1 = Done (b, s').
Proof.
  unfold mbind, st_bind. destruct (c s) as [[a s1]| | |]; try discriminate. eauto.
Qed.

(** Running a program one statement at a time. *)
Lemma gets_bind {A B} (f : S -> A) (k : A -> ST S B) s : (gets f ≫= k) s = k (f s) s.
Proof. reflexivity. Qed.
Lemma modify_bind {B} (f : S -> S) (k : unit -> ST S B) s : (modify f ≫= k) s = k tt (f s).
Proof. reflexivity. Qed.
Lemma mret_bind {A B} (a : A) (k : A -> ST S B) s : (mret a ≫= k) s = k a s.
Proof. reflexivity. Qed.
Lemma deref_bind {A B} (f : S -> option A) (k : A -> ST S B) s :
  ((gets f ≫= deref) ≫= k) s = match f s with Some a => k a s | None => Faulted end.
Proof. unfold mbind, st_bind, gets, deref. by destruct (f s). Qed.

Lemma for_m_inv (I : Z -> S -> Prop) n i body s :
  I i s ->
  (forall j s0, i <= j < i + Z.of_nat n -> I j s0 ->
     exists s1, body j s0 = Done (tt, s1) /\ I (j + 1) s1) ->
  exists s', for_m n i body s = Done (tt, s') /\ I (i + Z.of_nat n) s'.
Proof.
  revert i s. induction n as [|n IH]; intros i s HI Hstep; cbn [for_m].
  - exists s. rewrite Z.add_0_r. split; [reflexivity|done].
  - destruct (Hstep i s ltac:(lia) HI) as (s1 & E & HI1).
    destruct (IH (i + 1) s1 HI1) as (s' & E' & HI').
    { intros j s0 Hj HIj. apply Hstep; [lia|done]. }
    exists s'. rewrite (bind_done _ _ _ _ _ E). split; [done|].
    replace (i + Z.of_nat (Datatypes.S n)) with (i + 1 + Z.of_nat n) by lia. done.
Qed.
End StateMonad.

(** A relation between the states before and after, kept by a computation. *)
Definition pres {S A : Type} (R : S -> S -> Prop) (c : ST S A) : Prop := forall s a s', c s = Done (a, s') -> R s s'.
Create HintDb pres discriminated.
#[export] Hint Constants Opaque : pres.
Section Pres.
Context {S : Type} (R : S -> S -> Prop) `{!PreOrder R}.
Lemma pres_bind {A B} (c : ST S A) (f : A -> ST S B) : pres R c -> (forall a, pres R (f a)) -> pres R (c ≫= f).
Proof.
  intros Hc Hf s b s' E. apply bind_done_inv in E as (a & s1 & E1 & E2). transitivity s1; [by eapply Hc|by eapply Hf].
Qed.
Lemma pres_ret {A} (a : A) : pres R (mret a).
Proof. intros s x s' [= <- <-]. reflexivity. Qed.
Lemma pres_gets {A} (f : S -> A) : pres R (gets f).
Proof. intros s x s' [= <- <-]. reflexivity. Qed.
Lemma pres_modify f : (forall s, R s (f s)) -> pres R (modify f).
Proof. intros Hf s x s' [= <- <-]. apply Hf. Qed.
Lemma pres_fault {A} : pres R (fault (A := A)).
Proof. intros s a s'. discriminate. Qed.
Lemma pres_deref {A} (o : option A) : pres R (deref o).
Proof. destruct o; [apply pres_ret|apply pres_fault]. Qed.
Lemma pres_for n i (body : Z -> ST S unit) : (forall j, pres R (body j)) -> pres R (for_m n i body).
Proof.
  intros Hb. revert i. induction n as [|n IH]; intros i; cbn [for_m]; [apply pres_ret|].
  apply pres_bind; [apply Hb|intros; apply IH].
Qed.
Lemma pres_when b (c : ST S unit) : pres R c -> pres R (when b c).
Proof. destruct b; [done|intros; apply pres_ret]. Qed.
End Pres.
(** Follows the structure of a program; the leaves are in the database. *)
Ltac pres_step :=
  lazymatch goal with
  | |- pres _ (mbind _ _) => apply pres_bind; [exact _| |intros ?]
  | |- pres _ (mret _) => apply pres_ret; exact _
  | |- pres _ (gets _) => apply pres_gets; exact _
  | |- pres _ fault => apply pres_fault
  | |- pres _ (deref _) => apply pres_deref; exact _
  | |- pres _ (when _ _) => apply pres_when; [exact _|]
  | |- pres _ (for_m _ _ _) => apply pres_for; [exact _|intros ?]
  | |- pres _ (if _ then _ else _) => case_match
  | |- pres _ (match _ with _ => _ end) => case_match
  | |- pres _ (let _ := _ in _) => cbv zeta
  | |- pres _ _ => solve [eauto with pres | apply pres_modify; intros ?; reflexivity]
  end.
Ltac pres_auto := repeat pres_step.

(** Runs the monad on a state that is a variable. *)
Ltac run_st := cbv [mbind st_bind mret st_ret gets modify deref when fault panic]; cbn.

(** ** Bounded search

    The first index of [i, i + n) that satisfies [p]: the shape of every
    table scan of the kernel. *)
Fixpoint find_idx (n : nat) (i : Z) (p : Z -> bool) : option Z :=
  match n with
  | O => None
  | S n' => if p i then Some i else find_idx n' (i + 1) p
  end.

Section FindIdx.
Lemma find_idx_Some n i p j :
  find_idx n i p = Some j <->
  i <= j < i + Z.of_nat n /\ p j = true /\ (forall k, i <= k < j -> p k = false).
Proof.
  revert i. induction n as [|n IH]; intros i; cbn [find_idx].
  - split; [discriminate|lia].
  - destruct (p i) eqn:Hi.
    + split.
      * intros [= ->]. repeat split; try lia; done.
      * intros (Hr & Hp & Hl). f_equal.
        destruct (Z.eq_dec i j); [done|]. rewrite Hl in Hi by lia. discriminate.
    + rewrite IH. split.
      * intros (Hr & Hp & Hl). repeat split; try lia; try done.
        intros k Hk. destruct (Z.eq_dec k i) as [->|]; [done|]. apply Hl; lia.
      * intros (Hr & Hp & Hl).
        destruct (Z.eq_dec i j) as [->|]; [congruence|].
        repeat split; try lia; try done. intros k Hk. apply Hl; lia.
Qed.

Lemma find_idx_None n i p :
  find_idx n i p = None <-> (forall k, i <= k < i + Z.of_nat n -> p k = false).
Proof.
  revert i. induction n as [|n IH]; intros i; cbn [find_idx].
  - split; [intros _ k Hk; lia|done].
  - destruct (p i) eqn:Hi.
    + split; [discriminate|]. intros H. rewrite H in Hi by lia. discriminate.
    + rewrite IH. split; intros H k Hk.
      * destruct (Z.eq_dec k i) as [->|]; [done|]. apply H; lia.
      * apply H; lia.
Qed.

Lemma find_idx_ext n i p q :
  (forall k, i <= k < i + Z.of_nat n -> p k = q k) -> find_idx n i p = find_idx n i q.
Proof.
  revert i. induction n as [|n IH]; intros i H; cbn [find_idx]; [done|].
  rewrite (H i) by lia. rewrite (IH (i + 1)); [done|]. intros; apply H; lia.
Qed.
End FindIdx.

(** ** Byte-addressed memory

    Addresses are integers, cells hold bytes.  The finite map holds the cells
    of interest; every theorem quantifies over all of them, so the value of
    the remaining cells is immaterial. *)
Abbreviation mem := (gmap Z Z).
Definition ld (m : mem) (a : Z) : Z := default 0 (m !! a).
Definition st (m : mem) (a v : Z) : mem := <[a := v]> m.

Section Mem.
Lemma ld_st_eq m a v : ld (st m a v) a = v.
Proof. unfold ld, st. by rewrite lookup_insert_eq. Qed.
Lemma ld_st_ne m a b v : a <> b -> ld (st m a v) b = ld m b.
Proof. intros. unfold ld, st. by rewrite lookup_insert_ne. Qed.
Lemma ld_st m a b v : ld (st m a v) b = if b =? a then v else ld m b.
Proof. destruct (Z.eqb_spec b a) as [->|]; [apply ld_st_eq|by apply ld_st_ne]. Qed.
End Mem.
Create Rewrite HintDb carrot_ld.
#[export] Hint Rewrite ld_st_eq : carrot_ld.
#[export] Hint Rewrite ld_st_ne using lia : carrot_ld.

(** The [n] cells from [a] on, as a list. *)
Fixpoint cells (m : mem) (a : Z) (n : nat) : list Z :=
  match n with
  | O => []
  | S n' => ld m a :: cells m (a + 1) n'
  end.

Section Cells.
Lemma length_cells m a n : length (cells m a n) = n.
Proof. revert a; induction n; intros; cbn; [done|by rewrite IHn]. Qed.
Lemma lookup_cells m a n i :
  (i < n)%nat -> cells m a n !! i = Some (ld m (a + Z.of_nat i)).
Proof.
  revert a i. induction n as [|n IH]; intros a i Hi; [lia|].
  destruct i as [|i]; cbn [cells lookup list_lookup].
  - by rewrite Z.add_0_r.
  - rewrite IH by lia. do 2 f_equal. lia.
Qed.
Lemma cells_ext m m' a n :
  (forall i, a <= i < a + Z.of_nat n -> ld m i = ld m' i) -> cells m a n = cells m' a n.
Proof.
  revert a. induction n as [|n IH]; intros a H; cbn [cells]; [done|].
  rewrite (H a) by lia. f_equal. apply IH. intros; apply H; lia.
Qed.
Lemma cells_app m a n k : cells m a (n + k) = cells m a n ++ cells m (a + Z.of_nat n) k.
Proof.
  revert a. induction n as [|n IH]; intros a; cbn [cells Nat.add app].
  - by rewrite Z.add_0_r.
  - rewrite IH. do 3 f_equal. lia.
Qed.
Lemma cells_take m a n k : (k <= n)%nat -> cells m a k = take k (cells m a n).
Proof.
  intros Hk. replace n with (k + (n - k))%nat by lia. rewrite cells_app, take_app_le by (rewrite length_cells; lia).
  symmetry. apply take_ge. rewrite length_cells. lia.
Qed.
Lemma cells_eq_inv m m' a b n i :
  cells m a n = cells m' b n -> 0 <= i < Z.of_nat n -> ld m (a + i) = ld m' (b + i).
Proof.
  intros H Hi. apply (f_equal (fun l => l !! Z.to_nat i)) in H.
  rewrite !lookup_cells in H by lia. rewrite Z2Nat.id in H by lia. by injection H.
Qed.
End Cells.
