(* ===== verification/Bytes.v ===== *)
(** * Bytes: buffers as lists of bytes

    A local array of the code is the list of its bytes; fields are read and
    written at byte offsets, least significant byte first as the processor
    stores them. *)
From S2P Require Import Prelude.
Open Scope Z_scope.

(** ** Access *)
Definition byte (s : list Z) (i : Z) : Z := default 0 (s !! Z.to_nat i).
Definition le16 (s : list Z) (i : Z) : Z := byte s i + 256 * byte s (i + 1).
Definition le32 (s : list Z) (i : Z) : Z := le16 s i + 65536 * le16 s (i + 2).
(** The bytes [l] copied over [s] from [i] on. *)
Definition put (s : list Z) (i : Z) (l : list Z) : list Z :=
  take (Z.to_nat i) s ++ l ++ drop (Z.to_nat i + length l) s.
Definition slice (s : list Z) (i n : Z) : list Z := take (Z.to_nat n) (drop (Z.to_nat i) s).
Definition le_bytes16 (v : Z) : list Z := [v mod 256; v / 256 mod 256].
Definition le_bytes32 (v : Z) : list Z := le_bytes16 v ++ le_bytes16 (v / 65536).

(** The bytes [l] stored from [a] on. *)
Fixpoint store_bytes (m : mem) (a : Z) (l : list Z) : mem :=
  match l with [] => m | b :: r => store_bytes (st m a b) (a + 1) r end.

(** ** Lemmas *)
Section Buffers.
Lemma length_put s i l :
  0 <= i -> i + Z.of_nat (length l) <= Z.of_nat (length s) -> length (put s i l) = length s.
Proof. intros. unfold put. rewrite !length_app, length_take, length_drop. lia. Qed.

Lemma lookup_put s i l (j : nat) :
  0 <= i -> i + Z.of_nat (length l) <= Z.of_nat (length s) ->
  put s i l !! j =
    if decide (i <= Z.of_nat j < i + Z.of_nat (length l)) then l !! (j - Z.to_nat i)%nat else s !! j.
Proof.
  intros Hi Hl. unfold put.
  assert (Ht : length (take (Z.to_nat i) s) = Z.to_nat i) by (rewrite length_take; lia).
  destruct (decide (Z.of_nat j < i)).
  - rewrite lookup_app_l by lia. rewrite lookup_take_lt by lia. rewrite decide_False by lia. done.
  - rewrite lookup_app_r by lia. rewrite Ht. case_decide.
    + by rewrite lookup_app_l by lia.
    + rewrite lookup_app_r by lia. rewrite lookup_drop. f_equal. lia.
Qed.

Lemma byte_put s i l j :
  0 <= i -> i + Z.of_nat (length l) <= Z.of_nat (length s) -> 0 <= j ->
  byte (put s i l) j = if decide (i <= j < i + Z.of_nat (length l)) then byte l (j - i) else byte s j.
Proof.
  intros. unfold byte. rewrite lookup_put by done. repeat case_decide; try lia; try done.
  do 2 f_equal. lia.
Qed.

Lemma le_bytes32_value v : 0 <= v < 2 ^ 32 -> le32 (le_bytes32 v) 0 = v.
Proof.
  intros. unfold le32, le16, byte, le_bytes32, le_bytes16.
  change (Z.to_nat (0 + 2 + 1)) with 3%nat. change (Z.to_nat (0 + 2)) with 2%nat.
  change (Z.to_nat (0 + 1)) with 1%nat. change (Z.to_nat 0) with 0%nat. cbn.
  replace (v / 65536) with (v / 256 / 256) by (rewrite Z.div_div by lia; done).
  assert (0 <= v / 256 / 256 / 256 < 256).
  { rewrite !Z.div_div by lia. split; [apply Z.div_pos; lia|apply Z.div_lt_upper_bound; lia]. }
  rewrite (Z.mod_small (v / 256 / 256 / 256)) by done.
  pose proof (Z.div_mod v 256). pose proof (Z.div_mod (v / 256) 256).
  pose proof (Z.div_mod (v / 256 / 256) 256). lia.
Qed.
Lemma le_bytes32_range v : Forall (fun b => 0 <= b < 256) (le_bytes32 v).
Proof. repeat constructor; apply Z.mod_pos_bound; lia. Qed.

Lemma le32_put s i v j :
  0 <= i -> i + 4 <= Z.of_nat (length s) -> 0 <= v < 2 ^ 32 -> 0 <= j -> (j = i \/ j + 4 <= i \/ i + 4 <= j) ->
  le32 (put s i (le_bytes32 v)) j = if decide (j = i) then v else le32 s j.
Proof.
  intros Hi Hs Hv Hj Hd. unfold le32, le16.
  rewrite !byte_put by (cbn; lia). change (Z.of_nat (length (le_bytes32 v))) with 4.
  repeat case_decide; try lia. subst j.
  replace (i + 1 - i) with 1 by lia. replace (i + 2 - i) with 2 by lia.
  replace (i + 2 + 1 - i) with 3 by lia. rewrite Z.sub_diag.
  rewrite <- (le_bytes32_value v) at 5 by done. reflexivity.
Qed.

Lemma put_Forall {P : Z -> Prop} s i l : Forall P s -> Forall P l -> Forall P (put s i l).
Proof.
  intros Hs Hl. unfold put. apply Forall_app. split; [by apply Forall_take|].
  apply Forall_app. split; [done|by apply Forall_drop].
Qed.
Lemma lor_shiftl a b k : 0 <= k -> 0 <= b < 2 ^ k -> Z.lor (Z.shiftl a k) b = a * 2 ^ k + b.
Proof.
  intros Hk Hb. assert (L : Z.land (Z.shiftl a k) b = 0).
  { apply Z.bits_inj'. intros n Hn. rewrite Z.land_spec, Z.bits_0, Z.shiftl_spec by done.
    destruct (Z.ltb_spec n k); [by rewrite Z.testbit_neg_r by lia|].
    rewrite <- (Z.mod_small b (2 ^ k)) by lia. rewrite Z.mod_pow2_bits_high by lia. apply andb_false_r. }
  rewrite <- Z.lxor_lor, <- Z.add_nocarry_lxor by done. by rewrite Z.shiftl_mul_pow2 by lia.
Qed.
Lemma lor_shift8 a b : 0 <= b < 256 -> Z.lor (Z.shiftl a 8) b = 256 * a + b.
Proof. intros. rewrite lor_shiftl by lia. lia. Qed.
Lemma store_bytes_ld l : forall m a x,
  ld (store_bytes m a l) x =
    if (a <=? x) && (x <? a + Z.of_nat (length l)) then byte l (x - a) else ld m x.
Proof.
  induction l as [|b r IH]; intros m a x; cbn [store_bytes length].
  - destruct (Z.leb_spec a x), (Z.ltb_spec x (a + Z.of_nat 0)); try lia; done.
  - rewrite IH, ld_st. destruct (Z.leb_spec (a + 1) x), (Z.leb_spec a x), (Z.eqb_spec x a),
      (Z.ltb_spec x (a + 1 + Z.of_nat (length r))), (Z.ltb_spec x (a + Z.of_nat (S (length r)))); try lia; cbn [andb]; try done.
    + unfold byte. replace (Z.to_nat (x - a)) with (S (Z.to_nat (x - (a + 1)))) by lia. done.
    + subst. unfold byte. by rewrite Z.sub_diag.
Qed.
Lemma cells_bytes f l a : (forall i, 0 <= i < Z.of_nat (length l) -> ld f (a + i) = byte l i) -> cells f a (length l) = l.
Proof.
  revert a. induction l as [|b r IH]; intros a H; cbn [cells length]; [done|]. f_equal.
  - rewrite <- (Z.add_0_r a), H by (cbn; lia). done.
  - apply IH. intros i Hi. rewrite <- Z.add_assoc, H by (cbn; lia). unfold byte.
    replace (Z.to_nat (1 + i)) with (S (Z.to_nat i)) by lia. done.
Qed.
Lemma cells_store m a l : cells (store_bytes m a l) a (length l) = l.
Proof.
  apply cells_bytes. intros i Hi. rewrite store_bytes_ld.
  destruct (Z.leb_spec a (a + i)), (Z.ltb_spec (a + i) (a + Z.of_nat (length l))); try lia. cbn.
  f_equal. lia.
Qed.
Lemma concat_slices (l : list Z) (k : Z) (n : nat) (i : Z) :
  0 <= k -> 0 <= i -> Z.of_nat (length l) = (i + Z.of_nat n) * k ->
  concat (map (fun i => slice l (i * k) k) (seqZ i (Z.of_nat n))) = drop (Z.to_nat (i * k)) l.
Proof.
  intros Hk. revert i. induction n as [|n IH]; intros i Hi Hl.
  - cbn. symmetry. apply drop_ge. lia.
  - rewrite seqZ_cons by lia. cbn [map concat]. replace (Z.pred (Z.of_nat (S n))) with (Z.of_nat n) by lia.
    rewrite IH by lia. unfold slice. rewrite <- (take_drop (Z.to_nat k) (drop (Z.to_nat (i * k)) l)) at 2.
    f_equal. rewrite drop_drop. f_equal. nia.
Qed.
End Buffers.
