(* ===== verification/MemLib.v ===== *)
(** * MemLib: the memory library, src/libs/mem/mem.h

    Every routine of the file over byte-addressed memory: comparison, copy and
    fill, the four pairs of ring-buffer routines, block erasure and the
    byte-order conversions.  A pointer is an address; [head] and [tail], which
    the code passes by reference, are threaded as values. *)
From S2P Require Import Prelude.
Open Scope Z_scope.

(** ** Comparison, copy, fill *)

(** [memcmp]: the difference of the first two bytes that differ, 0 if none. *)
Fixpoint memcmp_loop (n : nat) (m : mem) (p1 p2 i : Z) : Z :=
  match n with
  | O => 0
  | S n' =>
      if negb (ld m (p1 + i) =? ld m (p2 + i)) then ld m (p1 + i) - ld m (p2 + i)
      else memcmp_loop n' m p1 p2 (i + 1)
  end.
Definition memcmp (m : mem) (s1 s2 n : Z) : Z := memcmp_loop (Z.to_nat n) m s1 s2 0.

(** [memcpy]: byte by byte, upwards. *)
Fixpoint memcpy_loop (n : nat) (m : mem) (dest src i : Z) : mem :=
  match n with
  | O => m
  | S n' => memcpy_loop n' (st m (dest + i) (ld m (src + i))) dest src (i + 1)
  end.
Definition memcpy (m : mem) (dest src size : Z) : mem :=
  memcpy_loop (Z.to_nat size) m dest src 0.
Definition memcpy1 (m : mem) (dest_addr src_addr size : Z) : mem :=
  memcpy m dest_addr src_addr size.

Fixpoint memset_loop (n : nat) (m : mem) (p c : Z) : mem :=
  match n with
  | O => m
  | S n' => memset_loop n' (st m p (u8 c)) (p + 1) c
  end.
Definition memset (m : mem) (s c n : Z) : mem := memset_loop (Z.to_nat n) m s c.

Fixpoint erase_mem8_loop (n : nat) (m : mem) (map_int i : Z) : mem :=
  match n with
  | O => m
  | S n' => erase_mem8_loop n' (st m (map_int + i) 0) map_int (i + 1)
  end.
Definition erase_mem8 (m : mem) (map_addr len : Z) : mem :=
  erase_mem8_loop (Z.to_nat len) m map_addr 0.

(** A store of a little-endian [k]-byte value. *)
Fixpoint st_le (k : nat) (m : mem) (a v : Z) : mem :=
  match k with
  | O => m
  | S k' => st_le k' (st m a (u8 v)) (a + 1) (Z.shiftr v 8)
  end.
Fixpoint ld_le (k : nat) (m : mem) (a : Z) : Z :=
  match k with
  | O => 0
  | S k' => ld m a + 256 * ld_le k' m (a + 1)
  end.

Fixpoint erase_mem64_loop (n : nat) (m : mem) (map_int i : Z) : mem :=
  match n with
  | O => m
  | S n' => erase_mem64_loop n' (st_le 8 m (map_int + i * 8) 0) map_int (i + 1)
  end.
Definition erase_mem64 (m : mem) (map_addr len : Z) : mem :=
  erase_mem64_loop (Z.to_nat len) m map_addr 0.

(** ** Ring buffers

    Each loop returns the memory, the index it advanced and the number of
    units moved. *)
Fixpoint fifo_read8_loop (n : nat) (m : mem) (buf tail head buf_size out i out_size : Z)
  : mem * Z * Z :=
  match n with
  | O => (m, tail, out_size)
  | S n' =>
      if tail =? head then (m, tail, out_size)
      else fifo_read8_loop n' (st m (out + i) (ld m (buf + tail))) buf
             (u64 (tail + 1) mod buf_size) head buf_size out (i + 1) (u64 (out_size + 1))
  end.
Definition fifo_read8 (m : mem) (buf tail head buf_size len out : Z) : mem * Z * Z :=
  fifo_read8_loop (Z.to_nat len) m buf tail head buf_size out 0 0.

Fixpoint fifo_write8_loop (n : nat) (m : mem) (buf tail head buf_size inp i in_size : Z)
  : mem * Z * Z :=
  match n with
  | O => (m, head, in_size)
  | S n' =>
      if tail =? u64 (head + 1) mod buf_size then (m, head, in_size)
      else fifo_write8_loop n' (st m (buf + head) (ld m (inp + i))) buf tail
             (u64 (head + 1) mod buf_size) buf_size inp (i + 1) (u64 (in_size + 1))
  end.
Definition fifo_write8 (m : mem) (buf tail head buf_size len inp : Z) : mem * Z * Z :=
  fifo_write8_loop (Z.to_nat len) m buf tail head buf_size inp 0 0.

(** The 16-bit versions: the buffers are arrays of [uint16_t]. *)
Definition ld16 (m : mem) (p i : Z) : Z := ld_le 2 m (p + 2 * i).
Definition st16 (m : mem) (p i v : Z) : mem := st_le 2 m (p + 2 * i) v.

Fixpoint fifo_read16_loop (n : nat) (m : mem) (buf tail head buf_size out i out_size : Z)
  : mem * Z * Z :=
  match n with
  | O => (m, tail, out_size)
  | S n' =>
      if tail =? head then (m, tail, out_size)
      else fifo_read16_loop n' (st16 m out i (ld16 m buf tail)) buf
             (u64 (tail + 1) mod buf_size) head buf_size out (i + 1) (u64 (out_size + 1))
  end.
Definition fifo_read16 (m : mem) (buf tail head buf_size len out : Z) : mem * Z * Z :=
  fifo_read16_loop (Z.to_nat len) m buf tail head buf_size out 0 0.

Fixpoint fifo_write16_loop (n : nat) (m : mem) (buf tail head buf_size inp i in_size : Z)
  : mem * Z * Z :=
  match n with
  | O => (m, head, in_size)
  | S n' =>
      if tail =? u64 (head + 1) mod buf_size then (m, head, in_size)
      else fifo_write16_loop n' (st16 m buf head (ld16 m inp i)) buf tail
             (u64 (head + 1) mod buf_size) buf_size inp (i + 1) (u64 (in_size + 1))
  end.
Definition fifo_write16 (m : mem) (buf tail head buf_size len inp : Z) : mem * Z * Z :=
  fifo_write16_loop (Z.to_nat len) m buf tail head buf_size inp 0 0.

(** The 24-bit versions: three bytes per unit, moved by [memcpy]. *)
Fixpoint fifo_read24_loop (n : nat) (m : mem) (buf tail head buf_size out i out_size : Z)
  : mem * Z * Z :=
  match n with
  | O => (m, tail, out_size)
  | S n' =>
      if tail =? head then (m, tail, out_size)
      else fifo_read24_loop n' (memcpy m (out + i * 3) (buf + tail * 3) 3) buf
             (u64 (tail + 1) mod buf_size) head buf_size out (i + 1) (u64 (out_size + 1))
  end.
Definition fifo_read24 (m : mem) (buf tail head buf_size len out : Z) : mem * Z * Z :=
  fifo_read24_loop (Z.to_nat len) m buf tail head buf_size out 0 0.

Fixpoint fifo_write24_loop (n : nat) (m : mem) (buf tail head buf_size inp i in_size : Z)
  : mem * Z * Z :=
  match n with
  | O => (m, head, in_size)
  | S n' =>
      if tail =? u64 (head + 1) mod buf_size then (m, head, in_size)
      else fifo_write24_loop n' (memcpy m (buf + head * 3) (inp + i * 3) 3) buf tail
             (u64 (head + 1) mod buf_size) buf_size inp (i + 1) (u64 (in_size + 1))
  end.
Definition fifo_write24 (m : mem) (buf tail head buf_size len inp : Z) : mem * Z * Z :=
  fifo_write24_loop (Z.to_nat len) m buf tail head buf_size inp 0 0.

(** The general versions, [unit_bytes_size] bytes per unit. *)
Fixpoint fifo_read_with_size_loop
    (n : nat) (m : mem) (buf tail head cnt out usz i read_units : Z) : mem * Z * Z :=
  match n with
  | O => (m, tail, read_units)
  | S n' =>
      if tail =? head then (m, tail, read_units)
      else fifo_read_with_size_loop n' (memcpy m (out + i * usz) (buf + tail * usz) usz) buf
             (u64 (tail + 1) mod cnt) head cnt out usz (i + 1) (u64 (read_units + 1))
  end.
Definition fifo_read_with_size
    (m : mem) (buf tail head buf_units_count copy_units_count out unit_bytes_size : Z)
  : mem * Z * Z :=
  fifo_read_with_size_loop (Z.to_nat copy_units_count) m buf tail head
    buf_units_count out unit_bytes_size 0 0.

Fixpoint fifo_write_with_size_loop
    (n : nat) (m : mem) (buf tail head cnt inp usz i written_units : Z) : mem * Z * Z :=
  match n with
  | O => (m, head, written_units)
  | S n' =>
      let next_head := u64 (head + 1) mod cnt in
      if next_head =? tail then (m, head, written_units)
      else fifo_write_with_size_loop n' (memcpy m (buf + head * usz) (inp + i * usz) usz) buf
             tail next_head cnt inp usz (i + 1) (u64 (written_units + 1))
  end.
Definition fifo_write_with_size
    (m : mem) (buf tail head buf_units_count copy_units_count inp unit_bytes_size : Z)
  : mem * Z * Z :=
  fifo_write_with_size_loop (Z.to_nat copy_units_count) m buf tail head
    buf_units_count inp unit_bytes_size 0 0.

(** ** Byte order *)
Definition htons (x : Z) : Z := u16 (Z.lor (Z.shiftl x 8) (Z.shiftr x 8)).
Definition htonl (x : Z) : Z :=
  Z.lor (Z.lor (Z.lor (u32 (Z.shiftl (Z.land x 0x000000FF) 24))
                      (u32 (Z.shiftl (Z.land x 0x0000FF00) 8)))
               (Z.shiftr (Z.land x 0x00FF0000) 8))
        (Z.shiftr (Z.land x 0xFF000000) 24).
Definition ntohs (x : Z) : Z := htons x.
Definition ntohl (x : Z) : Z := htonl x.

(** ** Copy and fill: functional behaviour *)
Section CopyFill.
Lemma memcpy_loop_ld n m dest src i x :
  (dest <= src \/ src + i + Z.of_nat n <= dest + i) ->
  ld (memcpy_loop n m dest src i) x =
  if (dest + i <=? x) && (x <? dest + i + Z.of_nat n) then ld m (src + (x - dest)) else ld m x.
Proof.
  revert m i. induction n as [|n IH]; intros m i Hd; cbn [memcpy_loop].
  - repeat ztest; cbn; try lia; done.
  - rewrite IH by lia. rewrite !ld_st.
    repeat (ztest; cbn [andb]); try lia; try done; f_equal; lia.
Qed.

Lemma memcpy_ld m dest src n x :
  0 <= n -> (dest <= src \/ src + n <= dest) ->
  ld (memcpy m dest src n) x =
  if (dest <=? x) && (x <? dest + n) then ld m (src + (x - dest)) else ld m x.
Proof.
  intros Hn Hd. unfold memcpy. rewrite memcpy_loop_ld by lia.
  rewrite Z2Nat.id, Z.add_0_r by lia. done.
Qed.

Lemma memset_loop_ld n m p c x :
  ld (memset_loop n m p c) x =
  if (p <=? x) && (x <? p + Z.of_nat n) then u8 c else ld m x.
Proof.
  revert m p. induction n as [|n IH]; intros m p; cbn [memset_loop].
  - repeat ztest; cbn; try lia; done.
  - rewrite IH, ld_st. repeat (ztest; cbn [andb]); try lia; done.
Qed.

Lemma memset_ld m p c n x :
  0 <= n -> ld (memset m p c n) x = if (p <=? x) && (x <? p + n) then u8 c else ld m x.
Proof. intros. unfold memset. rewrite memset_loop_ld, Z2Nat.id by lia. done. Qed.

Lemma erase_mem8_loop_ld n m p i x :
  ld (erase_mem8_loop n m p i) x =
  if (p + i <=? x) && (x <? p + i + Z.of_nat n) then 0 else ld m x.
Proof.
  revert m i. induction n as [|n IH]; intros m i; cbn [erase_mem8_loop].
  - repeat ztest; cbn; try lia; done.
  - rewrite IH, ld_st. repeat (ztest; cbn [andb]); try lia; done.
Qed.

Lemma erase_mem8_ld m p n x :
  0 <= n -> ld (erase_mem8 m p n) x = if (p <=? x) && (x <? p + n) then 0 else ld m x.
Proof.
  intros. unfold erase_mem8. rewrite erase_mem8_loop_ld, Z.add_0_r, Z2Nat.id by lia. done.
Qed.

Lemma st_le_ld k m a v x :
  ld (st_le k m a v) x =
  if (a <=? x) && (x <? a + Z.of_nat k) then u8 (Z.shiftr v (8 * (x - a))) else ld m x.
Proof.
  revert m a v. induction k as [|k IH]; intros m a v; cbn [st_le].
  - repeat ztest; cbn; try lia; done.
  - rewrite IH, ld_st. repeat (ztest; cbn [andb]); try lia; try done.
    + subst. replace (8 * (a - a)) with 0 by lia. by rewrite Z.shiftr_0_r.
    + rewrite Z.shiftr_shiftr by lia. do 2 f_equal. lia.
Qed.

Lemma ld_le_cells k m m' a b : cells m a k = cells m' b k -> ld_le k m a = ld_le k m' b.
Proof.
  revert a b. induction k as [|k IH]; intros a b H; cbn [ld_le cells] in *; [done|].
  injection H as -> H. by rewrite (IH _ _ H).
Qed.
Lemma ld_le_st_le k m a v : 0 <= v < 256 ^ Z.of_nat k -> ld_le k (st_le k m a v) a = v.
Proof.
  revert m a v. induction k as [|k IH]; intros m a v Hv; cbn [ld_le st_le].
  - cbn in Hv. lia.
  - rewrite Nat2Z.inj_succ, Z.pow_succ_r in Hv by lia. rewrite Z.shiftr_div_pow2 by lia. change (2 ^ 8) with 256.
    rewrite IH by (Z.to_euclidean_division_equations; nia). rewrite st_le_ld.
    destruct (Z.leb_spec (a + 1) a); [lia|]. cbn [andb]. rewrite ld_st_eq. unfold u8. change (2 ^ 8) with 256.
    pose proof (Z.div_mod v 256 ltac:(lia)). lia.
Qed.

Lemma erase_mem64_loop_ld n m p i x :
  ld (erase_mem64_loop n m p i) x =
  if (p + i * 8 <=? x) && (x <? p + i * 8 + 8 * Z.of_nat n) then 0 else ld m x.
Proof.
  revert m i. induction n as [|n IH]; intros m i; cbn [erase_mem64_loop].
  - repeat ztest; cbn; try lia; done.
  - rewrite IH, st_le_ld, Z.shiftr_0_l. change (u8 0) with 0.
    repeat (ztest; cbn [andb]); try lia; done.
Qed.

Lemma memcmp_loop_eq n m p1 p2 i :
  memcmp_loop n m p1 p2 i = 0 <->
  (forall k, i <= k < i + Z.of_nat n -> ld m (p1 + k) = ld m (p2 + k)).
Proof.
  revert i. induction n as [|n IH]; intros i; cbn [memcmp_loop].
  - split; [intros _ k Hk; lia|done].
  - destruct (Z.eqb_spec (ld m (p1 + i)) (ld m (p2 + i))); cbn [negb].
    + rewrite IH. split; intros H k Hk.
      * destruct (Z.eq_dec k i) as [->|]; [done|]. apply H; lia.
      * apply H; lia.
    + split; [lia|]. intros H. specialize (H i ltac:(lia)). contradiction.
Qed.

Lemma cells_memcpy m dest src n :
  (dest <= src \/ src + n <= dest) -> 0 <= n ->
  cells (memcpy m dest src n) dest (Z.to_nat n) = cells m src (Z.to_nat n).
Proof.
  intros Hd Hn. apply list_eq. intros i.
  destruct (decide (i < Z.to_nat n)%nat) as [Hi|Hi].
  - rewrite !lookup_cells by lia. f_equal. rewrite memcpy_ld by lia.
    repeat (ztest; cbn [andb]); try lia. f_equal. lia.
  - rewrite !lookup_ge_None_2 by (rewrite length_cells; lia). done.
Qed.
End CopyFill.

(** Reads and writes elsewhere. *)
Section Frames.
Lemma st_le_ld_ne k m a w x : (x < a \/ a + Z.of_nat k <= x) -> ld (st_le k m a w) x = ld m x.
Proof. intros Hx. rewrite st_le_ld. repeat (ztest; cbn [andb]); lia || done. Qed.
Lemma ld_le_frame n m m' a :
  (forall x, a <= x < a + Z.of_nat n -> ld m' x = ld m x) -> ld_le n m' a = ld_le n m a.
Proof. intros Hx. apply ld_le_cells, cells_ext. exact Hx. Qed.
Lemma ld_le_st_le_ne n j m a b v :
  (a + Z.of_nat n <= b \/ b + Z.of_nat j <= a) -> ld_le n (st_le j m b v) a = ld_le n m a.
Proof. intros Hd. apply ld_le_frame. intros x Hx. apply st_le_ld_ne. lia. Qed.
Lemma erase_mem8_ne m a n x : 0 <= n -> (x < a \/ a + n <= x) -> ld (erase_mem8 m a n) x = ld m x.
Proof. intros Hn H. rewrite erase_mem8_ld by lia. repeat (ztest; cbn [andb]); lia || done. Qed.
Lemma memcpy_ne m d p n x : 0 <= n -> d <= p \/ p + n <= d -> (x < d \/ d + n <= x) -> ld (memcpy m d p n) x = ld m x.
Proof. intros Hn Hd H. rewrite memcpy_ld by lia. repeat (ztest; cbn [andb]); lia || done. Qed.
Lemma ld_le_st8 m a v : 0 <= v < 2 ^ 64 -> ld_le 8 (st_le 8 m a v) a = v.
Proof. intros H. apply ld_le_st_le. exact H. Qed.
End Frames.

(** ** Ring buffers refine a bounded queue

    [ring] reads the queue a buffer represents: the units from [tail] up to,
    not including, [head], modulo the number of units.  One unit always stays
    empty, so the capacity is [cnt - 1]. *)
Fixpoint ring_from (k : nat) (m : mem) (buf usz cnt pos : Z) : list (list Z) :=
  match k with
  | O => []
  | S k' => cells m (buf + pos * usz) (Z.to_nat usz)
            :: ring_from k' m buf usz cnt ((pos + 1) mod cnt)
  end.
Definition ring_len (tail head cnt : Z) : Z := (head - tail) mod cnt.
Definition ring (m : mem) (buf usz cnt tail head : Z) : list (list Z) :=
  ring_from (Z.to_nat (ring_len tail head cnt)) m buf usz cnt tail.

(** The units of an ordinary array, from unit [i] on. *)
Fixpoint units (k : nat) (m : mem) (p usz i : Z) : list (list Z) :=
  match k with
  | O => []
  | S k' => cells m (p + i * usz) (Z.to_nat usz) :: units k' m p usz (i + 1)
  end.

Section Modular.
Lemma mod_succ_small x n : 0 <= x < n -> (x + 1) mod n = if x + 1 =? n then 0 else x + 1.
Proof.
  intros. ztest; [subst; apply Z.mod_same; lia|apply Z.mod_small; lia].
Qed.
Lemma mod_add_inj t j k n :
  0 <= j < n -> 0 <= k < n -> (t + j) mod n = (t + k) mod n -> j = k.
Proof.
  intros Hj Hk E. pose proof (Z.div_mod (t + j) n ltac:(lia)).
  pose proof (Z.div_mod (t + k) n ltac:(lia)).
  destruct (Z.lt_trichotomy ((t + j) / n) ((t + k) / n)) as [?|[?|?]]; nia.
Qed.
Lemma ring_len_range tail head n : 0 < n -> 0 <= ring_len tail head n < n.
Proof. intros. apply Z.mod_pos_bound. lia. Qed.
Lemma ring_len_head tail head n :
  0 < n -> 0 <= head < n -> (tail + ring_len tail head n) mod n = head.
Proof.
  intros. unfold ring_len. rewrite Z.add_mod_idemp_r by lia.
  replace (tail + (head - tail)) with head by lia. apply Z.mod_small; lia.
Qed.
Lemma ring_len_write tail head n :
  0 < n -> 0 <= tail < n -> 0 <= head < n -> (head + 1) mod n <> tail ->
  ring_len tail ((head + 1) mod n) n = ring_len tail head n + 1.
Proof.
  intros Hn Ht Hh Hne. unfold ring_len.
  rewrite (mod_succ_small head n) in * by lia.
  destruct (Z.eqb_spec (head + 1) n).
  - replace (0 - tail) with (n - tail + (-1) * n) by lia. rewrite Z.mod_add by lia.
    rewrite !Z.mod_small by lia. lia.
  - destruct (Z.le_gt_cases tail head).
    + rewrite !Z.mod_small by lia. lia.
    + replace (head + 1 - tail) with (head + 1 - tail + n + (-1) * n) by lia.
      replace (head - tail) with (head - tail + n + (-1) * n) by lia.
      rewrite !Z.mod_add by lia. rewrite !Z.mod_small by lia. lia.
Qed.
Lemma ring_len_read tail head n :
  0 < n -> 0 <= tail < n -> 0 <= head < n -> tail <> head ->
  ring_len tail head n = ring_len ((tail + 1) mod n) head n + 1.
Proof.
  intros Hn Ht Hh Hne. unfold ring_len.
  rewrite Zminus_mod_idemp_r.
  destruct (Z.le_gt_cases tail head).
  - rewrite !Z.mod_small by lia. lia.
  - replace (head - (tail + 1)) with (head - tail - 1 + n + (-1) * n) by lia.
    replace (head - tail) with (head - tail + n + (-1) * n) at 1 by lia.
    rewrite !Z.mod_add by lia. rewrite !Z.mod_small by lia. lia.
Qed.
Lemma ring_len_full tail head n :
  0 < n -> 0 <= tail < n -> 0 <= head < n ->
  (head + 1) mod n = tail <-> ring_len tail head n = n - 1.
Proof.
  intros Hn Ht Hh. unfold ring_len. rewrite mod_succ_small by lia.
  destruct (Z.le_gt_cases tail head).
  - rewrite (Z.mod_small (head - tail)) by lia. ztest; lia.
  - replace (head - tail) with (head - tail + n + (-1) * n) by lia.
    rewrite Z.mod_add, Z.mod_small by lia. ztest; lia.
Qed.
Lemma ring_len_empty tail head n :
  0 < n -> 0 <= tail < n -> 0 <= head < n -> tail = head <-> ring_len tail head n = 0.
Proof.
  intros Hn Ht Hh. unfold ring_len. split; [intros ->; rewrite Z.sub_diag; apply Z.mod_0_l; lia|].
  intros E. pose proof (Z.div_mod (head - tail) n ltac:(lia)).
  destruct (Z.lt_trichotomy ((head - tail) / n) 0) as [?|[?|?]]; nia.
Qed.
End Modular.

Section RingLemmas.
Context (buf usz cnt : Z) (Hu : 0 < usz) (Hc : 0 < cnt).

Lemma length_ring_from k m pos : length (ring_from k m buf usz cnt pos) = k.
Proof. revert pos; induction k; intros; cbn; [done|by rewrite IHk]. Qed.

Lemma length_ring m tail head :
  Z.of_nat (length (ring m buf usz cnt tail head)) = ring_len tail head cnt.
Proof.
  unfold ring. rewrite length_ring_from. pose proof (ring_len_range tail head cnt Hc). lia.
Qed.

(** Two memories that agree on the [k] units from [pos] on hold the same queue. *)
Lemma ring_from_ext k m m' pos :
  0 <= pos < cnt ->
  (forall j, 0 <= j < Z.of_nat k ->
     cells m (buf + ((pos + j) mod cnt) * usz) (Z.to_nat usz) =
     cells m' (buf + ((pos + j) mod cnt) * usz) (Z.to_nat usz)) ->
  ring_from k m buf usz cnt pos = ring_from k m' buf usz cnt pos.
Proof.
  revert pos. induction k as [|k IH]; intros pos Hp H; cbn [ring_from]; [done|].
  f_equal.
  - specialize (H 0 ltac:(lia)). rewrite Z.add_0_r, Z.mod_small in H by lia. done.
  - apply IH; [apply Z.mod_pos_bound; lia|]. intros j Hj.
    specialize (H (j + 1) ltac:(lia)).
    rewrite Z.add_mod_idemp_l by lia. replace (pos + 1 + j) with (pos + (j + 1)) by lia. done.
Qed.

Lemma ring_from_snoc k m pos :
  0 <= pos < cnt ->
  ring_from (S k) m buf usz cnt pos =
  ring_from k m buf usz cnt pos
    ++ [cells m (buf + ((pos + Z.of_nat k) mod cnt) * usz) (Z.to_nat usz)].
Proof.
  revert pos. induction k as [|k IH]; intros pos Hp.
  - cbn. rewrite Z.add_0_r, Z.mod_small by lia. done.
  - cbn [ring_from app]. f_equal.
    change (cells m (buf + (pos + 1) mod cnt * usz) (Z.to_nat usz)
            :: ring_from k m buf usz cnt (((pos + 1) mod cnt + 1) mod cnt))
      with (ring_from (S k) m buf usz cnt ((pos + 1) mod cnt)).
    rewrite IH by (apply Z.mod_pos_bound; lia).
    rewrite Z.add_mod_idemp_l by lia.
    replace (pos + 1 + Z.of_nat k) with (pos + Z.of_nat (S k)) by lia. done.
Qed.

Lemma unit_disjoint a b x :
  0 <= a < cnt -> 0 <= b < cnt -> a <> b ->
  buf + b * usz <= x < buf + b * usz + usz ->
  x < buf + a * usz \/ buf + a * usz + usz <= x.
Proof. nia. Qed.

(** Storing one unit at [head] appends it to the queue. *)
Lemma ring_push m tail head src :
  0 <= tail < cnt -> 0 <= head < cnt -> (head + 1) mod cnt <> tail ->
  (buf + cnt * usz <= src \/ src + usz <= buf) ->
  ring (memcpy m (buf + head * usz) src usz) buf usz cnt tail ((head + 1) mod cnt)
  = ring m buf usz cnt tail head ++ [cells m src (Z.to_nat usz)].
Proof.
  intros Ht Hh Hne Hdis. set (m' := memcpy m _ _ _).
  pose proof (ring_len_range tail head cnt Hc) as HL.
  unfold ring. rewrite ring_len_write by done.
  replace (Z.to_nat (ring_len tail head cnt + 1))
    with (S (Z.to_nat (ring_len tail head cnt))) by lia.
  rewrite ring_from_snoc by done. rewrite Z2Nat.id by lia.
  rewrite ring_len_head by lia.
  assert (Hcopy : forall x, ld m' x =
    if (buf + head * usz <=? x) && (x <? buf + head * usz + usz)
    then ld m (src + (x - (buf + head * usz))) else ld m x).
  { intros x. apply memcpy_ld; [lia|]. destruct Hdis; [left|right]; nia. }
  f_equal.
  - apply ring_from_ext; [done|]. intros j Hj. rewrite Z2Nat.id in Hj by lia.
    apply cells_ext. intros x Hx. rewrite Z2Nat.id in Hx by lia. rewrite Hcopy.
    pose proof (unit_disjoint head ((tail + j) mod cnt) x Hh
                  (Z.mod_pos_bound _ _ Hc)) as Hd.
    assert (head <> (tail + j) mod cnt) as Hneq.
    { intros E. rewrite <- (ring_len_head tail head cnt Hc Hh) in E at 1.
      apply mod_add_inj in E; lia. }
    specialize (Hd Hneq Hx). repeat (ztest; cbn [andb]); try lia; done.
  - f_equal. subst m'. apply cells_memcpy; [destruct Hdis; [left|right]; nia|lia].
Qed.

Lemma ring_pop m tail head :
  0 <= tail < cnt -> 0 <= head < cnt -> tail <> head ->
  ring m buf usz cnt tail head
  = cells m (buf + tail * usz) (Z.to_nat usz) :: ring m buf usz cnt ((tail + 1) mod cnt) head.
Proof.
  intros Ht Hh Hne. unfold ring. rewrite (ring_len_read tail head) by done.
  pose proof (ring_len_range ((tail + 1) mod cnt) head cnt Hc).
  replace (Z.to_nat (ring_len ((tail + 1) mod cnt) head cnt + 1))
    with (S (Z.to_nat (ring_len ((tail + 1) mod cnt) head cnt))) by lia. done.
Qed.

(** A memory change outside the buffer leaves the queue alone. *)
Lemma ring_frame m m' tail head :
  0 <= tail < cnt ->
  (forall x, buf <= x < buf + cnt * usz -> ld m x = ld m' x) ->
  ring m buf usz cnt tail head = ring m' buf usz cnt tail head.
Proof.
  intros Ht H. apply ring_from_ext; [done|]. intros j Hj. apply cells_ext.
  intros x Hx. apply H. pose proof (Z.mod_pos_bound (tail + j) cnt Hc). nia.
Qed.

Lemma units_ext k m m' p i :
  (forall x, p + i * usz <= x < p + (i + Z.of_nat k) * usz -> ld m x = ld m' x) ->
  units k m p usz i = units k m' p usz i.
Proof.
  revert i. induction k as [|k IH]; intros i H; cbn [units]; [done|]. f_equal.
  - apply cells_ext. intros x Hx. apply H. nia.
  - apply IH. intros x Hx. apply H. nia.
Qed.
End RingLemmas.

Section RingLoops.
Context (buf usz cnt : Z) (Hu : 0 < usz) (Hc : 0 < cnt < 2 ^ 64).

Lemma u64_succ_mod x : 0 <= x < cnt -> u64 (x + 1) mod cnt = (x + 1) mod cnt.
Proof. intros. rewrite u64_id by lia. done. Qed.

Lemma fifo_write_loop_spec n m tail head inp i w :
  0 <= tail < cnt -> 0 <= head < cnt -> 0 <= w -> w + Z.of_nat n < 2 ^ 64 ->
  (buf + cnt * usz <= inp + i * usz \/ inp + (i + Z.of_nat n) * usz <= buf) ->
  exists m' head' k,
    fifo_write_with_size_loop n m buf tail head cnt inp usz i w = (m', head', w + Z.of_nat k) /\
    Z.of_nat k = Z.min (Z.of_nat n) (cnt - 1 - ring_len tail head cnt) /\
    0 <= head' < cnt /\
    ring m' buf usz cnt tail head' = ring m buf usz cnt tail head ++ units k m inp usz i /\
    (forall x, ~ (buf <= x < buf + cnt * usz) -> ld m' x = ld m x).
Proof.
  revert m head i w. induction n as [|n IH]; intros m head i w Ht Hh Hw Hwn Hdis;
    cbn [fifo_write_with_size_loop].
  - exists m, head, O. pose proof (ring_len_range tail head cnt). cbn [units].
    rewrite app_nil_r. repeat split; try lia; try done. by rewrite Z.add_0_r.
  - rewrite u64_succ_mod by done. cbv zeta.
    destruct (Z.eqb_spec ((head + 1) mod cnt) tail) as [Hfull|Hfull].
    + apply ring_len_full in Hfull; try lia.
      exists m, head, O. cbn [units]. rewrite app_nil_r, Z.add_0_r.
      repeat split; try lia; done.
    + set (m1 := memcpy m (buf + head * usz) (inp + i * usz) usz).
      destruct (IH m1 ((head + 1) mod cnt) (i + 1) (u64 (w + 1))) as
        (m' & head' & k & E & Hk & Hh' & HR & HF); try (rewrite ?u64_id by lia; lia).
      { apply Z.mod_pos_bound; lia. }
      assert (Hm1 : forall x, ~ (buf <= x < buf + cnt * usz) -> ld m1 x = ld m x).
      { intros x Hx. unfold m1. rewrite memcpy_ld by nia.
        repeat (ztest; cbn [andb]); try done. nia. }
      exists m', head', (S k).
      pose proof (ring_len_range tail head cnt). rewrite ring_len_write in Hk by lia.
      assert (ring_len tail head cnt <> cnt - 1)
        by (rewrite <- ring_len_full by lia; done).
      rewrite E, u64_id by lia. repeat split; try lia.
      * f_equal. lia.
      * rewrite HR. unfold m1 at 1. rewrite ring_push by (try lia; nia).
        rewrite <- app_assoc. cbn [app units]. do 2 f_equal.
        apply units_ext; [lia|]. intros x Hx. apply Hm1. nia.
      * intros x Hx. rewrite HF, Hm1; done.
Qed.

Lemma fifo_read_loop_spec n m tail head out i w :
  0 <= tail < cnt -> 0 <= head < cnt -> 0 <= w -> w + Z.of_nat n < 2 ^ 64 ->
  (buf + cnt * usz <= out + i * usz \/ out + (i + Z.of_nat n) * usz <= buf) ->
  exists m' tail' k,
    fifo_read_with_size_loop n m buf tail head cnt out usz i w = (m', tail', w + Z.of_nat k) /\
    Z.of_nat k = Z.min (Z.of_nat n) (ring_len tail head cnt) /\
    0 <= tail' < cnt /\
    ring m buf usz cnt tail head = units k m' out usz i ++ ring m' buf usz cnt tail' head /\
    (forall x, ~ (out + i * usz <= x < out + (i + Z.of_nat n) * usz) -> ld m' x = ld m x).
Proof.
  revert m tail i w. induction n as [|n IH]; intros m tail i w Ht Hh Hw Hwn Hdis;
    cbn [fifo_read_with_size_loop].
  - exists m, tail, O. pose proof (ring_len_range tail head cnt). cbn [units app].
    repeat split; try lia; try done. by rewrite Z.add_0_r.
  - rewrite u64_succ_mod by done.
    destruct (Z.eqb_spec tail head) as [Hemp|Hemp].
    + pose proof (proj1 (ring_len_empty tail head cnt ltac:(lia) Ht Hh) Hemp).
      exists m, tail, O. cbn [units app]. rewrite Z.add_0_r. repeat split; try lia; done.
    + set (m1 := memcpy m (out + i * usz) (buf + tail * usz) usz).
      destruct (IH m1 ((tail + 1) mod cnt) (i + 1) (u64 (w + 1))) as
        (m' & tail' & k & E & Hk & Ht' & HR & HF); try (rewrite ?u64_id by lia; lia).
      { apply Z.mod_pos_bound; lia. }
      assert (Hm1 : forall x, ld m1 x =
        if (out + i * usz <=? x) && (x <? out + i * usz + usz)
        then ld m (buf + tail * usz + (x - (out + i * usz))) else ld m x).
      { intros x. unfold m1. rewrite memcpy_ld by nia. done. }
      exists m', tail', (S k).
      pose proof (ring_len_read tail head cnt ltac:(lia) Ht Hh Hemp).
      rewrite E, u64_id by lia. repeat split; try lia.
      * f_equal. lia.
      * rewrite ring_pop by (try lia; done). cbn [units app]. f_equal.
        -- transitivity (cells m1 (out + i * usz) (Z.to_nat usz)).
           ++ unfold m1. symmetry. apply cells_memcpy; nia.
           ++ apply cells_ext. intros x Hx. symmetry. apply HF. nia.
        -- rewrite <- HR. apply ring_frame; try lia.
           ++ apply Z.mod_pos_bound; lia.
           ++ intros x Hx. rewrite Hm1. repeat (ztest; cbn [andb]); try done. nia.
      * intros x Hx. rewrite HF by nia. rewrite Hm1.
        repeat (ztest; cbn [andb]); try done. nia.
Qed.
End RingLoops.

(** ** The fixed-width routines are instances of the general ones *)
Section Instances.
Lemma memcpy_one m d s : memcpy m d s 1 = st m d (ld m s).
Proof. unfold memcpy. change (Z.to_nat 1) with 1%nat. cbn [memcpy_loop]. by rewrite !Z.add_0_r. Qed.

Lemma fifo_read8_loop_eq n m buf tail head sz out i w :
  fifo_read8_loop n m buf tail head sz out i w =
  fifo_read_with_size_loop n m buf tail head sz out 1 i w.
Proof.
  revert m tail i w. induction n as [|n IH]; intros; cbn [fifo_read8_loop fifo_read_with_size_loop];
    [done|]. rewrite memcpy_one, !Z.mul_1_r, IH. done.
Qed.
Lemma fifo_write8_loop_eq n m buf tail head sz inp i w :
  fifo_write8_loop n m buf tail head sz inp i w =
  fifo_write_with_size_loop n m buf tail head sz inp 1 i w.
Proof.
  revert m head i w. induction n as [|n IH]; intros; cbn [fifo_write8_loop fifo_write_with_size_loop];
    [done|]. rewrite memcpy_one, !Z.mul_1_r, IH, (Z.eqb_sym tail). done.
Qed.
Lemma fifo_read24_loop_eq n m buf tail head sz out i w :
  fifo_read24_loop n m buf tail head sz out i w =
  fifo_read_with_size_loop n m buf tail head sz out 3 i w.
Proof.
  revert m tail i w. induction n as [|n IH]; intros; cbn [fifo_read24_loop fifo_read_with_size_loop];
    [done|]. by rewrite IH.
Qed.
Lemma fifo_write24_loop_eq n m buf tail head sz inp i w :
  fifo_write24_loop n m buf tail head sz inp i w =
  fifo_write_with_size_loop n m buf tail head sz inp 3 i w.
Proof.
  revert m head i w. induction n as [|n IH]; intros; cbn [fifo_write24_loop fifo_write_with_size_loop];
    [done|]. by rewrite IH, (Z.eqb_sym tail).
Qed.
End Instances.

(** ** Byte order by bits *)
Section ByteOrder.
Lemma testbit_ext_below w x y :
  0 <= w -> 0 <= x < 2 ^ w -> 0 <= y < 2 ^ w ->
  (forall n, 0 <= n < w -> Z.testbit x n = Z.testbit y n) -> x = y.
Proof.
  intros Hw Hx Hy H. apply Z.bits_inj'. intros n Hn.
  destruct (Z.lt_ge_cases n w); [apply H; lia|].
  rewrite <- (Z.mod_small x (2 ^ w)), <- (Z.mod_small y (2 ^ w)) by done.
  by rewrite !Z.mod_pow2_bits_high by lia.
Qed.

Lemma u32_testbit x n : 0 <= n -> Z.testbit (u32 x) n = (n <? 32) && Z.testbit x n.
Proof.
  intros. unfold u32. ztest; cbn [andb];
    [by rewrite Z.mod_pow2_bits_low by lia|by rewrite Z.mod_pow2_bits_high by lia].
Qed.
Lemma u16_testbit x n : 0 <= n -> Z.testbit (u16 x) n = (n <? 16) && Z.testbit x n.
Proof.
  intros. unfold u16. ztest; cbn [andb];
    [by rewrite Z.mod_pow2_bits_low by lia|by rewrite Z.mod_pow2_bits_high by lia].
Qed.

(** Which bit of the argument each bit of the result is. *)
Lemma htons_testbit x n :
  0 <= x < 65536 -> 0 <= n < 16 ->
  Z.testbit (htons x) n = Z.testbit x (if n <? 8 then n + 8 else n - 8).
Proof.
  intros Hx Hn. unfold htons. rewrite u16_testbit, Z.lor_spec, Z.shiftl_spec, Z.shiftr_spec by lia.
  destruct (Z.ltb_spec n 16); [cbn [andb]|lia].
  destruct (Z.ltb_spec n 8).
  - by rewrite (Z.testbit_neg_r _ (n - 8)) by lia.
  - assert (Z.testbit x (n + 8) = false) as ->.
    { rewrite <- (Z.mod_small x (2 ^ 16)) by lia. apply Z.mod_pow2_bits_high. lia. }
    by rewrite orb_false_r.
Qed.

Lemma ones8_testbit k n :
  0 <= k -> 0 <= n -> Z.testbit (Z.shiftl (Z.ones 8) k) n = (k <=? n) && (n <? k + 8).
Proof.
  intros. rewrite Z.shiftl_spec, Z.testbit_ones by lia. repeat ztest; cbn; lia.
Qed.

Lemma htonl_testbit x n :
  0 <= n < 32 ->
  Z.testbit (htonl x) n =
  Z.testbit x (if n <? 8 then n + 24 else if n <? 16 then n + 8
               else if n <? 24 then n - 8 else n - 24).
Proof.
  intros Hn. unfold htonl.
  change 0x000000FF with (Z.shiftl (Z.ones 8) 0). change 0x0000FF00 with (Z.shiftl (Z.ones 8) 8).
  change 0x00FF0000 with (Z.shiftl (Z.ones 8) 16). change 0xFF000000 with (Z.shiftl (Z.ones 8) 24).
  rewrite !Z.lor_spec, !u32_testbit, !Z.shiftl_spec, !Z.shiftr_spec by lia.
  rewrite !Z.land_spec.
  assert (Hneg : forall y k, k < 0 -> Z.testbit y k && Z.testbit (Z.shiftl (Z.ones 8) 0) k = false).
  { intros. rewrite Z.testbit_neg_r by lia. done. }
  destruct (Z.ltb_spec n 32); [cbn [andb]|lia].
  destruct (Z.ltb_spec n 8); [|destruct (Z.ltb_spec n 16); [|destruct (Z.ltb_spec n 24)]];
    rewrite ?(Z.testbit_neg_r _ (n - 24)), ?(Z.testbit_neg_r _ (n - 8)) by lia;
    rewrite ?ones8_testbit by lia;
    repeat (ztest; try lia); cbn [andb orb];
    rewrite ?andb_false_r, ?andb_true_r, ?orb_false_r; done.
Qed.

Lemma lor_bound w a b : 0 <= w -> 0 <= a < 2 ^ w -> 0 <= b < 2 ^ w -> 0 <= Z.lor a b < 2 ^ w.
Proof.
  intros Hw Ha Hb.
  rewrite <- (Z.mod_small a (2 ^ w)), <- (Z.mod_small b (2 ^ w)) by done.
  rewrite <- !Z.land_ones, <- Z.land_lor_distr_l, Z.land_ones by lia.
  apply Z.mod_pos_bound. lia.
Qed.

Lemma land_shiftr_bound x k j : 0 <= k -> 0 <= j <= k ->
  0 <= Z.shiftr (Z.land x (Z.shiftl (Z.ones 8) k)) j < 2 ^ (k - j + 8).
Proof.
  intros Hk Hj. rewrite Z.shiftr_land.
  replace (Z.shiftr (Z.shiftl (Z.ones 8) k) j) with (Z.shiftl (Z.ones 8) (k - j))
    by (symmetry; apply Z.shiftr_shiftl_l; lia).
  replace (Z.land (Z.shiftr x j) (Z.shiftl (Z.ones 8) (k - j)))
    with (Z.land (Z.land (Z.shiftr x j) (Z.shiftl (Z.ones 8) (k - j))) (Z.ones (k - j + 8))).
  - rewrite Z.land_ones by lia. apply Z.mod_pos_bound. lia.
  - apply Z.bits_inj'. intros n Hn. rewrite !Z.land_spec, ones8_testbit, Z.testbit_ones by lia.
    destruct (Z.testbit (Z.shiftr x j) n); cbn [andb]; repeat ztest; cbn; lia.
Qed.

Lemma htonl_range x : 0 <= htonl x < 2 ^ 32.
Proof.
  unfold htonl. repeat apply lor_bound; try lia; try apply u32_range.
  - change 0x00FF0000 with (Z.shiftl (Z.ones 8) 16).
    pose proof (land_shiftr_bound x 16 8 ltac:(lia) ltac:(lia)). change (16 - 8 + 8) with 16 in *. lia.
  - change 0xFF000000 with (Z.shiftl (Z.ones 8) 24).
    pose proof (land_shiftr_bound x 24 24 ltac:(lia) ltac:(lia)). change (24 - 24 + 8) with 8 in *. lia.
Qed.
End ByteOrder.

(** Every cell holds a byte. *)
Definition bytes_ok (m : mem) : Prop := forall x, 0 <= ld m x < 256.

Section Sixteen.
Lemma bytes_ok_memcpy m d s n :
  bytes_ok m -> 0 <= n -> (d <= s \/ s + n <= d) -> bytes_ok (memcpy m d s n).
Proof. intros H Hn Hd x. rewrite memcpy_ld by done. destruct (_ && _); apply H. Qed.

(** A 16-bit load and store moves the same two bytes as [memcpy]. *)
Lemma copy16 m d s :
  bytes_ok m -> (d + 2 <= s \/ s + 2 <= d) -> st_le 2 m d (ld_le 2 m s) = memcpy m d s 2.
Proof.
  intros H Hd. unfold memcpy. change (Z.to_nat 2) with 2%nat.
  cbn [memcpy_loop st_le ld_le]. rewrite !Z.add_0_r, Z.add_0_l, ld_st_ne by lia.
  pose proof (H s). pose proof (H (s + 1)).
  f_equal; [f_equal|]; unfold u8; rewrite ?Z.shiftr_div_pow2 by lia;
    change (2 ^ 8) with 256; Z.to_euclidean_division_equations; lia.
Qed.

Lemma fifo_read16_loop_eq n m buf tail head cnt out i w :
  bytes_ok m -> 0 < cnt < 2 ^ 64 -> 0 <= tail < cnt ->
  (buf + cnt * 2 <= out + i * 2 \/ out + (i + Z.of_nat n) * 2 <= buf) ->
  fifo_read16_loop n m buf tail head cnt out i w =
  fifo_read_with_size_loop n m buf tail head cnt out 2 i w.
Proof.
  revert m tail i w. induction n as [|n IH]; intros m tail i w Hb Hc Ht Hd;
    cbn [fifo_read16_loop fifo_read_with_size_loop]; [done|].
  destruct (tail =? head); [done|].
  unfold st16, ld16. rewrite copy16 by (try done; lia).
  rewrite (Z.mul_comm 2 i), (Z.mul_comm 2 tail).
  apply IH; [apply bytes_ok_memcpy; (done || lia)|done|apply Z.mod_pos_bound; lia|lia].
Qed.

Lemma fifo_write16_loop_eq n m buf tail head cnt inp i w :
  bytes_ok m -> 0 < cnt < 2 ^ 64 -> 0 <= head < cnt ->
  (buf + cnt * 2 <= inp + i * 2 \/ inp + (i + Z.of_nat n) * 2 <= buf) ->
  fifo_write16_loop n m buf tail head cnt inp i w =
  fifo_write_with_size_loop n m buf tail head cnt inp 2 i w.
Proof.
  revert m head i w. induction n as [|n IH]; intros m head i w Hb Hc Ht Hd;
    cbn [fifo_write16_loop fifo_write_with_size_loop]; [done|].
  rewrite (Z.eqb_sym tail). cbv zeta. destruct (_ =? tail); [done|].
  unfold st16, ld16. rewrite copy16 by (try done; lia).
  rewrite (Z.mul_comm 2 i), (Z.mul_comm 2 head).
  apply IH; [apply bytes_ok_memcpy; (done || lia)|done|apply Z.mod_pos_bound; lia|lia].
Qed.

Lemma length_units k m p usz i : length (units k m p usz i) = k.
Proof. revert i; induction k; intros; cbn; [done|by rewrite IHk]. Qed.

Lemma ring_nil m buf usz cnt pos : 0 < cnt -> ring m buf usz cnt pos pos = [].
Proof. intros. unfold ring, ring_len. by rewrite Z.sub_diag, Z.mod_0_l by lia. Qed.

Lemma concat_units k m p usz i :
  0 <= usz -> concat (units k m p usz i) = cells m (p + i * usz) (k * Z.to_nat usz).
Proof.
  intros Hu. revert i. induction k as [|k IH]; intros i; cbn [units concat]; [done|].
  rewrite IH, Nat.mul_succ_l, Nat.add_comm, cells_app.
  f_equal. f_equal. rewrite Z2Nat.id by lia. lia.
Qed.
End Sixteen.

(** The bytes of a byte ring, as a queue. *)
Definition byte_queue (m : mem) (buf cnt tail head : Z) : list Z := concat (ring m buf 1 cnt tail head).
Section ByteQueue.
Context (buf cnt : Z) (Hc : 0 < cnt < 2 ^ 64).
Lemma length_byte_queue m tail head :
  length (byte_queue m buf cnt tail head) = Z.to_nat (ring_len tail head cnt).
Proof.
  unfold byte_queue, ring. set (k := Z.to_nat _). clearbody k. generalize tail. clear tail.
  induction k as [|k IH]; intros pos; cbn [ring_from concat]; [done|]. by rewrite length_app, length_cells, IH.
Qed.
Lemma byte_queue_frame m m' tail head : 0 <= tail < cnt ->
  (forall x, buf <= x < buf + cnt -> ld m' x = ld m x) -> byte_queue m' buf cnt tail head = byte_queue m buf cnt tail head.
Proof. intros Ht H. unfold byte_queue. f_equal. apply ring_frame; [lia..|]. intros x Hx. apply H. lia. Qed.
Lemma fifo_write8_queue m tail head len inp :
  0 <= tail < cnt -> 0 <= head < cnt -> 0 <= len < 2 ^ 64 -> (buf + cnt <= inp \/ inp + len <= buf) ->
  exists m' head' k,
    fifo_write8 m buf tail head cnt len inp = (m', head', Z.of_nat k) /\
    Z.of_nat k = Z.min len (cnt - 1 - Z.of_nat (length (byte_queue m buf cnt tail head))) /\
    0 <= head' < cnt /\
    byte_queue m' buf cnt tail head' = byte_queue m buf cnt tail head ++ cells m inp k /\
    (forall x, ~ (buf <= x < buf + cnt) -> ld m' x = ld m x).
Proof.
  intros Ht Hh Hl Hd. rewrite length_byte_queue, Z2Nat.id by (apply ring_len_range; lia).
  destruct (fifo_write_loop_spec buf 1 cnt ltac:(lia) Hc (Z.to_nat len) m tail head inp 0 0)
    as (m' & head' & k & E & Hk & Hh' & HR & HF); try lia.
  exists m', head', k. unfold fifo_write8. rewrite fifo_write8_loop_eq, E, Z2Nat.id in * by lia.
  repeat split; try done; try lia.
  - unfold byte_queue. rewrite HR, concat_app, concat_units by lia.
    by rewrite Z.mul_0_l, Z.add_0_r, Nat.mul_1_r.
  - intros x Hx. apply HF. lia.
Qed.
Lemma fifo_read8_queue m tail head len out :
  0 <= tail < cnt -> 0 <= head < cnt -> 0 <= len < 2 ^ 64 -> (buf + cnt <= out \/ out + len <= buf) ->
  exists m' tail' k,
    fifo_read8 m buf tail head cnt len out = (m', tail', Z.of_nat k) /\
    Z.of_nat k = Z.min len (Z.of_nat (length (byte_queue m buf cnt tail head))) /\
    0 <= tail' < cnt /\
    byte_queue m buf cnt tail head = cells m' out k ++ byte_queue m' buf cnt tail' head /\
    (forall x, ~ (out <= x < out + len) -> ld m' x = ld m x).
Proof.
  intros Ht Hh Hl Hd. rewrite length_byte_queue, Z2Nat.id by (apply ring_len_range; lia).
  destruct (fifo_read_loop_spec buf 1 cnt ltac:(lia) Hc (Z.to_nat len) m tail head out 0 0)
    as (m' & tail' & k & E & Hk & Hh' & HR & HF); try lia.
  exists m', tail', k. unfold fifo_read8. rewrite fifo_read8_loop_eq, E, Z2Nat.id in * by lia.
  repeat split; try done; try lia.
  - unfold byte_queue. rewrite HR, concat_app, concat_units by lia.
    by rewrite Z.mul_0_l, Z.add_0_r, Nat.mul_1_r.
  - intros x Hx. apply HF. lia.
Qed.
End ByteQueue.

(** ** Properties *)

(** C7: writing [len] units into a ring buffer appends to the queue it
    represents the longest prefix of the input that fits (one unit stays
    free), returns its length, keeps [head] in range and touches nothing
    outside the buffer. *)
Theorem fifo_write_refines_queue (m : mem) (buf tail head cnt len inp usz : Z) :
  0 < usz < 256 -> 0 < cnt < 2 ^ 64 -> 0 <= tail < cnt -> 0 <= head < cnt ->
  0 <= len < 2 ^ 64 -> (buf + cnt * usz <= inp \/ inp + len * usz <= buf) ->
  exists m' head' k,
    fifo_write_with_size m buf tail head cnt len inp usz = (m', head', Z.of_nat k) /\
    Z.of_nat k = Z.min len (cnt - 1 - Z.of_nat (length (ring m buf usz cnt tail head))) /\
    0 <= head' < cnt /\
    ring m' buf usz cnt tail head' = ring m buf usz cnt tail head ++ units k m inp usz 0 /\
    (forall x, ~ (buf <= x < buf + cnt * usz) -> ld m' x = ld m x).
Proof.
  intros Hu Hc Ht Hh Hl Hd. unfold fifo_write_with_size.
  rewrite length_ring by lia.
  destruct (fifo_write_loop_spec buf usz cnt ltac:(lia) Hc (Z.to_nat len) m tail head inp 0 0)
    as (m' & head' & k & E & Hk & H); try lia.
  exists m', head', k. rewrite Z2Nat.id in Hk by lia. done.
Qed.

(** C36: Reading [len] units from a ring buffer removes from the front of the
    queue as many units as there are, up to [len], stores them in order in the
    output, returns their number, keeps [tail] in range and touches nothing
    outside the output. *)
Theorem fifo_read_refines_queue (m : mem) (buf tail head cnt len out usz : Z) :
  0 < usz < 256 -> 0 < cnt < 2 ^ 64 -> 0 <= tail < cnt -> 0 <= head < cnt ->
  0 <= len < 2 ^ 64 -> (buf + cnt * usz <= out \/ out + len * usz <= buf) ->
  exists m' tail' k,
    fifo_read_with_size m buf tail head cnt len out usz = (m', tail', Z.of_nat k) /\
    Z.of_nat k = Z.min len (Z.of_nat (length (ring m buf usz cnt tail head))) /\
    0 <= tail' < cnt /\
    ring m buf usz cnt tail head = units k m' out usz 0 ++ ring m' buf usz cnt tail' head /\
    (forall x, ~ (out <= x < out + len * usz) -> ld m' x = ld m x).
Proof.
  intros Hu Hc Ht Hh Hl Hd. unfold fifo_read_with_size.
  rewrite length_ring by lia.
  destruct (fifo_read_loop_spec buf usz cnt ltac:(lia) Hc (Z.to_nat len) m tail head out 0 0)
    as (m' & tail' & k & E & Hk & Ht' & HR & HF); try lia.
  exists m', tail', k. rewrite Z2Nat.id in * by lia. repeat split; try done; try lia.
  intros x Hx. apply HF. lia.
Qed.

(** Bytes written into an empty byte ring and read back come out
    unchanged and in order, whatever the position of the indices, and the
    ring is empty again. *)
Theorem fifo8_roundtrip (m : mem) (buf pos cnt len inp out : Z) :
  0 < cnt < 2 ^ 64 -> 0 <= pos < cnt -> 0 <= len < cnt ->
  (buf + cnt <= inp \/ inp + len <= buf) -> (buf + cnt <= out \/ out + len <= buf) ->
  exists m1 m2 head,
    fifo_write8 m buf pos pos cnt len inp = (m1, head, len) /\
    fifo_read8 m1 buf pos head cnt len out = (m2, head, len) /\
    cells m2 out (Z.to_nat len) = cells m inp (Z.to_nat len).
Proof.
  intros Hc Hp Hl Hi Ho. unfold fifo_write8, fifo_read8.
  pose proof (proj1 (ring_len_empty pos pos cnt ltac:(lia) Hp Hp) eq_refl) as HE.
  destruct (fifo_write_loop_spec buf 1 cnt ltac:(lia) Hc (Z.to_nat len) m pos pos inp 0 0)
    as (m1 & head & k & E1 & Hk & Hh & HR1 & _); try lia.
  destruct (fifo_read_loop_spec buf 1 cnt ltac:(lia) Hc (Z.to_nat len) m1 pos head out 0 0)
    as (m2 & tail & j & E2 & Hj & Ht & HR2 & _); try lia.
  rewrite ring_nil in HR1 by lia. cbn [app] in HR1.
  pose proof (length_ring buf 1 cnt ltac:(lia) m1 pos head) as HL.
  pose proof (length_ring buf 1 cnt ltac:(lia) m2 tail head) as HL2.
  pose proof (f_equal length HR2) as HR2'.
  rewrite HR1, length_app, !length_units in *.
  assert (k = Z.to_nat len /\ j = Z.to_nat len) as [-> ->] by lia.
  assert (ring m2 buf 1 cnt tail head = []) as HN by (apply length_zero_iff_nil; lia).
  assert (tail = head) as -> by (apply (ring_len_empty tail head cnt); lia).
  exists m1, m2, head. rewrite fifo_write8_loop_eq, fifo_read8_loop_eq, E1, E2.
  repeat split; try (f_equal; lia).
  rewrite HN, app_nil_r in HR2. apply (f_equal (@concat Z)) in HR2.
  rewrite !concat_units in HR2 by lia.
  change (Z.to_nat 1) with 1%nat in HR2. rewrite !Nat.mul_1_r, !Z.add_0_r in HR2. done.
Qed.

(** The 8-, 16- and 24-bit ring routines are the general routine at unit
    sizes 1, 2 and 3 (16-bit: the two arrays are disjoint, so that moving a
    half-word is moving its two bytes). *)
Theorem fifo_fixed_width_instances (m : mem) (buf tail head cnt len other : Z) :
  bytes_ok m -> 0 < cnt < 2 ^ 64 -> 0 <= tail < cnt -> 0 <= head < cnt -> 0 <= len ->
  (buf + cnt * 2 <= other \/ other + len * 2 <= buf) ->
  fifo_read8 m buf tail head cnt len other = fifo_read_with_size m buf tail head cnt len other 1 /\
  fifo_write8 m buf tail head cnt len other = fifo_write_with_size m buf tail head cnt len other 1 /\
  fifo_read16 m buf tail head cnt len other = fifo_read_with_size m buf tail head cnt len other 2 /\
  fifo_write16 m buf tail head cnt len other = fifo_write_with_size m buf tail head cnt len other 2 /\
  fifo_read24 m buf tail head cnt len other = fifo_read_with_size m buf tail head cnt len other 3 /\
  fifo_write24 m buf tail head cnt len other = fifo_write_with_size m buf tail head cnt len other 3.
Proof.
  intros Hb Hc Ht Hh Hl Hd. repeat split.
  - apply fifo_read8_loop_eq.
  - apply fifo_write8_loop_eq.
  - apply fifo_read16_loop_eq; try done. lia.
  - apply fifo_write16_loop_eq; try done. lia.
  - apply fifo_read24_loop_eq.
  - apply fifo_write24_loop_eq.
Qed.

(** Host/network byte order: the conversions are their own inverse on
    every 16-bit and 32-bit value. *)
Theorem byte_order_involutive (x y : Z) :
  0 <= x < 2 ^ 16 -> 0 <= y < 2 ^ 32 ->
  ntohs (htons x) = x /\ ntohl (htonl y) = y.
Proof.
  intros Hx Hy. unfold ntohs, ntohl. split.
  - apply (testbit_ext_below 16); try lia; [apply u16_range|].
    intros n Hn. rewrite htons_testbit by (try lia; apply u16_range).
    rewrite htons_testbit by (try ztest; lia). f_equal. repeat (ztest; try lia).
  - apply (testbit_ext_below 32); try lia; [apply htonl_range|].
    intros n Hn. rewrite htonl_testbit by lia.
    rewrite htonl_testbit by (repeat ztest; lia). f_equal. repeat (ztest; try lia).
Qed.

(** *** Witnesses *)
Definition demo_mem : mem := list_to_map [(100, 65); (101, 66); (102, 67); (103, 68); (104, 69)].

Lemma fifo_write_refines_queue_witness :
  exists m' head' k,
    fifo_write_with_size demo_mem 0 2 2 4 5 100 1 = (m', head', Z.of_nat k) /\
    ring m' 0 1 4 2 head' = [[65]; [66]; [67]].
Proof.
  destruct (fifo_write_refines_queue demo_mem 0 2 2 4 5 100 1)
    as (m' & head' & k & E & Hk & _ & HR & _); try lia.
  exists m', head', k. split; [exact E|].
  rewrite HR. assert (Z.of_nat k = 3) as H3 by (rewrite Hk; vm_compute; reflexivity).
  assert (k = 3%nat) as -> by lia. vm_compute. reflexivity.
Defined.

Lemma fifo_read_refines_queue_witness :
  exists m' tail' k,
    fifo_read_with_size demo_mem 100 1 0 5 9 200 1 = (m', tail', Z.of_nat k) /\ k = 4%nat.
Proof.
  destruct (fifo_read_refines_queue demo_mem 100 1 0 5 9 200 1)
    as (m' & tail' & k & E & Hk & _); try lia.
  exists m', tail', k. split; [exact E|].
  assert (Z.of_nat k = 4) by (rewrite Hk; vm_compute; reflexivity). lia.
Defined.

Lemma fifo8_roundtrip_witness :
  exists m1 m2 head,
    fifo_write8 demo_mem 0 3 3 6 5 100 = (m1, head, 5) /\
    fifo_read8 m1 0 3 head 6 5 200 = (m2, head, 5) /\
    cells m2 200 5 = [65; 66; 67; 68; 69].
Proof. apply (fifo8_roundtrip demo_mem 0 3 6 5 100 200); lia. Defined.

Lemma bytes_ok_list (l : list (Z * Z)) :
  Forall (fun p => 0 <= p.2 < 256) l -> bytes_ok (list_to_map l).
Proof.
  intros H x. unfold ld. destruct (list_to_map l !! x) as [v|] eqn:E; cbn; [|lia].
  apply elem_of_list_to_map_2 in E. rewrite Forall_forall in H.
  apply (H (x, v)). by apply list_elem_of_In in E || exact E.
Qed.

Lemma fifo_fixed_width_instances_witness :
  fifo_write16 demo_mem 0 0 0 2 2 100 = fifo_write_with_size demo_mem 0 0 0 2 2 100 2.
Proof.
  apply (fifo_fixed_width_instances demo_mem 0 0 0 2 2 100); try lia.
  apply bytes_ok_list. repeat constructor; cbn; lia.
Defined.

Lemma byte_order_involutive_witness :
  ntohs (htons 0x1F90) = 0x1F90 /\ ntohl (htonl 0xC0A84603) = 0xC0A84603.
Proof. apply byte_order_involutive; lia. Defined.
