(* ===== verification/StrLib.v ===== *)
(** * StrLib: the string library, src/libs/string/string.h

    C strings over byte-addressed memory.  A loop that ends at a terminating
    NUL takes the number of characters it may look at as fuel and returns
    [None] when it finds no NUL; [cstr] says that a string is there, and then
    any fuel above its length is enough. *)
From S2P Require Import Prelude MemLib.
Open Scope Z_scope.

(** ** Definitions *)

(** [while ( ( *d++ = *src++ ) );] *)
Fixpoint strcpy_loop (fuel : nat) (m : mem) (d src : Z) : option mem :=
  match fuel with
  | O => None
  | S f =>
      let c := ld m src in
      let m' := st m d c in
      if c =? 0 then Some m' else strcpy_loop f m' (d + 1) (src + 1)
  end.
Definition strcpy (fuel : nat) (m : mem) (dest src : Z) : option mem :=
  strcpy_loop fuel m dest src.

(** [while ( *p ) p++;]: the address of the first NUL. *)
Fixpoint find_nul (fuel : nat) (m : mem) (p : Z) : option Z :=
  match fuel with
  | O => None
  | S f => if ld m p =? 0 then Some p else find_nul f m (p + 1)
  end.

Definition strlen (fuel : nat) (m : mem) (s : Z) : option Z :=
  p ← find_nul fuel m s; Some (p - s).

Definition strcat (fuel : nat) (m : mem) (dest src : Z) : option mem :=
  d ← find_nul fuel m dest; strcpy_loop fuel m d src.

(** Wide strings: arrays of [uint16_t]. *)
Fixpoint wfind_nul (fuel : nat) (m : mem) (s i : Z) : option Z :=
  match fuel with
  | O => None
  | S f => if ld16 m s i =? 0 then Some i else wfind_nul f m s (i + 1)
  end.
Definition wstrlen (fuel : nat) (m : mem) (s : Z) : option Z := wfind_nul fuel m s 0.

(** [strcmp] of this library returns whether the strings are equal. *)
Fixpoint strcmp_loop (fuel : nat) (m : mem) (s1 s2 : Z) : option bool :=
  match fuel with
  | O => None
  | S f =>
      if negb (ld m s1 =? 0) && (ld m s1 =? ld m s2)
      then strcmp_loop f m (s1 + 1) (s2 + 1)
      else Some (ld m s1 =? ld m s2)
  end.
Definition strcmp (fuel : nat) (m : mem) (s1 s2 : Z) : option Z :=
  b ← strcmp_loop fuel m s1 s2; Some (Z.b2z b).
Definition strequal (fuel : nat) (m : mem) (s1 s2 : Z) : option bool :=
  r ← strcmp fuel m s1 s2; Some (negb (r =? 0)).

(** [while ( *s ) *d++ = *s++;]: the memory and the final [d]. *)
Fixpoint copy_chars (fuel : nat) (m : mem) (d s : Z) : option (mem * Z) :=
  match fuel with
  | O => None
  | S f =>
      if ld m s =? 0 then Some (m, d)
      else copy_chars f (st m d (ld m s)) (d + 1) (s + 1)
  end.
Definition strconcat (fuel : nat) (m : mem) (dest s1 s2 : Z) : option mem :=
  '(m1, d1) ← copy_chars fuel m dest s1;
  '(m2, d2) ← copy_chars fuel m1 d1 s2;
  Some (st m2 d2 0).

Fixpoint strpos_loop (fuel : nat) (m : mem) (s c index : Z) : option Z :=
  match fuel with
  | O => None
  | S f =>
      if ld m (s + index) =? 0 then Some (-1)
      else if ld m (s + index) =? c then Some index
      else strpos_loop f m s c (index + 1)
  end.
Definition strpos (fuel : nat) (m : mem) (s c : Z) : option Z := strpos_loop fuel m s c 0.

(** [substr]: skip to [start] or the end, then copy at most [len] characters. *)
Fixpoint substr_skip (n : nat) (m : mem) (src i : Z) : Z :=
  match n with
  | O => i
  | S n' => if ld m (src + i) =? 0 then i else substr_skip n' m src (i + 1)
  end.
Fixpoint substr_copy (n : nat) (m : mem) (dest src i j : Z) : mem * Z :=
  match n with
  | O => (m, j)
  | S n' =>
      if ld m (src + i) =? 0 then (m, j)
      else substr_copy n' (st m (dest + j) (ld m (src + i))) dest src (i + 1) (j + 1)
  end.
Definition substr (m : mem) (dest src start len : Z) : mem :=
  let i := substr_skip (Z.to_nat start) m src 0 in
  let '(m1, j) := substr_copy (Z.to_nat len) m dest src i 0 in
  st m1 (dest + j) 0.

Definition char_to_string (m : mem) (c out : Z) : mem := st (st m out c) (out + 1) 0.

Definition ascii_to_char (code : Z) : Z :=
  if code <? 32 then
    if code =? 0x0A then 10 else if code =? 0x09 then 9 else 0
  else if (32 <=? code) && (code <? 127) then code
  else 63.

Fixpoint strncmp_loop (n : nat) (m : mem) (s1 s2 i : Z) : Z :=
  match n with
  | O => 0
  | S n' =>
      let c1 := ld m (s1 + i) in
      let c2 := ld m (s2 + i) in
      if negb (c1 =? c2) then c1 - c2
      else if c1 =? 0 then 0
      else strncmp_loop n' m s1 s2 (i + 1)
  end.
Definition strncmp (m : mem) (s1 s2 n : Z) : Z := strncmp_loop (Z.to_nat n) m s1 s2 0.

(** Decimal digits of [num > 0], pushed on the local array [tmp]; [tmp] is the
    stack of its entries, the last one written first.  A 64-bit value has at
    most 19 digits, so 20 rounds end the loop. *)
Fixpoint push_digits (fuel : nat) (num : Z) (tmp : list Z) : list Z :=
  match fuel with
  | O => tmp
  | S f =>
      if 0 <? num then push_digits f (Z.quot num 10) (48 + Z.rem num 10 :: tmp) else tmp
  end.

(** [while (i > 0) buf[j++] = tmp[--i]; buf[j] = '\0';] *)
Fixpoint pop_chars (m : mem) (buf : Z) (tmp : list Z) : mem :=
  match tmp with
  | [] => st m buf 0
  | c :: tmp' => pop_chars (st m buf (u8 c)) (buf + 1) tmp'
  end.

Definition num_to_str (m : mem) (num buf : Z) : mem :=
  if num =? 0 then st (st m buf 48) (buf + 1) 0
  else
    let is_negative := num <? 0 in
    let num' := if is_negative then s64 (- num) else num in
    let tmp := push_digits 20 num' [] in
    pop_chars m buf (if is_negative then 45 :: tmp else tmp).

(** [int_to_str]: a do-while over a 32-bit [int]. *)
Fixpoint push_digits_do (fuel : nat) (value : Z) (tmp : list Z) : list Z :=
  match fuel with
  | O => tmp
  | S f =>
      let tmp' := Z.rem value 10 + 48 :: tmp in
      let value' := Z.quot value 10 in
      if 0 <? value' then push_digits_do f value' tmp' else tmp'
  end.
Definition int_to_str (m : mem) (value str : Z) : mem :=
  let sign := value <? 0 in
  let value' := if sign then s32 (- value) else value in
  let tmp := push_digits_do 11 value' [] in
  pop_chars m str (if sign then 45 :: tmp else tmp).

Fixpoint str_to_int_loop (fuel : nat) (m : mem) (str res : Z) : option Z :=
  match fuel with
  | O => None
  | S f =>
      if ld m str =? 0 then Some res
      else str_to_int_loop f m (str + 1) (s64 (res * 10 + (s8 (ld m str) - 48)))
  end.
Definition str_to_int (fuel : nat) (m : mem) (str : Z) : option Z :=
  let neg := ld m str =? 45 in
  res ← str_to_int_loop fuel m (if neg then str + 1 else str) 0;
  Some (if neg then s64 (- res) else res).

(** Null-terminated arrays of string pointers ([argv], [envp]). *)
Fixpoint count_str_arr_loop (fuel : nat) (m : mem) (arr i : Z) : option Z :=
  match fuel with
  | O => None
  | S f => if ld_le 8 m (arr + 8 * i) =? 0 then Some i else count_str_arr_loop f m arr (i + 1)
  end.
Definition count_str_arr (fuel : nat) (m : mem) (arr : Z) : option Z :=
  count_str_arr_loop fuel m arr 0.

Fixpoint total_memsize_loop (fuel : nat) (m : mem) (arr i total : Z) : option Z :=
  match fuel with
  | O => None
  | S f =>
      let p := ld_le 8 m (arr + 8 * i) in
      if p =? 0 then Some (u64 (total + 8))
      else l ← strlen fuel m p; total_memsize_loop f m arr (i + 1) (u64 (total + (l + 1)))
  end.
Definition total_memsize_str_arr (fuel : nat) (m : mem) (arr : Z) : option Z :=
  total_memsize_loop fuel m arr 0 0.

Fixpoint copy_str_arr_loop (fuel : nat) (m : mem) (src data dest i pointer : Z) : option mem :=
  match fuel with
  | O => None
  | S f =>
      let p := ld_le 8 m (src + 8 * i) in
      if p =? 0 then Some (st_le 8 m (dest + 8 * i) 0)
      else
        m1 ← strcpy fuel m (data + pointer) p;
        let m2 := st_le 8 m1 (dest + 8 * i) (data + pointer) in
        l ← strlen fuel m2 (ld_le 8 m2 (src + 8 * i));
        copy_str_arr_loop f m2 src data dest (i + 1) (u64 (pointer + (l + 1)))
  end.
Definition copy_str_arr (fuel : nat) (m : mem) (src data dest : Z) : option mem :=
  copy_str_arr_loop fuel m src data dest 0 0.

(** ** C strings in memory *)
Fixpoint cstr (m : mem) (p : Z) (s : list Z) : Prop :=
  match s with
  | [] => ld m p = 0
  | c :: s' => c <> 0 /\ ld m p = c /\ cstr m (p + 1) s'
  end.
Definition slen (s : list Z) : Z := Z.of_nat (length s).

Section CStr.
Lemma slen_nonneg s : 0 <= slen s.
Proof. unfold slen. lia. Qed.
Lemma slen_cons c s : slen (c :: s) = slen s + 1.
Proof. unfold slen. cbn. lia. Qed.
Lemma slen_app a b : slen (a ++ b) = slen a + slen b.
Proof. unfold slen. rewrite length_app. lia. Qed.

Lemma cstr_ext m m' p s :
  (forall x, p <= x <= p + slen s -> ld m' x = ld m x) -> cstr m p s -> cstr m' p s.
Proof.
  revert p. induction s as [|c s IH]; intros p H; cbn [cstr].
  - intros E. rewrite H; [done|unfold slen; cbn; lia].
  - rewrite slen_cons in H. pose proof (slen_nonneg s). intros (Hc & E & Hs). repeat split; [done| |].
    + rewrite H; [done|lia].
    + apply IH; [|done]. intros x Hx. apply H. lia.
Qed.

(** The characters of a string, without its terminator. *)
Fixpoint chars (m : mem) (p : Z) (s : list Z) : Prop :=
  match s with
  | [] => True
  | c :: s' => c <> 0 /\ ld m p = c /\ chars m (p + 1) s'
  end.

Lemma cstr_app m p a b : cstr m p (a ++ b) <-> chars m p a /\ cstr m (p + slen a) b.
Proof.
  revert p. induction a as [|c a IH]; intros p; cbn [app cstr chars].
  - unfold slen; cbn. rewrite Z.add_0_r. tauto.
  - rewrite IH, slen_cons. replace (p + 1 + slen a) with (p + (slen a + 1)) by lia. tauto.
Qed.

Lemma cstr_chars m p a : cstr m p a <-> chars m p a /\ ld m (p + slen a) = 0.
Proof. pose proof (cstr_app m p a []) as H. by rewrite app_nil_r in H. Qed.

Lemma chars_ext m m' p s :
  (forall x, p <= x < p + slen s -> ld m' x = ld m x) -> chars m p s -> chars m' p s.
Proof.
  revert p. induction s as [|c s IH]; intros p H; cbn [chars]; [done|].
  rewrite slen_cons in H. pose proof (slen_nonneg s). intros (Hc & E & Hs). repeat split; [done| |].
  - rewrite H; [done|lia].
  - apply IH; [|done]. intros x Hx. apply H. lia.
Qed.

Lemma find_nul_cstr fuel m p s :
  cstr m p s -> slen s < Z.of_nat fuel -> find_nul fuel m p = Some (p + slen s).
Proof.
  revert p s. induction fuel as [|f IH]; intros p s Hs Hf; [pose proof (slen_nonneg s); lia|].
  cbn [find_nul]. destruct s as [|c s]; cbn [cstr] in Hs.
  - rewrite Hs. cbn. f_equal. unfold slen; cbn. lia.
  - destruct Hs as (Hc & E & Hs). rewrite E. rewrite slen_cons in *.
    destruct (Z.eqb_spec c 0); [done|]. rewrite (IH (p + 1) s Hs) by lia. f_equal. lia.
Qed.

Lemma strcpy_loop_cstr fuel m d src s :
  cstr m src s -> slen s < Z.of_nat fuel -> (d <= src \/ src + slen s < d) ->
  exists m', strcpy_loop fuel m d src = Some m' /\ cstr m' d s /\
    (forall x, ~ (d <= x <= d + slen s) -> ld m' x = ld m x).
Proof.
  revert m d src s. induction fuel as [|f IH]; intros m d src s Hs Hf Hd;
    [pose proof (slen_nonneg s); lia|].
  cbn [strcpy_loop]. destruct s as [|c s]; cbn [cstr] in Hs.
  - rewrite Hs. cbn. eexists. split; [done|]. split; [by rewrite ld_st_eq|].
    intros x Hx. apply ld_st_ne. unfold slen in Hx; cbn in Hx. lia.
  - destruct Hs as (Hc & E & Hs). rewrite E. rewrite slen_cons in *. cbv zeta.
    pose proof (slen_nonneg s).
    destruct (Z.eqb_spec c 0); [done|].
    destruct (IH (st m d c) (d + 1) (src + 1) s) as (m' & E' & Hm' & HF); try lia.
    { eapply cstr_ext; [|exact Hs]. intros x Hx. apply ld_st_ne. lia. }
    exists m'. split; [done|]. split.
    + cbn [cstr]. repeat split; try done. rewrite HF by lia. apply ld_st_eq.
    + intros x Hx. rewrite HF by lia. apply ld_st_ne. lia.
Qed.

Lemma copy_chars_cstr fuel m d src s :
  cstr m src s -> slen s < Z.of_nat fuel -> (d <= src \/ src + slen s < d) ->
  exists m', copy_chars fuel m d src = Some (m', d + slen s) /\ chars m' d s /\
    (forall x, ~ (d <= x < d + slen s) -> ld m' x = ld m x).
Proof.
  revert m d src s. induction fuel as [|f IH]; intros m d src s Hs Hf Hd;
    [pose proof (slen_nonneg s); lia|].
  cbn [copy_chars]. destruct s as [|c s]; cbn [cstr] in Hs.
  - rewrite Hs. cbn. exists m. unfold slen; cbn. rewrite Z.add_0_r. done.
  - destruct Hs as (Hc & E & Hs). rewrite E. rewrite slen_cons in *.
    pose proof (slen_nonneg s).
    destruct (Z.eqb_spec c 0); [done|].
    destruct (IH (st m d c) (d + 1) (src + 1) s) as (m' & E' & Hm' & HF); try lia.
    { eapply cstr_ext; [|exact Hs]. intros x Hx. apply ld_st_ne. lia. }
    exists m'. split; [rewrite E'; do 2 f_equal; lia|]. split.
    + cbn [chars]. repeat split; try done. rewrite HF by lia. apply ld_st_eq.
    + intros x Hx. rewrite HF by lia. apply ld_st_ne. lia.
Qed.

Lemma strcmp_loop_cstr fuel m p q a b :
  cstr m p a -> cstr m q b -> slen a < Z.of_nat fuel ->
  strcmp_loop fuel m p q = Some (bool_decide (a = b)).
Proof.
  revert p q a b. induction fuel as [|f IH]; intros p q a b Ha Hb Hf;
    [pose proof (slen_nonneg a); lia|].
  cbn [strcmp_loop]. destruct a as [|c a]; cbn [cstr] in Ha.
  - rewrite Ha. destruct b as [|d b]; cbn [cstr] in Hb.
    + rewrite Hb. done.
    + destruct Hb as (Hd & E & _). rewrite E. destruct d; done.
  - destruct Ha as (Hc & E & Ha). rewrite E. rewrite slen_cons in Hf.
    destruct (Z.eqb_spec c 0); [done|]. cbn [negb andb].
    destruct b as [|d b]; cbn [cstr] in Hb.
    + rewrite Hb. destruct (Z.eqb_spec c 0); [done|]. done.
    + destruct Hb as (Hd & E' & Hb). rewrite E'.
      destruct (Z.eqb_spec c d) as [->|Hne].
      * rewrite (IH (p + 1) (q + 1) a b Ha Hb) by lia. f_equal.
        apply bool_decide_ext. naive_solver.
      * f_equal. symmetry. apply bool_decide_false. congruence.
Qed.
End CStr.

(** ** Decimal numerals *)
Definition is_digit (c : Z) : Prop := 48 <= c <= 57.
Definition dec_val (acc : Z) (l : list Z) : Z := fold_left (fun r c => r * 10 + (c - 48)) l acc.

Section Decimal.
Lemma dec_val_app a l r : dec_val a (l ++ r) = dec_val (dec_val a l) r.
Proof. apply fold_left_app. Qed.

Lemma dec_val_mono l acc : Forall is_digit l -> 0 <= acc -> acc <= dec_val acc l.
Proof.
  revert acc. induction l as [|c l IH]; intros acc Hd Ha; cbn; [lia|].
  inversion_clear Hd. unfold is_digit in *.
  specialize (IH (acc * 10 + (c - 48)) ltac:(done) ltac:(lia)). unfold dec_val in IH. lia.
Qed.

(** The pushed characters are the digits of the number, most significant first. *)
Lemma push_digits_spec fuel num tmp :
  0 <= num < 10 ^ Z.of_nat fuel ->
  exists ds, push_digits fuel num tmp = ds ++ tmp /\ Forall is_digit ds /\
    dec_val 0 ds = num /\ (0 < num -> ds <> []).
Proof.
  revert num tmp. induction fuel as [|f IH]; intros num tmp Hn; cbn [push_digits].
  - exists []. cbn in *. repeat split; try done; lia.
  - rewrite Nat2Z.inj_succ, Z.pow_succ_r in Hn by lia.
    destruct (Z.ltb_spec 0 num).
    + rewrite Z.quot_div_nonneg, Z.rem_mod_nonneg by lia.
      destruct (IH (num / 10) (48 + num mod 10 :: tmp)) as (ds & E & Hd & Hv & _).
      { Z.to_euclidean_division_equations. lia. }
      exists (ds ++ [48 + num mod 10]). rewrite E, <- app_assoc.
      pose proof (Z.mod_pos_bound num 10). repeat split; try done.
      * apply Forall_app. split; [done|]. constructor; [unfold is_digit; lia|done].
      * rewrite dec_val_app, Hv. cbn. pose proof (Z.div_mod num 10). lia.
      * intros _ E2. by destruct ds.
    + exists []. repeat split; try done; cbn; lia.
Qed.

Lemma push_digits_do_eq fuel num tmp :
  0 < num -> push_digits_do fuel num tmp = push_digits fuel num tmp.
Proof.
  revert num tmp. induction fuel as [|f IH]; intros num tmp Hn; cbn [push_digits_do push_digits]; [done|].
  cbv zeta. rewrite (Z.add_comm (Z.rem num 10)).
  destruct (Z.ltb_spec 0 num); [|lia]. destruct (Z.ltb_spec 0 (Z.quot num 10)); [by apply IH|].
  rewrite Z.quot_div_nonneg in * by lia. destruct f; cbn [push_digits]; [done|].
  destruct (Z.ltb_spec 0 (num / 10)); [lia|done].
Qed.

Lemma pop_chars_cstr m buf l :
  Forall (fun c => 0 < c < 256) l ->
  cstr (pop_chars m buf l) buf l /\
  (forall x, ~ (buf <= x <= buf + slen l) -> ld (pop_chars m buf l) x = ld m x).
Proof.
  revert m buf. induction l as [|c l IH]; intros m buf Hl; cbn [pop_chars cstr].
  - rewrite ld_st_eq. split; [done|]. intros x Hx. apply ld_st_ne. unfold slen in Hx; cbn in Hx. lia.
  - inversion_clear Hl. rewrite u8_id by lia. rewrite slen_cons.
    destruct (IH (st m buf c) (buf + 1)) as [Hc HF]; [done|]. pose proof (slen_nonneg l).
    repeat split; try lia; try done.
    + rewrite HF by lia. apply ld_st_eq.
    + intros x Hx. rewrite HF by lia. apply ld_st_ne. lia.
Qed.

Lemma str_to_int_loop_digits fuel m p l acc :
  cstr m p l -> Forall is_digit l -> slen l < Z.of_nat fuel ->
  0 <= acc -> dec_val acc l < 2 ^ 63 ->
  str_to_int_loop fuel m p acc = Some (dec_val acc l).
Proof.
  revert p l acc. induction fuel as [|f IH]; intros p l acc Hc Hd Hf Ha Hb;
    [pose proof (slen_nonneg l); lia|].
  cbn [str_to_int_loop]. destruct l as [|c l]; cbn [cstr] in Hc.
  - rewrite Hc. done.
  - destruct Hc as (Hc0 & E & Hc). inversion_clear Hd. unfold is_digit in *. rewrite slen_cons in Hf.
    rewrite E. destruct (Z.eqb_spec c 0); [done|].
    pose proof (dec_val_mono l (acc * 10 + (c - 48)) ltac:(done) ltac:(lia)).
    cbn [dec_val fold_left] in Hb. fold (dec_val (acc * 10 + (c - 48)) l) in Hb.
    rewrite s8_id, s64_id by lia. rewrite (IH (p + 1) l) by (try done; lia). done.
Qed.

Lemma digits_chars l : Forall is_digit l -> Forall (fun c => 0 < c < 256) l.
Proof. apply Forall_impl. unfold is_digit. lia. Qed.

(** The decimal text of a non-zero number, and its value. *)
Lemma push_digits_20 n :
  0 < n < 2 ^ 63 ->
  exists ds, push_digits 20 n [] = ds /\ Forall is_digit ds /\ dec_val 0 ds = n /\
    (exists d ds', ds = d :: ds') /\ slen ds <= 20.
Proof.
  intros Hn. destruct (push_digits_spec 20 n []) as (ds & E & Hd & Hv & Hne).
  { change (10 ^ Z.of_nat 20) with 100000000000000000000. lia. }
  rewrite app_nil_r in E. exists ds. repeat split; try done.
  - destruct ds as [|d ds']; [by specialize (Hne ltac:(lia))|eauto].
  - subst ds. clear. unfold slen.
    assert (H : forall f k t, (length (push_digits f k t) <= f + length t)%nat).
    { induction f as [|f IH]; intros k t; cbn [push_digits]; [lia|].
      destruct (0 <? k); [|lia]. etransitivity; [apply IH|]. cbn. lia. }
    specialize (H 20%nat n []). change (20 + length (@nil Z))%nat with 20%nat in H. lia.
Qed.
End Decimal.

(** ** Properties *)

(** [strcat] leaves in the destination the concatenation of the two
    strings and changes no byte outside it, when the text it appends does not
    overlap its source. *)
Theorem strcat_appends (fuel : nat) (m : mem) (dest src : Z) (a b : list Z) :
  cstr m dest a -> cstr m src b ->
  slen a < Z.of_nat fuel -> slen b < Z.of_nat fuel ->
  (dest + slen a + slen b < src \/ src + slen b < dest) ->
  exists m', strcat fuel m dest src = Some m' /\ cstr m' dest (a ++ b) /\
    cstr m' src b /\ strlen (length (a ++ b) + 1) m' dest = Some (slen a + slen b) /\
    (forall x, ~ (dest + slen a <= x <= dest + slen a + slen b) -> ld m' x = ld m x).
Proof.
  intros Ha Hb Hfa Hfb Hd. unfold strcat. rewrite (find_nul_cstr _ _ _ a) by done. cbn.
  pose proof (slen_nonneg a). pose proof (slen_nonneg b).
  destruct (strcpy_loop_cstr fuel m (dest + slen a) src b Hb Hfb) as (m' & E & Hc & HF); [lia|].
  assert (Hab : cstr m' dest (a ++ b)).
  { apply cstr_app. split; [|done]. apply cstr_chars in Ha as [Ha _].
    eapply chars_ext; [|exact Ha]. intros x Hx. apply HF. lia. }
  exists m'. repeat split; try done.
  - eapply cstr_ext; [|exact Hb]. intros x Hx. apply HF. lia.
  - unfold strlen. rewrite (find_nul_cstr _ _ _ _ Hab) by (unfold slen; lia).
    cbn. f_equal. rewrite slen_app. lia.
Qed.

(** [strconcat] also works in place: with the destination equal to (or
    below) its first argument, as the /proc readers call it, it leaves the
    concatenation of both strings there. *)
Theorem strconcat_in_place (fuel : nat) (m : mem) (dest s1 s2 : Z) (a b : list Z) :
  cstr m s1 a -> cstr m s2 b ->
  slen a < Z.of_nat fuel -> slen b < Z.of_nat fuel ->
  (dest <= s1 \/ s1 + slen a < dest) ->
  (dest + slen a + slen b < s2 \/ s2 + slen b < dest) ->
  exists m', strconcat fuel m dest s1 s2 = Some m' /\ cstr m' dest (a ++ b) /\
    (forall x, ~ (dest <= x <= dest + slen a + slen b) -> ld m' x = ld m x).
Proof.
  intros Ha Hb Hfa Hfb Hd1 Hd2. unfold strconcat.
  pose proof (slen_nonneg a). pose proof (slen_nonneg b).
  destruct (copy_chars_cstr fuel m dest s1 a Ha Hfa Hd1) as (m1 & E1 & Hc1 & HF1).
  rewrite E1. cbn.
  assert (Hb1 : cstr m1 s2 b) by (eapply cstr_ext; [|exact Hb]; intros x Hx; apply HF1; lia).
  destruct (copy_chars_cstr fuel m1 (dest + slen a) s2 b Hb1 Hfb) as (m2 & E2 & Hc2 & HF2); [lia|].
  rewrite E2. cbn. eexists. split; [done|]. split.
  - apply cstr_app. split.
    + eapply chars_ext; [|exact Hc1]. intros x Hx. rewrite ld_st_ne by lia. apply HF2. lia.
    + apply cstr_chars. split.
      * eapply chars_ext; [|exact Hc2]. intros x Hx. rewrite ld_st_ne by lia. done.
      * replace (dest + slen a + slen b) with (dest + (slen a + slen b)) by lia. by rewrite ld_st_eq.
  - intros x Hx. rewrite ld_st_ne by lia. rewrite HF2, HF1 by lia. done.
Qed.

(** [strcmp] of this library answers 1 exactly on equal strings and 0 on
    different ones, the opposite of the standard function of that name. *)
Theorem strcmp_is_equality (fuel : nat) (m : mem) (p q : Z) (a b : list Z) :
  cstr m p a -> cstr m q b -> slen a < Z.of_nat fuel ->
  strcmp fuel m p q = Some (if bool_decide (a = b) then 1 else 0) /\
  strequal fuel m p q = Some (bool_decide (a = b)).
Proof.
  intros Ha Hb Hf. unfold strequal, strcmp.
  rewrite (strcmp_loop_cstr fuel m p q a b Ha Hb Hf). cbn.
  by destruct (bool_decide (a = b)).
Qed.

(** Printing a 64-bit integer with [num_to_str] and parsing the text with
    [str_to_int] gives the integer back, for every value but the least one. *)
Theorem num_to_str_roundtrip (m : mem) (n buf : Z) (fuel : nat) :
  - 2 ^ 63 < n < 2 ^ 63 -> (22 <= fuel)%nat ->
  str_to_int fuel (num_to_str m n buf) buf = Some n.
Proof.
  intros Hn Hf. unfold num_to_str. destruct (Z.eqb_spec n 0) as [->|Hn0].
  - change (st (st m buf 48) (buf + 1) 0) with (pop_chars m buf [48]).
    destruct (pop_chars_cstr m buf [48]) as [Hc _]; [repeat constructor; lia|].
    unfold str_to_int. pose proof Hc as (_ & E & _). rewrite E.
    change (48 =? 45) with false. cbv iota.
    rewrite (str_to_int_loop_digits _ _ _ [48] 0); try done;
      [repeat constructor; unfold is_digit; lia|unfold slen; cbn; lia].
  - cbv zeta. destruct (Z.ltb_spec n 0).
    + rewrite s64_id by lia.
      destruct (push_digits_20 (- n) ltac:(lia)) as (ds & -> & Hd & Hv & _ & Hl).
      destruct (pop_chars_cstr m buf (45 :: ds)) as [(_ & E & Hc) _].
      { constructor; [lia|by apply digits_chars]. }
      unfold str_to_int. rewrite E. change (45 =? 45) with true. cbv iota.
      rewrite (str_to_int_loop_digits _ _ _ ds 0) by (try done; lia).
      cbn. rewrite Hv, s64_id by lia. f_equal. lia.
    + destruct (push_digits_20 n ltac:(lia)) as (ds & -> & Hd & Hv & (d & ds' & ->) & Hl).
      destruct (pop_chars_cstr m buf (d :: ds') (digits_chars _ Hd)) as [Hc _].
      unfold str_to_int. pose proof Hc as (_ & E & _). rewrite E.
      pose proof (Forall_inv Hd) as Hd0. unfold is_digit in Hd0.
      destruct (Z.eqb_spec d 45); [lia|].
      rewrite (str_to_int_loop_digits _ _ _ (d :: ds') 0) by (try done; lia).
      cbn -[dec_val]. by rewrite Hv.
Qed.

(** On the least 64-bit integer, whose negation wraps to itself,
    [num_to_str] writes a lone minus sign, which reads back as 0. *)
Theorem num_to_str_min (m : mem) (buf : Z) :
  cstr (num_to_str m (- 2 ^ 63) buf) buf [45] /\
  str_to_int 22 (num_to_str m (- 2 ^ 63) buf) buf = Some 0.
Proof.
  change (num_to_str m (- 2 ^ 63) buf) with (pop_chars m buf [45]).
  destruct (pop_chars_cstr m buf [45]) as [Hc _]; [repeat constructor; lia|].
  split; [done|]. destruct Hc as (_ & E & H0).
  unfold str_to_int. rewrite E. change (45 =? 45) with true. cbv iota.
  cbn [cstr] in H0. cbn [str_to_int_loop]. rewrite H0. reflexivity.
Qed.

(** *** Witnesses *)
Definition demo_str : mem :=
  list_to_map [(10, 97); (11, 98); (12, 0); (30, 99); (31, 0); (40, 97); (41, 98); (42, 0)].

Lemma strcat_appends_witness :
  exists m', strcat 8 demo_str 10 30 = Some m' /\ cstr m' 10 [97; 98; 99].
Proof.
  destruct (strcat_appends 8 demo_str 10 30 [97; 98] [99]) as (m' & E & H & _);
    [by vm_compute; auto|by vm_compute; auto|unfold slen; cbn; lia|unfold slen; cbn; lia|unfold slen; cbn; lia|].
  exists m'. split; [exact E|exact H].
Defined.

Lemma strconcat_in_place_witness :
  exists m', strconcat 8 demo_str 10 10 30 = Some m' /\ cstr m' 10 [97; 98; 99].
Proof.
  destruct (strconcat_in_place 8 demo_str 10 10 30 [97; 98] [99]) as (m' & E & H & _);
    [by vm_compute; auto|by vm_compute; auto|unfold slen; cbn; lia|unfold slen; cbn; lia|lia|unfold slen; cbn; lia|].
  exists m'. split; [exact E|exact H].
Defined.

Lemma strcmp_is_equality_witness :
  strcmp 8 demo_str 10 40 = Some 1 /\ strequal 8 demo_str 10 40 = Some true.
Proof.
  apply (strcmp_is_equality 8 demo_str 10 40 [97; 98] [97; 98]);
    [by vm_compute; auto|by vm_compute; auto|unfold slen; cbn; lia].
Defined.

Lemma num_to_str_roundtrip_witness : str_to_int 22 (num_to_str ∅ (-1979) 500) 500 = Some (-1979).
Proof. apply (num_to_str_roundtrip ∅ (-1979) 500 22); lia. Defined.
