(* ===== verification/Time.v ===== *)
(** * Time: clocks, time arithmetic and random numbers, src/core/time.h

    Port input and output are the interface [PortIO]; what the real-time clock
    promises is [CmosClock], with one instance ([cmos_ram]) that shows the
    promises can be kept.  CPUID and the time-stamp counter are arguments. *)
From S2P Require Import Prelude MemLib.
Open Scope Z_scope.

(** ** Ports and the CMOS clock *)
Class PortIO (hw : Type) := {
  outb : hw -> Z -> Z -> hw;
  inb : hw -> Z -> Z * hw
}.

(** The documented behaviour of the CMOS/RTC registers: port 0x70 selects a
    register, port 0x71 reads or writes the one selected. *)
Class CmosClock (hw : Type) `{PortIO hw} := {
  cidx : hw -> Z;
  creg : hw -> Z -> Z;
  creg_byte : forall h r, 0 <= creg h r < 256;
  outb_index : forall h v, 0 <= v < 128 ->
    cidx (outb h 0x70 v) = v /\ (forall r, creg (outb h 0x70 v) r = creg h r);
  outb_data : forall h v,
    cidx (outb h 0x71 v) = cidx h /\
    (forall r, creg (outb h 0x71 v) r = if r =? cidx h then u8 v else creg h r);
  inb_data : forall h,
    fst (inb h 0x71) = creg h (cidx h) /\ cidx (snd (inb h 0x71)) = cidx h /\
    (forall r, creg (snd (inb h 0x71)) r = creg h r)
}.

(** ** Data *)
Record timeval := Timeval { tv_sec : Z; tv_microsec : Z }.
Record timespec := Timespec { ts_sec : Z; tv_nanosec : Z }.

#[export] Instance timeval_eq_dec : EqDecision timeval.
Proof. solve_decision. Defined.

(** ** Calendar *)
Definition bcd_to_bin (val : Z) : Z := Z.land val 0x0F + Z.shiftr val 4 * 10.
Definition bin_to_bcd (val : Z) : Z := Z.lor (Z.shiftl (Z.quot val 10) 4) (Z.rem val 10).

Definition is_leap (year : Z) : bool :=
  (Z.rem year 4 =? 0) && (negb (Z.rem year 100 =? 0) || (Z.rem year 400 =? 0)).

Definition days_in_month : list Z := [31; 28; 31; 30; 31; 30; 31; 31; 30; 31; 30; 31].

(** [for (y = 1970; y < year; y++) days += is_leap(y) ? 366 : 365;] *)
Fixpoint year_days (n : nat) (y days : Z) : Z :=
  match n with
  | O => days
  | S n' => year_days n' (y + 1) (u64 (days + (if is_leap y then 366 else 365)))
  end.
(** [for (m = 1; m < month; m++) ...]; [None] is a read past [days_in_month]. *)
Fixpoint month_days (n : nat) (m year days : Z) : option Z :=
  match n with
  | O => Some days
  | S n' =>
      d ← days_in_month !! Z.to_nat (m - 1);
      let days1 := u64 (days + d) in
      let days2 := if (m =? 2) && is_leap year then u64 (days1 + 1) else days1 in
      month_days n' (m + 1) year days2
  end.
Definition days_since_epoch (year month day : Z) : option Z :=
  let days := year_days (Z.to_nat (year - 1970)) 1970 0 in
  days' ← month_days (Z.to_nat (month - 1)) 1 year days;
  Some (u64 (days' + (day - 1))).

(** ** The real-time clock *)
Section Rtc.
Context {hw : Type} `{PortIO hw}.

Definition cmos_read (h : hw) (reg : Z) : Z * hw := inb (outb h 0x70 reg) 0x71.

Definition rtc_update_in_progress (h : hw) : bool * hw :=
  let '(v, h') := inb (outb h 0x70 0x0A) 0x71 in (negb (Z.land v 0x80 =? 0), h').

(** [while (rtc_update_in_progress());] *)
Fixpoint wait_update (fuel : nat) (h : hw) : option hw :=
  match fuel with
  | O => None
  | S f =>
      let '(b, h') := rtc_update_in_progress h in
      if b then wait_update f h' else Some h'
  end.

Definition get_epoch_seconds (fuel : nat) (h : hw) : option (Z * hw) :=
  h0 ← wait_update fuel h;
  let '(sec, h1) := cmos_read h0 0x00 in
  let '(min, h2) := cmos_read h1 0x02 in
  let '(hour, h3) := cmos_read h2 0x04 in
  let '(day, h4) := cmos_read h3 0x07 in
  let '(mon, h5) := cmos_read h4 0x08 in
  let '(year, h6) := cmos_read h5 0x09 in
  let '(regB, h7) := inb (outb h6 0x70 0x0B) 0x71 in
  let bcd := Z.land regB 0x04 =? 0 in
  let dec x := if bcd then bcd_to_bin x else x in
  let '(cent_reg, h8) := cmos_read h7 0x32 in
  let cent := if negb (cent_reg =? 0) then bcd_to_bin cent_reg else 20 in
  let full_year := cent * 100 + dec year in
  days ← days_since_epoch full_year (dec mon) (dec day);
  Some (u64 (u64 (days * 86400) + u64 (dec hour * 3600) + u64 (dec min * 60) + dec sec), h8).

Definition get_time_s (fuel : nat) (h : hw) : option (Z * hw) := get_epoch_seconds fuel h.

(** One register write: select, then store. *)
Definition cmos_write (h : hw) (reg v : Z) : hw := outb (outb h 0x70 reg) 0x71 v.

Definition rtc_write_datetime (h : hw) (year mon day hour min sec : Z) : hw :=
  let '(regB, h0) := inb (outb h 0x70 0x0B) 0x71 in
  let is_binary := negb (Z.land regB 0x04 =? 0) in
  let h1 := outb (outb h0 0x70 0x0B) 0x71 (Z.lor regB 0x80) in
  let y2 := Z.rem year 100 in
  let enc x := if is_binary then x else bin_to_bcd x in
  let h2 := cmos_write h1 0x00 (enc sec) in
  let h3 := cmos_write h2 0x02 (enc min) in
  let h4 := cmos_write h3 0x04 (enc hour) in
  let h5 := cmos_write h4 0x07 (enc day) in
  let h6 := cmos_write h5 0x08 (enc mon) in
  let h7 := cmos_write h6 0x09 (enc y2) in
  outb (outb h7 0x70 0x0B) 0x71 (Z.land regB (Z.lnot 0x80)).
End Rtc.

(** ** The time-stamp counter *)
Section Tsc.
(** [cpuid leaf] returns the registers (a, b, c, d). *)
Context (cpuid : Z -> Z * Z * Z * Z).

Definition has_invariant_tsc : Z :=
  let '(a, b, c, d) := cpuid 0x80000007 in Z.land (Z.shiftr d 8) 1.

Definition get_tsc_hz : Z :=
  let '(a, b, c, d) := cpuid 0x15 in
  if negb (a =? 0) && negb (b =? 0) then
    let crystal := if negb (c =? 0) then c else 24000000 in
    u64 (crystal * b) / a
  else
    let '(a', b', c', d') := cpuid 0x16 in
    if negb (a' =? 0) then u64 (a' * 1000000) else 3000000000.

(** [tsc_hz] is the static variable; [tsc] the value of RDTSC. *)
Definition get_time_ns_in_second (tsc_hz tsc : Z) : Z * Z :=
  let tsc_hz' := if tsc_hz <? 10 then get_tsc_hz else tsc_hz in
  let cycles := u64 (tsc * 100) in
  let ns := u64 (cycles * 1000000000) / tsc_hz' in
  (ns mod 1000000000, tsc_hz').

Definition get_time_us {hw} `{PortIO hw} (fuel : nat) (h : hw) (tsc_hz tsc : Z)
  : option (timeval * hw * Z) :=
  '(s, h') ← get_epoch_seconds fuel h;
  let '(ns, tsc_hz') := get_time_ns_in_second tsc_hz tsc in
  Some (Timeval s (u32 (ns / 1000)), h', tsc_hz').
End Tsc.

(** ** Time arithmetic *)
Definition timespec_to_timeval (ts : timespec) : timeval :=
  Timeval (ts_sec ts) (u32 (tv_nanosec ts / 1000)).

Definition later (a b : timeval) : bool :=
  if tv_sec b <? tv_sec a then true
  else if tv_sec a <? tv_sec b then false
  else tv_microsec b <? tv_microsec a.
Definition _later (a b : timeval) : bool :=
  if tv_sec b <? tv_sec a then true
  else if tv_sec a <? tv_sec b then false
  else tv_microsec b <=? tv_microsec a.
Definition earlier (a b : timeval) : bool :=
  if tv_sec b <? tv_sec a then false
  else if tv_sec a <? tv_sec b then true
  else tv_microsec a <? tv_microsec b.
Definition _earlier (a b : timeval) : bool :=
  if tv_sec b <? tv_sec a then false
  else if tv_sec a <? tv_sec b then true
  else tv_microsec a <=? tv_microsec b.

(** The source assigns: [return a.tv_sec = b.tv_sec && a.tv_microsec == ...]. *)
Definition same_time (a b : timeval) : bool :=
  negb (tv_sec b =? 0) && (tv_microsec a =? tv_microsec b).

Definition add_time (a b : timeval) : timeval :=
  let sec := u64 (tv_sec a + tv_sec b) in
  let milisec_total := u32 (tv_microsec a + tv_microsec b) in
  Timeval (if negb (milisec_total / 1000000 =? 0) then u64 (sec + 1) else sec)
          (u32 (milisec_total mod 1000000)).

(** The difference of the two [uint32_t] fields is taken at 32 bits before it
    is widened to [int64_t]. *)
Definition subtract_time (a b : timeval) : timeval :=
  if earlier a b then Timeval 0 0
  else
    let sec := u64 (tv_sec a - tv_sec b) in
    let milisec_subtracted := u32 (tv_microsec a - tv_microsec b) in
    if milisec_subtracted <? 0
    then Timeval (u64 (sec - 1)) (u32 (1000000 + milisec_subtracted))
    else Timeval sec (u32 milisec_subtracted).

Definition add_time_us (a : timeval) (add_us : Z) : timeval :=
  add_time a (Timeval (add_us / 1000000) (u32 (add_us mod 1000000))).
Definition subtract_time_us (a : timeval) (sub_us : Z) : timeval :=
  subtract_time a (Timeval (sub_us / 1000000) (u32 (sub_us mod 1000000))).

(** ** Random numbers *)

(** [rand64] from the counter and the clock it samples. *)
Definition rand64 (tsc time : Z) : Z :=
  let mix0 := Z.lxor tsc (u64 (Z.shiftl time 32)) in
  let mix1 := Z.lxor mix0 (Z.shiftr mix0 33) in
  let mix2 := u64 (mix1 * 0xff51afd7ed558ccd) in
  let mix3 := Z.lxor mix2 (Z.shiftr mix2 33) in
  let mix4 := u64 (mix3 * 0xc4ceb9fe1a85ec53) in
  Z.lxor mix4 (Z.shiftr mix4 33).

Definition rand32 (tsc time : Z) : Z := u32 (rand64 tsc time).
Definition rand (tsc time : Z) : Z := rand32 tsc time.

(** [None]: the range is all of 64 bits and the divisor wraps to zero. *)
Definition rand_range (min max tsc time : Z) : option Z :=
  if max <=? min then Some min
  else
    let d := u64 (max - min + 1) in
    if d =? 0 then None else Some (u64 (min + rand64 tsc time mod d)).

(** [sys_getrandom]: [rnd k] is the result of the k-th call of [rand64]. *)
Fixpoint getrandom_chunk (n : nat) (m : mem) (p r : Z) : mem :=
  match n with
  | O => m
  | S n' => getrandom_chunk n' (st m p (u8 r)) (p + 1) (Z.shiftr r 8)
  end.
Fixpoint getrandom_loop (fuel k : nat) (rnd : nat -> Z) (m : mem) (p buflen i : Z) : mem :=
  match fuel with
  | O => m
  | S f =>
      if i <? buflen then
        let chunk := if 8 <=? buflen - i then 8 else buflen - i in
        getrandom_loop f (S k) rnd (getrandom_chunk (Z.to_nat chunk) m (p + i) (rnd k))
          p buflen (u64 (i + 8))
      else m
  end.
Definition sys_getrandom (rnd : nat -> Z) (m : mem) (buf buflen : Z) : Z * mem :=
  if buf =? 0 then (-1, m)
  else (buflen, getrandom_loop (Z.to_nat (buflen / 8 + 1)) 0 rnd m buf buflen 0).

(** ** Calendar lemmas *)
Definition year_len (y : Z) : Z := if is_leap y then 366 else 365.
Fixpoint ysum (n : nat) (y : Z) : Z :=
  match n with O => 0 | S n' => year_len y + ysum n' (y + 1) end.
(** Days of the months before [m]. *)
Definition month_cum (leap : bool) (m : Z) : Z :=
  let base := fold_left Z.add (take (Z.to_nat (m - 1)) days_in_month) 0 in
  if (2 <? m) && leap then base + 1 else base.
Definition month_len (y m : Z) : Z :=
  default 0 (days_in_month !! Z.to_nat (m - 1)) + (if (m =? 2) && is_leap y then 1 else 0).
Definition valid_date (y m d : Z) : Prop :=
  1970 <= y < 2 ^ 31 - 1 /\ 1 <= m <= 12 /\ 1 <= d <= month_len y m.
Definition next_date (y m d : Z) : Z * Z * Z :=
  if d <? month_len y m then (y, m, d + 1)
  else if m <? 12 then (y, m + 1, 1)
  else (y + 1, 1, 1).

Section Calendar.
Lemma u64_add_l x y : u64 (u64 x + y) = u64 (x + y).
Proof. unfold u64. apply Zplus_mod_idemp_l. Qed.

Lemma year_days_sum n y d : 0 <= d < 2 ^ 64 -> year_days n y d = u64 (d + ysum n y).
Proof.
  revert y d. induction n as [|n IH]; intros y d Hd; cbn [year_days ysum].
  - rewrite Z.add_0_r, u64_id by lia. done.
  - rewrite IH by apply u64_range. rewrite u64_add_l. f_equal. unfold year_len. lia.
Qed.

Lemma ysum_snoc n y : ysum (S n) y = ysum n y + year_len (y + Z.of_nat n).
Proof.
  revert y. induction n as [|n IH]; intros y.
  - cbn [ysum]. change (Z.of_nat 0) with 0. rewrite !Z.add_0_r. lia.
  - change (ysum (S (S n)) y) with (year_len y + ysum (S n) (y + 1)). rewrite IH.
    cbn [ysum]. replace (y + 1 + Z.of_nat n) with (y + Z.of_nat (S n)) by lia. lia.
Qed.

Lemma ysum_bound n y : 0 <= ysum n y <= 366 * Z.of_nat n.
Proof.
  revert y. induction n as [|n IH]; intros y; cbn [ysum]; [lia|].
  specialize (IH (y + 1)). unfold year_len. destruct (is_leap y); lia.
Qed.

Lemma month_cases (P : Z -> Prop) :
  P 1 -> P 2 -> P 3 -> P 4 -> P 5 -> P 6 -> P 7 -> P 8 -> P 9 -> P 10 -> P 11 -> P 12 ->
  forall m, 1 <= m <= 12 -> P m.
Proof.
  intros. assert (m = 1 \/ m = 2 \/ m = 3 \/ m = 4 \/ m = 5 \/ m = 6 \/ m = 7 \/ m = 8 \/
    m = 9 \/ m = 10 \/ m = 11 \/ m = 12) as Hm by lia.
  repeat destruct Hm as [->|Hm]; try done. by subst.
Qed.

Lemma month_cum_step y m :
  1 <= m < 12 -> month_cum (is_leap y) (m + 1) = month_cum (is_leap y) m + month_len y m.
Proof.
  intros Hm. assert (1 <= m <= 12) as H by lia. revert m H Hm.
  apply (month_cases (fun m => 1 <= m < 12 ->
    month_cum (is_leap y) (m + 1) = month_cum (is_leap y) m + month_len y m));
    intros Hm; try lia; unfold month_len; destruct (is_leap y); reflexivity.
Qed.

Lemma month_days_S n m year days :
  month_days (S n) m year days =
  (d ← days_in_month !! Z.to_nat (m - 1);
   month_days n (m + 1) year
     (if (m =? 2) && is_leap year then u64 (u64 (days + d) + 1) else u64 (days + d))).
Proof. reflexivity. Qed.

Lemma month_days_snoc n m year days :
  month_days (S n) m year days =
  (days' ← month_days n m year days; month_days 1 (m + Z.of_nat n) year days').
Proof.
  revert m days. induction n as [|n IH]; intros m days.
  - by rewrite Z.add_0_r.
  - rewrite (month_days_S (S n)), (month_days_S n).
    destruct (days_in_month !! Z.to_nat (m - 1)) as [d|]; [|done].
    cbn [mbind option_bind]. rewrite IH.
    replace (m + Z.of_nat (S n)) with (m + 1 + Z.of_nat n) by lia. done.
Qed.

Lemma month_days_1 m year days :
  1 <= m <= 12 -> month_days 1 m year days = Some (u64 (days + month_len year m)).
Proof.
  intros Hm. cbn [month_days]. unfold month_len.
  destruct (lookup_lt_is_Some_2 days_in_month (Z.to_nat (m - 1))) as [d Hd]; [cbn; lia|].
  rewrite Hd. cbn [mbind option_bind default]. f_equal.
  destruct ((m =? 2) && is_leap year); cbn; rewrite ?u64_add_l; f_equal; lia.
Qed.

Lemma month_days_sum year days m :
  0 <= days < 2 ^ 64 -> 1 <= m <= 12 ->
  month_days (Z.to_nat (m - 1)) 1 year days = Some (u64 (days + month_cum (is_leap year) m)).
Proof.
  intros Hd Hm. replace m with (Z.of_nat (Z.to_nat (m - 1)) + 1) at 2 by lia.
  assert (Hn : (Z.to_nat (m - 1) <= 11)%nat) by lia. revert Hn.
  generalize (Z.to_nat (m - 1)) as n. clear m Hm.
  induction n as [|n IH]; intros Hn.
  - cbn [month_days]. replace (month_cum (is_leap year) (Z.of_nat 0 + 1)) with 0
      by (destruct (is_leap year); reflexivity).
    rewrite Z.add_0_r, u64_id by lia. done.
  - rewrite month_days_snoc, IH by lia. cbn [mbind option_bind].
    rewrite month_days_1, u64_add_l by lia.
    replace (Z.of_nat (S n) + 1) with (Z.of_nat n + 1 + 1) by lia.
    rewrite (month_cum_step year (Z.of_nat n + 1)) by lia.
    rewrite (Z.add_comm 1), Z.add_assoc. done.
Qed.

Lemma month_cum_year y : month_cum (is_leap y) 12 + month_len y 12 = year_len y.
Proof. unfold year_len, month_len. destruct (is_leap y); reflexivity. Qed.

Lemma month_cum_range leap m : 1 <= m <= 12 -> 0 <= month_cum leap m <= 335.
Proof. revert m. apply month_cases; destruct leap; vm_compute; split; discriminate. Qed.
Lemma month_len_range y m : 1 <= m <= 12 -> 28 <= month_len y m <= 31.
Proof.
  revert m. apply month_cases; unfold month_len; destruct (is_leap y); vm_compute; split; discriminate.
Qed.

Definition day_number (y m d : Z) : Z :=
  ysum (Z.to_nat (y - 1970)) 1970 + month_cum (is_leap y) m + (d - 1).

Lemma day_number_range y m d :
  1970 <= y < 2 ^ 31 -> 1 <= m <= 12 -> 1 <= d <= 31 -> 0 <= day_number y m d < 2 ^ 41.
Proof.
  intros. unfold day_number. pose proof (ysum_bound (Z.to_nat (y - 1970)) 1970).
  pose proof (month_cum_range (is_leap y) m). lia.
Qed.

Lemma days_since_epoch_number y m d :
  1970 <= y < 2 ^ 31 -> 1 <= m <= 12 -> 1 <= d <= 31 ->
  days_since_epoch y m d = Some (day_number y m d).
Proof.
  intros Hy Hm Hd. unfold days_since_epoch. rewrite year_days_sum by lia.
  rewrite Z.add_0_l, month_days_sum by (try done; apply u64_range).
  cbn [mbind option_bind]. f_equal. rewrite u64_add_l, <- Z.add_assoc, u64_add_l, Z.add_assoc.
  apply u64_id.
  pose proof (day_number_range y m d). unfold day_number in *. lia.
Qed.

Lemma day_number_next y m d :
  valid_date y m d ->
  let '(y', m', d') := next_date y m d in
  day_number y' m' d' = day_number y m d + 1 /\
  1970 <= y' < 2 ^ 31 /\ 1 <= m' <= 12 /\ 1 <= d' <= month_len y' m'.
Proof.
  intros (Hy & Hm & Hd). unfold next_date.
  destruct (Z.ltb_spec d (month_len y m)); [unfold day_number; lia|].
  destruct (Z.ltb_spec m 12).
  - pose proof (month_cum_step y m). pose proof (month_len_range y (m + 1)).
    unfold day_number. lia.
  - replace m with 12 in * by lia. pose proof (month_cum_year y).
    pose proof (month_len_range (y + 1) 1).
    unfold day_number. replace (Z.to_nat (y + 1 - 1970)) with (S (Z.to_nat (y - 1970))) by lia.
    rewrite ysum_snoc. replace (1970 + Z.of_nat (Z.to_nat (y - 1970))) with y by lia.
    assert (month_cum (is_leap (y + 1)) 1 = 0) by (destruct (is_leap (y + 1)); reflexivity). lia.
Qed.

Lemma bcd_roundtrip x : 0 <= x < 100 -> bcd_to_bin (bin_to_bcd x) = x /\ 0 <= bin_to_bcd x < 256.
Proof.
  intros Hx. unfold bcd_to_bin, bin_to_bcd.
  rewrite Z.quot_div_nonneg, Z.rem_mod_nonneg by lia.
  assert (Hr : 0 <= x mod 10 < 16) by (pose proof (Z.mod_pos_bound x 10); lia).
  assert (Hl : Z.land (Z.lor (Z.shiftl (x / 10) 4) (x mod 10)) 15 = x mod 10).
  { rewrite Z.land_lor_distr_l. change 15 with (Z.ones 4). rewrite !Z.land_ones by lia.
    rewrite Z.shiftl_mul_pow2 by lia. rewrite Z.mod_mul by lia. rewrite Z.lor_0_l.
    apply Z.mod_small. lia. }
  assert (Hs : Z.shiftr (Z.lor (Z.shiftl (x / 10) 4) (x mod 10)) 4 = x / 10).
  { rewrite Z.shiftr_lor, Z.shiftr_shiftl_l by lia. change (4 - 4) with 0.
    rewrite Z.shiftl_0_r. rewrite (Z.shiftr_div_pow2 (x mod 10)) by lia.
    rewrite (Z.div_small (x mod 10)) by lia. apply Z.lor_0_r. }
  rewrite Hl, Hs. pose proof (Z.div_mod x 10).
  split; [lia|]. change 256 with (2 ^ 8). apply lor_bound; try lia.
  rewrite Z.shiftl_mul_pow2 by lia. Z.to_euclidean_division_equations. lia.
Qed.
End Calendar.

(** ** The clock through its registers *)
Definition clock_value (c : Z -> Z) : option Z :=
  let dec x := if Z.land (c 0x0B) 0x04 =? 0 then bcd_to_bin x else x in
  let cent := if negb (c 0x32 =? 0) then bcd_to_bin (c 0x32) else 20 in
  days ← days_since_epoch (cent * 100 + dec (c 0x09)) (dec (c 0x08)) (dec (c 0x07));
  Some (u64 (u64 (days * 86400) + u64 (dec (c 0x04) * 3600) + u64 (dec (c 0x02) * 60) + dec (c 0x00))).

Section Clock.
Context {hw : Type} `{PortIO hw} `{!CmosClock hw}.

Lemma cmos_read_spec h r :
  0 <= r < 128 ->
  exists h', cmos_read h r = (creg h r, h') /\ (forall r', creg h' r' = creg h r').
Proof.
  intros Hr. unfold cmos_read. destruct (outb_index h r Hr) as [Hi Hc].
  destruct (inb_data (outb h 0x70 r)) as (Hv & _ & Hs).
  destruct (inb (outb h 0x70 r) 0x71) as [v h'] eqn:E. cbn in Hv, Hs.
  exists h'. rewrite Hv, Hi, Hc. split; [done|]. intros r'. by rewrite Hs, Hc.
Qed.

Lemma creg_cmos_write h r v r' :
  0 <= r < 128 -> creg (cmos_write h r v) r' = if r' =? r then u8 v else creg h r'.
Proof.
  intros Hr. unfold cmos_write. destruct (outb_index h r Hr) as [Hi Hc].
  destruct (outb_data (outb h 0x70 r) v) as [_ Hd]. by rewrite Hd, Hi, Hc.
Qed.

Ltac read_reg r :=
  match goal with
  | |- context [cmos_read ?h r] =>
      let h' := fresh "h" in let E := fresh "E" in let C := fresh "C" in
      destruct (cmos_read_spec h r ltac:(lia)) as (h' & E & C); rewrite E
  end.

Lemma creg_rtc_write h y mo d hh mi s r :
  let enc x := if Z.land (creg h 0x0B) 0x04 =? 0 then bin_to_bcd x else x in
  creg (rtc_write_datetime h y mo d hh mi s) r =
  if r =? 0x0B then u8 (Z.land (creg h 0x0B) (Z.lnot 0x80))
  else if r =? 0x09 then u8 (enc (Z.rem y 100)) else if r =? 0x08 then u8 (enc mo)
  else if r =? 0x07 then u8 (enc d) else if r =? 0x04 then u8 (enc hh)
  else if r =? 0x02 then u8 (enc mi) else if r =? 0x00 then u8 (enc s) else creg h r.
Proof.
  cbv zeta. unfold rtc_write_datetime.
  change (inb (outb h 0x70 0x0B) 0x71) with (cmos_read h 0x0B).
  destruct (cmos_read_spec h 0x0B ltac:(lia)) as (h0 & E & C). rewrite E. cbv zeta.
  repeat match goal with |- context [outb (outb ?a 0x70 ?k) 0x71 ?v] =>
    change (outb (outb a 0x70 k) 0x71 v) with (cmos_write a k v) end.
  rewrite !creg_cmos_write, C by lia.
  destruct (Z.eqb_spec r 0x0B); [done|].
  by destruct (Z.land (creg h 0x0B) 0x04 =? 0).
Qed.

(** Not updating: the first poll succeeds and the registers are decoded. *)
Lemma get_epoch_seconds_value fuel h :
  Z.land (creg h 0x0A) 0x80 = 0 ->
  exists h', get_epoch_seconds (S fuel) h = (s ← clock_value (creg h); Some (s, h')) /\
    (forall r, creg h' r = creg h r).
Proof.
  intros Hu. unfold get_epoch_seconds. cbn [wait_update]. unfold rtc_update_in_progress.
  change (inb (outb h 0x70 0x0A) 0x71) with (cmos_read h 0x0A). read_reg 0x0A. rewrite Hu.
  change (negb (0 =? 0)) with false. cbn [mbind option_bind].
  read_reg 0x00. read_reg 0x02. read_reg 0x04. read_reg 0x07. read_reg 0x08. read_reg 0x09.
  match goal with |- context [inb (outb ?h 0x70 0x0B) 0x71] =>
    change (inb (outb h 0x70 0x0B) 0x71) with (cmos_read h 0x0B) end.
  read_reg 0x0B. read_reg 0x32.
  match goal with |- context [Some (_, ?hh)] => exists hh end.
  split; [|intros r; congruence].
  unfold clock_value. cbv zeta.
  repeat match goal with C : forall r', creg ?a r' = creg _ r' |- context [creg ?a ?k] => rewrite (C k) end.
  destruct (days_since_epoch _ _ _); done.
Qed.
End Clock.

(** ** Time values as microseconds *)
Definition normal (t : timeval) : Prop :=
  0 <= tv_sec t < 2 ^ 63 /\ 0 <= tv_microsec t < 1000000.
Definition to_us (t : timeval) : Z := tv_sec t * 1000000 + tv_microsec t.

Section Mixing.
Lemma lxor_u64 a b : 0 <= a < 2 ^ 64 -> 0 <= b < 2 ^ 64 -> 0 <= Z.lxor a b < 2 ^ 64.
Proof.
  intros Ha Hb. rewrite <- (Z.mod_small a (2 ^ 64)), <- (Z.mod_small b (2 ^ 64)) by done.
  rewrite <- !Z.land_ones by lia.
  assert (Z.lxor (Z.land a (Z.ones 64)) (Z.land b (Z.ones 64)) = Z.land (Z.lxor a b) (Z.ones 64)) as ->.
  { apply Z.bits_inj'. intros n Hn. rewrite Z.lxor_spec, !Z.land_spec, Z.lxor_spec.
    destruct (Z.testbit a n), (Z.testbit b n), (Z.testbit (Z.ones 64) n); done. }
  rewrite Z.land_ones by lia. apply Z.mod_pos_bound. lia.
Qed.

Lemma shiftr_u64 a k : 0 <= k -> 0 <= a < 2 ^ 64 -> 0 <= Z.shiftr a k < 2 ^ 64.
Proof.
  intros Hk Ha. rewrite Z.shiftr_div_pow2 by done.
  split; [apply Z.div_pos; lia|]. eapply Z.le_lt_trans; [|exact (proj2 Ha)].
  apply Z.div_le_upper_bound; [lia|]. pose proof (Z.pow_pos_nonneg 2 k). nia.
Qed.

(** The xor-shift by 33 undoes itself: a second shift leaves 64 bits. *)
Lemma xorshift_inv x :
  0 <= x < 2 ^ 64 ->
  let y := Z.lxor x (Z.shiftr x 33) in Z.lxor y (Z.shiftr y 33) = x.
Proof.
  intros Hx y. subst y. rewrite Z.shiftr_lxor, Z.shiftr_shiftr by lia.
  rewrite (Z.shiftr_div_pow2 x (33 + 33)), Z.div_small by lia.
  rewrite Z.lxor_0_r, Z.lxor_assoc, Z.lxor_nilpotent, Z.lxor_0_r. done.
Qed.

Lemma xorshift_inj x y :
  0 <= x < 2 ^ 64 -> 0 <= y < 2 ^ 64 ->
  Z.lxor x (Z.shiftr x 33) = Z.lxor y (Z.shiftr y 33) -> x = y.
Proof.
  intros Hx Hy E. rewrite <- (xorshift_inv x Hx), <- (xorshift_inv y Hy). cbv zeta. by rewrite E.
Qed.

(** Multiplication by a constant with an inverse modulo 2^64. *)
Lemma mul_inj k k' x y :
  (k * k') mod 2 ^ 64 = 1 -> 0 <= x < 2 ^ 64 -> 0 <= y < 2 ^ 64 ->
  u64 (x * k) = u64 (y * k) -> x = y.
Proof.
  intros Hk Hx Hy E. unfold u64 in E.
  assert (H : forall z, 0 <= z < 2 ^ 64 -> ((z * k) mod 2 ^ 64 * k') mod 2 ^ 64 = z).
  { intros z Hz. rewrite Z.mul_mod_idemp_l, <- Z.mul_assoc, <- Z.mul_mod_idemp_r, Hk by lia.
    rewrite Z.mul_1_r. by apply Z.mod_small. }
  rewrite <- (H x Hx), <- (H y Hy), E. done.
Qed.

Definition inv1 : Z := 0x4f74430c22a54005.
Definition inv2 : Z := 0x9cb4b2f8129337db.
Lemma inv1_ok : (0xff51afd7ed558ccd * inv1) mod 2 ^ 64 = 1.
Proof. vm_compute. reflexivity. Qed.
Lemma inv2_ok : (0xc4ceb9fe1a85ec53 * inv2) mod 2 ^ 64 = 1.
Proof. vm_compute. reflexivity. Qed.

Lemma getrandom_chunk_ld n m p r x :
  ld (getrandom_chunk n m p r) x =
  if (p <=? x) && (x <? p + Z.of_nat n) then u8 (Z.shiftr r (8 * (x - p))) else ld m x.
Proof.
  rewrite <- st_le_ld. reflexivity.
Qed.

Lemma getrandom_loop_ld fuel k rnd m p buflen i x :
  0 <= i -> i mod 8 = 0 -> 0 <= buflen < 2 ^ 64 - 8 -> buflen <= i + 8 * Z.of_nat fuel ->
  i <= buflen + 7 ->
  ld (getrandom_loop fuel k rnd m p buflen i) x =
  if (p + i <=? x) && (x <? p + buflen)
  then u8 (Z.shiftr (rnd (k + Z.to_nat ((x - p - i) / 8))%nat) (8 * ((x - p - i) mod 8)))
  else ld m x.
Proof.
  revert k m i. induction fuel as [|f IH]; intros k m i Hi Hi8 Hb Hf Hle; cbn [getrandom_loop].
  - destruct (Z.leb_spec (p + i) x), (Z.ltb_spec x (p + buflen)); cbn [andb]; try lia; done.
  - destruct (Z.ltb_spec i buflen); cycle 1.
    { destruct (Z.leb_spec (p + i) x), (Z.ltb_spec x (p + buflen)); cbn [andb]; try lia; done. }
    cbv zeta. rewrite u64_id by lia.
    rewrite IH; try lia; cycle 1.
    { rewrite Z.add_mod, Hi8 by lia. done. }
    rewrite getrandom_chunk_ld.
    assert (Hch : Z.of_nat (Z.to_nat (if 8 <=? buflen - i then 8 else buflen - i)) =
                  Z.min 8 (buflen - i)) by (ztest; lia).
    rewrite Hch.
    destruct (Z.leb_spec (p + (i + 8)) x), (Z.leb_spec (p + i) x), (Z.ltb_spec x (p + buflen));
      cbn [andb]; try lia.
    + f_equal. replace (x - p - i) with (x - p - (i + 8) + 1 * 8) by lia.
      rewrite Z.div_add, Z.mod_add by lia.
      replace (S k + Z.to_nat ((x - p - (i + 8)) / 8))%nat
        with (k + Z.to_nat ((x - p - (i + 8)) / 8 + 1))%nat; [done|].
      assert (0 <= (x - p - (i + 8)) / 8) by (apply Z.div_pos; lia). lia.
    + destruct (Z.ltb_spec x (p + i + Z.min 8 (buflen - i))); [lia|done].
    + destruct (Z.ltb_spec x (p + i + Z.min 8 (buflen - i))); [|lia].
      rewrite Z.div_small, Z.mod_small by lia. rewrite Nat.add_0_r.
      replace (x - (p + i)) with (x - p - i) by lia. done.
    + destruct (Z.ltb_spec x (p + i + Z.min 8 (buflen - i))); [lia|done].
Qed.
End Mixing.

(** ** Properties *)

(** [days_since_epoch] numbers the days of the calendar: 1 January 1970
    is day 0 and the day after any valid date has the next number (months,
    leap years and centuries included, no wrap-around up to year 2^31). *)
Theorem days_since_epoch_successor (y m d : Z) :
  valid_date y m d ->
  days_since_epoch 1970 1 1 = Some 0 /\
  exists n, days_since_epoch y m d = Some n /\
    (let '(y', m', d') := next_date y m d in days_since_epoch y' m' d' = Some (n + 1)).
Proof.
  intros Hv. split; [reflexivity|]. pose proof Hv as (Hy & Hm & Hd).
  pose proof (month_len_range y m Hm). exists (day_number y m d).
  rewrite days_since_epoch_number by lia. split; [done|].
  pose proof (day_number_next y m d Hv) as HN.
  destruct (next_date y m d) as [[y' m'] d']. destruct HN as (HN & Hy' & Hm' & Hd').
  pose proof (month_len_range y' m' Hm'). rewrite days_since_epoch_number by lia. by rewrite HN.
Qed.

(** Setting the clock and reading it back gives the date that was set:
    in BCD and in binary mode, with the century register left as it was, the
    epoch seconds read are those of the date written. *)
Theorem rtc_write_then_read {hw : Type} `{PortIO hw} `{!CmosClock hw}
    (h : hw) (fuel : nat) (y mo d hh mi s : Z) :
  valid_date y mo d -> y < 10000 -> 0 <= hh < 24 -> 0 <= mi < 60 -> 0 <= s < 60 ->
  Z.land (creg h 0x0A) 0x80 = 0 ->
  (if creg h 0x32 =? 0 then 20 else bcd_to_bin (creg h 0x32)) = y / 100 ->
  exists n h', days_since_epoch y mo d = Some n /\
    get_epoch_seconds (S fuel) (rtc_write_datetime h y mo d hh mi s)
    = Some (n * 86400 + hh * 3600 + mi * 60 + s, h').
Proof.
  intros Hv Hy4 Hhh Hmi Hs Hu Hc. pose proof Hv as (Hy & Hm & Hd).
  pose proof (month_len_range y mo Hm). pose proof (day_number_range y mo d).
  set (h1 := rtc_write_datetime h y mo d hh mi s).
  pose proof (creg_rtc_write h y mo d hh mi s) as HR. cbv zeta in HR. fold h1 in HR.
  destruct (get_epoch_seconds_value fuel h1) as (h' & E & _); [by rewrite (HR 0x0A)|].
  exists (day_number y mo d), h'. rewrite E, days_since_epoch_number by lia.
  split; [done|]. unfold clock_value.
  rewrite (HR 0x0B), (HR 0x32), (HR 0x09), (HR 0x08), (HR 0x07), (HR 0x04), (HR 0x02), (HR 0x00).
  cbn [Z.eqb Pos.eqb].
  assert (HB : Z.land (u8 (Z.land (creg h 0x0B) (Z.lnot 0x80))) 0x04 = Z.land (creg h 0x0B) 0x04).
  { apply Z.bits_inj'. intros n Hn. rewrite !Z.land_spec. unfold u8.
    destruct (Z.lt_ge_cases n 8).
    - rewrite Z.mod_pow2_bits_low, Z.land_spec by lia.
      destruct (Z.eq_dec n 2) as [->|]; [by destruct (Z.testbit (creg h 0x0B) 2)|].
      change 4 with (2 ^ 2). rewrite Z.pow2_bits_false by lia. by rewrite !andb_false_r.
    - change 4 with (2 ^ 2). rewrite Z.pow2_bits_false by lia. by rewrite !andb_false_r. }
  rewrite HB.
  assert (HD : forall x, 0 <= x < 100 ->
    (if Z.land (creg h 0x0B) 0x04 =? 0
     then bcd_to_bin (u8 (if Z.land (creg h 0x0B) 0x04 =? 0 then bin_to_bcd x else x))
     else u8 (if Z.land (creg h 0x0B) 0x04 =? 0 then bin_to_bcd x else x)) = x).
  { intros x Hx. destruct (bcd_roundtrip x Hx) as [Hr Hb]. 
    destruct (Z.land (creg h 0x0B) 0x04 =? 0); [rewrite (u8_id (bin_to_bcd x)) by lia|rewrite u8_id by lia]; done. }
  rewrite !HD by (try lia; rewrite Z.rem_mod_nonneg by lia; apply Z.mod_pos_bound; lia).
  replace (if negb (creg h 0x32 =? 0) then bcd_to_bin (creg h 0x32) else 20) with (y / 100)
    by (rewrite <- Hc; by destruct (creg h 0x32 =? 0)).
  replace (y / 100 * 100 + Z.rem y 100) with y
    by (rewrite Z.rem_mod_nonneg by lia; pose proof (Z_div_mod_eq_full y 100); lia).
  rewrite days_since_epoch_number by lia. cbn [mbind option_bind].
  rewrite !u64_id by (try rewrite !u64_id by lia; lia). done.
Qed.

(** Adding two normalised times is exact addition of their microseconds
    and gives a normalised time. *)
Theorem add_time_exact (a b : timeval) :
  normal a -> normal b ->
  to_us (add_time a b) = to_us a + to_us b /\ 0 <= tv_microsec (add_time a b) < 1000000.
Proof.
  destruct a as [sa ua], b as [sb ub]. unfold normal, to_us, add_time. cbn [tv_sec tv_microsec].
  intros [Hsa Hua] [Hsb Hub]. rewrite (u32_id (ua + ub)) by lia.
  rewrite u32_id by (pose proof (Z.mod_pos_bound (ua + ub) 1000000); lia).
  rewrite (u64_id (sa + sb)) by lia.
  destruct (Z.eqb_spec ((ua + ub) / 1000000) 0); cbn [negb]; rewrite ?u64_id by lia;
    Z.to_euclidean_division_equations; lia.
Qed.

(** The four comparisons are the orders of the microsecond counts. *)
Theorem time_order (a b : timeval) :
  normal a -> normal b ->
  later a b = (to_us b <? to_us a) /\ _later a b = (to_us b <=? to_us a) /\
  earlier a b = (to_us a <? to_us b) /\ _earlier a b = (to_us a <=? to_us b).
Proof.
  destruct a as [sa ua], b as [sb ub]. unfold normal, to_us, later, _later, earlier, _earlier.
  cbn [tv_sec tv_microsec]. intros [Hsa Hua] [Hsb Hub].
  repeat split; repeat (ztest; try lia); try done.
Qed.

(** [subtract_time] is truncated subtraction when no borrow is needed. *)
Theorem subtract_time_no_borrow (a b : timeval) :
  normal a -> normal b -> tv_microsec b <= tv_microsec a ->
  to_us (subtract_time a b) = Z.max 0 (to_us a - to_us b).
Proof.
  intros Ha Hb Hle. unfold subtract_time.
  destruct (time_order a b Ha Hb) as (_ & _ & -> & _).
  destruct a as [sa ua], b as [sb ub]. unfold normal, to_us in *. cbn [tv_sec tv_microsec] in *.
  destruct Ha as [Hsa Hua], Hb as [Hsb Hub].
  ztest; [cbn; lia|]. rewrite (u32_id (ua - ub)) by lia. rewrite (u64_id (sa - sb)) by lia.
  ztest; [lia|]. cbn [tv_sec tv_microsec]. rewrite u32_id by lia. lia.
Qed.

(** With a borrow, [subtract_time] is wrong: the 32-bit difference is
    never negative, so the second is not taken back and the microseconds come
    out above one second, over 4000 seconds too many. *)
Theorem subtract_time_borrow_lost (a b : timeval) :
  normal a -> normal b -> tv_sec b < tv_sec a -> tv_microsec a < tv_microsec b ->
  tv_sec (subtract_time a b) = tv_sec a - tv_sec b /\
  tv_microsec (subtract_time a b) = 2 ^ 32 - (tv_microsec b - tv_microsec a) /\
  to_us (subtract_time a b) = to_us a - to_us b + 2 ^ 32.
Proof.
  destruct a as [sa ua], b as [sb ub]. unfold normal, to_us, subtract_time, earlier.
  cbn [tv_sec tv_microsec]. intros [Hsa Hua] [Hsb Hub] Hs Hu.
  destruct (Z.ltb_spec sb sa); [|lia]. cbv zeta.
  assert (u32 (ua - ub) = 2 ^ 32 - (ub - ua)) as ->.
  { unfold u32. replace (ua - ub) with (2 ^ 32 - (ub - ua) + (-1) * 2 ^ 32) by lia.
    rewrite Z.mod_add by lia. apply Z.mod_small. lia. }
  ztest; [lia|]. cbn [tv_sec tv_microsec]. rewrite u32_id, u64_id by lia. lia.
Qed.

(** [same_time] does not compare the seconds: its answer does not depend
    on the first argument's seconds, so two times a year apart are the same. *)
Theorem same_time_ignores_seconds (s1 s2 s us us' : Z) :
  same_time (Timeval s1 us) (Timeval s us') = same_time (Timeval s2 us) (Timeval s us') /\
  same_time (Timeval 0 us) (Timeval 0 us) = false /\
  same_time (Timeval 1000 5) (Timeval 31537000 5) = true.
Proof. repeat split. Qed.

(** Within one second, different counter values give different random
    numbers: the mixing steps are invertible on 64 bits. *)
Theorem rand64_injective (tsc1 tsc2 time : Z) :
  0 <= tsc1 < 2 ^ 64 -> 0 <= tsc2 < 2 ^ 64 ->
  rand64 tsc1 time = rand64 tsc2 time -> tsc1 = tsc2.
Proof.
  intros H1 H2. unfold rand64. cbv zeta.
  assert (HX : forall x, 0 <= x < 2 ^ 64 -> 0 <= Z.lxor x (Z.shiftr x 33) < 2 ^ 64)
    by (intros; apply lxor_u64, shiftr_u64; lia).
  assert (H0 : forall t, 0 <= t < 2 ^ 64 -> 0 <= Z.lxor t (u64 (Z.shiftl time 32)) < 2 ^ 64)
    by (intros; apply lxor_u64; [done|apply u64_range]).
  intros E.
  apply xorshift_inj in E; try apply u64_range.
  apply (mul_inj _ _ _ _ inv2_ok) in E; try (apply HX, u64_range).
  apply xorshift_inj in E; try apply u64_range.
  apply (mul_inj _ _ _ _ inv1_ok) in E; try (apply HX, H0; done).
  apply xorshift_inj in E; try (apply H0; done).
  apply (f_equal (fun z => Z.lxor z (u64 (Z.shiftl time 32)))) in E.
  by rewrite !Z.lxor_assoc, Z.lxor_nilpotent, !Z.lxor_0_r in E.
Qed.

(** [sys_getrandom] fills exactly the buffer, eight bytes of each random
    number in little-endian order, and returns the length. *)
Theorem sys_getrandom_fills (rnd : nat -> Z) (m : mem) (buf buflen x : Z) :
  buf <> 0 -> 0 <= buflen < 2 ^ 64 - 8 ->
  fst (sys_getrandom rnd m buf buflen) = buflen /\
  ld (snd (sys_getrandom rnd m buf buflen)) x =
  if (buf <=? x) && (x <? buf + buflen)
  then u8 (Z.shiftr (rnd (Z.to_nat ((x - buf) / 8))) (8 * ((x - buf) mod 8)))
  else ld m x.
Proof.
  intros Hb Hl. unfold sys_getrandom. destruct (Z.eqb_spec buf 0); [done|]. cbn [fst snd].
  split; [done|]. rewrite getrandom_loop_ld; try lia; try done.
  - by rewrite Z.add_0_r, Z.sub_0_r.
  - pose proof (Z_div_mod_eq_full buflen 8). pose proof (Z.mod_pos_bound buflen 8).
    assert (0 <= buflen / 8) by (apply Z.div_pos; lia). lia.
Qed.

(** *** Witnesses *)

(** A CMOS that keeps every promise of [CmosClock]. *)
Record cmos_ram := CmosRam { ram_idx : Z; ram_regs : gmap Z Z }.
#[export] Instance cmos_ram_ports : PortIO cmos_ram := {
  outb h port v :=
    if port =? 0x70 then CmosRam v (ram_regs h)
    else if port =? 0x71 then CmosRam (ram_idx h) (<[ram_idx h := v]> (ram_regs h))
    else h;
  inb h port := (if port =? 0x71 then u8 (default 0 (ram_regs h !! ram_idx h)) else 0, h)
}.
#[export, program] Instance cmos_ram_clock : CmosClock cmos_ram := {
  cidx := ram_idx;
  creg h r := u8 (default 0 (ram_regs h !! r))
}.
Next Obligation. intros. apply u8_range. Qed.
Next Obligation. intros. cbn. done. Qed.
Next Obligation.
  intros h v. cbn. split; [done|]. intros r. rewrite lookup_insert.
  destruct (Z.eqb_spec r (ram_idx h)); case_decide; try congruence; done.
Qed.
Next Obligation. intros. cbn. done. Qed.

Lemma days_since_epoch_successor_witness :
  exists n, days_since_epoch 2024 2 28 = Some n /\ days_since_epoch 2024 2 29 = Some (n + 1).
Proof.
  destruct (days_since_epoch_successor 2024 2 28) as [_ (n & E & H)].
  - unfold valid_date. vm_compute. repeat split; discriminate.
  - exists n. split; [exact E|exact H].
Defined.

Lemma rtc_write_then_read_witness :
  exists n h', days_since_epoch 2025 8 19 = Some n /\
    get_epoch_seconds 1 (rtc_write_datetime (CmosRam 0 ∅) 2025 8 19 19 30 15)
    = Some (n * 86400 + 19 * 3600 + 30 * 60 + 15, h').
Proof.
  apply (rtc_write_then_read (CmosRam 0 ∅) 0 2025 8 19 19 30 15); try lia; try reflexivity.
  unfold valid_date. vm_compute. repeat split; discriminate.
Defined.

Lemma add_time_exact_witness : to_us (add_time (Timeval 5 700000) (Timeval 2 400000)) = 8100000.
Proof. apply (add_time_exact (Timeval 5 700000) (Timeval 2 400000)); split; cbn; lia. Defined.

Lemma time_order_witness : later (Timeval 5 1) (Timeval 4 999999) = true.
Proof.
  destruct (time_order (Timeval 5 1) (Timeval 4 999999)) as [E _];
    [split; cbn; lia|split; cbn; lia|]. exact E.
Defined.

Lemma subtract_time_no_borrow_witness :
  to_us (subtract_time (Timeval 5 700000) (Timeval 2 400000)) = 3300000.
Proof. apply (subtract_time_no_borrow (Timeval 5 700000) (Timeval 2 400000)); try split; cbn; lia. Defined.

Lemma subtract_time_borrow_lost_witness :
  to_us (subtract_time (Timeval 5 400000) (Timeval 2 700000)) = 2700000 + 2 ^ 32.
Proof.
  apply (subtract_time_borrow_lost (Timeval 5 400000) (Timeval 2 700000)); try split; cbn; lia.
Defined.

Lemma rand64_injective_witness : 7 = 7.
Proof. apply (rand64_injective 7 7 1755631815); [lia|lia|reflexivity]. Defined.

Lemma sys_getrandom_fills_witness :
  fst (sys_getrandom (fun k => Z.of_nat k + 258) ∅ 64 11) = 11 /\
  ld (snd (sys_getrandom (fun k => Z.of_nat k + 258) ∅ 64 11)) 73 = 1.
Proof. apply (sys_getrandom_fills (fun k => Z.of_nat k + 258) ∅ 64 11 73); lia. Defined.
