(* ===== verification/KState.v ===== *)
(** * KState: the kernel's data, src/core/scheduler.h and src/core/errorno.h

    The structures and enumerations of the scheduler header and the global
    state the kernel routines share: the byte map of used memory blocks, the
    words of the page tables, the tables of processes and threads, the
    per-core words behind GS, and the spin locks.

    [processes_info_ptr] is a table of addresses into [process_heap], because
    the code does arithmetic on its slots; a slot of [threads_info_ptr], which
    always holds the address of the structure allocated for it, is represented
    by that structure, and a null slot by an absent key. *)
From S2P Require Import Prelude MemLib Time.
Open Scope Z_scope.

(** ** Constants *)
Definition HM : Z := 0x400000000000.
Definition PTE_PRESENT : Z := 1.
Definition PTE_RW : Z := 2.
Definition PTE_USER : Z := 4.
Definition MAX_FD_INNER : Z := 853.
Definition PROC_MAX_SIG_HANDLER : Z := 64.
Definition PROC_MAX_SM : Z := 64.
(** Table sizes, from boot.asm. *)
Definition MAX_THREADS_COUNT : Z := 2560.
Definition MAX_PROCESSES_COUNT : Z := 1280.
(** Size of [process_info_t] in bytes. *)
Definition sizeof_process_info : Z := 3240.

Definition EPERM : Z := 1.
Definition ENOENT : Z := 2.
Definition ESRCH : Z := 3.
Definition EIO : Z := 5.
Definition EBADF : Z := 9.
Definition ECHILD : Z := 10.
Definition EAGAIN : Z := 11.
Definition EACCES : Z := 13.
Definition EFAULT : Z := 14.
Definition EEXIST : Z := 17.
Definition ENODEV : Z := 19.
Definition ENOTDIR : Z := 20.
Definition EISDIR : Z := 21.
Definition EINVAL : Z := 22.
Definition ENOTTY : Z := 25.

(** ** Enumerations *)
Inductive process_state :=
| PROCESS_NOT_EXIST | PROCESS_RUNNING | PROCESS_IDLE | PROCESS_STOPPED
| PROCESS_ENDED_BUT_NOT_CLEANED | PROCESS_HANDLING_SIGNAL.
Inductive thread_state :=
| THREAD_NOT_EXIST | THREAD_READY | THREAD_RUNNING | THREAD_BLOCKED_KEY
| THREAD_BLOCKED_MOUSE | THREAD_BLOCKED_IO | THREAD_BLOCKED_NETWORK
| THREAD_BLOCKED_UDS | THREAD_BLOCKED_PID | THREAD_BLOCKED_FUTEX
| THREAD_BLOCKED_OTHER | THREAD_IDLE | THREAD_DEAD
| THREAD_ENDED_BUT_NOT_CLEANED | THREAD_WAITING_SIGNAL.
Inductive context_type := CONTEXT_TYPE_ALU | CONTEXT_TYPE_SSE.

#[export] Instance process_state_eq_dec : EqDecision process_state.
Proof. solve_decision. Defined.
#[export] Instance thread_state_eq_dec : EqDecision thread_state.
Proof. solve_decision. Defined.
#[export] Instance context_type_eq_dec : EqDecision context_type.
Proof. solve_decision. Defined.

(** ** Structures *)
(** Saved registers of a thread. *)
Record user_thread_context := Context {
  c_r15 : Z;
  c_r14 : Z;
  c_r13 : Z;
  c_r12 : Z;
  c_r11 : Z;
  c_r10 : Z;
  c_r9 : Z;
  c_r8 : Z;
  c_rdi : Z;
  c_rsi : Z;
  c_rbp : Z;
  c_rbx : Z;
  c_rdx : Z;
  c_rcx : Z;
  c_rax : Z;
  c_rip : Z;
  c_cs : Z;
  c_rflags : Z;
  c_rsp : Z;
  c_ss : Z;
  c_gs24 : Z;
  xsave_area : list Z;
  fs_base : Z;
  gs_base : Z
}.
Definition set_xsave_area (v : list Z) (r : user_thread_context) : user_thread_context :=
  Context (c_r15 r) (c_r14 r) (c_r13 r) (c_r12 r) (c_r11 r) (c_r10 r) (c_r9 r) (c_r8 r) (c_rdi r) (c_rsi r) (c_rbp r) (c_rbx r) (c_rdx r) (c_rcx r) (c_rax r) (c_rip r) (c_cs r) (c_rflags r) (c_rsp r) (c_ss r) (c_gs24 r) v (fs_base r) (gs_base r).

(** [thread_info_t]. *)
Record thread_info := ThreadInfo {
  t_pid : Z;
  t_tid : Z;
  t_state : thread_state;
  t_wakeup_time : timeval;
  t_stack_addr : Z;
  t_kernel_stack_addr : Z;
  t_context : user_thread_context;
  t_ptid : Z;
  t_signal : Z;
  t_signal_mask : Z;
  t_sleep_flag_addr : Z;
  t_context_type : context_type;
  t_lock_time : timeval;
  t_return_code : Z
}.
Definition set_t_state (v : thread_state) (r : thread_info) : thread_info :=
  ThreadInfo (t_pid r) (t_tid r) v (t_wakeup_time r) (t_stack_addr r) (t_kernel_stack_addr r) (t_context r) (t_ptid r) (t_signal r) (t_signal_mask r) (t_sleep_flag_addr r) (t_context_type r) (t_lock_time r) (t_return_code r).
Definition set_t_wakeup_time (v : timeval) (r : thread_info) : thread_info :=
  ThreadInfo (t_pid r) (t_tid r) (t_state r) v (t_stack_addr r) (t_kernel_stack_addr r) (t_context r) (t_ptid r) (t_signal r) (t_signal_mask r) (t_sleep_flag_addr r) (t_context_type r) (t_lock_time r) (t_return_code r).
Definition set_t_context (v : user_thread_context) (r : thread_info) : thread_info :=
  ThreadInfo (t_pid r) (t_tid r) (t_state r) (t_wakeup_time r) (t_stack_addr r) (t_kernel_stack_addr r) v (t_ptid r) (t_signal r) (t_signal_mask r) (t_sleep_flag_addr r) (t_context_type r) (t_lock_time r) (t_return_code r).
Definition set_t_signal (v : Z) (r : thread_info) : thread_info :=
  ThreadInfo (t_pid r) (t_tid r) (t_state r) (t_wakeup_time r) (t_stack_addr r) (t_kernel_stack_addr r) (t_context r) (t_ptid r) v (t_signal_mask r) (t_sleep_flag_addr r) (t_context_type r) (t_lock_time r) (t_return_code r).
Definition set_t_sleep_flag_addr (v : Z) (r : thread_info) : thread_info :=
  ThreadInfo (t_pid r) (t_tid r) (t_state r) (t_wakeup_time r) (t_stack_addr r) (t_kernel_stack_addr r) (t_context r) (t_ptid r) (t_signal r) (t_signal_mask r) v (t_context_type r) (t_lock_time r) (t_return_code r).
Definition set_t_context_type (v : context_type) (r : thread_info) : thread_info :=
  ThreadInfo (t_pid r) (t_tid r) (t_state r) (t_wakeup_time r) (t_stack_addr r) (t_kernel_stack_addr r) (t_context r) (t_ptid r) (t_signal r) (t_signal_mask r) (t_sleep_flag_addr r) v (t_lock_time r) (t_return_code r).
Definition set_t_lock_time (v : timeval) (r : thread_info) : thread_info :=
  ThreadInfo (t_pid r) (t_tid r) (t_state r) (t_wakeup_time r) (t_stack_addr r) (t_kernel_stack_addr r) (t_context r) (t_ptid r) (t_signal r) (t_signal_mask r) (t_sleep_flag_addr r) (t_context_type r) v (t_return_code r).
Definition set_t_return_code (v : Z) (r : thread_info) : thread_info :=
  ThreadInfo (t_pid r) (t_tid r) (t_state r) (t_wakeup_time r) (t_stack_addr r) (t_kernel_stack_addr r) (t_context r) (t_ptid r) (t_signal r) (t_signal_mask r) (t_sleep_flag_addr r) (t_context_type r) (t_lock_time r) v.

(** [process_info_t]. *)
Record process_info := ProcessInfo {
  p_pid : Z;
  p_state : process_state;
  p_main_thread_id : Z;
  p_signal : Z;
  p_threads_count : Z;
  p_pgid : Z;
  p_sid : Z;
  p_fd_addr : Z;
  p_parent_pid : Z;
  p_heap_start_addr : Z;
  p_heap_end_addr : Z;
  p_sig_handlers : list Z;
  p_uid : Z;
  p_gid : Z;
  p_euid : Z;
  p_egid : Z;
  p_reuid : Z;
  p_regid : Z;
  p_resuid : Z;
  p_resgid : Z;
  p_lock : Z;
  p_return_code : Z;
  p_sm : list Z;
  p_cmd_line : list Z;
  p_env : list Z;
  p_cwd : list Z
}.
Definition set_p_state (v : process_state) (r : process_info) : process_info :=
  ProcessInfo (p_pid r) v (p_main_thread_id r) (p_signal r) (p_threads_count r) (p_pgid r) (p_sid r) (p_fd_addr r) (p_parent_pid r) (p_heap_start_addr r) (p_heap_end_addr r) (p_sig_handlers r) (p_uid r) (p_gid r) (p_euid r) (p_egid r) (p_reuid r) (p_regid r) (p_resuid r) (p_resgid r) (p_lock r) (p_return_code r) (p_sm r) (p_cmd_line r) (p_env r) (p_cwd r).
Definition set_p_signal (v : Z) (r : process_info) : process_info :=
  ProcessInfo (p_pid r) (p_state r) (p_main_thread_id r) v (p_threads_count r) (p_pgid r) (p_sid r) (p_fd_addr r) (p_parent_pid r) (p_heap_start_addr r) (p_heap_end_addr r) (p_sig_handlers r) (p_uid r) (p_gid r) (p_euid r) (p_egid r) (p_reuid r) (p_regid r) (p_resuid r) (p_resgid r) (p_lock r) (p_return_code r) (p_sm r) (p_cmd_line r) (p_env r) (p_cwd r).
Definition set_p_pgid (v : Z) (r : process_info) : process_info :=
  ProcessInfo (p_pid r) (p_state r) (p_main_thread_id r) (p_signal r) (p_threads_count r) v (p_sid r) (p_fd_addr r) (p_parent_pid r) (p_heap_start_addr r) (p_heap_end_addr r) (p_sig_handlers r) (p_uid r) (p_gid r) (p_euid r) (p_egid r) (p_reuid r) (p_regid r) (p_resuid r) (p_resgid r) (p_lock r) (p_return_code r) (p_sm r) (p_cmd_line r) (p_env r) (p_cwd r).
Definition set_p_sid (v : Z) (r : process_info) : process_info :=
  ProcessInfo (p_pid r) (p_state r) (p_main_thread_id r) (p_signal r) (p_threads_count r) (p_pgid r) v (p_fd_addr r) (p_parent_pid r) (p_heap_start_addr r) (p_heap_end_addr r) (p_sig_handlers r) (p_uid r) (p_gid r) (p_euid r) (p_egid r) (p_reuid r) (p_regid r) (p_resuid r) (p_resgid r) (p_lock r) (p_return_code r) (p_sm r) (p_cmd_line r) (p_env r) (p_cwd r).
Definition set_p_fd_addr (v : Z) (r : process_info) : process_info :=
  ProcessInfo (p_pid r) (p_state r) (p_main_thread_id r) (p_signal r) (p_threads_count r) (p_pgid r) (p_sid r) v (p_parent_pid r) (p_heap_start_addr r) (p_heap_end_addr r) (p_sig_handlers r) (p_uid r) (p_gid r) (p_euid r) (p_egid r) (p_reuid r) (p_regid r) (p_resuid r) (p_resgid r) (p_lock r) (p_return_code r) (p_sm r) (p_cmd_line r) (p_env r) (p_cwd r).
Definition set_p_parent_pid (v : Z) (r : process_info) : process_info :=
  ProcessInfo (p_pid r) (p_state r) (p_main_thread_id r) (p_signal r) (p_threads_count r) (p_pgid r) (p_sid r) (p_fd_addr r) v (p_heap_start_addr r) (p_heap_end_addr r) (p_sig_handlers r) (p_uid r) (p_gid r) (p_euid r) (p_egid r) (p_reuid r) (p_regid r) (p_resuid r) (p_resgid r) (p_lock r) (p_return_code r) (p_sm r) (p_cmd_line r) (p_env r) (p_cwd r).
Definition set_p_uid (v : Z) (r : process_info) : process_info :=
  ProcessInfo (p_pid r) (p_state r) (p_main_thread_id r) (p_signal r) (p_threads_count r) (p_pgid r) (p_sid r) (p_fd_addr r) (p_parent_pid r) (p_heap_start_addr r) (p_heap_end_addr r) (p_sig_handlers r) v (p_gid r) (p_euid r) (p_egid r) (p_reuid r) (p_regid r) (p_resuid r) (p_resgid r) (p_lock r) (p_return_code r) (p_sm r) (p_cmd_line r) (p_env r) (p_cwd r).
Definition set_p_euid (v : Z) (r : process_info) : process_info :=
  ProcessInfo (p_pid r) (p_state r) (p_main_thread_id r) (p_signal r) (p_threads_count r) (p_pgid r) (p_sid r) (p_fd_addr r) (p_parent_pid r) (p_heap_start_addr r) (p_heap_end_addr r) (p_sig_handlers r) (p_uid r) (p_gid r) v (p_egid r) (p_reuid r) (p_regid r) (p_resuid r) (p_resgid r) (p_lock r) (p_return_code r) (p_sm r) (p_cmd_line r) (p_env r) (p_cwd r).
Definition set_p_egid (v : Z) (r : process_info) : process_info :=
  ProcessInfo (p_pid r) (p_state r) (p_main_thread_id r) (p_signal r) (p_threads_count r) (p_pgid r) (p_sid r) (p_fd_addr r) (p_parent_pid r) (p_heap_start_addr r) (p_heap_end_addr r) (p_sig_handlers r) (p_uid r) (p_gid r) (p_euid r) v (p_reuid r) (p_regid r) (p_resuid r) (p_resgid r) (p_lock r) (p_return_code r) (p_sm r) (p_cmd_line r) (p_env r) (p_cwd r).
Definition set_p_reuid (v : Z) (r : process_info) : process_info :=
  ProcessInfo (p_pid r) (p_state r) (p_main_thread_id r) (p_signal r) (p_threads_count r) (p_pgid r) (p_sid r) (p_fd_addr r) (p_parent_pid r) (p_heap_start_addr r) (p_heap_end_addr r) (p_sig_handlers r) (p_uid r) (p_gid r) (p_euid r) (p_egid r) v (p_regid r) (p_resuid r) (p_resgid r) (p_lock r) (p_return_code r) (p_sm r) (p_cmd_line r) (p_env r) (p_cwd r).
Definition set_p_regid (v : Z) (r : process_info) : process_info :=
  ProcessInfo (p_pid r) (p_state r) (p_main_thread_id r) (p_signal r) (p_threads_count r) (p_pgid r) (p_sid r) (p_fd_addr r) (p_parent_pid r) (p_heap_start_addr r) (p_heap_end_addr r) (p_sig_handlers r) (p_uid r) (p_gid r) (p_euid r) (p_egid r) (p_reuid r) v (p_resuid r) (p_resgid r) (p_lock r) (p_return_code r) (p_sm r) (p_cmd_line r) (p_env r) (p_cwd r).
Definition set_p_resuid (v : Z) (r : process_info) : process_info :=
  ProcessInfo (p_pid r) (p_state r) (p_main_thread_id r) (p_signal r) (p_threads_count r) (p_pgid r) (p_sid r) (p_fd_addr r) (p_parent_pid r) (p_heap_start_addr r) (p_heap_end_addr r) (p_sig_handlers r) (p_uid r) (p_gid r) (p_euid r) (p_egid r) (p_reuid r) (p_regid r) v (p_resgid r) (p_lock r) (p_return_code r) (p_sm r) (p_cmd_line r) (p_env r) (p_cwd r).
Definition set_p_resgid (v : Z) (r : process_info) : process_info :=
  ProcessInfo (p_pid r) (p_state r) (p_main_thread_id r) (p_signal r) (p_threads_count r) (p_pgid r) (p_sid r) (p_fd_addr r) (p_parent_pid r) (p_heap_start_addr r) (p_heap_end_addr r) (p_sig_handlers r) (p_uid r) (p_gid r) (p_euid r) (p_egid r) (p_reuid r) (p_regid r) (p_resuid r) v (p_lock r) (p_return_code r) (p_sm r) (p_cmd_line r) (p_env r) (p_cwd r).
Definition set_p_return_code (v : Z) (r : process_info) : process_info :=
  ProcessInfo (p_pid r) (p_state r) (p_main_thread_id r) (p_signal r) (p_threads_count r) (p_pgid r) (p_sid r) (p_fd_addr r) (p_parent_pid r) (p_heap_start_addr r) (p_heap_end_addr r) (p_sig_handlers r) (p_uid r) (p_gid r) (p_euid r) (p_egid r) (p_reuid r) (p_regid r) (p_resuid r) (p_resgid r) (p_lock r) v (p_sm r) (p_cmd_line r) (p_env r) (p_cwd r).
Definition set_p_sm (v : list Z) (r : process_info) : process_info :=
  ProcessInfo (p_pid r) (p_state r) (p_main_thread_id r) (p_signal r) (p_threads_count r) (p_pgid r) (p_sid r) (p_fd_addr r) (p_parent_pid r) (p_heap_start_addr r) (p_heap_end_addr r) (p_sig_handlers r) (p_uid r) (p_gid r) (p_euid r) (p_egid r) (p_reuid r) (p_regid r) (p_resuid r) (p_resgid r) (p_lock r) (p_return_code r) v (p_cmd_line r) (p_env r) (p_cwd r).
Definition set_p_threads_count (v : Z) (r : process_info) : process_info :=
  ProcessInfo (p_pid r) (p_state r) (p_main_thread_id r) (p_signal r) v (p_pgid r) (p_sid r) (p_fd_addr r) (p_parent_pid r) (p_heap_start_addr r) (p_heap_end_addr r) (p_sig_handlers r) (p_uid r) (p_gid r) (p_euid r) (p_egid r) (p_reuid r) (p_regid r) (p_resuid r) (p_resgid r) (p_lock r) (p_return_code r) (p_sm r) (p_cmd_line r) (p_env r) (p_cwd r).

Definition zero_context : user_thread_context :=
  Context 0 0 0 0 0 0 0 0 0 0 0 0 0 0 0 0 0 0 0 0 0 [] 0 0.
Definition zero_thread : thread_info :=
  ThreadInfo 0 0 THREAD_NOT_EXIST (Timeval 0 0) 0 0 zero_context 0 0 0 0 CONTEXT_TYPE_ALU (Timeval 0 0) 0.
Definition zero_process : process_info :=
  ProcessInfo 0 PROCESS_NOT_EXIST 0 0 0 0 0 0 0 0 0 (replicate 64 0) 0 0 0 0 0 0 0 0 0 0 (replicate 64 0) [] [] [].

(** The shared kernel state. *)
Record kstate := KState {
  memory_map : gmap Z Z;
  ram : gmap Z Z;
  processes_cr3_ptr : gmap Z Z;
  processes_info_ptr : gmap Z Z;
  process_heap : gmap Z process_info;
  threads_info_ptr : gmap Z thread_info;
  gs8 : Z;
  gs16 : Z;
  gs24 : Z;
  gs_base_msr : Z;
  current_tick : Z;
  threads_info_lock : Z;
  threads_info_lock1 : Z;
  threads_info_lock2 : Z;
  processes_info_lock : Z;
  sse_mode : Z
}.
Definition set_memory_map (v : gmap Z Z) (r : kstate) : kstate :=
  KState v (ram r) (processes_cr3_ptr r) (processes_info_ptr r) (process_heap r) (threads_info_ptr r) (gs8 r) (gs16 r) (gs24 r) (gs_base_msr r) (current_tick r) (threads_info_lock r) (threads_info_lock1 r) (threads_info_lock2 r) (processes_info_lock r) (sse_mode r).
Definition set_ram (v : gmap Z Z) (r : kstate) : kstate :=
  KState (memory_map r) v (processes_cr3_ptr r) (processes_info_ptr r) (process_heap r) (threads_info_ptr r) (gs8 r) (gs16 r) (gs24 r) (gs_base_msr r) (current_tick r) (threads_info_lock r) (threads_info_lock1 r) (threads_info_lock2 r) (processes_info_lock r) (sse_mode r).
Definition set_processes_cr3_ptr (v : gmap Z Z) (r : kstate) : kstate :=
  KState (memory_map r) (ram r) v (processes_info_ptr r) (process_heap r) (threads_info_ptr r) (gs8 r) (gs16 r) (gs24 r) (gs_base_msr r) (current_tick r) (threads_info_lock r) (threads_info_lock1 r) (threads_info_lock2 r) (processes_info_lock r) (sse_mode r).
Definition set_processes_info_ptr (v : gmap Z Z) (r : kstate) : kstate :=
  KState (memory_map r) (ram r) (processes_cr3_ptr r) v (process_heap r) (threads_info_ptr r) (gs8 r) (gs16 r) (gs24 r) (gs_base_msr r) (current_tick r) (threads_info_lock r) (threads_info_lock1 r) (threads_info_lock2 r) (processes_info_lock r) (sse_mode r).
Definition set_process_heap (v : gmap Z process_info) (r : kstate) : kstate :=
  KState (memory_map r) (ram r) (processes_cr3_ptr r) (processes_info_ptr r) v (threads_info_ptr r) (gs8 r) (gs16 r) (gs24 r) (gs_base_msr r) (current_tick r) (threads_info_lock r) (threads_info_lock1 r) (threads_info_lock2 r) (processes_info_lock r) (sse_mode r).
Definition set_threads_info_ptr (v : gmap Z thread_info) (r : kstate) : kstate :=
  KState (memory_map r) (ram r) (processes_cr3_ptr r) (processes_info_ptr r) (process_heap r) v (gs8 r) (gs16 r) (gs24 r) (gs_base_msr r) (current_tick r) (threads_info_lock r) (threads_info_lock1 r) (threads_info_lock2 r) (processes_info_lock r) (sse_mode r).
Definition set_gs8 (v : Z) (r : kstate) : kstate :=
  KState (memory_map r) (ram r) (processes_cr3_ptr r) (processes_info_ptr r) (process_heap r) (threads_info_ptr r) v (gs16 r) (gs24 r) (gs_base_msr r) (current_tick r) (threads_info_lock r) (threads_info_lock1 r) (threads_info_lock2 r) (processes_info_lock r) (sse_mode r).
Definition set_gs16 (v : Z) (r : kstate) : kstate :=
  KState (memory_map r) (ram r) (processes_cr3_ptr r) (processes_info_ptr r) (process_heap r) (threads_info_ptr r) (gs8 r) v (gs24 r) (gs_base_msr r) (current_tick r) (threads_info_lock r) (threads_info_lock1 r) (threads_info_lock2 r) (processes_info_lock r) (sse_mode r).
Definition set_gs24 (v : Z) (r : kstate) : kstate :=
  KState (memory_map r) (ram r) (processes_cr3_ptr r) (processes_info_ptr r) (process_heap r) (threads_info_ptr r) (gs8 r) (gs16 r) v (gs_base_msr r) (current_tick r) (threads_info_lock r) (threads_info_lock1 r) (threads_info_lock2 r) (processes_info_lock r) (sse_mode r).
Definition set_gs_base_msr (v : Z) (r : kstate) : kstate :=
  KState (memory_map r) (ram r) (processes_cr3_ptr r) (processes_info_ptr r) (process_heap r) (threads_info_ptr r) (gs8 r) (gs16 r) (gs24 r) v (current_tick r) (threads_info_lock r) (threads_info_lock1 r) (threads_info_lock2 r) (processes_info_lock r) (sse_mode r).
Definition set_current_tick (v : Z) (r : kstate) : kstate :=
  KState (memory_map r) (ram r) (processes_cr3_ptr r) (processes_info_ptr r) (process_heap r) (threads_info_ptr r) (gs8 r) (gs16 r) (gs24 r) (gs_base_msr r) v (threads_info_lock r) (threads_info_lock1 r) (threads_info_lock2 r) (processes_info_lock r) (sse_mode r).
Definition set_threads_info_lock (v : Z) (r : kstate) : kstate :=
  KState (memory_map r) (ram r) (processes_cr3_ptr r) (processes_info_ptr r) (process_heap r) (threads_info_ptr r) (gs8 r) (gs16 r) (gs24 r) (gs_base_msr r) (current_tick r) v (threads_info_lock1 r) (threads_info_lock2 r) (processes_info_lock r) (sse_mode r).
Definition set_threads_info_lock1 (v : Z) (r : kstate) : kstate :=
  KState (memory_map r) (ram r) (processes_cr3_ptr r) (processes_info_ptr r) (process_heap r) (threads_info_ptr r) (gs8 r) (gs16 r) (gs24 r) (gs_base_msr r) (current_tick r) (threads_info_lock r) v (threads_info_lock2 r) (processes_info_lock r) (sse_mode r).
Definition set_threads_info_lock2 (v : Z) (r : kstate) : kstate :=
  KState (memory_map r) (ram r) (processes_cr3_ptr r) (processes_info_ptr r) (process_heap r) (threads_info_ptr r) (gs8 r) (gs16 r) (gs24 r) (gs_base_msr r) (current_tick r) (threads_info_lock r) (threads_info_lock1 r) v (processes_info_lock r) (sse_mode r).
Definition set_processes_info_lock (v : Z) (r : kstate) : kstate :=
  KState (memory_map r) (ram r) (processes_cr3_ptr r) (processes_info_ptr r) (process_heap r) (threads_info_ptr r) (gs8 r) (gs16 r) (gs24 r) (gs_base_msr r) (current_tick r) (threads_info_lock r) (threads_info_lock1 r) (threads_info_lock2 r) v (sse_mode r).
Definition set_sse_mode (v : Z) (r : kstate) : kstate :=
  KState (memory_map r) (ram r) (processes_cr3_ptr r) (processes_info_ptr r) (process_heap r) (threads_info_ptr r) (gs8 r) (gs16 r) (gs24 r) (gs_base_msr r) (current_tick r) (threads_info_lock r) (threads_info_lock1 r) (threads_info_lock2 r) (processes_info_lock r) v.

Definition boot_state : kstate := KState ∅ ∅ ∅ ∅ ∅ ∅ 0 0 0 0 0 0 0 0 0 0.

(** What the boot loader and the linker fix. *)
Class Machine := {
  total_memory_blocks_count : Z;
  end_kernel : Z;
  page_table_l4 : Z;
  page_table_l4_b : Z
}.

(** ** Field access through the tables *)
Definition read_map (k : kstate) (i : Z) : Z := default 0 (memory_map k !! i).
Definition read_ram (k : kstate) (a : Z) : Z := default 0 (ram k !! a).
Definition write_ram (a v : Z) (k : kstate) : kstate := set_ram (<[a := v]> (ram k)) k.
Definition cr3_of (k : kstate) (pid : Z) : Z := default 0 (processes_cr3_ptr k !! pid).
Definition proc_slot (k : kstate) (pid : Z) : Z := default 0 (processes_info_ptr k !! pid).
(** [processes_info_ptr[pid]->...]: [None] when the slot holds no structure. *)
Definition proc (k : kstate) (pid : Z) : option process_info := process_heap k !! proc_slot k pid.
Definition thread (k : kstate) (tid : Z) : option thread_info := threads_info_ptr k !! tid.
Definition upd_thread (tid : Z) (f : thread_info -> thread_info) (k : kstate) : kstate :=
  set_threads_info_ptr (alter f tid (threads_info_ptr k)) k.
Definition upd_proc (pid : Z) (f : process_info -> process_info) (k : kstate) : kstate :=
  set_process_heap (alter f (proc_slot k pid) (process_heap k)) k.

(** [get_current_thread_id] reads GS:8, [get_current_pid] follows it. *)
Definition get_current_thread_id (k : kstate) : Z := gs8 k.
Definition get_current_pid : ST kstate Z :=
  tid ← gets get_current_thread_id;
  t ← (gets (fun k => thread k tid) ≫= deref);
  mret (t_pid t).
