(* ===== verification/Blocks.v ===== *)
(** * Blocks: the block allocator and free-slot search, src/core/scheduler.h

    Physical memory is handed out in 4096-byte blocks; the byte map that starts
    at [end_kernel] holds 1 for a used block and 0 for a free one. *)
From Stdlib Require Import Sorting.Sorted.
From S2P Require Import Prelude MemLib Time KState.
Open Scope Z_scope.

(** ** Definitions *)

(** Byte [i] of a 64-bit word, and the word with that byte replaced. *)
Definition byte_at (w i : Z) : Z := (w / 2 ^ (8 * i)) mod 256.
Definition put_byte (w i v : Z) : Z := w + (v - byte_at w i) * 2 ^ (8 * i).
(** The byte of memory at address [a]; memory is kept as 64-bit words. *)
Definition ram_byte (k : kstate) (a : Z) : Z := byte_at (read_ram k (a - a mod 8)) (a mod 8).
Definition set_ram_byte (a v : Z) (k : kstate) : kstate :=
  write_ram (a - a mod 8) (put_byte (read_ram k (a - a mod 8)) (a mod 8) v) k.

Section Map.
Context {M : Machine}.

(** [tmp[index]] where [tmp] is [&memory_map], which is [end_kernel]: the
    map has a byte per block, and an index past it reaches the memory behind. *)
Definition map_byte (k : kstate) (index : Z) : Z :=
  if index <? total_memory_blocks_count then read_map k index
  else ram_byte k (end_kernel + index).

Definition set_memory_block_used_when_boot (index : Z) (used : bool) (k : kstate) : kstate :=
  let v := if used then 1 else 0 in
  if index <? total_memory_blocks_count then set_memory_map (<[index := v]> (memory_map k)) k
  else set_ram_byte (end_kernel + index) v k.
End Map.

Definition div_ceil (var_1 var_2 : Z) : Z :=
  let result := var_1 / var_2 in
  if 0 <? var_1 mod var_2 then u64 (result + 1) else result.

Section Allocator.
Context {M : Machine}.

(** [for (i = 0; i < n; i++) set_memory_block_used_when_boot(i0 + i, true);] *)
Fixpoint mark_blocks (n : nat) (i : Z) (k : kstate) : kstate :=
  match n with
  | O => k
  | S n' => mark_blocks n' (i + 1) (set_memory_block_used_when_boot i true k)
  end.

Definition mark_reserved_blocks_as_used (k : kstate) : kstate :=
  let total_kernel_mem_blocks_count := div_ceil (end_kernel - HM) 4096 in
  let total_blocks_of_memory_map := div_ceil total_memory_blocks_count 4096 in
  mark_blocks (Z.to_nat (total_kernel_mem_blocks_count + total_blocks_of_memory_map)) 0 k.

Definition kernel_blocks : Z := (end_kernel - HM) / 4096.

Definition get_a_free_block : ST kstate Z := fun k =>
  match find_idx (Z.to_nat (total_memory_blocks_count - kernel_blocks)) kernel_blocks
          (fun i => read_map k i =? 0) with
  | Some i => Done (i, set_memory_block_used_when_boot i true k)
  | None => Panicked
  end.

Definition get_a_free_block_addr : ST kstate Z :=
  b ← get_a_free_block; mret (u64 (b * 4096 + HM)).

(** The inner loop: are the [length] bytes from [i] on all zero? *)
Definition run_free (k : kstate) (length i : Z) : bool :=
  bool_decide (find_idx (Z.to_nat length) i (fun j => negb (map_byte k j =? 0)) = None).

Definition get_continuous_free_blocks (length : Z) : ST kstate Z := fun k =>
  match find_idx (Z.to_nat (total_memory_blocks_count - kernel_blocks)) kernel_blocks
          (run_free k length) with
  | Some i => Done (i, mark_blocks (Z.to_nat length) i k)
  | None => Panicked
  end.
End Allocator.

(** [get_a_free_slot]: the table is given by its entries; [None] is the panic.
    The last index tried is [stop] itself. *)
Definition get_a_free_slot (map_int : Z -> Z) (start stop : Z) : option Z :=
  find_idx (Z.to_nat (stop + 1 - start)) start (fun i => map_int i =? 0).

(** [get_a_free_slot_with_size]: the first unit of zero bytes; [stop] counts
    bytes, the result counts units. *)
Fixpoint free_slot_loop (fuel : nat) (m : mem) (map_addr i stop unit_byte_size : Z) : option Z :=
  match fuel with
  | O => None
  | S f =>
      if i + unit_byte_size <=? stop then
        if bool_decide (find_idx (Z.to_nat unit_byte_size) 0
                          (fun j => negb (ld m (map_addr + i + j) =? 0)) = None)
        then Some (i / unit_byte_size)
        else free_slot_loop f m map_addr (i + unit_byte_size) stop unit_byte_size
      else None
  end.
Definition get_a_free_slot_with_size (m : mem) (map_addr start stop unit_byte_size : Z) : option Z :=
  free_slot_loop (Z.to_nat (stop - start + 1)) m map_addr start stop unit_byte_size.

Definition calc_section_blocks_count (section_start_addr section_stop_addr : Z) : Z :=
  div_ceil (u64 (section_stop_addr - section_start_addr)) 4096.

(** The bounds of the linker sections of the first process. *)
Record seed_sections := SeedSections {
  seed_text : Z * Z; seed_data : Z * Z; seed_bss : Z * Z; seed_rodata : Z * Z; seed_heap : Z * Z
}.
Definition calc_process_seed_blocks_count (s : seed_sections) : Z :=
  let count p := calc_section_blocks_count (fst p) (snd p) in
  u64 (count (seed_text s) + count (seed_data s) + count (seed_bss s)
       + count (seed_rodata s) + count (seed_heap s)).

(** ** Lemmas *)
Section BlockLemmas.
Context {M : Machine}.

(** Clearing the top byte of a word. *)
Lemma put_byte_top w : 0 <= w < 2 ^ 64 -> put_byte w 7 0 = w mod 2 ^ 56.
Proof.
  intros Hw. unfold put_byte, byte_at. change (8 * 7) with 56. rewrite (Z.mod_small (w / 2 ^ 56)).
  - pose proof (Z_div_mod_eq_full w (2 ^ 56)). lia.
  - split; [apply Z.div_pos; lia|apply Z.div_lt_upper_bound; lia].
Qed.

Lemma put_byte_range w i v : 0 <= w < 2 ^ 64 -> 0 <= i < 8 -> 0 <= v < 256 -> 0 <= put_byte w i v < 2 ^ 64.
Proof.
  intros Hw Hi Hv. unfold put_byte, byte_at. set (P := 2 ^ (8 * i)).
  assert (0 < P) by (apply Z.pow_pos_nonneg; lia).
  assert (2 ^ 64 = P * (256 * 2 ^ (56 - 8 * i))) as HP.
  { unfold P. change 256 with (2 ^ 8). rewrite <- !Z.pow_add_r by lia. f_equal. lia. }
  assert (0 < 2 ^ (56 - 8 * i)) by (apply Z.pow_pos_nonneg; lia).
  pose proof (Z_div_mod_eq_full w P). pose proof (Z.mod_pos_bound w P).
  pose proof (Z_div_mod_eq_full (w / P) 256). pose proof (Z.mod_pos_bound (w / P) 256).
  assert (0 <= w / P) by (apply Z.div_pos; lia).
  assert (w / P < 256 * 2 ^ (56 - 8 * i)) by (apply Z.div_lt_upper_bound; lia).
  assert (w / P / 256 < 2 ^ (56 - 8 * i)) by (apply Z.div_lt_upper_bound; lia).
  assert (0 <= w / P / 256) by (apply Z.div_pos; lia). nia.
Qed.

(** The map after a write to it: an index past its end leaves it alone. *)
Lemma read_map_write i j b k :
  read_map (set_memory_block_used_when_boot i b k) j =
  if (j =? i) && (i <? total_memory_blocks_count) then (if b then 1 else 0) else read_map k j.
Proof.
  unfold set_memory_block_used_when_boot. cbv zeta. destruct (i <? total_memory_blocks_count).
  - unfold read_map. cbn. rewrite lookup_insert, andb_true_r.
    destruct (Z.eqb_spec j i); case_decide; congruence || done.
  - by rewrite andb_false_r.
Qed.
Lemma read_map_set i j b k : i < total_memory_blocks_count ->
  read_map (set_memory_block_used_when_boot i b k) j =
  if j =? i then (if b then 1 else 0) else read_map k j.
Proof. intros Hi. rewrite read_map_write. destruct (Z.ltb_spec i total_memory_blocks_count); [|lia]. by rewrite andb_true_r. Qed.
Lemma read_map_past i j b k : total_memory_blocks_count <= i ->
  read_map (set_memory_block_used_when_boot i b k) j = read_map k j.
Proof. intros Hi. rewrite read_map_write. destruct (Z.ltb_spec i total_memory_blocks_count); [lia|]. by rewrite andb_false_r. Qed.
Lemma set_block_in i b k : i < total_memory_blocks_count ->
  set_memory_block_used_when_boot i b k = set_memory_map (<[i := if b then 1 else 0]> (memory_map k)) k.
Proof. intros Hi. unfold set_memory_block_used_when_boot. by destruct (Z.ltb_spec i total_memory_blocks_count); [|lia]. Qed.

(** The state after the allocation of block [b]. *)
Definition mark_used (b : Z) (k : kstate) : kstate := set_memory_map (<[b := 1]> (memory_map k)) k.
Lemma read_map_used b k j : read_map (mark_used b k) j = if j =? b then 1 else read_map k j.
Proof.
  unfold read_map. cbn. rewrite lookup_insert. destruct (Z.eqb_spec j b); case_decide; congruence || done.
Qed.
Lemma set_block_used b k : b < total_memory_blocks_count -> set_memory_block_used_when_boot b true k = mark_used b k.
Proof. apply set_block_in. Qed.

Lemma mark_blocks_read n i k j :
  read_map (mark_blocks n i k) j =
  if (i <=? j) && (j <? i + Z.of_nat n) && (j <? total_memory_blocks_count) then 1 else read_map k j.
Proof.
  revert i k. induction n as [|n IH]; intros i k; cbn [mark_blocks].
  - repeat ztest; cbn; try lia; done.
  - rewrite IH, read_map_write. repeat (ztest; cbn [andb]); try lia; done.
Qed.

(** Only the map of blocks and the words of memory differ. *)
Definition mem_only (k k' : kstate) : Prop := exists m r, k' = set_ram r (set_memory_map m k).
Lemma mem_only_refl k : mem_only k k.
Proof. exists (memory_map k), (ram k). by destruct k. Qed.
Lemma mem_only_trans k1 k2 k3 : mem_only k1 k2 -> mem_only k2 k3 -> mem_only k1 k3.
Proof. intros (m & r & ->) (m' & r' & ->). exists m', r'. done. Qed.
Lemma set_block_mem_only i b k : mem_only k (set_memory_block_used_when_boot i b k).
Proof.
  unfold set_memory_block_used_when_boot. cbv zeta. case_match.
  - by exists (<[i := if b then 1 else 0]> (memory_map k)), (ram k).
  - exists (memory_map k). by eexists.
Qed.

(** Marking changes the map and the words of memory only. *)
Lemma set_block_frame {A} (f : kstate -> A) i b k :
  (forall m k', f (set_memory_map m k') = f k') -> (forall r k', f (set_ram r k') = f k') ->
  f (set_memory_block_used_when_boot i b k) = f k.
Proof. intros Hm Hr. unfold set_memory_block_used_when_boot. cbv zeta. case_match; [apply Hm|apply Hr]. Qed.
Lemma mark_blocks_frame {A} (f : kstate -> A) n i k :
  (forall m k', f (set_memory_map m k') = f k') -> (forall r k', f (set_ram r k') = f k') ->
  f (mark_blocks n i k) = f k.
Proof.
  intros Hm Hr. revert i k. induction n as [|n IH]; intros i k; cbn [mark_blocks]; [done|].
  rewrite IH. by apply set_block_frame.
Qed.
(** Inside the map no word of memory changes. *)
Lemma mark_blocks_ram n i k : i + Z.of_nat n <= total_memory_blocks_count -> ram (mark_blocks n i k) = ram k.
Proof.
  revert i k. induction n as [|n IH]; intros i k Hn; cbn [mark_blocks]; [done|].
  rewrite IH, set_block_in by lia. done.
Qed.

Lemma map_byte_in k j : j < total_memory_blocks_count -> map_byte k j = read_map k j.
Proof. intros Hj. unfold map_byte. by destruct (Z.ltb_spec j total_memory_blocks_count); [|lia]. Qed.

Lemma run_free_spec k length i :
  run_free k length i = true <->
  (forall j, i <= j < i + Z.of_nat (Z.to_nat length) -> map_byte k j = 0).
Proof.
  unfold run_free. rewrite bool_decide_eq_true, find_idx_None.
  split; intros H j Hj; specialize (H j Hj); zbool; done || (rewrite H; done).
Qed.

Lemma div_ceil_spec a b : 0 <= a < 2 ^ 63 -> 0 < b -> b * (div_ceil a b - 1) < a <= b * div_ceil a b.
Proof.
  intros Ha Hb. unfold div_ceil. pose proof (Z_div_mod_eq_full a b). pose proof (Z.mod_pos_bound a b Hb).
  assert (0 <= a / b <= a) by (split; [apply Z.div_pos; lia|apply Z.div_le_upper_bound; nia]).
  ztest; [rewrite u64_id by lia; nia|]. assert (a mod b = 0) by lia.
  destruct (Z.eq_dec a 0); nia.
Qed.
End BlockLemmas.

Section AllocLemmas.
Context {M : Machine}.

(** The boot-time reservation. *)
Definition reserved_blocks : Z :=
  div_ceil (end_kernel - HM) 4096 + div_ceil total_memory_blocks_count 4096.
Definition reserved (k : kstate) : Prop :=
  forall i, 0 <= i < reserved_blocks -> i < total_memory_blocks_count -> read_map k i <> 0.

(** Memory sizes of a machine the kernel can address. *)
Definition machine_ok : Prop :=
  HM <= end_kernel < 2 ^ 47 /\ 0 < total_memory_blocks_count < 2 ^ 35 /\
  kernel_blocks <= total_memory_blocks_count.

Lemma get_a_free_block_done k b k' :
  get_a_free_block k = Done (b, k') ->
  kernel_blocks <= b < total_memory_blocks_count /\ read_map k b = 0 /\
  (forall j, kernel_blocks <= j < b -> read_map k j <> 0) /\
  k' = mark_used b k.
Proof.
  unfold get_a_free_block. destruct (find_idx _ _ _) as [i|] eqn:E; [|discriminate].
  intros [= -> <-]. apply find_idx_Some in E as (Hr & Hp & Hl). zbool.
  repeat split; try lia; try done; [|by rewrite set_block_in by lia]. intros j Hj. specialize (Hl j Hj). zbool. done.
Qed.

Lemma get_a_free_block_panic k :
  get_a_free_block k = Panicked <->
  (forall j, kernel_blocks <= j < total_memory_blocks_count -> read_map k j <> 0).
Proof.
  unfold get_a_free_block. destruct (find_idx _ _ _) as [i|] eqn:E.
  - split; [discriminate|]. intros H. apply find_idx_Some in E as (Hr & Hp & _). zbool.
    by destruct (H i ltac:(lia)).
  - split; [|done]. intros _ j Hj. rewrite find_idx_None in E.
    specialize (E j ltac:(lia)). zbool. done.
Qed.

Lemma get_a_free_block_total k :
  (exists j, kernel_blocks <= j < total_memory_blocks_count /\ read_map k j = 0) ->
  exists b k', get_a_free_block k = Done (b, k').
Proof.
  intros (j & Hj & H0). destruct (get_a_free_block k) as [[b k']| | |] eqn:E; [eauto| | |].
  - pose proof (proj1 (get_a_free_block_panic k) E) as HP. by destruct (HP j Hj).
  - unfold get_a_free_block in E. by destruct (find_idx _ _ _).
  - unfold get_a_free_block in E. by destruct (find_idx _ _ _).
Qed.

Lemma kernel_blocks_nonneg : machine_ok -> 0 <= kernel_blocks < 2 ^ 35.
Proof.
  intros (H & _). unfold kernel_blocks, HM in *.
  split; [apply Z.div_pos; lia|apply Z.div_lt_upper_bound; lia].
Qed.

Lemma reserved_alloc k b : reserved k -> reserved (mark_used b k).
Proof. intros H i Hi Ht. rewrite read_map_used. ztest; [done|]. by apply H. Qed.

(** A block past the reservation starts after the kernel image and the map. *)
Lemma reserved_blocks_cover b :
  machine_ok -> reserved_blocks <= b -> end_kernel + total_memory_blocks_count <= HM + b * 4096.
Proof.
  intros (H & Ht & _) Hb. unfold reserved_blocks in Hb.
  assert (0 <= end_kernel - HM < 2 ^ 63) as Hk by (unfold HM in *; lia).
  assert (0 <= total_memory_blocks_count < 2 ^ 63) as Hm by lia.
  pose proof (div_ceil_spec _ 4096 Hk eq_refl). pose proof (div_ceil_spec _ 4096 Hm eq_refl). lia.
Qed.

Lemma mark_reserved_reserved k :
  machine_ok -> reserved (mark_reserved_blocks_as_used k).
Proof.
  intros (H & Ht & _) i Hi Hi'. unfold mark_reserved_blocks_as_used. cbv zeta.
  rewrite mark_blocks_read. fold reserved_blocks.
  repeat (ztest; cbn [andb]); try lia.
Qed.

(** The free blocks, and how an allocation uses one of them up. *)
Definition free_list (k : kstate) : list Z :=
  filter (fun j => read_map k j = 0)
    (seqZ kernel_blocks (total_memory_blocks_count - kernel_blocks)).

Lemma elem_of_free_list k j :
  j ∈ free_list k <-> read_map k j = 0 /\ kernel_blocks <= j < total_memory_blocks_count.
Proof.
  unfold free_list. rewrite list_elem_of_filter, elem_of_seqZ.
  split; intros [H1 H2]; (split; [done|lia]).
Qed.

Lemma filter_ne_length (x : Z) (l : list Z) :
  NoDup l -> x ∈ l -> S (length (filter (fun y => y <> x) l)) = length l.
Proof.
  induction l as [|y l IH]; intros Hn Hx; [by apply elem_of_nil in Hx|].
  apply list.NoDup_cons in Hn as [Hy Hn]. rewrite filter_cons.
  destruct (decide (y = x)) as [->|Hne].
  - rewrite decide_False by (intros H; by apply H). cbn. f_equal.
    f_equal. clear IH Hx Hn. induction l as [|z l IH]; [done|].
    apply not_elem_of_cons in Hy as [Hz Hy]. rewrite filter_cons, decide_True by done. by rewrite IH.
  - rewrite decide_True by done. cbn. f_equal. apply IH; [done|].
    apply elem_of_cons in Hx as [->|]; done.
Qed.

Lemma free_list_alloc k b :
  b ∈ free_list k ->
  S (length (free_list (mark_used b k))) = length (free_list k).
Proof.
  intros Hb. rewrite <- (filter_ne_length b (free_list k)); [|apply list.NoDup_filter, NoDup_seqZ|done].
  do 2 f_equal. unfold free_list at 1 2. rewrite list_filter_filter.
  apply list_filter_iff. intros j. rewrite read_map_used. destruct (Z.eqb_spec j b) as [->|Hne]; [split; [done|intros [Hx _]; by destruct Hx]|]. split; [done|by intros [_ Hx]].
Qed.

Lemma free_list_ext k k' :
  (forall j, read_map k' j = read_map k j) -> free_list k' = free_list k.
Proof. intros H. apply list_filter_iff. intros j. by rewrite H. Qed.

Lemma get_a_free_block_addr_done k :
  machine_ok -> (0 < length (free_list k))%nat ->
  exists b, get_a_free_block_addr k = Done (b * 4096 + HM, mark_used b k) /\
    b ∈ free_list k /\ 0 <= b < 2 ^ 35.
Proof.
  intros Hok Hl. destruct (free_list k) as [|x l] eqn:E; [cbn in Hl; lia|].
  assert (x ∈ free_list k) as Hx by (rewrite E; left).
  apply elem_of_free_list in Hx as [Hx0 Hxr].
  destruct (get_a_free_block_total k) as (b & k' & Eb); [eauto|].
  destruct (get_a_free_block_done k b k' Eb) as (Hb & H0 & _ & ->).
  pose proof (kernel_blocks_nonneg Hok). destruct Hok as (_ & Ht & _).
  exists b. rewrite <- E, elem_of_free_list. split; [|split; [done|lia]].
  unfold get_a_free_block_addr. rewrite (bind_done _ _ _ _ _ Eb).
  cbv [mret st_ret]. rewrite u64_id by (unfold HM; lia). done.
Qed.

Lemma get_a_free_block_addr_inv k a k' :
  machine_ok -> get_a_free_block_addr k = Done (a, k') ->
  exists b, a = b * 4096 + HM /\ k' = mark_used b k /\
    read_map k b = 0 /\ 0 <= b < 2 ^ 35 /\ b < total_memory_blocks_count.
Proof.
  intros Hok E. unfold get_a_free_block_addr in E.
  apply bind_done_inv in E as (b & k1 & Eb & E). injection E as <- <-.
  destruct (get_a_free_block_done k b k1 Eb) as (Hb & H0 & _ & ->).
  pose proof (kernel_blocks_nonneg Hok). destruct Hok as (_ & Ht & _).
  exists b. rewrite u64_id by (unfold HM; lia). repeat split; try done; lia.
Qed.

(** A run of allocations. *)
Fixpoint alloc_many (n : nat) : ST kstate (list Z) :=
  match n with
  | O => mret []
  | S n' => b ← get_a_free_block; bs ← alloc_many n'; mret (b :: bs)
  end.

Lemma alloc_many_sorted n k bs k' :
  alloc_many n k = Done (bs, k') ->
  (forall b, b ∈ bs -> kernel_blocks <= b < total_memory_blocks_count /\ read_map k b = 0) /\
  StronglySorted Z.lt bs /\
  (forall j, read_map k' j = if bool_decide (j ∈ bs) then 1 else read_map k j).
Proof.
  revert k bs. induction n as [|n IH]; intros k bs E; cbn [alloc_many] in E.
  - injection E as <- <-. split; [|split; [constructor|]].
    + intros b Hb. by apply elem_of_nil in Hb.
    + intros j. by rewrite bool_decide_false by apply not_elem_of_nil.
  - apply bind_done_inv in E as (b & k1 & E1 & E). apply bind_done_inv in E as (bs' & k2 & E2 & E).
    injection E as <- <-. apply get_a_free_block_done in E1 as (Hb & H0 & Hl & ->).
    destruct (IH _ _ E2) as (Ha & Hs & Hm). clear IH.
    assert (Hfree : forall x, x ∈ bs' -> x <> b /\ read_map k x = 0).
    { intros x Hx. destruct (Ha x Hx) as [_ H1]. rewrite read_map_used in H1.
      destruct (Z.eqb_spec x b); done. }
    split; [|split].
    + intros x [->|Hx]%elem_of_cons; [done|]. split; [by apply Ha|by apply Hfree].
    + constructor; [done|]. apply list.Forall_forall. intros x Hx.
      destruct (Hfree x Hx) as [Hne Hx0]. destruct (Ha x Hx) as [Hxr _].
      destruct (Z.lt_trichotomy x b) as [Hlt|[->|Hgt]]; [|done|done].
      by destruct (Hl x ltac:(lia)).
    + intros j. rewrite Hm, read_map_used.
      destruct (bool_decide_reflect (j ∈ bs')).
      * rewrite bool_decide_true; [done|]. by right.
      * destruct (Z.eqb_spec j b) as [->|].
        -- rewrite bool_decide_true; [done|]. by left.
        -- rewrite bool_decide_false; [done|]. intros [?|?]%elem_of_cons; done.
Qed.

Lemma get_continuous_done length k i k' :
  0 <= length -> get_continuous_free_blocks length k = Done (i, k') ->
  kernel_blocks <= i < total_memory_blocks_count /\
  (forall j, i <= j < i + length -> map_byte k j = 0) /\
  (forall i', kernel_blocks <= i' < i -> exists j, i' <= j < i' + length /\ map_byte k j <> 0) /\
  (forall j, j < total_memory_blocks_count ->
     read_map k' j = if (i <=? j) && (j <? i + length) then 1 else read_map k j).
Proof.
  intros Hl. unfold get_continuous_free_blocks.
  destruct (find_idx _ _ _) as [i0|] eqn:E; [|discriminate]. intros [= -> <-].
  apply find_idx_Some in E as (Hr & Hp & Hmin). rewrite run_free_spec, Z2Nat.id in Hp by lia. repeat split; try lia; try done.
  - intros i' Hi'. specialize (Hmin i' Hi'). unfold run_free in Hmin.
    apply bool_decide_eq_false in Hmin.
    destruct (find_idx (Z.to_nat length) i' _) as [j|] eqn:Ej; [|done].
    apply find_idx_Some in Ej as (Hj & Hn & _). zbool. exists j. split; [lia|done].
  - intros j Hj. rewrite mark_blocks_read, Z2Nat.id by lia. destruct (Z.ltb_spec j total_memory_blocks_count); [|lia].
    by rewrite andb_true_r.
Qed.
End AllocLemmas.

(** ** Properties *)

(** [get_a_free_block] returns the first free block past the kernel,
    marks that block and nothing else, and panics exactly when no block is
    free. *)
Theorem get_a_free_block_first_fit {M : Machine} (k : kstate) :
  match get_a_free_block k with
  | Done (b, k') =>
      kernel_blocks <= b < total_memory_blocks_count /\ read_map k b = 0 /\
      (forall j, kernel_blocks <= j < b -> read_map k j <> 0) /\
      (forall j, read_map k' j = if j =? b then 1 else read_map k j) /\
      k' = set_memory_map (memory_map k') k
  | Panicked => forall j, kernel_blocks <= j < total_memory_blocks_count -> read_map k j <> 0
  | _ => False
  end.
Proof.
  destruct (get_a_free_block k) as [[b k']| | |] eqn:E.
  - apply get_a_free_block_done in E as (Hb & H0 & Hl & ->). repeat split; try done; try lia.
    intros j. apply read_map_used.
  - by apply (proj1 (get_a_free_block_panic k)).
  - unfold get_a_free_block in E. by destruct (find_idx _ _ _).
  - unfold get_a_free_block in E. by destruct (find_idx _ _ _).
Qed.

(** C12: After the boot-time reservation, a sequence of allocations returns
    pairwise different blocks, all free before, none overlapping the kernel
    image or the memory map; and the reservation still holds. *)
Theorem allocations_disjoint {M : Machine} (k0 : kstate) (n : nat) (bs : list Z) (k' : kstate) :
  machine_ok ->
  alloc_many n (mark_reserved_blocks_as_used k0) = Done (bs, k') ->
  NoDup bs /\ reserved k' /\
  (forall b, b ∈ bs ->
     end_kernel + total_memory_blocks_count <= HM + b * 4096 /\ b < total_memory_blocks_count /\
     read_map (mark_reserved_blocks_as_used k0) b = 0 /\ read_map k' b = 1).
Proof.
  intros HM E. pose proof (mark_reserved_reserved k0 HM) as HR.
  destruct (alloc_many_sorted _ _ _ _ E) as (Ha & Hs & Hm). split; [|split].
  - clear -Hs. induction Hs as [|b l Hs IH Hf]; constructor; [|done].
    intros Hin. rewrite list.Forall_forall in Hf. specialize (Hf b Hin). lia.
  - intros i Hi Ht. rewrite Hm. case_bool_decide; [done|]. by apply HR.
  - intros b Hb. destruct (Ha b Hb) as [Hr H0]. repeat split; try lia; try done.
    + apply reserved_blocks_cover; [done|].
      destruct (Z.le_gt_cases reserved_blocks b); [done|].
      pose proof (kernel_blocks_nonneg HM). by destruct (HR b ltac:(lia) ltac:(lia)).
    + rewrite Hm. by rewrite bool_decide_true by done.
Qed.

(** [get_continuous_free_blocks] returns the start of the first run of
    free map bytes of that length past the kernel and marks exactly that run. *)
Theorem get_continuous_first_run {M : Machine} (length : Z) (k : kstate) (i : Z) (k' : kstate) :
  0 <= length -> get_continuous_free_blocks length k = Done (i, k') ->
  kernel_blocks <= i < total_memory_blocks_count /\
  (forall j, i <= j < i + length -> map_byte k j = 0) /\
  (forall i', kernel_blocks <= i' < i -> exists j, i' <= j < i' + length /\ map_byte k j <> 0) /\
  (forall j, j < total_memory_blocks_count ->
     read_map k' j = if (i <=? j) && (j <? i + length) then 1 else read_map k j).
Proof. apply get_continuous_done. Qed.

(** The machine of the witnesses: 64 blocks, the kernel in the first 3. *)
Definition small_machine : Machine := {|
  total_memory_blocks_count := 64; end_kernel := HM + 3 * 4096 + 96;
  page_table_l4 := 0x1000; page_table_l4_b := 0x2000 |}.

(** The run is only required to start inside memory: with a single free
    block left, a request for five blocks is granted four blocks that do not
    exist. *)
Theorem get_continuous_overruns_memory :
  let k := @mark_blocks small_machine 63 0 boot_state in
  exists k', @get_continuous_free_blocks small_machine 5 k = Done (63, k') /\
    63 + 5 > @total_memory_blocks_count small_machine.
Proof.
  cbv zeta. eexists. split; [vm_compute; reflexivity|]. cbn. lia.
Qed.

(** [get_a_free_slot] tries the index [stop] too, one past a table of
    [stop] entries: on a full table it looks at, and may return, the word that
    follows the table. *)
Theorem get_a_free_slot_spec (map_int : Z -> Z) (start stop : Z) :
  0 <= start <= stop ->
  (forall i, start <= i < stop -> map_int i <> 0) ->
  get_a_free_slot map_int start stop = if map_int stop =? 0 then Some stop else None.
Proof.
  intros Hs Hfull. unfold get_a_free_slot.
  destruct (find_idx _ _ _) as [j|] eqn:E.
  - apply find_idx_Some in E as (Hr & Hp & _). zbool.
    destruct (Z.eq_dec j stop) as [->|]; [by rewrite Hp|]. by destruct (Hfull j ltac:(lia)).
  - rewrite find_idx_None in E. by rewrite (E stop ltac:(lia)).
Qed.

(** *** Witnesses *)
Lemma small_machine_ok : @machine_ok small_machine.
Proof. unfold machine_ok, kernel_blocks, small_machine, HM; cbn. vm_compute. repeat split; discriminate. Qed.

Lemma allocations_disjoint_witness :
  exists k', @alloc_many small_machine 3 (@mark_reserved_blocks_as_used small_machine boot_state)
             = Done ([5; 6; 7], k') /\ NoDup [5; 6; 7].
Proof.
  eexists. split; [vm_compute; reflexivity|].
  eapply (@allocations_disjoint small_machine boot_state 3); [apply small_machine_ok|].
  vm_compute. reflexivity.
Defined.

Lemma get_continuous_first_run_witness :
  exists k', @get_continuous_free_blocks small_machine 5 (@mark_blocks small_machine 10 0 boot_state) = Done (10, k') /\
    read_map k' 14 = 1.
Proof.
  eexists. split; [vm_compute; reflexivity|].
  eapply (@get_continuous_first_run small_machine 5 (@mark_blocks small_machine 10 0 boot_state) 10);
    [lia|vm_compute; reflexivity|vm_compute; reflexivity].
Defined.

Lemma get_a_free_slot_spec_witness :
  get_a_free_slot (fun i => if i <? 4 then 1 else 0) 1 4 = Some 4.
Proof.
  apply (get_a_free_slot_spec (fun i => if i <? 4 then 1 else 0) 1 4); [lia|].
  intros i Hi. cbn. destruct (Z.ltb_spec i 4); lia.
Defined.
