(* ===== verification/Paging.v ===== *)
(** * Paging: four-level page tables, src/core/scheduler.h

    Page tables are arrays of 512 words in [ram], addressed through the
    kernel's high mapping [HM].  The operations are the code's: walk, map one
    page ([increase_paging_of_process_with_virt_addr]), unmap one page,
    search a free region, build the table of a process. *)
From S2P Require Import Prelude MemLib Time KState Blocks.
Open Scope Z_scope.

(** ** Definitions *)
Definition page_line_to_addr (pageline : Z) : Z := u64 (Z.land pageline 0x000FFFFFFFFFF000 + HM).
Definition pageline_to_low_addr (page_line : Z) : Z := Z.land page_line 0x000FFFFFFFFFF000.

Definition l4_index (virt_addr : Z) : Z := Z.land (Z.shiftr virt_addr 39) 0x1FF.
Definition l3_index (virt_addr : Z) : Z := Z.land (Z.shiftr virt_addr 30) 0x1FF.
Definition l2_index (virt_addr : Z) : Z := Z.land (Z.shiftr virt_addr 21) 0x1FF.
Definition l1_index (virt_addr : Z) : Z := Z.land (Z.shiftr virt_addr 12) 0x1FF.

(** [ptr[i]] for a table of 64-bit words. *)
Definition entry (k : kstate) (ptr i : Z) : Z := read_ram k (ptr + 8 * i).
Definition set_entry (ptr i v : Z) (k : kstate) : kstate := write_ram (ptr + 8 * i) v k.

Definition pte (addr : Z) : Z := Z.lor (Z.lor (Z.lor (addr - HM) PTE_PRESENT) PTE_RW) PTE_USER.

Fixpoint erase_words (n : nat) (ptr i : Z) (r : gmap Z Z) : gmap Z Z :=
  match n with
  | O => r
  | S n' => erase_words n' ptr (i + 1) (<[ptr + 8 * i := 0]> r)
  end.
Definition erase_block (ptr : Z) (k : kstate) : kstate :=
  set_ram (erase_words 512 ptr 0 (ram k)) k.

Definition block_empty (k : kstate) (addr : Z) : bool :=
  bool_decide (find_idx 512 0 (fun i => negb (entry k addr i =? 0)) = None).

Section Paging.
Context {M : Machine}.

(** One level of the walk of [increase_paging_...]: the table below entry
    [i], allocated and cleared if there is none. *)
Definition next_table (ptr i : Z) : ST kstate Z :=
  e ← gets (fun k => entry k ptr i);
  if e =? 0 then
    new_block_addr ← get_a_free_block_addr;
    _ ← modify (erase_block new_block_addr);
    _ ← modify (set_entry ptr i (pte new_block_addr));
    mret new_block_addr
  else mret (page_line_to_addr e).

(** The result is [None] where the code returns an uninitialised variable. *)
Definition increase_paging_of_process_with_virt_addr (pid virt_addr : Z) : ST kstate (option Z) :=
  l4_ptr ← gets (fun k => cr3_of k pid);
  l3_ptr ← next_table l4_ptr (l4_index virt_addr);
  l2_ptr ← next_table l3_ptr (l3_index virt_addr);
  l1_ptr ← next_table l2_ptr (l2_index virt_addr);
  e ← gets (fun k => entry k l1_ptr (l1_index virt_addr));
  if e =? 0 then
    a ← get_a_free_block_addr;
    _ ← modify (set_entry l1_ptr (l1_index virt_addr) (pte a));
    mret (Some (u64 (a - HM)))
  else mret None.

Definition is_paged (k : kstate) (pid virt_addr : Z) : bool :=
  let tmp4 := entry k (cr3_of k pid) (l4_index virt_addr) in
  if tmp4 =? 0 then false else
  let tmp3 := entry k (page_line_to_addr tmp4) (l3_index virt_addr) in
  if tmp3 =? 0 then false else
  let tmp2 := entry k (page_line_to_addr tmp3) (l2_index virt_addr) in
  if tmp2 =? 0 then false else
  let tmp1 := entry k (page_line_to_addr tmp2) (l1_index virt_addr) in
  if tmp1 =? 0 then false else true.

(** The freed "block index" is the raw page-table entry, as in the code. *)
Definition decrease_paging_of_process_with_virt_addr (pid virt_addr : Z) (k : kstate) : kstate :=
  let l4_i := l4_index virt_addr in let l3_i := l3_index virt_addr in
  let l2_i := l2_index virt_addr in let l1_i := l1_index virt_addr in
  let l4_ptr := cr3_of k pid in
  if entry k l4_ptr l4_i =? 0 then k else
  let l3_ptr := page_line_to_addr (entry k l4_ptr l4_i) in
  if entry k l3_ptr l3_i =? 0 then k else
  let l2_ptr := page_line_to_addr (entry k l3_ptr l3_i) in
  if entry k l2_ptr l2_i =? 0 then k else
  let l1_ptr := page_line_to_addr (entry k l2_ptr l2_i) in
  if entry k l1_ptr l1_i =? 0 then k else
  let k1 := set_entry l1_ptr l1_i 0
              (set_memory_block_used_when_boot (entry k l1_ptr l1_i) false k) in
  if negb (block_empty k1 l1_ptr) then k1 else
  let k2 := set_entry l2_ptr l2_i 0
              (set_memory_block_used_when_boot (entry k1 l2_ptr l2_i) false k1) in
  if negb (block_empty k2 l2_ptr) then k2 else
  let k3 := set_entry l3_ptr l3_i 0
              (set_memory_block_used_when_boot (entry k2 l3_ptr l3_i) false k2) in
  if negb (block_empty k3 l3_ptr) then k3 else
  set_entry l4_ptr l4_i 0 (set_memory_block_used_when_boot (entry k3 l4_ptr l4_i) false k3).

(** The outer loop over start pages; [Stuck] is out of fuel. *)
Fixpoint region_loop (fuel : nat) (k : kstate) (pid blocks_count i : Z) : outcome Z :=
  match fuel with
  | O => Stuck
  | S f =>
      if i <? HM / 4096 - 1 then
        match find_idx (Z.to_nat blocks_count) 0 (fun j => is_paged k pid ((i + j) * 4096)) with
        | None => Done (i * 4096)
        | Some _ => region_loop f k pid blocks_count (i + 1)
        end
      else Done 0
  end.
Definition find_free_virtual_region (fuel : nat) (k : kstate) (pid length : Z) : outcome Z :=
  region_loop fuel k pid (div_ceil length 4096) 1.

(** [create_page_table_for_process]: tables are created in order and data
    blocks from [start_block] on, until [blocks_count] of them are mapped. *)
Definition new_table : ST kstate Z :=
  a ← get_a_free_block_addr; _ ← modify (erase_block a); mret a.

(** The innermost loop: [Some idx] continues with that [block_index],
    [None] is the [goto end_loop]. *)
Fixpoint fill_l1 (n : nat) (i1 l1 block_index blocks_count start_block : Z) : ST kstate (option Z) :=
  match n with
  | O => mret (Some block_index)
  | S n' =>
      let idx := block_index + 1 in
      if blocks_count + start_block <=? idx then mret None
      else if idx <? start_block then fill_l1 n' (i1 + 1) l1 idx blocks_count start_block
      else
        a ← get_a_free_block_addr;
        _ ← modify (set_entry l1 i1 (pte a));
        fill_l1 n' (i1 + 1) l1 idx blocks_count start_block
  end.
(** A loop that creates a table per entry and fills it with [sub]. *)
Fixpoint fill_level (sub : Z -> Z -> ST kstate (option Z)) (n : nat) (i tab block_index : Z)
  : ST kstate (option Z) :=
  match n with
  | O => mret (Some block_index)
  | S n' =>
      t ← new_table;
      _ ← modify (set_entry tab i (pte t));
      r ← sub t block_index;
      match r with
      | Some idx => fill_level sub n' (i + 1) tab idx
      | None => mret None
      end
  end.
Fixpoint copy_kernel_half (n : nat) (i l4 : Z) (k : kstate) : kstate :=
  match n with
  | O => k
  | S n' =>
      copy_kernel_half n' (i + 1) l4
        (set_entry l4 (i + 128) (entry k (page_table_l4_b + HM) i) k)
  end.
Definition create_page_table_for_process (pid blocks_count start_block : Z) : ST kstate unit :=
  current_page_l4 ← new_table;
  _ ← fill_level
        (fun l3 => fill_level
           (fun l2 => fill_level
              (fun l1 idx => fill_l1 512 0 l1 idx blocks_count start_block) 512 0 l2)
           512 0 l3)
        128 0 current_page_l4 (-1);
  _ ← modify (copy_kernel_half 128 0 current_page_l4);
  modify (fun k => set_processes_cr3_ptr (<[pid := current_page_l4]> (processes_cr3_ptr k)) k).
End Paging.

(** ** Entries *)
Definition blk (b : Z) : Z := b * 4096 + HM.

Section Entries.
Lemma entry_set p i v k q j :
  entry (set_entry p i v k) q j = if q + 8 * j =? p + 8 * i then v else entry k q j.
Proof.
  unfold entry, set_entry, read_ram, write_ram. cbn. rewrite lookup_insert.
  destruct (Z.eqb_spec (q + 8 * j) (p + 8 * i)); case_decide; congruence || done.
Qed.

Lemma erase_words_read n ptr i r a :
  default 0 (erase_words n ptr i r !! a) =
  if (ptr + 8 * i <=? a) && (a <? ptr + 8 * (i + Z.of_nat n)) && ((a - ptr) mod 8 =? 0)
  then 0 else default 0 (r !! a).
Proof.
  revert i r. induction n as [|n IH]; intros i r; cbn [erase_words].
  - destruct (Z.leb_spec (ptr + 8 * i) a), (Z.ltb_spec a (ptr + 8 * (i + Z.of_nat 0)));
      cbn [andb]; try lia; done.
  - rewrite IH, lookup_insert. case_decide as Ha.
    + subst a. replace (ptr + 8 * i - ptr) with (i * 8) by lia. rewrite Z.mod_mul by lia.
      repeat (ztest; cbn [andb]); try lia; done.
    + destruct (Z.eqb_spec ((a - ptr) mod 8) 0) as [E|]; [|by rewrite !andb_false_r].
      apply Z.mod_divide in E as [c Hc]; [|lia].
      repeat (ztest; cbn [andb]); try lia; done.
Qed.

Lemma entry_erase_in p k j : 0 <= j < 512 -> entry (erase_block p k) p j = 0.
Proof.
  intros Hj. unfold entry, erase_block, read_ram. cbn -[erase_words]. rewrite erase_words_read.
  replace (p + 8 * j - p) with (j * 8) by lia. rewrite Z.mod_mul by lia.
  repeat (ztest; cbn [andb]); try lia; done.
Qed.

Lemma entry_erase_out p k q j :
  (q + 8 * j < p \/ p + 4096 <= q + 8 * j) -> entry (erase_block p k) q j = entry k q j.
Proof.
  intros H. unfold entry, erase_block, read_ram. cbn -[erase_words]. rewrite erase_words_read.
  destruct (Z.leb_spec (p + 8 * 0) (q + 8 * j)), (Z.ltb_spec (q + 8 * j) (p + 8 * (0 + Z.of_nat 512)));
    cbn [andb]; try lia; done.
Qed.

(** Entries of distinct blocks have distinct addresses. *)
Lemma blk_entry_inj b c i j :
  0 <= i < 512 -> 0 <= j < 512 -> blk b + 8 * i = blk c + 8 * j -> b = c /\ i = j.
Proof. unfold blk. lia. Qed.

Lemma pte_nonzero b : 0 <= b < 2 ^ 40 -> pte (blk b) <> 0.
Proof.
  intros Hb E. unfold pte in E.
  apply Z.lor_eq_0_iff in E as [_ E]. discriminate.
Qed.

Lemma page_line_to_addr_pte b : 0 <= b < 2 ^ 40 -> page_line_to_addr (pte (blk b)) = blk b.
Proof.
  intros Hb. unfold page_line_to_addr.
  assert (Z.land (pte (blk b)) 0x000FFFFFFFFFF000 = b * 4096) as ->.
  { unfold pte, blk. replace (b * 4096 + HM - HM) with (b * 4096) by lia.
    change 0x000FFFFFFFFFF000 with (Z.shiftl (Z.ones 40) 12).
    change 4096 with (2 ^ 12). rewrite <- Z.shiftl_mul_pow2 by lia.
    rewrite <- !Z.lor_assoc. change (Z.lor PTE_PRESENT (Z.lor PTE_RW PTE_USER)) with (Z.ones 3).
    apply Z.bits_inj'. intros n Hn.
    rewrite Z.land_spec, Z.lor_spec, !Z.shiftl_spec by lia.
    rewrite (Z.testbit_ones 3), (Z.testbit_ones 40) by lia.
    destruct (Z.lt_ge_cases n 12).
    - rewrite (Z.testbit_neg_r _ (n - 12)) by lia.
      destruct (Z.leb_spec 0 (n - 12)); [lia|]. cbn [andb]. by rewrite andb_false_r.
    - destruct (Z.ltb_spec n 3); [lia|]. rewrite andb_false_r, orb_false_r.
      destruct (Z.ltb_spec (n - 12) 40), (Z.leb_spec 0 (n - 12)); cbn [andb]; try lia;
        [by rewrite andb_true_r|rewrite andb_false_r].
      symmetry. rewrite <- (Z.mod_small b (2 ^ 40)) by lia. apply Z.mod_pow2_bits_high. lia. }
  apply u64_id. unfold blk, HM. lia.
Qed.
End Entries.

(** ** The tree of tables

    [table k t p]: the table reached from [t] by the indices [p]; a path of
    four indices reaches the mapped frame. *)
Fixpoint table (k : kstate) (t : Z) (p : list Z) : option Z :=
  match p with
  | [] => Some t
  | i :: p' => if entry k t i =? 0 then None else table k (page_line_to_addr (entry k t i)) p'
  end.

(** The path of a virtual address. *)
Definition vpath (virt_addr : Z) : list Z :=
  [l4_index virt_addr; l3_index virt_addr; l2_index virt_addr; l1_index virt_addr].

(** The page-table entries the processor meets on that path, frames and flags:
    the whole translation of the address; it stops at the first empty entry. *)
Fixpoint walk (k : kstate) (t : Z) (p : list Z) : list Z :=
  match p with
  | [] => []
  | i :: p' => entry k t i :: (if entry k t i =? 0 then [] else walk k (page_line_to_addr (entry k t i)) p')
  end.
Definition translation (k : kstate) (pid virt_addr : Z) : list Z := walk k (cr3_of k pid) (vpath virt_addr).

(** Indices of the user half: the first below 128. *)
Definition uindex (p : list Z) (i : Z) : Prop := 0 <= i < (if p is [] then 128 else 512).
Fixpoint upath_aux (first : bool) (p : list Z) : Prop :=
  match p with
  | [] => True
  | i :: p' => 0 <= i < (if first then 128 else 512) /\ upath_aux false p'
  end.
Definition upath (p : list Z) : Prop := (length p <= 4)%nat /\ upath_aux true p.

(** Well-formedness: the tables and frames of the user half are allocated
    blocks, and none is reached by two paths. *)
Record pt_wf {M : Machine} (k : kstate) (cr3 : Z) : Prop := {
  wf_alloc : forall p t, upath p -> table k cr3 p = Some t ->
    exists b, t = blk b /\ kernel_blocks <= b < total_memory_blocks_count /\ read_map k b <> 0;
  wf_inj : forall p q t, upath p -> upath q ->
    table k cr3 p = Some t -> table k cr3 q = Some t -> p = q
}.

Section Tree.
Lemma table_app k t p q :
  table k t (p ++ q) = match table k t p with Some t' => table k t' q | None => None end.
Proof.
  revert t. induction p as [|i p IH]; intros t; cbn [app table]; [done|].
  destruct (entry k t i =? 0); [done|]. apply IH.
Qed.

Lemma table_snoc k t p i :
  table k t (p ++ [i]) =
  match table k t p with
  | Some t' => if entry k t' i =? 0 then None else Some (page_line_to_addr (entry k t' i))
  | None => None
  end.
Proof. rewrite table_app. destruct (table k t p); [|done]. cbn [table]. done. Qed.

Lemma upath_aux_app b p q : upath_aux b (p ++ q) -> upath_aux b p.
Proof.
  revert b. induction p as [|i p IH]; intros b; cbn; [done|]. intros [H1 H2]. split; [done|]. by eapply IH.
Qed.
Lemma upath_app p q : upath (p ++ q) -> upath p.
Proof. intros [Hl H]. rewrite length_app in Hl. split; [lia|]. by eapply upath_aux_app. Qed.

Lemma upath_snoc p i : upath (p ++ [i]) <-> upath p /\ (length p <= 3)%nat /\ uindex p i.
Proof.
  assert (Haux : forall b, upath_aux b (p ++ [i]) <->
    upath_aux b p /\ 0 <= i < (if p is [] then (if b then 128 else 512) else 512)).
  { induction p as [|j p IH]; intros b; cbn; [tauto|]. rewrite IH.
    destruct p; cbn; tauto. }
  unfold upath, uindex. rewrite length_app, Haux. cbn [length].
  destruct p as [|z p]; cbn [length]; split; intros H; destruct_and!; split_and!; try done; lia.
Qed.

Lemma uindex_512 p i : uindex p i -> 0 <= i < 512.
Proof. unfold uindex. destruct p; lia. Qed.

Lemma index_range a : 0 <= Z.land a 0x1FF < 512.
Proof. change 0x1FF with (Z.ones 9). rewrite Z.land_ones by lia. apply Z.mod_pos_bound. lia. Qed.

Lemma l4_index_user virt_addr : 0 <= virt_addr < HM -> 0 <= l4_index virt_addr < 128.
Proof.
  intros H. unfold l4_index. change 0x1FF with (Z.ones 9).
  rewrite Z.land_ones, Z.shiftr_div_pow2 by lia.
  assert (0 <= virt_addr / 2 ^ 39 < 128).
  { unfold HM in H. split; [apply Z.div_pos; lia|apply Z.div_lt_upper_bound; lia]. }
  rewrite Z.mod_small; lia.
Qed.

Lemma upath_vpath virt_addr : 0 <= virt_addr < HM -> upath (vpath virt_addr).
Proof.
  intros H. split; [cbn; lia|]. cbn. pose proof (l4_index_user _ H).
  repeat split; try lia; apply index_range.
Qed.

(** The path determines the page. *)
Lemma vpath_page a b :
  0 <= a < HM -> 0 <= b < HM -> vpath a = vpath b -> a / 4096 = b / 4096.
Proof.
  unfold vpath, l4_index, l3_index, l2_index, l1_index. intros Ha Hb [= E4 E3 E2 E1].
  change 0x1FF with (Z.ones 9) in *. rewrite !Z.land_ones, !Z.shiftr_div_pow2 in * by lia.
  unfold HM in *.
  assert (S : forall x, 0 <= x < 2 ^ 46 -> x / 4096 = (x / 2 ^ 39) mod 2 ^ 9 * 2 ^ 27
     + (x / 2 ^ 30) mod 2 ^ 9 * 2 ^ 18 + (x / 2 ^ 21) mod 2 ^ 9 * 2 ^ 9 + (x / 2 ^ 12) mod 2 ^ 9).
  { clear. intros x Hx. Z.to_euclidean_division_equations. lia. }
  rewrite (S a), (S b) by lia. lia.
Qed.

(** Two states whose tables of the tree differ only in the entry [i] of the
    table at [p]. *)
Definition agree_except (k k' : kstate) (cr3 : Z) (p : list Z) (i : Z) : Prop :=
  forall q t j, upath (q ++ [j]) -> table k cr3 q = Some t ->
    ~ (q = p /\ j = i) -> entry k' t j = entry k t j.

Lemma table_frame k k' cr3 p i q :
  agree_except k k' cr3 p i -> upath q -> ~ (p ++ [i]) `prefix_of` q ->
  table k' cr3 q = table k cr3 q.
Proof.
  intros HA. induction q as [|j q IH] using rev_ind; intros Hu Hn; [done|].
  pose proof (upath_app _ _ Hu) as Hq. rewrite !table_snoc, IH; [|done|].
  - destruct (table k cr3 q) as [t|] eqn:E; [|done].
    rewrite (HA q t j Hu E); [done|]. intros [-> ->]. by apply Hn.
  - intros Hp. apply Hn. by apply prefix_app_r.
Qed.

Lemma not_prefix_self {A} (p : list A) i : ~ (p ++ [i]) `prefix_of` p.
Proof. intros [l Hl]. apply (f_equal length) in Hl. rewrite !length_app in Hl. cbn in Hl. lia. Qed.

Lemma upath_next_index p i j q : upath ((p ++ [i]) ++ j :: q) -> 0 <= j < 512.
Proof.
  intros H. replace ((p ++ [i]) ++ j :: q) with (((p ++ [i]) ++ [j]) ++ q) in H
    by (by rewrite <- app_assoc). apply upath_app in H. apply upath_snoc in H as (_ & _ & H).
  by eapply uindex_512.
Qed.
End Tree.

(** ** The tree gains one table or frame

    [k'] is [k] with the entry [i] of the table at [p] set to a fresh block,
    cleared if tables are to hang below it. *)
Section Grow.
Context {M : Machine} (Mok : machine_ok).
Context (k k' : kstate) (cr3 : Z) (W : pt_wf k cr3).
Context (p : list Z) (i t b : Z).
Context (Hp : upath (p ++ [i])) (Ht : table k cr3 p = Some t) (Hz : entry k t i = 0).
Context (Hb : b ∈ free_list k).
Context (Hset : entry k' t i = pte (blk b)).
Context (Hother : forall c j, 0 <= j < 512 -> c <> b -> ~ (blk c = t /\ j = i) ->
                   entry k' (blk c) j = entry k (blk c) j).
Context (Hclear : (length p <= 2)%nat -> forall j, 0 <= j < 512 -> entry k' (blk b) j = 0).
Context (Hmap : forall j, read_map k' j = if j =? b then 1 else read_map k j).

#[local] Lemma grow_index : 0 <= i < 512 /\ upath p /\ (length p <= 3)%nat.
Proof.
  pose proof (proj1 (upath_snoc p i) Hp) as (H1 & H2 & H3). apply uindex_512 in H3. done.
Qed.

#[local] Lemma grow_block : kernel_blocks <= b < total_memory_blocks_count /\ 0 <= b < 2 ^ 40 /\ read_map k b = 0.
Proof.
  pose proof (kernel_blocks_nonneg Mok). pose proof (proj1 (elem_of_free_list k b) Hb) as [H0 Hr].
  destruct Mok as (_ & Ht' & _). repeat split; try done; lia.
Qed.

Lemma grow_agree : agree_except k k' cr3 p i.
Proof.
  intros q t' j Hq Hq' Hne. destruct grow_index as (Hi & Hup & _). destruct grow_block as (_ & _ & Hfree).
  apply upath_snoc in Hq as (Hq & _ & Hj%uindex_512).
  destruct (wf_alloc _ _ W q t' Hq Hq') as (c & -> & Hc & Hmc).
  apply Hother; [done|by intros ->|]. intros [<- ->]. apply Hne. split; [|done].
  by eapply (wf_inj _ _ W).
Qed.

Lemma grow_new : table k' cr3 (p ++ [i]) = Some (blk b).
Proof.
  destruct grow_index as (Hi & Hup & _). destruct grow_block as (_ & Hb' & _). rewrite table_snoc.
  rewrite (table_frame k k' cr3 p i p grow_agree Hup) by apply not_prefix_self.
  rewrite Ht, Hset. destruct (Z.eqb_spec (pte (blk b)) 0) as [E|_]; [by apply pte_nonzero in E|].
  by rewrite page_line_to_addr_pte.
Qed.

(** The tree afterwards: exactly one new path. *)
Lemma grow_table q :
  upath q -> table k' cr3 q = if decide (q = p ++ [i]) then Some (blk b) else table k cr3 q.
Proof.
  intros Hq. case_decide as E; [subst; apply grow_new|].
  destruct (decide ((p ++ [i]) `prefix_of` q)) as [[r ->]|Hn].
  - destruct r as [|j r]; [by rewrite app_nil_r in E|].
    rewrite (table_app k' cr3 (p ++ [i])), (table_app k cr3 (p ++ [i])), grow_new, table_snoc, Ht, Hz.
    cbn [table Z.eqb].
    rewrite Hclear; [done| |by eapply upath_next_index].
    destruct Hq as [Hl _]. rewrite !length_app in Hl. cbn in Hl. lia.
  - by apply (table_frame k k' cr3 p i q grow_agree).
Qed.

Lemma grow_wf : pt_wf k' cr3.
Proof.
  destruct grow_block as (Hr & Hb' & Hfree).
  assert (Hfresh : forall s, upath s -> table k cr3 s <> Some (blk b)).
  { intros s Hs Es. destruct (wf_alloc _ _ W s _ Hs Es) as (c & Ec & Hc & Hm).
    assert (c = b) by (unfold blk in Ec; lia). by subst. }
  split.
  - intros q t' Hq. rewrite grow_table by done. case_decide.
    + intros [= <-]. exists b. rewrite Hmap, Z.eqb_refl. done.
    + intros Hq'. destruct (wf_alloc _ _ W q t' Hq Hq') as (c & -> & Hc & Hm).
      exists c. rewrite Hmap. repeat split; try lia. ztest; done.
  - intros q r t' Hq Hr'. rewrite !grow_table by done.
    repeat case_decide; subst; try done.
    + intros [= <-] Hx. by destruct (Hfresh r).
    + intros Hx [= <-]. by destruct (Hfresh q).
    + intros. by eapply (wf_inj _ _ W).
Qed.
End Grow.

(** What a step of the mapping code guarantees: the tree only grows, along
    the path [v]; every allocated block that is no table of it keeps its
    contents; at most [n] blocks are used. *)
Record grows {M : Machine} (cr3 : Z) (v : list Z) (n : nat) (k k' : kstate) : Prop := {
  gr_wf : pt_wf k' cr3;
  gr_keep : forall q t, upath q -> table k cr3 q = Some t -> table k' cr3 q = Some t;
  gr_only : forall q, upath q -> ~ q `prefix_of` v -> table k' cr3 q = table k cr3 q;
  gr_fresh : forall q c, upath q -> read_map k c <> 0 ->
    table k cr3 q = None -> table k' cr3 q <> Some (blk c);
  gr_map : forall c, read_map k c <> 0 -> read_map k' c = read_map k c;
  gr_mem : forall c j, 0 <= j < 512 -> read_map k c <> 0 ->
    (forall q, upath q -> (length q <= 3)%nat -> table k cr3 q <> Some (blk c)) ->
    entry k' (blk c) j = entry k (blk c) j;
  gr_kernel_half : forall j, 128 <= j < 512 -> entry k' cr3 j = entry k cr3 j;
  gr_cr3 : processes_cr3_ptr k' = processes_cr3_ptr k;
  gr_free : (length (free_list k) <= n + length (free_list k'))%nat
}.

Section Steps.
Context {M : Machine} (Mok : machine_ok).

Lemma grows_refl cr3 v k : pt_wf k cr3 -> grows cr3 v 0 k k.
Proof. intros W. split; try done. intros q c _ _ ->. done. Qed.

Lemma grows_trans cr3 v n1 n2 k1 k2 k3 :
  grows cr3 v n1 k1 k2 -> grows cr3 v n2 k2 k3 -> grows cr3 v (n1 + n2) k1 k3.
Proof.
  intros G1 G2. split.
  - apply (gr_wf _ _ _ _ _ G2).
  - intros q t Hq Ht. by apply (gr_keep _ _ _ _ _ G2), (gr_keep _ _ _ _ _ G1).
  - intros q Hq Hn. rewrite (gr_only _ _ _ _ _ G2), (gr_only _ _ _ _ _ G1); done.
  - intros q c Hu Hc Hq. destruct (table k2 cr3 q) as [t|] eqn:Et.
    + rewrite (gr_keep _ _ _ _ _ G2 q t Hu Et). rewrite <- Et. by apply (gr_fresh _ _ _ _ _ G1).
    + apply (gr_fresh _ _ _ _ _ G2); [done| |done]. by rewrite (gr_map _ _ _ _ _ G1).
  - intros c Hc. pose proof (gr_map _ _ _ _ _ G1 c Hc) as E.
    rewrite (gr_map _ _ _ _ _ G2); [done|]. by rewrite E.
  - intros c j Hj Hc Hq. pose proof (gr_map _ _ _ _ _ G1 c Hc) as E.
    rewrite (gr_mem _ _ _ _ _ G2), (gr_mem _ _ _ _ _ G1); try done; [by rewrite E|].
    intros q Hu Hl Hx. destruct (table k1 cr3 q) as [t|] eqn:Et.
    + pose proof (gr_keep _ _ _ _ _ G1 q t Hu Et) as Hk. rewrite Hx in Hk. injection Hk as <-.
      by destruct (Hq q).
    + exact (gr_fresh _ _ _ _ _ G1 q c Hu Hc Et Hx).
  - intros j Hj. rewrite (gr_kernel_half _ _ _ _ _ G2), (gr_kernel_half _ _ _ _ _ G1); done.
  - by rewrite (gr_cr3 _ _ _ _ _ G2), (gr_cr3 _ _ _ _ _ G1).
  - pose proof (gr_free _ _ _ _ _ G1). pose proof (gr_free _ _ _ _ _ G2). lia.
Qed.

Lemma grow_grows k k' cr3 p i t b v :
  pt_wf k cr3 -> upath (p ++ [i]) -> (p ++ [i]) `prefix_of` v ->
  table k cr3 p = Some t -> entry k t i = 0 -> b ∈ free_list k ->
  entry k' t i = pte (blk b) ->
  (forall c j, 0 <= j < 512 -> c <> b -> ~ (blk c = t /\ j = i) ->
     entry k' (blk c) j = entry k (blk c) j) ->
  ((length p <= 2)%nat -> forall j, 0 <= j < 512 -> entry k' (blk b) j = 0) ->
  (forall j, read_map k' j = if j =? b then 1 else read_map k j) ->
  processes_cr3_ptr k' = processes_cr3_ptr k ->
  grows cr3 v 1 k k' /\ table k' cr3 (p ++ [i]) = Some (blk b).
Proof.
  intros W Hp Hv Ht Hz Hb Hset Hother Hclear Hmap Hcr3.
  assert (T : forall q, upath q ->
    table k' cr3 q = if decide (q = p ++ [i]) then Some (blk b) else table k cr3 q)
    by (intros q Hq; by eapply grow_table).
  pose proof (proj1 (elem_of_free_list k b) Hb) as [Hfree _].
  pose proof (proj1 (upath_snoc p i) Hp) as (Hup & Hlen & Hi).
  assert (Hnb : forall c, read_map k c <> 0 -> c <> b) by (by intros c Hc ->).
  split; [split|rewrite T, decide_True; done]; [by eapply grow_wf|..].
  - intros q t' Hq Hq'. rewrite T by done. case_decide as E; [|done]. subst q.
    rewrite table_snoc, Ht, Hz in Hq'. discriminate.
  - intros q Hq Hn. rewrite T by done. case_decide; [|done]. by subst.
  - intros q c Hq Hc Hq'. rewrite T by done. case_decide; [|by rewrite Hq'].
    intros [= E]. apply (Hnb c Hc). unfold blk in E. lia.
  - intros c Hc. rewrite Hmap. ztest; [|done]. by destruct (Hnb c Hc).
  - intros c j Hj Hc Hq. apply Hother; [done|by apply Hnb|]. intros [E _].
    by destruct (Hq p Hup ltac:(lia)); rewrite E.
  - intros j Hj. destruct (wf_alloc _ _ W [] cr3) as (c & -> & _ & Hc); [split; cbn; [lia|done]|done|].
    apply Hother; [lia|by apply Hnb|]. intros [E ->]. rewrite <- E in Ht.
    assert (p = []) as -> by (eapply (wf_inj _ _ W); [done|split; cbn; [lia|done]|done|done]).
    unfold uindex in Hi. lia.
  - done.
  - rewrite <- (free_list_alloc k b Hb). cbn. rewrite (free_list_ext (mark_used b k) k'); [done|].
    intros j. by rewrite Hmap, read_map_used.
Qed.

Lemma read_map_set_entry p i v k j : read_map (set_entry p i v k) j = read_map k j.
Proof. done. Qed.

(** One level of the walk. *)
Lemma next_table_spec k cr3 p i t v :
  pt_wf k cr3 -> upath (p ++ [i]) -> (length p <= 2)%nat -> (p ++ [i]) `prefix_of` v ->
  table k cr3 p = Some t -> (0 < length (free_list k))%nat ->
  exists t' k', next_table t i k = Done (t', k') /\ grows cr3 v 1 k k' /\
    table k' cr3 (p ++ [i]) = Some t' /\ (table k cr3 (p ++ [i]) <> None -> k' = k).
Proof.
  intros W Hp Hl Hv Ht Hf. unfold next_table.
  rewrite (bind_done (gets _) _ k (entry k t i) k eq_refl).
  destruct (Z.eqb_spec (entry k t i) 0) as [Hz|Hz].
  - destruct (get_a_free_block_addr_done k Mok Hf) as (b & E & Hb & Hr).
    rewrite (bind_done _ _ _ _ _ E). fold (blk b).
    eexists _, _. split; [reflexivity|].
    pose proof (proj1 (elem_of_free_list k b) Hb) as [Hfree _].
    pose proof (proj1 (upath_snoc p i) Hp) as (Hup & _ & Hi%uindex_512).
    destruct (wf_alloc _ _ W p t Hup Ht) as (d & -> & _ & Hd).
    assert (d <> b) by (by intros ->).
    rewrite (table_snoc k), Ht, Hz. match goal with |- ?A /\ ?B /\ _ => cut (A /\ B); [by intros [? ?]|] end.
    apply (grow_grows _ _ _ p i (blk d) b); try done.
    + by rewrite entry_set, Z.eqb_refl.
    + intros c j Hj Hc Hne. rewrite entry_set.
      destruct (Z.eqb_spec (blk c + 8 * j) (blk d + 8 * i)) as [Eq|_].
      * apply blk_entry_inj in Eq as [-> ->]; try done. by destruct Hne.
      * rewrite entry_erase_out; [done|]. unfold blk. lia.
    + intros _ j Hj. rewrite entry_set.
      destruct (Z.eqb_spec (blk b + 8 * j) (blk d + 8 * i)) as [Eq|_].
      * apply blk_entry_inj in Eq as [-> ->]; done.
      * by apply entry_erase_in.
    + intros j. apply (read_map_used b k j).
  - exists (page_line_to_addr (entry k t i)), k. split; [reflexivity|]. split.
    + pose proof (grows_refl cr3 v k W) as G. destruct G. by split; auto with lia.
    + rewrite table_snoc, Ht. destruct (Z.eqb_spec (entry k t i) 0); done.
Qed.

Lemma is_paged_table k pid virt_addr :
  is_paged k pid virt_addr = bool_decide (table k (cr3_of k pid) (vpath virt_addr) <> None).
Proof.
  unfold is_paged, vpath. cbn [table].
  repeat (ztest; [rewrite bool_decide_false; [done|by intros H]|]). by rewrite bool_decide_true.
Qed.

(** The last step of the mapping code: the frame. *)
Lemma map_frame_spec k cr3 p i t v :
  pt_wf k cr3 -> upath (p ++ [i]) -> length p = 3%nat -> (p ++ [i]) `prefix_of` v ->
  table k cr3 p = Some t -> entry k t i = 0 -> (0 < length (free_list k))%nat ->
  exists b k', (a ← get_a_free_block_addr; _ ← modify (set_entry t i (pte a));
                mret (Some (u64 (a - HM)))) k = Done (Some (b * 4096), k') /\
    b ∈ free_list k /\ grows cr3 v 1 k k' /\ table k' cr3 (p ++ [i]) = Some (blk b).
Proof.
  intros W Hp Hl Hv Ht Hz Hf.
  destruct (get_a_free_block_addr_done k Mok Hf) as (b & E & Hb & Hr).
  rewrite (bind_done _ _ _ _ _ E). fold (blk b). exists b. eexists. split; [|split; [done|]].
  { cbv [mbind st_bind modify mret st_ret]. rewrite u64_id; [|unfold blk; lia].
    replace (blk b - HM) with (b * 4096) by (unfold blk; lia). reflexivity. }
  pose proof (proj1 (elem_of_free_list k b) Hb) as [Hfree _].
  pose proof (proj1 (upath_snoc p i) Hp) as (Hup & _ & Hi%uindex_512).
  destruct (wf_alloc _ _ W p t Hup Ht) as (d & -> & _ & Hd).
  apply (grow_grows _ _ _ p i (blk d) b); try done; [..|lia|].
  - by rewrite entry_set, Z.eqb_refl.
  - intros c j Hj Hc Hne. rewrite entry_set.
    destruct (Z.eqb_spec (blk c + 8 * j) (blk d + 8 * i)) as [Eq|_]; [|done].
    apply blk_entry_inj in Eq as [-> ->]; try done. by destruct Hne.
  - intros j. apply (read_map_used b k j).
Qed.

(** The tables along a path, created where missing. *)
Fixpoint walk_m (t : Z) (p : list Z) : ST kstate Z :=
  match p with
  | [] => mret t
  | i :: p' => t' ← next_table t i; walk_m t' p'
  end.

Lemma walk_spec p : forall k cr3 q t v,
  pt_wf k cr3 -> upath (q ++ p) -> (length (q ++ p) <= 3)%nat -> (q ++ p) `prefix_of` v ->
  table k cr3 q = Some t -> (length p <= length (free_list k))%nat ->
  exists t' k', walk_m t p k = Done (t', k') /\ grows cr3 v (length p) k k' /\
    table k' cr3 (q ++ p) = Some t' /\ (table k cr3 (q ++ p) <> None -> k' = k).
Proof.
  induction p as [|i p IH]; intros k cr3 q t v W Hu Hl Hv Ht Hf; cbn [walk_m].
  - exists t, k. rewrite app_nil_r. split_and!; try done. by apply grows_refl.
  - replace (q ++ i :: p) with ((q ++ [i]) ++ p) in * by (by rewrite <- app_assoc).
    cbn [length] in Hf.
    destruct (next_table_spec k cr3 q i t v) as (t1 & k1 & E1 & G1 & T1 & S1);
      [done|by eapply upath_app|rewrite !length_app in Hl; cbn in Hl; lia
      |etrans; [|done]; by apply prefix_app_r|done|lia|].
    pose proof (gr_free _ _ _ _ _ G1).
    destruct (IH k1 cr3 (q ++ [i]) t1 v) as (t2 & k2 & E2 & G2 & T2 & S2);
      [apply G1|done|done|done|done|lia|].
    exists t2, k2. rewrite (bind_done _ _ _ _ _ E1).
    split_and!; [done|by apply (grows_trans _ _ 1 _ _ k1)|done|].
    intros Hne. assert (k1 = k) as ->; [|by apply S2].
    apply S1. intros E. by rewrite table_app, E in Hne.
Qed.

Lemma increase_walk k pid virt_addr :
  increase_paging_of_process_with_virt_addr pid virt_addr k =
  (l1_ptr ← walk_m (cr3_of k pid) [l4_index virt_addr; l3_index virt_addr; l2_index virt_addr];
   e ← gets (fun k => entry k l1_ptr (l1_index virt_addr));
   if e =? 0 then
     a ← get_a_free_block_addr;
     _ ← modify (set_entry l1_ptr (l1_index virt_addr) (pte a));
     mret (Some (u64 (a - HM)))
   else mret None) k.
Proof.
  unfold increase_paging_of_process_with_virt_addr, walk_m, mbind, st_bind, gets, mret, st_ret.
  repeat (destruct (next_table _ _ _) as [[? ?]| | |]; [|done..]). done.
Qed.

Lemma grows_weaken cr3 v w n m k k' :
  (n <= m)%nat -> v `prefix_of` w -> grows cr3 v n k k' -> grows cr3 w m k k'.
Proof.
  intros Hn Hp G. destruct G as [? ? Ho]. split; try done; [|lia].
  intros q Hq Hnp. apply Ho; [done|]. intros Hpre. apply Hnp. by trans v.
Qed.

Lemma increase_spec k pid virt_addr :
  pt_wf k (cr3_of k pid) -> 0 <= virt_addr < HM -> (4 <= length (free_list k))%nat ->
  exists r k', increase_paging_of_process_with_virt_addr pid virt_addr k = Done (r, k') /\
    grows (cr3_of k pid) (vpath virt_addr) 4 k k' /\
    match table k (cr3_of k pid) (vpath virt_addr) with
    | None => exists b, r = Some (b * 4096) /\ read_map k b = 0 /\
        table k' (cr3_of k pid) (vpath virt_addr) = Some (blk b)
    | Some _ => r = None /\ k' = k
    end.
Proof.
  intros W Hv Hf. rewrite increase_walk. generalize (cr3_of k pid) W. intros cr3 Wf.
  pose proof (upath_vpath _ Hv) as Hup.
  set (p := [l4_index virt_addr; l3_index virt_addr; l2_index virt_addr]).
  change (vpath virt_addr) with (p ++ [l1_index virt_addr]) in *.
  destruct (walk_spec p k cr3 [] cr3 p) as (t & k1 & E & G & T & S1);
    [done|by eapply upath_app|done|done|done|cbn; lia|].
  cbn [app] in T, S1. change (length p) with 3%nat in G.
  rewrite (bind_done _ _ _ _ _ E).
  rewrite (bind_done (gets _) _ k1 (entry k1 t (l1_index virt_addr)) k1 eq_refl).
  destruct (Z.eqb_spec (entry k1 t (l1_index virt_addr)) 0) as [Hz|Hz].
  - destruct (map_frame_spec k1 cr3 p (l1_index virt_addr) t (p ++ [l1_index virt_addr]))
      as (b & k2 & E2 & Hb & G2 & T2); [apply G|done..|pose proof (gr_free _ _ _ _ _ G); lia|].
    exists (Some (b * 4096)), k2. split; [done|].
    split; [apply (grows_trans _ _ 3 1 _ k1); [by apply (grows_weaken _ p _ 3 3); [|apply prefix_app_r|]|done]|].
    destruct (table k cr3 (p ++ [l1_index virt_addr])) as [f|] eqn:Ef.
    + apply (gr_keep _ _ _ _ _ G) in Ef; [|done]. rewrite table_snoc, T, Hz in Ef. discriminate.
    + exists b. split_and!; [done| |done].
      destruct (Z.eq_dec (read_map k b) 0) as [|Hn]; [done|].
      apply elem_of_free_list in Hb as [H0 _]. by rewrite (gr_map _ _ _ _ _ G) in H0.
  - exists None, k1. split; [done|]. split; [by apply (grows_weaken _ p _ 3 4); [lia|apply prefix_app_r|]|].
    pose proof (gr_only _ _ _ _ _ G (p ++ [l1_index virt_addr]) Hup (not_prefix_self _ _)) as Eo.
    rewrite table_snoc, T in Eo. destruct (Z.eqb_spec (entry k1 t (l1_index virt_addr)) 0); [done|].
    rewrite <- Eo. split; [done|]. apply S1. intros Hn. by rewrite table_snoc, Hn in Eo.
Qed.
End Steps.

(** ** Unmapping *)

(** Clearing one entry, with the map byte the code clears for it. *)
Definition clear_entry {M : Machine} (t i : Z) (k : kstate) : kstate :=
  set_entry t i 0 (set_memory_block_used_when_boot (entry k t i) false k).

Definition ram_words (k : kstate) : Prop := forall a, 0 <= read_ram k a < 2 ^ 64.

(** Words of the tables of an address space: nothing in the top byte, and the
    used entries of the user half carry the three flags the code sets and name
    blocks behind the map of blocks. *)
Definition plain_tables {M : Machine} (k : kstate) (cr3 : Z) : Prop :=
  forall q t j, upath q -> (length q <= 3)%nat -> table k cr3 q = Some t -> 0 <= j < 512 ->
    0 <= entry k t j < 2 ^ 56 /\
    (uindex q j -> entry k t j <> 0 -> entry k t j mod 8 = 7 /\ total_memory_blocks_count <= entry k t j).

(** The same word, or the same word with its top byte cleared. *)
Definition top_byte_lost (w w' : Z) : Prop := w' = w \/ w' = w mod 2 ^ 56.

(** What unmapping guarantees: the tree only shrinks, along the path [v]; the
    map of blocks stays; a word outside the tree loses at most its top byte. *)
Record shrinks {M : Machine} (cr3 : Z) (v : list Z) (k k' : kstate) : Prop := {
  sh_wf : pt_wf k' cr3;
  sh_words : ram_words k';
  sh_plain : plain_tables k' cr3;
  sh_sub : forall q t, upath q -> table k' cr3 q = Some t -> table k cr3 q = Some t;
  sh_only : forall q, upath q -> ~ q `prefix_of` v -> table k' cr3 q = table k cr3 q;
  sh_map : forall c, read_map k' c = read_map k c;
  sh_mem : forall c j, 0 <= j < 512 ->
    (forall q, upath q -> (length q <= 3)%nat -> table k cr3 q <> Some (blk c)) ->
    top_byte_lost (entry k (blk c) j) (entry k' (blk c) j);
  sh_kernel_half : forall j, 128 <= j < 512 -> entry k' cr3 j = entry k cr3 j;
  sh_cr3 : processes_cr3_ptr k' = processes_cr3_ptr k
}.

Lemma top_byte_lost_trans w1 w2 w3 : top_byte_lost w1 w2 -> top_byte_lost w2 w3 -> top_byte_lost w1 w3.
Proof.
  unfold top_byte_lost. intros [->| ->] [->| ->]; auto. right. apply Z.mod_mod. lia.
Qed.
Lemma top_byte_lost_small w w' : 0 <= w < 2 ^ 56 -> top_byte_lost w w' -> w' = w.
Proof. intros Hw [->| ->]; [done|]. by apply Z.mod_small. Qed.

Section Prune.
Context {M : Machine} (Mok : machine_ok).
(** [alignb 8] before the symbol in boot.asm. *)
Context (Mal : end_kernel mod 8 = 0).

Lemma upath_nil : upath [].
Proof. split; cbn; [lia|done]. Qed.

Lemma shrinks_refl cr3 v k : pt_wf k cr3 -> ram_words k -> plain_tables k cr3 -> shrinks cr3 v k k.
Proof. intros W Hr Hp. split; try done. intros. by left. Qed.

Lemma shrinks_trans cr3 v k1 k2 k3 :
  shrinks cr3 v k1 k2 -> shrinks cr3 v k2 k3 -> shrinks cr3 v k1 k3.
Proof.
  intros G1 G2. split.
  - apply (sh_wf _ _ _ _ G2).
  - apply (sh_words _ _ _ _ G2).
  - apply (sh_plain _ _ _ _ G2).
  - intros q t Hq Ht. by apply (sh_sub _ _ _ _ G1), (sh_sub _ _ _ _ G2).
  - intros q Hq Hn. rewrite (sh_only _ _ _ _ G2), (sh_only _ _ _ _ G1); done.
  - intros c. by rewrite (sh_map _ _ _ _ G2), (sh_map _ _ _ _ G1).
  - intros c j Hj Hq. eapply top_byte_lost_trans; [by apply (sh_mem _ _ _ _ G1)|apply (sh_mem _ _ _ _ G2); [done|]].
    intros q Hu Hl Hx. apply (sh_sub _ _ _ _ G1) in Hx; [|done]. by destruct (Hq q).
  - intros j Hj. rewrite (sh_kernel_half _ _ _ _ G2), (sh_kernel_half _ _ _ _ G1); done.
  - by rewrite (sh_cr3 _ _ _ _ G2), (sh_cr3 _ _ _ _ G1).
Qed.

Lemma block_empty_true k a :
  block_empty k a = true -> forall j, 0 <= j < 512 -> entry k a j = 0.
Proof.
  unfold block_empty. rewrite bool_decide_eq_true, find_idx_None. intros H j Hj.
  specialize (H j ltac:(lia)). by zbool.
Qed.

(** Clearing the entry clears, besides it, the byte its raw value names behind
    the map: the top byte of some word of memory. *)
Lemma clear_entry_read k t i p j :
  0 <= entry k p j < 2 ^ 64 -> entry k t i mod 8 = 7 -> total_memory_blocks_count <= entry k t i ->
  entry (clear_entry t i k) p j =
    if p + 8 * j =? t + 8 * i then 0
    else if p + 8 * j =? end_kernel + entry k t i - 7 then entry k p j mod 2 ^ 56 else entry k p j.
Proof.
  intros Hw He Ht. unfold clear_entry. rewrite entry_set. destruct (Z.eqb_spec (p + 8 * j) (t + 8 * i)); [done|].
  unfold set_memory_block_used_when_boot. cbv zeta.
  destruct (Z.ltb_spec (entry k t i) total_memory_blocks_count); [lia|]. unfold set_ram_byte.
  assert ((end_kernel + entry k t i) mod 8 = 7) as -> by (rewrite Z.add_mod, Mal, He by lia; done).
  unfold entry, write_ram, read_ram. cbn. rewrite lookup_insert. fold (read_ram k (t + 8 * i)). fold (entry k t i).
  destruct (Z.eqb_spec (p + 8 * j) (end_kernel + entry k t i - 7)) as [E|E]; case_decide; try congruence.
  cbn. rewrite <- E. unfold entry, read_ram in Hw. by apply put_byte_top.
Qed.

Context (k : kstate) (cr3 : Z) (W : pt_wf k cr3) (Hw : ram_words k) (Hpl : plain_tables k cr3).
Context (p : list Z) (i t f : Z).
Context (Hp : upath (p ++ [i])) (Ht : table k cr3 p = Some t).
Context (Hf : table k cr3 (p ++ [i]) = Some f).
Context (Hbelow : length p = 3%nat \/ block_empty k f = true).

#[local] Lemma drop_value : entry k t i mod 8 = 7 /\ total_memory_blocks_count <= entry k t i.
Proof.
  pose proof (proj1 (upath_snoc p i) Hp) as (Hup & Hl & Hi). pose proof (uindex_512 _ _ Hi) as Hi'.
  apply (Hpl p t i Hup Hl Ht Hi'); [done|]. intros E. rewrite table_snoc, Ht, E in Hf. discriminate.
Qed.

#[local] Lemma drop_entry c j :
  0 <= j < 512 -> ~ (blk c = t /\ j = i) -> top_byte_lost (entry k (blk c) j) (entry (clear_entry t i k) (blk c) j).
Proof.
  intros Hj Hne. pose proof (proj1 (upath_snoc p i) Hp) as (Hup & _ & Hi%uindex_512).
  destruct drop_value as [Hm Hl]. rewrite clear_entry_read by (done || apply Hw).
  destruct (wf_alloc _ _ W p t Hup Ht) as (d & -> & _ & Hd).
  destruct (Z.eqb_spec (blk c + 8 * j) (blk d + 8 * i)) as [Eq|_].
  - apply blk_entry_inj in Eq as [-> ->]; try done. by destruct Hne.
  - destruct (_ =? _); [by right|by left].
Qed.

(** The words of the tables have no top byte to lose. *)
#[local] Lemma drop_plain q t' j :
  upath q -> (length q <= 3)%nat -> table k cr3 q = Some t' -> 0 <= j < 512 -> ~ (t' = t /\ j = i) ->
  entry (clear_entry t i k) t' j = entry k t' j.
Proof.
  intros Hq Hl Ht' Hj Hne. destruct (Hpl q t' j Hq Hl Ht' Hj) as [Hs _].
  destruct (wf_alloc _ _ W q t' Hq Ht') as (c & -> & _ & _).
  by apply top_byte_lost_small, drop_entry.
Qed.

Lemma drop_agree : agree_except k (clear_entry t i k) cr3 p i.
Proof.
  intros q t' j Hq Hq' Hne. apply upath_snoc in Hq as (Hq & Hl & Hj%uindex_512).
  apply (drop_plain q); try done. intros [-> ->]. apply Hne. split; [|done].
  eapply (wf_inj _ _ W); [done| |done..]. by eapply upath_app.
Qed.

Lemma drop_table q :
  upath q -> table (clear_entry t i k) cr3 q = if decide (q = p ++ [i]) then None else table k cr3 q.
Proof.
  intros Hq. assert (Hnew : table (clear_entry t i k) cr3 (p ++ [i]) = None).
  { rewrite table_snoc, (table_frame k _ cr3 p i p drop_agree);
      [|by eapply upath_app|apply not_prefix_self].
    rewrite Ht. unfold clear_entry. by rewrite entry_set, Z.eqb_refl. }
  case_decide as E; [by subst|]. destruct (decide ((p ++ [i]) `prefix_of` q)) as [[r ->]|Hn].
  - destruct r as [|j r]; [by rewrite app_nil_r in E|].
    rewrite (table_app (clear_entry t i k) cr3 (p ++ [i])), Hnew, (table_app k cr3 (p ++ [i])), Hf.
    pose proof (upath_next_index _ _ _ _ Hq). destruct Hbelow as [Hl|He].
    + destruct Hq as [Hq _]. rewrite !length_app in Hq. cbn in Hq. lia.
    + cbn [table]. by rewrite (block_empty_true _ _ He).
  - by apply (table_frame k _ cr3 p i q drop_agree).
Qed.

Lemma drop_map c : read_map (clear_entry t i k) c = read_map k c.
Proof.
  change (read_map (clear_entry t i k) c) with (read_map (set_memory_block_used_when_boot (entry k t i) false k) c).
  by apply read_map_past, drop_value.
Qed.

Lemma drop_words : ram_words (clear_entry t i k).
Proof.
  intros a. destruct drop_value as [Hm Hl].
  change (0 <= read_ram (clear_entry t i k) a < 2 ^ 64).
  replace a with (a + 8 * 0) by lia. change (0 <= entry (clear_entry t i k) a 0 < 2 ^ 64).
  rewrite clear_entry_read by (done || apply Hw). pose proof (Hw (a + 8 * 0)) as H. fold (entry k a 0) in H.
  pose proof (Z.mod_pos_bound (entry k a 0) (2 ^ 56)). repeat ztest; lia.
Qed.

Lemma drop_shrinks v : (p ++ [i]) `prefix_of` v -> shrinks cr3 v k (clear_entry t i k).
Proof.
  intros Hv. pose proof (proj1 (upath_snoc p i) Hp) as (Hup & Hlen & Hi).
  pose proof (kernel_blocks_nonneg Mok). split.
  - split.
    + intros q t' Hq. rewrite drop_table by done. case_decide; [done|]. intros Hq'.
      destruct (wf_alloc _ _ W q t' Hq Hq') as (c & -> & Hc & Hm).
      exists c. by rewrite drop_map.
    + intros q r t' Hq Hr. rewrite !drop_table by done. repeat case_decide; try done.
      by apply (wf_inj _ _ W).
  - apply drop_words.
  - intros q t' j Hq Hl Ht' Hj. rewrite drop_table in Ht' by done. case_decide; [done|].
    destruct (decide (t' = t /\ j = i)) as [[-> ->]|Hne]; [|by rewrite (drop_plain q) by done; apply Hpl].
    unfold clear_entry. rewrite entry_set, Z.eqb_refl. split; [lia|done].
  - intros q t' Hq. rewrite drop_table by done. by case_decide.
  - intros q Hq Hn. rewrite drop_table by done. case_decide; [by subst|done].
  - apply drop_map.
  - intros c j Hj Hq. apply drop_entry; [done|]. intros [E _].
    destruct (Hq p Hup ltac:(lia)). by rewrite E.
  - intros j Hj. apply (drop_plain []); [apply upath_nil|cbn; lia|done|lia|]. intros [E ->].
    assert (p = []) as Ep by (eapply (wf_inj _ _ W); [done|apply upath_nil|done|by rewrite E]).
    unfold uindex in Hi. rewrite Ep in Hi. lia.
  - unfold clear_entry, set_memory_block_used_when_boot. cbv zeta. by case_match.
Qed.
End Prune.

Section Unmap.
Context {M : Machine} (Mok : machine_ok).
Context (Mal : end_kernel mod 8 = 0).

(** One more entry dropped on the way up. *)
Lemma drop_chain k0 k cr3 v p i t f :
  shrinks cr3 v k0 k -> upath (p ++ [i]) -> (p ++ [i]) `prefix_of` v ->
  table k cr3 p = Some t -> table k cr3 (p ++ [i]) = Some f ->
  (length p = 3%nat \/ block_empty k f = true) ->
  shrinks cr3 v k0 (clear_entry t i k) /\ table (clear_entry t i k) cr3 (p ++ [i]) = None /\
  (forall q, (length q <= length p)%nat -> upath q -> table (clear_entry t i k) cr3 q = table k cr3 q).
Proof.
  intros S Hp Hv Ht Hf Hb. pose proof (sh_wf _ _ _ _ S) as W. pose proof (sh_words _ _ _ _ S) as Hw.
  pose proof (sh_plain _ _ _ _ S) as Hpl.
  split_and!.
  - eapply shrinks_trans; [done|]. by eapply drop_shrinks.
  - by erewrite drop_table, decide_True.
  - intros q Hl Hq. erewrite drop_table by done. rewrite decide_False; [done|].
    intros ->. rewrite length_app in Hl. cbn in Hl. lia.
Qed.

Lemma shrinks_none cr3 v k k' : shrinks cr3 v k k' -> upath v -> table k cr3 v = None -> table k' cr3 v = None.
Proof.
  intros S Hu Hn. destruct (table k' cr3 v) eqn:E; [|done].
  apply (sh_sub _ _ _ _ S) in E; [|done]. by rewrite Hn in E.
Qed.

(** The walk of the code met a zero entry: the path is not mapped. *)
Ltac walk_stops := split; [done|]; cbn [table]; repeat (ztest; [done|]); done.

Lemma decrease_spec k pid virt_addr :
  pt_wf k (cr3_of k pid) -> ram_words k -> plain_tables k (cr3_of k pid) -> 0 <= virt_addr < HM ->
  let k' := decrease_paging_of_process_with_virt_addr pid virt_addr k in
  shrinks (cr3_of k pid) (vpath virt_addr) k k' /\ table k' (cr3_of k pid) (vpath virt_addr) = None.
Proof.
  intros W Hw Hpl Hv. pose proof (upath_vpath _ Hv) as Hup. cbv zeta.
  unfold decrease_paging_of_process_with_virt_addr, vpath in *.
  generalize (cr3_of k pid) W Hpl. clear W Hpl. intros cr3 W Hpl.
  generalize dependent (l4_index virt_addr); intros a. generalize dependent (l3_index virt_addr); intros b.
  generalize dependent (l2_index virt_addr); intros c. generalize dependent (l1_index virt_addr); intros d Hup.
  pose proof (shrinks_refl cr3 [a; b; c; d] k W Hw Hpl) as S0.
  destruct (Z.eqb_spec (entry k cr3 a) 0) as [|H4]; [walk_stops|].
  set (l3 := page_line_to_addr (entry k cr3 a)).
  destruct (Z.eqb_spec (entry k l3 b) 0) as [|H3]; [walk_stops|].
  set (l2 := page_line_to_addr (entry k l3 b)).
  destruct (Z.eqb_spec (entry k l2 c) 0) as [|H2]; [walk_stops|].
  set (l1 := page_line_to_addr (entry k l2 c)).
  destruct (Z.eqb_spec (entry k l1 d) 0) as [|H1]; [walk_stops|].
  assert (table k cr3 [] = Some cr3 /\ table k cr3 [a] = Some l3 /\ table k cr3 [a; b] = Some l2 /\
          table k cr3 [a; b; c] = Some l1 /\ table k cr3 [a; b; c; d] = Some (page_line_to_addr (entry k l1 d)))
    as (T0 & T1 & T2 & T3 & T4).
  { cbn [table]. repeat (ztest; [done|]). done. }
  fold (clear_entry l1 d k). set (k1 := clear_entry l1 d k).
  destruct (drop_chain k k cr3 [a; b; c; d] [a; b; c] d l1 _ S0 Hup ltac:(done) T3 T4 ltac:(by left))
    as (S1 & N1 & F1). fold k1 in S1, N1, F1. cbn [app length] in *.
  pose proof (upath_app [a; b; c] [d] Hup) as U3. pose proof (upath_app [a; b] [c] U3) as U2.
  pose proof (upath_app [a] [b] U2) as U1.
  pose proof upath_nil as U0.
  destruct (block_empty k1 l1) eqn:B1; cbn [negb]; [|done].
  fold (clear_entry l2 c k1). set (k2 := clear_entry l2 c k1).
  destruct (drop_chain k k1 cr3 [a; b; c; d] [a; b] c l2 l1 S1 U3 ltac:(by exists [d]))
    as (S2 & N2 & F2); [by rewrite F1 by (done || cbn; lia)|by rewrite F1 by (done || cbn; lia)|by right|].
  fold k2 in S2, N2, F2. cbn [app length] in *.
  assert (table k2 cr3 [a; b; c; d] = None) as N2'.
  { change [a; b; c; d] with ([a; b; c] ++ [d]). by rewrite table_app, N2. }
  destruct (block_empty k2 l2) eqn:B2; cbn [negb]; [|done].
  fold (clear_entry l3 b k2). set (k3 := clear_entry l3 b k2).
  destruct (drop_chain k k2 cr3 [a; b; c; d] [a] b l3 l2 S2 U2 ltac:(by exists [c; d]))
    as (S3 & N3 & F3); [by rewrite F2, F1 by (done || cbn; lia)|by rewrite F2, F1 by (done || cbn; lia)|by right|].
  fold k3 in S3, N3, F3. cbn [app length] in *.
  destruct (block_empty k3 l3) eqn:B3; cbn [negb].
  2:{ split; [done|]. change [a; b; c; d] with ([a; b] ++ [c; d]). by rewrite table_app, N3. }
  fold (clear_entry cr3 a k3).
  destruct (drop_chain k k3 cr3 [a; b; c; d] [] a cr3 l3 S3 U1 ltac:(by exists [b; c; d]))
    as (S4 & N4 & _); [done|by rewrite F3, F2, F1 by (done || cbn; lia)|by right|].
  split; [done|]. change [a; b; c; d] with ([a] ++ [b; c; d]).
  rewrite table_app. cbn [app] in N4. by rewrite N4.
Qed.
End Unmap.

(** ** Two address spaces *)
Section Isolation.
Context {M : Machine}.

(** No table of one tree is a table of the other. *)
Definition disjoint_trees (k : kstate) (cr3 cr3' : Z) : Prop :=
  forall p q t, upath p -> upath q -> (length p <= 3)%nat -> (length q <= 3)%nat ->
    table k cr3 p = Some t -> table k cr3' q <> Some t.

Lemma other_tree_entries k k' cr3 cr3' :
  pt_wf k cr3' -> plain_tables k cr3' -> disjoint_trees k cr3 cr3' ->
  (forall c j, 0 <= j < 512 -> read_map k c <> 0 ->
     (forall q, upath q -> (length q <= 3)%nat -> table k cr3 q <> Some (blk c)) ->
     top_byte_lost (entry k (blk c) j) (entry k' (blk c) j)) ->
  forall q t j, upath q -> (length q <= 3)%nat -> table k cr3' q = Some t -> 0 <= j < 512 ->
    entry k' t j = entry k t j.
Proof.
  intros W P D Hmem q t j Hq Hl Ht Hj. destruct (P q t j Hq Hl Ht Hj) as [Hs _].
  destruct (wf_alloc _ _ W q t Hq Ht) as (c & -> & _ & Hc). apply top_byte_lost_small; [done|].
  apply Hmem; [done..|]. intros p Hp Hlp Ep. by apply (D p q (blk c)).
Qed.

(** A translation depends on the entries of the tables along its path only. *)
Lemma walk_ext k k' cr3 :
  (forall q t j, upath q -> (length q <= 3)%nat -> table k cr3 q = Some t -> 0 <= j < 512 ->
     entry k' t j = entry k t j) ->
  forall p, upath p -> walk k' cr3 p = walk k cr3 p.
Proof.
  intros H. assert (G : forall p q t, upath (q ++ p) -> table k cr3 q = Some t -> walk k' t p = walk k t p).
  { induction p as [|i p IH]; intros q t Hu Ht; [done|]. cbn [walk].
    replace (q ++ i :: p) with ((q ++ [i]) ++ p) in Hu by (by rewrite <- app_assoc).
    pose proof (proj1 (upath_snoc q i) (upath_app _ _ Hu)) as (Hq & Hl & Hi%uindex_512).
    rewrite (H q t i) by done. f_equal. destruct (Z.eqb_spec (entry k t i) 0); [done|].
    apply (IH (q ++ [i])); [done|]. rewrite table_snoc, Ht. by destruct (Z.eqb_spec (entry k t i) 0). }
  intros p Hp. by apply (G p []).
Qed.

Lemma cr3_of_ext k k' pid :
  processes_cr3_ptr k' = processes_cr3_ptr k -> cr3_of k' pid = cr3_of k pid.
Proof. unfold cr3_of. by intros ->. Qed.

Lemma vpath_other_page a b :
  0 <= a < HM -> 0 <= b < HM -> b / 4096 <> a / 4096 -> ~ vpath b `prefix_of` vpath a.
Proof.
  intros Ha Hb Hne [l E]. apply Hne, vpath_page; try done.
  destruct l; [by rewrite app_nil_r in E|]. by apply (f_equal length) in E.
Qed.

Lemma region_loop_spec k pid n i fuel :
  0 <= n -> (Z.to_nat (HM / 4096 - 1 - i) < fuel)%nat ->
  exists a, region_loop fuel k pid n i = Done a /\
    ((exists s, a = s * 4096 /\ i <= s < HM / 4096 - 1 /\
        (forall j, 0 <= j < n -> is_paged k pid ((s + j) * 4096) = false) /\
        (forall s', i <= s' < s -> exists j, 0 <= j < n /\ is_paged k pid ((s' + j) * 4096) = true)) \/
     (a = 0 /\ forall s', i <= s' < HM / 4096 - 1 ->
        exists j, 0 <= j < n /\ is_paged k pid ((s' + j) * 4096) = true)).
Proof.
  intros Hn. revert i. induction fuel as [|f IH]; intros i Hf; [lia|]. cbn [region_loop].
  destruct (Z.ltb_spec i (HM / 4096 - 1)).
  2:{ exists 0. split; [done|]. right. split; [done|]. intros; lia. }
  destruct (find_idx _ _ _) as [j|] eqn:E.
  - apply find_idx_Some in E as (Hj & Ej & _).
    destruct (IH (i + 1) ltac:(lia)) as (a & Ea & Ha). exists a. split; [done|].
    assert (Hi : exists j, 0 <= j < n /\ is_paged k pid ((i + j) * 4096) = true)
      by (exists j; split; [lia|done]).
    destruct Ha as [(s & -> & Hs & Hfree & Hmin)|[-> Hmin]]; [left; exists s|right];
      (split_and!; try done; try lia); intros s' Hs';
      (destruct (Z.eq_dec s' i) as [->|]; [done|apply Hmin; lia]).
  - rewrite find_idx_None in E. exists (i * 4096). split; [done|]. left. exists i.
    split_and!; [done|lia|lia| |lia]. intros j Hj. apply E. lia.
Qed.
End Isolation.

(** ** Properties *)

(** C2: With four free blocks, mapping an unmapped user page succeeds: the page
    is backed by a block that was free and is now used, the tree stays
    well formed, and no other user page changes. *)
Theorem increase_maps_page {M : Machine} (k : kstate) (pid virt_addr : Z) :
  machine_ok -> pt_wf k (cr3_of k pid) -> 0 <= virt_addr < HM ->
  (4 <= length (free_list k))%nat -> is_paged k pid virt_addr = false ->
  exists b k', increase_paging_of_process_with_virt_addr pid virt_addr k = Done (Some (b * 4096), k') /\
    read_map k b = 0 /\ read_map k' b <> 0 /\
    table k' (cr3_of k pid) (vpath virt_addr) = Some (blk b) /\
    is_paged k' pid virt_addr = true /\ pt_wf k' (cr3_of k' pid) /\
    (forall a, 0 <= a < HM -> a / 4096 <> virt_addr / 4096 ->
       table k' (cr3_of k pid) (vpath a) = table k (cr3_of k pid) (vpath a) /\
       is_paged k' pid a = is_paged k pid a).
Proof.
  intros Mok W Hv Hf Hn. destruct (increase_spec Mok k pid virt_addr W Hv Hf) as (r & k' & E & G & HR).
  rewrite is_paged_table, bool_decide_eq_false in Hn.
  destruct (table k (cr3_of k pid) (vpath virt_addr)) as [f|] eqn:Et; [by destruct Hn|].
  destruct HR as (b & -> & H0 & T). exists b, k'.
  assert (cr3_of k' pid = cr3_of k pid) as Ec by (apply cr3_of_ext, G).
  rewrite !is_paged_table, Ec, T. split_and!; try done; [|apply G|].
  - destruct (wf_alloc _ _ (gr_wf _ _ _ _ _ G) _ _ (upath_vpath _ Hv) T) as (c & Eb & _ & Hc).
    assert (c = b) as -> by (unfold blk in Eb; lia). done.
  - intros a Ha Hne. rewrite is_paged_table, Ec.
    rewrite (is_paged_table k).
    rewrite (gr_only _ _ _ _ _ G); [done|by apply upath_vpath|by apply vpath_other_page].
Qed.

(** Mapping a page that is already mapped changes nothing, and the address
    returned is the uninitialised local variable. *)
Theorem increase_already_mapped {M : Machine} (k : kstate) (pid virt_addr : Z) :
  machine_ok -> pt_wf k (cr3_of k pid) -> 0 <= virt_addr < HM ->
  (4 <= length (free_list k))%nat -> is_paged k pid virt_addr = true ->
  increase_paging_of_process_with_virt_addr pid virt_addr k = Done (None, k).
Proof.
  intros Mok W Hv Hf Hn. destruct (increase_spec Mok k pid virt_addr W Hv Hf) as (r & k' & E & G & HR).
  rewrite is_paged_table, bool_decide_eq_true in Hn.
  destruct (table k (cr3_of k pid) (vpath virt_addr)); [|done]. by destruct HR as [-> ->].
Qed.

(** C11: Address spaces are isolated: mapping or unmapping a user page of one
    process changes no translation, frames and flags, of a process whose tables
    are disjoint from its own, and no kernel entry of either.  Four blocks are
    free; the tables of both hold entries as the code writes them; memory is
    kept as 64-bit words and the map of blocks starts at a multiple of 8.  The
    stray byte that unmapping clears behind the map is then the top byte of a
    word, which is zero in every table already. *)
Theorem paging_isolation {M : Machine} (k : kstate) (pid other virt_addr : Z) :
  machine_ok -> end_kernel mod 8 = 0 -> ram_words k ->
  pt_wf k (cr3_of k pid) -> pt_wf k (cr3_of k other) ->
  plain_tables k (cr3_of k pid) -> plain_tables k (cr3_of k other) ->
  disjoint_trees k (cr3_of k pid) (cr3_of k other) ->
  0 <= virt_addr < HM -> (4 <= length (free_list k))%nat ->
  let same k' :=
    (forall a, 0 <= a < HM -> translation k' other a = translation k other a) /\
    (forall j, 128 <= j < 512 -> entry k' (cr3_of k other) j = entry k (cr3_of k other) j /\
                                 entry k' (cr3_of k pid) j = entry k (cr3_of k pid) j) in
  (exists r k', increase_paging_of_process_with_virt_addr pid virt_addr k = Done (r, k') /\ same k') /\
  same (decrease_paging_of_process_with_virt_addr pid virt_addr k).
Proof.
  intros Mok Mal Hw W W' P P' D Hv Hf. cbv zeta.
  destruct (increase_spec Mok k pid virt_addr W Hv Hf) as (r & k' & E & G & _).
  destruct (decrease_spec Mok Mal k pid virt_addr W Hw P Hv) as [S _].
  pose proof (other_tree_entries k k' _ _ W' P' D) as EG.
  pose proof (other_tree_entries k (decrease_paging_of_process_with_virt_addr pid virt_addr k) _ _ W' P' D) as ES.
  split; [exists r, k'; split; [done|]|]; split.
  - intros a Ha. unfold translation. rewrite (cr3_of_ext k k') by apply G.
    apply walk_ext; [|by apply upath_vpath]. apply EG. intros. left. by apply G.
  - intros j Hj. split; [|by apply G]. apply (EG ltac:(intros; left; by apply G) []); [apply upath_nil|cbn; lia|done|lia].
  - intros a Ha. unfold translation. rewrite (cr3_of_ext k) by apply S.
    apply walk_ext; [|by apply upath_vpath]. apply ES. intros. by apply S.
  - intros j Hj. split; [|by apply S]. apply (ES ltac:(intros; by apply S) []); [apply upath_nil|cbn; lia|done|lia].
Qed.

(** Unmapping removes the page and no other, keeps the tree well formed, and
    frees nothing: the byte the code clears is indexed by the raw table entry,
    past the end of the map, so the map stays as it was. *)
Theorem decrease_unmaps_and_leaks {M : Machine} (k : kstate) (pid virt_addr : Z) :
  machine_ok -> end_kernel mod 8 = 0 -> ram_words k ->
  pt_wf k (cr3_of k pid) -> plain_tables k (cr3_of k pid) -> 0 <= virt_addr < HM ->
  let k' := decrease_paging_of_process_with_virt_addr pid virt_addr k in
  is_paged k' pid virt_addr = false /\ pt_wf k' (cr3_of k' pid) /\
  (forall a, 0 <= a < HM -> a / 4096 <> virt_addr / 4096 -> is_paged k' pid a = is_paged k pid a) /\
  (forall c, read_map k' c = read_map k c).
Proof.
  intros Mok Mal Hw W P Hv. cbv zeta.
  destruct (decrease_spec Mok Mal k pid virt_addr W Hw P Hv) as [S N].
  set (k' := decrease_paging_of_process_with_virt_addr pid virt_addr k) in *.
  assert (cr3_of k' pid = cr3_of k pid) as Ec by (apply cr3_of_ext, S).
  split_and!.
  - by rewrite is_paged_table, Ec, N.
  - rewrite Ec. apply S.
  - intros a Ha Hne. rewrite !is_paged_table, Ec.
    rewrite (sh_only _ _ _ _ S); [done|by apply upath_vpath|by apply vpath_other_page].
  - apply S.
Qed.

(** What unmapping a page does instead of freeing its block: it clears one byte
    of memory, at the distance from the map of blocks that the raw entry names,
    which is in general a byte of some other page. *)
Theorem decrease_clears_foreign_byte {M : Machine} (k : kstate) (t i : Z) :
  end_kernel mod 8 = 0 -> ram_words k ->
  entry k t i mod 8 = 7 -> total_memory_blocks_count <= entry k t i ->
  t + 8 * i <> end_kernel + entry k t i - 7 ->
  read_ram (clear_entry t i k) (end_kernel + entry k t i - 7) =
    read_ram k (end_kernel + entry k t i - 7) mod 2 ^ 56.
Proof.
  intros Mal Hw Hm Ht Hne. set (a := end_kernel + entry k t i - 7).
  pose proof (clear_entry_read Mal k t i a 0 (Hw _) Hm Ht) as E.
  change (entry (clear_entry t i k) a 0) with (read_ram (clear_entry t i k) (a + 8 * 0)) in E.
  change (entry k a 0) with (read_ram k (a + 8 * 0)) in E.
  replace (a + 8 * 0) with a in E by lia. fold a in E. rewrite E.
  destruct (Z.eqb_spec a (t + 8 * i)); [by destruct Hne|]. by rewrite Z.eqb_refl.
Qed.

(** The search for a free virtual region ends, and returns the lowest page
    from which the requested number of pages is unmapped, or 0 if every start
    page is followed by a mapped one. *)
Theorem find_free_virtual_region_lowest (fuel : nat) (k : kstate) (pid length : Z) :
  0 <= length < 2 ^ 63 -> (Z.to_nat (HM / 4096) <= fuel)%nat ->
  exists a, find_free_virtual_region fuel k pid length = Done a /\
    let n := (length + 4095) / 4096 in
    ((exists s, a = s * 4096 /\ 1 <= s < HM / 4096 - 1 /\
        (forall j, 0 <= j < n -> is_paged k pid ((s + j) * 4096) = false) /\
        (forall s', 1 <= s' < s -> exists j, 0 <= j < n /\ is_paged k pid ((s' + j) * 4096) = true)) \/
     (a = 0 /\ forall s', 1 <= s' < HM / 4096 - 1 ->
        exists j, 0 <= j < n /\ is_paged k pid ((s' + j) * 4096) = true)).
Proof.
  intros Hl Hf. unfold find_free_virtual_region. cbv zeta.
  assert (div_ceil length 4096 = (length + 4095) / 4096) as ->.
  { pose proof (div_ceil_spec length 4096 Hl eq_refl). Z.to_euclidean_division_equations. lia. }
  apply region_loop_spec; [apply Z.div_pos; lia|].
  assert (0 < HM / 4096) by (vm_compute; done). lia.
Qed.

(** *** Witnesses *)

(** Two processes with empty tables in the blocks 5 and 6. *)
Definition demo_pt : kstate :=
  set_processes_cr3_ptr {[ 2 := blk 5; 3 := blk 6 ]} (@mark_blocks small_machine 7 0 boot_state).
Definition demo_mapped : kstate :=
  match @increase_paging_of_process_with_virt_addr small_machine 2 0x5000 demo_pt with
  | Done (_, k) => k
  | _ => demo_pt
  end.

Lemma empty_table (k : kstate) (cr3 : Z) (p : list Z) t :
  ram k = ∅ -> table k cr3 p = Some t -> p = [] /\ t = cr3.
Proof.
  intros E. destruct p as [|i p]; cbn [table]; [by intros [= ->]|].
  unfold entry, read_ram. rewrite E, lookup_empty. done.
Qed.

Lemma empty_tree_wf {M : Machine} (k : kstate) (b : Z) :
  ram k = ∅ -> kernel_blocks <= b < total_memory_blocks_count -> read_map k b <> 0 -> pt_wf k (blk b).
Proof.
  intros E Hb Hm. split.
  - intros p t _ Ht. apply empty_table in Ht as [-> ->]; [|done]. by exists b.
  - intros p q t _ _ Hp Hq. apply empty_table in Hp as [-> _], Hq as [-> _]; done.
Qed.

Lemma demo_pt_wf : @pt_wf small_machine demo_pt (cr3_of demo_pt 2) /\ @pt_wf small_machine demo_pt (cr3_of demo_pt 3).
Proof.
  split; (apply (@empty_tree_wf small_machine demo_pt); [vm_compute; done..|vm_compute; discriminate]).
Qed.

Lemma demo_mapped_wf : @pt_wf small_machine demo_mapped (cr3_of demo_mapped 2).
Proof.
  destruct (@increase_spec small_machine small_machine_ok demo_pt 2 0x5000) as (r & k' & E & G & _).
  - apply demo_pt_wf.
  - unfold HM; lia.
  - vm_compute. lia.
  - unfold demo_mapped. rewrite E. rewrite (cr3_of_ext demo_pt k') by apply G. apply G.
Qed.

(** Every word of memory is zero or an entry as the code writes it. *)
Definition entries_only {M : Machine} (k : kstate) : Prop :=
  map_Forall (fun _ v => 0 <= v < 2 ^ 56 /\ (v = 0 \/ v mod 8 = 7 /\ total_memory_blocks_count <= v)) (ram k).
Lemma entries_only_ok {M : Machine} (k : kstate) (cr3 : Z) : entries_only k -> ram_words k /\ plain_tables k cr3.
Proof.
  intros H. assert (R : forall a, 0 <= read_ram k a < 2 ^ 56 /\
    (read_ram k a = 0 \/ read_ram k a mod 8 = 7 /\ total_memory_blocks_count <= read_ram k a)).
  { intros a. unfold read_ram. destruct (ram k !! a) eqn:E; cbn; [by eapply H|]. split; [lia|by left]. }
  split; [intros a; destruct (R a); lia|]. intros q t j _ _ _ _. unfold entry.
  destruct (R (t + 8 * j)) as [Hr Hv]. split; [done|]. by intros _ Hne; destruct Hv.
Qed.
Lemma demo_mapped_words :
  ram_words demo_mapped /\ forall cr3, @plain_tables small_machine demo_mapped cr3.
Proof.
  assert (H : @entries_only small_machine demo_mapped) by (refine (bool_decide_unpack _ _); vm_compute; exact I).
  split; [exact (proj1 (@entries_only_ok small_machine demo_mapped 0 H))|].
  intros cr3. exact (proj2 (@entries_only_ok small_machine demo_mapped cr3 H)).
Qed.

(** In [demo_mapped] process 3 still has no table but the root. *)
Lemma demo_mapped_other p t :
  upath p -> table demo_mapped (cr3_of demo_mapped 3) p = Some t -> p = [] /\ t = blk 6.
Proof.
  assert (block_empty demo_mapped (blk 6) = true) as Hb by (vm_compute; reflexivity).
  assert (cr3_of demo_mapped 3 = blk 6) as -> by (vm_compute; reflexivity).
  revert Hb. generalize demo_mapped, (blk 6). intros k b Hb Hu.
  destruct p as [|i p]; cbn [table]; [by intros [= <-]|]. rewrite (block_empty_true _ _ Hb); [done|].
  destruct Hu as [_ [Hi _]]. lia.
Qed.
Lemma demo_mapped_disjoint :
  disjoint_trees demo_mapped (cr3_of demo_mapped 2) (cr3_of demo_mapped 3) /\
  @pt_wf small_machine demo_mapped (cr3_of demo_mapped 3).
Proof.
  destruct (@increase_spec small_machine small_machine_ok demo_pt 2 0x5000) as (r & k' & E & G & _);
    [apply demo_pt_wf|unfold HM; lia|vm_compute; lia|].
  assert (demo_mapped = k') as Em by (unfold demo_mapped; by rewrite E). split.
  - intros p q t Hp Hq _ _ Ep Eq. apply demo_mapped_other in Eq as [-> ->]; [|done].
    rewrite Em, (cr3_of_ext demo_pt k') in Ep by apply G.
    destruct (table demo_pt (cr3_of demo_pt 2) p) as [t|] eqn:Et.
    + pose proof (gr_keep _ _ _ _ _ G p t Hp Et) as Ek. rewrite Ep in Ek. injection Ek as <-.
      apply empty_table in Et as [_ Et]; [|done]. vm_compute in Et. discriminate.
    + refine (gr_fresh _ _ _ _ _ G p 6 Hp _ Et Ep). vm_compute. discriminate.
  - split.
    + intros p t Hp Et. apply demo_mapped_other in Et as [-> ->]; [|done]. exists 6. vm_compute. repeat split; discriminate.
    + intros p q t Hp Hq Ep Eq. apply demo_mapped_other in Ep as [-> _], Eq as [-> _]; done.
Qed.

Lemma increase_maps_page_witness :
  exists b k', @increase_paging_of_process_with_virt_addr small_machine 2 0x5000 demo_pt
               = Done (Some (b * 4096), k') /\ is_paged k' 2 0x5000 = true.
Proof.
  destruct (@increase_maps_page small_machine demo_pt 2 0x5000) as (b & k' & E & _ & _ & _ & Hp & _).
  - apply small_machine_ok.
  - apply demo_pt_wf.
  - unfold HM; lia.
  - vm_compute. lia.
  - vm_compute. reflexivity.
  - exists b, k'. split; [exact E|exact Hp].
Defined.

Lemma increase_already_mapped_witness :
  @increase_paging_of_process_with_virt_addr small_machine 2 0x5000 demo_mapped = Done (None, demo_mapped).
Proof.
  apply (@increase_already_mapped small_machine).
  - apply small_machine_ok.
  - apply demo_mapped_wf.
  - unfold HM; lia.
  - vm_compute. lia.
  - vm_compute. reflexivity.
Defined.

Lemma paging_isolation_witness :
  translation (@decrease_paging_of_process_with_virt_addr small_machine 2 0x5000 demo_mapped) 3 0x5000
  = translation demo_mapped 3 0x5000.
Proof.
  apply (@paging_isolation small_machine demo_mapped 2 3 0x5000).
  - apply small_machine_ok.
  - vm_compute. reflexivity.
  - apply demo_mapped_words.
  - apply demo_mapped_wf.
  - apply demo_mapped_disjoint.
  - apply demo_mapped_words.
  - apply demo_mapped_words.
  - apply demo_mapped_disjoint.
  - unfold HM; lia.
  - vm_compute. lia.
  - unfold HM; lia.
Defined.

Lemma decrease_unmaps_and_leaks_witness :
  is_paged demo_mapped 2 0x5000 = true /\
  is_paged (@decrease_paging_of_process_with_virt_addr small_machine 2 0x5000 demo_mapped) 2 0x5000 = false.
Proof.
  split; [vm_compute; reflexivity|].
  apply (@decrease_unmaps_and_leaks small_machine demo_mapped 2 0x5000).
  - apply small_machine_ok.
  - vm_compute. reflexivity.
  - apply demo_mapped_words.
  - apply demo_mapped_wf.
  - apply demo_mapped_words.
  - unfold HM; lia.
Defined.

Lemma write_ram_words a v k : 0 <= v < 2 ^ 64 -> ram_words k -> ram_words (write_ram a v k).
Proof. intros Hv Hw x. unfold write_ram, read_ram. cbn. rewrite lookup_insert. case_decide; [done|apply Hw]. Qed.
(** Unmapping page 0x5000, backed by block 10, takes the top byte of a word
    that belongs to block 13. *)
Definition demo_foreign : kstate := write_ram (HM + 13 * 4096 + 96) (2 ^ 64 - 1) demo_mapped.
Lemma decrease_clears_foreign_byte_witness :
  entry demo_foreign (blk 9) 5 = 10 * 4096 + 7 /\
  read_ram (@clear_entry small_machine (blk 9) 5 demo_foreign) (HM + 13 * 4096 + 96) = 2 ^ 56 - 1.
Proof.
  assert (entry demo_foreign (blk 9) 5 = 10 * 4096 + 7) as E by (vm_compute; reflexivity).
  split; [exact E|].
  pose proof (@decrease_clears_foreign_byte small_machine demo_foreign (blk 9) 5) as H. rewrite E in H.
  change (@end_kernel small_machine + (10 * 4096 + 7) - 7) with (HM + 13 * 4096 + 96) in H. rewrite H.
  - vm_compute. reflexivity.
  - vm_compute. reflexivity.
  - apply write_ram_words; [lia|apply demo_mapped_words].
  - vm_compute. reflexivity.
  - vm_compute. discriminate.
  - vm_compute. discriminate.
Defined.

Lemma find_free_virtual_region_lowest_witness :
  exists a, find_free_virtual_region (Z.to_nat (HM / 4096)) boot_state 2 8192 = Done a.
Proof.
  destruct (find_free_virtual_region_lowest (Z.to_nat (HM / 4096)) boot_state 2 8192) as (a & E & _);
    [lia|lia|]. exists a. exact E.
Defined.
