(* ===== verification/Threads.v ===== *)
(** * Threads: processes and threads, src/core/scheduler.h

    Creation and end of processes and threads, the sleep calls, and the spin
    lock of src/core/interrupt.h they take.  A routine that ends in
    [scheduler_yeild] or in [tick_interrupt_handler1], which are assembly
    entries of the scheduler, is modelled up to that call; the tick itself is
    in Sched. *)
From S2P Require Import Prelude MemLib Time KState Blocks Paging.
Open Scope Z_scope.

(** ** Definitions *)

(** [spin_lock]: [xchg] until the old value is 0.  A lock nobody releases spins
    for ever. *)
Definition spin_lock (get : kstate -> Z) (set : Z -> kstate -> kstate) : ST kstate unit := fun k =>
  if get k =? 0 then Done (tt, set 1 k) else Stuck.
Definition spin_unlock (set : Z -> kstate -> kstate) : ST kstate unit := modify (set 0).

(** The context a new thread starts from. *)
Definition start_context (rsp rip cs ss : Z) : user_thread_context :=
  Context 0 0 0 0 0 0 0 0 0 0 0 0 0 0 0 rip cs 0x202 rsp ss 0 [] 0 0.
(** A cleared [thread_info_t] with the fields the register functions set. *)
Definition new_thread (pid tid : Z) (state : thread_state) (stack kstack ptid : Z)
    (ctx : user_thread_context) : thread_info :=
  ThreadInfo pid tid state (Timeval 0 0) stack kstack ctx ptid 0 0 0 CONTEXT_TYPE_ALU (Timeval 0 0) 0.
(** A cleared [process_info_t] with the fields the setup functions set. *)
Definition new_process (pid : Z) (state : process_state) (pgid sid fd_addr parent_pid : Z) : process_info :=
  ProcessInfo pid state 0 0 0 pgid sid fd_addr parent_pid 0 0 (replicate 64 0) 0 0 0 0 0 0 0 0 0 0
    (replicate 64 0) [] [] [].

Definition set_thread (tid : Z) (t : thread_info) (k : kstate) : kstate :=
  set_threads_info_ptr (<[tid := t]> (threads_info_ptr k)) k.
Definition set_proc_slot (pid addr : Z) (k : kstate) : kstate :=
  set_processes_info_ptr (<[pid := addr]> (processes_info_ptr k)) k.
Definition set_proc_at (addr : Z) (p : process_info) (k : kstate) : kstate :=
  set_process_heap (<[addr := p]> (process_heap k)) k.

(** The words of the two pointer tables, as [get_a_free_slot] sees them. *)
Definition thread_word (k : kstate) (i : Z) : Z := match thread k i with Some _ => 1 | None => 0 end.

Definition free_slot_m (words : kstate -> Z -> Z) (start stop : Z) : ST kstate Z := fun k =>
  match get_a_free_slot (words k) start stop with
  | Some i => Done (i, k)
  | None => Panicked
  end.

Fixpoint erase_blocks (n : nat) (addr : Z) (k : kstate) : kstate :=
  match n with
  | O => k
  | S n' => erase_blocks n' (addr + 4096) (erase_block addr k)
  end.

Section Create.
Context {M : Machine}.
(** Addresses of the idle loop and its stack, from asm/scheduler.asm. *)
Context (xsleep xsleep_top : Z).

Definition setup_process_info (pid parent_pid : Z) : ST kstate unit :=
  pid_addr ← get_a_free_block_addr;
  _ ← modify (erase_block pid_addr);
  _ ← modify (set_proc_slot pid pid_addr);
  b ← get_continuous_free_blocks 20;
  let fd_addr := u64 (b * 4096 + HM) in
  if parent_pid =? pid then
    modify (set_proc_at pid_addr (new_process pid PROCESS_RUNNING pid pid fd_addr parent_pid))
  else
    _ ← modify (set_proc_at pid_addr (new_process pid PROCESS_RUNNING 0 0 fd_addr parent_pid));
    q ← (gets (fun k => process_heap k !! (pid_addr + parent_pid * sizeof_process_info)) ≫= deref);
    modify (set_proc_at pid_addr (new_process pid PROCESS_RUNNING (p_pgid q) (p_sid q) fd_addr parent_pid)).

Definition setup_idle_process_info : ST kstate unit :=
  pid_addr ← get_a_free_block_addr;
  _ ← modify (erase_block pid_addr);
  _ ← modify (set_proc_slot 0 pid_addr);
  _ ← modify (set_proc_at pid_addr (new_process 0 PROCESS_IDLE 0 0 0 0));
  modify (fun k => set_processes_cr3_ptr (<[0 := page_table_l4 + HM]> (processes_cr3_ptr k)) k).

Definition register_idle_thread : ST kstate unit :=
  addr ← get_a_free_block_addr;
  _ ← modify (erase_block addr);
  _ ← modify (set_thread 0 (new_thread 0 0 THREAD_IDLE 0 0 0 (start_context xsleep_top xsleep 0x8 0x10)));
  p ← (gets (fun k => proc k 0) ≫= deref);
  modify (upd_proc 0 (set_p_threads_count (u64 (p_threads_count p + 1)))).

Definition start_idle_process : ST kstate unit :=
  _ ← setup_idle_process_info; register_idle_thread.

(** The search for a stack: [None] when the fuel ends. *)
Fixpoint stack_loop (fuel : nat) (k : kstate) (pid top : Z) : option Z :=
  match fuel with
  | O => None
  | S f => if is_paged k pid (u64 (top - 4096)) then stack_loop f k pid (u64 (top - 5 * 4096)) else Some top
  end.

(** [&processes_info_ptr[pid]] is taken for the structure: its
    [threads_count], at byte offset 32, is the slot of [pid + 4]. *)
Definition bump_threads_count (pid : Z) (k : kstate) : kstate :=
  set_proc_slot (pid + 4) (u64 (proc_slot k (pid + 4) + 1)) k.

(** The five blocks of a thread and its slot. *)
Definition alloc_thread (start : Z) : ST kstate (Z * Z) :=
  b ← get_continuous_free_blocks 5;
  let addr := u64 (b * 4096 + HM) in
  _ ← modify (erase_blocks 5 addr);
  tid ← free_slot_m thread_word start MAX_THREADS_COUNT;
  mret (addr, tid).

Definition register_a_thread (fuel : nat) (pid entry_point_addr : Z) : ST kstate Z :=
  top ← (gets (fun k => stack_loop fuel k pid (HM - 4096)) ≫= fun o =>
           match o with Some t => mret t | None => fun _ => Stuck end);
  _ ← for_m 4 0 (fun i =>
        _ ← increase_paging_of_process_with_virt_addr pid (u64 (top - i * 4096 - 4096)); mret tt);
  at_ ← alloc_thread 2;
  let (thread_info_addr, thread_id) := (at_ : Z * Z) in
  _ ← modify (set_thread thread_id
        (new_thread pid thread_id THREAD_NOT_EXIST top (u64 (thread_info_addr + 5 * 4096)) 0
           (start_context top entry_point_addr 0x23 0x1b)));
  _ ← modify (bump_threads_count pid);
  mret thread_id.

(** [entry_point_addr] is the word the caller left at [stack_top_addr]. *)
Definition register_a_sub_thread (pid stack_top_addr ptid entry_point_addr : Z) : ST kstate Z :=
  at_ ← alloc_thread 1;
  let (thread_info_addr, thread_id) := (at_ : Z * Z) in
  _ ← modify (set_thread thread_id
        (new_thread pid thread_id THREAD_READY stack_top_addr (u64 (thread_info_addr + 5 * 4096)) ptid
           (start_context stack_top_addr entry_point_addr 0x23 0x1b)));
  _ ← modify (bump_threads_count pid);
  mret thread_id.

Definition setup_kernel_process : ST kstate unit :=
  _ ← modify (fun k => set_processes_cr3_ptr (<[1 := page_table_l4 + HM]> (processes_cr3_ptr k)) k);
  addr ← get_a_free_block_addr;
  _ ← modify (set_proc_slot 1 addr);
  modify (set_proc_at addr (new_process 0 PROCESS_RUNNING 0 0 0 0)).

Definition register_a_kernel_thread (entry_point_addr : Z) : ST kstate Z :=
  at_ ← alloc_thread 1;
  let (thread_info_addr, thread_id) := (at_ : Z * Z) in
  let top := u64 (thread_info_addr + 5 * 4096) in
  _ ← modify (set_thread thread_id
        (new_thread 1 thread_id THREAD_READY top top 0 (start_context top entry_point_addr 0x08 0x10)));
  mret thread_id.
End Create.

(** ** Sleeping: up to the call of the scheduler; [now] is the clock. *)
Definition current_thread : ST kstate thread_info :=
  gets (fun k => thread k (get_current_thread_id k)) ≫= deref.
Definition upd_current (f : thread_info -> thread_info) : ST kstate unit :=
  _ ← current_thread; modify (fun k => upd_thread (get_current_thread_id k) f k).

Definition kernel_thread_sleep (now : timeval) (duration_us : Z) : ST kstate unit :=
  _ ← current_thread;
  _ ← spin_lock threads_info_lock2 set_threads_info_lock2;
  _ ← upd_current (fun t => set_t_state THREAD_BLOCKED_OTHER
                              (set_t_wakeup_time (add_time_us now (u32 duration_us)) t));
  spin_unlock set_threads_info_lock2.

Definition kernel_thread_sleep_on_network (addr : Z) : ST kstate unit :=
  upd_current (fun t => set_t_sleep_flag_addr addr (set_t_state THREAD_BLOCKED_NETWORK t)).

Definition user_thread_current_sleep (now : timeval) (req : timespec) : ST kstate unit :=
  upd_current (fun t =>
    set_t_wakeup_time (add_time now (timespec_to_timeval req)) (set_t_state THREAD_BLOCKED_OTHER t)).

Definition sleep_by_resource (flag_addr : Z) (state : thread_state) : ST kstate unit :=
  let state := if decide (state = THREAD_NOT_EXIST) then THREAD_BLOCKED_OTHER else state in
  upd_current (fun t => set_t_state state (set_t_sleep_flag_addr flag_addr t)).

(** ** Ending *)

(** A pass over the thread table: each present thread, with the table as the
    earlier iterations left it. *)
Definition map_threads (f : Z -> thread_info -> thread_info) (k : kstate) : kstate :=
  set_threads_info_ptr
    (map_imap (fun tid t => Some (if (0 <=? tid) && (tid <? MAX_THREADS_COUNT) then f tid t else t))
       (threads_info_ptr k)) k.

Definition end_thread_of (pid : Z) (t : thread_info) : thread_info :=
  if bool_decide (t_pid t = pid /\ t_state t <> THREAD_NOT_EXIST /\ t_state t <> THREAD_ENDED_BUT_NOT_CLEANED)
  then set_t_state THREAD_ENDED_BUT_NOT_CLEANED t else t.

Definition mark_process_as_ended : ST kstate unit :=
  pid ← get_current_pid;
  _ ← spin_lock threads_info_lock1 set_threads_info_lock1;
  _ ← (gets (fun k => proc k pid) ≫= deref);
  _ ← modify (upd_proc pid (set_p_state PROCESS_ENDED_BUT_NOT_CLEANED));
  _ ← modify (map_threads (fun _ => end_thread_of pid));
  spin_unlock set_threads_info_lock1.

(** [threads_count] is unsigned: the test [<= 0] is [== 0]. *)
Definition mark_current_thread_as_ended {M : Machine} (return_code : Z) : ST kstate unit :=
  tid ← gets get_current_thread_id;
  pid ← get_current_pid;
  _ ← spin_lock threads_info_lock1 set_threads_info_lock1;
  _ ← upd_current (fun t => set_t_return_code return_code (set_t_state THREAD_ENDED_BUT_NOT_CLEANED t));
  _ ← spin_unlock set_threads_info_lock1;
  _ ← for_m 4 1 (fun i =>
        t ← (gets (fun k => thread k tid) ≫= deref);
        modify (decrease_paging_of_process_with_virt_addr pid (u64 (t_stack_addr t - i * 4096))));
  pid' ← get_current_pid;
  p ← (gets (fun k => proc k pid') ≫= deref);
  let n := u64 (p_threads_count p - 1) in
  _ ← modify (upd_proc pid' (set_p_threads_count n));
  when (n =? 0) mark_process_as_ended.

(** [local_addr] is the address of the local variable [thread_info_ptr]. *)
Definition end_thread {M : Machine} (local_addr tid return_code : Z) : ST kstate unit :=
  _ ← (gets (fun k => thread k tid) ≫= deref);
  _ ← modify (upd_thread tid (set_t_state THREAD_DEAD));
  _ ← when (negb (u64 return_code =? neg64 2)) (modify (upd_thread tid (set_t_return_code return_code)));
  for_m 4 0 (fun i => modify (set_memory_block_used_when_boot (local_addr / 4096 + i + 1) false)).

Definition free_block {M : Machine} (block_addr : Z) (k : kstate) : kstate :=
  set_memory_block_used_when_boot (div_ceil block_addr 4096) false k.

(** [for (i = 0; i < n; i++) body(i)] on states. *)
Fixpoint iter_for (n : nat) (i : Z) (body : Z -> kstate -> kstate) (k : kstate) : kstate :=
  match n with
  | O => k
  | S n' => iter_for n' (i + 1) body (body i k)
  end.

Fixpoint free_page_hm {M : Machine} (page_addr : Z) (lv : nat) (k : kstate) : kstate :=
  match lv with
  | O => k
  | S lv' =>
      let max_pageline := if decide (lv = 4%nat) then Z.to_nat (Z.shiftr HM 39) else 512%nat in
      free_block page_addr
        (iter_for max_pageline 0 (fun i k =>
           let low := pageline_to_low_addr (entry k page_addr i) in
           if low =? 0 then k
           else if (1 <? Z.of_nat lv) then free_page_hm (low + HM) lv' k
           else free_block (low + HM) k) k)
  end.

(** The null test is inverted: a null slot is dereferenced, a thread skipped. *)
Definition stop_process (pid : Z) : ST kstate unit :=
  for_m (Z.to_nat MAX_THREADS_COUNT) 0 (fun i =>
    t ← gets (fun k => thread k i);
    match t with
    | Some _ => mret tt
    | None => fault
    end).

(** The loops of [end_process] over the process table. *)
Definition for_procs (body : Z -> ST kstate unit) : ST kstate unit :=
  for_m (Z.to_nat MAX_PROCESSES_COUNT) 0 (fun i =>
    a ← gets (fun k => proc_slot k i);
    if a =? 0 then mret tt else body i).
(** Children of [pid] are given to process 1. *)
Definition reparent_loop (pid : Z) : ST kstate unit :=
  for_procs (fun i =>
    q ← (gets (fun k => proc k i) ≫= deref);
    when (p_parent_pid q =? pid) (modify (upd_proc i (set_p_parent_pid 1)))).
Definition child_running (pid : Z) (p : process_info) : bool :=
  bool_decide (p_parent_pid p = pid /\ p_state p <> PROCESS_STOPPED /\
               p_state p <> PROCESS_ENDED_BUT_NOT_CLEANED /\ p_state p <> PROCESS_NOT_EXIST).
Fixpoint count_children (n : nat) (i pid : Z) (c : Z) : ST kstate Z :=
  match n with
  | O => mret c
  | S n' =>
      a ← gets (fun k => proc_slot k i);
      if a =? 0 then count_children n' (i + 1) pid c
      else
        p ← (gets (fun k => proc k i) ≫= deref);
        count_children n' (i + 1) pid (if child_running pid p then c + 1 else c)
  end.
(** Offset of [lock] in [process_info_t]. *)
Definition offset_lock : Z := 664.
Definition wake_parent (parent_pid lock_addr count : Z) (t : thread_info) : thread_info :=
  if bool_decide (t_pid t = parent_pid /\ t_state t = THREAD_BLOCKED_PID) then
    let t := if bool_decide (t_sleep_flag_addr t = neg64 1 /\ count = 0)
             then set_t_sleep_flag_addr 0 (set_t_state THREAD_READY t) else t in
    if t_sleep_flag_addr t =? lock_addr
    then set_t_sleep_flag_addr 0 (set_t_state THREAD_READY t) else t
  else t.

Definition end_process {M : Machine} (pid return_code : Z) : ST kstate unit :=
  _ ← modify (fun k => free_page_hm (cr3_of k pid) 4 k);
  addr ← gets (fun k => proc_slot k pid);
  p ← (gets (fun k => process_heap k !! addr) ≫= deref);
  _ ← modify (upd_proc pid (set_p_state PROCESS_STOPPED));
  _ ← modify (set_memory_block_used_when_boot (p_fd_addr p / 4096) false);
  _ ← modify (set_memory_block_used_when_boot (p_fd_addr p / 4096 + 1) false);
  _ ← reparent_loop pid;
  _ ← modify (upd_proc pid (fun p => set_p_return_code (u8 return_code) (set_p_fd_addr 0 p)));
  count ← count_children (Z.to_nat MAX_PROCESSES_COUNT) 0 pid 0;
  p' ← (gets (fun k => proc k pid) ≫= deref);
  modify (map_threads (fun _ => wake_parent (p_parent_pid p') (addr + offset_lock) count)).

(** ** Lemmas *)
Section ThreadLemmas.
Lemma thread_map_threads f k tid :
  thread (map_threads f k) tid =
  (fun t => if (0 <=? tid) && (tid <? MAX_THREADS_COUNT) then f tid t else t) <$> thread k tid.
Proof.
  unfold thread, map_threads. cbn -[MAX_THREADS_COUNT]. rewrite map_lookup_imap.
  by destruct (threads_info_ptr k !! tid).
Qed.

Lemma thread_upd_thread tid f k i :
  thread (upd_thread tid f k) i = if decide (i = tid) then f <$> thread k i else thread k i.
Proof.
  unfold thread, upd_thread. cbn. case_decide; subst.
  - by rewrite lookup_alter_eq.
  - by rewrite lookup_alter_ne.
Qed.

Lemma thread_set_thread tid t k i :
  thread (set_thread tid t k) i = if decide (i = tid) then Some t else thread k i.
Proof.
  unfold thread, set_thread. cbn. case_decide; subst.
  - by rewrite lookup_insert_eq.
  - by rewrite lookup_insert_ne.
Qed.

Lemma proc_upd_proc pid f k i :
  proc (upd_proc pid f k) i = if decide (proc_slot k i = proc_slot k pid) then f <$> proc k i else proc k i.
Proof.
  unfold proc, upd_proc, proc_slot. cbn. case_decide as E.
  - rewrite E. by rewrite lookup_alter_eq.
  - by rewrite lookup_alter_ne.
Qed.

Lemma proc_slot_upd_proc pid f k i : proc_slot (upd_proc pid f k) i = proc_slot k i.
Proof. done. Qed.

Lemma iter_for_inv (I : kstate -> Prop) n i body k :
  I k -> (forall j k0, i <= j < i + Z.of_nat n -> I k0 -> I (body j k0)) -> I (iter_for n i body k).
Proof.
  revert i k. induction n as [|n IH]; intros i k HI Hstep; cbn [iter_for]; [done|].
  apply IH; [apply Hstep; [lia|done]|]. intros j k0 Hj. apply Hstep. lia.
Qed.

(** A loop whose body faults once and otherwise leaves the state alone. *)
Lemma for_m_fault {S} n i (body : Z -> ST S unit) (s : S) :
  (forall j, i <= j < i + Z.of_nat n -> body j s = Done (tt, s) \/ body j s = Faulted) ->
  (exists j, i <= j < i + Z.of_nat n /\ body j s = Faulted) -> for_m n i body s = Faulted.
Proof.
  revert i. induction n as [|n IH]; intros i Hb (j & Hj & Ej); [lia|]. cbn [for_m].
  unfold mbind, st_bind. destruct (Hb i ltac:(lia)) as [E|E]; rewrite E; [|done].
  apply IH; [intros; apply Hb; lia|]. exists j. split; [|done].
  destruct (Z.eq_dec i j); [congruence|lia].
Qed.

(** The memory map below [total] survives the freeing of high addresses. *)
Lemma free_block_high {M : Machine} a k c :
  HM <= a < 2 ^ 63 -> 0 <= c < HM / 4096 -> read_map (free_block a k) c = read_map k c.
Proof.
  intros Ha Hc. unfold free_block. rewrite read_map_write. destruct (Z.eqb_spec c (div_ceil a 4096)); [|done].
  pose proof (div_ceil_spec a 4096) as H. assert (0 <= a < 2 ^ 63) as Ha' by (unfold HM in Ha; lia).
  specialize (H Ha' eq_refl). unfold HM in *. change (0x400000000000 / 4096) with 17179869184 in Hc. lia.
Qed.

Lemma pageline_low_bound e : 0 <= e -> 0 <= pageline_to_low_addr e <= 0x000FFFFFFFFFF000.
Proof.
  intros He. unfold pageline_to_low_addr. split; [apply Z.land_nonneg; by left|].
  rewrite Z.land_comm. by apply land_le.
Qed.

Lemma iter_for_same (g : kstate -> Z) n i body k v :
  g k = v -> (forall j k0, g k0 = v -> g (body j k0) = v) -> g (iter_for n i body k) = v.
Proof. intros H0 Hs. apply (iter_for_inv (fun k0 => g k0 = v)); [done|]. intros; by apply Hs. Qed.

Lemma set_block_words {M : Machine} i b k : ram_words k -> ram_words (set_memory_block_used_when_boot i b k).
Proof.
  intros Hw a. unfold set_memory_block_used_when_boot. cbv zeta. case_match; [apply Hw|].
  apply write_ram_words; [|done]. apply put_byte_range; [apply Hw|apply Z.mod_pos_bound; lia|].
  destruct b; lia.
Qed.

Lemma free_page_hm_map {M : Machine} lv : forall a k c,
  ram_words k -> HM <= a < 2 ^ 63 -> 0 <= c < HM / 4096 ->
  read_map (free_page_hm a lv k) c = read_map k c /\ ram_words (free_page_hm a lv k).
Proof.
  induction lv as [|lv IH]; intros a k c Hw Ha Hc; [done|]. cbn [free_page_hm].
  match goal with |- context [iter_for ?n ?i ?body k] =>
    assert (H : read_map (iter_for n i body k) c = read_map k c /\ ram_words (iter_for n i body k)) end.
  { apply (iter_for_inv (fun k0 => read_map k0 c = read_map k c /\ ram_words k0)); [done|].
    intros j k0 _ [Hm Hw0].
    assert (0 <= entry k0 a j) as He by apply Hw0. pose proof (pageline_low_bound (entry k0 a j) He) as Hb.
    ztest; [done|]. assert (HM <= pageline_to_low_addr (entry k0 a j) + HM < 2 ^ 63) by (unfold HM; lia).
    ztest.
    - destruct (IH (pageline_to_low_addr (entry k0 a j) + HM) k0 c) as [E1 E2]; [done..|].
      by rewrite E1.
    - rewrite free_block_high by done. split; [done|]. by apply set_block_words. }
  destruct H as [Hm Hr]. split; [by rewrite free_block_high|]. by apply set_block_words.
Qed.

(** *** The process table *)
Definition reparent (pid : Z) (p : process_info) : process_info :=
  if p_parent_pid p =? pid then set_p_parent_pid 1 p else p.
(** Every used slot holds a structure. *)
Definition slots_ok (k : kstate) : Prop :=
  forall i, 0 <= i < MAX_PROCESSES_COUNT -> proc_slot k i <> 0 -> is_Some (proc k i).

Lemma reparent_idem pid p : pid <> 1 -> reparent pid (reparent pid p) = reparent pid p.
Proof.
  intros Hp. unfold reparent. destruct (Z.eqb_spec (p_parent_pid p) pid) as [E|E].
  - cbn [set_p_parent_pid p_parent_pid]. destruct (Z.eqb_spec 1 pid); [congruence|done].
  - destruct (Z.eqb_spec (p_parent_pid p) pid); done.
Qed.

Lemma reparent_loop_spec k pid :
  slots_ok k -> pid <> 1 ->
  exists k', reparent_loop pid k = Done (tt, k') /\ k' = set_process_heap (process_heap k') k /\
    (forall i, 0 <= i < MAX_PROCESSES_COUNT -> proc_slot k i <> 0 ->
       proc k' i = reparent pid <$> proc k i).
Proof.
  intros Hok Hp. unfold reparent_loop, for_procs.
  set (body := fun i : Z => _).
  destruct (for_m_inv (fun j s => s = set_process_heap (process_heap s) k /\
     forall i, 0 <= i < MAX_PROCESSES_COUNT -> proc_slot k i <> 0 ->
       exists q0 q, proc k i = Some q0 /\ proc s i = Some q /\ (q = q0 \/ q = reparent pid q0) /\
         (i < j -> q = reparent pid q0)) (Z.to_nat MAX_PROCESSES_COUNT) 0 body k) as (s & E & Hs & HI).
  - split; [by destruct k|]. intros i Hi Hz. destruct (Hok i Hi Hz) as [q Eq].
    exists q, q. split_and!; [done|done|by left|lia].
  - intros j s Hj [Hs HI]. unfold body. cbv [gets mbind st_bind].
    assert (Hslot : forall i, proc_slot s i = proc_slot k i) by (intros; by rewrite Hs).
    rewrite Hslot. destruct (Z.eqb_spec (proc_slot k j) 0) as [Hz|Hz].
    { exists s. split_and!; [done|done|]. intros i Hi Hzi. destruct (HI i Hi Hzi) as (q0 & q & ? & ? & ? & H).
      exists q0, q. split_and!; try done. intros Hij. apply H. destruct (Z.eq_dec i j); [by subst|lia]. }
    destruct (HI j ltac:(lia) Hz) as (q0 & q & E0 & Eq & Hq & _). rewrite Eq. cbn [deref mret st_ret].
    assert (Hre : reparent pid q = reparent pid q0)
      by (destruct Hq as [->| ->]; [done|by apply reparent_idem]).
    unfold reparent at 1 in Hre. cbv [mret st_ret when]. destruct (p_parent_pid q =? pid) eqn:Ep.
    + eexists. split; [reflexivity|]. split; [by rewrite Hs|]. intros i Hi Hzi.
      destruct (HI i Hi Hzi) as (r0 & r & F0 & Fr & Hr & Hlt). rewrite proc_upd_proc, !Hslot, Fr.
      case_decide as Es.
      * exists r0, (set_p_parent_pid 1 r). unfold proc in Fr, Eq, F0, E0. rewrite Hslot in Fr, Eq.
        rewrite Es in Fr, F0. rewrite Eq in Fr. injection Fr as <-. rewrite E0 in F0. injection F0 as <-.
        split_and!; try done; [unfold proc; rewrite Es; done|by right].
      * exists r0, r. split_and!; try done. intros. apply Hlt. destruct (Z.eq_dec i j); [by subst|lia].
    + exists s. split_and!; [done|done|]. intros i Hi Hzi.
      destruct (Z.eq_dec i j) as [->|Hij].
      * exists q0, q. split_and!; done.
      * destruct (HI i Hi Hzi) as (r0 & r & ? & ? & ? & H). exists r0, r. split_and!; try done.
        intros. apply H. lia.
  - exists s. split_and!; [done|done|]. intros i Hi Hz.
    destruct (HI i Hi Hz) as (q0 & q & -> & -> & _ & H). rewrite H by lia. done.
Qed.

Lemma free_page_hm_mem_only {M : Machine} lv : forall a k, mem_only k (free_page_hm a lv k).
Proof.
  induction lv as [|lv IH]; intros a k; [apply mem_only_refl|]. cbn [free_page_hm].
  eapply mem_only_trans; [|apply set_block_mem_only].
  apply (iter_for_inv (mem_only k)); [apply mem_only_refl|].
  intros j k0 _ Hk0. ztest; [done|].
  ztest; (eapply mem_only_trans; [exact Hk0|]); [apply IH|apply set_block_mem_only].
Qed.

(** Unmapping touches page tables and the block map only. *)
Lemma drop_mem_only {M : Machine} t i k : mem_only k (clear_entry t i k).
Proof.
  eapply mem_only_trans; [apply (set_block_mem_only (entry k t i) false)|]. by eexists _, _.
Qed.

Lemma decrease_mem_only {M : Machine} pid va k : mem_only k (decrease_paging_of_process_with_virt_addr pid va k).
Proof.
  unfold decrease_paging_of_process_with_virt_addr. cbv zeta.
  repeat match goal with
  | |- mem_only _ (if ?b then _ else _) => destruct b; [apply mem_only_refl || idtac|]
  end; try apply mem_only_refl; repeat (eapply mem_only_trans; [|apply drop_mem_only]); apply mem_only_refl.
Qed.

Lemma get_current_pid_done k t : thread k (gs8 k) = Some t -> get_current_pid k = Done (t_pid t, k).
Proof.
  intros H. unfold get_current_pid, get_current_thread_id. cbv [gets mbind st_bind]. by rewrite H.
Qed.

Lemma current_thread_done k t : thread k (gs8 k) = Some t -> current_thread k = Done (t, k).
Proof. intros H. unfold current_thread, get_current_thread_id. cbv [gets mbind st_bind]. by rewrite H. Qed.

Lemma upd_current_done k t f :
  thread k (gs8 k) = Some t -> upd_current f k = Done (tt, upd_thread (gs8 k) f k).
Proof.
  intros H. unfold upd_current. by rewrite (bind_done _ _ _ _ _ (current_thread_done k t H)).
Qed.

Lemma mark_process_as_ended_done k t p :
  thread k (gs8 k) = Some t -> proc k (t_pid t) = Some p -> threads_info_lock1 k = 0 ->
  exists k', mark_process_as_ended k = Done (tt, k') /\
    (forall tid, 0 <= tid < MAX_THREADS_COUNT -> thread k' tid = end_thread_of (t_pid t) <$> thread k tid) /\
    proc k' (t_pid t) = Some (set_p_state PROCESS_ENDED_BUT_NOT_CLEANED p) /\
    threads_info_lock1 k' = 0.
Proof.
  intros Ht Hp Hl. eexists. split; [|split_and!].
  - unfold mark_process_as_ended. rewrite (bind_done _ _ _ _ _ (get_current_pid_done k t Ht)).
    cbv [spin_lock gets mbind st_bind modify]. rewrite Hl. cbn [Z.eqb].
    change (proc (set_threads_info_lock1 1 k) (t_pid t)) with (proc k (t_pid t)).
    rewrite Hp. reflexivity.
  - intros tid Hr. etrans; [apply (thread_map_threads (fun _ => end_thread_of (t_pid t)))|].
    by destruct (Z.leb_spec 0 tid), (Z.ltb_spec tid MAX_THREADS_COUNT); try lia.
  - etrans; [apply (proc_upd_proc (t_pid t) _ (set_threads_info_lock1 1 k) (t_pid t))|].
    rewrite decide_True by done. change (proc (set_threads_info_lock1 1 k) (t_pid t)) with (proc k (t_pid t)).
    by rewrite Hp.
  - done.
Qed.

(** The state before the unmapping loop of [mark_current_thread_as_ended]. *)
Lemma unmap_stack_loop {M : Machine} k tid t pid :
  thread k tid = Some t ->
  exists k', for_m 4 1 (fun i =>
      t ← (gets (fun k => thread k tid) ≫= deref);
      modify (decrease_paging_of_process_with_virt_addr pid (u64 (t_stack_addr t - i * 4096)))) k
    = Done (tt, k') /\ mem_only k k'.
Proof.
  intros Ht.
  match goal with |- context [for_m 4 1 ?body k] =>
    destruct (for_m_inv (fun _ s => mem_only k s) 4 1 body k) as (k' & E & H) end; [apply mem_only_refl| |by eauto].
  intros j s _ Hs. eexists. cbv [gets mbind st_bind modify].
  assert (thread s tid = Some t) as -> by (destruct Hs as (m & r & ->); done).
  cbn [deref mret st_ret]. split; [reflexivity|].
  eapply mem_only_trans; [exact Hs|apply decrease_mem_only].
Qed.

Lemma erase_blocks_mem_only n a k : mem_only k (erase_blocks n a k).
Proof.
  revert a k. induction n as [|n IH]; intros a k; [apply mem_only_refl|]. cbn [erase_blocks].
  eapply mem_only_trans; [|apply IH]. by exists (memory_map k), (erase_words 512 a 0 (ram k)).
Qed.

Lemma alloc_block_mem_only {M : Machine} k a k' :
  get_a_free_block_addr k = Done (a, k') -> mem_only k k'.
Proof.
  intros E. unfold get_a_free_block_addr in E. apply bind_done_inv in E as (b & k1 & Eb & E).
  injection E as _ <-. apply get_a_free_block_done in Eb as (_ & _ & _ & ->). by eexists _, (ram k).
Qed.

Lemma next_table_mem_only {M : Machine} t i k t' k' : next_table t i k = Done (t', k') -> mem_only k k'.
Proof.
  unfold next_table. intros E. apply bind_done_inv in E as (e & k1 & [= <- <-] & E).
  destruct (entry k t i =? 0); [|injection E as _ <-; apply mem_only_refl].
  apply bind_done_inv in E as (a & k2 & Ea & E). apply alloc_block_mem_only in Ea.
  injection E as _ <-. eapply mem_only_trans; [exact Ea|]. by exists (memory_map k2); eexists.
Qed.

Lemma increase_mem_only {M : Machine} pid va k r k' :
  increase_paging_of_process_with_virt_addr pid va k = Done (r, k') -> mem_only k k'.
Proof.
  intros E. unfold increase_paging_of_process_with_virt_addr in E.
  apply bind_done_inv in E as (c & k0 & [= <- <-] & E).
  apply bind_done_inv in E as (t3 & k1 & E1%next_table_mem_only & E).
  apply bind_done_inv in E as (t2 & k2 & E2%next_table_mem_only & E).
  apply bind_done_inv in E as (t1 & k3 & E3%next_table_mem_only & E).
  apply bind_done_inv in E as (e & k4 & [= <- <-] & E).
  eapply mem_only_trans; [exact E1|]. eapply mem_only_trans; [exact E2|]. eapply mem_only_trans; [exact E3|].
  destruct (entry k3 t1 _ =? 0); [|injection E as _ <-; apply mem_only_refl].
  apply bind_done_inv in E as (a & k5 & Ea%alloc_block_mem_only & E). injection E as _ <-.
  eapply mem_only_trans; [exact Ea|]. by exists (memory_map k5); eexists.
Qed.

(** A loop that succeeds preserves a transitive relation its body preserves. *)
Lemma for_m_rel {S} (R : S -> S -> Prop) n i (body : Z -> ST S unit) s s' :
  Reflexive R -> Transitive R ->
  (forall j x y, body j x = Done (tt, y) -> R x y) ->
  for_m n i body s = Done (tt, s') -> R s s'.
Proof.
  intros Hr Ht Hb. revert i s. induction n as [|n IH]; intros i s E; cbn [for_m] in E.
  - injection E as <-. apply Hr.
  - apply bind_done_inv in E as ([] & s1 & E1 & E). eapply Ht; [by eapply Hb|by eapply IH].
Qed.

Lemma run_mem_only {M : Machine} n k b k' :
  0 <= n -> get_continuous_free_blocks n k = Done (b, k') -> mem_only k k'.
Proof.
  intros Hn. unfold get_continuous_free_blocks. destruct (find_idx _ _ _) as [i|]; [|discriminate].
  intros [= -> <-]. clear Hn. revert b k. induction (Z.to_nat n) as [|j IH]; intros b k; cbn [mark_blocks].
  - apply mem_only_refl.
  - eapply mem_only_trans; [apply set_block_mem_only|apply IH].
Qed.

(** The slot a new thread gets: the lowest free one. *)
Lemma alloc_thread_inv {M : Machine} start k addr tid k' :
  alloc_thread start k = Done ((addr, tid), k') ->
  mem_only k k' /\ thread k tid = None /\ start <= tid <= MAX_THREADS_COUNT /\
  (forall i, start <= i < tid -> thread k i <> None).
Proof.
  unfold alloc_thread. intros E. apply bind_done_inv in E as (b & k1 & E1 & E).
  apply bind_done_inv in E as ([] & k2 & [= <-] & E). apply bind_done_inv in E as (t & k3 & E3 & E).
  injection E as _ <- <-. unfold free_slot_m, get_a_free_slot in E3.
  destruct (find_idx _ _ _) as [j|] eqn:F; [|discriminate]. injection E3 as <- <-.
  apply find_idx_Some in F as (Hr & Hz & Hmin).
  assert (mem_only k (erase_blocks 5 (u64 (b * 4096 + HM)) k1)) as Hm.
  { eapply mem_only_trans; [by eapply (run_mem_only 5)|apply erase_blocks_mem_only]. }
  assert (Ht : forall i, thread (erase_blocks 5 (u64 (b * 4096 + HM)) k1) i = thread k i)
    by (destruct Hm as (m & r & ->); done).
  unfold thread_word in *. rewrite Ht in Hz. zbool. split_and!; try done; try lia.
  - by destruct (thread k j).
  - intros i Hi. specialize (Hmin i Hi). rewrite Ht in Hmin. by destruct (thread k i).
Qed.

Lemma alloc_thread_done {M : Machine} start k b k1 :
  get_continuous_free_blocks 5 k = Done (b, k1) ->
  (exists i, 0 <= start <= i /\ i <= MAX_THREADS_COUNT /\ thread k i = None) ->
  exists tid, alloc_thread start k = Done ((u64 (b * 4096 + HM), tid), erase_blocks 5 (u64 (b * 4096 + HM)) k1).
Proof.
  intros E (i & Hi & Him & Hn). unfold alloc_thread. rewrite (bind_done _ _ _ _ _ E). cbv zeta.
  rewrite (bind_done (modify _) _ _ tt _ eq_refl).
  assert (Ht : thread (erase_blocks 5 (u64 (b * 4096 + HM)) k1) i = None).
  { pose proof (mem_only_trans _ _ _ (run_mem_only 5 k b k1 ltac:(lia) E)
      (erase_blocks_mem_only 5 (u64 (b * 4096 + HM)) k1)) as (m & r & ->). done. }
  cbv [mbind st_bind]. unfold free_slot_m, get_a_free_slot. destruct (find_idx _ _ _) as [j|] eqn:F.
  - by exists j.
  - rewrite find_idx_None in F. specialize (F i ltac:(lia)). unfold thread_word in F. by rewrite Ht in F.
Qed.

Lemma count_children_none n i pid c k :
  (forall j, i <= j < i + Z.of_nat n -> proc_slot k j <> 0 ->
     exists q, proc k j = Some q /\ p_parent_pid q <> pid) ->
  count_children n i pid c k = Done (c, k).
Proof.
  revert i. induction n as [|n IH]; intros i H; [done|]. cbn [count_children].
  cbv [gets mbind st_bind]. destruct (Z.eqb_spec (proc_slot k i) 0); [apply IH; intros; apply H; lia|].
  destruct (H i ltac:(lia)) as (q & -> & Hq); [done|]. cbn [deref mret st_ret].
  unfold child_running. rewrite bool_decide_false by (intros [? _]; done). apply IH. intros; apply H; lia.
Qed.
(** What a successful registration does. *)
Lemma register_a_thread_effect {M : Machine} (fuel : nat) (k k' : kstate) (pid entry_point_addr tid : Z) :
  register_a_thread fuel pid entry_point_addr k = Done (tid, k') ->
  thread k tid = None /\
  (exists t, thread k' tid = Some t /\ t_pid t = pid /\ t_state t = THREAD_NOT_EXIST) /\
  (forall i, i <> tid -> thread k' i = thread k i) /\
  process_heap k' = process_heap k /\
  (forall i, proc_slot k' i = if i =? pid + 4 then u64 (proc_slot k i + 1) else proc_slot k i).
Proof.
  unfold register_a_thread. intros E. apply bind_done_inv in E as (top & k0 & E0 & E).
  assert (k0 = k) as ->.
  { apply bind_done_inv in E0 as (o & k1 & [= <- <-] & E0). destruct (stack_loop _ _ _ _); [by injection E0|discriminate]. }
  apply bind_done_inv in E as ([] & k1 & E1 & E).
  apply (for_m_rel mem_only) in E1; [|intros ?; apply mem_only_refl|intros ? ? ?; apply mem_only_trans|].
  2:{ intros j x y Hb. apply bind_done_inv in Hb as (r & z & Hz & [= <-]). by eapply increase_mem_only. }
  apply bind_done_inv in E as ([addr t] & k2 & E2 & E).
  apply alloc_thread_inv in E2 as ((m & r & Hm) & Ht & _). injection E as <- <-.
  destruct E1 as (m1 & r1 & E1). split; [by rewrite E1 in Ht|].
  split; [eexists; split; [etrans; [apply (thread_set_thread t)|by rewrite decide_True]|done]|].
  split; [|split].
  - intros i Hi. etrans; [apply (thread_set_thread t)|]. rewrite decide_False by done. by rewrite Hm, E1.
  - cbn. by rewrite Hm, E1.
  - intros i. unfold bump_threads_count, set_proc_slot, proc_slot. cbn. rewrite lookup_insert.
    destruct (Z.eqb_spec i (pid + 4)); case_decide; try lia; rewrite Hm, E1; subst; done.
Qed.
End ThreadLemmas.

(** ** Properties *)

(** Releasing an address space releases nothing: the block numbers are
    computed from addresses that still carry the high offset, so on a machine
    with less than [HM] bytes of memory no existing block changes state. *)
Theorem free_page_hm_frees_nothing {M : Machine} (k : kstate) (page_addr c : Z) (lv : nat) :
  ram_words k -> HM <= page_addr < 2 ^ 63 -> total_memory_blocks_count <= HM / 4096 ->
  0 <= c < total_memory_blocks_count ->
  read_map (free_page_hm page_addr lv k) c = read_map k c.
Proof. intros Hw Ha Ht Hc. apply free_page_hm_map; [done|done|lia]. Qed.

(** Ending a process marks it stopped with its return code and without
    descriptors, gives its children to process 1, and readies the threads of its
    parent that wait for it or for any child; no other thread changes. *)
Theorem end_process_effect {M : Machine} (k : kstate) (pid rc : Z) (p : process_info) :
  slots_ok k -> pid <> 1 -> 0 <= pid < MAX_PROCESSES_COUNT ->
  proc_slot k pid <> 0 -> proc k pid = Some p ->
  exists k' p', end_process pid rc k = Done (tt, k') /\
    proc k' pid = Some p' /\ p_state p' = PROCESS_STOPPED /\ p_return_code p' = u8 rc /\ p_fd_addr p' = 0 /\
    (forall i, 0 <= i < MAX_PROCESSES_COUNT -> proc_slot k i <> 0 ->
       exists q q', proc k i = Some q /\ proc k' i = Some q' /\
         p_parent_pid q' = if p_parent_pid q =? pid then 1 else p_parent_pid q) /\
    (forall tid, 0 <= tid < MAX_THREADS_COUNT ->
       thread k' tid = wake_parent (p_parent_pid p') (proc_slot k pid + offset_lock) 0 <$> thread k tid).
Proof.
  intros Hok Hp Hr Hz Ep. unfold end_process. rewrite (bind_done _ _ k tt _ eq_refl). cbv beta.
  destruct (free_page_hm_mem_only 4 (cr3_of k pid) k) as (m & r & ->).
  cbv [gets mbind st_bind modify].
  change (process_heap (set_ram r (set_memory_map m k)) !! proc_slot (set_ram r (set_memory_map m k)) pid) with (proc k pid).
  rewrite Ep. cbn [deref mret st_ret].
  match goal with |- context [reparent_loop pid (set_memory_block_used_when_boot ?a false (set_memory_block_used_when_boot ?b false ?s))] =>
    destruct (mem_only_trans _ _ _ (set_block_mem_only b false s) (set_block_mem_only a false _)) as (m2 & r2 & ->);
    set (k2 := set_ram r2 (set_memory_map m2 s)) end.
  assert (S2 : forall i, proc_slot k2 i = proc_slot k i) by done.
  assert (P2 : forall i, proc k2 i = if decide (proc_slot k i = proc_slot k pid)
                 then set_p_state PROCESS_STOPPED <$> proc k i else proc k i)
    by (intros; apply (proc_upd_proc pid (set_p_state PROCESS_STOPPED) (set_ram r (set_memory_map m k)) i)).
  assert (slots_ok k2) as Hok2.
  { intros i Hi Hzi. rewrite P2. destruct (Hok i Hi Hzi) as [q ->]. case_decide; eauto. }
  destruct (reparent_loop_spec k2 pid Hok2 Hp) as (k3 & -> & E3 & P3).
  match goal with |- context [count_children _ _ _ _ ?s] => set (k4 := s) end.
  assert (S4 : forall i, proc_slot k4 i = proc_slot k i) by (intros; unfold k4; by rewrite E3).
  assert (P4 : forall i, proc k4 i = if decide (proc_slot k i = proc_slot k pid)
     then (fun p0 => set_p_return_code (u8 rc) (set_p_fd_addr 0 p0)) <$> proc k3 i else proc k3 i)
    by (intros i; unfold k4; rewrite proc_upd_proc, E3; done).
  assert (Q4 : forall i, 0 <= i < MAX_PROCESSES_COUNT -> proc_slot k i <> 0 ->
     exists q q', proc k i = Some q /\ proc k4 i = Some q' /\
       p_parent_pid q' = (if p_parent_pid q =? pid then 1 else p_parent_pid q) /\
       (i = pid -> p_state q' = PROCESS_STOPPED /\ p_return_code q' = u8 rc /\ p_fd_addr q' = 0)).
  { intros i Hi Hzi. destruct (Hok i Hi Hzi) as [q Eq]. rewrite P4, P3, P2, Eq by done.
    exists q. unfold reparent. case_decide; cbn -[Z.eqb]; (destruct (p_parent_pid q =? pid) eqn:E;
      eexists; split_and!; try reflexivity; try done; intros ->; done). }
  rewrite count_children_none.
  2:{ intros j Hj Hzj. destruct (Q4 j ltac:(lia)) as (q & q' & _ & Eq' & Hpar & _); [by rewrite <- S4|].
      exists q'. split; [done|]. rewrite Hpar. destruct (Z.eqb_spec (p_parent_pid q) pid); congruence. }
  destruct (Q4 pid Hr Hz) as (q & q' & _ & Eq' & _ & Hst). rewrite Eq'. cbn [deref mret st_ret].
  eexists _, q'. split; [reflexivity|]. split; [exact Eq'|]. destruct (Hst eq_refl) as (? & ? & ?).
  split_and!; try done.
  - intros i Hi Hzi. destruct (Q4 i Hi Hzi) as (r0 & r0' & ? & ? & ? & _). by exists r0, r0'.
  - intros tid Ht. rewrite thread_map_threads. destruct (Z.leb_spec 0 tid), (Z.ltb_spec tid MAX_THREADS_COUNT);
      try lia. cbn [andb]. unfold k4. unfold thread, upd_proc. cbn. by rewrite E3.
Qed.

(** A thread that ends is marked with its return code, and its process is
    marked ended exactly when the thread count falls to zero; a count of zero,
    which is what [register_a_thread] leaves, wraps around and the process stays
    as it was. *)
Theorem mark_current_thread_as_ended_effect {M : Machine} (k : kstate) (rc : Z) (t : thread_info) (p : process_info) :
  0 <= gs8 k < MAX_THREADS_COUNT -> thread k (gs8 k) = Some t -> proc k (t_pid t) = Some p ->
  threads_info_lock1 k = 0 -> 0 <= p_threads_count p < 2 ^ 64 ->
  exists k' t' p', mark_current_thread_as_ended rc k = Done (tt, k') /\
    thread k' (gs8 k) = Some t' /\ t_state t' = THREAD_ENDED_BUT_NOT_CLEANED /\ t_return_code t' = rc /\
    proc k' (t_pid t) = Some p' /\ p_threads_count p' = u64 (p_threads_count p - 1) /\
    p_state p' = (if p_threads_count p =? 1 then PROCESS_ENDED_BUT_NOT_CLEANED else p_state p) /\
    threads_info_lock1 k' = 0.
Proof.
  intros Hr Ht Hp Hl Hn. unfold mark_current_thread_as_ended.
  rewrite (bind_done (gets _) _ k (gs8 k) k eq_refl).
  rewrite (bind_done _ _ _ _ _ (get_current_pid_done k t Ht)).
  rewrite (bind_done _ _ k tt (set_threads_info_lock1 1 k)) by (unfold spin_lock; by rewrite Hl).
  set (f := fun t0 => set_t_return_code rc (set_t_state THREAD_ENDED_BUT_NOT_CLEANED t0)).
  rewrite (bind_done _ _ _ _ _ (upd_current_done (set_threads_info_lock1 1 k) t f Ht)).
  rewrite (bind_done (spin_unlock _) _ _ tt _ eq_refl).
  set (k3 := set_threads_info_lock1 0 _).
  assert (H3 : thread k3 (gs8 k) = Some (f t)).
  { change (thread (upd_thread (gs8 k) f k) (gs8 k) = Some (f t)).
    by rewrite thread_upd_thread, decide_True, Ht. }
  destruct (unmap_stack_loop k3 (gs8 k) (f t) (t_pid t) H3) as (k4 & E4 & m & r & Ek4).
  rewrite (bind_done _ _ _ _ _ E4).
  assert (T4 : thread k4 (gs8 k4) = Some (f t)) by (by rewrite Ek4).
  rewrite (bind_done _ _ _ _ _ (get_current_pid_done k4 (f t) T4)).
  change (t_pid (f t)) with (t_pid t).
  assert (P4 : proc k4 (t_pid t) = Some p) by (by rewrite Ek4).
  rewrite (bind_done _ _ k4 p k4) by (cbv [gets mbind st_bind]; by rewrite P4).
  cbv zeta. rewrite (bind_done (modify _) _ _ tt _ eq_refl).
  set (n := u64 (p_threads_count p - 1)). set (k5 := upd_proc _ _ k4).
  assert (Hn0 : (n =? 0) = (p_threads_count p =? 1)).
  { unfold n, u64. destruct (Z.eqb_spec (p_threads_count p) 1) as [->|]; [done|]. apply Z.eqb_neq.
    Z.to_euclidean_division_equations; lia. }
  assert (P5 : proc k5 (t_pid t) = Some (set_p_threads_count n p)).
  { unfold k5. by rewrite proc_upd_proc, decide_True, P4. }
  assert (T5 : thread k5 (gs8 k) = Some (f t)) by (unfold k5; by rewrite Ek4).
  assert (threads_info_lock1 k5 = 0 /\ gs8 k5 = gs8 k) as [L5 G5] by (unfold k5; by rewrite Ek4).
  unfold when. rewrite Hn0. destruct (p_threads_count p =? 1).
  - rewrite <- G5 in T5. destruct (mark_process_as_ended_done k5 (f t) _ T5 P5 L5) as (k6 & E6 & T6 & P6 & L6).
    eexists k6, (f t), _. split_and!; [done| |done|done|exact P6|done|done|done].
    rewrite <- G5, T6, T5 by (by rewrite G5). cbn [fmap option_fmap option_map]. unfold end_thread_of.
    rewrite bool_decide_false; [done|]. intros (_ & _ & Hs). by apply Hs.
  - exists k5, (f t), (set_p_threads_count n p). by split_and!.
Qed.

(** While the table has a free slot and memory a run of five free blocks, a
    kernel thread is created: it takes the lowest free slot, is ready, owns five
    blocks whose map bytes were zero, and no other thread or process changes. *)
Theorem register_a_kernel_thread_effect {M : Machine} (k k1 : kstate) (b entry_point_addr : Z) :
  machine_ok -> get_continuous_free_blocks 5 k = Done (b, k1) ->
  (exists i, 1 <= i <= MAX_THREADS_COUNT /\ thread k i = None) ->
  exists tid k', register_a_kernel_thread entry_point_addr k = Done (tid, k') /\
    1 <= tid <= MAX_THREADS_COUNT /\ thread k tid = None /\
    (forall i, 1 <= i < tid -> thread k i <> None) /\
    (forall j, b <= j < b + 5 -> map_byte k j = 0) /\
    thread k' tid = Some (new_thread 1 tid THREAD_READY (blk (b + 5)) (blk (b + 5)) 0
                            (start_context (blk (b + 5)) entry_point_addr 0x08 0x10)) /\
    (forall i, i <> tid -> thread k' i = thread k i) /\
    process_heap k' = process_heap k /\ processes_info_ptr k' = processes_info_ptr k.
Proof.
  intros Mok E (i & Hi & Hn). destruct (alloc_thread_done 1 k b k1 E) as (tid & Ea).
  { exists i. split_and!; try lia. done. }
  revert Ea. generalize (erase_blocks 5 (u64 (b * 4096 + HM)) k1). intros k2 Ea.
  destruct (alloc_thread_inv _ _ _ _ _ Ea) as ((m & r & Hm) & Ht & Hr & Hmin).
  destruct (get_continuous_done 5 k b k1 ltac:(lia) E) as (Hb & Hfree & _).
  unfold register_a_kernel_thread. rewrite (bind_done _ _ _ _ _ Ea). eexists tid, _. split; [reflexivity|].
  pose proof (kernel_blocks_nonneg Mok). destruct Mok as (_ & Htot & _).
  assert (u64 (u64 (b * 4096 + HM) + 5 * 4096) = blk (b + 5)) as ->.
  { unfold blk, HM. rewrite (u64_id (b * 4096 + _)) by lia. rewrite u64_id by lia. lia. }
  split_and!; try done; try lia.
  - by rewrite thread_set_thread, decide_True.
  - intros j Hj. rewrite thread_set_thread, decide_False by done. by rewrite Hm.
  - change (process_heap k2 = process_heap k). by rewrite Hm.
  - change (processes_info_ptr k2 = processes_info_ptr k). by rewrite Hm.
Qed.

(** [register_a_thread] does not count the thread in its process: it takes
    the address of the table slot for the structure, so the process structures
    stay as they are and the pointer in the slot [pid + 4] is incremented. *)
Theorem register_a_thread_corrupts_table {M : Machine} (fuel : nat) (k k' : kstate) (pid entry_point_addr tid : Z) :
  register_a_thread fuel pid entry_point_addr k = Done (tid, k') ->
  thread k tid = None /\
  (exists t, thread k' tid = Some t /\ t_pid t = pid /\ t_state t = THREAD_NOT_EXIST) /\
  (forall i, i <> tid -> thread k' i = thread k i) /\
  process_heap k' = process_heap k /\
  (forall i, proc_slot k' i = if i =? pid + 4 then u64 (proc_slot k i + 1) else proc_slot k i).
Proof. apply register_a_thread_effect. Qed.

(** [stop_process] dereferences the first empty slot of the thread table, and
    on a full table does nothing: it never stops a thread. *)
Theorem stop_process_stops_nothing (k : kstate) (pid : Z) :
  stop_process pid k =
  match find_idx (Z.to_nat MAX_THREADS_COUNT) 0 (fun i => bool_decide (thread k i = None)) with
  | Some _ => Faulted
  | None => Done (tt, k)
  end.
Proof.
  unfold stop_process. destruct (find_idx _ _ _) as [i|] eqn:H.
  - apply find_idx_Some in H as (Hi & E & _). apply bool_decide_eq_true in E. apply for_m_fault.
    + intros j _. cbv [gets mbind st_bind mret st_ret fault]. destruct (thread k j); auto.
    + exists i. split; [lia|]. cbv [gets mbind st_bind mret st_ret fault]. by rewrite E.
  - rewrite find_idx_None in H.
    destruct (for_m_inv (fun _ s => s = k) (Z.to_nat MAX_THREADS_COUNT) 0
      (fun i => t ← gets (fun k => thread k i); match t with Some _ => mret tt | None => fault end) k eq_refl)
      as (s' & E & ->); [|done].
    intros j s0 Hj ->. exists k. split; [|done]. cbv [gets mbind st_bind mret st_ret fault].
    specialize (H j Hj). apply bool_decide_eq_false in H. by destruct (thread k j).
Qed.

(** *** Witnesses *)
#[local] Existing Instance small_machine.

(** Process 3 is the parent of process 2; thread 4 of process 3 waits for a
    child; thread 5 of process 2 is current. *)
Definition demo_procs : kstate :=
  set_gs8 5
    (set_thread 5 (new_thread 2 5 THREAD_RUNNING (HM - 4096) 0 0 zero_context)
       (set_thread 4 (set_t_sleep_flag_addr (neg64 1) (new_thread 3 4 THREAD_BLOCKED_PID 0 0 0 zero_context))
          (set_proc_at 0x6000 (new_process 3 PROCESS_RUNNING 3 3 0 3)
             (set_proc_at 0x5000 (set_p_threads_count 1 (new_process 2 PROCESS_RUNNING 3 3 0 3))
                (set_proc_slot 3 0x6000 (set_proc_slot 2 0x5000 demo_pt)))))).

Lemma demo_procs_slots : slots_ok demo_procs.
Proof.
  intros i _ Hz. unfold proc. unfold proc_slot in *.
  change (processes_info_ptr demo_procs) with (<[3 := 0x6000]> (<[2 := 0x5000]> (∅ : gmap Z Z))) in *.
  destruct (decide (i = 3)) as [->|]; [by eexists|].
  destruct (decide (i = 2)) as [->|]; [by eexists|].
  rewrite !lookup_insert_ne, lookup_empty in Hz by done. done.
Qed.

Lemma free_page_hm_frees_nothing_witness :
  read_map (free_page_hm (blk 5) 4 demo_mapped) 7 = read_map demo_mapped 7 /\ read_map demo_mapped 7 = 1.
Proof.
  split; [|vm_compute; reflexivity].
  apply (@free_page_hm_frees_nothing small_machine demo_mapped (blk 5) 7 4).
  - apply demo_mapped_words.
  - unfold blk, HM. lia.
  - vm_compute. discriminate.
  - cbn. lia.
Defined.

Lemma end_process_effect_witness :
  exists k' p', end_process 2 7 demo_procs = Done (tt, k') /\ proc k' 2 = Some p' /\ p_return_code p' = 7.
Proof.
  destruct (end_process_effect demo_procs 2 7 (set_p_threads_count 1 (new_process 2 PROCESS_RUNNING 3 3 0 3)))
    as (k' & p' & E & Ep & _ & Er & _).
  - apply demo_procs_slots.
  - lia.
  - unfold MAX_PROCESSES_COUNT. lia.
  - vm_compute. discriminate.
  - vm_compute. reflexivity.
  - exists k', p'. split; [exact E|]. split; [exact Ep|exact Er].
Defined.

Lemma mark_current_thread_as_ended_effect_witness :
  exists k' t', mark_current_thread_as_ended 3 demo_procs = Done (tt, k') /\
    thread k' 5 = Some t' /\ t_return_code t' = 3.
Proof.
  destruct (mark_current_thread_as_ended_effect demo_procs 3
    (new_thread 2 5 THREAD_RUNNING (HM - 4096) 0 0 zero_context)
    (set_p_threads_count 1 (new_process 2 PROCESS_RUNNING 3 3 0 3))) as (k' & t' & p' & E & Et & _ & Er & _).
  - vm_compute. split; [discriminate|reflexivity].
  - vm_compute. reflexivity.
  - vm_compute. reflexivity.
  - reflexivity.
  - cbn. lia.
  - exists k', t'. split; [exact E|]. split; [exact Et|exact Er].
Defined.

(** Did the run end normally? *)
Definition is_done {A} (o : outcome A) : bool := match o with Done _ => true | _ => false end.

Lemma register_a_kernel_thread_effect_witness :
  exists tid k', @register_a_kernel_thread small_machine 0x1234 (mark_blocks 10 0 boot_state) = Done (tid, k').
Proof.
  assert (is_done (@get_continuous_free_blocks small_machine 5 (mark_blocks 10 0 boot_state)) = true) as D by (vm_compute; reflexivity).
  destruct (@get_continuous_free_blocks small_machine 5 (mark_blocks 10 0 boot_state)) as [[b k1]| | |] eqn:E; [clear D|discriminate D..].
  destruct (@register_a_kernel_thread_effect small_machine (mark_blocks 10 0 boot_state) k1 b 0x1234)
    as (tid & k' & Er & _).
  - apply small_machine_ok.
  - exact E.
  - exists 1. split; [unfold MAX_THREADS_COUNT; lia|reflexivity].
  - exists tid, k'. exact Er.
Defined.

Lemma register_a_thread_corrupts_table_witness :
  exists tid k', @register_a_thread small_machine 3 2 0x1000 demo_procs = Done (tid, k') /\
    process_heap k' = process_heap demo_procs /\ proc_slot k' 6 = 1.
Proof.
  assert (is_done (@register_a_thread small_machine 3 2 0x1000 demo_procs) = true) as D by (vm_compute; reflexivity).
  destruct (@register_a_thread small_machine 3 2 0x1000 demo_procs) as [[tid k']| | |] eqn:E; [clear D|discriminate D..].
  pose proof (@register_a_thread_corrupts_table small_machine 3 demo_procs k' 2 0x1000 tid E) as (_ & _ & _ & Hh & Hs).
  exists tid, k'. split; [reflexivity|]. split; [exact Hh|]. rewrite (Hs 6). vm_compute. reflexivity.
Defined.
