(* ===== verification/Sched.v ===== *)
(** * Sched: interrupts and the scheduler tick, src/core/interrupt.h

    The three entries of the scheduler ([timer_tick_from_idle],
    [timer_tick_from_non_idle], [timer_tick1]) as they run on one core, the
    wake-up pass over sleeping threads, the signal handlers, the fault hooks
    and the interrupt table.  The assembly around the ticks releases
    [threads_info_lock] and loads the context of the returned thread. *)
From S2P Require Import Prelude MemLib Time KState Blocks Paging Threads.
Open Scope Z_scope.

(** ** Definitions *)
Definition SIGKILL : Z := 9.
Definition SIGSTOP : Z := 19.

(** [idt_entry_t] *)
Record idt_entry := IdtEntry {
  offset_low : Z; selector : Z; ist : Z; type_attr : Z;
  offset_mid : Z; offset_high : Z; idt_zero : Z
}.
Definition register_interrupt_handler (n handler ist_ flags : Z) (idt : gmap Z idt_entry) : gmap Z idt_entry :=
  <[n := IdtEntry (Z.land handler 0xFFFF) 0x08 (Z.land ist_ 0x7) (u8 flags)
           (Z.land (Z.shiftr handler 16) 0xFFFF) (Z.land (Z.shiftr handler 32) 0xFFFFFFFF) 0]> idt.

(** [now i]: the clock as read when slot [i] is examined. *)
Definition wake_if_due (now : Z -> timeval) (i : Z) (t : thread_info) : thread_info :=
  if bool_decide (t_state t = THREAD_BLOCKED_OTHER) && _later (now i) (t_wakeup_time t)
  then set_t_state THREAD_READY t else t.
Definition handle_slepping_thread (now : Z -> timeval) (k : kstate) : kstate :=
  map_threads (wake_if_due now) k.

Definition ready (k : kstate) (i : Z) : bool :=
  match thread k i with Some t => bool_decide (t_state t = THREAD_READY) | None => false end.
(** The loop over the other slots, from the one after [current_thread_id]. *)
Definition pick (k : kstate) (current_thread_id : Z) : Z :=
  match find_idx (Z.to_nat (MAX_THREADS_COUNT - 1)) 1 (fun i =>
          let idx := (current_thread_id + i) mod MAX_THREADS_COUNT in
          negb (idx =? 0) && ready k idx) with
  | Some i => (current_thread_id + i) mod MAX_THREADS_COUNT
  | None => 0
  end.

(** The registers pushed at [old_rsp], stored into a context.  [fpu] is what
    [xsave_context] stores. *)
Definition save_context (stack : Z -> Z) (old_rsp gs24_ : Z) (fpu : list Z) (t : thread_info) : thread_info :=
  let c := t_context t in
  let from_user := Z.land (stack 16) 0x3 =? 0x3 in
  let high := 0x10 <? stack 16 in
  set_t_context
    (Context (stack 14) (stack 13) (stack 12) (stack 11) (stack 10) (stack 9) (stack 8) (stack 7)
       (stack 6) (stack 5) (stack 4) (stack 3) (stack 2) (stack 1) (stack 0)
       (stack 15) (if high then 0x23 else 0x08) (stack 17)
       (if from_user then stack 18 else u64 (old_rsp + 20 * 8))
       (if high then 0x1B else 0x10) gs24_
       (if decide (t_context_type t = CONTEXT_TYPE_ALU) then xsave_area c else fpu)
       (fs_base c) (gs_base c)) t.

(** What an interrupt brings: the pushed registers, the clock, the FPU state
    and the address of [end_thread]'s local variable. *)
Record frame := Frame {
  f_stack : Z -> Z; f_rsp : Z; f_now : Z -> timeval; f_fpu : list Z; f_local : Z
}.

Definition set_idle (k : kstate) : kstate := set_gs16 0 (set_gs8 0 k).

(** Makes [new_tid] the thread of this core. *)
Definition switch_to (new_tid : Z) (with_gs24 : bool) : ST kstate Z :=
  _ ← (gets (fun k => thread k new_tid) ≫= deref);
  _ ← modify (upd_thread new_tid (set_t_state THREAD_RUNNING));
  t ← (gets (fun k => thread k new_tid) ≫= deref);
  _ ← modify (fun k => set_gs16 (t_kernel_stack_addr t) (set_gs8 (t_tid t) k));
  _ ← when with_gs24 (modify (set_gs24 (c_gs24 (t_context t))));
  _ ← modify (set_gs_base_msr (gs_base (t_context t)));
  mret new_tid.

Definition lock_and_count : ST kstate unit :=
  _ ← spin_lock threads_info_lock set_threads_info_lock;
  modify (fun k => set_current_tick (u64 (current_tick k + 1)) k).

Definition timer_tick_from_idle (f : frame) : ST kstate Z :=
  _ ← lock_and_count;
  _ ← modify (handle_slepping_thread (f_now f));
  new_tid ← gets (fun k => pick k 0);
  if 0 <? new_tid then switch_to new_tid false
  else _ ← modify set_idle; mret 0.

(** The part the two other ticks share: lock, save, wake, choose, clean up. *)
Definition tick_enter {M : Machine} (f : frame) : ST kstate (Z * Z) :=
  _ ← lock_and_count;
  cur ← gets get_current_thread_id;
  _ ← (gets (fun k => thread k cur) ≫= deref);
  _ ← modify (fun k => upd_thread cur (save_context (f_stack f) (f_rsp f) (gs24 k) (f_fpu f)) k);
  _ ← modify (handle_slepping_thread (f_now f));
  new_tid ← gets (fun k => pick k cur);
  t ← (gets (fun k => thread k cur) ≫= deref);
  _ ← when (bool_decide (t_state t = THREAD_ENDED_BUT_NOT_CLEANED)) (end_thread (f_local f) cur (neg64 1));
  mret (cur, new_tid).

(** [if (curr->state == THREAD_RUNNING) curr->state = THREAD_READY;] *)
Definition unrun (t : thread_info) : thread_info :=
  if decide (t_state t = THREAD_RUNNING) then set_t_state THREAD_READY t else t.

Definition go_idle : ST kstate (option Z) :=
  _ ← modify (fun k => set_gs_base_msr 0 (set_gs24 0 (set_idle k))); mret (Some 0).

(** The result is [None] where the function ends without a [return]. *)
Definition timer_tick_from_non_idle {M : Machine} (f : frame) : ST kstate (option Z) :=
  cn ← tick_enter f;
  let (cur, new_tid) := (cn : Z * Z) in
  if 0 <? new_tid then
    _ ← modify (upd_thread cur unrun);
    r ← switch_to new_tid true; mret (Some r)
  else
    t ← (gets (fun k => thread k cur) ≫= deref);
    if decide (t_state t = THREAD_RUNNING) then mret (Some cur)
    else if decide (t_state t = THREAD_READY) then mret None
    else go_idle.

Definition timer_tick1 {M : Machine} (f : frame) : ST kstate (option Z) :=
  cn ← tick_enter f;
  let (cur, new_tid) := (cn : Z * Z) in
  if 1 <? new_tid then
    _ ← modify (upd_thread cur unrun);
    r ← switch_to new_tid true; mret (Some r)
  else go_idle.

(** ** Signals *)
Definition wait_for_handler (pid handler_tid : Z) (i : Z) (t : thread_info) : thread_info :=
  if bool_decide (t_pid t = pid /\ handler_tid <> i) then set_t_state THREAD_WAITING_SIGNAL t else t.

(** The handler table has 64 entries; an index past it is a wild access. *)
Definition sig_handler (p : process_info) (sig : Z) : ST kstate Z := deref (p_sig_handlers p !! Z.to_nat sig).

Section Signals.
Context {M : Machine} (fuel : nat).

Definition handle_signal_process (pid : Z) : ST kstate Z :=
  p ← (gets (fun k => proc k pid) ≫= deref);
  if decide (p_state p = PROCESS_HANDLING_SIGNAL) then mret 0
  else if p_signal p =? SIGKILL then _ ← end_process pid (-1); mret 0
  else if p_signal p =? SIGSTOP then _ ← stop_process pid; mret 0
  else
    _ ← spin_lock processes_info_lock set_processes_info_lock;
    h ← sig_handler p (u8 (p_signal p));
    handler_tid ← register_a_thread fuel pid h;
    _ ← modify (upd_thread handler_tid (set_t_state THREAD_READY));
    _ ← modify (upd_proc pid (set_p_state PROCESS_HANDLING_SIGNAL));
    _ ← modify (map_threads (wait_for_handler pid handler_tid));
    _ ← spin_unlock set_processes_info_lock;
    mret handler_tid.

(** No null test in this loop. *)
Definition handle_signal_thread (tid : Z) : ST kstate Z :=
  t ← (gets (fun k => thread k tid) ≫= deref);
  if t_signal t =? 0 then mret 0
  else
    p ← (gets (fun k => proc k (t_pid t)) ≫= deref);
    _ ← spin_lock processes_info_lock set_processes_info_lock;
    h ← sig_handler p (t_signal t);
    handler_tid ← register_a_thread fuel (t_pid t) h;
    _ ← modify (upd_thread handler_tid (set_t_state THREAD_READY));
    _ ← modify (upd_proc (t_pid t) (set_p_state PROCESS_HANDLING_SIGNAL));
    _ ← for_m (Z.to_nat MAX_THREADS_COUNT) 0 (fun i =>
          x ← (gets (fun k => thread k i) ≫= deref);
          when (t_pid x =? t_pid t) (modify (upd_thread i (set_t_state THREAD_WAITING_SIGNAL))));
    _ ← spin_unlock set_processes_info_lock;
    mret handler_tid.
End Signals.

(** ** Fault hooks *)
Definition with_current (f : thread_info -> kstate -> kstate) (k : kstate) : kstate :=
  match thread k (get_current_thread_id k) with Some t => f t k | None => k end.
Definition switch_context_type (k : kstate) : kstate :=
  with_current (fun t k =>
    let k := if sse_mode k =? 0 then set_sse_mode 1 k else k in
    upd_thread (get_current_thread_id k)
      (if decide (t_context_type t = CONTEXT_TYPE_ALU) then set_t_context_type CONTEXT_TYPE_SSE
       else set_t_signal 4) k) k.
Definition seg_fault_signal (k : kstate) : kstate :=
  with_current (fun _ k => upd_thread (get_current_thread_id k) (set_t_signal 11) k) k.
Definition float_error_signal (k : kstate) : kstate :=
  with_current (fun _ k => upd_thread (get_current_thread_id k) (set_t_signal 8) k) k.

(** ** The choice *)

(** Steps from slot [a] to slot [b] around the table. *)
Definition dist (a b : Z) : Z := (b - a) mod MAX_THREADS_COUNT.
(** A slot the scheduler may choose. *)
Definition user_slot (i : Z) : Prop := 0 < i < MAX_THREADS_COUNT.

Section Choice.
Lemma dist_eq a b : 0 <= a < MAX_THREADS_COUNT -> 0 <= b < MAX_THREADS_COUNT ->
  dist a b = if a <=? b then b - a else b - a + MAX_THREADS_COUNT.
Proof.
  intros Ha Hb. unfold dist. ztest; [apply Z.mod_small; lia|].
  rewrite <- (Z.mod_add _ 1) by (unfold MAX_THREADS_COUNT; lia). apply Z.mod_small. lia.
Qed.

Lemma slot_mod a i : 0 <= a < MAX_THREADS_COUNT -> 0 <= i < MAX_THREADS_COUNT ->
  (a + i) mod MAX_THREADS_COUNT = if a + i <? MAX_THREADS_COUNT then a + i else a + i - MAX_THREADS_COUNT.
Proof.
  intros Ha Hi. ztest; [apply Z.mod_small; lia|].
  rewrite <- (Z.mod_add _ (-1)) by (unfold MAX_THREADS_COUNT; lia).
  rewrite Z.mod_small; lia.
Qed.

(** The slot at distance [i] from [a]. *)
Lemma dist_slot a i : 0 <= a < MAX_THREADS_COUNT -> 0 <= i < MAX_THREADS_COUNT ->
  dist a ((a + i) mod MAX_THREADS_COUNT) = i.
Proof.
  intros Ha Hi. rewrite slot_mod by done. ztest; rewrite dist_eq by lia; ztest; lia.
Qed.
Lemma slot_dist a b : 0 <= a < MAX_THREADS_COUNT -> 0 <= b < MAX_THREADS_COUNT ->
  (a + dist a b) mod MAX_THREADS_COUNT = b.
Proof.
  intros Ha Hb. rewrite dist_eq by done. ztest; rewrite slot_mod by lia; ztest; lia.
Qed.

Lemma pick_spec k cur : 0 <= cur < MAX_THREADS_COUNT ->
  (pick k cur = 0 /\ forall w, user_slot w -> w <> cur -> ready k w = false) \/
  (user_slot (pick k cur) /\ pick k cur <> cur /\ ready k (pick k cur) = true /\
   forall w, user_slot w -> w <> cur -> ready k w = true -> dist cur (pick k cur) <= dist cur w).
Proof.
  intros Hc. unfold pick. destruct (find_idx _ _ _) as [i|] eqn:E.
  - right. apply find_idx_Some in E as (Hi & Hp & Hmin). cbv zeta in *. zbool.
    set (n := (cur + i) mod MAX_THREADS_COUNT) in *.
    assert (0 <= n < MAX_THREADS_COUNT) by (apply Z.mod_pos_bound; unfold MAX_THREADS_COUNT; lia).
    assert (dist cur n = i) as Hd by (apply dist_slot; lia).
    split_and!; [split; lia| |done|].
    + intros E. rewrite E, dist_eq in Hd by done. rewrite Z.leb_refl in Hd. lia.
    + intros w Hw Hwc Hr. rewrite Hd. destruct (Z.le_gt_cases i (dist cur w)) as [|Hlt]; [done|].
      unfold user_slot in Hw.
      assert (0 < dist cur w) by (rewrite dist_eq by lia; ztest; lia).
      specialize (Hmin (dist cur w) ltac:(lia)). rewrite slot_dist in Hmin by lia.
      rewrite Hr, andb_true_r in Hmin. zbool. lia.
  - left. split; [done|]. intros w Hw Hwc. rewrite find_idx_None in E. unfold user_slot in Hw.
    assert (0 < dist cur w < MAX_THREADS_COUNT)
      by (rewrite dist_eq by lia; ztest; lia).
    specialize (E (dist cur w) ltac:(lia)). cbv zeta in E. rewrite slot_dist in E by lia.
    destruct (ready k w); [|done]. rewrite andb_true_r in E. zbool. lia.
Qed.

(** The choice does not look at the current thread. *)
Lemma pick_ext k k' cur : 0 <= cur < MAX_THREADS_COUNT ->
  (forall i, i <> cur -> ready k' i = ready k i) -> pick k' cur = pick k cur.
Proof.
  intros Hc H. unfold pick. erewrite (find_idx_ext _ _ _ (fun i =>
    let idx := (cur + i) mod MAX_THREADS_COUNT in negb (idx =? 0) && ready k idx)); [done|].
  intros i Hi. cbv zeta. rewrite H; [done|]. rewrite slot_mod by lia. ztest; lia.
Qed.
End Choice.

(** ** One tick *)
Definition in_table (i : Z) : bool := (0 <=? i) && (i <? MAX_THREADS_COUNT).
Definition woken (now : Z -> timeval) (i : Z) (t : thread_info) : thread_info :=
  if in_table i then wake_if_due now i t else t.

(** Only the thread table, the block map and registers of the core change. *)
Section TickLemmas.
Context {M : Machine}.
Lemma woken_id now i t : t_state t <> THREAD_BLOCKED_OTHER -> woken now i t = t.
Proof.
  intros H. unfold woken, wake_if_due. destruct (in_table i); [|done]. by rewrite bool_decide_false.
Qed.
Lemma woken_tid now i t : t_tid (woken now i t) = t_tid t.
Proof. unfold woken, wake_if_due. by repeat case_match. Qed.
Lemma woken_running now i t : t_state (woken now i t) = THREAD_RUNNING <-> t_state t = THREAD_RUNNING.
Proof.
  unfold woken, wake_if_due. destruct (in_table i); [|done].
  destruct (bool_decide_reflect (t_state t = THREAD_BLOCKED_OTHER)) as [E|]; cbn [andb]; [|done].
  rewrite E. by destruct (_later _ _); cbn; rewrite ?E.
Qed.

Lemma thread_handle_slepping now k i :
  thread (handle_slepping_thread now k) i = woken now i <$> thread k i.
Proof. unfold handle_slepping_thread. rewrite thread_map_threads. done. Qed.

(** The state of the current thread when the tick has saved it. *)
Definition settled (now : Z -> timeval) (i : Z) (s : thread_state) (t : timeval) : thread_state :=
  if decide (s = THREAD_ENDED_BUT_NOT_CLEANED) then THREAD_DEAD
  else if bool_decide (s = THREAD_BLOCKED_OTHER) && _later (now i) t then THREAD_READY else s.

Lemma clear_blocks_loop n i l (k : kstate) :
  exists k', for_m n i (fun i => modify (set_memory_block_used_when_boot (l + i + 1) false)) k = Done (tt, k') /\
    mem_only k k'.
Proof.
  revert i k. induction n as [|n IH]; intros i k; cbn [for_m].
  - exists k. split; [done|apply mem_only_refl].
  - cbv [mbind st_bind modify]. destruct (IH (i + 1) (set_memory_block_used_when_boot (l + i + 1) false k)) as (k' & E & H).
    exists k'. split; [exact E|]. eapply mem_only_trans; [apply set_block_mem_only|exact H].
Qed.

Lemma end_thread_done l tid k t : thread k tid = Some t ->
  exists m r, end_thread l tid (neg64 1) k =
    Done (tt, set_ram r (set_memory_map m (upd_thread tid (set_t_return_code (neg64 1)) (upd_thread tid (set_t_state THREAD_DEAD) k)))).
Proof.
  intros Ht. unfold end_thread.
  destruct (clear_blocks_loop 4 0 (l / 4096)
    (upd_thread tid (set_t_return_code (neg64 1)) (upd_thread tid (set_t_state THREAD_DEAD) k))) as (k' & E & m & r & ->).
  exists m, r. rewrite <- E. cbv [gets mbind st_bind]. rewrite Ht. reflexivity.
Qed.

Lemma tick_enter_done f k t :
  0 <= gs8 k < MAX_THREADS_COUNT -> threads_info_lock k = 0 -> thread k (gs8 k) = Some t ->
  exists k1 t1, tick_enter f k = Done ((gs8 k, pick k1 (gs8 k)), k1) /\
    (forall i, i <> gs8 k -> thread k1 i = woken (f_now f) i <$> thread k i) /\
    thread k1 (gs8 k) = Some t1 /\ t_tid t1 = t_tid t /\
    t_state t1 = settled (f_now f) (gs8 k) (t_state t) (t_wakeup_time t) /\
    gs8 k1 = gs8 k /\ threads_info_lock k1 = 1.
Proof.
  intros Hg Hl Ht. unfold tick_enter, lock_and_count, spin_lock.
  cbv [gets mbind st_bind modify get_current_thread_id]. rewrite Hl. cbn [Z.eqb].
  set (kc := set_current_tick _ _). change (gs8 kc) with (gs8 k).
  change (thread kc (gs8 k)) with (thread k (gs8 k)). rewrite Ht. cbn [deref mret st_ret].
  set (sv := save_context _ _ _ _). set (kw := handle_slepping_thread _ _).
  assert (Hcur : thread kw (gs8 k) = Some (woken (f_now f) (gs8 k) (sv t))).
  { unfold kw. rewrite thread_handle_slepping, thread_upd_thread, decide_True by done.
    change (thread kc (gs8 k)) with (thread k (gs8 k)). by rewrite Ht. }
  assert (Hoth : forall i, i <> gs8 k -> thread kw i = woken (f_now f) i <$> thread k i).
  { intros i Hi. unfold kw. rewrite thread_handle_slepping, thread_upd_thread, decide_False by done. done. }
  rewrite Hcur. cbn [deref mret st_ret].
  assert (Hst : t_state (woken (f_now f) (gs8 k) (sv t)) =
    if bool_decide (t_state t = THREAD_BLOCKED_OTHER) && _later (f_now f (gs8 k)) (t_wakeup_time t)
    then THREAD_READY else t_state t).
  { unfold woken, wake_if_due, in_table.
    destruct (Z.leb_spec 0 (gs8 k)), (Z.ltb_spec (gs8 k) MAX_THREADS_COUNT); try lia.
    cbn [andb sv save_context set_t_context t_state t_wakeup_time]. by destruct (_ && _). }
  unfold when.
  destruct (bool_decide_reflect (t_state (woken (f_now f) (gs8 k) (sv t)) = THREAD_ENDED_BUT_NOT_CLEANED)) as [He|He].
  - destruct (end_thread_done (f_local f) (gs8 k) kw _ Hcur) as (m & r & Em). rewrite Em.
    set (ke := set_ram r _).
    assert (Hoe : forall i, i <> gs8 k -> thread ke i = thread kw i).
    { intros i Hi. change (thread ke i) with (thread (upd_thread (gs8 k) (set_t_return_code (neg64 1))
        (upd_thread (gs8 k) (set_t_state THREAD_DEAD) kw)) i).
      by rewrite !thread_upd_thread, !decide_False. }
    exists ke, (set_t_return_code (neg64 1) (set_t_state THREAD_DEAD (woken (f_now f) (gs8 k) (sv t)))).
    split_and!.
    + rewrite (pick_ext kw ke); [reflexivity|done|]. intros i Hi. unfold ready. by rewrite Hoe.
    + intros i Hi. by rewrite Hoe, Hoth.
    + change (thread ke (gs8 k)) with (thread (upd_thread (gs8 k) (set_t_return_code (neg64 1))
        (upd_thread (gs8 k) (set_t_state THREAD_DEAD) kw)) (gs8 k)).
      by rewrite !thread_upd_thread, !decide_True, Hcur.
    + cbn. by rewrite woken_tid.
    + rewrite Hst in He. unfold settled. cbn [t_state set_t_return_code set_t_state].
      destruct (bool_decide _ && _) eqn:Eb; [discriminate|]. by rewrite decide_True.
    + reflexivity.
    + reflexivity.
  - exists kw, (woken (f_now f) (gs8 k) (sv t)).
    split_and!; [reflexivity|exact Hoth|exact Hcur|by rewrite woken_tid| |reflexivity|reflexivity].
    rewrite Hst in He |- *. unfold settled.
    destruct (decide (t_state t = THREAD_ENDED_BUT_NOT_CLEANED)) as [Es|]; [|done].
    rewrite Es in He. by destruct He.
Qed.
End TickLemmas.

(** ** The scheduler as a state machine *)
Definition running (k : kstate) (i : Z) : Prop :=
  exists t, thread k i = Some t /\ t_state t = THREAD_RUNNING.

(** A tick on this core, by any of the three entries.  [yield]: the entry is
    [timer_tick1], which a thread calls, blocked, ended or still running. *)
Inductive tick {M : Machine} (f : frame) (k : kstate) : bool -> option Z -> kstate -> Prop :=
| tick_idle n k' :
    gs8 k = 0 -> timer_tick_from_idle f k = Done (n, k') -> tick f k false (Some n) k'
| tick_preempt r k' :
    gs8 k <> 0 -> timer_tick_from_non_idle f k = Done (r, k') -> tick f k false r k'
| tick_yield r k' :
    gs8 k <> 0 -> timer_tick1 f k = Done (r, k') -> tick f k true r k'.

(** What holds on this core: the lock is free between ticks, slots hold their
    own threads, the current slot is used. *)
Record core_ok (k : kstate) : Prop := {
  co_lock : threads_info_lock k = 0;
  co_tid : forall i t, thread k i = Some t -> t_tid t = i;
  co_slot : 0 <= gs8 k < MAX_THREADS_COUNT;
  co_cur : gs8 k <> 0 -> is_Some (thread k (gs8 k))
}.

(** The thread chosen by a tick is the nearest ready one. *)
Definition nearest_ready (f : frame) (k : kstate) (n : Z) : Prop :=
  user_slot n /\ n <> gs8 k /\
  (exists t, thread k n = Some t /\ t_state (woken (f_now f) n t) = THREAD_READY) /\
  (forall w t, user_slot w -> w <> gs8 k -> thread k w = Some t ->
     t_state (woken (f_now f) w t) = THREAD_READY -> dist (gs8 k) n <= dist (gs8 k) w).

(** A yield of a running thread that finds nothing to switch to: the core goes
    idle and the thread keeps the state [THREAD_RUNNING]. *)
Definition strands (yield : bool) (k k' : kstate) : Prop :=
  yield = true /\ running k (gs8 k) /\ gs8 k' = 0.
#[export] Instance running_dec k i : Decision (running k i).
Proof.
  destruct (thread k i) as [t|] eqn:E.
  - destruct (decide (t_state t = THREAD_RUNNING)) as [H|H]; [left; by exists t|].
    right. intros (u & Hu & Hs). congruence.
  - right. intros (u & Hu & _). congruence.
Defined.
#[export] Instance strands_dec y k k' : Decision (strands y k k').
Proof. unfold strands. apply _. Defined.

(** [timer_tick1] does not switch to thread 1. *)
Record tick_post (f : frame) (yield : bool) (k : kstate) (r : option Z) (k' : kstate) : Prop := {
  tp_lock : threads_info_lock k' = 1;
  tp_res : r = Some (gs8 k') \/ (r = None /\ gs8 k' = gs8 k);
  tp_gs8 : (gs8 k' <> gs8 k /\ nearest_ready f k (gs8 k')) \/ gs8 k' = gs8 k \/ gs8 k' = 0;
  tp_missed : (gs8 k' = gs8 k \/ gs8 k' = 0) -> forall w t,
    user_slot w -> w <> gs8 k -> thread k w = Some t ->
    t_state (woken (f_now f) w t) = THREAD_READY ->
    yield = true /\ gs8 k' = 0 /\ nearest_ready f k 1 /\ gs8 k <> 0;
  tp_new : gs8 k' <> gs8 k -> gs8 k' <> 0 -> exists t, thread k (gs8 k') = Some t /\
    t_state (woken (f_now f) (gs8 k') t) = THREAD_READY /\
    thread k' (gs8 k') = Some (set_t_state THREAD_RUNNING (woken (f_now f) (gs8 k') t));
  tp_other : forall i, i = 0 \/ (i <> gs8 k' /\ i <> gs8 k) ->
    thread k' i = woken (f_now f) i <$> thread k i;
  tp_cur : forall t, gs8 k <> 0 -> thread k (gs8 k) = Some t ->
    exists t', thread k' (gs8 k) = Some t' /\ t_tid t' = t_tid t /\
      (gs8 k' <> gs8 k -> (t_state t' = THREAD_RUNNING <-> strands yield k k'))
}.

Section TickSpec.
Context {M : Machine}.
Lemma switch_to_done n b k t : thread k n = Some t ->
  exists k', switch_to n b k = Done (n, k') /\ gs8 k' = t_tid t /\
    threads_info_lock k' = threads_info_lock k /\
    (forall i, thread k' i = if decide (i = n) then Some (set_t_state THREAD_RUNNING t) else thread k i).
Proof.
  intros Ht. unfold switch_to. cbv [gets mbind st_bind modify]. rewrite Ht. cbn [deref mret st_ret].
  assert (E : thread (upd_thread n (set_t_state THREAD_RUNNING) k) n = Some (set_t_state THREAD_RUNNING t))
    by (by rewrite thread_upd_thread, decide_True, Ht).
  rewrite E. cbn [deref mret st_ret].
  assert (Hi : forall i, thread (upd_thread n (set_t_state THREAD_RUNNING) k) i =
    if decide (i = n) then Some (set_t_state THREAD_RUNNING t) else thread k i).
  { intros i. rewrite thread_upd_thread. case_decide; [|done]. subst. by rewrite Ht. }
  destruct b; (eexists; split; [reflexivity|]); (split; [reflexivity|]); (split; [reflexivity|]); exact Hi.
Qed.

Lemma ready_true k i : ready k i = true <-> exists t, thread k i = Some t /\ t_state t = THREAD_READY.
Proof.
  unfold ready. destruct (thread k i) as [t|].
  - rewrite bool_decide_eq_true. split; [by eauto|]. by intros (t' & [= <-] & H).
  - split; [done|]. by intros (t' & ? & _).
Qed.

(** The choice on the woken table, in terms of the table before. *)
Lemma pick_nearest f k k1 :
  0 <= gs8 k < MAX_THREADS_COUNT ->
  (forall i, i <> gs8 k -> thread k1 i = woken (f_now f) i <$> thread k i) ->
  (pick k1 (gs8 k) = 0 /\ forall w t, user_slot w -> w <> gs8 k -> thread k w = Some t ->
      t_state (woken (f_now f) w t) <> THREAD_READY) \/
  nearest_ready f k (pick k1 (gs8 k)).
Proof.
  intros Hg Ho. destruct (pick_spec k1 (gs8 k) Hg) as [[E H]|(Hu & Hne & Hr & Hmin)].
  - left. split; [done|]. intros w t Hw Hwc Ht Hs. specialize (H w Hw Hwc).
    assert (ready k1 w = true) as Hr; [|by rewrite H in Hr].
    apply ready_true. rewrite Ho, Ht by done. eexists. by split.
  - right. apply ready_true in Hr as (t & Et & Es). rewrite Ho in Et by done.
    apply fmap_Some in Et as (t0 & Et0 & ->). split_and!; [done|done|by eauto|].
    intros w t Hw Hwc Ht Hs. apply Hmin; [done|done|]. apply ready_true. rewrite Ho, Ht by done.
    eexists. by split.
Qed.

Lemma tick_idle_post f k : core_ok k -> gs8 k = 0 ->
  exists n k', timer_tick_from_idle f k = Done (n, k') /\ tick_post f false k (Some n) k'.
Proof.
  intros [Hl Htid Hg _] H0. unfold timer_tick_from_idle, lock_and_count, spin_lock.
  cbv [gets mbind st_bind modify]. rewrite Hl. cbn [Z.eqb].
  set (kw := handle_slepping_thread _ _).
  assert (Ho : forall i, thread kw i = woken (f_now f) i <$> thread k i)
    by (intros; unfold kw; by rewrite thread_handle_slepping).
  pose proof (pick_nearest f k kw Hg (fun i _ => Ho i)) as Hp. rewrite H0 in Hp.
  assert (threads_info_lock kw = 1) as Lw by reflexivity. clearbody kw.
  destruct Hp as [[Ep Hnone]|Hn].
  - rewrite Ep. cbn [Z.ltb Z.compare]. eexists 0, _. split; [reflexivity|]. split; try done.
    + by left.
    + by right; right.
    + intros _ w t Hw Hwc Ht Hs. rewrite H0 in Hwc. by destruct (Hnone w t Hw Hwc Ht).
    + intros i _. apply Ho.
  - set (n := pick kw 0) in *. destruct Hn as (Hu & Hne & (t & Ht & Hs) & Hmin).
    destruct (Z.ltb_spec 0 n); [|unfold user_slot in Hu; lia].
    destruct (switch_to_done n false kw (woken (f_now f) n t)) as (k' & -> & G & L & T);
      [by rewrite Ho, Ht|]. rewrite woken_tid, (Htid n t Ht) in G.
    exists n, k'. split; [done|]. split.
    + by rewrite L.
    + left. by rewrite G.
    + left. rewrite G. split; [done|]. split_and!; try done. by eauto.
    + rewrite G. intros [?|?]; [done|]. unfold user_slot in Hu. lia.
    + intros _ _. exists t. rewrite G, T, decide_True by done. done.
    + intros i Hi. rewrite G in Hi. rewrite T, decide_False by (unfold user_slot in Hu; lia). apply Ho.
    + done.
Qed.

(** The common tail: the current thread gives way to the chosen one. *)
Lemma switch_post f y k k1 t1 n :
  core_ok k -> gs8 k <> 0 -> nearest_ready f k n ->
  (forall i, i <> gs8 k -> thread k1 i = woken (f_now f) i <$> thread k i) ->
  thread k1 (gs8 k) = Some t1 -> t_tid t1 = gs8 k -> threads_info_lock k1 = 1 ->
  exists k', (_ ← modify (upd_thread (gs8 k) unrun); r ← switch_to n true; mret (Some r)) k1 = Done (Some n, k') /\
    tick_post f y k (Some n) k'.
Proof.
  intros [Hl Htid Hg Hc] H0 Hn Ho Hcur Ht1 L1. pose proof Hn as (Hu & Hne & (t & Ht & Hs) & Hmin).
  rewrite (bind_done (modify _) _ _ tt _ eq_refl). set (k2 := upd_thread (gs8 k) unrun k1).
  assert (T2 : forall i, thread k2 i = if decide (i = gs8 k) then Some (unrun t1) else thread k1 i).
  { intros i. unfold k2. rewrite thread_upd_thread. case_decide; [|done]. subst. by rewrite Hcur. }
  destruct (switch_to_done n true k2 (woken (f_now f) n t)) as (k' & E & G & L & T);
    [by rewrite T2, decide_False, Ho, Ht by done|]. rewrite woken_tid, (Htid n t Ht) in G.
  exists k'. rewrite (bind_done _ _ _ _ _ E). split; [done|]. split.
  - by rewrite L.
  - left. by rewrite G.
  - left. by rewrite G.
  - rewrite G. intros [?|?]; [done|]. unfold user_slot in Hu. lia.
  - intros _ _. exists t. by rewrite G, T, decide_True.
  - intros i Hi. rewrite G in Hi. unfold user_slot in Hu.
    rewrite T, decide_False, T2, decide_False by lia. apply Ho. lia.
  - intros t0 _ Ht0. exists (unrun t1). rewrite T, decide_False, T2, decide_True by done.
    split_and!; [done| |].
    + rewrite (Htid _ _ Ht0), <- Ht1. unfold unrun. by case_decide.
    + intros _. unfold strands. rewrite G. split; [unfold unrun; by case_decide|].
      intros (_ & _ & E0). unfold user_slot in Hu. lia.
Qed.

Lemma go_idle_post f y k k1 t1 :
  core_ok k -> gs8 k <> 0 ->
  (forall w t, user_slot w -> w <> gs8 k -> thread k w = Some t ->
     t_state (woken (f_now f) w t) = THREAD_READY -> y = true /\ nearest_ready f k 1) ->
  (forall i, i <> gs8 k -> thread k1 i = woken (f_now f) i <$> thread k i) ->
  thread k1 (gs8 k) = Some t1 -> t_tid t1 = gs8 k ->
  (t_state t1 = THREAD_RUNNING <-> y = true /\ running k (gs8 k)) ->
  threads_info_lock k1 = 1 ->
  exists k', go_idle k1 = Done (Some 0, k') /\ tick_post f y k (Some 0) k'.
Proof.
  intros [Hl Htid Hg Hc] H0 Hm Ho Hcur Ht1 Hs L1. eexists. split; [reflexivity|]. split; try done.
  - by left.
  - by right; right.
  - intros _ w t Hw Hwc Ht Hr. destruct (Hm w t Hw Hwc Ht Hr). by split_and!.
  - intros i Hi. apply Ho. lia.
  - intros t0 _ Ht0. exists t1. split_and!; [done|by rewrite (Htid _ _ Ht0)|]. intros _. unfold strands. cbn.
    rewrite Hs. tauto.
Qed.

Lemma settled_running now i s w : settled now i s w = THREAD_RUNNING <-> s = THREAD_RUNNING.
Proof.
  unfold settled. case_decide; [by subst|].
  destruct (bool_decide_reflect (s = THREAD_BLOCKED_OTHER)) as [->|]; cbn [andb]; [|done]. by destruct (_later _ _).
Qed.

Lemma tick_preempt_post f k : core_ok k -> gs8 k <> 0 ->
  exists r k', timer_tick_from_non_idle f k = Done (r, k') /\ tick_post f false k r k'.
Proof.
  intros C H0. pose proof C as [Hl Htid Hg Hc]. destruct (Hc H0) as [t Ht].
  destruct (tick_enter_done f k t Hg Hl Ht) as (k1 & t1 & E & Ho & Hcur & Ht1 & Hs1 & G1 & L1).
  rewrite (Htid _ _ Ht) in Ht1. unfold timer_tick_from_non_idle. rewrite (bind_done _ _ _ _ _ E).
  destruct (pick_nearest f k k1 Hg Ho) as [[Ep Hnone]|Hn].
  - rewrite Ep. cbn [Z.ltb Z.compare].
    rewrite (bind_done _ _ k1 t1 k1) by (cbv [gets mbind st_bind]; by rewrite Hcur).
    assert (P : forall r, r = Some (gs8 k) \/ r = None -> tick_post f false k r k1).
    { intros r Hr. rewrite <- G1 in Hr. split; try done; [destruct Hr as [->| ->]; [by left|by right]|by right; left| |..].
      - intros _ w u Hw Hwc Hu Hs. by destruct (Hnone w u Hw Hwc Hu).
      - intros i Hi. apply Ho. lia.
      - intros u _ Hu. exists t1. split_and!; [done|by rewrite (Htid _ _ Hu)|]. by rewrite G1. }
    destruct (decide (t_state t1 = THREAD_RUNNING)); [eexists _, k1; split; [reflexivity|]; apply P; by left|].
    destruct (decide (t_state t1 = THREAD_READY)); [eexists _, k1; split; [reflexivity|]; apply P; by right|].
    destruct (go_idle_post f false k k1 t1) as (k' & Ek & P'); try done; [|by split; [|intros [? _]]|by eauto].
    intros w u Hw Hwc Hu Hs. by destruct (Hnone w u Hw Hwc Hu).
  - destruct (Z.ltb_spec 0 (pick k1 (gs8 k))); [|destruct Hn as [Hu _]; unfold user_slot in Hu; lia].
    destruct (switch_post f false k k1 t1 _ C H0 Hn Ho Hcur Ht1 L1) as (k' & Ek & P). by eauto.
Qed.

Lemma tick_yield_post f k : core_ok k -> gs8 k <> 0 ->
  exists r k', timer_tick1 f k = Done (r, k') /\ tick_post f true k r k'.
Proof.
  intros C H0. pose proof C as [Hl Htid Hg Hc]. destruct (Hc H0) as [t Ht].
  destruct (tick_enter_done f k t Hg Hl Ht) as (k1 & t1 & E & Ho & Hcur & Ht1 & Hs1 & G1 & L1).
  rewrite (Htid _ _ Ht) in Ht1. unfold timer_tick1. rewrite (bind_done _ _ _ _ _ E).
  assert (t_state t1 = THREAD_RUNNING <-> true = true /\ running k (gs8 k)) as Hst.
  { rewrite Hs1, settled_running. split; [intros Es; split; [done|by exists t]|].
    intros (_ & u & Hu & Es). congruence. }
  destruct (pick_nearest f k k1 Hg Ho) as [[Ep Hnone]|Hn].
  - rewrite Ep. cbn [Z.ltb Z.compare Pos.compare Pos.compare_cont].
    destruct (go_idle_post f true k k1 t1) as (k' & Ek & P'); try done; [|by eauto].
    intros w u Hw Hwc Hu Hs. by destruct (Hnone w u Hw Hwc Hu).
  - destruct (Z.ltb_spec 1 (pick k1 (gs8 k))).
    + destruct (switch_post f true k k1 t1 _ C H0 Hn Ho Hcur Ht1 L1) as (k' & Ek & P). by eauto.
    + assert (pick k1 (gs8 k) = 1) as E1 by (destruct Hn as [Hu _]; unfold user_slot in Hu; lia).
      rewrite E1 in Hn. destruct (go_idle_post f true k k1 t1) as (k' & Ek & P'); try done. by eauto.
Qed.

Lemma tick_has_post f y k r k' : core_ok k -> tick f k y r k' -> tick_post f y k r k'.
Proof.
  intros C T. destruct T as [n k' H0 E|r k' H0 E|r k' H0 E].
  - destruct (tick_idle_post f k C H0) as (? & ? & E' & P). rewrite E in E'. by injection E' as <- <-.
  - destruct (tick_preempt_post f k C H0) as (? & ? & E' & P). rewrite E in E'. by injection E' as <- <-.
  - destruct (tick_yield_post f k C H0) as (? & ? & E' & P). rewrite E in E'. by injection E' as <- <-.
Qed.

Lemma tick_total f k : core_ok k -> exists y r k', tick f k y r k'.
Proof.
  intros C. destruct (Z.eq_dec (gs8 k) 0) as [H0|H0].
  - destruct (tick_idle_post f k C H0) as (n & k' & E & _). exists false, (Some n), k'. by constructor.
  - destruct (tick_preempt_post f k C H0) as (r & k' & E & _). exists false, r, k'. by constructor.
Qed.
End TickSpec.

(** A tick moves no thread to another slot. *)
Lemma tick_same_tid f y k r k' i t' :
  core_ok k -> tick_post f y k r k' -> thread k' i = Some t' ->
  exists t, thread k i = Some t /\ t_tid t' = t_tid t.
Proof.
  intros [_ _ Hg Hc] P Ht.
  destruct (decide (i = 0 \/ (i <> gs8 k' /\ i <> gs8 k))) as [Hi|Hi].
  { rewrite (tp_other _ _ _ _ _ P i Hi) in Ht. apply fmap_Some in Ht as (t & Ht & ->).
    exists t. by rewrite woken_tid. }
  destruct (Z.eq_dec i (gs8 k)) as [->|Hne].
  - destruct (Hc ltac:(lia)) as [t Et]. destruct (tp_cur _ _ _ _ _ P t ltac:(lia) Et) as (t1 & E1 & E2 & _).
    rewrite Ht in E1. injection E1 as <-. by eauto.
  - assert (i = gs8 k') as -> by lia. destruct (tp_new _ _ _ _ _ P Hne ltac:(lia)) as (t & Et & _ & E1).
    rewrite Ht in E1. injection E1 as ->. exists t. split; [done|]. cbn. by rewrite woken_tid.
Qed.

(** *** Several cores *)

(** [others] are the threads the other cores run, [lost] the threads that are
    marked running and that no core runs: every other thread marked running is
    run by exactly one core. *)
Record sched_inv (others lost : gset Z) (k : kstate) : Prop := {
  si_core : core_ok k;
  si_zero : 0 ∉ others;
  si_idle : ~ running k 0;
  si_mine : gs8 k ∉ others;
  si_others : forall i, i ∈ others -> running k i;
  si_lost : forall i, i ∈ lost -> running k i /\ i <> gs8 k /\ i ∉ others;
  si_run : forall i, running k i -> i = gs8 k \/ i ∈ others \/ i ∈ lost
}.

(** The assembly behind a tick releases the lock. *)
Definition unlock (k : kstate) : kstate := set_threads_info_lock 0 k.

Lemma elem_of_joins (P : Prop) `{!Decision P} (g i : Z) (lost : gset Z) :
  i ∈ (if decide P then {[g]} ∪ lost else lost) <-> i ∈ lost \/ (i = g /\ P).
Proof. case_decide; [rewrite elem_of_union, elem_of_singleton; tauto|tauto]. Qed.

Section Cores.
Context {M : Machine} (f : frame) (y : bool) (k : kstate) (r : option Z) (k' : kstate).
Context (P : tick_post f y k r k').

Lemma tick_old_running i : (i = 0 \/ (i <> gs8 k' /\ i <> gs8 k)) -> (running k' i <-> running k i).
Proof.
  intros Hi. unfold running. rewrite (tp_other _ _ _ _ _ P i Hi).
  split; intros (t & Ht & Hs).
  - apply fmap_Some in Ht as (t0 & Ht0 & ->). exists t0. split; [done|]. by apply woken_running in Hs.
  - exists (woken (f_now f) i t). rewrite Ht. split; [done|]. by apply woken_running.
Qed.

Lemma tick_core_ok : core_ok k -> core_ok (unlock k').
Proof.
  intros C. pose proof C as [Hl Htid Hg Hc]. split; [done|..].
  - intros i t Ht. destruct (tick_same_tid f y k r k' i t C P Ht) as (t0 & Ht0 & ->). by apply Htid.
  - change (0 <= gs8 k' < MAX_THREADS_COUNT).
    destruct (tp_gs8 _ _ _ _ _ P) as [[_ [N _]]|[->| ->]]; [unfold user_slot in N; lia|done|unfold MAX_THREADS_COUNT; lia].
  - change (gs8 k' <> 0 -> is_Some (thread k' (gs8 k'))). intros H0. destruct (Z.eq_dec (gs8 k') (gs8 k)) as [E|E].
    + rewrite E in H0 |- *. destruct (Hc H0) as [t Ht]. destruct (tp_cur _ _ _ _ _ P t H0 Ht) as (t' & Ht' & _). by eauto.
    + destruct (tp_new _ _ _ _ _ P E H0) as (t & _ & _ & Ht'). by eauto.
Qed.
End Cores.

(** *** Waiting *)

(** [n] ticks of this core that do not run [w].  Between two ticks anything may
    happen that leaves [w] ready and the core on its thread. *)
Inductive passed_over {M : Machine} (w : Z) : nat -> kstate -> Prop :=
| po_nil k : passed_over w 0 k
| po_tick n k ke f y r k' :
    gs8 ke = gs8 k -> core_ok ke -> ready ke w = true ->
    tick f ke y r k' -> gs8 k' <> w -> passed_over w n (unlock k') -> passed_over w (S n) k.

Section Waiting.
Context {M : Machine}.
Lemma woken_ready now i t : t_state t = THREAD_READY -> woken now i t = t.
Proof. intros E. apply woken_id. by rewrite E. Qed.

(** A tick that does not run a ready thread [w] comes nearer to it. *)
Lemma tick_nearer f k y r k' w :
  core_ok k -> 1 < w < MAX_THREADS_COUNT -> gs8 k <> w -> ready k w = true ->
  tick f k y r k' -> gs8 k' <> w ->
  0 <= gs8 k' < MAX_THREADS_COUNT /\ dist (gs8 k') w < dist (gs8 k) w.
Proof.
  intros C Hw Hc Hr T Hw'. pose proof (tick_has_post f y k r k' C T) as P.
  pose proof (co_slot _ C) as Hg. apply ready_true in Hr as (t & Ht & Hs).
  assert (Hsw : t_state (woken (f_now f) w t) = THREAD_READY) by (by rewrite woken_ready).
  assert (user_slot w) as Hu by (split; lia).
  destruct (tp_gs8 _ _ _ _ _ P) as [[Hne N]|Hsame].
  - destruct N as (Hun & _ & _ & Hmin). specialize (Hmin w t Hu ltac:(done) Ht Hsw).
    unfold user_slot in Hun. split; [lia|]. revert Hmin. rewrite !dist_eq by lia. repeat ztest; lia.
  - destruct (tp_missed _ _ _ _ _ P Hsame w t Hu ltac:(done) Ht Hsw) as (_ & E0 & N & Hg0).
    destruct N as (_ & Hn1 & _ & Hmin). specialize (Hmin w t Hu ltac:(done) Ht Hsw).
    rewrite E0 in *. split; [unfold MAX_THREADS_COUNT; lia|]. revert Hmin. unfold user_slot in Hu.
    rewrite !dist_eq by lia. repeat ztest; lia.
Qed.

Lemma passed_over_bound w n k :
  1 < w < MAX_THREADS_COUNT -> 0 <= gs8 k < MAX_THREADS_COUNT -> gs8 k <> w ->
  passed_over w n k -> Z.of_nat n < dist (gs8 k) w.
Proof.
  intros Hw Hg Hc P. induction P as [k|n k ke f y r k' Eg C Hr T Hne P IH].
  - rewrite dist_eq by lia. ztest; lia.
  - rewrite <- Eg in Hg, Hc |- *. destruct (tick_nearer f ke y r k' w C Hw Hc Hr T Hne) as [Hg' Hd].
    specialize (IH Hg' Hne). change (gs8 (unlock k')) with (gs8 k') in IH. lia.
Qed.
End Waiting.

Section SignalLemmas.
(** A pass that dereferences every slot and only updates threads in place. *)
Lemma for_m_all_present n : forall i (c : Z -> thread_info -> bool) (g : thread_info -> thread_info) k k',
  for_m n i (fun j => x ← (gets (fun k => thread k j) ≫= deref);
               when (c j x) (modify (upd_thread j g))) k = Done (tt, k') ->
  forall j, i <= j < i + Z.of_nat n -> thread k' j <> None.
Proof.
  assert (Hkeep : forall n i c g k k', for_m n i (fun j => x ← (gets (fun k => thread k j) ≫= deref);
      when (c j x : bool) (modify (upd_thread j g))) k = Done (tt, k') ->
      forall j, thread k j <> None -> thread k' j <> None).
  { intros m i c g k k' E j.
    refine (for_m_rel (fun a b => thread a j <> None -> thread b j <> None) _ _ _ _ _ _ _ _ E).
    - by intros ? ?.
    - intros ? ? ? ? ?; auto.
    - intros l x y Eb. apply bind_done_inv in Eb as (t & x1 & E1 & Eb).
      apply bind_done_inv in E1 as (o & x2 & [= <- <-] & E1).
      destruct (thread x l); [|discriminate]. injection E1 as <- <-. unfold when in Eb.
      destruct (c l t0); injection Eb as <-; [|done]. rewrite thread_upd_thread.
      case_decide; [|done]. subst. by destruct (thread x l). }
  induction n as [|n IH]; intros i c g k k' E j Hj; [lia|]. cbn [for_m] in E.
  apply bind_done_inv in E as ([] & k1 & E1 & E).
  destruct (Z.eq_dec j i) as [->|]; [|apply (IH (i + 1) c g k1 k' E); lia].
  apply (Hkeep _ _ _ _ _ _ E). apply bind_done_inv in E1 as (t & k2 & E2 & E1).
  apply bind_done_inv in E2 as (o & k3 & [= <- <-] & E2). destruct (thread k i) eqn:Et; [|discriminate].
  injection E2 as <- <-. unfold when in E1. destruct (c i t0); injection E1 as <-; [|by rewrite Et].
  by rewrite thread_upd_thread, decide_True, Et.
Qed.
End SignalLemmas.

(** ** Properties *)


(** C8: Preemption is round robin: a timer interrupt always completes; if some
    other thread is ready after the wake-up pass, the core switches to the
    nearest one behind the current slot, which is then marked running. *)
Theorem preempt_round_robin {M : Machine} (f : frame) (k : kstate) :
  core_ok k -> gs8 k <> 0 ->
  exists r k', timer_tick_from_non_idle f k = Done (r, k') /\
    ((exists w t, user_slot w /\ w <> gs8 k /\ thread k w = Some t /\
        t_state (woken (f_now f) w t) = THREAD_READY) ->
     exists n, r = Some n /\ nearest_ready f k n /\ gs8 k' = n /\ running k' n).
Proof.
  intros C H0. destruct (tick_preempt_post f k C H0) as (r & k' & E & P). exists r, k'. split; [done|].
  intros (w & t & Hw & Hwc & Ht & Hs). destruct (tp_gs8 _ _ _ _ _ P) as [[Hne N]|Hsame].
  - exists (gs8 k'). pose proof N as [Hu _]. unfold user_slot in Hu.
    destruct (tp_res _ _ _ _ _ P) as [->|[_ ?]]; [|done].
    destruct (tp_new _ _ _ _ _ P Hne ltac:(lia)) as (t0 & _ & _ & Ht0).
    split_and!; [done|done|done|]. by eexists.
  - by destruct (tp_missed _ _ _ _ _ P Hsame w t Hw Hwc Ht Hs) as (? & _).
Qed.

(** C9: Bounded waiting: a ready thread other than thread 0, the idle one, and
    thread 1, which a yield never chooses, is passed over by fewer than
    [MAX_THREADS_COUNT] consecutive ticks of a core that does not run it, through
    whichever entries, whatever happens to the other threads in between. *)
Theorem bounded_waiting {M : Machine} (w : Z) (n : nat) (k : kstate) :
  1 < w < MAX_THREADS_COUNT -> 0 <= gs8 k < MAX_THREADS_COUNT -> gs8 k <> w ->
  passed_over w n k -> Z.of_nat n < MAX_THREADS_COUNT.
Proof.
  intros Hw Hg Hc P. pose proof (passed_over_bound w n k Hw Hg Hc P).
  assert (dist (gs8 k) w < MAX_THREADS_COUNT) by (apply Z.mod_pos_bound; unfold MAX_THREADS_COUNT; lia). lia.
Qed.

(** A thread that calls [user_thread_current_sleep] stays blocked at every
    wake-up pass before its deadline and is ready at the first one from the
    deadline on; a thread blocked in any other way, with a timeout or not, is
    left as it is. *)
Theorem sleep_wakes_on_time (k : kstate) (t : thread_info) (now0 : timeval) (req : timespec) (now : Z -> timeval) :
  0 <= gs8 k < MAX_THREADS_COUNT -> thread k (gs8 k) = Some t ->
  normal now0 -> normal (timespec_to_timeval req) -> normal (now (gs8 k)) ->
  to_us now0 + to_us (timespec_to_timeval req) < 2 ^ 62 ->
  exists k1 t2, user_thread_current_sleep now0 req k = Done (tt, k1) /\
    thread (handle_slepping_thread now k1) (gs8 k) = Some t2 /\
    t_state t2 = (if to_us now0 + to_us (timespec_to_timeval req) <=? to_us (now (gs8 k))
                  then THREAD_READY else THREAD_BLOCKED_OTHER) /\
    (forall i u, i <> gs8 k -> thread k i = Some u -> t_state u <> THREAD_BLOCKED_OTHER ->
       thread (handle_slepping_thread now k1) i = Some u).
Proof.
  intros Hg Ht N0 Nr Nn Hb. unfold user_thread_current_sleep.
  rewrite (upd_current_done k t _ Ht). eexists _, _. split; [reflexivity|].
  destruct (add_time_exact now0 (timespec_to_timeval req) N0 Nr) as [Esum Hus].
  assert (normal (add_time now0 (timespec_to_timeval req))) as Nw.
  { unfold normal, to_us in *. split; [|done]. unfold normal in *. lia. }
  rewrite thread_handle_slepping, thread_upd_thread, decide_True, Ht by done. split; [reflexivity|]. split.
  - unfold woken, wake_if_due, in_table. destruct (Z.leb_spec 0 (gs8 k)), (Z.ltb_spec (gs8 k) MAX_THREADS_COUNT); try lia.
    cbn [andb set_t_wakeup_time t_state set_t_state t_wakeup_time]. rewrite bool_decide_true by done. cbn [andb].
    destruct (time_order (now (gs8 k)) (add_time now0 (timespec_to_timeval req)) Nn Nw) as (_ & -> & _).
    rewrite Esum. by destruct (_ <=? _).
  - intros i u Hi Hu Hs. rewrite thread_handle_slepping, thread_upd_thread, decide_False, Hu by done.
    cbn. by rewrite woken_id.
Qed.

(** A timer interrupt that hits a thread which has just put itself to sleep
    with an expired deadline, while nothing else is ready, wakes that thread and
    then leaves the function without a return value. *)
Theorem preempt_sleeper_returns_nothing {M : Machine} (f : frame) (k : kstate) (t : thread_info) :
  core_ok k -> gs8 k <> 0 -> thread k (gs8 k) = Some t ->
  t_state t = THREAD_BLOCKED_OTHER -> _later (f_now f (gs8 k)) (t_wakeup_time t) = true ->
  (forall w u, user_slot w -> w <> gs8 k -> thread k w = Some u ->
     t_state (woken (f_now f) w u) <> THREAD_READY) ->
  exists k', timer_tick_from_non_idle f k = Done (None, k').
Proof.
  intros [Hl Htid Hg _] H0 Ht Hs Hd Hnone.
  destruct (tick_enter_done f k t Hg Hl Ht) as (k1 & t1 & E & Ho & Hcur & _ & Hs1 & _).
  unfold timer_tick_from_non_idle. rewrite (bind_done _ _ _ _ _ E).
  destruct (pick_nearest f k k1 Hg Ho) as [[Ep _]|N].
  - rewrite Ep. cbn [Z.ltb Z.compare].
    rewrite (bind_done _ _ k1 t1 k1) by (cbv [gets mbind st_bind]; by rewrite Hcur).
    assert (t_state t1 = THREAD_READY) as ->.
    { rewrite Hs1, Hs. unfold settled. rewrite decide_False, Hd by done. by rewrite bool_decide_true. }
    eexists. reflexivity.
  - destruct N as (Hu & Hne & (u & Et & Es) & _). by destruct (Hnone _ u Hu Hne Et).
Qed.

(** An interrupt gate keeps its handler: the three offset fields are the
    64-bit address, the gate is for the kernel code segment, and no other vector
    changes. *)
Theorem idt_gate_roundtrip (idt : gmap Z idt_entry) (n handler ist_ flags : Z) :
  0 <= handler < 2 ^ 64 ->
  exists e, register_interrupt_handler n handler ist_ flags idt !! n = Some e /\
    offset_low e + offset_mid e * 2 ^ 16 + offset_high e * 2 ^ 32 = handler /\
    0 <= offset_low e < 2 ^ 16 /\ 0 <= offset_mid e < 2 ^ 16 /\ 0 <= offset_high e < 2 ^ 32 /\
    0 <= ist e < 8 /\ selector e = 0x08 /\
    (forall m, m <> n -> register_interrupt_handler n handler ist_ flags idt !! m = idt !! m).
Proof.
  intros Hh. unfold register_interrupt_handler. eexists. rewrite lookup_insert_eq. split; [reflexivity|].
  cbn [offset_low offset_mid offset_high ist selector].
  change 0xFFFF with (Z.ones 16). change 0xFFFFFFFF with (Z.ones 32). change 0x7 with (Z.ones 3).
  rewrite !Z.land_ones, !Z.shiftr_div_pow2 by lia.
  pose proof (Z.mod_pos_bound handler (2 ^ 16)). pose proof (Z.mod_pos_bound (handler / 2 ^ 16) (2 ^ 16)).
  pose proof (Z.mod_pos_bound (handler / 2 ^ 32) (2 ^ 32)). pose proof (Z.mod_pos_bound ist_ (2 ^ 3)).
  split; [Z.to_euclidean_division_equations; lia|].
  split_and!; try lia. intros m Hm. by rewrite lookup_insert_ne.
Qed.

(** An ordinary signal suspends its process: once the handler thread is
    registered, the call completes, the handler is the only thread of the process
    that can run, and the threads of other processes are untouched. *)
Theorem handle_signal_process_suspends {M : Machine} (fuel : nat) (k k1 : kstate) (pid h tid : Z)
    (p : process_info) :
  proc k pid = Some p -> p_state p <> PROCESS_HANDLING_SIGNAL ->
  p_signal p <> SIGKILL -> p_signal p <> SIGSTOP -> processes_info_lock k = 0 ->
  p_sig_handlers p !! Z.to_nat (u8 (p_signal p)) = Some h ->
  register_a_thread fuel pid h (set_processes_info_lock 1 k) = Done (tid, k1) ->
  0 <= tid < MAX_THREADS_COUNT ->
  exists k', handle_signal_process fuel pid k = Done (tid, k') /\
    (exists th, thread k' tid = Some th /\ t_pid th = pid /\ t_state th = THREAD_READY) /\
    (forall i u, 0 <= i < MAX_THREADS_COUNT -> i <> tid -> thread k i = Some u ->
       exists u', thread k' i = Some u' /\
         (t_pid u = pid -> t_state u' = THREAD_WAITING_SIGNAL) /\ (t_pid u <> pid -> u' = u)) /\
    processes_info_lock k' = 0.
Proof.
  intros Hp Hs H9 H19 Hl Hh Er Htid. unfold handle_signal_process.
  rewrite (bind_done _ _ k p k) by (cbv [gets mbind st_bind]; by rewrite Hp).
  rewrite decide_False by done.
  destruct (Z.eqb_spec (p_signal p) SIGKILL); [done|]. destruct (Z.eqb_spec (p_signal p) SIGSTOP); [done|].
  rewrite (bind_done _ _ k tt (set_processes_info_lock 1 k)) by (unfold spin_lock; by rewrite Hl).
  rewrite (bind_done _ _ _ h (set_processes_info_lock 1 k)) by (unfold sig_handler; by rewrite Hh).
  rewrite (bind_done _ _ _ _ _ Er).
  destruct (register_a_thread_effect fuel (set_processes_info_lock 1 k) k1 pid h tid Er)
    as (_ & (th & Hth & Hpid & _) & Hoth & _).
  eexists. split; [reflexivity|].
  set (k2 := upd_proc _ _ _). set (k3 := set_processes_info_lock 0 _).
  assert (T : forall i, 0 <= i < MAX_THREADS_COUNT -> thread k3 i = wait_for_handler pid tid i <$> thread k2 i).
  { intros i Hi. etrans; [apply (thread_map_threads (wait_for_handler pid tid) k2 i)|].
    by destruct (Z.leb_spec 0 i), (Z.ltb_spec i MAX_THREADS_COUNT); try lia. }
  assert (T2 : forall i, thread k2 i = if decide (i = tid) then set_t_state THREAD_READY <$> thread k1 i else thread k1 i)
    by (intros i; apply (thread_upd_thread tid (set_t_state THREAD_READY) k1 i)).
  unfold wait_for_handler in T. split_and!; [| |done].
  - exists (set_t_state THREAD_READY th). rewrite T, T2, decide_True, Hth by done. cbn.
    rewrite bool_decide_false by naive_solver. by split_and!.
  - intros i u Hi Hne Hu. rewrite T, T2, decide_False by done. rewrite Hoth by done.
    change (thread (set_processes_info_lock 1 k) i) with (thread k i). rewrite Hu. eexists. split; [reflexivity|].
    split; intros Hq.
    + by rewrite bool_decide_true.
    + rewrite bool_decide_false; [done|]. by intros [? _].
Qed.

(** The loop of [handle_signal_thread] has no null test: the call can only
    complete for a thread without a signal, or with every slot of the thread
    table in use. *)
Theorem handle_signal_thread_needs_full_table {M : Machine} (fuel : nat) (k k' : kstate) (tid r : Z) :
  handle_signal_thread fuel tid k = Done (r, k') ->
  (exists t, thread k tid = Some t /\ t_signal t = 0 /\ k' = k) \/
  (forall i, 0 <= i < MAX_THREADS_COUNT -> thread k' i <> None).
Proof.
  unfold handle_signal_thread. intros E. apply bind_done_inv in E as (t & k0 & E0 & E).
  apply bind_done_inv in E0 as (o & k0' & [= <- <-] & E0). destruct (thread k tid) as [t0|] eqn:Et; [|discriminate].
  injection E0 as <- <-. destruct (Z.eqb_spec (t_signal t0) 0) as [Hz|Hz].
  { injection E as <- <-. left. by exists t0. }
  right. do 6 (apply bind_done_inv in E as (? & ? & _ & E)). apply bind_done_inv in E as ([] & k6 & E6 & E).
  injection E as <- <-. intros i Hi. change (thread k6 i <> None).
  eapply (for_m_all_present _ _ _ _ _ _ E6). lia.
Qed.

(** *** Witnesses *)
#[local] Existing Instance small_machine.

(** Thread 5 runs, thread 7 is ready, thread 9 sleeps until second 100. *)
Definition demo_sched : kstate :=
  set_gs8 5
    (set_thread 9 (set_t_wakeup_time (Timeval 100 0) (new_thread 3 9 THREAD_BLOCKED_OTHER 0 0 0 zero_context))
       (set_thread 7 (new_thread 2 7 THREAD_READY 0 0 0 zero_context)
          (set_thread 5 (new_thread 2 5 THREAD_RUNNING 0 0 0 zero_context) boot_state))).
Definition demo_frame (sec : Z) : frame := Frame (fun _ => 0) 0 (fun _ => Timeval sec 0) [] 0.
(** Thread 5 alone, asleep until second 10. *)
Definition demo_sleeper : kstate :=
  set_gs8 5 (set_thread 5 (set_t_wakeup_time (Timeval 10 0)
    (new_thread 2 5 THREAD_BLOCKED_OTHER 0 0 0 zero_context)) boot_state).

Lemma tids_ok (m : gmap Z thread_info) :
  bool_decide (map_Forall (fun i t => t_tid t = i) m) = true ->
  forall i t, m !! i = Some t -> t_tid t = i.
Proof. intros H i t Ht. apply bool_decide_eq_true in H. by apply (H i t). Qed.

Lemma demo_sched_ok : core_ok demo_sched.
Proof.
  split; [done|apply (tids_ok (threads_info_ptr demo_sched)); vm_compute; done|
    cbn; unfold MAX_THREADS_COUNT; lia|by eexists].
Qed.
Lemma demo_sleeper_ok : core_ok demo_sleeper.
Proof.
  split; [done|apply (tids_ok (threads_info_ptr demo_sleeper)); vm_compute; done|
    cbn; unfold MAX_THREADS_COUNT; lia|by eexists].
Qed.

(** Thread 5 alone, running: its yield finds nothing and leaves it marked
    running on no core. *)
Definition demo_alone : kstate :=
  set_gs8 5 (set_thread 5 (new_thread 2 5 THREAD_RUNNING 0 0 0 zero_context) boot_state).
Lemma demo_alone_inv : sched_inv ∅ ∅ demo_alone.
Proof.
  split; try done.
  - split; [done|apply (tids_ok (threads_info_ptr demo_alone)); vm_compute; done|
      cbn; unfold MAX_THREADS_COUNT; lia|by eexists].
  - intros (t & Ht & _). vm_compute in Ht. discriminate.
  - intros i (t & Ht & Hs). left. change (<[5 := new_thread 2 5 THREAD_RUNNING 0 0 0 zero_context]> (∅ : gmap Z thread_info) !! i = Some t) in Ht.
    destruct (decide (i = 5)) as [|Hne]; [done|]. rewrite lookup_insert_ne, lookup_empty in Ht by congruence. done.
Qed.


Lemma preempt_round_robin_witness :
  exists r k' n, timer_tick_from_non_idle (demo_frame 1) demo_sched = Done (r, k') /\ r = Some n /\ running k' n.
Proof.
  destruct (preempt_round_robin (demo_frame 1) demo_sched demo_sched_ok ltac:(done)) as (r & k' & E & H).
  destruct H as (n & -> & _ & _ & Hr).
  - exists 7, (new_thread 2 7 THREAD_READY 0 0 0 zero_context).
    split; [unfold user_slot, MAX_THREADS_COUNT; lia|]. split; [done|]. split; reflexivity.
  - exists (Some n), k', n. split; [exact E|]. split; [reflexivity|exact Hr].
Defined.

(** With thread 6 ready too, the first tick passes over thread 7. *)
Definition demo_sched6 : kstate := set_thread 6 (new_thread 2 6 THREAD_READY 0 0 0 zero_context) demo_sched.
Lemma demo_sched6_ok : core_ok demo_sched6.
Proof.
  split; [done|apply (tids_ok (threads_info_ptr demo_sched6)); vm_compute; done|
    cbn; unfold MAX_THREADS_COUNT; lia|by eexists].
Qed.

Lemma bounded_waiting_witness : passed_over 7 1 demo_sched6 /\ Z.of_nat 1 < MAX_THREADS_COUNT.
Proof.
  assert (passed_over 7 1 demo_sched6) as P.
  { assert (match timer_tick_from_non_idle (demo_frame 1) demo_sched6 with
      Done (_, k') => gs8 k' | _ => 0 end = 6) as G by (vm_compute; reflexivity).
    destruct (timer_tick_from_non_idle (demo_frame 1) demo_sched6) as [[r k']| | |] eqn:E; [|discriminate G..].
    apply (po_tick 7 0 demo_sched6 demo_sched6 (demo_frame 1) false r k');
      [reflexivity|apply demo_sched6_ok|reflexivity|constructor; [discriminate|exact E]|by rewrite G|constructor]. }
  split; [exact P|].
  apply (bounded_waiting 7 1 demo_sched6); [unfold MAX_THREADS_COUNT; lia|cbn; unfold MAX_THREADS_COUNT; lia|done|exact P].
Defined.

Lemma sleep_wakes_on_time_witness :
  exists k1 t2, user_thread_current_sleep (Timeval 10 0) (Timespec 5 0) demo_sched = Done (tt, k1) /\
    thread (handle_slepping_thread (fun _ => Timeval 15 0) k1) 5 = Some t2 /\ t_state t2 = THREAD_READY.
Proof.
  destruct (sleep_wakes_on_time demo_sched (new_thread 2 5 THREAD_RUNNING 0 0 0 zero_context)
    (Timeval 10 0) (Timespec 5 0) (fun _ => Timeval 15 0)) as (k1 & t2 & E & Et & Es & _).
  - cbn. unfold MAX_THREADS_COUNT. lia.
  - reflexivity.
  - unfold normal. cbn. lia.
  - vm_compute. repeat split; discriminate.
  - unfold normal. cbn. lia.
  - vm_compute. reflexivity.
  - exists k1, t2. split; [exact E|]. split; [exact Et|]. rewrite Es. vm_compute. reflexivity.
Defined.

Lemma preempt_sleeper_returns_nothing_witness :
  exists k', timer_tick_from_non_idle (demo_frame 20) demo_sleeper = Done (None, k').
Proof.
  apply (preempt_sleeper_returns_nothing (demo_frame 20) demo_sleeper
    (set_t_wakeup_time (Timeval 10 0) (new_thread 2 5 THREAD_BLOCKED_OTHER 0 0 0 zero_context))).
  - apply demo_sleeper_ok.
  - done.
  - reflexivity.
  - reflexivity.
  - reflexivity.
  - intros w u _ Hw Hu _. change (<[5 := set_t_wakeup_time (Timeval 10 0)
      (new_thread 2 5 THREAD_BLOCKED_OTHER 0 0 0 zero_context)]> (∅ : gmap Z thread_info) !! w = Some u) in Hu.
    rewrite lookup_insert_ne, lookup_empty in Hu by (by intros <-). discriminate.
Defined.

Lemma idt_gate_roundtrip_witness :
  exists e, register_interrupt_handler 32 0x400000123456 0 0x8E ∅ !! 32 = Some e /\ selector e = 0x08.
Proof.
  destruct (idt_gate_roundtrip ∅ 32 0x400000123456 0 0x8E) as (e & E & _ & _ & _ & _ & _ & Es & _); [lia|].
  exists e. split; [exact E|exact Es].
Defined.

(** Process 2 of the paging example, with signal 10 pending. *)
Definition demo_signal : kstate := upd_proc 2 (set_p_signal 10) demo_procs.

Lemma handle_signal_process_suspends_witness :
  exists tid k', @handle_signal_process small_machine 3 2 demo_signal = Done (tid, k').
Proof.
  assert (is_done (@register_a_thread small_machine 3 2 0 (set_processes_info_lock 1 demo_signal)) = true /\
    match @register_a_thread small_machine 3 2 0 (set_processes_info_lock 1 demo_signal) with
    | Done (tid, _) => (0 <=? tid) && (tid <? MAX_THREADS_COUNT) | _ => false end = true) as [D R]
    by (vm_compute; split; reflexivity).
  destruct (@register_a_thread small_machine 3 2 0 (set_processes_info_lock 1 demo_signal)) as [[tid k1]| | |] eqn:E;
    [clear D|discriminate D..].
  destruct (@handle_signal_process_suspends small_machine 3 demo_signal k1 2 0 tid
    (set_p_signal 10 (set_p_threads_count 1 (new_process 2 PROCESS_RUNNING 3 3 0 3)))
    ) as (k' & Ek & _).
  - vm_compute. reflexivity.
  - discriminate.
  - discriminate.
  - discriminate.
  - reflexivity.
  - reflexivity.
  - exact E.
  - zbool. lia.
  - exists tid, k'. exact Ek.
Defined.

Lemma handle_signal_thread_needs_full_table_witness :
  @handle_signal_thread small_machine 3 7 demo_sched = Done (0, demo_sched) /\
  ((exists t, thread demo_sched 7 = Some t /\ t_signal t = 0 /\ demo_sched = demo_sched) \/
   (forall i, 0 <= i < MAX_THREADS_COUNT -> thread demo_sched i <> None)).
Proof.
  split; [reflexivity|].
  apply (@handle_signal_thread_needs_full_table small_machine 3 demo_sched demo_sched 7 0). reflexivity.
Defined.
