(* ===== verification/Ipc.v ===== *)
(** * Ipc: signals, futexes and shared memory

    src/core/ipc/signal.h, src/core/ipc/sync.h and src/core/ipc/shared_mem.h.
    A word of user memory that the code reads through a user pointer is a
    parameter ([user_word]); the clock is [now]. *)
From S2P Require Import Prelude MemLib Time KState Blocks Paging Threads Sched.
Open Scope Z_scope.

(** ** Signals *)
Definition MAX_SIGNAL : Z := 63.

Definition mask_a_signal (mask signal_num : Z) : Z :=
  if MAX_SIGNAL <? signal_num then mask else Z.lor mask (u64 (Z.shiftl 1 signal_num)).
Definition unmask_a_signal (mask signal_num : Z) : Z :=
  if MAX_SIGNAL <? signal_num then mask
  else Z.land mask (u64 (Z.lnot (u64 (Z.shiftl 1 signal_num)))).
Definition do_mask_a_signal (mask signal_num : Z) (action : bool) : Z :=
  if action then mask_a_signal mask signal_num else unmask_a_signal mask signal_num.
Definition is_signal_masked (signal_num signal_mask : Z) : bool :=
  negb (Z.land signal_mask (u64 (Z.shiftl 1 signal_num)) =? 0).

Section SignalOps.
Context {M : Machine} (fuel : nat).

(** The search for a thread that takes the signal; no null test. *)
Fixpoint find_taker (n : nat) (i pid sig : Z) : ST kstate bool :=
  match n with
  | O => mret false
  | S n' =>
      t ← (gets (fun k => thread k i) ≫= deref);
      if negb (t_pid t =? pid) then find_taker n' (i + 1) pid sig
      else if is_signal_masked sig (t_signal_mask t) then find_taker n' (i + 1) pid sig
      else _ ← modify (upd_thread i (set_t_signal sig)); mret true
  end.

(** [None]: the function ends without a [return]. *)
Definition send_signal_to_process (pid sig : Z) : ST kstate (option Z) :=
  if MAX_SIGNAL <? sig then mret (Some (neg64 EINVAL))
  else
    found ← find_taker (Z.to_nat MAX_THREADS_COUNT) 0 pid sig;
    if (found : bool) then
      _ ← (gets (fun k => proc k pid) ≫= deref);
      _ ← modify (upd_proc pid (set_p_signal sig));
      _ ← handle_signal_process fuel pid;
      mret None
    else _ ← end_process pid SIGKILL; mret None.

Definition send_signal_to_thread (pid tid sig : Z) : ST kstate Z :=
  if MAX_SIGNAL <? sig then mret (neg64 EINVAL)
  else
    t ← gets (fun k => thread k tid);
    match t with
    | None => mret (neg64 ESRCH)
    | Some t =>
        if negb (t_pid t =? pid) then mret (neg64 ESRCH)
        else if is_signal_masked sig (t_signal_mask t) then mret (neg64 EACCES)
        else
          _ ← modify (upd_thread tid (set_t_signal sig));
          _ ← handle_signal_thread fuel tid;
          mret 0
    end.
End SignalOps.

(** ** Futexes *)
Definition futex_paged (k : kstate) (pid ptr : Z) : bool := is_paged k pid ptr && is_paged k pid (u64 (ptr + 4)).

(** Up to the call of the scheduler. *)
Definition pause_thread_futex (now : timeval) (user_word : Z -> Z) (tid futex_ptr expected_val : Z)
    (timeout : option timespec) : ST kstate Z :=
  t ← (gets (fun k => thread k tid) ≫= deref);
  ok ← gets (fun k => futex_paged k (t_pid t) futex_ptr);
  if negb ok then mret (neg64 EFAULT)
  else if negb (user_word futex_ptr =? expected_val) then mret (neg64 EAGAIN)
  else
    _ ← modify (upd_thread tid (set_t_state THREAD_BLOCKED_FUTEX));
    _ ← match timeout with
        | Some ts => modify (upd_thread tid (fun t =>
            set_t_lock_time now (set_t_wakeup_time (add_time now (timespec_to_timeval ts)) t)))
        | None => mret tt
        end;
    _ ← modify (upd_thread tid (set_t_sleep_flag_addr futex_ptr));
    mret 0.

Definition futex_waiter (pid futex_ptr : Z) (t : thread_info) : bool :=
  bool_decide (t_pid t = pid /\ t_state t = THREAD_BLOCKED_FUTEX /\ t_sleep_flag_addr t = futex_ptr).

(** The loop's variables: [found_thread], [resume_tid] ([None] while not
    initialised), [earliest]. *)
Fixpoint futex_scan (n : nat) (i : Z) (k : kstate) (pid futex_ptr : Z)
    (found : bool) (resume_tid : option Z) (earliest : timeval) : bool * option Z :=
  match n with
  | O => (found, resume_tid)
  | S n' =>
      match thread k i with
      | None => futex_scan n' (i + 1) k pid futex_ptr found resume_tid earliest
      | Some t =>
          if futex_waiter pid futex_ptr t then
            if earlier (t_lock_time t) earliest
            then futex_scan n' (i + 1) k pid futex_ptr true (Some i) (t_lock_time t)
            else futex_scan n' (i + 1) k pid futex_ptr true resume_tid earliest
          else futex_scan n' (i + 1) k pid futex_ptr found resume_tid earliest
      end
  end.

Definition futex_wake (t : thread_info) : thread_info :=
  set_t_lock_time (Timeval 0 0) (set_t_wakeup_time (Timeval 0 0)
    (set_t_sleep_flag_addr 0 (set_t_state THREAD_READY t))).

Definition resume_thread_futex (now : timeval) (futex_ptr : Z) : ST kstate Z :=
  pid ← get_current_pid;
  k ← gets id;
  match futex_scan (Z.to_nat MAX_THREADS_COUNT) 0 k pid futex_ptr false None now with
  | (false, _) => mret (neg64 EINVAL)
  | (true, None) => fault
  | (true, Some tid) => _ ← modify (upd_thread tid futex_wake); mret 0
  end.

(** The loop of [move_futex]; no null test. *)
Fixpoint move_loop (n : nat) (i pid uaddr uaddr2 count : Z) : ST kstate Z :=
  match n with
  | O => mret count
  | S n' =>
      t ← (gets (fun k => thread k i) ≫= deref);
      if futex_waiter pid uaddr t then
        _ ← modify (upd_thread i (set_t_sleep_flag_addr uaddr2));
        move_loop n' (i + 1) pid uaddr uaddr2 (count + 1)
      else move_loop n' (i + 1) pid uaddr uaddr2 count
  end.
Definition move_futex (now : timeval) (user_word : Z -> Z) (uaddr uaddr2 val3 : Z) : ST kstate Z :=
  pid ← get_current_pid;
  ok ← gets (fun k => futex_paged k pid uaddr);
  if negb ok then mret (neg64 EFAULT)
  else
    count ← move_loop (Z.to_nat MAX_THREADS_COUNT) 0 pid uaddr uaddr2 0;
    _ ← (if user_word uaddr2 =? val3 then _ ← resume_thread_futex now uaddr2; mret tt else mret tt);
    mret count.

(** ** Shared memory *)
Definition MAX_SM : Z := 512.
Record shared_mem := SharedMem {
  sm_id : Z; sm_virt_addr : Z; sm_size : Z; sm_ref_count : Z; sm_owner_pid : Z; sm_flags : Z
}.
Definition set_sm_ref_count (v : Z) (s : shared_mem) : shared_mem :=
  SharedMem (sm_id s) (sm_virt_addr s) (sm_size s) v (sm_owner_pid s) (sm_flags s).

(** The kernel state with the table of segments: slots hold addresses. *)
Record sm_state := SmState { sk : kstate; sm_global : gmap Z Z; sm_heap : gmap Z shared_mem }.
Definition on_k {A} (c : ST kstate A) : ST sm_state A := fun s =>
  match c (sk s) with
  | Done (a, k) => Done (a, SmState k (sm_global s) (sm_heap s))
  | Panicked => Panicked | Faulted => Faulted | Stuck => Stuck
  end.
Definition sm_slot (s : sm_state) (i : Z) : Z := default 0 (sm_global s !! i).
Definition set_sm_slot (i a : Z) (s : sm_state) : sm_state :=
  SmState (sk s) (<[i := a]> (sm_global s)) (sm_heap s).
Definition set_sm_at (a : Z) (v : shared_mem) (s : sm_state) : sm_state :=
  SmState (sk s) (sm_global s) (<[a := v]> (sm_heap s)).
(** [proc->sm[i]]; the word behind the array is the start of [cmd_line]. *)
Definition sm_word (p : process_info) (i : Z) : Z :=
  if i <? PROC_MAX_SM then default 0 (p_sm p !! Z.to_nat i)
  else foldr (fun b acc => b + 256 * acc) 0 (take 8 (p_cmd_line p)).

Section SharedMemory.
Context {M : Machine}.

Definition create_sm (virt_addr size flags : Z) : ST sm_state Z :=
  pid ← on_k get_current_pid;
  paged ← gets (fun s => is_paged (sk s) pid virt_addr);
  if (paged : bool) then mret (neg64 EINVAL)
  else
    let blocks_count := div_ceil size 4096 in
    id ← (fun s => match get_a_free_slot (sm_slot s) 0 MAX_SM with Some i => Done (i, s) | None => Panicked end);
    newsm ← on_k get_a_free_block_addr;
    _ ← modify (set_sm_at newsm (SharedMem id virt_addr size 1 pid flags));
    _ ← modify (set_sm_slot id newsm);
    _ ← for_m (Z.to_nat blocks_count) 0 (fun i =>
          _ ← on_k (increase_paging_of_process_with_virt_addr pid (u64 (virt_addr + i * 4096))); mret tt);
    p ← on_k (gets (fun k => proc k pid) ≫= deref);
    slot ← (fun s => match get_a_free_slot (sm_word p) 0 PROC_MAX_SM with
                     | Some i => if i <? PROC_MAX_SM then Done (i, s) else Faulted
                     | None => Panicked end);
    _ ← on_k (modify (upd_proc pid (fun p => set_p_sm (<[Z.to_nat slot := newsm]> (p_sm p)) p)));
    mret id.

Definition fork_sm (sm_id : Z) : ST sm_state Z :=
  _ ← on_k get_current_pid;
  a ← gets (fun s => sm_slot s sm_id);
  v ← (gets (fun s => sm_heap s !! a) ≫= deref);
  let n := u64 (sm_ref_count v + 1) in
  _ ← modify (set_sm_at a (set_sm_ref_count n v));
  mret n.

Definition remove_sm (sm_id : Z) : ST sm_state Z :=
  pid ← on_k get_current_pid;
  a ← gets (fun s => sm_slot s sm_id);
  v ← (gets (fun s => sm_heap s !! a) ≫= deref);
  let n := u64 (sm_ref_count v - 1) in
  _ ← modify (set_sm_at a (set_sm_ref_count n v));
  _ ← for_m (Z.to_nat (div_ceil (sm_size v) 4096)) 0 (fun i =>
        on_k (modify (decrease_paging_of_process_with_virt_addr pid (u64 (sm_virt_addr v + i * 4096)))));
  _ ← on_k (gets (fun k => proc k pid) ≫= deref);
  _ ← on_k (modify (upd_proc pid (fun p => set_p_sm (map (fun x => if x =? a then 0 else x) (p_sm p)) p)));
  if n =? 0 then
    _ ← on_k (modify (set_memory_block_used_when_boot a false));
    _ ← modify (set_sm_slot sm_id 0);
    mret 0
  else mret 0.
End SharedMemory.

(** ** Lemmas *)
Section SignalMask.
Lemma one_bit j : 0 <= j <= 63 -> u64 (Z.shiftl 1 j) = 2 ^ j.
Proof.
  intros Hj. rewrite Z.shiftl_1_l. apply u64_id. split; [lia|].
  apply Z.pow_lt_mono_r; lia.
Qed.

Lemma is_signal_masked_bit j m : 0 <= j <= 63 -> is_signal_masked j m = Z.testbit m j.
Proof.
  intros Hj. unfold is_signal_masked. rewrite one_bit by done.
  destruct (Z.testbit m j) eqn:E.
  - apply negb_true_iff, Z.eqb_neq. intros H. apply (f_equal (fun x => Z.testbit x j)) in H.
    rewrite Z.land_spec, E, Z.pow2_bits_true, Z.bits_0 in H by lia. discriminate.
  - apply negb_false_iff, Z.eqb_eq. apply Z.bits_inj'. intros n Hn. rewrite Z.land_spec, Z.bits_0.
    destruct (Z.eq_dec n j) as [->|Hne]; [by rewrite E|].
    rewrite (Z.pow2_bits_false j n) by lia. apply andb_false_r.
Qed.

Lemma u64_land x : u64 x = Z.land x (Z.ones 64).
Proof. unfold u64. by rewrite Z.land_ones by lia. Qed.

Lemma lor_u64 a b : 0 <= a < 2 ^ 64 -> 0 <= b < 2 ^ 64 -> 0 <= Z.lor a b < 2 ^ 64.
Proof.
  intros Ha Hb. rewrite <- (u64_id a), <- (u64_id b), !u64_land, <- Z.land_lor_distr_l, <- u64_land by done.
  apply u64_range.
Qed.

Lemma pow2_bit n j : 0 <= n -> 0 <= j -> Z.testbit (2 ^ n) j = (j =? n).
Proof.
  intros Hn Hj. destruct (Z.eqb_spec j n) as [->|]; [by apply Z.pow2_bits_true|].
  by apply Z.pow2_bits_false.
Qed.
End SignalMask.

Section FutexScan.
Lemma earlier_irrefl a : earlier a a = false.
Proof. unfold earlier. repeat (ztest; try lia); done. Qed.
Lemma earlier_trans a b c : earlier a b = true -> earlier b c = true -> earlier a c = true.
Proof. unfold earlier. repeat (ztest; try lia); try done. Qed.
Lemma earlier_trans_ge a b c : earlier a b = true -> earlier c b = false -> earlier a c = true.
Proof. unfold earlier. repeat (ztest; try lia); try done. Qed.
Lemma earlier_ge_trans a b c : earlier a b = false -> earlier c b = true -> earlier a c = false.
Proof. unfold earlier. repeat (ztest; try lia); try done. Qed.
Lemma earlier_asym a b : earlier a b = true -> earlier b a = false.
Proof. unfold earlier. repeat (ztest; try lia); try done. Qed.

Definition waits (k : kstate) (pid futex_ptr i : Z) (t : thread_info) : Prop :=
  thread k i = Some t /\ futex_waiter pid futex_ptr t = true.

(** The waiter the scan settles on: the one with the least [lock_time], in the
    lowest slot among equals.  [pause_thread_futex] records the time only for a
    wait with a timeout, so this is the order of waiting only among such waits;
    a thread that waits without one keeps the zero of its creation or last wake. *)
Definition least_lock_time (k : kstate) (pid futex_ptr lo hi j : Z) (t : thread_info) : Prop :=
  lo <= j < hi /\ waits k pid futex_ptr j t /\
  forall i u, lo <= i < hi -> waits k pid futex_ptr i u ->
    earlier (t_lock_time u) (t_lock_time t) = false /\ (i < j -> earlier (t_lock_time t) (t_lock_time u) = true).

(** The loop invariant after the slots below [i]. *)
Definition scan_inv (k : kstate) (pid futex_ptr : Z) (now : timeval) (i : Z) (best : option Z) (e : timeval) : Prop :=
  match best with
  | None => e = now /\ forall j t, 0 <= j < i -> waits k pid futex_ptr j t -> earlier (t_lock_time t) now = false
  | Some j => exists t, least_lock_time k pid futex_ptr 0 i j t /\ e = t_lock_time t /\
                earlier (t_lock_time t) now = true
  end.

(** A slot that does not change [best]. *)
Lemma scan_inv_keep k pid ptr now i best e :
  0 <= i -> scan_inv k pid ptr now i best e ->
  (forall t, waits k pid ptr i t -> earlier (t_lock_time t) e = false) ->
  scan_inv k pid ptr now (i + 1) best e.
Proof.
  intros Hi HI Hk. destruct best as [j|]; cbn [scan_inv] in *.
  - destruct HI as (t & (Hr & Hw & Hmin) & -> & He). exists t. split_and!; [|done|done].
    split_and!; [lia|lia|done|]. intros x u Hx Hu. destruct (Z.eq_dec x i) as [->|].
    + split; [by apply Hk|lia].
    + apply Hmin; [lia|done].
  - destruct HI as [-> H]. split; [done|]. intros j t Hj Hw.
    destruct (Z.eq_dec j i) as [->|]; [by apply Hk|]. apply (H j t); [lia|done].
Qed.

Lemma scan_inv_take k pid ptr now i best e t :
  0 <= i -> scan_inv k pid ptr now i best e -> waits k pid ptr i t ->
  earlier (t_lock_time t) e = true -> scan_inv k pid ptr now (i + 1) (Some i) (t_lock_time t).
Proof.
  intros Hi HI Hw He.
  assert (Hlow : earlier (t_lock_time t) now = true /\ forall x u, 0 <= x < i -> waits k pid ptr x u ->
    earlier (t_lock_time t) (t_lock_time u) = true).
  { destruct best as [j|]; cbn [scan_inv] in HI.
    - destruct HI as (u & (Hr & Hwu & Hmin) & -> & Hn). split; [by eapply earlier_trans|].
      intros x v Hx Hv. eapply earlier_trans_ge; [done|]. by apply Hmin with (i := x).
    - destruct HI as [-> H]. split; [done|]. intros x u Hx Hu. eapply earlier_trans_ge; [done|].
      by apply (H x). }
  destruct Hlow as [Hn Hlow]. exists t. split_and!; [|done|done]. split_and!; [lia|lia|done|].
  intros x u Hx Hu. destruct (Z.eq_dec x i) as [->|].
  - destruct Hu as [Eu _], Hw as [Et _]. rewrite Et in Eu. injection Eu as <-.
    split; [apply earlier_irrefl|lia].
  - pose proof (Hlow x u ltac:(lia) Hu) as E. split; [by apply earlier_asym|done].
Qed.

Lemma futex_scan_inv n : forall i k pid ptr found best e now,
  0 <= i -> scan_inv k pid ptr now i best e ->
  exists e', scan_inv k pid ptr now (i + Z.of_nat n) (snd (futex_scan n i k pid ptr found best e)) e'.
Proof.
  induction n as [|n IH]; intros i k pid ptr found best e now Hi HI; cbn [futex_scan].
  { exists e. by rewrite Z.add_0_r. }
  replace (i + Z.of_nat (S n)) with (i + 1 + Z.of_nat n) by lia.
  destruct (thread k i) as [t|] eqn:Et.
  2:{ apply IH; [lia|]. apply scan_inv_keep; [done|done|]. intros t [? _]. congruence. }
  destruct (futex_waiter pid ptr t) eqn:Ew.
  2:{ apply IH; [lia|]. apply scan_inv_keep; [done|done|]. intros u [? ?]. congruence. }
  destruct (earlier (t_lock_time t) e) eqn:Ee; (apply IH; [lia|]).
  - by eapply scan_inv_take.
  - apply scan_inv_keep; [done|done|]. intros u [Eu _]. rewrite Et in Eu. by injection Eu as <-.
Qed.

Lemma futex_scan_found n : forall i k pid ptr found best e,
  fst (futex_scan n i k pid ptr found best e) = true <->
  found = true \/ exists j t, i <= j < i + Z.of_nat n /\ waits k pid ptr j t.
Proof.
  induction n as [|n IH]; intros i k pid ptr found best e; cbn [futex_scan].
  { split; [by left|]. intros [?|(j & t & ? & _)]; [done|lia]. }
  assert (Hsh : (forall t, ~ waits k pid ptr i t) ->
    (exists j t, i <= j < i + Z.of_nat (S n) /\ waits k pid ptr j t) <->
    (exists j t, i + 1 <= j < i + 1 + Z.of_nat n /\ waits k pid ptr j t)).
  { intros Hn. split; intros (j & t & Hj & Hw); exists j, t; (split; [|done]).
    - destruct (Z.eq_dec j i) as [->|]; [by destruct (Hn t)|lia].
    - lia. }
  destruct (thread k i) as [t|] eqn:Et; [|rewrite IH, Hsh; [done|]; intros t [? _]; congruence].
  destruct (futex_waiter pid ptr t) eqn:Ew; [|rewrite IH, Hsh; [done|]; intros u [? ?]; congruence].
  split; [intros _; right; exists i, t; split; [lia|done]|]. intros _.
  destruct (earlier _ _); rewrite IH; by left.
Qed.
End FutexScan.

Section SmLemmas.
Lemma on_k_done {A} (c : ST kstate A) s a k :
  c (sk s) = Done (a, k) -> on_k c s = Done (a, SmState k (sm_global s) (sm_heap s)).
Proof. unfold on_k. by intros ->. Qed.

(** Unmapping the pages of a segment leaves everything but memory alone. *)
Lemma sm_unmap_loop {M : Machine} n i pid (va : Z -> Z) s :
  exists k', for_m n i (fun i => on_k (modify (decrease_paging_of_process_with_virt_addr pid (va i)))) s
    = Done (tt, SmState k' (sm_global s) (sm_heap s)) /\ mem_only (sk s) k'.
Proof.
  revert i s. induction n as [|n IH]; intros i s; cbn [for_m].
  - exists (sk s). split; [by destruct s|apply mem_only_refl].
  - rewrite (bind_done _ _ s tt _ (on_k_done (modify _) s tt _ eq_refl)).
    destruct (IH (i + 1) (SmState (decrease_paging_of_process_with_virt_addr pid (va i) (sk s)) (sm_global s) (sm_heap s)))
      as (k' & E & H). exists k'. split; [exact E|].
    eapply mem_only_trans; [apply decrease_mem_only|exact H].
Qed.
End SmLemmas.

(** ** Properties *)

(** Blocking or unblocking a signal changes the answer of
    [is_signal_masked] for that signal only. *)
Theorem signal_mask_laws (mask n j : Z) (action : bool) :
  0 <= mask < 2 ^ 64 -> 0 <= n <= MAX_SIGNAL -> 0 <= j <= MAX_SIGNAL ->
  is_signal_masked j (do_mask_a_signal mask n action) = (if j =? n then action else is_signal_masked j mask) /\
  0 <= do_mask_a_signal mask n action < 2 ^ 64.
Proof.
  unfold MAX_SIGNAL. intros Hm Hn Hj. rewrite !is_signal_masked_bit by lia.
  unfold do_mask_a_signal, mask_a_signal, unmask_a_signal, MAX_SIGNAL.
  destruct (Z.ltb_spec 63 n); [lia|]. rewrite one_bit by lia.
  assert (0 <= 2 ^ n < 2 ^ 64) by (split; [lia|apply Z.pow_lt_mono_r; lia]).
  destruct action.
  - rewrite Z.lor_spec, pow2_bit by lia. split; [|by apply lor_u64].
    destruct (j =? n); [apply orb_true_r|apply orb_false_r].
  - split.
    + rewrite u64_land, !Z.land_spec, Z.lnot_spec, pow2_bit, Z.ones_spec_low by lia.
      destruct (j =? n); cbn; [apply andb_false_r|by rewrite !andb_true_r].
    + pose proof (u64_range (Z.lnot (2 ^ n))). split; [apply Z.land_nonneg; lia|].
      eapply Z.le_lt_trans; [apply land_le; lia|lia].
Qed.

(** C34: Waking a futex has three outcomes.  If some waiter of the caller's
    process has a recorded lock time before now, exactly one thread changes: the
    waiter with the least recorded time, in the lowest slot among equals, becomes
    ready and its wait is cleared.  If there are waiters but none has a time
    before now, the code indexes the table with an uninitialised variable.  With
    no waiter it answers [EINVAL] and changes nothing.  (The time is recorded
    only for waits with a timeout: a waiter without one counts as time zero.) *)
Theorem resume_thread_futex_wakes_least (k : kstate) (now : timeval) (futex_ptr : Z) (c : thread_info) :
  thread k (gs8 k) = Some c ->
  let waiter i t := 0 <= i < MAX_THREADS_COUNT /\ waits k (t_pid c) futex_ptr i t in
  let before_now := exists i t, waiter i t /\ earlier (t_lock_time t) now = true in
  (before_now -> exists j t k', resume_thread_futex now futex_ptr k = Done (0, k') /\
     least_lock_time k (t_pid c) futex_ptr 0 MAX_THREADS_COUNT j t /\
     thread k' j = Some (futex_wake t) /\ (forall i, i <> j -> thread k' i = thread k i)) /\
  ((exists i t, waiter i t) -> ~ before_now -> resume_thread_futex now futex_ptr k = Faulted) /\
  ((forall i t, ~ waiter i t) -> resume_thread_futex now futex_ptr k = Done (neg64 EINVAL, k)).
Proof.
  intros Hc. cbv zeta. unfold resume_thread_futex.
  rewrite (bind_done _ _ _ _ _ (get_current_pid_done k c Hc)).
  rewrite (bind_done (gets _) _ k k k eq_refl).
  destruct (futex_scan_inv (Z.to_nat MAX_THREADS_COUNT) 0 k (t_pid c) futex_ptr false None now now) as [e HI];
    [lia|split; [done|intros; lia]|].
  pose proof (futex_scan_found (Z.to_nat MAX_THREADS_COUNT) 0 k (t_pid c) futex_ptr false None now) as HF.
  rewrite Z2Nat.id in HI, HF by (unfold MAX_THREADS_COUNT; lia).
  destruct (futex_scan _ _ _ _ _ _ _ _) as [found best]. cbn [fst snd] in *. rewrite Z.add_0_l in *.
  assert (Hfound : (exists i t, 0 <= i < MAX_THREADS_COUNT /\ waits k (t_pid c) futex_ptr i t) -> found = true)
    by (intros Hw; apply HF; by right).
  split; [|split].
  - intros (i & t & [Hi Hw] & He). rewrite Hfound by (by exists i, t). destruct best as [b|]; cbn [scan_inv] in HI.
    + destruct HI as (u & Hfw & _ & _). exists b, u. eexists. split; [reflexivity|].
      pose proof Hfw as (_ & [Hu _] & _). split_and!; [done| |].
      * by rewrite thread_upd_thread, decide_True, Hu.
      * intros x Hx. by rewrite thread_upd_thread, decide_False.
    + destruct HI as [_ H]. pose proof (H i t Hi Hw) as Hx. by rewrite He in Hx.
  - intros Hw Hn. rewrite Hfound by done. destruct best as [b|]; [|done]. destruct Hn.
    destruct HI as (u & (Hb & Hu & _) & _ & He). by exists b, u.
  - intros Hn. destruct found; [|done]. destruct (proj1 HF eq_refl) as [?|(j & t & Hj & Hw)]; [done|].
    by destruct (Hn j t).
Qed.

(** Detaching a segment drops one reference and removes it from the
    caller's list; the table entry goes with the last reference and only then. *)
Theorem remove_sm_refcount {M : Machine} (s : sm_state) (id a : Z) (v : shared_mem) (c : thread_info) (p : process_info) :
  thread (sk s) (gs8 (sk s)) = Some c -> sm_slot s id = a -> a <> 0 -> sm_heap s !! a = Some v ->
  proc (sk s) (t_pid c) = Some p -> 0 < sm_ref_count v < 2 ^ 64 ->
  exists s' p', remove_sm id s = Done (0, s') /\
    sm_heap s' !! a = Some (set_sm_ref_count (sm_ref_count v - 1) v) /\
    (forall i, sm_slot s' i = if (i =? id) && (sm_ref_count v =? 1) then 0 else sm_slot s i) /\
    proc (sk s') (t_pid c) = Some p' /\ (a ∉ p_sm p') /\
    (forall x, x <> a -> x ∈ p_sm p -> x ∈ p_sm p').
Proof.
  intros Hc Ha Hz Hv Hp Hn. unfold remove_sm.
  rewrite (bind_done _ _ s _ _ (on_k_done _ s _ _ (get_current_pid_done _ c Hc))).
  assert (SmState (sk s) (sm_global s) (sm_heap s) = s) as -> by (by destruct s).
  rewrite (bind_done (gets _) _ s a s) by (unfold gets; by rewrite Ha).
  rewrite (bind_done _ _ s v s) by (cbv [gets mbind st_bind]; by rewrite Hv).
  cbv zeta. rewrite (u64_id (sm_ref_count v - 1)) by lia.
  set (v' := set_sm_ref_count (sm_ref_count v - 1) v).
  rewrite (bind_done (modify _) _ s tt _ eq_refl).
  destruct (sm_unmap_loop (Z.to_nat (div_ceil (sm_size v) 4096)) 0 (t_pid c)
    (fun i => u64 (sm_virt_addr v + i * 4096)) (set_sm_at a v' s)) as (k1 & E1 & m & r & Ek1).
  rewrite (bind_done _ _ _ _ _ E1). cbn [set_sm_at sm_global sm_heap sk] in *.
  assert (Hp1 : proc k1 (t_pid c) = Some p) by (by rewrite Ek1).
  assert (Hg : forall g h, on_k (gets (fun k => proc k (t_pid c)) ≫= deref) (SmState k1 g h)
                           = Done (p, SmState k1 g h)).
  { intros g h. unfold on_k. cbn [sk]. rewrite (bind_done (gets _) _ k1 (Some p) k1); [done|].
    unfold gets. by rewrite Hp1. }
  rewrite (bind_done _ _ _ _ _ (Hg _ _)).
  rewrite (bind_done _ _ _ tt _ (on_k_done (modify _) _ tt _ eq_refl)). cbn [sk sm_global sm_heap].
  set (k2 := upd_proc _ _ k1).
  assert (Hp2 : proc k2 (t_pid c) = Some (set_p_sm (map (fun x => if x =? a then 0 else x) (p_sm p)) p)).
  { unfold k2. by rewrite proc_upd_proc, decide_True, Hp1. }
  assert (Hl1 : a ∉ map (fun x => if x =? a then 0 else x) (p_sm p)).
  { intros Hin. apply list_elem_of_In, in_map_iff in Hin as (x & Hx & _). revert Hx. ztest; congruence. }
  assert (Hl2 : forall x, x <> a -> x ∈ p_sm p -> x ∈ map (fun x => if x =? a then 0 else x) (p_sm p)).
  { intros x Hx Hin. apply list_elem_of_In, in_map_iff. exists x. split; [ztest; done|by apply list_elem_of_In]. }
  assert (Hh : (<[a := v']> (sm_heap s) !! a : option shared_mem) = Some v') by apply lookup_insert_eq.
  destruct (Z.eqb_spec (sm_ref_count v - 1) 0) as [E0|E0].
  - eexists _, _. split; [reflexivity|].
    split_and!; [exact Hh| |etrans; [apply (set_block_frame (fun k => proc k (t_pid c))); done|exact Hp2]|exact Hl1|exact Hl2].
    intros i. destruct (Z.eqb_spec (sm_ref_count v) 1); [|lia]. rewrite andb_true_r.
    unfold sm_slot. cbn. rewrite lookup_insert. destruct (Z.eqb_spec i id); case_decide; try done; lia.
  - eexists _, _. split; [reflexivity|]. split_and!; [exact Hh| |exact Hp2|exact Hl1|exact Hl2].
    intros i. destruct (Z.eqb_spec (sm_ref_count v) 1); [lia|]. by rewrite andb_false_r.
Qed.

(** *** Witnesses *)
#[local] Existing Instance small_machine.
Lemma signal_mask_laws_witness : is_signal_masked 9 (do_mask_a_signal 0 9 true) = true.
Proof. apply (signal_mask_laws 0 9 9 true); unfold MAX_SIGNAL; lia. Defined.

(** Threads 7 and 9 of process 2 wait on a futex since seconds 4 and 3. *)
Definition futex_thread (tid sec : Z) : thread_info :=
  set_t_lock_time (Timeval sec 0) (set_t_sleep_flag_addr 0x5000 (new_thread 2 tid THREAD_BLOCKED_FUTEX 0 0 0 zero_context)).
Definition demo_futex : kstate :=
  set_gs8 5 (set_thread 9 (futex_thread 9 3) (set_thread 7 (futex_thread 7 4)
    (set_thread 5 (new_thread 2 5 THREAD_RUNNING 0 0 0 zero_context) boot_state))).

Lemma resume_thread_futex_wakes_least_witness :
  exists k', resume_thread_futex (Timeval 10 0) 0x5000 demo_futex = Done (0, k').
Proof.
  destruct (resume_thread_futex_wakes_least demo_futex (Timeval 10 0) 0x5000
    (new_thread 2 5 THREAD_RUNNING 0 0 0 zero_context) eq_refl) as [H _].
  destruct H as (j & t & k' & E & _).
  - exists 7, (futex_thread 7 4). split; [|vm_compute; reflexivity].
    split; [unfold MAX_THREADS_COUNT; lia|]. split; reflexivity.
  - exists k'. exact E.
Defined.

(** Thread 7 waits with a timeout since second 4; thread 9 starts to wait at
    second 8 without one and is woken first. *)
Definition demo_untimed : outcome (Z * kstate) :=
  (_ ← pause_thread_futex (Timeval 4 0) (fun _ => 1) 7 0x5000 1 (Some (Timespec 60 0));
   _ ← pause_thread_futex (Timeval 8 0) (fun _ => 1) 9 0x5000 1 None;
   resume_thread_futex (Timeval 10 0) 0x5000)
  (set_gs8 5 (set_thread 9 (new_thread 2 9 THREAD_RUNNING 0 0 0 zero_context)
     (set_thread 7 (new_thread 2 7 THREAD_RUNNING 0 0 0 zero_context)
       (set_thread 5 (new_thread 2 5 THREAD_RUNNING 0 0 0 zero_context) demo_mapped)))).
Example untimed_waiter_overtakes :
  match demo_untimed with
  | Done (r, k) => r = 0 /\ (t_state <$> thread k 9) = Some THREAD_READY /\
                   (t_state <$> thread k 7) = Some THREAD_BLOCKED_FUTEX
  | _ => False
  end.
Proof. vm_compute. repeat split; reflexivity. Qed.

(** Process 2 of the process example has one segment at 0x9000. *)
Definition demo_sm : sm_state :=
  SmState (upd_proc 2 (fun p => set_p_sm [0; 0x9000] p) demo_procs) {[ 4 := 0x9000 ]}
    {[ 0x9000 := SharedMem 4 0x5000 4096 1 2 0 ]}.
Lemma remove_sm_refcount_witness :
  exists s' p', remove_sm 4 demo_sm = Done (0, s') /\ proc (sk s') 2 = Some p' /\ 0x9000 ∉ p_sm p'.
Proof.
  destruct (@remove_sm_refcount small_machine demo_sm 4 0x9000 (SharedMem 4 0x5000 4096 1 2 0)
    (new_thread 2 5 THREAD_RUNNING (HM - 4096) 0 0 zero_context)
    (set_p_sm [0; 0x9000] (set_p_threads_count 1 (new_process 2 PROCESS_RUNNING 3 3 0 3))))
    as (s' & p' & E & _ & _ & Ep & Hn & _).
  - reflexivity.
  - reflexivity.
  - discriminate.
  - reflexivity.
  - vm_compute. reflexivity.
  - cbn. lia.
  - exists s', p'. split; [exact E|]. split; [exact Ep|exact Hn].
Defined.
