(* ===== verification/User.v ===== *)
(** * User: identities and permissions, src/core/user/user.h

    The get/set system calls on the identities of the current process, the
    parser of the lines of /etc/passwd, and the permission tests.  Results are
    [int64_t]; -1 is the failure value. *)
From S2P Require Import Prelude MemLib StrLib Time KState Blocks Paging Threads.
Open Scope Z_scope.

(** ** Identities *)
(** The common shape of the calls: the structure of the current process, -1
    when its slot is null. *)
Definition on_current {A} (none : A) (c : Z -> process_info -> ST kstate A) : ST kstate A :=
  pid ← get_current_pid;
  a ← gets (fun k => proc_slot k pid);
  if a =? 0 then mret none
  else p ← (gets (fun k => proc k pid) ≫= deref); c pid p.
Definition get_id (f : process_info -> Z) : ST kstate Z := on_current (-1) (fun _ p => mret (s64 (f p))).
Definition set_id (g : process_info -> process_info) : ST kstate Z :=
  on_current (-1) (fun pid _ => _ ← modify (upd_proc pid g); mret 0).

Definition sys_getuid : ST kstate Z := get_id p_uid.
Definition sys_getgid : ST kstate Z := get_id p_gid.
Definition sys_setuid (uid : Z) : ST kstate Z := set_id (set_p_uid uid).
(** The source assigns [curr->uid]. *)
Definition sys_setgid (gid : Z) : ST kstate Z := set_id (set_p_uid gid).
Definition sys_geteuid : ST kstate Z := get_id p_euid.
Definition sys_getegid : ST kstate Z := get_id p_egid.
Definition sys_seteuid (euid : Z) : ST kstate Z := set_id (set_p_euid euid).
Definition sys_setegid (egid : Z) : ST kstate Z := set_id (set_p_egid egid).
Definition sys_getreuid : ST kstate Z := get_id p_reuid.
Definition sys_getregid : ST kstate Z := get_id p_regid.
Definition sys_setreuid (reuid : Z) : ST kstate Z := set_id (set_p_reuid reuid).
Definition sys_setregid (regid : Z) : ST kstate Z := set_id (set_p_regid regid).
Definition sys_getresuid : ST kstate Z := get_id p_resuid.
Definition sys_getresgid : ST kstate Z := get_id p_resgid.
Definition sys_setresuid (resuid : Z) : ST kstate Z := set_id (set_p_resuid resuid).
Definition sys_setresgid (resgid : Z) : ST kstate Z := set_id (set_p_resgid resgid).

(** ** The user table *)
Definition MAX_USER : Z := 256.
Record user := User { u_uid : Z; u_gid : Z }.

(** The first loop: the index at which [level] separators have been seen. *)
Fixpoint lv_loop (n : nat) (m : mem) (path i count level : Z) : option Z :=
  match n with
  | O => None
  | S n' =>
      let count := if ld m (path + i) =? 58 then count + 1 else count in
      if level <=? count then Some i else lv_loop n' m path (i + 1) count level
  end.
Definition get_str_at_lv (fuel : nat) (m : mem) (path level buf : Z) : option (mem * bool) :=
  n ← strlen fuel m path;
  match lv_loop (Z.to_nat n) m path 0 0 level with
  | None => Some (m, false)
  | Some start_pos =>
      let stop_pos := default n (find_idx (Z.to_nat (n - (start_pos + 1))) (start_pos + 1)
                                   (fun i => ld m (path + i) =? 58)) in
      let len := stop_pos - start_pos - 1 in
      Some (st (memcpy m buf (path + start_pos + 1) len) (buf + len) 0, true)
  end.
(** [out] is the address of the local buffer. *)
Definition get_uid_from_user_line (fuel : nat) (m : mem) (user_line out : Z) : option (mem * Z) :=
  r ← get_str_at_lv fuel m user_line 2 out;
  v ← str_to_int fuel (fst r) out; Some (fst r, v).
Definition get_gid_from_user_line (fuel : nat) (m : mem) (user_line out : Z) : option (mem * Z) :=
  r ← get_str_at_lv fuel m user_line 3 out;
  v ← str_to_int fuel (fst r) out; Some (fst r, v).

(** [init_user] once the file is in [user_file]: newlines become terminators,
    then one entry per line.  [user_global] is indexed by the parsed uid. *)
Fixpoint split_lines (fuel : nat) (m : mem) (line : Z) : option mem :=
  match fuel with
  | O => None
  | S f => if ld m line =? 0 then Some m
           else split_lines f (if ld m line =? 10 then st m line 0 else m) (line + 1)
  end.
Fixpoint load_users (fuel : nat) (m : mem) (liner stop out : Z) (users : gmap Z user) : option (gmap Z user) :=
  match fuel with
  | O => None
  | S f =>
      if liner <? stop then
        u ← get_uid_from_user_line fuel m liner out;
        g ← get_gid_from_user_line fuel (fst u) liner out;
        l ← strlen fuel (fst g) liner;
        load_users f (fst g) (liner + (l + 1)) stop out (<[snd u := User (snd u) (snd g)]> users)
      else Some users
  end.
Definition init_user (fuel : nat) (m : mem) (bytes_read user_file out : Z) (users : gmap Z user) : option (gmap Z user) :=
  if bytes_read <=? 0 then Some users
  else
    file_size ← strlen fuel m user_file;
    m1 ← split_lines fuel m user_file;
    load_users fuel m1 user_file (user_file + file_size) out users.

(** ** Permissions *)
Definition MODE_READ : Z := 4.
Definition MODE_WRITE : Z := 2.
Definition MODE_EXEC : Z := 1.
Definition get_owner_file : Z := 0.
Definition get_owner_group_file : Z := 0.
(** 0777 *)
Definition get_mode_file : Z := 511.

(** The tests with the precedence of C: [a & b > 0] is [a & (b > 0)]. *)
Definition mode_test (file_mode bit : Z) : bool :=
  negb (Z.land file_mode (if 0 <? bit then 1 else 0) =? 0).
Definition allow_mode (owner group file_mode bit euid egid : Z) : bool :=
  if euid =? 0 then true
  else if (euid =? owner) && mode_test file_mode (Z.shiftr bit 6) then true
  else if (egid =? group) && mode_test file_mode (Z.shiftr bit 3) then true
  else mode_test file_mode bit.
Definition allow_path (bit : Z) : ST kstate bool :=
  _ ← get_current_pid;
  euid ← sys_geteuid; egid ← sys_getegid;
  mret (allow_mode get_owner_file get_owner_group_file get_mode_file bit (u64 euid) (u64 egid)).
Definition allow_read_path : ST kstate bool := allow_path MODE_READ.
Definition allow_write_path : ST kstate bool := allow_path MODE_WRITE.
Definition allow_exec_path : ST kstate bool := allow_path MODE_EXEC.
(** The source asks for the effective group. *)
Definition allow_root : ST kstate bool := g ← sys_getegid; mret (g =? 0).

(** ** Lemmas *)
Definition colon : Z := 58.
Definition colons (s : list Z) : Z := Z.of_nat (length (filter (fun c => c = colon) s)).

Section Lines.
Lemma chars_lookup m p s i c : chars m p s -> s !! i = Some c -> ld m (p + Z.of_nat i) = c /\ c <> 0.
Proof.
  revert p i. induction s as [|d s IH]; intros p i Hc Hi; [done|].
  cbn [chars] in Hc. destruct Hc as (Hd & E & Hc). destruct i as [|i]; cbn in Hi.
  - injection Hi as <-. rewrite Z.add_0_r. done.
  - destruct (IH (p + 1) i Hc Hi) as [<- ?]. split; [f_equal; lia|done].
Qed.

Lemma lv_loop_spec pre : forall m path i count level n,
  chars m (path + i) (pre ++ [colon]) -> count + colons pre = level - 1 ->
  slen pre < Z.of_nat n -> lv_loop n m path i count level = Some (i + slen pre).
Proof.
  induction pre as [|c pre IH]; intros m path i count level n Hc Hk Hn.
  - destruct n as [|n]; [unfold slen in Hn; cbn in Hn; lia|]. cbn [app chars] in Hc. destruct Hc as (_ & E & _).
    cbn [lv_loop]. rewrite E. unfold colon, colons in *. cbn in Hk |- *.
    destruct (Z.leb_spec level (count + 1)); [|lia]. change (slen []) with 0. f_equal. lia.
  - pose proof (slen_nonneg pre). rewrite slen_cons in *. destruct n as [|n]; [lia|].
    cbn [app chars] in Hc. destruct Hc as (_ & E & Hc). cbn [lv_loop]. rewrite E.
    assert (colons (c :: pre) = (if c =? colon then 1 else 0) + colons pre) as Ec.
    { unfold colons. rewrite filter_cons. destruct (Z.eqb_spec c colon).
      - rewrite decide_True by done. cbn [length]. lia.
      - rewrite decide_False by done. lia. }
    change 58 with colon. rewrite Ec in Hk. clear Ec. revert Hk.
    assert (0 <= colons pre) by (unfold colons; lia).
    destruct (c =? colon); cbv zeta; intros Hk.
    + destruct (Z.leb_spec level (count + 1)); [lia|].
      rewrite (IH m path (i + 1) (count + 1) level n); [f_equal; lia| |lia|lia].
      by replace (path + (i + 1)) with (path + i + 1) by lia.
    + destruct (Z.leb_spec level count); [lia|].
      rewrite (IH m path (i + 1) count level n); [f_equal; lia| |lia|lia].
      by replace (path + (i + 1)) with (path + i + 1) by lia.
Qed.

(** The end of a field: the next separator, or the end of the line. *)
Lemma field_end m path a f post n :
  chars m path (a ++ f ++ post) -> Forall (fun c => c <> colon) f ->
  (post = [] \/ exists r, post = colon :: r) -> n = slen (a ++ f ++ post) ->
  default n (find_idx (Z.to_nat (n - slen a)) (slen a) (fun i => ld m (path + i) =? 58)) = slen a + slen f.
Proof.
  intros Hc Hf Hpost ->. rewrite !slen_app.
  pose proof (slen_nonneg a). pose proof (slen_nonneg f). pose proof (slen_nonneg post).
  assert (Hfield : forall i, slen a <= i < slen a + slen f -> (ld m (path + i) =? 58) = false).
  { intros i Hi. unfold slen in *. destruct (lookup_lt_is_Some_2 f (Z.to_nat i - length a)) as [c Ec]; [lia|].
    destruct (chars_lookup m path _ (Z.to_nat i) c Hc) as [E _].
    { rewrite lookup_app_r by lia. rewrite lookup_app_l; [done|]. apply lookup_lt_Some in Ec. done. }
    rewrite Z2Nat.id in E by lia. rewrite E. apply Z.eqb_neq.
    rewrite list.Forall_forall in Hf. apply Hf. by apply list_elem_of_lookup_2 in Ec. }
  destruct (find_idx _ _ _) as [j|] eqn:Ej; cbn.
  - apply find_idx_Some in Ej as (Hr & Ep & Hmin).
    destruct (Z.lt_trichotomy j (slen a + slen f)) as [Hlt|[->|Hgt]]; [|done|].
    + rewrite Hfield in Ep by lia. discriminate.
    + destruct Hpost as [->|[r ->]]; [unfold slen in *; cbn in *; lia|].
      specialize (Hmin (slen a + slen f) ltac:(lia)).
      destruct (chars_lookup m path _ (length a + length f) colon Hc) as [E _].
      { rewrite app_assoc, lookup_app_r by (rewrite length_app; lia). rewrite length_app, Nat.sub_diag. done. }
      unfold slen in Hmin. rewrite <- Nat2Z.inj_add, E in Hmin. done.
  - rewrite find_idx_None in Ej. destruct Hpost as [->|[r ->]]; [unfold slen; cbn; lia|].
    rewrite slen_cons in *. pose proof (slen_nonneg r).
    specialize (Ej (slen a + slen f) ltac:(lia)).
    destruct (chars_lookup m path _ (length a + length f) colon Hc) as [E _].
    { rewrite app_assoc, lookup_app_r by (rewrite length_app; lia). rewrite length_app, Nat.sub_diag. done. }
    unfold slen in Ej. rewrite <- Nat2Z.inj_add, E in Ej. done.
Qed.

Lemma slen_middle a c f b : slen f < slen (a ++ c :: f ++ b).
Proof. unfold slen. rewrite length_app. cbn [length]. rewrite length_app. lia. Qed.

Lemma chars_app m p a b : chars m p (a ++ b) <-> chars m p a /\ chars m (p + slen a) b.
Proof.
  revert p. induction a as [|c a IH]; intros p; cbn [app chars].
  - unfold slen; cbn. rewrite Z.add_0_r. tauto.
  - rewrite IH, slen_cons. replace (p + 1 + slen a) with (p + (slen a + 1)) by lia. tauto.
Qed.

Lemma chars_of_copy m m' p q s :
  (forall i, 0 <= i < slen s -> ld m' (q + i) = ld m (p + i)) -> chars m p s -> chars m' q s.
Proof.
  revert p q. induction s as [|c s IH]; intros p q H Hc; [done|]. cbn [chars] in *.
  pose proof (slen_nonneg s). rewrite slen_cons in H. destruct Hc as (Hc0 & E & Hc). split; [done|]. split.
  - specialize (H 0 ltac:(lia)). rewrite !Z.add_0_r in H. by rewrite H.
  - apply (IH (p + 1)); [|done]. intros i Hi. specialize (H (i + 1) ltac:(lia)).
    rewrite !Z.add_assoc in H. replace (q + 1 + i) with (q + i + 1) by lia.
    replace (p + 1 + i) with (p + i + 1) by lia. done.
Qed.

(** The field at [level] of a line, copied to a buffer apart from it. *)
Lemma get_str_at_lv_spec fuel m path level buf pre f post :
  cstr m path (pre ++ colon :: f ++ post) -> colons pre = level - 1 ->
  Forall (fun c => c <> colon) f -> (post = [] \/ exists r, post = colon :: r) ->
  slen (pre ++ colon :: f ++ post) < Z.of_nat fuel -> (buf + slen f < path \/ path + slen (pre ++ colon :: f ++ post) < buf) ->
  exists m', get_str_at_lv fuel m path level buf = Some (m', true) /\ cstr m' buf f /\
    (forall x, ~ buf <= x <= buf + slen f -> ld m' x = ld m x).
Proof.
  intros Hs Hk Hf Hpost Hfuel Hdis. unfold get_str_at_lv, strlen.
  rewrite (find_nul_cstr fuel m path _ Hs Hfuel). cbn [mbind option_bind].
  set (s := pre ++ colon :: f ++ post) in *. replace (path + slen s - path) with (slen s) by lia.
  assert (s = (pre ++ [colon]) ++ f ++ post) as Es by (unfold s; by rewrite <- app_assoc).
  pose proof (proj1 (cstr_chars _ _ _) Hs) as [Hc _]. rewrite Es in Hc.
  pose proof (proj1 (chars_app _ _ _ _) Hc) as [Hc1 Hc2].
  pose proof (slen_nonneg f). pose proof (slen_nonneg pre). pose proof (slen_nonneg post).
  assert (slen s = slen pre + 1 + slen f + slen post) as Hls.
  { rewrite Es, !slen_app. unfold slen at 2. cbn. lia. }
  rewrite (lv_loop_spec pre); [|by rewrite Z.add_0_r|lia|lia]. rewrite Z.add_0_l.
  replace (slen pre + 1) with (slen (pre ++ [colon])) by (rewrite slen_app; done).
  rewrite (field_end m path (pre ++ [colon]) f post (slen s)); [|done|done|done|by rewrite Es].
  rewrite slen_app. change (slen [colon]) with 1.
  replace (slen pre + 1 + slen f - slen pre - 1) with (slen f) by lia.
  eexists. split; [reflexivity|].
  assert (Hcp : forall x, ld (memcpy m buf (path + slen pre + 1) (slen f)) x =
    if (buf <=? x) && (x <? buf + slen f) then ld m (path + slen pre + 1 + (x - buf)) else ld m x).
  { intros x. apply memcpy_ld; [done|]. lia. }
  split.
  - apply cstr_chars. split; [|apply ld_st_eq].
    apply (chars_of_copy m _ (path + (slen pre + 1))).
    + intros i Hi. rewrite ld_st_ne, Hcp by lia.
      destruct (Z.leb_spec buf (buf + i)), (Z.ltb_spec (buf + i) (buf + slen f)); try lia. cbn [andb].
      f_equal. lia.
    + rewrite slen_app in Hc2. change (slen [colon]) with 1 in Hc2.
      by apply chars_app in Hc2 as [Hc2 _].
  - intros x Hx. rewrite ld_st_ne, Hcp by lia.
    destruct (Z.leb_spec buf x), (Z.ltb_spec x (buf + slen f)); cbn [andb]; lia || done.
Qed.
End Lines.

Section Ids.
Lemma on_current_done {A} (none : A) c k t p :
  thread k (gs8 k) = Some t -> proc_slot k (t_pid t) <> 0 -> proc k (t_pid t) = Some p ->
  on_current none c k = c (t_pid t) p k.
Proof.
  intros Ht Hz Hp. unfold on_current. rewrite (bind_done _ _ _ _ _ (get_current_pid_done k t Ht)).
  cbv [gets mbind st_bind]. destruct (Z.eqb_spec (proc_slot k (t_pid t)) 0); [done|]. by rewrite Hp.
Qed.
End Ids.

(** ** Properties *)

(** A line [name:password:uid:gid:...] is read correctly: whatever the first
    two fields are, the third and fourth are parsed as the decimal numbers they
    spell, and nothing outside the local buffer is written. *)
Theorem user_line_fields (fuel : nat) (m : mem) (line out : Z) (name pass uid gid post : list Z) :
  let s := name ++ colon :: pass ++ colon :: uid ++ colon :: gid ++ post in
  cstr m line s -> colons name = 0 -> colons pass = 0 ->
  Forall is_digit uid -> Forall is_digit gid -> (post = [] \/ exists r, post = colon :: r) ->
  dec_val 0 uid < 2 ^ 63 -> dec_val 0 gid < 2 ^ 63 ->
  slen s < Z.of_nat fuel -> line + slen s < out ->
  (exists m1, get_uid_from_user_line fuel m line out = Some (m1, dec_val 0 uid) /\
     forall x, ~ out <= x <= out + slen uid -> ld m1 x = ld m x) /\
  (exists m2, get_gid_from_user_line fuel m line out = Some (m2, dec_val 0 gid) /\
     forall x, ~ out <= x <= out + slen gid -> ld m2 x = ld m x).
Proof.
  cbv zeta. intros Hs Hn Hpw Hu Hg Hpost Hbu Hbg Hf Hout.
  assert (Hdig : forall f, Forall is_digit f -> Forall (fun c => c <> colon) f)
    by (intros f; apply Forall_impl; unfold is_digit, colon; lia).
  assert (Hparse : forall m' f, Forall is_digit f -> dec_val 0 f < 2 ^ 63 -> cstr m' out f ->
    slen f < Z.of_nat fuel -> str_to_int fuel m' out = Some (dec_val 0 f)).
  { intros m' f Hd Hb Hc Hl. unfold str_to_int.
    assert ((ld m' out =? 45) = false) as ->.
    { destruct f as [|c f]; cbn [cstr] in Hc; [by rewrite Hc|]. destruct Hc as (_ & -> & _).
      inversion_clear Hd. unfold is_digit in *. zbool. lia. }
    by rewrite (str_to_int_loop_digits fuel m' out f 0). }
  set (s := name ++ colon :: pass ++ colon :: uid ++ colon :: gid ++ post) in *.
  assert (s = (name ++ colon :: pass) ++ colon :: uid ++ (colon :: gid ++ post)) as E1
    by (unfold s; by rewrite <- !app_assoc).
  assert (s = (name ++ colon :: pass ++ colon :: uid) ++ colon :: gid ++ post) as E2
    by (unfold s; rewrite <- !app_assoc; cbn; by rewrite <- !app_assoc).
  assert (Hcol : forall a b, colons (a ++ colon :: b) = colons a + 1 + colons b).
  { intros a b. unfold colons. rewrite list.filter_app, length_app, filter_cons_True by done. cbn [length]. lia. }
  assert (colons uid = 0) as Hcu.
  { unfold colons. clear -Hu. induction Hu as [|c l Hc _ IH]; [done|].
    rewrite filter_cons_False by (unfold is_digit, colon in *; lia). done. }
  split.
  - destruct (get_str_at_lv_spec fuel m line 2 out (name ++ colon :: pass) uid (colon :: gid ++ post))
      as (m' & E & Hc & Hfr); [by rewrite <- E1|rewrite Hcol; lia|by apply Hdig|right; by eexists|by rewrite <- E1|right; by rewrite <- E1|].
    exists m'. split; [|done]. unfold get_uid_from_user_line. rewrite E. cbn [mbind option_bind fst].
    rewrite (Hparse m' uid); [done|done|done|done|]. rewrite E1 in Hf. pose proof (slen_middle (name ++ colon :: pass) colon uid (colon :: gid ++ post)). lia.
  - destruct (get_str_at_lv_spec fuel m line 3 out (name ++ colon :: pass ++ colon :: uid) gid post)
      as (m' & E & Hc & Hfr); [by rewrite <- E2|rewrite !Hcol; lia|by apply Hdig|done|by rewrite <- E2|right; by rewrite <- E2|].
    exists m'. split; [|done]. unfold get_gid_from_user_line. rewrite E. cbn [mbind option_bind fst].
    rewrite (Hparse m' gid); [done|done|done|done|]. rewrite E2 in Hf. pose proof (slen_middle (name ++ colon :: pass ++ colon :: uid) colon gid post). lia.
Qed.

(** [sys_setgid] reports success but overwrites the user id; the group id
    keeps its value. *)
Theorem setgid_overwrites_uid (k : kstate) (t : thread_info) (p : process_info) (gid : Z) :
  thread k (gs8 k) = Some t -> proc_slot k (t_pid t) <> 0 -> proc k (t_pid t) = Some p ->
  exists k' p', sys_setgid gid k = Done (0, k') /\ proc k' (t_pid t) = Some p' /\
    p_uid p' = gid /\ p_gid p' = p_gid p.
Proof.
  intros Ht Hz Hp. unfold sys_setgid, set_id. rewrite (on_current_done _ _ k t p Ht Hz Hp).
  eexists _, (set_p_uid gid p). split; [reflexivity|]. split; [|done].
  by rewrite proc_upd_proc, decide_True, Hp.
Qed.

(** The permission tests do not look at the permission asked for: for a user
    other than root the answer is the lowest bit of the mode, that of execution
    by others, whoever owns the file. *)
Theorem allow_mode_is_lowest_bit (owner group file_mode bit euid egid : Z) :
  bit = MODE_READ \/ bit = MODE_WRITE \/ bit = MODE_EXEC ->
  allow_mode owner group file_mode bit euid egid = (euid =? 0) || Z.odd file_mode.
Proof.
  intros Hb. assert (Hm : forall b, mode_test file_mode b = (0 <? b) && Z.odd file_mode).
  { intros b. unfold mode_test. destruct (0 <? b); [|by rewrite Z.land_0_r].
    change 1 with (Z.ones 1). rewrite Z.land_ones by lia. change (2 ^ 1) with 2. rewrite Zmod_odd.
    by destruct (Z.odd file_mode). }
  unfold allow_mode. rewrite !Hm. destruct (euid =? 0); [done|].
  destruct Hb as [->|[->| ->]]; cbn; rewrite !andb_false_r; done.
Qed.

(** *** Witnesses *)
(** root:x:0:12 *)
Definition demo_line : mem :=
  list_to_map (imap (fun i c => (100 + Z.of_nat i, c))
    [114; 111; 111; 116; 58; 120; 58; 48; 58; 49; 50; 0]).
Lemma user_line_fields_witness :
  exists m2, get_gid_from_user_line 40 demo_line 100 200 = Some (m2, 12).
Proof.
  destruct (user_line_fields 40 demo_line 100 200 [114; 111; 111; 116] [120] [48] [49; 50] [])
    as [_ (m2 & E & _)].
  - vm_compute. repeat split; discriminate.
  - reflexivity.
  - reflexivity.
  - repeat constructor; unfold is_digit; lia.
  - repeat constructor; unfold is_digit; lia.
  - left. reflexivity.
  - vm_compute. reflexivity.
  - vm_compute. reflexivity.
  - vm_compute. reflexivity.
  - vm_compute. reflexivity.
  - exists m2. exact E.
Defined.

Lemma setgid_overwrites_uid_witness :
  exists k' p', sys_setgid 100 demo_procs = Done (0, k') /\ proc k' 2 = Some p' /\ p_uid p' = 100.
Proof.
  destruct (setgid_overwrites_uid demo_procs (new_thread 2 5 THREAD_RUNNING (HM - 4096) 0 0 zero_context)
    (set_p_threads_count 1 (new_process 2 PROCESS_RUNNING 3 3 0 3)) 100) as (k' & p' & E & Ep & Eu & _).
  - reflexivity.
  - vm_compute. discriminate.
  - vm_compute. reflexivity.
  - exists k', p'. split; [exact E|]. split; [exact Ep|exact Eu].
Defined.

Lemma allow_mode_is_lowest_bit_witness : allow_mode 7 7 511 MODE_READ 5 5 = true.
Proof. apply (allow_mode_is_lowest_bit 7 7 511 MODE_READ 5 5). left. reflexivity. Defined.
