(* ===== verification/Vfs.v ===== *)
(** * Vfs: mount table and path dispatch

    src/core/filesytem/vfs.h and the dispatch functions of
    src/core/filesytem/filesystem.h.  Paths are lists of character codes; a
    [struct vfs_partition_driver] is the class [PartitionDriver], and the file
    calls are proved against it.  The path routines write into arrays of
    [MAX_PATH] bytes on the caller's stack without a bound: a path that does not
    fit is [Faulted].  [get_child_path_at_level] writes its terminator one byte
    too far, so the byte in between, left over on the stack, is the parameter
    [junk]. *)
From S2P Require Import Prelude MemLib StrLib Time KState Blocks Paging Threads User.
Open Scope Z_scope.

Abbreviation path := (list Z).
Definition slash : Z := 47.
Definition root : path := [slash].
Definition slashes (p : path) : Z := Z.of_nat (length (filter (fun c => c = slash) p)).
(** [p[i]] for [0 <= i <= strlen(p)]. *)
Definition char_at (p : path) (i : nat) : Z := default 0 (p !! i).

(** ** Mount table *)
Inductive path_type := PATH_NOT_FOUND | PATH_FILE | PATH_DIRECTORY.
#[export] Instance path_type_eq_dec : EqDecision path_type.
Proof. solve_decision. Defined.
Record mount_point := MountPoint { mp_src : path; mp_dest : path; mp_flags : Z; mp_part : Z }.
Definition MAX_MOUNT_POINT : Z := 512.
Definition MAX_DEVICE : Z := 1024.
Definition MAX_PATH : Z := 1024.
(** The tables: an absent key is a null pointer; a partition is its path. *)
Record vfs := Vfs { mount_global : gmap Z mount_point; partition_global : gmap Z path }.

(** [strcmp] answers 1 on equal strings. *)
Definition str_cmp (a b : path) : Z := if decide (a = b) then 1 else 0.

(** [-1], as a 64-bit value, when the loop ends. *)
Definition find_part_by_name (v : vfs) (name : path) : Z :=
  match find_idx (Z.to_nat MAX_DEVICE) 0 (fun i =>
          match partition_global v !! i with Some p => str_cmp p name =? 0 | None => false end) with
  | Some i => i
  | None => neg64 1
  end.

(** The first loop of [mount] has no null test; its result is not used further
    than the test against [MAX_DEVICE], which cannot hold. *)
Fixpoint mount_device_loop (n : nat) (i : Z) (v : vfs) (src : path) : outcome Z :=
  match n with
  | O => Done 0
  | S n' =>
      match partition_global v !! i with
      | None => Faulted
      | Some p => if str_cmp p src =? 0 then Done i else mount_device_loop n' (i + 1) v src
      end
  end.
Definition mount_word (v : vfs) (i : Z) : Z := match mount_global v !! i with Some _ => 1 | None => 0 end.
(** The block for the structure is taken from the allocator, which panics when
    [alloc] is false; both paths are copied to arrays of [MAX_PATH] bytes. *)
Definition mount (alloc : bool) (src dest : path) (flags : Z) (v : vfs) : outcome (Z * vfs) :=
  match get_a_free_slot (mount_word v) 0 MAX_MOUNT_POINT with
  | None => Panicked
  | Some id =>
      if id =? MAX_MOUNT_POINT then Done (-1, v)
      else
        match mount_device_loop (Z.to_nat MAX_DEVICE) 0 v src with
        | Done device_id =>
            if device_id =? MAX_DEVICE then Done (-1, v)
            else if negb alloc then Panicked
            else if (MAX_PATH <=? Z.of_nat (length src)) || (MAX_PATH <=? Z.of_nat (length dest)) then Faulted
            else
              let part_id := find_part_by_name v src in
              if part_id <? MAX_DEVICE
              then Done (id, Vfs (<[id := MountPoint src dest flags part_id]> (mount_global v)) (partition_global v))
              else Faulted
        | Panicked => Panicked | Faulted => Faulted | Stuck => Stuck
        end
  end.

(** ** Paths *)
(** The search from the end for [need] separators; [None]: the index runs below 0. *)
Fixpoint up_loop (i : nat) (p : path) (cnt need : Z) : option nat :=
  let cnt := if char_at p i =? slash then cnt + 1 else cnt in
  if need <=? cnt then Some i
  else match i with O => None | S i' => up_loop i' p cnt need end.
(** The output is the caller's [tmp_path[MAX_PATH]], zeroed by it; the
    terminator goes to index [i + 1]. *)
Definition get_parent_path_at_level (level : Z) (p : path) : outcome path :=
  match up_loop (length p) p 0 (u64 (slashes p - level)) with
  | None => Faulted
  | Some i =>
      if (0 <? i)%nat then (if Z.of_nat i + 1 <? MAX_PATH then Done (take i p) else Faulted)
      else Done root
  end.

Fixpoint down_loop (n : nat) (i : nat) (p : path) (cnt level : Z) : nat :=
  match n with
  | O => i
  | S n' =>
      let cnt := if char_at p i =? slash then cnt + 1 else cnt in
      if cnt =? u64 (level + 1) then i else down_loop n' (S i) p cnt level
  end.
(** [out_size] is the size of the caller's array. *)
Definition get_child_path_at_level (junk out_size level : Z) (p : path) : outcome path :=
  let child := drop (down_loop (length p) 0 p 0 level) p in
  if Z.of_nat (length child) + 1 <? out_size then Done (child ++ (if junk =? 0 then [] else [junk])) else Faulted.

(** [for (j = MAX_MOUNT_POINT - 1; j >= 0; j--)] *)
Fixpoint mount_scan (n : nat) (v : vfs) (tmp : path) : option Z :=
  match n with
  | O => None
  | S n' =>
      let j := Z.of_nat n' in
      match mount_global v !! j with
      | Some mp => if str_cmp (mp_dest mp) tmp =? 0 then mount_scan n' v tmp else Some j
      | None => mount_scan n' v tmp
      end
  end.
(** The outer loop counts down an unsigned level; below 0 the search of
    [get_parent_path_at_level] leaves the buffer. *)
Fixpoint mount_levels (level : nat) (v : vfs) (p : path) : outcome Z :=
  match get_parent_path_at_level (Z.of_nat level) p with
  | Done tmp =>
      match mount_scan (Z.to_nat MAX_MOUNT_POINT) v tmp with
      | Some j => Done j
      | None => match level with O => Faulted | S l => mount_levels l v p end
      end
  | Panicked => Panicked | Faulted => Faulted | Stuck => Stuck
  end.
Definition find_mount_by_path (v : vfs) (p : path) : outcome Z :=
  mount_levels (Z.to_nat (slashes p)) v p.

Definition get_mount_deep_level (v : vfs) (mount_id : Z) : Z :=
  match mount_global v !! mount_id with
  | None => neg64 1
  | Some mp => u64 (slashes (mp_dest mp) - 1)
  end.

Definition get_child_path_from_mount_point (v : vfs) (mount_id : Z) (p : path) : outcome path :=
  match mount_global v !! mount_id with
  | None => Faulted
  | Some mp => Done (if str_cmp (mp_dest mp) root =? 0 then p else drop (length (mp_dest mp)) p)
  end.

(** ** The driver interface *)
Record dirent_stat := DirentStat { ds_type : path_type; ds_size : Z }.
(** [struct vfs_partition_driver]: the operations of a file system on the
    partition [part] of a disk.  [drv_list] updates the caller's buffer,
    [drv_read] gives the bytes it places there. *)
Class PartitionDriver (disk : Type) := {
  drv_create : Z -> path -> bool -> ST disk Z;
  drv_stat : Z -> path -> ST disk dirent_stat;
  drv_delete : Z -> path -> bool -> ST disk Z;
  drv_rename : Z -> path -> path -> bool -> ST disk Z;
  drv_truncate : Z -> path -> ST disk Z;
  drv_list : Z -> path -> list Z -> Z -> Z -> ST disk (Z * list Z);
  drv_read : Z -> path -> Z -> Z -> ST disk (Z * list Z);
  drv_write : Z -> path -> list Z -> Z -> ST disk Z
}.

(** A computation that does not touch the state. *)
Definition lift {S A : Type} (o : outcome A) : ST S A := fun s =>
  match o with Done a => Done (a, s) | Panicked => Panicked | Faulted => Faulted | Stuck => Stuck end.

Section Files.
Context {disk : Type} `{PartitionDriver disk} (junk : Z) (v : vfs).

(** [mount_global[mount_id]->part] *)
Definition part_of (mount_id : Z) : ST disk Z :=
  match mount_global v !! mount_id with Some mp => mret (mp_part mp) | None => fault end.
(** The prologue of every call: the mount, the path below it, and the driver's
    operation on both; [none] is the result without a mount. *)
Definition dispatch {A} (none : A) (p : path) (k : Z -> path -> ST disk A) : ST disk A :=
  mount_id ← lift (find_mount_by_path v p);
  child_path ← lift (get_child_path_at_level junk MAX_PATH (get_mount_deep_level v mount_id) p);
  if mount_id =? neg64 1 then mret none
  else part ← part_of mount_id; k part child_path.

Definition mkfile (p : path) : ST disk Z :=
  dispatch (neg64 ENOENT) p (fun part child => drv_create part child false).
Definition mkdir (p : path) : ST disk Z :=
  dispatch (neg64 ENOENT) p (fun part child => drv_create part child true).
(** Without a mount the caller's zeroed structure stays. *)
Definition stat_dirent (p : path) : ST disk dirent_stat :=
  dispatch (DirentStat PATH_NOT_FOUND 0) p (fun part child => drv_stat part child).
(** The results are [bool]: any non-zero answer of the driver, and any error
    number, is [true]. *)
Definition delete_dirent (p : path) : ST disk bool :=
  dispatch true p (fun part child =>
    st ← stat_dirent p;
    match ds_type st with
    | PATH_FILE => r ← drv_delete part child false; mret (negb (r =? 0))
    | PATH_DIRECTORY => r ← drv_delete part child true; mret (negb (r =? 0))
    | PATH_NOT_FOUND => mret false
    end).
Definition rename_dirent (path_src path_des : path) : ST disk bool :=
  src_mnt_id ← lift (find_mount_by_path v path_src);
  dst_mnt_id ← lift (find_mount_by_path v path_des);
  if negb (src_mnt_id =? dst_mnt_id) then mret false
  else
    let mount_lv := get_mount_deep_level v src_mnt_id in
    src_child ← lift (get_child_path_at_level junk MAX_PATH mount_lv path_src);
    dst_child ← lift (get_child_path_at_level junk MAX_PATH mount_lv path_des);
    st ← stat_dirent path_src;
    match ds_type st with
    | PATH_FILE =>
        part ← part_of src_mnt_id; r ← drv_rename part src_child dst_child false; mret (negb (r =? 0))
    | PATH_DIRECTORY =>
        part ← part_of src_mnt_id; r ← drv_rename part src_child dst_child true; mret (negb (r =? 0))
    | PATH_NOT_FOUND => mret false
    end.
Definition is_dir (p : path) : ST disk bool :=
  st ← stat_dirent p; mret (bool_decide (ds_type st = PATH_DIRECTORY)).
(** The call has no [return] on success: only the buffer counts.  [None]: the
    driver was not asked. *)
Definition list_dir (p : path) (buf : list Z) (start length : Z) : ST disk (option (list Z)) :=
  dispatch None p (fun part child =>
    b ← is_dir p;
    if negb b then mret None
    else r ← drv_list part child buf start length; mret (Some (snd r))).
(** Result and bytes placed in the buffer; the result does not count them. *)
Definition read_file (p : path) (buf start count : Z) : ST disk (Z * list Z) :=
  if (buf =? 0) || (count =? 0) then mret (- EINVAL, [])
  else dispatch (- ENOENT, []) p (fun part child => r ← drv_read part child start count; mret (0, snd r)).
Definition write_file (p : path) (buf : Z) (bytes : list Z) (start : Z) : ST disk Z :=
  if (buf =? 0) || (Z.of_nat (length bytes) =? 0) then mret 0
  else dispatch (- ENOENT) p (fun part child => _ ← drv_write part child bytes start; mret 0).
Definition path_exists (p : path) : ST disk bool :=
  st ← stat_dirent p; mret (bool_decide (ds_type st <> PATH_NOT_FOUND)).
Definition erase_file (p : path) : ST disk bool :=
  dispatch true p (fun part child => r ← drv_truncate part child; mret (r =? 0)).
End Files.

(** ** Lemmas *)

(** [d] is [p] cut at a component boundary. *)
Definition component_prefix (d p : path) : Prop :=
  d = root \/ (d <> [] /\ (p = d \/ exists r, p = d ++ slash :: r)).

(** The path and a terminator one byte behind its own fit [tmp_path]. *)
Definition path_fits (p : path) : Prop := Z.of_nat (length p) + 1 < MAX_PATH.

Section Paths.
Lemma slashes_app a b : slashes (a ++ b) = slashes a + slashes b.
Proof. unfold slashes. rewrite list.filter_app, length_app. lia. Qed.
Lemma slashes_cons c a : slashes (c :: a) = (if c =? slash then 1 else 0) + slashes a.
Proof.
  unfold slashes. rewrite filter_cons. destruct (Z.eqb_spec c slash).
  - rewrite decide_True by done. cbn [length]. lia.
  - rewrite decide_False by done. lia.
Qed.
Lemma slashes_nonneg p : 0 <= slashes p.
Proof. unfold slashes. lia. Qed.
Lemma slashes_le_length p : slashes p <= Z.of_nat (length p).
Proof. unfold slashes. pose proof (length_filter (fun c => c = slash) p). lia. Qed.
Lemma slashes_take_drop i p : slashes p = slashes (take i p) + slashes (drop i p).
Proof. rewrite <- slashes_app. by rewrite take_drop. Qed.
Lemma slashes_drop i p :
  slashes (drop i p) = (if char_at p i =? slash then 1 else 0) + slashes (drop (S i) p).
Proof.
  unfold char_at. destruct (p !! i) as [c|] eqn:E.
  - rewrite (drop_S _ _ _ E), slashes_cons. done.
  - apply lookup_ge_None in E. rewrite !drop_ge by lia. done.
Qed.
Lemma slashes_take_mono i j p : (i <= j)%nat -> slashes (take i p) <= slashes (take j p).
Proof.
  intros Hij. pose proof (slashes_take_drop i p). pose proof (slashes_take_drop j p).
  assert (slashes (drop j p) <= slashes (drop i p)); [|lia].
  replace j with (i + (j - i))%nat by lia. rewrite <- drop_drop.
  pose proof (slashes_take_drop (j - i) (drop i p)). pose proof (slashes_nonneg (take (j - i) (drop i p))). lia.
Qed.
Lemma slashes_take_S i p :
  slashes (take (S i) p) = slashes (take i p) + (if char_at p i =? slash then 1 else 0).
Proof.
  pose proof (slashes_take_drop i p). pose proof (slashes_take_drop (S i) p).
  pose proof (slashes_drop i p). lia.
Qed.

Lemma up_loop_spec p need : forall i cnt,
  cnt = slashes (drop (S i) p) -> need <= slashes p ->
  exists j, up_loop i p cnt need = Some j /\ (j <= i)%nat /\ need <= slashes (drop j p) /\
    (j = i \/ slashes (drop (S j) p) < need).
Proof.
  induction i as [|i IH]; intros cnt -> Hn; cbn [up_loop]; cbv zeta.
  - assert ((if char_at p 0 =? slash then slashes (drop 1 p) + 1 else slashes (drop 1 p)) = slashes p) as ->.
    { pose proof (slashes_drop 0 p) as H. rewrite drop_0 in H. destruct (char_at p 0 =? slash); lia. }
    destruct (Z.leb_spec need (slashes p)); [|lia]. exists 0%nat. rewrite drop_0. by auto.
  - assert ((if char_at p (S i) =? slash then slashes (drop (S (S i)) p) + 1 else slashes (drop (S (S i)) p))
            = slashes (drop (S i) p)) as ->.
    { pose proof (slashes_drop (S i) p) as H. destruct (char_at p (S i) =? slash); lia. }
    destruct (Z.leb_spec need (slashes (drop (S i) p))).
    + exists (S i). split_and!; [done|lia|done|by left].
    + destruct (IH (slashes (drop (S i) p)) eq_refl Hn) as (j & E & Hj & Hc & Hl).
      exists j. split_and!; [done|lia|done|]. right. destruct Hl as [->|]; done.
Qed.

(** The first separator behind [level] others. *)
Lemma down_loop_spec level n : forall cnt pre a rest,
  0 <= cnt <= level -> cnt + slashes a = level -> level < 2 ^ 63 -> (length a < n)%nat ->
  down_loop n (length pre) (pre ++ a ++ slash :: rest) cnt level = (length pre + length a)%nat.
Proof.
  induction n as [|n IH]; intros cnt pre a rest Hc Hs Hb Hn; [lia|]. cbn [down_loop]. cbv zeta.
  unfold char_at. rewrite lookup_app_r, Nat.sub_diag by lia. rewrite (u64_id (level + 1)) by lia.
  destruct a as [|c a]; cbn [app lookup list_lookup default id].
  - rewrite Z.eqb_refl. unfold slashes in Hs. cbn in Hs. destruct (Z.eqb_spec (cnt + 1) (level + 1)); [cbn; lia|lia].
  - rewrite slashes_cons in Hs. pose proof (slashes_nonneg a). cbn [length] in Hn.
    replace (pre ++ c :: a ++ slash :: rest) with ((pre ++ [c]) ++ a ++ slash :: rest) by (by rewrite <- app_assoc).
    replace (S (length pre)) with (length (pre ++ [c])) by (rewrite length_app; cbn; lia).
    change (id c) with c. revert Hs. destruct (c =? slash); intros Hs.
    + destruct (Z.eqb_spec (cnt + 1) (level + 1)); [lia|].
      rewrite IH by lia. rewrite length_app. cbn. lia.
    + destruct (Z.eqb_spec cnt (level + 1)); [lia|].
      rewrite IH by lia. rewrite length_app. cbn. lia.
Qed.

(** The prefixes [get_parent_path_at_level] can return. *)
Lemma parent_spec level p : 0 <= level <= slashes p -> path_fits p ->
  exists j, get_parent_path_at_level level p = Done (if (0 <? j)%nat then take j p else root) /\
    (j <= length p)%nat /\ slashes (take j p) = level /\
    (level = slashes p -> j = length p) /\ (level < slashes p -> char_at p j = slash).
Proof.
  intros Hl Hb. pose proof (slashes_le_length p) as Hlen. unfold path_fits, MAX_PATH in Hb.
  unfold get_parent_path_at_level. rewrite (u64_id (slashes p - level)) by lia.
  destruct (up_loop_spec p (slashes p - level) (length p) 0) as (j & E & Hj & Hc & Hn);
    [by rewrite drop_ge by lia|lia|].
  rewrite E. exists j. pose proof (slashes_take_drop j p). pose proof (slashes_drop j p) as Hd.
  assert (slashes (drop (length p) p) = 0) as He by (by rewrite drop_all).
  split; [|split; [done|]].
  { destruct (0 <? j)%nat; [|done]. destruct (Z.ltb_spec (Z.of_nat j + 1) MAX_PATH); [done|unfold MAX_PATH in *; lia]. }
  destruct (Z.eq_dec level (slashes p)) as [->|Hne].
  - assert (j = length p) as ->.
    { destruct Hn as [|Hn]; [done|]. pose proof (slashes_nonneg (drop (S j) p)). lia. }
    split_and!; [lia|done|lia].
  - destruct Hn as [->|Hn]; [lia|].
    destruct (Z.eqb_spec (char_at p j) slash); [|lia]. split_and!; [lia|lia|done].
Qed.

Lemma slash_pos_unique p i j :
  char_at p i = slash -> char_at p j = slash -> slashes (take i p) = slashes (take j p) -> i = j.
Proof.
  assert (H : forall i j, (i < j)%nat -> char_at p i = slash -> slashes (take i p) < slashes (take j p)).
  { intros a b Hab Ha. pose proof (slashes_take_mono (S a) b p ltac:(lia)).
    rewrite slashes_take_S, Ha in H. cbn in H. lia. }
  intros Hi Hj E. destruct (Nat.lt_trichotomy i j) as [Hl|[?|Hl]]; [|done|].
  - specialize (H i j Hl Hi). lia.
  - specialize (H j i Hl Hj). lia.
Qed.

(** The level at which a component prefix of an absolute path is tried. *)
Definition level_of (d p : path) : Z := if decide (d = root /\ p <> root) then 0 else slashes d.

Lemma component_prefix_level d p' :
  let p := slash :: p' in
  component_prefix d p -> path_fits p ->
  0 <= level_of d p <= slashes p /\ get_parent_path_at_level (level_of d p) p = Done d.
Proof.
  cbv zeta. intros Hd Hb. set (p := slash :: p') in *. pose proof (slashes_nonneg d).
  assert (Hs : 1 <= slashes p) by (unfold p; rewrite slashes_cons; pose proof (slashes_nonneg p'); cbn; lia).
  unfold level_of. case_decide as Hr.
  - destruct Hr as [-> Hr]. split; [lia|]. destruct (parent_spec 0 p ltac:(lia) Hb) as (j & -> & _ & H0 & _ & Hc).
    assert (j = 0)%nat as ->; [|done].
    apply (slash_pos_unique p); [by apply Hc; lia|done|]. by rewrite H0.
  - assert (Hw : p = d \/ (d <> [] /\ exists r, p = d ++ slash :: r)).
    { destruct Hd as [->|(Hne & [?|?])]; [|by left|by right].
      left. destruct (decide (p = root)); [done|]. exfalso. by apply Hr. }
    destruct Hw as [<-|(Hne & r & Er)].
    + split; [lia|]. destruct (parent_spec (slashes p) p ltac:(lia) Hb) as (j & -> & _ & _ & Hj & _).
      rewrite Hj by done. by rewrite firstn_all.
    + assert (slashes p = slashes d + 1 + slashes r) as Hsp.
      { rewrite Er, slashes_app, slashes_cons. cbn. lia. }
      pose proof (slashes_nonneg r). split; [lia|].
      destruct (parent_spec (slashes d) p ltac:(lia) Hb) as (j & -> & _ & Hj & _ & Hc).
      assert (j = length d) as ->.
      { apply (slash_pos_unique p); [apply Hc; lia| |].
        - unfold char_at. rewrite Er, lookup_app_r, Nat.sub_diag by lia. done.
        - rewrite Hj, Er, take_app_length. done. }
      rewrite Er, take_app_length. destruct d; done.
Qed.

Lemma parent_component level p' :
  let p := slash :: p' in
  0 <= level <= slashes p -> path_fits p ->
  exists d, get_parent_path_at_level level p = Done d /\ component_prefix d p.
Proof.
  cbv zeta. intros Hl Hb. destruct (parent_spec level _ Hl Hb) as (j & E & Hj & _ & Hlast & Hc).
  eexists. split; [exact E|]. destruct (Nat.ltb_spec 0 j) as [H0|]; [|by left]. right.
  destruct (Z.eq_dec level (slashes (slash :: p'))) as [El|El].
  - rewrite (Hlast El), firstn_all. split; [done|by left].
  - split; [destruct j; [lia|done]|]. right. exists (drop (S j) (slash :: p')).
    specialize (Hc ltac:(lia)). unfold char_at in Hc.
    destruct ((slash :: p') !! j) as [c|] eqn:Ec; cbn in Hc; [|done]. subst c.
    by rewrite <- (drop_S _ _ _ Ec), take_drop.
Qed.

(** Longer prefixes are tried first. *)
Lemma parent_longest level d e p' :
  let p := slash :: p' in
  0 <= level <= slashes p -> path_fits p -> get_parent_path_at_level level p = Done d ->
  component_prefix e p -> level_of e p <= level -> (length e <= length d)%nat.
Proof.
  cbv zeta. set (p := slash :: p'). intros Hl Hb Ed He Hle.
  destruct (component_prefix_level e p' He Hb) as [Hre Ee]. fold p in Hre, Ee.
  destruct (parent_spec level p Hl Hb) as (jd & E1 & Hjd & Sd & Ld & Cd). rewrite Ed in E1. injection E1 as ->.
  destruct (parent_spec (level_of e p) p Hre Hb) as (je & E2 & Hje & Se & _ & _). rewrite Ee in E2. injection E2 as ->.
  assert (je <= jd)%nat as Hj.
  { destruct (Nat.le_gt_cases je jd) as [|Hgt]; [done|]. destruct (Z.eq_dec level (slashes p)) as [E|E].
    - rewrite (Ld E). lia.
    - pose proof (slashes_take_mono (S jd) je p ltac:(lia)) as Hm.
      rewrite slashes_take_S, (Cd ltac:(lia)) in Hm. cbn in Hm. lia. }
  destruct (Nat.ltb_spec 0 je), (Nat.ltb_spec 0 jd); rewrite ?length_take; cbn; lia.
Qed.
End Paths.

Section Mounts.
Lemma str_cmp_spec a b : (str_cmp a b =? 0) = negb (bool_decide (a = b)).
Proof. unfold str_cmp. by destruct (decide (a = b)) as [->|]; [rewrite bool_decide_true|rewrite bool_decide_false]. Qed.

Lemma mount_scan_Some n v tmp j : mount_scan n v tmp = Some j ->
  0 <= j < Z.of_nat n /\ exists mp, mount_global v !! j = Some mp /\ mp_dest mp = tmp.
Proof.
  induction n as [|n IH]; [done|]. cbn [mount_scan].
  destruct (mount_global v !! Z.of_nat n) as [mp|] eqn:E.
  - rewrite str_cmp_spec. case_bool_decide; cbn [negb].
    + intros [= <-]. split; [lia|]. by exists mp.
    + intros H'. destruct (IH H'). split; [lia|done].
  - intros H'. destruct (IH H'). split; [lia|done].
Qed.

Lemma mount_scan_None n v tmp : mount_scan n v tmp = None ->
  forall j mp, 0 <= j < Z.of_nat n -> mount_global v !! j = Some mp -> mp_dest mp <> tmp.
Proof.
  induction n as [|n IH]; intros H j mp Hj Hm; [lia|]. cbn [mount_scan] in H.
  destruct (decide (j = Z.of_nat n)) as [->|Hne].
  - rewrite Hm, str_cmp_spec in H. case_bool_decide; [discriminate|done].
  - assert (mount_scan n v tmp = None) as H'.
    { destruct (mount_global v !! Z.of_nat n); [|done]. by destruct (str_cmp _ _ =? 0). }
    apply (IH H' j mp); [lia|done].
Qed.

(** A mount in the table, with its slot. *)
Definition mounted (v : vfs) (j : Z) (mp : mount_point) : Prop :=
  0 <= j < MAX_MOUNT_POINT /\ mount_global v !! j = Some mp.

(** The levels from [l] down to 0, stopped at the first that has a mount. *)
Lemma mount_levels_spec v p' : let p := slash :: p' in path_fits p ->
  forall l, Z.of_nat l <= slashes p ->
  (exists j mp, mounted v j mp /\ component_prefix (mp_dest mp) p /\ level_of (mp_dest mp) p <= Z.of_nat l) ->
  exists j mp, mount_levels l v p = Done j /\ mounted v j mp /\ component_prefix (mp_dest mp) p /\
    forall i mq, mounted v i mq -> component_prefix (mp_dest mq) p -> level_of (mp_dest mq) p <= Z.of_nat l ->
      (length (mp_dest mq) <= length (mp_dest mp))%nat.
Proof.
  cbv zeta. set (p := slash :: p'). intros Hb.
  assert (Hit : forall l d j, Z.of_nat l <= slashes p -> get_parent_path_at_level (Z.of_nat l) p = Done d ->
    component_prefix d p -> mount_scan (Z.to_nat MAX_MOUNT_POINT) v d = Some j ->
    exists mp, mounted v j mp /\ component_prefix (mp_dest mp) p /\
      forall i mq, mounted v i mq -> component_prefix (mp_dest mq) p -> level_of (mp_dest mq) p <= Z.of_nat l ->
        (length (mp_dest mq) <= length (mp_dest mp))%nat).
  { intros l d j Hl Ed Cd Es. apply mount_scan_Some in Es as (Hj & mp & Hm & <-).
    assert (mounted v j mp) as Mj by (split; [unfold MAX_MOUNT_POINT in *; lia|done]).
    exists mp. split; [done|]. split; [done|].
    intros i mq _ Cq Lq. by apply (parent_longest (Z.of_nat l) (mp_dest mp) _ p'); [fold p; lia|..]. }
  assert (Miss : forall l d, get_parent_path_at_level (Z.of_nat l) p = Done d ->
    mount_scan (Z.to_nat MAX_MOUNT_POINT) v d = None ->
    forall i mq, mounted v i mq -> component_prefix (mp_dest mq) p -> level_of (mp_dest mq) p <> Z.of_nat l).
  { intros l d Ed Es i mq [Hi Hm] Cq El. destruct (component_prefix_level _ p' Cq Hb) as [_ Ep]. fold p in Ep.
    rewrite El, Ed in Ep. injection Ep as ->.
    apply (mount_scan_None _ _ _ Es i mq); [unfold MAX_MOUNT_POINT in *; lia|done|done]. }
  induction l as [|l IH]; intros Hl (j0 & mp0 & M0 & C0 & L0); cbn [mount_levels].
  - destruct (parent_component (Z.of_nat 0) p' ltac:(fold p; lia) Hb) as (d & Ed & Cd). fold p in Ed, Cd. rewrite Ed.
    destruct (mount_scan _ v d) as [j|] eqn:Es; [destruct (Hit _ d j Hl Ed Cd Es) as (mp & ?); by exists j, mp|].
    pose proof (Miss 0%nat d Ed Es j0 mp0 M0 C0).
    destruct (component_prefix_level _ p' C0 Hb) as [Hr _]. fold p in Hr. lia.
  - destruct (parent_component (Z.of_nat (S l)) p' ltac:(fold p; lia) Hb) as (d & Ed & Cd). fold p in Ed, Cd. rewrite Ed.
    destruct (mount_scan _ v d) as [j|] eqn:Es; [destruct (Hit _ d j Hl Ed Cd Es) as (mp & ?); by exists j, mp|].
    pose proof (Miss _ d Ed Es) as Hno.
    destruct IH as (j & mp & E & Mj & Cj & Hmax); [lia|exists j0, mp0; split; [done|]; split; [done|]|].
    + pose proof (Hno j0 mp0 M0 C0). lia.
    + exists j, mp. split; [done|]. split; [done|]. split; [done|]. intros i mq Mq Cq Lq. apply (Hmax i mq Mq Cq).
      pose proof (Hno i mq Mq Cq). lia.
Qed.
End Mounts.

(** ** Properties *)

(** A path of 1023 characters or more runs over the end of [tmp_path] in the
    first round, which copies the whole path. *)
Lemma long_path_overflows (v : vfs) (p : path) : MAX_PATH <= Z.of_nat (length p) + 1 -> find_mount_by_path v p = Faulted.
Proof.
  intros Hl. unfold find_mount_by_path, MAX_PATH in *.
  assert (E : get_parent_path_at_level (Z.of_nat (Z.to_nat (slashes p))) p = Faulted).
  { pose proof (slashes_nonneg p). unfold get_parent_path_at_level. rewrite Z2Nat.id, Z.sub_diag by lia. change (u64 0) with 0.
    assert (up_loop (length p) p 0 0 = Some (length p)) as ->.
    { destruct (length p) as [|n]; cbn [up_loop]; cbv zeta; by destruct (_ =? slash). }
    destruct (Nat.ltb_spec 0 (length p)); [|lia]. destruct (Z.ltb_spec (Z.of_nat (length p) + 1) MAX_PATH); [unfold MAX_PATH in *; lia|done]. }
  destruct (Z.to_nat (slashes p)); cbn [mount_levels]; by rewrite E.
Qed.

(** C33: With a file system mounted on the root, an absolute path of at most
    1022 characters is handed to the mount with the longest matching mount
    point: the search ends, and the mount found matches the path at a component
    boundary and no matching mount point is longer.  A longer path does not fit
    the array the search copies it to, and overruns the stack. *)
Theorem find_mount_longest (v : vfs) (p' : path) (i0 : Z) (mp0 : mount_point) :
  let p := slash :: p' in
  mounted v i0 mp0 -> mp_dest mp0 = root ->
  (path_fits p ->
   exists j mp, find_mount_by_path v p = Done j /\ mounted v j mp /\ component_prefix (mp_dest mp) p /\
     forall i mq, mounted v i mq -> component_prefix (mp_dest mq) p ->
       (length (mp_dest mq) <= length (mp_dest mp))%nat) /\
  (~ path_fits p -> find_mount_by_path v p = Faulted).
Proof.
  cbv zeta. intros M0 H0. split; [|unfold path_fits; intros; apply long_path_overflows; lia]. intros Hb.
  pose proof (slashes_nonneg (slash :: p')).
  assert (Hlv : forall d, component_prefix d (slash :: p') -> level_of d (slash :: p') <= Z.of_nat (Z.to_nat (slashes (slash :: p')))).
  { intros d Cd. destruct (component_prefix_level d p' Cd Hb). lia. }
  destruct (mount_levels_spec v p' Hb (Z.to_nat (slashes (slash :: p')))) as (j & mp & E & Mj & Cj & Hmax).
  - lia.
  - exists i0, mp0. assert (component_prefix (mp_dest mp0) (slash :: p')) as C0 by (by left).
    split; [done|]. split; [done|by apply Hlv].
  - exists j, mp. split; [done|]. split; [done|]. split; [done|]. intros i mq Mq Cq. apply (Hmax i mq Mq Cq). by apply Hlv.
Qed.

(** The path given to the driver is not relative to the mount point: for a
    path below the mount [a/last], with one separator in front of [last], the
    driver still sees [/last] in front of the rest (for the root mount this is
    the whole path), followed by whatever byte the stack held. *)
Theorem child_path_keeps_last_component (junk : Z) (v : vfs) (j : Z) (mp : mount_point) (a last rest : path) :
  mount_global v !! j = Some mp -> mp_dest mp = a ++ slash :: last -> slashes last = 0 ->
  path_fits (mp_dest mp ++ rest) ->
  get_child_path_at_level junk MAX_PATH (get_mount_deep_level v j) (mp_dest mp ++ rest) =
  Done ((slash :: last) ++ rest ++ (if junk =? 0 then [] else [junk])).
Proof.
  intros Hm Hd Hlast Ha. pose proof (slashes_nonneg a). pose proof (slashes_le_length a).
  unfold path_fits, MAX_PATH in Ha. rewrite Hd, !length_app in Ha. cbn [length] in Ha. unfold get_child_path_at_level, get_mount_deep_level. rewrite Hm, Hd.
  rewrite slashes_app, slashes_cons, Hlast. cbn [Z.eqb]. rewrite Z.eqb_refl.
  replace (slashes a + (1 + 0) - 1) with (slashes a) by lia. rewrite (u64_id (slashes a)) by lia.
  rewrite <- app_assoc. cbn [app].
  pose proof (down_loop_spec (slashes a) (length (a ++ slash :: last ++ rest)) 0 [] a (last ++ rest)) as Hdl.
  cbn [app length] in Hdl. rewrite Hdl by (lia || (rewrite length_app; cbn; lia)).
  rewrite Nat.add_0_l, drop_app_length. cbn [app length]. rewrite !length_app.
  destruct (Z.ltb_spec (Z.of_nat (S (length last + length rest)) + 1) MAX_PATH); [by rewrite <- app_assoc|unfold MAX_PATH in *; lia].
Qed.

(** [find_part_by_name] finds the first partition whose name is not the one
    asked for, because [strcmp] answers 1 on equality: with the single partition
    /dev/sda1, a mount of /dev/sda gets it and a mount of /dev/sda1 indexes the
    table with -1. *)
Theorem find_part_by_name_inverted (v : vfs) (name : path) :
  (forall i q, 0 <= i < MAX_DEVICE -> partition_global v !! i = Some q -> q <> name ->
     (forall j, 0 <= j < i -> partition_global v !! j = None \/ partition_global v !! j = Some name) ->
     find_part_by_name v name = i) /\
  ((forall i q, 0 <= i < MAX_DEVICE -> partition_global v !! i = Some q -> q = name) ->
     find_part_by_name v name = neg64 1).
Proof.
  unfold find_part_by_name. set (f := fun i : Z => _).
  assert (Hf : forall i, f i = true <-> exists q, partition_global v !! i = Some q /\ q <> name).
  { intros i. unfold f. destruct (partition_global v !! i) as [q|]; [|naive_solver].
    rewrite str_cmp_spec, negb_true_iff, bool_decide_eq_false. naive_solver. }
  split.
  - intros i q Hi Hq Hne Hlow. assert (find_idx (Z.to_nat MAX_DEVICE) 0 f = Some i) as ->; [|done].
    apply find_idx_Some. split_and!; [lia|lia|apply Hf; by exists q|]. intros j Hj.
    apply not_true_iff_false. rewrite Hf. intros (q' & Hq' & Hne'). destruct (Hlow j Hj) as [E|E]; naive_solver.
  - intros Hall. assert (find_idx (Z.to_nat MAX_DEVICE) 0 f = None) as ->; [|done].
    apply find_idx_None. intros j Hj. apply not_true_iff_false. rewrite Hf. intros (q' & Hq' & Hne').
    apply Hne', (Hall j q'); [lia|done].
Qed.

(** The user table is never loaded: [read_file] reports 0 when it has read
    the file and a negative number otherwise, and [init_user] gives up on any
    result that is not positive. *)
Theorem users_never_loaded {disk : Type} `{PartitionDriver disk} (junk : Z) (v : vfs) (d d' : disk)
    (p : path) (buf start count r : Z) (bytes : list Z) (fuel : nat) (m : mem) (user_file out : Z) (users : gmap Z user) :
  read_file junk v p buf start count d = Done ((r, bytes), d') ->
  init_user fuel m r user_file out users = Some users.
Proof.
  unfold read_file. destruct ((buf =? 0) || (count =? 0)).
  - intros [= <- _ _]. done.
  - unfold dispatch. intros (mount_id & d1 & _ & E)%bind_done_inv.
    apply bind_done_inv in E as (child & d0 & _ & E). destruct (mount_id =? neg64 1).
    + injection E as <- _ _. done.
    + apply bind_done_inv in E as (part & d2 & _ & E). apply bind_done_inv in E as (x & d3 & _ & E).
      injection E as <- _ _. done.
Qed.

(** *** Witnesses *)
(** A driver whose disk is the content of its only file. *)
#[export] Instance one_file_driver : PartitionDriver (list Z) := {
  drv_create _ _ _ := mret 0;
  drv_stat _ _ := gets (fun d => DirentStat PATH_FILE (Z.of_nat (length d)));
  drv_delete _ _ _ := fun _ => Done (0, []);
  drv_rename _ _ _ _ := mret 0;
  drv_truncate _ _ := fun _ => Done (0, []);
  drv_list _ _ buf _ _ := mret (0, buf);
  drv_read _ _ start size := gets (fun d => let l := take (Z.to_nat size) (drop (Z.to_nat start) d) in (Z.of_nat (length l), l));
  drv_write _ _ bytes start := fun d => Done (0, take (Z.to_nat start) d ++ bytes)
}.

(** Mounts on / and on /mnt. *)
Definition demo_vfs : vfs :=
  Vfs {[ 0 := MountPoint [] root 0 0; 3 := MountPoint [] [47; 109; 110; 116] 0 1 ]} ∅.
Lemma find_mount_longest_witness :
  exists j, find_mount_by_path demo_vfs [47; 109; 110; 116; 47; 120] = Done j.
Proof.
  destruct (find_mount_longest demo_vfs [109; 110; 116; 47; 120] 0 (MountPoint [] root 0 0)) as [H _].
  - split; [unfold MAX_MOUNT_POINT; lia|reflexivity].
  - reflexivity.
  - destruct H as (j & mp & E & _); [vm_compute; reflexivity|]. exists j. exact E.
Defined.
Lemma child_path_keeps_last_component_witness :
  get_child_path_at_level 0 MAX_PATH (get_mount_deep_level demo_vfs 3) [47; 109; 110; 116; 47; 120] = Done [47; 109; 110; 116; 47; 120].
Proof.
  apply (child_path_keeps_last_component 0 demo_vfs 3 (MountPoint [] [47; 109; 110; 116] 0 1) [] [109; 110; 116] [47; 120]);
    try reflexivity.
Defined.

Lemma users_never_loaded_witness :
  read_file 0 demo_vfs [47; 112] 1 0 2048 [114; 58] = Done ((0, [114; 58]), [114; 58]) /\
  init_user 9 ∅ 0 100 200 ∅ = Some ∅.
Proof.
  split; [vm_compute; reflexivity|].
  apply (users_never_loaded 0 demo_vfs [114; 58] [114; 58] [47; 112] 1 0 2048 0 [114; 58]). vm_compute. reflexivity.
Defined.
