(* ===== verification/Fat32.v ===== *)
(** * Fat32: sectors, clusters and the allocation table

    The lower half of src/core/filesytem/fat32.h and the helpers of
    src/core/filesytem/filesystem.h it uses: partition table, boot sector,
    cluster transfer, FAT entries, allocation.  The block driver behind
    [read_sector]/[write_sector] is the class [BlockDevice]; the theorems are
    proved against its laws [BlockDeviceLaws]. *)
From S2P Require Import Prelude Bytes.
Open Scope Z_scope.

Definition SECTOR_SIZE : Z := 512.
Definition CLUSTER_SIZE : Z := 4096.
Definition FAT32_EOC : Z := 0x0FFFFFF8.

(** ** The block driver *)

(** [driver->read] and [driver->write] of a device: [None] is a failed read,
    whose buffer holds nothing; a write answers 0 when it succeeded. *)
Class BlockDevice (disk : Type) := {
  dev_read : disk -> Z -> option (list Z);
  dev_write : disk -> Z -> list Z -> Z * disk
}.
Definition sector_ok (s : list Z) : Prop :=
  Z.of_nat (length s) = SECTOR_SIZE /\ Forall (fun b => 0 <= b < 256) s.
Class BlockDeviceLaws (disk : Type) `{BlockDevice disk} := {
  dev_read_ok : forall d lba s, dev_read d lba = Some s -> sector_ok s;
  dev_write_ok : forall d lba s, is_Some (dev_read d lba) -> sector_ok s -> fst (dev_write d lba s) = 0;
  dev_write_read : forall d lba s lba', is_Some (dev_read d lba) -> sector_ok s ->
    dev_read (snd (dev_write d lba s)) lba' = if lba' =? lba then Some s else dev_read d lba'
}.

(** ** Boot sector *)
Record BPB_FAT32 := Bpb {
  bytes_per_sector : Z; sectors_per_cluster : Z; reserved_sector_count : Z;
  num_fats : Z; fat_size_32 : Z; root_cluster : Z }.
Definition bpb_of (s : list Z) : BPB_FAT32 :=
  Bpb (le16 s 11) (byte s 13) (le16 s 14) (byte s 16) (le32 s 36) (le32 s 44).

Definition cluster_to_lba (bpb : BPB_FAT32) (cluster : Z) : Z :=
  let first_data_sector := u32 (reserved_sector_count bpb + num_fats bpb * fat_size_32 bpb) in
  u32 (u32 (u32 (cluster - 2) * sectors_per_cluster bpb) + first_data_sector).

Section Disk.
Context {disk : Type} `{BlockDevice disk}.

Definition read_sector (lba : Z) : ST disk (option (list Z)) := gets (fun d => dev_read d lba).
(** The read whose result is not tested: a failed one leaves a buffer without
    defined content, and the use of it is a fault. *)
Definition read_sector_u (lba : Z) : ST disk (list Z) := r ← read_sector lba; deref r.
Definition write_sector (lba : Z) (buffer : list Z) : ST disk Z := fun d =>
  let '(r, d') := dev_write d lba buffer in Done (r, d').

Definition get_partition_lba (part_index : Z) : ST disk Z :=
  r ← read_sector 0;
  match r with
  | None => mret 0
  | Some mbr =>
      if negb (byte mbr 510 =? 0x55) || negb (byte mbr 511 =? 0xAA) then mret 0
      else
        let entry := 0x1BE + part_index * 16 in
        (* entry[8..11], inside the sector for the indices 0 to 3 *)
        if SECTOR_SIZE <? entry + 12 then fault else mret (le32 mbr (entry + 8))
  end.

Definition get_root_dir_cluster (part_index : Z) : ST disk Z :=
  part_lba ← get_partition_lba part_index;
  if part_lba =? 0 then mret 0
  else
    r ← read_sector part_lba;
    match r with None => mret 0 | Some boot_sector => mret (le32 boot_sector 44) end.

Context (part : Z).

(** The prologue of every routine: first sector of the partition, boot sector. *)
Definition read_bpb : ST disk (Z * BPB_FAT32) :=
  lba ← get_partition_lba part;
  s ← read_sector_u lba;
  mret (lba, bpb_of s).

Definition first_sector (lba : Z) (bpb : BPB_FAT32) (cluster_id : Z) : Z :=
  u32 (lba + u32 (reserved_sector_count bpb + num_fats bpb * fat_size_32 bpb)
       + (cluster_id - 2) * sectors_per_cluster bpb).

(** ** Clusters *)

(** The loops over the sectors of a cluster.  The buffer has [CLUSTER_SIZE]
    bytes; a copy past its end is a fault. *)
Fixpoint read_cluster_loop (n : nat) (i first : Z) (buf : list Z) : ST disk (Z * list Z) :=
  match n with
  | O => mret (0, buf)
  | S n' =>
      r ← read_sector (u32 (first + i));
      match r with
      | None => mret (-3, buf)
      | Some sector_buf =>
          if CLUSTER_SIZE <? (i + 1) * SECTOR_SIZE then fault
          else read_cluster_loop n' (i + 1) first (put buf (i * SECTOR_SIZE) sector_buf)
      end
  end.
(** Result and buffer. *)
Definition read_cluster (cluster_id : Z) (buf : list Z) : ST disk (Z * list Z) :=
  if cluster_id <? 2 then mret (-1, buf)
  else
    r ← read_bpb;
    let '(part_lba_start, bpb) := r : Z * BPB_FAT32 in
    let total_cluster_bytes := u32 (sectors_per_cluster bpb * bytes_per_sector bpb) in
    if CLUSTER_SIZE <? total_cluster_bytes then mret (-2, buf)
    else read_cluster_loop (Z.to_nat (sectors_per_cluster bpb)) 0 (first_sector part_lba_start bpb cluster_id) buf.

Fixpoint write_cluster_loop (n : nat) (i first : Z) (buf : list Z) : ST disk Z :=
  match n with
  | O => mret 0
  | S n' =>
      r ← write_sector (u32 (first + i)) (slice buf (i * SECTOR_SIZE) SECTOR_SIZE);
      if negb (r =? 0) then mret (-1) else write_cluster_loop n' (i + 1) first buf
  end.
Definition write_cluster (cluster_id : Z) (buf : list Z) : ST disk Z :=
  if cluster_id <? 2 then mret (-1)
  else
    r ← read_bpb;
    let '(part_lba_start, bpb) := r : Z * BPB_FAT32 in
    write_cluster_loop (Z.to_nat (CLUSTER_SIZE / SECTOR_SIZE)) 0 (first_sector part_lba_start bpb cluster_id) buf.

(** ** FAT entries *)

(** Sector and offset of a cluster's entry.  A zero [bytes_per_sector] is a
    division by zero; an offset beyond the 512-byte buffer is outside it. *)
Definition fat_pos (fat_start unit_size cluster : Z) : ST disk (Z * Z) :=
  let fat_offset := u32 (cluster * 4) in
  if unit_size =? 0 then fault
  else
    let offset := fat_offset mod unit_size in
    if SECTOR_SIZE <? offset + 4 then fault
    else mret (u32 (fat_start + fat_offset / unit_size), offset).

Definition get_next_cluster (cluster : Z) : ST disk Z :=
  r ← read_bpb;
  let '(lba_start, bpb) := r : Z * BPB_FAT32 in
  p ← fat_pos (lba_start + reserved_sector_count bpb) (bytes_per_sector bpb) cluster;
  let '(lba, offset_in_sector) := p : Z * Z in
  s ← read_sector lba;
  match s with
  | None => mret 0xFFFFFFFF
  | Some sector =>
      let next_cluster := Z.land (le32 sector offset_in_sector) 0x0FFFFFFF in
      if FAT32_EOC <=? next_cluster then mret 0 else mret next_cluster
  end.

Definition fat32_get_fat_entry (cluster_id : Z) : ST disk Z :=
  r ← read_bpb;
  let '(lba, bpb) := r : Z * BPB_FAT32 in
  p ← fat_pos (lba + reserved_sector_count bpb) (bytes_per_sector bpb) cluster_id;
  let '(sector, offset) := p : Z * Z in
  sector_buf ← read_sector_u sector;
  mret (Z.land (le32 sector_buf offset) 0x0FFFFFFF).

(** The copies of the table: results ignored. *)
Definition write_mirrors (bpb : BPB_FAT32) (sector : Z) (buffer : list Z) : ST disk unit :=
  for_m (Z.to_nat (num_fats bpb - 1)) 1 (fun i =>
    _ ← write_sector (u32 (sector + i * fat_size_32 bpb)) buffer; mret tt).

Definition fat32_set_fat_entry (cluster_id value : Z) : ST disk unit :=
  r ← read_bpb;
  let '(lba, bpb) := r : Z * BPB_FAT32 in
  p ← fat_pos (lba + reserved_sector_count bpb) (bytes_per_sector bpb) cluster_id;
  let '(sector, offset) := p : Z * Z in
  sector_buf ← read_sector_u sector;
  let sector_buf := put sector_buf offset (le_bytes32 (Z.land value 0x0FFFFFFF)) in
  _ ← write_sector sector sector_buf;
  write_mirrors bpb sector sector_buf.

(** [fat_set_entry]: divides by [SECTOR_SIZE]; the copies are written from
    [buffer], which still holds the boot sector, not from [buffer1]. *)
Definition fat_set_entry (cluster value : Z) : ST disk unit :=
  lba ← get_partition_lba part;
  buffer ← read_sector_u lba;
  let bpb := bpb_of buffer in
  p ← fat_pos (lba + reserved_sector_count bpb) SECTOR_SIZE cluster;
  let '(sector, offset) := p : Z * Z in
  buffer1 ← read_sector_u sector;
  let buffer1 := put buffer1 offset (le_bytes32 (Z.land value 0x0FFFFFFF)) in
  _ ← write_sector sector buffer1;
  write_mirrors bpb sector buffer.

Definition find_blank_cluster : ST disk Z :=
  r ← read_bpb;
  let '(part_lba_start, bpb) := r : Z * BPB_FAT32 in
  let fat_start_lba := u32 (part_lba_start + reserved_sector_count bpb) in
  let entries_per_sector := bytes_per_sector bpb / 4 in
  c ← loop_m (Z.to_nat (u32 (fat_size_32 bpb * entries_per_sector) - 2)) 2 (fun cluster =>
    let sector_idx := cluster / entries_per_sector in
    let offset := cluster mod entries_per_sector in
    sector ← read_sector_u (u32 (fat_start_lba + sector_idx));
    if SECTOR_SIZE <? 4 * offset + 4 then fault
    else
      let value := Z.land (le32 sector (4 * offset)) 0x0FFFFFFF in
      mret (if value =? 0 then Some cluster else None));
  mret (default 0 c).

Definition expand_file (cluster : Z) : ST disk Z :=
  new_cluster ← find_blank_cluster;
  if new_cluster <? 2 then mret 0
  else
    _ ← fat32_set_fat_entry cluster new_cluster;
    _ ← fat32_set_fat_entry new_cluster FAT32_EOC;
    mret new_cluster.

(** One of the two updates of [extend_dirent_cluster]: first table only. *)
Definition set_first_fat (bpb : BPB_FAT32) (fat_start_lba cluster value : Z) : ST disk unit :=
  let entries_per_sector := bytes_per_sector bpb / 4 in
  if entries_per_sector =? 0 then fault
  else
    let sector_idx := cluster / entries_per_sector in
    let offset := cluster mod entries_per_sector in
    sector ← read_sector_u (u32 (fat_start_lba + sector_idx));
    if SECTOR_SIZE <? 4 * offset + 4 then fault
    else
      _ ← write_sector (u32 (fat_start_lba + sector_idx)) (put sector (4 * offset) (le_bytes32 value));
      mret tt.
Definition extend_dirent_cluster (last_cluster_id blank_cluster_id : Z) : ST disk Z :=
  r ← read_bpb;
  let '(part_lba_start, bpb) := r : Z * BPB_FAT32 in
  let fat_start_lba := u32 (part_lba_start + reserved_sector_count bpb) in
  _ ← set_first_fat bpb fat_start_lba last_cluster_id (Z.land blank_cluster_id 0x0FFFFFFF);
  _ ← set_first_fat bpb fat_start_lba blank_cluster_id 0x0FFFFFFF;
  _ ← write_cluster blank_cluster_id (replicate (Z.to_nat CLUSTER_SIZE) 0);
  mret 0.

(** The loop of truncate, unlink and rmdir that frees a chain. *)
Fixpoint free_chain (fuel : nat) (this_cluster_id : Z) : ST disk unit :=
  match fuel with
  | O => fun _ => Stuck
  | S fuel' =>
      if (2 <=? this_cluster_id) && (this_cluster_id <? FAT32_EOC) then
        next ← fat32_get_fat_entry this_cluster_id;
        _ ← fat32_set_fat_entry this_cluster_id 0;
        free_chain fuel' next
      else mret tt
  end.
End Disk.

(** ** Buffers: lemmas *)
Section Buffers.
Lemma put_sector_ok s i l :
  sector_ok s -> Forall (fun b => 0 <= b < 256) l -> 0 <= i -> i + Z.of_nat (length l) <= SECTOR_SIZE ->
  sector_ok (put s i l).
Proof.
  intros [Hl Hb] Hf Hi Hs. split; [|by apply put_Forall].
  rewrite length_put by lia. done.
Qed.
Lemma loop_first {S A : Type} (n : nat) (i j : Z) (body : Z -> ST S (option A)) (s : S) (a : A) :
  i <= j < i + Z.of_nat n -> (forall k, i <= k < j -> body k s = Done (None, s)) ->
  body j s = Done (Some a, s) -> loop_m n i body s = Done (Some a, s).
Proof.
  revert i. induction n as [|n IH]; intros i Hj Hn Hb; [lia|]. cbn [loop_m].
  destruct (decide (i = j)) as [->|].
  - by rewrite (bind_done _ _ _ _ _ Hb).
  - rewrite (bind_done _ _ _ _ _ (Hn i ltac:(lia))). apply IH; [lia| |done]. intros; apply Hn; lia.
Qed.
Lemma mask_range v : 0 <= Z.land v 0x0FFFFFFF < 2 ^ 28.
Proof. change 0x0FFFFFFF with (Z.ones 28). rewrite Z.land_ones by lia. apply Z.mod_pos_bound. lia. Qed.
Lemma mask_idem v : 0 <= v < 2 ^ 28 -> Z.land v 0x0FFFFFFF = v.
Proof. intros. change 0x0FFFFFFF with (Z.ones 28). rewrite Z.land_ones by lia. by apply Z.mod_small. Qed.
End Buffers.

(** ** The volume

    Geometry of a mounted volume: first sector, boot parameters, and the
    number of clusters its data area holds.  The driver transfers clusters of
    [CLUSTER_SIZE] bytes in sectors of 512. *)
Record geometry := Geo { g_lba : Z; g_bpb : BPB_FAT32; g_clusters : Z }.
Definition fat_start (g : geometry) : Z := g_lba g + reserved_sector_count (g_bpb g).
Definition data_start (g : geometry) : Z := fat_start g + num_fats (g_bpb g) * fat_size_32 (g_bpb g).
Definition volume_end (g : geometry) : Z := data_start g + 8 * (g_clusters g - 2).
(** A cluster number of the volume. *)
Definition valid (g : geometry) (c : Z) : Prop := 2 <= c < g_clusters g.

Record geometry_ok (g : geometry) : Prop := {
  geo_bps : bytes_per_sector (g_bpb g) = 512;
  geo_spc : sectors_per_cluster (g_bpb g) = 8;
  geo_lba : 0 < g_lba g;
  geo_reserved : 1 <= reserved_sector_count (g_bpb g);
  geo_fats : 1 <= num_fats (g_bpb g);
  geo_fat_size : g_clusters g <= fat_size_32 (g_bpb g) * 128;
  geo_fat_max : fat_size_32 (g_bpb g) * 128 <= 2 ^ 28;
  geo_clusters : 2 <= g_clusters g < FAT32_EOC;
  geo_end : volume_end g < 2 ^ 32
}.

Section Volume.
Context {disk : Type} `{BlockDevice disk} (part : Z).

Record volume (g : geometry) (d : disk) : Prop := {
  vol_part : 0 <= part <= 3;
  vol_mbr : exists mbr, dev_read d 0 = Some mbr /\ byte mbr 510 = 0x55 /\ byte mbr 511 = 0xAA /\
    le32 mbr (0x1BE + part * 16 + 8) = g_lba g;
  vol_boot : exists boot, dev_read d (g_lba g) = Some boot /\ bpb_of boot = g_bpb g;
  vol_sectors : forall s, g_lba g <= s < volume_end g -> is_Some (dev_read d s)
}.

(** The abstract view: the table and the data area as two arrays. *)
Definition fat (g : geometry) (d : disk) (c : Z) : Z :=
  Z.land (le32 (default [] (dev_read d (fat_start g + c / 128))) (4 * (c mod 128))) 0x0FFFFFFF.
Definition data_sector (g : geometry) (c i : Z) : Z := data_start g + 8 * (c - 2) + i.
Definition cluster (g : geometry) (d : disk) (c : Z) : list Z :=
  concat (map (fun i => default [] (dev_read d (data_sector g c i))) (seqZ 0 8)).
End Volume.

Section VolumeOps.
Context {disk : Type} `{BlockDeviceLaws disk} (part : Z) (g : geometry) (G : geometry_ok g).
#[local] Abbreviation volume := (volume part g).

Lemma layout : g_lba g + 1 <= fat_start g /\ fat_start g + fat_size_32 (g_bpb g) <= data_start g /\
  data_start g <= volume_end g /\ 1 <= fat_size_32 (g_bpb g).
Proof.
  destruct G. unfold volume_end, data_start, fat_start in *. assert (1 <= fat_size_32 (g_bpb g)) by lia.
  repeat split; nia.
Qed.

Lemma read_bpb_ok (d : disk) : volume d -> read_bpb part d = Done ((g_lba g, g_bpb g), d).
Proof.
  intros [Hp (mbr & E0 & Ha & Hb & El) (boot & E1 & Eb) _].
  unfold read_bpb, get_partition_lba, read_sector_u, read_sector. run_st.
  rewrite E0, Ha, Hb. change (negb (85 =? 0x55) || negb (170 =? 0xAA)) with false. cbv iota.
  unfold SECTOR_SIZE. destruct (Z.ltb_spec 512 (446 + part * 16 + 12)); [lia|].
  change 0x1BE with 446 in El. rewrite El, E1. cbn. by rewrite Eb.
Qed.

Lemma fat_pos_ok (d : disk) c :
  0 <= c < g_clusters g ->
  fat_pos (fat_start g) 512 c d = Done ((fat_start g + c / 128, 4 * (c mod 128)), d).
Proof.
  intros Hc. pose proof layout as (L1 & L2 & L3 & L4). destruct G. unfold FAT32_EOC in *. unfold fat_pos.
  rewrite (u32_id (c * 4)) by lia. change (512 =? 0) with false. cbv iota.
  assert (E1 : c * 4 / 512 = c / 128) by (change 512 with (128 * 4); apply Z.div_mul_cancel_r; lia).
  assert (E2 : (c * 4) mod 512 = 4 * (c mod 128)).
  { change 512 with (128 * 4). rewrite Z.mul_mod_distr_r by lia. lia. }
  rewrite E1, E2. pose proof (Z.mod_pos_bound c 128). unfold SECTOR_SIZE. ztest; [lia|].
  rewrite u32_id; [done|]. assert (0 <= c / 128 < fat_size_32 (g_bpb g)); [|lia].
  split; [apply Z.div_pos; lia|apply Z.div_lt_upper_bound; lia].
Qed.

Lemma fat_sector c : 0 <= c < g_clusters g -> fat_start g <= fat_start g + c / 128 < fat_start g + fat_size_32 (g_bpb g).
Proof.
  intros Hc. destruct G. assert (0 <= c / 128 < fat_size_32 (g_bpb g)); [|lia].
  split; [apply Z.div_pos; lia|apply Z.div_lt_upper_bound; lia].
Qed.

(** A write to a sector behind the boot sector keeps the volume. *)
Lemma write_sector_frame d s buf :
  volume d -> g_lba g < s < volume_end g -> sector_ok buf ->
  exists d', write_sector s buf d = Done (0, d') /\ volume d' /\
    (forall x, dev_read d' x = if x =? s then Some buf else dev_read d x).
Proof.
  intros V Hs Hb. pose proof (geo_lba _ G). destruct V as [Hp (mbr & E0 & HM) (boot & E1 & Eb) Hr].
  assert (U : is_Some (dev_read d s)) by (apply Hr; lia).
  pose proof (dev_write_ok d s buf U Hb) as W. pose proof (fun x => dev_write_read d s buf x U Hb) as R.
  unfold write_sector. destruct (dev_write d s buf) as [r d'] eqn:E. cbn in W, R. subst r.
  exists d'. split; [done|]. split; [|done]. split; [done| | |].
  - exists mbr. rewrite R. destruct (Z.eqb_spec 0 s); [lia|done].
  - exists boot. rewrite R. destruct (Z.eqb_spec (g_lba g) s); [lia|done].
  - intros x Hx. rewrite R. ztest; [done|auto].
Qed.

Lemma get_fat_entry_ok d c :
  volume d -> 0 <= c < g_clusters g -> fat32_get_fat_entry part c d = Done (fat g d c, d).
Proof.
  intros V Hc. unfold fat32_get_fat_entry.
  rewrite (bind_done _ _ _ _ _ (read_bpb_ok d V)), (geo_bps _ G).
  rewrite (bind_done _ _ _ _ _ (fat_pos_ok d c Hc)).
  destruct (vol_sectors _ _ _ V (fat_start g + c / 128)) as [s Es].
  { pose proof (fat_sector c Hc). pose proof layout. lia. }
  unfold read_sector_u, read_sector, fat. run_st. by rewrite Es.
Qed.

Lemma get_next_cluster_ok d c :
  volume d -> 0 <= c < g_clusters g ->
  get_next_cluster part c d = Done (if FAT32_EOC <=? fat g d c then 0 else fat g d c, d).
Proof.
  intros V Hc. unfold get_next_cluster.
  rewrite (bind_done _ _ _ _ _ (read_bpb_ok d V)), (geo_bps _ G).
  rewrite (bind_done _ _ _ _ _ (fat_pos_ok d c Hc)).
  destruct (vol_sectors _ _ _ V (fat_start g + c / 128)) as [s Es].
  { pose proof (fat_sector c Hc). pose proof layout. lia. }
  unfold read_sector, fat. run_st. rewrite Es. cbn [default]. by destruct (FAT32_EOC <=? _).
Qed.

(** What an update of the tables leaves alone: the data area. *)
Definition data_same (d d' : disk) : Prop := forall x, data_start g <= x -> dev_read d' x = dev_read d x.
#[global] Instance data_same_preorder : PreOrder data_same.
Proof. split; [by intros d x|]. intros a b c H1 H2 x Hx. rewrite H2, H1; done. Qed.
Lemma cluster_data_same d d' c : data_same d d' -> 2 <= c -> cluster g d' c = cluster g d c.
Proof.
  intros S Hc. unfold cluster. f_equal. apply map_ext_in. intros i Hi%list_elem_of_In%elem_of_seqZ.
  rewrite S; [done|]. unfold data_sector. lia.
Qed.

(** The copies lie behind the first table. *)
Lemma write_mirrors_ok d s buf :
  volume d -> fat_start g <= s < fat_start g + fat_size_32 (g_bpb g) -> sector_ok buf ->
  exists d', write_mirrors (g_bpb g) s buf d = Done (tt, d') /\ volume d' /\ data_same d d' /\
    (forall x, x < fat_start g + fat_size_32 (g_bpb g) -> dev_read d' x = dev_read d x) /\
    (forall i, 1 <= i < num_fats (g_bpb g) -> dev_read d' (s + i * fat_size_32 (g_bpb g)) = Some buf).
Proof.
  intros V Hs Hb. pose proof layout as (L1 & L2 & L3 & L4). pose proof (geo_end _ G). pose proof (geo_fats _ G).
  set (I := fun (n : Z) (d' : disk) => volume d' /\ data_same d d' /\
    (forall x, x < fat_start g + fat_size_32 (g_bpb g) -> dev_read d' x = dev_read d x) /\
    (forall i, 1 <= i < n -> dev_read d' (s + i * fat_size_32 (g_bpb g)) = Some buf)).
  destruct (for_m_inv I (Z.to_nat (num_fats (g_bpb g) - 1)) 1
    (fun i => _ ← write_sector (u32 (s + i * fat_size_32 (g_bpb g))) buf; mret tt) d) as (d' & E & V' & Hd & Hf & Hm).
  - split; [done|]. split; [reflexivity|]. split; [done|lia].
  - intros i d1 Hi (V1 & D1 & F1 & M1).
    assert (B : fat_start g + fat_size_32 (g_bpb g) <= s + i * fat_size_32 (g_bpb g) < data_start g).
    { unfold data_start. rewrite Z2Nat.id in Hi by lia. nia. }
    pose proof (geo_lba _ G). rewrite u32_id by lia.
    destruct (write_sector_frame d1 (s + i * fat_size_32 (g_bpb g)) buf) as (d2 & E2 & V2 & R2); [done|lia|done|].
    exists d2. rewrite (bind_done _ _ _ _ _ E2). split; [done|]. split; [done|]. split; [|split].
    + intros x Hx. rewrite R2. ztest; [lia|]. auto.
    + intros x Hx. rewrite R2. ztest; [lia|]. auto.
    + intros j Hj. rewrite R2. ztest; [done|]. apply M1. assert (j <> i) by congruence. lia.
  - exists d'. rewrite Z2Nat.id in Hm by lia. do 4 (split; [done|]). intros i Hi. apply Hm. lia.
Qed.

Lemma fat_first_table d d' c :
  0 <= c < g_clusters g ->
  (forall x, x < fat_start g + fat_size_32 (g_bpb g) -> dev_read d' x = dev_read d x) -> fat g d' c = fat g d c.
Proof. intros Hc Hx. unfold fat. rewrite Hx; [done|]. pose proof (fat_sector c Hc). lia. Qed.

Lemma fat_write d d' c v s :
  0 <= c < g_clusters g -> 0 <= v < 2 ^ 28 -> dev_read d (fat_start g + c / 128) = Some s ->
  (forall x, dev_read d' x = if x =? fat_start g + c / 128 then Some (put s (4 * (c mod 128)) (le_bytes32 v)) else dev_read d x) ->
  forall c', 0 <= c' < g_clusters g -> fat g d' c' = if decide (c' = c) then v else fat g d c'.
Proof.
  intros Hc Hv Es R c' Hc'. destruct (dev_read_ok _ _ _ Es) as [Hl _]. unfold SECTOR_SIZE in Hl.
  pose proof (Z.mod_pos_bound c 128 ltac:(lia)). pose proof (Z.mod_pos_bound c' 128 ltac:(lia)).
  unfold fat. rewrite R. destruct (Z.eqb_spec (fat_start g + c' / 128) (fat_start g + c / 128)) as [E|E].
  - rewrite E, Es. cbn [default from_option id]. rewrite le32_put by lia. repeat case_decide.
    + by apply mask_idem.
    + pose proof (Z.div_mod c 128). pose proof (Z.div_mod c' 128). lia.
    + subst; lia.
    + done.
  - rewrite decide_False; [done|]. by intros ->.
Qed.

(** The write both entry setters perform, with [buf'] sent to the copies. *)
Lemma set_entry_ok d c v s (buf' : list Z) :
  volume d -> 0 <= c < g_clusters g -> dev_read d (fat_start g + c / 128) = Some s -> sector_ok buf' ->
  let buf := put s (4 * (c mod 128)) (le_bytes32 (Z.land v 0x0FFFFFFF)) in
  exists d1 d', write_sector (fat_start g + c / 128) buf d = Done (0, d1) /\
    write_mirrors (g_bpb g) (fat_start g + c / 128) buf' d1 = Done (tt, d') /\
    sector_ok buf /\ volume d' /\ data_same d d' /\
    (forall c', 0 <= c' < g_clusters g ->
       fat g d' c' = if decide (c' = c) then Z.land v 0x0FFFFFFF else fat g d c') /\
    dev_read d' (fat_start g + c / 128) = Some buf /\
    (forall i, 1 <= i < num_fats (g_bpb g) ->
       dev_read d' (fat_start g + c / 128 + i * fat_size_32 (g_bpb g)) = Some buf').
Proof.
  intros V Hc Es Hb' buf. pose proof layout as (L1 & L2 & L3 & L4). pose proof (fat_sector c Hc) as Hs.
  pose proof (mask_range v) as Hv. pose proof (Z.mod_pos_bound c 128 ltac:(lia)).
  assert (Hb : sector_ok buf).
  { apply put_sector_ok; [by eapply dev_read_ok|apply le_bytes32_range|lia|].
    change (Z.of_nat (length _)) with 4. unfold SECTOR_SIZE. lia. }
  destruct (write_sector_frame d (fat_start g + c / 128) buf) as (d1 & E1 & V1 & R1); [done|lia|done|].
  destruct (write_mirrors_ok d1 (fat_start g + c / 128) buf') as (d2 & E2 & V2 & D2 & F2 & M2); [done|lia|done|].
  exists d1, d2. do 4 (split; [done|]). split; [|split; [|split; [|done]]].
  - intros x Hx. rewrite D2 by done. rewrite R1. ztest; [lia|done].
  - intros c' Hc'. rewrite (fat_first_table d1 d2) by done. by apply (fat_write d d1 c _ s).
  - rewrite F2, R1 by lia. by rewrite Z.eqb_refl.
Qed.

#[local] Lemma fat_sector_read (d : disk) c :
  volume d -> 0 <= c < g_clusters g -> exists s, dev_read d (fat_start g + c / 128) = Some s /\
    read_sector_u (fat_start g + c / 128) d = Done (s, d).
Proof.
  intros V Hc. pose proof layout. pose proof (fat_sector c Hc) as Hs.
  destruct (vol_sectors _ _ _ V (fat_start g + c / 128)) as [s Es]; [lia|].
  exists s. split; [done|]. unfold read_sector_u, read_sector. run_st. by rewrite Es.
Qed.

Lemma set_fat_entry_ok d c v :
  volume d -> 0 <= c < g_clusters g ->
  exists d', fat32_set_fat_entry part c v d = Done (tt, d') /\ volume d' /\ data_same d d' /\
    (forall c', 0 <= c' < g_clusters g ->
       fat g d' c' = if decide (c' = c) then Z.land v 0x0FFFFFFF else fat g d c') /\
    (forall i, 1 <= i < num_fats (g_bpb g) ->
       dev_read d' (fat_start g + c / 128 + i * fat_size_32 (g_bpb g)) = dev_read d' (fat_start g + c / 128)).
Proof.
  intros V Hc. destruct (fat_sector_read d c V Hc) as (s & Es & Er).
  pose proof (dev_read_ok _ _ _ Es) as Hs.
  pose proof (Z.mod_pos_bound c 128 ltac:(lia)).
  destruct (set_entry_ok d c v s (put s (4 * (c mod 128)) (le_bytes32 (Z.land v 0x0FFFFFFF))))
    as (d1 & d2 & E1 & E2 & _ & V2 & D2 & F2 & R2 & M2); [done..| |].
  { apply put_sector_ok; [done|apply le_bytes32_range|lia|].
    change (Z.of_nat (length _)) with 4. unfold SECTOR_SIZE. lia. }
  exists d2. split; [|repeat (split; [done|]); intros i Hi; by rewrite M2, R2].
  unfold fat32_set_fat_entry.
  rewrite (bind_done _ _ _ _ _ (read_bpb_ok d V)), (geo_bps _ G).
  rewrite (bind_done _ _ _ _ _ (fat_pos_ok d c Hc)), (bind_done _ _ _ _ _ Er).
  by rewrite (bind_done _ _ _ _ _ E1).
Qed.

(** [fat_set_entry]: the first table is right, the copies get the boot sector. *)
Lemma fat_set_entry_ok d c v :
  volume d -> 0 <= c < g_clusters g ->
  exists d', fat_set_entry part c v d = Done (tt, d') /\ volume d' /\ data_same d d' /\
    (forall c', 0 <= c' < g_clusters g ->
       fat g d' c' = if decide (c' = c) then Z.land v 0x0FFFFFFF else fat g d c') /\
    (forall i, 1 <= i < num_fats (g_bpb g) ->
       dev_read d' (fat_start g + c / 128 + i * fat_size_32 (g_bpb g)) = dev_read d (g_lba g)).
Proof.
  intros V Hc. destruct (fat_sector_read d c V Hc) as (s & Es & Er).
  destruct (vol_boot _ _ _ V) as (boot & Eb & Ebpb).
  destruct (set_entry_ok d c v s boot) as (d1 & d2 & E1 & E2 & _ & V2 & D2 & F2 & R2 & M2);
    [done..|by eapply dev_read_ok|].
  exists d2. split; [|repeat (split; [done|]); intros i Hi; by rewrite M2, Eb].
  pose proof (read_bpb_ok d V) as Hr. unfold read_bpb in Hr.
  apply bind_done_inv in Hr as (lba & d0 & El & Hr). apply bind_done_inv in Hr as (b & d3 & Eb2 & Hr).
  unfold read_sector_u, read_sector in Eb2. revert Eb2 Hr. run_st.
  destruct (dev_read d0 lba) as [b'|] eqn:Eb3; [|done]. cbn. intros [= <- <-] [= -> _ ->].
  unfold fat_set_entry. rewrite (bind_done _ _ _ _ _ El).
  rewrite (bind_done (read_sector_u (g_lba g)) _ d boot d).
  - rewrite Ebpb. change SECTOR_SIZE with 512.
    by rewrite (bind_done _ _ _ _ _ (fat_pos_ok d c Hc)), (bind_done _ _ _ _ _ Er), (bind_done _ _ _ _ _ E1).
  - unfold read_sector_u, read_sector. run_st. by rewrite Eb.
Qed.

(** ** Cluster transfer *)
Definition buffer_ok (buf : list Z) : Prop :=
  Z.of_nat (length buf) = CLUSTER_SIZE /\ Forall (fun b => 0 <= b < 256) buf.

#[local] Lemma valid_sectors c i :
  valid g c -> 0 <= i < 8 -> data_start g <= data_sector g c i < volume_end g.
Proof. unfold valid, data_sector, volume_end. lia. Qed.

#[local] Lemma first_sector_ok c :
  valid g c -> first_sector (g_lba g) (g_bpb g) c = data_sector g c 0.
Proof.
  intros Hc. pose proof layout as (L1 & L2 & L3 & L4). pose proof (valid_sectors c 0 Hc). destruct G.
  unfold first_sector. rewrite (u32_id (reserved_sector_count _ + _)).
  - rewrite geo_spc0, u32_id; unfold data_sector, data_start, fat_start in *; lia.
  - unfold volume_end, data_start, fat_start in *. nia.
Qed.

#[local] Lemma read_cluster_loop_ok d c n i buf :
  volume d -> valid g c -> 0 <= i -> i + Z.of_nat n = 8 -> Z.of_nat (length buf) = CLUSTER_SIZE ->
  read_cluster_loop n i (data_sector g c 0) buf d =
    Done ((0, take (Z.to_nat (i * 512)) buf ++
           concat (map (fun i => default [] (dev_read d (data_sector g c i))) (seqZ i (Z.of_nat n)))), d).
Proof.
  intros V Hc. revert i buf. induction n as [|n IH]; intros i buf Hi Hn Hl; cbn [read_cluster_loop].
  - rewrite take_ge, app_nil_r by (unfold CLUSTER_SIZE in *; lia). done.
  - pose proof (valid_sectors c i Hc ltac:(lia)) as Hs. pose proof (geo_end _ G).
    pose proof layout as (L1 & L2 & L3 & L4). pose proof (geo_lba _ G).
    destruct (vol_sectors _ _ _ V (data_sector g c i)) as [s Es]; [lia|].
    rewrite u32_id by (unfold data_sector in *; lia).
    replace (data_sector g c 0 + i) with (data_sector g c i) by (unfold data_sector; lia).
    rewrite (bind_done (read_sector _) _ d (Some s) d) by (unfold read_sector, gets; by rewrite Es).
    destruct (dev_read_ok _ _ _ Es) as [Hsl _]. unfold CLUSTER_SIZE, SECTOR_SIZE in *.
    destruct (Z.ltb_spec 4096 ((i + 1) * 512)); [lia|].
    rewrite IH by (try rewrite length_put; lia).
    rewrite (seqZ_cons i) by lia. cbn [map concat]. rewrite Es. cbn [default from_option id].
    replace (Z.pred (Z.of_nat (S n))) with (Z.of_nat n) by lia. rewrite app_assoc. do 4 f_equal.
    unfold put. rewrite app_assoc, take_app_length'; [done|].
    rewrite length_app, length_take. lia.
Qed.

Lemma read_cluster_ok d c buf :
  volume d -> valid g c -> Z.of_nat (length buf) = CLUSTER_SIZE ->
  read_cluster part c buf d = Done ((0, cluster g d c), d).
Proof.
  intros V Hc Hl. unfold read_cluster. destruct (Z.ltb_spec c 2) as [Hlt|_]; [unfold valid in Hc; lia|].
  rewrite (bind_done _ _ _ _ _ (read_bpb_ok d V)), (geo_bps _ G), (geo_spc _ G), first_sector_ok by done.
  change (CLUSTER_SIZE <? u32 (8 * 512)) with false. cbv iota.
  rewrite read_cluster_loop_ok by (done || lia). done.
Qed.

#[local] Lemma slice_ok buf i : buffer_ok buf -> 0 <= i < 8 -> sector_ok (slice buf (i * SECTOR_SIZE) SECTOR_SIZE).
Proof.
  intros [Hl Hb] Hi. unfold CLUSTER_SIZE, SECTOR_SIZE, slice in *. split.
  - rewrite length_take, length_drop. unfold SECTOR_SIZE. lia.
  - by apply Forall_take, Forall_drop.
Qed.

#[local] Lemma write_cluster_loop_ok c buf n (d : disk) i :
  volume d -> valid g c -> buffer_ok buf -> 0 <= i -> i + Z.of_nat n = 8 ->
  exists d', write_cluster_loop n i (data_sector g c 0) buf d = Done (0, d') /\ volume d' /\
    (forall x, dev_read d' x = if decide (data_sector g c i <= x < data_sector g c 8)
       then Some (slice buf ((x - data_sector g c 0) * SECTOR_SIZE) SECTOR_SIZE) else dev_read d x).
Proof.
  intros V Hc Hb. revert d i V. induction n as [|n IH]; intros d i V Hi Hn; cbn [write_cluster_loop].
  - exists d. split; [done|]. split; [done|]. intros x. rewrite decide_False; [done|unfold data_sector; lia].
  - pose proof (valid_sectors c i Hc ltac:(lia)) as Hs. pose proof (geo_end _ G).
    pose proof layout as (L1 & L2 & L3 & L4). pose proof (geo_lba _ G).
    rewrite u32_id by (unfold data_sector in *; lia).
    replace (data_sector g c 0 + i) with (data_sector g c i) by (unfold data_sector; lia).
    destruct (write_sector_frame d (data_sector g c i) (slice buf (i * SECTOR_SIZE) SECTOR_SIZE))
      as (d1 & E1 & V1 & R1); [done|lia|by apply slice_ok; [|lia]|].
    rewrite (bind_done _ _ _ _ _ E1). cbn [negb Z.eqb].
    destruct (IH d1 (i + 1) V1) as (d2 & E2 & V2 & R2); [lia|lia|].
    exists d2. split; [done|]. split; [done|]. intros x. rewrite R2, R1.
    destruct (Z.eqb_spec x (data_sector g c i)) as [->|]; repeat case_decide;
      unfold data_sector in *; try lia; try done.
    do 2 f_equal. lia.
Qed.

(** Clusters do not share sectors, so a write reaches one of them. *)
Lemma write_cluster_ok d c buf :
  volume d -> valid g c -> buffer_ok buf ->
  exists d', write_cluster part c buf d = Done (0, d') /\ volume d' /\
    (forall x, valid g x -> cluster g d' x = if decide (x = c) then buf else cluster g d x) /\
    (forall x, 0 <= x < g_clusters g -> fat g d' x = fat g d x).
Proof.
  intros V Hc Hb. destruct (write_cluster_loop_ok c buf 8 d 0 V Hc Hb) as (d' & E & V' & R); [lia|lia|].
  exists d'. split; [|split; [done|split]].
  - unfold write_cluster. destruct (Z.ltb_spec c 2) as [Hlt|_]; [unfold valid in Hc; lia|].
    by rewrite (bind_done _ _ _ _ _ (read_bpb_ok d V)), first_sector_ok.
  - intros x Hx. unfold cluster. case_decide as D.
    + subst x. rewrite (map_ext_in _ (fun i => slice buf (i * 512) 512)).
      * destruct Hb as [Hl _]. unfold CLUSTER_SIZE in Hl.
        change 8 with (Z.of_nat 8). rewrite (concat_slices buf 512 8 0) by lia. done.
      * intros i Hi%list_elem_of_In%elem_of_seqZ. rewrite R, decide_True by (unfold data_sector; lia).
        cbn [default from_option id]. f_equal. unfold SECTOR_SIZE, data_sector. lia.
    + f_equal. apply map_ext_in. intros i Hi%list_elem_of_In%elem_of_seqZ. rewrite R, decide_False; [done|].
      unfold data_sector. lia.
  - intros x Hx. unfold fat. pose proof (fat_sector x Hx). pose proof layout.
    rewrite R, decide_False; [done|]. pose proof (valid_sectors c 0 Hc). lia.
Qed.

(** ** Allocation *)
Lemma find_blank_cluster_first d c :
  volume d -> valid g c -> fat g d c = 0 -> (forall x, 2 <= x < c -> fat g d x <> 0) ->
  find_blank_cluster part d = Done (c, d).
Proof.
  intros V Hc Hz Hn. pose proof layout as (L1 & L2 & L3 & L4). destruct G. unfold valid in Hc.
  assert (Hstep : forall x, 2 <= x <= c ->
    (sector ← read_sector_u (u32 (u32 (g_lba g + reserved_sector_count (g_bpb g)) + x / 128));
     if SECTOR_SIZE <? 4 * (x mod 128) + 4 then fault
     else mret (if Z.land (le32 sector (4 * (x mod 128))) 0x0FFFFFFF =? 0 then Some x else None)) d
    = Done (if fat g d x =? 0 then Some x else None, d)).
  { intros x Hx. change (g_lba g + reserved_sector_count (g_bpb g)) with (fat_start g).
    pose proof (fat_sector x ltac:(lia)) as Hs. pose proof (Z.mod_pos_bound x 128 ltac:(lia)).
    rewrite (u32_id (fat_start g)), u32_id by lia.
    destruct (vol_sectors _ _ _ V (fat_start g + x / 128)) as [s Es]; [lia|].
    unfold read_sector_u, read_sector, SECTOR_SIZE, fat. run_st. rewrite Es.
    destruct (Z.ltb_spec 512 (4 * (x mod 128) + 4)); [lia|]. done. }
  unfold find_blank_cluster. rewrite (bind_done _ _ _ _ _ (read_bpb_ok d V)), geo_bps0.
  change (512 / 4) with 128. rewrite (bind_done _ _ d (Some c) d); [done|].
  rewrite (u32_id (_ * 128)) by lia. apply (loop_first _ _ c); [lia| |].
  - intros k Hk. rewrite Hstep by lia. destruct (Z.eqb_spec (fat g d k) 0) as [E|]; [|done].
    by apply Hn in E; [|lia].
  - rewrite Hstep by lia. by rewrite Hz.
Qed.

(** The clusters [cs] form the chain that starts at [c] and ends with a
    number that is no cluster. *)
Fixpoint chain (f : Z -> Z) (c : Z) (cs : list Z) : Prop :=
  match cs with
  | [] => ~ 2 <= c < FAT32_EOC
  | x :: cs' => x = c /\ valid g c /\ chain f (f c) cs'
  end.

Lemma chain_det f c cs cs' : chain f c cs -> chain f c cs' -> cs = cs'.
Proof.
  revert c cs'. induction cs as [|x cs IH]; intros c [|y cs'] H1 H2; cbn in *; [done| | |].
  - destruct H2 as (-> & Hv & _). pose proof (geo_clusters _ G). unfold valid in Hv. lia.
  - destruct H1 as (-> & Hv & _). pose proof (geo_clusters _ G). unfold valid in Hv. lia.
  - destruct H1 as (-> & _ & H1), H2 as (-> & _ & H2). f_equal. by eapply IH.
Qed.
Lemma chain_suffix f c cs1 x cs2 : chain f c (cs1 ++ x :: cs2) -> chain f x (x :: cs2).
Proof.
  revert c. induction cs1 as [|y cs1 IH]; intros c; cbn [app].
  - intros (-> & ? & ?). cbn. tauto.
  - intros (_ & _ & Hc). by eapply IH.
Qed.
Lemma chain_valid f c cs x : chain f c cs -> x ∈ cs -> valid g x.
Proof.
  intros Hc (cs1 & cs2 & ->)%list_elem_of_split. apply chain_suffix in Hc. by destruct Hc as (_ & ? & _).
Qed.
(** A chain that ends repeats no cluster. *)
Lemma chain_nodup f c cs : chain f c cs -> NoDup cs.
Proof.
  revert c. induction cs as [|x cs IH]; intros c Hc; [constructor|].
  pose proof Hc as (-> & Hv & Hr). constructor; [|by eapply IH].
  intros (cs1 & cs2 & E)%list_elem_of_split.
  assert (Hs : chain f c (c :: cs2)).
  { rewrite E in Hr. by apply chain_suffix in Hr. }
  pose proof (chain_det _ _ _ _ Hc Hs) as [= E2]. rewrite E in E2.
  apply (f_equal length) in E2. rewrite length_app in E2. cbn in E2. lia.
Qed.
Lemma chain_ext f f' c cs : (forall x, x ∈ cs -> f' x = f x) -> chain f c cs -> chain f' c cs.
Proof.
  revert c. induction cs as [|x cs IH]; intros c He; cbn; [done|]. intros (-> & Hv & Hc).
  split; [done|split; [done|]]. rewrite He by (left; done). apply IH; [|done]. intros; apply He. by right.
Qed.

Lemma free_chain_ok cs fuel c d :
  volume d -> chain (fat g d) c cs -> (length cs < fuel)%nat ->
  exists d', free_chain part fuel c d = Done (tt, d') /\ volume d' /\ data_same d d' /\
    (forall x, 0 <= x < g_clusters g -> fat g d' x = if decide (x ∈ cs) then 0 else fat g d x).
Proof.
  revert fuel c d. induction cs as [|x cs IH]; intros [|fuel] c d V Hc Hf; cbn in Hf; try lia; cbn [free_chain].
  - destruct (Z.leb_spec 2 c), (Z.ltb_spec c FAT32_EOC); cbn [andb].
    1: by destruct Hc.
    all: exists d; split; [done|]; split; [done|]; split; [reflexivity|]; intros; by rewrite decide_False by set_solver.
  - pose proof (chain_nodup _ _ _ Hc) as Hnd. apply list.NoDup_cons in Hnd as [Hx _].
    destruct Hc as (-> & Hv & Hc). pose proof (geo_clusters _ G). unfold valid in Hv.
    destruct (Z.leb_spec 2 c), (Z.ltb_spec c FAT32_EOC); try lia. cbn [andb].
    rewrite (bind_done _ _ _ _ _ (get_fat_entry_ok d c V ltac:(lia))).
    destruct (set_fat_entry_ok d c 0 V ltac:(lia)) as (d1 & E1 & V1 & D1 & F1 & _).
    rewrite (bind_done _ _ _ _ _ E1).
    destruct (IH fuel (fat g d c) d1 V1) as (d2 & E2 & V2 & D2 & F2); [|lia|].
    { eapply chain_ext, Hc. intros y Hy. pose proof (chain_valid _ _ _ _ Hc Hy) as Hvy. unfold valid in Hvy.
      rewrite F1, decide_False; [done| |lia]. by intros ->. }
    exists d2. split; [done|]. split; [done|]. split; [by etransitivity|].
    intros y Hy. rewrite F2, F1 by done. repeat case_decide; subst; try set_solver; done.
Qed.

Lemma expand_file_ok d c new :
  volume d -> valid g c -> FAT32_EOC <= fat g d c ->
  valid g new -> fat g d new = 0 -> (forall x, 2 <= x < new -> fat g d x <> 0) ->
  exists d', expand_file part c d = Done (new, d') /\ volume d' /\ data_same d d' /\
    fat g d' c = new /\ fat g d' new = FAT32_EOC /\
    (forall x, 0 <= x < g_clusters g -> x <> c -> x <> new -> fat g d' x = fat g d x).
Proof.
  intros V Hc He Hn Hz Hl. pose proof (geo_clusters _ G). unfold valid, FAT32_EOC in *.
  assert (Hne : new <> c) by (intros ->; lia).
  destruct (set_fat_entry_ok d c new V ltac:(lia)) as (d1 & E1 & V1 & D1 & F1 & _).
  destruct (set_fat_entry_ok d1 new 0x0FFFFFF8 V1 ltac:(lia)) as (d2 & E2 & V2 & D2 & F2 & _).
  exists d2. split.
  - unfold expand_file. rewrite (bind_done _ _ _ _ _ (find_blank_cluster_first d new V Hn Hz Hl)).
    destruct (Z.ltb_spec new 2); [lia|]. rewrite (bind_done _ _ _ _ _ E1). unfold FAT32_EOC.
    by rewrite (bind_done _ _ _ _ _ E2).
  - split; [done|]. split; [by etransitivity|]. rewrite !F2, !F1 by lia. repeat split.
    + rewrite decide_False, decide_True by done. apply mask_idem. lia.
    + by rewrite decide_True.
    + intros x Hx Hxc Hxn. rewrite F2, F1 by lia. by rewrite !decide_False.
Qed.
End VolumeOps.

(** ** Main results *)

(** On a mounted volume [fat32_set_fat_entry] and [fat32_get_fat_entry]
    implement an array of 28-bit entries: the entry set is read back masked,
    every other entry keeps its value, no data cluster changes, and every copy
    of the table holds the same sector afterwards. *)
Theorem fat_entry_roundtrip {disk : Type} `{BlockDeviceLaws disk} (part : Z) (g : geometry) (d : disk) (c v : Z) :
  geometry_ok g -> volume part g d -> valid g c ->
  exists d', fat32_set_fat_entry part c v d = Done (tt, d') /\ volume part g d' /\
    fat32_get_fat_entry part c d' = Done (Z.land v 0x0FFFFFFF, d') /\
    (forall x r, valid g x -> x <> c -> fat32_get_fat_entry part x d = Done (r, d) ->
       fat32_get_fat_entry part x d' = Done (r, d')) /\
    (forall x, valid g x -> cluster g d' x = cluster g d x) /\
    (forall i, 1 <= i < num_fats (g_bpb g) ->
       dev_read d' (fat_start g + c / 128 + i * fat_size_32 (g_bpb g)) = dev_read d' (fat_start g + c / 128)).
Proof.
  intros G V Hc. unfold valid in *.
  destruct (set_fat_entry_ok part g G d c v V ltac:(lia)) as (d' & E & V' & D & F & M).
  exists d'. split; [done|]. split; [done|]. split; [|split; [|split; [|done]]].
  - rewrite (get_fat_entry_ok part g G) by (done || lia). by rewrite F, decide_True by lia.
  - intros x r Hx Hn. rewrite !(get_fat_entry_ok part g G) by (done || lia). intros [= <-].
    by rewrite F, decide_False by lia.
  - intros x Hx. apply cluster_data_same; [done|lia].
Qed.

(** [write_cluster] then [read_cluster] of the same cluster gives the
    bytes written; every other cluster and the allocation table are as before. *)
Theorem cluster_roundtrip {disk : Type} `{BlockDeviceLaws disk} (part : Z) (g : geometry) (d : disk) (c : Z)
    (buf buf0 : list Z) :
  geometry_ok g -> volume part g d -> valid g c -> buffer_ok buf -> Z.of_nat (length buf0) = CLUSTER_SIZE ->
  exists d', write_cluster part c buf d = Done (0, d') /\ volume part g d' /\
    read_cluster part c buf0 d' = Done ((0, buf), d') /\
    (forall x, valid g x -> x <> c -> cluster g d' x = cluster g d x) /\
    (forall x, valid g x -> fat32_get_fat_entry part x d' = Done (fat g d x, d')).
Proof.
  intros G V Hc Hb Hl. destruct (write_cluster_ok part g G d c buf V Hc Hb) as (d' & E & V' & C & F).
  exists d'. split; [done|]. split; [done|]. split; [|split].
  - rewrite (read_cluster_ok part g G) by done. by rewrite C, decide_True.
  - intros x Hx Hn. by rewrite C, decide_False.
  - intros x Hx. unfold valid in Hx. rewrite (get_fat_entry_ok part g G) by (done || lia). by rewrite F by lia.
Qed.

(** C22: the loop of truncate, unlink and rmdir ends and frees exactly the
    chain: every cluster of the chain becomes free, every other entry and all
    data stay.  One step of fuel per cluster, and one for the end, suffice. *)
Theorem free_chain_frees_exactly {disk : Type} `{BlockDeviceLaws disk} (part : Z) (g : geometry) (d : disk)
    (c : Z) (cs : list Z) (fuel : nat) :
  geometry_ok g -> volume part g d -> chain g (fat g d) c cs -> (length cs < fuel)%nat ->
  exists d', free_chain part fuel c d = Done (tt, d') /\ volume part g d' /\
    (forall x, valid g x -> fat g d' x = if decide (x ∈ cs) then 0 else fat g d x) /\
    (forall x, valid g x -> cluster g d' x = cluster g d x).
Proof.
  intros G V Hc Hf. destruct (free_chain_ok part g G cs fuel c d V Hc Hf) as (d' & E & V' & D & F).
  exists d'. split; [done|]. split; [done|]. unfold valid. split; intros x Hx.
  - apply F. lia.
  - apply cluster_data_same; [done|lia].
Qed.

(** C32: [expand_file] on the last cluster of a chain appends the first free
    cluster of the volume to that chain, and leaves every chain that shares
    no cluster with it as it was. *)
Theorem expand_file_extends_chain {disk : Type} `{BlockDeviceLaws disk} (part : Z) (g : geometry) (d : disk)
    (c0 last new : Z) (cs : list Z) :
  geometry_ok g -> volume part g d -> chain g (fat g d) c0 (cs ++ [last]) -> FAT32_EOC <= fat g d last ->
  valid g new -> fat g d new = 0 -> (forall x, 2 <= x < new -> fat g d x <> 0) ->
  exists d', expand_file part last d = Done (new, d') /\ volume part g d' /\
    chain g (fat g d') c0 (cs ++ [last; new]) /\
    (forall c' cs', chain g (fat g d) c' cs' -> last ∉ cs' -> new ∉ cs' -> chain g (fat g d') c' cs').
Proof.
  intros G V Hc He Hn Hz Hl.
  assert (Hv : valid g last) by (eapply (chain_valid g); [exact Hc|set_solver]).
  destruct (expand_file_ok part g G d last new V Hv He Hn Hz Hl) as (d' & E & V' & D & Fc & Fn & F).
  exists d'. split; [done|]. split; [done|].
  assert (Hne : new <> last) by (intros ->; unfold FAT32_EOC in *; lia).
  assert (K : forall c' cs', chain g (fat g d) c' cs' -> last ∉ cs' -> new ∉ cs' -> chain g (fat g d') c' cs').
  { intros c' cs' Hc' H1 H2. eapply chain_ext, Hc'. intros x Hx.
    pose proof (chain_valid g _ _ _ _ Hc' Hx) as Hvx. unfold valid in Hvx. apply F; [lia|set_solver..]. }
  split; [|done]. pose proof (chain_nodup g G _ _ _ Hc) as Hnd.
  revert c0 Hc Hnd. induction cs as [|x cs IH]; intros c0; cbn [app chain].
  - intros (<- & _ & _) _. repeat split; [by destruct Hv..|done| | |]; rewrite ?Fc; unfold valid in *; try lia.
  - intros (<- & Hvx & Hc) [Hx Hnd]%list.NoDup_cons. split; [done|]. split; [done|].
    assert (new <> x). { intros ->. cbn in Hc. rewrite Hz in Hc. destruct cs; cbn in Hc; unfold valid in Hc; lia. }
    unfold valid in Hvx. rewrite F by (try lia; set_solver). by apply IH.
Qed.

(** [fat_set_entry], which file creation uses, sets the entry in the first
    table but fills the sector of every copy with the boot sector. *)
Theorem fat_set_entry_copies_boot_sector {disk : Type} `{BlockDeviceLaws disk} (part : Z) (g : geometry)
    (d : disk) (c v : Z) :
  geometry_ok g -> volume part g d -> valid g c ->
  exists d', fat_set_entry part c v d = Done (tt, d') /\
    fat32_get_fat_entry part c d' = Done (Z.land v 0x0FFFFFFF, d') /\
    (forall i, 1 <= i < num_fats (g_bpb g) ->
       dev_read d' (fat_start g + c / 128 + i * fat_size_32 (g_bpb g)) = dev_read d (g_lba g)).
Proof.
  intros G V Hc. unfold valid in Hc.
  destruct (fat_set_entry_ok part g G d c v V ltac:(lia)) as (d' & E & V' & D & F & M).
  exists d'. split; [done|]. split; [|done].
  rewrite (get_fat_entry_ok part g G) by (done || lia). by rewrite F, decide_True by lia.
Qed.

(** *** Witnesses *)
(** A memory disk: a map from sector numbers to sectors of 512 bytes. *)
Definition sector_okb (s : list Z) : bool :=
  (Z.of_nat (length s) =? SECTOR_SIZE) && forallb (fun b => (0 <=? b) && (b <? 256)) s.
Lemma sector_okb_spec s : sector_okb s = true <-> sector_ok s.
Proof.
  unfold sector_okb, sector_ok. rewrite andb_true_iff, Z.eqb_eq, forallb_forall, List.Forall_forall.
  split; intros [? Hb]; (split; [done|]); intros b Hi; specialize (Hb b Hi); cbn in *; lia.
Qed.
Abbreviation ram_disk := (gmap Z (list Z)).
#[export] Instance ram_disk_device : BlockDevice ram_disk := {
  dev_read d lba := match d !! lba with Some s => if sector_okb s then Some s else None | None => None end;
  dev_write d lba s := (0, <[lba := s]> d)
}.
#[export] Instance ram_disk_laws : BlockDeviceLaws ram_disk.
Proof.
  split; cbn.
  - intros d lba s. destruct (d !! lba) as [s'|]; [|done].
    destruct (sector_okb s') eqn:E; [|done]. intros [= <-]. by apply sector_okb_spec.
  - done.
  - intros d lba s lba' _ Hs%sector_okb_spec. rewrite lookup_insert.
    destruct (Z.eqb_spec lba' lba) as [->|]; [by rewrite decide_True, Hs|by rewrite decide_False].
Qed.

(** One reserved sector, two tables of one sector, three clusters; the chain
    of cluster 2 goes on in cluster 3, cluster 4 is free. *)
Definition zero_sector : list Z := replicate 512 0.
Definition demo_mbr : list Z := put (put zero_sector 454 (le_bytes32 1)) 510 [0x55; 0xAA].
Definition demo_boot : list Z :=
  put (put (put zero_sector 11 [0; 2; 8; 1; 0; 2]) 36 (le_bytes32 1)) 44 (le_bytes32 2).
Definition demo_fat : list Z :=
  put zero_sector 0 (le_bytes32 0x0FFFFFF8 ++ le_bytes32 0x0FFFFFFF ++ le_bytes32 3 ++ le_bytes32 0x0FFFFFF8).
Definition demo_disk : ram_disk :=
  list_to_map ([(0, demo_mbr); (1, demo_boot); (2, demo_fat); (3, demo_fat)] ++
               map (fun i => (i, zero_sector)) (seqZ 4 24)).
Definition demo_geo : geometry := Geo 1 (Bpb 512 8 1 2 1 2) 5.

Lemma demo_geo_ok : geometry_ok demo_geo.
Proof. split; vm_compute; repeat split; congruence. Qed.
Lemma demo_volume : volume 0 demo_geo demo_disk.
Proof.
  split.
  - lia.
  - exists demo_mbr. vm_compute. done.
  - exists demo_boot. vm_compute. done.
  - intros s Hs. change (1 <= s < 28) in Hs.
    assert (A : forallb (fun s => bool_decide (is_Some (dev_read demo_disk s))) (seqZ 1 27) = true) by (vm_compute; done).
    rewrite forallb_forall in A. apply (bool_decide_eq_true _), A, list_elem_of_In, elem_of_seqZ. lia.
Qed.

Lemma fat_entry_roundtrip_witness :
  exists d', fat32_set_fat_entry 0 4 0x5000000F demo_disk = Done (tt, d') /\ fat32_get_fat_entry 0 4 d' = Done (15, d').
Proof.
  destruct (fat_entry_roundtrip 0 demo_geo demo_disk 4 0x5000000F demo_geo_ok demo_volume) as (d' & E & _ & R & _).
  - split; vm_compute; congruence.
  - exists d'. split; [exact E|exact R].
Defined.
Lemma cluster_roundtrip_witness :
  exists d', write_cluster 0 3 (replicate 4096 7) demo_disk = Done (0, d') /\
    read_cluster 0 3 (replicate 4096 0) d' = Done ((0, replicate 4096 7), d').
Proof.
  destruct (cluster_roundtrip 0 demo_geo demo_disk 3 (replicate 4096 7) (replicate 4096 0) demo_geo_ok demo_volume)
    as (d' & E & _ & R & _).
  - split; vm_compute; congruence.
  - split; [vm_compute; reflexivity|]. apply Forall_replicate. lia.
  - vm_compute. reflexivity.
  - exists d'. split; [exact E|exact R].
Defined.
Lemma demo_chain : chain demo_geo (fat demo_geo demo_disk) 2 [2; 3].
Proof. vm_compute. repeat split; try congruence. intros [_ H]. congruence. Qed.
Lemma free_chain_frees_exactly_witness :
  exists d', free_chain 0 3 2 demo_disk = Done (tt, d') /\ fat demo_geo d' 3 = 0.
Proof.
  destruct (free_chain_frees_exactly 0 demo_geo demo_disk 2 [2; 3] 3 demo_geo_ok demo_volume demo_chain)
    as (d' & E & _ & F & _).
  - cbn. lia.
  - exists d'. split; [exact E|]. rewrite F by (split; vm_compute; congruence). reflexivity.
Defined.
Lemma expand_file_extends_chain_witness :
  exists d', expand_file 0 3 demo_disk = Done (4, d') /\ chain demo_geo (fat demo_geo d') 2 [2; 3; 4].
Proof.
  destruct (expand_file_extends_chain 0 demo_geo demo_disk 2 3 4 [2] demo_geo_ok demo_volume demo_chain)
    as (d' & E & _ & C & _).
  - vm_compute. congruence.
  - split; vm_compute; congruence.
  - vm_compute. reflexivity.
  - intros x Hx. assert (D : x = 2 \/ x = 3) by lia. destruct D as [-> | ->]; vm_compute; congruence.
  - exists d'. split; [exact E|exact C].
Defined.
Lemma fat_set_entry_copies_boot_sector_witness :
  exists d', fat_set_entry 0 4 FAT32_EOC demo_disk = Done (tt, d') /\ dev_read d' 3 = Some demo_boot.
Proof.
  destruct (fat_set_entry_copies_boot_sector 0 demo_geo demo_disk 4 FAT32_EOC demo_geo_ok demo_volume)
    as (d' & E & _ & M).
  - split; vm_compute; congruence.
  - exists d'. split; [exact E|]. change 3 with (fat_start demo_geo + 4 / 128 + 1 * fat_size_32 (g_bpb demo_geo)).
    rewrite M by (vm_compute; intuition congruence). vm_compute. reflexivity.
Defined.
