(* ===== verification/Fat32File.v ===== *)
(** * Fat32File: names, directories and files

    The upper half of src/core/filesytem/fat32.h and the string helpers of
    src/core/filesytem/filesystem.h: 8.3 names, path walk, stat, read, write,
    create, truncate, delete, rename, and the driver table that
    [init_vfs_fat32] fills.  A path is its list of characters, as in [Vfs].

    The content of uninitialised stack objects is a parameter of the section
    (record [stack]); [fuel] bounds the walks along cluster chains, which the
    code leaves unbounded.  Arrays sized by the length of the path ([cur_path],
    [name83]) are taken to be large enough for what the code stores in them. *)
From S2P Require Import Prelude Bytes KState Vfs Fat32.
Open Scope Z_scope.

Definition DIRENT_NAME_MAX_LENGTH : Z := 64.

(** ** Strings *)
(** The string in a character array: up to its first NUL. *)
Fixpoint c_str (buf : list Z) : path :=
  match buf with
  | [] => []
  | c :: r => if c =? 0 then [] else c :: c_str r
  end.
Definition toupper (c : Z) : Z := if (97 <=? c) && (c <=? 122) then c - 32 else c.
Fixpoint strchr (str : path) (c : Z) : option path :=
  match str with
  | [] => if c =? 0 then Some [] else None
  | x :: r => if x =? c then Some str else strchr r c
  end.

(** The scan of [split_n]: delimiters seen, characters written, whether it ran
    to its end, and the result buffer. *)
Fixpoint split_loop (str : path) (delim index count_delim : Z) (j : nat) (result : list Z) (result_size : Z)
    : Z * nat * bool * list Z :=
  match str with
  | [] => (count_delim, j, true, result)
  | c :: r =>
      if c =? delim then
        if index <? count_delim + 1 then (count_delim + 1, j, true, result)
        else split_loop r delim index (count_delim + 1) j result result_size
      else if count_delim =? index then
        if result_size <=? Z.of_nat j + 1 then (count_delim, j, false, result)
        else split_loop r delim index count_delim (S j) (<[j := c]> result) result_size
      else split_loop r delim index count_delim j result result_size
  end.
Definition split_n (str : path) (delim index : Z) (result : list Z) (result_size : Z) : bool * list Z :=
  let '(count_delim, j, complete, result) := split_loop str delim index 0 0 result result_size in
  if negb complete then (false, result)
  else if count_delim <? index then (false, <[0%nat := 0]> result)
  else (true, <[j := 0]> result).

(** ** 8.3 names *)
(** The base of a name, up to its dot or eight characters: rest and buffer. *)
Fixpoint name_loop (n i : nat) (src : path) (dest : list Z) : path * list Z :=
  match n, src with
  | S n', c :: r => if c =? 46 then (src, dest) else name_loop n' (S i) r (<[i := toupper c]> dest)
  | _, _ => (src, dest)
  end.
Fixpoint ext_loop (n i : nat) (src : path) (dest : list Z) : list Z :=
  match n, src with
  | S n', c :: r => ext_loop n' (S i) r (<[i := toupper c]> dest)
  | _, _ => dest
  end.
Definition blank_name : list Z := replicate 11 32.
Definition format_name_83 (src : path) : list Z :=
  let dest := snd (name_loop 8 0 src blank_name) in
  match strchr src 46 with
  | Some dot => ext_loop 3 8 (tail dot) dest
  | None => dest
  end.
Definition match_name (path_name : path) (dir_entry_name : list Z) : bool :=
  let '(rest, formatted) := name_loop 8 0 path_name blank_name in
  let formatted :=
    match rest with
    | c :: ext => if c =? 46 then ext_loop 3 8 ext formatted else formatted
    | [] => formatted
    end in
  bool_decide (dir_entry_name = formatted).

(** [find_parent_path] *)
Fixpoint strip_slashes (len : nat) (p : path) : nat :=
  match len with
  | S (S n as len') => if byte p (Z.of_nat len') =? slash then strip_slashes len' p else len
  | _ => len
  end.
Fixpoint last_slash_below (i : nat) (p : path) : nat :=
  match i with
  | O => 0
  | S i' => if byte p (Z.of_nat i') =? slash then i' else last_slash_below i' p
  end.
Definition find_parent_path (p : path) : path :=
  if bool_decide (p = []) || bool_decide (p = root) then root
  else
    let last_slash := last_slash_below (strip_slashes (length p) p) p in
    if (last_slash =? 0)%nat then root else take last_slash p.

(** The parent and the name every directory operation computes. *)
Fixpoint last_slash_loop (p : path) (i pos : nat) : nat :=
  match p with
  | [] => pos
  | c :: r => last_slash_loop r (S i) (if c =? slash then i else pos)
  end.
Definition last_slash_pos (p : path) : nat := last_slash_loop p 0 0.
Definition parent_path (p : path) : path :=
  let parent := take (last_slash_pos p) p in if bool_decide (parent = []) then root else parent.
Definition name_without_path (p : path) : path := drop (S (last_slash_pos p)) p.

(** ** Directory entries *)
Record DirEntry := DirEnt {
  de_name : list Z; de_attr : Z; de_nt_reserved : Z; de_creation_time_tenths : Z;
  de_creation_time : Z; de_creation_date : Z; de_last_access_date : Z; de_first_cluster_hi : Z;
  de_write_time : Z; de_write_date : Z; de_first_cluster_lo : Z; de_file_size : Z }.
Definition dirent_of (s : list Z) : DirEntry :=
  DirEnt (slice s 0 11) (byte s 11) (byte s 12) (byte s 13) (le16 s 14) (le16 s 16) (le16 s 18) (le16 s 20)
         (le16 s 22) (le16 s 24) (le16 s 26) (le32 s 28).
Definition dirent_bytes (e : DirEntry) : list Z :=
  de_name e ++ [de_attr e; de_nt_reserved e; de_creation_time_tenths e] ++ le_bytes16 (de_creation_time e) ++
  le_bytes16 (de_creation_date e) ++ le_bytes16 (de_last_access_date e) ++ le_bytes16 (de_first_cluster_hi e) ++
  le_bytes16 (de_write_time e) ++ le_bytes16 (de_write_date e) ++ le_bytes16 (de_first_cluster_lo e) ++
  le_bytes32 (de_file_size e).
Definition get_entry_cluster (e : DirEntry) : Z :=
  Z.lor (Z.shiftl (de_first_cluster_hi e) 16) (de_first_cluster_lo e).
(** [((struct DirEntry * )buf)[i]] *)
Definition raw_entry (buf : list Z) (i : Z) : list Z := slice buf (32 * i) 32.
Definition entry_at (buf : list Z) (i : Z) : DirEntry := dirent_of (raw_entry buf i).
Definition name0 (e : DirEntry) : Z := byte (de_name e) 0.
Definition set_raw (buf : list Z) (i : Z) (e : list Z) : list Z := put buf (32 * i) e.

(** What uninitialised locals hold. *)
Record stack := Stack {
  stk_buf : list Z;       (* a cluster buffer before the first read of a loop *)
  stk_token : list Z;     (* [token_buf] *)
  stk_size : Z;           (* [entry.file_size] *)
  stk_name83 : list Z;    (* behind the eleven bytes of a formatted name *)
  stk_dirent : list Z;    (* [dirent_entry] of rename *)
  stk_ret : Z             (* the result register of a function without [return] *)
}.

(** The scan of one directory cluster by [find_cluster_from_path]. *)
Fixpoint lookup_loop (n : nat) (i : Z) (buf : list Z) (token : path) : option DirEntry :=
  match n with
  | O => None
  | S n' =>
      let e := entry_at buf i in
      if name0 e =? 0 then None
      else if (name0 e =? 0xE5) || (de_attr e =? 0x0F) then lookup_loop n' (i + 1) buf token
      else if match_name token (de_name e) then Some e
      else lookup_loop n' (i + 1) buf token
  end.

Section Files.
Context {disk : Type} `{BlockDevice disk} (fuel : nat) (stk : stack) (part : Z).

(** ** Path walk *)
Fixpoint walk_loop (n : nat) (j : Z) (cur_path : path) (token : list Z) (cluster : Z) : ST disk Z :=
  match n with
  | O => fun _ => Stuck
  | S n' =>
      if byte token 0 =? 0 then mret cluster
      else
        r ← read_cluster part cluster (stk_buf stk);
        match lookup_loop 128 0 (snd r) (c_str token) with
        | None => mret 0
        | Some entry =>
            walk_loop n' (j + 1) cur_path
              (snd (split_n cur_path slash (j + 1) token DIRENT_NAME_MAX_LENGTH)) (get_entry_cluster entry)
        end
  end.
Definition find_cluster_from_path (p : path) : ST disk Z :=
  if negb (byte p 0 =? slash) then mret 0
  else if byte p 1 =? 0 then get_root_dir_cluster part
  else
    let token := snd (split_n p slash 1 (stk_token stk) DIRENT_NAME_MAX_LENGTH) in
    cluster ← get_root_dir_cluster part;
    walk_loop (S (length p)) 1 p token cluster.

(** [find_dir_entry]: the sixteen entries of one sector ([Some] is the
    successful return), the sectors of one cluster, the components. *)
Fixpoint sector_scan (n : nat) (e : Z) (sector name83 : list Z) (inner : bool) (cur : Z) (found : bool)
    : option DirEntry * Z * bool :=
  match n with
  | O => (None, cur, found)
  | S n' =>
      let ent := entry_at sector e in
      if name0 ent =? 0 then (None, cur, found)
      else if (Z.land (de_attr ent) 0x0F =? 0) && bool_decide (de_name ent = name83) then
        if inner then sector_scan n' (e + 1) sector name83 inner (get_entry_cluster ent) true
        else (Some ent, cur, found)
      else sector_scan n' (e + 1) sector name83 inner cur found
  end.
Fixpoint sectors_scan (n : nat) (s first : Z) (name83 : list Z) (inner : bool) (cur : Z) (found : bool)
    : ST disk (option DirEntry * Z * bool) :=
  match n with
  | O => mret (None, cur, found)
  | S n' =>
      sector ← read_sector_u (u32 (first + s));
      match sector_scan 16 0 sector name83 inner cur found with
      | (Some ent, cur, found) => mret (Some ent, cur, found)
      | (None, cur, found) => sectors_scan n' (s + 1) first name83 inner cur found
      end
  end.
(** One component: characters before the slash, and the rest from it on. *)
Fixpoint component (token : path) : path * path :=
  match token with
  | [] => ([], [])
  | c :: r => if c =? slash then ([], token) else let '(a, b) := component r in (c :: a, b)
  end.
(** [(false, _)] is the failing return; [(true, None)] returns without having
    written the result. *)
Fixpoint components_loop (n : nat) (lba : Z) (bpb : BPB_FAT32) (token : path) (cur : Z)
    : ST disk (bool * option DirEntry) :=
  match n with
  | O => fun _ => Stuck
  | S n' =>
      match token with
      | [] => mret (true, None)
      | _ =>
          let '(token_buf, rest) := component token in
          (* [token_buf] has 64 bytes, the NUL included *)
          if DIRENT_NAME_MAX_LENGTH <=? Z.of_nat (length token_buf) then fault
          else
            let inner := negb (bool_decide (rest = [])) in
            r ← sectors_scan (Z.to_nat (sectors_per_cluster bpb)) 0 (lba + cluster_to_lba bpb cur)
                  (format_name_83 token_buf) inner cur false;
            match (r : option DirEntry * Z * bool) with
            | (Some ent, _, _) => mret (true, Some ent)
            | (None, cur', found) =>
                if negb found && inner then mret (false, None)
                else components_loop n' lba bpb (tail rest) cur'
            end
      end
  end.
Definition find_dir_entry (p : path) : ST disk (bool * option DirEntry) :=
  r ← read_bpb part;
  let '(lba, bpb) := r : Z * BPB_FAT32 in
  let p' := if byte p 0 =? slash then tail p else p in
  components_loop (S (length p)) lba bpb p' (root_cluster bpb).
Definition get_file_size (p : path) : ST disk Z :=
  r ← find_dir_entry p;
  mret (match (r : bool * option DirEntry) with
        | (false, _) => u64 (-1)
        | (true, Some entry) => de_file_size entry
        | (true, None) => stk_size stk
        end).

(** ** Read *)
(** The loop over the clusters before the offset; [None] is the early return. *)
Fixpoint skip_loop (n : nat) (cluster : Z) : ST disk (option Z) :=
  match n with
  | O => mret (Some cluster)
  | S n' =>
      c ← get_next_cluster part cluster;
      if FAT32_EOC <=? c then mret None else skip_loop n' c
  end.
(** Bytes left, and the bytes copied so far. *)
Fixpoint read_loop (n : nat) (cluster offset_in_cluster size : Z) (acc tmp : list Z) : ST disk (Z * list Z) :=
  match n with
  | O => fun _ => Stuck
  | S n' =>
      if (0 <? size) && (cluster <? FAT32_EOC) then
        r ← read_cluster part cluster tmp;
        if negb (fst r =? 0) then mret (-3, acc)
        else
          let to_copy := Z.min (CLUSTER_SIZE - offset_in_cluster) size in
          let acc := acc ++ slice (snd r) offset_in_cluster to_copy in
          let size := size - to_copy in
          next ← (if 0 <? size then get_next_cluster part cluster else mret cluster);
          read_loop n' next 0 size acc (snd r)
      else mret (Z.of_nat (length acc), acc)
  end.
Definition loop_bound (size : Z) : nat := S (S (Z.to_nat (size / CLUSTER_SIZE + 1))).
(** Result, and the bytes placed in the caller's buffer. *)
Definition fat32_read_file_bytes (p : path) (offset size : Z) : ST disk (Z * list Z) :=
  cluster ← find_cluster_from_path p;
  if cluster =? 0 then mret (-1, [])
  else
    file_size ← get_file_size p;
    if file_size <=? offset then mret (0, [])
    else
      let size := if file_size <? u64 (offset + size) then file_size - offset else size in
      s ← skip_loop (Z.to_nat (offset / CLUSTER_SIZE)) cluster;
      match s with
      | None => mret (-2, [])
      | Some cluster => read_loop (loop_bound size) cluster (offset mod CLUSTER_SIZE) size [] (stk_buf stk)
      end.

(** ** Stat *)
Record fat_stat := FatStat {
  fs_creation_date : Z; fs_creation_time : Z; fs_modified_date : Z; fs_modified_time : Z;
  fs_last_access_date : Z; fs_name : path; fs_size : Z; fs_type : path_type; fs_parent_cluster_id : Z }.
Definition stat_none : fat_stat := FatStat 0 0 0 0 0 [] 0 PATH_NOT_FOUND 0.

(** One cluster: [Some None] is the end of the directory.  The end is tested
    on the attribute byte, and only as many bytes of the name are compared as
    the name asked for has characters. *)
Fixpoint stat_scan (n : nat) (i : Z) (buffer : list Z) (name : path) : option (option DirEntry) :=
  match n with
  | O => None
  | S n' =>
      let e := entry_at buffer i in
      let name83 := format_name_83 name ++ stk_name83 stk in
      let len := Z.of_nat (length name) in
      if de_attr e =? 0 then Some None
      else if (de_attr e =? 0xE5) || (de_attr e =? 0x0F) then stat_scan n' (i + 1) buffer name
      else if bool_decide (slice buffer (32 * i) len = slice name83 0 len) then Some (Some e)
      else stat_scan n' (i + 1) buffer name
  end.
Fixpoint stat_loop (n : nat) (current parent_cluster_id : Z) (buffer : list Z) (name : path) : ST disk fat_stat :=
  match n with
  | O => fun _ => Stuck
  | S n' =>
      r ← read_cluster part current buffer;
      match stat_scan 128 0 (snd r) name with
      | Some None => mret stat_none
      | Some (Some e) =>
          mret (FatStat (de_creation_date e) (de_creation_time e) (de_write_date e) (de_write_time e)
                  (de_last_access_date e) (take 11 name) (de_file_size e)
                  (if de_attr e =? 0x10 then PATH_DIRECTORY else PATH_FILE) parent_cluster_id)
      | None =>
          next ← get_next_cluster part current;
          stat_loop n' next parent_cluster_id (snd r) name
      end
  end.
Definition fat32_stat (p : path) : ST disk fat_stat :=
  if negb (byte p 0 =? slash) then mret stat_none
  else if byte p 1 =? 0 then mret (FatStat 0 0 0 0 0 root 0 PATH_DIRECTORY 0)
  else
    c ← find_cluster_from_path (parent_path p);
    stat_loop fuel c c (stk_buf stk) (name_without_path p).

(** ** Update of one entry

    The loop shared by the routines that look an entry up by attribute and
    name in the parent's chain and rewrite it: the index of the entry, or the
    end mark of the directory ([Some None]). *)
Fixpoint entry_find (n : nat) (i : Z) (buffer : list Z) (attr : Z) (name83 : list Z) : option (option Z) :=
  match n with
  | O => None
  | S n' =>
      let e := entry_at buffer i in
      if name0 e =? 0 then Some None
      else if (de_attr e =? attr) && bool_decide (name83 = de_name e) then Some (Some i)
      else entry_find n' (i + 1) buffer attr name83
  end.
Inductive scan_result := ScanHit | ScanEnd | ScanOut.
Fixpoint update_loop (n : nat) (cluster : Z) (buffer : list Z) (attr : Z) (name83 : list Z)
    (f : list Z -> list Z) : ST disk scan_result :=
  match n with
  | O => fun _ => Stuck
  | S n' =>
      if cluster <? 2 then mret ScanOut
      else
        r ← read_cluster part cluster buffer;
        match entry_find 128 0 (snd r) attr name83 with
        | Some None => mret ScanEnd
        | Some (Some i) =>
            _ ← write_cluster part cluster (set_raw (snd r) i (f (raw_entry (snd r) i)));
            mret ScanHit
        | None =>
            next ← get_next_cluster part cluster;
            update_loop n' next (snd r) attr name83 f
        end
  end.
Definition update_entry (st : fat_stat) (attr : Z) (f : list Z -> list Z) : ST disk scan_result :=
  update_loop fuel (fs_parent_cluster_id st) (stk_buf stk) attr (format_name_83 (fs_name st)) f.

Definition put_first_cluster (cluster : Z) (e : list Z) : list Z :=
  put (put e 26 (le_bytes16 cluster)) 20 (le_bytes16 (cluster / 65536)).
Definition put_file_size (size : Z) (e : list Z) : list Z := put e 28 (le_bytes32 size).
Definition put_deleted (e : list Z) : list Z := put e 0 [0xE5].
Definition zero_entry (e : list Z) : list Z := replicate 32 0.

Definition set_file_first_cluster (p : path) (cluster : Z) : ST disk unit :=
  st ← fat32_stat p;
  match fs_type st with
  | PATH_FILE => _ ← update_entry st 0x20 (put_first_cluster cluster); mret tt
  | _ => mret tt
  end.
Definition set_file_size (p : path) (new_size : Z) : ST disk unit :=
  st ← fat32_stat p;
  _ ← update_entry st 0x20 (put_file_size new_size);
  mret tt.

(** ** Write *)
(** Result, bytes written. *)
Fixpoint write_loop (n : nat) (cluster offset_in_cluster : Z) (bytes : list Z) (written : Z) : ST disk (Z * Z) :=
  match n with
  | O => fun _ => Stuck
  | S n' =>
      let size := Z.of_nat (length bytes) in
      if (0 <? size) && (cluster <? FAT32_EOC) then
        r ← read_cluster part cluster (replicate (Z.to_nat CLUSTER_SIZE) 0);
        if negb (fst r =? 0) then mret (-4, written)
        else
          let to_copy := Z.min (CLUSTER_SIZE - offset_in_cluster) size in
          w ← write_cluster part cluster (put (snd r) offset_in_cluster (take (Z.to_nat to_copy) bytes));
          if negb (w =? 0) then mret (-5, written)
          else
            let written := written + to_copy in
            let bytes := drop (Z.to_nat to_copy) bytes in
            if 0 <? size - to_copy then
              next ← get_next_cluster part cluster;
              if FAT32_EOC <=? next then
                c ← expand_file part next;
                if c =? 0 then mret (-7, written) else write_loop n' c 0 bytes written
              else write_loop n' next 0 bytes written
            else write_loop n' cluster 0 bytes written
      else mret (0, written)
  end.
Definition fat32_write_file_bytes (p : path) (bytes : list Z) (offset : Z) : ST disk Z :=
  c ← find_cluster_from_path p;
  start ← (if c =? 0 then
             b ← find_blank_cluster part;
             if b <? 2 then mret None
             else
               _ ← fat32_set_fat_entry part b FAT32_EOC;
               _ ← set_file_first_cluster p b;
               mret (Some b)
           else mret (Some c));
  match start with
  | None => mret (-6)
  | Some cluster =>
      file_size ← get_file_size p;
      if file_size <? offset then mret (-2)
      else
        s ← skip_loop (Z.to_nat (offset / CLUSTER_SIZE)) cluster;
        match s with
        | None => mret (-3)
        | Some cluster =>
            w ← write_loop (loop_bound (Z.of_nat (length bytes))) cluster (offset mod CLUSTER_SIZE) bytes 0;
            if negb (fst w =? 0) then mret (fst w)
            else
              _ ← when (file_size <? u64 (offset + snd w)) (set_file_size p (u32 (offset + snd w)));
              mret 0
        end
  end.

(** ** Truncate, delete *)
Definition fat32_truncate_file (p : path) : ST disk Z :=
  if negb (byte p 0 =? slash) then mret (- EINVAL)
  else if bool_decide (p = root) then mret (- EISDIR)
  else
    st ← fat32_stat p;
    match fs_type st with
    | PATH_NOT_FOUND => mret (- ENOENT)
    | PATH_DIRECTORY => mret (- EISDIR)
    | PATH_FILE =>
        c ← find_cluster_from_path p;
        _ ← free_chain part fuel c;
        r ← update_entry st 0x20 (fun e => put_file_size 0 (put_first_cluster 0 e));
        mret (match r with ScanEnd => -1 | _ => 0 end)
    end.
Definition fat32_unlink_file (p : path) : ST disk Z :=
  if negb (byte p 0 =? slash) then mret (- EINVAL)
  else if bool_decide (p = root) then mret (- EISDIR)
  else
    st ← fat32_stat p;
    match fs_type st with
    | PATH_NOT_FOUND => mret (- ENOENT)
    | PATH_DIRECTORY => mret (- EISDIR)
    | PATH_FILE =>
        r ← update_entry st 0x20 put_deleted;
        match r with
        | ScanEnd => mret (-1)
        | _ => c ← find_cluster_from_path p; _ ← free_chain part fuel c; mret 0
        end
    end.
Definition fat32_unlink_file_entry (p : path) : ST disk Z :=
  if negb (byte p 0 =? slash) then mret (- EINVAL)
  else if bool_decide (p = root) then mret (- EISDIR)
  else
    st ← fat32_stat p;
    match fs_type st with
    | PATH_NOT_FOUND => mret (- ENOENT)
    | PATH_DIRECTORY => mret (- EISDIR)
    | PATH_FILE =>
        r ← update_entry st 0x20 zero_entry;
        mret (match r with ScanEnd => -1 | _ => 0 end)
    end.
(** The emptiness test of [fat32_rmdir]: [Some b] once decided. *)
Fixpoint empty_scan (n : nat) (i : Z) (buffer : list Z) : option bool :=
  match n with
  | O => None
  | S n' =>
      let e := entry_at buffer i in
      if name0 e =? 0 then Some true
      else if negb (name0 e =? 0xE5) && negb (name0 e =? 0x41) &&
              negb (bool_decide (take 2 (de_name e) = [46; 32])) && negb (bool_decide (take 3 (de_name e) = [46; 46; 32]))
      then Some false
      else empty_scan n' (i + 1) buffer
  end.
Fixpoint empty_loop (n : nat) (cluster : Z) (buffer : list Z) : ST disk bool :=
  match n with
  | O => fun _ => Stuck
  | S n' =>
      if cluster <? 2 then mret true
      else
        r ← read_cluster part cluster buffer;
        match empty_scan 128 0 (snd r) with
        | Some b => mret b
        | None => next ← get_next_cluster part cluster; empty_loop n' next (snd r)
        end
  end.
Definition fat32_rmdir (p : path) : ST disk Z :=
  if negb (byte p 0 =? slash) then mret (- EINVAL)
  else if bool_decide (p = root) then mret (- EINVAL)
  else
    st ← fat32_stat p;
    match fs_type st with
    | PATH_NOT_FOUND => mret (- ENOENT)
    | PATH_FILE => mret (- EINVAL)
    | PATH_DIRECTORY =>
        c ← find_cluster_from_path p;
        empty ← empty_loop fuel c (stk_buf stk);
        if negb empty then mret (-1)
        else
          r ← update_entry st 0x10 put_deleted;
          match r with
          | ScanEnd => mret (-1)
          | _ => _ ← free_chain part fuel c; mret 0
          end
    end.
Definition fat32_rmdir_entry (p : path) : ST disk Z :=
  if negb (byte p 0 =? slash) then mret (- EINVAL)
  else if bool_decide (p = root) then mret (- EINVAL)
  else
    st ← fat32_stat p;
    match fs_type st with
    | PATH_NOT_FOUND => mret (- ENOENT)
    | PATH_FILE => mret (- EINVAL)
    | PATH_DIRECTORY =>
        _ ← find_cluster_from_path p;
        r ← update_entry st 0x10 zero_entry;
        mret (match r with ScanEnd => -1 | _ => 0 end)
    end.

(** ** Create *)
(** The first entry that is deleted or unused. *)
Fixpoint slot_scan (n : nat) (i : Z) (buffer : list Z) : option Z :=
  match n with
  | O => None
  | S n' =>
      let e := entry_at buffer i in
      if (name0 e =? 0xE5) || (name0 e =? 0) then Some i else slot_scan n' (i + 1) buffer
  end.
(** The search for a slot along the parent's chain; [mk] makes the entry once
    a slot is found.  Result of [mk] and the last cluster of the chain. *)
Fixpoint insert_loop (n : nat) (current last : Z) (buffer : list Z) (mk : ST disk (Z * list Z))
    : ST disk (option Z * Z) :=
  match n with
  | O => fun _ => Stuck
  | S n' =>
      if current <? 2 then mret (None, last)
      else
        r ← read_cluster part current buffer;
        match slot_scan 128 0 (snd r) with
        | Some i =>
            e ← mk;
            _ ← write_cluster part current (set_raw (snd r) i (snd e));
            mret (Some (fst e), last)
        | None =>
            next ← get_next_cluster part current;
            insert_loop n' next current (snd r) mk
        end
  end.
(** A full chain is extended by a cluster with the entry in front. *)
Definition insert_entry (parent_cluster_id : Z) (mk : ST disk (Z * list Z)) : ST disk Z :=
  r ← insert_loop fuel parent_cluster_id parent_cluster_id (stk_buf stk) mk;
  match (r : option Z * Z) with
  | (Some x, _) => mret x
  | (None, parent_cluster_last_id) =>
      blank_block_id ← find_blank_cluster part;
      _ ← extend_dirent_cluster part parent_cluster_last_id blank_block_id;
      e ← mk;
      _ ← write_cluster part blank_block_id (put (replicate (Z.to_nat CLUSTER_SIZE) 0) 0 (snd e));
      mret (fst e)
  end.
Definition new_dirent (name : list Z) (attr cluster : Z) : DirEntry :=
  DirEnt name attr 0 0x44 0x9c1a 0x5b13 0x5b13 (Z.land (Z.shiftr cluster 16) 0xFFFF) 0x9c33 0x5b13
         (Z.land cluster 0xFFFF) 0.
Definition create_dirent_entry (type : Z) (dirent_name : list Z) : ST disk (Z * list Z) :=
  new_blank_cluster_id ← find_blank_cluster part;
  mret (new_blank_cluster_id, dirent_bytes (new_dirent dirent_name type new_blank_cluster_id)).
Definition dot_name : list Z := 46 :: replicate 10 32.
Definition dotdot_name : list Z := 46 :: 46 :: replicate 9 32.
Definition fat32_create (p : path) (is_dir : bool) : ST disk Z :=
  if negb (byte p 0 =? slash) then mret (u64 (-1))
  else
    parent_cluster_id ← find_cluster_from_path (parent_path p);
    new_dirent_first_cluster ←
      insert_entry parent_cluster_id
        (create_dirent_entry (if is_dir then 0x10 else 0x20) (format_name_83 (name_without_path p)));
    _ ← when is_dir
          (_ ← write_cluster part new_dirent_first_cluster
                 (put (replicate (Z.to_nat CLUSTER_SIZE) 0) 0
                    (dirent_bytes (new_dirent dot_name 0x10 new_dirent_first_cluster) ++
                     dirent_bytes (new_dirent dotdot_name 0x10 parent_cluster_id)));
           mret tt);
    _ ← fat_set_entry part new_dirent_first_cluster FAT32_EOC;
    mret 0.

(** ** Rename *)
(** The last of the cluster's entries with that name, live or not. *)
Fixpoint last_match (n : nat) (i : Z) (buffer name83 : list Z) (acc : option (list Z)) : option (list Z) :=
  match n with
  | O => acc
  | S n' =>
      last_match n' (i + 1) buffer name83
        (if bool_decide (de_name (entry_at buffer i) = name83) then Some (raw_entry buffer i) else acc)
  end.
Fixpoint source_loop (n : nat) (cluster : Z) (buffer name83 : list Z) : ST disk (list Z) :=
  match n with
  | O => fun _ => Stuck
  | S n' =>
      if cluster <? 2 then mret (stk_dirent stk)
      else
        r ← read_cluster part cluster buffer;
        match last_match 128 0 (snd r) name83 None with
        | Some e => mret e
        | None => next ← get_next_cluster part cluster; source_loop n' next (snd r) name83
        end
  end.
(** No value is returned on success ([None]). *)
Definition fat32_rename (path_src path_des : path) (is_dir : bool) : ST disk (option Z) :=
  if negb (byte path_des 0 =? slash) then mret (Some (u64 (-1)))
  else if negb (byte path_src 0 =? slash) then mret (Some (u64 (-1)))
  else
    src_parent ← find_cluster_from_path (parent_path path_src);
    dirent_entry ← source_loop fuel src_parent (stk_buf stk) (format_name_83 (name_without_path path_src));
    des_parent_cluster_id ← find_cluster_from_path (parent_path path_des);
    let dirent_entry := put dirent_entry 0 (format_name_83 (name_without_path path_des)) in
    _ ← insert_entry des_parent_cluster_id (mret (0, dirent_entry));
    if is_dir then
      _ ← fat32_rmdir_entry path_src;
      des_cluster_id ← find_cluster_from_path path_des;
      r ← read_cluster part des_cluster_id (stk_buf stk);
      _ ← write_cluster part des_cluster_id
            (set_raw (snd r) 1 (put_first_cluster des_parent_cluster_id (raw_entry (snd r) 1)));
      mret None
    else
      _ ← fat32_unlink_file_entry path_src;
      mret None.

(** ** List *)
Fixpoint strip_spaces (n : nat) (l : list Z) : list Z :=
  match n with
  | O => l
  | S n' => if byte l (Z.of_nat n') =? 32 then strip_spaces n' (take n' l) else l
  end.
Definition list_name (e : DirEntry) : path :=
  strip_spaces 8 (take 8 (de_name e)) ++
  (if negb (byte (de_name e) 8 =? 32) then 46 :: strip_spaces 3 (drop 8 (de_name e)) else []).
(** The record of an entry: [struct dirent_in_list] has 24 bytes, its name
    starts at offset 19; the copy takes four bytes more than the name and its
    NUL. *)
Definition sizeof_dirent_in_list : Z := 24.
Definition list_record (e : DirEntry) (off : Z) : list Z :=
  let d_name := c_str (list_name e) in
  replicate 8 0 ++ le_bytes32 (off + 1) ++ replicate 4 0 ++
  le_bytes16 (sizeof_dirent_in_list + Z.of_nat (length d_name) + 1) ++
  [if Z.land (de_attr e) 0x10 =? 0 then 8 else 4] ++ d_name ++ [0] ++ take 4 (stk_buf stk).
(** One cluster: the new buffer, the bytes written, and whether the call
    returns. *)
Fixpoint list_scan (n : nat) (i start size : Z) (buf buffer : list Z) (bytes_written : Z) : bool * list Z * Z :=
  match n with
  | O => (false, buffer, bytes_written)
  | S n' =>
      let e := entry_at buf i in
      if name0 e =? 0 then (true, buffer, bytes_written)
      else if (name0 e =? 0xE5) || (de_attr e =? 0x0F) then list_scan n' (i + 1) start size buf buffer bytes_written
      else if i <? start then list_scan n' (i + 1) start size buf buffer bytes_written
      else
        let len := Z.of_nat (length (c_str (list_name e))) in
        if size <? bytes_written + sizeof_dirent_in_list + len then (true, buffer, bytes_written)
        else list_scan n' (i + 1) start size buf (put buffer bytes_written (list_record e (32 * i)))
               (bytes_written + sizeof_dirent_in_list)
  end.
Fixpoint list_loop (n : nat) (cluster start size : Z) (buf buffer : list Z) (bytes_written : Z) : ST disk (Z * list Z) :=
  match n with
  | O => fun _ => Stuck
  | S n' =>
      if FAT32_EOC <=? cluster then mret (bytes_written, buffer)
      else
        r ← read_cluster part cluster buf;
        if negb (fst r =? 0) then mret (neg64 EIO, buffer)
        else
          match list_scan 128 0 start size (snd r) buffer bytes_written with
          | (true, buffer, bytes_written) => mret (bytes_written, buffer)
          | (false, buffer, bytes_written) =>
              next ← get_next_cluster part cluster;
              list_loop n' next start size (snd r) buffer bytes_written
          end
  end.
Definition fat32_list_directory (p : path) (buffer : list Z) (start size : Z) : ST disk (Z * list Z) :=
  cluster ← find_cluster_from_path p;
  if cluster =? 0 then mret (neg64 ENOENT, buffer)
  else list_loop fuel cluster start size (stk_buf stk) buffer 0.
End Files.

(** ** The driver table *)
(** [init_vfs_fat32]: [delete] is [fat32_rmdir_entry], for files too. *)
Definition fat32_driver {disk : Type} `{BlockDevice disk} (fuel : nat) (stk : stack) : PartitionDriver disk := {|
  drv_create := fat32_create fuel stk;
  drv_stat part p := st ← fat32_stat fuel stk part p; mret (DirentStat (fs_type st) (fs_size st));
  drv_delete part p _ := fat32_rmdir_entry fuel stk part p;
  drv_rename part src des is_dir := r ← fat32_rename fuel stk part src des is_dir; mret (default (stk_ret stk) r);
  drv_truncate := fat32_truncate_file fuel stk;
  drv_list := fat32_list_directory fuel stk;
  drv_read := fat32_read_file_bytes stk;
  drv_write := fat32_write_file_bytes fuel stk
|}.

(** ** Buffers: lemmas *)
Section Slices.
Lemma length_slice s i n :
  0 <= i -> 0 <= n -> i + n <= Z.of_nat (length s) -> Z.of_nat (length (slice s i n)) = n.
Proof. intros. unfold slice. rewrite length_take, length_drop. lia. Qed.
Lemma slice_0 s i : slice s i 0 = [].
Proof. done. Qed.
Lemma slice_app a b i n :
  0 <= i <= Z.of_nat (length a) -> 0 <= n ->
  let k := Z.min (Z.of_nat (length a) - i) n in slice (a ++ b) i n = slice a i k ++ slice b 0 (n - k).
Proof.
  intros Hi Hn k. unfold slice. rewrite drop_app_le by lia. rewrite drop_0.
  rewrite take_app, length_drop. f_equal.
  - destruct (decide (k = n)) as [->|]; [done|]. rewrite !take_ge; [done|rewrite length_drop; lia..].
  - f_equal. lia.
Qed.
Lemma put_app a b i (l : list Z) :
  0 <= i <= Z.of_nat (length a) ->
  let k := Z.to_nat (Z.min (Z.of_nat (length a) - i) (Z.of_nat (length l))) in
  put (a ++ b) i l = put a i (take k l) ++ put b 0 (drop k l).
Proof.
  intros Hi k. unfold put. change (Z.to_nat 0) with 0%nat. rewrite take_app_le by lia.
  rewrite take_0, length_take, length_drop, !Nat.add_0_l. cbn [app]. rewrite <- !app_assoc. f_equal.
  rewrite drop_app. rewrite !app_assoc.
  destruct (decide (Z.of_nat (length l) <= Z.of_nat (length a) - i)).
  - assert (k = length l) as -> by lia. rewrite firstn_all, drop_all, Nat.min_id, Nat.sub_diag, app_nil_r, <- !app_assoc.
    cbn [app]. do 2 f_equal. f_equal. lia.
  - rewrite (drop_ge a) by lia. rewrite (drop_ge a) by lia. rewrite !app_nil_r, take_drop. f_equal. f_equal. lia.
Qed.
Lemma slice_app_r a b i n :
  Z.of_nat (length a) <= i -> slice (a ++ b) i n = slice b (i - Z.of_nat (length a)) n.
Proof. intros. unfold slice. rewrite drop_app_ge by lia. do 2 f_equal. lia. Qed.
Lemma put_app_r a b i (l : list Z) :
  Z.of_nat (length a) <= i -> put (a ++ b) i l = a ++ put b (i - Z.of_nat (length a)) l.
Proof.
  intros. unfold put. rewrite take_app_ge, drop_app_ge by lia. rewrite <- app_assoc. do 2 f_equal.
  - f_equal. lia.
  - do 2 f_equal. lia.
Qed.
Lemma slice_take s i n k :
  0 <= i -> 0 <= n -> 0 <= k -> slice (take (Z.to_nat k) s) i n = slice s i (Z.min n (Z.max 0 (k - i))).
Proof.
  intros. unfold slice. rewrite skipn_firstn_comm, take_take. f_equal. lia.
Qed.
Lemma put_nil s i : put s i [] = s.
Proof. unfold put. cbn [app length]. by rewrite Nat.add_0_r, take_drop. Qed.
End Slices.

Section FileLemmas.
Context {disk : Type} `{BlockDeviceLaws disk} (part : Z) (g : geometry) (G : geometry_ok g).

(** The bytes a chain holds. *)
Definition content (d : disk) (cs : list Z) : list Z := concat (map (cluster g d) cs).

Lemma content_cons (d : disk) c cs : content d (c :: cs) = cluster g d c ++ content d cs.
Proof. done. Qed.
Lemma cluster_buffer_ok (d : disk) c : volume part g d -> valid g c -> buffer_ok (cluster g d c).
Proof.
  intros V Hc. unfold cluster, buffer_ok, CLUSTER_SIZE.
  assert (A : forall i, 0 <= i < 8 -> sector_ok (default [] (dev_read d (data_sector g c i)))).
  { intros i Hi. destruct (vol_sectors _ _ _ V (data_sector g c i)) as [s Es].
    - pose proof (layout g G). unfold valid, data_sector, volume_end in *. lia.
    - rewrite Es. by eapply dev_read_ok. }
  change (seqZ 0 8) with [0; 1; 2; 3; 4; 5; 6; 7]. cbn [map concat]. unfold SECTOR_SIZE in A.
  destruct (A 0 ltac:(lia)) as [L0 F0]. destruct (A 1 ltac:(lia)) as [L1 F1]. destruct (A 2 ltac:(lia)) as [L2 F2].
  destruct (A 3 ltac:(lia)) as [L3 F3]. destruct (A 4 ltac:(lia)) as [L4 F4]. destruct (A 5 ltac:(lia)) as [L5 F5].
  destruct (A 6 ltac:(lia)) as [L6 F6]. destruct (A 7 ltac:(lia)) as [L7 F7]. unfold SECTOR_SIZE in *.
  split; [rewrite !length_app; cbn [length]; lia|]. by rewrite !Forall_app.
Qed.

Lemma length_content (d : disk) cs :
  volume part g d -> (forall x, x ∈ cs -> valid g x) ->
  Z.of_nat (length (content d cs)) = CLUSTER_SIZE * Z.of_nat (length cs).
Proof.
  intros V. induction cs as [|x cs IH]; intros Hv; [done|].
  rewrite content_cons, length_app, Nat2Z.inj_add, IH by (intros; apply Hv; by right).
  destruct (cluster_buffer_ok d x V) as [-> _]; [apply Hv; by left|]. cbn [length]. lia.
Qed.

(** The next cluster of a chain that goes on. *)
Lemma next_in_chain d c x cs :
  volume part g d -> valid g c -> chain g (fat g d) (fat g d c) (x :: cs) ->
  get_next_cluster part c d = Done (x, d) /\ fat g d c = x.
Proof.
  intros V Hv (-> & Hx & _). pose proof (geo_clusters _ G). unfold valid in *.
  rewrite (get_next_cluster_ok part g G) by (done || lia). ztest; [lia|done].
Qed.
(** At the end of a chain the code sees cluster 0. *)
Lemma next_at_end d c :
  volume part g d -> valid g c -> FAT32_EOC <= fat g d c -> get_next_cluster part c d = Done (0, d).
Proof.
  intros V Hv He. unfold valid in Hv. rewrite (get_next_cluster_ok part g G) by (done || lia). ztest; [done|lia].
Qed.

Lemma skip_loop_ok d pre c x post :
  volume part g d -> chain g (fat g d) c (pre ++ x :: post) ->
  skip_loop part (length pre) c d = Done (Some x, d) /\ chain g (fat g d) x (x :: post).
Proof.
  intros V. revert c. induction pre as [|y pre IH]; intros c; cbn [app length skip_loop].
  - intros Hc. pose proof Hc as (-> & _). done.
  - intros (-> & Hv & Hc). pose proof (geo_clusters _ G).
    assert (exists z l, pre ++ x :: post = z :: l) as (z & l & E) by (destruct pre; cbn; eauto).
    pose proof Hc as Hc'. rewrite E in Hc'. destruct (next_in_chain d c z l V Hv Hc') as [En Ez].
    rewrite (bind_done _ _ _ _ _ En). destruct Hc' as (_ & Hvz & _). rewrite Ez in Hvz. unfold valid in Hvz.
    destruct (Z.leb_spec FAT32_EOC z); [lia|]. apply IH. by rewrite <- Ez.
Qed.

Lemma read_loop_ok d cs n c off size acc tmp :
  volume part g d -> chain g (fat g d) c cs -> 0 <= off < CLUSTER_SIZE -> 0 <= size ->
  (size = 0 \/ off + size <= CLUSTER_SIZE * Z.of_nat (length cs)) ->
  (size = 0 /\ (0 < n)%nat \/ off + size <= CLUSTER_SIZE * (Z.of_nat n - 1)) ->
  Z.of_nat (length tmp) = CLUSTER_SIZE ->
  read_loop part n c off size acc tmp d =
    Done ((Z.of_nat (length (acc ++ slice (content d cs) off size)), acc ++ slice (content d cs) off size), d).
Proof.
  intros V. revert n c off size acc tmp. unfold CLUSTER_SIZE.
  induction cs as [|x cs IH]; intros n c off size acc tmp Hc Ho Hs Hcap Hn Ht; (destruct n as [|n]; [lia|]); cbn [read_loop].
  - assert (size = 0) as -> by (cbn in *; lia). cbn [andb Z.ltb]. rewrite slice_0, app_nil_r. done.
  - destruct (Z.ltb_spec 0 size) as [Hp|]; cbn [andb].
    2: { assert (size = 0) as -> by lia. rewrite slice_0, app_nil_r. done. }
    destruct Hc as (-> & Hv & Hc). pose proof (geo_clusters _ G) as HN. pose proof Hv as Hv'. unfold valid in Hv'.
    destruct (Z.ltb_spec c FAT32_EOC); [|lia].
    rewrite (bind_done _ _ _ _ _ (read_cluster_ok part g G d c tmp V Hv Ht)). cbn [fst snd negb Z.eqb].
    destruct (cluster_buffer_ok d c V Hv) as [Hl _]. unfold CLUSTER_SIZE in *.
    set (k := Z.min (4096 - off) size) in *.
    assert (D : slice (content d (c :: cs)) off size = slice (cluster g d c) off k ++ slice (content d cs) 0 (size - k)).
    { unfold content. cbn [map concat]. rewrite slice_app by lia. by rewrite Hl. }
    rewrite D. rewrite app_assoc. destruct (Z.ltb_spec 0 (size - k)).
    + destruct cs as [|y cs]; [cbn in *; lia|].
      destruct (next_in_chain d c y cs V Hv Hc) as [En Ey]. rewrite (bind_done _ _ _ _ _ En).
      rewrite Ey in Hc. apply IH; try done; cbn [length] in *; lia.
    + assert (size - k = 0) as -> by lia. rewrite slice_0, !app_nil_r.
      rewrite (bind_done _ _ d c d) by done.
      destruct n as [|n]; [lia|]. cbn [read_loop andb Z.ltb]. by replace (0 <? 0) with false.
Qed.

Lemma next_past_end d c :
  volume part g d -> valid g c -> chain g (fat g d) (fat g d c) [] ->
  exists v, get_next_cluster part c d = Done (v, d) /\ v < 2.
Proof.
  intros V Hv Hc. unfold valid in Hv. cbn in Hc. rewrite (get_next_cluster_ok part g G) by (done || lia).
  eexists. split; [done|]. ztest; lia.
Qed.
Lemma content_ext (d d' : disk) cs :
  (forall x, x ∈ cs -> cluster g d' x = cluster g d x) -> content d' cs = content d cs.
Proof.
  intros He. unfold content. f_equal. apply map_ext_in. intros x Hx%list_elem_of_In. by apply He.
Qed.

Lemma write_one d c off l :
  volume part g d -> valid g c -> 0 <= off -> off + Z.of_nat (length l) <= CLUSTER_SIZE ->
  Forall (fun b => 0 <= b < 256) l ->
  exists d', write_cluster part c (put (cluster g d c) off l) d = Done (0, d') /\ volume part g d' /\
    cluster g d' c = put (cluster g d c) off l /\
    (forall x, valid g x -> x <> c -> cluster g d' x = cluster g d x) /\
    (forall x, 0 <= x < g_clusters g -> fat g d' x = fat g d x).
Proof.
  intros V Hv Ho Hl Hb. destruct (cluster_buffer_ok d c V Hv) as [Hlen Hby].
  destruct (write_cluster_ok part g G d c (put (cluster g d c) off l)) as (d' & E & V' & C & F); [done..| |].
  { split; [rewrite length_put by lia; done|by apply put_Forall]. }
  exists d'. split; [done|]. split; [done|]. split; [by rewrite C, decide_True|]. split; [|done].
  intros x Hx Hn. by rewrite C, decide_False.
Qed.

(** One round of the loop: what it copies, and where it goes on. *)
Lemma write_loop_step d c cs n off bytes w :
  volume part g d -> chain g (fat g d) c (c :: cs) -> 0 <= off < CLUSTER_SIZE ->
  Forall (fun b => 0 <= b < 256) bytes -> 0 < Z.of_nat (length bytes) ->
  let k := Z.min (CLUSTER_SIZE - off) (Z.of_nat (length bytes)) in
  exists d1, volume part g d1 /\ cluster g d1 c = put (cluster g d c) off (take (Z.to_nat k) bytes) /\
    (forall x, valid g x -> x <> c -> cluster g d1 x = cluster g d x) /\
    (forall x, 0 <= x < g_clusters g -> fat g d1 x = fat g d x) /\
    chain g (fat g d1) (fat g d c) cs /\
    exists next, (match cs with [] => next < 2 | y :: _ => next = y end \/ Z.of_nat (length bytes) = k) /\
      write_loop part (S n) c off bytes w d = write_loop part n next 0 (drop (Z.to_nat k) bytes) (w + k) d1.
Proof.
  intros V Hch Ho Hb Hp k. pose proof (geo_clusters _ G) as HN. pose proof Hch as (_ & Hv & Hc).
  destruct (write_one d c off (take (Z.to_nat k) bytes)) as (d1 & E1 & V1 & C1 & O1 & F1); [done..|lia| | |].
  { rewrite length_take. lia. }
  { by apply Forall_take. }
  exists d1. do 4 (split; [done|]). assert (Hc1 : chain g (fat g d1) (fat g d c) cs).
  { eapply chain_ext, Hc. intros y Hy. pose proof (chain_valid g _ _ _ _ Hc Hy) as Hy'. unfold valid in Hy'.
    apply F1. lia. }
  split; [done|]. unfold valid in Hv. cbn [write_loop].
  destruct (Z.ltb_spec 0 (Z.of_nat (length bytes))); [|lia]. destruct (Z.ltb_spec c FAT32_EOC); [|lia]. cbn [andb].
  rewrite (bind_done _ _ _ _ _ (read_cluster_ok part g G d c (replicate (Z.to_nat CLUSTER_SIZE) 0) V Hv
    ltac:(rewrite length_replicate; done))).
  cbn [fst snd negb Z.eqb]. fold k. rewrite (bind_done _ _ _ _ _ E1). cbn [negb Z.eqb].
  destruct (Z.ltb_spec 0 (Z.of_nat (length bytes) - k)).
  2: { exists c. split; [right; lia|done]. }
  rewrite <- (F1 c) in Hc1 by lia.
  destruct cs as [|y cs].
  - destruct (next_past_end d1 c V1 Hv Hc1) as (v & Ev & Hlt). exists v. split; [by left|].
    rewrite (bind_done _ _ _ _ _ Ev). unfold FAT32_EOC. destruct (Z.leb_spec 0x0FFFFFF8 v); [lia|done].
  - destruct (next_in_chain d1 c y cs V1 Hv Hc1) as [Ev Ey]. exists y. split; [by left|].
    rewrite (bind_done _ _ _ _ _ Ev). destruct Hc1 as (_ & Hvy & _). rewrite Ey in Hvy. unfold valid in Hvy.
    destruct (Z.leb_spec FAT32_EOC y); [lia|done].
Qed.

Lemma write_loop_nil n c w d : write_loop part (S n) c 0 [] w d = Done ((0, w), d).
Proof. done. Qed.
(** At a number that is no cluster the loop gives up with -4. *)
Lemma write_loop_no_cluster n c bytes w d :
  c < 2 -> 0 < Z.of_nat (length bytes) -> write_loop part (S n) c 0 bytes w d = Done ((-4, w), d).
Proof.
  intros Hc Hb. cbn [write_loop]. destruct (Z.ltb_spec 0 (Z.of_nat (length bytes))); [|lia].
  destruct (Z.ltb_spec c FAT32_EOC); [|unfold FAT32_EOC in *; lia]. cbn [andb].
  unfold read_cluster. destruct (Z.ltb_spec c 2); [done|lia].
Qed.

Lemma put_content_cons (d : disk) c cs off (l : list Z) :
  volume part g d -> valid g c -> 0 <= off < CLUSTER_SIZE ->
  let k := Z.to_nat (Z.min (CLUSTER_SIZE - off) (Z.of_nat (length l))) in
  put (content d (c :: cs)) off l = put (cluster g d c) off (take k l) ++ put (content d cs) 0 (drop k l).
Proof.
  intros V Hv Ho k. destruct (cluster_buffer_ok d c V Hv) as [Hl _].
  rewrite content_cons, put_app by lia. by rewrite Hl.
Qed.

(** Bytes written along a chain: the clusters of the chain hold them, up to
    its capacity; past it the code meets no cluster and gives up with -4. *)
Lemma write_loop_ok cs n c off bytes w (d : disk) :
  volume part g d -> chain g (fat g d) c cs -> cs <> [] ->
  0 <= off < CLUSTER_SIZE -> Forall (fun b => 0 <= b < 256) bytes ->
  off + Z.of_nat (length bytes) <= CLUSTER_SIZE * (Z.of_nat n - 1) -> (0 < n)%nat ->
  let cap := CLUSTER_SIZE * Z.of_nat (length cs) - off in
  exists d', write_loop part n c off bytes w d =
      Done ((if Z.of_nat (length bytes) <=? cap then 0 else -4, w + Z.min cap (Z.of_nat (length bytes))), d') /\
    volume part g d' /\ content d' cs = put (content d cs) off (take (Z.to_nat cap) bytes) /\
    (forall x, valid g x -> x ∉ cs -> cluster g d' x = cluster g d x) /\
    (forall x, 0 <= x < g_clusters g -> fat g d' x = fat g d x).
Proof.
  revert n c off bytes w d. induction cs as [|x cs IH]; [done|].
  intros n c off bytes w d V Hc _ Ho Hb Hn Hn0 cap. destruct n as [|n]; [lia|].
  destruct (decide (bytes = [])) as [->|Hne].
  { exists d. rewrite (take_nil (Z.to_nat cap)), (put_nil (content d (x :: cs))).
    unfold CLUSTER_SIZE in *. cbn [length] in cap. change (Z.of_nat (length [])) with 0.
    replace (0 <=? cap) with true by (symmetry; zbool; lia). replace (Z.min cap 0) with 0 by lia.
    rewrite Z.add_0_r. done. }
  assert (Hp : 0 < Z.of_nat (length bytes)) by (destruct bytes; cbn; [done|lia]).
  pose proof Hc as (-> & Hv & _). pose proof (chain_nodup g G _ _ _ Hc) as [Hx _]%list.NoDup_cons.
  destruct (write_loop_step d c cs n off bytes w V Hc Ho Hb Hp) as (d1 & V1 & C1 & O1 & F1 & Hc1 & next & Hnext & ->).
  set (k := Z.min (CLUSTER_SIZE - off) (Z.of_nat (length bytes))) in *.
  destruct (cluster_buffer_ok d c V Hv) as [Hcl _]. unfold CLUSTER_SIZE in *. cbn [length] in cap.
  assert (Hcs : forall d2, (forall x, x ∈ cs -> cluster g d2 x = cluster g d1 x) -> content d2 cs = content d cs).
  { intros d2 E2. apply content_ext. intros y Hy. rewrite E2 by done.
    apply O1; [by eapply (chain_valid g)|by intros ->]. }
  destruct (decide (Z.of_nat (length bytes) = k)) as [Ek|Ek].
  - (* the bytes end in this cluster *)
    rewrite (drop_ge bytes) by lia. destruct n as [|n]; [lia|]. rewrite write_loop_nil. exists d1.
    split; [|split; [done|split; [|split; [|done]]]].
    + destruct (Z.leb_spec (Z.of_nat (length bytes)) cap); [|lia].
      by replace (Z.min cap (Z.of_nat (length bytes))) with k by lia.
    + rewrite put_content_cons by done. unfold CLUSTER_SIZE. rewrite (take_ge bytes (Z.to_nat cap)) by lia. rewrite drop_ge by lia. rewrite put_nil.
      rewrite (content_cons d1), C1, (Hcs d1) by done. done.
    + intros y Hy Hny. apply O1; [done|set_solver].
  - destruct Hnext as [Hnext|]; [|done].
    assert (Hk : k = 4096 - off) by lia. destruct cs as [|y cs].
    + (* no cluster follows *)
      destruct n as [|n]; [lia|]. rewrite write_loop_no_cluster by (rewrite ?length_drop; lia). exists d1.
      split; [|split; [done|split; [|split; [|done]]]].
      * cbn [length] in cap. destruct (Z.leb_spec (Z.of_nat (length bytes)) cap); [lia|].
        by replace (Z.min cap (Z.of_nat (length bytes))) with k by lia.
      * unfold content. cbn [map concat length] in *. rewrite !app_nil_r, C1. do 2 f_equal. lia.
      * intros z Hz Hnz. apply O1; [done|set_solver].
    + subst next. assert (fat g d c = y) as Ey by (by destruct Hc1 as (-> & _)). rewrite Ey in Hc1.
      destruct (IH n y 0 (drop (Z.to_nat k) bytes) (w + k) d1) as (d2 & E2 & V2 & C2 & O2 & F2);
        [done..|lia|by apply Forall_drop|rewrite length_drop; lia|lia|].
      exists d2. rewrite length_drop in E2. cbn [length] in *.
      split; [|split; [done|split; [|split]]].
      * rewrite E2. unfold cap. replace (w + k + _) with (w + Z.min (4096 * Z.of_nat (S (S (length cs))) - off) (Z.of_nat (length bytes))) by lia.
        repeat ztest; (done || lia).
      * rewrite put_content_cons, (content_cons d2), O2 by done. unfold CLUSTER_SIZE. rewrite C1, C2, (Hcs d1) by done. rewrite !length_take. f_equal.
        -- rewrite take_take. do 2 f_equal. lia.
        -- f_equal. rewrite take_drop_commute. do 2 f_equal; lia.
      * intros z Hz Hnz. rewrite O2, O1; try done; set_solver.
      * intros z Hz. rewrite F2, F1; done.
Qed.

(** The cluster of a chain that holds a given offset. *)
Lemma chain_split (d : disk) c cs offset :
  volume part g d -> chain g (fat g d) c cs -> 0 <= offset < CLUSTER_SIZE * Z.of_nat (length cs) ->
  exists pre x post, cs = pre ++ x :: post /\ length pre = Z.to_nat (offset / CLUSTER_SIZE) /\
    skip_loop part (Z.to_nat (offset / CLUSTER_SIZE)) c d = Done (Some x, d) /\
    chain g (fat g d) x (x :: post) /\
    (forall d', content d' cs = content d' pre ++ content d' (x :: post)) /\
    (forall d', volume part g d' -> Z.of_nat (length (content d' pre)) = offset - offset mod CLUSTER_SIZE).
Proof.
  intros V Hc Ho. pose proof (Z.div_mod offset CLUSTER_SIZE ltac:(done)) as Hdm.
  pose proof (Z.mod_pos_bound offset CLUSTER_SIZE ltac:(done)) as Hm. unfold CLUSTER_SIZE in *.
  set (n := Z.to_nat (offset / 4096)) in *.
  assert (Hn : (n < length cs)%nat) by lia. apply lookup_lt_is_Some_2 in Hn as [x Hx].
  exists (take n cs), x, (drop (S n) cs). pose proof (take_drop_middle cs n x Hx) as E.
  assert (Hl : length (take n cs) = n) by (apply lookup_lt_Some in Hx; rewrite length_take; lia).
  rewrite <- E in Hc. pose proof (skip_loop_ok d _ c x _ V Hc) as [Hs Hch]. rewrite Hl in Hs.
  split; [done|]. split; [done|]. split; [done|]. split; [done|].
  split; intros d'.
  - rewrite <- E at 1. unfold content. by rewrite map_app, concat_app.
  - intros V'. rewrite (length_content d') by (first [done | intros y Hy; eapply (chain_valid g); [exact Hc|set_solver]]).
    rewrite Hl. unfold CLUSTER_SIZE. lia.
Qed.
End FileLemmas.

(** ** Entry updates *)
Definition entry_ok (e : list Z) : Prop := length e = 32%nat /\ Forall (fun b => 0 <= b < 256) e.

Section Updates.
Context {disk : Type} `{BlockDeviceLaws disk} (stk : stack) (part : Z) (g : geometry) (G : geometry_ok g).

Lemma entry_find_range n i buf attr name j :
  entry_find n i buf attr name = Some (Some j) -> i <= j < i + Z.of_nat n.
Proof.
  revert i. induction n as [|n IH]; intros i; cbn [entry_find]; [done|].
  destruct (name0 _ =? 0); [done|]. destruct (_ && _); [intros [= <-]; lia|]. intros Hj%IH. lia.
Qed.
Lemma raw_entry_ok buf i : buffer_ok buf -> 0 <= i < 128 -> entry_ok (raw_entry buf i).
Proof.
  intros [Hl Hb] Hi. unfold CLUSTER_SIZE in Hl. unfold raw_entry, slice. split.
  - rewrite length_take, length_drop. lia.
  - by apply Forall_take, Forall_drop.
Qed.
Lemma set_raw_ok buf i e : buffer_ok buf -> 0 <= i < 128 -> entry_ok e -> buffer_ok (set_raw buf i e).
Proof.
  intros [Hl Hb] Hi [He Hf]. unfold set_raw, CLUSTER_SIZE in *. split; [|by apply put_Forall].
  unfold CLUSTER_SIZE. rewrite length_put by lia. done.
Qed.

(** An update touches the directory's own clusters and no table entry. *)
Lemma update_loop_frame n cs c buf attr name f (d d1 : disk) r :
  volume part g d -> chain g (fat g d) c cs -> cs <> [] -> Z.of_nat (length buf) = CLUSTER_SIZE ->
  (forall e, entry_ok e -> entry_ok (f e)) ->
  update_loop part n c buf attr name f d = Done (r, d1) ->
  volume part g d1 /\ (forall x, 0 <= x < g_clusters g -> fat g d1 x = fat g d x) /\
  (forall x, valid g x -> x ∉ cs -> cluster g d1 x = cluster g d x).
Proof.
  intros V Hc Hne Hl Hf. revert cs c buf Hc Hne Hl.
  induction n as [|n IH]; intros cs c buf Hc Hne Hl; cbn [update_loop]; [done|].
  destruct (Z.ltb_spec c 2); [by intros [= _ <-]|].
  destruct cs as [|x cs]; [done|]. destruct Hc as (-> & Hv & Hc).
  rewrite (bind_done _ _ _ _ _ (read_cluster_ok part g G d c buf V Hv Hl)). cbn [snd].
  pose proof (cluster_buffer_ok part g G d c V Hv) as Hb.
  destruct (entry_find 128 0 (cluster g d c) attr name) as [[i|]|] eqn:Ei.
  - pose proof (entry_find_range _ _ _ _ _ _ Ei) as Hi. change (0 + Z.of_nat 128) with 128 in Hi.
    destruct (write_cluster_ok part g G d c (set_raw (cluster g d c) i (f (raw_entry (cluster g d c) i))))
      as (d' & E & V' & C & F); [done..|by apply set_raw_ok, Hf, raw_entry_ok|].
    rewrite (bind_done _ _ _ _ _ E). intros [= _ <-]. split; [done|]. split; [done|].
    intros y Hy Hn. rewrite C by done. rewrite decide_False; [done|]. intros ->. apply Hn. by left.
  - by intros [= _ <-].
  - destruct cs as [|y cs].
    + destruct (next_past_end part g G d c V Hv Hc) as (v & Ev & Hlt). rewrite (bind_done _ _ _ _ _ Ev).
      destruct n as [|n]; cbn [update_loop]; [done|]. destruct (Z.ltb_spec v 2); [|lia]. by intros [= _ <-].
    + destruct (next_in_chain part g G d c y cs V Hv Hc) as [Ev Ey]. rewrite (bind_done _ _ _ _ _ Ev).
      rewrite Ey in Hc. intros E. destruct (IH _ _ _ Hc ltac:(done) (proj1 Hb) E) as (V1 & F1 & C1). split; [done|]. split; [done|].
      intros z Hz Hn. apply C1; [done|]. intros Hi. apply Hn. by right.
Qed.
End Updates.

(** ** Main results: files *)

(** C4: reading a file returns exactly the bytes of its cluster chain from
    the offset on, cut at the file size and at the size asked for, and the
    count of those bytes.  The loop needs at most [loop_bound size] rounds. *)
Theorem fat32_read_file_bytes_spec {disk : Type} `{BlockDeviceLaws disk} (stk : stack) (part : Z) (g : geometry)
    (d : disk) (p : path) (c file_size offset size : Z) (cs : list Z) :
  geometry_ok g -> volume part g d -> Z.of_nat (length (stk_buf stk)) = CLUSTER_SIZE ->
  find_cluster_from_path stk part p d = Done (c, d) -> get_file_size stk part p d = Done (file_size, d) ->
  chain g (fat g d) c cs -> cs <> [] -> 0 <= file_size <= CLUSTER_SIZE * Z.of_nat (length cs) ->
  0 <= offset -> 0 <= size -> offset + size < 2 ^ 64 ->
  let bytes := slice (take (Z.to_nat file_size) (content g d cs)) offset size in
  fat32_read_file_bytes stk part p offset size d = Done ((Z.of_nat (length bytes), bytes), d).
Proof.
  intros G V Hb Hfind Hsize Hc Hne Hfs Ho Hs Hov bytes. unfold bytes. rewrite slice_take by lia.
  unfold fat32_read_file_bytes. rewrite (bind_done _ _ _ _ _ Hfind).
  destruct (Z.eqb_spec c 0) as [->|_].
  { destruct cs; [done|]. destruct Hc as (_ & Hv & _). unfold valid in Hv. lia. }
  rewrite (bind_done _ _ _ _ _ Hsize). destruct (Z.leb_spec file_size offset).
  { replace (Z.min size _) with 0 by lia. done. }
  rewrite (u64_id (offset + size)) by lia.
  replace (if _ <? _ then _ else _) with (Z.min size (Z.max 0 (file_size - offset))) by (ztest; lia).
  set (n := Z.min size _).
  destruct (chain_split part g G d c cs offset V Hc ltac:(lia)) as (pre & x & post & -> & Hpre & Hskip & Hch & Hcont & Hlen).
  rewrite (bind_done _ _ _ _ _ Hskip).
  pose proof (Z.mod_pos_bound offset CLUSTER_SIZE ltac:(done)) as Hm. specialize (Hlen d V).
  rewrite Hcont, slice_app_r by lia. rewrite Hlen. replace (offset - (offset - offset mod CLUSTER_SIZE)) with (offset mod CLUSTER_SIZE) by lia.
  rewrite length_app in Hfs. cbn [length] in Hfs.
  rewrite (read_loop_ok part g G d (x :: post)); try done; try lia; unfold loop_bound, CLUSTER_SIZE in *; cbn [length].
  - right. pose proof (Z.div_mod offset 4096). pose proof (Z.div_pos offset 4096). lia.
  - right. pose proof (Z.div_mod n 4096). pose proof (Z.mod_pos_bound n 4096). pose proof (Z.div_pos n 4096). lia.
Qed.

#[local] Lemma loop_bound_enough off size :
  0 <= off < CLUSTER_SIZE -> 0 <= size -> off + size <= CLUSTER_SIZE * (Z.of_nat (loop_bound size) - 1).
Proof.
  unfold loop_bound, CLUSTER_SIZE. intros. pose proof (Z.div_mod size 4096).
  pose proof (Z.mod_pos_bound size 4096). pose proof (Z.div_pos size 4096). lia.
Qed.
(** What both write theorems share: the data is placed up to the capacity of
    the chain, and the table stays. *)
Lemma write_bytes_ok {disk : Type} `{BlockDeviceLaws disk} (fuel : nat) (stk : stack) (part : Z) (g : geometry)
    (d : disk) (p : path) (c file_size offset : Z) (bytes cs : list Z) :
  geometry_ok g -> volume part g d ->
  find_cluster_from_path stk part p d = Done (c, d) -> get_file_size stk part p d = Done (file_size, d) ->
  chain g (fat g d) c cs -> 0 <= offset <= file_size -> offset < CLUSTER_SIZE * Z.of_nat (length cs) ->
  Forall (fun b => 0 <= b < 256) bytes ->
  let size := Z.of_nat (length bytes) in
  let cap := CLUSTER_SIZE * Z.of_nat (length cs) - offset in
  exists d', volume part g d' /\
    content g d' cs = put (content g d cs) offset (take (Z.to_nat cap) bytes) /\
    (forall x, valid g x -> x ∉ cs -> cluster g d' x = cluster g d x) /\
    (forall x, 0 <= x < g_clusters g -> fat g d' x = fat g d x) /\
    fat32_write_file_bytes fuel stk part p bytes offset d =
      if size <=? cap then
        (_ ← when (file_size <? u64 (offset + size)) (set_file_size fuel stk part p (u32 (offset + size))); mret 0) d'
      else Done (-4, d').
Proof.
  intros G V Hfind Hsize Hc Ho Hcap Hb size cap.
  destruct (chain_split part g G d c cs offset V Hc ltac:(lia)) as (pre & x & post & -> & Hpre & Hskip & Hch & Hcont & Hlen).
  pose proof (Z.mod_pos_bound offset CLUSTER_SIZE ltac:(done)) as Hm.
  pose proof (Z.div_mod offset CLUSTER_SIZE ltac:(done)) as Hdm. pose proof (Z.div_pos offset CLUSTER_SIZE).
  destruct (write_loop_ok part g G (x :: post) (loop_bound size) x (offset mod CLUSTER_SIZE) bytes 0 d)
    as (d' & E & V' & C & O & F); [done..|by apply loop_bound_enough; [|lia]|unfold loop_bound; lia|].
  pose proof (chain_nodup g G _ _ _ Hc) as Hnd. apply list.NoDup_app in Hnd as (_ & Hnd & _).
  assert (Hvp : forall y, y ∈ pre -> valid g y).
  { intros y Hy. eapply (chain_valid g); [exact Hc|apply elem_of_app; by left]. }
  set (cap' := CLUSTER_SIZE * Z.of_nat (length (x :: post)) - offset mod CLUSTER_SIZE) in *.
  assert (Ecap : cap = cap').
  { unfold cap, cap', CLUSTER_SIZE in *. rewrite length_app. lia. }
  exists d'. split; [done|]. split; [|split; [|split; [done|]]].
  - rewrite !Hcont, C, put_app_r by (rewrite Hlen by done; lia). rewrite Hlen by done. f_equal.
    + apply content_ext. intros y Hy. apply O; [by apply Hvp|]. by apply Hnd.
    + rewrite Ecap. f_equal. lia.
  - intros y Hy Hn. apply O; [done|]. intros Hi. apply Hn, elem_of_app. by right.
  - unfold fat32_write_file_bytes. rewrite (bind_done _ _ _ _ _ Hfind).
    destruct (Z.eqb_spec c 0) as [->|_].
    { pose proof (chain_valid g _ _ _ (default 0 (head (pre ++ x :: post))) Hc) as Hv.
      destruct pre; cbn in *; destruct Hc as (-> & Hv0 & _); unfold valid in Hv0; lia. }
    rewrite (bind_done _ _ d (Some c) d) by done. rewrite (bind_done _ _ _ _ _ Hsize).
    destruct (Z.ltb_spec file_size offset); [lia|]. rewrite (bind_done _ _ _ _ _ Hskip).
    rewrite (bind_done _ _ _ _ _ E). fold size. rewrite <- Ecap. cbn [fst snd].
    destruct (Z.leb_spec size cap); [|done]. by rewrite Z.add_0_l, Z.min_r by lia.
Qed.

(** C23: a write that stays inside the file returns 0, changes exactly the
    bytes of the chain it covers, no other cluster, and no table entry. *)
Theorem fat32_write_in_place {disk : Type} `{BlockDeviceLaws disk} (fuel : nat) (stk : stack) (part : Z) (g : geometry)
    (d : disk) (p : path) (c file_size offset : Z) (bytes cs : list Z) :
  geometry_ok g -> volume part g d ->
  find_cluster_from_path stk part p d = Done (c, d) -> get_file_size stk part p d = Done (file_size, d) ->
  chain g (fat g d) c cs -> file_size <= CLUSTER_SIZE * Z.of_nat (length cs) -> file_size < 2 ^ 64 ->
  0 <= offset < file_size -> offset + Z.of_nat (length bytes) <= file_size -> Forall (fun b => 0 <= b < 256) bytes ->
  exists d', fat32_write_file_bytes fuel stk part p bytes offset d = Done (0, d') /\ volume part g d' /\
    content g d' cs = put (content g d cs) offset bytes /\
    (forall x, valid g x -> x ∉ cs -> cluster g d' x = cluster g d x) /\
    (forall x, valid g x -> fat g d' x = fat g d x).
Proof.
  intros G V Hfind Hsize Hc Hcap Hfs Ho Hl Hb.
  destruct (write_bytes_ok fuel stk part g d p c file_size offset bytes cs) as (d' & V' & C & O & F & E); try done; try lia.
  exists d'. rewrite E. destruct (Z.leb_spec (Z.of_nat (length bytes)) (CLUSTER_SIZE * Z.of_nat (length cs) - offset)); [|lia].
  rewrite u64_id by lia. destruct (Z.ltb_spec file_size (offset + Z.of_nat (length bytes))); [lia|].
  split; [done|]. split; [done|]. split; [|split; [done|]].
  - rewrite C, take_ge by lia. done.
  - intros x Hx. apply F. unfold valid in Hx. lia.
Qed.

(** A write past the last cluster of a file never extends it: whatever
    space is free, the code fills the chain, allocates nothing and returns -4,
    because [get_next_cluster] turns the end mark into 0 before it is tested. *)
Theorem fat32_write_never_extends {disk : Type} `{BlockDeviceLaws disk} (fuel : nat) (stk : stack) (part : Z)
    (g : geometry) (d : disk) (p : path) (c file_size offset : Z) (bytes cs : list Z) :
  geometry_ok g -> volume part g d ->
  find_cluster_from_path stk part p d = Done (c, d) -> get_file_size stk part p d = Done (file_size, d) ->
  chain g (fat g d) c cs -> 0 <= offset <= file_size -> offset < CLUSTER_SIZE * Z.of_nat (length cs) ->
  CLUSTER_SIZE * Z.of_nat (length cs) < offset + Z.of_nat (length bytes) -> Forall (fun b => 0 <= b < 256) bytes ->
  exists d', fat32_write_file_bytes fuel stk part p bytes offset d = Done (-4, d') /\ volume part g d' /\
    (forall x, valid g x -> fat g d' x = fat g d x) /\
    content g d' cs = put (content g d cs) offset (take (Z.to_nat (CLUSTER_SIZE * Z.of_nat (length cs) - offset)) bytes).
Proof.
  intros G V Hfind Hsize Hc Ho Hcap Hl Hb.
  destruct (write_bytes_ok fuel stk part g d p c file_size offset bytes cs) as (d' & V' & C & O & F & E); try done.
  exists d'. rewrite E. destruct (Z.leb_spec (Z.of_nat (length bytes)) (CLUSTER_SIZE * Z.of_nat (length cs) - offset)); [lia|].
  split; [done|]. split; [done|]. split; [|done]. intros x Hx. apply F. unfold valid in Hx. lia.
Qed.

(** ** 8.3 names: lemmas *)
Definition pad (n : nat) (l : list Z) : list Z := take n l ++ replicate (n - length l) 32.

Section Names.
#[local] Lemma insert_middle (pre post : list Z) m c :
  <[length pre := c]> (pre ++ m :: post) = (pre ++ [c]) ++ post.
Proof. rewrite insert_app_r_alt by lia. rewrite Nat.sub_diag. cbn. by rewrite <- app_assoc. Qed.

Lemma name_loop_spec n base rest pre mid post :
  46 ∉ base -> match rest with [] => True | c :: _ => c = 46 end -> length mid = Nat.min n (length base) ->
  name_loop n (length pre) (base ++ rest) (pre ++ mid ++ post) =
    (drop n base ++ rest, pre ++ map toupper (take n base) ++ post).
Proof.
  revert n pre mid. induction base as [|c base IH]; intros [|n] pre mid Hd Hr Hl; cbn in Hl;
    try (destruct mid; [|done]).
  - done.
  - cbn [app drop take map]. destruct rest as [|c r]; [done|]. subst c. done.
  - done.
  - destruct mid as [|m mid]; [done|]. injection Hl as Hl. cbn [name_loop app].
    destruct (Z.eqb_spec c 46) as [->|]; [exfalso; apply Hd; by left|].
    rewrite insert_middle. replace (S (length pre)) with (length (pre ++ [toupper c])) by (rewrite length_app; cbn; lia).
    rewrite IH; [|intros Hin; apply Hd; by right|done|done]. cbn [drop take map]. by rewrite <- !app_assoc.
Qed.
Lemma ext_loop_spec n src pre mid post :
  length mid = Nat.min n (length src) ->
  ext_loop n (length pre) src (pre ++ mid ++ post) = pre ++ map toupper (take n src) ++ post.
Proof.
  revert n pre mid. induction src as [|c src IH]; intros [|n] pre mid Hl; cbn in Hl; try (destruct mid; [|done]); try done.
  destruct mid as [|m mid]; [done|]. injection Hl as Hl. cbn [ext_loop app]. rewrite insert_middle.
  replace (S (length pre)) with (length (pre ++ [toupper c])) by (rewrite length_app; cbn; lia).
  rewrite IH by done. cbn [take map]. by rewrite <- !app_assoc.
Qed.
Lemma strchr_dot base ext : 46 ∉ base -> strchr (base ++ 46 :: ext) 46 = Some (46 :: ext).
Proof.
  induction base as [|c base IH]; intros Hd; [done|]. cbn [app strchr].
  destruct (Z.eqb_spec c 46) as [->|]; [exfalso; apply Hd; by left|]. apply IH. intros Hin. apply Hd. by right.
Qed.

(** The name buffer after the base, and after the extension. *)
#[local] Lemma base_buffer base rest :
  46 ∉ base -> match rest with [] => True | c :: _ => c = 46 end ->
  name_loop 8 0 (base ++ rest) blank_name = (drop 8 base ++ rest, pad 8 (map toupper base) ++ replicate 3 32).
Proof.
  intros Hd Hr. unfold blank_name.
  replace (replicate 11 32) with ([] ++ replicate (Nat.min 8 (length base)) 32 ++ replicate (11 - Nat.min 8 (length base)) 32)
    by (cbn [app]; rewrite <- replicate_add; f_equal; lia).
  change 0%nat with (@length Z []). rewrite name_loop_spec by (done || by rewrite length_replicate).
  f_equal. unfold pad. cbn [app length]. rewrite fmap_take, length_fmap, <- app_assoc, <- replicate_add. do 2 f_equal. lia.
Qed.
Lemma length_pad n l : length (pad n l) = n.
Proof. unfold pad. rewrite length_app, length_take, length_replicate. lia. Qed.
#[local] Lemma ext_buffer base8 ext :
  length base8 = 8%nat -> ext_loop 3 8 ext (base8 ++ replicate 3 32) = base8 ++ pad 3 (map toupper ext).
Proof.
  intros Hl. rewrite <- Hl at 1.
  replace (replicate 3 32) with (replicate (Nat.min 3 (length ext)) 32 ++ replicate (3 - Nat.min 3 (length ext)) 32)
    by (rewrite <- replicate_add; f_equal; lia).
  rewrite ext_loop_spec by (by rewrite length_replicate). unfold pad. rewrite fmap_take, length_fmap. do 3 f_equal. lia.
Qed.

Lemma format_dotted base ext :
  46 ∉ base -> format_name_83 (base ++ 46 :: ext) = pad 8 (map toupper base) ++ pad 3 (map toupper ext).
Proof.
  intros Hd. unfold format_name_83. rewrite base_buffer, strchr_dot by done. cbn [snd tail].
  apply ext_buffer, length_pad.
Qed.
Lemma match_dotted base ext name :
  46 ∉ base -> match_name (base ++ 46 :: ext) name =
    bool_decide (name = pad 8 (map toupper base) ++ (if (length base <=? 8)%nat then pad 3 (map toupper ext) else replicate 3 32)).
Proof.
  intros Hd. unfold match_name. rewrite base_buffer by done. destruct (Nat.leb_spec (length base) 8).
  - rewrite drop_ge by done. cbn [app]. by rewrite ext_buffer by apply length_pad.
  - destruct (drop 8 base) as [|c r] eqn:E; [apply (f_equal length) in E; rewrite length_drop in E; cbn in E; lia|].
    cbn [app]. destruct (Z.eqb_spec c 46) as [->|]; [|done].
    exfalso. apply Hd. rewrite <- (take_drop 8 base), E. apply elem_of_app. right. by left.
Qed.
End Names.

(** With at most eight characters before the dot, the lookup
    ([match_name]) accepts exactly the name that creation ([format_name_83])
    stores: the base and the extension upper-cased, cut and padded to 8 and 3.
    With more than eight, the two disagree: the stored name is never found. *)
Theorem lookup_name_is_stored_name (base ext : path) (name : list Z) :
  46 ∉ base ->
  format_name_83 (base ++ 46 :: ext) = pad 8 (map toupper base) ++ pad 3 (map toupper ext) /\
  ((length base <= 8)%nat ->
     match_name (base ++ 46 :: ext) name = bool_decide (name = format_name_83 (base ++ 46 :: ext))) /\
  ((8 < length base)%nat -> (exists c r, ext = c :: r /\ c <> 32) ->
     match_name (base ++ 46 :: ext) (format_name_83 (base ++ 46 :: ext)) = false).
Proof.
  intros Hd. rewrite format_dotted, !match_dotted by done. split; [done|]. split.
  - intros Hl. destruct (Nat.leb_spec (length base) 8); [done|lia].
  - intros Hl (c & r & -> & Hc). destruct (Nat.leb_spec (length base) 8); [lia|].
    apply bool_decide_eq_false. intros E. apply app_inv_head in E. cbn in E. injection E as E _.
    unfold toupper in E. destruct (Z.leb_spec 97 c), (Z.leb_spec c 122); cbn in E; lia.
Qed.
Lemma lookup_name_is_stored_name_witness :
  match_name [108; 111; 110; 103; 110; 97; 109; 101; 49; 46; 116] (format_name_83 [108; 111; 110; 103; 110; 97; 109; 101; 49; 46; 116]) = false.
Proof.
  destruct (lookup_name_is_stored_name [108; 111; 110; 103; 110; 97; 109; 101; 49] [116] []) as (_ & _ & L).
  - rewrite !not_elem_of_cons. repeat split; try lia. apply not_elem_of_nil.
  - apply L; [cbn; lia|]. exists 116, []. split; [reflexivity|lia].
Defined.

(** The directory entry that creation writes decodes to the name, the
    attribute, the first cluster and the size 0 it was made from. *)
Theorem new_dirent_roundtrip (name : list Z) (attr c : Z) :
  length name = 11%nat -> 0 <= attr < 256 -> 0 <= c < 2 ^ 32 ->
  let e := dirent_of (dirent_bytes (new_dirent name attr c)) in
  length (dirent_bytes (new_dirent name attr c)) = 32%nat /\
  e = new_dirent name attr c /\ get_entry_cluster e = c.
Proof.
  intros Hn Ha Hc. do 11 (destruct name as [|? name]; [done|]). destruct name; [|done].
  change 0xFFFF with (Z.ones 16). unfold new_dirent. change 0xFFFF with (Z.ones 16).
  rewrite !Z.land_ones, Z.shiftr_div_pow2 by lia.
  set (hi := (c / 2 ^ 16) mod 2 ^ 16). set (lo := c mod 2 ^ 16).
  assert (Hlo : 0 <= lo < 65536) by (apply Z.mod_pos_bound; lia).
  assert (Hhi : 0 <= hi < 65536) by (apply Z.mod_pos_bound; lia).
  assert (R : forall x, 0 <= x < 65536 -> x mod 256 + 256 * (x / 256 mod 256) = x).
  { intros x Hx. rewrite (Z.mod_small (x / 256)); [pose proof (Z.div_mod x 256); lia|].
    split; [apply Z.div_pos; lia|apply Z.div_lt_upper_bound; lia]. }
  assert (E : dirent_of (dirent_bytes (DirEnt [z; z0; z1; z2; z3; z4; z5; z6; z7; z8; z9] attr 0 0x44 0x9c1a 0x5b13 0x5b13
    hi 0x9c33 0x5b13 lo 0)) = DirEnt [z; z0; z1; z2; z3; z4; z5; z6; z7; z8; z9] attr 0 0x44 0x9c1a 0x5b13 0x5b13
    hi 0x9c33 0x5b13 lo 0).
  { unfold dirent_of, dirent_bytes, le_bytes32, le_bytes16, slice, byte, le32, le16. cbn -[Z.mul Z.add Z.modulo Z.div].
    f_equal; (apply R || reflexivity); lia. }
  cbn zeta. rewrite E. split; [done|]. split; [done|]. unfold get_entry_cluster. cbn [de_first_cluster_hi de_first_cluster_lo].
  assert (Hhi' : hi = c / 2 ^ 16).
  { apply Z.mod_small. split; [apply Z.div_pos; lia|apply Z.div_lt_upper_bound; lia]. }
  rewrite Hhi', <- Z.shiftr_div_pow2 by lia. unfold lo. apply Z.bits_inj'. intros n Hbit.
  rewrite Z.lor_spec, Z.shiftl_spec by done. destruct (Z.lt_ge_cases n 16).
  - rewrite Z.testbit_neg_r, Z.mod_pow2_bits_low by lia. done.
  - rewrite Z.shiftr_spec, Z.mod_pow2_bits_high by lia. rewrite orb_false_r. f_equal. lia.
Qed.
Lemma new_dirent_roundtrip_witness :
  get_entry_cluster (dirent_of (dirent_bytes (new_dirent blank_name 0x20 0x12345))) = 0x12345.
Proof. apply (new_dirent_roundtrip blank_name 0x20 0x12345); [reflexivity|lia|lia]. Defined.

(** ** Directories: lemmas *)
Section Directory.
Lemma raw_entry_set buf i e k :
  Z.of_nat (length buf) = CLUSTER_SIZE -> 0 <= i < 128 -> 0 <= k < 128 -> length e = 32%nat ->
  raw_entry (set_raw buf i e) k = if decide (k = i) then e else raw_entry buf k.
Proof.
  intros Hl Hi Hk He. unfold raw_entry, set_raw, slice, CLUSTER_SIZE in *. apply list_eq. intros j.
  destruct (decide (j < 32)%nat) as [Hj|Hj].
  - rewrite lookup_take_lt, lookup_drop, lookup_put by lia. case_decide as D.
    + case_decide as K; [subst; f_equal; lia|lia].
    + case_decide as K; [lia|]. rewrite lookup_take_lt, lookup_drop by lia. done.
  - rewrite lookup_take_ge by lia. case_decide; [symmetry; apply lookup_ge_None_2; lia|].
    by rewrite lookup_take_ge by lia.
Qed.

Lemma lookup_loop_zeroed buf i token n k :
  Z.of_nat (length buf) = CLUSTER_SIZE -> 0 <= i < 128 -> 0 <= k <= i -> i < k + Z.of_nat n <= 128 ->
  lookup_loop n k (set_raw buf i (zero_entry (raw_entry buf i))) token = lookup_loop (Z.to_nat (i - k)) k buf token.
Proof.
  intros Hl Hi. revert k. induction n as [|n IH]; intros k Hk Hn; [lia|]. cbn [lookup_loop].
  unfold entry_at. rewrite raw_entry_set by (done || lia). case_decide as D.
  - subst k. rewrite Z.sub_diag. done.
  - replace (Z.to_nat (i - k)) with (S (Z.to_nat (i - (k + 1)))) by lia. cbn [lookup_loop]. unfold entry_at.
    rewrite IH by lia. done.
Qed.

Lemma last_slash_loop_none p i pos : slash ∉ p -> last_slash_loop p i pos = pos.
Proof.
  revert i pos. induction p as [|c p IH]; intros i pos Hs; [done|]. cbn [last_slash_loop].
  destruct (Z.eqb_spec c slash) as [->|]; [exfalso; apply Hs; by left|]. apply IH. intros Hi. apply Hs. by right.
Qed.
Lemma last_slash_pos_app dir name : slash ∉ name -> last_slash_pos (dir ++ slash :: name) = length dir.
Proof.
  intros Hs. unfold last_slash_pos. enough (E : forall i pos, last_slash_loop (dir ++ slash :: name) i pos = (i + length dir)%nat).
  { by rewrite E. }
  induction dir as [|c dir IH]; intros i pos; cbn [app last_slash_loop length].
  - rewrite Z.eqb_refl, last_slash_loop_none by done. lia.
  - rewrite IH. lia.
Qed.
Lemma split_path dir name :
  slash ∉ name ->
  parent_path (dir ++ slash :: name) = (if bool_decide (dir = []) then root else dir) /\
  name_without_path (dir ++ slash :: name) = name.
Proof.
  intros Hs. unfold parent_path, name_without_path. rewrite last_slash_pos_app by done.
  rewrite take_app_length. split; [done|].
  replace (dir ++ slash :: name) with ((dir ++ [slash]) ++ name) by (by rewrite <- app_assoc).
  rewrite drop_app_length'; [done|]. rewrite length_app. cbn. lia.
Qed.
End Directory.

(** Rename clears the entry it leaves behind, and a cleared entry ends
    the directory: after it, lookups see only the entries in front of it, and
    every file behind it in that cluster is lost. *)
Theorem zeroed_entry_hides_the_rest (buf : list Z) (i : Z) (token : path) :
  Z.of_nat (length buf) = CLUSTER_SIZE -> 0 <= i < 128 ->
  lookup_loop 128 0 (set_raw buf i (zero_entry (raw_entry buf i))) token = lookup_loop (Z.to_nat i) 0 buf token.
Proof. intros Hl Hi. rewrite lookup_loop_zeroed by lia. by rewrite Z.sub_0_r. Qed.

(** Two results of [fat32_stat] that describe the same entry. *)
Definition same_entry (a b : fat_stat) : Prop :=
  fs_type a = fs_type b /\ fs_size a = fs_size b /\ fs_parent_cluster_id a = fs_parent_cluster_id b /\
  fs_creation_date a = fs_creation_date b /\ fs_creation_time a = fs_creation_time b /\
  fs_modified_date a = fs_modified_date b /\ fs_modified_time a = fs_modified_time b /\
  fs_last_access_date a = fs_last_access_date b.
Definition same_answer {disk : Type} (a b : outcome (fat_stat * disk)) : Prop :=
  match a, b with
  | Done (x, d), Done (y, d') => d = d' /\ same_entry x y
  | Panicked, Panicked | Faulted, Faulted | Stuck, Stuck => True
  | _, _ => False
  end.

Section StatNames.
Context {disk : Type} `{BlockDevice disk} (fuel : nat) (stk : stack) (part : Z) (n1 n2 : path).
Hypothesis same_length : length n1 = length n2.
Hypothesis same_prefix :
  slice (format_name_83 n1 ++ stk_name83 stk) 0 (Z.of_nat (length n1)) =
  slice (format_name_83 n2 ++ stk_name83 stk) 0 (Z.of_nat (length n2)).

Lemma stat_scan_same n i buf : stat_scan stk n i buf n1 = stat_scan stk n i buf n2.
Proof using same_length same_prefix.
  revert i. induction n as [|n IH]; intros i; [done|]. cbn [stat_scan]. rewrite same_prefix, same_length, IH. done.
Qed.
Lemma stat_loop_same n cur parent buf (d : disk) :
  same_answer (stat_loop stk part n cur parent buf n1 d) (stat_loop stk part n cur parent buf n2 d).
Proof using same_length same_prefix.
  revert cur buf d. induction n as [|n IH]; intros cur buf d; [done|]. cbn [stat_loop]. unfold mbind, st_bind.
  destruct (read_cluster part cur buf d) as [[r d1]| | |]; try done. rewrite stat_scan_same.
  destruct (stat_scan stk 128 0 (snd r) n2) as [[e|]|]; [by repeat split..|].
  destruct (get_next_cluster part cur d1) as [[next d2]| | |]; try done.
Qed.
End StatNames.

(** [fat32_stat] compares only as many name bytes as the name asked for
    has characters, and those bytes are padded: for names of at most eight
    characters, dot and extension included, the extension is not compared at
    all.  Two such paths that differ in the extension alone get the same
    answer, whatever the disk holds. *)
Theorem stat_ignores_extension {disk : Type} `{BlockDevice disk} (fuel : nat) (stk : stack) (part : Z) (d : disk)
    (dir base ext1 ext2 : path) :
  46 ∉ base -> slash ∉ base -> slash ∉ ext1 -> slash ∉ ext2 -> length ext1 = length ext2 ->
  (length base + 1 + length ext1 <= 8)%nat ->
  same_answer (fat32_stat fuel stk part (dir ++ slash :: base ++ 46 :: ext1) d)
              (fat32_stat fuel stk part (dir ++ slash :: base ++ 46 :: ext2) d).
Proof.
  intros Hd Hs H1 H2 Hl Hlen.
  assert (N : forall ext, slash ∉ ext -> slash ∉ base ++ 46 :: ext).
  { intros ext He Hi%elem_of_app. destruct Hi as [|Hi]; [done|]. apply elem_of_cons in Hi as [Hi|]; done. }
  assert (B : forall i, 0 <= i < 2 ->
    byte (dir ++ slash :: base ++ 46 :: ext1) i = byte (dir ++ slash :: base ++ 46 :: ext2) i).
  { intros i Hi. unfold byte. destruct dir as [|a [|b dir]]; destruct base; assert (D : i = 0 \/ i = 1) by lia;
      destruct D as [-> | ->]; reflexivity. }
  unfold fat32_stat. rewrite !B by lia.
  destruct (negb _); [by repeat split|]. destruct (byte _ 1 =? 0); [by repeat split|].
  destruct (split_path dir (base ++ 46 :: ext1) (N _ H1)) as [-> ->].
  destruct (split_path dir (base ++ 46 :: ext2) (N _ H2)) as [-> ->].
  unfold mbind, st_bind. destruct (find_cluster_from_path _ _ _ d) as [[c d1]| | |]; try done.
  apply stat_loop_same.
  - rewrite !length_app. cbn. lia.
  - rewrite !format_dotted by done. unfold slice. change (Z.to_nat 0) with 0%nat. rewrite !drop_0, !Nat2Z.id, !length_app. cbn [length].
    rewrite <- !app_assoc, !(take_app_le (pad 8 _)) by (rewrite length_pad; lia). f_equal. lia.
Qed.

(** Deleting a regular file through the file system does nothing and
    reports success: the driver's [delete] is the routine for directories,
    which refuses a file with a non-zero code, and [delete_dirent] returns
    that code as [true]. *)
Theorem delete_file_does_nothing {disk : Type} `{BlockDevice disk} (fuel : nat) (stk : stack) (junk : Z) (v : vfs)
    (d : disk) (p child : path) (m : Z) (mp : mount_point) (st : fat_stat) :
  find_mount_by_path v p = Done m -> mount_global v !! m = Some mp -> m < MAX_MOUNT_POINT ->
  get_child_path_at_level junk MAX_PATH (get_mount_deep_level v m) p = Done child ->
  fat32_stat fuel stk (mp_part mp) child d = Done (st, d) -> fs_type st = PATH_FILE ->
  @delete_dirent disk (fat32_driver fuel stk) junk v p d = Done (true, d).
Proof.
  intros Hm Hmp Hlt Hch Hst Ht.
  assert (Hmount : forall A (none : A) (k : Z -> path -> ST disk A),
    @dispatch disk junk v A none p k d = k (mp_part mp) child d).
  { intros A none k. unfold dispatch. rewrite (bind_done (lift _) _ d m d) by (unfold lift; by rewrite Hm).
    rewrite (bind_done (lift _) _ d child d) by (unfold lift; by rewrite Hch).
    assert (m =? neg64 1 = false) as -> by (apply Z.eqb_neq; unfold MAX_MOUNT_POINT in *; vm_compute; intros ->; done).
    by rewrite (bind_done (part_of v m) _ d (mp_part mp) d) by (unfold part_of; by rewrite Hmp). }
  unfold delete_dirent. rewrite Hmount. unfold stat_dirent.
  rewrite (bind_done _ _ d (DirentStat PATH_FILE (fs_size st)) d).
  2: { rewrite Hmount. cbn [drv_stat fat32_driver]. rewrite (bind_done _ _ _ _ _ Hst). by rewrite Ht. }
  cbn [ds_type drv_delete fat32_driver].
  assert (E : exists r, fat32_rmdir_entry fuel stk (mp_part mp) child d = Done (r, d) /\ r <> 0).
  { unfold fat32_rmdir_entry. destruct (negb _); [by exists (- EINVAL)|]. destruct (bool_decide _); [by exists (- EINVAL)|].
    rewrite (bind_done _ _ _ _ _ Hst), Ht. by exists (- EINVAL). }
  destruct E as (r & E & Hr). rewrite (bind_done _ _ _ _ _ E). destruct (Z.eqb_spec r 0); [done|reflexivity].
Qed.

(** Unlinking a file marks its entry deleted first and looks its first
    cluster up afterwards, when the path is not found any more: the call
    succeeds and every cluster of the file stays allocated. *)
Theorem unlink_leaks_chain {disk : Type} `{BlockDeviceLaws disk} (fuel : nat) (stk : stack) (part : Z) (g : geometry)
    (d d1 : disk) (p : path) (st : fat_stat) (cs : list Z) :
  geometry_ok g -> volume part g d -> Z.of_nat (length (stk_buf stk)) = CLUSTER_SIZE ->
  byte p 0 = slash -> p <> root -> fat32_stat fuel stk part p d = Done (st, d) -> fs_type st = PATH_FILE ->
  chain g (fat g d) (fs_parent_cluster_id st) cs -> cs <> [] ->
  update_entry fuel stk part st 0x20 put_deleted d = Done (ScanHit, d1) ->
  find_cluster_from_path stk part p d1 = Done (0, d1) ->
  fat32_unlink_file fuel stk part p d = Done (0, d1) /\ (forall x, valid g x -> fat g d1 x = fat g d x).
Proof.
  intros G V Hl Hp Hr Hst Ht Hc Hne Hu Hf. split.
  - unfold fat32_unlink_file. rewrite Hp, Z.eqb_refl, bool_decide_false by done. cbn [negb].
    rewrite (bind_done _ _ _ _ _ Hst), Ht, (bind_done _ _ _ _ _ Hu), (bind_done _ _ _ _ _ Hf).
    unfold update_entry in Hu. destruct fuel; [discriminate|]. reflexivity.
  - destruct (update_loop_frame part g G fuel cs (fs_parent_cluster_id st) (stk_buf stk) 0x20
      (format_name_83 (fs_name st)) put_deleted d d1 ScanHit) as (_ & F & _); [done..| |done|].
    + intros e [He Hb]. unfold put_deleted. split; [rewrite length_put; cbn; lia|]. apply put_Forall; [done|].
      repeat constructor; lia.
    + intros x Hx. apply F. unfold valid in Hx. lia.
Qed.

(** *** Witnesses *)
(** Five clusters: the root directory with the files A.BIN (clusters 3 and 4)
    and B.TXT (cluster 5); cluster 6 is free. *)
Definition demo_entry (name : list Z) (cluster size : Z) : list Z :=
  put_file_size size (dirent_bytes (new_dirent name 0x20 cluster)).
Definition a_bin : path := [97; 46; 98; 105; 110].
Definition b_txt : path := [98; 46; 116; 120; 116].
Definition file_root : list Z :=
  put zero_sector 0 (demo_entry (format_name_83 a_bin) 3 5000 ++ demo_entry (format_name_83 b_txt) 5 100).
Definition file_fat : list Z :=
  put zero_sector 0 (le_bytes32 0x0FFFFFF8 ++ le_bytes32 0x0FFFFFFF ++ le_bytes32 0x0FFFFFF8 ++
                     le_bytes32 4 ++ le_bytes32 0x0FFFFFF8 ++ le_bytes32 0x0FFFFFF8).
Definition file_disk : ram_disk :=
  list_to_map ([(0, demo_mbr); (1, demo_boot); (2, file_fat); (3, file_fat); (4, file_root)] ++
               map (fun i => (i, replicate 512 (i / 4))) (seqZ 5 39)).
Definition file_geo : geometry := Geo 1 (Bpb 512 8 1 2 1 2) 7.
Definition demo_stack : stack := Stack (replicate 4096 0) (replicate 65 0) 0 [] (replicate 32 0) 0.

Lemma file_geo_ok : geometry_ok file_geo.
Proof. split; vm_compute; repeat split; congruence. Qed.
Lemma file_volume : volume 0 file_geo file_disk.
Proof.
  split.
  - lia.
  - exists demo_mbr. vm_compute. done.
  - exists demo_boot. vm_compute. done.
  - intros s Hs. change (1 <= s < 44) in Hs.
    assert (A : forallb (fun s => bool_decide (is_Some (dev_read file_disk s))) (seqZ 1 43) = true) by (vm_compute; done).
    rewrite forallb_forall in A. apply (bool_decide_eq_true _), A, list_elem_of_In, elem_of_seqZ. lia.
Qed.
Lemma file_chain : chain file_geo (fat file_geo file_disk) 3 [3; 4].
Proof. vm_compute. repeat split; try congruence. intros [_ H]. congruence. Qed.
Lemma root_chain : chain file_geo (fat file_geo file_disk) 2 [2].
Proof. vm_compute. repeat split; try congruence. intros [_ H]. congruence. Qed.

Lemma fat32_read_file_bytes_spec_witness :
  exists bytes, fat32_read_file_bytes demo_stack 0 (slash :: a_bin) 4090 1000 file_disk = Done ((910, bytes), file_disk).
Proof.
  eexists. rewrite (fat32_read_file_bytes_spec demo_stack 0 file_geo file_disk (slash :: a_bin) 3 5000 4090 1000 [3; 4]
    file_geo_ok file_volume).
  - vm_compute. reflexivity.
  - vm_compute. reflexivity.
  - vm_compute. reflexivity.
  - vm_compute. reflexivity.
  - exact file_chain.
  - discriminate.
  - vm_compute. split; congruence.
  - lia.
  - lia.
  - vm_compute. reflexivity.
Defined.
Lemma fat32_write_in_place_witness :
  exists d', fat32_write_file_bytes 9 demo_stack 0 (slash :: a_bin) (replicate 10 7) 4090 file_disk = Done (0, d').
Proof.
  destruct (fat32_write_in_place 9 demo_stack 0 file_geo file_disk (slash :: a_bin) 3 5000 4090 (replicate 10 7) [3; 4]
    file_geo_ok file_volume) as (d' & E & _).
  - vm_compute. reflexivity.
  - vm_compute. reflexivity.
  - exact file_chain.
  - vm_compute. congruence.
  - vm_compute. reflexivity.
  - lia.
  - vm_compute. congruence.
  - apply Forall_replicate. lia.
  - exists d'. exact E.
Defined.
Lemma fat32_write_never_extends_witness :
  find_blank_cluster 0 file_disk = Done (6, file_disk) /\
  exists d', fat32_write_file_bytes 9 demo_stack 0 (slash :: a_bin) (replicate 4000 7) 5000 file_disk = Done (-4, d').
Proof.
  split; [vm_compute; reflexivity|].
  destruct (fat32_write_never_extends 9 demo_stack 0 file_geo file_disk (slash :: a_bin) 3 5000 5000 (replicate 4000 7) [3; 4]
    file_geo_ok file_volume) as (d' & E & _).
  - vm_compute. reflexivity.
  - vm_compute. reflexivity.
  - exact file_chain.
  - lia.
  - vm_compute. reflexivity.
  - vm_compute. reflexivity.
  - apply Forall_replicate. lia.
  - exists d'. exact E.
Defined.
Lemma zeroed_entry_hides_the_rest_witness :
  lookup_loop 128 0 (set_raw (cluster file_geo file_disk 2) 0 (zero_entry (raw_entry (cluster file_geo file_disk 2) 0))) b_txt = None.
Proof.
  rewrite (zeroed_entry_hides_the_rest (cluster file_geo file_disk 2) 0 b_txt); [reflexivity|vm_compute; reflexivity|lia].
Defined.
Lemma stat_ignores_extension_witness :
  same_answer (fat32_stat 9 demo_stack 0 ([] ++ slash :: [97] ++ 46 :: [98; 105; 110]) file_disk)
              (fat32_stat 9 demo_stack 0 ([] ++ slash :: [97] ++ 46 :: [116; 120; 116]) file_disk).
Proof.
  apply (stat_ignores_extension 9 demo_stack 0 file_disk [] [97] [98; 105; 110] [116; 120; 116]);
    rewrite ?not_elem_of_cons; unfold slash; repeat split; try (cbn; lia); try reflexivity; apply not_elem_of_nil.
Defined.
Lemma delete_file_does_nothing_witness :
  @delete_dirent ram_disk (fat32_driver 9 demo_stack) 0 demo_vfs (slash :: a_bin) file_disk = Done (true, file_disk).
Proof.
  eapply (delete_file_does_nothing 9 demo_stack 0 demo_vfs file_disk (slash :: a_bin) (slash :: a_bin) 0 (MountPoint [] root 0 0)).
  - vm_compute. reflexivity.
  - reflexivity.
  - reflexivity.
  - vm_compute. reflexivity.
  - vm_compute. reflexivity.
  - reflexivity.
Defined.
Definition a_bin_stat : fat_stat :=
  match fat32_stat 9 demo_stack 0 (slash :: a_bin) file_disk with Done (st, _) => st | _ => stat_none end.
Definition unlinked_disk : ram_disk :=
  match update_entry 9 demo_stack 0 a_bin_stat 0x20 put_deleted file_disk with Done (_, d) => d | _ => ∅ end.
Lemma unlink_leaks_chain_witness :
  fat32_unlink_file 9 demo_stack 0 (slash :: a_bin) file_disk = Done (0, unlinked_disk) /\
  fat file_geo unlinked_disk 3 = 4.
Proof.
  destruct (unlink_leaks_chain 9 demo_stack 0 file_geo file_disk unlinked_disk (slash :: a_bin) a_bin_stat [2]
    file_geo_ok file_volume) as [E F].
  - vm_compute. reflexivity.
  - reflexivity.
  - discriminate.
  - vm_compute. reflexivity.
  - vm_compute. reflexivity.
  - exact root_chain.
  - discriminate.
  - vm_compute. reflexivity.
  - vm_compute. reflexivity.
  - split; [exact E|]. rewrite F by (split; vm_compute; congruence). vm_compute. reflexivity.
Defined.
