(* ===== verification/Packet.v ===== *)
(** * Packet: headers and checksums, src/core/network/

    The packed headers of src/core/network/network.h as records with their byte
    layout, and the three checksum routines: [network_checksum] of
    src/core/network/af_inet/af_inet.h, [tcp_checksum] of tcp.h and the sum that
    nic_send_udp_package of udp.h computes in line.  A 16-bit or 32-bit field
    holds the value the processor sees, so a field in network order holds the
    result of [htons] or [htonl]. *)
From S2P Require Import Prelude Bytes MemLib.
Open Scope Z_scope.

(** ** Constants *)
Definition ICMP_PROTOCOL_NUMBER : Z := 1.
Definition TCP_PROTOCOL_NUMBER : Z := 6.
Definition UDP_PROTOCOL_NUMBER : Z := 17.
Definition TCP_FIN : Z := 0x01.
Definition TCP_SYN : Z := 0x02.
Definition TCP_RST : Z := 0x04.
Definition TCP_PSH : Z := 0x08.
Definition TCP_ACK : Z := 0x10.
Definition sizeof_eth_hdr : Z := 14.
Definition sizeof_arp_pkt : Z := 28.
Definition sizeof_ipv4_hdr : Z := 20.
Definition sizeof_icmp_hdr : Z := 8.
Definition sizeof_udp_hdr : Z := 8.
Definition sizeof_tcp_hdr : Z := 20.

(** ** Headers *)
Record eth_hdr := EthHdr { eth_dst : list Z; eth_src : list Z; eth_type : Z }.
Record arp_pkt := ArpPkt {
  htype : Z; ptype : Z; hlen : Z; plen : Z; oper : Z;
  sha : list Z; spa : Z; tha : list Z; tpa : Z }.
Record ipv4_hdr := Ipv4Hdr {
  version_ihl : Z; tos : Z; total_length : Z; ip_id : Z; flags_fragoffset : Z;
  ttl : Z; ip_protocol : Z; ip_checksum : Z; ip_src : Z; ip_dst : Z }.
Record icmp_hdr := IcmpHdr {
  icmp_type : Z; icmp_code : Z; icmp_checksum : Z; icmp_id : Z; icmp_seq : Z }.
Record udp_hdr := UdpHdr {
  udp_src_port : Z; udp_dst_port : Z; udp_length : Z; udp_checksum : Z }.
Record tcp_hdr := TcpHdr {
  tcp_src_port : Z; tcp_dst_port : Z; tcp_seq : Z; tcp_ack_seq : Z;
  data_offset_reserved : Z; tcp_flags : Z; window : Z; tcp_check : Z; urgent_ptr : Z }.

(** The bytes of a header. *)
Definition eth_bytes (h : eth_hdr) : list Z := eth_dst h ++ eth_src h ++ le_bytes16 (eth_type h).
Definition arp_bytes (p : arp_pkt) : list Z :=
  le_bytes16 (htype p) ++ le_bytes16 (ptype p) ++ [u8 (hlen p); u8 (plen p)]
  ++ le_bytes16 (oper p) ++ sha p ++ le_bytes32 (spa p)
  ++ tha p ++ le_bytes32 (tpa p).
Definition ipv4_bytes (h : ipv4_hdr) : list Z :=
  [u8 (version_ihl h); u8 (tos h)] ++ le_bytes16 (total_length h) ++ le_bytes16 (ip_id h)
  ++ le_bytes16 (flags_fragoffset h) ++ [u8 (ttl h); u8 (ip_protocol h)]
  ++ le_bytes16 (ip_checksum h) ++ le_bytes32 (ip_src h) ++ le_bytes32 (ip_dst h).
Definition udp_bytes (h : udp_hdr) : list Z :=
  le_bytes16 (udp_src_port h) ++ le_bytes16 (udp_dst_port h)
  ++ le_bytes16 (udp_length h) ++ le_bytes16 (udp_checksum h).
Definition tcp_bytes (h : tcp_hdr) : list Z :=
  le_bytes16 (tcp_src_port h) ++ le_bytes16 (tcp_dst_port h)
  ++ le_bytes32 (tcp_seq h) ++ le_bytes32 (tcp_ack_seq h)
  ++ [u8 (data_offset_reserved h); u8 (tcp_flags h)]
  ++ le_bytes16 (window h) ++ le_bytes16 (tcp_check h) ++ le_bytes16 (urgent_ptr h).

(** The header a cast finds at byte [o] of a buffer. *)
Definition eth_at (s : list Z) (o : Z) : eth_hdr :=
  EthHdr (slice s o 6) (slice s (o + 6) 6) (le16 s (o + 12)).
Definition arp_at (s : list Z) (o : Z) : arp_pkt :=
  ArpPkt (le16 s o) (le16 s (o + 2)) (byte s (o + 4)) (byte s (o + 5)) (le16 s (o + 6))
    (slice s (o + 8) 6) (le32 s (o + 14)) (slice s (o + 18) 6) (le32 s (o + 24)).
Definition ipv4_at (s : list Z) (o : Z) : ipv4_hdr :=
  Ipv4Hdr (byte s o) (byte s (o + 1)) (le16 s (o + 2)) (le16 s (o + 4)) (le16 s (o + 6))
    (byte s (o + 8)) (byte s (o + 9)) (le16 s (o + 10)) (le32 s (o + 12)) (le32 s (o + 16)).
Definition icmp_at (s : list Z) (o : Z) : icmp_hdr :=
  IcmpHdr (byte s o) (byte s (o + 1)) (le16 s (o + 2)) (le16 s (o + 4)) (le16 s (o + 6)).
Definition udp_at (s : list Z) (o : Z) : udp_hdr :=
  UdpHdr (le16 s o) (le16 s (o + 2)) (le16 s (o + 4)) (le16 s (o + 6)).
Definition tcp_at (s : list Z) (o : Z) : tcp_hdr :=
  TcpHdr (le16 s o) (le16 s (o + 2)) (le32 s (o + 4)) (le32 s (o + 8)) (byte s (o + 12))
    (byte s (o + 13)) (le16 s (o + 14)) (le16 s (o + 16)) (le16 s (o + 18)).

(** ** Checksums *)

(** The loops that add 16-bit words to a 32-bit sum, least or most significant
    byte first; a last odd byte is padded. *)
Fixpoint add_words_le (l : list Z) (sum : Z) : Z :=
  match l with
  | a :: b :: r => add_words_le r (u32 (sum + (a + 256 * b)))
  | [a] => u32 (sum + a)
  | [] => sum
  end.
Fixpoint add_words_be (l : list Z) (sum : Z) : Z :=
  match l with
  | a :: b :: r => add_words_be r (u32 (sum + Z.lor (Z.shiftl a 8) b))
  | [a] => u32 (sum + Z.shiftl a 8)
  | [] => sum
  end.
(** [while (sum >> 16) sum = (sum & 0xFFFF) + (sum >> 16);] three rounds are
    enough for a 32-bit sum. *)
Fixpoint fold_carries (fuel : nat) (sum : Z) : Z :=
  match fuel with
  | O => sum
  | S f => if Z.shiftr sum 16 =? 0 then sum
           else fold_carries f (u32 (Z.land sum 0xFFFF + Z.shiftr sum 16))
  end.

Definition network_checksum (buf : list Z) : Z :=
  u16 (Z.lnot (fold_carries 3 (add_words_le buf 0))).

Definition tcp_checksum (tcp : list Z) (src_ip dst_ip : Z) (payload : list Z) : Z :=
  let total_len := u16 (Z.of_nat (length tcp) + Z.of_nat (length payload)) in
  let sum := u32 (0 + Z.land (Z.shiftr src_ip 16) 0xFFFF) in
  let sum := u32 (sum + Z.land src_ip 0xFFFF) in
  let sum := u32 (sum + Z.land (Z.shiftr dst_ip 16) 0xFFFF) in
  let sum := u32 (sum + Z.land dst_ip 0xFFFF) in
  let sum := u32 (sum + TCP_PROTOCOL_NUMBER) in
  let sum := u32 (sum + total_len) in
  let sum := add_words_be tcp sum in
  let sum := add_words_be payload sum in
  htons (u16 (Z.lnot (fold_carries 3 sum))).

(** The sum in nic_send_udp_package; [local_ip] and [remote_ip] are the
    socket's addresses in host order. *)
Definition udp_package_checksum (local_ip remote_ip : Z) (udp : udp_hdr) (payload : list Z) : Z :=
  let src_ip := htonl local_ip in
  let dst_ip := htonl remote_ip in
  let sum := u32 (0 + Z.land (Z.shiftr src_ip 16) 0xFFFF) in
  let sum := u32 (sum + Z.land src_ip 0xFFFF) in
  let sum := u32 (sum + Z.land (Z.shiftr dst_ip 16) 0xFFFF) in
  let sum := u32 (sum + Z.land dst_ip 0xFFFF) in
  let sum := u32 (sum + htons UDP_PROTOCOL_NUMBER) in
  let sum := u32 (sum + udp_length udp) in
  let sum := add_words_le (udp_bytes udp) sum in
  let sum := add_words_le payload sum in
  let checksum := u16 (Z.lnot (fold_carries 3 sum)) in
  if checksum =? 0 then 0xFFFF else checksum.

(** ** Lemmas: sums without the wrap of 32 bits *)
Fixpoint wsum_le (l : list Z) : Z :=
  match l with a :: b :: r => a + 256 * b + wsum_le r | [a] => a | [] => 0 end.
Fixpoint wsum_be (l : list Z) : Z :=
  match l with a :: b :: r => 256 * a + b + wsum_be r | [a] => 256 * a | [] => 0 end.
Abbreviation bytes := (Forall (fun b => 0 <= b < 256)).

(** Two elements at a time. *)
Lemma pair_ind (P : list Z -> Prop) :
  P [] -> (forall a, P [a]) -> (forall a b r, P r -> P (a :: b :: r)) -> forall l, P l.
Proof.
  intros H0 H1 H2. refine (fix F l := _). destruct l as [|a [|b r]]; [done|done|]. apply H2, F.
Qed.

Section Sums.
Lemma u32_add_l x y : u32 (u32 x + y) = u32 (x + y).
Proof. unfold u32. by rewrite Zplus_mod_idemp_l. Qed.

Lemma add_words_le_sum l s : 0 <= s < 2 ^ 32 -> add_words_le l s = u32 (s + wsum_le l).
Proof.
  revert s. induction l as [|a|a b r IH] using pair_ind; intros s Hs; cbn [add_words_le wsum_le].
  - rewrite Z.add_0_r. symmetry. by apply u32_id.
  - done.
  - rewrite IH by apply u32_range. rewrite u32_add_l. f_equal. lia.
Qed.
Lemma add_words_be_sum l s : bytes l -> 0 <= s < 2 ^ 32 -> add_words_be l s = u32 (s + wsum_be l).
Proof.
  intros Hl. revert s. induction l as [|a|a b r IH] using pair_ind; intros s Hs; cbn [add_words_be wsum_be].
  - rewrite Z.add_0_r. symmetry. by apply u32_id.
  - by rewrite Z.shiftl_mul_pow2, (Z.mul_comm a) by lia.
  - inversion Hl as [|? ? Ha Hl']; subst. inversion Hl' as [|? ? Hb Hr]; subst.
    rewrite IH by (done || apply u32_range). rewrite lor_shift8 by done.
    rewrite u32_add_l. f_equal. lia.
Qed.

Lemma wsum_le_bound l : bytes l -> 0 <= wsum_le l <= 65535 * ((Z.of_nat (length l) + 1) / 2).
Proof.
  induction l as [|a|a b r IH] using pair_ind; intros Hl; cbn [wsum_le length].
  - done.
  - inversion Hl; subst. change ((Z.of_nat 1 + 1) / 2) with 1. lia.
  - inversion Hl as [|? ? Ha Hl']; subst. inversion Hl' as [|? ? Hb Hr]; subst.
    specialize (IH Hr). replace (Z.of_nat (S (S (length r))) + 1) with (Z.of_nat (length r) + 1 + 1 * 2) by lia.
    rewrite Z.div_add by lia. lia.
Qed.
Lemma wsum_be_bound l : bytes l -> 0 <= wsum_be l <= 65535 * ((Z.of_nat (length l) + 1) / 2).
Proof.
  induction l as [|a|a b r IH] using pair_ind; intros Hl; cbn [wsum_be length].
  - done.
  - inversion Hl; subst. change ((Z.of_nat 1 + 1) / 2) with 1. lia.
  - inversion Hl as [|? ? Ha Hl']; subst. inversion Hl' as [|? ? Hb Hr]; subst.
    specialize (IH Hr). replace (Z.of_nat (S (S (length r))) + 1) with (Z.of_nat (length r) + 1 + 1 * 2) by lia.
    rewrite Z.div_add by lia. lia.
Qed.
Lemma wsum_le_app l r : Nat.Even (length l) -> wsum_le (l ++ r) = wsum_le l + wsum_le r.
Proof.
  induction l as [|a|a b l IH] using pair_ind; intros He; cbn [app wsum_le].
  - done.
  - destruct He as [? He]. cbn in He. lia.
  - rewrite IH; [lia|]. destruct He as [k He]. cbn in He. exists (Nat.pred k). lia.
Qed.
Lemma wsum_be_app l r : Nat.Even (length l) -> wsum_be (l ++ r) = wsum_be l + wsum_be r.
Proof.
  induction l as [|a|a b l IH] using pair_ind; intros He; cbn [app wsum_be].
  - done.
  - destruct He as [? He]. cbn in He. lia.
  - rewrite IH; [lia|]. destruct He as [k He]. cbn in He. exists (Nat.pred k). lia.
Qed.

(** The value of three rounds of carry folding. *)
Lemma shiftr16 x : Z.shiftr x 16 = x / 65536.
Proof. by rewrite Z.shiftr_div_pow2 by lia. Qed.
Lemma land_ffff x : Z.land x 0xFFFF = x mod 65536.
Proof. change 0xFFFF with (Z.ones 16). by rewrite Z.land_ones by lia. Qed.
Lemma fold_step x : 0 <= x < 2 ^ 32 -> u32 (Z.land x 0xFFFF + Z.shiftr x 16) = x mod 65536 + x / 65536.
Proof.
  intros Hx. rewrite land_ffff, shiftr16. apply u32_id.
  Z.to_euclidean_division_equations. lia.
Qed.
Lemma fold_carries_spec x : 0 <= x < 2 ^ 32 ->
  0 <= fold_carries 3 x <= 65535 /\ (fold_carries 3 x - x) mod 65535 = 0 /\ (fold_carries 3 x = 0 <-> x = 0).
Proof.
  intros Hx. set (g y := y mod 65536 + y / 65536).
  assert (Hg : forall y, 0 <= y < 2 ^ 32 -> 0 <= g y < 2 ^ 32 /\ exists k, y - g y = k * 65535 /\ 0 <= k <= 65535).
  { intros y Hy. unfold g. split; [Z.to_euclidean_division_equations; lia|].
    exists (y / 65536). Z.to_euclidean_division_equations. lia. }
  assert (E : forall y, 0 <= y < 2 ^ 32 -> (Z.shiftr y 16 =? 0) = (y <? 65536)).
  { intros y Hy. rewrite shiftr16. destruct (Z.eqb_spec (y / 65536) 0), (Z.ltb_spec y 65536); try done;
      Z.to_euclidean_division_equations; lia. }
  destruct (Hg x Hx) as [H1 (k1 & K1 & B1)]. destruct (Hg _ H1) as [H2 (k2 & K2 & B2)].
  assert (B : g x <= 131070 /\ g (g x) <= 65535).
  { unfold g in *. Z.to_euclidean_division_equations. lia. }
  cbn [fold_carries]. rewrite (fold_step x Hx). fold (g x). rewrite (fold_step (g x) H1). fold (g (g x)).
  rewrite !E by done. replace (g (g x) <? 65536) with true by (symmetry; apply Z.ltb_lt; lia).
  assert (P : 0 < x -> 0 < g x) by (unfold g; Z.to_euclidean_division_equations; lia).
  assert (P2 : 0 < g x -> 0 < g (g x)) by (unfold g; Z.to_euclidean_division_equations; lia).
  destruct (Z.ltb_spec x 65536); [split; [lia|split; [by rewrite Z.sub_diag|done]]|].
  destruct (Z.ltb_spec (g x) 65536).
  - split; [lia|]. split; [|lia]. replace (g x - x) with (- k1 * 65535) by lia. apply Z.mod_mul. lia.
  - split; [lia|]. split; [|lia]. replace (g (g x) - x) with (- (k1 + k2) * 65535) by lia. apply Z.mod_mul. lia.
Qed.

(** Complementing the folded sum and adding it back folds to all ones. *)
Definition complement_sum (x : Z) : Z := u16 (Z.lnot (fold_carries 3 x)).
Lemma complement_sum_value x : 0 <= x < 2 ^ 32 -> complement_sum x = 65535 - fold_carries 3 x.
Proof.
  intros Hx. destruct (fold_carries_spec x Hx) as (Hr & _). unfold complement_sum, u16.
  replace (Z.lnot (fold_carries 3 x)) with (65535 - fold_carries 3 x + (-1) * 2 ^ 16) by (unfold Z.lnot; lia).
  rewrite Z.mod_add by lia. apply Z.mod_small. lia.
Qed.
Lemma complement_sum_range x : 0 <= complement_sum x < 65536.
Proof. apply u16_range. Qed.
Lemma complement_sum_verifies x :
  0 <= x < 2 ^ 32 - 65536 -> complement_sum (x + complement_sum x) = 0.
Proof.
  intros Hx. rewrite (complement_sum_value x) by lia.
  destruct (fold_carries_spec x) as (Hr & Hm & Hz); [lia|].
  set (f := fold_carries 3 x) in *. set (y := x + (65535 - f)).
  assert (Hy : 0 < y < 2 ^ 32) by (subst y; lia).
  rewrite complement_sum_value by lia.
  destruct (fold_carries_spec y) as (Hr' & Hm' & Hz'); [lia|]. set (f' := fold_carries 3 y) in *.
  assert ((f' - y + (f - x)) mod 65535 = 0) by (rewrite Z.add_mod, Hm, Hm' by lia; done).
  replace (f' - y + (f - x)) with (f' + (2 * f - 2 * x - 65535)) in H by (subst y; lia).
  assert (f' mod 65535 = 0).
  { apply Z.mod_divide in Hm as [k Hk]; [|lia]. apply Z.mod_divide in H as [j Hj]; [|lia].
    apply Z.mod_divide; [lia|]. exists (j - 2 * k + 1). lia. }
  apply Z.mod_divide in H0 as [q Hq]; [|lia]. lia.
Qed.
End Sums.

(** A zero field of two bytes at an even offset, filled in. *)
Section Field.
Context (s : list Z) (o : Z).
Hypothesis (Ho : 0 <= o) (He : o mod 2 = 0) (Hl : o + 2 <= Z.of_nat (length s)).
Hypothesis (Hz : byte s o = 0 /\ byte s (o + 1) = 0).

Lemma field_split : s = take (Z.to_nat o) s ++ [0; 0] ++ drop (Z.to_nat o + 2) s.
Proof.
  destruct Hz as [H0 H1]. rewrite <- (take_drop (Z.to_nat o) s) at 1. f_equal.
  unfold byte in *. replace (Z.to_nat (o + 1)) with (S (Z.to_nat o)) in H1 by lia.
  destruct (s !! Z.to_nat o) as [x|] eqn:E0; [|apply lookup_ge_None in E0; lia].
  destruct (s !! S (Z.to_nat o)) as [y|] eqn:E1; [|apply lookup_ge_None in E1; lia].
  cbn in H0, H1. subst x y. rewrite (drop_S _ _ _ E0), (drop_S _ _ _ E1).
  cbn. do 2 f_equal. f_equal. lia.
Qed.
Lemma field_even : Nat.Even (length (take (Z.to_nat o) s)).
Proof.
  rewrite length_take_le by lia. exists (Z.to_nat (o / 2)).
  pose proof (Z.div_mod o 2 ltac:(lia)). lia.
Qed.
Lemma wsum_le_field c : 0 <= c < 65536 -> wsum_le (put s o (le_bytes16 c)) = wsum_le s + c.
Proof.
  intros Hc. rewrite field_split at 2. unfold put. change (length (le_bytes16 c)) with 2%nat.
  rewrite !(wsum_le_app (take _ _)) by apply field_even. cbn [app le_bytes16 wsum_le].
  assert (0 <= c / 256 < 256) by (split; [apply Z.div_pos|apply Z.div_lt_upper_bound]; lia).
  rewrite (Z.mod_small (c / 256)) by done.
  pose proof (Z.div_mod c 256 ltac:(lia)). lia.
Qed.
Lemma wsum_be_field c : 0 <= c < 65536 -> wsum_be (put s o (le_bytes16 (htons c))) = wsum_be s + c.
Proof.
  intros Hc. rewrite field_split at 2. unfold put. change (length (le_bytes16 (htons c))) with 2%nat.
  rewrite !(wsum_be_app (take _ _)) by apply field_even. cbn [app le_bytes16 wsum_be].
  assert (Hd : 0 <= c / 256 < 256) by (split; [apply Z.div_pos|apply Z.div_lt_upper_bound]; lia).
  pose proof (Z.mod_pos_bound c 256 ltac:(lia)) as Hm. pose proof (Z.div_mod c 256 ltac:(lia)) as Hc'.
  assert (E : htons c = c / 256 + c mod 256 * 256).
  { unfold htons. rewrite Z.shiftr_div_pow2 by lia. change (2 ^ 8) with 256. rewrite lor_shift8 by done.
    replace (256 * c + c / 256) with (c / 256 + c mod 256 * 256 + c / 256 * 2 ^ 16) by lia.
    unfold u16. rewrite Z.mod_add by lia. apply Z.mod_small. lia. }
  assert (htons c mod 256 = c / 256 /\ htons c / 256 mod 256 = c mod 256) as [-> ->].
  { rewrite E, Z.mod_add, Z.div_add, Z.mod_small, (Z.div_small (c / 256)) by lia.
    by rewrite Z.add_0_l, Z.mod_mod by lia. }
  lia.
Qed.
End Field.

(** The part of the sums that does not come from the bytes. *)
Definition pseudo (src_ip dst_ip proto len : Z) : Z :=
  src_ip / 65536 mod 65536 + src_ip mod 65536 + dst_ip / 65536 mod 65536 + dst_ip mod 65536 + proto + len.

Section PseudoHeader.
Lemma pseudo_range a b p n : 0 <= p < 65536 -> 0 <= n < 65536 -> 0 <= pseudo a b p n <= 6 * 65535.
Proof.
  intros. unfold pseudo.
  pose proof (Z.mod_pos_bound (a / 65536) 65536). pose proof (Z.mod_pos_bound a 65536).
  pose proof (Z.mod_pos_bound (b / 65536) 65536). pose proof (Z.mod_pos_bound b 65536). lia.
Qed.
Lemma six_words x1 x2 x3 x4 x5 x6 :
  Forall (fun x => 0 <= x < 65536) [x1; x2; x3; x4; x5; x6] ->
  u32 (u32 (u32 (u32 (u32 (u32 (0 + x1) + x2) + x3) + x4) + x5) + x6) = x1 + x2 + x3 + x4 + x5 + x6.
Proof.
  intros Hf. rewrite !list.Forall_cons in Hf. destruct Hf as (? & ? & ? & ? & ? & ? & _).
  rewrite (u32_id (0 + x1)), (u32_id (0 + x1 + x2)), (u32_id (0 + x1 + x2 + x3)) by lia.
  rewrite (u32_id (0 + x1 + x2 + x3 + x4)), (u32_id (0 + x1 + x2 + x3 + x4 + x5)) by lia.
  rewrite u32_id by lia. lia.
Qed.
Lemma network_checksum_sum l :
  bytes l -> Z.of_nat (length l) <= 65536 -> network_checksum l = complement_sum (wsum_le l).
Proof.
  intros Hb Hl. unfold network_checksum, complement_sum.
  pose proof (wsum_le_bound l Hb) as Hw.
  assert ((Z.of_nat (length l) + 1) / 2 < 32769) by (apply Z.div_lt_upper_bound; lia).
  rewrite add_words_le_sum, u32_id by lia. done.
Qed.
Lemma tcp_checksum_sum h a b p :
  bytes h -> bytes p -> Z.of_nat (length h) + Z.of_nat (length p) <= 65535 ->
  tcp_checksum h a b p =
    htons (complement_sum (pseudo a b 6 (Z.of_nat (length h) + Z.of_nat (length p)) + wsum_be h + wsum_be p))
  /\ 0 <= pseudo a b 6 (Z.of_nat (length h) + Z.of_nat (length p)) + wsum_be h + wsum_be p < 2 ^ 32 - 65536.
Proof.
  intros Hh Hp Hl. set (n := Z.of_nat (length h) + Z.of_nat (length p)) in *.
  pose proof (wsum_be_bound h Hh) as Bh. pose proof (wsum_be_bound p Hp) as Bp.
  assert ((Z.of_nat (length h) + 1) / 2 <= 32768 /\ (Z.of_nat (length p) + 1) / 2 <= 32768 /\
          (Z.of_nat (length h) + 1) / 2 + (Z.of_nat (length p) + 1) / 2 <= 32769) as (Q1 & Q2 & Q3).
  { subst n. Z.to_euclidean_division_equations. lia. }
  pose proof (pseudo_range a b 6 n ltac:(lia) ltac:(lia)) as Hq.
  split; [|lia]. unfold tcp_checksum, complement_sum. fold n. unfold TCP_PROTOCOL_NUMBER.
  rewrite (u16_id n) by lia. rewrite !land_ffff, !shiftr16.
  set (s0 := u32 (u32 _ + n)).
  assert (E0 : s0 = pseudo a b 6 n).
  { subst s0. apply six_words. repeat constructor; try (apply Z.mod_pos_bound; lia); lia. }
  rewrite E0, (add_words_be_sum h), u32_id by (done || lia).
  rewrite add_words_be_sum, u32_id by (done || lia). done.
Qed.
Lemma udp_sum_value a b u p :
  bytes p -> 0 <= udp_length u < 65536 -> Z.of_nat (length p) <= 65527 ->
  let x := pseudo (htonl a) (htonl b) (htons 17) (udp_length u) + wsum_le (udp_bytes u) + wsum_le p in
  0 <= x < 2 ^ 32 - 65536 /\
  udp_package_checksum a b u p = if complement_sum x =? 0 then 65535 else complement_sum x.
Proof.
  intros Hp Hu Hl x. assert (Hub : bytes (udp_bytes u)).
  { unfold udp_bytes, le_bytes16. repeat constructor; apply Z.mod_pos_bound; lia. }
  pose proof (wsum_le_bound _ Hub) as Bu. pose proof (wsum_le_bound p Hp) as Bp.
  change (Z.of_nat (length (udp_bytes u))) with 8 in Bu. change ((8 + 1) / 2) with 4 in Bu.
  assert ((Z.of_nat (length p) + 1) / 2 <= 32764) by (Z.to_euclidean_division_equations; lia).
  pose proof (pseudo_range (htonl a) (htonl b) (htons 17) (udp_length u) (u16_range _) Hu) as Hq.
  split; [subst x; lia|]. unfold udp_package_checksum, complement_sum, UDP_PROTOCOL_NUMBER.
  rewrite !land_ffff, !shiftr16. set (s0 := u32 (u32 _ + udp_length u)).
  assert (E0 : s0 = pseudo (htonl a) (htonl b) (htons 17) (udp_length u)).
  { subst s0. apply six_words. repeat constructor; try (apply Z.mod_pos_bound; lia); try apply u16_range; lia. }
  rewrite E0, (add_words_le_sum (udp_bytes u)), u32_id by lia.
  rewrite add_words_le_sum, u32_id by lia. done.
Qed.
Lemma le_bytes16_value v : 0 <= v < 65536 -> v mod 256 + 256 * (v / 256 mod 256) = v.
Proof.
  intros. rewrite (Z.mod_small (v / 256)) by (split; [apply Z.div_pos|apply Z.div_lt_upper_bound]; lia).
  pose proof (Z.div_mod v 256 ltac:(lia)). lia.
Qed.
Lemma le_bytes16_range v : bytes (le_bytes16 v).
Proof. repeat constructor; apply Z.mod_pos_bound; lia. Qed.
End PseudoHeader.

(** Fields in range. *)
Definition mac_ok (l : list Z) : Prop := length l = 6%nat /\ bytes l.
Definition ipv4_hdr_ok (h : ipv4_hdr) : Prop :=
  Forall (fun v => 0 <= v < 256) [version_ihl h; tos h; ttl h; ip_protocol h] /\
  Forall (fun v => 0 <= v < 65536) [total_length h; ip_id h; flags_fragoffset h; ip_checksum h] /\
  Forall (fun v => 0 <= v < 2 ^ 32) [ip_src h; ip_dst h].
Definition tcp_hdr_ok (h : tcp_hdr) : Prop :=
  Forall (fun v => 0 <= v < 256) [data_offset_reserved h; tcp_flags h] /\
  Forall (fun v => 0 <= v < 65536) [tcp_src_port h; tcp_dst_port h; window h; tcp_check h; urgent_ptr h] /\
  Forall (fun v => 0 <= v < 2 ^ 32) [tcp_seq h; tcp_ack_seq h].
Definition udp_hdr_ok (h : udp_hdr) : Prop :=
  Forall (fun v => 0 <= v < 65536) [udp_src_port h; udp_dst_port h; udp_length h; udp_checksum h].
Definition arp_pkt_ok (p : arp_pkt) : Prop :=
  Forall (fun v => 0 <= v < 256) [hlen p; plen p] /\
  Forall (fun v => 0 <= v < 65536) [htype p; ptype p; oper p] /\
  Forall (fun v => 0 <= v < 2 ^ 32) [spa p; tpa p] /\ mac_ok (sha p) /\ mac_ok (tha p).
Definition eth_hdr_ok (h : eth_hdr) : Prop :=
  mac_ok (eth_dst h) /\ mac_ok (eth_src h) /\ 0 <= eth_type h < 65536.

Section Layout.
Lemma byte_skip pre l k : 0 <= k -> byte (pre ++ l) (Z.of_nat (length pre) + k) = byte l k.
Proof. intros. unfold byte. rewrite lookup_app_r by lia. do 2 f_equal. lia. Qed.
Lemma byte_skip0 pre l : byte (pre ++ l) (Z.of_nat (length pre)) = byte l 0.
Proof. rewrite <- (byte_skip pre l 0) by done. f_equal. lia. Qed.
Lemma slice_skip pre l k n : 0 <= k -> slice (pre ++ l) (Z.of_nat (length pre) + k) n = slice l k n.
Proof.
  intros. unfold slice. f_equal. replace (Z.to_nat (Z.of_nat (length pre) + k)) with (length pre + Z.to_nat k)%nat by lia.
  rewrite <- drop_drop. by rewrite drop_app_length.
Qed.
Lemma slice_skip0 pre l n : slice (pre ++ l) (Z.of_nat (length pre)) n = slice l 0 n.
Proof. rewrite <- (slice_skip pre l 0) by done. f_equal. lia. Qed.
Lemma le_bytes32_words v :
  0 <= v < 2 ^ 32 ->
  v mod 256 + (256 * (v / 256 mod 256) + 65536 * (v / 65536 mod 256 + 256 * (v / 65536 / 256 mod 256))) = v.
Proof. intros Hv. rewrite Z.add_assoc. exact (le_bytes32_value v Hv). Qed.
Lemma mac_cases l : mac_ok l -> exists a b c d e f, l = [a; b; c; d; e; f].
Proof.
  intros [Hl _]. do 6 (destruct l as [|? l]; [discriminate|]). destruct l; [|discriminate].
  eexists _, _, _, _, _, _. done.
Qed.
End Layout.

Ltac ranges :=
  repeat match goal with
  | H : Forall _ (_ :: _) |- _ => apply list.Forall_cons in H as [? H]
  | H : Forall _ [] |- _ => clear H
  end.
(** Reads a field of a header that follows a prefix. *)
Ltac header_field :=
  unfold byte, slice;
  repeat match goal with |- context [Z.to_nat ?k] =>
    let v := eval vm_compute in (Z.to_nat k) in change (Z.to_nat k) with v end;
  cbn [lookup list_lookup default take drop app le_bytes16 le_bytes32]; unfold id;
  rewrite ?u8_id, ?le_bytes32_words, ?le_bytes16_value by lia; try done.
Ltac header_at :=
  unfold le32, le16; rewrite <- ?Z.add_assoc; cbn [Z.add Pos.add Pos.succ Pos.add_carry];
  rewrite ?byte_skip0, ?slice_skip0, ?byte_skip, ?slice_skip by lia.

(** ** Theorems *)

(** The checksum of an IPv4 or ICMP header verifies: writing
    [network_checksum] of the bytes into their zero checksum field makes the
    checksum of the result zero, which is the test a receiver makes. *)
Theorem network_checksum_verifies (buf : list Z) (o : Z) :
  bytes buf -> Z.of_nat (length buf) <= 65536 ->
  0 <= o -> o mod 2 = 0 -> o + 2 <= Z.of_nat (length buf) ->
  byte buf o = 0 -> byte buf (o + 1) = 0 ->
  network_checksum (put buf o (le_bytes16 (network_checksum buf))) = 0.
Proof.
  intros Hb Hl Ho He Hf H0 H1.
  assert (Hb' : bytes (put buf o (le_bytes16 (network_checksum buf)))) by
    (apply put_Forall; [done|apply le_bytes16_range]).
  rewrite (network_checksum_sum (put _ _ _)) by (done || rewrite length_put; cbn; lia).
  rewrite wsum_le_field by (done || apply u16_range). rewrite network_checksum_sum by done.
  apply complement_sum_verifies. pose proof (wsum_le_bound buf Hb).
  assert ((Z.of_nat (length buf) + 1) / 2 < 32769) by (apply Z.div_lt_upper_bound; lia). lia.
Qed.

(** The checksum of a TCP segment verifies: with [tcp_checksum] stored in the
    zero checksum field, the sum over pseudo header, header and payload that a
    receiver makes gives zero. *)
Theorem tcp_checksum_verifies (tcp payload : list Z) (src_ip dst_ip o : Z) :
  bytes tcp -> bytes payload -> Z.of_nat (length tcp) + Z.of_nat (length payload) <= 65535 ->
  0 <= o -> o mod 2 = 0 -> o + 2 <= Z.of_nat (length tcp) ->
  byte tcp o = 0 -> byte tcp (o + 1) = 0 ->
  tcp_checksum (put tcp o (le_bytes16 (tcp_checksum tcp src_ip dst_ip payload))) src_ip dst_ip payload = 0.
Proof.
  intros Ht Hp Hl Ho He Hf H0 H1. destruct (tcp_checksum_sum tcp src_ip dst_ip payload) as [E Hr]; try done.
  rewrite E. set (x := pseudo _ _ _ _ + _ + _) in *.
  assert (Hb' : bytes (put tcp o (le_bytes16 (htons (complement_sum x))))) by
    (apply put_Forall; [done|apply le_bytes16_range]).
  assert (Hl' : length (put tcp o (le_bytes16 (htons (complement_sum x)))) = length tcp) by
    (rewrite length_put; cbn; lia).
  destruct (tcp_checksum_sum (put tcp o (le_bytes16 (htons (complement_sum x)))) src_ip dst_ip payload) as [-> _];
    [done|done|by rewrite Hl'|].
  rewrite Hl', wsum_be_field by (done || apply complement_sum_range).
  replace (_ + _ + _) with (x + complement_sum x) by (subst x; lia).
  by rewrite complement_sum_verifies by done.
Qed.

(** The checksum of a UDP datagram verifies: the sum over the datagram that
    carries [udp_package_checksum] folds to all ones, so that the routine run on
    it answers 0xFFFF, its encoding of zero; and the checksum is never zero,
    which on the wire means that there is none. *)
Theorem udp_checksum_verifies (local_ip remote_ip : Z) (udp : udp_hdr) (payload : list Z) :
  bytes payload -> 0 <= udp_length udp < 65536 -> Z.of_nat (length payload) <= 65527 -> udp_checksum udp = 0 ->
  let c := udp_package_checksum local_ip remote_ip udp payload in
  let signed := UdpHdr (udp_src_port udp) (udp_dst_port udp) (udp_length udp) c in
  0 < c < 65536 /\ udp_package_checksum local_ip remote_ip signed payload = 0xFFFF.
Proof.
  intros Hp Hu Hl Hz c signed.
  destruct (udp_sum_value local_ip remote_ip udp payload) as [Hx E]; try done.
  set (x := pseudo _ _ _ _ + _ + _) in *.
  pose proof (complement_sum_range x) as Rc. pose proof (complement_sum_verifies x Hx) as V.
  assert (Hc : 0 < c < 65536 /\ complement_sum (x + c) = 0).
  { unfold c. rewrite E. destruct (Z.eqb_spec (complement_sum x) 0) as [Z0|]; [|split; [lia|done]].
    split; [lia|]. rewrite complement_sum_value in Z0 by lia.
    destruct (fold_carries_spec (x + 65535)) as (B & M & N); [lia|].
    rewrite complement_sum_value by lia. destruct (fold_carries_spec x) as (B0 & M0 & _); [lia|].
    apply Z.mod_divide in M as [j Hj]; [|lia]. apply Z.mod_divide in M0 as [k Hk]; [|lia]. lia. }
  destruct Hc as [Hc V']. split; [done|]. clearbody c.
  destruct (udp_sum_value local_ip remote_ip signed payload) as [_ E']; [done|done|done|].
  rewrite E'. clear E E'.
  assert (W : wsum_le (udp_bytes signed) = wsum_le (udp_bytes udp) + c).
  { unfold signed, udp_bytes. cbn [udp_src_port udp_dst_port udp_length udp_checksum le_bytes16 app wsum_le].
    rewrite Hz. pose proof (le_bytes16_value c ltac:(lia)). change (0 mod 256) with 0.
    change (0 / 256 mod 256) with 0. lia. }
  rewrite W. change (udp_length signed) with (udp_length udp).
  replace (_ + _ + _) with (x + c) by (subst x; lia). by rewrite V'.
Qed.

(** A header written into a packet is read back: at the offset where its bytes
    start, the cast gives the header, whatever surrounds it. *)
Theorem headers_roundtrip (pre post : list Z) (eth : eth_hdr) (arp : arp_pkt) (ip : ipv4_hdr) (udp : udp_hdr) (tcp : tcp_hdr) :
  let o := Z.of_nat (length pre) in
  (eth_hdr_ok eth -> eth_at (pre ++ eth_bytes eth ++ post) o = eth) /\
  (arp_pkt_ok arp -> arp_at (pre ++ arp_bytes arp ++ post) o = arp) /\
  (ipv4_hdr_ok ip -> ipv4_at (pre ++ ipv4_bytes ip ++ post) o = ip) /\
  (udp_hdr_ok udp -> udp_at (pre ++ udp_bytes udp ++ post) o = udp) /\
  (tcp_hdr_ok tcp -> tcp_at (pre ++ tcp_bytes tcp ++ post) o = tcp).
Proof.
  intros o. unfold o. repeat split.
  - intros (M1 & M2 & H). destruct (mac_cases _ M1) as (? & ? & ? & ? & ? & ? & E1).
    destruct (mac_cases _ M2) as (? & ? & ? & ? & ? & ? & E2). destruct eth; cbn in *. subst.
    unfold eth_at, eth_bytes. cbn [eth_dst eth_src eth_type le_bytes16]. header_at. f_equal; header_field.
  - intros (F1 & F2 & F3 & M1 & M2). destruct (mac_cases _ M1) as (? & ? & ? & ? & ? & ? & E1).
    destruct (mac_cases _ M2) as (? & ? & ? & ? & ? & ? & E2). ranges. destruct arp; cbn in *. subst.
    unfold arp_at, arp_bytes, le_bytes32. cbn [htype ptype hlen plen oper sha spa
      tha tpa le_bytes16]. header_at. f_equal; header_field.
  - intros (F1 & F2 & F3). ranges. destruct ip; cbn in *. unfold ipv4_at, ipv4_bytes, le_bytes32.
    cbn [version_ihl tos total_length ip_id flags_fragoffset ttl ip_protocol ip_checksum ip_src ip_dst le_bytes16].
    header_at. f_equal; header_field.
  - intros F1. unfold udp_hdr_ok in F1. ranges. destruct udp; cbn in *. unfold udp_at, udp_bytes.
    cbn [udp_src_port udp_dst_port udp_length udp_checksum le_bytes16]. header_at. f_equal; header_field.
  - intros (F1 & F2 & F3). ranges. destruct tcp; cbn in *. unfold tcp_at, tcp_bytes, le_bytes32.
    cbn [tcp_src_port tcp_dst_port tcp_seq tcp_ack_seq data_offset_reserved tcp_flags window tcp_check urgent_ptr
      le_bytes16]. header_at. f_equal; header_field.
Qed.

(** *** Witnesses *)
Lemma tcp_checksum_verifies_witness :
  tcp_checksum (put (replicate 20 0) 16 (le_bytes16 (tcp_checksum (replicate 20 0) 0x0A000001 0x0A000002 [1; 2; 3]))) 0x0A000001 0x0A000002 [1; 2; 3] = 0.
Proof.
  apply (tcp_checksum_verifies (replicate 20 0) [1; 2; 3] 0x0A000001 0x0A000002 16); try reflexivity; try (cbn; lia).
  - repeat constructor; lia.
  - repeat constructor; lia.
Defined.
Lemma headers_roundtrip_witness :
  udp_at ([1; 2; 3] ++ udp_bytes (UdpHdr 53 1024 8 0) ++ [9]) 3 = UdpHdr 53 1024 8 0.
Proof.
  apply (headers_roundtrip [1; 2; 3] [9] (EthHdr [] [] 0) (ArpPkt 0 0 0 0 0 [] 0 [] 0)
    (Ipv4Hdr 0 0 0 0 0 0 0 0 0 0) (UdpHdr 53 1024 8 0) (TcpHdr 0 0 0 0 0 0 0 0 0)).
  repeat constructor; cbn; lia.
Defined.
