(* ===== verification/Inet.v ===== *)
(** * Inet: network tables, routing, addresses and the card

    The state and the table operations of src/core/network/af_inet/af_inet.h,
    the card of src/core/network/e1000.h and the structures of
    src/core/network/network.h: sockets and their matching, ports, routes, the
    cache of hardware addresses, address registration, and sending a packet.

    Socket structures live in [sock_heap] under their addresses, because the
    tables hold addresses and the code waits on addresses inside the
    structures; the bytes after a structure (receive ring, outgoing payload)
    are in [net_mem].  A network interface has one owner, its slot of
    [nic_global].  [now] is the clock during a call. *)
From S2P Require Import Prelude Bytes MemLib StrLib Time KState Blocks Threads Packet.
Open Scope Z_scope.

(** ** Constants *)
Definition NETWORKS_KSIZE : Z := 4096.
Definition MAX_NIC_COUNT : Z := 512.
Definition MAX_IP_PER_NIC : Z := 101.
Definition NET_BLOCK_SIZE : Z := 4096.
Definition SOCKET_BLOCK_COUNT : Z := 5.
Definition UDP_ADDITIONAL_SOCKET_BLOCK_COUNT : Z := 3.
Definition TCP_ADDITIONAL_SOCKET_BLOCK_COUNT : Z := 1.
Definition ARP_WAIT_TIME : Z := 1000000.
Definition MAC_CACHE_TIMEOUT : Z := 60000.
Definition MAX_SOCKETS_COUNT : Z := 5120.
Definition MAX_LISTENS_COUNT : Z := 5120.
Definition TCP_MAX_RETRIES : Z := 4.
Definition UDP_MTU : Z := 1472.
Definition TCP_MTU : Z := 1500.
Definition TCP_TIMEWAIT_TIMEOUT_SECONDS : Z := 60.
Definition HIGH_PORT_START : Z := 49152.
Definition HIGH_PORT_END : Z := 65535.
(** [Z40KB / 168] and [Z40KB / sizeof(struct route_entry)]. *)
Definition MAC_CACHE_SIZE : Z := 243.
Definition ROUTE_TABLE_SIZE : Z := 1706.
Definition sizeof_route_entry : Z := 24.
Definition sizeof_net_tuple : Z := 104.
Definition sizeof_net_tuple_tcp : Z := 160.
(** [enum protocol]. *)
Definition TCP : Z := 6.
Definition UDP : Z := 17.
Definition INADDR_ANY : Z := 0.

(** ** Structures *)
Inductive ip_status := IP_NOT_EXISTS | IP_PENDING | IP_ASSIGNED.
Inductive net_state_t :=
| NET_STATE_CLOSED | NET_STATE_LISTEN | NET_STATE_SYN_SENT | NET_STATE_SYN_RECEIVED
| NET_STATE_ESTABLISHED | NET_STATE_FIN_WAIT_1 | NET_STATE_FIN_WAIT_2 | NET_STATE_CLOSE_WAIT
| NET_STATE_CLOSING | NET_STATE_LAST_ACK | NET_STATE_TIME_WAIT.
#[export] Instance timeval_eq_dec : EqDecision timeval.
Proof. solve_decision. Defined.
#[export] Instance ip_status_eq_dec : EqDecision ip_status.
Proof. solve_decision. Defined.
#[export] Instance net_state_t_eq_dec : EqDecision net_state_t.
Proof. solve_decision. Defined.

(** [struct ip_t]. *)
Record ip_t := Ip {
  addr_h : Z;
  addr_l : Z;
  ver : Z;
  masklen : Z;
  ip_state : ip_status;
  init_time : timeval
}.
Definition set_ip_state (v : ip_status) (r : ip_t) : ip_t :=
  Ip (addr_h r) (addr_l r) (ver r) (masklen r) v (init_time r).
(** [struct nic_t]; [nic_ip] is the array of addresses, an absent entry is zero. *)
Record nic_t := Nic {
  nic_type : Z;
  nic_mac : list Z;
  nic_ip : gmap Z ip_t;
  nic_gateway : Z;
  mmio_base : Z
}.
Definition set_nic_ip (v : gmap Z ip_t) (r : nic_t) : nic_t :=
  Nic (nic_type r) (nic_mac r) v (nic_gateway r) (mmio_base r).
(** [struct net_tuple]. *)
Record net_tuple := NetTuple {
  local_ip_h : Z;
  local_ip_l : Z;
  remote_ip_h : Z;
  remote_ip_l : Z;
  local_port : Z;
  remote_port : Z;
  protocol : Z;
  version : Z;
  state : net_state_t;
  last_updated : timeval;
  xid : Z;
  recv_wait_flag : Z;
  head : Z;
  tail : Z;
  receive_blocking : bool
}.
Definition set_local_ip_h (v : Z) (r : net_tuple) : net_tuple :=
  NetTuple v (local_ip_l r) (remote_ip_h r) (remote_ip_l r) (local_port r) (remote_port r) (protocol r)
    (version r) (state r) (last_updated r) (xid r) (recv_wait_flag r) (head r) (tail r) (receive_blocking r).
Definition set_remote_ip_h (v : Z) (r : net_tuple) : net_tuple :=
  NetTuple (local_ip_h r) (local_ip_l r) v (remote_ip_l r) (local_port r) (remote_port r) (protocol r)
    (version r) (state r) (last_updated r) (xid r) (recv_wait_flag r) (head r) (tail r) (receive_blocking r).
Definition set_local_ip_l (v : Z) (r : net_tuple) : net_tuple :=
  NetTuple (local_ip_h r) v (remote_ip_h r) (remote_ip_l r) (local_port r) (remote_port r) (protocol r)
    (version r) (state r) (last_updated r) (xid r) (recv_wait_flag r) (head r) (tail r) (receive_blocking r).
Definition set_remote_ip_l (v : Z) (r : net_tuple) : net_tuple :=
  NetTuple (local_ip_h r) (local_ip_l r) (remote_ip_h r) v (local_port r) (remote_port r) (protocol r)
    (version r) (state r) (last_updated r) (xid r) (recv_wait_flag r) (head r) (tail r) (receive_blocking r).
Definition set_local_port (v : Z) (r : net_tuple) : net_tuple :=
  NetTuple (local_ip_h r) (local_ip_l r) (remote_ip_h r) (remote_ip_l r) v (remote_port r) (protocol r)
    (version r) (state r) (last_updated r) (xid r) (recv_wait_flag r) (head r) (tail r) (receive_blocking r).
Definition set_remote_port (v : Z) (r : net_tuple) : net_tuple :=
  NetTuple (local_ip_h r) (local_ip_l r) (remote_ip_h r) (remote_ip_l r) (local_port r) v (protocol r)
    (version r) (state r) (last_updated r) (xid r) (recv_wait_flag r) (head r) (tail r) (receive_blocking r).
Definition set_protocol (v : Z) (r : net_tuple) : net_tuple :=
  NetTuple (local_ip_h r) (local_ip_l r) (remote_ip_h r) (remote_ip_l r) (local_port r) (remote_port r) v
    (version r) (state r) (last_updated r) (xid r) (recv_wait_flag r) (head r) (tail r) (receive_blocking r).
Definition set_version (v : Z) (r : net_tuple) : net_tuple :=
  NetTuple (local_ip_h r) (local_ip_l r) (remote_ip_h r) (remote_ip_l r) (local_port r) (remote_port r)
    (protocol r) v (state r) (last_updated r) (xid r) (recv_wait_flag r) (head r) (tail r)
    (receive_blocking r).
Definition set_state (v : net_state_t) (r : net_tuple) : net_tuple :=
  NetTuple (local_ip_h r) (local_ip_l r) (remote_ip_h r) (remote_ip_l r) (local_port r) (remote_port r)
    (protocol r) (version r) v (last_updated r) (xid r) (recv_wait_flag r) (head r) (tail r)
    (receive_blocking r).
Definition set_last_updated (v : timeval) (r : net_tuple) : net_tuple :=
  NetTuple (local_ip_h r) (local_ip_l r) (remote_ip_h r) (remote_ip_l r) (local_port r) (remote_port r)
    (protocol r) (version r) (state r) v (xid r) (recv_wait_flag r) (head r) (tail r) (receive_blocking r).
Definition set_head (v : Z) (r : net_tuple) : net_tuple :=
  NetTuple (local_ip_h r) (local_ip_l r) (remote_ip_h r) (remote_ip_l r) (local_port r) (remote_port r)
    (protocol r) (version r) (state r) (last_updated r) (xid r) (recv_wait_flag r) v (tail r)
    (receive_blocking r).
Definition set_tail (v : Z) (r : net_tuple) : net_tuple :=
  NetTuple (local_ip_h r) (local_ip_l r) (remote_ip_h r) (remote_ip_l r) (local_port r) (remote_port r)
    (protocol r) (version r) (state r) (last_updated r) (xid r) (recv_wait_flag r) (head r) v
    (receive_blocking r).
Definition set_receive_blocking (v : bool) (r : net_tuple) : net_tuple :=
  NetTuple (local_ip_h r) (local_ip_l r) (remote_ip_h r) (remote_ip_l r) (local_port r) (remote_port r)
    (protocol r) (version r) (state r) (last_updated r) (xid r) (recv_wait_flag r) (head r) (tail r) v.
(** [struct net_tuple_tcp].  A UDP socket uses the embedded tuple only. *)
Record net_tuple_tcp := NetTupleTcp {
  tuple : net_tuple;
  send_retry_count : Z;
  send_payload_len : Z;
  ack_est_blocked : bool;
  seq_local : Z;
  seq_remote : Z;
  backlog : Z;
  send_wait_flag : Z;
  listen_wait_flag : Z;
  listen_id : Z
}.
Definition set_tuple (v : net_tuple) (r : net_tuple_tcp) : net_tuple_tcp :=
  NetTupleTcp v (send_retry_count r) (send_payload_len r) (ack_est_blocked r) (seq_local r) (seq_remote r)
    (backlog r) (send_wait_flag r) (listen_wait_flag r) (listen_id r).
Definition set_send_retry_count (v : Z) (r : net_tuple_tcp) : net_tuple_tcp :=
  NetTupleTcp (tuple r) v (send_payload_len r) (ack_est_blocked r) (seq_local r) (seq_remote r) (backlog r)
    (send_wait_flag r) (listen_wait_flag r) (listen_id r).
Definition set_send_payload_len (v : Z) (r : net_tuple_tcp) : net_tuple_tcp :=
  NetTupleTcp (tuple r) (send_retry_count r) v (ack_est_blocked r) (seq_local r) (seq_remote r) (backlog r)
    (send_wait_flag r) (listen_wait_flag r) (listen_id r).
Definition set_ack_est_blocked (v : bool) (r : net_tuple_tcp) : net_tuple_tcp :=
  NetTupleTcp (tuple r) (send_retry_count r) (send_payload_len r) v (seq_local r) (seq_remote r) (backlog r)
    (send_wait_flag r) (listen_wait_flag r) (listen_id r).
Definition set_seq_local (v : Z) (r : net_tuple_tcp) : net_tuple_tcp :=
  NetTupleTcp (tuple r) (send_retry_count r) (send_payload_len r) (ack_est_blocked r) v (seq_remote r)
    (backlog r) (send_wait_flag r) (listen_wait_flag r) (listen_id r).
Definition set_seq_remote (v : Z) (r : net_tuple_tcp) : net_tuple_tcp :=
  NetTupleTcp (tuple r) (send_retry_count r) (send_payload_len r) (ack_est_blocked r) (seq_local r) v
    (backlog r) (send_wait_flag r) (listen_wait_flag r) (listen_id r).
Definition set_backlog (v : Z) (r : net_tuple_tcp) : net_tuple_tcp :=
  NetTupleTcp (tuple r) (send_retry_count r) (send_payload_len r) (ack_est_blocked r) (seq_local r)
    (seq_remote r) v (send_wait_flag r) (listen_wait_flag r) (listen_id r).
Definition set_listen_id (v : Z) (r : net_tuple_tcp) : net_tuple_tcp :=
  NetTupleTcp (tuple r) (send_retry_count r) (send_payload_len r) (ack_est_blocked r) (seq_local r)
    (seq_remote r) (backlog r) (send_wait_flag r) (listen_wait_flag r) v.
#[export] Instance net_tuple_eq_dec : EqDecision net_tuple.
Proof. solve_decision. Defined.
#[export] Instance net_tuple_tcp_eq_dec : EqDecision net_tuple_tcp.
Proof. solve_decision. Defined.
(** Addresses of the wait flags of a socket at [a]. *)
Definition recv_wait_flag_addr (a : Z) : Z := a + 72.
Definition send_wait_flag_addr (a : Z) : Z := a + 136.
Definition listen_wait_flag_addr (a : Z) : Z := a + 144.

(** [struct mac_cache_v4_entry]. *)
Record mac_entry := MacEntry {
  me_ip : Z;
  me_mac : list Z;
  me_nic_id : Z;
  me_timestamp : Z
}.
(** [struct route_entry]. *)
Record route_entry := Route {
  r_dest : Z;
  r_netmask : Z;
  r_gateway : Z;
  r_nic_id : Z
}.
Definition set_r_dest (v : Z) (r : route_entry) : route_entry :=
  Route v (r_netmask r) (r_gateway r) (r_nic_id r).
(** [struct e1000_tx_desc] and [struct e1000_rx_desc], the fields in use. *)
Record e1000_desc := Desc {
  d_addr : Z;
  d_length : Z;
  d_cmd : Z;
  d_status : Z
}.
(** The card: two rings of sixteen descriptors, the 2048-byte buffers of each one
    after the other, and the registers by offset. *)
Record e1000_t := E1000 {
  tx_ring : gmap Z e1000_desc;
  tx_tail : Z;
  tx_buffers : mem;
  rx_ring : gmap Z e1000_desc;
  rx_tail : Z;
  rx_buffers : mem;
  regs : gmap Z Z
}.
Definition set_tx_ring (v : gmap Z e1000_desc) (r : e1000_t) : e1000_t :=
  E1000 v (tx_tail r) (tx_buffers r) (rx_ring r) (rx_tail r) (rx_buffers r) (regs r).
Definition set_tx_tail (v : Z) (r : e1000_t) : e1000_t :=
  E1000 (tx_ring r) v (tx_buffers r) (rx_ring r) (rx_tail r) (rx_buffers r) (regs r).
Definition set_tx_buffers (v : mem) (r : e1000_t) : e1000_t :=
  E1000 (tx_ring r) (tx_tail r) v (rx_ring r) (rx_tail r) (rx_buffers r) (regs r).
Definition set_rx_ring (v : gmap Z e1000_desc) (r : e1000_t) : e1000_t :=
  E1000 (tx_ring r) (tx_tail r) (tx_buffers r) v (rx_tail r) (rx_buffers r) (regs r).
Definition set_rx_tail (v : Z) (r : e1000_t) : e1000_t :=
  E1000 (tx_ring r) (tx_tail r) (tx_buffers r) (rx_ring r) v (rx_buffers r) (regs r).
Definition set_regs (v : gmap Z Z) (r : e1000_t) : e1000_t :=
  E1000 (tx_ring r) (tx_tail r) (tx_buffers r) (rx_ring r) (rx_tail r) (rx_buffers r) v.
(** The network state beside the kernel state. *)
Record net := Net {
  nk : kstate;
  net_mem : mem;
  socket_global : gmap Z Z;
  listen_global : gmap Z Z;
  sock_heap : gmap Z net_tuple_tcp;
  nic_global : gmap Z nic_t;
  mac_cache_v4 : gmap Z mac_entry;
  route_table_v4 : gmap Z route_entry;
  card : e1000_t;
  ip_ident : Z;
  next_ephemeral_port : Z;
  next_isn : Z
}.
Definition set_nk (v : kstate) (r : net) : net :=
  Net v (net_mem r) (socket_global r) (listen_global r) (sock_heap r) (nic_global r) (mac_cache_v4 r)
    (route_table_v4 r) (card r) (ip_ident r) (next_ephemeral_port r) (next_isn r).
Definition set_net_mem (v : mem) (r : net) : net :=
  Net (nk r) v (socket_global r) (listen_global r) (sock_heap r) (nic_global r) (mac_cache_v4 r)
    (route_table_v4 r) (card r) (ip_ident r) (next_ephemeral_port r) (next_isn r).
Definition set_socket_global (v : gmap Z Z) (r : net) : net :=
  Net (nk r) (net_mem r) v (listen_global r) (sock_heap r) (nic_global r) (mac_cache_v4 r) (route_table_v4 r)
    (card r) (ip_ident r) (next_ephemeral_port r) (next_isn r).
Definition set_listen_global (v : gmap Z Z) (r : net) : net :=
  Net (nk r) (net_mem r) (socket_global r) v (sock_heap r) (nic_global r) (mac_cache_v4 r) (route_table_v4 r)
    (card r) (ip_ident r) (next_ephemeral_port r) (next_isn r).
Definition set_sock_heap (v : gmap Z net_tuple_tcp) (r : net) : net :=
  Net (nk r) (net_mem r) (socket_global r) (listen_global r) v (nic_global r) (mac_cache_v4 r)
    (route_table_v4 r) (card r) (ip_ident r) (next_ephemeral_port r) (next_isn r).
Definition set_nic_global (v : gmap Z nic_t) (r : net) : net :=
  Net (nk r) (net_mem r) (socket_global r) (listen_global r) (sock_heap r) v (mac_cache_v4 r)
    (route_table_v4 r) (card r) (ip_ident r) (next_ephemeral_port r) (next_isn r).
Definition set_mac_cache_v4 (v : gmap Z mac_entry) (r : net) : net :=
  Net (nk r) (net_mem r) (socket_global r) (listen_global r) (sock_heap r) (nic_global r) v (route_table_v4 r)
    (card r) (ip_ident r) (next_ephemeral_port r) (next_isn r).
Definition set_route_table_v4 (v : gmap Z route_entry) (r : net) : net :=
  Net (nk r) (net_mem r) (socket_global r) (listen_global r) (sock_heap r) (nic_global r) (mac_cache_v4 r) v
    (card r) (ip_ident r) (next_ephemeral_port r) (next_isn r).
Definition set_card (v : e1000_t) (r : net) : net :=
  Net (nk r) (net_mem r) (socket_global r) (listen_global r) (sock_heap r) (nic_global r) (mac_cache_v4 r)
    (route_table_v4 r) v (ip_ident r) (next_ephemeral_port r) (next_isn r).
Definition set_ip_ident (v : Z) (r : net) : net :=
  Net (nk r) (net_mem r) (socket_global r) (listen_global r) (sock_heap r) (nic_global r) (mac_cache_v4 r)
    (route_table_v4 r) (card r) v (next_ephemeral_port r) (next_isn r).
Definition set_next_ephemeral_port (v : Z) (r : net) : net :=
  Net (nk r) (net_mem r) (socket_global r) (listen_global r) (sock_heap r) (nic_global r) (mac_cache_v4 r)
    (route_table_v4 r) (card r) (ip_ident r) v (next_isn r).
Definition set_next_isn (v : Z) (r : net) : net :=
  Net (nk r) (net_mem r) (socket_global r) (listen_global r) (sock_heap r) (nic_global r) (mac_cache_v4 r)
    (route_table_v4 r) (card r) (ip_ident r) (next_ephemeral_port r) v.

Definition zero_ip : ip_t := Ip 0 0 0 0 IP_NOT_EXISTS (Timeval 0 0).
Definition zero_tuple : net_tuple :=
  NetTuple 0 0 0 0 0 0 0 0 NET_STATE_CLOSED (Timeval 0 0) 0 0 0 0 false.
Definition zero_tuple_tcp : net_tuple_tcp := NetTupleTcp zero_tuple 0 0 false 0 0 0 0 0 0.
Definition zero_mac : mac_entry := MacEntry 0 (replicate 6 0) 0 0.
Definition zero_route : route_entry := Route 0 0 0 0.
Definition zero_desc : e1000_desc := Desc 0 0 0 0.
#[export] Instance route_entry_eq_dec : EqDecision route_entry.
Proof. solve_decision. Defined.

(** What a call finds outside the state: the clock, two random draws, the
    contents of uninitialised local variables, the address of the local packet
    buffer. *)
Record net_env := NetEnv {
  now : timeval; draw1 : Z; draw2 : Z;
  stack_tuple : net_tuple_tcp; stack_mac : list Z; stack_nic : nic_t; stack_buf : Z }.

(** ** Access through the tables *)
Definition ip_at (n : nic_t) (j : Z) : ip_t := default zero_ip (nic_ip n !! j).
Definition set_ip (j : Z) (v : ip_t) (n : nic_t) : nic_t := set_nic_ip (<[j := v]> (nic_ip n)) n.
Definition mac_at (s : net) (i : Z) : mac_entry := default zero_mac (mac_cache_v4 s !! i).
Definition route_at (s : net) (i : Z) : route_entry := default zero_route (route_table_v4 s !! i).
Definition sock_ptr (s : net) (i : Z) : Z := default 0 (socket_global s !! i).
Definition listen_ptr (s : net) (i : Z) : Z := default 0 (listen_global s !! i).
Definition sock (s : net) (i : Z) : option net_tuple_tcp := sock_heap s !! sock_ptr s i.
Definition listener (s : net) (i : Z) : option net_tuple_tcp := sock_heap s !! listen_ptr s i.
Definition upd_sock_at (a : Z) (f : net_tuple_tcp -> net_tuple_tcp) (s : net) : net :=
  set_sock_heap (alter f a (sock_heap s)) s.
Definition upd_tuple (f : net_tuple -> net_tuple) (t : net_tuple_tcp) : net_tuple_tcp := set_tuple (f (tuple t)) t.
Definition upd_nic (i : Z) (f : nic_t -> nic_t) (s : net) : net :=
  set_nic_global (alter f i (nic_global s)) s.

(** An operation of the kernel state, on the network state. *)
Definition liftk {A} (c : ST kstate A) : ST net A := fun s =>
  match c (nk s) with
  | Done (a, k) => Done (a, set_nk k s)
  | Panicked => Panicked
  | Faulted => Faulted
  | Stuck => Stuck
  end.
Definition get_sock (i : Z) : ST net net_tuple_tcp := gets (fun s => sock s i) ≫= deref.
Definition get_nic (i : Z) : ST net nic_t := gets (fun s => nic_global s !! i) ≫= deref.

(** ** Matching *)

(** A pointer to a tuple: its address and what is there. *)
Definition tref := option (Z * net_tuple).
Definition same_ref (a b : tref) : bool := bool_decide (fst <$> a = fst <$> b).
(** A local variable, at an address no table holds. *)
Definition local_ref (t : net_tuple) : tref := Some (-1, t).
Definition heap_ref (s : net) (a : Z) : tref := (fun t => (a, tuple t)) <$> sock_heap s !! a.

Definition net_tuple_match_v4 (src target : tref) : bool :=
  if same_ref src target then true
  else match src, target with
  | Some (_, src), Some (_, target) =>
      if negb (protocol src =? protocol target) then false
      else if negb (local_ip_l src =? local_ip_l target) && negb (local_ip_l target =? 0) then false
      else if negb (local_port src =? local_port target) then false
      else if negb (remote_ip_l src =? remote_ip_l target) && negb (remote_ip_l target =? 0) then false
      else if negb (remote_port src =? remote_port target) && negb (remote_port target =? 0) then false
      else version src =? version target
  | _, _ => false
  end.
Definition net_tuple_equal_v4 (src target : tref) : bool :=
  if same_ref src target then true
  else match src, target with
  | Some (_, src), Some (_, target) =>
      if decide (state src = NET_STATE_LISTEN) then false
      else if negb (protocol src =? protocol target) then false
      else if negb (local_ip_l src =? local_ip_l target) then false
      else if negb (local_port src =? local_port target) then false
      else if negb (remote_ip_l src =? remote_ip_l target) then false
      else if negb (remote_port src =? remote_port target) then false
      else version src =? version target
  | _, _ => false
  end.

Definition find_socket (t : net_tuple) (s : net) : option Z :=
  find_idx (Z.to_nat MAX_SOCKETS_COUNT) 0
    (fun i => net_tuple_match_v4 (local_ref t) (heap_ref s (sock_ptr s i))).
Definition find_socket_not_listen (t : net_tuple) (s : net) : option Z :=
  find_idx (Z.to_nat MAX_SOCKETS_COUNT) 0
    (fun i => net_tuple_equal_v4 (local_ref t) (heap_ref s (sock_ptr s i))).
Definition find_listen (t : net_tuple) (s : net) : option Z :=
  find_idx (Z.to_nat MAX_SOCKETS_COUNT) 0 (fun i =>
    match listener s i with
    | None => false
    | Some tmp => bool_decide (state (tuple tmp) = NET_STATE_LISTEN) &&
                  net_tuple_match_v4 (local_ref t) (heap_ref s (listen_ptr s i))
    end).

(** ** Ports *)
Definition port_in_use (s : net) (ip port proto : Z) : bool :=
  bool_decide (find_idx (Z.to_nat NETWORKS_KSIZE) 0 (fun i =>
    match sock s i with
    | None => false
    | Some t => let t := tuple t in
        (protocol t =? proto) && (local_port t =? port)
        && ((local_ip_l t =? ip) || (local_ip_l t =? INADDR_ANY))
    end) <> None).
(** The counter is a [uint16_t]: the test against [HIGH_PORT_END] is the code's. *)
Definition allocate_random_high_port (proto : Z) : ST net Z :=
  r ← loop_m (Z.to_nat (HIGH_PORT_END - HIGH_PORT_START)) 0 (fun _ =>
    port ← gets next_ephemeral_port;
    _ ← modify (set_next_ephemeral_port (u16 (port + 1)));
    nxt ← gets next_ephemeral_port;
    _ ← when (HIGH_PORT_END <? nxt) (modify (set_next_ephemeral_port HIGH_PORT_START));
    used ← gets (fun s => port_in_use s INADDR_ANY port proto);
    mret (if used : bool then None else Some port));
  mret (default 0 r).

(** ** Creating and deleting sockets *)
Section Sockets.
Context {M : Machine} (e : net_env).

(** [get_continuous_free_blocks(n) * 4096 + HM]. *)
Definition alloc_blocks (n : Z) : ST net Z :=
  b ← liftk (get_continuous_free_blocks n); mret (u64 (u64 (b * 4096) + HM)).

(** The address of the structure at a free slot; the structure is overwritten. *)
Definition create_listen (t : net_tuple) : ST net (option Z) :=
  dup ← gets (fun s => find_idx (Z.to_nat MAX_LISTENS_COUNT) 0 (fun i =>
    match listener s i with Some x => bool_decide (tuple x = t) | None => false end));
  match dup : option Z with
  | Some _ => mret None
  | None =>
      free ← gets (fun s => find_idx (Z.to_nat (MAX_LISTENS_COUNT / 8)) 0 (fun i => listen_ptr s i =? 0));
      match free : option Z with
      | None => mret (Some (MAX_LISTENS_COUNT / 8))
      | Some i =>
          a ← alloc_blocks 2;
          _ ← modify (fun s => set_listen_global (<[i := a]> (listen_global s)) s);
          _ ← modify (fun s => set_sock_heap (<[a := set_tuple t (default zero_tuple_tcp (sock_heap s !! a))]> (sock_heap s)) s);
          mret (Some i)
      end
  end.

Definition create_socket_udp (t : net_tuple) : ST net (option Z) :=
  dup ← gets (fun s => find_idx (Z.to_nat MAX_SOCKETS_COUNT) 0 (fun i =>
    match sock s i with Some x => bool_decide (tuple x = t) | None => false end));
  match dup : option Z with
  | Some _ => mret None
  | None =>
      free ← gets (fun s => find_idx (Z.to_nat (MAX_SOCKETS_COUNT / 8)) 0 (fun i =>
        match sock s i with Some x => version (tuple x) =? 0 | None => true end));
      match free : option Z with
      | None => mret (Some (MAX_SOCKETS_COUNT / 8))
      | Some i =>
          a ← alloc_blocks SOCKET_BLOCK_COUNT;
          _ ← modify (fun s => set_socket_global (<[i := a]> (socket_global s)) s);
          let t := set_receive_blocking true (set_tail 0 (set_head 0 (set_version 4
                     (set_protocol UDP (set_state NET_STATE_ESTABLISHED t))))) in
          _ ← modify (fun s => set_sock_heap (<[a := set_tuple t (default zero_tuple_tcp (sock_heap s !! a))]> (sock_heap s)) s);
          mret (Some i)
      end
  end.

Definition create_socket_tcp (original_tcp_tuple : net_tuple_tcp) : ST net (option Z) :=
  dup ← gets (fun s => find_idx (Z.to_nat MAX_SOCKETS_COUNT) 0 (fun i =>
    match sock s i with Some x => bool_decide (x = original_tcp_tuple) | None => false end));
  match dup : option Z with
  | Some _ => mret None
  | None =>
      free ← gets (fun s => find_idx (Z.to_nat MAX_SOCKETS_COUNT) 0 (fun i => sock_ptr s i =? 0));
      match free : option Z with
      | None => mret (Some MAX_SOCKETS_COUNT)
      | Some i =>
          a ← alloc_blocks (SOCKET_BLOCK_COUNT + TCP_ADDITIONAL_SOCKET_BLOCK_COUNT);
          _ ← modify (fun s => set_socket_global (<[i := a]> (socket_global s)) s);
          let t := set_receive_blocking true (set_tail 0 (set_head 0 (set_version 4
                     (set_protocol TCP (set_state NET_STATE_CLOSED (tuple original_tcp_tuple)))))) in
          let seq := u64 (u64 (1000000000 * draw1 e) + draw2 e) in
          _ ← modify (fun s => set_sock_heap
                (<[a := set_ack_est_blocked false (set_seq_local seq (set_tuple t original_tcp_tuple))]> (sock_heap s)) s);
          mret (Some i)
      end
  end.

(** [erase_block] of a block of a socket. *)
Definition erase_sock_block (a : Z) (s : net) : net :=
  set_net_mem (erase_mem8 (net_mem s) a 4096) (upd_sock_at a (fun _ => zero_tuple_tcp) s).
(** The five iterations of the deletion loops. *)
Fixpoint release_blocks (n : nat) (j tmp_addr : Z) (s : net) : net :=
  match n with
  | O => s
  | S n' =>
      let s := erase_sock_block (tmp_addr + j * NET_BLOCK_SIZE) s in
      release_blocks n' (j + 1) tmp_addr
        (set_nk (set_memory_block_used_when_boot (tmp_addr / 4096 + j) false (nk s)) s)
  end.
Definition delete_socket_i (id : Z) : ST net (option Z) :=
  tmp_addr ← gets (fun s => sock_ptr s id);
  if tmp_addr =? 0 then mret None
  else
    _ ← modify (release_blocks (Z.to_nat SOCKET_BLOCK_COUNT) 0 tmp_addr);
    _ ← modify (fun s => set_socket_global (<[id := 0]> (socket_global s)) s);
    mret (Some 0).
Definition delete_socket (t : net_tuple) : ST net (option Z) :=
  loop_m (Z.to_nat MAX_SOCKETS_COUNT) 0 (fun i =>
    x ← get_sock i;
    if version (tuple x) =? 0 then mret None
    else if decide (tuple x = t) then delete_socket_i i else mret None).

(** Both loops read every slot of the thread table; the assignment in their
    body is a comparison, so they change nothing. *)
Definition mark_socket_as_deleted (id : Z) : ST net unit :=
  t ← get_sock id;
  a ← gets (fun s => sock_ptr s id);
  _ ← modify (upd_sock_at a (upd_tuple (set_state NET_STATE_CLOSE_WAIT)));
  let scan := for_m (Z.to_nat MAX_THREADS_COUNT) 0 (fun i =>
    _ ← (gets (fun s => thread (nk s) i) ≫= deref); mret tt) in
  _ ← scan;
  if negb (protocol (tuple t) =? TCP) then mret tt else scan.

(** The wake-up loop of the receive and send paths. *)
Definition wake_on (flag : Z) (t : thread_info) : thread_info :=
  if bool_decide (t_state t = THREAD_BLOCKED_NETWORK /\ t_sleep_flag_addr t = flag)
  then set_t_state THREAD_READY t else t.
Definition wake_all (flag : Z) (s : net) : net := set_nk (map_threads (fun _ => wake_on flag) (nk s)) s.

Definition resume_first_thread_pending_on_listen (id : Z) : ST net (option Z) :=
  flag_addr ← gets (fun s => listen_wait_flag_addr (sock_ptr s id));
  r ← gets (fun s => find_idx (Z.to_nat MAX_THREADS_COUNT) 0 (fun i =>
    match thread (nk s) i with
    | Some t => bool_decide (t_state t = THREAD_BLOCKED_NETWORK /\ t_sleep_flag_addr t = flag_addr)
    | None => false
    end));
  match r : option Z with
  | Some i => _ ← modify (fun s => set_nk (upd_thread i (set_t_state THREAD_READY) (nk s)) s); mret (Some i)
  | None => mret None
  end.
End Sockets.

(** ** Routes *)
Definition in_l2 (ip_a ip_b netmask : Z) : bool := Z.land ip_a netmask =? Z.land ip_b netmask.

Fixpoint mask_loop (n : nat) (i tmp : Z) : Z :=
  match n with O => tmp | S n' => mask_loop n' (i + 1) (u32 (Z.lor tmp (Z.shiftl 1 i))) end.
Definition char_to_netmask (n : Z) : Z := mask_loop (Z.to_nat n) 0 0.
Definition netmask_to_char (tmp : Z) : Z :=
  default 32 (find_idx 32 0 (fun i => Z.land tmp (u32 (Z.shiftl 1 i)) =? 0)).

(** [get_a_free_slot_with_size] over the table: its bound counts bytes. *)
Definition add_route (dest netmask gateway nic_id : Z) : ST net bool :=
  id ← gets (fun s => find_idx (Z.to_nat (ROUTE_TABLE_SIZE / sizeof_route_entry)) 0
                        (fun i => bool_decide (route_at s i = zero_route)));
  match id : option Z with
  | None => panic
  | Some id =>
      _ ← modify (fun s => set_route_table_v4 (<[id := Route dest netmask gateway nic_id]> (route_table_v4 s)) s);
      mret true
  end.
(** [erase_mem8] clears [sizeof(struct route_entry) / 8 = 3] bytes: the low
    three of [dest]. *)
Definition del_route (dest netmask : Z) : ST net bool :=
  id ← gets (fun s => find_idx (Z.to_nat ROUTE_TABLE_SIZE) 0 (fun i =>
    (r_dest (route_at s i) =? dest) && (r_netmask (route_at s i) =? netmask)));
  match id : option Z with
  | None => mret false
  | Some id =>
      _ ← modify (fun s => set_route_table_v4
            (<[id := set_r_dest (Z.land (r_dest (route_at s id)) 0xFF000000) (route_at s id)]> (route_table_v4 s)) s);
      mret true
  end.

Definition route_matches (dest_ip : Z) (r : route_entry) : bool :=
  negb (r_dest r =? 0) && negb (r_netmask r =? 0)
  && (Z.land dest_ip (r_netmask r) =? Z.land (r_dest r) (r_netmask r)).
Fixpoint route_scan (n : nat) (i dest_ip : Z) (s : net) (best : option Z) (best_mask : Z) : option Z :=
  match n with
  | O => best
  | S n' =>
      let r := route_at s i in
      if route_matches dest_ip r && (best_mask <=? r_netmask r)
      then route_scan n' (i + 1) dest_ip s (Some i) (r_netmask r)
      else route_scan n' (i + 1) dest_ip s best best_mask
  end.
Definition find_route (dest_ip : Z) (s : net) : option Z :=
  route_scan (Z.to_nat ROUTE_TABLE_SIZE) 0 dest_ip s None 0.
Definition find_route_n_gate (dest_ip : Z) (s : net) : option Z :=
  match find_route dest_ip s with
  | Some i => Some i
  | None => find_idx (Z.to_nat ROUTE_TABLE_SIZE) 0
              (fun i => (r_dest (route_at s i) =? 0) && (r_netmask (route_at s i) =? 0))
  end.
Definition find_first_gateway (s : net) : Z :=
  match find_idx (Z.to_nat MAX_NIC_COUNT) 0 (fun i =>
    match nic_global s !! i with Some n => negb (nic_gateway n =? 0) | None => false end) with
  | Some i => match nic_global s !! i with Some n => nic_gateway n | None => 0 end
  | None => 0
  end.
Definition get_next_hop (dest_ip : Z) (s : net) : Z :=
  match find_route dest_ip s with
  | Some i => r_gateway (route_at s i)
  | None => let gateway := find_first_gateway s in
            if negb (gateway =? 0) then gateway else dest_ip
  end.

(** ** Addresses of the interfaces *)
Definition find_ipv4_of_nic (n : nic_t) (res_ip : Z) : option Z :=
  find_idx (Z.to_nat MAX_IP_PER_NIC) 0 (fun i => u32 (addr_l (ip_at n i)) =? res_ip).
(** The scan goes on past the array when no address has version 4. *)
Definition find_1st_ipv4 (n : nic_t) : ST net Z :=
  match find_idx (Z.to_nat MAX_IP_PER_NIC) 0 (fun i => ver (ip_at n i) =? 4) with
  | Some i => mret (u32 (addr_l (ip_at n i)))
  | None => fault
  end.
Definition find_nic_id_by_ipv4 (src_ip : Z) (s : net) : option Z :=
  if src_ip =? 0 then Some 1
  else find_idx (Z.to_nat MAC_CACHE_SIZE) 0 (fun i =>
    match nic_global s !! i with
    | None => false
    | Some n => bool_decide (find_idx (Z.to_nat MAX_IP_PER_NIC) 0 (fun j =>
        negb (addr_l (ip_at n j) =? 0) && (src_ip =? addr_l (ip_at n j)) && (ver (ip_at n j) =? 4)) <> None)
    end).

(** [while ( *ip_str )]: one character per round. *)
Fixpoint ip_str_loop (fuel : nat) (m : mem) (ip_str result octet dots : Z) : option Z :=
  match fuel with
  | O => None
  | S f =>
      let c := ld m ip_str in
      if c =? 0 then Some (if negb (dots =? 3) then 0 else u32 (Z.lor (u32 (Z.shiftl result 8)) octet))
      else if (48 <=? c) && (c <=? 57) then
        let octet := u32 (u32 (octet * 10) + (c - 48)) in
        if 255 <? octet then Some 0 else ip_str_loop f m (ip_str + 1) result octet dots
      else if c =? 46 then
        let result := u32 (Z.lor (u32 (Z.shiftl result 8)) octet) in
        let dots := dots + 1 in
        if 3 <? dots then Some 0 else ip_str_loop f m (ip_str + 1) result 0 dots
      else Some 0
  end.
Definition ip_str_to_int (fuel : nat) (m : mem) (ip_str : Z) : option Z := ip_str_loop fuel m ip_str 0 0 0.

Section Addresses.
Context {M : Machine} (e : net_env).
Abbreviation now := (now e).
Definition pending_over (ip : ip_t) : bool := negb (_later (add_time_us (init_time ip) ARP_WAIT_TIME) now).
Definition check_ipv4 (nic_id ip : Z) : ST net bool :=
  n ← get_nic nic_id;
  match find_ipv4_of_nic n ip with
  | None => mret false
  | Some matched_id =>
      if decide (ip_state (ip_at n matched_id) = IP_ASSIGNED) then mret true
      else if negb (pending_over (ip_at n matched_id)) then mret false
      else
        _ ← modify (upd_nic nic_id (set_ip matched_id (set_ip_state IP_ASSIGNED (ip_at n matched_id))));
        mret true
  end.

(** The block is not cleared: the fields not set are what it held. *)
Definition register_nic (mac_input : list Z) : ST net Z :=
  id ← gets (fun s => get_a_free_slot (fun i => match nic_global s !! i with Some _ => 1 | None => 0 end) 1 MAX_NIC_COUNT);
  match id : option Z with
  | None => panic
  | Some nic_id =>
      _ ← liftk get_a_free_block_addr;
      let n := stack_nic e in
      _ ← modify (fun s => set_nic_global
            (<[nic_id := Nic 1 mac_input (nic_ip n) (nic_gateway n) (mmio_base n)]> (nic_global s)) s);
      mret nic_id
  end.

(** ** Hardware addresses *)
Definition add_cache_mac_v4_line (i ip : Z) (mac : list Z) (nic_id : Z) (s : net) : net :=
  set_mac_cache_v4 (<[i := MacEntry ip mac nic_id (tv_sec now)]> (mac_cache_v4 s)) s.
Definition remove_cache_mac_v4 (i : Z) (s : net) : net :=
  set_mac_cache_v4 (<[i := zero_mac]> (mac_cache_v4 s)) s.
(** The first entry with the smallest time below the present one, else 0. *)
Fixpoint earliest_scan (n : nat) (i : Z) (s : net) (earliest_timestamp earliest_i : Z) : Z :=
  match n with
  | O => earliest_i
  | S n' =>
      if me_timestamp (mac_at s i) <? earliest_timestamp
      then earliest_scan n' (i + 1) s (me_timestamp (mac_at s i)) i
      else earliest_scan n' (i + 1) s earliest_timestamp earliest_i
  end.
Definition add_cache_mac_v4 (ip : Z) (mac : list Z) (nic_id : Z) : ST net (option Z) :=
  known ← loop_m (Z.to_nat MAC_CACHE_SIZE) 0 (fun i =>
    c ← gets (fun s => mac_at s i);
    if me_timestamp c <=? tv_sec (subtract_time_us now MAC_CACHE_TIMEOUT)
    then _ ← modify (remove_cache_mac_v4 i); mret None
    else if (me_ip c =? ip) && bool_decide (me_mac c = mac) then mret (Some tt) else mret None);
  match known : option unit with
  | Some _ => mret None
  | None =>
      free ← gets (fun s => find_idx (Z.to_nat MAC_CACHE_SIZE) 0 (fun i => me_ip (mac_at s i) =? 0));
      i ← match free : option Z with
          | Some i => mret i
          | None => gets (fun s => earliest_scan (Z.to_nat MAC_CACHE_SIZE) 0 s (tv_sec now) 0)
          end;
      _ ← modify (add_cache_mac_v4_line i ip mac nic_id);
      mret (Some i)
  end.

Definition mac_null (mac : list Z) : bool := bool_decide (Forall (fun b => b = 0) (take 6 mac)).

(** ** The card *)
Definition NUM_TX_DESC : Z := 16.
Definition NUM_RX_DESC : Z := 16.
Definition E1000_TDT : Z := 0x3818.
Definition E1000_RDT : Z := 0x2818.


(** Waits for a free descriptor: [Stuck] when the card never frees it. *)
Definition e1000_send (data : list Z) : ST net unit := fun s =>
  let c := card s in
  let desc := default zero_desc (tx_ring c !! tx_tail c) in
  if negb (Z.testbit (d_status desc) 0) then Stuck
  else
    let bufs := store_bytes (tx_buffers c) (tx_tail c * 2048) data in
    let desc := Desc (d_addr desc) (u16 (Z.of_nat (length data))) 9 0 in
    let nxt := (tx_tail c + 1) mod NUM_TX_DESC in
    Done (tt, set_card (E1000 (<[tx_tail c := desc]> (tx_ring c)) nxt bufs (rx_ring c) (rx_tail c)
                          (rx_buffers c) (<[E1000_TDT := nxt]> (regs c))) s).
(** The bytes received, at most [bufsize]. *)
Definition e1000_recv (bufsize : Z) : ST net (list Z) := fun s =>
  let c := card s in
  match find_idx (Z.to_nat NUM_RX_DESC) 0 (fun tmp =>
          Z.testbit (d_status (default zero_desc (rx_ring c !! ((rx_tail c + tmp) mod NUM_RX_DESC)))) 0) with
  | None => Done ([], s)
  | Some tmp =>
      let rx_id := (rx_tail c + tmp) mod NUM_RX_DESC in
      let desc := default zero_desc (rx_ring c !! rx_id) in
      let len := if bufsize <? d_length desc then bufsize else d_length desc in
      Done (cells (rx_buffers c) (rx_id * 2048) (Z.to_nat len),
            set_card (E1000 (tx_ring c) (tx_tail c) (tx_buffers c)
              (<[rx_id := Desc (d_addr desc) (d_length desc) (d_cmd desc) 0]> (rx_ring c))
              ((rx_id + 1) mod NUM_RX_DESC) (rx_buffers c) (<[E1000_RDT := rx_id]> (regs c))) s)
  end.
End Addresses.

(** ** Sending

    [nic_send_dispatch] hands a packet for interface 0 back to [handle_ipv4],
    which can send again; here it is a variable, closed over in the file of the
    handlers. *)
Section Sending.
Context (e : net_env).
Abbreviation now := (now e).
Variable nic_send_dispatch : Z -> list Z -> ST net unit.

Definition send_arp (ip nic_id : Z) (ip_registered : bool) : ST net unit :=
  this_nic ← get_nic nic_id;
  target_ip ← gets (get_next_hop ip);
  if target_ip =? 0 then mret tt
  else
    spa ← (if ip_registered then find_1st_ipv4 this_nic else mret 0);
    let eth := EthHdr (replicate 6 0xFF) (nic_mac this_nic) (htons 0x0806) in
    let arp := ArpPkt (htons 1) (htons 0x0800) 6 4 (htons 1) (nic_mac this_nic) (htonl spa)
                 (replicate 6 0) (htonl target_ip) in
    nic_send_dispatch nic_id (eth_bytes eth ++ arp_bytes arp).

(** The address is written to [mac] when the answer is [Some]. *)
Definition find_mac_of_ipv4_l2 (ip nic_id : Z) : ST net (option (list Z)) :=
  i ← gets (fun s => find_idx (Z.to_nat MAC_CACHE_SIZE) 0 (fun i =>
    (me_ip (mac_at s i) =? ip) && (u64 (tv_sec now - MAC_CACHE_TIMEOUT / 1000) <? me_timestamp (mac_at s i))));
  match i : option Z with
  | Some i => c ← gets (fun s => mac_at s i); mret (Some (me_mac c))
  | None => _ ← send_arp ip nic_id true; mret None
  end.
Definition find_mac_of_ipv4_l3 (ip nic_id : Z) : ST net (option (list Z)) :=
  route ← gets (find_route ip);
  match route : option Z with
  | Some i => r ← gets (fun s => route_at s i); find_mac_of_ipv4_l2 (r_gateway r) nic_id
  | None =>
      gateway ← gets find_first_gateway;
      if gateway =? 0 then mret None else find_mac_of_ipv4_l2 gateway nic_id
  end.
Definition find_mac_of_ipv4 (ip nic_id : Z) : ST net (option (list Z)) :=
  nic ← get_nic nic_id;
  let netmask := char_to_netmask (masklen (ip_at nic 0)) in
  if in_l2 ip (u32 (addr_l (ip_at nic 0))) netmask
  then find_mac_of_ipv4_l2 ip nic_id
  else find_mac_of_ipv4_l3 ip nic_id.

(** [remote_mac] is what the stack held when the lookup fails.  The packet is
    built in a local buffer of 1514 bytes. *)
Definition nic_send_ipv4 (src_ip dst_ip proto : Z) (l4_hdr payload : list Z) : ST net Z :=
  id ← gets (find_nic_id_by_ipv4 src_ip);
  let src_nic_id := default (2 ^ 64 - 1) (id : option Z) in
  nic ← get_nic src_nic_id;
  found ← find_mac_of_ipv4 dst_ip src_nic_id;
  let remote_mac := default (stack_mac e) (found : option (list Z)) in
  if mac_null remote_mac then mret (- EAGAIN)
  else
    let l4_len := Z.of_nat (length l4_hdr) in
    let payload_len := Z.of_nat (length payload) in
    if 1514 <? sizeof_eth_hdr + sizeof_ipv4_hdr + l4_len + payload_len then fault
    else
      let eth := EthHdr remote_mac (nic_mac nic) (htons 0x0800) in
      ident ← gets ip_ident;
      _ ← modify (set_ip_ident (u64 (ident + 1)));
      let ip := Ipv4Hdr 0x45 0 (htons (u16 (sizeof_ipv4_hdr + l4_len + payload_len))) (htons (u16 ident)) 0 64
                  proto 0 (htonl src_ip) (htonl dst_ip) in
      let ip := Ipv4Hdr (version_ihl ip) (tos ip) (total_length ip) (ip_id ip) (flags_fragoffset ip) (ttl ip)
                  (ip_protocol ip) (network_checksum (ipv4_bytes ip)) (ip_src ip) (ip_dst ip) in
      _ ← e1000_send (eth_bytes eth ++ ipv4_bytes ip ++ l4_hdr ++ payload);
      mret 0.
End Sending.

(** ** Lemmas *)
Section RouteLemmas.
Context (s : net) (dest_ip : Z).

(** [j] is the best entry of [i, i + n): no longer mask, and none as long after it. *)
Definition best_route (i n j : Z) : Prop :=
  i <= j < i + n /\ route_matches dest_ip (route_at s j) = true /\
  (forall k, i <= k < i + n -> route_matches dest_ip (route_at s k) = true ->
     r_netmask (route_at s k) <= r_netmask (route_at s j) /\
     (j < k -> r_netmask (route_at s k) < r_netmask (route_at s j))).

Lemma route_scan_spec n i best bm :
  (route_scan n i dest_ip s best bm = best /\
   (forall k, i <= k < i + Z.of_nat n -> route_matches dest_ip (route_at s k) = true -> r_netmask (route_at s k) < bm)) \/
  (exists j, route_scan n i dest_ip s best bm = Some j /\ best_route i (Z.of_nat n) j /\ bm <= r_netmask (route_at s j)).
Proof.
  revert i best bm. induction n as [|n IH]; intros i best bm; cbn [route_scan].
  { left. split; [done|]. intros; lia. }
  destruct (route_matches dest_ip (route_at s i)) eqn:Em; cbn [andb].
  - destruct (Z.leb_spec bm (r_netmask (route_at s i))) as [Hle|Hlt].
    + right. destruct (IH (i + 1) (Some i) (r_netmask (route_at s i))) as [[-> Hk]|(j & -> & (Hj & Mj & Bj) & Hge)].
      * exists i. split; [done|]. split; [|lia]. split; [lia|]. split; [done|]. intros k Hki Mk.
        destruct (Z.eq_dec k i) as [->|]; [lia|]. specialize (Hk k ltac:(lia) Mk). lia.
      * exists j. split; [done|]. split; [|lia]. split; [lia|]. split; [done|]. intros k Hki Mk.
        destruct (Z.eq_dec k i) as [->|]; [lia|]. apply Bj; [lia|done].
    + destruct (IH (i + 1) best bm) as [[-> Hk]|(j & -> & (Hj & Mj & Bj) & Hge)].
      * left. split; [done|]. intros k Hki Mk. destruct (Z.eq_dec k i) as [->|]; [lia|]. apply Hk; [lia|done].
      * right. exists j. split; [done|]. split; [|lia]. split; [lia|]. split; [done|]. intros k Hki Mk.
        destruct (Z.eq_dec k i) as [->|]; [lia|]. apply Bj; [lia|done].
  - destruct (IH (i + 1) best bm) as [[-> Hk]|(j & -> & (Hj & Mj & Bj) & Hge)].
    + left. split; [done|]. intros k Hki Mk. destruct (Z.eq_dec k i) as [->|]; [congruence|]. apply Hk; [lia|done].
    + right. exists j. split; [done|]. split; [|lia]. split; [lia|]. split; [done|]. intros k Hki Mk.
      destruct (Z.eq_dec k i) as [->|]; [congruence|]. apply Bj; [lia|done].
Qed.
Lemma route_scan_ext s' n i best bm :
  (forall j, route_at s' j = route_at s j) -> route_scan n i dest_ip s' best bm = route_scan n i dest_ip s best bm.
Proof.
  intros E. revert i best bm. induction n as [|n IH]; intros i best bm; cbn [route_scan]; [done|].
  rewrite E. by destruct (_ && _); rewrite IH.
Qed.
End RouteLemmas.

Section MaskLemmas.
Lemma lor_next i : 0 <= i -> Z.lor (2 ^ i - 1) (Z.shiftl 1 i) = 2 ^ (i + 1) - 1.
Proof.
  intros Hi. assert (L : Z.land (2 ^ i - 1) (Z.shiftl 1 i) = 0).
  { rewrite Z.shiftl_1_l. replace (2 ^ i - 1) with (Z.ones i) by (rewrite Z.ones_equiv; lia).
    rewrite Z.land_comm, Z.land_ones by lia. apply Z.mod_same. lia. }
  rewrite <- Z.lxor_lor, <- Z.add_nocarry_lxor by done.
  rewrite Z.shiftl_1_l, Z.pow_add_r by lia. change (2 ^ 1) with 2. lia.
Qed.
Lemma mask_loop_ones n i : 0 <= i -> i + Z.of_nat n <= 32 -> mask_loop n i (2 ^ i - 1) = 2 ^ (i + Z.of_nat n) - 1.
Proof.
  revert i. induction n as [|n IH]; intros i Hi Hn; cbn [mask_loop].
  - by rewrite Z.add_0_r.
  - rewrite lor_next by done. rewrite u32_id.
    + rewrite IH by lia. do 2 f_equal. lia.
    + pose proof (Z.pow_pos_nonneg 2 (i + 1)). pose proof (Z.pow_le_mono_r 2 (i + 1) 32). lia.
Qed.
Lemma char_to_netmask_ones n : 0 <= n <= 32 -> char_to_netmask n = Z.ones n.
Proof.
  intros Hn. unfold char_to_netmask. change 0 with (2 ^ 0 - 1) at 2. rewrite mask_loop_ones by lia.
  rewrite Z.ones_equiv, Z2Nat.id by lia. f_equal; lia.
Qed.
End MaskLemmas.

Section PortLemmas.
Context (proto : Z).
Definition port_free (s : net) (k : Z) : bool :=
  negb (port_in_use s INADDR_ANY (u16 (next_ephemeral_port s + k)) proto).
Definition port_body (_ : Z) : ST net (option Z) :=
  port ← gets next_ephemeral_port;
  _ ← modify (set_next_ephemeral_port (u16 (port + 1)));
  nxt ← gets next_ephemeral_port;
  _ ← when (HIGH_PORT_END <? nxt) (modify (set_next_ephemeral_port HIGH_PORT_START));
  used ← gets (fun s => port_in_use s INADDR_ANY port proto);
  mret (if used : bool then None else Some port).

Lemma u16_add_l x y : u16 (u16 x + y) = u16 (x + y).
Proof. unfold u16. by rewrite Zplus_mod_idemp_l. Qed.
Lemma port_in_use_next v s ip port : port_in_use (set_next_ephemeral_port v s) ip port proto = port_in_use s ip port proto.
Proof. unfold port_in_use, sock, sock_ptr. cbn [sock_heap socket_global set_next_ephemeral_port]. reflexivity. Qed.
(** One round: the test against the end of the range never holds. *)
Lemma port_body_run i s :
  port_body i s = Done (if port_in_use s INADDR_ANY (next_ephemeral_port s) proto then None
                        else Some (next_ephemeral_port s),
                        set_next_ephemeral_port (u16 (next_ephemeral_port s + 1)) s).
Proof.
  unfold port_body. run_st. destruct (Z.ltb_spec HIGH_PORT_END (u16 (next_ephemeral_port s + 1))) as [H|_].
  - pose proof (u16_range (next_ephemeral_port s + 1)). unfold HIGH_PORT_END in H. lia.
  - by rewrite port_in_use_next.
Qed.
Lemma port_loop n i s :
  0 <= next_ephemeral_port s < 65536 ->
  loop_m n i port_body s =
    match find_idx n 0 (port_free s) with
    | Some k => Done (Some (u16 (next_ephemeral_port s + k)), set_next_ephemeral_port (u16 (next_ephemeral_port s + k + 1)) s)
    | None => Done (None, set_next_ephemeral_port (u16 (next_ephemeral_port s + Z.of_nat n)) s)
    end.
Proof.
  intros Hp. assert (G : forall n i j s', 0 <= j -> s' = set_next_ephemeral_port (u16 (next_ephemeral_port s + j)) s ->
    loop_m n i port_body s' =
      match find_idx n j (port_free s) with
      | Some k => Done (Some (u16 (next_ephemeral_port s + k)), set_next_ephemeral_port (u16 (next_ephemeral_port s + k + 1)) s)
      | None => Done (None, set_next_ephemeral_port (u16 (next_ephemeral_port s + (j + Z.of_nat n))) s)
      end).
  { clear n i. induction n as [|n IH]; intros i j s' Hj ->; cbn [loop_m find_idx].
    - rewrite Z.add_0_r. reflexivity.
    - rewrite (bind_done _ _ _ _ _ (port_body_run i _)). cbn [next_ephemeral_port set_next_ephemeral_port].
      rewrite port_in_use_next. unfold port_free at 1.
      destruct (port_in_use s INADDR_ANY (u16 (next_ephemeral_port s + j)) proto); cbn [negb].
      + rewrite (IH (i + 1) (j + 1)); [|lia|].
        * destruct (find_idx n (j + 1) (port_free s)); [done|]. do 4 f_equal. lia.
        * rewrite u16_add_l. unfold set_next_ephemeral_port. cbn. f_equal. f_equal. lia.
      + rewrite u16_add_l. reflexivity. }
  rewrite (G n i 0 s); [reflexivity|lia|]. rewrite Z.add_0_r, u16_id by done. by destruct s.
Qed.
End PortLemmas.

(** A loop that never exits early. *)
Lemma loop_m_inv {S A : Type} (I : Z -> S -> Prop) n i (body : Z -> ST S (option A)) s :
  I i s ->
  (forall j s0, i <= j < i + Z.of_nat n -> I j s0 -> exists s1, body j s0 = Done (None, s1) /\ I (j + 1) s1) ->
  exists s', loop_m n i body s = Done (None, s') /\ I (i + Z.of_nat n) s'.
Proof.
  revert i s. induction n as [|n IH]; intros i s HI Hstep; cbn [loop_m].
  - exists s. by rewrite Z.add_0_r.
  - destruct (Hstep i s ltac:(lia) HI) as (s1 & E & HI1). rewrite (bind_done _ _ _ _ _ E).
    destruct (IH (i + 1) s1 HI1) as (s' & E' & HI'); [intros; apply Hstep; [lia|done]|].
    exists s'. split; [done|]. by replace (i + Z.of_nat (Datatypes.S n)) with (i + 1 + Z.of_nat n) by lia.
Qed.

Section MacLemmas.
Lemma mac_at_insert i v s j :
  mac_at (set_mac_cache_v4 (<[i := v]> (mac_cache_v4 s)) s) j = if j =? i then v else mac_at s j.
Proof.
  unfold mac_at. cbn [mac_cache_v4 set_mac_cache_v4]. destruct (Z.eqb_spec j i) as [->|].
  - by rewrite lookup_insert_eq.
  - by rewrite lookup_insert_ne by done.
Qed.
(** Only the cache differs. *)
Definition same_but_macs (s s' : net) : Prop := exists c, s' = set_mac_cache_v4 c s.
Lemma forget_loop e ip mac s :
  (forall j, 0 <= j < MAC_CACHE_SIZE -> me_timestamp (mac_at s j) <= tv_sec (subtract_time_us (now e) MAC_CACHE_TIMEOUT)) ->
  exists s', loop_m (Z.to_nat MAC_CACHE_SIZE) 0 (fun i =>
    c ← gets (fun s => mac_at s i);
    if me_timestamp c <=? tv_sec (subtract_time_us (now e) MAC_CACHE_TIMEOUT)
    then _ ← modify (remove_cache_mac_v4 i); mret None
    else if (me_ip c =? ip) && bool_decide (me_mac c = mac) then mret (Some tt) else mret None) s = Done (None, s') /\
    same_but_macs s s' /\ (forall j, 0 <= j < MAC_CACHE_SIZE -> mac_at s' j = zero_mac).
Proof.
  intros Hold.
  destruct (loop_m_inv (fun i s1 => same_but_macs s s1 /\ (forall j, 0 <= j < i -> mac_at s1 j = zero_mac) /\
    (forall j, i <= j -> mac_at s1 j = mac_at s j)) (Z.to_nat MAC_CACHE_SIZE) 0 (fun i =>
    c ← gets (fun s => mac_at s i);
    if me_timestamp c <=? tv_sec (subtract_time_us (now e) MAC_CACHE_TIMEOUT)
    then _ ← modify (remove_cache_mac_v4 i); mret None
    else if (me_ip c =? ip) && bool_decide (me_mac c = mac) then mret (Some tt) else mret None) s) as (s' & E & S' & H0 & _).
  - split; [exists (mac_cache_v4 s); by destruct s|]. split; [intros; lia|done].
  - intros j s0 Hj ((c & ->) & H0 & H1). change (Z.of_nat (Z.to_nat MAC_CACHE_SIZE)) with MAC_CACHE_SIZE in Hj.
    specialize (Hold j ltac:(lia)). apply Z.leb_le in Hold.
    eexists. split.
    { unfold mbind, st_bind, gets. rewrite H1 by lia. rewrite Hold. reflexivity. }
    unfold remove_cache_mac_v4. split; [by eexists|]. split; intros k Hk.
    + rewrite mac_at_insert. destruct (Z.eqb_spec k j); [done|]. apply H0. lia.
    + rewrite mac_at_insert. destruct (Z.eqb_spec k j); [lia|]. apply H1. lia.
  - exists s'. split; [exact E|]. split; [done|]. intros j Hj. apply H0. done.
Qed.
End MacLemmas.

Section Dotted.
Context (m : mem).
Lemma ip_digits_step ds f p rest result octet dots :
  cstr m p (ds ++ rest) -> Forall is_digit ds -> 0 <= octet -> dec_val octet ds <= 255 ->
  ip_str_loop (length ds + f) m p result octet dots =
    ip_str_loop f m (p + Z.of_nat (length ds)) result (dec_val octet ds) dots /\
  cstr m (p + Z.of_nat (length ds)) rest.
Proof.
  revert p octet. induction ds as [|c ds IH]; intros p octet Hc Hd Ho Hv; cbn [length app] in *.
  - rewrite Z.add_0_r. done.
  - cbn [cstr] in Hc. destruct Hc as (Hc0 & E & Hc). inversion Hd as [|? ? Hcd Hd']; subst.
    change (dec_val octet (ld m p :: ds)) with (dec_val (octet * 10 + (ld m p - 48)) ds) in *.
    unfold is_digit in Hcd. pose proof (dec_val_mono ds (octet * 10 + (ld m p - 48)) Hd' ltac:(lia)).
    cbn [Nat.add ip_str_loop]. destruct (Z.eqb_spec (ld m p) 0); [lia|].
    destruct (Z.leb_spec 48 (ld m p)), (Z.leb_spec (ld m p) 57); try lia. cbn [andb].
    rewrite (u32_id (octet * 10)), u32_id by lia. destruct (Z.ltb_spec 255 (octet * 10 + (ld m p - 48))); [lia|].
    destruct (IH (p + 1) (octet * 10 + (ld m p - 48))) as [-> Hr]; [done|done|lia|done|].
    replace (p + Z.of_nat (S (length ds))) with (p + 1 + Z.of_nat (length ds)) by lia. done.
Qed.
Lemma ip_dot_step f p rest result octet dots :
  cstr m p (46 :: rest) -> dots < 3 ->
  ip_str_loop (S f) m p result octet dots =
    ip_str_loop f m (p + 1) (u32 (Z.lor (u32 (Z.shiftl result 8)) octet)) 0 (dots + 1) /\
  cstr m (p + 1) rest.
Proof.
  intros (_ & E & Hc) Hd. cbn [ip_str_loop]. rewrite E. cbn. destruct (Z.ltb_spec 3 (dots + 1)); [lia|]. done.
Qed.
Lemma push_octet result octet :
  0 <= result < 2 ^ 24 -> 0 <= octet < 256 ->
  u32 (Z.lor (u32 (Z.shiftl result 8)) octet) = 256 * result + octet.
Proof.
  intros Hr Ho. rewrite (u32_id (Z.shiftl result 8)) by (rewrite Z.shiftl_mul_pow2 by lia; lia).
  rewrite lor_shift8 by done. apply u32_id. lia.
Qed.
End Dotted.

Section Frames.
Lemma ipv4_bytes_ok h : bytes (ipv4_bytes h) /\ length (ipv4_bytes h) = 20%nat.
Proof.
  split; [|done]. unfold ipv4_bytes, le_bytes32, le_bytes16. cbn [app].
  repeat constructor; try (apply Z.mod_pos_bound; lia); apply u8_range.
Qed.
(** Only the card and the packet counter differ. *)
Definition sent_only (s s' : net) : Prop := exists c i, s' = set_card c (set_ip_ident i s).
Lemma sent_only_refl s : sent_only s s.
Proof. exists (card s), (ip_ident s). by destruct s. Qed.
Lemma sent_only_trans s1 s2 s3 : sent_only s1 s2 -> sent_only s2 s3 -> sent_only s1 s3.
Proof. intros (c & i & ->) (c' & i' & ->). exists c', i'. done. Qed.
Lemma e1000_send_only data s s' : e1000_send data s = Done (tt, s') -> sent_only s s'.
Proof.
  unfold e1000_send. destruct (negb _); [discriminate|]. intros [= <-]. eexists _, (ip_ident s). by destruct s.
Qed.
End Frames.

(** The IPv4 header nic_send_ipv4 builds. *)
Definition sent_ipv4_hdr (ident src_ip dst_ip proto len : Z) : ipv4_hdr :=
  let ip := Ipv4Hdr 0x45 0 (htons (u16 len)) (htons (u16 ident)) 0 64 proto 0 (htonl src_ip) (htonl dst_ip) in
  Ipv4Hdr (version_ihl ip) (tos ip) (total_length ip) (ip_id ip) (flags_fragoffset ip) (ttl ip)
    (ip_protocol ip) (network_checksum (ipv4_bytes ip)) (ip_src ip) (ip_dst ip).
Lemma ipv4_put_checksum h c :
  ip_checksum h = 0 ->
  ipv4_bytes (Ipv4Hdr (version_ihl h) (tos h) (total_length h) (ip_id h) (flags_fragoffset h) (ttl h)
    (ip_protocol h) c (ip_src h) (ip_dst h)) = put (ipv4_bytes h) 10 (le_bytes16 c).
Proof. intros E. unfold ipv4_bytes. rewrite E. reflexivity. Qed.
Lemma sent_hdr_verifies ident src dst proto len :
  network_checksum (ipv4_bytes (sent_ipv4_hdr ident src dst proto len)) = 0.
Proof.
  unfold sent_ipv4_hdr. set (h := Ipv4Hdr _ _ _ _ _ _ _ 0 _ _). destruct (ipv4_bytes_ok h) as [Hb Hl].
  set (c := network_checksum (ipv4_bytes h)).
  rewrite (ipv4_put_checksum h c) by done.
  rewrite network_checksum_sum; [|apply put_Forall; [done|apply le_bytes16_range]|rewrite length_put, Hl; [lia|lia|rewrite Hl; cbn; lia]].
  rewrite wsum_le_field; [|lia|done|rewrite Hl; lia|done|apply u16_range].
  unfold c. rewrite network_checksum_sum by (done || rewrite Hl; lia).
  apply complement_sum_verifies. pose proof (wsum_le_bound _ Hb) as B. rewrite Hl in B.
  change ((Z.of_nat 20 + 1) / 2) with 10 in B. lia.
Qed.

(** The state after a transmission. *)
Definition transmitted (data : list Z) (s : net) : net :=
  let c := card s in
  set_card (E1000 (<[tx_tail c := Desc (d_addr (default zero_desc (tx_ring c !! tx_tail c)))
                       (u16 (Z.of_nat (length data))) 9 0]> (tx_ring c)) ((tx_tail c + 1) mod NUM_TX_DESC)
              (store_bytes (tx_buffers c) (tx_tail c * 2048) data) (rx_ring c) (rx_tail c) (rx_buffers c)
              (<[E1000_TDT := (tx_tail c + 1) mod NUM_TX_DESC]> (regs c))) s.
Definition tx_free (s : net) : bool :=
  Z.testbit (d_status (default zero_desc (tx_ring (card s) !! tx_tail (card s)))) 0.
(** The hardware address of [dst_ip] is known, without a packet sent. *)
Definition resolved (e : net_env) (disp : Z -> list Z -> ST net unit) (s : net) (dst_ip nic_id : Z) (mac : list Z) : Prop :=
  find_mac_of_ipv4 e disp dst_ip nic_id s = Done (Some mac, s) /\ mac_null mac = false.

Lemma nic_send_ipv4_run e disp s src_ip dst_ip proto l4 payload nic_id nic mac :
  find_nic_id_by_ipv4 src_ip s = Some nic_id -> nic_global s !! nic_id = Some nic ->
  resolved e disp s dst_ip nic_id mac ->
  let len := Z.of_nat (length l4) + Z.of_nat (length payload) in
  nic_send_ipv4 e disp src_ip dst_ip proto l4 payload s =
    if 1480 <? len then Faulted
    else if tx_free s then
      Done (0, transmitted (eth_bytes (EthHdr mac (nic_mac nic) (htons 0x0800)) ++
                 ipv4_bytes (sent_ipv4_hdr (ip_ident s) src_ip dst_ip proto (20 + len)) ++ l4 ++ payload)
               (set_ip_ident (u64 (ip_ident s + 1)) s))
    else Stuck.
Proof.
  intros Hid Hn [Hf Hm] len. unfold nic_send_ipv4.
  erewrite bind_done by reflexivity. rewrite Hid. cbn [default id].
  erewrite bind_done by (unfold get_nic; erewrite bind_done by reflexivity; rewrite Hn; reflexivity).
  rewrite (bind_done _ _ _ _ _ Hf). cbn [default id]. rewrite Hm.
  unfold sizeof_eth_hdr, sizeof_ipv4_hdr. subst len.
  destruct (Z.ltb_spec 1514 (14 + 20 + Z.of_nat (length l4) + Z.of_nat (length payload))),
    (Z.ltb_spec 1480 (Z.of_nat (length l4) + Z.of_nat (length payload))); try lia; [done|].
  rewrite <- Z.add_assoc. erewrite bind_done by reflexivity. erewrite bind_done by reflexivity.
  unfold mbind at 1, st_bind at 1, e1000_send at 1. cbn [card set_ip_ident].
  unfold tx_free. by destruct (Z.testbit _ 0).
Qed.

(** ** The socket tables: invariant

    Structures sit in blocks marked as used, a slot that is not null points to
    one and lies in its table, and no two slots point to the same. *)
Definition block_addr (b : Z) : Z := b * 4096 + HM.
Definition any_ptr (s : net) (x : bool * Z) : Z := if fst x then listen_ptr s (snd x) else sock_ptr s (snd x).
Record sockets_ok {M : Machine} (s : net) : Prop := {
  so_used : forall a t, sock_heap s !! a = Some t ->
    exists b, 0 <= b < total_memory_blocks_count /\ a = block_addr b /\ read_map (nk s) b <> 0;
  so_heap : forall x, any_ptr s x <> 0 -> is_Some (sock_heap s !! any_ptr s x);
  so_inj : forall x y, any_ptr s x <> 0 -> any_ptr s x = any_ptr s y -> x = y;
  so_range : forall x, any_ptr s x <> 0 -> 0 <= snd x < MAX_SOCKETS_COUNT
}.

Section SocketLemmas.
Context {M : Machine}.

Lemma liftk_done {A} (c : ST kstate A) s a s' :
  liftk c s = Done (a, s') -> exists k, c (nk s) = Done (a, k) /\ s' = set_nk k s.
Proof. unfold liftk. destruct (c (nk s)) as [[x k]| | |]; try discriminate. intros [= -> <-]. eauto. Qed.

Lemma alloc_blocks_done n s a s' :
  machine_ok -> 1 <= n -> alloc_blocks n s = Done (a, s') ->
  exists b k, s' = set_nk k s /\ a = block_addr b /\ 0 <= b < total_memory_blocks_count /\
    (forall j, b <= j < b + n -> map_byte (nk s) j = 0) /\
    (forall j, j < total_memory_blocks_count ->
       read_map k j = if (b <=? j) && (j <? b + n) then 1 else read_map (nk s) j).
Proof.
  intros HM' Hn E. unfold alloc_blocks in E. apply bind_done_inv in E as (b & s1 & E & E1).
  apply liftk_done in E as (k & E & ->). injection E1 as <- <-.
  destruct (get_continuous_done n (nk s) b k ltac:(lia) E) as (Hb & H0 & _ & H1).
  pose proof (kernel_blocks_nonneg HM'). destruct HM' as (H2 & H3 & H4).
  exists b, k. split; [done|]. split; [|repeat split; try done; lia].
  unfold block_addr. rewrite (u64_id (b * 4096)), u64_id by (unfold HM; lia). done.
Qed.
(** A fresh block holds no structure. *)
Lemma fresh_block s b : sockets_ok s -> map_byte (nk s) b = 0 -> 0 <= b < total_memory_blocks_count -> sock_heap s !! block_addr b = None.
Proof.
  intros Hok H0 Hb. rewrite map_byte_in in H0 by lia. destruct (sock_heap s !! block_addr b) as [t|] eqn:E; [|done].
  destruct (so_used s Hok _ _ E) as (b' & Hb' & Ha & Hu). unfold block_addr in Ha.
  assert (b' = b) by lia. subst. done.
Qed.
Lemma block_addr_pos b : 0 <= b -> block_addr b <> 0.
Proof. unfold block_addr, HM. lia. Qed.

(** Putting a structure into a fresh block and pointing a null slot to it. *)
Lemma sockets_ok_add s s' x b k t n :
  sockets_ok s -> 0 <= b < total_memory_blocks_count -> 1 <= n -> any_ptr s x = 0 -> 0 <= snd x < MAX_SOCKETS_COUNT ->
  (forall j, b <= j < b + n -> map_byte (nk s) j = 0) ->
  nk s' = k -> (forall j, j < total_memory_blocks_count -> read_map k j = if (b <=? j) && (j <? b + n) then 1 else read_map (nk s) j) ->
  sock_heap s' = <[block_addr b := t]> (sock_heap s) ->
  (forall y, any_ptr s' y = if decide (y = x) then block_addr b else any_ptr s y) ->
  sockets_ok s'.
Proof.
  intros Hok Hb Hn Hx Hr H0 Hk Hm Hh Hp.
  pose proof (fresh_block s b Hok (H0 b ltac:(lia)) ltac:(lia)) as Hf.
  pose proof (block_addr_pos b ltac:(lia)) as Ha.
  assert (Hno : forall y, any_ptr s y <> block_addr b).
  { intros y Ey. destruct (so_heap s Hok y) as [? E]; [congruence|]. rewrite Ey in E. congruence. }
  split.
  - intros a t' E. rewrite Hh in E. rewrite Hk. destruct (decide (a = block_addr b)) as [->|Hne].
    + exists b. split; [done|]. split; [done|]. rewrite Hm by lia.
      destruct (Z.leb_spec b b), (Z.ltb_spec b (b + n)); cbn; lia.
    + rewrite lookup_insert_ne in E by done. destruct (so_used s Hok _ _ E) as (c & Hc & -> & Hu).
      exists c. split; [done|]. split; [done|]. rewrite Hm by lia. by destruct (_ && _).
  - intros y. rewrite Hp, Hh. case_decide; [rewrite lookup_insert_eq; eauto|].
    intros Hy. rewrite lookup_insert_ne by (intros E; by eapply Hno). by apply so_heap.
  - intros y z. rewrite !Hp. repeat case_decide; subst; try done.
    + intros _ E. by destruct (Hno z).
    + intros _ E. by destruct (Hno y).
    + apply so_inj; done.
  - intros y. rewrite Hp. case_decide as D; [subst; done|]. by apply so_range.
Qed.
Lemma null_sock s i : sockets_ok s -> ~ (0 <= i < MAX_SOCKETS_COUNT) -> sock s i = None.
Proof.
  intros Hok Hi. unfold sock. destruct (Z.eq_dec (sock_ptr s i) 0) as [->|Hne].
  - destruct (sock_heap s !! 0) as [t|] eqn:E; [|done].
    destruct (so_used s Hok _ _ E) as (b & Hb & Ha & _). unfold block_addr, HM in Ha. lia.
  - by destruct Hi; apply (so_range s Hok (false, i)).
Qed.
End SocketLemmas.

(** ** Theorems *)

(** The route chosen for a destination is the matching entry with the longest
    mask, and the last one of these; there is none exactly when no entry of the
    table matches. *)
Theorem find_route_longest (s : net) (dest_ip : Z) :
  (forall i, 0 <= r_netmask (route_at s i)) ->
  match find_route dest_ip s with
  | Some j => best_route s dest_ip 0 ROUTE_TABLE_SIZE j
  | None => forall k, 0 <= k < ROUTE_TABLE_SIZE -> route_matches dest_ip (route_at s k) = false
  end.
Proof.
  intros Hm. unfold find_route.
  destruct (route_scan_spec s dest_ip (Z.to_nat ROUTE_TABLE_SIZE) 0 None 0) as [[-> Hk]|(j & -> & Hj & _)].
  - intros k Hr. destruct (route_matches dest_ip (route_at s k)) eqn:E; [|done].
    specialize (Hk k Hr E). specialize (Hm k). lia.
  - exact Hj.
Qed.

(** Deleting a route clears the low three bytes of its destination only: a
    route to a network whose address ends in three zero bytes, such as
    10.0.0.0, is still in the table afterwards, although the answer is true. *)
Theorem del_route_keeps_route (s : net) (dest netmask id : Z) :
  0 <= id < ROUTE_TABLE_SIZE -> dest mod 2 ^ 24 = 0 -> 0 <= dest < 2 ^ 32 ->
  r_dest (route_at s id) = dest -> r_netmask (route_at s id) = netmask ->
  exists s', del_route dest netmask s = Done (true, s') /\
    (forall i, route_at s' i = route_at s i) /\ (forall ip, find_route ip s' = find_route ip s).
Proof.
  intros Hid Hz Hr Hd Hn. unfold del_route. run_st.
  destruct (find_idx _ _ _) as [j|] eqn:Ef.
  - apply find_idx_Some in Ef as (Hj & Hp & _). apply andb_true_iff in Hp as [Hp1 Hp2]. zbool.
    eexists. split; [reflexivity|].
    assert (E : forall i, route_at (set_route_table_v4 (<[j:=set_r_dest (Z.land (r_dest (route_at s j)) 4278190080)
                 (route_at s j)]> (route_table_v4 s)) s) i = route_at s i).
    { intros i. unfold route_at at 1. cbn [route_table_v4 set_route_table_v4].
      destruct (Z.eq_dec i j) as [->|Hne]; [|by rewrite lookup_insert_ne by done].
      rewrite lookup_insert_eq. cbn. rewrite Hp1.
      replace (Z.land dest 4278190080) with dest; [rewrite <- Hp1; by destruct (route_at s j)|].
      change 4278190080 with (Z.shiftl (Z.ones 8) 24). symmetry. apply Z.bits_inj'. intros n Hn0.
      rewrite Z.land_spec, Z.shiftl_spec by done. destruct (Z.ltb_spec n 24).
      - rewrite (Z.testbit_neg_r (Z.ones 8)), andb_false_r by lia. symmetry. rewrite <- (Z.mod_pow2_bits_low dest 24) by lia.
        rewrite Hz. apply Z.bits_0.
      - destruct (Z.ltb_spec n 32).
        + rewrite Z.ones_spec_low by lia. apply andb_true_r.
        + rewrite Z.ones_spec_high by lia. rewrite andb_false_r. symmetry.
          rewrite <- (Z.mod_small dest (2 ^ 32)) by done. apply Z.mod_pow2_bits_high. lia. }
    split; [exact E|]. intros ip. by apply route_scan_ext.
  - rewrite find_idx_None in Ef. specialize (Ef id Hid). cbn in Ef. rewrite Hd, Hn, !Z.eqb_refl in Ef. done.
Qed.

(** The mask of a prefix length has that many low bits, and the length is read
    back from it; so two addresses count as one network when their low bits,
    the host part, agree. *)
Theorem netmask_selects_host_part (n a b : Z) :
  0 <= n <= 32 ->
  netmask_to_char (char_to_netmask n) = n /\
  in_l2 a b (char_to_netmask n) = (a mod 2 ^ n =? b mod 2 ^ n).
Proof.
  intros Hn. rewrite char_to_netmask_ones by done. split.
  - unfold netmask_to_char. destruct (find_idx _ _ _) as [j|] eqn:E; cbn.
    + apply find_idx_Some in E as (Hj & Hp & Hl). zbool. cbn in Hj.
      assert (J : forall i, 0 <= i < 32 -> (Z.land (Z.ones n) (u32 (Z.shiftl 1 i)) =? 0) = (n <=? i)).
      { intros i Hi. rewrite Z.shiftl_1_l, u32_id by (split; [lia|]; apply (Z.pow_lt_mono_r 2 i 32); lia).
        rewrite Z.land_comm, Z.land_ones by lia. destruct (Z.leb_spec n i) as [Hle|Hlt].
        - replace i with (i - n + n) by lia. rewrite Z.pow_add_r, Z.mod_mul by lia. done.
        - rewrite Z.mod_small by (split; [lia|]; apply Z.pow_lt_mono_r; lia).
          apply Z.eqb_neq. pose proof (Z.pow_pos_nonneg 2 i). lia. }
      pose proof (J j ltac:(lia)) as Jj. rewrite Hp in Jj. symmetry in Jj. apply Z.leb_le in Jj.
      destruct (Z.eq_dec j n); [done|]. specialize (Hl n ltac:(lia)). rewrite J in Hl by lia. zbool. lia.
    + rewrite find_idx_None in E. destruct (Z.eq_dec n 32); [done|]. specialize (E n ltac:(lia)). zbool.
      exfalso. apply E. rewrite Z.shiftl_1_l, u32_id by (split; [lia|]; apply (Z.pow_lt_mono_r 2 n 32); lia).
      rewrite Z.land_comm, Z.land_ones by lia. apply Z.mod_same. lia.
  - unfold in_l2. by rewrite !Z.land_ones by lia.
Qed.

(** The port handed out is the first one from the counter on, in 16-bit
    arithmetic, that no socket of the scanned slots uses; the counter moves
    past it.  When all of the next 16383 ports are in use the answer is 0. *)
Theorem allocate_random_high_port_spec (s : net) (proto : Z) :
  0 <= next_ephemeral_port s < 65536 ->
  allocate_random_high_port proto s =
    match find_idx (Z.to_nat 16383) 0 (port_free proto s) with
    | Some k => Done (u16 (next_ephemeral_port s + k), set_next_ephemeral_port (u16 (next_ephemeral_port s + k + 1)) s)
    | None => Done (0, set_next_ephemeral_port (u16 (next_ephemeral_port s + 16383)) s)
    end.
Proof.
  intros Hp. unfold allocate_random_high_port. fold (port_body proto).
  change (Z.to_nat (HIGH_PORT_END - HIGH_PORT_START)) with (Z.to_nat 16383).
  unfold mbind at 1, st_bind at 1.
  rewrite port_loop by done. by destruct (find_idx _ _ _).
Qed.

(** Adding a hardware address forgets the rest of the cache: its age limit of
    60000 is taken as microseconds, so every entry stamped with the present
    second or an earlier one is cleared first, and the new entry goes to slot
    0. *)
Theorem add_cache_forgets_others (e : net_env) (s : net) (ip nic_id : Z) (mac : list Z) :
  0 < tv_sec (now e) < 2 ^ 64 ->
  (forall j, 0 <= j < MAC_CACHE_SIZE -> me_timestamp (mac_at s j) <= tv_sec (now e)) ->
  exists s', add_cache_mac_v4 e ip mac nic_id s = Done (Some 0, s') /\ same_but_macs s s' /\
    mac_at s' 0 = MacEntry ip mac nic_id (tv_sec (now e)) /\
    (forall j, 0 < j < MAC_CACHE_SIZE -> mac_at s' j = zero_mac).
Proof.
  intros Hs Hold.
  assert (T : tv_sec (subtract_time_us (now e) MAC_CACHE_TIMEOUT) = tv_sec (now e)).
  { unfold subtract_time_us, subtract_time, MAC_CACHE_TIMEOUT, earlier.
    change (60000 / 1000000) with 0. change (u32 (60000 mod 1000000)) with 60000. cbn [tv_sec tv_microsec].
    destruct (Z.ltb_spec 0 (tv_sec (now e))); [|lia].
    rewrite Z.sub_0_r, (u64_id (tv_sec (now e))) by lia. pose proof (u32_range (tv_microsec (now e) - 60000)).
    destruct (Z.ltb_spec (u32 (tv_microsec (now e) - 60000)) 0); [lia|done]. }
  destruct (forget_loop e ip mac s) as (s1 & E & (c & ->) & Hz); [by rewrite T|].
  unfold add_cache_mac_v4. rewrite (bind_done _ _ _ _ _ E). cbn beta iota.
  unfold mbind, st_bind, gets. set (s1 := set_mac_cache_v4 c s) in *.
  assert (F : find_idx (Z.to_nat MAC_CACHE_SIZE) 0 (fun i => me_ip (mac_at s1 i) =? 0) = Some 0).
  { apply find_idx_Some. split; [unfold MAC_CACHE_SIZE; lia|]. split; [|intros; lia]. by rewrite Hz by (unfold MAC_CACHE_SIZE; lia). }
  rewrite F. eexists. split; [reflexivity|]. unfold add_cache_mac_v4_line. split; [by eexists|].
  split; [by rewrite mac_at_insert|]. intros j Hj. rewrite mac_at_insert.
  destruct (Z.eqb_spec j 0); [lia|]. apply Hz. lia.
Qed.

(** Four decimal numbers up to 255 with dots between them are read as the
    address they write; an empty number counts as zero. *)
Theorem ip_str_to_int_text (m : mem) (p : Z) (d1 d2 d3 d4 : list Z) (fuel : nat) :
  Forall is_digit d1 -> Forall is_digit d2 -> Forall is_digit d3 -> Forall is_digit d4 ->
  dec_val 0 d1 <= 255 -> dec_val 0 d2 <= 255 -> dec_val 0 d3 <= 255 -> dec_val 0 d4 <= 255 ->
  cstr m p (d1 ++ 46 :: d2 ++ 46 :: d3 ++ 46 :: d4) ->
  (length d1 + length d2 + length d3 + length d4 + 4 <= fuel)%nat ->
  ip_str_to_int fuel m p =
    Some (256 * (256 * (256 * dec_val 0 d1 + dec_val 0 d2) + dec_val 0 d3) + dec_val 0 d4).
Proof.
  intros D1 D2 D3 D4 V1 V2 V3 V4 Hc Hf. unfold ip_str_to_int.
  pose proof (dec_val_mono d1 0 D1). pose proof (dec_val_mono d2 0 D2).
  pose proof (dec_val_mono d3 0 D3). pose proof (dec_val_mono d4 0 D4).
  remember (fuel - (length d1 + length d2 + length d3 + length d4 + 4))%nat as r eqn:Er.
  replace fuel with (length d1 + S (length d2 + S (length d3 + S (length d4 + S r))))%nat by lia.
  destruct (ip_digits_step m d1 (S (length d2 + S (length d3 + S (length d4 + S r)))) p _ 0 0 0 Hc D1) as [-> Hc1]; [lia|done|].
  destruct (ip_dot_step m (length d2 + S (length d3 + S (length d4 + S r))) _ _ 0 (dec_val 0 d1) 0 Hc1) as [-> Hc2]; [lia|].
  rewrite push_octet by lia.
  destruct (ip_digits_step m d2 (S (length d3 + S (length d4 + S r))) _ _ (256 * 0 + dec_val 0 d1) 0 (0 + 1) Hc2 D2) as [-> Hc3]; [lia|done|].
  destruct (ip_dot_step m (length d3 + S (length d4 + S r)) _ _ (256 * 0 + dec_val 0 d1) (dec_val 0 d2) (0 + 1) Hc3) as [-> Hc4]; [lia|].
  rewrite push_octet by lia. set (r2 := 256 * (256 * 0 + dec_val 0 d1) + dec_val 0 d2).
  destruct (ip_digits_step m d3 (S (length d4 + S r)) _ _ r2 0 (0 + 1 + 1) Hc4 D3) as [-> Hc5]; [lia|done|].
  destruct (ip_dot_step m (length d4 + S r) _ _ r2 (dec_val 0 d3) (0 + 1 + 1) Hc5) as [-> Hc6]; [lia|].
  rewrite push_octet by (subst r2; lia). set (r3 := 256 * r2 + dec_val 0 d3).
  rewrite <- (app_nil_r d4) in Hc6.
  destruct (ip_digits_step m d4 (S r) _ _ r3 0 (0 + 1 + 1 + 1) Hc6 D4) as [-> Hc7]; [lia|done|].
  cbn [cstr] in Hc7. cbn [ip_str_loop]. rewrite Hc7. cbn [Z.eqb].
  change (negb (0 + 1 + 1 + 1 =? 3)) with false. cbn iota.
  rewrite push_octet by (subst r2 r3; lia). subst r2 r3. f_equal.
Qed.


Lemma erase_sock_block_nk a s : nk (erase_sock_block a s) = nk s.
Proof. reflexivity. Qed.
Lemma release_blocks_map {M : Machine} n j b s c :
  0 < b < 2 ^ 33 -> 0 <= j -> 0 <= c < 2 ^ 33 ->
  read_map (nk (release_blocks n j (b * 4096 + HM) s)) c = read_map (nk s) c.
Proof.
  intros Hb Hj Hc. revert j s Hj. induction n as [|n IH]; intros j s Hj; cbn [release_blocks]; [done|].
  rewrite IH by lia. cbn [nk set_nk]. rewrite read_map_write.
  destruct (Z.eqb_spec c ((b * 4096 + HM) / 4096 + j)) as [E|]; [|by rewrite erase_sock_block_nk]. exfalso.
  replace (b * 4096 + HM) with ((0x400000000 + b) * 4096) in E by (unfold HM; lia).
  rewrite Z.div_mul in E by lia. lia.
Qed.
Lemma nk_set_socket_global g s : nk (set_socket_global g s) = nk s.
Proof. reflexivity. Qed.
Lemma sock_ptr_clear g s id : sock_ptr (set_socket_global (<[id := 0]> g) s) id = 0.
Proof. unfold sock_ptr. cbn. by rewrite lookup_insert_eq. Qed.
Lemma delete_socket_i_run {M : Machine} s id a :
  sock_ptr s id = a -> a <> 0 ->
  delete_socket_i id s =
    Done (Some 0, set_socket_global (<[id := 0]> (socket_global (release_blocks (Z.to_nat SOCKET_BLOCK_COUNT) 0 a s)))
                    (release_blocks (Z.to_nat SOCKET_BLOCK_COUNT) 0 a s)).
Proof.
  intros <- Ha. unfold delete_socket_i. unfold mbind at 1, st_bind at 1, gets.
  destruct (Z.eqb_spec (sock_ptr s id) 0); [done|]. generalize (Z.to_nat SOCKET_BLOCK_COUNT) as n'. reflexivity.
Qed.

(** Deleting a socket empties its slot but releases none of its blocks: the
    index it clears in the block map is computed from the virtual address, far
    outside the memory, so the six blocks stay marked as used. *)
Theorem delete_socket_i_leaks {M : Machine} (s : net) (id b : Z) :
  0 < b < 2 ^ 33 -> sock_ptr s id = b * 4096 + HM ->
  exists s', delete_socket_i id s = Done (Some 0, s') /\ sock_ptr s' id = 0 /\
    (forall c, 0 <= c < 2 ^ 33 -> read_map (nk s') c = read_map (nk s) c).
Proof.
  intros Hb Hp. eexists. split; [apply (delete_socket_i_run s id (b * 4096 + HM) Hp); unfold HM; lia|].
  split; [apply sock_ptr_clear|].
  intros c Hc. rewrite nk_set_socket_global. by apply release_blocks_map.
Qed.

(** Marking a socket as deleted crashes the kernel as soon as one slot of the
    thread table is empty: the wake-up loop follows every slot. *)
Theorem mark_socket_as_deleted_faults (s : net) (id i : Z) (t : net_tuple_tcp) :
  sock s id = Some t -> 0 <= i < MAX_THREADS_COUNT -> thread (nk s) i = None ->
  mark_socket_as_deleted id s = Faulted.
Proof.
  intros Hs Hi Hn. unfold mark_socket_as_deleted.
  erewrite bind_done by (unfold get_sock; erewrite bind_done by reflexivity; rewrite Hs; reflexivity).
  erewrite bind_done by reflexivity. erewrite bind_done by reflexivity. cbv zeta.
  set (scan := for_m _ _ _). set (s1 := upd_sock_at _ _ s).
  assert (F : scan s1 = Faulted).
  { subst scan. assert (G : forall n j, j <= i < j + Z.of_nat n ->
      for_m n j (fun i0 => _ ← (gets (fun s => thread (nk s) i0) ≫= deref); mret tt) s1 = Faulted).
    { induction n as [|n IH]; intros j Hj; [lia|]. cbn [for_m]. unfold mbind at 1, st_bind at 1.
      rewrite deref_bind. change (thread (nk s1) j) with (thread (nk s) j).
      destruct (Z.eq_dec j i) as [->|]; [by rewrite Hn|]. destruct (thread (nk s) j); [|done]. cbn. apply IH. lia. }
    apply G. done. }
  unfold mbind, st_bind. by rewrite F.
Qed.

(** The socket created for a TCP tuple. *)
Definition fresh_tcp (e : net_env) (t : net_tuple_tcp) : net_tuple_tcp :=
  set_ack_est_blocked false (set_seq_local (u64 (u64 (1000000000 * draw1 e) + draw2 e))
    (set_tuple (set_receive_blocking true (set_tail 0 (set_head 0 (set_version 4
       (set_protocol TCP (set_state NET_STATE_CLOSED (tuple t))))))) t)).

Lemma create_socket_tcp_inv {M : Machine} e t s i s' :
  machine_ok -> create_socket_tcp e t s = Done (Some i, s') ->
  (i = MAX_SOCKETS_COUNT /\ s' = s) \/
  (exists b k, 0 <= i < MAX_SOCKETS_COUNT /\ sock_ptr s i = 0 /\ (forall j, 0 <= j < i -> sock_ptr s j <> 0) /\
    0 <= b < total_memory_blocks_count /\ (forall j, b <= j < b + 6 -> map_byte (nk s) j = 0) /\
    (forall j, j < total_memory_blocks_count -> read_map k j = if (b <=? j) && (j <? b + 6) then 1 else read_map (nk s) j) /\
    s' = set_sock_heap (<[block_addr b := fresh_tcp e t]> (sock_heap s))
           (set_socket_global (<[i := block_addr b]> (socket_global s)) (set_nk k s))).
Proof.
  intros HM' E. unfold create_socket_tcp in E.
  rewrite gets_bind in E. destruct (find_idx _ _ _) as [d|]; [discriminate|].
  rewrite gets_bind in E. destruct (find_idx _ _ _) as [j|] eqn:Ef; [|injection E as <- <-; by left]. right.
  apply bind_done_inv in E as (a & s1 & E & E1).
  apply alloc_blocks_done in E as (b & k & -> & -> & Hb & H0 & H1); [|done|done].
  rewrite modify_bind in E1. cbv zeta in E1. rewrite modify_bind in E1. injection E1 as <- <-.
  apply find_idx_Some in Ef as (Hj & Hp & Hl). zbool.
  exists b, k. split; [unfold MAX_SOCKETS_COUNT in *; lia|]. split; [done|].
  split; [intros x Hx; specialize (Hl x Hx); by zbool|].
  split; [done|]. split; [done|]. split; [done|]. reflexivity.
Qed.


(** *** Witnesses *)
#[local] Existing Instance small_machine.

(** One card with the address 10.0.0.1, the hardware address of 10.0.0.2 in the
    cache, a route, and an established connection in slot 3. *)
Definition demo_nic : nic_t := Nic 0 [2; 0; 0; 0; 0; 1] {[0 := Ip 0 0x0A000001 4 0 IP_NOT_EXISTS (Timeval 0 0)]} 0 0.
Definition demo_mac : list Z := [2; 0; 0; 0; 0; 2].
Definition demo_conn : net_tuple_tcp :=
  NetTupleTcp (NetTuple 0 0x0A000001 0 0x0A000002 80 5000 TCP 4 NET_STATE_ESTABLISHED (Timeval 0 0) 0 0 0 0 true)
    0 0 false 1000 2000 0 0 0 0.
Definition demo_env : net_env := NetEnv (Timeval 100 0) 5 6 zero_tuple_tcp [] demo_nic 0x9000.
Definition demo_net : net :=
  Net (mark_blocks 20 0 boot_state) ∅ {[3 := block_addr 10]} ∅ {[block_addr 10 := demo_conn]} {[1 := demo_nic]}
    {[0 := MacEntry 0x0A000002 demo_mac 1 100]} {[2 := Route 0x08080808 0xFFFFFFFF 0x0A0000FE 1]}
    (E1000 {[0 := Desc 0 0 0 1]} 0 ∅ ∅ 0 ∅ ∅) 7 50000 0.
Definition no_dispatch : Z -> list Z -> ST net unit := fun _ _ => fault.

Lemma demo_sock_ptr i : sock_ptr demo_net i <> 0 -> i = 3.
Proof.
  unfold sock_ptr. change (socket_global demo_net) with ({[3 := block_addr 10]} : gmap Z Z). intros Hn.
  destruct (decide (i = 3)) as [|Hi]; [done|]. rewrite lookup_singleton_ne in Hn by congruence. done.
Qed.
Lemma demo_net_ok : sockets_ok demo_net.
Proof.
  assert (Hl : forall i, listen_ptr demo_net i = 0) by done.
  split.
  - intros a t Ha. change (sock_heap demo_net) with ({[block_addr 10 := demo_conn]} : gmap Z net_tuple_tcp) in Ha.
    apply lookup_singleton_Some in Ha as [<- _]. exists 10. split; [cbn; lia|]. split; [done|]. vm_compute. discriminate.
  - intros [[] i]; unfold any_ptr; cbn [fst snd]; [by rewrite Hl|]. intros ->%demo_sock_ptr. by eexists.
  - intros [[] i] [[] j]; unfold any_ptr; cbn [fst snd]; rewrite ?Hl; try done; intros Hi E.
    pose proof (demo_sock_ptr i Hi) as ->. rewrite E in Hi. by rewrite (demo_sock_ptr j Hi).
  - intros [[] i]; unfold any_ptr; cbn [fst snd]; [by rewrite Hl|]. intros ->%demo_sock_ptr. unfold MAX_SOCKETS_COUNT. lia.
Qed.
Lemma demo_resolved : resolved demo_env no_dispatch demo_net 0x0A000002 1 demo_mac.
Proof. split; vm_compute; reflexivity. Qed.

Lemma find_route_longest_witness : best_route demo_net 0x08080808 0 ROUTE_TABLE_SIZE 2.
Proof.
  assert (E : find_route 0x08080808 demo_net = Some 2) by (vm_compute; reflexivity).
  pose proof (find_route_longest demo_net 0x08080808) as P. rewrite E in P. apply P.
  intros i. unfold route_at. change (route_table_v4 demo_net) with ({[2 := Route 0x08080808 0xFFFFFFFF 0x0A0000FE 1]} : gmap Z route_entry).
  destruct (decide (i = 2)) as [->|]; [vm_compute; discriminate|]. rewrite lookup_singleton_ne by congruence. cbn. lia.
Defined.
