(* ===== verification/Tcp.v ===== *)
(** * Tcp: UDP, TCP and the packet handlers

    src/core/network/af_inet/udp.h and tcp.h, the handlers and the periodic
    thread of src/core/network/af_inet/af_inet.h.  A call that puts its thread
    to sleep ends with [None]; what it does when it is resumed is a definition
    of its own.  [nic_send_dispatch] ties sending and handling together with a
    bound on the depth of loop-back delivery. *)
From S2P Require Import Prelude Bytes MemLib Time KState Blocks Threads Packet Inet.
Open Scope Z_scope.

Definition ENOTSOCK : Z := 88.

(** [bool] of an integer result. *)
Definition truth (x : Z) : bool := negb (x =? 0).

(** ** UDP *)
(** Ring size in bytes of the two readers and of the writer, and the length
    records after the ring. *)
Definition udp_read_buf_len : Z := div_ceil (SOCKET_BLOCK_COUNT * 4096 - sizeof_net_tuple) UDP_MTU * UDP_MTU.
Definition udp_buf_len : Z :=
  div_ceil ((SOCKET_BLOCK_COUNT + UDP_ADDITIONAL_SOCKET_BLOCK_COUNT - 1) * 4096 - sizeof_net_tuple) UDP_MTU * UDP_MTU.
Definition len_record_addr (a pos : Z) : Z :=
  a + (SOCKET_BLOCK_COUNT + UDP_ADDITIONAL_SOCKET_BLOCK_COUNT - 1) * 4096 + 8 * (pos / UDP_MTU).

(** [fifo_read8] from the ring behind the structure at [a], into [out]. *)
Definition ring_read (a off buf_len len out : Z) : ST net Z :=
  t ← (gets (fun s => sock_heap s !! a) ≫= deref);
  m ← gets net_mem;
  let '(m', tl, rs) := fifo_read8 m (a + off) (tail (tuple t)) (head (tuple t)) buf_len len out in
  _ ← modify (fun s => upd_sock_at a (upd_tuple (set_tail tl)) (set_net_mem m' s));
  mret rs.
Definition ring_write (a off buf_len len inp : Z) : ST net Z :=
  t ← (gets (fun s => sock_heap s !! a) ≫= deref);
  m ← gets net_mem;
  let '(m', hd, rs) := fifo_write8 m (a + off) (tail (tuple t)) (head (tuple t)) buf_len len inp in
  _ ← modify (fun s => upd_sock_at a (upd_tuple (set_head hd)) (set_net_mem m' s));
  mret rs.

Section Udp.
Context (e : net_env).

Definition read_socket_by_id (socket_id payload payload_len : Z) : ST net Z :=
  a ← gets (fun s => sock_ptr s socket_id);
  if a =? 0 then mret (- EBADF)
  else
    t ← get_sock socket_id;
    _ ← modify (fun s => set_net_mem (memset (net_mem s) payload 0 payload_len) s);
    len ← gets (fun s => ld_le 8 (net_mem s) (len_record_addr a (head (tuple t))));
    _ ← ring_read a sizeof_net_tuple udp_buf_len UDP_MTU payload;
    mret (s64 len).

Definition udp_socket_append (socket_id payload payload_len : Z) : ST net Z :=
  a ← gets (fun s => sock_ptr s socket_id);
  if a =? 0 then mret (- EBADF)
  else
    t ← get_sock socket_id;
    let rec_len := if UDP_MTU <? payload_len then UDP_MTU else payload_len in
    _ ← modify (fun s => set_net_mem (st_le 8 (net_mem s) (len_record_addr a (head (tuple t))) rec_len) s);
    rs ← ring_write a sizeof_net_tuple udp_buf_len UDP_MTU payload;
    _ ← modify (wake_all (recv_wait_flag_addr a));
    mret (s64 rs).

Definition udp_listen_append (listen_id payload payload_len : Z) : ST net Z :=
  a ← gets (fun s => listen_ptr s listen_id);
  if a =? 0 then mret (- EBADF)
  else
    rs ← ring_write a sizeof_net_tuple (SOCKET_BLOCK_COUNT * 4096 - sizeof_net_tuple) payload_len payload;
    mret (s64 rs).

(** [tmp_buf] is local; its first [payload_len] bytes are copied out. *)
Definition udp_take (a tmp_buf payload payload_len : Z) : ST net Z :=
  _ ← modify (fun s => set_net_mem (memset (net_mem s) tmp_buf 0 UDP_MTU) s);
  rs ← ring_read a sizeof_net_tuple udp_read_buf_len UDP_MTU tmp_buf;
  _ ← modify (fun s => set_net_mem (memcpy (net_mem s) payload tmp_buf payload_len) s);
  mret rs.
(** Falls off its end without a value when there is no datagram: [None]. *)
Definition read_socket_udp_non_blocking (a payload payload_len : Z) : ST net (option Z) :=
  t ← (gets (fun s => sock_heap s !! a) ≫= deref);
  _ ← modify (fun s => set_net_mem (memset (net_mem s) payload 0 payload_len) s);
  len ← gets (fun s => ld_le 8 (net_mem s) (len_record_addr a (head (tuple t))));
  rs ← udp_take a (stack_buf e) payload payload_len;
  if truth rs && truth len then mret (Some (if payload_len <? len then payload_len else len)) else mret None.
(** [None]: asleep on the receive flag, with [len] kept. *)
Definition read_socket_udp_blocking (a payload payload_len : Z) : ST net (option Z) :=
  t ← (gets (fun s => sock_heap s !! a) ≫= deref);
  _ ← modify (fun s => set_net_mem (memset (net_mem s) payload 0 payload_len) s);
  len ← gets (fun s => ld_le 8 (net_mem s) (len_record_addr a (head (tuple t))));
  rs ← udp_take a (stack_buf e) payload payload_len;
  if truth rs then mret (Some (if payload_len <? len then payload_len else len))
  else
    _ ← liftk (sleep_by_resource (recv_wait_flag_addr a) THREAD_BLOCKED_NETWORK);
    mret None.
Definition read_socket_udp_resume (a payload payload_len len : Z) : ST net Z :=
  t ← (gets (fun s => sock_heap s !! a) ≫= deref);
  if decide (state (tuple t) = NET_STATE_CLOSE_WAIT) then mret (- EBADF)
  else
    _ ← ring_read a sizeof_net_tuple udp_read_buf_len UDP_MTU (stack_buf e);
    _ ← modify (fun s => set_net_mem (memcpy (net_mem s) payload (stack_buf e) payload_len) s);
    mret (if payload_len <? len then payload_len else len).
Definition read_socket_udp (a payload payload_len : Z) (flags_non_blocking : bool) : ST net (option Z) :=
  if UDP_MTU <? payload_len then mret (Some (- EINVAL))
  else
    t ← (gets (fun s => sock_heap s !! a) ≫= deref);
    if receive_blocking (tuple t) && negb flags_non_blocking
    then read_socket_udp_blocking a payload payload_len
    else read_socket_udp_non_blocking a payload payload_len.

(** The addresses of the lookup tuple are those of the packet, source as local.
    The listening branch passes the index -1 it got from the first lookup: the
    word before the table, the last slot of [nic_global], taken as null. *)
Definition handle_udp_packet (src_ip dst_ip src_port dst_port payload payload_len : Z) : ST net bool :=
  let tmp := set_version 4 (set_protocol UDP (set_local_port dst_port (set_remote_port src_port
               (set_remote_ip_l dst_ip (set_remote_ip_h 0 (set_local_ip_l src_ip (set_local_ip_h 0
               (tuple (stack_tuple e))))))))) in
  socket_id ← gets (find_socket tmp);
  match socket_id : option Z with
  | Some id => _ ← udp_socket_append id payload payload_len; mret true
  | None =>
      lid ← gets (find_listen tmp);
      match lid : option Z with
      | Some _ => _ ← udp_listen_append (2 ^ 64 - 1) payload payload_len; mret true
      | None => mret false
      end
  end.
Definition handle_udp_v4 (buf buf_len : Z) : ST net unit :=
  pkt ← gets (fun s => cells (net_mem s) buf 42);
  let ip := ipv4_at pkt 14 in
  let udp := udp_at pkt 34 in
  let ip_header_len := ntohs (udp_length udp) in
  if buf_len <? ip_header_len + sizeof_udp_hdr then mret tt
  else
    let payload_len := u64 (ntohs (udp_length udp) - sizeof_udp_hdr) in
    _ ← handle_udp_packet (ntohl (ip_src ip)) (ntohl (ip_dst ip)) (ntohs (udp_src_port udp))
          (ntohs (udp_dst_port udp)) (buf + 42) payload_len;
    mret tt.
End Udp.

(** ** TCP *)
Section Tcp.
Context {M : Machine} (e : net_env).
Abbreviation now := (now e).
Variable nic_send_dispatch : Z -> list Z -> ST net unit.
Abbreviation nic_send_ipv4 := (nic_send_ipv4 e nic_send_dispatch).

(** The header every sender builds, with its checksum. *)
Definition tcp_segment (src_port dst_port seq ack flags src_ip dst_ip : Z) (payload : list Z) : list Z :=
  let h := TcpHdr (htons (u16 src_port)) (htons (u16 dst_port)) (htonl (u32 seq)) (htonl (u32 ack))
             0x50 flags (htons 65535) 0 0 in
  let c := tcp_checksum (tcp_bytes h) (u32 src_ip) (u32 dst_ip) payload in
  tcp_bytes (TcpHdr (tcp_src_port h) (tcp_dst_port h) (tcp_seq h) (tcp_ack_seq h)
               (data_offset_reserved h) (tcp_flags h) (window h) c (urgent_ptr h)).
(** A segment of the socket [t], handed to the network layer. *)
Definition send_segment (t : net_tuple_tcp) (seq ack flags : Z) (payload : list Z) : ST net Z :=
  let u := tuple t in
  nic_send_ipv4 (u32 (local_ip_l u)) (u32 (remote_ip_l u)) TCP
    (tcp_segment (local_port u) (remote_port u) seq ack flags (local_ip_l u) (remote_ip_l u) payload) payload.

Definition nic_send_tcp_package (socket_id payload payload_len : Z) : ST net bool :=
  t ← get_sock socket_id;
  a ← gets (fun s => sock_ptr s socket_id);
  p ← gets (fun s => cells (net_mem s) payload (Z.to_nat payload_len));
  _ ← modify (upd_sock_at a (upd_tuple (set_last_updated now)));
  r ← send_segment t (seq_local t) (seq_remote t) (if payload_len =? 0 then 0x10 else 0x18) p;
  mret (truth r).
Definition tcp_send_established (sock_id : Z) : ST net unit :=
  t ← get_sock sock_id;
  a ← gets (fun s => sock_ptr s sock_id);
  _ ← nic_send_tcp_package sock_id (a + 4096 * SOCKET_BLOCK_COUNT) (send_payload_len t);
  mret tt.

(** What follows the wait for an earlier segment's acknowledgement. *)
Definition tcp_send_payload (socket_id payload payload_len : Z) : ST net Z :=
  t ← get_sock socket_id;
  a ← gets (fun s => sock_ptr s socket_id);
  if decide (state (tuple t) <> NET_STATE_ESTABLISHED) then mret (neg64 ENOTSOCK)
  else
    let len := if TCP_MTU <? payload_len then TCP_MTU else payload_len in
    _ ← modify (upd_sock_at a (fun t => set_send_payload_len (u16 len) (set_ack_est_blocked true (set_send_retry_count 1 t))));
    _ ← modify (fun s => set_net_mem (memcpy (net_mem s) (a + 4096 * SOCKET_BLOCK_COUNT) payload len) s);
    _ ← tcp_send_established socket_id;
    mret len.
(** [None]: asleep on the send flag; [tcp_send_payload] is what is left. *)
Definition tcp_copy_payload_and_send_established (socket_id payload payload_len : Z) : ST net (option Z) :=
  t ← get_sock socket_id;
  a ← gets (fun s => sock_ptr s socket_id);
  if ack_est_blocked t then
    _ ← liftk (sleep_by_resource (send_wait_flag_addr a) THREAD_BLOCKED_NETWORK);
    mret None
  else
    r ← tcp_send_payload socket_id payload payload_len;
    mret (Some r).

(** The senders that take the socket's address. *)
Definition tcp_send_ack (a payload_index payload_len : Z) : ST net bool :=
  t ← (gets (fun s => sock_heap s !! a) ≫= deref);
  p ← gets (fun s => cells (net_mem s) (a + sizeof_net_tuple_tcp + payload_index) (Z.to_nat payload_len));
  _ ← send_segment t (seq_local t) (seq_remote t) TCP_ACK p;
  _ ← modify (upd_sock_at a (fun t => upd_tuple (set_last_updated now) (set_seq_local (u64 (seq_local t + payload_len)) t)));
  mret true.
Definition tcp_send_synack (a remote_ack_le payload_len : Z) : ST net bool :=
  t ← (gets (fun s => sock_heap s !! a) ≫= deref);
  p ← gets (fun s => cells (net_mem s) (stack_buf e) (Z.to_nat payload_len));
  let remote_ack_le := u32 (remote_ack_le + 1) in
  _ ← send_segment t (seq_local t) remote_ack_le (Z.lor TCP_SYN TCP_ACK) p;
  _ ← modify (upd_sock_at a (fun t => set_seq_local (u64 (seq_local t + (payload_len + 1))) (set_seq_remote remote_ack_le t)));
  mret true.

(** The ports go into the header before the local one is chosen. *)
Definition tcp_send_syn (socket_id : Z) : ST net Z :=
  t ← get_sock socket_id;
  a ← gets (fun s => sock_ptr s socket_id);
  if version (tuple t) =? 0 then mret (- EINVAL)
  else
    _ ← when (seq_local t =? 0)
          (isn ← gets (fun s => u32 (next_isn s + 1));
           _ ← modify (set_next_isn isn);
           modify (upd_sock_at a (set_seq_local isn)));
    let src_port := local_port (tuple t) in
    _ ← when (local_ip_l (tuple t) =? 0)
          (n ← get_nic 1; modify (upd_sock_at a (upd_tuple (set_local_ip_l (addr_l (ip_at n 0))))));
    _ ← when (local_port (tuple t) =? 0)
          (p ← allocate_random_high_port UDP; modify (upd_sock_at a (upd_tuple (set_local_port p))));
    t ← get_sock socket_id;
    let u := tuple t in
    sent ← nic_send_ipv4 (u32 (local_ip_l u)) (u32 (remote_ip_l u)) TCP
             (tcp_segment src_port (remote_port u) (seq_local t) 0 TCP_SYN (local_ip_l u) (remote_ip_l u) []) [];
    if sent <? 0 then mret sent
    else
      _ ← modify (upd_sock_at a (fun t => upd_tuple (fun u => set_last_updated now (set_state NET_STATE_SYN_SENT u))
                                            (set_seq_local (u64 (seq_local t + 1)) t)));
      mret 0.

Definition fin_state (st : net_state_t) : net_state_t :=
  match st with
  | NET_STATE_ESTABLISHED => NET_STATE_FIN_WAIT_1
  | NET_STATE_CLOSE_WAIT => NET_STATE_LAST_ACK
  | st => st
  end.
(** [nic_send_ipv4] answers 0 for success, which is taken as a failure. *)
Definition tcp_send_fin (socket_id : Z) : ST net bool :=
  a ← gets (fun s => sock_ptr s socket_id);
  o ← gets (fun s => sock s socket_id);
  match o : option net_tuple_tcp with
  | None => mret false
  | Some t =>
      if version (tuple t) =? 0 then mret false
      else if decide (state (tuple t) <> NET_STATE_ESTABLISHED /\ state (tuple t) <> NET_STATE_CLOSE_WAIT)
      then mret false
      else
        r ← send_segment t (seq_local t) (seq_remote t) (Z.lor TCP_FIN TCP_ACK) [];
        if negb (truth r) then mret false
        else
          _ ← modify (upd_sock_at a (fun t => set_send_retry_count 0
                (upd_tuple (fun u => set_last_updated now (set_state (fin_state (state u)) u))
                   (set_seq_local (u64 (seq_local t + 1)) t))));
          mret true
  end.

(** The receive ring of a TCP socket. *)
Definition tcp_ring_size : Z := 4096 * SOCKET_BLOCK_COUNT - sizeof_net_tuple_tcp.
Definition backlog_ring_size : Z :=
  4096 * (SOCKET_BLOCK_COUNT + TCP_ADDITIONAL_SOCKET_BLOCK_COUNT) - sizeof_net_tuple_tcp.
Definition read_socket_tcp (socket_id payload payload_len : Z) : ST net (option bool) :=
  a ← gets (fun s => sock_ptr s socket_id);
  rs ← ring_read a sizeof_net_tuple_tcp tcp_ring_size payload_len payload;
  if truth rs then mret (Some true)
  else
    _ ← liftk (sleep_by_resource (recv_wait_flag_addr a) THREAD_BLOCKED_NETWORK);
    mret None.
Definition read_socket_tcp_resume (socket_id payload payload_len : Z) : ST net bool :=
  a ← gets (fun s => sock_ptr s socket_id);
  rs ← ring_read a sizeof_net_tuple_tcp tcp_ring_size payload_len payload;
  mret (truth rs).
Definition recv_socket_append_tcp (socket_id payload payload_len : Z) : ST net bool :=
  a ← gets (fun s => sock_ptr s socket_id);
  rs ← ring_write a sizeof_net_tuple_tcp tcp_ring_size payload_len payload;
  mret (truth rs).

(** [child_sockid] is a local variable of eight bytes. *)
Definition push_backlog (child_sockid listener_id : Z) : ST net Z :=
  a ← gets (fun s => sock_ptr s listener_id);
  _ ← modify (fun s => set_net_mem (st_le 8 (net_mem s) (stack_buf e) child_sockid) s);
  ring_write a sizeof_net_tuple_tcp backlog_ring_size 8 (stack_buf e).
Definition pull_backlog (listener_id : Z) : ST net Z :=
  a ← gets (fun s => sock_ptr s listener_id);
  _ ← modify (fun s => set_net_mem (st_le 8 (net_mem s) (stack_buf e) (2 ^ 64 - 1)) s);
  rs ← ring_read a sizeof_net_tuple_tcp backlog_ring_size 8 (stack_buf e);
  if truth rs then gets (fun s => ld_le 8 (net_mem s) (stack_buf e)) else mret (2 ^ 64 - 1).
Definition find_ready_connection (id : Z) : ST net Z := rs ← pull_backlog id; mret (s64 rs).

(** ** Segments received *)
Definition lookup_tuple (src_ip dst_ip src_port dst_port : Z) : net_tuple_tcp :=
  upd_tuple (fun u => set_version 4 (set_protocol TCP (set_remote_port src_port (set_local_port dst_port
    (set_remote_ip_l src_ip (set_remote_ip_h 0 (set_local_ip_l dst_ip (set_local_ip_h 0 u))))))))
    (stack_tuple e).

Definition handle_tcp_established_packet (src_ip dst_ip src_port dst_port payload payload_index payload_len : Z) : ST net bool :=
  id ← gets (find_socket_not_listen (tuple (lookup_tuple src_ip dst_ip src_port dst_port)));
  match id : option Z with
  | None => mret false
  | Some socket_id =>
      a ← gets (fun s => sock_ptr s socket_id);
      _ ← modify (upd_sock_at a (fun t => set_seq_remote (u64 (seq_remote t + payload_len)) t));
      _ ← recv_socket_append_tcp socket_id payload payload_len;
      _ ← tcp_send_ack a payload_index 0;
      _ ← modify (wake_all (recv_wait_flag_addr a));
      mret true
  end.

Definition handle_tcp_receive_ack_established (sock_id ack_seq : Z) : ST net bool :=
  a ← gets (fun s => sock_ptr s sock_id);
  o ← gets (fun s => sock s sock_id);
  match o : option net_tuple_tcp with
  | None => mret false
  | Some t =>
      if decide (state (tuple t) <> NET_STATE_ESTABLISHED) then mret false
      else if negb (ack_est_blocked t) then mret false
      else if negb (u64 (seq_local t + send_payload_len t) =? ack_seq) then mret false
      else
        _ ← modify (upd_sock_at a (fun t => set_ack_est_blocked false
              (set_seq_local (u64 (seq_local t + send_payload_len t)) t)));
        _ ← modify (wake_all (send_wait_flag_addr a));
        mret true
  end.

Definition flag (flags f : Z) : bool := negb (Z.land flags f =? 0).

(** The cases of the switch; the answer is false when the case returns from the
    handler instead of leaving the switch. *)
Section Cases.
Variables (sock_id a : Z) (seq ack_seq flags : Z).
Definition set_sock_state (st : net_state_t) : ST net unit := modify (upd_sock_at a (upd_tuple (set_state st))).

Definition case_listen (tmp : net_tuple_tcp) : ST net bool :=
  if flag flags TCP_SYN then
    lid ← gets (find_listen (tuple tmp));
    match lid : option Z with
    | None => mret true
    | Some lid =>
        old ← gets (find_socket_not_listen (tuple tmp));
        match old : option Z with
        | Some id => b ← gets (fun s => sock_ptr s id); _ ← tcp_send_synack b seq 0; mret true
        | None =>
            _ ← liftk get_current_pid;
            new ← create_socket_tcp e tmp;
            let new_socket_id := default (2 ^ 64 - 1) (new : option Z) in
            _ ← get_sock new_socket_id;
            b ← gets (fun s => sock_ptr s new_socket_id);
            _ ← modify (upd_sock_at b (fun t => upd_tuple (set_state NET_STATE_SYN_RECEIVED) (set_listen_id lid t)));
            _ ← tcp_send_synack b seq 0;
            _ ← modify (upd_sock_at b (upd_tuple (set_last_updated now)));
            mret true
        end
    end
  else mret true.
Definition case_syn_sent : ST net bool :=
  if flag flags TCP_SYN && flag flags TCP_ACK then
    _ ← modify (upd_sock_at a (set_seq_remote (u32 (seq + 1))));
    _ ← tcp_send_ack a seq 0;
    _ ← set_sock_state NET_STATE_ESTABLISHED;
    mret true
  else mret true.
Definition case_syn_received : ST net bool :=
  if flag flags TCP_ACK then
    t ← (gets (fun s => sock_heap s !! a) ≫= deref);
    pushed ← push_backlog sock_id (listen_id t);
    _ ← when (negb (truth pushed)) (mark_socket_as_deleted sock_id);
    _ ← set_sock_state NET_STATE_ESTABLISHED;
    _ ← resume_first_thread_pending_on_listen (listen_id t);
    mret true
  else mret true.
Definition case_established (src_ip dst_ip src_port dst_port payload payload_len : Z) : ST net bool :=
  _ ← when (flag flags TCP_FIN)
        (_ ← modify (upd_sock_at a (fun t => set_seq_remote (u64 (seq_remote t + 1)) t));
         _ ← tcp_send_ack a seq 0;
         set_sock_state NET_STATE_CLOSE_WAIT);
  _ ← when (flag flags TCP_ACK) (_ ← handle_tcp_receive_ack_established sock_id ack_seq; mret tt);
  if negb (payload_len =? 0) then
    t ← (gets (fun s => sock_heap s !! a) ≫= deref);
    if truth (seq_remote t) && negb (seq =? seq_remote t) then mret false
    else
      _ ← handle_tcp_established_packet src_ip dst_ip src_port dst_port payload seq payload_len;
      mret true
  else mret true.
(** The states that wait for the end of the connection. *)
Definition case_closing (st : net_state_t) : ST net bool :=
  match st with
  | NET_STATE_FIN_WAIT_1 =>
      _ ← (if flag flags TCP_ACK then set_sock_state NET_STATE_FIN_WAIT_2
           else when (flag flags TCP_FIN) (set_sock_state NET_STATE_CLOSING));
      mret true
  | NET_STATE_FIN_WAIT_2 =>
      _ ← when (flag flags TCP_FIN) (set_sock_state NET_STATE_TIME_WAIT);
      _ ← modify (upd_sock_at a (set_send_retry_count 0));
      mret true
  | NET_STATE_LAST_ACK =>
      _ ← when (flag flags TCP_ACK) (set_sock_state NET_STATE_CLOSED);
      mret true
  | NET_STATE_CLOSING =>
      _ ← when (flag flags TCP_ACK) (set_sock_state NET_STATE_TIME_WAIT);
      _ ← modify (upd_sock_at a (set_send_retry_count 0));
      mret true
  | _ => mret true
  end.
End Cases.

Definition handle_tcp_v4 (buf buf_len : Z) : ST net unit :=
  pkt ← gets (fun s => cells (net_mem s) buf 54);
  let ip := ipv4_at pkt 14 in
  let tcp := tcp_at pkt 34 in
  let ip_header_len := Z.land (version_ihl ip) 0x0F * 4 in
  let tcp_header_len := Z.shiftr (data_offset_reserved tcp) 4 * 4 in
  let src_ip := ntohl (ip_src ip) in
  let dst_ip := ntohl (ip_dst ip) in
  let src_port := ntohs (tcp_src_port tcp) in
  let dst_port := ntohs (tcp_dst_port tcp) in
  let tcp_len := u16 (buf_len - sizeof_eth_hdr - ip_header_len - tcp_header_len) in
  let seq := ntohl (tcp_seq tcp) in
  let flags := tcp_flags tcp in
  let ack_seq := ntohl (tcp_ack_seq tcp) in
  let payload := buf + sizeof_eth_hdr + ip_header_len + tcp_header_len in
  let tmp := lookup_tuple src_ip dst_ip src_port dst_port in
  id1 ← gets (find_socket_not_listen (tuple tmp));
  id2 ← gets (find_socket (tuple tmp));
  match (match id1 : option Z with Some i => Some i | None => id2 : option Z end) with
  | None => mret tt
  | Some sock_id =>
      socket ← get_sock sock_id;
      a ← gets (fun s => sock_ptr s sock_id);
      go_on ← match state (tuple socket) with
              | NET_STATE_LISTEN => case_listen seq flags tmp
              | NET_STATE_SYN_SENT => case_syn_sent a seq flags
              | NET_STATE_SYN_RECEIVED => case_syn_received sock_id a flags
              | NET_STATE_ESTABLISHED =>
                  case_established sock_id a seq ack_seq flags src_ip dst_ip src_port dst_port payload tcp_len
              | st => case_closing a flags st
              end;
      when go_on (modify (upd_sock_at a (upd_tuple (set_last_updated now))))
  end.

(** ** Other packets *)
Definition handle_arp (nic_id buf : Z) : ST net unit :=
  pkt ← gets (fun s => cells (net_mem s) buf 42);
  let eth := eth_at pkt 0 in
  let arp := arp_at pkt 14 in
  let source_ip := ntohl (spa arp) in
  let target_ip := ntohl (tpa arp) in
  let oper := ntohs (oper arp) in
  if oper =? 2 then _ ← add_cache_mac_v4 e source_ip (eth_src eth) nic_id; mret tt
  else if negb (oper =? 1) then mret tt
  else
    n ← get_nic nic_id;
    match find_ipv4_of_nic n target_ip with
    | None => _ ← add_cache_mac_v4 e target_ip (eth_src eth) nic_id; mret tt
    | Some matched_id =>
        let ip := ip_at n matched_id in
        if _later (add_time_us (init_time ip) ARP_WAIT_TIME) now
        then modify (upd_nic nic_id (set_ip matched_id (Ip 0 0 0 (masklen ip) IP_NOT_EXISTS (Timeval 0 0))))
        else
          _ ← modify (upd_nic nic_id (set_ip matched_id (set_ip_state IP_ASSIGNED ip)));
          nic_send_dispatch nic_id
            (eth_bytes (EthHdr (sha arp) (nic_mac n) (htons 0x0806)) ++
             arp_bytes (ArpPkt (htons 1) (htons 0x0800) 6 4 (htons 2) (nic_mac n) (htonl target_ip)
                          (sha arp) (spa arp)))
    end.

(** The reply is the request with the addresses exchanged and a new type, in a
    local buffer of 2048 bytes. *)
Definition echo_reply (reply_buf : list Z) (buf_len : Z) : list Z :=
  let r := put reply_buf 0 (slice reply_buf 6 6 ++ slice reply_buf 0 6) in
  let r := put r 26 (slice reply_buf 30 4 ++ slice reply_buf 26 4) in
  let r := put (put r 34 [0]) 36 [0; 0] in
  let r := put r 36 (le_bytes16 (network_checksum (slice r 34 (buf_len - 34)))) in
  take (Z.to_nat buf_len) r.
(** A length below the two headers wraps the length of the checksum. *)
Definition handle_ping_v4 (nic_id buf buf_len : Z) : ST net unit :=
  type ← gets (fun s => ld (net_mem s) (buf + 34));
  if negb (type =? 8) then mret tt
  else if (2048 <? buf_len) || (buf_len <? 34) then fault
  else
    reply_buf ← gets (fun s => cells (net_mem s) buf (Z.to_nat buf_len)
                        ++ cells (net_mem s) (stack_buf e + buf_len) (Z.to_nat (2048 - buf_len)));
    nic_send_dispatch nic_id (echo_reply reply_buf buf_len).

Definition handle_ipv4 (nic_id buf buf_len : Z) : ST net unit :=
  pkt ← gets (fun s => cells (net_mem s) buf 34);
  let eth := eth_at pkt 0 in
  let ip := ipv4_at pkt 14 in
  _ ← add_cache_mac_v4 e (ntohl (ip_src ip)) (eth_src eth) 1;
  if ip_protocol ip =? ICMP_PROTOCOL_NUMBER then handle_ping_v4 nic_id buf buf_len
  else if ip_protocol ip =? UDP_PROTOCOL_NUMBER then handle_udp_v4 e buf buf_len
  else if ip_protocol ip =? TCP_PROTOCOL_NUMBER then handle_tcp_v4 buf buf_len
  else mret tt.
End Tcp.

(** ** Dispatch, interrupt and periodic thread *)
Section Dispatch.
Context {M : Machine} (e : net_env).
Abbreviation now := (now e).

(** Interface 0 is the loop-back: its packet is handled at once, from the local
    buffer of this level.  [depth] bounds the nesting. *)
Fixpoint nic_send_dispatch (depth : nat) (nic_id : Z) (data : list Z) : ST net unit :=
  match depth with
  | O => fun _ => Stuck
  | S d =>
      if nic_id =? 0 then
        let buf := stack_buf e + 4096 * Z.of_nat depth in
        _ ← modify (fun s => set_net_mem (store_bytes (net_mem s) buf data) s);
        handle_ipv4 e (nic_send_dispatch d) nic_id buf (Z.of_nat (length data))
      else
        _ ← get_nic nic_id;
        e1000_send data
  end.

Definition nic_send_udp_package (depth : nat) (socket_id payload payload_len : Z) : ST net bool :=
  t ← get_sock socket_id;
  a ← gets (fun s => sock_ptr s socket_id);
  p ← gets (fun s => cells (net_mem s) payload (Z.to_nat payload_len));
  let udp := UdpHdr (htons (u16 (local_port (tuple t)))) (htons (u16 (remote_port (tuple t))))
               (htons (u16 (sizeof_udp_hdr + payload_len))) 0 in
  _ ← when (local_ip_l (tuple t) =? 0)
        (n ← get_nic 1; modify (upd_sock_at a (upd_tuple (set_local_ip_l (addr_l (ip_at n 0))))));
  _ ← when (local_port (tuple t) =? 0)
        (p ← allocate_random_high_port UDP; modify (upd_sock_at a (upd_tuple (set_local_port p))));
  t ← get_sock socket_id;
  let c := udp_package_checksum (u32 (local_ip_l (tuple t))) (u32 (remote_ip_l (tuple t))) udp p in
  r ← nic_send_ipv4 e (nic_send_dispatch depth) (u32 (local_ip_l (tuple t))) (u32 (remote_ip_l (tuple t)))
        UDP_PROTOCOL_NUMBER (udp_bytes (UdpHdr (udp_src_port udp) (udp_dst_port udp) (udp_length udp) c)) p;
  mret (truth r).

(** The interrupt: the packet goes to a local buffer of 2048 bytes. *)
Definition nic_isr (depth : nat) (nic_id : Z) : ST net unit :=
  _ ← get_nic nic_id;
  data ← e1000_recv 2048;
  let buf := stack_buf e + 4096 * Z.of_nat (S depth) in
  let len := Z.of_nat (length data) in
  if len <=? 0 then mret tt
  else
    _ ← modify (fun s => set_net_mem (store_bytes (net_mem s) buf data) s);
    pkt ← gets (fun s => cells (net_mem s) buf 14);
    let eth_type := ntohs (eth_type (eth_at pkt 0)) in
    if eth_type =? 0x0806 then handle_arp e (nic_send_dispatch depth) nic_id buf
    else if eth_type =? 0x0800 then handle_ipv4 e (nic_send_dispatch depth) nic_id buf len
    else mret tt.
Definition nic0_isr (depth : nat) : ST net unit := nic_isr depth 1.

(** One address of one interface, in the periodic thread. *)
Definition announce_ip (depth : nat) (i j : Z) : ST net unit :=
  n ← get_nic i;
  let ip := ip_at n j in
  let expired_time := add_time_us (init_time ip) ARP_WAIT_TIME in
  when (bool_decide (ip_state ip = IP_PENDING) && negb (addr_l ip =? 0) && _later now expired_time)
    (_ ← send_arp (nic_send_dispatch depth) (u32 (addr_l ip)) i true;
     n ← get_nic i;
     modify (upd_nic i (set_ip j (set_ip_state IP_ASSIGNED (ip_at n j))))).
(** One socket. *)
Definition tcp_timer (depth : nat) (i : Z) : ST net unit :=
  a ← gets (fun s => sock_ptr s i);
  o ← gets (fun s => sock s i);
  match o : option net_tuple_tcp with
  | None => mret tt
  | Some t =>
      if negb (protocol (tuple t) =? TCP) then mret tt
      else match state (tuple t) with
      | NET_STATE_SYN_SENT =>
          if TCP_MAX_RETRIES <? send_retry_count t then mark_socket_as_deleted i
          else
            _ ← modify (upd_sock_at a (fun t => set_send_retry_count (u8 (send_retry_count t + 1)) t));
            _ ← tcp_send_syn e (nic_send_dispatch depth) i;
            mret tt
      | NET_STATE_ESTABLISHED =>
          if negb (ack_est_blocked t) then mret tt
          else if TCP_MAX_RETRIES <? send_retry_count t then mark_socket_as_deleted i
          else
            _ ← tcp_send_established e (nic_send_dispatch depth) i;
            modify (upd_sock_at a (fun t => set_send_retry_count (u8 (send_retry_count t + 1)) t))
      | NET_STATE_TIME_WAIT =>
          _ ← modify (upd_sock_at a (fun t => set_send_retry_count (u8 (send_retry_count t + 1)) t));
          when (_later (subtract_time_us now TCP_TIMEWAIT_TIMEOUT_SECONDS) (last_updated (tuple t)))
            (_ ← modify (upd_sock_at a (upd_tuple (set_state NET_STATE_CLOSED)));
             mark_socket_as_deleted i)
      | _ => mret tt
      end
  end.
(** One round of the endless loop, after its sleep. *)
Definition kernel_thread_network (depth : nat) : ST net unit :=
  _ ← for_m (Z.to_nat MAX_NIC_COUNT) 0 (fun i =>
        o ← gets (fun s => nic_global s !! i);
        match o : option nic_t with
        | None => mret tt
        | Some _ => for_m (Z.to_nat MAX_IP_PER_NIC) 0 (announce_ip depth i)
        end);
  for_m (Z.to_nat MAX_SOCKETS_COUNT) 0 (tcp_timer depth).
End Dispatch.

(** ** What sending changes *)

(** An interface layer that only transmits on cards: what TCP relies on when no
    loop-back interface is registered. *)
Class Quiet (disp : Z -> list Z -> ST net unit) : Prop :=
  quiet : forall nic data s s', nic <> 0 -> disp nic data s = Done (tt, s') -> sent_only s s'.
Definition no_loopback (s : net) : Prop := nic_global s !! 0 = None.

#[export] Instance dispatch_quiet {M : Machine} e depth : Quiet (nic_send_dispatch e depth).
Proof.
  intros nic data s s' Hn E. destruct depth as [|d]; [discriminate|]. cbn [nic_send_dispatch] in E.
  destruct (Z.eqb_spec nic 0); [done|]. apply bind_done_inv in E as (n0 & s1 & E0 & E).
  unfold get_nic in E0. rewrite gets_bind in E0.
  destruct (nic_global s !! nic); [|discriminate]. injection E0 as _ <-. by eapply e1000_send_only.
Qed.

Section SendOnly.
Context (e : net_env) (disp : Z -> list Z -> ST net unit) `{!Quiet disp}.

Lemma get_nic_done i s n s' : get_nic i s = Done (n, s') -> s' = s /\ nic_global s !! i = Some n.
Proof.
  unfold get_nic. rewrite gets_bind. destruct (nic_global s !! i); [|discriminate]. by intros [= -> <-].
Qed.
Lemma no_loopback_id s i n : no_loopback s -> nic_global s !! i = Some n -> i <> 0.
Proof. unfold no_loopback. congruence. Qed.

Lemma send_arp_only ip nic b s s' :
  no_loopback s -> send_arp disp ip nic b s = Done (tt, s') -> sent_only s s'.
Proof.
  intros Hl E. unfold send_arp in E. apply bind_done_inv in E as (n & s1 & E0 & E).
  apply get_nic_done in E0 as [-> Hn]. rewrite gets_bind in E.
  destruct (_ =? 0); [injection E as <-; apply sent_only_refl|].
  apply bind_done_inv in E as (spa & s1 & E0 & E).
  assert (s1 = s) as ->.
  { destruct b; [|by injection E0 as _ <-]. unfold find_1st_ipv4 in E0.
    destruct (find_idx _ _ _); [|discriminate]. by injection E0 as _ <-. }
  by eapply quiet; [eapply no_loopback_id|exact E].
Qed.
Lemma find_mac_l2_only ip nic s r s' :
  no_loopback s -> find_mac_of_ipv4_l2 e disp ip nic s = Done (r, s') -> sent_only s s'.
Proof.
  intros Hl E. unfold find_mac_of_ipv4_l2 in E. rewrite gets_bind in E.
  destruct (find_idx _ _ _); [injection E as _ <-; apply sent_only_refl|].
  apply bind_done_inv in E as ([] & s1 & E0 & E). injection E as _ <-. by eapply send_arp_only.
Qed.
Lemma find_mac_only ip nic s r s' :
  no_loopback s -> find_mac_of_ipv4 e disp ip nic s = Done (r, s') -> sent_only s s'.
Proof.
  intros Hl E. unfold find_mac_of_ipv4 in E. apply bind_done_inv in E as (n & s1 & E0 & E).
  apply get_nic_done in E0 as [-> Hn]. destruct (in_l2 _ _ _); [by eapply find_mac_l2_only|].
  unfold find_mac_of_ipv4_l3 in E. rewrite gets_bind in E.
  destruct (find_route ip s); rewrite gets_bind in E; [by eapply find_mac_l2_only|].
  destruct (_ =? 0); [injection E as _ <-; apply sent_only_refl|by eapply find_mac_l2_only].
Qed.
Lemma nic_send_ipv4_only a b p l4 pl s r s' :
  no_loopback s -> nic_send_ipv4 e disp a b p l4 pl s = Done (r, s') -> sent_only s s'.
Proof.
  intros Hl E. unfold nic_send_ipv4 in E. rewrite gets_bind in E.
  apply bind_done_inv in E as (n & s1 & E0 & E). apply get_nic_done in E0 as [-> Hn].
  apply bind_done_inv in E as (m & s1 & E0 & E). apply find_mac_only in E0 as H1; [|done].
  destruct (mac_null _); [by injection E as _ <-|]. destruct (_ <? _); [discriminate|].
  rewrite gets_bind, modify_bind in E. apply bind_done_inv in E as ([] & s2 & E1 & E). injection E as _ <-.
  apply e1000_send_only in E1. eapply sent_only_trans; [exact H1|]. eapply sent_only_trans; [|exact E1].
  exists (card s1), (u64 (ip_ident s1 + 1)). by destruct s1.
Qed.
End SendOnly.

(** ** The states of the sockets *)
Definition st_of (s : net) (c : Z) : option net_state_t := (fun t => state (tuple t)) <$> sock_heap s !! c.
(** Sockets keep their states; none disappears; the interfaces stay. *)
Definition keeps (s s' : net) : Prop :=
  nic_global s' = nic_global s /\ (forall c st, st_of s c = Some st -> st_of s' c = Some st).
(** The socket at [a] goes to [st], the others keep theirs. *)
Definition moves (a : Z) (st : net_state_t) (s s' : net) : Prop :=
  nic_global s' = nic_global s /\
  (forall c st0, st_of s c = Some st0 -> st_of s' c = Some (if decide (c = a) then st else st0)).

Section Keeps.
Lemma keeps_refl s : keeps s s.
Proof. done. Qed.
Lemma keeps_trans s1 s2 s3 : keeps s1 s2 -> keeps s2 s3 -> keeps s1 s3.
Proof. intros [N1 H1] [N2 H2]. split; [congruence|]. eauto. Qed.
Lemma moves_keeps a st s1 s2 s3 : moves a st s1 s2 -> keeps s2 s3 -> moves a st s1 s3.
Proof. intros [N1 H1] [N2 H2]. split; [congruence|]. intros c st0 E. apply H2, H1, E. Qed.
Lemma keeps_moves a st s1 s2 s3 : keeps s1 s2 -> moves a st s2 s3 -> moves a st s1 s3.
Proof. intros [N1 H1] [N2 H2]. split; [congruence|]. intros c st0 E. apply H2, H1, E. Qed.
Lemma moves_moves a st st' s1 s2 s3 : moves a st s1 s2 -> moves a st' s2 s3 -> moves a st' s1 s3.
Proof.
  intros [N1 H1] [N2 H2]. split; [congruence|]. intros c st0 E. apply H1, H2 in E. rewrite E. by case_decide.
Qed.
Lemma keeps_self a st s s' : keeps s s' -> st_of s a = Some st -> moves a st s s'.
Proof.
  intros [N H] Ha. split; [done|]. intros c st0 E. rewrite (H c st0 E). case_decide; congruence.
Qed.
Lemma keeps_loopback s s' : keeps s s' -> no_loopback s -> no_loopback s'.
Proof. unfold no_loopback. by intros [-> _]. Qed.
Lemma sent_only_keeps s s' : sent_only s s' -> keeps s s'.
Proof. intros (c & i & ->). done. Qed.
Lemma upd_keeps a f s : (forall t, state (tuple (f t)) = state (tuple t)) -> keeps s (upd_sock_at a f s).
Proof.
  intros Hf. split; [done|]. intros c st. unfold st_of, upd_sock_at. cbn [sock_heap set_sock_heap].
  destruct (decide (c = a)) as [->|]; [|by rewrite lookup_alter_ne].
  rewrite lookup_alter_eq. destruct (sock_heap s !! a); cbn; [|done]. by rewrite Hf.
Qed.
Lemma upd_moves a f st s : (forall t, state (tuple (f t)) = st) -> moves a st s (upd_sock_at a f s).
Proof.
  intros Hf. split; [done|]. intros c st0. unfold st_of, upd_sock_at. cbn [sock_heap set_sock_heap].
  case_decide as D; [subst|by rewrite lookup_alter_ne].
  rewrite lookup_alter_eq. destruct (sock_heap s !! a); cbn; [|done]. by rewrite Hf.
Qed.
Lemma heap_keeps s s' : nic_global s' = nic_global s -> sock_heap s' = sock_heap s -> keeps s s'.
Proof. intros N H. split; [done|]. unfold st_of. by rewrite H. Qed.
Lemma ring_write_keeps a off bl len inp s r s' : ring_write a off bl len inp s = Done (r, s') -> keeps s s'.
Proof.
  unfold ring_write. rewrite deref_bind. destruct (sock_heap s !! a) as [t|]; [|discriminate].
  rewrite gets_bind. destruct (fifo_write8 _ _ _ _ _ _ _) as [[m' hd] rs]. rewrite modify_bind. intros [= _ <-].
  eapply keeps_trans; [apply (heap_keeps s (set_net_mem m' s)); done|]. by apply upd_keeps.
Qed.
End Keeps.

Section CaseLemmas.
Context {M : Machine} (e : net_env) (disp : Z -> list Z -> ST net unit) `{!Quiet disp}.

Lemma send_segment_keeps t seq ack flags p s r s' :
  no_loopback s -> send_segment e disp t seq ack flags p s = Done (r, s') -> keeps s s'.
Proof. intros Hl E. apply sent_only_keeps. exact (nic_send_ipv4_only e disp _ _ _ _ _ _ _ _ Hl E). Qed.
Lemma tcp_send_ack_keeps a i n s r s' :
  no_loopback s -> tcp_send_ack e disp a i n s = Done (r, s') -> keeps s s'.
Proof.
  intros Hl E. unfold tcp_send_ack in E. rewrite deref_bind in E. destruct (sock_heap s !! a); [|discriminate].
  rewrite gets_bind in E. apply bind_done_inv in E as (x & s1 & E0 & E). rewrite modify_bind in E.
  injection E as _ <-. eapply keeps_trans; [by eapply send_segment_keeps|]. by apply upd_keeps.
Qed.
Lemma tcp_send_synack_keeps a q n s r s' :
  no_loopback s -> tcp_send_synack e disp a q n s = Done (r, s') -> keeps s s'.
Proof.
  intros Hl E. unfold tcp_send_synack in E. rewrite deref_bind in E. destruct (sock_heap s !! a); [|discriminate].
  rewrite gets_bind in E. cbv zeta in E. apply bind_done_inv in E as (x & s1 & E0 & E). rewrite modify_bind in E.
  injection E as _ <-. eapply keeps_trans; [by eapply send_segment_keeps|]. by apply upd_keeps.
Qed.
Lemma wake_all_keeps f s : keeps s (wake_all f s).
Proof. by apply heap_keeps. Qed.
Lemma recv_append_keeps i p n s r s' : recv_socket_append_tcp i p n s = Done (r, s') -> keeps s s'.
Proof.
  unfold recv_socket_append_tcp. rewrite gets_bind. intros E.
  apply bind_done_inv in E as (x & s1 & E0 & E). injection E as _ <-. by eapply ring_write_keeps.
Qed.
Lemma established_packet_keeps si di sp dp p q n s r s' :
  no_loopback s -> handle_tcp_established_packet e disp si di sp dp p q n s = Done (r, s') -> keeps s s'.
Proof.
  intros Hl E. unfold handle_tcp_established_packet in E. rewrite gets_bind in E.
  destruct (find_socket_not_listen _ s) as [id|]; [|by injection E as _ <-].
  rewrite gets_bind, modify_bind in E. set (s0 := upd_sock_at _ _ s) in E.
  assert (K0 : keeps s s0) by by apply upd_keeps.
  apply bind_done_inv in E as (x & s1 & E0 & E). apply bind_done_inv in E as (y & s2 & E1 & E).
  rewrite modify_bind in E. injection E as _ <-.
  assert (K1 : keeps s s1) by (eapply keeps_trans; [exact K0|by eapply recv_append_keeps]).
  eapply keeps_trans; [exact K1|]. eapply keeps_trans; [|apply wake_all_keeps].
  eapply tcp_send_ack_keeps; [by eapply keeps_loopback|exact E1].
Qed.
Lemma receive_ack_keeps i q s r s' : handle_tcp_receive_ack_established i q s = Done (r, s') -> keeps s s'.
Proof.
  unfold handle_tcp_receive_ack_established. rewrite !gets_bind.
  destruct (sock s i); [|by intros [= _ <-]]. case_decide; [by intros [= _ <-]|].
  destruct (negb _); [by intros [= _ <-]|]. destruct (negb _); [by intros [= _ <-]|].
  rewrite !modify_bind. intros [= _ <-]. eapply keeps_trans; [|apply wake_all_keeps]. by apply upd_keeps.
Qed.
Lemma push_backlog_keeps i l s r s' : push_backlog e i l s = Done (r, s') -> keeps s s'.
Proof.
  unfold push_backlog. rewrite gets_bind, modify_bind. intros E. apply ring_write_keeps in E.
  eapply keeps_trans; [|exact E]. by apply heap_keeps.
Qed.
Lemma probe_same {A} (f : Z -> net -> option A) n : forall i s s' u,
  for_m n i (fun i => _ ← (gets (f i) ≫= deref); mret tt) s = Done (u, s') -> s' = s.
Proof.
  induction n as [|n IH]; intros i s s' u E; cbn [for_m] in E; [by injection E as _ <-|].
  apply bind_done_inv in E as (x & s1 & E0 & E). rewrite deref_bind in E0.
  destruct (f i s); [|discriminate]. injection E0 as _ <-. by eapply IH.
Qed.
Lemma mark_deleted_moves id s u s' :
  mark_socket_as_deleted id s = Done (u, s') -> moves (sock_ptr s id) NET_STATE_CLOSE_WAIT s s'.
Proof.
  unfold mark_socket_as_deleted, get_sock. rewrite deref_bind. destruct (sock s id) as [t|]; [|discriminate].
  rewrite gets_bind, modify_bind. cbv zeta. intros E. apply bind_done_inv in E as (x & s1 & E0 & E).
  apply (probe_same (fun i s => thread (nk s) i)) in E0. subst s1.
  assert (s' = upd_sock_at (sock_ptr s id) (upd_tuple (set_state NET_STATE_CLOSE_WAIT)) s) as ->.
  { destruct (negb _); [by injection E as _ <-|]. by apply (probe_same (fun i s => thread (nk s) i)) in E. }
  by apply upd_moves.
Qed.
Lemma resume_listen_keeps id s r s' : resume_first_thread_pending_on_listen id s = Done (r, s') -> keeps s s'.
Proof.
  unfold resume_first_thread_pending_on_listen. rewrite !gets_bind.
  destruct (find_idx _ _ _); [rewrite modify_bind|]; intros [= _ <-]; by apply heap_keeps.
Qed.
Lemma create_tcp_keeps t s r s' :
  machine_ok -> sockets_ok s -> create_socket_tcp e t s = Done (r, s') -> keeps s s'.
Proof.
  intros HM' Hok E. destruct r as [i|].
  - apply create_socket_tcp_inv in E; [|done].
    destruct E as [[_ ->]|(b & k & _ & _ & _ & Hb & H0 & _ & ->)]; [apply keeps_refl|].
    split; [done|]. intros c st Hc. unfold st_of in *. cbn [sock_heap set_sock_heap].
    destruct (decide (c = block_addr b)) as [->|]; [|by rewrite lookup_insert_ne].
    by rewrite (fresh_block s b Hok (H0 b ltac:(lia)) ltac:(lia)) in Hc.
  - unfold create_socket_tcp in E. rewrite gets_bind in E. destruct (find_idx _ _ _); [by injection E as <-|].
    rewrite gets_bind in E. destruct (find_idx _ _ _); [|discriminate].
    apply bind_done_inv in E as (a & s1 & _ & E). rewrite modify_bind in E. cbv zeta in E.
    rewrite modify_bind in E. discriminate.
Qed.
(** The structure reached through the new slot was not there before. *)
Lemma create_tcp_fresh t s r s' x :
  machine_ok -> sockets_ok s -> create_socket_tcp e t s = Done (r, s') ->
  sock s' (default (2 ^ 64 - 1) r) = Some x -> sock_heap s !! sock_ptr s' (default (2 ^ 64 - 1) r) = None.
Proof.
  intros HM' Hok E Hx. destruct r as [i|]; cbn [default id] in *.
  - apply create_socket_tcp_inv in E; [|done].
    destruct E as [[-> ->]|(b & k & _ & _ & _ & Hb & H0 & _ & ->)].
    { rewrite null_sock in Hx; [done|done|unfold MAX_SOCKETS_COUNT; lia]. }
    unfold sock_ptr. cbn [socket_global set_sock_heap set_socket_global]. rewrite lookup_insert_eq. cbn [default id].
    apply fresh_block; [done|apply H0; lia|lia].
  - assert (s' = s) as ->.
    { unfold create_socket_tcp in E. rewrite gets_bind in E. destruct (find_idx _ _ _); [by injection E as <-|].
      rewrite gets_bind in E. destruct (find_idx _ _ _); [|discriminate].
      apply bind_done_inv in E as (a & s1 & _ & E). rewrite modify_bind in E. cbv zeta in E.
      rewrite modify_bind in E. discriminate. }
    rewrite null_sock in Hx; [done|done|unfold MAX_SOCKETS_COUNT; lia].
Qed.
Lemma upd_fresh_keeps s s1 b f : sock_heap s !! b = None -> keeps s s1 -> keeps s (upd_sock_at b f s1).
Proof.
  intros Hb [N H]. split; [done|]. intros c st Hc. specialize (H c st Hc). unfold st_of, upd_sock_at in *.
  cbn [sock_heap set_sock_heap]. destruct (decide (c = b)) as [->|]; [by rewrite Hb in Hc|by rewrite lookup_alter_ne].
Qed.
End CaseLemmas.

(** ** The state machine *)

(** The abstract machine: where a segment with [flags] takes a connection. *)
Definition tcp_next (flags : Z) (st : net_state_t) : net_state_t :=
  match st with
  | NET_STATE_SYN_SENT => if flag flags TCP_SYN && flag flags TCP_ACK then NET_STATE_ESTABLISHED else st
  | NET_STATE_SYN_RECEIVED => if flag flags TCP_ACK then NET_STATE_ESTABLISHED else st
  | NET_STATE_ESTABLISHED => if flag flags TCP_FIN then NET_STATE_CLOSE_WAIT else st
  | NET_STATE_FIN_WAIT_1 =>
      if flag flags TCP_ACK then NET_STATE_FIN_WAIT_2 else if flag flags TCP_FIN then NET_STATE_CLOSING else st
  | NET_STATE_FIN_WAIT_2 => if flag flags TCP_FIN then NET_STATE_TIME_WAIT else st
  | NET_STATE_CLOSING => if flag flags TCP_ACK then NET_STATE_TIME_WAIT else st
  | NET_STATE_LAST_ACK => if flag flags TCP_ACK then NET_STATE_CLOSED else st
  | _ => st
  end.
(** The slot a received segment is for: the connection, else what listens. *)
Definition tcp_target (e : net_env) (buf : Z) (s : net) : option Z :=
  let pkt := cells (net_mem s) buf 54 in
  let ip := ipv4_at pkt 14 in
  let tcp := tcp_at pkt 34 in
  let tmp := tuple (lookup_tuple e (ntohl (ip_src ip)) (ntohl (ip_dst ip)) (ntohs (tcp_src_port tcp)) (ntohs (tcp_dst_port tcp))) in
  match find_socket_not_listen tmp s with Some i => Some i | None => find_socket tmp s end.
Definition segment_flags (buf : Z) (s : net) : Z := tcp_flags (tcp_at (cells (net_mem s) buf 54) 34).

Section Transitions.
Context {M : Machine} (e : net_env) (disp : Z -> list Z -> ST net unit) `{!Quiet disp}.
Context (HM' : machine_ok).

Lemma set_state_moves a st s s' u : set_sock_state a st s = Done (u, s') -> moves a st s s'.
Proof. intros [= _ <-]. by apply upd_moves. Qed.
Lemma flag_when {A} (b : bool) (c : ST net unit) (k : unit -> ST net A) s :
  (when b c ≫= k) s = if b then (c ≫= k) s else k tt s.
Proof. by destruct b. Qed.

Lemma case_listen_keeps seq flags tmp s r s' :
  no_loopback s -> sockets_ok s -> case_listen e disp seq flags tmp s = Done (r, s') -> keeps s s'.
Proof.
  intros Hl Hok E. unfold case_listen in E. destruct (flag flags TCP_SYN); [|by injection E as _ <-].
  rewrite gets_bind in E. destruct (find_listen _ s) as [lid|]; [|by injection E as _ <-].
  rewrite gets_bind in E. destruct (find_socket_not_listen _ s) as [id|].
  - rewrite gets_bind in E. apply bind_done_inv in E as (x & s1 & E0 & E). injection E as _ <-.
    by eapply tcp_send_synack_keeps.
  - apply bind_done_inv in E as (pid & s1 & E0 & E). apply liftk_done in E0 as (k & Ek & ->).
    assert (k = nk s) as ->.
    { unfold get_current_pid in Ek. rewrite gets_bind, deref_bind in Ek. destruct (thread _ _); [|discriminate].
      by injection Ek as _ <-. }
    replace (set_nk (nk s) s) with s in E by by destruct s.
    apply bind_done_inv in E as (new & s1 & E0 & E). apply create_tcp_keeps in E0 as K1; [|done|done].
    apply bind_done_inv in E as (t & s2 & E1 & E). unfold get_sock in E1. rewrite gets_bind in E1.
    destruct (sock s1 _) as [t0|] eqn:Et; [|discriminate]. injection E1 as _ <-. rewrite gets_bind, modify_bind in E.
    apply bind_done_inv in E as (x & s3 & E1 & E). rewrite modify_bind in E. injection E as _ <-.
    eapply create_tcp_fresh in E0; [|done|done|exact Et].
    apply upd_fresh_keeps; [done|]. eapply keeps_trans; [by apply upd_fresh_keeps|].
    eapply tcp_send_synack_keeps; [exact _| |exact E1]. eapply keeps_loopback; [|exact Hl]. by apply upd_fresh_keeps.
Qed.

Lemma case_syn_sent_moves a seq flags s r s' :
  no_loopback s -> st_of s a = Some NET_STATE_SYN_SENT ->
  case_syn_sent e disp a seq flags s = Done (r, s') -> moves a (tcp_next flags NET_STATE_SYN_SENT) s s'.
Proof.
  intros Hl Ha E. unfold case_syn_sent in E. cbn [tcp_next].
  destruct (flag flags TCP_SYN && flag flags TCP_ACK); [|injection E as _ <-; by apply keeps_self].
  rewrite modify_bind in E. set (s0 := upd_sock_at _ _ s) in E. assert (K0 : keeps s s0) by by apply upd_keeps.
  apply bind_done_inv in E as (x & s1 & E0 & E). apply bind_done_inv in E as (y & s2 & E1 & E).
  injection E as _ <-. apply set_state_moves in E1. eapply keeps_moves; [|exact E1].
  eapply keeps_trans; [exact K0|]. eapply tcp_send_ack_keeps; [exact _| |exact E0]. by eapply keeps_loopback.
Qed.
Lemma case_syn_received_moves id flags s r s' :
  st_of s (sock_ptr s id) = Some NET_STATE_SYN_RECEIVED ->
  case_syn_received e id (sock_ptr s id) flags s = Done (r, s') ->
  moves (sock_ptr s id) (tcp_next flags NET_STATE_SYN_RECEIVED) s s'.
Proof.
  intros Ha E. unfold case_syn_received in E. cbn [tcp_next].
  destruct (flag flags TCP_ACK); [|injection E as _ <-; by apply keeps_self].
  rewrite deref_bind in E. destruct (sock_heap s !! _) as [t|]; [|discriminate].
  apply bind_done_inv in E as (p & s1 & E0 & E). apply push_backlog_keeps in E0 as K1.
  assert (P : sock_ptr s1 id = sock_ptr s id).
  { unfold push_backlog in E0. rewrite gets_bind, modify_bind in E0. unfold ring_write in E0. rewrite deref_bind in E0.
    destruct (_ !! _); [|discriminate]. rewrite gets_bind in E0. destruct (fifo_write8 _ _ _ _ _ _ _) as [[m' hd] rs].
    rewrite modify_bind in E0. injection E0 as _ <-. reflexivity. }
  apply bind_done_inv in E as (u & s2 & E1 & E). apply bind_done_inv in E as (u' & s3 & E2 & E).
  apply bind_done_inv in E as (w & s4 & E3 & E). injection E as _ <-.
  apply set_state_moves in E2. apply resume_listen_keeps in E3. eapply moves_keeps; [|exact E3].
  destruct (negb (truth p)); cbn [when] in E1.
  - apply mark_deleted_moves in E1. rewrite P in E1. eapply moves_moves; [|exact E2].
    eapply keeps_moves; [exact K1|exact E1].
  - injection E1 as _ <-. by eapply keeps_moves.
Qed.
Lemma case_established_moves id a seq ack flags si di sp dp p n s r s' :
  no_loopback s -> st_of s a = Some NET_STATE_ESTABLISHED ->
  case_established e disp id a seq ack flags si di sp dp p n s = Done (r, s') ->
  moves a (tcp_next flags NET_STATE_ESTABLISHED) s s'.
Proof.
  intros Hl Ha E. unfold case_established in E.
  apply bind_done_inv in E as (u & s1 & E0 & E).
  assert (M1 : moves a (tcp_next flags NET_STATE_ESTABLISHED) s s1).
  { cbn [tcp_next]. destruct (flag flags TCP_FIN); cbn [when] in E0; [|injection E0 as _ <-; by apply keeps_self].
    rewrite modify_bind in E0. set (s0 := upd_sock_at _ _ s) in E0. assert (K0 : keeps s s0) by by apply upd_keeps.
    apply bind_done_inv in E0 as (x & s2 & E1 & E0). apply set_state_moves in E0. eapply keeps_moves; [|exact E0].
    eapply keeps_trans; [exact K0|]. eapply tcp_send_ack_keeps; [exact _| |exact E1]. by eapply keeps_loopback. }
  assert (L1 : no_loopback s1) by (unfold no_loopback in *; by rewrite (proj1 M1)).
  eapply moves_keeps; [exact M1|]. clear M1 E0.
  apply bind_done_inv in E as (v & s2 & E1 & E).
  assert (K2 : keeps s1 s2).
  { destruct (flag flags TCP_ACK); cbn [when] in E1; [|by injection E1 as _ <-].
    apply bind_done_inv in E1 as (x & s3 & E1 & E2). injection E2 as _ <-. by eapply receive_ack_keeps. }
  eapply keeps_trans; [exact K2|]. destruct (negb _); [|by injection E as _ <-].
  rewrite deref_bind in E. destruct (sock_heap s2 !! a) as [t|]; [|discriminate].
  destruct (_ && _); [by injection E as _ <-|].
  apply bind_done_inv in E as (x & s3 & E & E3). injection E3 as _ <-.
  eapply established_packet_keeps; [exact _| |exact E]. by eapply keeps_loopback.
Qed.
Lemma case_closing_moves a flags st s r s' :
  st_of s a = Some st -> st <> NET_STATE_LISTEN -> st <> NET_STATE_SYN_SENT -> st <> NET_STATE_SYN_RECEIVED ->
  st <> NET_STATE_ESTABLISHED -> case_closing a flags st s = Done (r, s') -> moves a (tcp_next flags st) s s'.
Proof.
  intros Ha N1 N2 N3 N4 E.
  assert (R : forall s1, keeps s1 (upd_sock_at a (set_send_retry_count 0) s1)) by (intros; by apply upd_keeps).
  destruct st; try done; cbn [case_closing tcp_next] in *;
    try (injection E as _ <-; by apply keeps_self).
  all: apply bind_done_inv in E as (u & s1 & E0 & E); try rewrite modify_bind in E; injection E as _ <-.
  all: destruct (flag flags TCP_ACK); try destruct (flag flags TCP_FIN); cbn [when] in E0.
  all: try (apply set_state_moves in E0; first [exact E0|eapply moves_keeps; [exact E0|apply R]]).
  all: injection E0 as _ <-; try (by apply keeps_self); apply keeps_self; done.
Qed.
End Transitions.

(** C3: Every segment that is handled moves exactly the connection it is for, along
    the edge of the abstract machine [tcp_next]; every other socket keeps its
    state.  This covers all eleven states and all flags. *)
Theorem handle_tcp_v4_transition {M : Machine} (e : net_env) (disp : Z -> list Z -> ST net unit) `{!Quiet disp}
    (s s' : net) (buf buf_len : Z) :
  machine_ok -> sockets_ok s -> no_loopback s ->
  handle_tcp_v4 e disp buf buf_len s = Done (tt, s') ->
  forall c t, sock_heap s !! c = Some t ->
  exists t', sock_heap s' !! c = Some t' /\
    state (tuple t') =
      if decide (sock_ptr s <$> tcp_target e buf s = Some c)
      then tcp_next (segment_flags buf s) (state (tuple t)) else state (tuple t).
Proof.
  intros HM' Hok Hl E c t Hc.
  assert (G : match tcp_target e buf s with
              | None => keeps s s'
              | Some i => exists st, st_of s (sock_ptr s i) = Some st /\
                            moves (sock_ptr s i) (tcp_next (segment_flags buf s) st) s s'
              end).
  { unfold handle_tcp_v4 in E. rewrite gets_bind in E. cbv zeta in E. rewrite !gets_bind in E.
    pose proof (eq_refl (tcp_target e buf s)) as T. unfold tcp_target at 2 in T. cbv zeta in T. rewrite <- T in E.
    clear T. destruct (tcp_target e buf s) as [i|]; [|by injection E as <-].
    unfold get_sock in E. rewrite deref_bind in E. destruct (sock s i) as [x|] eqn:Ex; [|discriminate].
    assert (Ha : st_of s (sock_ptr s i) = Some (state (tuple x))) by (unfold st_of; fold (sock s i); by rewrite Ex).
    eexists. split; [exact Ha|]. rewrite gets_bind in E. apply bind_done_inv in E as (go & s1 & E0 & E).
    fold (segment_flags buf s) in E0. set (fl := segment_flags buf s) in *.
    assert (M1 : moves (sock_ptr s i) (tcp_next fl (state (tuple x))) s s1).
    { destruct (state (tuple x)) eqn:Est;
        try (eapply case_closing_moves; [exact Ha| | | | |exact E0]; done).
      - apply keeps_self; [|done]. eapply case_listen_keeps; [exact _|done|done|done|exact E0].
      - eapply case_syn_sent_moves; [exact _|done|done|exact E0].
      - eapply case_syn_received_moves; [done|exact E0].
      - eapply case_established_moves; [exact _|done|done|exact E0]. }
    eapply moves_keeps; [exact M1|]. destruct go; cbn [when] in E; injection E as <-; [by apply upd_keeps|done]. }
  assert (Hst : st_of s c = Some (state (tuple t))) by (unfold st_of; by rewrite Hc).
  assert (K : exists t', sock_heap s' !! c = Some t' /\ st_of s' c = Some (state (tuple t'))).
  { assert (is_Some (st_of s' c)) as [st' Hs'].
    { destruct (tcp_target e buf s); [destruct G as (st & _ & _ & G)|destruct G as [_ G]]; eapply G in Hst; eauto. }
    unfold st_of in *. destruct (sock_heap s' !! c) as [t'|]; [|done]. by exists t'. }
  destruct K as (t' & E' & Es). exists t'. split; [done|].
  destruct (tcp_target e buf s) as [i|]; cbn [fmap option_fmap option_map].
  - destruct G as (st & Hi & _ & G). specialize (G c _ Hst). rewrite Es in G. injection G as ->.
    repeat case_decide; congruence.
  - destruct G as [_ G]. specialize (G c _ Hst). rewrite Es in G. injection G as ->. done.
Qed.

(** ** Data *)

(** The received bytes of the socket at [a] that are not read yet. *)
Definition rx_queue (s : net) (a : Z) (t : net_tuple_tcp) : list Z :=
  byte_queue (net_mem s) (a + sizeof_net_tuple_tcp) tcp_ring_size (tail (tuple t)) (head (tuple t)).
(** Ring indices in range. *)
Definition ring_ok (cnt : Z) (t : net_tuple_tcp) : Prop :=
  0 <= tail (tuple t) < cnt /\ 0 <= head (tuple t) < cnt.

Section RingOps.
Lemma sock_heap_upd a f s c :
  sock_heap (upd_sock_at a f s) !! c = if decide (c = a) then f <$> sock_heap s !! c else sock_heap s !! c.
Proof.
  unfold upd_sock_at. cbn [sock_heap set_sock_heap].
  case_decide as D; [subst; by rewrite lookup_alter_eq|by rewrite lookup_alter_ne].
Qed.
Lemma ring_write_run a off cnt len inp s t :
  sock_heap s !! a = Some t -> 0 < cnt < 2 ^ 64 -> ring_ok cnt t -> 0 <= len < 2 ^ 64 ->
  (a + off + cnt <= inp \/ inp + len <= a + off) ->
  exists m' hd k,
    ring_write a off cnt len inp s = Done (Z.of_nat k, upd_sock_at a (upd_tuple (set_head hd)) (set_net_mem m' s)) /\
    0 <= hd < cnt /\
    Z.of_nat k = Z.min len (cnt - 1 - Z.of_nat (length (byte_queue (net_mem s) (a + off) cnt (tail (tuple t)) (head (tuple t))))) /\
    byte_queue m' (a + off) cnt (tail (tuple t)) hd =
      byte_queue (net_mem s) (a + off) cnt (tail (tuple t)) (head (tuple t)) ++ cells (net_mem s) inp k /\
    (forall x, ~ (a + off <= x < a + off + cnt) -> ld m' x = ld (net_mem s) x).
Proof.
  intros Ht Hc [Hr1 Hr2] Hl Hd. unfold ring_write. rewrite deref_bind, Ht, gets_bind.
  destruct (fifo_write8_queue (a + off) cnt Hc (net_mem s) (tail (tuple t)) (head (tuple t)) len inp)
    as (m' & hd & k & E & Hk & Hh & Hq & Hf); try done.
  exists m', hd, k. rewrite E. done.
Qed.
Lemma ring_read_run a off cnt len out s t :
  sock_heap s !! a = Some t -> 0 < cnt < 2 ^ 64 -> ring_ok cnt t -> 0 <= len < 2 ^ 64 ->
  (a + off + cnt <= out \/ out + len <= a + off) ->
  exists m' tl k,
    ring_read a off cnt len out s = Done (Z.of_nat k, upd_sock_at a (upd_tuple (set_tail tl)) (set_net_mem m' s)) /\
    0 <= tl < cnt /\
    Z.of_nat k = Z.min len (Z.of_nat (length (byte_queue (net_mem s) (a + off) cnt (tail (tuple t)) (head (tuple t))))) /\
    byte_queue (net_mem s) (a + off) cnt (tail (tuple t)) (head (tuple t)) =
      cells m' out k ++ byte_queue m' (a + off) cnt tl (head (tuple t)) /\
    (forall x, ~ (out <= x < out + len) -> ld m' x = ld (net_mem s) x).
Proof.
  intros Ht Hc [Hr1 Hr2] Hl Hd. unfold ring_read. rewrite deref_bind, Ht, gets_bind.
  destruct (fifo_read8_queue (a + off) cnt Hc (net_mem s) (tail (tuple t)) (head (tuple t)) len out)
    as (m' & tl & k & E & Hk & Hh & Hq & Hf); try done.
  exists m', tl, k. rewrite E. done.
Qed.
End RingOps.

(** C10: A data segment of a known connection: the bytes that fit are appended to
    the receive queue in order, the threads that wait for data are made ready,
    and the next sequence number expected grows by the whole length, so that
    the acknowledgement also covers bytes that did not fit and are lost. *)
Theorem tcp_receive_appends {M : Machine} (e : net_env) (disp : Z -> list Z -> ST net unit) `{!Quiet disp}
    (s s' : net) (si di sp dp payload seq n id : Z) (t : net_tuple_tcp) (r : bool) :
  no_loopback s ->
  find_socket_not_listen (tuple (lookup_tuple e si di sp dp)) s = Some id -> sock s id = Some t ->
  ring_ok tcp_ring_size t -> 0 <= n < 65536 ->
  (let a := sock_ptr s id in a + 4096 * SOCKET_BLOCK_COUNT <= payload \/ payload + n <= a + sizeof_net_tuple_tcp) ->
  handle_tcp_established_packet e disp si di sp dp payload seq n s = Done (r, s') ->
  let a := sock_ptr s id in
  let room := tcp_ring_size - 1 - Z.of_nat (length (rx_queue s a t)) in
  exists t', sock_heap s' !! a = Some t' /\
    rx_queue s' a t' = rx_queue s a t ++ take (Z.to_nat room) (cells (net_mem s) payload (Z.to_nat n)) /\
    seq_remote t' = u64 (seq_remote t + n) /\ seq_local t' = u64 (seq_local t) /\
    state (tuple t') = state (tuple t) /\ ring_ok tcp_ring_size t' /\
    (forall i x, thread (nk s) i = Some x -> 0 <= i < MAX_THREADS_COUNT ->
       t_state x = THREAD_BLOCKED_NETWORK -> t_sleep_flag_addr x = recv_wait_flag_addr a ->
       thread (nk s') i = Some (set_t_state THREAD_READY x)).
Proof.
  intros Hl Hf Hs Hr Hn Hd E a room. unfold handle_tcp_established_packet in E. rewrite gets_bind, Hf in E.
  rewrite gets_bind, modify_bind in E. fold a in E, Hd.
  assert (Ha : sock_heap s !! a = Some t) by exact Hs.
  set (s0 := upd_sock_at a _ s) in E.
  assert (H0 : sock_heap s0 !! a = Some (set_seq_remote (u64 (seq_remote t + n)) t)).
  { unfold s0. by rewrite sock_heap_upd, decide_True, Ha by done. }
  apply bind_done_inv in E as (x & s1 & E0 & E). unfold recv_socket_append_tcp in E0. rewrite gets_bind in E0.
  change (sock_ptr s0 id) with a in E0. apply bind_done_inv in E0 as (rs & s1' & E0 & E1). injection E1 as _ <-.
  destruct (ring_write_run a sizeof_net_tuple_tcp tcp_ring_size n payload s0 _ H0) as (m' & hd & k & Ew & Hhd & Hk & Hq & _);
    [done|exact Hr|lia|cbv zeta in Hd; unfold tcp_ring_size; lia|]. rewrite Ew in E0. injection E0 as <- <-.
  apply bind_done_inv in E as (y & s2 & E2 & E). rewrite modify_bind in E. injection E as _ <-.
  unfold tcp_send_ack in E2. rewrite deref_bind, sock_heap_upd, decide_True in E2 by done.
  cbn [sock_heap set_net_mem] in E2. rewrite H0 in E2. cbn [fmap option_fmap option_map] in E2. rewrite gets_bind in E2.
  apply bind_done_inv in E2 as (z & s3 & E2 & E3). rewrite modify_bind in E3. injection E3 as _ <-.
  unfold send_segment in E2. cbv zeta in E2. apply nic_send_ipv4_only in E2 as (c & i & ->); [|exact _|exact Hl].
  eexists. split.
  { cbn [sock_heap wake_all set_nk]. rewrite sock_heap_upd, decide_True by done. cbn [sock_heap set_card set_ip_ident].
    rewrite sock_heap_upd, decide_True by done. cbn [sock_heap set_net_mem]. rewrite H0. reflexivity. }
  assert (Hk' : (k <= Z.to_nat n)%nat) by lia.
  split; [|split; [reflexivity|split; [cbn; by rewrite Z.add_0_r|split; [reflexivity|split]]]].
  - unfold rx_queue. cbn [tuple tail head upd_tuple set_tuple set_last_updated set_head set_seq_local set_seq_remote].
    cbn [tuple tail head set_seq_remote] in Hk, Hq. change (net_mem s0) with (net_mem s) in *.
    change (net_mem (wake_all _ _)) with m'. rewrite Hq. f_equal. rewrite (cells_take _ _ (Z.to_nat n)) by done.
    fold (rx_queue s a t) in Hk. fold room in Hk. change (tcp_ring_size - 1 - _) with room in Hk.
    destruct (Z.le_gt_cases n room).
    + rewrite !take_ge; [done| |]; rewrite length_cells; lia.
    + f_equal. lia.
  - split; [exact (proj1 Hr)|exact Hhd].
  - intros j w Hw Hj Hb Hfl. cbn [nk wake_all set_nk]. rewrite thread_map_threads.
    change (thread (nk _) j) with (thread (nk s) j). rewrite Hw. cbn.
    destruct (Z.leb_spec 0 j), (Z.ltb_spec j MAX_THREADS_COUNT); try lia. cbn. unfold wake_on.
    by rewrite bool_decide_true by done.
Qed.

(** An acknowledgement releases the connection's one outstanding segment only
    when it names exactly its end: then the local sequence number advances by
    its length, the block is lifted and the waiting senders are made ready;
    any other acknowledgement changes nothing. *)
Theorem tcp_ack_exact (s : net) (id ack_seq : Z) (t : net_tuple_tcp) :
  sock s id = Some t -> 
  let a := sock_ptr s id in
  let exact := bool_decide (state (tuple t) = NET_STATE_ESTABLISHED) && ack_est_blocked t
               && (u64 (seq_local t + send_payload_len t) =? ack_seq) in
  exists s', handle_tcp_receive_ack_established id ack_seq s = Done (exact, s') /\
    sock_heap s' !! a = Some (if exact then set_ack_est_blocked false (set_seq_local ack_seq t) else t) /\
    (forall c, c <> a -> sock_heap s' !! c = sock_heap s !! c) /\
    (forall i x, thread (nk s) i = Some x -> 0 <= i < MAX_THREADS_COUNT ->
       thread (nk s') i = Some (if exact then wake_on (send_wait_flag_addr a) x else x)).
Proof.
  intros Hs a exact. unfold handle_tcp_receive_ack_established. rewrite !gets_bind, Hs. fold a. subst exact.
  assert (Ha : sock_heap s !! a = Some t) by exact Hs.
  case_decide as Dst; [rewrite bool_decide_false by done; cbn [andb]; by exists s|].
  rewrite bool_decide_true by done. destruct (ack_est_blocked t); cbn [negb andb]; [|by exists s].
  destruct (Z.eqb_spec (u64 (seq_local t + send_payload_len t)) ack_seq) as [Eq|]; cbn [negb]; [|by exists s].
  rewrite !modify_bind. eexists. split; [reflexivity|]. cbn [sock_heap wake_all set_nk nk].
  split; [by rewrite sock_heap_upd, decide_True, Ha, <- Eq by done|].
  split; [intros c Hc; by rewrite sock_heap_upd, decide_False by done|].
  intros i x Hx Hi. rewrite thread_map_threads. change (thread (nk _) i) with (thread (nk s) i). rewrite Hx. cbn [fmap option_fmap option_map].
  by destruct (Z.leb_spec 0 i), (Z.ltb_spec i MAX_THREADS_COUNT); try lia.
Qed.

(** Closing is inverted: when the FIN was handed to the card, [tcp_send_fin]
    answers false and the connection stays in its state with its sequence
    number; it moves on only when the FIN could not be sent. *)
Theorem tcp_send_fin_inverted (e : net_env) (disp : Z -> list Z -> ST net unit) (s s1 : net) (id r : Z) (t : net_tuple_tcp) :
  sock s id = Some t -> version (tuple t) <> 0 -> state (tuple t) = NET_STATE_ESTABLISHED ->
  send_segment e disp t (seq_local t) (seq_remote t) (Z.lor TCP_FIN TCP_ACK) [] s = Done (r, s1) ->
  sent_only s s1 ->
  exists s', tcp_send_fin e disp id s = Done (negb (r =? 0), s') /\
    st_of s' (sock_ptr s id) = Some (if r =? 0 then NET_STATE_ESTABLISHED else NET_STATE_FIN_WAIT_1).
Proof.
  intros Hs Hv Hst E (c & i & ->). unfold tcp_send_fin. rewrite !gets_bind, Hs.
  assert (Ha : sock_heap s !! sock_ptr s id = Some t) by exact Hs.
  destruct (Z.eqb_spec (version (tuple t)) 0); [done|]. rewrite decide_False by (rewrite Hst; tauto).
  rewrite (bind_done _ _ _ _ _ E). unfold truth. destruct (Z.eqb_spec r 0); cbn [negb].
  - eexists. split; [reflexivity|]. unfold st_of. cbn [sock_heap set_card set_ip_ident]. rewrite Ha. cbn. by rewrite Hst.
  - rewrite modify_bind. eexists. split; [reflexivity|]. unfold st_of. rewrite sock_heap_upd, decide_True by done.
    cbn [sock_heap set_card set_ip_ident]. rewrite Ha. cbn. by rewrite Hst.
Qed.

(** A connection put into an empty backlog is the one taken out of it. *)
Theorem backlog_roundtrip (e : net_env) (s : net) (child lid pos : Z) (t : net_tuple_tcp) :
  sock s lid = Some t -> 0 <= child < 2 ^ 64 -> 0 <= pos < backlog_ring_size ->
  tail (tuple t) = pos -> head (tuple t) = pos ->
  (let a := sock_ptr s lid in
   a + sizeof_net_tuple_tcp + backlog_ring_size <= stack_buf e \/ stack_buf e + 8 <= a + sizeof_net_tuple_tcp) ->
  exists s1 s2, push_backlog e child lid s = Done (8, s1) /\ pull_backlog e lid s1 = Done (child, s2) /\
    (exists t2, sock s2 lid = Some t2 /\ tail (tuple t2) = head (tuple t2)).
Proof.
  intros Hs Hc Hp Ht Hh Hd. cbv zeta in Hd. set (a := sock_ptr s lid) in *.
  assert (Ha : sock_heap s !! a = Some t) by exact Hs.
  assert (Hr : ring_ok backlog_ring_size t) by (split; lia).
  unfold push_backlog. rewrite gets_bind, modify_bind. fold a.
  set (s0 := set_net_mem _ s).
  destruct (ring_write_run a sizeof_net_tuple_tcp backlog_ring_size 8 (stack_buf e) s0 t Ha)
    as (m1 & hd & k & E1 & Hhd & Hk & Hq & Hfr); [done|done|lia|done|].
  assert (Q0 : byte_queue (net_mem s0) (a + sizeof_net_tuple_tcp) backlog_ring_size (tail (tuple t)) (head (tuple t)) = []).
  { unfold byte_queue. rewrite Ht, Hh, ring_nil by done. done. }
  rewrite Q0 in Hk, Hq. cbn [length app] in *. change (backlog_ring_size - 1 - Z.of_nat 0) with 24415 in Hk.
  assert (k = 8%nat) as -> by lia. eexists _. rewrite E1.
  set (s1 := upd_sock_at a _ _). unfold pull_backlog.
  assert (H1 : sock_heap s1 !! a = Some (upd_tuple (set_head hd) t)).
  { unfold s1. rewrite sock_heap_upd, decide_True by done. cbn [sock_heap set_net_mem s0]. by rewrite Ha. }
  set (s1' := set_net_mem (st_le 8 (net_mem s1) (stack_buf e) (2 ^ 64 - 1)) s1).
  assert (Q1 : byte_queue (net_mem s1') (a + sizeof_net_tuple_tcp) backlog_ring_size (tail (tuple t)) hd =
               cells (net_mem s0) (stack_buf e) 8).
  { rewrite <- Hq. unfold byte_queue. f_equal. apply ring_frame; [done|done|lia|].
    intros x Hx. cbn [net_mem s1' set_net_mem]. rewrite st_le_ld. change (net_mem s1) with m1.
    destruct (Z.leb_spec (stack_buf e) x), (Z.ltb_spec x (stack_buf e + Z.of_nat 8)); cbn [andb]; try done. exfalso. lia. }
  destruct (ring_read_run a sizeof_net_tuple_tcp backlog_ring_size 8 (stack_buf e) s1' (upd_tuple (set_head hd) t) H1)
    as (m2 & tl & k & E2 & Htl & Hk2 & Hq2 & _); [done|split; cbn; lia|lia|done|].
  cbn [tuple upd_tuple set_tuple tail head set_head] in Hk2, Hq2. rewrite Q1 in Hk2, Hq2. rewrite length_cells in Hk2.
  assert (k = 8%nat) as -> by lia.
  apply (f_equal length) in Hq2 as HL. rewrite length_app, !length_cells in HL.
  assert (Q2 : byte_queue m2 (a + sizeof_net_tuple_tcp) backlog_ring_size tl hd = []) by (apply length_zero_iff_nil; lia).
  rewrite Q2, app_nil_r in Hq2. eexists. split; [reflexivity|].
  rewrite gets_bind, modify_bind. change (sock_ptr s1 lid) with a. fold s1'.
  rewrite (bind_done _ _ _ _ _ E2). change (truth (Z.of_nat 8)) with true. cbn iota. split.
  - unfold gets. change (net_mem (upd_sock_at _ _ (set_net_mem m2 s1'))) with m2.
    rewrite <- (ld_le_cells 8 _ _ _ _ Hq2). cbn [net_mem s0 set_net_mem]. rewrite ld_le_st_le by (change (256 ^ Z.of_nat 8) with (2 ^ 64); lia).
    reflexivity.
  - eexists. split.
    { unfold sock. change (sock_ptr _ lid) with a. rewrite sock_heap_upd, decide_True by done.
      change (sock_heap (set_net_mem m2 s1')) with (sock_heap s1). rewrite H1. reflexivity. }
    cbn [fmap tuple upd_tuple set_tuple tail head set_head set_tail].
    pose proof (length_byte_queue (a + sizeof_net_tuple_tcp) backlog_ring_size m2 tl hd) as HQ. rewrite Q2 in HQ.
    pose proof (ring_len_range tl hd backlog_ring_size ltac:(done)).
    apply (ring_len_empty tl hd backlog_ring_size); [done|done|done|]. cbn in HQ. lia.
Qed.

(** ** The largest segment *)

(** The state a lookup depends on. *)
Definition same_links (s s' : net) : Prop :=
  nic_global s' = nic_global s /\ mac_cache_v4 s' = mac_cache_v4 s /\ route_table_v4 s' = route_table_v4 s /\ card s' = card s.

Section Links.
Context (e : net_env) (disp : Z -> list Z -> ST net unit).

Lemma find_mac_l2_ext ip nic s s' mac :
  same_links s s' -> find_mac_of_ipv4_l2 e disp ip nic s = Done (Some mac, s) ->
  find_mac_of_ipv4_l2 e disp ip nic s' = Done (Some mac, s').
Proof.
  intros (_ & Em & _) H. unfold find_mac_of_ipv4_l2 in *. rewrite gets_bind in *. unfold mac_at in *. rewrite Em.
  destruct (find_idx _ _ _) as [i|].
  - rewrite gets_bind in *. rewrite Em. injection H as H. by rewrite H.
  - apply bind_done_inv in H as (u & s1 & _ & H). discriminate.
Qed.
Lemma resolved_ext s s' dst nic mac :
  same_links s s' -> resolved e disp s dst nic mac -> resolved e disp s' dst nic mac.
Proof.
  intros Hs [H Hm]. split; [|done]. pose proof Hs as (En & _ & Er & _). unfold find_mac_of_ipv4, get_nic in *.
  rewrite deref_bind in *. rewrite En. destruct (nic_global s !! nic) as [n|]; [|discriminate].
  destruct (in_l2 _ _ _); [by eapply find_mac_l2_ext|]. unfold find_mac_of_ipv4_l3 in *. rewrite gets_bind in *.
  assert (E1 : find_route dst s' = find_route dst s) by (apply route_scan_ext; intros j; unfold route_at; by rewrite Er).
  rewrite E1. destruct (find_route dst s); rewrite gets_bind in *.
  - unfold route_at in *. rewrite Er. by eapply find_mac_l2_ext.
  - unfold find_first_gateway in *. rewrite En. destruct (_ =? 0); [discriminate|]. by eapply find_mac_l2_ext.
Qed.
Lemma find_nic_ext ip s s' : same_links s s' -> find_nic_id_by_ipv4 ip s' = find_nic_id_by_ipv4 ip s.
Proof. intros (En & _). unfold find_nic_id_by_ipv4. by rewrite En. Qed.
End Links.

Lemma bind_fault {S A B : Type} (c : ST S A) (k : A -> ST S B) s : c s = Faulted -> (c ≫= k) s = Faulted.
Proof. unfold mbind, st_bind. by intros ->. Qed.
(** The frame of a data segment: Ethernet, IPv4 and TCP header (flags ACK, and PSH
    with a payload) and the payload. *)
Definition segment_frame (ident : Z) (t : net_tuple_tcp) (nic : nic_t) (mac payload : list Z) : list Z :=
  let u := tuple t in
  let n := Z.of_nat (length payload) in
  eth_bytes (EthHdr mac (nic_mac nic) (htons 0x0800)) ++
  ipv4_bytes (sent_ipv4_hdr ident (u32 (local_ip_l u)) (u32 (remote_ip_l u)) TCP (20 + (20 + n))) ++
  tcp_segment (local_port u) (remote_port u) (seq_local t) (seq_remote t) (if n =? 0 then 0x10 else 0x18)
    (local_ip_l u) (remote_ip_l u) payload ++ payload.
(** The pending segment of a connection whose peer is resolved. *)
Lemma tcp_send_established_run e disp s id t nic_id nic mac :
  sock s id = Some t -> find_nic_id_by_ipv4 (u32 (local_ip_l (tuple t))) s = Some nic_id ->
  nic_global s !! nic_id = Some nic -> resolved e disp s (u32 (remote_ip_l (tuple t))) nic_id mac ->
  tx_free s = true -> 0 <= send_payload_len t ->
  let p := cells (net_mem s) (sock_ptr s id + 4096 * SOCKET_BLOCK_COUNT) (Z.to_nat (send_payload_len t)) in
  tcp_send_established e disp id s =
    if 1460 <? send_payload_len t then Faulted
    else Done (tt, transmitted (segment_frame (ip_ident s) t nic mac p) (set_ip_ident (u64 (ip_ident s + 1))
                     (upd_sock_at (sock_ptr s id) (upd_tuple (set_last_updated (now e))) s))).
Proof.
  intros Hs Hid Hn Hr Htx Hl p. unfold tcp_send_established, get_sock. rewrite deref_bind, Hs, gets_bind.
  set (s2 := upd_sock_at _ _ s).
  set (u := tuple t).
  set (l4 := tcp_segment (local_port u) (remote_port u) (seq_local t) (seq_remote t)
               (if send_payload_len t =? 0 then 0x10 else 0x18) (local_ip_l u) (remote_ip_l u) p).
  pose proof (nic_send_ipv4_run e disp s2 (u32 (local_ip_l u)) (u32 (remote_ip_l u)) TCP l4 p nic_id nic mac) as R.
  assert (L : same_links s s2) by done. cbv zeta in R. unfold p at 2 3 in R.
  rewrite length_cells, Z2Nat.id in R by done. change (Z.of_nat (length l4)) with 20 in R.
  change (tx_free s2) with (tx_free s) in R. rewrite Htx in R.
  assert (EF : segment_frame (ip_ident s) t nic mac p = eth_bytes (EthHdr mac (nic_mac nic) (htons 0x0800)) ++
    ipv4_bytes (sent_ipv4_hdr (ip_ident s2) (u32 (local_ip_l u)) (u32 (remote_ip_l u)) TCP (20 + (20 + send_payload_len t))) ++ l4 ++ p).
  { unfold segment_frame, l4. assert (Z.of_nat (length p) = send_payload_len t) as -> by (unfold p; rewrite length_cells; lia). done. }
  rewrite EF. clear EF. destruct (Z.ltb_spec 1460 (send_payload_len t)), (Z.ltb_spec 1480 (20 + send_payload_len t)); try lia.
  - apply bind_fault. unfold nic_send_tcp_package, get_sock. rewrite deref_bind, Hs, !gets_bind, modify_bind.
    apply bind_fault. apply R; [by rewrite (find_nic_ext _ s)|done|by eapply resolved_ext].
  - erewrite bind_done; [reflexivity|]. unfold nic_send_tcp_package, get_sock.
    rewrite deref_bind, Hs, !gets_bind, modify_bind. erewrite bind_done; [reflexivity|].
    apply R; [by rewrite (find_nic_ext _ s)|done|by eapply resolved_ext].
Qed.

(** C28: A write on an idle established connection to a resolved address, with a
    free transmit descriptor: up to 1460 bytes go out as one segment.  The next
    buffer of the transmit ring holds one frame, the headers of the connection
    with its sequence numbers in front of the bytes written, its descriptor has
    the length of the frame and the tail of the ring moves on by one.  The bytes
    are also kept behind the socket for retransmission, and the sender is blocked
    until they are acknowledged.  [TCP_MTU] admits up to 1500 bytes, but with the
    headers more than 1460 do not fit the 1514-byte packet buffer, and the copy
    runs past its end. *)
Theorem tcp_send_payload_bounds (e : net_env) (disp : Z -> list Z -> ST net unit) (s : net)
    (id p n nic_id : Z) (t : net_tuple_tcp) (nic : nic_t) (mac : list Z) :
  sock s id = Some t -> state (tuple t) = NET_STATE_ESTABLISHED ->
  find_nic_id_by_ipv4 (u32 (local_ip_l (tuple t))) s = Some nic_id -> nic_global s !! nic_id = Some nic ->
  resolved e disp s (u32 (remote_ip_l (tuple t))) nic_id mac -> tx_free s = true -> 0 <= n ->
  let a := sock_ptr s id in
  let data := cells (net_mem s) p (Z.to_nat n) in
  let frame := segment_frame (ip_ident s) t nic mac data in
  (a + 4096 * SOCKET_BLOCK_COUNT <= p \/ p + n <= a + 4096 * SOCKET_BLOCK_COUNT) ->
  if n <=? 1460 then
    exists s' t', tcp_send_payload e disp id p n s = Done (n, s') /\ sock s' id = Some t' /\
      ack_est_blocked t' = true /\ send_payload_len t' = n /\ send_retry_count t' = 1 /\
      seq_local t' = seq_local t /\ state (tuple t') = NET_STATE_ESTABLISHED /\
      cells (net_mem s') (a + 4096 * SOCKET_BLOCK_COUNT) (Z.to_nat n) = data /\
      cells (tx_buffers (card s')) (tx_tail (card s) * 2048) (length frame) = frame /\
      d_length <$> tx_ring (card s') !! tx_tail (card s) = Some (u16 (Z.of_nat (length frame))) /\
      tx_tail (card s') = (tx_tail (card s) + 1) mod NUM_TX_DESC /\
      regs (card s') !! E1000_TDT = Some (tx_tail (card s'))
  else tcp_send_payload e disp id p n s = Faulted.
Proof.
  intros Hs Hst Hid Hn Hr Htx Hn0 a data frame Hd. assert (Ha : sock_heap s !! a = Some t) by exact Hs.
  unfold tcp_send_payload, get_sock. rewrite deref_bind, Hs, gets_bind. fold a. rewrite decide_False by (rewrite Hst; tauto).
  set (len := if TCP_MTU <? n then TCP_MTU else n).
  assert (Hlen : 0 <= len <= 1500 /\ (n <= 1460 -> len = n) /\ (1460 < n -> 1460 < len)).
  { subst len. unfold TCP_MTU. destruct (Z.ltb_spec 1500 n); lia. }
  rewrite !modify_bind. set (m1 := memcpy _ _ _ _). set (s1 := set_net_mem m1 _).
  set (t1 := set_send_payload_len (u16 len) (set_ack_est_blocked true (set_send_retry_count 1 t))).
  assert (H1 : sock_heap s1 !! a = Some t1).
  { unfold s1. cbn [sock_heap set_net_mem]. by rewrite sock_heap_upd, decide_True, Ha by done. }
  pose proof (tcp_send_established_run e disp s1 id t1 nic_id nic mac) as R. cbv zeta in R.
  specialize (R H1 ltac:(by rewrite (find_nic_ext _ s)) Hn ltac:(by apply (resolved_ext e disp s)) Htx (proj1 (u16_range _))).
  change (send_payload_len t1) with (u16 len) in R. rewrite u16_id in R by lia.
  destruct (Z.leb_spec n 1460), (Z.ltb_spec 1460 len); try lia; [|by apply bind_fault].
  rewrite (bind_done _ _ _ _ _ R).
  assert (Hm : cells m1 (a + 4096 * SOCKET_BLOCK_COUNT) (Z.to_nat n) = data).
  { unfold m1, data. replace len with n by lia. change (net_mem (upd_sock_at _ _ s)) with (net_mem s). apply cells_memcpy; lia. }
  assert (EF : segment_frame (ip_ident s1) t1 nic mac (cells (net_mem s1) (sock_ptr s1 id + 4096 * SOCKET_BLOCK_COUNT) (Z.to_nat len)) = frame).
  { change (net_mem s1) with m1. change (sock_ptr s1 id) with a. replace len with n by lia. by rewrite Hm. }
  rewrite EF. clear EF R.
  eexists _, _. split; [|split; [|split; [|split; [|split; [|split; [|split; [|split; [|split; [|split; [|split]]]]]]]]]].
  - replace len with n by lia. reflexivity.
  - unfold sock. change (sock_ptr _ id) with a. change (sock_heap (transmitted _ _)) with (sock_heap (upd_sock_at a (upd_tuple (set_last_updated (now e))) s1)).
    rewrite sock_heap_upd, decide_True, H1 by done. reflexivity.
  - done.
  - cbn. rewrite u16_id by lia. lia.
  - done.
  - done.
  - exact Hst.
  - exact Hm.
  - apply cells_store.
  - unfold transmitted. cbn [card set_card tx_ring]. by rewrite lookup_insert_eq.
  - done.
  - unfold transmitted. cbn [card set_card regs tx_tail]. by rewrite lookup_insert_eq.
Qed.

(** ** Echo *)
Lemma split38 (l : list Z) : (38 <= length l)%nat ->
  exists a0 a1 a2 a3 a4 a5 b0 b1 b2 b3 b4 b5 m1 s0 s1 s2 s3 d0 d1 d2 d3 ty code c0 c1 rest,
    l = [a0; a1; a2; a3; a4; a5; b0; b1; b2; b3; b4; b5] ++ m1 ++ [s0; s1; s2; s3; d0; d1; d2; d3; ty; code; c0; c1] ++ rest
    /\ length m1 = 14%nat.
Proof.
  intros H. rewrite <- (take_drop 12 l), <- (take_drop 14 (drop 12 l)), <- (take_drop 12 (drop 14 (drop 12 l))).
  assert (H1 : length (take 12 l) = 12%nat) by (rewrite length_take; lia).
  assert (H2 : length (take 14 (drop 12 l)) = 14%nat) by (rewrite length_take, length_drop; lia).
  assert (H3 : length (take 12 (drop 14 (drop 12 l))) = 12%nat) by (rewrite length_take, !length_drop; lia).
  destruct (take 12 l) as [|a0 [|a1 [|a2 [|a3 [|a4 [|a5 [|b0 [|b1 [|b2 [|b3 [|b4 [|b5 [|]]]]]]]]]]]]]; try discriminate.
  destruct (take 12 (drop 14 (drop 12 l))) as [|s0 [|s1 [|s2 [|s3 [|d0 [|d1 [|d2 [|d3 [|ty [|code [|c0 [|c1 [|]]]]]]]]]]]]]; try discriminate.
  repeat eexists. exact H2.
Qed.

(** The answer to an echo request: hardware and network addresses exchanged,
    type 0, identifier, sequence number and data as received, and an ICMP
    checksum that verifies. *)
Theorem echo_reply_answers (req : list Z) (n : Z) :
  bytes req -> length req = 2048%nat -> 42 <= n <= 2048 ->
  let r := echo_reply req n in
  length r = Z.to_nat n /\
  eth_at r 0 = EthHdr (eth_src (eth_at req 0)) (eth_dst (eth_at req 0)) (eth_type (eth_at req 0)) /\
  ip_src (ipv4_at r 14) = ip_dst (ipv4_at req 14) /\ ip_dst (ipv4_at r 14) = ip_src (ipv4_at req 14) /\
  icmp_type (icmp_at r 34) = 0 /\
  drop 38 r = drop 38 (take (Z.to_nat n) req) /\
  network_checksum (drop 34 r) = 0.
Proof.
  intros Hb Hl Hn. destruct (split38 req) as (a0 & a1 & a2 & a3 & a4 & a5 & b0 & b1 & b2 & b3 & b4 & b5 & m1 & s0 & s1
    & s2 & s3 & d0 & d1 & d2 & d3 & ty & code & c0 & c1 & rest & -> & Hm); [lia|].
  repeat (destruct m1 as [|? m1]; [discriminate|]). destruct m1; [|discriminate]. clear Hm.
  set (k := Z.to_nat (n - 38)). assert (Hk : Z.to_nat n = (38 + k)%nat) by lia.
  set (icmp := 0 :: code :: 0 :: 0 :: take k rest).
  assert (Hi : bytes icmp /\ Z.of_nat (length icmp) <= 2048 /\ (4 <= length icmp)%nat).
  { unfold icmp. cbn [app] in *. repeat (apply list.Forall_cons in Hb as [? Hb]).
    split; [repeat (constructor; [lia|]); by apply Forall_take|]. cbn [length] in *. rewrite length_take. lia. }
  destruct Hi as (Hi & Hil & Hi4). set (c := network_checksum icmp).
  assert (V : network_checksum (put icmp 2 (le_bytes16 c)) = 0).
  { apply network_checksum_verifies; try done; try lia. }
  assert (R : echo_reply ([a0; a1; a2; a3; a4; a5; b0; b1; b2; b3; b4; b5] ++ [z; z0; z1; z2; z3; z4; z5; z6; z7; z8; z9; z10; z11; z12]
       ++ [s0; s1; s2; s3; d0; d1; d2; d3; ty; code; c0; c1] ++ rest) n
    = [b0; b1; b2; b3; b4; b5; a0; a1; a2; a3; a4; a5] ++ [z; z0; z1; z2; z3; z4; z5; z6; z7; z8; z9; z10; z11; z12]
       ++ [d0; d1; d2; d3; s0; s1; s2; s3; 0; code] ++ le_bytes16 c ++ take k rest).
  { unfold echo_reply. rewrite Hk. assert (Hk4 : Z.to_nat (n - 34) = (4 + k)%nat) by lia.
    unfold slice, put. rewrite Hk4. cbn. reflexivity. }
  cbv zeta. rewrite R. clear R. rewrite Hk.
  split; [cbn; rewrite length_take; cbn in Hl; lia|].
  split; [reflexivity|]. split; [reflexivity|]. split; [reflexivity|]. split; [reflexivity|].
  split; [reflexivity|]. exact V.
Qed.

(** *** Witnesses *)
#[local] Existing Instance small_machine.
Definition demo_disp : Z -> list Z -> ST net unit := nic_send_dispatch demo_env 1.
Lemma demo_disp_quiet : Quiet demo_disp.
Proof. apply dispatch_quiet. Qed.
Lemma demo_resolved_disp : resolved demo_env demo_disp demo_net 0x0A000002 1 demo_mac.
Proof. split; vm_compute; reflexivity. Qed.
(** A FIN of the peer, as it is received at 0x7000. *)
Definition demo_fin : list Z :=
  eth_bytes (EthHdr [2; 0; 0; 0; 0; 1] demo_mac (htons 0x0800)) ++
  ipv4_bytes (Ipv4Hdr 0x45 0 (htons 40) 0 0 64 TCP 0 (htonl 0x0A000002) (htonl 0x0A000001)) ++
  tcp_bytes (TcpHdr (htons 5000) (htons 80) (htonl 2000) (htonl 1000) 0x50 TCP_FIN (htons 1000) 0 0).
Definition demo_fin_net : net := set_net_mem (store_bytes ∅ 0x7000 demo_fin) demo_net.
Lemma demo_fin_ok : sockets_ok demo_fin_net.
Proof. destruct demo_net_ok as [H1 H2 H3 H4]. split; [exact H1|exact H2|exact H3|exact H4]. Qed.

Lemma handle_tcp_v4_transition_witness :
  exists s' t', handle_tcp_v4 demo_env demo_disp 0x7000 54 demo_fin_net = Done (tt, s') /\
    sock_heap s' !! block_addr 10 = Some t' /\ state (tuple t') = NET_STATE_CLOSE_WAIT.
Proof.
  destruct (handle_tcp_v4 demo_env demo_disp 0x7000 54 demo_fin_net) as [[[] s']| | |] eqn:E;
    [|exfalso; vm_compute in E; discriminate E..].
  destruct (@handle_tcp_v4_transition small_machine demo_env demo_disp demo_disp_quiet demo_fin_net s' 0x7000 54) with (c := block_addr 10) (t := demo_conn)
    as (t' & E1 & E2).
  - apply small_machine_ok.
  - apply demo_fin_ok.
  - reflexivity.
  - exact E.
  - reflexivity.
  - exists s', t'. split; [reflexivity|]. split; [exact E1|]. rewrite E2. vm_compute. reflexivity.
Defined.
Lemma tcp_receive_appends_witness :
  exists r s', handle_tcp_established_packet demo_env demo_disp 0x0A000002 0x0A000001 5000 80 0x7000 2000 3 demo_fin_net = Done (r, s') /\
    exists t', sock_heap s' !! block_addr 10 = Some t' /\ seq_remote t' = 2003.
Proof.
  destruct (handle_tcp_established_packet demo_env demo_disp 0x0A000002 0x0A000001 5000 80 0x7000 2000 3 demo_fin_net) as [[r s']| | |] eqn:E;
    [|exfalso; vm_compute in E; discriminate E..].
  destruct (@tcp_receive_appends small_machine demo_env demo_disp demo_disp_quiet demo_fin_net s' 0x0A000002 0x0A000001 5000 80 0x7000 2000 3 3 demo_conn r)
    as (t' & E1 & _ & E2 & _).
  - reflexivity.
  - vm_compute. reflexivity.
  - reflexivity.
  - vm_compute. repeat split; discriminate.
  - lia.
  - right. vm_compute. discriminate.
  - exact E.
  - exists r, s'. split; [reflexivity|]. exists t'. split; [exact E1|exact E2].
Defined.
Lemma tcp_ack_exact_witness :
  exists s', handle_tcp_receive_ack_established 3 1500 demo_net = Done (false, s').
Proof.
  destruct (tcp_ack_exact demo_net 3 1500 demo_conn) as (s' & E & _); [reflexivity|]. exists s'. exact E.
Defined.
Lemma tcp_send_payload_bounds_witness :
  (exists s', tcp_send_payload demo_env demo_disp 3 0x7000 1460 demo_net = Done (1460, s')) /\
  tcp_send_payload demo_env demo_disp 3 0x7000 1461 demo_net = Faulted.
Proof.
  split.
  - destruct (tcp_send_payload_bounds demo_env demo_disp demo_net 3 0x7000 1460 1 demo_conn demo_nic demo_mac)
      as (s' & t' & E & _); try reflexivity.
    + exact demo_resolved_disp.
    + lia.
    + right. vm_compute. discriminate.
    + exists s'. exact E.
  - apply (tcp_send_payload_bounds demo_env demo_disp demo_net 3 0x7000 1461 1 demo_conn demo_nic demo_mac); try reflexivity.
    + exact demo_resolved_disp.
    + lia.
    + right. vm_compute. discriminate.
Defined.
Lemma echo_reply_answers_witness : network_checksum (drop 34 (echo_reply (replicate 2048 7) 60)) = 0.
Proof.
  apply (echo_reply_answers (replicate 2048 7) 60).
  - apply Forall_replicate. lia.
  - apply length_replicate.
  - lia.
Defined.
