(* ===== verification/Ide.v ===== *)
(** * Ide: the ATA disk driver, src/core/driver/ide.h

    The driver talks to the disk through ports only.  Ports are the interfaces
    [PortIO] and [PortIO16]; what the two ATA channels promise is [AtaPorts]:
    every port access acts on the channel's abstract controller [ata] as the
    ATA register protocol says, with a command taking a number of status reads
    that the controller chooses.  [two_channels] is an instance.  The driver is
    proved to implement the [BlockDevice] the file system is built on. *)
From S2P Require Import Prelude Bytes StrLib Time Fat32.
Open Scope Z_scope.

Class PortIO16 (hw : Type) := {
  outw : hw -> Z -> Z -> hw;
  inw : hw -> Z -> Z * hw
}.

Definition ATA_PRIMARY_IO : Z := 0x1F0.
Definition ATA_SECONDARY_IO : Z := 0x170.
Definition ATA_PRIMARY_CTRL : Z := 0x3F6.
Definition ATA_SECONDARY_CTRL : Z := 0x376.
Definition ATA_REG_DATA : Z := 0.
Definition ATA_REG_SECCOUNT0 : Z := 2.
Definition ATA_REG_LBA0 : Z := 3.
Definition ATA_REG_LBA1 : Z := 4.
Definition ATA_REG_LBA2 : Z := 5.
Definition ATA_REG_HDDEVSEL : Z := 6.
Definition ATA_REG_COMMAND : Z := 7.
Definition ATA_REG_STATUS : Z := 7.
Definition ATA_STATUS_PORT : Z := 0x1F7.
Definition ATA_CMD_READ_PIO : Z := 0x20.
Definition ATA_CMD_WRITE_SECTORS : Z := 0x30.
Definition ATA_IDENTIFY : Z := 0xEC.
Definition ATA_MASTER : Z := 0xA0.
Definition ATA_SLAVE : Z := 0xB0.
Definition ATA_SR_BSY : Z := 0x80.
Definition ATA_SR_DRQ : Z := 0x08.
Definition ATA_SR_ERR : Z := 0x01.
Definition bit_set (status mask : Z) : bool := negb (Z.land status mask =? 0).

(** ** The driver *)
Section Driver.
Context {hw : Type} `{PortIO hw} `{PortIO16 hw}.

Definition put8 (port v : Z) : ST hw unit := modify (fun h => outb h port v).
Definition get8 (port : Z) : ST hw Z := fun h => Done (inb h port).
Definition put16 (port v : Z) : ST hw unit := modify (fun h => outw h port v).
Definition get16 (port : Z) : ST hw Z := fun h => Done (inw h port).

Definition io_wait : ST hw unit := put8 0x80 0.

(** Reads [port] until [stop] holds of the value; answers that value. *)
Fixpoint poll (fuel : nat) (port : Z) (stop : Z -> bool) : ST hw Z :=
  match fuel with
  | O => fun _ => Stuck
  | S f => status ← get8 port; if stop status then mret status else poll f port stop
  end.
Definition not_busy (status : Z) : bool := negb (bit_set status ATA_SR_BSY).

Definition ata_wait_ready (fuel : nat) : ST hw unit :=
  _ ← poll fuel ATA_STATUS_PORT not_busy;
  _ ← poll fuel ATA_STATUS_PORT (fun status => bit_set status ATA_SR_DRQ);
  mret tt.

Definition is_ide_connected (fuel : nat) (channel : Z) : ST hw bool :=
  if 3 <? channel then mret false
  else
    let io_base := if channel <? 2 then ATA_PRIMARY_IO else ATA_SECONDARY_IO in
    let drive_sel := if channel mod 2 =? 0 then ATA_MASTER else ATA_SLAVE in
    _ ← put8 (io_base + 6) drive_sel;
    _ ← io_wait;
    _ ← put8 (io_base + 2) 0;
    _ ← put8 (io_base + 3) 0;
    _ ← put8 (io_base + 4) 0;
    _ ← put8 (io_base + 5) 0;
    _ ← put8 (io_base + 7) ATA_IDENTIFY;
    _ ← io_wait;
    status ← get8 (io_base + 7);
    if status =? 0 then mret false
    else
      status ← (if not_busy status then mret status else poll fuel (io_base + 7) not_busy);
      mret (bit_set status ATA_SR_DRQ).

(** 256 words from the data port, low byte first. *)
Fixpoint read_words (n : nat) (port : Z) : ST hw (list Z) :=
  match n with
  | O => mret []
  | S n' =>
      data ← get16 port;
      r ← read_words n' port;
      mret (Z.land data 0xFF :: u8 (Z.shiftr data 8) :: r)
  end.
(** The buffer filled; the answer is always true. *)
Definition read_sector_ide (fuel : nat) (channel lba : Z) : ST hw (list Z) :=
  let io_base := if channel =? 0 then ATA_PRIMARY_IO else ATA_SECONDARY_IO in
  _ ← poll fuel (io_base + ATA_REG_STATUS) not_busy;
  _ ← put8 (io_base + ATA_REG_HDDEVSEL) (Z.lor 0xE0 (Z.land (Z.shiftr lba 24) 0x0F));
  _ ← io_wait;
  _ ← put8 (io_base + ATA_REG_SECCOUNT0) 1;
  _ ← put8 (io_base + ATA_REG_LBA0) (Z.land lba 0xFF);
  _ ← put8 (io_base + ATA_REG_LBA1) (Z.land (Z.shiftr lba 8) 0xFF);
  _ ← put8 (io_base + ATA_REG_LBA2) (Z.land (Z.shiftr lba 16) 0xFF);
  _ ← put8 (io_base + ATA_REG_COMMAND) ATA_CMD_READ_PIO;
  _ ← poll fuel (io_base + ATA_REG_STATUS) (fun status => not_busy status && bit_set status ATA_SR_DRQ);
  read_words 256 (io_base + ATA_REG_DATA).

Fixpoint count_types (n : nat) (i : Z) (sector : list Z) : Z :=
  match n with
  | O => 0
  | S n' => (if negb (byte sector (0x1BE + i * 16 + 4) =? 0) then 1 else 0) + count_types n' (i + 1) sector
  end.
Definition count_partition (fuel : nat) (ide_channel : Z) : ST hw Z :=
  sector ← read_sector_ide fuel ide_channel 0;
  if negb (byte sector 510 =? 0x55) || negb (byte sector 511 =? 0xAA) then mret (neg64 2)
  else mret (count_types 4 0 sector).

(** [poll] with two exits: data or error. *)
Fixpoint ata_wait_loop (fuel : nat) (port : Z) : ST hw Z :=
  match fuel with
  | O => fun _ => Stuck
  | S f =>
      status ← get8 port;
      if negb (bit_set status 0x80) && bit_set status 0x08 then mret 0
      else if bit_set status 0x01 then mret (-1)
      else ata_wait_loop f port
  end.
Definition ata_wait (fuel : nat) (channel : Z) : ST hw Z :=
  let io_base := if channel =? 0 then ATA_PRIMARY_IO else ATA_SECONDARY_IO in
  let ctrl_base := if channel =? 0 then ATA_PRIMARY_CTRL else ATA_SECONDARY_CTRL in
  _ ← for_m 4 0 (fun _ => _ ← get8 ctrl_base; mret tt);
  ata_wait_loop fuel (io_base + 7).

Fixpoint write_words (port : Z) (buf : list Z) (n : nat) (i : Z) : ST hw unit :=
  match n with
  | O => mret tt
  | S n' =>
      _ ← put16 port (Z.lor (byte buf (i * 2)) (Z.shiftl (byte buf (i * 2 + 1)) 8));
      write_words port buf n' (i + 1)
  end.
(** The drive byte is cut to eight bits by [outb]. *)
Definition write_sector_ide (fuel : nat) (ide_channel lba : Z) (buf : list Z) : ST hw Z :=
  let io_base := if ide_channel / 2 =? 0 then ATA_PRIMARY_IO else ATA_SECONDARY_IO in
  let ctrl_base := if ide_channel / 2 =? 0 then ATA_PRIMARY_CTRL else ATA_SECONDARY_CTRL in
  _ ← put8 (io_base + 6) (u8 (Z.lor (Z.lor 0xE0 (Z.shiftl ctrl_base 4)) (Z.land (Z.shiftr lba 24) 0x0F)));
  _ ← put8 (io_base + 2) 1;
  _ ← put8 (io_base + 3) (Z.land lba 0xFF);
  _ ← put8 (io_base + 4) (Z.land (Z.shiftr lba 8) 0xFF);
  _ ← put8 (io_base + 5) (Z.land (Z.shiftr lba 16) 0xFF);
  _ ← put8 (io_base + 7) 0x30;
  status ← poll fuel (io_base + 7) (fun status => negb (bit_set status 0x80));
  if bit_set status 0x01 then mret (neg64 1)
  else
    _ ← write_words (io_base + 0) buf 256 0;
    _ ← poll fuel (io_base + 7) (fun status => negb (bit_set status 0x08 || bit_set status 0x80));
    mret 0.
End Driver.

(** ** The abstract controller

    One ATA channel: the task file, the transfer in progress, how many status
    reads the current command stays busy, and the two drives.  [a_latency n] is
    how long command number [n] takes.  Transfers are of one sector, the only
    kind the driver asks for. *)
Inductive ata_phase := Idle | Err | Reading (ws : list Z) | Writing (ws : list Z).
Record ata := Ata {
  a_lba0 : Z; a_lba1 : Z; a_lba2 : Z; a_sel : Z;
  a_phase : ata_phase; a_busy : nat; a_issued : nat; a_latency : nat -> nat;
  a_drives : bool -> option (gmap Z (list Z)); a_identify : list Z }.

Definition a_slave (a : ata) : bool := Z.testbit (a_sel a) 4.
Definition a_disk (a : ata) : option (gmap Z (list Z)) := a_drives a (a_slave a).
(** 28-bit address. *)
Definition a_address (a : ata) : Z :=
  a_lba0 a + 2 ^ 8 * a_lba1 a + 2 ^ 16 * a_lba2 a + 2 ^ 24 * Z.land (a_sel a) 0x0F.
Fixpoint words_of (s : list Z) : list Z :=
  match s with a :: b :: r => a + 256 * b :: words_of r | _ => [] end.
Fixpoint bytes_of (ws : list Z) : list Z :=
  match ws with w :: r => Z.land w 0xFF :: u8 (Z.shiftr w 8) :: bytes_of r | [] => [] end.

Definition a_start (p : ata_phase) (a : ata) : ata :=
  Ata (a_lba0 a) (a_lba1 a) (a_lba2 a) (a_sel a) p (a_latency a (a_issued a)) (S (a_issued a)) (a_latency a)
    (a_drives a) (a_identify a).
Definition a_command (v : Z) (a : ata) : ata :=
  match a_disk a with
  | None => a
  | Some m =>
      if v =? ATA_CMD_READ_PIO then
        match m !! a_address a with Some s => a_start (Reading (words_of s)) a | None => a_start Err a end
      else if v =? ATA_CMD_WRITE_SECTORS then
        match m !! a_address a with Some _ => a_start (Writing []) a | None => a_start Err a end
      else if v =? ATA_IDENTIFY then a_start (Reading (a_identify a)) a
      else a_start Err a
  end.
Definition ata_out (reg v : Z) (a : ata) : ata :=
  if reg =? 3 then Ata v (a_lba1 a) (a_lba2 a) (a_sel a) (a_phase a) (a_busy a) (a_issued a) (a_latency a) (a_drives a) (a_identify a)
  else if reg =? 4 then Ata (a_lba0 a) v (a_lba2 a) (a_sel a) (a_phase a) (a_busy a) (a_issued a) (a_latency a) (a_drives a) (a_identify a)
  else if reg =? 5 then Ata (a_lba0 a) (a_lba1 a) v (a_sel a) (a_phase a) (a_busy a) (a_issued a) (a_latency a) (a_drives a) (a_identify a)
  else if reg =? 6 then Ata (a_lba0 a) (a_lba1 a) (a_lba2 a) v (a_phase a) (a_busy a) (a_issued a) (a_latency a) (a_drives a) (a_identify a)
  else if reg =? 7 then a_command v a
  else a.
(** The status register; an absent drive answers 0. *)
Definition a_status (a : ata) : Z :=
  match a_disk a with
  | None => 0
  | Some _ =>
      match a_busy a with
      | S _ => 0x80
      | O => match a_phase a with Idle => 0x40 | Err => 0x41 | Reading _ => 0x48 | Writing _ => 0x48 end
      end
  end.
Definition a_set (p : ata_phase) (busy : nat) (drives : bool -> option (gmap Z (list Z))) (a : ata) : ata :=
  Ata (a_lba0 a) (a_lba1 a) (a_lba2 a) (a_sel a) p busy (a_issued a) (a_latency a) drives (a_identify a).
Definition ata_in (reg : Z) (a : ata) : Z * ata :=
  if reg =? 7 then (a_status a, a_set (a_phase a) (Nat.pred (a_busy a)) (a_drives a) a) else (0, a).
Definition ata_inw (a : ata) : Z * ata :=
  match a_phase a with
  | Reading (w :: r) => (w, a_set (match r with [] => Idle | _ => Reading r end) (a_busy a) (a_drives a) a)
  | _ => (0, a)
  end.
(** The last word of a sector starts the write, which takes its own time. *)
Definition ata_outw (w : Z) (a : ata) : ata :=
  match a_phase a with
  | Writing ws =>
      let ws := ws ++ [w] in
      if decide (length ws = 256%nat) then
        let d := a_drives a in
        let d' := fun s => if Bool.eqb s (a_slave a) then <[a_address a := bytes_of ws]> <$> d s else d s in
        Ata (a_lba0 a) (a_lba1 a) (a_lba2 a) (a_sel a) Idle (a_latency a (a_issued a)) (S (a_issued a)) (a_latency a) d' (a_identify a)
      else a_set (Writing ws) (a_busy a) (a_drives a) a
  | _ => a
  end.

(** Channel [false] is the primary one. *)
Definition io_base (c : bool) : Z := if c then ATA_SECONDARY_IO else ATA_PRIMARY_IO.
Definition at_channel (c : bool) (port : Z) : bool := (io_base c <=? port) && (port <=? io_base c + 7).

(** What the hardware promises: ports of a channel act on its controller, other
    ports leave it alone. *)
Class AtaPorts (hw : Type) `{PortIO hw} `{PortIO16 hw} := {
  ata_of : hw -> bool -> ata;
  outb_ata : forall h p v c, 0 <= v < 256 ->
    ata_of (outb h p v) c = if at_channel c p then ata_out (p - io_base c) v (ata_of h c) else ata_of h c;
  inb_ata : forall h p c,
    if at_channel c p
    then fst (inb h p) = fst (ata_in (p - io_base c) (ata_of h c)) /\
         ata_of (snd (inb h p)) c = snd (ata_in (p - io_base c) (ata_of h c))
    else ata_of (snd (inb h p)) c = ata_of h c;
  outw_ata : forall h p w c, 0 <= w < 65536 ->
    ata_of (outw h p w) c = if p =? io_base c then ata_outw w (ata_of h c) else ata_of h c;
  inw_ata : forall h p c,
    if p =? io_base c
    then fst (inw h p) = fst (ata_inw (ata_of h c)) /\ ata_of (snd (inw h p)) c = snd (ata_inw (ata_of h c))
    else ata_of (snd (inw h p)) c = ata_of h c
}.

(** Two controllers are such hardware. *)
Section TwoChannels.
Definition upd_channel (h : bool -> ata) (c : bool) (a : ata) : bool -> ata := fun c' => if Bool.eqb c' c then a else h c'.
Definition which (port : Z) : option bool :=
  if at_channel false port then Some false else if at_channel true port then Some true else None.
#[export] Instance two_ports : PortIO (bool -> ata) := {
  outb h p v := match which p with Some c => upd_channel h c (ata_out (p - io_base c) v (h c)) | None => h end;
  inb h p := match which p with
             | Some c => (fst (ata_in (p - io_base c) (h c)), upd_channel h c (snd (ata_in (p - io_base c) (h c))))
             | None => (0, h)
             end
}.
#[export] Instance two_ports16 : PortIO16 (bool -> ata) := {
  outw h p w := if p =? io_base false then upd_channel h false (ata_outw w (h false))
                else if p =? io_base true then upd_channel h true (ata_outw w (h true)) else h;
  inw h p := if p =? io_base false then (fst (ata_inw (h false)), upd_channel h false (snd (ata_inw (h false))))
             else if p =? io_base true then (fst (ata_inw (h true)), upd_channel h true (snd (ata_inw (h true)))) else (0, h)
}.
Lemma which_disjoint p : at_channel false p = true -> at_channel true p = false.
Proof. unfold at_channel, io_base, ATA_PRIMARY_IO, ATA_SECONDARY_IO. intros. zbool. apply andb_false_iff. right. zbool. lia. Qed.
#[export] Instance two_channels : AtaPorts (bool -> ata).
Proof.
  refine {| ata_of h c := h c |}.
  all: intros h p; intros; try destruct c; cbn [outb inb outw inw two_ports two_ports16]; unfold which, upd_channel.
  1, 2, 3, 4: destruct (at_channel false p) eqn:E0; [pose proof (which_disjoint p E0) as E1; rewrite ?E1|];
    try destruct (at_channel true p) eqn:E2; done.
  all: unfold io_base, ATA_PRIMARY_IO, ATA_SECONDARY_IO; repeat ztest; cbn; try lia; done.
Defined.
End TwoChannels.

(** ** Running the driver *)
Section Run.
Context {hw : Type} `{AtaPorts hw}.

(** Channel [c] is in [a], the other one in [b]. *)
Definition on (h : hw) (c : bool) (a b : ata) : Prop := ata_of h c = a /\ ata_of h (negb c) = b.

Lemma at_channel_reg c r : 0 <= r <= 7 -> at_channel c (io_base c + r) = true /\ at_channel (negb c) (io_base c + r) = false.
Proof.
  intros. unfold at_channel, io_base, ATA_PRIMARY_IO, ATA_SECONDARY_IO.
  destruct c; cbn [negb]; split; apply andb_true_iff || apply andb_false_iff; [split|left|split|right]; zbool; lia.
Qed.
Lemma put8_on h c a b r v :
  on h c a b -> 0 <= r <= 7 -> 0 <= v < 256 ->
  exists h', put8 (io_base c + r) v h = Done (tt, h') /\ on h' c (ata_out r v a) b.
Proof.
  intros [<- <-] Hr Hv. destruct (at_channel_reg c r Hr) as [E1 E2]. eexists. split; [reflexivity|].
  unfold on. rewrite !outb_ata, E1, E2 by done. by replace (io_base c + r - io_base c) with r by lia.
Qed.
Lemma io_wait_on h c a b : on h c a b -> exists h', io_wait h = Done (tt, h') /\ on h' c a b.
Proof. intros [<- <-]. eexists. split; [reflexivity|]. unfold on. rewrite !outb_ata by lia. by destruct c. Qed.
Lemma status_on h c a b :
  on h c a b ->
  exists h', get8 (io_base c + 7) h = Done (a_status a, h') /\ on h' c (a_set (a_phase a) (Nat.pred (a_busy a)) (a_drives a) a) b.
Proof.
  intros [<- <-]. destruct (at_channel_reg c 7 ltac:(lia)) as [E1 E2].
  pose proof (inb_ata h (io_base c + 7) c) as L1. rewrite E1 in L1.
  pose proof (inb_ata h (io_base c + 7) (negb c)) as L2. rewrite E2 in L2.
  replace (io_base c + 7 - io_base c) with 7 in L1 by lia. destruct L1 as [Lv Ls]. unfold get8.
  destruct (inb h (io_base c + 7)) as [v h']. exists h'. cbn [fst snd] in *. cbn in Lv, Ls. subst v. done.
Qed.
Lemma data_in_on h c a b :
  on h c a b -> exists h', get16 (io_base c) h = Done (fst (ata_inw a), h') /\ on h' c (snd (ata_inw a)) b.
Proof.
  intros [<- <-]. pose proof (inw_ata h (io_base c) c) as L1. rewrite Z.eqb_refl in L1. destruct L1 as [Lv Ls].
  pose proof (inw_ata h (io_base c) (negb c)) as L2. replace (io_base c =? io_base (negb c)) with false in L2 by (by destruct c).
  unfold get16. destruct (inw h (io_base c)) as [v h']. exists h'. cbn [fst snd] in *. subst v. done.
Qed.
Lemma data_out_on h c a b w :
  on h c a b -> 0 <= w < 65536 -> exists h', put16 (io_base c) w h = Done (tt, h') /\ on h' c (ata_outw w a) b.
Proof.
  intros [<- <-] Hw. eexists. split; [reflexivity|]. unfold on. rewrite !outw_ata, Z.eqb_refl by done.
  by replace (io_base c =? io_base (negb c)) with false by (by destruct c).
Qed.

(** Waiting ends as soon as the controller is no longer busy. *)
Definition calm (a : ata) : ata := a_set (a_phase a) 0 (a_drives a) a.
Lemma poll_on fuel h c a b stop m :
  on h c a b -> a_disk a = Some m -> (a_busy a < fuel)%nat -> stop 0x80 = false -> stop (a_status (calm a)) = true ->
  exists h', poll fuel (io_base c + 7) stop h = Done (a_status (calm a), h') /\ on h' c (calm a) b.
Proof.
  revert h a. induction fuel as [|f IH]; intros h a Ho Hd Hf H80 Hs; [lia|]. cbn [poll].
  destruct (status_on h c a b Ho) as (h1 & E & Ho1). rewrite (bind_done _ _ _ _ _ E).
  destruct (a_busy a) as [|n] eqn:Eb.
  - assert (Ec : a_set (a_phase a) (Nat.pred 0) (a_drives a) a = calm a) by done. rewrite Ec in Ho1.
    assert (Es : a_status a = a_status (calm a)) by (unfold a_status, calm; cbn; by rewrite Eb).
    rewrite Es, Hs. by exists h1.
  - assert (Es : a_status a = 0x80) by (unfold a_status; by rewrite Hd, Eb). rewrite Es, H80.
    apply (IH h1 _ Ho1); [done|cbn; lia|done|done].
Qed.
(** It never ends when the calm status does not satisfy it. *)
Lemma poll_stuck fuel h c a b stop :
  on h c a b -> stop 0x80 = false -> stop (a_status (calm a)) = false -> poll fuel (io_base c + 7) stop h = Stuck.
Proof.
  revert h a. induction fuel as [|f IH]; intros h a Ho H80 Hs; [done|]. cbn [poll].
  destruct (status_on h c a b Ho) as (h1 & E & Ho1). rewrite (bind_done _ _ _ _ _ E).
  assert (Hst : stop (a_status a) = false).
  { destruct (a_disk a) eqn:Ed; [destruct (a_busy a) eqn:Eb|].
    - replace (a_status a) with (a_status (calm a)); [done|]. unfold a_status, calm. cbn. by rewrite Eb.
    - replace (a_status a) with 0x80; [done|]. unfold a_status. by rewrite Ed, Eb.
    - replace (a_status a) with (a_status (calm a)); [done|]. unfold a_status. change (a_disk (calm a)) with (a_disk a). by rewrite Ed. }
  rewrite Hst. by apply (IH h1 _ Ho1).
Qed.
End Run.

(** ** Addresses and words *)
Section Words.
Lemma drive_byte (x n : Z) :
  0 <= n < 16 -> Z.land x 0xFF = 0xE0 -> let v := u8 (Z.lor x n) in
  0 <= v < 256 /\ Z.testbit v 4 = false /\ Z.land v 0x0F = n.
Proof.
  intros Hn Hx v. unfold v, u8. rewrite <- Z.land_ones by lia. change (Z.ones 8) with 0xFF.
  rewrite Z.land_lor_distr_l, Hx. assert (C : n ∈ seqZ 0 16) by (apply elem_of_seqZ; lia). set (l := seqZ 0 16) in C. vm_compute in l. subst l.
  repeat (apply elem_of_cons in C as [->|C]; [vm_compute; intuition congruence|]).
  by apply elem_of_nil in C.
Qed.
Lemma drive_byte_range n : 0 <= n < 16 -> 0 <= Z.lor 0xE0 n < 256.
Proof.
  intros Hn. assert (P : 0 <= Z.lor 0xE0 n) by (apply Z.lor_nonneg; lia). split; [done|].
  apply Z.log2_lt_cancel. rewrite Z.log2_lor by lia. change (Z.log2 256) with 8. change (Z.log2 0xE0) with 7.
  destruct (Z.eq_dec n 0) as [->|]; [done|]. assert (Z.log2 n < 4) by (apply Z.log2_lt_pow2; lia). lia.
Qed.
Lemma land_ff x : Z.land x 0xFF = x mod 256.
Proof. change 0xFF with (Z.ones 8). by rewrite Z.land_ones by lia. Qed.
Lemma land_f x : Z.land x 0x0F = x mod 16.
Proof. change 0x0F with (Z.ones 4). by rewrite Z.land_ones by lia. Qed.
Lemma lba_bytes lba : 0 <= lba < 2 ^ 28 ->
  Z.land lba 0xFF + 2 ^ 8 * Z.land (Z.shiftr lba 8) 0xFF + 2 ^ 16 * Z.land (Z.shiftr lba 16) 0xFF
    + 2 ^ 24 * Z.land (Z.shiftr lba 24) 0x0F = lba.
Proof.
  intros. rewrite !land_ff, land_f, !Z.shiftr_div_pow2 by lia.
  change (2 ^ 8) with 256. change (2 ^ 16) with 65536. change (2 ^ 24) with 16777216. change (2 ^ 28) with 268435456 in *.
  Z.to_euclidean_division_equations. lia.
Qed.
Lemma bytes_words s : Nat.Even (length s) -> Forall (fun b => 0 <= b < 256) s -> bytes_of (words_of s) = s.
Proof.
  revert s. fix IH 1. intros [|a [|b r]] He Hb; [done|by destruct He as [[|] He]; cbn in He; lia|].
  apply list.Forall_cons in Hb as [Ha Hb]. apply list.Forall_cons in Hb as [Hb Hr].
  cbn [words_of bytes_of]. rewrite land_ff, Z.shiftr_div_pow2 by lia. change (2 ^ 8) with 256.
  replace ((a + 256 * b) mod 256) with a by (Z.to_euclidean_division_equations; lia).
  replace ((a + 256 * b) / 256) with b by (Z.to_euclidean_division_equations; lia).
  rewrite u8_id by done. do 2 f_equal. apply IH; [|done]. destruct He as [k He]. cbn in He. exists (k - 1)%nat. lia.
Qed.
Lemma length_words s : (2 * length (words_of s) = length s - length s mod 2)%nat.
Proof.
  revert s. fix IH 1. intros [|a [|b r]]; [done|done|]. specialize (IH r). cbn [words_of length].
  replace (S (S (length r)))%nat with (length r + 1 * 2)%nat by lia. rewrite Nat.Div0.mod_add.
  pose proof (Nat.Div0.mod_le (length r) 2). lia.
Qed.
(** The words the driver sends are those of the buffer. *)
Lemma sent_word s i :
  Forall (fun b => 0 <= b < 256) s -> Z.of_nat i * 2 + 1 < Z.of_nat (length s) ->
  words_of s !! i = Some (Z.lor (byte s (Z.of_nat i * 2)) (Z.shiftl (byte s (Z.of_nat i * 2 + 1)) 8)).
Proof.
  revert i. revert s. fix IH 1. intros [|a [|b r]] i Hb Hi; [cbn in Hi; lia|cbn in Hi; lia|].
  apply list.Forall_cons in Hb as [Ha Hb]. apply list.Forall_cons in Hb as [Hb Hr]. cbn [length] in Hi.
  destruct i as [|i]; cbn [words_of lookup list_lookup].
  - f_equal. change (byte (a :: b :: r) (Z.of_nat 0 * 2)) with a. change (byte (a :: b :: r) (Z.of_nat 0 * 2 + 1)) with b.
    rewrite Z.lor_comm, lor_shift8 by done. lia.
  - rewrite IH; [|done|lia]. unfold byte.
    replace (Z.to_nat (Z.of_nat (S i) * 2)) with (S (S (Z.to_nat (Z.of_nat i * 2)))) by lia.
    replace (Z.to_nat (Z.of_nat (S i) * 2 + 1)) with (S (S (Z.to_nat (Z.of_nat i * 2 + 1)))) by lia. done.
Qed.
End Words.

(** ** Transfers *)
Section Transfer.
Context {hw : Type} `{AtaPorts hw}.

(** The task file loaded with an address. *)
Definition addressed (lba sel : Z) (a : ata) : ata :=
  Ata (Z.land lba 0xFF) (Z.land (Z.shiftr lba 8) 0xFF) (Z.land (Z.shiftr lba 16) 0xFF) sel (a_phase a) (a_busy a)
    (a_issued a) (a_latency a) (a_drives a) (a_identify a).
Lemma addressed_master lba sel a :
  0 <= lba < 2 ^ 28 -> Z.testbit sel 4 = false -> Z.land sel 0x0F = Z.land (Z.shiftr lba 24) 0x0F ->
  a_address (addressed lba sel a) = lba /\ a_disk (addressed lba sel a) = a_drives a false.
Proof.
  intros Hl Ht Hs. split.
  - unfold a_address. cbn [addressed a_lba0 a_lba1 a_lba2 a_sel]. rewrite Hs. by apply lba_bytes.
  - unfold a_disk, a_slave. cbn [addressed a_sel a_drives]. by rewrite Ht.
Qed.
Lemma land_ff_range x : 0 <= Z.land x 0xFF < 256.
Proof. rewrite land_ff. apply Z.mod_pos_bound. lia. Qed.
Lemma nibble_range x : 0 <= Z.land x 0x0F < 16.
Proof. rewrite land_f. apply Z.mod_pos_bound. lia. Qed.

(** 256 words read are the bytes of the sector. *)
Lemma read_words_on n : forall h c a b ws,
  on h c a b -> a_phase a = (match ws with [] => Idle | _ => Reading ws end) -> length ws = n ->
  exists h', read_words n (io_base c) h = Done (bytes_of ws, h') /\ on h' c (a_set Idle (a_busy a) (a_drives a) a) b.
Proof.
  induction n as [|n IH]; intros h c a b ws Ho Hp Hl; cbn [read_words].
  - destruct ws; [|discriminate]. exists h. split; [done|].
    replace (a_set Idle (a_busy a) (a_drives a) a) with a; [done|]. destruct a. cbn in *. by subst.
  - destruct ws as [|w r]; [discriminate|]. destruct (data_in_on h c a b Ho) as (h1 & E & Ho1).
    rewrite (bind_done _ _ _ _ _ E). unfold ata_inw in *. rewrite Hp in *. cbn [fst snd] in *.
    edestruct (IH h1 c _ b r Ho1) as (h2 & E2 & Ho2); [done|by injection Hl|].
    rewrite (bind_done _ _ _ _ _ E2). exists h2. split; [done|]. done.
Qed.

(** Words sent are collected; the last one stores the sector. *)
Definition stored (s : list Z) (a : ata) : ata :=
  Ata (a_lba0 a) (a_lba1 a) (a_lba2 a) (a_sel a) Idle (a_latency a (a_issued a)) (S (a_issued a)) (a_latency a)
    (fun d => if Bool.eqb d (a_slave a) then <[a_address a := s]> <$> a_drives a d else a_drives a d) (a_identify a).
Lemma write_words_on n : forall i h c a b s,
  on h c a b -> sector_ok s -> (i + S n = 256)%nat -> a_phase a = Writing (take i (words_of s)) ->
  exists h', write_words (io_base c) s (S n) (Z.of_nat i) h = Done (tt, h') /\ on h' c (stored s a) b.
Proof.
  induction n as [|n IH]; intros i h c a b s Ho Hs Hi Hp; destruct Hs as [Hl Hb]; unfold SECTOR_SIZE in Hl.
  all: assert (Hw : words_of s !! i = Some (Z.lor (byte s (Z.of_nat i * 2)) (Z.shiftl (byte s (Z.of_nat i * 2 + 1)) 8)))
         by (apply sent_word; [done|lia]).
  all: set (w := Z.lor _ _) in Hw.
  all: assert (Hlen : length (words_of s) = 256%nat)
         by (pose proof (length_words s); replace (length s) with (256 * 2)%nat in * by lia; rewrite Nat.Div0.mod_mul in *; lia).
  all: assert (Hr : 0 <= w < 65536).
  1, 3: assert (Hby : forall j, 0 <= byte s j < 256)
         by (intros j; unfold byte; destruct (s !! Z.to_nat j) eqn:Ej; cbn; [by apply (Forall_lookup_1 _ _ _ _ Hb Ej)|lia]);
       unfold w; rewrite Z.lor_comm, lor_shift8 by apply Hby; pose proof (Hby (Z.of_nat i * 2)); pose proof (Hby (Z.of_nat i * 2 + 1)); lia.
  all: destruct (data_out_on h c a b w Ho Hr) as (h1 & E & Ho1).
  all: assert (Hsnoc : take i (words_of s) ++ [w] = take (S i) (words_of s)) by (symmetry; by apply take_S_r).
  all: cbn [write_words]; fold w; rewrite (bind_done _ _ _ _ _ E); unfold ata_outw in Ho1; rewrite Hp, Hsnoc in Ho1;
       rewrite length_take in Ho1.
  - rewrite decide_True in Ho1 by lia. exists h1. split; [done|]. rewrite take_ge in Ho1 by lia.
    rewrite bytes_words in Ho1; [done|exists 256%nat; lia|done].
  - rewrite decide_False in Ho1 by lia. replace (Z.of_nat i + 1) with (Z.of_nat (S i)) by lia.
    apply (IH (S i) h1 c _ b s Ho1); [done|lia|done].
Qed.
End Transfer.

(** ** The driver as a block device *)

(** A disk image as the block device of the file system. *)
#[export] Instance sector_ok_dec s : Decision (sector_ok s).
Proof. unfold sector_ok. apply _. Defined.
Abbreviation image := (gmap Z (list Z)).
#[export] Instance image_device : BlockDevice image := {
  dev_read m lba := s ← m !! lba; if decide (sector_ok s) then Some s else None;
  dev_write m lba s := match m !! lba with Some _ => (0, <[lba := s]> m) | None => (neg64 1, m) end
}.
#[export] Instance image_laws : BlockDeviceLaws image.
Proof.
  split; cbn.
  - intros d lba s E. destruct (d !! lba) as [x|]; cbn in E; [|discriminate]. case_decide; [|discriminate]. by injection E as <-.
  - intros d lba s [x E] Hs. by destruct (d !! lba).
  - intros d lba s lba' [x E] Hs. destruct (d !! lba) eqn:E0; [|discriminate]. cbn [snd].
    destruct (Z.eqb_spec lba' lba) as [->|].
    + rewrite lookup_insert_eq. cbn. by rewrite decide_True.
    + by rewrite lookup_insert_ne.
Qed.

Section Refinement.
Context {hw : Type} `{AtaPorts hw}.

(** Channel [c] is idle with its master drive selected and holding [m]; no
    command keeps it busy for more than [N] status reads. *)
Record ide_ready (N : nat) (c : bool) (m : image) (a : ata) : Prop := {
  ir_phase : a_phase a = Idle;
  ir_busy : a_busy a = 0%nat;
  ir_sel : a_slave a = false;
  ir_latency : forall n, (a_latency a n <= N)%nat;
  ir_disk : a_drives a false = Some m;
  ir_sectors : map_Forall (fun _ => sector_ok) m
}.

Ltac do_on lem :=
  let h' := fresh "h" in let E := fresh "E" in let O := fresh "O" in
  destruct lem as (h' & E & O); rewrite (bind_done _ _ _ _ _ E); clear E.

Lemma command_ready N c m a lba sel v :
  ide_ready N c m a -> 0 <= lba < 2 ^ 28 -> Z.testbit sel 4 = false -> Z.land sel 0x0F = Z.land (Z.shiftr lba 24) 0x0F ->
  v = ATA_CMD_READ_PIO \/ v = ATA_CMD_WRITE_SECTORS ->
  a_command v (addressed lba sel a) =
    a_start (match m !! lba with
             | Some s => if v =? ATA_CMD_READ_PIO then Reading (words_of s) else Writing []
             | None => Err
             end) (addressed lba sel a).
Proof.
  intros [Hp Hb Hs Hl Hd _] Hlba Ht Hn Hv. destruct (addressed_master lba sel a Hlba Ht Hn) as [Ea Ed].
  unfold a_command. rewrite Ed, Hd, Ea. by destruct Hv as [-> | ->]; destruct (m !! lba).
Qed.

(** The commands of a read up to the wait for data. *)
Definition read_started (m : image) (lba : Z) (a : ata) : ata :=
  a_start (match m !! lba with Some s => Reading (words_of s) | None => Err end)
    (addressed lba (Z.lor 0xE0 (Z.land (Z.shiftr lba 24) 0x0F)) a).
Lemma read_sector_start N fuel h c m a b channel lba :
  on h c a b -> ide_ready N c m a -> 0 <= lba < 2 ^ 28 -> io_base c = (if channel =? 0 then ATA_PRIMARY_IO else ATA_SECONDARY_IO) ->
  (0 < fuel)%nat ->
  exists h', on h' c (read_started m lba a) b /\
    read_sector_ide fuel channel lba h =
      (_ ← poll fuel (io_base c + 7) (fun status => not_busy status && bit_set status ATA_SR_DRQ);
       read_words 256 (io_base c)) h'.
Proof.
  intros Ho R Hlba Hc Hf. unfold read_sector_ide. rewrite <- Hc.
  unfold ATA_REG_STATUS, ATA_REG_HDDEVSEL, ATA_REG_SECCOUNT0, ATA_REG_LBA0, ATA_REG_LBA1, ATA_REG_LBA2, ATA_REG_COMMAND, ATA_REG_DATA.
  rewrite Z.add_0_r. set (sel := Z.lor _ _).
  assert (Hsel : 0 <= sel < 256 /\ Z.testbit sel 4 = false /\ Z.land sel 0x0F = Z.land (Z.shiftr lba 24) 0x0F).
  { pose proof (drive_byte 0xE0 _ (nibble_range (Z.shiftr lba 24)) eq_refl) as D. cbv zeta in D.
    fold sel in D. rewrite u8_id in D by (apply drive_byte_range, nibble_range). tauto. }
  destruct Hsel as (Hs0 & Hs1 & Hs2).
  assert (Hd : a_disk a = Some m) by (unfold a_disk; rewrite (ir_sel _ _ _ _ R); apply R).
  assert (Hst : not_busy (a_status (calm a)) = true).
  { unfold a_status, calm. change (a_disk (a_set _ _ _ a)) with (a_disk a). rewrite Hd. cbn. by rewrite (ir_phase _ _ _ _ R). }
  assert (Hb0 : (a_busy a < fuel)%nat) by (rewrite (ir_busy _ _ _ _ R); lia).
  do_on (poll_on fuel h c a b not_busy m Ho Hd Hb0 eq_refl Hst).
  assert (Ec : calm a = a) by (pose proof (ir_busy _ _ _ _ R); destruct a; cbn in *; by subst).
  rewrite Ec in O.
  do_on (put8_on _ c _ b 6 sel O ltac:(lia) Hs0). do_on (io_wait_on _ c _ b O0).
  do_on (put8_on _ c _ b 2 1 O1 ltac:(lia) ltac:(lia)). do_on (put8_on _ c _ b 3 _ O2 ltac:(lia) (land_ff_range lba)).
  do_on (put8_on _ c _ b 4 _ O3 ltac:(lia) (land_ff_range (Z.shiftr lba 8))).
  do_on (put8_on _ c _ b 5 _ O4 ltac:(lia) (land_ff_range (Z.shiftr lba 16))).
  do_on (put8_on _ c _ b 7 ATA_CMD_READ_PIO O5 ltac:(lia) ltac:(unfold ATA_CMD_READ_PIO; lia)).
  eexists. split; [|reflexivity]. unfold read_started. fold sel.
  pose proof (command_ready N c m a lba sel ATA_CMD_READ_PIO R Hlba Hs1 Hs2 (or_introl eq_refl)) as C.
  rewrite Z.eqb_refl in C. rewrite <- C. exact O6.
Qed.

(** A command that leaves the controller idle leaves it ready. *)
Lemma calm_start_status p a m : a_disk a = Some m ->
  a_status (calm (a_start p a)) = match p with Idle => 0x40 | Err => 0x41 | Reading _ => 0x48 | Writing _ => 0x48 end.
Proof. intros Hd. unfold a_status. change (a_disk (calm (a_start p a))) with (a_disk a). by rewrite Hd. Qed.
Lemma read_started_disk N c m lba a : ide_ready N c m a -> 0 <= lba < 2 ^ 28 ->
  a_disk (read_started m lba a) = Some m /\ a_slave (read_started m lba a) = false.
Proof.
  intros R Hl. assert (T : Z.testbit (Z.lor 0xE0 (Z.land (Z.shiftr lba 24) 0x0F)) 4 = false).
  { destruct (drive_byte 0xE0 _ (nibble_range (Z.shiftr lba 24)) eq_refl) as (_ & T & _).
    rewrite u8_id in T by (apply drive_byte_range, nibble_range). done. }
  unfold a_disk, a_slave. cbn [read_started a_start addressed a_sel a_drives]. rewrite T. split; [apply R|done].
Qed.
Lemma read_run N fuel h c m a b channel lba s :
  on h c a b -> ide_ready N c m a -> 0 <= lba < 2 ^ 28 -> m !! lba = Some s ->
  io_base c = (if channel =? 0 then ATA_PRIMARY_IO else ATA_SECONDARY_IO) -> (N < fuel)%nat ->
  exists h' a', read_sector_ide fuel channel lba h = Done (s, h') /\ on h' c a' b /\ ide_ready N c m a'.
Proof.
  intros Ho R Hl Hs Hc Hf. pose proof (ir_sectors _ _ _ _ R _ _ Hs) as [Hlen Hby]. unfold SECTOR_SIZE in Hlen.
  destruct (read_sector_start N fuel h c m a b channel lba Ho R Hl Hc ltac:(lia)) as (h1 & O1 & ->).
  destruct (read_started_disk N c m lba a R Hl) as [Hd Hsl].
  assert (Ep : a_phase (read_started m lba a) = Reading (words_of s)) by (unfold read_started; by rewrite Hs).
  assert (Hw : length (words_of s) = 256%nat).
  { pose proof (length_words s). replace (length s) with (256 * 2)%nat in * by lia. rewrite Nat.Div0.mod_mul in *. lia. }
  assert (Es : a_status (calm (read_started m lba a)) = 0x48).
  { unfold a_status. change (a_disk (calm _)) with (a_disk (read_started m lba a)). rewrite Hd. cbn [calm a_set a_busy a_phase].
    by rewrite Ep. }
  do_on (poll_on fuel h1 c _ b (fun status => not_busy status && bit_set status ATA_SR_DRQ) m O1 Hd
           ltac:(pose proof (ir_latency _ _ _ _ R (a_issued a)); cbn; lia) eq_refl ltac:(by rewrite Es)).
  destruct (read_words_on 256 h0 c _ b (words_of s) O) as (h2 & E & O2); [|done|].
  { change (a_phase (calm _)) with (a_phase (read_started m lba a)). rewrite Ep. by destruct (words_of s). }
  eexists h2, _. rewrite bytes_words in E; [|exists 256%nat; lia|done]. split; [exact E|]. split; [exact O2|].
  split; try apply R; done.
Qed.

(** A write: up to the status after the command, then the sector. *)
Definition write_sel (c : bool) (lba : Z) : Z :=
  u8 (Z.lor (Z.lor 0xE0 (Z.shiftl (if c then ATA_SECONDARY_CTRL else ATA_PRIMARY_CTRL) 4)) (Z.land (Z.shiftr lba 24) 0x0F)).
Definition write_started (c : bool) (m : image) (lba : Z) (a : ata) : ata :=
  a_start (match m !! lba with Some s => Writing [] | None => Err end) (addressed lba (write_sel c lba) a).
Lemma write_sel_ok c lba :
  0 <= write_sel c lba < 256 /\ Z.testbit (write_sel c lba) 4 = false /\
  Z.land (write_sel c lba) 0x0F = Z.land (Z.shiftr lba 24) 0x0F.
Proof. apply drive_byte; [apply nibble_range|by destruct c]. Qed.
Lemma write_started_disk N c m lba a : ide_ready N c m a ->
  a_disk (write_started c m lba a) = Some m /\ a_slave (write_started c m lba a) = false.
Proof.
  intros R. destruct (write_sel_ok c lba) as (_ & T & _).
  unfold a_disk, a_slave. cbn [write_started a_start addressed a_sel a_drives]. rewrite T. split; [apply R|done].
Qed.
Lemma write_sector_start N fuel h c m a b channel lba buf :
  on h c a b -> ide_ready N c m a -> 0 <= lba < 2 ^ 28 -> (channel / 2 =? 0) = negb c -> (N < fuel)%nat ->
  exists h', on h' c (calm (write_started c m lba a)) b /\
    write_sector_ide fuel channel lba buf h =
      (if bit_set (a_status (calm (write_started c m lba a))) 0x01 then mret (neg64 1)
       else _ ← write_words (io_base c + 0) buf 256 0;
            _ ← poll fuel (io_base c + 7) (fun status => negb (bit_set status 0x08 || bit_set status 0x80));
            mret 0) h'.
Proof.
  intros Ho R Hl Hc Hf. unfold write_sector_ide. rewrite Hc.
  replace (if negb c then ATA_PRIMARY_IO else ATA_SECONDARY_IO) with (io_base c) by (by destruct c).
  replace (if negb c then ATA_PRIMARY_CTRL else ATA_SECONDARY_CTRL) with (if c then ATA_SECONDARY_CTRL else ATA_PRIMARY_CTRL) by (by destruct c).
  cbv zeta. fold (write_sel c lba). destruct (write_sel_ok c lba) as (Hs0 & Hs1 & Hs2).
  do_on (put8_on _ c _ b 6 _ Ho ltac:(lia) Hs0). do_on (put8_on _ c _ b 2 1 O ltac:(lia) ltac:(lia)).
  do_on (put8_on _ c _ b 3 _ O0 ltac:(lia) (land_ff_range lba)).
  do_on (put8_on _ c _ b 4 _ O1 ltac:(lia) (land_ff_range (Z.shiftr lba 8))).
  do_on (put8_on _ c _ b 5 _ O2 ltac:(lia) (land_ff_range (Z.shiftr lba 16))).
  do_on (put8_on _ c _ b 7 0x30 O3 ltac:(lia) ltac:(lia)).
  pose proof (command_ready N c m a lba _ ATA_CMD_WRITE_SECTORS R Hl Hs1 Hs2 (or_intror eq_refl)) as C.
  change (ATA_CMD_WRITE_SECTORS =? ATA_CMD_READ_PIO) with false in C.
  assert (O5 : on h5 c (write_started c m lba a) b) by (unfold write_started; rewrite <- C; exact O4).
  destruct (write_started_disk N c m lba a R) as [Hd Hsl].
  assert (Hst : negb (bit_set (a_status (calm (write_started c m lba a))) 0x80) = true).
  { unfold a_status. change (a_disk (calm _)) with (a_disk (write_started c m lba a)). rewrite Hd. cbn.
    by destruct (m !! lba). }
  do_on (poll_on fuel h5 c _ b (fun status => negb (bit_set status 0x80)) m O5 Hd
           ltac:(pose proof (ir_latency _ _ _ _ R (a_issued a)); cbn; lia) eq_refl Hst).
  eexists. split; [exact O6|]. reflexivity.
Qed.
Lemma write_run N fuel h c m a b channel lba s :
  on h c a b -> ide_ready N c m a -> 0 <= lba < 2 ^ 28 -> is_Some (m !! lba) -> sector_ok s ->
  (channel / 2 =? 0) = negb c -> (N < fuel)%nat ->
  exists h' a', write_sector_ide fuel channel lba s h = Done (0, h') /\ on h' c a' b /\ ide_ready N c (<[lba := s]> m) a'.
Proof.
  intros Ho R Hl [x Hx] Hs Hc Hf.
  destruct (write_sector_start N fuel h c m a b channel lba s Ho R Hl Hc Hf) as (h1 & O1 & ->).
  destruct (write_started_disk N c m lba a R) as [Hd Hsl]. destruct (write_sel_ok c lba) as (_ & Hs1 & Hs2).
  destruct (addressed_master lba (write_sel c lba) a Hl Hs1 Hs2) as [Ea _].
  assert (Ep : a_phase (write_started c m lba a) = Writing []) by (unfold write_started; by rewrite Hx).
  assert (Es : a_status (calm (write_started c m lba a)) = 0x48).
  { unfold a_status. change (a_disk (calm _)) with (a_disk (write_started c m lba a)). rewrite Hd. cbn [calm a_set a_busy a_phase].
    by rewrite Ep. }
  rewrite Es. change (bit_set 0x48 0x01) with false. cbn iota. rewrite Z.add_0_r.
  destruct (write_words_on 255 0 h1 c _ b s O1 Hs eq_refl) as (h2 & E & O2).
  { change (a_phase (calm _)) with (a_phase (write_started c m lba a)). by rewrite Ep. }
  change (Z.of_nat 0) with 0 in E. rewrite (bind_done _ _ _ _ _ E). set (a2 := stored s _) in O2.
  assert (Hm : a_drives a2 false = Some (<[lba := s]> m)).
  { unfold a2. cbn [stored a_drives]. change (a_slave (calm _)) with (a_slave (write_started c m lba a)). rewrite Hsl. cbn [Bool.eqb].
    change (a_address (calm _)) with (a_address (addressed lba (write_sel c lba) a)). rewrite Ea.
    change (a_drives (calm _) false) with (a_drives a false). by rewrite (ir_disk _ _ _ _ R). }
  assert (Hd2 : a_disk a2 = Some (<[lba := s]> m)).
  { unfold a_disk. change (a_slave a2) with (a_slave (write_started c m lba a)). by rewrite Hsl. }
  assert (Es2 : a_status (calm a2) = 0x40) by (unfold a_status; change (a_disk (calm a2)) with (a_disk a2); by rewrite Hd2).
  do_on (poll_on fuel h2 c a2 b (fun status => negb (bit_set status 0x08 || bit_set status 0x80)) _ O2 Hd2
           ltac:(pose proof (ir_latency _ _ _ _ R (S (a_issued a))); cbn; lia) eq_refl ltac:(by rewrite Es2)).
  eexists _, _. split; [reflexivity|]. split; [exact O|]. split; try done; [apply R|].
  apply map_Forall_insert_2; [done|apply R].
Qed.
End Refinement.

(** ** Theorems *)

(** C6: The driver on channel 0 implements the block device the file system is
    built on: with the primary master ready and holding the image [m], a read
    of a sector that exists returns what [dev_read] returns, a write answers
    and stores what [dev_write] does, errors included, and the drive is ready
    again; the other channel is untouched.  The fuel needed is the longest time
    a command stays busy. *)
Theorem ide_refines_block_device {hw : Type} `{AtaPorts hw} (N fuel : nat) (h : hw) (m : image) (a b : ata) (lba : Z) (s : list Z) :
  on h false a b -> ide_ready N false m a -> (N < fuel)%nat -> 0 <= lba < 2 ^ 28 -> sector_ok s ->
  (is_Some (dev_read m lba) ->
     exists h' a' r, read_sector_ide fuel 0 lba h = Done (r, h') /\ dev_read m lba = Some r /\
       on h' false a' b /\ ide_ready N false m a') /\
  (exists h' a', write_sector_ide fuel 0 lba s h = Done (fst (dev_write m lba s), h') /\
     on h' false a' b /\ a_drives a' false = Some (snd (dev_write m lba s)) /\
     (is_Some (dev_read m lba) -> ide_ready N false (snd (dev_write m lba s)) a')).
Proof.
  intros Ho R Hf Hl Hs. split.
  - intros [x Hx]. cbn in Hx. destruct (m !! lba) as [y|] eqn:E; cbn in Hx; [|discriminate].
    destruct (read_run N fuel h false m a b 0 lba y Ho R Hl E eq_refl Hf) as (h' & a' & E1 & O' & R').
    exists h', a', y. split; [done|]. split; [|done]. cbn. rewrite E. cbn.
    by rewrite decide_True by exact (ir_sectors _ _ _ _ R _ _ E).
  - cbn [dev_write image_device]. destruct (m !! lba) as [y|] eqn:E.
    + destruct (write_run N fuel h false m a b 0 lba s Ho R Hl ltac:(by exists y) Hs eq_refl Hf) as (h' & a' & E1 & O' & R').
      exists h', a'. split; [done|]. split; [done|]. split; [apply R'|done].
    + destruct (write_sector_start N fuel h false m a b 0 lba s Ho R Hl eq_refl Hf) as (h1 & O1 & E1).
      destruct (write_started_disk N false m lba a R) as [Hd _].
      assert (Es : a_status (calm (write_started false m lba a)) = 0x41).
      { unfold a_status. change (a_disk (calm _)) with (a_disk (write_started false m lba a)). rewrite Hd.
        unfold write_started. by rewrite E. }
      rewrite Es in E1. exists h1, (calm (write_started false m lba a)). split; [exact E1|]. split; [done|].
      split; [apply R|]. intros [x Hx]. cbn in Hx. by rewrite E in Hx.
Qed.

(** Reading a sector the drive does not have never returns, however long the
    loop is run: it waits for data and does not look at the error bit. *)
Theorem read_sector_ide_hangs {hw : Type} `{AtaPorts hw} (N fuel : nat) (h : hw) (m : image) (a b : ata) (lba : Z) :
  on h false a b -> ide_ready N false m a -> 0 <= lba < 2 ^ 28 -> m !! lba = None ->
  read_sector_ide fuel 0 lba h = Stuck.
Proof.
  intros Ho R Hl Hm. destruct fuel as [|f]; [done|].
  destruct (read_sector_start N (S f) h false m a b 0 lba Ho R Hl eq_refl ltac:(lia)) as (h1 & O1 & ->).
  destruct (read_started_disk N false m lba a R Hl) as [Hd _]. unfold mbind, st_bind.
  rewrite (poll_stuck (S f) h1 false _ b _ O1); [done|done|].
  unfold a_status. change (a_disk (calm _)) with (a_disk (read_started m lba a)). rewrite Hd.
  unfold read_started. by rewrite Hm.
Qed.

(** Channel 1 is the secondary controller to the read and the primary one to
    the write: a sector written through channel 1 lands on the primary master,
    and channel 1 reads back what the secondary master held before. *)
Theorem ide_channel_one_mismatch {hw : Type} `{AtaPorts hw} (N fuel : nat) (h : hw) (m0 m1 : image) (a b : ata) (lba : Z) (s s0 s1 : list Z) :
  on h false a b -> ide_ready N false m0 a -> ide_ready N true m1 b -> (N < fuel)%nat -> 0 <= lba < 2 ^ 28 ->
  sector_ok s -> m0 !! lba = Some s0 -> m1 !! lba = Some s1 ->
  exists h1 h2 a', write_sector_ide fuel 1 lba s h = Done (0, h1) /\ read_sector_ide fuel 1 lba h1 = Done (s1, h2) /\
    ata_of h2 false = a' /\ a_drives a' false = Some (<[lba := s]> m0).
Proof.
  intros Ho R0 R1 Hf Hl Hs Hm0 Hm1.
  destruct (write_run N fuel h false m0 a b 1 lba s Ho R0 Hl ltac:(by exists s0) Hs eq_refl Hf) as (h1 & a' & E1 & [O1 O2] & R').
  destruct (read_run N fuel h1 true m1 b a' 1 lba s1) as (h2 & b' & E2 & [O3 O4] & _); try done.
  exists h1, h2, a'. split; [done|]. split; [done|]. split; [done|]. apply R'.
Qed.

(** ** Witnesses *)
Definition demo_sector (v : Z) : list Z := replicate 512 v.
Definition demo_image (v : Z) : image := {[7 := demo_sector v]}.
Definition demo_ata (v : Z) : ata :=
  Ata 0 0 0 0xE0 Idle 0 0 (fun _ => 3%nat) (fun d : bool => if d then None else Some (demo_image v)) [].
Definition demo_hw : bool -> ata := fun c => if c then demo_ata 1 else demo_ata 2.
Lemma demo_sector_ok v : 0 <= v < 256 -> sector_ok (demo_sector v).
Proof. intros. split; [done|]. by apply Forall_replicate. Qed.
Lemma demo_ready c v : 0 <= v < 256 -> ide_ready 3 c (demo_image v) (demo_ata v).
Proof. intros. split; try done. apply map_Forall_singleton. by apply demo_sector_ok. Qed.
Lemma ide_refines_block_device_witness :
  (is_Some (dev_read (demo_image 2) 7) ->
     exists h' a' r, read_sector_ide 4 0 7 demo_hw = Done (r, h') /\ dev_read (demo_image 2) 7 = Some r /\
       on h' false a' (demo_ata 1) /\ ide_ready 3 false (demo_image 2) a') /\
  (exists h' a', write_sector_ide 4 0 7 (demo_sector 9) demo_hw = Done (fst (dev_write (demo_image 2) 7 (demo_sector 9)), h') /\
     on h' false a' (demo_ata 1) /\ a_drives a' false = Some (snd (dev_write (demo_image 2) 7 (demo_sector 9))) /\
     (is_Some (dev_read (demo_image 2) 7) -> ide_ready 3 false (snd (dev_write (demo_image 2) 7 (demo_sector 9))) a')).
Proof.
  apply (ide_refines_block_device 3 4 demo_hw (demo_image 2) (demo_ata 2) (demo_ata 1) 7 (demo_sector 9));
    [done|by apply demo_ready|lia|lia|by apply demo_sector_ok].
Defined.
Lemma read_sector_ide_hangs_witness : read_sector_ide 1000 0 8 demo_hw = Stuck.
Proof.
  apply (read_sector_ide_hangs 3 1000 demo_hw (demo_image 2) (demo_ata 2) (demo_ata 1) 8); [done|by apply demo_ready|lia|done].
Defined.
Lemma ide_channel_one_mismatch_witness :
  exists h1 h2 a', write_sector_ide 4 1 7 (demo_sector 9) demo_hw = Done (0, h1) /\
    read_sector_ide 4 1 7 h1 = Done (demo_sector 1, h2) /\
    ata_of h2 false = a' /\ a_drives a' false = Some (<[7 := demo_sector 9]> (demo_image 2)).
Proof.
  apply (ide_channel_one_mismatch 3 4 demo_hw (demo_image 2) (demo_image 1) (demo_ata 2) (demo_ata 1) 7 (demo_sector 9) (demo_sector 2) (demo_sector 1));
    [done|by apply demo_ready|by apply demo_ready|lia|lia|by apply demo_sector_ok|done|done].
Defined.
