(* ===== verification/Pci.v ===== *)
(** * Pci: configuration space, card discovery, boot memory map

    src/libs/pci/pci.h, the discovery part of src/core/network/e1000.h and
    src/libs/grub/grub.h.  The 32-bit ports are the interface [PortIO32]; what
    the configuration mechanism promises is [PciConfig], with the instance
    [pci_regs]. *)
From S2P Require Import Prelude Bytes MemLib.
Open Scope Z_scope.

Definition PCI_CONFIG_ADDRESS : Z := 0xCF8.
Definition PCI_CONFIG_DATA : Z := 0xCFC.

Class PortIO32 (hw : Type) := {
  outl : hw -> Z -> Z -> hw;
  inl : hw -> Z -> Z * hw
}.
(** Mechanism 1: the address port selects a 32-bit register, the data port
    reads it and writes those of its bits that are writable. *)
Class PciConfig (hw : Type) `{PortIO32 hw} := {
  cfg_addr : hw -> Z;
  cfg : hw -> Z -> Z;
  cfg_rw : Z -> Z;
  cfg_range : forall h a, 0 <= cfg h a < 2 ^ 32;
  cfg_select : forall h a, 0 <= a < 2 ^ 32 ->
    cfg_addr (outl h PCI_CONFIG_ADDRESS a) = a /\ (forall b, cfg (outl h PCI_CONFIG_ADDRESS a) b = cfg h b);
  cfg_write : forall h v b, 0 <= v < 2 ^ 32 ->
    cfg_addr (outl h PCI_CONFIG_DATA v) = cfg_addr h /\
    cfg (outl h PCI_CONFIG_DATA v) b =
      if b =? cfg_addr h then Z.lor (Z.land (cfg h b) (Z.lnot (cfg_rw b))) (Z.land v (cfg_rw b)) else cfg h b;
  cfg_read : forall h,
    fst (inl h PCI_CONFIG_DATA) = cfg h (cfg_addr h) /\ cfg_addr (snd (inl h PCI_CONFIG_DATA)) = cfg_addr h /\
    (forall b, cfg (snd (inl h PCI_CONFIG_DATA)) b = cfg h b)
}.

(** ** Access *)
Definition pci_address (bus dev func offset : Z) : Z :=
  Z.lor (Z.lor (Z.lor (Z.lor (Z.shiftl 1 31) (Z.shiftl bus 16)) (Z.shiftl dev 11)) (Z.shiftl func 8)) (Z.land offset 0xFC).
(** [x & ~3] of an eight-bit offset. *)
Definition align4 (offset : Z) : Z := Z.land offset (Z.lnot 3).

Section Access.
Context {hw : Type} `{PortIO32 hw}.

Definition pci_write (addr : Z) : ST hw unit := modify (fun h => outl h PCI_CONFIG_ADDRESS addr).
Definition pci_read : ST hw Z := fun h => Done (inl h PCI_CONFIG_DATA).
Definition pci_read32 (bus dev func offset : Z) : ST hw Z :=
  _ ← pci_write (pci_address bus dev func offset); pci_read.
Definition pci_write32 (bus dev func offset value : Z) : ST hw unit :=
  _ ← pci_write (pci_address bus dev func offset); modify (fun h => outl h PCI_CONFIG_DATA value).
Definition pci_write16 (bus dev func offset value : Z) : ST hw unit :=
  old ← pci_read32 bus dev func (align4 offset);
  let shift := Z.land offset 2 * 8 in
  let mask := u32 (Z.shiftl 0xFFFF shift) in
  pci_write32 bus dev func (align4 offset) (Z.lor (Z.land old (Z.lnot mask)) (u32 (Z.shiftl value shift))).
Definition pci_write8 (bus dev func offset value : Z) : ST hw unit :=
  old ← pci_read32 bus dev func (align4 offset);
  let shift := Z.land offset 3 * 8 in
  let mask := u32 (Z.shiftl 0xFF shift) in
  pci_write32 bus dev func (align4 offset) (Z.lor (Z.land old (Z.lnot mask)) (u32 (Z.shiftl value shift))).
Definition pci_read_vendor (bus dev func : Z) : ST hw Z :=
  _ ← pci_write (Z.lor (Z.lor (Z.lor (Z.shiftl 1 31) (Z.shiftl bus 16)) (Z.shiftl dev 11)) (Z.shiftl func 8));
  v ← pci_read; mret (u16 (Z.land v 0xFFFF)).
Definition pci_read16 (bus dev func offset : Z) : ST hw Z :=
  v ← pci_read32 bus dev func (align4 offset);
  mret (u16 (Z.shiftr v ((offset - align4 offset) * 8))).
Definition pci_read8 (bus dev func offset : Z) : ST hw Z :=
  v ← pci_read32 bus dev func (align4 offset);
  mret (Z.land (Z.shiftr v (Z.land offset 3 * 8)) 0xFF).
Definition pci_config_read16 (bus device function offset : Z) : ST hw Z :=
  _ ← pci_write (pci_address bus device function offset);
  value ← pci_read;
  mret (u16 (Z.land (Z.shiftr value (Z.land offset 2 * 8)) 0xFFFF)).
Definition pci_config_read8 (bus device function offset : Z) : ST hw Z :=
  _ ← pci_write (pci_address bus device function offset);
  value ← pci_read;
  mret (u8 (Z.land (Z.shiftr value (Z.land offset 3 * 8)) 0xFF)).

(** ** The network card *)
Record e1000_place := Place { found_bus : Z; found_dev : Z; found_vendor : Z; found_device : Z }.
Definition e1000_probe (bus dev func : Z) : ST hw (option e1000_place) :=
  vendor ← pci_read_vendor bus dev func;
  if vendor =? 0xFFFF then mret None
  else
    device_id ← pci_read16 bus dev func 0x02;
    class_code ← pci_read8 bus dev func 0x0B;
    subclass ← pci_read8 bus dev func 0x0A;
    mret (if (vendor =? 0x8086) && (class_code =? 0x02) && (subclass =? 0x00)
          then Some (Place bus dev vendor device_id) else None).
(** The bus counter has eight bits, so that the test [bus < 256] always holds:
    the loop is bounded here by fuel. *)
Fixpoint find_first_e1000_from (fuel : nat) (bus : Z) : ST hw e1000_place :=
  match fuel with
  | O => fun _ => Stuck
  | S f =>
      r ← loop_m 32 0 (fun dev => loop_m 8 0 (fun func => e1000_probe bus dev func));
      match r : option e1000_place with
      | Some p => mret p
      | None => find_first_e1000_from f (u8 (bus + 1))
      end
  end.
Definition find_first_e1000 (fuel : nat) : ST hw e1000_place := find_first_e1000_from fuel 0.

(** The walks over the capability list end when a pointer is 0. *)
Fixpoint msi_enabled_from (fuel : nat) (bus dev cap_ptr : Z) : ST hw bool :=
  match fuel with
  | O => fun _ => Stuck
  | S f =>
      if cap_ptr =? 0 then mret false
      else
        cap_id ← pci_read8 bus dev 0 cap_ptr;
        if cap_id =? 0x05 then
          v ← pci_read32 bus dev 0 (u8 (cap_ptr + 2));
          mret (negb (Z.land (Z.land v 0xFFFF) 0x1 =? 0))
        else
          next ← pci_read8 bus dev 0 (u8 (cap_ptr + 1));
          msi_enabled_from f bus dev next
  end.
Definition e1000_msi_enabled (fuel : nat) (bus dev : Z) : ST hw bool :=
  v ← pci_read32 bus dev 0 0x04;
  let status := u16 (Z.shiftr v 16) in
  if Z.land status (Z.shiftl 1 4) =? 0 then mret false
  else cap_ptr ← pci_read8 bus dev 0 0x34; msi_enabled_from fuel bus dev cap_ptr.
Fixpoint enable_msi_from (fuel : nat) (bus dev func cap_ptr : Z) : ST hw unit :=
  match fuel with
  | O => fun _ => Stuck
  | S f =>
      if cap_ptr =? 0 then mret tt
      else
        cap_id ← pci_read8 bus dev func cap_ptr;
        if cap_id =? 0x05 then
          msg_ctrl ← pci_read16 bus dev func (u8 (cap_ptr + 2));
          _ ← pci_write32 bus dev func (u8 (cap_ptr + 4)) 0xFEE00000;
          _ ← pci_write16 bus dev func (u8 (cap_ptr + 8)) 0x40;
          pci_write16 bus dev func (u8 (cap_ptr + 2)) (Z.lor msg_ctrl 0x0001)
        else
          next ← pci_read8 bus dev func (u8 (cap_ptr + 1));
          enable_msi_from f bus dev func next
  end.
Definition e1000_enable_msi (fuel : nat) (bus dev func : Z) : ST hw unit :=
  cap_ptr ← pci_read8 bus dev func 0x34; enable_msi_from fuel bus dev func cap_ptr.
Definition get_mmio_base (bus dev func : Z) : ST hw Z :=
  bar0 ← pci_read32 bus dev func 0x10; mret (Z.land bar0 (u32 (Z.lnot 0xF))).
(** The two address registers are 32-bit words of the card's memory [mmio]. *)
Definition get_mac (mmio : Z -> Z) (bus dev : Z) : ST hw (list Z) :=
  base ← get_mmio_base bus dev 0;
  let ral := mmio (base + 0x5400) in
  let rah := mmio (base + 0x5404) in
  mret [Z.land (Z.shiftr ral 0) 0xFF; Z.land (Z.shiftr ral 8) 0xFF; Z.land (Z.shiftr ral 16) 0xFF;
        Z.land (Z.shiftr ral 24) 0xFF; Z.land (Z.shiftr rah 0) 0xFF; Z.land (Z.shiftr rah 8) 0xFF].
End Access.

(** ** The memory map of the boot loader *)
Definition MULTIBOOT_TAG_TYPE_MMAP : Z := 6.
Definition MAX_TOTAL : Z := 128 * 1024 * 1024 * 1024 * 1024.

(** Entries of [entry_size] bytes up to [end_]. *)
Fixpoint sum_entries (fuel : nat) (m : mem) (entry_ptr end_ entry_size total : Z) : option Z :=
  match fuel with
  | O => None
  | S f =>
      if entry_ptr <? end_ then
        let total := if ld_le 4 m (entry_ptr + 16) =? 1 then u64 (total + ld_le 8 m (entry_ptr + 8)) else total in
        sum_entries f m (entry_ptr + entry_size) end_ entry_size total
      else Some total
  end.
Fixpoint find_mmap_tag (fuel : nat) (m : mem) (tag : Z) : option Z :=
  match fuel with
  | O => None
  | S f =>
      if ld_le 4 m tag =? 0 then Some 0
      else if ld_le 4 m tag =? MULTIBOOT_TAG_TYPE_MMAP then
        sum_entries f m (tag + 16) (tag + ld_le 4 m (tag + 4)) (ld_le 4 m (tag + 8)) 0
      else find_mmap_tag f m (Z.land (u64 (tag + ld_le 4 m (tag + 4) + 7)) (u64 (Z.lnot 7)))
  end.
(** [total_memory_blocks_count] and [total_memory]. *)
Definition get_total_memory (fuel : nat) (m : mem) (ptr : Z) : option (Z * Z) :=
  total ← find_mmap_tag fuel m (ptr + 8);
  let total := if MAX_TOTAL <? total then MAX_TOTAL else total in
  Some (total / 4096, total / 4096 * 4096).

(** A register file is such hardware. *)
Section Registers.
Record pci_file := PciFile { pf_addr : Z; pf_regs : Z -> Z }.
#[export] Instance pci_file_ports : PortIO32 pci_file := {
  outl h p v := if p =? PCI_CONFIG_ADDRESS then PciFile v (pf_regs h)
                else if p =? PCI_CONFIG_DATA then PciFile (pf_addr h) (fun b => if b =? pf_addr h then v else pf_regs h b)
                else h;
  inl h p := (if p =? PCI_CONFIG_DATA then u32 (pf_regs h (pf_addr h)) else 0, h)
}.
#[export] Instance pci_regs : PciConfig pci_file.
Proof.
  refine {| cfg_addr := pf_addr; cfg h a := u32 (pf_regs h a); cfg_rw _ := 2 ^ 32 - 1 |}.
  - intros. apply u32_range.
  - intros. done.
  - intros h v b Hv. split; [done|]. cbn [outl pci_file_ports cfg_addr pf_regs pf_addr]. change (PCI_CONFIG_DATA =? PCI_CONFIG_ADDRESS) with false.
    cbn [pf_regs pf_addr Z.eqb PCI_CONFIG_DATA Pos.eqb]. destruct (b =? pf_addr h); [|done].
    change (2 ^ 32 - 1) with (Z.ones 32). rewrite <- Z.ldiff_land, Z.ldiff_ones_r, Z.land_ones by lia.
    rewrite Z.shiftr_div_pow2, Z.div_small by (lia || apply u32_range). rewrite Z.shiftl_0_l, Z.lor_0_l. done.
  - intros. done.
Defined.
End Registers.

(** ** Lemmas *)
Section Fields.
(** A field of [k] bits replaced in a word. *)
Definition put_field (k sh v old : Z) : Z := Z.lor (Z.land old (Z.lnot (Z.shiftl (Z.ones k) sh))) (Z.shiftl v sh).
Definition get_field (k sh x : Z) : Z := Z.shiftr x sh mod 2 ^ k.
Lemma get_put_field k sh sh' v old :
  0 < k -> 0 <= sh -> 0 <= sh' -> 0 <= v < 2 ^ k -> (sh' = sh \/ sh' + k <= sh \/ sh + k <= sh') ->
  get_field k sh' (put_field k sh v old) = if sh' =? sh then v else get_field k sh' old.
Proof.
  intros Hk Hs Hs' Hv Hd. apply Z.bits_inj'. intros n Hn. unfold get_field, put_field.
  destruct (Z.ltb_spec n k) as [Hnk|Hnk].
  2: { rewrite Z.mod_pow2_bits_high by lia. destruct (_ =? _); [|by rewrite Z.mod_pow2_bits_high by lia].
       rewrite <- (Z.mod_small v (2 ^ k)) by done. by rewrite Z.mod_pow2_bits_high by lia. }
  rewrite Z.mod_pow2_bits_low, Z.shiftr_spec, Z.lor_spec, Z.land_spec, Z.lnot_spec, !Z.shiftl_spec by lia.
  destruct (Z.eqb_spec sh' sh) as [->|].
  - replace (n + sh - sh) with n by lia. rewrite Z.ones_spec_low by lia. by rewrite andb_false_r.
  - rewrite Z.mod_pow2_bits_low, Z.shiftr_spec by lia. destruct (Z.le_gt_cases sh (n + sh')).
    + rewrite Z.ones_spec_high by lia. rewrite andb_true_r.
      rewrite <- (Z.mod_small v (2 ^ k)) by done. rewrite (Z.mod_pow2_bits_high v) by lia. apply orb_false_r.
    + rewrite !(Z.testbit_neg_r _ (n + sh' - sh)) by lia. by rewrite andb_true_r, orb_false_r.
Qed.
Lemma put_field_range k sh v old :
  0 < k -> 0 <= sh -> sh + k <= 32 -> 0 <= v < 2 ^ k -> 0 <= old < 2 ^ 32 -> 0 <= put_field k sh v old < 2 ^ 32.
Proof.
  intros Hk Hs Hle Hv Ho. unfold put_field.
  assert (P : 0 <= Z.lor (Z.land old (Z.lnot (Z.shiftl (Z.ones k) sh))) (Z.shiftl v sh)).
  { apply Z.lor_nonneg. split; [apply Z.land_nonneg; lia|apply Z.shiftl_nonneg; lia]. }
  split; [done|]. set (x := Z.lor _ _) in *. destruct (Z.eq_dec x 0) as [->|]; [lia|].
  apply Z.log2_lt_pow2; [lia|]. apply Z.lt_nge. intros C.
  assert (T : Z.testbit x (Z.log2 x) = true) by (apply Z.bit_log2; lia). unfold x in T at 1.
  rewrite Z.lor_spec, Z.land_spec, Z.shiftl_spec in T by lia.
  rewrite <- (Z.mod_small old (2 ^ 32)) in T by lia. rewrite Z.mod_pow2_bits_high in T by lia.
  rewrite <- (Z.mod_small v (2 ^ k)) in T by lia. rewrite Z.mod_pow2_bits_high in T by lia. discriminate.
Qed.
(** Facts about eight-bit offsets, by enumeration. *)
Lemma offset_cases (p : Z -> bool) : forallb p (seqZ 0 256) = true -> forall o, 0 <= o < 256 -> p o = true.
Proof. intros F o Ho. rewrite forallb_forall in F. apply F, list_elem_of_In, elem_of_seqZ. lia. Qed.
Lemma offset_parts o : 0 <= o < 256 ->
  Z.land o 0xFC = 4 * (o / 4) /\ align4 o = 4 * (o / 4) /\ Z.land o 3 = o mod 4 /\
  (o mod 2 = 0 -> Z.land o 2 = o mod 4) /\ Z.land (4 * (o / 4)) 0xFC = 4 * (o / 4).
Proof.
  intros Ho. pose proof (offset_cases (fun o => (Z.land o 0xFC =? 4 * (o / 4)) && (align4 o =? 4 * (o / 4)) && (Z.land o 3 =? o mod 4)
    && (negb (o mod 2 =? 0) || (Z.land o 2 =? o mod 4)) && (Z.land (4 * (o / 4)) 0xFC =? 4 * (o / 4))) eq_refl o Ho) as C.
  cbv beta in C. rewrite !andb_true_iff, !Z.eqb_eq, orb_true_iff, negb_true_iff, Z.eqb_neq, Z.eqb_eq in C.
  destruct C as ((((A & B) & D) & E) & F). repeat split; try done. intros. destruct E; [lia|done].
Qed.
Definition place_ok (bus dev func offset : Z) : Prop :=
  0 <= bus < 256 /\ 0 <= dev < 32 /\ 0 <= func < 8 /\ 0 <= offset < 256.
Lemma pci_address_value bus dev func o : place_ok bus dev func o ->
  pci_address bus dev func o = 2 ^ 31 + bus * 65536 + dev * 2048 + func * 256 + 4 * (o / 4).
Proof.
  intros (Hb & Hd & Hf & Ho). unfold pci_address. destruct (offset_parts o Ho) as (-> & _).
  assert (0 <= 4 * (o / 4) < 256) by (Z.to_euclidean_division_equations; lia).
  rewrite <- !Z.lor_assoc, (lor_shiftl func) by lia. rewrite (lor_shiftl dev) by lia. rewrite (lor_shiftl bus) by lia.
  rewrite lor_shiftl by lia. lia.
Qed.
Lemma pci_address_range bus dev func o : place_ok bus dev func o -> 0 <= pci_address bus dev func o < 2 ^ 32.
Proof. intros P. rewrite pci_address_value by done. destruct P as (? & ? & ? & ?). Z.to_euclidean_division_equations. lia. Qed.
Lemma pci_address_inj b1 d1 f1 o1 b2 d2 f2 o2 :
  place_ok b1 d1 f1 o1 -> place_ok b2 d2 f2 o2 -> pci_address b1 d1 f1 o1 = pci_address b2 d2 f2 o2 ->
  b1 = b2 /\ d1 = d2 /\ f1 = f2 /\ o1 / 4 = o2 / 4.
Proof.
  intros P1 P2. rewrite !pci_address_value by done. destruct P1 as (? & ? & ? & ?), P2 as (? & ? & ? & ?). intros E.
  assert (0 <= 4 * (o1 / 4) < 256) by (Z.to_euclidean_division_equations; lia).
  assert (0 <= 4 * (o2 / 4) < 256) by (Z.to_euclidean_division_equations; lia). repeat split; lia.
Qed.
End Fields.

Section Runs.
Context {hw : Type} `{PciConfig hw}.

(** The configuration space as an array of fields of [k] bits. *)
Definition cfg_field (k : Z) (h : hw) (bus dev func o : Z) : Z :=
  get_field k (o mod 4 * 8) (cfg h (pci_address bus dev func o)).
Definition same_cfg (h h' : hw) : Prop := forall b, cfg h' b = cfg h b.

Lemma pci_read32_run h bus dev func o : place_ok bus dev func o ->
  exists h', pci_read32 bus dev func o h = Done (cfg h (pci_address bus dev func o), h') /\ same_cfg h h'.
Proof.
  intros P. unfold pci_read32, pci_write. rewrite modify_bind. destruct (cfg_select h _ (pci_address_range _ _ _ _ P)) as [A B].
  set (h1 := outl h _ _) in *. destruct (cfg_read h1) as (C & D & E). unfold pci_read.
  destruct (inl h1 PCI_CONFIG_DATA) as [v h2]. cbn [fst snd] in *. exists h2. rewrite C, A, B. split; [done|].
  intros b. by rewrite E, B.
Qed.
Lemma align_place bus dev func o : place_ok bus dev func o ->
  place_ok bus dev func (align4 o) /\ pci_address bus dev func (align4 o) = pci_address bus dev func o.
Proof.
  intros P. pose proof P as (Hb & Hd & Hf & Ho). destruct (offset_parts o Ho) as (E & A & _ & _ & F). split.
  - repeat split; try lia; rewrite A; Z.to_euclidean_division_equations; lia.
  - unfold pci_address. by rewrite A, E, F.
Qed.
Lemma pci_read16_run h bus dev func o : place_ok bus dev func o ->
  exists h', pci_read16 bus dev func o h = Done (cfg_field 16 h bus dev func o, h') /\ same_cfg h h'.
Proof.
  intros P. destruct (align_place _ _ _ _ P) as [P' E]. destruct (pci_read32_run h _ _ _ _ P') as (h' & R & S).
  unfold pci_read16. rewrite (bind_done _ _ _ _ _ R), E. exists h'. split; [|done].
  destruct P as (_ & _ & _ & Ho). destruct (offset_parts o Ho) as (_ & A & _).
  replace (o - align4 o) with (o mod 4) by (rewrite A; Z.to_euclidean_division_equations; lia). done.
Qed.
Lemma pci_read8_run h bus dev func o : place_ok bus dev func o ->
  exists h', pci_read8 bus dev func o h = Done (cfg_field 8 h bus dev func o, h') /\ same_cfg h h'.
Proof.
  intros P. destruct (align_place _ _ _ _ P) as [P' E]. destruct (pci_read32_run h _ _ _ _ P') as (h' & R & S).
  unfold pci_read8. rewrite (bind_done _ _ _ _ _ R), E. exists h'. split; [|done].
  destruct P as (_ & _ & _ & Ho). destruct (offset_parts o Ho) as (_ & _ & -> & _).
  change 0xFF with (Z.ones 8). by rewrite Z.land_ones by lia.
Qed.
Lemma pci_write32_run h bus dev func o v : place_ok bus dev func o -> 0 <= v < 2 ^ 32 ->
  cfg_rw (pci_address bus dev func o) = Z.ones 32 ->
  exists h', pci_write32 bus dev func o v h = Done (tt, h') /\
    (forall b, cfg h' b = if b =? pci_address bus dev func o then v else cfg h b).
Proof.
  intros P Hv W. unfold pci_write32, pci_write. rewrite modify_bind.
  destruct (cfg_select h _ (pci_address_range _ _ _ _ P)) as [A B]. eexists. split; [reflexivity|]. intros b.
  destruct (cfg_write (outl h PCI_CONFIG_ADDRESS (pci_address bus dev func o)) v b Hv) as [_ ->]. rewrite A, B.
  destruct (Z.eqb_spec b (pci_address bus dev func o)) as [->|]; [|done].
  rewrite W, <- Z.ldiff_land, Z.ldiff_ones_r, Z.land_ones, Z.shiftr_div_pow2, Z.div_small by (lia || apply cfg_range).
  by rewrite Z.shiftl_0_l, Z.lor_0_l, Z.mod_small.
Qed.
(** The common core of the two narrow writes. *)
Lemma field_write_run k h bus dev func o v sh (w : ST hw unit) :
  0 < k -> place_ok bus dev func o -> 0 <= v < 2 ^ k -> cfg_rw (pci_address bus dev func o) = Z.ones 32 ->
  sh = o mod 4 * 8 -> sh + k <= 32 ->
  w = (old ← pci_read32 bus dev func (align4 o);
       pci_write32 bus dev func (align4 o) (put_field k sh v old)) ->
  exists h', w h = Done (tt, h') /\
    (forall b, cfg h' b = if b =? pci_address bus dev func o then put_field k sh v (cfg h b) else cfg h b).
Proof.
  intros Hk P Hv W -> Hsh ->. destruct (align_place _ _ _ _ P) as [P' E].
  destruct (pci_read32_run h _ _ _ _ P') as (h1 & R & S). rewrite (bind_done _ _ _ _ _ R), E.
  assert (0 <= o mod 4) by (apply Z.mod_pos_bound; lia).
  edestruct (pci_write32_run h1 bus dev func (align4 o)) as (h2 & R2 & S2);
    [done|apply (put_field_range k (o mod 4 * 8) v (cfg h (pci_address bus dev func o))); try lia; apply cfg_range|by rewrite E|].
  exists h2. split; [done|]. intros b. rewrite S2, E, S. by destruct (Z.eqb_spec b (pci_address bus dev func o)) as [->|].
Qed.
Lemma field_update k h h' bus dev func o v b2 d2 f2 o2 :
  0 < k -> place_ok bus dev func o -> place_ok b2 d2 f2 o2 -> 0 <= v < 2 ^ k ->
  (k | o mod 4 * 8) -> (k | o2 mod 4 * 8) ->
  (forall b, cfg h' b = if b =? pci_address bus dev func o then put_field k (o mod 4 * 8) v (cfg h b) else cfg h b) ->
  cfg_field k h' b2 d2 f2 o2 =
    if bool_decide (bus = b2 /\ dev = d2 /\ func = f2 /\ o = o2) then v else cfg_field k h b2 d2 f2 o2.
Proof.
  intros Hk P P2 Hv [x Hx] [y Hy] S. unfold cfg_field. rewrite S.
  assert (0 <= o mod 4) by (apply Z.mod_pos_bound; lia). assert (0 <= o2 mod 4) by (apply Z.mod_pos_bound; lia).
  destruct (Z.eqb_spec (pci_address b2 d2 f2 o2) (pci_address bus dev func o)) as [E|N].
  - assert (Hd : o2 mod 4 * 8 = o mod 4 * 8 \/ o2 mod 4 * 8 + k <= o mod 4 * 8 \/ o mod 4 * 8 + k <= o2 mod 4 * 8).
    { rewrite Hx, Hy. destruct (Z.lt_trichotomy x y) as [|[->|]]; [right; right; nia|by left|right; left; nia]. }
    rewrite get_put_field by lia. apply pci_address_inj in E as (<- & <- & <- & Eo); [|done|done].
    destruct (Z.eqb_spec (o2 mod 4 * 8) (o mod 4 * 8)) as [Em|Nm].
    + rewrite bool_decide_true; [done|]. repeat split; try done. pose proof (Z.div_mod o 4). pose proof (Z.div_mod o2 4). lia.
    + rewrite bool_decide_false; [done|]. intros (_ & _ & _ & ->). done.
  - rewrite bool_decide_false; [done|]. by intros (-> & -> & -> & ->).
Qed.
End Runs.

(** Narrow writes to configuration space are exact: on a writable register,
    [pci_write16] and [pci_write8] change the addressed 16-bit or 8-bit field
    of that device to the value and leave every other field of every device as
    it is, and the narrow reads return the fields. *)
Theorem pci_narrow_access {hw : Type} `{PciConfig hw} (h : hw) (bus dev func o v : Z) :
  place_ok bus dev func o -> cfg_rw (pci_address bus dev func o) = Z.ones 32 ->
  (o mod 2 = 0 -> 0 <= v < 65536 ->
     exists h', pci_write16 bus dev func o v h = Done (tt, h') /\
       (forall b d f p, place_ok b d f p -> p mod 2 = 0 ->
          exists h'', pci_read16 b d f p h' =
            Done (if bool_decide (bus = b /\ dev = d /\ func = f /\ o = p) then v else cfg_field 16 h b d f p, h''))) /\
  (0 <= v < 256 ->
     exists h', pci_write8 bus dev func o v h = Done (tt, h') /\
       (forall b d f p, place_ok b d f p ->
          exists h'', pci_read8 b d f p h' =
            Done (if bool_decide (bus = b /\ dev = d /\ func = f /\ o = p) then v else cfg_field 8 h b d f p, h''))).
Proof.
  intros P W. pose proof P as (_ & _ & _ & Ho). destruct (offset_parts o Ho) as (_ & _ & E3 & E2 & _).
  assert (M4 : 0 <= o mod 4 < 4) by (apply Z.mod_pos_bound; lia). split.
  - intros He Hv. assert (D16 : forall x, x mod 2 = 0 -> exists q, x mod 4 * 8 = q * 16 /\ 0 <= q <= 1).
    { intros x Hx. exists (x / 2 mod 2). Z.to_euclidean_division_equations. lia. }
    destruct (D16 o He) as (q & Eq & Hq).
    destruct (field_write_run 16 h bus dev func o v (o mod 4 * 8) (pci_write16 bus dev func o v)) as (h' & R & S); [lia|done|done|done|done|lia| |].
    { unfold pci_write16, put_field. rewrite (E2 He). rewrite (u32_id (Z.shiftl v _)); [|rewrite Z.shiftl_mul_pow2 by lia; rewrite Eq;
        assert (q = 0 \/ q = 1) as [-> | ->] by lia; lia].
      assert (q = 0 \/ q = 1) as [-> | ->] by lia; by rewrite Eq. }
    exists h'. split; [done|]. intros b d f p P2 Hp. destruct (pci_read16_run h' b d f p P2) as (h2 & R2 & _).
    exists h2. rewrite R2. do 2 f_equal. destruct (D16 p Hp) as (q2 & Eq2 & Hq2).
    apply field_update; [lia|done|done|done|by exists q|by exists q2|done].
  - intros Hv.
    destruct (field_write_run 8 h bus dev func o v (o mod 4 * 8) (pci_write8 bus dev func o v)) as (h' & R & S); [lia|done|done|done|done|lia| |].
    { unfold pci_write8, put_field. rewrite E3. rewrite (u32_id (Z.shiftl v _)); [|rewrite Z.shiftl_mul_pow2 by lia;
        assert (o mod 4 = 0 \/ o mod 4 = 1 \/ o mod 4 = 2 \/ o mod 4 = 3) as [-> |[-> |[-> | ->]]] by lia; lia].
      assert (o mod 4 = 0 \/ o mod 4 = 1 \/ o mod 4 = 2 \/ o mod 4 = 3) as [-> |[-> |[-> | ->]]] by lia; done. }
    exists h'. split; [done|]. intros b d f p P2. destruct (pci_read8_run h' b d f p P2) as (h2 & R2 & _).
    exists h2. rewrite R2. do 2 f_equal.
    apply field_update; [lia|done|done|done|by exists (o mod 4)|by exists (p mod 4)|done].
Qed.

(** ** Discovery *)
Fixpoint first_some {A} (n : nat) (i : Z) (p : Z -> option A) : option A :=
  match n with
  | O => None
  | S n' => match p i with Some a => Some a | None => first_some n' (i + 1) p end
  end.
Lemma loop_m_search {S A : Type} (I : S -> Prop) (p : Z -> option A) n : forall i (body : Z -> ST S (option A)) s,
  (forall j s, i <= j < i + Z.of_nat n -> I s -> exists s', body j s = Done (p j, s') /\ I s') -> I s ->
  exists s', loop_m n i body s = Done (first_some n i p, s') /\ I s'.
Proof.
  induction n as [|n IH]; intros i body s Hb Hs; cbn [loop_m first_some]; [by exists s|].
  destruct (Hb i s ltac:(lia) Hs) as (s1 & E & Hs1). rewrite (bind_done _ _ _ _ _ E).
  destruct (p i); [by exists s1|]. apply IH; [|done]. intros j s0 Hj. apply Hb. lia.
Qed.
Lemma first_some_None {A} n i (p : Z -> option A) :
  first_some n i p = None <-> (forall j, i <= j < i + Z.of_nat n -> p j = None).
Proof.
  revert i. induction n as [|n IH]; intros i; cbn [first_some]; [split; [intros _ j Hj; lia|done]|].
  destruct (p i) eqn:E.
  - split; [done|]. intros F. rewrite F in E by lia. done.
  - rewrite IH. split; intros F j Hj; [destruct (Z.eq_dec j i) as [->|]; [done|]|]; apply F; lia.
Qed.

Section Discovery.
Context {hw : Type} `{PciConfig hw}.

(** What configuration space says about one function, and about a bus. *)
Definition e1000_at (h : hw) (bus dev func : Z) : option e1000_place :=
  let vendor := cfg_field 16 h bus dev func 0 in
  if (vendor =? 0x8086) && (cfg_field 8 h bus dev func 0x0B =? 0x02) && (cfg_field 8 h bus dev func 0x0A =? 0x00)
  then Some (Place bus dev vendor (cfg_field 16 h bus dev func 0x02)) else None.
Definition e1000_on_bus (h : hw) (bus : Z) : option e1000_place :=
  first_some 32 0 (fun dev => first_some 8 0 (fun func => e1000_at h bus dev func)).

Lemma cfg_field_same k h h' b d f o : same_cfg h h' -> cfg_field k h' b d f o = cfg_field k h b d f o.
Proof. intros S. unfold cfg_field. by rewrite S. Qed.
Lemma pci_read_vendor_run h bus dev func : place_ok bus dev func 0 ->
  exists h', pci_read_vendor bus dev func h = Done (cfg_field 16 h bus dev func 0, h') /\ same_cfg h h'.
Proof.
  intros P. destruct (pci_read32_run h _ _ _ _ P) as (h' & R & S). exists h'. split; [|done].
  unfold pci_read_vendor. unfold pci_read32 in R.
  replace (pci_address bus dev func 0) with (Z.lor (Z.lor (Z.lor (Z.shiftl 1 31) (Z.shiftl bus 16)) (Z.shiftl dev 11)) (Z.shiftl func 8)) in R
    by (unfold pci_address; change (Z.land 0 0xFC) with 0; by rewrite Z.lor_0_r).
  unfold pci_write in *. rewrite modify_bind in *. rewrite (bind_done _ _ _ _ _ R). unfold mret, st_ret. do 2 f_equal.
  unfold cfg_field, get_field. change (0 mod 4 * 8) with 0. rewrite Z.shiftr_0_r.
  replace (pci_address bus dev func 0) with (Z.lor (Z.lor (Z.lor (Z.shiftl 1 31) (Z.shiftl bus 16)) (Z.shiftl dev 11)) (Z.shiftl func 8))
    by (unfold pci_address; change (Z.land 0 0xFC) with 0; by rewrite Z.lor_0_r).
  change 0xFFFF with (Z.ones 16). rewrite Z.land_ones by lia. unfold u16. by rewrite Z.mod_mod by lia.
Qed.
Lemma e1000_probe_run h0 h bus dev func : 0 <= bus < 256 -> 0 <= dev < 32 -> 0 <= func < 8 -> same_cfg h0 h ->
  exists h', e1000_probe bus dev func h = Done (e1000_at h0 bus dev func, h') /\ same_cfg h0 h'.
Proof.
  intros Hb Hd Hf S. assert (P : forall o, 0 <= o < 256 -> place_ok bus dev func o) by done.
  unfold e1000_probe, e1000_at.
  destruct (pci_read_vendor_run h bus dev func (P 0 ltac:(lia))) as (h1 & E1 & S1). rewrite (bind_done _ _ _ _ _ E1).
  rewrite (cfg_field_same 16 h0 h) by done. set (vendor := cfg_field 16 h0 bus dev func 0).
  assert (T1 : same_cfg h0 h1) by (intros b; by rewrite S1, S).
  destruct (Z.eqb_spec vendor 0xFFFF) as [Ev|]; [exists h1; rewrite Ev; done|].
  destruct (pci_read16_run h1 bus dev func 0x02 (P 0x02 ltac:(lia))) as (h2 & E2 & S2). rewrite (bind_done _ _ _ _ _ E2).
  assert (T2 : same_cfg h0 h2) by (intros b; by rewrite S2, T1).
  destruct (pci_read8_run h2 bus dev func 0x0B (P 0x0B ltac:(lia))) as (h3 & E3 & S3). rewrite (bind_done _ _ _ _ _ E3).
  assert (T3 : same_cfg h0 h3) by (intros b; by rewrite S3, T2).
  destruct (pci_read8_run h3 bus dev func 0x0A (P 0x0A ltac:(lia))) as (h4 & E4 & S4). rewrite (bind_done _ _ _ _ _ E4).
  exists h4. split; [|intros b; by rewrite S4, T3].
  by rewrite (cfg_field_same 16 h0 h1), (cfg_field_same 8 h0 h2), (cfg_field_same 8 h0 h3).
Qed.
Lemma bus_scan_run h0 h bus : 0 <= bus < 256 -> same_cfg h0 h ->
  exists h', loop_m 32 0 (fun dev => loop_m 8 0 (fun func => e1000_probe bus dev func)) h = Done (e1000_on_bus h0 bus, h') /\
    same_cfg h0 h'.
Proof.
  intros Hb S. apply (loop_m_search (same_cfg h0)); [|done]. intros dev h1 Hd S1.
  apply (loop_m_search (same_cfg h0)); [|done]. intros func h2 Hf S2. apply e1000_probe_run; [done|lia|lia|done].
Qed.
Lemma find_first_run fuel : forall h0 h bus, 0 <= bus < 256 -> same_cfg h0 h ->
  match first_some (Nat.min fuel (Z.to_nat (256 - bus))) bus (e1000_on_bus h0) with
  | Some p => exists h', find_first_e1000_from fuel bus h = Done (p, h') /\ same_cfg h0 h'
  | None => exists h', same_cfg h0 h' /\ find_first_e1000_from fuel bus h =
              if decide (fuel <= Z.to_nat (256 - bus))%nat then Stuck
              else find_first_e1000_from (fuel - Z.to_nat (256 - bus)) 0 h'
  end.
Proof.
  induction fuel as [|f IH]; intros h0 h bus Hb S; [cbn; exists h; by rewrite decide_True by lia|].
  replace (Nat.min (Datatypes.S f) (Z.to_nat (256 - bus))) with (Datatypes.S (Nat.min f (Z.to_nat (256 - (bus + 1))))) by lia.
  cbn [first_some find_first_e1000_from]. destruct (bus_scan_run h0 h bus Hb S) as (h1 & E & S1).
  rewrite (bind_done _ _ _ _ _ E). destruct (e1000_on_bus h0 bus); [by exists h1|].
  destruct (Z.eq_dec bus 255) as [->|].
  - change (u8 (255 + 1)) with 0. change (Z.to_nat (256 - (255 + 1))) with 0%nat. rewrite Nat.min_0_r. cbn [first_some].
    exists h1. split; [done|]. change (Z.to_nat (256 - 255)) with 1%nat. case_decide; [|by replace (Datatypes.S f - 1)%nat with f by lia].
    by replace f with 0%nat by lia.
  - rewrite u8_id by lia. specialize (IH h0 h1 (bus + 1) ltac:(lia) S1).
    destruct (first_some _ _ _); [done|]. destruct IH as (h2 & S2 & ->). exists h2. split; [done|].
    repeat case_decide; try lia; [done|]. f_equal. lia.
Qed.
End Discovery.

(** The search for the network card finds the first Intel Ethernet function in
    the order bus, device, function.  When there is none it never returns: the
    eight-bit bus counter wraps to 0 before the bound 256, so that no number of
    rounds is enough. *)
Theorem find_first_e1000_search {hw : Type} `{PciConfig hw} (h : hw) :
  match first_some 256 0 (e1000_on_bus h) with
  | Some p => exists h', find_first_e1000 256 h = Done (p, h') /\ same_cfg h h'
  | None => forall fuel, find_first_e1000 fuel h = Stuck
  end.
Proof.
  destruct (first_some 256 0 (e1000_on_bus h)) as [p|] eqn:E.
  - pose proof (find_first_run 256 h h 0 ltac:(lia) ltac:(done)) as R.
    change (Nat.min 256 (Z.to_nat (256 - 0))) with 256%nat in R. by rewrite E in R.
  - intros fuel. unfold find_first_e1000. assert (G : forall n h1 , (fuel <= n * 256)%nat -> same_cfg h h1 -> find_first_e1000_from fuel 0 h1 = Stuck).
    { intros n. revert fuel. induction n as [|n IH]; intros fuel h1 Hf S; [by replace fuel with 0%nat by lia|].
      pose proof (find_first_run fuel h h1 0 ltac:(lia) S) as R. change (Z.to_nat (256 - 0)) with 256%nat in R.
      assert (N : first_some (Nat.min fuel 256) 0 (e1000_on_bus h) = None).
      { apply first_some_None. rewrite first_some_None in E. intros j Hj. apply E. lia. }
      rewrite N in R. destruct R as (h2 & S2 & ->). case_decide; [done|]. apply IH; [lia|done]. }
    apply (G fuel h); [lia|done].
Qed.

(** ** Boot memory *)
(** The bytes of the entries of type 1. *)
Fixpoint usable (entries : list (Z * Z)) : Z :=
  match entries with [] => 0 | (len, type) :: r => (if type =? 1 then len else 0) + usable r end.
Definition entries_at (m : mem) (a es : Z) (entries : list (Z * Z)) : Prop :=
  forall i len type, entries !! i = Some (len, type) ->
    ld_le 8 m (a + Z.of_nat i * es + 8) = len /\ ld_le 4 m (a + Z.of_nat i * es + 16) = type.
Lemma usable_nonneg l : Forall (fun e => 0 <= fst e) l -> 0 <= usable l.
Proof. induction 1 as [|[len ty] r Hx Hr IH]; cbn in *; [lia|]. destruct (ty =? 1); lia. Qed.
Lemma sum_entries_run m es l : forall fuel a total,
  0 < es -> entries_at m a es l -> Forall (fun e => 0 <= fst e) l -> 0 <= total -> total + usable l < 2 ^ 64 -> (length l < fuel)%nat ->
  sum_entries fuel m a (a + Z.of_nat (length l) * es) es total = Some (total + usable l).
Proof.
  induction l as [|[len ty] l IH]; intros fuel a total Hes He Hn Ht Hb Hf; destruct fuel as [|f]; cbn [length] in *; try lia.
  - cbn [sum_entries]. rewrite Z.add_0_r, Z.ltb_irrefl. cbn. f_equal. lia.
  - cbn [sum_entries]. destruct (He 0%nat len ty eq_refl) as [E1 E2].
    rewrite Z.mul_0_l, Z.add_0_r in E1, E2. rewrite E1, E2. apply list.Forall_cons in Hn as [Hl Hn]. cbn [fst] in Hl.
    pose proof (usable_nonneg l Hn). cbn [usable] in Hb.
    destruct (Z.ltb_spec a (a + Z.of_nat (S (length l)) * es)); [|nia].
    replace (a + Z.of_nat (S (length l)) * es) with (a + es + Z.of_nat (length l) * es) by nia.
    rewrite IH; [|done| |done| | |lia].
    + cbn [usable]. destruct (ty =? 1); [rewrite u64_id by lia|]; f_equal; lia.
    + intros i l' t' Hi. destruct (He (S i) l' t' Hi) as [F1 F2].
      replace (a + es + Z.of_nat i * es + 8) with (a + Z.of_nat (S i) * es + 8) by lia.
      replace (a + es + Z.of_nat i * es + 16) with (a + Z.of_nat (S i) * es + 16) by lia. done.
    + destruct (ty =? 1); [rewrite u64_id by lia|]; lia.
    + destruct (ty =? 1); [rewrite u64_id by lia|]; lia.
Qed.
(** The memory reported is the usable bytes of the map, in whole blocks. *)
Theorem get_total_memory_sums (m : mem) (ptr es : Z) (entries : list (Z * Z)) (fuel : nat) :
  ld_le 4 m (ptr + 8) = MULTIBOOT_TAG_TYPE_MMAP -> ld_le 4 m (ptr + 16) = es -> 0 < es ->
  ld_le 4 m (ptr + 12) = 16 + Z.of_nat (length entries) * es -> entries_at m (ptr + 24) es entries ->
  Forall (fun e => 0 <= fst e) entries -> usable entries < 2 ^ 64 -> (S (length entries) < fuel)%nat ->
  get_total_memory fuel m ptr =
    let total := Z.min (usable entries) MAX_TOTAL in Some (total / 4096, total / 4096 * 4096).
Proof.
  intros Ht He Hes Hsz Hen Hn Hb Hf. unfold get_total_memory. destruct fuel as [|f]; [lia|]. cbn [find_mmap_tag].
  rewrite Ht. change (MULTIBOOT_TAG_TYPE_MMAP =? 0) with false. rewrite Z.eqb_refl.
  replace (ptr + 8 + 4) with (ptr + 12) by lia. replace (ptr + 8 + 8) with (ptr + 16) by lia. replace (ptr + 8 + 16) with (ptr + 24) by lia.
  rewrite He, Hsz. replace (ptr + 8 + (16 + Z.of_nat (length entries) * es)) with (ptr + 24 + Z.of_nat (length entries) * es) by lia.
  rewrite sum_entries_run by (try done; lia). cbn [mbind option_bind]. rewrite Z.add_0_l.
  destruct (Z.ltb_spec MAX_TOTAL (usable entries)); [rewrite Z.min_r by lia|rewrite Z.min_l by lia]; done.
Qed.

(** *** Witnesses *)
Lemma pci_narrow_access_witness :
  exists h', pci_write16 0 3 0 6 0x0407 (PciFile 0 (fun _ => 0)) = Done (tt, h') /\
    exists h'', pci_read16 0 3 0 6 h' = Done (0x0407, h'').
Proof.
  destruct (pci_narrow_access (PciFile 0 (fun _ => 0)) 0 3 0 6 0x0407) as [H1 _].
  - repeat split; lia.
  - reflexivity.
  - destruct (H1 eq_refl ltac:(lia)) as (h' & E & H2). exists h'. split; [exact E|].
    destruct (H2 0 3 0 6) as (h'' & E2); [repeat split; lia|reflexivity|]. exists h''. exact E2.
Defined.
