(* ===== verification/Descr.v ===== *)
(** * Descr: descriptors, pipes and open files

    The descriptor calls of src/core/syscall/syscall1.h and syscall2.h.  The
    tables of a process ([struct file_inner]), the open files ([struct file])
    and the pipes are bytes of kernel memory at the offsets of the structures,
    because the calls erase and scan them as bytes; [fd_global] and
    [pipe_global] hold addresses.  The calls that reach sockets, terminals and
    the frame buffer through [sys_read] and [sys_write] go through the class
    [FileBackends]. *)
From Stdlib Require Import String Ascii.
From S2P Require Import Prelude Bytes MemLib StrLib Time KState Blocks Paging Threads Ipc User Vfs.
Open Scope Z_scope.

(** ** Structures *)
Inductive file_type :=
  FILE_NONE | FILE_REGULAR | FILE_CHAR_DEV | FILE_PIPE | FILE_DIR | FILE_SOCKET | FILE_SOCKET_UDS | FILE_TTY
| FILE_FRAME_BUFFER | FILE_SPECIAL_DIR | FILE_SPECIAL.
Definition file_type_code (t : file_type) : Z :=
  match t with
  | FILE_NONE => 0 | FILE_REGULAR => 1 | FILE_CHAR_DEV => 2 | FILE_PIPE => 3 | FILE_DIR => 4 | FILE_SOCKET => 5
  | FILE_SOCKET_UDS => 6 | FILE_TTY => 7 | FILE_FRAME_BUFFER => 8 | FILE_SPECIAL_DIR => 9 | FILE_SPECIAL => 10
  end.
(** The macros of filesystem.h, which hide the enumeration of scheduler.h from
    the headers included after it. *)
Definition O_RDONLY : Z := 0x0000.
Definition O_WRONLY : Z := 0x0001.
Definition O_RDWR : Z := 0x0002.
Definition O_CREAT : Z := 0x0040.
Definition O_APPEND : Z := 0x0400.
Definition O_TRUNC : Z := 0x0200.
Definition O_EXCL : Z := 0x0080.
Definition O_NONBLOCK : Z := 0x0800.
Definition MAX_FD : Z := 10480.
Definition MAX_PIPES_COUNT : Z := 5120.
Definition PIPE_BUF_SIZE : Z := 4070.

(** Offsets in [struct file_inner], [struct file] and [struct pipe]. *)
Definition sizeof_file_inner : Z := 80.
Definition fi_global_id : Z := 0.
Definition fi_offset : Z := 56.
Definition fi_open_flags : Z := 64.
Definition fi_type : Z := 68.
Definition fi_res_id : Z := 72.
Definition file_id : Z := 0.
Definition file_path : Z := 8.
Definition file_offset : Z := 568.
Definition file_open_flags : Z := 576.
Definition file_type_at : Z := 580.
Definition pipe_head : Z := 0.
Definition pipe_tail : Z := 8.
Definition pipe_buf : Z := 18.

(** ** State *)
Definition stuck {S A : Type} : ST S A := fun _ => Stuck.
Section State.
Context {disk : Type}.
Record sys := Sys {
  s_sm : sm_state;
  s_mem : mem;
  fd_global : gmap Z Z;
  pipe_global : gmap Z Z;
  s_disk : disk
}.
Definition s_k (s : sys) : kstate := sk (s_sm s).
Definition set_s_mem (m : mem) (s : sys) : sys := Sys (s_sm s) m (fd_global s) (pipe_global s) (s_disk s).
Definition set_fd_global (g : gmap Z Z) (s : sys) : sys := Sys (s_sm s) (s_mem s) g (pipe_global s) (s_disk s).
Definition set_pipe_global (g : gmap Z Z) (s : sys) : sys := Sys (s_sm s) (s_mem s) (fd_global s) g (s_disk s).
Definition set_s_k (k : kstate) (s : sys) : sys :=
  Sys (SmState k (sm_global (s_sm s)) (sm_heap (s_sm s))) (s_mem s) (fd_global s) (pipe_global s) (s_disk s).
Definition on_sm {A} (c : ST sm_state A) : ST sys A := fun s =>
  match c (s_sm s) with
  | Done (a, m) => Done (a, Sys m (s_mem s) (fd_global s) (pipe_global s) (s_disk s))
  | Panicked => Panicked | Faulted => Faulted | Stuck => Stuck
  end.
Definition on_kern {A} (c : ST kstate A) : ST sys A := on_sm (on_k c).
Definition on_fs {A} (c : ST disk A) : ST sys A := fun s =>
  match c (s_disk s) with
  | Done (a, d) => Done (a, Sys (s_sm s) (s_mem s) (fd_global s) (pipe_global s) d)
  | Panicked => Panicked | Faulted => Faulted | Stuck => Stuck
  end.
Definition upd_mem (f : mem -> mem) : ST sys unit := modify (fun s => set_s_mem (f (s_mem s)) s).
Definition ld64 (a : Z) : ST sys Z := gets (fun s => ld_le 8 (s_mem s) a).
Definition ld32 (a : Z) : ST sys Z := gets (fun s => ld_le 4 (s_mem s) a).
Definition st64 (a v : Z) : ST sys unit := upd_mem (fun m => st_le 8 m a v).
Definition st32 (a v : Z) : ST sys unit := upd_mem (fun m => st_le 4 m a v).
Definition fdg (s : sys) (i : Z) : Z := default 0 (fd_global s !! i).
Definition pipe_ptr (s : sys) (i : Z) : Z := default 0 (pipe_global s !! i).

(** [processes_info_ptr[get_current_pid()]->fd_addr] *)
Definition current_fds : ST sys Z :=
  pid ← on_kern get_current_pid;
  p ← on_kern (gets (fun k => proc k pid) ≫= deref);
  mret (p_fd_addr p).
Definition fd_entry (fds fd : Z) : Z := fds + sizeof_file_inner * fd.
(** [get_a_free_slot_with_size] on a descriptor table, with the byte bounds the
    callers pass. *)
Definition free_fd (fds start : Z) : ST sys Z := fun s =>
  match get_a_free_slot_with_size (s_mem s) fds start MAX_FD_INNER sizeof_file_inner with
  | Some i => Done (i, s)
  | None => Panicked
  end.
Definition free_slot_of (table : sys -> Z -> Z) (stop : Z) : ST sys Z := fun s =>
  match get_a_free_slot (table s) 0 stop with Some i => Done (i, s) | None => Panicked end.
End State.
Arguments sys : clear implicits.

(** ** Pipes *)
Section Pipes.
Context {M : Machine} {disk : Type}.

Definition sys_read_pipe (pipe_id buf start_pos count : Z) : ST (sys disk) Z :=
  p ← gets (fun s => pipe_ptr s pipe_id);
  if p =? 0 then mret (neg64 EBADF)
  else
    tl ← ld64 (p + pipe_tail);
    hd ← ld64 (p + pipe_head);
    m ← gets s_mem;
    let '(m', tl', rs) := fifo_read8 m (p + pipe_buf + start_pos) tl hd PIPE_BUF_SIZE count buf in
    _ ← upd_mem (fun _ => st_le 8 m' (p + pipe_tail) tl');
    mret rs.
(** No test of the pointer: a null pipe is a fault. *)
Definition sys_write_pipe (id buf count : Z) : ST (sys disk) Z :=
  p ← gets (fun s => pipe_ptr s id);
  if p =? 0 then fault
  else
    tl ← ld64 (p + pipe_tail);
    hd ← ld64 (p + pipe_head);
    m ← gets s_mem;
    let '(m', hd', rs) := fifo_write8 m (p + pipe_buf) tl hd PIPE_BUF_SIZE count buf in
    _ ← upd_mem (fun _ => st_le 8 m' (p + pipe_head) hd');
    mret rs.

Definition set_pipe_end (fds fd pipe_id flags : Z) : ST (sys disk) unit :=
  _ ← st32 (fd_entry fds fd + fi_type) (file_type_code FILE_PIPE);
  _ ← st64 (fd_entry fds fd + fi_res_id) pipe_id;
  st32 (fd_entry fds fd + fi_open_flags) flags.
Definition sys_pipe (pipefd_user_ptr : Z) : ST (sys disk) Z :=
  fds ← current_fds;
  pipe_id ← free_slot_of pipe_ptr MAX_PIPES_COUNT;
  a ← on_kern get_a_free_block_addr;
  _ ← modify (fun s => set_pipe_global (<[pipe_id := a]> (pipe_global s)) s);
  _ ← upd_mem (fun m => erase_mem8 m a 4096);
  fd_r ← free_fd fds 0;
  fd_w ← free_fd fds (fd_r + 1);
  _ ← st32 pipefd_user_ptr fd_r;
  _ ← st32 (pipefd_user_ptr + 4) fd_w;
  _ ← upd_mem (fun m => erase_mem8 m (fd_entry fds fd_r) sizeof_file_inner);
  _ ← upd_mem (fun m => erase_mem8 m (fd_entry fds fd_w) sizeof_file_inner);
  _ ← set_pipe_end fds fd_r pipe_id O_RDONLY;
  _ ← set_pipe_end fds fd_w pipe_id O_WRONLY;
  mret 0.
Definition sys_pipe2 (pipefd_user_ptr flags : Z) : ST (sys disk) Z := sys_pipe pipefd_user_ptr.
End Pipes.

(** ** Descriptors *)
Section Descriptors.
Context {M : Machine} {disk : Type}.

(** The table is the one block that is erased and given back; the words set to
    zero are eight words apart.  [fd_inner_id] is an [int]. *)
Definition sys_close (fd_inner_id : Z) : ST (sys disk) Z :=
  if fd_inner_id <? 0 then mret (- EINVAL)
  else
    fd_addr ← current_fds;
    if fd_addr =? 0 then mret (- EBADF)
    else
      fd_id_global ← ld64 (fd_addr + fi_global_id);
      _ ← upd_mem (fun m => erase_mem8 m fd_addr 4096);
      _ ← on_kern (modify (set_memory_block_used_when_boot (fd_addr / 4096) false));
      _ ← st64 (fd_addr + 64 * fd_inner_id) 0;
      file_global_tmp ← gets (fun s => fdg s fd_id_global);
      _ ← upd_mem (fun m => erase_mem8 m file_global_tmp 4096);
      _ ← on_kern (modify (set_memory_block_used_when_boot (file_global_tmp / 4096) false));
      _ ← modify (fun s => set_fd_global (<[8 * fd_id_global := 0]> (fd_global s)) s);
      mret 0.

(** The pointer arithmetic of [desc] and the test that follows it. *)
Definition sys_seek (fd offset whence : Z) : ST (sys disk) Z :=
  if (fd <? 0) || (MAX_FD <=? fd) then mret (-1)
  else
    fds ← current_fds;
    let desc := u64 (fds + sizeof_file_inner * (8 * fd)) in
    if negb (desc =? 0) then mret (-1)
    else
      (* [desc] is null: its fields are read at addresses near zero *)
      fault.

Definition dup2 (oldfd newfd : Z) : ST (sys disk) Z :=
  fds ← current_fds;
  if (MAX_FD_INNER <=? oldfd) || (MAX_FD_INNER <=? newfd) then mret (neg64 EBADF)
  else if oldfd =? newfd then mret newfd
  else
    ty ← ld32 (fd_entry fds oldfd + fi_type);
    gid ← ld64 (fd_entry fds oldfd + fi_global_id);
    if (ty =? file_type_code FILE_NONE) || (gid =? 0) then mret (neg64 EBADF)
    else
      nty ← ld32 (fd_entry fds newfd + fi_type);
      _ ← (if nty =? file_type_code FILE_NONE then _ ← sys_close newfd; mret tt else mret tt);
      _ ← upd_mem (fun m => memcpy m (fd_entry fds newfd) (fd_entry fds oldfd) sizeof_file_inner);
      mret newfd.
(** [events] and [revents] of 8-byte records. *)
Fixpoint poll_loop (n : nat) (fds i : Z) (m : mem) : mem :=
  match n with
  | O => m
  | S n' => poll_loop n' fds (i + 1) (st_le 2 m (fds + 8 * i + 6) (ld_le 2 m (fds + 8 * i + 4)))
  end.
Definition sys_poll (fds nfds timeout : Z) : ST (sys disk) Z :=
  _ ← upd_mem (poll_loop (Z.to_nat nfds) fds 0); mret (s64 nfds).
End Descriptors.

(** ** Strings of the calls *)
Definition chars (s : string) : list Z := map (fun c => Z.of_N (N_of_ascii c)) (list_ascii_of_string s).
(** The NUL-terminated string at [a]. *)
Fixpoint cstr (fuel : nat) (m : mem) (a : Z) : option path :=
  match fuel with
  | O => None
  | S f => if ld m a =? 0 then Some [] else r ← cstr f m (a + 1); Some (ld m a :: r)
  end.
Definition starts_with (pre p : path) : bool := bool_decide (take (length pre) p = pre).

(** [path] is the address of the argument, [pos] walks over the literal and
    over what follows it in memory; the loop has no exit but a match. *)
Fixpoint special_scan (fuel : nat) (m : mem) (path pos : Z) : option bool :=
  match fuel with
  | O => None
  | S f =>
      if memcmp m path pos 5 =? 0 then Some true
      else n ← strlen f m pos; special_scan f m path (pos + n + 1)
  end.
Definition is_special_dirent (fuel : nat) (m : mem) (path list_of_system_folders : Z) : option bool :=
  special_scan fuel m path list_of_system_folders.

(** The position of the [level]-th separator; [None]: the path has none. *)
Fixpoint lv_start (p : path) (i : nat) (count_slashes level : Z) : option nat :=
  match p with
  | [] => None
  | c :: r =>
      let count_slashes := if c =? slash then count_slashes + 1 else count_slashes in
      if level <=? count_slashes then Some i else lv_start r (S i) count_slashes level
  end.
Fixpoint until_slash (p : path) : path :=
  match p with [] => [] | c :: r => if c =? slash then [] else c :: until_slash r end.
(** The component after the [level]-th separator, [None] without one.  The
    array has [buf_size] bytes, which the routine is given and does not look at. *)
Definition get_path_at_lv (p : path) (level buf_size : Z) : outcome (option path) :=
  match lv_start p 0 0 level with
  | None => Done None
  | Some i =>
      let c := until_slash (drop (S i) p) in
      if Z.of_nat (length c) <? buf_size then Done (Some c) else Faulted
  end.
(** The last character is not counted; the empty path is out of range. *)
Definition count_path_level (p : path) : Z := slashes (take (length p - 1) p).

Definition proc_files : list path :=
  [chars "cmdline"; chars "environ"; chars "status"; chars "stat"; chars "maps"; chars "mem"; chars "cwd"; chars "exe"].
Definition proc_folders : list path := [chars "fd"; chars "task"].
(** [pid_str] and [filename] are arrays of 256 bytes. *)
Definition open_proc_file (p : path) : outcome Z :=
  match get_path_at_lv p 2 256 with
  | Done None => Done (- EINVAL)
  | Done (Some pid_str) =>
      match get_path_at_lv p 3 256 with
      | Done None => Done (- EINVAL)
      | Done (Some filename) =>
          Done (if (count_path_level p =? 3) && bool_decide (filename ∈ proc_files) then 0
                else if (count_path_level p =? 4) && bool_decide (filename ∈ proc_folders) then 0
                else - EINVAL)
      | Panicked => Panicked | Faulted => Faulted | Stuck => Stuck
      end
  | Panicked => Panicked | Faulted => Faulted | Stuck => Stuck
  end.
Definition open_sys_file (p : path) : Z := - EINVAL.
Definition open_dev_file (p : path) : Z := - EINVAL.

(** The number at the end of a path, least significant digit last. *)
Fixpoint extract_loop (rev_path : path) (id base : Z) : Z :=
  match rev_path with
  | [] => id
  | c :: r => if (48 <=? c) && (c <=? 57) then extract_loop r (u64 (id + u64 ((c - 48) * base))) (u64 (base * 10)) else id
  end.
Definition extract_id_from_path (p : path) : Z := extract_loop (rev p) 0 1.

(** ** Files *)
Section OpenFiles.
Context {M : Machine} {disk : Type} `{PartitionDriver disk} (junk : Z) (v : vfs).

(** The common end of the open calls: a descriptor, a block for the file, its
    path and the fields of both. *)
Definition open_entry (p : path) (flags : Z) (ft : file_type) (terminate : bool) : ST (sys disk) Z :=
  fds ← current_fds;
  fd_id_inner ← free_fd fds 0;
  new_block_addr ← on_kern get_a_free_block_addr;
  fd_id_global ← free_slot_of fdg MAX_FD;
  _ ← modify (fun s => set_fd_global (<[fd_id_global := new_block_addr]> (fd_global s)) s);
  let f := fd_entry fds fd_id_inner in
  _ ← st64 (f + fi_global_id) fd_id_global;
  let path_len := Z.of_nat (length p) in
  let path_len := if MAX_PATH <=? path_len then MAX_PATH - 1 else path_len in
  _ ← upd_mem (fun m => store_bytes m (new_block_addr + file_path) (take (Z.to_nat path_len) p));
  _ ← (if terminate then upd_mem (fun m => st m (new_block_addr + file_path + path_len) 0) else mret tt);
  _ ← st64 (f + fi_offset) 0;
  _ ← st32 (f + fi_open_flags) flags;
  _ ← st32 (f + fi_type) (file_type_code ft);
  _ ← st64 (new_block_addr + file_offset) 0;
  _ ← st32 (new_block_addr + file_open_flags) flags;
  _ ← st32 (new_block_addr + file_type_at) (file_type_code ft);
  _ ← st64 (new_block_addr + file_id) fd_id_global;
  mret fd_id_inner.

Definition sys_open_tty (p : path) (flags mode : Z) : ST (sys disk) Z := open_entry p flags FILE_TTY false.
Definition sys_open_special_dirent (p : path) (flags mode : Z) : ST (sys disk) Z :=
  rs ← (if starts_with (chars "/proc/") p then lift (open_proc_file p)
        else if starts_with (chars "/dev/") p then mret (open_dev_file p)
        else if starts_with (chars "/sys/") p then mret (open_sys_file p)
        else mret 0);
  if rs <? 0 then mret rs else open_entry p flags FILE_SPECIAL true.

Definition has (flags mask : Z) : bool := 0 <? Z.land flags mask.
(** Without a mount the caller's [stat] is uninitialised; taken as not found. *)
Definition sys_open_dirent (p : path) (flags mode : Z) : ST (sys disk) Z :=
  stat ← on_fs (stat_dirent junk v p);
  allowed ← (if has flags O_RDWR then
               w ← on_kern allow_write_path;
               if negb w then mret false else on_kern allow_read_path
             else if has flags O_CREAT || has flags O_TRUNC || has flags O_WRONLY then on_kern allow_write_path
             else on_kern allow_read_path);
  if negb allowed then mret (neg64 EACCES)
  else
    match ds_type stat with
    | PATH_DIRECTORY =>
        if has flags O_CREAT || has flags O_TRUNC || has flags O_WRONLY || has flags O_RDWR
        then mret (neg64 EISDIR)
        else open_entry p flags FILE_DIR true
    | PATH_NOT_FOUND =>
        if has flags O_CREAT then
          result ← on_fs (mkfile junk v p);
          if negb (result =? 0) then mret result else open_entry p flags FILE_REGULAR true
        else mret (neg64 ENOENT)
    | PATH_FILE =>
        if has flags O_CREAT && has flags O_EXCL then mret (neg64 EEXIST)
        else
          _ ← (if has flags O_TRUNC then _ ← on_fs (erase_file junk v p); mret tt else mret tt);
          open_entry p flags FILE_REGULAR true
    end.

(** [path] is the argument's address, [folders] the address of the literal. *)
Definition sys_open (fuel : nat) (path folders flags mode : Z) : ST (sys disk) Z :=
  if path =? 0 then mret (neg64 1)
  else
    m ← gets s_mem;
    match cstr fuel m path with
    | None => stuck
    | Some p =>
        if starts_with (chars "/dev/tty") p then sys_open_tty p flags mode
        else match is_special_dirent fuel m path folders with
             | None => stuck
             | Some true => sys_open_special_dirent p flags mode
             | Some false => sys_open_dirent p flags mode
             end
    end.

(** The path of an open file. *)
Definition path_of (fuel : nat) (gid : Z) : ST (sys disk) path :=
  f ← gets (fun s => fdg s gid);
  if f =? 0 then fault
  else
    m ← gets s_mem;
    match cstr fuel m (f + file_path) with Some p => mret p | None => stuck end.
Definition add64 (a d : Z) : ST (sys disk) unit := x ← ld64 a; st64 a (u64 (x + d)).
Definition sys_read_file (fuel : nat) (fd buf count : Z) : ST (sys disk) Z :=
  fds ← current_fds;
  let file := fd_entry fds fd in
  start_pos ← ld64 (file + fi_offset);
  gid ← ld64 (file + fi_global_id);
  p ← path_of fuel gid;
  r ← on_fs (read_file junk v p buf start_pos count);
  let actual_read_len := u64 (fst r) in
  _ ← upd_mem (fun m => store_bytes m buf (snd r));
  _ ← add64 (file + fi_offset) actual_read_len;
  gid ← ld64 (file + fi_global_id);
  f ← gets (fun s => fdg s gid);
  _ ← add64 (f + file_offset) actual_read_len;
  mret actual_read_len.
(** [fi] is the start of the table whatever [fd] is. *)
Definition sys_write_file (fuel : nat) (fd buf count : Z) : ST (sys disk) Z :=
  fi ← current_fds;
  fd_global_i ← ld64 (fi + fi_global_id);
  fdg_addr ← gets (fun s => fdg s fd_global_i);
  start_pos ← ld64 (fi + fi_offset);
  p ← path_of fuel fd_global_i;
  bytes ← gets (fun s => cells (s_mem s) buf (Z.to_nat count));
  r ← on_fs (write_file junk v p buf bytes start_pos);
  let actual_written_len := u64 r in
  _ ← add64 (fi + fi_offset) actual_written_len;
  _ ← add64 (fdg_addr + file_offset) actual_written_len;
  mret actual_written_len.
Definition sys_mkdir (p : path) (mode : Z) : ST (sys disk) Z := on_fs (mkdir junk v p).
Definition sys_unlink (p : path) (mode : Z) : ST (sys disk) Z :=
  b ← on_fs (delete_dirent junk v p); mret (if b : bool then 1 else 0).
Definition sys_rename (path_src path_dst : option path) : ST (sys disk) Z :=
  match path_src, path_dst with
  | Some a, Some b => r ← on_fs (rename_dirent junk v a b); mret (if r : bool then 1 else 0)
  | _, _ => mret (-1)
  end.
End OpenFiles.

(** ** Reading and writing a descriptor *)

(** The routines for the types of files the dispatch hands on to other parts
    of the kernel, by type: resource (or descriptor), buffer and length. *)
Class FileBackends (disk : Type) := {
  backend_read : file_type -> Z -> Z -> Z -> bool -> ST (sys disk) Z;
  backend_write : file_type -> Z -> Z -> Z -> ST (sys disk) Z
}.
Section Dispatch.
Context {M : Machine} {disk : Type} `{PartitionDriver disk} `{FileBackends disk} (junk : Z) (v : vfs).

Definition read_denied (open_flags : Z) : bool :=
  negb (open_flags =? O_RDONLY) && (Z.land open_flags O_RDWR =? 0).
Definition write_denied (open_flags : Z) : bool :=
  (Z.land open_flags O_WRONLY =? 0) && (Z.land open_flags O_RDWR =? 0).
(** An unlisted type falls off the end of the function: the result is not
    defined. *)
Definition sys_read (fuel : nat) (fd buf count : Z) : ST (sys disk) Z :=
  fds ← current_fds;
  let file := fd_entry fds fd in
  open_flags ← ld32 (file + fi_open_flags);
  if read_denied open_flags then mret (neg64 EBADF)
  else
    start_pos ← ld64 (file + fi_offset);
    let non_blocking := Z.land open_flags O_NONBLOCK =? 0 in
    ty ← ld32 (file + fi_type);
    res_id ← ld64 (file + fi_res_id);
    if ty =? file_type_code FILE_NONE then mret (neg64 1)
    else if ty =? file_type_code FILE_REGULAR then sys_read_file junk v fuel fd buf count
    else if ty =? file_type_code FILE_CHAR_DEV then mret 0
    else if ty =? file_type_code FILE_DIR then backend_read FILE_DIR fd buf count non_blocking
    else if ty =? file_type_code FILE_PIPE then sys_read_pipe res_id buf start_pos count
    else if ty =? file_type_code FILE_SOCKET then backend_read FILE_SOCKET res_id buf count non_blocking
    else if ty =? file_type_code FILE_SOCKET_UDS then backend_read FILE_SOCKET_UDS res_id buf count non_blocking
    else if ty =? file_type_code FILE_TTY then backend_read FILE_TTY res_id buf count non_blocking
    else if ty =? file_type_code FILE_FRAME_BUFFER then backend_read FILE_FRAME_BUFFER res_id buf count non_blocking
    else if ty =? file_type_code FILE_SPECIAL then backend_read FILE_SPECIAL res_id buf count non_blocking
    else stuck.
Definition sys_write (fuel : nat) (fd buf count : Z) : ST (sys disk) Z :=
  if (buf =? 0) || (count =? 0) then mret 0
  else
    fds ← current_fds;
    let file := fd_entry fds fd in
    open_flags ← ld32 (file + fi_open_flags);
    if write_denied open_flags then mret (neg64 EBADF)
    else
      ty ← ld32 (file + fi_type);
      res_id ← ld64 (file + fi_res_id);
      if ty =? file_type_code FILE_NONE then mret (neg64 1)
      else if ty =? file_type_code FILE_REGULAR then sys_write_file junk v fuel fd buf count
      else if ty =? file_type_code FILE_CHAR_DEV then mret 0
      else if ty =? file_type_code FILE_DIR then mret (neg64 EISDIR)
      else if ty =? file_type_code FILE_PIPE then sys_write_pipe res_id buf count
      else if ty =? file_type_code FILE_SOCKET then mret 0
      else if ty =? file_type_code FILE_SOCKET_UDS then backend_write FILE_SOCKET_UDS res_id buf count
      else if ty =? file_type_code FILE_TTY then backend_write FILE_TTY res_id buf count
      else if ty =? file_type_code FILE_FRAME_BUFFER then backend_write FILE_FRAME_BUFFER res_id buf count
      else if ty =? file_type_code FILE_SPECIAL then backend_write FILE_SPECIAL res_id buf count
      else stuck.
End Dispatch.

(** ** Lemmas *)
Section DescrLemmas.
Context {M : Machine} {disk : Type}.

Lemma current_fds_run (s : sys disk) t p :
  thread (s_k s) (gs8 (s_k s)) = Some t -> proc (s_k s) (t_pid t) = Some p ->
  current_fds s = Done (p_fd_addr p, s).
Proof.
  destruct s as [[k sm] m g pg d]. unfold s_k. cbn. intros Ht Hp.
  unfold current_fds, on_kern, on_sm, on_k, get_current_pid, get_current_thread_id.
  run_st. rewrite Ht. cbn. rewrite Hp. done.
Qed.

Lemma ld_le_erase n m a p len :
  0 <= len -> (a + Z.of_nat n <= p \/ p + len <= a) -> ld_le n (erase_mem8 m p len) a = ld_le n m a.
Proof. intros Hl Hd. apply ld_le_frame. intros x Hx. rewrite erase_mem8_ld by done. repeat (ztest; cbn [andb]); lia || done. Qed.
Lemma ld_le_erased n m a p len :
  0 <= len -> p <= a -> a + Z.of_nat n <= p + len -> ld_le n (erase_mem8 m p len) a = 0.
Proof.
  intros Hl Hp. revert a Hp. induction n as [|n IH]; intros a Hp Ha; cbn [ld_le]; [done|].
  rewrite IH by lia. rewrite erase_mem8_ld by done. repeat (ztest; cbn [andb]); lia || done.
Qed.

Lemma ld_le_st_ne n m a b v : (b < a \/ a + Z.of_nat n <= b) -> ld_le n (st m b v) a = ld_le n m a.
Proof. intros Hd. apply ld_le_frame. intros x Hx. apply ld_st_ne. lia. Qed.
Lemma ld_le_store n m a b l :
  (a + Z.of_nat n <= b \/ b + Z.of_nat (length l) <= a) -> ld_le n (store_bytes m b l) a = ld_le n m a.
Proof.
  intros Hd. apply ld_le_frame. intros x Hx. rewrite store_bytes_ld. repeat (ztest; cbn [andb]); lia || done.
Qed.

(** What a descriptor table says of a free entry. *)
Definition entry_free (m : mem) (fds i : Z) : Prop :=
  forall j, 0 <= j < sizeof_file_inner -> ld m (fd_entry fds i + j) = 0.

Lemma free_slot_loop_hit fuel m a i stop usz :
  (0 < fuel)%nat -> i + usz <= stop -> 0 <= usz -> (forall j, 0 <= j < usz -> ld m (a + i + j) = 0) ->
  free_slot_loop fuel m a i stop usz = Some (i / usz).
Proof.
  intros Hf Hi Hu Hz. destruct fuel as [|f]; [lia|]. cbn [free_slot_loop].
  destruct (Z.leb_spec (i + usz) stop); [|lia]. rewrite bool_decide_true; [done|].
  apply find_idx_None. intros j Hj. rewrite Hz by lia. done.
Qed.
Lemma free_slot_loop_skip fuel m a i stop usz j :
  i + usz <= stop -> 0 <= j < usz -> ld m (a + i + j) <> 0 ->
  free_slot_loop (S fuel) m a i stop usz = free_slot_loop fuel m a (i + usz) stop usz.
Proof.
  intros Hi Hj Hz. cbn [free_slot_loop]. destruct (Z.leb_spec (i + usz) stop); [|lia].
  rewrite bool_decide_false; [done|]. rewrite find_idx_None. intros Hn. specialize (Hn j ltac:(lia)).
  destruct (Z.eqb_spec (ld m (a + i + j)) 0); [contradiction|discriminate].
Qed.
Lemma free_slot_loop_first n fuel m a i stop usz :
  (n < fuel)%nat -> 0 < usz -> i + usz * (Z.of_nat n + 1) <= stop ->
  (forall d, 0 <= d < Z.of_nat n -> exists j, 0 <= j < usz /\ ld m (a + (i + usz * d) + j) <> 0) ->
  (forall j, 0 <= j < usz -> ld m (a + (i + usz * Z.of_nat n) + j) = 0) ->
  free_slot_loop fuel m a i stop usz = Some ((i + usz * Z.of_nat n) / usz).
Proof.
  revert fuel i. induction n as [|n IH]; intros fuel i Hf Hu Hs Hb Hz.
  - rewrite Z.mul_0_r, Z.add_0_r in *. apply free_slot_loop_hit; try lia; done.
  - destruct fuel as [|fuel]; [lia|].
    destruct (Hb 0 ltac:(lia)) as (j & Hj & Hne). rewrite Z.mul_0_r, Z.add_0_r in Hne.
    rewrite (free_slot_loop_skip _ _ _ _ _ _ j) by (lia || done).
    rewrite IH; try lia.
    + do 2 f_equal. lia.
    + intros d Hd. destruct (Hb (d + 1) ltac:(lia)) as (j' & Hj' & Hne'). exists j'. split; [done|].
      replace (i + usz + usz * d) with (i + usz * (d + 1)) by lia. done.
    + intros j' Hj'. rewrite <- (Hz j') by lia. f_equal. lia.
Qed.
End DescrLemmas.
(** Reads through stores and erasures elsewhere. *)
Ltac peel_le :=
  first [ rewrite ld_le_st_le_ne by lia | rewrite ld_le_st_le by (cbn; lia)
        | rewrite ld_le_erase by lia | rewrite ld_le_st_ne by lia | rewrite ld_le_store by lia
        | rewrite ld_le_erased by lia ].

(** ** Pipes as queues *)
Section PipeQueue.
Context {M : Machine} {disk : Type}.
Definition pipe_bytes (s : sys disk) (id : Z) : list Z :=
  let p := pipe_ptr s id in
  byte_queue (s_mem s) (p + pipe_buf) PIPE_BUF_SIZE (ld_le 8 (s_mem s) (p + pipe_tail)) (ld_le 8 (s_mem s) (p + pipe_head)).
Definition pipe_ok (s : sys disk) (id : Z) : Prop :=
  let p := pipe_ptr s id in
  p <> 0 /\ 0 <= ld_le 8 (s_mem s) (p + pipe_tail) < PIPE_BUF_SIZE /\
  0 <= ld_le 8 (s_mem s) (p + pipe_head) < PIPE_BUF_SIZE.
(** A buffer of the caller that does not overlap the block of the pipe. *)
Definition apart (p buf count : Z) : Prop := p + 4096 <= buf \/ buf + count <= p.


(** Writing appends what fits and reading takes from the front; the theorems
    below restate these for the calls of a process. *)
Lemma sys_write_pipe_spec (s : sys disk) id buf count :
  pipe_ok s id -> 0 <= count < 2 ^ 64 -> apart (pipe_ptr s id) buf count ->
  exists s' k, sys_write_pipe id buf count s = Done (Z.of_nat k, s') /\
    Z.of_nat k = Z.min count (PIPE_BUF_SIZE - 1 - Z.of_nat (length (pipe_bytes s id))) /\
    pipe_bytes s' id = pipe_bytes s id ++ cells (s_mem s) buf k /\
    pipe_ok s' id /\
    (exists m', s' = set_s_mem m' s /\
       forall x, ~ (pipe_ptr s id <= x < pipe_ptr s id + 4096) -> ld m' x = ld (s_mem s) x).
Proof.
  intros (Hp & Ht & Hh) Hc Ha. set (p := pipe_ptr s id) in *.
  unfold apart, pipe_buf, pipe_tail, pipe_head, PIPE_BUF_SIZE in *.
  destruct (fifo_write8_queue (p + 18) 4070 ltac:(lia) (s_mem s) _ _ count buf Ht Hh Hc ltac:(lia))
    as (m' & hd' & k & E & Hk & Hhd & Hq & Hf).
  set (m2 := st_le 8 m' (p + 0) hd').
  assert (Hm2 : forall x, ~ (p <= x < p + 8) -> ld m2 x = ld m' x).
  { intros x Hx. unfold m2. rewrite st_le_ld. repeat (ztest; cbn [andb]); lia || done. }
  assert (Hl : ld_le 8 m2 (p + 0) = hd') by (apply ld_le_st_le; lia).
  assert (Hl' : ld_le 8 m2 (p + 8) = ld_le 8 (s_mem s) (p + 8)).
  { apply ld_le_frame. intros x Hx. rewrite Hm2, Hf by lia. done. }
  exists (set_s_mem m2 s), k. split_and!.
  - unfold sys_write_pipe, ld64, upd_mem. rewrite gets_bind. fold p.
    destruct (Z.eqb_spec p 0); [done|]. rewrite !gets_bind. unfold pipe_buf, pipe_tail, pipe_head, PIPE_BUF_SIZE.
    rewrite E. reflexivity.
  - exact Hk.
  - unfold pipe_bytes, pipe_buf, pipe_tail, pipe_head, PIPE_BUF_SIZE. change (pipe_ptr (set_s_mem m2 s) id) with p.
    cbn [s_mem set_s_mem]. rewrite Hl, Hl'. fold p. rewrite <- Hq. apply byte_queue_frame; [unfold PIPE_BUF_SIZE; lia|done|].
    intros x Hx. apply Hm2. lia.
  - unfold pipe_ok, pipe_tail, pipe_head, PIPE_BUF_SIZE. change (pipe_ptr (set_s_mem m2 s) id) with p.
    cbn [s_mem set_s_mem]. rewrite Hl, Hl'. done.
  - exists m2. split; [done|]. intros x Hx. rewrite Hm2, Hf by lia. done.
Qed.
Lemma sys_read_pipe_spec (s : sys disk) id buf count :
  pipe_ok s id -> 0 <= count < 2 ^ 64 -> apart (pipe_ptr s id) buf count ->
  exists s' k, sys_read_pipe id buf 0 count s = Done (Z.of_nat k, s') /\
    Z.of_nat k = Z.min count (Z.of_nat (length (pipe_bytes s id))) /\
    pipe_bytes s id = cells (s_mem s') buf k ++ pipe_bytes s' id /\
    pipe_ok s' id /\
    (exists m', s' = set_s_mem m' s /\
       forall x, ~ (pipe_ptr s id <= x < pipe_ptr s id + 4096) -> ~ (buf <= x < buf + count) ->
         ld m' x = ld (s_mem s) x).
Proof.
  intros (Hp & Ht & Hh) Hc Ha. set (p := pipe_ptr s id) in *.
  unfold apart, pipe_buf, pipe_tail, pipe_head, PIPE_BUF_SIZE in *.
  destruct (fifo_read8_queue (p + 18) 4070 ltac:(lia) (s_mem s) _ _ count buf Ht Hh Hc ltac:(lia))
    as (m' & tl' & k & E & Hk & Htl & Hq & Hf).
  set (m2 := st_le 8 m' (p + 8) tl').
  assert (Hm2 : forall x, ~ (p + 8 <= x < p + 16) -> ld m2 x = ld m' x).
  { intros x Hx. unfold m2. rewrite st_le_ld. repeat (ztest; cbn [andb]); lia || done. }
  assert (Hl : ld_le 8 m2 (p + 8) = tl') by (apply ld_le_st_le; lia).
  assert (Hl' : ld_le 8 m2 (p + 0) = ld_le 8 (s_mem s) (p + 0)).
  { apply ld_le_frame. intros x Hx. rewrite Hm2, Hf by lia. done. }
  exists (set_s_mem m2 s), k. split_and!.
  - unfold sys_read_pipe, ld64, upd_mem. rewrite gets_bind. fold p.
    destruct (Z.eqb_spec p 0); [done|]. rewrite !gets_bind. unfold pipe_buf, pipe_tail, pipe_head, PIPE_BUF_SIZE.
    rewrite Z.add_0_r, E. reflexivity.
  - exact Hk.
  - unfold pipe_bytes at 2. unfold pipe_buf, pipe_tail, pipe_head, PIPE_BUF_SIZE.
    change (pipe_ptr (set_s_mem m2 s) id) with p. cbn [s_mem set_s_mem]. rewrite Hl, Hl'.
    rewrite (byte_queue_frame (p + 18) PIPE_BUF_SIZE ltac:(unfold PIPE_BUF_SIZE; lia) m' m2 tl') by (done || (intros; apply Hm2; lia)).
    rewrite (cells_ext m2 m') by (intros; apply Hm2; lia). exact Hq.
  - unfold pipe_ok, pipe_tail, pipe_head, PIPE_BUF_SIZE. change (pipe_ptr (set_s_mem m2 s) id) with p.
    cbn [s_mem set_s_mem]. rewrite Hl, Hl'. done.
  - exists m2. split; [done|]. intros x Hx Hx2. rewrite Hm2, Hf by lia. done.
Qed.
End PipeQueue.

(** ** Properties *)
Section Properties.
Context {M : Machine} {disk : Type} `{PartitionDriver disk} `{FileBackends disk} (junk : Z) (v : vfs).

(** The calling process and its descriptor table. *)
Definition caller_table (s : sys disk) (fds : Z) : Prop :=
  exists t p, thread (s_k s) (gs8 (s_k s)) = Some t /\ proc (s_k s) (t_pid t) = Some p /\ p_fd_addr p = fds.
Lemma caller_table_run s fds : caller_table s fds -> current_fds s = Done (fds, s).
Proof. intros (t & p & Ht & Hp & <-). by apply (current_fds_run s t p). Qed.

(** Descriptor [fd] is an end of pipe [id]. *)
Definition pipe_end (s : sys disk) (fds fd id flags : Z) : Prop :=
  ld_le 4 (s_mem s) (fd_entry fds fd + fi_type) = file_type_code FILE_PIPE /\
  ld_le 8 (s_mem s) (fd_entry fds fd + fi_res_id) = id /\
  ld_le 8 (s_mem s) (fd_entry fds fd + fi_offset) = 0 /\
  ld_le 4 (s_mem s) (fd_entry fds fd + fi_open_flags) = flags.

Lemma sys_write_pipe_end s fuel fds fd id flags buf count :
  caller_table s fds -> pipe_end s fds fd id flags -> write_denied flags = false -> buf <> 0 -> count <> 0 ->
  sys_write junk v fuel fd buf count s = sys_write_pipe id buf count s.
Proof.
  intros Hc (E1 & E2 & E3 & E4) Hd Hb Hn. unfold sys_write.
  destruct (Z.eqb_spec buf 0), (Z.eqb_spec count 0); try done. cbn [orb].
  rewrite (bind_done _ _ _ _ _ (caller_table_run s fds Hc)). unfold ld32, ld64. rewrite gets_bind, E4, Hd.
  rewrite !gets_bind, E1, E2. reflexivity.
Qed.
Lemma sys_read_pipe_end s fuel fds fd id flags buf count :
  caller_table s fds -> pipe_end s fds fd id flags -> read_denied flags = false ->
  sys_read junk v fuel fd buf count s = sys_read_pipe id buf 0 count s.
Proof.
  intros Hc (E1 & E2 & E3 & E4) Hd. unfold sys_read.
  rewrite (bind_done _ _ _ _ _ (caller_table_run s fds Hc)). unfold ld32, ld64. rewrite gets_bind, E4, Hd.
  rewrite !gets_bind, E1, E2, E3. reflexivity.
Qed.
Lemma sys_read_denied s fuel fds fd id flags buf count :
  caller_table s fds -> pipe_end s fds fd id flags -> read_denied flags = true ->
  sys_read junk v fuel fd buf count s = Done (neg64 EBADF, s).
Proof.
  intros Hc (_ & _ & _ & E4) Hd. unfold sys_read.
  rewrite (bind_done _ _ _ _ _ (caller_table_run s fds Hc)). unfold ld32. rewrite gets_bind, E4, Hd. reflexivity.
Qed.

(** C24: a pipe carries bytes from its writer to its reader: on an empty pipe,
    writing [n] bytes (at most 4069) through one descriptor and reading [n]
    through another returns [n] twice, delivers exactly the bytes written and
    leaves the pipe empty. *)
Theorem pipe_calls_roundtrip (fuel : nat) (s : sys disk) (fds fd_w fd_r id flags_w flags_r inp out n : Z) :
  caller_table s fds ->
  pipe_end s fds fd_w id flags_w -> write_denied flags_w = false ->
  pipe_end s fds fd_r id flags_r -> read_denied flags_r = false ->
  pipe_ok s id -> pipe_bytes s id = [] ->
  0 < n < PIPE_BUF_SIZE -> inp <> 0 ->
  apart (pipe_ptr s id) inp n -> apart (pipe_ptr s id) out n -> apart (pipe_ptr s id) (fd_entry fds fd_r) sizeof_file_inner ->
  exists s1 s2,
    sys_write junk v fuel fd_w inp n s = Done (n, s1) /\
    sys_read junk v fuel fd_r out n s1 = Done (n, s2) /\
    cells (s_mem s2) out (Z.to_nat n) = cells (s_mem s) inp (Z.to_nat n) /\
    pipe_bytes s2 id = [].
Proof.
  intros Hc Hw Hdw Hr Hdr Hok He Hn Hi Hai Hao Haf. unfold PIPE_BUF_SIZE in *.
  destruct (sys_write_pipe_spec s id inp n Hok ltac:(lia) Hai) as (s1 & k & E1 & Hk & Hq & Hok1 & m1 & Es1 & Hf1).
  rewrite He in Hk, Hq. cbn [length] in Hk. unfold PIPE_BUF_SIZE in Hk.
  assert (Hkn : k = Z.to_nat n) by lia.
  rewrite <- (sys_write_pipe_end s fuel fds fd_w id flags_w) in E1 by (done || lia).
  assert (Hp1 : pipe_ptr s1 id = pipe_ptr s id) by (by subst s1).
  destruct (sys_read_pipe_spec s1 id out n Hok1 ltac:(lia) ltac:(by rewrite Hp1))
    as (s2 & j & E2 & Hj & Hq2 & _ & m2 & Es2 & _).
  rewrite Hq in Hj, Hq2. rewrite app_nil_l, length_cells in Hj. rewrite app_nil_l in Hq2.
  assert (Hjn : j = Z.to_nat n) by lia.
  rewrite <- (sys_read_pipe_end s1 fuel fds fd_r id flags_r) in E2; [| | |done].
  - exists s1, s2. rewrite E1, E2, Hkn, Hjn, Z2Nat.id by lia. subst k j.
    assert (Hl : length (pipe_bytes s2 id) = 0%nat).
    { apply (f_equal length) in Hq2. rewrite length_app, !length_cells in Hq2. lia. }
    apply nil_length_inv in Hl. rewrite Hl, app_nil_r in Hq2. done.
  - by subst s1.
  - subst s1. destruct Hr as (F1 & F2 & F3 & F4). unfold pipe_end. cbn [s_mem set_s_mem].
    unfold apart, fi_type, fi_res_id, fi_offset, fi_open_flags, sizeof_file_inner in *.
    repeat split; [rewrite <- F1|rewrite <- F2|rewrite <- F3|rewrite <- F4]; apply ld_le_frame; intros x Hx; apply Hf1; lia.
Qed.

(** The access modes as the calls test them: writing is refused exactly to
    descriptors opened read-only; reading is refused to those opened write-only
    and, because the read-only mode is compared with the whole flag word, to
    read-only descriptors that carry any other flag, such as the non-blocking
    one. *)
Theorem access_mode_tests (flags : Z) :
  0 <= flags -> Z.land flags 3 <> 3 ->
  (write_denied flags = true <-> Z.land flags 3 = O_RDONLY) /\
  (read_denied flags = true <-> Z.land flags 3 = O_WRONLY \/ (Z.land flags 3 = O_RDONLY /\ flags <> 0)).
Proof.
  intros Hf H3. unfold read_denied, write_denied, O_RDONLY, O_WRONLY, O_RDWR.
  assert (E1 : Z.land flags 1 = Z.land (Z.land flags 3) 1) by (by rewrite <- Z.land_assoc).
  assert (E2 : Z.land flags 2 = Z.land (Z.land flags 3) 2) by (by rewrite <- Z.land_assoc).
  assert (E0 : flags = 0 -> Z.land flags 3 = 0) by (intros ->; done).
  rewrite E1, E2. clear E1 E2.
  assert (Hr : 0 <= Z.land flags 3 < 4) by (change 3 with (Z.ones 2); rewrite Z.land_ones by lia; apply Z.mod_pos_bound; lia).
  generalize dependent (Z.land flags 3). intros m H3 E0 Hr.
  assert (m = 0 \/ m = 1 \/ m = 2) as [-> | [-> | ->]] by lia; cbn;
    destruct (Z.eqb_spec flags 0); cbn; split; split; intuition (try discriminate; try lia).
Qed.

(** Seeking does nothing: for every descriptor of a process that has a
    table, every offset and every origin, the call returns -1 and no state is
    changed, because the test of the descriptor's address is inverted. *)
Theorem sys_seek_always_fails (s : sys disk) (fds fd offset whence : Z) :
  caller_table s fds -> u64 (fds + sizeof_file_inner * (8 * fd)) <> 0 ->
  sys_seek fd offset whence s = Done (-1, s).
Proof.
  intros Hc Hn. unfold sys_seek. destruct ((fd <? 0) || (MAX_FD <=? fd)); [done|].
  rewrite (bind_done _ _ _ _ _ (caller_table_run s fds Hc)).
  destruct (Z.eqb_spec (u64 (fds + sizeof_file_inner * (8 * fd))) 0); done.
Qed.

(** Closing one descriptor closes them all: whatever descriptor is named,
    the call erases the first 4096 bytes of the caller's table (all the 51
    entries in them) and the file that descriptor 0 refers to; no block is given
    back, because the index into the map is computed from the virtual address. *)
Theorem sys_close_wipes_table (s : sys disk) (fds fd : Z) :
  let g := ld_le 8 (s_mem s) fds in
  caller_table s fds -> fds <> 0 -> 0 <= fd < 64 -> apart (fdg s g) fds 4096 ->
  exists s', sys_close fd s = Done (0, s') /\
    (forall x, fds <= x < fds + 4096 -> ld (s_mem s') x = 0) /\
    (forall x, fdg s g <= x < fdg s g + 4096 -> ld (s_mem s') x = 0) /\
    (forall x, ~ (fds <= x < fds + 4096) -> ~ (fdg s g <= x < fdg s g + 4096) -> ld (s_mem s') x = ld (s_mem s) x) /\
    (total_memory_blocks_count <= fds / 4096 -> total_memory_blocks_count <= fdg s g / 4096 ->
     forall c, read_map (s_k s') c = read_map (s_k s) c) /\
    fd_global s' = <[8 * g := 0]> (fd_global s).
Proof.
  intros g Hc Hf Hd Ha. unfold sys_close. destruct (Z.ltb_spec fd 0); [lia|].
  rewrite (bind_done _ _ _ _ _ (caller_table_run s fds Hc)). destruct (Z.eqb_spec fds 0); [done|].
  unfold ld64, st64, upd_mem. rewrite gets_bind. replace (fds + fi_global_id) with fds by (unfold fi_global_id; lia).
  fold g. set (f := fdg s g) in *.
  eexists. split; [reflexivity|]. cbn [s_mem set_s_mem set_fd_global s_sm fd_global].
  assert (Hm : forall x, ld (erase_mem8 (st_le 8 (erase_mem8 (s_mem s) fds 4096) (fds + 64 * fd) 0) f 4096) x =
     if (f <=? x) && (x <? f + 4096) then 0 else if (fds <=? x) && (x <? fds + 4096) then 0 else ld (s_mem s) x).
  { intros x. rewrite erase_mem8_ld, st_le_ld, erase_mem8_ld, Z.shiftr_0_l by lia. change (u8 0) with 0.
    repeat (ztest; cbn [andb]); lia || done. }
  unfold apart in Ha.
  split_and!; try (intros x Hx; rewrite Hm; repeat (ztest; cbn [andb]); lia || done).
  - intros T1 T2 c. etrans; [exact (read_map_past (f / 4096) c false _ T2)|].
    exact (read_map_past (fds / 4096) c false _ T1).
  - reflexivity.
Qed.

(** The free blocks are apart from the [len] bytes at [a]. *)
Definition blocks_apart (k : kstate) (a len : Z) : Prop :=
  forall b, b ∈ free_list k -> apart (b * 4096 + HM) a len.

Lemma on_kern_block (s : sys disk) :
  machine_ok -> (0 < length (free_list (s_k s)))%nat ->
  exists b, b ∈ free_list (s_k s) /\ 0 <= b < 2 ^ 35 /\
    on_kern get_a_free_block_addr s =
      Done (b * 4096 + HM, set_s_k (mark_used b (s_k s)) s).
Proof.
  intros Hok Hl. destruct (get_a_free_block_addr_done (s_k s) Hok Hl) as (b & E & Hb & Hr).
  exists b. split; [done|]. split; [done|]. unfold on_kern, on_sm, on_k. fold (s_k s). by rewrite E.
Qed.

Lemma free_fd_first (s : sys disk) fds r :
  0 <= r <= 9 -> (forall i, 0 <= i < r -> ld (s_mem s) (fd_entry fds i + fi_type) <> 0) ->
  entry_free (s_mem s) fds r -> free_fd fds 0 s = Done (r, s).
Proof.
  intros Hr Hb Hz. unfold free_fd, get_a_free_slot_with_size, MAX_FD_INNER, sizeof_file_inner.
  unfold entry_free, fd_entry, fi_type, sizeof_file_inner in *.
  rewrite (free_slot_loop_first (Z.to_nat r)); try lia.
  - rewrite Z2Nat.id, Z.add_0_l, Z.mul_comm, Z.div_mul by lia. done.
  - intros d Hd. exists 68. split; [lia|]. rewrite Z.add_0_l. apply Hb. lia.
  - intros j Hj. etransitivity; [|apply (Hz j); lia]. f_equal. lia.
Qed.
Lemma free_fd_again (s : sys disk) fds r :
  0 <= r <= 9 -> (forall i, 0 <= i < r -> ld (s_mem s) (fd_entry fds i + fi_type) <> 0) ->
  entry_free (s_mem s) fds r -> entry_free (s_mem s) fds (r + 1) -> free_fd fds (r + 1) s = Done (r, s).
Proof.
  intros Hr Hb Hz Hz1. unfold free_fd, get_a_free_slot_with_size, MAX_FD_INNER, sizeof_file_inner.
  unfold entry_free, fd_entry, fi_type, sizeof_file_inner in *.
  rewrite (free_slot_loop_first (Z.to_nat r)); try lia.
  - replace ((r + 1 + 80 * Z.of_nat (Z.to_nat r)) / 80) with r; [done|].
    rewrite Z2Nat.id by lia. Z.to_euclidean_division_equations; lia.
  - intros d Hd. exists (67 - r). split; [lia|]. replace (fds + (r + 1 + 80 * d) + (67 - r)) with (fds + 80 * d + 68) by lia.
    apply Hb. lia.
  - intros j Hj. destruct (Z_lt_le_dec (r + 1 + j) 80).
    + etransitivity; [|apply (Hz (r + 1 + j)); lia]. f_equal. lia.
    + etransitivity; [|apply (Hz1 (r + 1 + j - 80)); lia]. f_equal. lia.
Qed.

(** [sys_pipe] hands out one descriptor for both ends: the bounds of the
    search count bytes, so the search for the second end, from one byte after
    the number of the first, finds the same entry; both numbers written to the
    caller are equal, the entry is left as the writing end of the pipe, and
    reading through it is refused. *)
Theorem sys_pipe_one_descriptor (s : sys disk) (fds up r pipe_id : Z) :
  machine_ok -> (0 < length (free_list (s_k s)))%nat ->
  caller_table s fds -> get_a_free_slot (pipe_ptr s) 0 MAX_PIPES_COUNT = Some pipe_id ->
  0 <= pipe_id < 2 ^ 64 -> 0 <= r <= 9 ->
  (forall i, 0 <= i < r -> ld (s_mem s) (fd_entry fds i + fi_type) <> 0) ->
  entry_free (s_mem s) fds r -> entry_free (s_mem s) fds (r + 1) ->
  blocks_apart (s_k s) fds 4096 -> blocks_apart (s_k s) up 8 -> apart fds up 8 ->
  exists s', sys_pipe up s = Done (0, s') /\
    ld_le 4 (s_mem s') up = r /\ ld_le 4 (s_mem s') (up + 4) = r /\
    pipe_end s' fds r pipe_id O_WRONLY /\
    pipe_ok s' pipe_id /\ pipe_bytes s' pipe_id = [] /\
    (forall fuel buf n, sys_read junk v fuel r buf n s' = Done (neg64 EBADF, s')).
Proof.
  intros Hok Hl Hc Hslot Hid Hr Hb Hz Hz1 Hbt Hbu Hup. unfold sys_pipe.
  rewrite (bind_done _ _ _ _ _ (caller_table_run s fds Hc)).
  assert (Hfs : free_slot_of pipe_ptr MAX_PIPES_COUNT s = Done (pipe_id, s)) by (unfold free_slot_of; by rewrite Hslot).
  rewrite (bind_done _ _ _ _ _ Hfs).
  destruct (on_kern_block s Hok Hl) as (b & Hbf & Hbr & Eb). rewrite (bind_done _ _ _ _ _ Eb). clear Eb Hfs.
  specialize (Hbt b Hbf). specialize (Hbu b Hbf). set (a := b * 4096 + HM) in *. rewrite modify_bind.
  unfold upd_mem. rewrite modify_bind. set (s1 := set_s_mem _ _).
  assert (Hm1 : forall x, fds <= x < fds + 4096 -> ld (s_mem s1) x = ld (s_mem s) x).
  { intros x Hx. unfold s1, apart in *. cbn [s_mem set_s_mem set_pipe_global set_s_k]. rewrite erase_mem8_ld by lia.
    repeat (ztest; cbn [andb]); lia || done. }
  assert (Hent : forall i j, 0 <= i <= 10 -> 0 <= j < sizeof_file_inner -> ld (s_mem s1) (fd_entry fds i + j) = ld (s_mem s) (fd_entry fds i + j)).
  { intros i j Hi Hj. apply Hm1. unfold fd_entry, sizeof_file_inner in *. lia. }
  assert (Hb1 : forall i, 0 <= i < r -> ld (s_mem s1) (fd_entry fds i + fi_type) <> 0).
  { intros i Hi. rewrite Hent by (unfold fi_type, sizeof_file_inner; lia). by apply Hb. }
  assert (Hz' : entry_free (s_mem s1) fds r) by (intros j Hj; rewrite Hent by lia; by apply Hz).
  assert (Hz1' : entry_free (s_mem s1) fds (r + 1)) by (intros j Hj; rewrite Hent by lia; by apply Hz1).
  rewrite (bind_done _ _ _ _ _ (free_fd_first s1 fds r Hr Hb1 Hz')).
  rewrite (bind_done _ _ _ _ _ (free_fd_again s1 fds r Hr Hb1 Hz' Hz1')).
  eexists. split; [reflexivity|].
  match goal with |- context [pipe_end ?x _ _ _ _] => set (s' := x) end.
  assert (Hc' : caller_table s' fds) by (destruct Hc as (t & p & Ht & Hp & Hfd); by exists t, p).
  enough (H5 : ld_le 4 (s_mem s') up = r /\ ld_le 4 (s_mem s') (up + 4) = r /\ pipe_end s' fds r pipe_id O_WRONLY /\
    pipe_ok s' pipe_id /\ pipe_bytes s' pipe_id = []).
  { destruct H5 as (? & ? & Hpe & ? & ?). do 5 (split; [assumption|]). intros fuel buf n.
    apply (sys_read_denied s' fuel fds r pipe_id O_WRONLY); [exact Hc'|exact Hpe|reflexivity]. }
  clear Hc'. unfold s'. clear s'.
  unfold pipe_end, pipe_ok, pipe_bytes, pipe_ptr. cbn [s_mem set_s_mem set_pipe_global set_s_k pipe_global].
  unfold s1; cbn [s_mem set_s_mem set_pipe_global set_s_k pipe_global]. rewrite lookup_insert_eq. cbn [default id].
  assert (He : fds <= fd_entry fds r <= fds + 4096 - 80) by (unfold fd_entry, sizeof_file_inner; lia).
  assert (Ha : 0 < a) by (unfold a, HM; lia).
  set (e := fd_entry fds r) in *. clearbody e a. clear Hm1 Hent Hb1 Hz' Hz1' s1 Hb Hz Hz1 Hslot Hc.
  unfold apart, sizeof_file_inner, fi_type, fi_res_id, fi_open_flags, fi_offset, pipe_tail, pipe_head, pipe_buf, PIPE_BUF_SIZE, O_WRONLY, file_type_code in *.
  split_and!; try lia; repeat peel_le; try lia. unfold byte_queue. rewrite ring_nil by lia. done.
Qed.

(** A path as the calls keep it: no NUL in it. *)
Definition path_ok (p : path) : Prop := Forall (fun c => c <> 0) p.
Lemma cstr_stored fuel m a p :
  path_ok p -> (length p < fuel)%nat -> cells m a (length p) = p -> ld m (a + Z.of_nat (length p)) = 0 ->
  cstr fuel m a = Some p.
Proof.
  revert fuel a. induction p as [|c p IH]; intros fuel a Hp Hf Hc Hz; destruct fuel as [|fuel]; cbn [length] in Hf; try lia.
  - cbn [cstr]. rewrite Z.add_0_r in Hz. by rewrite Hz.
  - cbn [length cells] in Hc. injection Hc as Hc1 Hc2. apply list.Forall_cons in Hp as [Hc0 Hp].
    cbn [cstr]. rewrite Hc1. destruct (Z.eqb_spec c 0); [done|]. rewrite (IH fuel (a + 1)); try done; [lia|].
    rewrite <- Hz. f_equal. cbn [length]. lia.
Qed.

(** Opening keeps the path: the call returns the first free descriptor,
    whose entry names a fresh slot of the table of open files; the path of
    that file, read back as the file calls do, is the path given, and the
    entry has the flags and the type given and position 0.  (Paths below 560
    characters; longer ones run into the fields after the path.) *)
Theorem open_entry_keeps_path (fuel : nat) (s : sys disk) (p : path) (flags : Z) (ft : file_type) (fds r gid : Z) :
  machine_ok -> (0 < length (free_list (s_k s)))%nat ->
  caller_table s fds -> get_a_free_slot (fdg s) 0 MAX_FD = Some gid ->
  0 <= r <= 9 -> (forall i, 0 <= i < r -> ld (s_mem s) (fd_entry fds i + fi_type) <> 0) ->
  entry_free (s_mem s) fds r -> blocks_apart (s_k s) fds 4096 ->
  path_ok p -> (length p < 560)%nat -> (length p < fuel)%nat -> 0 <= flags < 2 ^ 32 ->
  exists s', open_entry p flags ft true s = Done (r, s') /\
    ld_le 8 (s_mem s') (fd_entry fds r + fi_global_id) = gid /\
    ld_le 4 (s_mem s') (fd_entry fds r + fi_type) = file_type_code ft /\
    ld_le 4 (s_mem s') (fd_entry fds r + fi_open_flags) = flags /\
    ld_le 8 (s_mem s') (fd_entry fds r + fi_offset) = 0 /\
    path_of fuel gid s' = Done (p, s').
Proof.
  intros Hok Hl Hc Hslot Hr Hb Hz Hbt Hp Hp560 Hfu Hfl. unfold open_entry.
  rewrite (bind_done _ _ _ _ _ (caller_table_run s fds Hc)).
  rewrite (bind_done _ _ _ _ _ (free_fd_first s fds r Hr Hb Hz)).
  destruct (on_kern_block s Hok Hl) as (b & Hbf & Hbr & Eb). rewrite (bind_done _ _ _ _ _ Eb). clear Eb.
  specialize (Hbt b Hbf). set (a := b * 4096 + HM) in *. set (s1 := set_s_k _ s).
  assert (Hfs : free_slot_of fdg MAX_FD s1 = Done (gid, s1)).
  { unfold free_slot_of. change (fdg s1) with (fdg s). by rewrite Hslot. }
  rewrite (bind_done _ _ _ _ _ Hfs), modify_bind. cbv zeta.
  destruct (Z.leb_spec MAX_PATH (Z.of_nat (length p))); [unfold MAX_PATH in *; lia|].
  rewrite Nat2Z.id, firstn_all.
  eexists. split; [reflexivity|]. cbn [s_mem set_s_mem].
  assert (He : fds <= fd_entry fds r <= fds + 4096 - 80) by (unfold fd_entry, sizeof_file_inner; lia).
  assert (Ha : 0 < a) by (unfold a, HM; lia).
  assert (Hg : 0 <= gid < 2 ^ 32).
  { unfold get_a_free_slot in Hslot. apply find_idx_Some in Hslot as (Hg & _). unfold MAX_FD in Hg. lia. }
  change (s_mem (set_fd_global _ s1)) with (s_mem s).
  set (e := fd_entry fds r) in *. clearbody e.
  unfold apart, sizeof_file_inner, fi_type, fi_res_id, fi_open_flags, fi_offset, fi_global_id, file_path, file_offset, file_type_at, file_open_flags, file_id in *.
  assert (Hft : 0 <= file_type_code ft < 11) by (destruct ft; cbn; lia).
  split_and!; try (repeat peel_le; lia).
  unfold path_of. rewrite gets_bind. unfold fdg. cbn [fd_global set_s_mem set_fd_global]. rewrite lookup_insert_eq. cbn [default id].
  destruct (Z.eqb_spec a 0); [lia|]. rewrite gets_bind. cbn [s_mem set_s_mem]. unfold file_path.
  erewrite (cstr_stored fuel _ _ p); [reflexivity|done|done|..].
  - etransitivity; [|apply (cells_store (st_le 8 (s_mem s) (e + 0) gid) (a + 8) p)]. apply cells_ext. intros x Hx.
    repeat rewrite st_le_ld_ne by lia. rewrite ld_st_ne by lia. done.
  - repeat rewrite st_le_ld_ne by lia. apply ld_st_eq.
Qed.

(** Calls that leave the file systems alone. *)
Definition keeps_disk {A} (c : ST (sys disk) A) : Prop := pres (fun s s' => s_disk s' = s_disk s) c.
Instance keeps_preorder : PreOrder (fun s s' : sys disk => s_disk s' = s_disk s).
Proof. split; [done|]. intros a b c H1 H2. congruence. Qed.
Lemma keeps_on_sm {A} (c : ST sm_state A) : keeps_disk (on_sm c).
Proof. intros s a s'. unfold on_sm. destruct (c (s_sm s)) as [[x m]| | |]; try discriminate. by intros [= <- <-]. Qed.
Lemma keeps_free_fd fds i : keeps_disk (free_fd fds i).
Proof. intros s a s'. unfold free_fd. case_match; try discriminate. by intros [= <- <-]. Qed.
Lemma keeps_free_slot t i : keeps_disk (free_slot_of t i).
Proof. intros s a s'. unfold free_slot_of. case_match; try discriminate. by intros [= <- <-]. Qed.
Hint Extern 1 (pres _ (on_sm _)) => apply keeps_on_sm : pres.
Hint Extern 1 (pres _ (free_fd _ _)) => apply keeps_free_fd : pres.
Hint Extern 1 (pres _ (free_slot_of _ _)) => apply keeps_free_slot : pres.
Lemma keeps_open_entry p flags ft b : keeps_disk (open_entry p flags ft b).
Proof.
  unfold keeps_disk, open_entry, current_fds, on_kern, st64, st32, upd_mem. destruct b; pres_auto.
Qed.

(** The characters of a string in memory. *)
Lemma cstr_cells fuel m a p : cstr fuel m a = Some p -> cells m a (length p) = p /\ ld m (a + Z.of_nat (length p)) = 0.
Proof.
  revert a p. induction fuel as [|f IH]; intros a p; cbn [cstr]; [done|]. destruct (Z.eqb_spec (ld m a) 0) as [E|E].
  - intros [= <-]. cbn. by rewrite Z.add_0_r.
  - destruct (cstr f m (a + 1)) as [r|] eqn:Er; [|done]. intros [= <-]. destruct (IH _ _ Er) as [H1 H2]. cbn [length]. split.
    + change (S (length r)) with (1 + length r)%nat. rewrite cells_app. change (Z.of_nat 1) with 1. rewrite H1. reflexivity.
    + rewrite <- H2. f_equal. lia.
Qed.
Lemma cells_starts fuel m a p (w : list Z) : cstr fuel m a = Some p -> Forall (fun c => c <> 0) w ->
  starts_with w p = true <-> cells m a (length w) = w.
Proof.
  intros [H1 H2]%cstr_cells Hw. unfold starts_with. rewrite bool_decide_eq_true.
  destruct (Nat.le_gt_cases (length w) (length p)) as [Hl|Hl].
  - rewrite <- H1 at 1. replace (length p) with (length w + (length p - length w))%nat by lia.
    rewrite cells_app, take_app_length'; [done|by rewrite length_cells].
  - split; intros E.
    + apply (f_equal length) in E. rewrite length_take in E. lia.
    + exfalso. destruct (lookup_lt_is_Some_2 w (length p) Hl) as [c Hc]. pose proof Hc as Hc'. rewrite <- E, lookup_cells in Hc' by lia.
      injection Hc' as Hc'. rewrite H2 in Hc'. exact (Forall_lookup_1 _ _ _ _ Hw Hc (eq_sym Hc')).
Qed.
Lemma memcmp_cells m a b n : 0 <= n -> (memcmp m a b n =? 0) = bool_decide (cells m a (Z.to_nat n) = cells m b (Z.to_nat n)).
Proof.
  intros Hn. apply eq_bool_prop_intro. rewrite !Is_true_true, Z.eqb_eq, bool_decide_eq_true. unfold memcmp. rewrite memcmp_loop_eq. split.
  - intros H1. apply list_eq. intros i. destruct (decide (i < Z.to_nat n)%nat).
    + rewrite !lookup_cells by lia. f_equal. apply H1. lia.
    + by rewrite !lookup_ge_None_2 by (rewrite length_cells; lia).
  - intros E k Hk. replace k with (Z.of_nat (Z.to_nat k)) by lia. apply (cells_eq_inv _ _ _ _ (Z.to_nat n)); [exact E|lia].
Qed.

Lemma cstr_reads m a t : StrLib.cstr m a t -> cells m a (length t) = t.
Proof.
  revert a. induction t as [|c t IH]; intros a; cbn [StrLib.cstr length cells]; [done|]. intros (_ & -> & Ht). by rewrite IH.
Qed.
(** One round of the search, at a string of the list. *)
Lemma special_scan_step g f m path p pos (t w : list Z) :
  cstr g m path = Some p -> StrLib.cstr m pos t -> slen t < Z.of_nat f -> w = take 5 t -> length w = 5%nat ->
  special_scan (S f) m path pos = if starts_with w p then Some true else special_scan f m path (pos + slen t + 1).
Proof.
  intros Hp Ht Hf Ew Hw. cbn [special_scan]. rewrite memcmp_cells by lia. change (Z.to_nat 5) with 5%nat.
  assert (Hpos : cells m pos 5 = w).
  { rewrite Ew in Hw. rewrite length_take in Hw. rewrite (cells_take m pos (length t) 5) by lia. by rewrite (cstr_reads _ _ _ Ht). }
  assert (Hnz : Forall (fun c => c <> 0) w).
  { rewrite Ew. apply Forall_take. clear -Ht. revert pos Ht. induction t as [|c t IH]; intros pos; cbn [StrLib.cstr]; [constructor|].
    intros (Hc & _ & Ht). constructor; [done|]. exact (IH _ Ht). }
  pose proof (cells_starts _ _ _ _ w Hp Hnz) as Hst. rewrite Hw, <- Hpos in Hst. rewrite Hpos in Hst.
  rewrite Hpos. destruct (starts_with w p); case_bool_decide as Hc; try done.
  - by destruct (Hc (proj1 Hst eq_refl)).
  - by apply Hst in Hc.
  - unfold strlen. rewrite (find_nul_cstr f m pos t Ht Hf). cbn. f_equal. lia.
Qed.
(** A search that returns has matched at or behind its start. *)
Lemma special_scan_hit fuel m path pos b : special_scan fuel m path pos = Some b ->
  b = true /\ exists q, pos <= q /\ cells m q 5 = cells m path 5.
Proof.
  revert pos. induction fuel as [|f IH]; intros pos; cbn [special_scan]; [done|].
  rewrite memcmp_cells by lia. change (Z.to_nat 5) with 5%nat. case_bool_decide as E.
  - intros [= <-]. split; [done|]. exists pos. split; [lia|done].
  - unfold strlen. destruct (find_nul f m pos) as [q|] eqn:Eq; [|done]. cbn. intros (-> & r & Hr & Hc)%IH. split; [done|].
    exists r. split; [|done]. clear -Eq Hr. assert (pos <= q); [|lia]. clear Hr. revert pos Eq.
    induction f as [|f IH]; intros pos; cbn [find_nul]; [done|]. destruct (_ =? 0); [intros [= ->]; lia|]. intros ?%IH. lia.
Qed.

Lemma starts_split w p : starts_with w p = true -> p = w ++ drop (length w) p.
Proof. unfold starts_with. rewrite bool_decide_eq_true. intros E. rewrite <- E at 1. by rewrite take_drop. Qed.
Lemma starts_shorter w x p : starts_with (w ++ x) p = true -> starts_with w p = true.
Proof.
  intros E%starts_split. unfold starts_with. rewrite bool_decide_eq_true, E, <- app_assoc. apply take_app_length.
Qed.
(** Two prefixes of one path agree as far as both reach. *)
Lemma starts_excl w x p : starts_with w p = true -> starts_with x p = true ->
  take (Nat.min (length w) (length x)) w = take (Nat.min (length w) (length x)) x.
Proof.
  unfold starts_with. rewrite !bool_decide_eq_true. intros E1 E2. rewrite <- E1 at 2. rewrite <- E2 at 3.
  rewrite !take_take. f_equal. lia.
Qed.
Lemma keeps_special_dirent p flags mode : keeps_disk (sys_open_special_dirent p flags mode).
Proof.
  intros s r s'. unfold sys_open_special_dirent. intros (rs & s1 & E & E2)%bind_done_inv.
  assert (s1 = s) as ->.
  { revert E. unfold lift. repeat (case_match; try discriminate); by intros [= _ <-]. }
  destruct (rs <? 0); [by injection E2 as _ <-|exact (keeps_open_entry _ _ _ _ _ _ _ E2)].
Qed.

(** The literal ["/sys/\0/proc/\0/dev/"] at [a]; [a + 19] is the first byte
    behind it. *)
Definition folder_literal (m : mem) (a : Z) : Prop :=
  StrLib.cstr m a (chars "/sys/") /\ StrLib.cstr m (a + 6) (chars "/proc/") /\ StrLib.cstr m (a + 13) (chars "/dev/").
Lemma is_special_literal fuel m path folders p :
  cstr fuel m path = Some p -> folder_literal m folders -> (10 <= fuel)%nat ->
  is_special_dirent fuel m path folders =
  if starts_with (chars "/sys/") p || starts_with (chars "/proc") p || starts_with (chars "/dev/") p then Some true
  else special_scan (fuel - 3) m path (folders + 19).
Proof.
  intros Hp (H1 & H2 & H3) Hf. do 3 (destruct fuel as [|fuel]; [lia|]). unfold is_special_dirent.
  assert (H2' : StrLib.cstr m (folders + slen (chars "/sys/") + 1) (chars "/proc/")) by (rewrite <- Z.add_assoc; exact H2).
  assert (H3' : StrLib.cstr m (folders + slen (chars "/sys/") + 1 + slen (chars "/proc/") + 1) (chars "/dev/")).
  { rewrite <- !Z.add_assoc. exact H3. }
  rewrite (special_scan_step _ _ _ _ _ _ (chars "/sys/") (chars "/sys/") Hp H1) by (done || (unfold slen; cbn; lia)).
  destruct (starts_with (chars "/sys/") p); [done|].
  rewrite (special_scan_step _ _ _ _ _ _ (chars "/proc/") (chars "/proc") Hp H2') by (done || (unfold slen; cbn; lia)).
  destruct (starts_with (chars "/proc") p); [done|].
  rewrite (special_scan_step _ _ _ _ _ _ (chars "/dev/") (chars "/dev/") Hp H3') by (done || (unfold slen; cbn; lia)).
  destruct (starts_with (chars "/dev/") p); [done|].
  cbn [orb]. f_equal; [lia|]. unfold slen. cbn. lia.
Qed.

Definition begins (p : path) (w : string) : Prop := starts_with (chars w) p = true.
(** C35: What opening decides, with the list "/sys/", "/proc/", "/dev/" in
    memory: a path that starts with "/dev/tty" is opened as a terminal; any
    other path below "/dev/" or "/sys/" is refused; below "/proc/" the name is
    checked and opened as a special file; a path that only starts with the five
    characters "/proc" (such as "/procfoo") is opened as a special file
    unchecked.  For every other path the search for a special name runs on
    behind the list and has no negative answer: a call that returns has found
    the first five bytes of the path somewhere behind the list, and has opened
    the path as a special file.  No file system is reached, so no file is found,
    created or truncated. *)
Theorem sys_open_special_names (fuel : nat) (path folders flags mode : Z) (s : sys disk) (p : list Z) :
  path <> 0 -> cstr fuel (s_mem s) path = Some p -> folder_literal (s_mem s) folders -> (10 <= fuel)%nat ->
  let call := sys_open junk v fuel path folders flags mode s in
  (begins p "/dev/tty" -> call = open_entry p flags FILE_TTY false s) /\
  (~ begins p "/dev/tty" -> begins p "/dev/" \/ begins p "/sys/" -> call = Done (- EINVAL, s)) /\
  (begins p "/proc/" ->
     (open_proc_file p = Done 0 -> call = open_entry p flags FILE_SPECIAL true s) /\
     (open_proc_file p = Done (- EINVAL) -> call = Done (- EINVAL, s)) /\
     (open_proc_file p = Faulted -> call = Faulted)) /\
  (begins p "/proc" -> ~ begins p "/proc/" -> call = open_entry p flags FILE_SPECIAL true s) /\
  (~ begins p "/dev/" -> ~ begins p "/sys/" -> ~ begins p "/proc" ->
     call <> Stuck -> call = open_entry p flags FILE_SPECIAL true s /\
       exists q, folders + 19 <= q /\ cells (s_mem s) q 5 = cells (s_mem s) path 5) /\
  (forall r s', call = Done (r, s') -> s_disk s' = s_disk s).
Proof.
  intros Hnz Hp Hl Hf call. pose proof (is_special_literal _ _ _ _ _ Hp Hl Hf) as Hs.
  assert (Hcall : call = if starts_with (chars "/dev/tty") p then open_entry p flags FILE_TTY false s
    else match is_special_dirent fuel (s_mem s) path folders with
         | None => Stuck | Some true => sys_open_special_dirent p flags mode s | Some false => sys_open_dirent junk v p flags mode s end).
  { unfold call, sys_open. destruct (Z.eqb_spec path 0); [done|]. rewrite gets_bind, Hp.
    destruct (starts_with (chars "/dev/tty") p); [done|]. by destruct (is_special_dirent _ _ _ _) as [[]|]. }
  assert (Hopen : starts_with (chars "/proc/") p = false -> starts_with (chars "/dev/") p = false -> starts_with (chars "/sys/") p = false ->
    sys_open_special_dirent p flags mode s = open_entry p flags FILE_SPECIAL true s).
  { intros E1 E2 E3. unfold sys_open_special_dirent. by rewrite E1, E2, E3. }
  rewrite Hcall, Hs. clear Hcall call. unfold begins.
  split_and!.
  - intros ->. done.
  - rewrite not_true_iff_false. intros -> Hd.
    assert (Hnp : starts_with (chars "/proc/") p = false).
    { apply not_true_iff_false. intros Hq. destruct Hd as [Hd|Hd]; by pose proof (starts_excl _ _ _ Hd Hq). }
    assert (E : sys_open_special_dirent p flags mode s = Done (- EINVAL, s)).
    { unfold sys_open_special_dirent. rewrite Hnp. destruct (starts_with (chars "/dev/") p); [done|]. destruct Hd as [|Hd]; [done|]. by rewrite Hd. }
    destruct Hd as [-> | ->]; by rewrite ?orb_true_r.
  - intros Hq.
    assert (starts_with (chars "/dev/tty") p = false) as ->.
    { apply not_true_iff_false. intros Hd. by pose proof (starts_excl _ _ _ Hd Hq). }
    rewrite (starts_shorter (chars "/proc") (chars "/") _ Hq), orb_true_r.
    unfold sys_open_special_dirent. rewrite Hq. split_and!; intros E; unfold mbind, st_bind, lift; by rewrite E.
  - intros Hq Hn%not_true_iff_false.
    assert (starts_with (chars "/dev/tty") p = false) as ->.
    { apply not_true_iff_false. intros Hd. by pose proof (starts_excl _ _ _ Hd Hq). }
    rewrite Hq, orb_true_r. apply Hopen; [done| |]; apply not_true_iff_false; intros Hd; by pose proof (starts_excl _ _ _ Hd Hq).
  - rewrite !not_true_iff_false. intros Hd Hy Hq.
    assert (starts_with (chars "/dev/tty") p = false) as ->.
    { apply not_true_iff_false. intros Ht. by rewrite (starts_shorter (chars "/dev/") (chars "tty") _ Ht) in Hd. }
    assert (Hpr : starts_with (chars "/proc/") p = false).
    { apply not_true_iff_false. intros Ht. by rewrite (starts_shorter (chars "/proc") (chars "/") _ Ht) in Hq. }
    rewrite Hd, Hy, Hq. cbn [orb]. destruct (special_scan _ _ _ _) as [b|] eqn:Es; [|done]. intros _.
    apply special_scan_hit in Es as (-> & q & Hq' & Ec). split; [by apply Hopen|]. by exists q.
  - intros r s'. rewrite <- Hs. destruct (starts_with (chars "/dev/tty") p); [apply keeps_open_entry|].
    destruct (is_special_dirent fuel (s_mem s) path folders) as [b|] eqn:Es; [|discriminate].
    apply special_scan_hit in Es as [-> _]. apply keeps_special_dirent.
Qed.
End Properties.

(** ** Witnesses *)
#[local] Existing Instance small_machine.
#[local] Instance no_backends : FileBackends (list Z) := {
  backend_read _ _ _ _ _ := mret 0; backend_write _ _ _ _ := mret 0 }.
(** Thread 0 of process 0, with its table at 0x1000. *)
Definition demo_k : kstate :=
  set_threads_info_ptr {[0 := zero_thread]} (set_process_heap {[0 := set_p_fd_addr 0x1000 zero_process]} boot_state).
Definition demo_sys (m : mem) (g pg : gmap Z Z) : sys (list Z) := Sys (SmState demo_k ∅ ∅) m g pg [].
Lemma demo_caller m g pg : caller_table (demo_sys m g pg) 0x1000.
Proof. exists zero_thread, (set_p_fd_addr 0x1000 zero_process). repeat split. Qed.
Lemma demo_blocks_apart a len : 0 <= a -> a + len <= HM -> blocks_apart demo_k a len.
Proof.
  intros Ha Hl b Hb. apply elem_of_free_list in Hb as [_ Hb]. change kernel_blocks with 3 in Hb. right. lia.
Qed.
Lemma demo_free_blocks : (0 < length (free_list demo_k))%nat.
Proof. apply Nat.ltb_lt. vm_compute. reflexivity. Qed.
Lemma demo_entry_free i : 0 <= i -> entry_free ∅ 0x1000 i.
Proof. intros _ j _. done. Qed.

Definition demo_pipe : mem :=
  st_le 8 (st_le 4 (st_le 4 (store_bytes ∅ 0x30000 [7; 8; 9]) (0x1000 + fi_type) 3) (0x1000 + fi_open_flags) 2) (0x1000 + fi_res_id) 1.
Lemma pipe_calls_roundtrip_witness :
  exists s1 s2, sys_write 0 (Vfs ∅ ∅) 1 0 0x30000 3 (demo_sys demo_pipe ∅ {[1 := 0x10000]}) = Done (3, s1) /\
    sys_read 0 (Vfs ∅ ∅) 1 0 0x40000 3 s1 = Done (3, s2) /\ cells (s_mem s2) 0x40000 3 = [7; 8; 9].
Proof.
  destruct (pipe_calls_roundtrip 0 (Vfs ∅ ∅) 1 (demo_sys demo_pipe ∅ {[1 := 0x10000]}) 0x1000 0 0 1 2 2 0x30000 0x40000 3)
    as (s1 & s2 & E1 & E2 & Hc & _).
  - apply demo_caller.
  - repeat split; vm_compute; reflexivity.
  - reflexivity.
  - repeat split; vm_compute; reflexivity.
  - reflexivity.
  - vm_compute. repeat split; discriminate.
  - vm_compute. reflexivity.
  - vm_compute. split; reflexivity.
  - discriminate.
  - left. vm_compute. discriminate.
  - left. vm_compute. discriminate.
  - right. vm_compute. discriminate.
  - exists s1, s2. split; [exact E1|]. split; [exact E2|]. etransitivity; [exact Hc|]. vm_compute. reflexivity.
Defined.
Lemma access_mode_tests_witness : write_denied O_WRONLY = false /\ read_denied O_NONBLOCK = true.
Proof.
  split.
  - apply not_true_is_false. intros Hd. apply (access_mode_tests O_WRONLY) in Hd; [discriminate|vm_compute; discriminate..].
  - apply (access_mode_tests O_NONBLOCK); [vm_compute; discriminate..|]. right. split; [reflexivity|discriminate].
Defined.
Lemma sys_seek_always_fails_witness :
  sys_seek 3 0 0 (demo_sys ∅ ∅ ∅) = Done (-1, demo_sys ∅ ∅ ∅).
Proof. apply (sys_seek_always_fails (demo_sys ∅ ∅ ∅) 0x1000); [apply demo_caller|vm_compute; discriminate]. Defined.
Lemma sys_close_wipes_table_witness :
  exists s', sys_close 5 (demo_sys demo_pipe {[0 := 0x20000]} ∅) = Done (0, s') /\
    ld (s_mem s') (0x1000 + fi_type) = 0.
Proof.
  destruct (sys_close_wipes_table (demo_sys demo_pipe {[0 := 0x20000]} ∅) 0x1000 5) as (s' & E & H1 & _).
  - apply demo_caller.
  - discriminate.
  - lia.
  - vm_compute. right. discriminate.
  - exists s'. split; [exact E|]. apply H1. unfold fi_type. lia.
Defined.
Lemma sys_pipe_one_descriptor_witness :
  exists s', sys_pipe 0x50000 (demo_sys ∅ ∅ ∅) = Done (0, s') /\
    ld_le 4 (s_mem s') 0x50000 = 0 /\ ld_le 4 (s_mem s') (0x50000 + 4) = 0.
Proof.
  destruct (sys_pipe_one_descriptor 0 (Vfs ∅ ∅) (demo_sys ∅ ∅ ∅) 0x1000 0x50000 0 0) as (s' & E & H1 & H2 & _).
  - apply small_machine_ok.
  - apply demo_free_blocks.
  - apply demo_caller.
  - vm_compute. reflexivity.
  - lia.
  - lia.
  - intros i Hi. lia.
  - by apply demo_entry_free.
  - by apply demo_entry_free.
  - apply demo_blocks_apart; unfold HM; lia.
  - apply demo_blocks_apart; unfold HM; lia.
  - left. lia.
  - exists s'. split; [exact E|]. split; [exact H1|exact H2].
Defined.
Lemma open_entry_keeps_path_witness :
  exists s', open_entry (chars "/dev/tty1") 1 FILE_TTY true (demo_sys ∅ ∅ ∅) = Done (0, s') /\
    path_of 20 0 s' = Done (chars "/dev/tty1", s').
Proof.
  destruct (open_entry_keeps_path 20 (demo_sys ∅ ∅ ∅) (chars "/dev/tty1") 1 FILE_TTY 0x1000 0 0)
    as (s' & E & _ & _ & _ & _ & H2).
  - apply small_machine_ok.
  - apply demo_free_blocks.
  - apply demo_caller.
  - vm_compute. reflexivity.
  - lia.
  - intros i Hi. lia.
  - by apply demo_entry_free.
  - apply demo_blocks_apart; unfold HM; lia.
  - repeat constructor; discriminate.
  - cbn. lia.
  - cbn. lia.
  - lia.
  - exists s'. split; [exact E|exact H2].
Defined.
(** The list at 0x60000 and the path "/procfoo" at 0x61000. *)
Definition demo_names : mem :=
  store_bytes (store_bytes ∅ 0x60000 (chars "/sys/" ++ 0 :: chars "/proc/" ++ 0 :: chars "/dev/")) 0x61000 (chars "/procfoo").
Lemma sys_open_special_names_witness :
  sys_open 0 (Vfs ∅ ∅) 20 0x61000 0x60000 O_CREAT 0 (demo_sys demo_names ∅ ∅) =
  open_entry (chars "/procfoo") O_CREAT FILE_SPECIAL true (demo_sys demo_names ∅ ∅).
Proof.
  destruct (sys_open_special_names 0 (Vfs ∅ ∅) 20 0x61000 0x60000 O_CREAT 0 (demo_sys demo_names ∅ ∅) (chars "/procfoo"))
    as (_ & _ & _ & H & _).
  - discriminate.
  - vm_compute. reflexivity.
  - vm_compute. repeat split; discriminate.
  - lia.
  - apply H; vm_compute; [reflexivity|discriminate].
Defined.
