(* ===== verification/ProcCalls.v ===== *)
(** * ProcCalls: process system calls, src/core/syscall/syscall2.h

    Fork with the copy of the page tables, clone, exit, memory mapping and the
    heap, signals, sessions and process groups.  Registers that the code reads
    by assembly are arguments.  The kernel stack that fork and clone copy with
    the thread structure is not represented. *)
From S2P Require Import Prelude Bytes MemLib Time KState Blocks Paging Threads Sched Ipc User Vfs Descr.
Open Scope Z_scope.

(** ** Page lines *)
Definition pageline_to_high_addr (page_line : Z) : Z := u64 (Z.land page_line 0x000FFFFFFFFFF000 + HM).
Definition pageline_get_flags (pageline : Z) : Z := Z.land pageline 0xFFF.
Definition make_pageline (addr flags : Z) : Z := Z.lor (Z.land addr (u64 (Z.lnot 0xFFF))) (Z.land flags 0xFFF).

(** [memcpy] of a table of 512 words. *)
Definition copy_table (dst src : Z) : ST kstate unit :=
  for_m 512 0 (fun i => modify (fun k => set_entry dst i (entry k src i) k)).
(** One of the nested loops: every entry in use of the [n] first ones gets a
    block of its own, which the loop below fills.  The block is not erased. *)
Fixpoint clone_level {M : Machine} (lv n : nat) (original new : Z) : ST kstate unit :=
  match lv with
  | O => copy_table new original
  | S lv' =>
      for_m n 0 (fun i =>
        e ← gets (fun k => entry k original i);
        if e =? 0 then mret tt
        else
          new_page_addr ← get_a_free_block_addr;
          _ ← modify (set_entry new i (make_pageline (new_page_addr - HM) (pageline_get_flags e)));
          clone_level lv' 512 (pageline_to_high_addr e) new_page_addr)
  end.
Section Clone.
Context {M : Machine}.
Definition high_mem_starting_l4i : Z := Z.shiftr HM 39.
Definition clone_cr3 (l4_original l4_new : Z) : ST kstate unit :=
  _ ← clone_level 3 (Z.to_nat high_mem_starting_l4i) l4_original l4_new;
  for_m (Z.to_nat (512 - high_mem_starting_l4i)) high_mem_starting_l4i
    (fun i => modify (fun k => set_entry l4_new i (entry k l4_original i) k)).
End Clone.

(** ** Fork, clone and exit *)
Definition fork_process (child_pid parent_pid : Z) (p : process_info) : process_info :=
  ProcessInfo child_pid PROCESS_RUNNING (p_main_thread_id p) (p_signal p) 1 (p_pgid p) (p_sid p) (p_fd_addr p)
    parent_pid (p_heap_start_addr p) (p_heap_end_addr p) (p_sig_handlers p) (p_uid p) (p_gid p) (p_euid p)
    (p_egid p) (p_reuid p) (p_regid p) (p_resuid p) (p_resgid p) (p_lock p) (p_return_code p) (p_sm p)
    (p_cmd_line p) (p_env p) (p_cwd p).
Definition set_p_main_thread_id (v : Z) (p : process_info) : process_info :=
  ProcessInfo (p_pid p) (p_state p) v (p_signal p) (p_threads_count p) (p_pgid p) (p_sid p) (p_fd_addr p)
    (p_parent_pid p) (p_heap_start_addr p) (p_heap_end_addr p) (p_sig_handlers p) (p_uid p) (p_gid p) (p_euid p)
    (p_egid p) (p_reuid p) (p_regid p) (p_resuid p) (p_resgid p) (p_lock p) (p_return_code p) (p_sm p)
    (p_cmd_line p) (p_env p) (p_cwd p).
Definition set_p_heap_end_addr (v : Z) (p : process_info) : process_info :=
  ProcessInfo (p_pid p) (p_state p) (p_main_thread_id p) (p_signal p) (p_threads_count p) (p_pgid p) (p_sid p)
    (p_fd_addr p) (p_parent_pid p) (p_heap_start_addr p) v (p_sig_handlers p) (p_uid p) (p_gid p) (p_euid p)
    (p_egid p) (p_reuid p) (p_regid p) (p_resuid p) (p_resgid p) (p_lock p) (p_return_code p) (p_sm p)
    (p_cmd_line p) (p_env p) (p_cwd p).
Definition set_p_sig_handlers (v : list Z) (p : process_info) : process_info :=
  ProcessInfo (p_pid p) (p_state p) (p_main_thread_id p) (p_signal p) (p_threads_count p) (p_pgid p) (p_sid p)
    (p_fd_addr p) (p_parent_pid p) (p_heap_start_addr p) (p_heap_end_addr p) v (p_uid p) (p_gid p) (p_euid p)
    (p_egid p) (p_reuid p) (p_regid p) (p_resuid p) (p_resgid p) (p_lock p) (p_return_code p) (p_sm p)
    (p_cmd_line p) (p_env p) (p_cwd p).
Definition set_t_signal_mask (v : Z) (t : thread_info) : thread_info :=
  ThreadInfo (t_pid t) (t_tid t) (t_state t) (t_wakeup_time t) (t_stack_addr t) (t_kernel_stack_addr t) (t_context t)
    (t_ptid t) (t_signal t) v (t_sleep_flag_addr t) (t_context_type t) (t_lock_time t) (t_return_code t).

(** The context of a forked thread: the parent's, with kernel segments, the
    return point of the child, the distance of the stacks in rdx, and the
    stack pointers moved by it. *)
Definition fork_context (fork_child_ret distance rsp rbp gs24_ : Z) (c : user_thread_context) : user_thread_context :=
  Context (c_r15 c) (c_r14 c) (c_r13 c) (c_r12 c) (c_r11 c) (c_r10 c) (c_r9 c) (c_r8 c) (c_rdi c) (c_rsi c)
    rbp (c_rbx c) distance (c_rcx c) (c_rax c) fork_child_ret 0x08 (c_rflags c) rsp 0x10 gs24_
    (xsave_area c) (fs_base c) (gs_base c).
(** The thread structure a fork or a clone makes from the parent's. *)
Definition fork_thread (pid tid kstack fork_child_ret rsp rbp gs24_ : Z) (t : thread_info) : thread_info :=
  let moved x := u64 (kstack - u64 (t_kernel_stack_addr t - x)) in
  ThreadInfo pid tid THREAD_READY (t_wakeup_time t) (t_stack_addr t) kstack
    (fork_context fork_child_ret (u64 (kstack - t_kernel_stack_addr t)) (moved rsp) (moved rbp) gs24_ (t_context t))
    (t_ptid t) (t_signal t) (t_signal_mask t) (t_sleep_flag_addr t) (t_context_type t) (t_lock_time t) (t_return_code t).

Section Fork.
Context {M : Machine} {disk : Type}.
(** Registers at the call and the address of the return point of the child. *)
Record fork_regs := ForkRegs { f_rsp : Z; f_rbp : Z; f_ret : Z }.

Fixpoint copy_fds (n : nat) (i fd_child fd_parent : Z) (m : mem) : mem :=
  match n with
  | O => m
  | S n' =>
      copy_fds n' (i + 1) fd_child fd_parent
        (if (i <=? 2) || negb (ld_le 4 m (fd_entry fd_parent i + fi_type) =? file_type_code FILE_PIPE)
         then memcpy m (fd_entry fd_child i) (fd_entry fd_parent i) sizeof_file_inner else m)
  end.
(** The copy of the descriptor table; its address is not stored. *)
Definition fork_fds (fd_parent : Z) : ST (sys disk) unit :=
  b ← on_kern (get_continuous_free_blocks 20);
  let fd_child := u64 (b * 4096 + HM) in
  _ ← upd_mem (fun m => erase_mem8 m fd_child (20 * 4096));
  upd_mem (copy_fds (Z.to_nat MAX_FD_INNER) 0 fd_child fd_parent).
(** A slot of the thread table and five blocks, as [register_a_thread] takes
    them, but not erased. *)
Definition fork_alloc : ST kstate (Z * Z) :=
  child_tid ← free_slot_m thread_word 1 MAX_THREADS_COUNT;
  b ← get_continuous_free_blocks 5;
  mret (child_tid, u64 (b * 4096 + HM)).
(** Copying the four pages of the user stack to fresh frames. *)
Definition fork_stack (child_pid : Z) (child parent : thread_info) : ST (sys disk) unit :=
  for_m 4 0 (fun i =>
    let va := u64 (t_stack_addr child - (i + 1) * 4096) in
    _ ← on_kern (modify (decrease_paging_of_process_with_virt_addr child_pid va));
    r ← on_kern (increase_paging_of_process_with_virt_addr child_pid va);
    tmp ← deref r;
    upd_mem (fun m => memcpy m (u64 (tmp + HM)) (u64 (t_stack_addr parent - (i + 1) * 4096)) 4096)).

Definition sys_fork (r : fork_regs) : ST (sys disk) Z :=
  parent_pid ← on_kern get_current_pid;
  parent_proc ← on_kern (gets (fun k => proc k parent_pid) ≫= deref);
  parent_thread ← on_kern current_thread;
  child_pid ← on_kern (free_slot_m proc_slot 1 MAX_PROCESSES_COUNT);
  child_proc ← on_kern get_a_free_block_addr;
  _ ← on_kern (modify (set_proc_slot child_pid child_proc));
  _ ← on_kern (modify (fun k => set_processes_cr3_ptr (<[child_pid := cr3_of k parent_pid]> (processes_cr3_ptr k)) k));
  _ ← on_kern (modify (set_proc_at child_proc (fork_process child_pid (p_pid parent_proc) parent_proc)));
  _ ← fork_fds (p_fd_addr parent_proc);
  ta ← on_kern fork_alloc;
  let child_tid := fst ta in
  gs ← on_kern (gets gs24);
  let child_thread :=
    fork_thread child_pid child_tid (u64 (snd ta + 5 * 4096)) (f_ret r) (f_rsp r) (f_rbp r) gs parent_thread in
  _ ← on_kern (modify (set_thread child_tid child_thread));
  _ ← on_kern (modify (upd_proc child_pid (set_p_main_thread_id child_tid)));
  new_cr3_addr ← on_kern get_a_free_block_addr;
  _ ← on_kern (l4 ← gets (fun k => cr3_of k parent_pid); clone_cr3 l4 new_cr3_addr);
  _ ← on_kern (modify (fun k => set_processes_cr3_ptr (<[child_pid := new_cr3_addr]> (processes_cr3_ptr k)) k));
  _ ← fork_stack child_pid child_thread parent_thread;
  mret child_pid.

Definition sys_getpid : ST (sys disk) Z := on_kern get_current_pid.
Definition current_proc : ST kstate process_info :=
  pid ← get_current_pid; gets (fun k => proc k pid) ≫= deref.
Definition sys_getppid : ST (sys disk) Z := p ← on_kern current_proc; mret (p_parent_pid p).

Definition CLONE_THREAD : Z := 0x00010000.
(** [ptid] is read when it is not null; the value is not used. *)
Definition sys_clone (r : fork_regs) (flags child_stack_top ptid ctid newtls : Z) : ST (sys disk) Z :=
  if Z.land flags CLONE_THREAD =? 0 then mret (neg64 1)
  else
    pid ← on_kern get_current_pid;
    proc ← on_kern (gets (fun k => proc k pid) ≫= deref);
    if decide (p_state proc = PROCESS_ENDED_BUT_NOT_CLEANED) then mret (neg64 1)
    else
      parent_thread ← on_kern current_thread;
      ta ← on_kern fork_alloc;
      _ ← on_kern (modify (set_thread (fst ta)
            (fork_thread pid (fst ta) (u64 (snd ta + 5 * 4096)) (f_ret r) (f_rsp r) (f_rbp r) child_stack_top parent_thread)));
      mret (fst ta).
Definition sys_exit (status : Z) : ST (sys disk) unit := on_kern (mark_current_thread_as_ended (u64 status)).
Definition sys_exit_group (status : Z) : ST (sys disk) unit := on_kern mark_process_as_ended.
End Fork.

(** ** Memory *)
Definition MAP_SHARED : Z := 0x01.
Definition MAP_ANONYMOUS : Z := 0x20.
Section Memory.
Context {M : Machine} {disk : Type} `{PartitionDriver disk} (junk : Z) (v : vfs) (fuel : nat).

Definition map_pages (pid addr : Z) (n : nat) : ST kstate unit :=
  for_m n 0 (fun i => _ ← increase_paging_of_process_with_virt_addr pid (u64 (addr + i * 4096)); mret tt).
(** [fd] is unsigned, so the test [fd >= 0] holds always. *)
Definition sys_mmap (addr length prot flags fd offset : Z) : ST (sys disk) Z :=
  let is_shared := negb (Z.land flags MAP_SHARED =? 0) in
  pid ← on_kern get_current_pid;
  addr ← (if addr =? 0 then on_kern (fun k => lift (find_free_virtual_region fuel k pid length) k) else mret addr);
  paged ← on_kern (gets (fun k => is_paged k pid addr));
  if (paged : bool) then mret (neg64 EINVAL)
  else if is_shared then _ ← on_sm (create_sm addr length flags); mret addr
  else
    _ ← on_kern (map_pages pid addr (Z.to_nat (div_ceil length 4096)));
    if Z.land flags MAP_ANONYMOUS =? 0 then
      proc ← on_kern (gets (fun k => proc k pid) ≫= deref);
      gid ← ld64 (fd_entry (p_fd_addr proc) fd + fi_global_id);
      p ← path_of fuel gid;
      r ← on_fs (read_file junk v p addr offset length);
      _ ← upd_mem (fun m => store_bytes m addr (snd r));
      mret addr
    else mret addr.
Definition unmap_pages (pid addr : Z) (n : nat) : ST kstate unit :=
  for_m n 0 (fun i => modify (decrease_paging_of_process_with_virt_addr pid (u64 (addr + i * 4096)))).
Definition sys_munmap (addr length : Z) : ST (sys disk) Z :=
  pid ← on_kern get_current_pid;
  _ ← on_kern (unmap_pages pid addr (Z.to_nat (div_ceil length 4096)));
  mret 0.
Definition sys_brk (new_heap_end_addr : Z) : ST (sys disk) Z :=
  pid ← on_kern get_current_pid;
  this_process ← on_kern (gets (fun k => proc k pid) ≫= deref);
  let current_heap_end_addr := p_heap_end_addr this_process in
  _ ← on_kern (modify (upd_proc pid (set_p_heap_end_addr new_heap_end_addr)));
  let a := div_ceil current_heap_end_addr 4096 in
  let b := div_ceil new_heap_end_addr 4096 in
  _ ← (if current_heap_end_addr <? new_heap_end_addr then
         on_kern (for_m (Z.to_nat (b - a)) a (fun i =>
           _ ← increase_paging_of_process_with_virt_addr pid (u64 (i * 4096)); mret tt))
       else
         on_kern (for_m (Z.to_nat (a - b)) 0 (fun j =>
           modify (decrease_paging_of_process_with_virt_addr pid (u64 ((a - j - 1) * 4096))))));
  mret new_heap_end_addr.
End Memory.

(** ** Signals *)
Section SignalCalls.
Context {M : Machine} {disk : Type} (fuel : nat).

(** [stop_thread]: a ready thread of the process is blocked. *)
Definition block_ready (pid : Z) (t : thread_info) : thread_info :=
  if bool_decide (t_pid t = pid /\ t_state t = THREAD_READY) then set_t_state THREAD_BLOCKED_OTHER t else t.
Definition sys_kill (pid sig : Z) : ST kstate Z :=
  if 63 <? sig then mret (neg64 EINVAL)
  else
    a ← gets (fun k => proc_slot k pid);
    if a =? 0 then mret (neg64 ESRCH)
    else
      target ← (gets (fun k => process_heap k !! a) ≫= deref);
      if decide (p_state target = PROCESS_NOT_EXIST) then mret (neg64 ESRCH)
      else
        _ ← send_signal_to_process fuel pid sig;
        if sig =? SIGKILL then _ ← mark_process_as_ended; mret 0
        else if sig =? SIGSTOP then
          (* no test for null in this loop *)
          _ ← for_m (Z.to_nat MAX_THREADS_COUNT) 0 (fun i =>
                t ← (gets (fun k => thread k i) ≫= deref); modify (upd_thread i (block_ready pid)));
          mret 0
        else
          _ ← modify (map_threads (fun _ => block_ready pid));
          a' ← gets (fun k => proc_slot k pid);
          handling ← (if a' =? 0 then mret false
                      else p ← (gets (fun k => process_heap k !! a') ≫= deref);
                           mret (bool_decide (p_state p = PROCESS_HANDLING_SIGNAL)));
          if (handling : bool) then mret (neg64 EAGAIN)
          else _ ← handle_signal_process fuel pid; mret 0.
Definition sys_tgkill (pid tid sig : Z) : ST kstate Z :=
  if (sig <? 1) || (63 <? sig) then mret (neg64 EINVAL)
  else
    proc ← (gets (fun k => proc k pid) ≫= deref);
    if decide (p_state proc = PROCESS_NOT_EXIST) then mret (neg64 ESRCH)
    else
      t ← (gets (fun k => thread k tid) ≫= deref);
      if decide (t_state t = THREAD_NOT_EXIST) then mret (neg64 ESRCH)
      else
        _ ← modify (upd_thread tid (set_t_signal sig));
        _ ← handle_signal_thread fuel tid;
        mret 0.
(** [signum] is signed: a negative one passes the test and is an access before
    the table.  The old action is read through the handler's own address. *)
Definition sys_rt_sigaction (signum act oldact sigsetsize : Z) : ST (sys disk) Z :=
  if MAX_SIGNAL <? signum then mret (- EINVAL)
  else if (signum =? SIGKILL) || (signum =? SIGSTOP) then mret (- EINVAL)
  else
    pid ← on_kern get_current_pid;
    p ← on_kern (gets (fun k => proc k pid) ≫= deref);
    if signum <? 0 then fault
    else
      h ← deref (p_sig_handlers p !! Z.to_nat signum);
      _ ← (if negb (oldact =? 0) then
             _ ← upd_mem (fun m => memcpy m oldact h 8);
             _ ← st64 (oldact + 8) 0;
             st64 (oldact + 16) 0
           else mret tt);
      _ ← (if negb (act =? 0) then
             h' ← ld64 act;
             on_kern (modify (upd_proc pid (fun p => set_p_sig_handlers (<[Z.to_nat signum := h']> (p_sig_handlers p)) p)))
           else mret tt);
      mret 0.
Definition resume_waiting (pid : Z) (t : thread_info) : thread_info :=
  if bool_decide (t_pid t = pid /\ t_state t = THREAD_WAITING_SIGNAL) then set_t_state THREAD_READY t else t.
Definition sys_rt_sigreturn : ST kstate Z :=
  pid ← get_current_pid;
  tid ← gets get_current_thread_id;
  _ ← mark_current_thread_as_ended tid;
  _ ← modify (map_threads (fun _ => resume_waiting pid));
  _ ← (gets (fun k => proc k pid) ≫= deref);
  _ ← modify (upd_proc pid (set_p_state PROCESS_RUNNING));
  _ ← upd_current (set_t_signal 0);
  mret 0.
Definition SIG_BLOCK : Z := 0.
Definition SIG_UNBLOCK : Z := 1.
Definition SIG_SETMASK : Z := 2.
(** The new mask of [how], [None] for an unknown one. *)
Definition new_mask (how mask set : Z) : option Z :=
  if how =? SIG_BLOCK then Some (Z.lor mask set)
  else if how =? SIG_UNBLOCK then Some (Z.land mask (u64 (Z.lnot set)))
  else if how =? SIG_SETMASK then Some set
  else None.
Definition sigprocmask (how set oldset : Z) : ST (sys disk) Z :=
  tid ← on_kern (gets get_current_thread_id);
  curr ← on_kern (gets (fun k => thread k tid));
  if set =? 0 then mret (neg64 EINVAL)
  else match curr with
       | None => mret (neg64 ESRCH)
       | Some t =>
           _ ← (if negb (oldset =? 0) then st64 oldset (t_signal_mask t) else mret tt);
           s ← ld64 set;
           match new_mask how (t_signal_mask t) s with
           | Some mask => _ ← on_kern (modify (upd_thread tid (set_t_signal_mask mask))); mret 0
           | None => mret (neg64 EINVAL)
           end
       end.
(** [pid] and [sig] are 32-bit integers, converted to 64 and to 8 bits. *)
Definition rt_sigqueueinfo (pid sig : Z) : ST kstate (option Z) := send_signal_to_process fuel (u64 pid) (u8 sig).
Definition rt_tgsigqueueinfo (pid tid sig : Z) : ST kstate Z := send_signal_to_thread fuel (u64 pid) (u64 tid) (u8 sig).
End SignalCalls.

(** ** Sessions and groups *)
Section Sessions.
Context {disk : Type}.
Definition or_current (pid : Z) : ST kstate Z := if pid =? 0 then get_current_pid else mret pid.
Definition sys_setpgid (pid pgid : Z) : ST kstate Z :=
  pid ← or_current pid;
  cur ← current_proc;
  target ← (gets (fun k => proc k pid) ≫= deref);
  let pgid := if pgid =? 0 then pid else pgid in
  if negb (p_sid target =? p_sid cur) then mret (neg64 EPERM)
  else if negb (p_parent_pid target =? p_pid cur) && negb (p_pid target =? p_pid cur) then mret (neg64 ESRCH)
  else _ ← modify (upd_proc pid (set_p_pgid pgid)); mret 0.
Definition sys_setsid : ST kstate Z :=
  pid ← get_current_pid;
  cur ← (gets (fun k => proc k pid) ≫= deref);
  if p_pid cur =? p_pgid cur then mret (neg64 EPERM)
  else _ ← modify (upd_proc pid (fun p => set_p_pgid (p_pid p) (set_p_sid (p_pid p) p))); mret (p_pid cur).
Definition sys_sleep (now : timeval) (req : timespec) : ST kstate unit := user_thread_current_sleep now req.
(** Up to the point where the processor is given up. *)
Definition sys_waitpid (pid : Z) : ST kstate Z :=
  _ ← get_current_pid;
  tid ← gets get_current_thread_id;
  _ ← modify (upd_thread tid (set_t_state THREAD_BLOCKED_PID));
  flag ← (if negb (pid =? neg64 1) then gets (fun k => u64 (proc_slot k pid + offset_lock)) else mret (neg64 1));
  _ ← modify (upd_thread tid (set_t_sleep_flag_addr flag));
  mret (neg64 ECHILD).
Definition group_of (f : process_info -> Z) (pid : Z) : ST kstate Z :=
  pid ← or_current pid;
  a ← gets (fun k => proc_slot k pid);
  if a =? 0 then mret (neg64 ESRCH)
  else p ← (gets (fun k => process_heap k !! a) ≫= deref); mret (f p).
Definition sys_getpgid : Z -> ST kstate Z := group_of p_pgid.
Definition sys_getsid : Z -> ST kstate Z := group_of p_sid.
End Sessions.

(** ** The copied page tables *)
Section CloneProof.
Context {M : Machine} (Mok : machine_ok).

(** [U] holds the blocks that stay as they are. *)
Definition same_on (U : Z -> Prop) (k k' : kstate) : Prop :=
  forall b j, U b -> 0 <= j < 512 -> entry k' (blk b) j = entry k (blk b) j.
Definition used (k : kstate) (b : Z) : Prop := read_map k b <> 0.
Definition in_mem (b : Z) : Prop := 0 <= b < 2 ^ 35.

(** The original: the tables below [t], down to [lv] further levels, are in
    blocks of [U]; only the first [n] entries count. *)
Fixpoint source (U : Z -> Prop) (k : kstate) (lv n : nat) (t : Z) : Prop :=
  (exists b, t = blk b /\ U b) /\
  match lv with
  | O => True
  | S lv' => forall i, 0 <= i < Z.of_nat n -> entry k t i <> 0 -> source U k lv' 512 (page_line_to_addr (entry k t i))
  end.
(** The copy: every entry in use of the original has a counterpart with the
    same flags that leads to a copy; for the others the block of the copy holds
    what it held before; on the last level the entries are equal. *)
Fixpoint copied (U : Z -> Prop) (k0 k : kstate) (lv n : nat) (o t : Z) : Prop :=
  (exists b, t = blk b /\ U b /\ in_mem b) /\
  match lv with
  | O => forall i, 0 <= i < 512 -> entry k t i = entry k0 o i
  | S lv' => forall i, 0 <= i < Z.of_nat n ->
      (entry k0 o i = 0 -> entry k t i = entry k0 t i) /\
      (entry k0 o i <> 0 ->
       entry k t i <> 0 /\ pageline_get_flags (entry k t i) = pageline_get_flags (entry k0 o i) /\
       copied U k0 k lv' 512 (page_line_to_addr (entry k0 o i)) (page_line_to_addr (entry k t i)))
  end.

Lemma same_on_trans U k1 k2 k3 : same_on U k1 k2 -> same_on U k2 k3 -> same_on U k1 k3.
Proof. intros H1 H2 b j Hb Hj. by rewrite H2, H1. Qed.

Lemma source_mono (U U' : Z -> Prop) k lv : forall n t, (forall b, U b -> U' b) -> source U k lv n t -> source U' k lv n t.
Proof.
  induction lv as [|lv IH]; intros n t HU [(b & -> & Hb) H]; (split; [by eauto|]); [done|].
  intros i Hi Hn. apply IH; [done|]. by apply H.
Qed.
Lemma source_same U k k' lv : forall n t, (n <= 512)%nat ->
  same_on U k k' -> source U k lv n t -> source U k' lv n t.
Proof.
  induction lv as [|lv IH]; intros n t Hl HU [(b & -> & Hb) H]; (split; [by eauto|]); [done|].
  intros i Hi Hn. rewrite HU in * by (done || lia). apply IH; [lia|done|]. by apply H.
Qed.
Lemma copied_same (U U' : Z -> Prop) k0 k k' lv : forall n o t, (n <= 512)%nat ->
  (forall b, U b -> U' b) -> same_on U k k' -> copied U k0 k lv n o t -> copied U' k0 k' lv n o t.
Proof.
  induction lv as [|lv IH]; intros n o t Hl HU HS [(b & -> & Hb & Hm) H]; (split; [by eauto 6|]).
  - intros i Hi. rewrite HS by done. by apply H.
  - intros i Hi. destruct (H i Hi) as [Hz Hn]. rewrite HS by (done || lia). split; [done|].
    intros He. destruct (Hn He) as (H1 & H2 & H3). split_and!; [done..|]. apply IH; [lia|done..].
Qed.
(** A copy translates the pages of the original as it does, flags included. *)
Lemma copied_walk U k0 k lv : forall n o t p, length p = S lv ->
  copied U k0 k lv n o t -> upath_aux false p ->
  (match p with i :: _ => 0 <= i < Z.of_nat n | [] => True end \/ lv = 0%nat) ->
  table k0 o p <> None ->
  table k t p = table k0 o p /\ map pageline_get_flags (walk k t p) = map pageline_get_flags (walk k0 o p) /\
  last (walk k t p) = last (walk k0 o p).
Proof.
  induction lv as [|lv IH]; intros n o t p Hl [_ H] Hp Hn Hf;
    destruct p as [|i p]; try discriminate; cbn [table walk map] in *; destruct Hp as [Hi Hp].
  - destruct p; [|discriminate]. rewrite H by done. done.
  - destruct (Z.eqb_spec (entry k0 o i) 0) as [|He]; [done|].
    destruct Hn as [Hn|]; [|done]. destruct (H i Hn) as [_ H']. destruct (H' He) as (H1 & H2 & H3).
    destruct (Z.eqb_spec (entry k t i) 0); [done|].
    destruct (IH 512%nat _ _ p ltac:(by injection Hl) H3 Hp) as (E1 & E2 & E3); [|exact Hf|].
    { destruct p; [by left|]. left. destruct Hp. lia. }
    split; [exact E1|]. split; [by rewrite H2, E2|]. destruct p; [discriminate|]. cbn [walk] in *. exact E3.
Qed.
(** Over memory that was clear it translates no other page. *)
Lemma copied_none U k0 k lv : forall n o t p, length p = S lv ->
  (forall b j, U b -> 0 <= j < 512 -> entry k0 (blk b) j = 0) ->
  copied U k0 k lv n o t -> upath_aux false p ->
  (match p with i :: _ => 0 <= i < Z.of_nat n | [] => True end \/ lv = 0%nat) ->
  table k0 o p = None -> table k t p = None.
Proof.
  induction lv as [|lv IH]; intros n o t p Hl Hz [(b & -> & Hb & _) H] Hp Hn Hf;
    destruct p as [|i p]; try discriminate; cbn [table] in *; destruct Hp as [Hi Hp].
  - destruct p; [|discriminate]. rewrite H by done. done.
  - destruct Hn as [Hn|]; [|done]. destruct (H i Hn) as [H0 H'].
    destruct (Z.eqb_spec (entry k0 o i) 0) as [He|He]; [by rewrite H0, Hz|].
    destruct (H' He) as (H1 & _ & H3). destruct (Z.eqb_spec (entry k (blk b) i) 0); [done|].
    eapply (IH 512%nat); [by injection Hl|done|exact H3|done| |exact Hf].
    destruct p; [by left|]. left. destruct Hp. lia.
Qed.

(** Page lines of a block. *)
Lemma land_page w x : 0 <= w -> Z.land x (Z.shiftl (Z.ones w) 12) = (x / 4096) mod 2 ^ w * 4096.
Proof.
  intros Hw. change 4096 with (2 ^ 12). rewrite <- Z.shiftl_mul_pow2, <- Z.land_ones, <- Z.shiftr_div_pow2 by lia.
  apply Z.bits_inj'. intros n Hn. rewrite !Z.land_spec, !Z.shiftl_spec by lia.
  destruct (Z.lt_ge_cases n 12); [by rewrite (Z.testbit_neg_r (Z.ones w)), (Z.testbit_neg_r (Z.land _ _)), andb_false_r by lia|].
  rewrite Z.land_spec, Z.shiftr_spec by lia. by replace (n - 12 + 12) with n by lia.
Qed.
Lemma land_fff x : Z.land x 0xFFF = x mod 4096.
Proof. change 0xFFF with (Z.ones 12). by rewrite Z.land_ones by lia. Qed.
Lemma make_pageline_value c f : in_mem c -> make_pageline (blk c - HM) f = c * 4096 + f mod 4096.
Proof.
  intros Hc. unfold make_pageline, blk, in_mem in *. replace (c * 4096 + HM - HM) with (c * 4096) by lia.
  change (u64 (Z.lnot 0xFFF)) with (Z.shiftl (Z.ones 52) 12). rewrite land_page, land_fff, Z.div_mul by lia.
  rewrite (Z.mod_small c) by lia. change 4096 with (2 ^ 12). rewrite <- (Z.shiftl_mul_pow2 c) at 1 by lia.
  apply lor_shiftl; [lia|]. apply Z.mod_pos_bound. lia.
Qed.
Lemma make_pageline_addr c f : in_mem c -> page_line_to_addr (make_pageline (blk c - HM) f) = blk c.
Proof.
  intros Hc. rewrite make_pageline_value by done. unfold page_line_to_addr, in_mem, blk in *.
  change 0x000FFFFFFFFFF000 with (Z.shiftl (Z.ones 40) 12). rewrite land_page by lia.
  pose proof (Z.mod_pos_bound f 4096 ltac:(lia)). rewrite Z.div_add_l, (Z.div_small (f mod 4096)) by lia.
  rewrite Z.add_0_r, (Z.mod_small c) by lia. apply u64_id. unfold HM. lia.
Qed.
Lemma make_pageline_flags c f : in_mem c -> pageline_get_flags (make_pageline (blk c - HM) (pageline_get_flags f)) = pageline_get_flags f.
Proof.
  intros Hc. rewrite make_pageline_value by done. unfold pageline_get_flags. rewrite !land_fff.
  rewrite Z.add_comm, Z.mod_add, !Z.mod_mod by lia. done.
Qed.

(** A loop whose body may only stop by a panic. *)
Lemma for_m_or_panic {S} (I : Z -> S -> Prop) n i body (s : S) :
  I i s ->
  (forall j s0, i <= j < i + Z.of_nat n -> I j s0 ->
     body j s0 = Panicked \/ exists s1, body j s0 = Done (tt, s1) /\ I (j + 1) s1) ->
  for_m n i body s = Panicked \/ exists s', for_m n i body s = Done (tt, s') /\ I (i + Z.of_nat n) s'.
Proof.
  revert i s. induction n as [|n IH]; intros i s HI Hstep; cbn [for_m].
  - right. exists s. rewrite Z.add_0_r. split; [reflexivity|done].
  - destruct (Hstep i s ltac:(lia) HI) as [E|(s1 & E & HI1)].
    { left. unfold mbind, st_bind. by rewrite E. }
    rewrite (bind_done _ _ _ _ _ E).
    destruct (IH (i + 1) s1 HI1) as [E'|(s' & E' & HI')]; [|by left|].
    { intros j s0 Hj HIj. apply Hstep; [lia|done]. }
    right. exists s'. split; [done|]. by replace (i + Z.of_nat (Datatypes.S n)) with (i + 1 + Z.of_nat n) by lia.
Qed.
Lemma entry_set_other x c i j w k : 0 <= i < 512 -> 0 <= j < 512 -> c <> x ->
  entry (set_entry (blk x) i w k) (blk c) j = entry k (blk c) j.
Proof. intros Hi Hj Hc. rewrite entry_set. destruct (Z.eqb_spec (blk c + 8 * j) (blk x + 8 * i)) as [E|]; [|done].
  apply blk_entry_inj in E as [-> _]; done. Qed.
Lemma entry_set_index x i j w k : entry (set_entry (blk x) i w k) (blk x) j = if j =? i then w else entry k (blk x) j.
Proof. rewrite entry_set. destruct (Z.eqb_spec (blk x + 8 * j) (blk x + 8 * i)), (Z.eqb_spec j i); try lia; done. Qed.

Lemma copied_base U U' k0 k1 k lv : forall n o t, (n <= 512)%nat ->
  source U k0 lv n o -> same_on U k0 k1 -> same_on U' k0 k1 -> copied U' k1 k lv n o t -> copied U' k0 k lv n o t.
Proof.
  induction lv as [|lv IH]; intros n o t Hn [(b & -> & Hb) Hs] HS HS' [Ht H]; (split; [done|]).
  - intros i Hi. rewrite <- HS by done. by apply H.
  - intros i Hi. pose proof (HS b i Hb ltac:(lia)) as E. destruct (H i Hi) as [Hz H']. rewrite E in Hz, H'.
    destruct Ht as (c & -> & Hc & _). rewrite (HS' c i Hc) in Hz by lia. split; [done|].
    intros He. destruct (H' He) as (H1 & H2 & H3). split_and!; [done..|]. eapply IH; [lia|by apply Hs|done..].
Qed.

(** Blocks a run may not change, and those it may use for the copy. *)
Definition kept (k : kstate) (x b : Z) : Prop := used k b /\ b <> x.
Definition fresh (k k' : kstate) (x b : Z) : Prop := used k' b /\ (b = x \/ ~ used k b).
Record clones (lv n : nat) (o x : Z) (k k' : kstate) : Prop := {
  cl_same : same_on (kept k x) k k';
  cl_used : forall b, used k b -> used k' b;
  cl_mem : mem_only k k';
  cl_free : same_on (fun b => ~ used k' b) k k';
  cl_copy : copied (fresh k k' x) k k' lv n o (blk x)
}.

Lemma copy_table_spec k o x :
  in_mem x -> used k x -> source (kept k x) k 0 512 o ->
  exists k', copy_table (blk x) o k = Done (tt, k') /\ clones 0 512 o x k k'.
Proof.
  intros Hx Hux [(b & -> & Hb & Hne) _]. unfold copy_table.
  destruct (for_m_inv (fun i k' => same_on (kept k x) k k' /\ (forall c, read_map k' c = read_map k c) /\
      mem_only k k' /\ (forall j, 0 <= j < i -> j < 512 -> entry k' (blk x) j = entry k (blk b) j) /\
      same_on (fun c => c <> x) k k')
    512 0 (fun i => modify (fun k => set_entry (blk x) i (entry k (blk b) i) k)) k) as (k' & E & H1 & H2 & H3 & H4 & H5).
  - split_and!; try done; [apply mem_only_refl|lia].
  - intros j s Hj (I1 & I2 & I3 & I4 & I5). eexists. split; [reflexivity|]. split_and!.
    + eapply same_on_trans; [exact I1|]. intros c i [_ Hc] Hi. apply entry_set_other; [lia|lia|done].
    + intros c. rewrite read_map_set_entry. apply I2.
    + eapply mem_only_trans; [exact I3|]. by eexists (memory_map s), _.
    + intros i Hi Hi2. rewrite entry_set_index. destruct (Z.eqb_spec i j) as [->|]; [|apply I4; lia].
      apply I1; [done|lia].
    + eapply same_on_trans; [exact I5|]. intros c i Hc Hi. apply entry_set_other; [lia|lia|done].
  - exists k'. split; [exact E|]. split; [done| |done| |].
    + intros c. unfold used. by rewrite H2.
    + intros c j Hc Hj. apply H5; [|done]. intros ->. apply Hc. unfold used. by rewrite H2.
    + split.
      * exists x. split; [done|]. split; [|done]. split; [|by left]. unfold used. by rewrite H2.
      * intros i Hi. apply H4; lia.
Qed.

(** The invariant of a loop that has handled the entries below [i]. *)
Record clone_inv (lv : nat) (o x : Z) (k : kstate) (i : Z) (ki : kstate) : Prop := {
  ci_same : same_on (kept k x) k ki;
  ci_used : forall b, used k b -> used ki b;
  ci_mem : mem_only k ki;
  ci_free : same_on (fun b => ~ used ki b) k ki;
  ci_kept : forall j, 0 <= j < 512 -> (i <= j \/ entry k o j = 0) -> entry ki (blk x) j = entry k (blk x) j;
  ci_copy : forall j, 0 <= j < i -> j < 512 -> entry k o j <> 0 ->
    entry ki (blk x) j <> 0 /\ pageline_get_flags (entry ki (blk x) j) = pageline_get_flags (entry k o j) /\
    copied (fun b => used ki b /\ ~ used k b) k ki lv 512 (page_line_to_addr (entry k o j)) (page_line_to_addr (entry ki (blk x) j))
}.

Context (Kpos : 0 < kernel_blocks).
Lemma alloc_inv k : get_a_free_block_addr k = Panicked \/
  exists c, get_a_free_block_addr k = Done (blk c, mark_used c k) /\
    ~ used k c /\ in_mem c /\ 0 < c.
Proof.
  destruct (get_a_free_block_addr k) as [[a k']| | |] eqn:E; [|by left|exfalso..].
  - right. destruct (get_a_free_block_addr_inv k a k' Mok E) as (c & -> & -> & H0 & Hc & _). exists c.
    split; [done|]. split; [by intros []|]. split; [done|].
    unfold get_a_free_block_addr in E. apply bind_done_inv in E as (c' & k1 & Ec & E). injection E as Ea _.
    apply get_a_free_block_done in Ec as (Hc' & _ & _ & _). destruct Mok as (_ & Ht & _). rewrite u64_id in Ea by (unfold HM in *; lia). lia.
  - unfold get_a_free_block_addr, get_a_free_block in E. revert E. run_st. destruct (find_idx _ _ _); discriminate.
  - unfold get_a_free_block_addr, get_a_free_block in E. revert E. run_st. destruct (find_idx _ _ _); discriminate.
Qed.
Lemma used_alloc k c b : used (mark_used c k) b <-> used k b \/ b = c.
Proof. unfold used. rewrite read_map_used. destruct (Z.eqb_spec b c); [|tauto]. split; [by right|done]. Qed.

(** One entry: the state after the allocation and the store of the page line,
    and the state after the copy below it. *)
Lemma clone_step lv o b x k i ki c kb k' :
  o = blk b -> kept k x b -> in_mem x -> used k x -> clone_inv lv o x k i ki -> 0 <= i < 512 ->
  entry k o i <> 0 -> source (kept k x) k lv 512 (page_line_to_addr (entry k o i)) ->
  ~ used ki c -> in_mem c -> 0 < c ->
  kb = set_entry (blk x) i (make_pageline (blk c - HM) (pageline_get_flags (entry k o i)))
         (mark_used c ki) ->
  clones lv 512 (page_line_to_addr (entry k o i)) c kb k' ->
  clone_inv lv o x k (i + 1) k'.
Proof.
  intros -> Hb Hx Hux [I1 I2 I3 If Ik I4] Hi He Hsrc Hc Hcm Hc0 -> [C1 C2 C3 Cf C4].
  set (pl := make_pageline _ _) in *. set (kb := set_entry _ _ _ _) in *.
  assert (Hkb : forall d, used kb d <-> used ki d \/ d = c).
  { intros d. unfold kb, used. rewrite read_map_set_entry. apply used_alloc. }
  assert (Hxc : x <> c) by (intros ->; apply Hc; by apply I2).
  assert (Hsame : forall d j, used ki d -> d <> x -> 0 <= j < 512 -> entry k' (blk d) j = entry ki (blk d) j).
  { intros d j Hd Hdx Hj. rewrite C1; [|split; [apply Hkb; by left|by intros ->]|done].
    unfold kb. rewrite entry_set_other by done. done. }
  assert (Hnew : forall j, 0 <= j < 512 -> entry k' (blk x) j = if j =? i then pl else entry ki (blk x) j).
  { intros j Hj. rewrite C1; [|split; [apply Hkb; left; by apply I2|done]|done]. unfold kb.
    rewrite entry_set_index. done. }
  assert (Hfr : forall d j, ~ used ki d -> 0 <= j < 512 -> entry kb (blk d) j = entry k (blk d) j).
  { intros d j Hd Hj. unfold kb. rewrite entry_set_other; [by apply If|done..|]. intros ->. by apply Hd, I2. }
  split.
  - intros d j [Hd Hdx] Hj. rewrite Hsame by (auto || lia). by apply I1.
  - intros d Hd. apply C2, Hkb. left. by apply I2.
  - eapply mem_only_trans; [exact I3|]. eapply mem_only_trans; [|exact C3]. by eexists (<[c:=1]> (memory_map ki)), _.
  - intros d j Hd Hj. rewrite Cf by done. apply Hfr; [|done]. intros Hk. by apply Hd, C2, Hkb; left.
  - intros j Hj Hor. rewrite Hnew by done. destruct (Z.eqb_spec j i) as [->|]; [destruct Hor; [lia|done]|].
    apply Ik; [done|]. destruct Hor; [left; lia|by right].
  - intros j Hj Hj2 Hej. rewrite Hnew by lia. destruct (Z.eqb_spec j i) as [->|].
    + split_and!.
      * unfold pl. rewrite make_pageline_value by done. pose proof (Z.mod_pos_bound (pageline_get_flags (entry k (blk b) i)) 4096 ltac:(lia)). lia.
      * by apply make_pageline_flags.
      * unfold pl. rewrite make_pageline_addr by done.
        apply (copied_same (fresh kb k' c) _ k k'); [lia| |by intros ?|].
        { intros d [Hd Hd']. split; [done|]. intros Hdk. destruct Hd' as [->|Hd']; [by apply Hc, I2|].
          apply Hd', Hkb. left. by apply I2. }
        apply (copied_base (kept k x) _ k kb); [lia|done| | |exact C4].
        { intros d j Hd Hj'. unfold kb. rewrite entry_set_other by (done || apply Hd). by apply I1. }
        intros d j [_ Hd] Hj'. apply Hfr; [|done]. intros Hk. destruct Hd as [->|Hd]; [done|]. apply Hd, Hkb. by left.
    + destruct (I4 j ltac:(lia) Hj2 Hej) as (H1 & H2 & H3). split_and!; [done..|].
      eapply copied_same; [lia| | |exact H3].
      * intros d [Hd Hd']. split; [apply C2, Hkb; by left|done].
      * intros d j' [Hd Hd'] Hj'. apply Hsame; [done|by intros ->|done].
Qed.

(** What a level does, for every table it may be called on. *)
Definition level_ok (lv : nat) : Prop := forall n o x k,
  (n <= 512)%nat -> (lv = 0%nat -> n = 512%nat) -> in_mem x -> used k x -> source (kept k x) k lv n o ->
  clone_level lv n o (blk x) k = Panicked \/
  exists k', clone_level lv n o (blk x) k = Done (tt, k') /\ clones lv n o x k k'.

Lemma clone_level_inv lv n o x k :
  level_ok lv -> (n <= 512)%nat -> in_mem x -> used k x -> source (kept k x) k (S lv) n o ->
  clone_level (S lv) n o (blk x) k = Panicked \/
  exists k', clone_level (S lv) n o (blk x) k = Done (tt, k') /\ clone_inv lv o x k (Z.of_nat n) k'.
Proof.
  intros IH Hn Hx Hux Hs. cbn [clone_level]. pose proof Hs as [(b & Eo & Hb) Hsub].
  apply (for_m_or_panic (clone_inv lv o x k) n 0).
  { split; try done; [by apply mem_only_refl|lia]. }
  intros i ki Hi HI. rewrite gets_bind.
  assert (Ee : entry ki o i = entry k o i) by (subst o; apply (ci_same _ _ _ _ _ _ HI); [done|lia]).
  rewrite Ee. destruct (Z.eqb_spec (entry k o i) 0) as [E0|E0].
  { right. exists ki. split; [reflexivity|]. destruct HI as [I1 I2 I3 If Ik I4]. split; try done.
    { intros j Hj Hor. apply Ik; [done|]. destruct Hor; [left; lia|by right]. }
    intros j Hj Hj2 Hej. destruct (Z.eq_dec j i) as [->|]; [done|]. apply I4; [lia|done..]. }
  destruct (alloc_inv ki) as [Ea|(c & Ea & Hc & Hcm & Hc0)]; [left; unfold mbind, st_bind; by rewrite Ea|].
  rewrite (bind_done _ _ _ _ _ Ea), modify_bind. set (kb := set_entry _ _ _ _).
  assert (Hsrc : source (kept k x) k lv 512 (page_line_to_addr (entry k o i))) by (apply Hsub; [lia|done]).
  destruct (IH 512%nat (pageline_to_high_addr (entry k o i)) c kb) as [Ei|(k' & Ei & HC)]; try done.
  - unfold kb, used. rewrite read_map_set_entry. apply used_alloc. by right.
  - eapply source_mono; [|eapply (source_same (kept k x)); [lia| |exact Hsrc]].
    + intros d [Hd Hdx]. split; [unfold kb, used; rewrite read_map_set_entry; apply used_alloc; left; by apply (ci_used _ _ _ _ _ _ HI)|].
      intros ->. apply Hc. by apply (ci_used _ _ _ _ _ _ HI).
    + intros d j Hd Hj. unfold kb. rewrite entry_set_other by (lia || apply Hd). by apply (ci_same _ _ _ _ _ _ HI).
  - by left.
  - right. exists k'. split; [exact Ei|]. by apply (clone_step lv o b x k i ki c kb k'); try (done || lia).
Qed.

Lemma clone_level_spec lv : level_ok lv.
Proof.
  induction lv as [|lv IH]; intros n o x k Hn Hlv Hx Hux Hs.
  { rewrite Hlv in * by done. right. by apply copy_table_spec. }
  destruct (clone_level_inv lv n o x k IH Hn Hx Hux Hs) as [E|(k' & E & [I1 I2 I3 If Ik I4])]; [by left|].
  right. exists k'. split; [exact E|]. split; try done. split.
  - exists x. split; [done|]. split; [|done]. split; [by apply I2|by left].
  - intros i Hi. split; [intros Hz; apply Ik; [lia|by right]|]. intros He. destruct (I4 i ltac:(lia) ltac:(lia) He) as (H1 & H2 & H3). split_and!; [done..|].
    eapply copied_same; [lia| |by intros ?|exact H3]. intros d [Hd Hd']. split; [done|by right].
Qed.

(** The tables of a well-formed tree that does not contain block [x]. *)
Definition not_in_tree (k : kstate) (cr3 x : Z) : Prop :=
  forall p, upath p -> (length p <= 3)%nat -> table k cr3 p <> Some (blk x).
Lemma source_of_wf k cr3 x lv : forall p t,
  pt_wf k cr3 -> not_in_tree k cr3 x -> (length p + lv = 3)%nat -> upath p -> table k cr3 p = Some t ->
  source (kept k x) k lv (if p is [] then 128 else 512) t.
Proof.
  induction lv as [|lv IH]; intros p t W Hx Hl Hp Ht.
  all: destruct (wf_alloc _ _ W p t Hp Ht) as (b & -> & _ & Hu).
  all: assert (Hk : kept k x b) by (split; [done|]; intros ->; by apply (Hx p); [|lia|]).
  all: split; [by eauto|]; try done.
  intros i Hi He.
  assert (Hs : upath (p ++ [i])) by (apply upath_snoc; split; [done|]; split; [lia|]; unfold uindex; by destruct p).
  replace 512%nat with (if p ++ [i] is [] then 128 else 512)%nat by (by destruct p).
  apply (IH (p ++ [i])); try done; [rewrite length_app; cbn; lia|].
  rewrite table_snoc, Ht. destruct (Z.eqb_spec (entry k (blk b) i) 0); done.
Qed.

(** Memory that is not in use, and the block of the new root, hold zeros. *)
Definition clear_memory (k : kstate) (x : Z) : Prop :=
  forall b j, ~ used k b \/ b = x -> 0 <= j < 512 -> entry k (blk b) j = 0.

Lemma clone_cr3_spec k cr3 x :
  pt_wf k cr3 -> not_in_tree k cr3 x -> in_mem x -> used k x ->
  clone_cr3 cr3 (blk x) k = Panicked \/
  exists k', clone_cr3 cr3 (blk x) k = Done (tt, k') /\ mem_only k k' /\
    copied (fresh k k' x) k k' 3 128 cr3 (blk x) /\
    (forall j, 128 <= j < 512 -> entry k' (blk x) j = entry k cr3 j) /\
    (forall b j, used k b -> b <> x -> 0 <= j < 512 -> entry k' (blk b) j = entry k (blk b) j).
Proof.
  intros W Hnx Hx Hu. unfold clone_cr3.
  destruct (wf_alloc _ _ W [] cr3 upath_nil eq_refl) as (o & -> & _ & Ho).
  assert (Hox : o <> x) by (intros ->; by apply (Hnx [] upath_nil); [cbn; lia|]).
  destruct (clone_level_inv 2 128 (blk o) x k (clone_level_spec 2) ltac:(lia) Hx Hu) as [E|(k1 & E & [C1 C2 C3 _ Ck C4])].
  { by apply (source_of_wf k (blk o) x 3 []); [| | |apply upath_nil|]. }
  { left. unfold mbind, st_bind. change (Z.to_nat high_mem_starting_l4i) with 128%nat. by rewrite E. }
  right. change (Z.to_nat high_mem_starting_l4i) with 128%nat. rewrite (bind_done _ _ _ _ _ E).
  change (Z.to_nat (512 - high_mem_starting_l4i)) with 384%nat. change high_mem_starting_l4i with 128.
  destruct (for_m_inv (fun i k' => (forall c, read_map k' c = read_map k1 c) /\ mem_only k1 k' /\ same_on (fun b => b <> x) k1 k' /\
      (forall j, 0 <= j < 128 -> entry k' (blk x) j = entry k1 (blk x) j) /\
      forall j, 128 <= j < i -> j < 512 -> entry k' (blk x) j = entry k (blk o) j)
    384 128 (fun i => modify (fun k => set_entry (blk x) i (entry k (blk o) i) k)) k1) as (k' & E' & H0 & H1 & H2 & H3 & H4).
  - split_and!; try done; [apply mem_only_refl|lia].
  - intros j s Hj (J0 & J1 & J2 & J3 & J4). eexists. split; [reflexivity|]. split_and!.
    + intros c. rewrite read_map_set_entry. apply J0.
    + eapply mem_only_trans; [exact J1|]. by eexists (memory_map s), _.
    + eapply same_on_trans; [exact J2|]. intros c i Hc Hi. apply entry_set_other; [lia|lia|done].
    + intros i Hi. rewrite entry_set_index. destruct (Z.eqb_spec i j); [lia|]. by apply J3.
    + intros i Hi Hi2. rewrite entry_set_index. destruct (Z.eqb_spec i j) as [->|]; [|apply J4; lia].
      rewrite J2 by (done || lia). apply C1; [done|lia].
  - exists k'. split; [exact E'|]. split_and!.
    + by eapply mem_only_trans.
    + assert (Hu' : forall b, used k' b <-> used k1 b) by (intros b; unfold used; by rewrite H0). split.
      { exists x. split; [done|]. split; [|done]. split; [by apply Hu', C2|by left]. }
      intros i Hi. rewrite H3 by lia. split; [intros Hz; apply Ck; [lia|by right]|]. intros He.
      destruct (C4 i ltac:(lia) ltac:(lia) He) as (N1 & N2 & N3). split_and!; [done..|].
      eapply copied_same; [lia| | |exact N3].
      * intros b [Hb Hb']. split; [by apply Hu'|by right].
      * intros b j [Hb Hb'] Hj. apply H2; [|done]. by intros ->.
    + intros j Hj. apply H4; lia.
    + intros b j Hb Hbx Hj. rewrite H2 by done. by apply C1.
Qed.
End CloneProof.

(** ** Ranges of pages *)

(** Every frame and table of [k'] is one of [k], at the same place. *)
Definition sub_tree (pid : Z) (k k' : kstate) : Prop :=
  forall q f, upath q -> table k' (cr3_of k' pid) q = Some f -> table k (cr3_of k pid) q = Some f.
Lemma sub_tree_trans pid k1 k2 k3 : sub_tree pid k1 k2 -> sub_tree pid k2 k3 -> sub_tree pid k1 k3.
Proof. unfold sub_tree. auto. Qed.
(** Words outside the tables of [pid] lose at most their top byte. *)
Definition data_kept (pid : Z) (k k' : kstate) : Prop :=
  forall c j, 0 <= j < 512 ->
    (forall q, upath q -> (length q <= 3)%nat -> table k (cr3_of k pid) q <> Some (blk c)) ->
    top_byte_lost (entry k (blk c) j) (entry k' (blk c) j).
Lemma data_kept_trans pid k1 k2 k3 :
  sub_tree pid k1 k2 -> data_kept pid k1 k2 -> data_kept pid k2 k3 -> data_kept pid k1 k3.
Proof.
  intros S D1 D2 c j Hj Hq. eapply top_byte_lost_trans; [by apply D1|]. apply D2; [done|].
  intros q Hu Hl Ht. by apply (Hq q Hu Hl), S.
Qed.

Section Ranges.
Context {M : Machine} (Mok : machine_ok).
Definition in_range (a n x : Z) : bool := (a <=? x) && (x <? a + n).

Lemma page_of base i va : 0 <= base -> 0 <= i -> (base + i * 4096) / 4096 = va / 4096 <-> va / 4096 = base / 4096 + i.
Proof. intros Hb Hi. rewrite Z.div_add by lia. lia. Qed.

Lemma vpath_same x y : x / 4096 = y / 4096 -> vpath x = vpath y.
Proof.
  intros Ex. unfold vpath, l4_index, l3_index, l2_index, l1_index.
  assert (Hs : forall y w, 12 <= w -> Z.shiftr y w = Z.shiftr (y / 4096) (w - 12)).
  { intros z w Hw. rewrite !Z.shiftr_div_pow2 by lia. change 4096 with (2 ^ 12).
    rewrite Z.div_div, <- Z.pow_add_r by lia. do 2 f_equal. lia. }
  rewrite !(Hs x), !(Hs y), Ex by lia. done.
Qed.
Lemma increase_one k pid va :
  pt_wf k (cr3_of k pid) -> 0 <= va < HM -> (4 <= length (free_list k))%nat ->
  exists r k', increase_paging_of_process_with_virt_addr pid va k = Done (r, k') /\
    pt_wf k' (cr3_of k' pid) /\ mem_only k k' /\ (length (free_list k) <= 4 + length (free_list k'))%nat /\
    sub_tree pid k' k /\
    (forall x, 0 <= x < HM -> is_paged k' pid x = is_paged k pid x || (x / 4096 =? va / 4096)).
Proof.
  intros W Hv Hf. destruct (increase_spec Mok k pid va W Hv Hf) as (r & k' & E & G & HR).
  assert (Ec : cr3_of k' pid = cr3_of k pid) by (apply cr3_of_ext, G).
  exists r, k'. split; [done|]. rewrite Ec. split; [apply G|]. split; [by eapply increase_mem_only|]. split; [apply G|].
  split; [intros q f; rewrite Ec; apply (gr_keep _ _ _ _ _ G)|].
  intros x Hx. rewrite !is_paged_table, Ec. destruct (Z.eqb_spec (x / 4096) (va / 4096)) as [Ex|Ex].
  - rewrite (vpath_same x va Ex), orb_true_r. apply bool_decide_eq_true.
    destruct (table k (cr3_of k pid) (vpath va)) as [f|] eqn:Et.
    + rewrite (gr_keep _ _ _ _ _ G _ _ (upath_vpath _ Hv) Et). done.
    + destruct HR as (b & _ & _ & T). by rewrite T.
  - rewrite orb_false_r. rewrite (gr_only _ _ _ _ _ G); [done|by apply upath_vpath|by apply vpath_other_page].
Qed.

Lemma map_range_spec n a base pid k :
  pt_wf k (cr3_of k pid) -> 0 <= base -> 0 <= a -> base + (a + Z.of_nat n) * 4096 <= HM ->
  (4 * n <= length (free_list k))%nat ->
  exists k', for_m n a (fun i => _ ← increase_paging_of_process_with_virt_addr pid (u64 (base + i * 4096)); mret tt) k
      = Done (tt, k') /\
    pt_wf k' (cr3_of k' pid) /\ mem_only k k' /\ sub_tree pid k' k /\
    (forall x, 0 <= x < HM -> is_paged k' pid x = is_paged k pid x || in_range (base / 4096 + a) (Z.of_nat n) (x / 4096)).
Proof.
  intros W Hb Ha Hm Hf.
  match goal with |- context [for_m n a ?body k] =>
    destruct (for_m_inv (fun i s => pt_wf s (cr3_of s pid) /\ mem_only k s /\ sub_tree pid s k /\
      (4 * Z.to_nat (a + Z.of_nat n - i) <= length (free_list s))%nat /\
      forall x, 0 <= x < HM -> is_paged s pid x = is_paged k pid x || in_range (base / 4096 + a) (i - a) (x / 4096))
      n a body k) as (k' & E & H1 & H2 & H2' & _ & H3) end.
  - split_and!; [done|apply mem_only_refl|by intros ?|lia|]. intros x Hx. unfold in_range.
    rewrite Z.sub_diag. repeat ztest; cbn; try lia; by rewrite orb_false_r.
  - intros i s Hi (J1 & J2 & J2' & J3 & J4).
    destruct (increase_one s pid (base + i * 4096) J1 ltac:(lia) ltac:(lia)) as (r & s1 & E1 & G1 & G2 & G3 & G3' & G4).
    exists s1. rewrite u64_id by (unfold HM in *; lia). rewrite (bind_done _ _ _ _ _ E1). split; [reflexivity|].
    split_and!; [done|by eapply mem_only_trans|by eapply sub_tree_trans|lia|]. intros x Hx. rewrite G4, J4 by done.
    rewrite <- orb_assoc. f_equal. unfold in_range. rewrite Z.div_add by lia. repeat ztest; cbn; lia || done.
  - exists k'. split; [exact E|]. split_and!; [done..|]. intros x Hx. rewrite H3 by done.
    do 2 f_equal. lia.
Qed.

Context (Mal : end_kernel mod 8 = 0).
Lemma unmap_range_spec n (va : Z -> Z) pid k :
  pt_wf k (cr3_of k pid) -> ram_words k -> plain_tables k (cr3_of k pid) ->
  (forall j, 0 <= j < Z.of_nat n -> 0 <= va j < HM) ->
  exists k', for_m n 0 (fun j => modify (decrease_paging_of_process_with_virt_addr pid (va j))) k = Done (tt, k') /\
    pt_wf k' (cr3_of k' pid) /\ mem_only k k' /\ sub_tree pid k k' /\ data_kept pid k k' /\
    (forall c, read_map k' c = read_map k c) /\
    (forall j, 0 <= j < Z.of_nat n -> is_paged k' pid (va j) = false) /\
    (forall x, 0 <= x < HM -> (forall j, 0 <= j < Z.of_nat n -> x / 4096 <> va j / 4096) -> is_paged k' pid x = is_paged k pid x).
Proof.
  intros W Hw Hpl Hv.
  match goal with |- context [for_m n 0 ?body k] =>
    destruct (for_m_inv (fun i s => (pt_wf s (cr3_of s pid) /\ ram_words s /\ plain_tables s (cr3_of s pid)) /\
      (mem_only k s /\ sub_tree pid k s /\ data_kept pid k s /\ (forall c, read_map s c = read_map k c)) /\
      (forall j, 0 <= j < i -> j < Z.of_nat n -> is_paged s pid (va j) = false) /\
      forall x, 0 <= x < HM -> (forall j, 0 <= j < i -> x / 4096 <> va j / 4096) -> is_paged s pid x = is_paged k pid x)
      n 0 body k) as (k' & E & (H1 & _) & (H2 & H2' & H2'' & H3) & H4 & H5) end.
  - split_and!; try done; [apply mem_only_refl|by intros ?|by left|lia].
  - intros i s Hi ((J1 & Jw & Jp) & (J2 & Js & Jd & J3) & J4 & J5). eexists. split; [reflexivity|].
    destruct (decrease_spec Mok Mal s pid (va i) J1 Jw Jp ltac:(apply Hv; lia)) as [S N].
    set (s' := decrease_paging_of_process_with_virt_addr pid (va i) s) in *.
    assert (Ec : cr3_of s' pid = cr3_of s pid) by (apply cr3_of_ext, S).
    assert (Hsub : sub_tree pid s s') by (intros q f; rewrite Ec; apply S).
    rewrite Ec. split; [split_and!; apply S|]. split; [split_and!|split].
    + eapply mem_only_trans; [exact J2|]. apply decrease_mem_only.
    + by eapply sub_tree_trans.
    + eapply data_kept_trans; [exact Js|exact Jd|exact (sh_mem _ _ _ _ S)].
    + intros c. rewrite <- J3. apply S.
    + intros j Hj Hjn. rewrite is_paged_table, Ec. apply bool_decide_eq_false. intros Hn.
      destruct (table s' (cr3_of s pid) (vpath (va j))) as [f|] eqn:Et; [|by apply Hn].
      destruct (Z.eq_dec j i) as [->|]; [congruence|].
      apply (sh_sub _ _ _ _ S) in Et; [|apply upath_vpath, Hv; lia].
      specialize (J4 j ltac:(lia) Hjn). rewrite is_paged_table, Et in J4. by apply bool_decide_eq_false in J4.
    + intros x Hx Hne. rewrite <- (J5 x Hx) by (intros; apply Hne; lia). rewrite !is_paged_table, Ec.
      rewrite (sh_only _ _ _ _ S); [done|by apply upath_vpath|]. apply vpath_other_page; [apply Hv; lia|done|].
      apply Hne. lia.
  - exists k'. split; [exact E|]. split_and!; try done. intros j Hj. apply H4; lia.
Qed.
End Ranges.

(** ** What the calls keep *)
#[export] Instance mem_only_preorder : PreOrder mem_only.
Proof. split; [exact mem_only_refl|exact mem_only_trans]. Qed.

Section MemOnly.
Context {M : Machine}.
Lemma pres_set_entry p i (v : kstate -> Z) : pres mem_only (modify (fun k => set_entry p i (v k) k)).
Proof. apply pres_modify. intros k. by eexists (memory_map k), _. Qed.
Lemma pres_alloc : pres mem_only get_a_free_block_addr.
Proof. intros k a k'. apply alloc_block_mem_only. Qed.
Hint Resolve pres_set_entry pres_alloc : pres.
Lemma pres_clone_level lv : forall n o t, pres mem_only (clone_level lv n o t).
Proof.
  induction lv as [|lv IH]; intros n o t; cbn [clone_level]; unfold copy_table; pres_auto.
Qed.
Lemma pres_clone_cr3 o t : pres mem_only (clone_cr3 o t).
Proof.
  unfold clone_cr3. pose proof pres_clone_level. pres_auto.
Qed.
Lemma pres_run n : 0 <= n -> pres mem_only (get_continuous_free_blocks n).
Proof. intros Hn k b k'. by apply run_mem_only. Qed.
End MemOnly.

(** The kernel part of a call over [sys]. *)
Definition sys_rel {disk : Type} (R : kstate -> kstate -> Prop) (s s' : sys disk) : Prop := R (s_k s) (s_k s').
#[export] Instance sys_rel_preorder {disk : Type} R `{!PreOrder R} : PreOrder (sys_rel (disk := disk) R).
Proof. split; [intros s; unfold sys_rel; reflexivity|]. intros a b c H1 H2. unfold sys_rel in *. by transitivity (s_k b). Qed.
Lemma pres_on_kern {disk A : Type} R (c : ST kstate A) : pres R c -> pres (sys_rel (disk := disk) R) (on_kern c).
Proof.
  intros Hc s a s' E. unfold on_kern, on_sm, on_k in E. fold (s_k s) in E. destruct (c (s_k s)) as [[x k]| | |] eqn:Ec; try discriminate.
  injection E as <- <-. by apply (Hc _ x).
Qed.
Lemma pres_upd_mem {disk : Type} R `{!PreOrder R} f : pres (sys_rel (disk := disk) R) (upd_mem f).
Proof. apply pres_modify. intros s. unfold sys_rel. reflexivity. Qed.
Lemma on_kern_inv {disk A : Type} (c : ST kstate A) (s : sys disk) a s' :
  on_kern c s = Done (a, s') -> exists k, c (s_k s) = Done (a, k) /\ s' = set_s_k k s.
Proof.
  unfold on_kern, on_sm, on_k. fold (s_k s). destruct (c (s_k s)) as [[x k]| | |]; try discriminate.
  intros [= <- <-]. by exists k.
Qed.

(** ** Who runs where *)

(** The running thread and the process of every thread stay. *)
Definition keeps_ids (k k' : kstate) : Prop :=
  gs8 k' = gs8 k /\ forall i t, thread k i = Some t -> exists t', thread k' i = Some t' /\ t_pid t' = t_pid t.
#[export] Instance keeps_ids_preorder : PreOrder keeps_ids.
Proof.
  split; [intros k; split; [done|eauto]|]. intros a b c [H1 H2] [H3 H4]. split; [congruence|].
  intros i t Ht. destruct (H2 i t Ht) as (t1 & E1 & P1). destruct (H4 i t1 E1) as (t2 & E2 & P2).
  exists t2. split; [done|congruence].
Qed.
Section KeepsIds.
Context {M : Machine}.
Lemma keeps_upd_proc pid f : pres keeps_ids (modify (upd_proc pid f)).
Proof. apply pres_modify. intros k. split; [done|eauto]. Qed.
Lemma keeps_map_threads f : (forall i t, t_pid (f i t) = t_pid t) -> pres keeps_ids (modify (map_threads f)).
Proof.
  intros Hf. apply pres_modify. intros k. split; [done|]. intros i t Ht. rewrite thread_map_threads, Ht.
  eexists. split; [reflexivity|]. cbn. case_match; [apply Hf|done].
Qed.
Lemma keeps_upd_thread i f : (forall t, t_pid (f t) = t_pid t) -> pres keeps_ids (modify (upd_thread i f)).
Proof.
  intros Hf. apply pres_modify. intros k. split; [done|]. intros j t Ht. rewrite thread_upd_thread.
  case_decide; subst; rewrite Ht; cbn; eauto.
Qed.
Lemma keeps_map i b : pres keeps_ids (modify (set_memory_block_used_when_boot i b)).
Proof.
  apply pres_modify. intros k. destruct (set_block_mem_only i b k) as (m & r & ->). split; [done|eauto].
Qed.
Hint Resolve keeps_upd_proc keeps_map : pres.
Lemma keeps_count_children n : forall i pid c, pres keeps_ids (count_children n i pid c).
Proof. induction n as [|n IH]; intros i pid c; cbn [count_children]; pres_auto. Qed.
Lemma wake_parent_pid p l c t : t_pid (wake_parent p l c t) = t_pid t.
Proof. unfold wake_parent. repeat case_match; done. Qed.
Lemma keeps_end_process pid rc : pres keeps_ids (end_process pid rc).
Proof.
  pose proof keeps_count_children. unfold end_process, reparent_loop, for_procs. pres_auto.
  - apply pres_modify. intros k. destruct (free_page_hm_mem_only 4 (cr3_of k pid) k) as (m & r & ->). split; [done|eauto].
  - apply keeps_map_threads. intros. apply wake_parent_pid.
Qed.
Lemma keeps_find_taker n : forall i pid sig, pres keeps_ids (find_taker n i pid sig).
Proof.
  induction n as [|n IH]; intros i pid sig; cbn [find_taker]; pres_auto. by apply keeps_upd_thread.
Qed.

Lemma mark_process_as_ended_inv k k' :
  mark_process_as_ended k = Done (tt, k') ->
  exists t p, thread k (gs8 k) = Some t /\ proc k (t_pid t) = Some p /\ threads_info_lock1 k = 0.
Proof.
  intros E. unfold mark_process_as_ended in E. apply bind_done_inv in E as (pid & k1 & E1 & E).
  unfold get_current_pid, get_current_thread_id in E1. rewrite gets_bind, deref_bind in E1.
  destruct (thread k (gs8 k)) as [t|] eqn:Et; [|discriminate]. injection E1 as <- <-.
  apply bind_done_inv in E as ([] & k2 & E2 & E). unfold spin_lock in E2.
  destruct (Z.eqb_spec (threads_info_lock1 k) 0) as [Hl|]; [|discriminate]. injection E2 as <-.
  rewrite deref_bind in E. destruct (proc (set_threads_info_lock1 1 k) (t_pid t)) as [p|] eqn:Ep; [|discriminate].
  exists t, p. done.
Qed.
End KeepsIds.

(** ** Properties *)
Section Ext.
Context {M : Machine}.
Lemma table_ext k k' : ram k' = ram k -> forall p t, table k' t p = table k t p.
Proof.
  intros Hr p. induction p as [|i p IH]; intros t; cbn [table]; [done|].
  unfold entry, read_ram. by rewrite Hr, IH.
Qed.
Lemma pt_wf_ext k k' cr3 : ram k' = ram k -> memory_map k' = memory_map k -> pt_wf k cr3 -> pt_wf k' cr3.
Proof.
  intros Hr Hm [W1 W2]. split.
  - intros p t Hp Ht. rewrite (table_ext k) in Ht by done. unfold read_map. rewrite Hm. by apply (W1 p).
  - intros p q t Hp Hq. rewrite !(table_ext k k') by done. by apply W2.
Qed.
Lemma plain_tables_ext k k' cr3 : ram k' = ram k -> plain_tables k cr3 -> plain_tables k' cr3.
Proof.
  intros Hr P q t j Hq Hl Ht. rewrite (table_ext k) in Ht by done.
  unfold entry, read_ram. rewrite Hr. by apply (P q).
Qed.
Lemma is_paged_ext k k' pid x :
  ram k' = ram k -> processes_cr3_ptr k' = processes_cr3_ptr k -> is_paged k' pid x = is_paged k pid x.
Proof. intros Hr Hc. rewrite !is_paged_table, (table_ext k) by done. by rewrite (cr3_of_ext k). Qed.
Lemma on_kern_done {disk A : Type} (c : ST kstate A) (s : sys disk) a k :
  c (s_k s) = Done (a, k) -> on_kern c s = Done (a, set_s_k k s).
Proof. intros E. unfold on_kern, on_sm, on_k. fold (s_k s). by rewrite E. Qed.
Lemma set_s_k_same {disk : Type} (s : sys disk) : set_s_k (s_k s) s = s.
Proof. by destruct s as [[]]. Qed.
End Ext.

(** The calling thread and its process. *)
Definition caller (k : kstate) (t : thread_info) (p : process_info) : Prop :=
  thread k (gs8 k) = Some t /\ proc k (t_pid t) = Some p.

(** C5: copying the page tables of a process (fork) into the block [x], which is
    in use and no table of the original.  The call either panics for lack of
    memory or ends with tables in which every page the original maps has the same
    frame, the same last entry and the same flags on every level, and in which
    the kernel half is shared; the original and every other block in use are left
    alone.  The new tables are not erased: an empty entry of the root keeps what
    its block held, and only over memory that held zeros are the pages the
    original does not map unmapped in the copy too. *)
Theorem clone_cr3_translates {M : Machine} (k : kstate) (cr3 x : Z) :
  machine_ok -> 0 < kernel_blocks -> pt_wf k cr3 -> not_in_tree k cr3 x -> in_mem x -> used k x ->
  clone_cr3 cr3 (blk x) k = Panicked \/
  exists k', clone_cr3 cr3 (blk x) k = Done (tt, k') /\
    (forall va, 0 <= va < HM -> table k cr3 (vpath va) <> None ->
       table k' (blk x) (vpath va) = table k cr3 (vpath va) /\
       last (walk k' (blk x) (vpath va)) = last (walk k cr3 (vpath va)) /\
       map pageline_get_flags (walk k' (blk x) (vpath va)) = map pageline_get_flags (walk k cr3 (vpath va))) /\
    (clear_memory k x -> forall va, 0 <= va < HM ->
       table k cr3 (vpath va) = None -> table k' (blk x) (vpath va) = None) /\
    (forall j, 0 <= j < 128 -> entry k cr3 j = 0 -> entry k' (blk x) j = entry k (blk x) j) /\
    (forall j, 128 <= j < 512 -> entry k' (blk x) j = entry k cr3 j) /\
    (forall b j, used k b -> b <> x -> 0 <= j < 512 -> entry k' (blk b) j = entry k (blk b) j).
Proof.
  intros Mok Kpos W Hn Hx Hu.
  destruct (clone_cr3_spec Mok Kpos k cr3 x W Hn Hx Hu) as [E|(k' & E & _ & C & H2 & H3)]; [by left|].
  right. exists k'. split; [done|].
  assert (Hp : forall va, 0 <= va < HM -> upath_aux false (vpath va) /\ (0 <= l4_index va < Z.of_nat 128 \/ 3%nat = 0%nat)).
  { intros va Hv. pose proof (l4_index_user _ Hv). split; [|left; lia].
    cbn. repeat split; try apply index_range. }
  split_and!; try done.
  - intros va Hv Ht. destruct (Hp va Hv) as [Hu1 Hu2].
    destruct (copied_walk _ k k' 3 128 cr3 (blk x) (vpath va) eq_refl C Hu1 Hu2 Ht) as (E1 & E2 & E3). done.
  - intros Hc va Hv Ht. destruct (Hp va Hv) as [Hu1 Hu2].
    refine (copied_none _ k k' 3 128 cr3 (blk x) (vpath va) eq_refl _ C Hu1 Hu2 Ht).
    intros b j [_ Hb] Hj. apply Hc; [|done]. destruct Hb; [by right|by left].
  - intros j Hj Hz. destruct C as [_ C]. by apply (C j).
Qed.

Section Brk.
Context {M : Machine} (Mok : machine_ok) (Mal : end_kernel mod 8 = 0).
(** The two loops on the kernel state. *)
Lemma brk_grow k pid a b :
  pt_wf k (cr3_of k pid) -> 0 <= a -> a <= b -> b * 4096 <= HM -> 4 * (b - a) <= Z.of_nat (length (free_list k)) ->
  exists k', for_m (Z.to_nat (b - a)) a (fun i => _ ← increase_paging_of_process_with_virt_addr pid (u64 (i * 4096)); mret tt) k
      = Done (tt, k') /\ mem_only k k' /\ pt_wf k' (cr3_of k' pid) /\ sub_tree pid k' k /\
    forall x, 0 <= x < HM -> is_paged k' pid x = is_paged k pid x || in_range a (b - a) (x / 4096).
Proof.
  intros W Ha Hab Hb Hf.
  destruct (map_range_spec Mok (Z.to_nat (b - a)) a 0 pid k W) as (k' & E & H1 & H2 & H2' & H3); try lia.
  exists k'. split; [exact E|]. do 3 (split; [done|]). intros x Hx. rewrite H3, Z2Nat.id by lia. done.
Qed.
Lemma brk_shrink k pid a b :
  pt_wf k (cr3_of k pid) -> ram_words k -> plain_tables k (cr3_of k pid) -> 0 <= b -> b <= a -> a * 4096 <= HM ->
  exists k', for_m (Z.to_nat (a - b)) 0 (fun j => modify (decrease_paging_of_process_with_virt_addr pid (u64 ((a - j - 1) * 4096)))) k
      = Done (tt, k') /\ mem_only k k' /\ pt_wf k' (cr3_of k' pid) /\
    (sub_tree pid k k' /\ data_kept pid k k' /\ forall c, read_map k' c = read_map k c) /\
    forall x, 0 <= x < HM -> is_paged k' pid x = is_paged k pid x && negb (in_range b (a - b) (x / 4096)).
Proof.
  intros W Hw Hpl Hb Hab Ha.
  assert (Hva : forall j, 0 <= j < a - b -> u64 ((a - j - 1) * 4096) = (a - j - 1) * 4096)
    by (intros j Hj; apply u64_id; unfold HM in *; lia).
  destruct (unmap_range_spec Mok Mal (Z.to_nat (a - b)) (fun j => u64 ((a - j - 1) * 4096)) pid k W Hw Hpl)
    as (k' & E & H1 & H2 & H2a & H2b & H2c & H3 & H4).
  { intros j Hj. rewrite Hva by lia. lia. }
  exists k'. split; [exact E|]. do 3 (split; [done|]). intros x Hx. rewrite Z2Nat.id in * by lia.
  destruct (in_range b (a - b) (x / 4096)) eqn:Er; cbn [negb].
  - rewrite andb_false_r. unfold in_range in Er. zbool. specialize (H3 (a - 1 - x / 4096) ltac:(lia)).
    rewrite Hva in H3 by lia. rewrite is_paged_table in *. erewrite vpath_same; [exact H3|].
    rewrite Z.div_mul by lia. lia.
  - rewrite andb_true_r. apply H4; [done|]. intros j Hj. rewrite Hva, Z.div_mul by lia. intros Ex. unfold in_range in Er.
    apply andb_false_iff in Er as [Er|Er]; zbool; lia.
Qed.
Lemma div_ceil_mono x y : 0 <= x < 2 ^ 63 -> 0 <= y < 2 ^ 63 -> x <= y -> 0 <= div_ceil x 4096 <= div_ceil y 4096.
Proof.
  intros Hx Hy Hxy. pose proof (div_ceil_spec x 4096 Hx eq_refl). pose proof (div_ceil_spec y 4096 Hy eq_refl). lia.
Qed.
End Brk.

(** Pages mapped before and after keep their frame, whichever tree is the smaller. *)
Lemma same_frames pid k k' x :
  0 <= x < HM -> sub_tree pid k k' \/ sub_tree pid k' k -> is_paged k pid x = true -> is_paged k' pid x = true ->
  table k' (cr3_of k' pid) (vpath x) = table k (cr3_of k pid) (vpath x).
Proof.
  rewrite !is_paged_table, !bool_decide_eq_true. intros Hx S H1 H2. pose proof (upath_vpath _ Hx) as Hu.
  destruct (table k (cr3_of k pid) (vpath x)) as [f|] eqn:E; [|done].
  destruct (table k' (cr3_of k' pid) (vpath x)) as [f'|] eqn:E'; [|done].
  destruct S as [S|S]; apply S in E || apply S in E'; done || congruence.
Qed.

(** C13: moving the end of the heap, when at least four blocks are free for each
    page to be added and both ends are user addresses: the new end is stored and
    returned; when it grows the pages from the old to the new end, both rounded
    up, become mapped if they were not, when it shrinks those from the new to the
    old end are unmapped; no other user page changes, and a page mapped before and
    after keeps its frame.  Shrinking releases no block: the map of blocks stays
    as it is, and words outside the tables may lose their top byte to the stray
    byte the code clears.  Memory is kept as 64-bit words, the map of blocks
    starts at a multiple of 8, and the tables hold entries as the code writes
    them. *)
Theorem sys_brk_resizes {M : Machine} {disk : Type} (s : sys disk) (t : thread_info) (p : process_info) (new : Z) :
  let a := div_ceil (p_heap_end_addr p) 4096 in
  let b := div_ceil new 4096 in
  let k := s_k s in
  machine_ok -> end_kernel mod 8 = 0 -> ram_words k ->
  caller k t p -> pt_wf k (cr3_of k (t_pid t)) -> plain_tables k (cr3_of k (t_pid t)) ->
  0 <= p_heap_end_addr p < 2 ^ 63 -> 0 <= new < 2 ^ 63 -> a * 4096 <= HM -> b * 4096 <= HM ->
  4 * (b - a) <= Z.of_nat (length (free_list k)) ->
  exists s', sys_brk new s = Done (new, s') /\
    (p_heap_end_addr <$> proc (s_k s') (t_pid t)) = Some new /\
    pt_wf (s_k s') (cr3_of (s_k s') (t_pid t)) /\
    (forall x, 0 <= x < HM -> is_paged (s_k s') (t_pid t) x =
      if p_heap_end_addr p <? new then is_paged k (t_pid t) x || in_range a (b - a) (x / 4096)
      else is_paged k (t_pid t) x && negb (in_range b (a - b) (x / 4096))) /\
    (forall x, 0 <= x < HM -> is_paged k (t_pid t) x = true -> is_paged (s_k s') (t_pid t) x = true ->
      table (s_k s') (cr3_of (s_k s') (t_pid t)) (vpath x) = table k (cr3_of k (t_pid t)) (vpath x)) /\
    (new <= p_heap_end_addr p ->
      (forall c, read_map (s_k s') c = read_map k c) /\ data_kept (t_pid t) k (s_k s')).
Proof.
  intros a b k Mok Mal Hw [Ht Hp] W Hpl Ho Hn Ha Hb Hf.
  set (k1 := upd_proc (t_pid t) (set_p_heap_end_addr new) k).
  assert (W1 : pt_wf k1 (cr3_of k1 (t_pid t))) by (by apply (pt_wf_ext k)).
  assert (Hf1 : free_list k1 = free_list k) by (by apply free_list_ext).
  assert (Tk : forall q, table k1 (cr3_of k1 (t_pid t)) q = table k (cr3_of k (t_pid t)) q) by (intros; by apply table_ext).
  assert (Hp1 : proc k1 (t_pid t) = Some (set_p_heap_end_addr new p)).
  { unfold k1. rewrite proc_upd_proc, decide_True by done. by rewrite Hp. }
  assert (Hrun : forall (c : ST kstate unit) k', c k1 = Done (tt, k') -> mem_only k1 k' ->
    (on_kern c ≫= fun _ => mret new) (set_s_k k1 s) = Done (new, set_s_k k' s) /\ (p_heap_end_addr <$> proc k' (t_pid t)) = Some new).
  { intros c k' E (m & r & ->). split; [|etransitivity; [apply (f_equal (fmap p_heap_end_addr)); exact Hp1|done]].
    by rewrite (bind_done _ _ _ _ _ (on_kern_done (disk := disk) c (set_s_k k1 s) tt _ E)). }
  unfold sys_brk. rewrite (bind_done _ _ _ _ _ (on_kern_done _ s _ _ (get_current_pid_done k t Ht))).
  unfold k at 1. rewrite set_s_k_same.
  assert (Ed : on_kern (gets (fun k => proc k (t_pid t)) ≫= deref) s = Done (p, s)).
  { rewrite <- (set_s_k_same s) at 2. apply on_kern_done. unfold mbind, st_bind, gets. fold k. by rewrite Hp. }
  rewrite (bind_done _ _ _ _ _ Ed). cbv zeta.
  rewrite (bind_done _ _ _ _ _ (on_kern_done (modify _) s tt k1 eq_refl)).
  destruct (Z.ltb_spec (p_heap_end_addr p) new) as [Hlt|Hge].
  - pose proof (div_ceil_mono _ _ Ho Hn ltac:(lia)).
    destruct (brk_grow Mok k1 (t_pid t) a b W1) as (k' & E & H1 & H2 & Hs & H3); try (rewrite ?Hf1; lia).
    destruct (Hrun _ _ E H1) as [E2 Hh]. eexists. split; [exact E2|]. do 2 (split; [done|]). split; [|split; [|lia]].
    + intros x Hx. etransitivity; [by apply H3|]. by rewrite (is_paged_ext k k1).
    + intros x Hx P1 P2. apply same_frames; try done. right. intros q f Hq Hk. apply Hs; [done|]. by rewrite Tk.
  - pose proof (div_ceil_mono _ _ Hn Ho ltac:(lia)).
    destruct (brk_shrink Mok Mal k1 (t_pid t) a b W1) as (k' & E & H1 & H2 & (Hs & Hd & Hm) & H3); try lia; [done|..].
    { by apply (plain_tables_ext k). }
    destruct (Hrun _ _ E H1) as [E2 Hh]. eexists. split; [exact E2|]. do 2 (split; [done|]). split; [|split; [|intros _; split; [done|]]].
    + intros x Hx. etransitivity; [by apply H3|]. by rewrite (is_paged_ext k k1).
    + intros x Hx P1 P2. apply same_frames; try done. left. intros q f Hq Hk. rewrite <- Tk. by apply Hs.
    + intros c j Hj Hq. apply Hd; [done|]. intros q Hu Hl. rewrite Tk. by apply Hq.
Qed.

Lemma region_loop_done k pid n fuel : forall i a,
  region_loop fuel k pid n i = Done a ->
  (exists q, a = q * 4096 /\ i <= q < HM / 4096 - 1 /\
     (forall j, 0 <= j < n -> is_paged k pid ((q + j) * 4096) = false) /\
     (forall q', i <= q' < q -> exists j, 0 <= j < n /\ is_paged k pid ((q' + j) * 4096) = true)) \/ a = 0.
Proof.
  induction fuel as [|f IH]; intros i a E; cbn [region_loop] in E; [discriminate|].
  destruct (Z.ltb_spec i (HM / 4096 - 1)); [|right; by injection E].
  destruct (find_idx _ _ _) as [j|] eqn:Ef.
  - apply find_idx_Some in Ef as (Hj & Ej & _).
    destruct (IH (i + 1) a E) as [(q & -> & Hq & Hfr & Hmin)|]; [|by right]. left. exists q. split_and!; try done; try lia.
    intros q' Hq'. destruct (Z.eq_dec q' i) as [->|]; [exists j; split; [lia|done]|apply Hmin; lia].
  - left. injection E as <-. exists i. rewrite find_idx_None in Ef. split_and!; try done; try lia. intros j Hj. apply Ef. lia.
Qed.

(** A private anonymous mapping without a given address takes the lowest
    free region: the address returned starts a run of pages none of which was
    mapped, exactly these become mapped, and no lower page starts such a run. *)
Theorem sys_mmap_anonymous {M : Machine} {disk : Type} `{PartitionDriver disk} (junk : Z) (v : vfs) (fuel : nat)
    (s : sys disk) (t : thread_info) (length prot flags fd offset addr : Z) :
  let k := s_k s in
  let n := div_ceil length 4096 in
  machine_ok -> thread k (gs8 k) = Some t -> pt_wf k (cr3_of k (t_pid t)) ->
  Z.land flags MAP_SHARED = 0 -> Z.land flags MAP_ANONYMOUS <> 0 ->
  0 < length < 2 ^ 63 ->
  find_free_virtual_region fuel k (t_pid t) length = Done addr -> addr <> 0 -> addr + n * 4096 <= HM ->
  4 * n <= Z.of_nat (List.length (free_list k)) ->
  exists s', sys_mmap junk v fuel 0 length prot flags fd offset s = Done (addr, s') /\
    (forall x, 0 <= x < HM -> in_range (addr / 4096) n (x / 4096) = true -> is_paged k (t_pid t) x = false) /\
    (forall x, 0 <= x < HM -> is_paged (s_k s') (t_pid t) x = is_paged k (t_pid t) x || in_range (addr / 4096) n (x / 4096)) /\
    (forall q, 1 <= q < addr / 4096 -> exists j, 0 <= j < n /\ is_paged k (t_pid t) ((q + j) * 4096) = true).
Proof.
  intros k n Mok Ht W Hsh Han Hl Hfind Ha Hend Hfree.
  pose proof (div_ceil_spec length 4096 ltac:(lia) eq_refl) as Hn. fold n in Hn.
  destruct (region_loop_done k (t_pid t) n fuel 1 addr Hfind) as [(q & -> & Hq & Hfr & Hmin)|]; [|done].
  rewrite Z.div_mul by lia.
  assert (Hpage : forall x, 0 <= x < HM -> in_range q n (x / 4096) = true -> is_paged k (t_pid t) x = false).
  { intros x Hx Hr. unfold in_range in Hr. zbool. specialize (Hfr (x / 4096 - q) ltac:(lia)).
    rewrite is_paged_table in *. erewrite vpath_same; [exact Hfr|]. rewrite Z.div_mul by lia. lia. }
  destruct (map_range_spec Mok (Z.to_nat n) 0 (q * 4096) (t_pid t) k W) as (k' & E & H1 & H2 & _ & H3); try lia.
  exists (set_s_k k' s). split.
  - unfold sys_mmap. cbv zeta. rewrite (bind_done _ _ _ _ _ (on_kern_done _ s _ _ (get_current_pid_done k t Ht))).
    unfold k at 1. rewrite set_s_k_same. rewrite Z.eqb_refl.
    assert (Ef : on_kern (fun k => lift (find_free_virtual_region fuel k (t_pid t) length) k) s = Done (q * 4096, s)).
    { rewrite <- (set_s_k_same s) at 2. apply on_kern_done. fold k. unfold lift. by rewrite Hfind. }
    rewrite (bind_done _ _ _ _ _ Ef).
    assert (Eg : on_kern (gets (fun k => is_paged k (t_pid t) (q * 4096))) s = Done (false, s)).
    { rewrite <- (set_s_k_same s) at 2. apply on_kern_done. fold k. unfold gets. rewrite Hpage; [done|lia|].
      unfold in_range. rewrite Z.div_mul by lia. apply andb_true_iff. split; zbool; lia. }
    rewrite (bind_done _ _ _ _ _ Eg), Hsh. cbn [Z.eqb negb].
    rewrite (bind_done _ _ _ _ _ (on_kern_done (disk := disk) (map_pages (t_pid t) (q * 4096) (Z.to_nat n)) s tt k' E)).
    destruct (Z.eqb_spec (Z.land flags MAP_ANONYMOUS) 0); done.
  - split; [done|]. split; [|exact Hmin].
    intros x Hx. etransitivity; [by apply H3|]. rewrite Z.div_mul, Z.add_0_r, Z2Nat.id by lia. done.
Qed.

(** A kill with signal 9 ends the caller: whatever process is named, when
    the call returns after finding it, it is the calling process that is
    marked as ended, with all its threads. *)
Theorem sys_kill_ends_caller {M : Machine} (fuel : nat) (k k' : kstate) (pid r : Z) (t : thread_info) (q : process_info) :
  thread k (gs8 k) = Some t -> proc_slot k pid <> 0 -> proc k pid = Some q -> p_state q <> PROCESS_NOT_EXIST ->
  sys_kill fuel pid SIGKILL k = Done (r, k') ->
  r = 0 /\
  (p_state <$> proc k' (t_pid t)) = Some PROCESS_ENDED_BUT_NOT_CLEANED /\
  forall i u, 0 <= i < MAX_THREADS_COUNT -> thread k' i = Some u -> t_pid u = t_pid t ->
    t_state u = THREAD_ENDED_BUT_NOT_CLEANED \/ t_state u = THREAD_NOT_EXIST.
Proof.
  intros Ht Hs Hq Hne E. unfold sys_kill in E. destruct (Z.ltb_spec 63 SIGKILL); [discriminate|]. rewrite gets_bind in E.
  destruct (Z.eqb_spec (proc_slot k pid) 0); [done|]. rewrite deref_bind in E. unfold proc in Hq. rewrite Hq in E.
  rewrite decide_False in E by done. apply bind_done_inv in E as (o & k1 & E1 & E). destruct (Z.eqb_spec SIGKILL SIGKILL); [|done].
  apply bind_done_inv in E as ([] & k2 & E2 & E). injection E as <- <-. split; [done|].
  assert (Hk : keeps_ids k k1).
  { revert E1. unfold send_signal_to_process. destruct (Z.ltb_spec MAX_SIGNAL SIGKILL); [discriminate|]. intros E1.
    apply bind_done_inv in E1 as (found & k3 & E3 & E1). apply keeps_find_taker in E3. etransitivity; [exact E3|].
    destruct found.
    2:{ apply bind_done_inv in E1 as ([] & k4 & E4 & E1). injection E1 as _ <-. by eapply keeps_end_process. }
    rewrite deref_bind in E1. destruct (proc k3 pid) as [p3|] eqn:E3p; [|discriminate]. rewrite modify_bind in E1.
    apply bind_done_inv in E1 as (h & k5 & E5 & E1). injection E1 as _ <-.
    unfold handle_signal_process in E5. rewrite deref_bind in E5.
    rewrite proc_upd_proc, decide_True, E3p in E5 by done. cbn [fmap option_fmap option_map] in E5.
    assert (Hu : keeps_ids k3 (upd_proc pid (set_p_signal SIGKILL) k3)) by (split; [done|eauto]).
    etransitivity; [exact Hu|]. case_decide; [injection E5 as _ <-; reflexivity|].
    destruct (Z.eqb_spec (p_signal (set_p_signal SIGKILL p3)) SIGKILL); [|done].
    apply bind_done_inv in E5 as ([] & k6 & E6 & E5). injection E5 as _ <-. by eapply keeps_end_process. }
  destruct Hk as [Hg Hk]. destruct (Hk _ t Ht) as (t1 & Ht1 & Hp1).
  destruct (mark_process_as_ended_inv k1 k2 E2) as (t2 & p2 & Ht2 & Hp2 & Hl). rewrite Hg, Ht1 in Ht2. injection Ht2 as <-.
  destruct (mark_process_as_ended_done k1 t1 p2 ltac:(by rewrite Hg) Hp2 Hl) as (k9 & E9 & H1 & H2 & _).
  rewrite E9 in E2. injection E2 as ->. rewrite <- Hp1, H2. split; [done|].
  intros i u Hi Hu Hup. rewrite H1 in Hu by done. destruct (thread k1 i) as [w|]; [|discriminate]. injection Hu as <-.
  revert Hup. unfold end_thread_of. case_bool_decide as Hd; cbn; [by left|]. intros Hw. 
  destruct (decide (t_state w = THREAD_ENDED_BUT_NOT_CLEANED)); [by left|].
  destruct (decide (t_state w = THREAD_NOT_EXIST)); [by right|]. by destruct Hd.
Qed.

Section ForkProof.
Context {M : Machine} {disk : Type}.
(** Blocks in use stay in use. *)
Definition used_grows (k k' : kstate) : Prop :=
  forall b, b < total_memory_blocks_count -> read_map k b <> 0 -> read_map k' b <> 0.
#[export] Instance used_grows_preorder : PreOrder used_grows.
Proof. split; [by intros k b|]. intros x y z H1 H2 b Hb Hn. by apply H2, H1. Qed.
(** [n] blocks from [b] on, free as far as they exist. *)
Definition free_run (k : kstate) (b n : Z) : Prop :=
  kernel_blocks <= b < total_memory_blocks_count /\
  forall j, b <= j < b + n -> j < total_memory_blocks_count -> read_map k j = 0.
Lemma free_run_before k k' b n : used_grows k k' -> free_run k' b n -> free_run k b n.
Proof.
  intros H [Hb Hf]. split; [done|]. intros j Hj Ht. destruct (Z.eq_dec (read_map k j) 0) as [|Hn]; [done|].
  by destruct (H j Ht Hn); apply Hf.
Qed.
Lemma pres_run_used n : 0 <= n -> pres used_grows (get_continuous_free_blocks n).
Proof.
  intros Hn k a k' E b Hb Hu. destruct (get_continuous_done n k a k' Hn E) as (_ & _ & _ & Hm).
  rewrite Hm by done. by destruct (_ && _).
Qed.
Lemma alloc_used k a k' : machine_ok -> get_a_free_block_addr k = Done (a, k') ->
  used_grows k k' /\ exists b, a = blk b /\ free_run k b 1.
Proof.
  intros Mok E. pose proof E as E'. unfold get_a_free_block_addr in E'. apply bind_done_inv in E' as (c & k1 & Ec & E').
  apply get_a_free_block_done in Ec as (Hc & Hz & _ & ->). injection E' as <- <-.
  pose proof (kernel_blocks_nonneg Mok). destruct Mok as (_ & Ht & _). split.
  - intros b Hb Hu. rewrite read_map_used. by ztest.
  - exists c. split; [unfold blk; apply u64_id; unfold HM; lia|]. split; [done|].
    intros j Hj _. by replace j with c by lia.
Qed.
Lemma pres_fork_fds_used fd : pres (sys_rel (disk := disk) used_grows) (fork_fds fd).
Proof.
  unfold fork_fds. pres_auto; [|apply pres_upd_mem; exact _..]. apply pres_on_kern, pres_run_used. lia.
Qed.
Lemma pres_decrease pid va : pres mem_only (modify (decrease_paging_of_process_with_virt_addr pid va)).
Proof. apply pres_modify. intros k. apply decrease_mem_only. Qed.
Lemma pres_increase pid va : pres mem_only (increase_paging_of_process_with_virt_addr pid va).
Proof. intros k r k'. apply increase_mem_only. Qed.
Lemma pres_fork_stack cpid c p : pres (sys_rel (disk := disk) mem_only) (fork_stack cpid c p).
Proof.
  unfold fork_stack. pres_auto.
  - apply pres_on_kern, pres_decrease.
  - apply pres_on_kern, pres_increase.
  - apply pres_upd_mem. exact _.
Qed.
Lemma pres_fork_fds fd : pres (sys_rel (disk := disk) mem_only) (fork_fds fd).
Proof.
  unfold fork_fds. pres_auto; [|apply pres_upd_mem; exact _..]. apply pres_on_kern, pres_run. lia.
Qed.
(** The tables a memory-only step leaves alone. *)
Lemma mem_only_tables k k' : mem_only k k' ->
  gs8 k' = gs8 k /\ gs24 k' = gs24 k /\ (forall i, thread k' i = thread k i) /\ (forall i, proc_slot k' i = proc_slot k i) /\
  (forall i, proc k' i = proc k i).
Proof. intros (m & r & ->). done. Qed.
Lemma free_slot_m_inv w a b k i k' : free_slot_m w a b k = Done (i, k') -> k' = k /\ w k i = 0 /\ a <= i.
Proof.
  unfold free_slot_m, get_a_free_slot. destruct (find_idx _ _ _) as [j|] eqn:E; [|discriminate].
  intros [= <- <-]. apply find_idx_Some in E as (H1 & H2 & _). zbool. split; [done|]. split; [done|lia].
Qed.
Lemma mem_only_cr3 k k' : mem_only k k' -> processes_cr3_ptr k' = processes_cr3_ptr k.
Proof. by intros (m & r & ->). Qed.
Lemma fork_alloc_inv k tid a k' : fork_alloc k = Done ((tid, a), k') ->
  mem_only k k' /\ used_grows k k' /\ thread k tid = None /\
  exists b, a = u64 (b * 4096 + HM) /\ free_run k b 5.
Proof.
  intros E. unfold fork_alloc in E. apply bind_done_inv in E as (i & k1 & E1 & E).
  apply free_slot_m_inv in E1 as (-> & Hi & _). apply bind_done_inv in E as (b & k2 & E2 & E). injection E as <- <- <-.
  split; [by apply (run_mem_only 5 k b)|]. split; [exact (pres_run_used 5 ltac:(lia) _ _ _ E2)|].
  split; [unfold thread_word in Hi; by destruct (thread k i)|]. exists b. split; [done|].
  destruct (get_continuous_done 5 k b k2 ltac:(lia) E2) as (Hb & Hz & _). split; [done|].
  intros j Hj Hjt. rewrite <- map_byte_in by done. by apply Hz.
Qed.
Lemma s_k_set k (s : sys disk) : s_k (set_s_k k s) = k.
Proof. reflexivity. Qed.
Lemma upd_mem_bind {B} f (g : unit -> ST (sys disk) B) s : (upd_mem f ≫= g) s = g tt (set_s_mem (f (s_mem s)) s).
Proof. reflexivity. Qed.
Lemma on_kern_modify {B} f (g : unit -> ST (sys disk) B) s : (on_kern (modify f) ≫= g) s = g tt (set_s_k (f (s_k s)) s).
Proof. reflexivity. Qed.
Lemma on_kern_gets {A B} (f : kstate -> A) (g : A -> ST (sys disk) B) s : (on_kern (gets f) ≫= g) s = g (f (s_k s)) s.
Proof. rewrite <- (set_s_k_same s) at 3. reflexivity. Qed.
End ForkProof.

(** C25: what fork makes, when it returns: in a free slot a process whose
    structure is the parent's but for its number, its parent, its main thread, one
    thread and the running state; in a free slot of the thread table a copy of the
    calling thread, ready, with five free blocks for the structure and the kernel
    stack, that resumes at the return point of the child in the kernel segments,
    with the stack pointers moved to the new kernel stack and their distance in
    rdx; a root of page tables in a block that was free.  No other thread, slot or
    root changes.  The copy of the descriptor table the call builds is never
    installed: the child has the address of the parent's. *)
Theorem sys_fork_child {M : Machine} {disk : Type} (r : fork_regs) (s s' : sys disk) (t : thread_info) (p : process_info) (cpid : Z) :
  machine_ok -> caller (s_k s) t p -> sys_fork r s = Done (cpid, s') ->
  let k := s_k s in let k' := s_k s' in
  1 <= cpid /\ proc_slot k cpid = 0 /\
  exists ctid b root,
    let kstack := u64 (u64 (b * 4096 + HM) + 5 * 4096) in
    let moved x := u64 (kstack - u64 (t_kernel_stack_addr t - x)) in
    let c := t_context t in
    thread k ctid = None /\ free_run k b 5 /\ free_run k root 1 /\ cr3_of k' cpid = blk root /\
    proc k' cpid = Some (ProcessInfo cpid PROCESS_RUNNING ctid (p_signal p) 1 (p_pgid p) (p_sid p) (p_fd_addr p)
      (p_pid p) (p_heap_start_addr p) (p_heap_end_addr p) (p_sig_handlers p) (p_uid p) (p_gid p) (p_euid p)
      (p_egid p) (p_reuid p) (p_regid p) (p_resuid p) (p_resgid p) (p_lock p) (p_return_code p) (p_sm p)
      (p_cmd_line p) (p_env p) (p_cwd p)) /\
    thread k' ctid = Some (ThreadInfo cpid ctid THREAD_READY (t_wakeup_time t) (t_stack_addr t) kstack
      (Context (c_r15 c) (c_r14 c) (c_r13 c) (c_r12 c) (c_r11 c) (c_r10 c) (c_r9 c) (c_r8 c) (c_rdi c) (c_rsi c)
        (moved (f_rbp r)) (c_rbx c) (u64 (kstack - t_kernel_stack_addr t)) (c_rcx c) (c_rax c)
        (f_ret r) 0x08 (c_rflags c) (moved (f_rsp r)) 0x10 (gs24 k) (xsave_area c) (fs_base c) (gs_base c))
      (t_ptid t) (t_signal t) (t_signal_mask t) (t_sleep_flag_addr t) (t_context_type t) (t_lock_time t)
      (t_return_code t)) /\
    (forall i, i <> ctid -> thread k' i = thread k i) /\
    (forall i, i <> cpid -> proc_slot k' i = proc_slot k i /\ cr3_of k' i = cr3_of k i).
Proof.
  intros Mok [Ht Hp] E. cbv zeta. unfold sys_fork in E.
  apply bind_done_inv in E as (pp & s1 & E1 & E). apply on_kern_inv in E1 as (k1 & E1 & ->).
  rewrite (get_current_pid_done _ t Ht) in E1. injection E1 as <- <-. rewrite set_s_k_same in E.
  apply bind_done_inv in E as (p' & s1 & E1 & E). apply on_kern_inv in E1 as (k1 & E1 & ->).
  unfold mbind at 1, st_bind at 1, gets at 1 in E1. rewrite Hp in E1. injection E1 as <- <-. rewrite set_s_k_same in E.
  apply bind_done_inv in E as (t' & s1 & E1 & E). apply on_kern_inv in E1 as (k1 & E1 & ->).
  rewrite (current_thread_done _ t Ht) in E1. injection E1 as <- <-. rewrite set_s_k_same in E.
  apply bind_done_inv in E as (cp & s1 & E1 & E). apply on_kern_inv in E1 as (k1 & E1 & ->).
  apply free_slot_m_inv in E1 as (-> & Hslot & Hcp). rewrite set_s_k_same in E.
  apply bind_done_inv in E as (a & s1 & E1 & E). apply on_kern_inv in E1 as (k1 & E1 & ->).
  pose proof (alloc_used _ _ _ Mok E1) as [U1 _].
  apply alloc_block_mem_only in E1. pose proof (mem_only_cr3 _ _ E1) as C1.
  apply mem_only_tables in E1 as (Hg1 & G1 & Ht1 & Hs1 & _).
  rewrite !on_kern_modify in E. rewrite !s_k_set in E.
  set (k2 := set_proc_at _ _ _) in E.
  apply bind_done_inv in E as ([] & s3 & E1 & E).
  pose proof (pres_fork_fds_used _ _ _ _ E1) as U3. apply pres_fork_fds in E1. pose proof (mem_only_cr3 _ _ E1) as C3.
  apply mem_only_tables in E1 as (_ & G3 & Ht3 & Hs3 & Hp3).
  apply bind_done_inv in E as ([ctid ta] & s1 & E1 & E). apply on_kern_inv in E1 as (k4 & E1 & ->).
  apply fork_alloc_inv in E1 as (Hm4 & U4 & Hct & b & -> & Hrun). pose proof (mem_only_cr3 _ _ Hm4) as C4.
  apply mem_only_tables in Hm4 as (_ & G4 & Ht4 & Hs4 & Hp4).
  rewrite on_kern_gets, !on_kern_modify in E. cbn [fst snd] in E.
  set (ct := fork_thread _ _ _ _ _ _ _ _) in E.
  apply bind_done_inv in E as (nc & s1 & E1 & E). apply on_kern_inv in E1 as (k5 & E1 & ->).
  pose proof (alloc_used _ _ _ Mok E1) as [_ (root & -> & Hroot)].
  apply alloc_block_mem_only in E1. pose proof (mem_only_cr3 _ _ E1) as C5.
  apply mem_only_tables in E1 as (_ & _ & Ht5 & Hs5 & Hp5).
  apply bind_done_inv in E as ([] & s1 & E1 & E). apply on_kern_inv in E1 as (k6 & E1 & ->).
  rewrite gets_bind in E1. apply pres_clone_cr3 in E1. pose proof (mem_only_cr3 _ _ E1) as C6.
  apply mem_only_tables in E1 as (_ & _ & Ht6 & Hs6 & Hp6).
  rewrite on_kern_modify in E.
  apply bind_done_inv in E as ([] & s7 & E1 & E). apply pres_fork_stack in E1. pose proof (mem_only_cr3 _ _ E1) as C7.
  apply mem_only_tables in E1 as (_ & _ & Ht7 & Hs7 & Hp7).
  injection E as <- <-. unfold sys_rel in *.
  assert (Hpc : proc k2 cp = Some (fork_process cp (p_pid p) p)).
  { unfold proc, proc_slot, k2. cbn. rewrite lookup_insert_eq. cbn. by rewrite lookup_insert_eq. }
  assert (Hth : forall i, thread (s_k s7) i = if decide (i = ctid) then Some ct else thread (s_k s) i).
  { intros i. rewrite Ht7. etransitivity; [apply Ht6|]. rewrite Ht5. etransitivity; [apply thread_set_thread|].
    case_decide; [done|]. etransitivity; [apply Ht4|]. rewrite Ht3. apply Ht1. }
  assert (Hcp' : proc (s_k s7) cp = Some (set_p_main_thread_id ctid (fork_process cp (p_pid p) p))).
  { rewrite Hp7. etransitivity; [apply Hp6|]. rewrite Hp5. etransitivity; [apply proc_upd_proc|]. rewrite decide_True by done.
    change (set_p_main_thread_id ctid <$> proc k4 cp = Some (set_p_main_thread_id ctid (fork_process cp (p_pid p) p))).
    rewrite Hp4, Hp3. etransitivity; [apply f_equal; exact Hpc|done]. }
  assert (Hgs : gs24 k4 = gs24 (s_k s)).
  { rewrite G4, G3. etransitivity; [|exact G1]. done. }
  assert (U03 : used_grows (s_k s) (s_k s3)) by (etransitivity; [exact U1|exact U3]).
  assert (U04 : used_grows (s_k s) k4) by (etransitivity; [exact U03|exact U4]).
  split; [done|]. split; [done|]. exists ctid, b, root. split_and!.
  - rewrite <- Ht1, <- Hct, Ht3. done.
  - by apply (free_run_before _ (s_k s3)).
  - apply (free_run_before _ k4); [done|]. exact Hroot.
  - unfold cr3_of. rewrite C7. cbn. by rewrite lookup_insert_eq.
  - exact Hcp'.
  - rewrite Hth, decide_True by done. unfold ct. change (gs24 (s_k (set_s_k k4 s3))) with (gs24 k4). rewrite Hgs. reflexivity.
  - intros i Hi. by rewrite Hth, decide_False.
  - intros i Hi. split.
    + rewrite Hs7. etransitivity; [apply Hs6|]. rewrite Hs5. etransitivity; [apply Hs4|]. rewrite Hs3. rewrite <- Hs1.
      unfold proc_slot, k2. cbn. by rewrite lookup_insert_ne by congruence.
    + unfold cr3_of. rewrite C7. cbn. rewrite lookup_insert_ne by congruence. f_equal. rewrite C6, s_k_set, C5. cbn. rewrite C4, C3. cbn.
      rewrite lookup_insert_ne by congruence. by rewrite C1.
Qed.

(** *** Witnesses *)
#[local] Existing Instance small_machine.
Definition sys_of (k : kstate) : sys (list Z) := Sys (SmState k ∅ ∅) ∅ ∅ ∅ [].
(** Thread 5 of process 2, whose page 0x5000 is mapped and whose heap ends at 0x6000. *)
Definition demo_heap_proc : process_info := set_p_heap_end_addr 0x6000 (new_process 2 PROCESS_RUNNING 3 3 0 3).
Definition demo_calls : kstate :=
  set_gs8 5 (set_thread 5 (new_thread 2 5 THREAD_RUNNING (HM - 4096) 0 0 zero_context)
    (set_proc_at 0x5000 demo_heap_proc (set_proc_slot 2 0x5000 demo_mapped))).
Lemma demo_calls_wf : pt_wf demo_calls (cr3_of demo_calls 2).
Proof. apply (pt_wf_ext demo_mapped); [done..|]. apply demo_mapped_wf. Qed.

Lemma demo_calls_plain : plain_tables demo_calls (cr3_of demo_calls 2).
Proof. apply (plain_tables_ext demo_mapped); [done|]. apply demo_mapped_words. Qed.
Lemma demo_mapped_no6 : not_in_tree demo_mapped (blk 5) 6.
Proof.
  destruct (increase_spec small_machine_ok demo_pt 2 0x5000) as (r & k' & E & G & _).
  - apply demo_pt_wf.
  - unfold HM; lia.
  - apply Nat.leb_le. vm_compute. reflexivity.
  - intros p Hp _. unfold demo_mapped. rewrite E. change (cr3_of demo_pt 2) with (blk 5) in G.
    destruct (table demo_pt (blk 5) p) as [u|] eqn:Eu.
    + rewrite (gr_keep _ _ _ _ _ G p u Hp Eu). apply empty_table in Eu as [_ ->]; [|done]. intros Eb. vm_compute in Eb. discriminate Eb.
    + apply (gr_fresh _ _ _ _ _ G); [done|vm_compute; discriminate|done].
Qed.
Lemma clone_cr3_translates_witness :
  exists k', clone_cr3 (blk 5) (blk 6) demo_mapped = Done (tt, k') /\
    table k' (blk 6) (vpath 0x5000) = table demo_mapped (blk 5) (vpath 0x5000).
Proof.
  assert (is_done (clone_cr3 (blk 5) (blk 6) demo_mapped) = true) as D by (vm_compute; reflexivity).
  assert (exists f, table demo_mapped (blk 5) (vpath 0x5000) = Some f) as [f Hf] by (eexists; vm_compute; reflexivity).
  destruct (clone_cr3_translates demo_mapped (blk 5) 6) as [E|(k' & E & H1 & _)].
  - apply small_machine_ok.
  - vm_compute. reflexivity.
  - apply demo_mapped_wf.
  - apply demo_mapped_no6.
  - vm_compute. split; [discriminate|reflexivity].
  - vm_compute. discriminate.
  - rewrite E in D. discriminate D.
  - exists k'. split; [exact E|]. apply H1; [unfold HM; lia|by rewrite Hf].
Defined.
Lemma sys_brk_resizes_witness :
  exists s', sys_brk 0x8000 (sys_of demo_calls) = Done (0x8000, s') /\ is_paged (s_k s') 2 0x7000 = true.
Proof.
  destruct (sys_brk_resizes (sys_of demo_calls) (new_thread 2 5 THREAD_RUNNING (HM - 4096) 0 0 zero_context) demo_heap_proc 0x8000)
    as (s' & E & _ & _ & H1 & _).
  - apply small_machine_ok.
  - vm_compute. reflexivity.
  - apply demo_mapped_words.
  - split; reflexivity.
  - apply demo_calls_wf.
  - apply demo_calls_plain.
  - cbn. lia.
  - lia.
  - vm_compute. discriminate.
  - vm_compute. discriminate.
  - vm_compute. discriminate.
  - exists s'. split; [exact E|]. etransitivity; [apply (H1 0x7000); unfold HM; lia|]. vm_compute. reflexivity.
Defined.
Lemma sys_mmap_anonymous_witness :
  exists s', sys_mmap 0 (Vfs ∅ ∅) 9 0 8192 3 MAP_ANONYMOUS 0 0 (sys_of demo_calls) = Done (0x1000, s').
Proof.
  destruct (sys_mmap_anonymous 0 (Vfs ∅ ∅) 9 (sys_of demo_calls) (new_thread 2 5 THREAD_RUNNING (HM - 4096) 0 0 zero_context)
    8192 3 MAP_ANONYMOUS 0 0 0x1000) as (s' & E & _).
  - apply small_machine_ok.
  - reflexivity.
  - apply demo_calls_wf.
  - reflexivity.
  - vm_compute. discriminate.
  - lia.
  - vm_compute. reflexivity.
  - discriminate.
  - vm_compute. discriminate.
  - vm_compute. discriminate.
  - exists s'. exact E.
Defined.
(** Thread 1 of process 2 calls; thread 2 is of process 3. *)
Definition demo_kill : kstate :=
  set_gs8 1 (set_thread 1 (new_thread 2 1 THREAD_RUNNING 0 0 0 zero_context)
    (set_thread 2 (new_thread 3 2 THREAD_READY 0 0 0 zero_context) (set_thread 0 zero_thread demo_procs))).
Lemma sys_kill_ends_caller_witness :
  exists k', sys_kill 5 3 SIGKILL demo_kill = Done (0, k') /\
    (p_state <$> proc k' 2) = Some PROCESS_ENDED_BUT_NOT_CLEANED.
Proof.
  assert (is_done (sys_kill 5 3 SIGKILL demo_kill) = true) as D by (vm_compute; reflexivity).
  destruct (sys_kill 5 3 SIGKILL demo_kill) as [[r k']| | |] eqn:E; [clear D|discriminate D..].
  destruct (sys_kill_ends_caller 5 demo_kill k' 3 r (new_thread 2 1 THREAD_RUNNING 0 0 0 zero_context) (new_process 3 PROCESS_RUNNING 3 3 0 3))
    as (-> & H1 & _).
  - reflexivity.
  - vm_compute. discriminate.
  - reflexivity.
  - discriminate.
  - exact E.
  - exists k'. split; [reflexivity|exact H1].
Defined.
Lemma sys_fork_child_witness :
  exists cpid s', sys_fork (ForkRegs 0 0 0x1234) (sys_of demo_calls) = Done (cpid, s') /\ proc_slot demo_calls cpid = 0.
Proof.
  assert (is_done (sys_fork (ForkRegs 0 0 0x1234) (sys_of demo_calls)) = true) as D by (vm_compute; reflexivity).
  destruct (sys_fork (ForkRegs 0 0 0x1234) (sys_of demo_calls)) as [[cpid s']| | |] eqn:E; [clear D|discriminate D..].
  destruct (sys_fork_child (ForkRegs 0 0 0x1234) (sys_of demo_calls) s' (new_thread 2 5 THREAD_RUNNING (HM - 4096) 0 0 zero_context)
    demo_heap_proc cpid) as (_ & H1 & _).
  - apply small_machine_ok.
  - split; reflexivity.
  - exact E.
  - exists cpid, s'. split; [reflexivity|exact H1].
Defined.
