(* ===== verification/Screen.v ===== *)
(** * Screen: text screen and frame buffers

    src/core/vga.h (text mode and number formatting) and src/core/gui/ (frame
    buffers of the VESA and Bochs adapters).  The text memory is the array of
    its 16-bit cells; writes to the ports of the cursor are recorded in the
    order they are made, the latest first.  A frame buffer structure is kept in
    memory at the offsets of [struct frame_buffer], because the code reads
    fields of blocks it never initialised. *)
From Stdlib Require Import String Ascii.
From S2P Require Import Prelude Bytes MemLib StrLib KState Blocks Pci.
Open Scope Z_scope.

(** ** Text mode *)
Definition VGA_WIDTH : Z := 80.
Definition VGA_HEIGHT : Z := 25.
Definition DEFAULT_COLOR : Z := 0x07.
Definition VGA_CTRL : Z := 0x3D4.
Definition VGA_DATA : Z := 0x3D5.

Record screen := Screen { vga_text : gmap Z Z; vga_pos : Z; vga_ports : list (Z * Z) }.
Definition cell_at (s : screen) (i : Z) : Z := default 0 (vga_text s !! i).
Definition set_cell (i v : Z) (s : screen) : screen := Screen (<[i := v]> (vga_text s)) (vga_pos s) (vga_ports s).
Definition set_vga_pos (p : Z) (s : screen) : screen := Screen (vga_text s) p (vga_ports s).
Definition outb_vga (port v : Z) (s : screen) : screen := Screen (vga_text s) (vga_pos s) ((port, v) :: vga_ports s).

Definition enable_cursor (s : screen) : screen :=
  outb_vga VGA_DATA 15 (outb_vga VGA_CTRL 0x0B (outb_vga VGA_DATA 14 (outb_vga VGA_CTRL 0x0A s))).
(** [pos] has 16 bits. *)
Definition set_cursor (pos : Z) (s : screen) : screen :=
  outb_vga VGA_DATA (Z.land (Z.shiftr pos 8) 0xFF)
    (outb_vga VGA_CTRL 0x0E (outb_vga VGA_DATA (Z.land pos 0xFF) (outb_vga VGA_CTRL 0x0F s))).
Definition update_cursor (s : screen) : screen := set_cursor (u16 (vga_pos s)) s.

Definition blank : Z := Z.lor (Z.shiftl DEFAULT_COLOR 8) 32.
Fixpoint copy_row (n : nat) (i j : Z) (s : screen) : screen :=
  match n with
  | O => s
  | S n' => copy_row n' i (j + 1) (set_cell (i * VGA_WIDTH + j) (cell_at s ((i + 1) * VGA_WIDTH + j)) s)
  end.
Fixpoint copy_rows (n columns : nat) (i : Z) (s : screen) : screen :=
  match n with
  | O => s
  | S n' => copy_rows n' columns (i + 1) (copy_row columns i 0 s)
  end.
Fixpoint fill_cells (n : nat) (i v : Z) (s : screen) : screen :=
  match n with O => s | S n' => fill_cells n' (i + 1) v (set_cell i v s) end.
Definition scroll_screen_up (s : screen) : screen :=
  let s := copy_rows (Z.to_nat (VGA_HEIGHT - 1)) (Z.to_nat (VGA_WIDTH - 1)) 0 s in
  let s := fill_cells (Z.to_nat VGA_WIDTH) ((VGA_HEIGHT - 1) * VGA_WIDTH) blank s in
  update_cursor (set_vga_pos ((VGA_HEIGHT - 1) * VGA_WIDTH) s).

Definition newline : Z := 10.
Definition print_char (c : Z) (s : screen) : screen :=
  let s :=
    if c =? newline then update_cursor (set_vga_pos (u32 ((vga_pos s / VGA_WIDTH + 1) * VGA_WIDTH)) s)
    else update_cursor (set_vga_pos (u32 (vga_pos s + 1)) (set_cell (vga_pos s) (Z.lor 0x0F00 (u8 c)) s)) in
  if VGA_WIDTH * VGA_HEIGHT <=? vga_pos s then scroll_screen_up s else s.

Definition clear_screen (s : screen) : screen :=
  update_cursor (set_vga_pos 0 (fill_cells (Z.to_nat (VGA_WIDTH * VGA_HEIGHT)) 0 blank s)).
Definition delete_last_char_on_screen (s : screen) : screen :=
  if vga_pos s mod VGA_WIDTH =? 0 then s
  else
    let s := update_cursor (set_vga_pos (vga_pos s - 1) s) in
    set_cell (vga_pos s) blank s.

(** The characters up to the terminator. *)
Fixpoint echo (str : list Z) (s : screen) : screen :=
  match str with
  | [] => s
  | c :: r => if c =? 0 then s else echo r (print_char c s)
  end.
(** The argument, 64 bits unsigned, is printed as a [long long] into a local
    buffer of 64 characters. *)
Definition echoi (input : Z) (s : screen) : screen :=
  echo (cells (num_to_str ∅ (s64 input) 0) 0 64) s.

(** *** Numbers in a field of six and seven characters *)
Definition digit (d : Z) : Z := u8 (48 + d).
Fixpoint count_digits (n : nat) (temp digits : Z) : option Z :=
  match n with
  | O => None
  | S n' => if temp =? 0 then Some digits else count_digits n' (temp / 10) (digits + 1)
  end.
Fixpoint pow10_loop (n : nat) (pow10 : Z) : Z :=
  match n with O => pow10 | S n' => pow10_loop n' (u64 (pow10 * 10)) end.
Fixpoint six_digits (n : nat) (x : Z) (acc : list Z) : list Z :=
  match n with O => acc | S n' => six_digits n' (x / 10) (digit (x mod 10) :: acc) end.
Definition tsu_error : list Z := [91; 101; 114; 114; 105; 93; 0].
Definition tsu (x : Z) : list Z :=
  if x <? 1000000 then six_digits 6 x [] ++ [0]
  else
    match count_digits 103 x 0 with
    | None => tsu_error
    | Some digits =>
        let exp := digits - 3 in
        let round := (x / pow10_loop (Z.to_nat exp) 1) mod 1000 in
        [digit (round / 100); digit (round / 10 mod 10); digit (round mod 10); 101; digit (exp / 10); digit (exp mod 10); 0]
    end.
Fixpoint lead_loop (fuel : nat) (t exp : Z) : Z * Z :=
  match fuel with
  | O => (t, exp)
  | S f => if 1000 <=? t then lead_loop f (t / 10) (exp + 1) else (t, exp)
  end.
Definition tsi (x : Z) : list Z :=
  let ux := if x <? 0 then u64 (- x) else x in
  let sign := if x <? 0 then 45 else 32 in
  match count_digits 103 ux 0 with
  | None => [91; 101; 114; 114; 105; 93; 32; 0]
  | Some _ =>
      if ux <? 1000000 then sign :: six_digits 6 ux [] ++ [0]
      else
        let (t, exp) := lead_loop 20 ux 0 in
        let lead := if 1000 <=? t then 999 else t in
        if 99 <? exp then replicate 7 42 ++ [0]
        else [sign; digit (lead / 100); digit (lead / 10 mod 10); digit (lead mod 10); 101; digit (exp / 10); digit (exp mod 10); 0]
  end.

(** ** Frame buffers *)
Definition MAX_FB : Z := 128.
Definition VGA_MAX_WIDTH : Z := 1920.
Definition VGA_MAX_HEIGHT : Z := 1080.
Definition VGA_MAX_BPP : Z := 32.
Inductive fb_type := FB_NOT_EXISTS | FB_VGA3 | FB_BGA.
Definition fb_type_code (t : fb_type) : Z := match t with FB_NOT_EXISTS => 0 | FB_VGA3 => 1 | FB_BGA => 2 end.
(** Offsets in the packed [struct frame_buffer] and its size; the structure of
    the VESA mode has 264 bytes, the frame buffer address at 40. *)
Definition fb_type_at : Z := 0.
Definition fb_id : Z := 4.
Definition fb_vbe_addr : Z := 12.
Definition fb_width : Z := 20.
Definition fb_height : Z := 24.
Definition fb_bpp : Z := 28.
Definition fb_pitch : Z := 29.
Definition fb_buf_addr : Z := 33.
Definition sizeof_frame_buffer : Z := 262.
Definition sizeof_vbe_mode_info : Z := 264.
Definition vbe_PhysBasePtr : Z := 40.

(** The 16-bit ports of the Bochs adapter. *)
Class PortIO16 (hw : Type) := { outw : hw -> Z -> Z -> hw }.

Section Gfx.
Context {M : Machine} {hw : Type} `{PortIO32 hw} `{PortIO16 hw}.
Record gfx := Gfx { g_k : kstate; g_mem : mem; fb_global : gmap Z Z; g_hw : hw }.
Definition set_g_mem (m : mem) (s : gfx) : gfx := Gfx (g_k s) m (fb_global s) (g_hw s).
Definition set_fb_global (t : gmap Z Z) (s : gfx) : gfx := Gfx (g_k s) (g_mem s) t (g_hw s).
Definition fb_ptr (s : gfx) (i : Z) : Z := default 0 (fb_global s !! i).
Definition g_kern {A} (c : ST kstate A) : ST gfx A := fun s =>
  match c (g_k s) with
  | Done (a, k) => Done (a, Gfx k (g_mem s) (fb_global s) (g_hw s))
  | Panicked => Panicked | Faulted => Faulted | Stuck => Stuck
  end.
Definition g_dev {A} (c : ST hw A) : ST gfx A := fun s =>
  match c (g_hw s) with
  | Done (a, h) => Done (a, Gfx (g_k s) (g_mem s) (fb_global s) h)
  | Panicked => Panicked | Faulted => Faulted | Stuck => Stuck
  end.
Definition g_st (n : nat) (a v : Z) : ST gfx unit := modify (fun s => set_g_mem (st_le n (g_mem s) a v) s).
Definition g_ld (n : nat) (a : Z) : ST gfx Z := gets (fun s => ld_le n (g_mem s) a).
Definition g_slot : ST gfx Z := fun s =>
  match get_a_free_slot (fb_ptr s) 0 MAX_FB with Some i => Done (i, s) | None => Panicked end.
Definition too_large (width height bpp : Z) : bool :=
  (VGA_MAX_WIDTH <? width) || (VGA_MAX_HEIGHT <? height) || (VGA_MAX_BPP <? bpp).

(** *** VESA *)
(** The mode structure is looked for at [vbe_addr]; nothing is programmed. *)
Definition send_init_control_to_vga_v3 (fb : Z) : ST gfx bool :=
  mode_info ← g_ld 8 (fb + fb_vbe_addr);
  phys ← g_ld 8 (mode_info + vbe_PhysBasePtr);
  mret (negb ((mode_info =? 0) || (phys =? 0))).
Definition row_pitch (width bpp : Z) : Z := u32 (div_ceil (u32 (width * bpp) / 8) 256 * 256).
Definition fb_blocks (pitch height : Z) : Z := div_ceil (sizeof_frame_buffer + u32 (pitch * height)) 4096.
(** The pointer is the block number itself. *)
Definition init_frame_buffer_vse (width height bpp : Z) : ST gfx Z :=
  if too_large width height bpp then mret (neg64 EINVAL)
  else
    id ← g_slot;
    let pitch := row_pitch width bpp in
    fb ← g_kern (get_continuous_free_blocks (fb_blocks pitch height));
    _ ← modify (fun s => set_fb_global (<[id := fb]> (fb_global s)) s);
    _ ← g_st 4 (fb + fb_type_at) (fb_type_code FB_VGA3);
    _ ← g_st 8 (fb + fb_id) id;
    _ ← g_st 8 (fb + fb_vbe_addr) (fb + sizeof_frame_buffer * sizeof_vbe_mode_info);
    _ ← g_st 4 (fb + fb_width) width;
    _ ← g_st 4 (fb + fb_height) height;
    _ ← g_st 1 (fb + fb_bpp) (u8 bpp);
    _ ← g_st 4 (fb + fb_pitch) pitch;
    _ ← g_st 8 (fb + fb_buf_addr) (sizeof_frame_buffer + fb);
    ok ← send_init_control_to_vga_v3 fb;
    mret (if ok : bool then id else neg64 EIO).
Fixpoint release_run (n : nat) (b : Z) (k : kstate) : kstate :=
  match n with O => k | S n' => release_run n' (b + 1) (set_memory_block_used_when_boot b false k) end.
(** [blocks_needed] of an existing buffer. *)
Definition old_blocks (fb : Z) : ST gfx Z :=
  p ← g_ld 4 (fb + fb_pitch);
  h ← g_ld 4 (fb + fb_height);
  mret (fb_blocks p h).
Definition resize_frame_buffer_vga (id new_width new_height new_bpp : Z) : ST gfx Z :=
  if too_large new_width new_height new_bpp then mret (neg64 EINVAL)
  else
    let new_pitch := row_pitch new_width new_bpp in
    let new_blocks_needed := fb_blocks new_pitch new_height in
    old ← gets (fun s => fb_ptr s id);
    if old =? 0 then mret (neg64 ENOENT)
    else
      old_blocks_needed ← old_blocks old;
      fb ← (if old_blocks_needed =? new_blocks_needed then mret old
            else
              b ← g_kern (get_continuous_free_blocks new_blocks_needed);
              _ ← g_kern (modify (release_run (Z.to_nat old_blocks_needed) (old / 4096)));
              mret b);
      _ ← modify (fun s => set_fb_global (<[id := fb]> (fb_global s)) s);
      _ ← g_st 8 (fb + fb_id) id;
      _ ← g_st 8 (fb + fb_vbe_addr) (fb + sizeof_frame_buffer * sizeof_vbe_mode_info);
      _ ← g_st 4 (fb + fb_width) new_width;
      _ ← g_st 4 (fb + fb_height) new_height;
      _ ← g_st 1 (fb + fb_bpp) (u8 new_bpp);
      _ ← g_st 4 (fb + fb_pitch) new_pitch;
      ok ← send_init_control_to_vga_v3 fb;
      mret (if ok : bool then id else neg64 EIO).
Definition delete_frame_buffer_vga (id : Z) : ST gfx bool :=
  old ← gets (fun s => fb_ptr s id);
  if old =? 0 then mret false
  else
    n ← old_blocks old;
    _ ← g_kern (modify (release_run (Z.to_nat n) (old / 4096)));
    _ ← modify (fun s => set_fb_global (<[id := 0]> (fb_global s)) s);
    mret true.

(** *** Bochs adapter *)
Definition BGA_INDEX : Z := 0x1CE.
Definition BGA_DATA : Z := 0x1CF.
Definition bga_write (reg val : Z) : ST hw unit := modify (fun h => outw (outw h BGA_INDEX reg) BGA_DATA (u16 val)).
Definition bga_probe (bus dev func : Z) : ST hw (option Z) :=
  vendor ← pci_config_read16 bus dev func 0x00;
  if vendor =? 0xFFFF then mret None
  else
    device ← pci_config_read16 bus dev func 0x02;
    _ ← pci_config_read8 bus dev func 0x0B;
    if (vendor =? 0x1234) && (device =? 0x1111) then
      bar ← pci_read32 bus dev func 0x10;
      mret (Some (Z.land bar 0xFFFFFFF0))
    else mret None.
(** Without an adapter the function ends without a value: [junk]. *)
Definition get_bga_framebuffer (junk : Z) : ST hw Z :=
  r ← loop_m 256 0 (fun bus => loop_m 32 0 (fun dev => loop_m 8 0 (fun func => bga_probe bus dev func)));
  mret (match r : option Z with Some a => a | None => junk end).
Definition send_init_control_to_bga (junk fb : Z) : ST gfx Z :=
  width ← g_ld 4 (fb + fb_width);
  height ← g_ld 4 (fb + fb_height);
  bpp ← g_ld 1 (fb + fb_bpp);
  _ ← g_dev (bga_write 0x04 0);
  _ ← g_dev (bga_write 0x01 width);
  _ ← g_dev (bga_write 0x02 height);
  _ ← g_dev (bga_write 0x03 bpp);
  _ ← g_dev (bga_write 0x06 width);
  _ ← g_dev (bga_write 0x07 height);
  _ ← g_dev (bga_write 0x04 1);
  g_dev (get_bga_framebuffer junk).
(** The loop hands addresses, not block numbers, to the memory map. *)
Fixpoint mark_mmio (n : nat) (i : Z) (k : kstate) : kstate :=
  match n with O => k | S n' => mark_mmio n' (i + 4096) (set_memory_block_used_when_boot i true k) end.
Definition map_used_bga_mmio (mmio_addr : Z) (k : kstate) : kstate :=
  let start_mapped := u32 (mmio_addr / 4096 * 4096) in
  let end_mapped := u32 (div_ceil (mmio_addr + 16 * 1024) 4096 * 4096) in
  mark_mmio (Z.to_nat ((end_mapped - start_mapped) / 4096)) start_mapped k.
(** The fields set by both routines; the pitch is the width in pixels. *)
Definition bga_fields (fb id width height bpp : Z) : ST gfx unit :=
  _ ← g_st 4 (fb + fb_type_at) (fb_type_code FB_BGA);
  _ ← g_st 8 (fb + fb_id) id;
  _ ← g_st 8 (fb + fb_vbe_addr) 0;
  _ ← g_st 4 (fb + fb_width) width;
  _ ← g_st 4 (fb + fb_height) height;
  _ ← g_st 1 (fb + fb_bpp) (u8 bpp);
  g_st 4 (fb + fb_pitch) width.
Definition init_frame_buffer_bga (junk width height bpp : Z) : ST gfx Z :=
  if too_large width height bpp then mret (neg64 EINVAL)
  else
    id ← g_slot;
    fb ← g_kern get_a_free_block_addr;
    _ ← modify (fun s => set_fb_global (<[id := fb]> (fb_global s)) s);
    _ ← bga_fields fb id width height bpp;
    mmio_addr ← send_init_control_to_bga junk fb;
    _ ← g_st 8 (fb + fb_buf_addr) mmio_addr;
    _ ← g_kern (modify (map_used_bga_mmio mmio_addr));
    mret (if negb (mmio_addr =? 0) then id else neg64 EIO).
(** No test of the pointer. *)
Definition resize_frame_buffer_bga (junk id new_width new_height new_bpp : Z) : ST gfx Z :=
  if too_large new_width new_height new_bpp then mret (neg64 EINVAL)
  else
    fb ← gets (fun s => fb_ptr s id);
    if fb =? 0 then fault
    else
      _ ← bga_fields fb id new_width new_height new_bpp;
      mmio_addr ← send_init_control_to_bga junk fb;
      _ ← g_st 8 (fb + fb_buf_addr) mmio_addr;
      mret (if negb (mmio_addr =? 0) then id else neg64 EIO).
Definition delete_frame_buffer_bga (id : Z) : ST gfx bool :=
  old ← gets (fun s => fb_ptr s id);
  if old =? 0 then mret false
  else
    _ ← g_kern (modify (set_memory_block_used_when_boot old false));
    _ ← modify (fun s => set_fb_global (<[id := 0]> (fb_global s)) s);
    mret true.

(** *** Transfer *)
Fixpoint copy_lines (n : nat) (m : mem) (buf pitch user row_bytes row : Z) : mem :=
  match n with
  | O => m
  | S n' => copy_lines n' (memcpy m (u64 (buf + u32 (row * pitch))) (user + row * row_bytes) row_bytes)
              buf pitch user row_bytes (row + 1)
  end.
(** [sized] tells which size bounds the count: the padded size of the write
    routine or the unpadded one of the read routine.  A width of 0 divides by
    zero. *)
Definition transfer_frame_buffer (sized : Z -> Z -> Z -> Z) (res_id user count : Z) : ST gfx Z :=
  fb ← gets (fun s => fb_ptr s res_id);
  if fb =? 0 then mret (neg64 1)
  else
    bpp ← g_ld 1 (fb + fb_bpp);
    width ← g_ld 4 (fb + fb_width);
    height ← g_ld 4 (fb + fb_height);
    pitch ← g_ld 4 (fb + fb_pitch);
    buf ← g_ld 8 (fb + fb_buf_addr);
    let row_bytes := u32 (width * (bpp / 8)) in
    let fb_size := sized pitch row_bytes height in
    let count := if fb_size <? count then fb_size else count in
    if row_bytes =? 0 then fault
    else
      let total_rows := u32 (count / row_bytes) in
      let total_rows := if height <? total_rows then height else total_rows in
      _ ← modify (fun s => set_g_mem (copy_lines (Z.to_nat total_rows) (g_mem s) buf pitch user row_bytes 0) s);
      mret (u64 (total_rows * row_bytes)).
Definition write_frame_buffer (res_id user_space_buf count : Z) : ST gfx Z :=
  transfer_frame_buffer (fun pitch _ height => u32 (pitch * height)) res_id user_space_buf count.
(** The copy goes from the user buffer to the screen here too. *)
Definition read_frame_buffer (res_id user_space_buf count : Z) : ST gfx Z :=
  transfer_frame_buffer (fun _ row_bytes height => u64 (row_bytes * height)) res_id user_space_buf count.
Definition sys_write_frame_buffer (res_id buf count : Z) : ST gfx Z := write_frame_buffer res_id buf count.
Definition sys_read_frame_buffer (res_id buf count : Z) : ST gfx Z := write_frame_buffer res_id buf count.
(** [sys_ioctl_frame_buffer] of syscall1.h: width, height and depth at [arg]. *)
Definition FBIO_RESIZE : Z := 0x1001.
Definition sys_ioctl_frame_buffer (id request arg : Z) : ST gfx Z :=
  p ← gets (fun s => fb_ptr s id);
  if p =? 0 then mret (neg64 ENOENT)
  else if request =? FBIO_RESIZE then
    if arg =? 0 then mret (neg64 EINVAL)
    else w ← g_ld 4 arg; h ← g_ld 4 (arg + 4); b ← g_ld 1 (arg + 8); resize_frame_buffer_vga id w h b
  else mret 0.
Definition init_gui (junk : Z) : ST gfx Z := init_frame_buffer_bga junk 1920 1080 32.
End Gfx.
Arguments gfx : clear implicits.

(** ** Lemmas on cells *)
Section Cells.
Lemma cell_set i v s j : cell_at (set_cell i v s) j = if j =? i then v else cell_at s j.
Proof.
  unfold cell_at, set_cell. cbn [vga_text]. destruct (Z.eqb_spec j i) as [->|].
  - by rewrite lookup_insert_eq.
  - by rewrite lookup_insert_ne.
Qed.
Lemma cell_cursor s i : cell_at (update_cursor s) i = cell_at s i.
Proof. reflexivity. Qed.
Lemma cell_pos p s i : cell_at (set_vga_pos p s) i = cell_at s i.
Proof. reflexivity. Qed.
Lemma fill_cells_at n i v s j :
  cell_at (fill_cells n i v s) j = if (i <=? j) && (j <? i + Z.of_nat n) then v else cell_at s j.
Proof.
  revert i s. induction n as [|n IH]; intros i s; cbn [fill_cells].
  - destruct (_ && _) eqn:E; [zbool; lia|done].
  - rewrite IH, cell_set. destruct (Z.eqb_spec j i); repeat ztest; cbn [andb]; try lia; done.
Qed.
Lemma copy_row_at n i j s x :
  0 <= j -> j + Z.of_nat n <= VGA_WIDTH ->
  cell_at (copy_row n i j s) x =
    if (i * VGA_WIDTH + j <=? x) && (x <? i * VGA_WIDTH + j + Z.of_nat n) then cell_at s (x + VGA_WIDTH) else cell_at s x.
Proof.
  unfold VGA_WIDTH. revert j s. induction n as [|n IH]; intros j s Hj Hn; cbn [copy_row].
  - destruct (_ && _) eqn:E; [zbool; lia|done].
  - unfold VGA_WIDTH. rewrite IH, !cell_set by lia.
    repeat ztest; cbn [andb]; try lia; try done. f_equal; lia.
Qed.
(** The rows from [i] on, shifted in their first [w] columns. *)
Lemma copy_rows_at n w i s x :
  0 <= i -> Z.of_nat w <= VGA_WIDTH ->
  cell_at (copy_rows n w i s) x =
    if (i <=? x / VGA_WIDTH) && (x / VGA_WIDTH <? i + Z.of_nat n) && (x mod VGA_WIDTH <? Z.of_nat w)
    then cell_at s (x + VGA_WIDTH) else cell_at s x.
Proof.
  revert i s. induction n as [|n IH]; intros i s Hi Hw; cbn [copy_rows].
  - destruct (_ && _ && _) eqn:E; [zbool; lia|done].
  - rewrite IH, !copy_row_at by lia. clear IH.
    pose proof (Z_div_mod_eq_full x VGA_WIDTH). pose proof (Z.mod_pos_bound x VGA_WIDTH ltac:(done)).
    unfold VGA_WIDTH in *. repeat ztest; cbn [andb]; try lia; reflexivity.
Qed.
Lemma scroll_at s x :
  cell_at (scroll_screen_up s) x =
    if (1920 <=? x) && (x <? 2000) then blank
    else if (0 <=? x) && (x <? 1920) && (x mod VGA_WIDTH <? VGA_WIDTH - 1) then cell_at s (x + VGA_WIDTH)
    else cell_at s x.
Proof.
  unfold scroll_screen_up. cbv zeta. rewrite cell_cursor, cell_pos, fill_cells_at, copy_rows_at by done.
  rewrite !Z2Nat.id by done.
  pose proof (Z_div_mod_eq_full x VGA_WIDTH). pose proof (Z.mod_pos_bound x VGA_WIDTH ltac:(done)).
  unfold VGA_WIDTH, VGA_HEIGHT in *. repeat ztest; cbn [andb]; try lia; reflexivity.
Qed.
End Cells.

(** The last four port writes put the cursor at the position of the screen. *)
Definition cursor_shown (s : screen) : Prop :=
  take 4 (vga_ports s) =
    [(VGA_DATA, Z.land (Z.shiftr (vga_pos s) 8) 0xFF); (VGA_CTRL, 0x0E); (VGA_DATA, Z.land (vga_pos s) 0xFF); (VGA_CTRL, 0x0F)].
Definition screen_ok (s : screen) : Prop := 0 <= vga_pos s < VGA_WIDTH * VGA_HEIGHT /\ cursor_shown s.
(** What the kernel does to the text screen. *)
Inductive screen_op := Op_print (c : Z) | Op_echo (str : list Z) | Op_echoi (n : Z) | Op_clear | Op_delete.
Definition run_op (o : screen_op) : screen -> screen :=
  match o with
  | Op_print c => print_char c
  | Op_echo str => echo str
  | Op_echoi n => echoi n
  | Op_clear => clear_screen
  | Op_delete => delete_last_char_on_screen
  end.

Section Invariant.
Lemma update_cursor_shown s : 0 <= vga_pos s < 65536 -> cursor_shown (update_cursor s).
Proof. intros. unfold cursor_shown, update_cursor. rewrite u16_id by done. reflexivity. Qed.
Lemma scroll_ok s : screen_ok (scroll_screen_up s).
Proof.
  unfold scroll_screen_up. cbv zeta. generalize (fill_cells (Z.to_nat VGA_WIDTH)). intros f.
  generalize (f ((VGA_HEIGHT - 1) * VGA_WIDTH) blank (copy_rows (Z.to_nat (VGA_HEIGHT - 1)) (Z.to_nat (VGA_WIDTH - 1)) 0 s)).
  intros t. split; [done|by apply update_cursor_shown].
Qed.
Lemma print_char_ok c s : screen_ok s -> screen_ok (print_char c s).
Proof.
  intros [Hp _]. unfold VGA_WIDTH, VGA_HEIGHT in Hp. unfold print_char.
  set (s1 := if c =? newline then _ else _).
  assert (H1 : 0 <= vga_pos s1 < 65536 /\ cursor_shown s1).
  { assert (0 <= vga_pos s / 80 < 25) by (split; [apply Z.div_pos; lia|apply Z.div_lt_upper_bound; lia]).
    unfold s1. destruct (c =? newline); (split; [|apply update_cursor_shown]); cbn; unfold VGA_WIDTH;
      rewrite u32_id by lia; lia. }
  destruct (Z.leb_spec (VGA_WIDTH * VGA_HEIGHT) (vga_pos s1)); [apply scroll_ok|]. split; [lia|apply H1].
Qed.
Lemma echo_ok str s : screen_ok s -> screen_ok (echo str s).
Proof.
  revert s. induction str as [|c r IH]; intros s H; cbn [echo]; [done|].
  destruct (c =? 0); [done|]. by apply IH, print_char_ok.
Qed.
Lemma run_op_ok o s : screen_ok s -> screen_ok (run_op o s).
Proof.
  intros H. destruct o as [c|str|n| |]; cbn [run_op].
  - by apply print_char_ok.
  - by apply echo_ok.
  - by apply echo_ok.
  - unfold clear_screen. generalize (fill_cells (Z.to_nat (VGA_WIDTH * VGA_HEIGHT)) 0 blank s). intros t.
    split; [done|by apply update_cursor_shown].
  - unfold delete_last_char_on_screen. destruct (Z.eqb_spec (vga_pos s mod VGA_WIDTH) 0); [done|].
    destruct H as [Hp _]. unfold VGA_WIDTH, VGA_HEIGHT in *.
    assert (vga_pos s <> 0) by (intros E; rewrite E in *; done).
    split; [cbn; unfold VGA_WIDTH, VGA_HEIGHT; lia|]. apply (update_cursor_shown (set_vga_pos (vga_pos s - 1) s)). cbn. lia.
Qed.
End Invariant.

(** ** Numbers *)
Definition digits_of (l : list Z) : list Z := map (fun c => c - 48) l.
Fixpoint dec (acc : Z) (ds : list Z) : Z := match ds with [] => acc | d :: r => dec (acc * 10 + d) r end.
Section Numbers.
Lemma digit_id d : 0 <= d < 10 -> digit d = 48 + d.
Proof. intros. unfold digit. apply u8_id. lia. Qed.
Lemma six_digits_spec n x acc :
  0 <= x < 10 ^ Z.of_nat n ->
  exists l, six_digits n x acc = l ++ acc /\ length l = n /\ Forall (fun c => 48 <= c < 58) l /\
    (forall a, dec a (digits_of l) = a * 10 ^ Z.of_nat n + x).
Proof.
  revert x acc. induction n as [|n IH]; intros x acc Hx; cbn [six_digits].
  - change (10 ^ Z.of_nat 0) with 1 in *. exists []. repeat split; [constructor|]. intros a. cbn. lia.
  - rewrite Nat2Z.inj_succ, Z.pow_succ_r in * by lia. pose proof (Z.mod_pos_bound x 10 ltac:(lia)).
    pose proof (Z_div_mod_eq_full x 10).
    destruct (IH (x / 10) (digit (x mod 10) :: acc)) as (l & -> & Hl & Hf & Hv).
    { split; [apply Z.div_pos; lia|apply Z.div_lt_upper_bound; lia]. }
    exists (l ++ [digit (x mod 10)]). rewrite <- app_assoc. repeat split.
    + rewrite length_app, Hl. cbn. lia.
    + apply Forall_app. split; [done|]. repeat constructor; rewrite digit_id by lia; lia.
    + intros a. unfold digits_of in *. rewrite map_app. cbn [map].
      assert (G : forall l b a, dec a (l ++ [b]) = dec a l * 10 + b).
      { clear. induction l as [|c l IH]; intros b a; cbn; [done|apply IH]. }
      rewrite G, Hv, digit_id by lia. nia.
Qed.
(** [count_digits] counts the decimal digits. *)
Lemma count_digits_spec n x d :
  0 <= x -> x < 10 ^ Z.of_nat n ->
  exists k, count_digits (S n) x d = Some (d + Z.of_nat k) /\ x < 10 ^ Z.of_nat k /\ (x = 0 -> k = 0%nat) /\
    (0 < x -> 10 ^ (Z.of_nat k - 1) <= x).
Proof.
  revert x d. induction n as [|n IH]; intros x d Hx Hn.
  - change (10 ^ Z.of_nat 0) with 1 in Hn. assert (x = 0) as -> by lia. exists 0%nat. cbn. rewrite Z.add_0_r. repeat split; lia.
  - change (count_digits (S (S n)) x d) with (if x =? 0 then Some d else count_digits (S n) (x / 10) (d + 1)).
    destruct (Z.eqb_spec x 0) as [->|].
    + exists 0%nat. cbn. rewrite Z.add_0_r. repeat split; lia.
    + rewrite Nat2Z.inj_succ, Z.pow_succ_r in Hn by lia. pose proof (Z_div_mod_eq_full x 10). pose proof (Z.mod_pos_bound x 10 ltac:(lia)).
      destruct (IH (x / 10) (d + 1)) as (k & -> & H1 & Hz & H2); [apply Z.div_pos; lia|apply Z.div_lt_upper_bound; lia|].
      exists (S k). rewrite Nat2Z.inj_succ, Z.pow_succ_r by lia. repeat split; [f_equal; lia|lia|lia|]. intros _.
      destruct (Z.eq_dec (x / 10) 0) as [E|].
      * rewrite (Hz E). cbn. lia.
      * assert (0 < x / 10) by (pose proof (Z.div_pos x 10); lia). specialize (H2 ltac:(lia)).
        destruct k as [|k]; [cbn in H1; lia|].
        replace (Z.succ (Z.of_nat (S k)) - 1) with (Z.succ (Z.of_nat (S k) - 1)) by lia.
        rewrite Z.pow_succ_r by lia. lia.
Qed.
Lemma pow10_loop_spec n p : p * 10 ^ Z.of_nat n < 2 ^ 64 -> 0 <= p -> pow10_loop n p = p * 10 ^ Z.of_nat n.
Proof.
  revert p. induction n as [|n IH]; intros p Hb Hp; cbn [pow10_loop]; [change (10 ^ Z.of_nat 0) with 1; lia|].
  rewrite Nat2Z.inj_succ, Z.pow_succ_r in * by lia. pose proof (Z.pow_pos_nonneg 10 (Z.of_nat n) ltac:(lia) ltac:(lia)).
  rewrite u64_id by nia. rewrite IH by nia. lia.
Qed.
Lemma three_digits r : 0 <= r < 1000 ->
  dec 0 (digits_of [digit (r / 100); digit (r / 10 mod 10); digit (r mod 10)]) = r.
Proof.
  intros. assert (0 <= r / 100 < 10) by (split; [apply Z.div_pos; lia|apply Z.div_lt_upper_bound; lia]).
  pose proof (Z.mod_pos_bound r 10 ltac:(lia)). pose proof (Z.mod_pos_bound (r / 10) 10 ltac:(lia)).
  cbn [digits_of map dec]. rewrite !digit_id by lia.
  pose proof (Z_div_mod_eq_full r 10). pose proof (Z_div_mod_eq_full (r / 10) 10). rewrite Z.div_div in * by lia. change (10 * 10) with 100 in *. lia.
Qed.
Lemma two_digits e : 0 <= e < 100 -> dec 0 (digits_of [digit (e / 10); digit (e mod 10)]) = e.
Proof.
  intros. assert (0 <= e / 10 < 10) by (split; [apply Z.div_pos; lia|apply Z.div_lt_upper_bound; lia]).
  pose proof (Z.mod_pos_bound e 10 ltac:(lia)). cbn [digits_of map dec]. rewrite !digit_id by lia.
  pose proof (Z_div_mod_eq_full e 10). lia.
Qed.
Lemma lead_loop_spec fuel x e :
  0 <= x -> x < 1000 * 10 ^ Z.of_nat fuel ->
  exists k, lead_loop fuel x e = (x / 10 ^ Z.of_nat k, e + Z.of_nat k) /\ (k <= fuel)%nat /\ x / 10 ^ Z.of_nat k < 1000 /\
    (x < 1000 -> k = 0%nat) /\ (1000 <= x -> 100 <= x / 10 ^ Z.of_nat k).
Proof.
  revert x e. induction fuel as [|f IH]; intros x e Hx Hb; cbn [lead_loop].
  - change (10 ^ Z.of_nat 0) with 1 in Hb. exists 0%nat. rewrite Z.div_1_r, Z.add_0_r. repeat split; lia.
  - destruct (Z.leb_spec 1000 x).
    + rewrite Nat2Z.inj_succ, Z.pow_succ_r in Hb by lia.
      destruct (IH (x / 10) (e + 1)) as (k & -> & Hk & H1 & Hz & H2); [apply Z.div_pos; lia|apply Z.div_lt_upper_bound; lia|].
      exists (S k). rewrite Z.div_div in * by lia. rewrite Nat2Z.inj_succ, Z.pow_succ_r by lia.
      repeat split; [f_equal; lia|lia|lia|lia|]. intros _. destruct (Z.leb_spec 1000 (x / 10)); [by apply H2|].
      rewrite (Hz ltac:(lia)). change (10 * 10 ^ Z.of_nat 0) with 10. apply Z.div_le_lower_bound; lia.
    + exists 0%nat. rewrite Z.div_1_r, Z.add_0_r. repeat split; lia.
Qed.
End Numbers.

(** ** Copying lines *)
Section Lines.
(** Lines of [row] bytes, [pitch] bytes apart, written below 2^32 bytes and
    away from what is read. *)
Lemma copy_lines_spec n m buf pitch user row r0 x :
  0 < row <= pitch -> 0 <= r0 -> (r0 + Z.of_nat n) * pitch < 2 ^ 32 -> 0 <= buf -> buf + (r0 + Z.of_nat n) * pitch < 2 ^ 64 ->
  (forall r c r' c', r0 <= r < r0 + Z.of_nat n -> 0 <= c < row -> r0 <= r' < r0 + Z.of_nat n -> 0 <= c' < row ->
     buf + r * pitch + c <> user + r' * row + c') ->
  ld (copy_lines n m buf pitch user row r0) x =
    let r := (x - buf) / pitch in
    let c := (x - buf) mod pitch in
    if (r0 <=? r) && (r <? r0 + Z.of_nat n) && (c <? row) then ld m (user + r * row + c) else ld m x.
Proof.
  intros Hrow. revert m r0. induction n as [|n IH]; intros m r0 Hr Hb Hbuf Hbb Hd; cbn [copy_lines].
  - cbv zeta. destruct (_ && _ && _) eqn:E; [zbool; lia|done].
  - rewrite u32_id by nia. rewrite u64_id by nia. rewrite IH; [|lia|lia|lia|lia|intros; apply Hd; lia].
    cbv zeta. clear IH. pose proof (Z_div_mod_eq_full (x - buf) pitch) as Hx. pose proof (Z.mod_pos_bound (x - buf) pitch ltac:(lia)).
    set (r := (x - buf) / pitch) in *. set (c := (x - buf) mod pitch) in *.
    assert (HO : buf + r0 * pitch <= user + r0 * row \/ user + r0 * row + row <= buf + r0 * pitch).
    { destruct (Z.le_gt_cases (buf + r0 * pitch) (user + r0 * row)); [by left|].
      destruct (Z.le_gt_cases (user + r0 * row + row) (buf + r0 * pitch)); [by right|]. exfalso.
      apply (Hd r0 0 r0 (buf + r0 * pitch - (user + r0 * row))); lia. }
    assert (Hin : forall r', r0 <= r' < r0 + Z.of_nat (S n) -> 0 <= c < row ->
      ~ (buf + r0 * pitch <= user + r' * row + c < buf + r0 * pitch + row)).
    { intros r' Hr' Hc Hy. apply (Hd r0 (user + r' * row + c - (buf + r0 * pitch)) r' c); lia. }
    assert (HX : (buf + r0 * pitch <= x < buf + r0 * pitch + row) <-> (r = r0 /\ c < row)).
    { split; [intros Hy|intros [-> ?]; lia]. assert (r = r0) by nia. subst r0. lia. }
    rewrite !memcpy_ld by lia. destruct (Z.eq_dec r r0) as [E|E].
    + rewrite E. rewrite (proj2 (Z.leb_gt (r0 + 1) r0)), (proj2 (Z.leb_le r0 r0)), (proj2 (Z.ltb_lt r0 (r0 + Z.of_nat (S n)))) by lia.
      cbn [andb]. destruct (Z.ltb_spec c row).
      * rewrite (proj2 (Z.leb_le _ _)), (proj2 (Z.ltb_lt _ _)) by lia. cbn [andb]. f_equal. rewrite E in Hx. lia.
      * destruct (_ && _) eqn:F; [zbool; lia|done].
    + replace ((r0 + 1 <=? r) && (r <? r0 + 1 + Z.of_nat n) && (c <? row)) with ((r0 <=? r) && (r <? r0 + Z.of_nat (S n)) && (c <? row))
        by (repeat ztest; cbn [andb]; try lia; done).
      destruct ((r0 <=? r) && (r <? r0 + Z.of_nat (S n)) && (c <? row)) eqn:F; zbool.
      * specialize (Hin r ltac:(lia) ltac:(lia)). destruct (_ && _) eqn:G; [zbool; lia|done].
      * destruct ((buf + r0 * pitch <=? x) && _) eqn:G; [zbool; lia|done].
Qed.
End Lines.

(** ** Properties *)

(** The text screen keeps its position inside the 25 rows of 80 cells and the
    cursor of the adapter at that position, whatever is printed, deleted or
    cleared, starting from a cleared screen. *)
Theorem screen_position_invariant (ops : list screen_op) (s : screen) :
  screen_ok (fold_left (fun s o => run_op o s) ops (clear_screen s)).
Proof.
  assert (H : screen_ok (clear_screen s)).
  { unfold clear_screen. generalize (fill_cells (Z.to_nat (VGA_WIDTH * VGA_HEIGHT)) 0 blank s). intros t.
    split; [done|by apply update_cursor_shown]. }
  revert H. generalize (clear_screen s). induction ops as [|o ops IH]; intros t H; cbn [fold_left]; [done|].
  by apply IH, run_op_ok.
Qed.

(** A printable string that fits before the end of the screen appears in the
    cells from the position on, white on black, moves the position behind it
    and changes no other cell. *)
Theorem echo_places_text (str : list Z) (s : screen) :
  0 <= vga_pos s -> vga_pos s + Z.of_nat (length str) < VGA_WIDTH * VGA_HEIGHT ->
  Forall (fun c => c <> 0 /\ c <> newline) str ->
  vga_pos (echo str s) = vga_pos s + Z.of_nat (length str) /\
  (forall i c, str !! i = Some c -> cell_at (echo str s) (vga_pos s + Z.of_nat i) = Z.lor 0x0F00 (u8 c)) /\
  (forall x, ~ (vga_pos s <= x < vga_pos s + Z.of_nat (length str)) -> cell_at (echo str s) x = cell_at s x).
Proof.
  revert s. induction str as [|c r IH]; intros s Hp Hl Hf; cbn [echo length] in *.
  - split; [lia|]. by split.
  - inversion_clear Hf as [|? ? [Hc Hn] Hr]. rewrite (proj2 (Z.eqb_neq c 0) Hc).
    unfold VGA_WIDTH, VGA_HEIGHT in *.
    assert (E : print_char c s = update_cursor (set_vga_pos (vga_pos s + 1) (set_cell (vga_pos s) (Z.lor 0x0F00 (u8 c)) s))).
    { unfold print_char. rewrite (proj2 (Z.eqb_neq c newline) Hn), u32_id by lia. cbv zeta.
      cbn [vga_pos update_cursor set_cursor outb_vga set_vga_pos]. unfold VGA_WIDTH, VGA_HEIGHT.
      by rewrite (proj2 (Z.leb_gt _ _)) by lia. }
    rewrite E. set (s1 := update_cursor _). destruct (IH s1) as (P & Q & R); [cbn; lia|cbn; lia|done|].
    change (vga_pos s1) with (vga_pos s + 1) in *.
    assert (C : forall x, cell_at s1 x = if x =? vga_pos s then Z.lor 0x0F00 (u8 c) else cell_at s x) by (intros; apply cell_set).
    split; [lia|]. split.
    + intros [|i] c' Hi; cbn in Hi.
      * injection Hi as <-. rewrite R, C, Z.add_0_r by lia. by rewrite Z.eqb_refl.
      * rewrite <- (Q i c' Hi). f_equal. lia.
    + intros y Hy. rewrite R, C by lia. by rewrite (proj2 (Z.eqb_neq _ _)) by lia.
Qed.
Lemma echo_places_text_witness :
  cell_at (echo [72; 105] (Screen ∅ 5 [])) 6 = Z.lor 0x0F00 105.
Proof.
  destruct (echo_places_text [72; 105] (Screen ∅ 5 [])) as (_ & Q & _); [done|done| |exact (Q 1%nat 105 eq_refl)].
  repeat constructor; done.
Defined.

(** Scrolling moves rows 1 to 24 up by one in their first 79 columns and blanks
    the last row; the last column of the other rows keeps its old text. *)
Theorem scroll_skips_last_column (s : screen) (row col : Z) :
  0 <= row < VGA_HEIGHT -> 0 <= col < VGA_WIDTH ->
  cell_at (scroll_screen_up s) (row * VGA_WIDTH + col) =
    if row =? VGA_HEIGHT - 1 then blank
    else if col <? VGA_WIDTH - 1 then cell_at s ((row + 1) * VGA_WIDTH + col)
    else cell_at s (row * VGA_WIDTH + col).
Proof.
  unfold VGA_HEIGHT. intros Hr Hc. rewrite scroll_at. assert (W : VGA_WIDTH = 80) by done.
  assert (E : (row * VGA_WIDTH + col) mod VGA_WIDTH = col).
  { rewrite Z.add_comm, Z.mod_add by lia. apply Z.mod_small. lia. }
  rewrite E, W in *. replace ((row + 1) * 80 + col) with (row * 80 + col + 80) by lia.
  repeat ztest; cbn [andb]; try lia; reflexivity.
Qed.
Lemma scroll_skips_last_column_witness :
  cell_at (scroll_screen_up (set_cell 79 65 (Screen ∅ 0 []))) (0 * VGA_WIDTH + 79) = 65.
Proof. rewrite scroll_skips_last_column by done. reflexivity. Defined.

(** [tsu] prints a number below a million as its six decimal digits and any
    larger 64-bit number as three leading digits and a power of ten between
    which and the next one the number lies. *)
Theorem tsu_value (x : Z) :
  0 <= x < 2 ^ 64 ->
  if x <? 1000000 then
    exists ds, tsu x = ds ++ [0] /\ length ds = 6%nat /\ Forall (fun c => 48 <= c < 58) ds /\ dec 0 (digits_of ds) = x
  else
    exists a b c e f lead exp, tsu x = [a; b; c; 101; e; f; 0] /\
      dec 0 (digits_of [a; b; c]) = lead /\ dec 0 (digits_of [e; f]) = exp /\
      lead * 10 ^ exp <= x < (lead + 1) * 10 ^ exp.
Proof.
  intros Hx. unfold tsu. destruct (Z.ltb_spec x 1000000).
  - destruct (six_digits_spec 6 x []) as (l & -> & Hl & Hf & Hv); [split; [lia|cbn; lia]|].
    exists l. rewrite app_nil_r. repeat split; [done|done|]. by rewrite Hv.
  - assert (Hbig : 2 ^ 64 < 10 ^ Z.of_nat 20) by done.
    assert (Hd : exists k, count_digits 103 x 0 = Some (Z.of_nat k) /\ (6 < k <= 20)%nat /\ x < 10 ^ Z.of_nat k).
    { destruct (count_digits_spec 102 x 0) as (k & E & H1 & _ & H2); [lia|transitivity (2 ^ 64); [lia|done]|].
      specialize (H2 ltac:(lia)). exists k. split; [exact E|]. split; [|done]. split.
      - assert (~ (k <= 6)%nat); [|lia]. intros Hk. assert (10 ^ Z.of_nat k <= 10 ^ 6) by (apply Z.pow_le_mono_r; lia). lia.
      - assert (~ (20 < k)%nat); [|lia]. intros Hk. assert (10 ^ 20 <= 10 ^ (Z.of_nat k - 1)) by (apply Z.pow_le_mono_r; lia). lia. }
    destruct Hd as (k & -> & Hk & Hb). cbv zeta.
    set (exp := Z.of_nat k - 3). assert (Hp : 0 < 10 ^ exp) by (apply Z.pow_pos_nonneg; unfold exp; lia).
    assert (Hpow : pow10_loop (Z.to_nat exp) 1 = 10 ^ exp).
    { rewrite pow10_loop_spec; rewrite ?Z2Nat.id by (unfold exp; lia); try lia.
      assert (10 ^ exp <= 10 ^ 17) by (apply Z.pow_le_mono_r; unfold exp; lia). lia. }
    rewrite Hpow. assert (Hr : 0 <= x / 10 ^ exp < 1000).
    { split; [apply Z.div_pos; lia|]. apply Z.div_lt_upper_bound; [done|].
      replace (10 ^ exp * 1000) with (10 ^ (exp + 3)) by (rewrite Z.pow_add_r by (unfold exp; lia); done).
      replace (exp + 3) with (Z.of_nat k) by (unfold exp; lia). done. }
    rewrite (Z.mod_small (x / 10 ^ exp)) by done.
    do 7 eexists. split; [reflexivity|]. split; [by apply three_digits|]. split; [apply two_digits; unfold exp; lia|].
    pose proof (Z_div_mod_eq_full x (10 ^ exp)). pose proof (Z.mod_pos_bound x (10 ^ exp) Hp). nia.
Qed.
Lemma tsu_value_witness :
  tsu 18446744073709551615 = [49; 56; 52; 101; 49; 55; 0] /\ 184 * 10 ^ 17 <= 18446744073709551615 < 185 * 10 ^ 17.
Proof.
  assert (T : tsu 18446744073709551615 = [49; 56; 52; 101; 49; 55; 0]) by (vm_compute; reflexivity).
  split; [exact T|].
  assert (R : 0 <= 18446744073709551615 < 2 ^ 64) by lia.
  pose proof (tsu_value 18446744073709551615 R) as V.
  replace (18446744073709551615 <? 1000000) with false in V by reflexivity. cbv iota in V.
  destruct V as (a & b & c & e & f & l & x & E & Hl & He & H).
  rewrite T in E. injection E as <- <- <- <- <-. vm_compute in Hl, He. subst l x. exact H.
Defined.

(** Writing a picture copies whole rows: as many as the count holds and the
    buffer has, row by row to the start of the rows of the screen; every other
    byte of memory keeps its value.  The bytes copied are returned. *)
Theorem write_frame_buffer_rows {M : Machine} {hw : Type} (s : gfx hw) (res_id user count fb width height bpp pitch buf : Z) :
  fb_ptr s res_id = fb -> fb <> 0 ->
  ld_le 4 (g_mem s) (fb + fb_width) = width -> ld_le 4 (g_mem s) (fb + fb_height) = height ->
  ld_le 1 (g_mem s) (fb + fb_bpp) = bpp -> ld_le 4 (g_mem s) (fb + fb_pitch) = pitch ->
  ld_le 8 (g_mem s) (fb + fb_buf_addr) = buf ->
  let row := width * (bpp / 8) in
  0 < row <= pitch -> 0 < height -> pitch * height < 2 ^ 32 -> 0 <= buf -> buf + pitch * height < 2 ^ 64 -> 0 <= count ->
  (user + row * height <= buf \/ buf + pitch * height <= user) ->
  let n := Z.min height (Z.min count (pitch * height) / row) in
  exists s',
    write_frame_buffer res_id user count s = Done (n * row, s') /\
    (forall r c, 0 <= r < n -> 0 <= c < row -> ld (g_mem s') (buf + r * pitch + c) = ld (g_mem s) (user + r * row + c)) /\
    (forall x, (forall r c, 0 <= r < n -> 0 <= c < row -> x <> buf + r * pitch + c) -> ld (g_mem s') x = ld (g_mem s) x).
Proof.
  intros Hfb Hnz Hw Hh Hb Hp Hbuf row Hrow Hh0 Hsz Hbuf0 Hbuf1 Hc Hd n.
  assert (Hn : 0 <= n <= height).
  { unfold n. assert (0 <= Z.min count (pitch * height) / row) by (apply Z.div_pos; nia). lia. }
  assert (Hnr : n * row <= pitch * height) by nia.
  set (m' := copy_lines (Z.to_nat n) (g_mem s) buf pitch user row 0).
  exists (set_g_mem m' s).
  assert (E : write_frame_buffer res_id user count s = Done (n * row, set_g_mem m' s)).
  { unfold write_frame_buffer, transfer_frame_buffer. rewrite gets_bind, Hfb, (proj2 (Z.eqb_neq fb 0) Hnz).
    unfold g_ld. rewrite !gets_bind, Hw, Hh, Hb, Hp, Hbuf. cbv zeta. fold row. rewrite (u32_id row) by nia.
    rewrite (u32_id (pitch * height)) by nia. rewrite (proj2 (Z.eqb_neq row 0)) by lia.
    set (cnt := if pitch * height <? count then _ else _). assert (Hcnt : cnt = Z.min count (pitch * height)) by (unfold cnt; ztest; lia).
    rewrite Hcnt. clear cnt Hcnt. assert (Hq : 0 <= Z.min count (pitch * height) / row < 2 ^ 32).
    { split; [apply Z.div_pos; nia|]. apply Z.div_lt_upper_bound; nia. }
    rewrite u32_id by lia. set (q := Z.min count (pitch * height) / row) in *.
    assert (Hqn : (if height <? q then height else q) = n) by (unfold n; destruct (Z.ltb_spec height q); lia). rewrite Hqn.
    rewrite modify_bind, u64_id by nia. reflexivity. }
  split; [exact E|].
  assert (L : forall x, ld m' x = let r := (x - buf) / pitch in let c := (x - buf) mod pitch in
    if (0 <=? r) && (r <? 0 + Z.of_nat (Z.to_nat n)) && (c <? row) then ld (g_mem s) (user + r * row + c) else ld (g_mem s) x).
  { intros x. apply copy_lines_spec; rewrite ?Z2Nat.id by lia; nia. }
  cbv zeta in L. rewrite Z2Nat.id in L by lia. cbn [g_mem set_g_mem]. split.
  - intros r c Hr Hc1. rewrite L. replace (buf + r * pitch + c - buf) with (c + r * pitch) by lia.
    rewrite Z.div_add, Z.mod_add, Z.div_small, Z.mod_small, Z.add_0_l by lia.
    by rewrite (proj2 (Z.leb_le 0 r)), (proj2 (Z.ltb_lt r (0 + n))), (proj2 (Z.ltb_lt c row)) by lia.
  - intros x Hx. rewrite L. destruct (_ && _ && _) eqn:F; [|done]. zbool. exfalso.
    pose proof (Z_div_mod_eq_full (x - buf) pitch). pose proof (Z.mod_pos_bound (x - buf) pitch ltac:(lia)).
    apply (Hx ((x - buf) / pitch) ((x - buf) mod pitch)); lia.
Qed.
Definition demo_fb : mem :=
  st_le 8 (st_le 4 (st_le 1 (st_le 4 (st_le 4 (list_to_map [(900, 1); (901, 2); (902, 3); (903, 4)]) 120 1) 124 2) 128 16) 129 4) 133 500.
Lemma write_frame_buffer_rows_witness :
  exists s', @write_frame_buffer unit 3 900 4 (Gfx boot_state demo_fb {[3 := 100]} tt) = Done (4, s') /\
    ld (g_mem s') 504 = 3 /\ ld (g_mem s') 505 = 4.
Proof.
  destruct (@write_frame_buffer_rows (Build_Machine 0 0 0 0) unit (Gfx boot_state demo_fb {[3 := 100]} tt) 3 900 4 100 1 2 16 4 500)
    as (s' & E & R & _); try (vm_compute; reflexivity); try lia; try done.
  exists s'. split; [exact E|]. split; [exact (R 1 0 ltac:(done) ltac:(done))|].
  exact (R 1 1 ltac:(done) ltac:(done)).
Defined.
