(* ===== verification/Term.v ===== *)
(** * Term: terminals, keyboard and mouse

    src/core/input/: the terminals of tty.h, the keyboard interrupt, line
    editing and line reading of key.h, the packets of mouse.h and the scan code
    table of input.h.

    A terminal is a [struct tty] on a heap of structures, because slot 0 of
    [tty_global] is another pointer to the active one; its two rings of keys are
    bytes of memory behind the structure.  The ring of input events and of mouse
    packets, and the local variables whose neighbours the code reads, are bytes
    at the addresses of [TermEnv].  A read that puts the thread to sleep is
    modelled up to that point, with what the code does when it runs again. *)
From S2P Require Import Prelude Bytes MemLib StrLib Time KState Blocks Threads Screen.
Open Scope Z_scope.

(** ** Keys *)
Definition TTY_INPUT_SIZE : Z := 888.
Definition TTY_OUTPUT_SIZE : Z := 888.
Definition MAX_TTY_COUNT : Z := 512.
Definition MAX_INPUT_BUFFER_LEN : Z := 170.
Definition MOUSE_BUFFER_LEN : Z := 4096 / 3.

Record input_key := InputKey { k_modifier : Z; k_key : Z }.
Definition key_at (m : mem) (buf i : Z) : input_key := InputKey (ld m (buf + 2 * i)) (ld m (buf + 2 * i + 1)).
Inductive input_action := IA_NONE | IA_PRESS | IA_RELEASE | IA_HOLD | IA_MOVE | IA_HOLD_MOVE.
Definition action_code (a : input_action) : Z :=
  match a with IA_NONE => 0 | IA_PRESS => 1 | IA_RELEASE => 2 | IA_HOLD => 3 | IA_MOVE => 4 | IA_HOLD_MOVE => 5 end.

(** What the linker and the stack place: the two rings, the locals [tmp], [ev],
    [data] and [pkt], and what follows the scan code table. *)
Class TermEnv := {
  input_buffer : Z;
  mouse_buffer : Z;
  event_tmp : Z;
  raw_ev : Z;
  key_data : Z;
  mouse_pkt : Z;
  beyond_scancode_map : Z -> Z
}.

Definition scancode_map : list Z :=
  [0; 27; 49; 50; 51; 52; 53; 54; 55; 56; 57; 48; 45; 61; 8; 9;
   113; 119; 101; 114; 116; 121; 117; 105; 111; 112; 91; 93; 10; 0;
   97; 115; 100; 102; 103; 104; 106; 107; 108; 59; 39; 96; 0; 92;
   122; 120; 99; 118; 98; 110; 109; 44; 46; 47; 0; 42; 0; 32; 0] ++ replicate 69 0.
Definition scancode_to_ascii `{TermEnv} (sc : Z) : Z :=
  match scancode_map !! Z.to_nat sc with Some c => c | None => beyond_scancode_map sc end.

Definition LSHIFT_SC : Z := 0x2A.
Definition RSHIFT_SC : Z := 0x36.
Definition LCTRL_SC : Z := 0x1D.
Definition RCTRL_SC : Z := 0xE01D.
Definition LALT_SC : Z := 0x38.
Definition RALT_SC : Z := 0xE038.
Definition LWIN_SC : Z := 0xE05B.
Definition RWIN_SC : Z := 0xE05C.
Definition DEL_SC : Z := 0xE053.
Definition C_SC : Z := 0x2E.
Definition Z_SC : Z := 0x2C.
Definition MOD_LSHIFT : Z := 0x01.
Definition MOD_RSHIFT : Z := 0x02.
Definition MOD_LCTRL : Z := 0x04.
Definition MOD_RCTRL : Z := 0x08.
Definition MOD_LALT : Z := 0x10.
Definition MOD_RALT : Z := 0x20.
Definition MOD_LWIN : Z := 0x40.
Definition MOD_RWIN : Z := 0x80.

(** [F1_SC] .. [F12_SC]: the terminal a function key selects. *)
Definition function_key (full_sc : Z) : option Z :=
  if (0x3B <=? full_sc) && (full_sc <=? 0x44) then Some (full_sc - 0x3A)
  else if full_sc =? 0x57 then Some 11
  else if full_sc =? 0x58 then Some 12
  else None.

Definition is_printable (key : input_key) : bool :=
  if (k_key key <? 0x20) || (0x7E <? k_key key) then false
  else Z.land (k_modifier key) (Z.lnot (Z.lor MOD_LSHIFT MOD_RSHIFT)) =? 0.
Definition is_modifier_key (full_sc : Z) : bool :=
  (full_sc =? LSHIFT_SC) || (full_sc =? RSHIFT_SC) || (full_sc =? LCTRL_SC) || (full_sc =? RCTRL_SC) ||
  (full_sc =? LALT_SC) || (full_sc =? RALT_SC) || (full_sc =? LWIN_SC) || (full_sc =? RWIN_SC).
(** The shifted character. *)
Definition shift_pairs : list (Z * Z) :=
  [(49, 33); (50, 64); (51, 35); (52, 36); (53, 37); (54, 94); (55, 38); (56, 42); (57, 40); (48, 41);
   (45, 95); (61, 43); (91, 123); (93, 125); (92, 124); (59, 58); (39, 34); (44, 60); (46, 62); (47, 63)].
Definition process_shift (c : Z) : Z :=
  if (97 <=? c) && (c <=? 122) then c - 32
  else match list_find (fun p => fst p = c) shift_pairs with Some (_, p) => snd p | None => c end.

(** ** State *)
Inductive tty_mode := TTY_MODE_NONE | TTY_MODE_PTY | TTY_MODE_CLI | TTY_MODE_GUI.
#[export] Instance tty_mode_eq_dec : EqDecision tty_mode.
Proof. solve_decision. Defined.
Record tty := Tty {
  tty_id : Z; foreground_pgid : Z; tty_sid : Z;
  in_head : Z; in_tail : Z; out_head : Z; out_tail : Z;
  is_active : Z; tty_echo : Z; tty_locked : Z; tty_md : tty_mode
}.
Definition set_in (h t : Z) (y : tty) : tty :=
  Tty (tty_id y) (foreground_pgid y) (tty_sid y) h t (out_head y) (out_tail y) (is_active y) (tty_echo y) (tty_locked y) (tty_md y).
Definition set_out (h t : Z) (y : tty) : tty :=
  Tty (tty_id y) (foreground_pgid y) (tty_sid y) (in_head y) (in_tail y) h t (is_active y) (tty_echo y) (tty_locked y) (tty_md y).
Definition set_is_active (v : Z) (y : tty) : tty :=
  Tty (tty_id y) (foreground_pgid y) (tty_sid y) (in_head y) (in_tail y) (out_head y) (out_tail y) v (tty_echo y) (tty_locked y) (tty_md y).
Definition set_foreground_pgid (v : Z) (y : tty) : tty :=
  Tty (tty_id y) v (tty_sid y) (in_head y) (in_tail y) (out_head y) (out_tail y) (is_active y) (tty_echo y) (tty_locked y) (tty_md y).
(** Offsets in [struct tty]. *)
Definition tty_foreground_pgid_at : Z := 8.
Definition tty_locked_at : Z := 58.
Definition tty_input_buf : Z := 72.
Definition tty_output_buf : Z := 1848.

Record mouse_state := Mouse {
  mouse_int_global : Z; mouse_x_sign : bool; mouse_y_sign : bool;
  mouse_left : bool; mouse_right : bool; mouse_middle : bool;
  mouse_x_delta : Z; mouse_y_delta : Z; mouse_head : Z; mouse_tail : Z
}.
Record term := Term {
  tm_k : kstate;
  tm_mem : mem;
  tty_global : gmap Z Z;
  tty_heap : gmap Z tty;
  tm_screen : screen;
  kb_modifiers_byte : Z;
  kb_e0_prefix : bool;
  input_buffer_w_index : Z;
  input_buffer_r_index : Z;
  tm_mouse : mouse_state
}.
Definition set_tm_k v (s : term) := Term v (tm_mem s) (tty_global s) (tty_heap s) (tm_screen s) (kb_modifiers_byte s) (kb_e0_prefix s) (input_buffer_w_index s) (input_buffer_r_index s) (tm_mouse s).
Definition set_tm_mem v (s : term) := Term (tm_k s) v (tty_global s) (tty_heap s) (tm_screen s) (kb_modifiers_byte s) (kb_e0_prefix s) (input_buffer_w_index s) (input_buffer_r_index s) (tm_mouse s).
Definition set_tty_global v (s : term) := Term (tm_k s) (tm_mem s) v (tty_heap s) (tm_screen s) (kb_modifiers_byte s) (kb_e0_prefix s) (input_buffer_w_index s) (input_buffer_r_index s) (tm_mouse s).
Definition set_tty_heap v (s : term) := Term (tm_k s) (tm_mem s) (tty_global s) v (tm_screen s) (kb_modifiers_byte s) (kb_e0_prefix s) (input_buffer_w_index s) (input_buffer_r_index s) (tm_mouse s).
Definition set_tm_screen v (s : term) := Term (tm_k s) (tm_mem s) (tty_global s) (tty_heap s) v (kb_modifiers_byte s) (kb_e0_prefix s) (input_buffer_w_index s) (input_buffer_r_index s) (tm_mouse s).
Definition set_kb (mods : Z) (e0 : bool) (s : term) := Term (tm_k s) (tm_mem s) (tty_global s) (tty_heap s) (tm_screen s) mods e0 (input_buffer_w_index s) (input_buffer_r_index s) (tm_mouse s).
Definition set_input_index (w r : Z) (s : term) := Term (tm_k s) (tm_mem s) (tty_global s) (tty_heap s) (tm_screen s) (kb_modifiers_byte s) (kb_e0_prefix s) w r (tm_mouse s).
Definition set_tm_mouse v (s : term) := Term (tm_k s) (tm_mem s) (tty_global s) (tty_heap s) (tm_screen s) (kb_modifiers_byte s) (kb_e0_prefix s) (input_buffer_w_index s) (input_buffer_r_index s) v.

Definition tty_ptr (s : term) (id : Z) : Z := default 0 (tty_global s !! id).
Definition tm_kern {A} (c : ST kstate A) : ST term A := fun s =>
  match c (tm_k s) with
  | Done (a, k) => Done (a, set_tm_k k s)
  | Panicked => Panicked | Faulted => Faulted | Stuck => Stuck
  end.
Definition on_screen (f : screen -> screen) : ST term unit := modify (fun s => set_tm_screen (f (tm_screen s)) s).
Definition on_mem (f : mem -> mem) : ST term unit := modify (fun s => set_tm_mem (f (tm_mem s)) s).
(** [tty->...] through a pointer. *)
Definition the_tty (p : Z) : ST term tty := gets (fun s => tty_heap s !! p) ≫= deref.
Definition upd_tty (p : Z) (f : tty -> tty) : ST term unit := modify (fun s => set_tty_heap (alter f p (tty_heap s)) s).

(** What a read does: it returns, or the thread sleeps and, run again, returns
    a value or starts the read over. *)
Inductive read_result := Returns (n : Z) | Sleeps_then (n : Z) | Sleeps_again.

(** ** Terminals *)
Section Ttys.
Context {M : Machine}.

(** [foreground_pgid] is not set: it is what the block held. *)
Definition init_tty_with_id (id : Z) : ST term unit :=
  a ← tm_kern get_a_free_block_addr;
  fg ← gets (fun s => ld_le 8 (tm_mem s) (a + tty_foreground_pgid_at));
  let y := Tty id fg 2 0 0 0 0 0 1 0 (if id <? 13 then TTY_MODE_CLI else TTY_MODE_PTY) in
  _ ← modify (fun s => set_tty_heap (<[a := y]> (tty_heap s)) s);
  _ ← on_mem (fun m => erase_mem8 m (a + tty_input_buf) TTY_INPUT_SIZE);
  _ ← on_mem (fun m => erase_mem8 m (a + tty_output_buf) TTY_OUTPUT_SIZE);
  modify (fun s => set_tty_global (<[id := a]> (tty_global s)) s).
Definition init_tty : ST term Z :=
  id ← (fun s => match get_a_free_slot (tty_ptr s) 0 MAX_TTY_COUNT with Some i => Done (i, s) | None => Panicked end);
  _ ← init_tty_with_id id; mret id.
Definition assign_tty (pid id : Z) : ST term Z :=
  cur ← tm_kern get_current_pid;
  current_proc ← gets (fun s => proc (tm_k s) cur);
  p ← gets (fun s => proc (tm_k s) pid);
  a ← gets (fun s => tty_ptr s id);
  if a =? 0 then mret (neg64 ENODEV)
  else match p : option process_info with
       | None => mret (neg64 ESRCH)
       | Some p =>
           c ← deref current_proc;
           y ← the_tty a;
           if negb (p_pgid c =? foreground_pgid y) || negb (p_sid p =? tty_sid y) then mret (neg64 EPERM)
           else _ ← upd_tty a (set_foreground_pgid (p_pgid p)); mret 0
       end.
Definition echo_ascii (n : Z) : ST term unit := on_screen (echo [ascii_to_char n]).
(** The keys from [i] to [head], lower case printed as upper case; the loop
    runs over the ring at most once. *)
Fixpoint echo_tty_loop (fuel : nat) (buf i head count : Z) : ST term Z :=
  match fuel with
  | O => fun _ => Stuck
  | S f =>
      if i =? head then mret count
      else
        k ← gets (fun s => key_at (tm_mem s) buf i);
        _ ← echo_ascii (if is_printable k && (97 <=? k_key k) && (k_key k <=? 122) then k_key k - 32 else k_key k);
        echo_tty_loop f buf (if TTY_OUTPUT_SIZE <=? i + 1 then 0 else i + 1) head (count + 1)
  end.
Definition echo_tty (buf tail head : Z) : ST term Z :=
  if buf =? 0 then mret 0 else echo_tty_loop (Z.to_nat (TTY_OUTPUT_SIZE + 1)) buf tail head 0.
Definition redraw_tty : ST term bool :=
  a ← gets (fun s => tty_ptr s 0);
  if a =? 0 then mret false
  else
    _ ← on_screen clear_screen;
    y ← the_tty a;
    _ ← echo_tty (a + tty_output_buf) (out_tail y) (out_head y);
    mret true.
(** The first loop follows all twelve pointers. *)
Definition switch_to_tty (id : Z) : ST term bool :=
  if (id <? 1) || (12 <? id) then mret false
  else
    _ ← for_m 12 1 (fun i =>
          a ← gets (fun s => tty_ptr s i);
          _ ← the_tty a;
          upd_tty a (set_is_active 0));
    a ← gets (fun s => tty_ptr s id);
    if a =? 0 then mret false
    else
      _ ← upd_tty a (set_is_active 1);
      _ ← modify (fun s => set_tty_global (<[0 := a]> (tty_global s)) s);
      _ ← redraw_tty;
      mret true.
Definition prepare_tty_when_boot : ST term unit :=
  _ ← modify (set_tty_global ∅);
  _ ← for_m 12 1 init_tty_with_id;
  _ ← switch_to_tty 1;
  on_screen enable_cursor.
(** The address is taken for a block number. *)
Definition delete_tty (id : Z) : ST term unit :=
  if (MAX_TTY_COUNT <=? id) || (id <? 13) then mret tt
  else
    a ← gets (fun s => tty_ptr s id);
    if a =? 0 then mret tt
    else
      _ ← tm_kern (modify (set_memory_block_used_when_boot a false));
      modify (fun s => set_tty_global (<[id := 0]> (tty_global s)) s).

(** ** Waiting and waking *)
Definition wait_key_current_thread (a : Z) : ST term unit :=
  tm_kern (tid ← gets get_current_thread_id;
           _ ← (gets (fun k => thread k tid) ≫= deref);
           modify (upd_thread tid (fun t => set_t_state THREAD_BLOCKED_KEY (set_t_sleep_flag_addr (a + tty_locked_at) t)))).
Definition wake_key (flag : Z) (t : thread_info) : thread_info :=
  if bool_decide (t_state t = THREAD_BLOCKED_KEY /\ t_sleep_flag_addr t = flag) then set_t_state THREAD_READY t else t.
Definition wake_thread_by_input_event (lock_addr : Z) : ST term unit :=
  tm_kern (modify (map_threads (fun _ => wake_key lock_addr))).
Definition wake_thread_by_input_event_tty0 : ST term unit :=
  a ← gets (fun s => tty_ptr s 0); wake_thread_by_input_event (a + tty_locked_at).

Definition access_tty_allowed (id pid : Z) : ST term bool :=
  a ← gets (fun s => tty_ptr s id);
  p ← gets (fun s => proc (tm_k s) pid);
  match p : option process_info with
  | None => mret false
  | Some p =>
      if a =? 0 then mret false
      else
        y ← the_tty a;
        mret (if negb (p_sid p =? tty_sid y) then false
              else if negb (foreground_pgid y =? 0) && negb (p_pgid p =? foreground_pgid y) then false
              else true)
  end.

(** ** Output *)
Fixpoint echo_keys (n : nat) (data i : Z) : ST term Z :=
  match n with
  | O => mret i
  | S n' =>
      k ← gets (fun s => k_key (key_at (tm_mem s) data i));
      if k =? 0 then mret i
      else _ ← on_screen (echo [k]); echo_keys n' data (i + 1)
  end.
(** A terminal without mode ends the function without a value: [junk]. *)
Definition tty_write_output (junk a data len : Z) : ST term Z :=
  pid ← tm_kern get_current_pid;
  y ← the_tty a;
  ok ← access_tty_allowed (tty_id y) pid;
  if negb ok then mret (neg64 EIO)
  else
    m ← gets tm_mem;
    let '(m', h, _) := fifo_write16 m (a + tty_output_buf) (out_tail y) (out_head y) TTY_OUTPUT_SIZE len data in
    _ ← on_mem (fun _ => m');
    _ ← upd_tty a (set_out h (out_tail y));
    match tty_md y with
    | TTY_MODE_PTY => _ ← wake_thread_by_input_event (a + tty_locked_at); mret 0
    | TTY_MODE_CLI => i ← echo_keys (Z.to_nat len) data 0; mret (i + 1)
    | TTY_MODE_GUI => mret 0
    | TTY_MODE_NONE => mret junk
    end.

(** ** Reading *)
Definition read_input_to_thread_buffer (a buffer : Z) : ST term Z :=
  y ← the_tty a;
  m ← gets tm_mem;
  let '(m', t, count) := fifo_read16 m (a + tty_input_buf) (in_tail y) (in_head y) TTY_INPUT_SIZE 1 buffer in
  _ ← on_mem (fun _ => m');
  _ ← upd_tty a (set_in (in_head y) t);
  _ ← when (count =? 0) (wait_key_current_thread a);
  mret count.
(** The offset of the first line feed from the tail on. *)
Fixpoint find_enter (n : nat) (m : mem) (buf tail head i : Z) : option Z :=
  match n with
  | O => None
  | S n' =>
      let j := (i + tail) mod TTY_INPUT_SIZE in
      if j =? head then None
      else if k_key (key_at m buf j) =? 0x0A then Some i
      else find_enter n' m buf tail head (i + 1)
  end.
Definition read_input_line_to_thread_buffer (a buffer len : Z) : ST term Z :=
  y ← the_tty a;
  m ← gets tm_mem;
  match find_enter (Z.to_nat TTY_INPUT_SIZE) m (a + tty_input_buf) (in_tail y) (in_head y) 0 with
  | None => mret 0
  | Some i =>
      let count := if i <? len then i else len in
      let '(m', t, _) := fifo_read16 m (a + tty_input_buf) (in_tail y) (in_head y) TTY_INPUT_SIZE count buffer in
      _ ← on_mem (fun _ => m');
      _ ← upd_tty a (set_in (in_head y) t);
      mret count
  end.
(** Outside the line mode the count read before the sleep, 0, is returned
    after it. *)
Definition tty_read_key_halt (a buffer buffer_size : Z) : ST term read_result :=
  y ← the_tty a;
  pid ← tm_kern get_current_pid;
  ok ← access_tty_allowed (tty_id y) pid;
  if negb ok then mret (Returns (neg64 EPERM))
  else if decide (tty_md y = TTY_MODE_CLI) then
    count ← read_input_line_to_thread_buffer a buffer buffer_size;
    if count =? 0 then _ ← wait_key_current_thread a; mret Sleeps_again
    else mret (Returns count)
  else
    count ← read_input_to_thread_buffer a buffer;
    mret (if count =? 0 then Sleeps_then 0 else Returns count).
Definition tty_read_key_no_halt (a buffer buffer_size : Z) : ST term read_result :=
  y ← the_tty a;
  pid ← tm_kern get_current_pid;
  ok ← access_tty_allowed (tty_id y) pid;
  if negb ok then mret (Returns (- EPERM))
  else if decide (tty_md y = TTY_MODE_CLI) then
    count ← read_input_line_to_thread_buffer a buffer buffer_size; mret (Returns count)
  else
    count ← read_input_to_thread_buffer a buffer;
    mret (if count =? 0 then Sleeps_then 0 else Returns count).

(** ** Editing *)
Definition ring_prev (i : Z) : Z := if i =? 0 then TTY_INPUT_SIZE - 1 else i - 1.
(** The newest printable key behind the oldest key; [None]: there is none. *)
Fixpoint back_scan (fuel : nat) (m : mem) (buf tail i : Z) : option Z :=
  match fuel with
  | O => None
  | S f =>
      if i =? tail then None
      else if is_printable (key_at m buf i) then Some i
      else back_scan f m buf tail (ring_prev i)
  end.
Definition handle_backspace_input (a : Z) : ST term unit :=
  y ← the_tty a;
  m ← gets tm_mem;
  _ ← (match back_scan (Z.to_nat TTY_INPUT_SIZE) m (a + tty_input_buf) (in_tail y) (ring_prev (in_head y)) with
       | Some h => upd_tty a (set_in h (in_tail y))
       | None => mret tt
       end);
  if tty_echo y =? 0 then mret tt
  else
    _ ← (match back_scan (Z.to_nat TTY_INPUT_SIZE) m (a + tty_output_buf) (out_tail y) (ring_prev (out_head y)) with
         | Some h => upd_tty a (fun y => set_out h (out_tail y) y)
         | None => mret tt
         end);
    on_screen delete_last_char_on_screen.
(** [data] is an address: the last test reads the key after it. *)
Definition write_1_event_input_to_tty (a data : Z) : ST term Z :=
  k ← gets (fun s => k_key (key_at (tm_mem s) data 0));
  if k =? 0x08 then _ ← handle_backspace_input a; mret 0
  else
    y ← the_tty a;
    m ← gets tm_mem;
    let '(m1, h, _) := fifo_write16 m (a + tty_input_buf) (in_tail y) (in_head y) TTY_INPUT_SIZE 1 data in
    _ ← on_mem (fun _ => m1);
    _ ← upd_tty a (set_in h (in_tail y));
    _ ← (if tty_echo y =? 0 then mret tt
         else
           let '(m2, h2, _) := fifo_write16 m1 (a + tty_output_buf) (out_tail y) (out_head y) TTY_INPUT_SIZE 1 data in
           _ ← on_mem (fun _ => m2);
           _ ← upd_tty a (fun y => set_out h2 (out_tail y) y);
           echo_ascii k);
    next ← gets (fun s => k_key (key_at (tm_mem s) data 1));
    _ ← when (bool_decide (tty_md y = TTY_MODE_CLI) && (next =? 10)) (wake_thread_by_input_event (a + tty_locked_at));
    mret 0.
(** The terminal calls of syscall1.h.  The flag of [sys_read_tty] is set when the
    read may sleep. *)
Definition sys_read_tty (id buf count : Z) (non_blocking : bool) : ST term read_result :=
  a ← gets (fun s => tty_ptr s id);
  if a =? 0 then mret (Returns (neg64 EBADF))
  else if negb non_blocking then tty_read_key_no_halt a buf count else tty_read_key_halt a buf count.
Definition sys_write_tty (junk id buf count : Z) : ST term Z :=
  a ← gets (fun s => tty_ptr s id); tty_write_output junk a buf count.
Definition TTY_IOCTL_ASSIGN_FOREGROUND : Z := 0x2001.
Definition sys_ioctl_tty (id request arg : Z) : ST term Z :=
  a ← gets (fun s => tty_ptr s id);
  if a =? 0 then mret (neg64 ENODEV)
  else if request =? TTY_IOCTL_ASSIGN_FOREGROUND then
    if arg =? 0 then mret (neg64 EINVAL)
    else pid ← gets (fun s => ld_le 8 (tm_mem s) arg); assign_tty pid id
  else mret 0.
End Ttys.

(** ** Keyboard *)
Section Keyboard.
Context {E : TermEnv}.

(** Offsets in [struct input_event]. *)
Definition sizeof_input_event : Z := 24.
Definition ie_microsec : Z := 8.
Definition ie_type : Z := 16.
Definition ie_code : Z := 18.
Definition ie_action : Z := 20.

(** One event after the other, modifier keys skipped; 0 when the ring is
    empty, the action and the key otherwise. *)
Fixpoint tty_read_first_non_modifier_key_from_input_buffer (fuel : nat) : ST term (Z * input_key) :=
  match fuel with
  | O => fun _ => Stuck
  | S f =>
      s ← gets id;
      let '(m', r, n) := fifo_read_with_size (tm_mem s) input_buffer (input_buffer_r_index s) (input_buffer_w_index s)
                           MAX_INPUT_BUFFER_LEN 1 event_tmp sizeof_input_event in
      _ ← modify (fun s => set_input_index (input_buffer_w_index s) r (set_tm_mem m' s));
      if n =? 0 then mret (0, InputKey 0 0)
      else
        let code := ld_le 2 m' (event_tmp + ie_code) in
        if is_modifier_key (u8 code) then tty_read_first_non_modifier_key_from_input_buffer f
        else mret (ld_le 4 m' (event_tmp + ie_action), InputKey (kb_modifiers_byte s) (scancode_to_ascii (u8 code)))
  end.
Definition event_fuel : nat := Z.to_nat (MAX_INPUT_BUFFER_LEN + 1).

Definition pour_keys_and_resume_cli : ST term unit :=
  r ← tty_read_first_non_modifier_key_from_input_buffer event_fuel;
  let action := fst r in
  if action =? 0 then mret tt
  else
    mods ← gets kb_modifiers_byte;
    let key := if (mods =? MOD_RSHIFT) || (mods =? MOD_LSHIFT) then process_shift (k_key (snd r)) else k_key (snd r) in
    if negb (action =? action_code IA_RELEASE) then mret tt
    else if key =? 0 then mret tt
    else
      a ← gets (fun s => tty_ptr s 0);
      y ← the_tty a;
      if decide (tty_md y = TTY_MODE_NONE) then mret tt
      else
        _ ← on_mem (fun m => st (st m key_data (k_modifier (snd r))) (key_data + 1) key);
        _ ← write_1_event_input_to_tty a key_data;
        mret tt.
(** The key of the loop is 0, the scan code of no character. *)
Fixpoint pour_raw_loop (fuel : nat) : ST term unit :=
  match fuel with
  | O => fun _ => Stuck
  | S f =>
      a ← gets (fun s => tty_ptr s 0);
      r ← tty_read_key_no_halt a raw_ev 1;
      match r with
      | Returns n =>
          if n <=? 0 then wake_thread_by_input_event_tty0
          else
            k ← gets (fun s => key_at (tm_mem s) raw_ev 0);
            if (k_key k =? 0) && negb (is_modifier_key (k_modifier k)) then
              let c := scancode_to_ascii (k_key k) in
              if c =? 0 then pour_raw_loop f
              else
                a ← gets (fun s => tty_ptr s 0);
                _ ← (if a =? 0 then mret tt
                     else
                       _ ← on_mem (fun m => st (st m key_data (k_modifier k)) (key_data + 1) (u8 c));
                       _ ← write_1_event_input_to_tty a key_data; mret tt);
                pour_raw_loop f
            else pour_raw_loop f
      | _ => mret tt
      end
  end.
Definition pour_keys_and_resume_raw : ST term unit := pour_raw_loop (Z.to_nat (TTY_INPUT_SIZE + 1)).
Definition pour_keys_and_resume_thread (code : Z) : ST term unit :=
  if is_modifier_key (u8 code) then mret tt
  else if code =? 0 then mret tt
  else
    a ← gets (fun s => tty_ptr s 0);
    y ← the_tty a;
    match tty_md y with
    | TTY_MODE_GUI => pour_keys_and_resume_raw
    | TTY_MODE_CLI | TTY_MODE_PTY => pour_keys_and_resume_cli
    | TTY_MODE_NONE => mret tt
    end.

(** The signal of the running process, 2 or 20. *)
Definition signal_current (sig : Z) : ST term unit :=
  tm_kern (pid ← get_current_pid;
           _ ← (gets (fun k => proc k pid) ≫= deref);
           modify (upd_proc pid (set_p_signal sig))).
(** A restart halts the core. *)
Definition handle_special_keys_combinations (full_sc : Z) : ST term bool :=
  mods ← gets kb_modifiers_byte;
  let ctrl := Z.land mods (Z.lor MOD_LCTRL MOD_RCTRL) in
  let alt := Z.land mods (Z.lor MOD_LALT MOD_RALT) in
  if ctrl =? 0 then mret false
  else if alt =? 0 then
    if full_sc =? C_SC then _ ← signal_current 2; mret true
    else if full_sc =? Z_SC then _ ← signal_current 20; mret true
    else mret false
  else if full_sc =? DEL_SC then panic
  else match function_key full_sc with
       | Some id => _ ← switch_to_tty id; mret true
       | None => mret false
       end.

Definition modifier_bit (full_sc : Z) : option Z :=
  if full_sc =? LSHIFT_SC then Some MOD_LSHIFT
  else if full_sc =? RSHIFT_SC then Some MOD_RSHIFT
  else if full_sc =? LCTRL_SC then Some MOD_LCTRL
  else if full_sc =? RCTRL_SC then Some MOD_RCTRL
  else if full_sc =? LALT_SC then Some MOD_LALT
  else if full_sc =? RALT_SC then Some MOD_RALT
  else if full_sc =? LWIN_SC then Some MOD_LWIN
  else if full_sc =? RWIN_SC then Some MOD_RWIN
  else None.
Definition new_modifiers (mods full_sc : Z) (pressed : bool) : Z :=
  match modifier_bit full_sc with
  | Some b => if pressed then Z.lor mods b else Z.land mods (Z.lnot b)
  | None => mods
  end.
(** The event stored in the slot [w], with the two clock readings. *)
Definition store_event (m : mem) (w code sec ns : Z) (pressed : bool) : mem :=
  let a := input_buffer + sizeof_input_event * w in
  let m := st_le 2 m (a + ie_code) (u16 code) in
  let m := st_le 8 m a sec in
  let m := st_le 4 m (a + ie_microsec) (u32 ns) in
  let m := st_le 2 m (a + ie_type) 1 in
  st_le 4 m (a + ie_action) (action_code (if pressed then IA_PRESS else IA_RELEASE)).
(** [sc] is the byte of port 0x60. *)
Definition isr_keyboard_handler (sc sec ns : Z) : ST term unit :=
  if sc =? 0xE0 then modify (fun s => set_kb (kb_modifiers_byte s) true s)
  else
    e0 ← gets kb_e0_prefix;
    let full_sc := if e0 : bool then Z.lor 0xE000 sc else sc in
    _ ← modify (fun s => set_kb (kb_modifiers_byte s) false s);
    let pressed := Z.land sc 0x80 =? 0 in
    let full_sc := if pressed then full_sc else full_sc - 0x80 in
    let c := if pressed then sc else sc - 0x80 in
    _ ← modify (fun s => set_kb (new_modifiers (kb_modifiers_byte s) full_sc pressed) (kb_e0_prefix s) s);
    special ← handle_special_keys_combinations full_sc;
    if special : bool then mret tt
    else
      let code := if c =? 0 then full_sc else c in
      w ← gets input_buffer_w_index;
      _ ← on_mem (fun m => store_event m w code sec ns pressed);
      _ ← modify (fun s => set_input_index (u64 (w + 1) mod MAX_INPUT_BUFFER_LEN) (input_buffer_r_index s) s);
      pour_keys_and_resume_thread (u16 code).

(** ** Mouse *)
Definition create_buttons_byte (left middle right x_sign y_sign : bool) : Z :=
  let b := if left then 0x1 else 0 in
  let b := if right then Z.lor b 0x2 else b in
  let b := if middle then Z.lor b 0x4 else b in
  let b := if x_sign then Z.lor b 0x10 else b in
  let b := if y_sign then Z.lor b 0x20 else b in
  Z.lor b 0x8.
Definition set_mouse_ring (h t : Z) (u : mouse_state) : mouse_state :=
  Mouse (mouse_int_global u) (mouse_x_sign u) (mouse_y_sign u) (mouse_left u) (mouse_right u) (mouse_middle u)
    (mouse_x_delta u) (mouse_y_delta u) h t.
Definition read_mouse_buffer (out len : Z) : ST term Z :=
  s ← gets id;
  let u := tm_mouse s in
  let '(m', t, n) := fifo_read24 (tm_mem s) mouse_buffer (mouse_tail u) (mouse_head u) MOUSE_BUFFER_LEN len out in
  _ ← modify (fun s => set_tm_mouse (set_mouse_ring (mouse_head u) t u) (set_tm_mem m' s));
  mret n.
(** The length passed counts bytes where the ring counts packets. *)
Definition write_mouse_buffer (left middle right x_sign y_sign : bool) (x_delta y_delta : Z) : ST term Z :=
  _ ← on_mem (fun m => store_bytes m mouse_pkt [create_buttons_byte left middle right x_sign y_sign; x_delta; y_delta]);
  s ← gets id;
  let u := tm_mouse s in
  let '(m', h, n) := fifo_write24 (tm_mem s) mouse_buffer (mouse_tail u) (mouse_head u) MOUSE_BUFFER_LEN 3 mouse_pkt in
  _ ← modify (fun s => set_tm_mouse (set_mouse_ring h (mouse_tail u) u) (set_tm_mem m' s));
  mret n.
(** A blocking read gives the processor up without changing the state of its
    thread and reads again: [again] is what the ring holds then. *)
Definition syscall_read_mouse (buf len : Z) (non_blocking_flags : bool) : ST term (option Z) :=
  if len <? 3 then mret (Some (- EINVAL))
  else
    n ← read_mouse_buffer buf (len / 3);
    mret (if negb (n =? 0) then Some (n * 3) else if non_blocking_flags then Some (- EAGAIN) else None).
Definition syscall_read_mouse_again (buf len : Z) : ST term Z :=
  n ← read_mouse_buffer buf (len / 3); mret (n * 3).
Definition set_mouse_int (i : Z) (u : mouse_state) : mouse_state :=
  Mouse i (mouse_x_sign u) (mouse_y_sign u) (mouse_left u) (mouse_right u) (mouse_middle u)
    (mouse_x_delta u) (mouse_y_delta u) (mouse_head u) (mouse_tail u).
Definition set_mouse_buttons (b : Z) (u : mouse_state) : mouse_state :=
  let bit x := negb (Z.land b x =? 0) in
  Mouse (mouse_int_global u) (bit 0x10) (bit 0x20) (bit 0x1) (bit 0x2) (bit 0x4)
    (mouse_x_delta u) (mouse_y_delta u) (mouse_head u) (mouse_tail u).
Definition set_mouse_deltas (x y : Z) (u : mouse_state) : mouse_state :=
  Mouse (mouse_int_global u) (mouse_x_sign u) (mouse_y_sign u) (mouse_left u) (mouse_right u) (mouse_middle u)
    x y (mouse_head u) (mouse_tail u).
Definition upd_mouse (f : mouse_state -> mouse_state) : ST term unit := modify (fun s => set_tm_mouse (f (tm_mouse s)) s).
(** The first byte is tested through the counter, which is 0 here. *)
Definition isr_mouse_handler (mouse_byte : Z) : ST term unit :=
  mouse_int ← gets (fun s => mouse_int_global (tm_mouse s));
  _ ← upd_mouse (set_mouse_int ((mouse_int + 1) mod 3));
  if mouse_int =? 0 then
    if Z.land mouse_int (Z.shiftl 1 3) =? 0 then mret tt
    else upd_mouse (set_mouse_buttons mouse_byte)
  else if mouse_int =? 1 then upd_mouse (fun u => set_mouse_deltas mouse_byte (mouse_y_delta u) u)
  else if mouse_int =? 2 then
    _ ← upd_mouse (fun u => set_mouse_deltas (mouse_x_delta u) mouse_byte u);
    u ← gets tm_mouse;
    _ ← write_mouse_buffer (mouse_left u) (mouse_middle u) (mouse_right u) (mouse_x_sign u) (mouse_y_sign u)
          (mouse_x_delta u) (mouse_y_delta u);
    mret tt
  else mret tt.
End Keyboard.

(** ** The rings of keys *)
(** The keys waiting in a terminal, each as its two bytes. *)
Definition key_queue (m : mem) (a : Z) (y : tty) : list (list Z) :=
  ring m (a + tty_input_buf) 2 TTY_INPUT_SIZE (in_tail y) (in_head y).
Definition unit_key (u : list Z) : Z := nth 1 u 0.
Definition enter : Z := 0x0A.
Section KeyRings.
Lemma ring_from_lookup k m buf usz cnt pos j :
  0 < cnt -> 0 <= pos < cnt -> (j < k)%nat ->
  ring_from k m buf usz cnt pos !! j = Some (cells m (buf + ((pos + Z.of_nat j) mod cnt) * usz) (Z.to_nat usz)).
Proof.
  intros Hc. revert pos j. induction k as [|k IH]; intros pos j Hp Hj; [lia|]. cbn [ring_from].
  destruct j as [|j]; cbn [lookup list_lookup].
  - by rewrite Z.add_0_r, Z.mod_small by lia.
  - rewrite IH by (try lia; apply Z.mod_pos_bound; lia). rewrite Z.add_mod_idemp_l by lia.
    replace (pos + 1 + Z.of_nat j) with (pos + Z.of_nat (S j)) by lia. done.
Qed.
Lemma key_unit m buf j : k_key (key_at m buf j) = unit_key (cells m (buf + j * 2) 2).
Proof. cbn. f_equal. lia. Qed.
Lemma find_enter_at n m buf tail head i d :
  (d < n)%nat ->
  (forall e, (e < d)%nat -> (i + Z.of_nat e + tail) mod TTY_INPUT_SIZE <> head /\
     k_key (key_at m buf ((i + Z.of_nat e + tail) mod TTY_INPUT_SIZE)) <> enter) ->
  (i + Z.of_nat d + tail) mod TTY_INPUT_SIZE <> head ->
  k_key (key_at m buf ((i + Z.of_nat d + tail) mod TTY_INPUT_SIZE)) = enter ->
  find_enter n m buf tail head i = Some (i + Z.of_nat d).
Proof.
  revert n i. induction d as [|d IH]; intros n i Hn Hskip Hh Hk; (destruct n as [|n]; [lia|]); cbn [find_enter].
  - rewrite Z.add_0_r in *. rewrite (proj2 (Z.eqb_neq _ _) Hh), Hk. done.
  - destruct (Hskip 0%nat ltac:(lia)) as [H1 H2]. rewrite Z.add_0_r in *.
    rewrite (proj2 (Z.eqb_neq _ _) H1), (proj2 (Z.eqb_neq _ 0x0A) H2).
    rewrite (IH n (i + 1)); [f_equal; lia|lia| | |].
    + intros e He. specialize (Hskip (S e) ltac:(lia)). by replace (i + 1 + Z.of_nat e) with (i + Z.of_nat (S e)) by lia.
    + by replace (i + 1 + Z.of_nat d) with (i + Z.of_nat (S d)) by lia.
    + by replace (i + 1 + Z.of_nat d) with (i + Z.of_nat (S d)) by lia.
Qed.
(** The search over a queue with a line feed behind [line]. *)
Lemma find_enter_queue m buf tail head line u rest :
  0 <= tail < TTY_INPUT_SIZE -> 0 <= head < TTY_INPUT_SIZE ->
  ring m buf 2 TTY_INPUT_SIZE tail head = line ++ u :: rest ->
  Forall (fun v => unit_key v <> enter) line -> unit_key u = enter ->
  find_enter (Z.to_nat TTY_INPUT_SIZE) m buf tail head 0 = Some (Z.of_nat (length line)).
Proof.
  intros Ht Hh HQ HL HU. pose proof (f_equal length HQ) as Hlen. unfold ring in HQ, Hlen.
  rewrite length_ring_from, length_app in Hlen. cbn in Hlen.
  pose proof (ring_len_range tail head TTY_INPUT_SIZE ltac:(done)) as HR. unfold TTY_INPUT_SIZE in *.
  assert (HX : forall e, (e <= length line)%nat -> (0 + Z.of_nat e + tail) mod 888 <> head).
  { intros e He E. replace (0 + Z.of_nat e + tail) with (tail + Z.of_nat e) in E by lia.
    rewrite <- (ring_len_head tail head 888 ltac:(lia) Hh) in E. apply mod_add_inj in E; lia. }
  assert (HV : forall e v, (e <= length line)%nat -> (line ++ u :: rest) !! e = Some v ->
    k_key (key_at m buf ((0 + Z.of_nat e + tail) mod 888)) = unit_key v).
  { intros e v He Hv. replace (0 + Z.of_nat e + tail) with (tail + Z.of_nat e) by lia.
    rewrite <- HQ, ring_from_lookup in Hv by lia. change (Z.to_nat 2) with 2%nat in Hv. rewrite key_unit. congruence. }
  change (Some (Z.of_nat (length line))) with (Some (0 + Z.of_nat (length line))). apply find_enter_at; [lia| | |].
  - intros e He. split; [apply HX; lia|]. destruct (lookup_lt_is_Some_2 line e He) as [v Ev].
    unfold TTY_INPUT_SIZE. rewrite (HV e v); [|lia|by rewrite lookup_app_l]. rewrite Forall_lookup in HL. by apply (HL e).
  - by apply HX.
  - unfold TTY_INPUT_SIZE. rewrite (HV _ u); [done|lia|by apply list_lookup_middle].
Qed.
(** One key written: nothing when the ring is full. *)
Lemma fifo_write16_one m buf tail head cnt data :
  bytes_ok m -> 0 < cnt < 2 ^ 63 -> 0 <= head < cnt -> (buf + cnt * 2 <= data \/ data + 2 <= buf) ->
  fifo_write16 m buf tail head cnt 1 data =
    if tail =? (head + 1) mod cnt then (m, head, 0) else (memcpy m (buf + head * 2) data 2, (head + 1) mod cnt, 1).
Proof.
  intros Hb Hc Hh Hd. unfold fifo_write16. change (Z.to_nat 1) with 1%nat. cbn [fifo_write16_loop].
  rewrite u64_id by lia. destruct (_ =? _); [done|]. unfold st16, ld16. rewrite copy16 by (try done; nia).
  by rewrite Z.mul_0_r, Z.add_0_r, (Z.mul_comm 2 head).
Qed.
Lemma bytes_ok_read n m buf tail head cnt out usz i w :
  bytes_ok m -> 0 < usz -> 0 < cnt -> 0 <= tail < cnt ->
  (buf + cnt * usz <= out + i * usz \/ out + (i + Z.of_nat n) * usz <= buf) ->
  bytes_ok (fst (fst (fifo_read_with_size_loop n m buf tail head cnt out usz i w))).
Proof.
  intros Hb Hu Hc. revert m tail i w Hb. induction n as [|n IH]; intros m tail i w Hb Ht Hd; cbn [fifo_read_with_size_loop]; [done|].
  destruct (tail =? head); [done|]. apply IH; [apply bytes_ok_memcpy; [done|lia|nia]|apply Z.mod_pos_bound; lia|lia].
Qed.
Lemma bytes_ok_st m a v : bytes_ok m -> 0 <= v < 256 -> bytes_ok (st m a v).
Proof. intros H Hv x. rewrite ld_st. destruct (_ =? _); [done|apply H]. Qed.
Lemma ring_prev_range i : 0 <= i < TTY_INPUT_SIZE -> 0 <= ring_prev i < TTY_INPUT_SIZE.
Proof. unfold ring_prev, TTY_INPUT_SIZE. intros. destruct (Z.eqb_spec i 0); lia. Qed.
Lemma back_scan_range fuel m buf tail i h :
  0 <= i < TTY_INPUT_SIZE -> back_scan fuel m buf tail i = Some h -> 0 <= h < TTY_INPUT_SIZE /\ h <> tail.
Proof.
  revert i. induction fuel as [|f IH]; intros i Hi; cbn [back_scan]; [discriminate|].
  destruct (Z.eqb_spec i tail); [discriminate|]. destruct (is_printable _); [intros [= <-]; done|].
  apply IH. by apply ring_prev_range.
Qed.
End KeyRings.

(** ** One line per terminal *)
Section OneLine.
Context {E : TermEnv}.
(** A key typed on a terminal, as the interrupt routine hands it over. *)
Definition type_key (a mods key : Z) : ST term Z :=
  _ ← on_mem (fun m => st (st m key_data mods) (key_data + 1) key); write_1_event_input_to_tty a key_data.
Fixpoint type_keys (a : Z) (l : list (Z * Z)) : ST term unit :=
  match l with [] => mret tt | (mods, key) :: r => _ ← type_key a mods key; type_keys a r end.

(** The oldest key waiting is a line feed. *)
Definition at_enter (a : Z) (s : term) : Prop :=
  exists y, tty_heap s !! a = Some y /\ bytes_ok (tm_mem s) /\
    0 <= in_tail y < TTY_INPUT_SIZE /\ 0 <= in_head y < TTY_INPUT_SIZE /\ in_tail y <> in_head y /\
    0 <= out_head y < TTY_OUTPUT_SIZE /\
    k_key (key_at (tm_mem s) (a + tty_input_buf) (in_tail y)) = enter /\ tty_md y = TTY_MODE_CLI.
Definition away (a p n : Z) : Prop := p + n <= a + tty_input_buf \/ a + tty_output_buf + 2 * TTY_OUTPUT_SIZE <= p.

Lemma the_tty_bind {B} a y (k : tty -> ST term B) s : tty_heap s !! a = Some y -> (the_tty a ≫= k) s = k y s.
Proof. intros H. unfold the_tty. by rewrite deref_bind, H. Qed.
Lemma lookup_upd_tty a f y (h : gmap Z tty) : h !! a = Some y -> alter f a h !! a = Some (f y).
Proof. intros H. by rewrite lookup_alter_eq, H. Qed.

(** What one write into each ring does to memory below the rings. *)
Lemma at_enter_backspace a s :
  at_enter a s -> exists s', handle_backspace_input a s = Done (tt, s') /\ at_enter a s'.
Proof.
  intros (y & Hy & Hb & Ht & Hh & Hne & Ho & Hk & Hm). unfold handle_backspace_input. rewrite (the_tty_bind a y) by done.
  rewrite gets_bind.
  set (s1 := match back_scan (Z.to_nat TTY_INPUT_SIZE) (tm_mem s) (a + tty_input_buf) (in_tail y) (ring_prev (in_head y)) with
             | Some h => set_tty_heap (alter (set_in h (in_tail y)) a (tty_heap s)) s | None => s end).
  rewrite (bind_done _ _ s tt s1) by (unfold s1; destruct (back_scan _ _ _ _ _); reflexivity).
  assert (H1 : exists y1, tty_heap s1 !! a = Some y1 /\ tm_mem s1 = tm_mem s /\ in_tail y1 = in_tail y /\
    0 <= in_head y1 < TTY_INPUT_SIZE /\ in_tail y1 <> in_head y1 /\ out_head y1 = out_head y /\ tty_md y1 = tty_md y).
  { unfold s1. destruct (back_scan _ _ _ (in_tail y) _) as [h|] eqn:EB; [|by exists y].
    apply back_scan_range in EB as [H1 H2]; [|by apply ring_prev_range].
    exists (set_in h (in_tail y) y). repeat split; try done; try lia; cbn; try lia. by apply lookup_upd_tty. }
  clearbody s1. destruct H1 as (y1 & Hy1 & Em & E1 & E2 & E3 & E4 & E5). rewrite E1 in E3.
  destruct (tty_echo y =? 0); [exists s1; split; [done|]; exists y1; rewrite Em, E1, E4, E5; repeat (split; [assumption|]); assumption|].
  destruct (back_scan _ _ (a + tty_output_buf) _ _) as [h|] eqn:EB; (eexists; split; [reflexivity|]).
  - apply back_scan_range in EB as [H1 H2].
    2:{ apply ring_prev_range. unfold TTY_OUTPUT_SIZE, TTY_INPUT_SIZE in *. lia. }
    exists (set_out h (out_tail y1) y1). split; [exact (lookup_upd_tty _ (fun y => set_out h (out_tail y) y) _ _ Hy1)|].
    cbn. rewrite Em, E1, E5. repeat (split; [assumption|]). assumption.
  - exists y1. cbn. rewrite Em, E1, E4, E5. repeat (split; [assumption|]); assumption.
Qed.
(** A key stored in a ring leaves the bytes outside its slot alone. *)
Lemma key_push_frame m buf tail head data x :
  bytes_ok m -> 0 <= head < TTY_INPUT_SIZE -> (buf + TTY_INPUT_SIZE * 2 <= data \/ data + 2 <= buf) ->
  let '(m', h, _) := fifo_write16 m buf tail head TTY_INPUT_SIZE 1 data in
  bytes_ok m' /\ 0 <= h < TTY_INPUT_SIZE /\ (h = head \/ h <> tail) /\ (x < buf + 2 * head \/ buf + 2 * head + 2 <= x -> ld m' x = ld m x).
Proof.
  intros Hb Hh Hd. assert (W : TTY_INPUT_SIZE = 888) by done. rewrite fifo_write16_one by (try done; lia).
  destruct (Z.eqb_spec tail ((head + 1) mod TTY_INPUT_SIZE)) as [|Hn]; [split; [done|]; split; [lia|]; split; [by left|done]|].
  split; [apply bytes_ok_memcpy; try done; lia|]. split; [apply Z.mod_pos_bound; lia|]. split; [by right|].
  intros Hx. rewrite memcpy_ld by lia. destruct (_ && _) eqn:F; [zbool; lia|done].
Qed.
Lemma at_enter_type a mods key s :
  at_enter a s -> away a key_data 2 -> 0 <= mods < 256 -> 0 <= key < 256 ->
  exists s', type_key a mods key s = Done (0, s') /\ at_enter a s'.
Proof.
  unfold away, tty_input_buf, tty_output_buf, TTY_OUTPUT_SIZE. intros (y & Hy & Hb & Ht & Hh & Hne & Ho & Hk & Hm) Ha Hmods Hkey.
  assert (W : TTY_INPUT_SIZE = 888) by done. assert (W' : TTY_OUTPUT_SIZE = 888) by done.
  set (m0 := st (st (tm_mem s) key_data mods) (key_data + 1) key). set (s0 := set_tm_mem m0 s).
  assert (Hb0 : bytes_ok m0) by (by repeat apply bytes_ok_st).
  assert (Hk0 : ld m0 (a + 72 + 2 * in_tail y + 1) = enter).
  { unfold m0. rewrite !ld_st_ne by lia. exact Hk. }
  assert (H0 : at_enter a s0) by (exists y; repeat (split; [assumption|]); exact Hm).
  change (type_key a mods key s) with (write_1_event_input_to_tty a key_data s0). unfold write_1_event_input_to_tty.
  rewrite gets_bind. destruct (Z.eqb_spec (k_key (key_at (tm_mem s0) key_data 0)) 0x08).
  { destruct (at_enter_backspace a s0 H0) as (s1 & E1 & H1). exists s1. by rewrite (bind_done _ _ _ _ _ E1). }
  rewrite (the_tty_bind a y) by done. rewrite gets_bind. change (tm_mem s0) with m0.
  assert (Hdis : a + tty_input_buf + TTY_INPUT_SIZE * 2 <= key_data \/ key_data + 2 <= a + tty_input_buf) by (unfold tty_input_buf; lia).
  pose proof (key_push_frame m0 (a + tty_input_buf) (in_tail y) (in_head y) key_data (a + 72 + 2 * in_tail y + 1) Hb0 Hh Hdis) as P1.
  destruct (fifo_write16 m0 _ _ _ _ _ _) as [[m1 h1] c1]. destruct P1 as (Hb1 & Hh1 & Hd1 & F1).
  specialize (F1 ltac:(unfold tty_input_buf; lia)).
  assert (K1 : k_key (key_at m1 (a + tty_input_buf) (in_tail y)) = enter) by (etransitivity; [exact F1|exact Hk0]).
  set (s1 := set_tty_heap (alter (set_in h1 (in_tail y)) a (tty_heap s)) (set_tm_mem m1 s)).
  assert (Hh1t : in_tail y <> h1) by (destruct Hd1; congruence).
  assert (H1 : at_enter a s1 /\ tm_mem s1 = m1 /\ tty_heap s1 !! a = Some (set_in h1 (in_tail y) y)).
  { assert (L : tty_heap s1 !! a = Some (set_in h1 (in_tail y) y)) by (by apply lookup_upd_tty).
    split; [|done]. exists (set_in h1 (in_tail y) y). split; [exact L|].
    repeat (split; [assumption|]). assumption. }
  assert (R : forall B (k : unit -> ST term B), (on_mem (fun _ => m1) ≫= fun _ => upd_tty a (set_in h1 (in_tail y)) ≫= k) s0 = k tt s1) by done.
  rewrite R. clear R. clearbody s1. destruct H1 as (H1 & Em1 & Hy1).
  set (echoing := if tty_echo y =? 0 then mret tt else _).
  assert (H2 : exists s2, echoing s1 = Done (tt, s2) /\ at_enter a s2).
  { unfold echoing. destruct (tty_echo y =? 0); [by exists s1|].
    assert (Hd2 : a + tty_output_buf + TTY_INPUT_SIZE * 2 <= key_data \/ key_data + 2 <= a + tty_output_buf) by (unfold tty_output_buf; lia).
    assert (Ho2 : 0 <= out_head y < TTY_INPUT_SIZE) by lia.
    pose proof (key_push_frame m1 (a + tty_output_buf) (out_tail y) (out_head y) key_data (a + 72 + 2 * in_tail y + 1) Hb1 Ho2 Hd2) as P2.
    destruct (fifo_write16 m1 _ _ _ _ _ _) as [[m2 h2] c2]. destruct P2 as (Hb2 & Hh2 & _ & F2).
    eexists. split; [reflexivity|]. exists (set_out h2 (out_tail y) (set_in h1 (in_tail y) y)).
    split; [exact (lookup_upd_tty _ (fun y => set_out h2 (out_tail y) y) _ _ Hy1)|].
    assert (K2 : k_key (key_at m2 (a + tty_input_buf) (in_tail y)) = enter)
      by (etransitivity; [apply F2; unfold tty_output_buf; lia|exact K1]).
    assert (Ho3 : 0 <= h2 < TTY_OUTPUT_SIZE) by lia. repeat (split; [assumption|]). assumption. }
  destruct H2 as (s2 & E2 & H2). rewrite (bind_done _ _ _ _ _ E2), gets_bind.
  destruct (_ && _); (eexists; split; [reflexivity|exact H2]).
Qed.
Lemma at_enter_types a l s :
  at_enter a s -> away a key_data 2 -> Forall (fun p => 0 <= fst p < 256 /\ 0 <= snd p < 256) l ->
  exists s', type_keys a l s = Done (tt, s') /\ at_enter a s'.
Proof.
  intros H Ha. revert s H. induction l as [|[mods key] l IH]; intros s H Hl; cbn [type_keys]; [by exists s|].
  inversion_clear Hl as [|? ? [H1 H2] Hr]. destruct (at_enter_type a mods key s H Ha H1 H2) as (s1 & E1 & K1).
  rewrite (bind_done _ _ _ _ _ E1). by apply IH.
Qed.
(** At a line feed a line read returns 0 and changes nothing. *)
Lemma at_enter_read a buffer len s :
  at_enter a s -> 0 <= len -> read_input_line_to_thread_buffer a buffer len s = Done (0, s).
Proof.
  intros (y & Hy & Hb & Ht & Hh & Hne & Ho & Hk & Hm) Hl. unfold read_input_line_to_thread_buffer.
  rewrite (the_tty_bind a y) by done. rewrite gets_bind.
  assert (F : find_enter (Z.to_nat TTY_INPUT_SIZE) (tm_mem s) (a + tty_input_buf) (in_tail y) (in_head y) 0 = Some (0 + Z.of_nat 0)).
  { apply find_enter_at; [unfold TTY_INPUT_SIZE; lia|intros e He; lia| |]; rewrite Z.add_0_r, Z.add_0_l, Z.mod_small by done; done. }
  rewrite F. cbv zeta. change (0 + Z.of_nat 0) with 0. replace (if 0 <? len then 0 else len) with 0 by (ztest; lia).
  unfold fifo_read16. change (Z.to_nat 0) with 0%nat. cbn [fifo_read16_loop].
  unfold on_mem, upd_tty. rewrite !modify_bind. unfold mret, st_ret. do 2 f_equal. destruct s. cbn in *. unfold set_tty_heap. cbn. f_equal.
  apply map_eq. intros i. destruct (decide (i = a)) as [->|]; [|by rewrite lookup_alter_ne].
  rewrite (lookup_upd_tty a _ y) by done. rewrite Hy. f_equal. by destruct y.
Qed.
End OneLine.

(** ** From the interrupt to the terminal *)
Section KeyPath.
Context {E : TermEnv}.
Lemma ld_le_memcpy k m d s n o :
  0 <= n -> (d <= s \/ s + n <= d) -> 0 <= o -> o + Z.of_nat k <= n ->
  ld_le k (memcpy m d s n) (d + o) = ld_le k m (s + o).
Proof.
  intros Hn Hd Ho Hk. apply ld_le_cells. apply list_eq. intros i.
  destruct (decide (i < k)%nat); [|by rewrite !lookup_ge_None_2 by (rewrite length_cells; lia)].
  rewrite !lookup_cells, memcpy_ld by lia. rewrite (proj2 (Z.leb_le _ _)), (proj2 (Z.ltb_lt _ _)) by lia. cbn [andb].
  do 2 f_equal. lia.
Qed.
(** The event just stored is the one read back, and the ring is empty again. *)
Lemma event_roundtrip fuel s code sec ns pressed :
  let w := input_buffer_w_index s in
  input_buffer_r_index s = w -> 0 <= w < MAX_INPUT_BUFFER_LEN -> 0 <= code < 65536 ->
  is_modifier_key (u8 code) = false ->
  (input_buffer + sizeof_input_event * MAX_INPUT_BUFFER_LEN <= event_tmp \/ event_tmp + sizeof_input_event <= input_buffer) ->
  let m1 := store_event (tm_mem s) w code sec ns pressed in
  let w' := (w + 1) mod MAX_INPUT_BUFFER_LEN in
  let m2 := memcpy m1 event_tmp (input_buffer + w * sizeof_input_event) sizeof_input_event in
  tty_read_first_non_modifier_key_from_input_buffer (S fuel) (set_input_index w' w (set_tm_mem m1 s)) =
    Done ((action_code (if pressed then IA_PRESS else IA_RELEASE), InputKey (kb_modifiers_byte s) (scancode_to_ascii (u8 code))),
          set_input_index w' w' (set_tm_mem m2 s)).
Proof.
  intros w Hr Hw Hc Hmod Hd m1 w' m2. unfold MAX_INPUT_BUFFER_LEN, sizeof_input_event in *.
  cbn [tty_read_first_non_modifier_key_from_input_buffer]. rewrite gets_bind. cbv [id].
  cbn [tm_mem set_tm_mem set_input_index input_buffer_r_index input_buffer_w_index kb_modifiers_byte].
  unfold fifo_read_with_size. change (Z.to_nat 1) with 1%nat. cbn [fifo_read_with_size_loop].
  assert (Hne : w <> w').
  { unfold w', MAX_INPUT_BUFFER_LEN. rewrite mod_succ_small by lia. destruct (Z.eqb_spec (w + 1) 170); lia. }
  rewrite (proj2 (Z.eqb_neq w w') Hne). unfold MAX_INPUT_BUFFER_LEN, sizeof_input_event. rewrite !u64_id by lia.
  rewrite Z.mul_0_l, Z.add_0_r. change (memcpy m1 event_tmp (input_buffer + w * 24) 24) with m2.
  rewrite modify_bind. change (0 + 1 =? 0) with false. cbv iota zeta.
  assert (Hcode : ld_le 2 m2 (event_tmp + ie_code) = code).
  { unfold m2, ie_code. rewrite ld_le_memcpy by lia. unfold m1, store_event, sizeof_input_event, ie_code, ie_microsec, ie_type, ie_action.
    rewrite !ld_le_st_le_ne by lia. replace (input_buffer + w * 24) with (input_buffer + 24 * w) by lia.
    rewrite u16_id by lia. apply ld_le_st_le. cbn. lia. }
  assert (Hact : ld_le 4 m2 (event_tmp + ie_action) = action_code (if pressed then IA_PRESS else IA_RELEASE)).
  { unfold m2, ie_action. rewrite ld_le_memcpy by lia. unfold m1, store_event, sizeof_input_event, ie_action.
    replace (input_buffer + w * 24) with (input_buffer + 24 * w) by lia. apply ld_le_st_le. destruct pressed; cbn; lia. }
  rewrite Hcode, Hmod, Hact. change ((w + 1) mod 170) with w'. unfold mret, st_ret, set_input_index, set_tm_mem.
  cbn [tm_k tm_mem tty_global tty_heap tm_screen kb_modifiers_byte kb_e0_prefix input_buffer_w_index input_buffer_r_index tm_mouse].
  reflexivity.
Qed.
Lemma bytes_ok_st_le k m a v : bytes_ok m -> bytes_ok (st_le k m a v).
Proof.
  revert m a v. induction k as [|k IH]; intros m a v Hb; cbn [st_le]; [done|].
  apply IH, bytes_ok_st; [done|apply u8_range].
Qed.
Lemma store_event_frame m w code sec ns pressed x :
  (x < input_buffer + 24 * w \/ input_buffer + 24 * w + 24 <= x) -> ld (store_event m w code sec ns pressed) x = ld m x.
Proof.
  intros Hx. unfold store_event, sizeof_input_event, ie_code, ie_microsec, ie_type, ie_action.
  rewrite !st_le_ld. repeat (ztest; cbn [andb]; try lia). all: done.
Qed.
(** The buffers of the interrupt routines are apart from each other and from
    the terminal. *)
Definition kb_layout (a : Z) : Prop :=
  (input_buffer + sizeof_input_event * MAX_INPUT_BUFFER_LEN <= event_tmp \/ event_tmp + sizeof_input_event <= input_buffer) /\
  away a input_buffer (sizeof_input_event * MAX_INPUT_BUFFER_LEN) /\ away a event_tmp sizeof_input_event /\ away a key_data 2.
(** A key that is not Backspace, handed to a terminal that echoes: it is
    appended to the queue when there is room, and echoed. *)
Lemma write_event_appends a y s mods key :
  tty_heap s !! a = Some y -> bytes_ok (tm_mem s) -> tty_echo y <> 0 ->
  0 <= in_tail y < TTY_INPUT_SIZE -> 0 <= in_head y < TTY_INPUT_SIZE -> 0 <= out_head y < TTY_OUTPUT_SIZE ->
  (in_head y + 1) mod TTY_INPUT_SIZE <> in_tail y ->
  away a key_data 2 -> cells (tm_mem s) key_data 2 = [mods; key] -> key <> 0x08 ->
  exists s' y',
    write_1_event_input_to_tty a key_data s = Done (0, s') /\ tty_heap s' !! a = Some y' /\
    key_queue (tm_mem s') a y' = key_queue (tm_mem s) a y ++ [[mods; key]] /\
    tm_screen s' = echo [ascii_to_char key] (tm_screen s) /\
    (input_buffer_r_index s' = input_buffer_r_index s /\ input_buffer_w_index s' = input_buffer_w_index s /\
     kb_modifiers_byte s' = kb_modifiers_byte s).
Proof.
  unfold away, tty_input_buf, tty_output_buf. intros Hy Hb He Ht Hh Ho Hfull Ha Hcells Hk8.
  assert (W : TTY_INPUT_SIZE = 888) by done. assert (W' : TTY_OUTPUT_SIZE = 888) by done.
  assert (Hkey : k_key (key_at (tm_mem s) key_data 0) = key).
  { rewrite key_unit, Z.mul_0_l, Z.add_0_r, Hcells. done. }
  unfold write_1_event_input_to_tty. rewrite gets_bind, Hkey, (proj2 (Z.eqb_neq key 8) Hk8), (the_tty_bind a y), gets_bind by done.
  rewrite fifo_write16_one by (try done; unfold tty_input_buf; lia).
  rewrite (proj2 (Z.eqb_neq _ _)) by (intros F; apply Hfull; by rewrite F).
  set (m1 := memcpy _ _ _ _). set (h1 := (in_head y + 1) mod TTY_INPUT_SIZE).
  set (s1 := set_tty_heap (alter (set_in h1 (in_tail y)) a (tty_heap s)) (set_tm_mem m1 s)).
  assert (R : forall B (k : unit -> ST term B), (on_mem (fun _ => m1) ≫= fun _ => upd_tty a (set_in h1 (in_tail y)) ≫= k) s = k tt s1) by done.
  rewrite R, (proj2 (Z.eqb_neq _ 0) He). clear R.
  assert (HR1 : ring m1 (a + tty_input_buf) 2 TTY_INPUT_SIZE (in_tail y) h1 = key_queue (tm_mem s) a y ++ [[mods; key]]).
  { unfold m1, h1. rewrite ring_push by (try done; unfold tty_input_buf; lia). change (Z.to_nat 2) with 2%nat. by rewrite Hcells. }
  assert (Hb1 : bytes_ok m1) by (apply bytes_ok_memcpy; [done|lia|unfold tty_input_buf; lia]).
  destruct (fifo_write16 m1 (a + tty_output_buf) (out_tail y) (out_head y) TTY_INPUT_SIZE 1 key_data) as [[m2 h2] c2] eqn:EF.
  rewrite fifo_write16_one in EF by (try done; unfold tty_output_buf; lia).
  assert (HR2 : ring m2 (a + tty_input_buf) 2 TTY_INPUT_SIZE (in_tail y) h1 = key_queue (tm_mem s) a y ++ [[mods; key]]).
  { rewrite <- HR1. destruct (_ =? _); injection EF as <- <- <-; [done|]. apply ring_frame; [lia|lia|lia|].
    intros x Hx. rewrite memcpy_ld by (unfold tty_output_buf; lia). unfold tty_input_buf, tty_output_buf in *.
    destruct (_ && _) eqn:F; [zbool; lia|done]. }
  clear EF. set (s2 := set_tm_screen (echo [ascii_to_char key] (tm_screen s1))
    (set_tty_heap (alter (fun y => set_out h2 (out_tail y) y) a (tty_heap s1)) (set_tm_mem m2 s1))).
  assert (L2 : tty_heap s2 !! a = Some (set_out h2 (out_tail y) (set_in h1 (in_tail y) y))).
  { apply (lookup_upd_tty a (fun y => set_out h2 (out_tail y) y) (set_in h1 (in_tail y) y)). by apply lookup_upd_tty. }
  assert (R : forall B (k : unit -> ST term B),
    ((on_mem (fun _ => m2) ≫= fun _ => upd_tty a (fun y => set_out h2 (out_tail y) y) ≫= fun _ => echo_ascii key) ≫= k) s1 = k tt s2) by done.
  rewrite R, gets_bind. clear R.
  destruct (_ && _); (eexists _, _; split; [reflexivity|]; split; [exact L2|]; split; [exact HR2|]; by repeat split).
Qed.
End KeyPath.

(** ** Properties *)

(** A terminal delivers one line.  A line typed up to Enter is handed to the
    reader without its Enter, as many keys as the reader asks for; the Enter
    stays the oldest key, so that after the whole line was read no later read
    returns anything, whatever is typed. *)
Theorem tty_delivers_one_line {E : TermEnv} (a buffer len : Z) (y : tty) (s : term)
    (line rest : list (list Z)) (u : list Z) (typed : list (Z * Z)) :
  tty_heap s !! a = Some y -> bytes_ok (tm_mem s) -> tty_md y = TTY_MODE_CLI ->
  0 <= in_tail y < TTY_INPUT_SIZE -> 0 <= in_head y < TTY_INPUT_SIZE -> 0 <= out_head y < TTY_OUTPUT_SIZE ->
  key_queue (tm_mem s) a y = line ++ u :: rest ->
  Forall (fun v => unit_key v <> enter) line -> unit_key u = enter ->
  0 <= len -> away a buffer (2 * Z.of_nat (length line)) -> away a key_data 2 ->
  Forall (fun p => 0 <= fst p < 256 /\ 0 <= snd p < 256) typed ->
  let n := Nat.min (length line) (Z.to_nat len) in
  exists s1 y1,
    read_input_line_to_thread_buffer a buffer len s = Done (Z.of_nat n, s1) /\
    units n (tm_mem s1) buffer 2 0 = take n line /\
    tty_heap s1 !! a = Some y1 /\ key_queue (tm_mem s1) a y1 = drop n line ++ u :: rest /\
    (Z.of_nat (length line) <= len ->
     exists s2, type_keys a typed s1 = Done (tt, s2) /\
       forall buffer' len', 0 <= len' -> read_input_line_to_thread_buffer a buffer' len' s2 = Done (0, s2)).
Proof.
  intros Hy Hb Hm Ht Hh Ho HQ HL HU Hlen Haw Haw2 Htyped n. assert (W : TTY_INPUT_SIZE = 888) by done.
  unfold key_queue in HQ. pose proof (find_enter_queue _ _ _ _ line u rest Ht Hh HQ HL HU) as F.
  unfold read_input_line_to_thread_buffer. rewrite (the_tty_bind a y) by done. rewrite gets_bind, F.
  set (c := if Z.of_nat (length line) <? len then Z.of_nat (length line) else len).
  assert (Hc : c = Z.of_nat n) by (unfold c, n; ztest; lia). cbv zeta. rewrite Hc. clear c Hc.
  assert (Hn : (n <= length line)%nat) by (unfold n; lia).
  assert (Hbuf : a + tty_input_buf + TTY_INPUT_SIZE * 2 <= buffer + 0 * 2 \/ buffer + (0 + Z.of_nat n) * 2 <= a + tty_input_buf).
  { unfold away, tty_input_buf, tty_output_buf, TTY_OUTPUT_SIZE in *. lia. }
  pose proof (ring_len_range (in_tail y) (in_head y) TTY_INPUT_SIZE ltac:(lia)) as HR.
  pose proof (length_ring (a + tty_input_buf) 2 TTY_INPUT_SIZE ltac:(lia) (tm_mem s) (in_tail y) (in_head y)) as HRL.
  rewrite HQ, length_app in HRL. cbn [length] in HRL.
  destruct (fifo_read_loop_spec (a + tty_input_buf) 2 TTY_INPUT_SIZE ltac:(lia) ltac:(lia) n (tm_mem s) (in_tail y) (in_head y) buffer 0 0)
    as (m' & t & k & EF & Hk & Ht' & HR2 & HF); try lia.
  unfold fifo_read16. rewrite Nat2Z.id, fifo_read16_loop_eq, EF by (try done; lia).
  assert (k = n) as -> by lia. rewrite HQ in HR2.
  assert (HS : take n (line ++ u :: rest) = units n m' buffer 2 0 /\
               drop n (line ++ u :: rest) = ring m' (a + tty_input_buf) 2 TTY_INPUT_SIZE t (in_head y)).
  { rewrite HR2. pose proof (length_units n m' buffer 2 0) as HU2. split; [by rewrite take_app_length'|by rewrite drop_app_length']. }
  rewrite take_app_le, drop_app_le in HS by done. destruct HS as [HS1 HS2].
  set (s1 := set_tty_heap (alter (set_in (in_head y) t) a (tty_heap s)) (set_tm_mem m' s)).
  exists s1, (set_in (in_head y) t y). split; [reflexivity|]. split; [by rewrite HS1|].
  assert (L1 : tty_heap s1 !! a = Some (set_in (in_head y) t y)) by (by apply lookup_upd_tty).
  split; [exact L1|]. split; [by rewrite HS2|].
  intros Hall. assert (n = length line) as Hnl by (unfold n; lia).
  assert (A1 : at_enter a s1).
  { assert (Hne : t <> in_head y).
    { intros ->. rewrite ring_nil in HS2 by lia. apply (f_equal length) in HS2. rewrite length_app in HS2. cbn in HS2. lia. }
    exists (set_in (in_head y) t y). split; [exact L1|].
    assert (Hb' : bytes_ok m').
    { pose proof (bytes_ok_read n (tm_mem s) (a + tty_input_buf) (in_tail y) (in_head y) TTY_INPUT_SIZE buffer 2 0 0 Hb
        ltac:(lia) ltac:(lia) Ht Hbuf) as HB. by rewrite EF in HB. }
    assert (K : k_key (key_at m' (a + tty_input_buf) t) = enter).
    { rewrite ring_pop in HS2 by (try lia; done). rewrite Hnl, drop_all in HS2. cbn [app] in HS2. injection HS2 as HS2 _.
      rewrite key_unit, <- HU, HS2. reflexivity. }
    repeat (split; [assumption|]). assumption. }
  destruct (at_enter_types a typed s1 A1 Haw2 Htyped) as (s2 & E2 & A2). exists s2. split; [exact E2|].
  intros. by apply at_enter_read.
Qed.
#[local] Definition demo_term_env : TermEnv := Build_TermEnv 30000 40000 50000 51000 20000 60000 (fun _ => 0).
#[local] Definition demo_tty_mem : mem := list_to_map [(1073, 104); (1075, 105); (1077, 10)].
#[local] Definition demo_tty : tty := Tty 1 0 2 3 0 3 0 1 1 0 TTY_MODE_CLI.
#[local] Definition demo_term : term :=
  Term boot_state demo_tty_mem {[1 := 1000]} {[1000 := demo_tty]} (Screen ∅ 0 []) 0 false 0 0
    (Mouse 0 true true false false false 0 0 0 0).
#[local] Existing Instance demo_term_env.
Lemma demo_tty_bytes : bytes_ok demo_tty_mem.
Proof. apply bytes_ok_list. repeat constructor; cbn; lia. Qed.
Lemma tty_delivers_one_line_witness :
  exists s1, @read_input_line_to_thread_buffer 1000 10000 80 demo_term = Done (2, s1) /\
    exists s2, type_keys 1000 [(0, 120); (0, 10)] s1 = Done (tt, s2) /\
      read_input_line_to_thread_buffer 1000 10000 80 s2 = Done (0, s2).
Proof.
  assert (Hq : key_queue demo_tty_mem 1000 demo_tty = [[0; 104]; [0; 105]] ++ [0; 10] :: []) by (vm_compute; reflexivity).
  assert (Hl : Forall (fun v => unit_key v <> enter) [[0; 104]; [0; 105]]) by (repeat constructor; discriminate).
  assert (Ht : Forall (fun p : Z * Z => 0 <= fst p < 256 /\ 0 <= snd p < 256) [(0, 120); (0, 10)]) by (repeat constructor; cbn; lia).
  assert (Ha : away 1000 10000 (2 * 2)) by (right; vm_compute; discriminate).
  assert (Hd : away 1000 key_data 2) by (right; vm_compute; discriminate).
  pose proof (@tty_delivers_one_line demo_term_env 1000 10000 80 demo_tty demo_term _ [] _ _
    eq_refl demo_tty_bytes eq_refl ltac:(done) ltac:(done) ltac:(done) Hq Hl eq_refl ltac:(lia) Ha Hd Ht) as H.
  destruct H as (s1 & y1 & E1 & _ & _ & _ & H2). exists s1. split; [exact E1|].
  destruct H2 as (s2 & E2 & H2); [cbn; lia|]. exists s2. split; [exact E2|apply H2; lia].
Defined.

(** The key byte of a release: bit 7 set. *)
Lemma release_bit sc : 0 <= sc < 128 -> Z.land (sc + 128) 0x80 = 0x80.
Proof.
  intros H. assert (F : Forall (fun x => Z.land (x + 128) 0x80 = 0x80) (seqZ 0 128)) by (vm_compute; repeat constructor).
  rewrite Forall_forall in F. apply F. apply list_elem_of_In, elem_of_seqZ. lia.
Qed.

#[local] Definition demo_term0 : term :=
  Term boot_state demo_tty_mem {[0 := 1000]} {[1000 := demo_tty]} (Screen ∅ 0 []) MOD_LSHIFT false 7 7
    (Mouse 0 true true false false false 0 0 0 0).

Definition mouse_queue {E : TermEnv} (s : term) : list (list Z) :=
  ring (tm_mem s) mouse_buffer 3 MOUSE_BUFFER_LEN (mouse_tail (tm_mouse s)) (mouse_head (tm_mouse s)).
Definition mouse_flags (u : mouse_state) : list bool := [mouse_left u; mouse_middle u; mouse_right u; mouse_x_sign u; mouse_y_sign u].

Section MouseSteps.
Context {E : TermEnv}.
Lemma mouse_byte_0 s b : mouse_int_global (tm_mouse s) = 0 ->
  isr_mouse_handler b s = Done (tt, set_tm_mouse (set_mouse_int 1 (tm_mouse s)) s).
Proof. intros H. unfold isr_mouse_handler. by rewrite gets_bind, H. Qed.
Lemma mouse_byte_1 s b : mouse_int_global (tm_mouse s) = 1 ->
  isr_mouse_handler b s =
    Done (tt, set_tm_mouse (set_mouse_deltas b (mouse_y_delta (tm_mouse s)) (set_mouse_int 2 (tm_mouse s))) s).
Proof. intros H. unfold isr_mouse_handler. by rewrite gets_bind, H. Qed.
Lemma mouse_byte_2 s b : mouse_int_global (tm_mouse s) = 2 ->
  isr_mouse_handler b s =
    (_ ← write_mouse_buffer (mouse_left (tm_mouse s)) (mouse_middle (tm_mouse s)) (mouse_right (tm_mouse s))
           (mouse_x_sign (tm_mouse s)) (mouse_y_sign (tm_mouse s)) (mouse_x_delta (tm_mouse s)) b; mret tt)
      (set_tm_mouse (set_mouse_deltas (mouse_x_delta (tm_mouse s)) b (set_mouse_int 0 (tm_mouse s))) s).
Proof. intros H. unfold isr_mouse_handler. by rewrite gets_bind, H. Qed.
End MouseSteps.

(** The three bytes of a mouse packet: the first one is dropped, so buttons and
    signs never change; the movement is queued under the old flags and is
    followed by two packets made of the six bytes behind the local packet. *)
Theorem mouse_packet_effect {E : TermEnv} (s : term) (b0 b1 b2 : Z) :
  mouse_int_global (tm_mouse s) = 0 ->
  0 <= mouse_tail (tm_mouse s) < MOUSE_BUFFER_LEN -> 0 <= mouse_head (tm_mouse s) < MOUSE_BUFFER_LEN ->
  Z.of_nat (length (mouse_queue s)) + 3 < MOUSE_BUFFER_LEN ->
  (mouse_buffer + MOUSE_BUFFER_LEN * 3 <= mouse_pkt \/ mouse_pkt + 9 <= mouse_buffer) ->
  let u := tm_mouse s in
  exists s',
    (_ ← isr_mouse_handler b0; _ ← isr_mouse_handler b1; isr_mouse_handler b2) s = Done (tt, s') /\
    mouse_queue s' = mouse_queue s ++
      [[create_buttons_byte (mouse_left u) (mouse_middle u) (mouse_right u) (mouse_x_sign u) (mouse_y_sign u); b1; b2];
       cells (tm_mem s) (mouse_pkt + 3) 3; cells (tm_mem s) (mouse_pkt + 6) 3] /\
    mouse_flags (tm_mouse s') = mouse_flags u /\ mouse_int_global (tm_mouse s') = 0.
Proof.
  intros Hi Ht Hh Hroom Hd u.
  set (b := create_buttons_byte (mouse_left u) (mouse_middle u) (mouse_right u) (mouse_x_sign u) (mouse_y_sign u)).
  set (m1 := store_bytes (tm_mem s) mouse_pkt [b; b1; b2]).
  assert (L : forall x, ld m1 x = if decide (x = mouse_pkt) then b else if decide (x = mouse_pkt + 1) then b1
    else if decide (x = mouse_pkt + 2) then b2 else ld (tm_mem s) x).
  { intros x. unfold m1. cbn [store_bytes]. rewrite !ld_st. repeat case_decide; repeat ztest; subst; try lia; done. }
  assert (W : MOUSE_BUFFER_LEN = 1365) by done. unfold mouse_queue in Hroom.
  pose proof (length_ring mouse_buffer 3 MOUSE_BUFFER_LEN ltac:(lia) (tm_mem s) (mouse_tail (tm_mouse s)) (mouse_head (tm_mouse s))) as HL.
  destruct (fifo_write_loop_spec mouse_buffer 3 MOUSE_BUFFER_LEN ltac:(lia) ltac:(lia) 3 m1 (mouse_tail (tm_mouse s)) (mouse_head (tm_mouse s)) mouse_pkt 0 0)
    as (m2 & h & k & EF & Hk & Hh' & HR & HF); try lia.
  rewrite <- HL in Hk. assert (k = 3%nat) as -> by lia.
  exists (set_tm_mouse (set_mouse_ring h (mouse_tail u) (set_mouse_deltas b1 b2 (set_mouse_int 0 u))) (set_tm_mem m2 s)).
  split; [|split; [|split; [reflexivity|reflexivity]]].
  - rewrite (bind_done _ _ _ _ _ (mouse_byte_0 s b0 Hi)).
    erewrite bind_done by (apply mouse_byte_1; reflexivity). rewrite mouse_byte_2 by reflexivity.
    unfold write_mouse_buffer, on_mem. cbn [tm_mouse set_tm_mouse mouse_left mouse_middle mouse_right mouse_x_sign mouse_y_sign
      mouse_x_delta mouse_y_delta set_mouse_deltas set_mouse_int]. fold u. fold b.
    erewrite bind_done; [reflexivity|]. rewrite modify_bind, gets_bind. cbv [id].
    cbn [tm_mem tm_mouse set_tm_mem set_tm_mouse mouse_tail mouse_head set_mouse_deltas set_mouse_int]. fold m1.
    unfold fifo_write24. rewrite fifo_write24_loop_eq. change (Z.to_nat 3) with 3%nat. change (mouse_tail u) with (mouse_tail (tm_mouse s)). change (mouse_head u) with (mouse_head (tm_mouse s)). rewrite EF. reflexivity.
  - unfold mouse_queue. cbn [tm_mem tm_mouse set_tm_mouse set_tm_mem set_mouse_ring mouse_tail mouse_head set_mouse_deltas set_mouse_int].
    change (mouse_tail u) with (mouse_tail (tm_mouse s)). rewrite HR. f_equal.
    + apply ring_frame; try lia. intros x Hx. rewrite L. repeat case_decide; try lia; done.
    + cbn [units]. change (Z.to_nat 3) with 3%nat. cbn [cells]. rewrite !L.
      repeat apply (f_equal2 cons); try reflexivity; repeat case_decide; try lia; try reflexivity; apply (f_equal (ld (tm_mem s))); lia.
Qed.
Lemma mouse_packet_effect_witness :
  exists s', (_ ← @isr_mouse_handler demo_term_env 0x29; _ ← isr_mouse_handler 5; isr_mouse_handler 7) demo_term = Done (tt, s') /\
    mouse_queue s' = [[0x38; 5; 7]; [0; 0; 0]; [0; 0; 0]].
Proof.
  assert (Hq : mouse_queue demo_term = []) by (vm_compute; reflexivity).
  destruct (@mouse_packet_effect demo_term_env demo_term 0x29 5 7 eq_refl ltac:(done) ltac:(done) ltac:(rewrite Hq; reflexivity)
    ltac:(left; vm_compute; discriminate)) as (s' & E1 & Q & _).
  exists s'. split; [exact E1|]. rewrite Q, Hq. reflexivity.
Defined.
