(* ===== verification/Clock.v ===== *)
(** * Clock: the clock calls of src/core/syscall/syscall3.h

    Reading and setting the time of day.  [clock_settime] turns seconds since
    1970 into a calendar date and writes it to the real-time clock, the inverse
    of what reading the clock computes. *)
From S2P Require Import Prelude MemLib Time.
Open Scope Z_scope.

(** ** The calls *)
Section Calls.
Context {hw : Type} `{PortIO hw} (fuel : nat) (cpuid : Z -> Z * Z * Z * Z).

(** The result, the hardware, and the user's memory; [None]: the clock never
    leaves its update. *)
Definition sys_time (h : hw) (m : mem) (user_buf : Z) : option (Z * hw * mem) :=
  '(t, h') ← get_time_s fuel h;
  Some (t, h', if user_buf =? 0 then m else st_le 8 m user_buf t).
(** [tsc] values are those of successive readings of the counter. *)
Definition sys_gettimeofday (h : hw) (tsc_hz tsc : Z) (m : mem) (tv : Z) : option (Z * hw * Z * mem) :=
  if tv =? 0 then Some (-1, h, tsc_hz, m)
  else
    '(t, h', hz) ← get_time_us cpuid fuel h tsc_hz tsc;
    Some (0, h', hz, st_le 4 (st_le 8 m tv (tv_sec t)) (tv + 8) (tv_microsec t)).
Definition sys_clock_gettime (h : hw) (tsc_hz tsc tsc' : Z) (m : mem) (tp : Z) : option (Z * hw * Z * mem) :=
  if tp =? 0 then Some (-1, h, tsc_hz, m)
  else
    '(t, h', hz) ← get_time_us cpuid fuel h tsc_hz tsc;
    let '(ns, hz') := get_time_ns_in_second cpuid hz tsc' in
    Some (0, h', hz', st_le 8 (st_le 8 m tp (tv_sec t)) (tp + 8) ns).
End Calls.
Definition sys_clock_getres (m : mem) (res : Z) : Z * mem :=
  if res =? 0 then (-1, m) else (0, st_le 8 (st_le 8 m res 0) (res + 8) 1).
(** [struct timex]: an [int] and then words, except [status]. *)
Definition sys_adjtimex (m : mem) (tx : Z) : Z * mem :=
  if tx =? 0 then (-1, m)
  else
    let m := st_le 8 (st_le 8 (st_le 8 (st_le 8 m (tx + 8) 0) (tx + 16) 0) (tx + 24) 0) (tx + 32) 0 in
    let m := st_le 8 (st_le 8 (st_le 8 (st_le 4 m (tx + 40) 0) (tx + 48) 0) (tx + 56) 1) (tx + 64) 0 in
    (0, st_le 8 (st_le 8 (st_le 8 m (tx + 72) 0) (tx + 80) 0) (tx + 88) 10000).

(** The year of a day number and the days left in it; [None]: out of fuel. *)
Fixpoint year_loop (fuel : nat) (days year : Z) : option (Z * Z) :=
  match fuel with
  | O => None
  | S f =>
      let diy := if is_leap year then 366 else 365 in
      if days <? diy then Some (year, days) else year_loop f (days - diy) (year + 1)
  end.
(** The month of a day of the year; [None]: past the end of [days_in_month]. *)
Fixpoint month_loop (fuel : nat) (days mon year : Z) : option (Z * Z) :=
  match fuel with
  | O => None
  | S f =>
      d ← days_in_month !! Z.to_nat (mon - 1);
      let dim := if (mon =? 2) && is_leap year then d + 1 else d in
      if days <? dim then Some (mon, days) else month_loop f (days - dim) (mon + 1) year
  end.
(** [sec]: the seconds of [tp]. *)
Definition sys_clock_settime {hw : Type} `{PortIO hw} (fuel : nat) (h : hw) (tp sec : Z) : option (Z * hw) :=
  if tp =? 0 then Some (-1, h)
  else
    let days := sec / 86400 in
    let rem := sec mod 86400 in
    let hour := rem / 3600 in
    let min := rem mod 3600 / 60 in
    let s := rem mod 3600 mod 60 in
    '(year, days') ← year_loop fuel days 1970;
    '(mon, days'') ← month_loop 13 days' 1 year;
    Some (0, rtc_write_datetime h year mon (days'' + 1) hour min s).

(** ** The date of a day number *)
Section Dates.
Lemma year_len_range y : 365 <= year_len y <= 366.
Proof. unfold year_len. destruct (is_leap y); lia. Qed.
Lemma year_loop_spec fuel : forall days year,
  0 <= days < 365 * Z.of_nat fuel ->
  exists n d, year_loop fuel days year = Some (year + Z.of_nat n, d) /\
    0 <= d < year_len (year + Z.of_nat n) /\ ysum n year + d = days.
Proof.
  induction fuel as [|f IH]; intros days year Hd; [lia|]. cbn [year_loop]. fold (year_len year).
  pose proof (year_len_range year). destruct (Z.ltb_spec days (year_len year)).
  - exists 0%nat, days. cbn [ysum]. rewrite Z.add_0_r. split; [done|]. lia.
  - destruct (IH (days - year_len year) (year + 1) ltac:(lia)) as (n & d & E & Hr & Hs).
    exists (S n), d. replace (year + Z.of_nat (S n)) with (year + 1 + Z.of_nat n) by lia.
    split; [exact E|]. split; [exact Hr|]. cbn [ysum]. lia.
Qed.
Lemma month_loop_spec fuel : forall days mon year,
  1 <= mon <= 12 -> 13 - mon <= Z.of_nat fuel -> 0 <= days -> days + month_cum (is_leap year) mon < year_len year ->
  exists m d, month_loop fuel days mon year = Some (m, d) /\ mon <= m <= 12 /\ 0 <= d < month_len year m /\
    month_cum (is_leap year) m + d = month_cum (is_leap year) mon + days.
Proof.
  induction fuel as [|f IH]; intros days mon year Hm Hf Hd Hb; [lia|]. cbn [month_loop].
  destruct (lookup_lt_is_Some_2 days_in_month (Z.to_nat (mon - 1))) as [x Hx]; [cbn; lia|].
  assert (EL : (if (mon =? 2) && is_leap year then x + 1 else x) = month_len year mon).
  { unfold month_len. rewrite Hx. cbn [default]. unfold id. destruct ((mon =? 2) && is_leap year); lia. }
  rewrite Hx. cbn [mbind option_bind]. rewrite EL. destruct (Z.ltb_spec days (month_len year mon)).
  - exists mon, days. split; [done|]. lia.
  - destruct (Z.eq_dec mon 12) as [->|Hne]; [pose proof (month_cum_year year); lia|].
    pose proof (month_cum_step year mon ltac:(lia)) as Hstep.
    destruct (IH (days - month_len year mon) (mon + 1) year) as (m & d & E & Hr & Hl & Hs); [lia..|].
    exists m, d. split; [exact E|]. lia.
Qed.
Lemma ysum_app n k y : ysum (n + k) y = ysum n y + ysum k (y + Z.of_nat n).
Proof.
  revert y. induction n as [|n IH]; intros y; cbn [ysum Nat.add].
  - rewrite Z.add_0_r. lia.
  - rewrite IH. replace (y + 1 + Z.of_nat n) with (y + Z.of_nat (S n)) by lia. lia.
Qed.
(** The first day of the year 10000. *)
Definition days_10000 : Z := 2932897.
Lemma before_10000 n d : 0 <= d -> ysum n 1970 + d < days_10000 -> 1970 + Z.of_nat n < 10000.
Proof.
  intros Hd H. assert (E : ysum (Z.to_nat 8030) 1970 = days_10000) by (vm_compute; reflexivity).
  assert (Hc : Z.of_nat (Z.to_nat 8030) = 8030) by (apply Z2Nat.id; lia). revert E Hc.
  generalize (Z.to_nat 8030). intros c E Hc. destruct (Nat.lt_ge_cases n c) as [|Hn]; [lia|].
  replace n with (c + (n - c))%nat in H by lia. rewrite ysum_app in H.
  pose proof (ysum_bound (n - c) (1970 + Z.of_nat c)). lia.
Qed.
End Dates.

(** ** Properties *)

(** C30: Setting the clock to a number of seconds since 1970, up to the end of
    the year 9999, and reading it back gives that number, when the clock's
    century register holds the century of the new date (the call does not
    write it). *)
Theorem clock_settime_roundtrip {hw : Type} `{PortIO hw} `{!CmosClock hw} (fuel fuel' : nat) (h : hw) (tp sec : Z) :
  tp <> 0 -> 0 <= sec < days_10000 * 86400 -> sec / 86400 < 365 * Z.of_nat fuel -> Z.land (creg h 0x0A) 0x80 = 0 ->
  (forall y d, year_loop fuel (sec / 86400) 1970 = Some (y, d) ->
     (if creg h 0x32 =? 0 then 20 else bcd_to_bin (creg h 0x32)) = y / 100) ->
  exists h' h'', sys_clock_settime fuel h tp sec = Some (0, h') /\ get_time_s (S fuel') h' = Some (sec, h'').
Proof.
  intros Htp Hsec Hf Hu Hc. unfold sys_clock_settime. rewrite (proj2 (Z.eqb_neq tp 0) Htp). cbv zeta.
  pose proof (Z.div_mod sec 86400 ltac:(lia)) as E1. pose proof (Z.mod_pos_bound sec 86400 ltac:(lia)) as B1.
  set (days := sec / 86400) in *. set (rem := sec mod 86400) in *.
  pose proof (Z.div_mod rem 3600 ltac:(lia)) as E2. pose proof (Z.mod_pos_bound rem 3600 ltac:(lia)) as B2.
  pose proof (Z.div_mod (rem mod 3600) 60 ltac:(lia)) as E3. pose proof (Z.mod_pos_bound (rem mod 3600) 60 ltac:(lia)) as B3.
  assert (0 <= days) by (apply Z.div_pos; lia). assert (days < days_10000) by (apply Z.div_lt_upper_bound; lia).
  destruct (year_loop_spec fuel days 1970 ltac:(lia)) as (n & d & EY & Hd & HY). specialize (Hc _ _ EY). rewrite EY.
  cbn [mbind option_bind]. set (y := 1970 + Z.of_nat n) in *.
  assert (Hy : y < 10000) by (apply (before_10000 n d); [lia|rewrite HY; assumption]).
  assert (C1 : month_cum (is_leap y) 1 = 0) by (destruct (is_leap y); reflexivity).
  destruct (month_loop_spec 13 d 1 y) as (m & d' & EM & Hm & Hd' & HM'); [lia..|]. rewrite EM. cbn [mbind option_bind].
  destruct (rtc_write_then_read h fuel' y m (d' + 1) (rem / 3600) (rem mod 3600 / 60) (rem mod 3600 mod 60))
    as (k & h' & EK & ER).
  - split; [lia|]. split; [lia|]. lia.
  - lia.
  - split; [apply Z.div_pos; lia|apply Z.div_lt_upper_bound; lia].
  - split; [apply Z.div_pos; lia|apply Z.div_lt_upper_bound; lia].
  - apply Z.mod_pos_bound. lia.
  - exact Hu.
  - exact Hc.
  - eexists _, h'. split; [reflexivity|]. unfold get_time_s. rewrite ER. f_equal. f_equal.
    pose proof (month_len_range y m ltac:(lia)). rewrite days_since_epoch_number in EK by lia. injection EK as <-.
    unfold day_number. replace (Z.to_nat (y - 1970)) with n by lia. lia.
Qed.

(** *** Witnesses *)
Lemma clock_settime_roundtrip_witness :
  exists h' h'', sys_clock_settime 60 (CmosRam 0 ∅) 8 1755631815 = Some (0, h') /\ get_time_s 1 h' = Some (1755631815, h'').
Proof.
  apply (clock_settime_roundtrip 60 0 (CmosRam 0 ∅) 8 1755631815).
  - discriminate.
  - unfold days_10000. lia.
  - vm_compute. reflexivity.
  - reflexivity.
  - intros y d E. vm_compute in E. injection E as <- <-. reflexivity.
Defined.
