(* ===== verification/Uds.v ===== *)
(** * Uds: local sockets

    src/core/network/af_unix/: the tables and structures of af_unix.h, the
    datagram sockets of dgram.h and the stream sockets of stream.h.  The
    structures are bytes of memory at the offsets of [struct uds_tuple] and
    [struct uds_tuple_stream], because the code copies, compares and erases them
    as bytes; the two tables hold addresses, and a null address that is followed
    is a fault.  Calls that sleep are modelled up to that point and from the
    point where they run again. *)
From S2P Require Import Prelude Bytes MemLib StrLib Time KState Blocks Threads Descr Inet.
Open Scope Z_scope.

(** ** Data *)
Definition UDS_MAX_PATH : Z := 108.
Definition DGRAM_ADDITIONAL_SOCKET_BLOCK_COUNT : Z := 3.
Definition STREAM_ADDITIONAL_SOCKET_BLOCK_COUNT : Z := 1.
Definition MAX_UDS_SOCKETS_COUNT : Z := 5120.
Definition MAX_UDS_LISTENS_COUNT : Z := 5120.
Definition NET_BLOCK_SIZE : Z := 4096.
Definition DGRAM_MTU : Z := 1024.
Definition ECONNRESET : Z := 104.
Definition EOPNOTSUPP : Z := 95.
Inductive uds_state_t :=
  UDS_STATE_CLOSED | UDS_STATE_BOUND | UDS_STATE_LISTEN | UDS_STATE_BACKLOG_CLIENT | UDS_STATE_BACKLOG_SERVER | UDS_STATE_ESTABLISHED.
Definition uds_state_code (s : uds_state_t) : Z :=
  match s with
  | UDS_STATE_CLOSED => 0 | UDS_STATE_BOUND => 1 | UDS_STATE_LISTEN => 2 | UDS_STATE_BACKLOG_CLIENT => 3
  | UDS_STATE_BACKLOG_SERVER => 4 | UDS_STATE_ESTABLISHED => 5
  end.
Inductive uds_socket_type := UDS_NONE | UDS_DGRAM | UDS_STREAM.
Definition uds_type_code (t : uds_socket_type) : Z := match t with UDS_NONE => 0 | UDS_DGRAM => 1 | UDS_STREAM => 2 end.

(** Offsets in [struct uds_tuple] and [struct uds_tuple_stream]. *)
Definition ut_id : Z := 0.
Definition ut_type : Z := 8.
Definition ut_local_path : Z := 12.
Definition ut_remote_path : Z := 120.
Definition ut_state : Z := 228.
Definition ut_recv_wait_flag : Z := 232.
Definition ut_time_sec : Z := 240.
Definition ut_time_microsec : Z := 248.
Definition ut_head : Z := 256.
Definition ut_tail : Z := 264.
Definition sizeof_uds_tuple : Z := 272.
Definition us_retry_count : Z := 272.
Definition us_listen_wait_flag : Z := 296.
Definition us_listen_id : Z := 304.
Definition us_peer_id : Z := 312.
Definition sizeof_uds_tuple_stream : Z := 320.
(** [sun_path] of [struct sockaddr_uds]. *)
Definition sun_path : Z := 2.

Record uds := Uds { u_k : kstate; u_mem : mem; uds_socket_global : gmap Z Z; uds_listen_global : gmap Z Z }.
Definition set_u_k (k : kstate) (s : uds) : uds := Uds k (u_mem s) (uds_socket_global s) (uds_listen_global s).
Definition set_u_mem (m : mem) (s : uds) : uds := Uds (u_k s) m (uds_socket_global s) (uds_listen_global s).
Definition set_uds_sockets (t : gmap Z Z) (s : uds) : uds := Uds (u_k s) (u_mem s) t (uds_listen_global s).
Definition set_uds_listens (t : gmap Z Z) (s : uds) : uds := Uds (u_k s) (u_mem s) (uds_socket_global s) t.
Definition usock (s : uds) (i : Z) : Z := default 0 (uds_socket_global s !! i).
Definition ulisten (s : uds) (i : Z) : Z := default 0 (uds_listen_global s !! i).

(** The address of a local structure and of a local word on the stack. *)
Class UdsEnv := { uds_local : Z; uds_word : Z; uds_tmp_buf : Z }.

Section Access.
Definition u_kern {A} (c : ST kstate A) : ST uds A := fun s =>
  match c (u_k s) with
  | Done (a, k) => Done (a, set_u_k k s)
  | Panicked => Panicked | Faulted => Faulted | Stuck => Stuck
  end.
Definition u_ld (n : nat) (a : Z) : ST uds Z := gets (fun s => ld_le n (u_mem s) a).
Definition u_upd (f : mem -> mem) : ST uds unit := modify (fun s => set_u_mem (f (u_mem s)) s).
Definition u_st (n : nat) (a v : Z) : ST uds unit := u_upd (fun m => st_le n m a v).
Definition nonnull (a : Z) : ST uds unit := if a =? 0 then fault else mret tt.
Definition ended {A} (o : option A) : ST uds A := match o with Some a => mret a | None => stuck end.
(** The structure of a socket, followed through the table. *)
Definition the_sock (id : Z) : ST uds Z := a ← gets (fun s => usock s id); _ ← nonnull a; mret a.
Definition u_strequal (fuel : nat) (p q : Z) : ST uds bool := m ← gets u_mem; ended (strequal fuel m p q).
Definition u_strcpy (fuel : nat) (d p : Z) : ST uds unit :=
  m ← gets u_mem; m' ← ended (strcpy fuel m d p); u_upd (fun _ => m').
(** [fifo_read8] and [fifo_write8] on the ring behind a structure. *)
Definition u_ring_read (a off len n out : Z) : ST uds Z :=
  hd ← u_ld 8 (a + ut_head);
  tl ← u_ld 8 (a + ut_tail);
  m ← gets u_mem;
  let '(m', tl', rs) := fifo_read8 m (a + off) tl hd len n out in
  _ ← u_upd (fun _ => st_le 8 m' (a + ut_tail) tl');
  mret rs.
Definition u_ring_write (a off len n inp : Z) : ST uds Z :=
  hd ← u_ld 8 (a + ut_head);
  tl ← u_ld 8 (a + ut_tail);
  m ← gets u_mem;
  let '(m', hd', rs) := fifo_write8 m (a + off) tl hd len n inp in
  _ ← u_upd (fun _ => st_le 8 m' (a + ut_head) hd');
  mret rs.
Definition u_erase (a : Z) : ST uds unit := u_upd (fun m => erase_mem8 m a 4096).
End Access.

(** ** Tables *)
Section Tables.
Context {M : Machine} (fuel : nat).

Definition uds_tuple_equal (a b : Z) : ST uds bool :=
  l ← u_strequal fuel (a + ut_local_path) (b + ut_local_path);
  if negb l then mret false
  else
    r ← u_strequal fuel (a + ut_remote_path) (b + ut_remote_path);
    if negb r then mret false
    else ta ← u_ld 4 (a + ut_type); tb ← u_ld 4 (b + ut_type); mret (ta =? tb).
(** [file_exists] is the answer of [path_exists] for the path. *)
Definition uds_addr_in_use (path : Z) (file_exists : bool) : ST uds bool :=
  r ← loop_m (Z.to_nat MAX_UDS_SOCKETS_COUNT) 0 (fun i =>
        t ← gets (fun s => usock s i);
        if t =? 0 then mret None
        else
          ty ← u_ld 4 (t + ut_type);
          if ty =? uds_type_code UDS_NONE then mret None
          else e ← u_strequal fuel path (t + ut_local_path); mret (if e : bool then Some true else None));
  mret (match r : option bool with Some _ => true | None => file_exists end).
(** [NET_STATE_SYN_RECEIVED] is the number 3 here. *)
Definition syn_received : Z := 3.
Definition backlog_match (tmp1 i : Z) : ST uds bool :=
  t ← the_sock i;
  st ← u_ld 4 (t + ut_state);
  if negb (st =? syn_received) then mret false
  else
    l ← u_strequal fuel (tmp1 + ut_local_path) (t + ut_local_path);
    if negb l then mret false else u_strequal fuel (tmp1 + ut_remote_path) (t + ut_remote_path).
Definition uds_find_ready_connection (listen_id : Z) : ST uds Z :=
  tmp1 ← gets (fun s => ulisten s listen_id);
  r ← loop_m (Z.to_nat MAX_UDS_SOCKETS_COUNT) 0 (fun i =>
        b ← backlog_match tmp1 i; mret (if b : bool then Some i else None));
  mret (match r : option Z with Some i => i | None => neg64 1 end).
(** [listens] is the address of the table: the structure compared is the slot
    itself. *)
Fixpoint count_backlog (n : nat) (tmp1 i count : Z) : ST uds Z :=
  match n with
  | O => mret count
  | S n' => b ← backlog_match tmp1 i; count_backlog n' tmp1 (i + 1) (if b : bool then count + 1 else count)
  end.
Definition count_sockets_backlog_uds (listens listen_id : Z) : ST uds Z :=
  count_backlog (Z.to_nat MAX_UDS_SOCKETS_COUNT) (listens + 8 * listen_id) 0 0.

(** Is the structure at [tuple] in the table already? *)
Definition duplicate (table : uds -> Z -> Z) (n : Z) (tuple : Z) : ST uds bool :=
  r ← loop_m (Z.to_nat n) 0 (fun i =>
        t ← gets (fun s => table s i);
        m ← gets u_mem;
        mret (if negb (t =? 0) && (memcmp m t tuple sizeof_uds_tuple =? 0) then Some tt else None));
  mret (match r : option unit with Some _ => true | None => false end).
(** The first empty slot gets [count] fresh blocks and a copy of the tuple;
    without one the size of the table is returned. *)
Definition place (table : uds -> Z -> Z) (set : Z -> Z -> uds -> uds) (n count size : Z) (tuple : Z) : ST uds (Z * option Z) :=
  i ← gets (fun s => find_idx (Z.to_nat n) 0 (fun i => table s i =? 0));
  match i : option Z with
  | None => mret (n, None)
  | Some i =>
      b ← u_kern (get_continuous_free_blocks count);
      let a := u64 (b * 4096 + HM) in
      _ ← modify (set i a);
      _ ← u_upd (fun m => memcpy m a tuple size);
      mret (i, Some a)
  end.
Definition put_sock (i a : Z) (s : uds) : uds := set_uds_sockets (<[i := a]> (uds_socket_global s)) s.
Definition put_listen (i a : Z) (s : uds) : uds := set_uds_listens (<[i := a]> (uds_listen_global s)) s.
Definition create_listen_stream (pid tuple : Z) : ST uds Z :=
  d ← duplicate ulisten MAX_UDS_LISTENS_COUNT tuple;
  if d : bool then mret (neg64 1)
  else
    r ← place ulisten put_listen MAX_UDS_LISTENS_COUNT (SOCKET_BLOCK_COUNT + STREAM_ADDITIONAL_SOCKET_BLOCK_COUNT) sizeof_uds_tuple tuple;
    mret (fst r).
Definition set_id (r : Z * option Z) : ST uds Z :=
  _ ← (match snd r with Some a => u_st 8 (a + ut_id) (fst r) | None => mret tt end); mret (fst r).
Definition create_socket_dgram (pid tuple : Z) : ST uds Z :=
  d ← duplicate usock MAX_UDS_SOCKETS_COUNT tuple;
  if d : bool then mret (neg64 1)
  else
    r ← place usock put_sock MAX_UDS_LISTENS_COUNT (SOCKET_BLOCK_COUNT + DGRAM_ADDITIONAL_SOCKET_BLOCK_COUNT) sizeof_uds_tuple tuple;
    set_id r.
Definition create_socket_stream (pid tuple : Z) : ST uds Z :=
  r ← place usock put_sock MAX_UDS_SOCKETS_COUNT (SOCKET_BLOCK_COUNT + STREAM_ADDITIONAL_SOCKET_BLOCK_COUNT) sizeof_uds_tuple_stream tuple;
  set_id r.

(** The entry compared is the one of the socket table. *)
Definition delete_listen_uds (pid tuple : Z) : ST uds Z :=
  r ← loop_m (Z.to_nat MAX_UDS_SOCKETS_COUNT) 0 (fun i =>
        l ← gets (fun s => ulisten s i);
        if l =? 0 then mret None
        else
          a ← the_sock i;
          m ← gets u_mem;
          if memcmp m a tuple sizeof_uds_tuple =? 0 then
            _ ← u_erase a;
            _ ← u_erase (a + NET_BLOCK_SIZE);
            _ ← modify (put_listen i 0);
            mret (Some tt)
          else mret None);
  mret (match r : option unit with Some _ => 0 | None => neg64 1 end).
(** The second block erased is 4096 words, not bytes, behind the first. *)
Definition erase_two (a : Z) : ST uds unit := _ ← u_erase a; u_erase (a + 8 * NET_BLOCK_SIZE).
Definition delete_socket_uds (pid tuple : Z) : ST uds Z :=
  r ← loop_m (Z.to_nat (NET_BLOCK_SIZE / 8)) 0 (fun i =>
        a ← gets (fun s => usock s i);
        m ← gets u_mem;
        if negb (a =? 0) && (memcmp m a tuple sizeof_uds_tuple =? 0) then
          _ ← erase_two a;
          _ ← modify (put_sock i 0);
          mret (Some tt)
        else mret None);
  mret (match r : option unit with Some _ => 0 | None => neg64 1 end).
Definition delete_listen_i_uds (id : Z) : ST uds Z :=
  a ← gets (fun s => ulisten s id);
  if a =? 0 then mret (neg64 1)
  else _ ← erase_two a; _ ← modify (put_listen id 0); mret 0.
Definition delete_socket_i_uds (id : Z) : ST uds Z :=
  a ← gets (fun s => usock s id);
  if a =? 0 then mret (neg64 1)
  else _ ← erase_two a; _ ← modify (put_sock id 0); mret 0.

(** *** Lookup *)
Definition find_socket_uds (tuple : Z) : ST uds Z :=
  r ← loop_m (Z.to_nat MAX_UDS_SOCKETS_COUNT) 0 (fun i =>
        t ← gets (fun s => usock s i);
        if t =? 0 then mret None
        else e ← uds_tuple_equal t tuple; mret (if e : bool then Some i else None));
  mret (match r : option Z with Some i => i | None => neg64 1 end).
(** The slots are followed without a test. *)
Definition find_socket_uds_with_local_addr (path : Z) : ST uds Z :=
  r ← loop_m (Z.to_nat MAX_UDS_SOCKETS_COUNT) 0 (fun i =>
        t ← the_sock i;
        m ← gets u_mem;
        e ← ended (strcmp fuel m path (t + ut_local_path));
        mret (if negb (e =? 0) then Some i else None));
  mret (match r : option Z with Some i => i | None => neg64 1 end).
Definition find_listen_uds (tuple : Z) : ST uds Z :=
  r ← loop_m (Z.to_nat MAX_UDS_LISTENS_COUNT) 0 (fun i =>
        t ← gets (fun s => ulisten s i);
        _ ← nonnull t;
        e ← uds_tuple_equal t tuple; mret (if e : bool then Some i else None));
  mret (match r : option Z with Some i => i | None => neg64 1 end).
End Tables.

(** ** Datagrams *)
Section Dgram.
Context {M : Machine} {UE : UdsEnv} (fuel : nat).
Definition is_type (a : Z) (t : uds_socket_type) : ST uds bool := x ← u_ld 4 (a + ut_type); mret (x =? uds_type_code t).
Definition set_state (a : Z) (st : uds_state_t) : ST uds unit := u_st 4 (a + ut_state) (uds_state_code st).

Definition handle_dgram_bind (socket_id path : Z) : ST uds bool :=
  a ← the_sock socket_id;
  ok ← is_type a UDS_DGRAM;
  if negb ok then mret false
  else
    _ ← u_strcpy fuel (a + ut_local_path) path;
    st ← u_ld 4 (a + ut_state);
    _ ← when (st =? uds_state_code UDS_STATE_CLOSED) (set_state a UDS_STATE_BOUND);
    mret true.
Definition handle_connect_dgram (socket_id addr : Z) : ST uds bool :=
  a ← the_sock socket_id;
  ok ← is_type a UDS_DGRAM;
  if negb ok then mret false
  else
    r ← loop_m (Z.to_nat MAX_UDS_SOCKETS_COUNT) 0 (fun i =>
          t ← the_sock i;
          dg ← is_type t UDS_DGRAM;
          if negb dg then mret None
          else
            e ← u_strequal fuel (t + ut_local_path) (addr + sun_path);
            st ← u_ld 4 (t + ut_state);
            mret (if e && negb (st =? uds_state_code UDS_STATE_CLOSED) then Some t else None));
    match r : option Z with
    | None => mret false
    | Some t =>
        _ ← u_strcpy fuel (a + ut_remote_path) (addr + sun_path);
        _ ← set_state t UDS_STATE_ESTABLISHED;
        _ ← set_state a UDS_STATE_ESTABLISHED;
        mret true
    end.

(** The ring is rounded up to whole datagrams, past the blocks of the socket;
    the length is read at the head. *)
Definition dgram_buf_len : Z := div_ceil (SOCKET_BLOCK_COUNT * 4096 - sizeof_uds_tuple) DGRAM_MTU * DGRAM_MTU.
Definition dgram_record (a hd : Z) : Z :=
  a + (SOCKET_BLOCK_COUNT + DGRAM_ADDITIONAL_SOCKET_BLOCK_COUNT - 1) * 4096 + 8 * (hd / DGRAM_MTU).
Definition dgram_take (a payload payload_len : Z) : ST uds Z :=
  rs ← u_ring_read a sizeof_uds_tuple dgram_buf_len DGRAM_MTU uds_tmp_buf;
  _ ← u_upd (fun m => memcpy m payload uds_tmp_buf payload_len);
  mret rs.
Definition dgram_start (a payload payload_len : Z) : ST uds Z :=
  _ ← u_upd (fun m => memset m payload 0 payload_len);
  hd ← u_ld 8 (a + ut_head);
  len ← u_ld 8 (dgram_record a hd);
  _ ← u_upd (fun m => memset m uds_tmp_buf 0 DGRAM_MTU);
  mret len.
(** The comparison is unsigned. *)
Definition cut (len payload_len : Z) : Z := if payload_len <? len then payload_len else len.
(** No value when nothing was read: [junk]. *)
Definition read_socket_dgram_non_blocking (junk a payload payload_len : Z) : ST uds Z :=
  len ← dgram_start a payload payload_len;
  rs ← dgram_take a payload payload_len;
  mret (if negb (rs =? 0) && negb (len =? 0) then cut len payload_len else junk).
(** [None]: the thread sleeps; it goes on with [read_socket_dgram_resume] and
    the length read before. *)
Definition read_socket_dgram_blocking (a payload payload_len : Z) : ST uds (option Z * Z) :=
  len ← dgram_start a payload payload_len;
  rs ← dgram_take a payload payload_len;
  if negb (rs =? 0) then mret (Some (cut len payload_len), len)
  else _ ← u_kern (sleep_by_resource (a + ut_recv_wait_flag) THREAD_BLOCKED_NETWORK); mret (None, len).
(** [NET_STATE_CLOSE_WAIT] is the number 7. *)
Definition read_socket_dgram_resume (a payload payload_len len : Z) : ST uds Z :=
  st ← u_ld 4 (a + ut_state);
  if st =? 7 then mret (- EBADF)
  else _ ← dgram_take a payload payload_len; mret (cut len payload_len).
Definition read_socket_dgram (junk a payload payload_len : Z) (flags_non_blocking : bool) : ST uds (option Z * Z) :=
  if DGRAM_MTU <? payload_len then mret (Some (- EINVAL), 0)
  else if flags_non_blocking then r ← read_socket_dgram_non_blocking junk a payload payload_len; mret (Some r, 0)
  else read_socket_dgram_blocking a payload payload_len.
Definition dgram_ring_size : Z := SOCKET_BLOCK_COUNT * 4096 - sizeof_uds_tuple.
Definition read_socket_by_id_uds (socket_id payload payload_len : Z) : ST uds Z :=
  a ← the_sock socket_id; u_ring_read a sizeof_uds_tuple dgram_ring_size payload_len payload.
Definition socket_append_uds (socket_id payload payload_len : Z) : ST uds Z :=
  a ← the_sock socket_id; u_ring_write a sizeof_uds_tuple dgram_ring_size payload_len payload.
Definition listen_append_uds (listen_id payload payload_len : Z) : ST uds bool :=
  a ← gets (fun s => ulisten s listen_id);
  _ ← nonnull a;
  rs ← u_ring_write a sizeof_uds_tuple dgram_ring_size payload_len payload; mret (negb (rs =? 0)).
Definition handle_dgram_packet (path payload payload_len : Z) : ST uds bool :=
  if payload_len =? 0 then mret false
  else
    id ← find_socket_uds_with_local_addr fuel path;
    if id =? neg64 1 then mret false
    else
      a ← the_sock id;
      _ ← socket_append_uds id payload payload_len;
      _ ← u_kern (modify (map_threads (fun _ => wake_on (a + ut_recv_wait_flag))));
      mret true.
Definition handle_dgram (socket_id buf buf_len : Z) : ST uds unit :=
  a ← the_sock socket_id;
  _ ← handle_dgram_packet (a + ut_local_path) buf buf_len; mret tt.
End Dgram.

(** ** Streams *)
Section Stream.
Context {M : Machine} {UE : UdsEnv} (fuel : nat).

(** The backlog of a listening socket is a ring of socket numbers of eight
    bytes each, up to the end of its additional block. *)
Definition backlog_size : Z := 4096 * (SOCKET_BLOCK_COUNT + TCP_ADDITIONAL_SOCKET_BLOCK_COUNT) - sizeof_uds_tuple_stream.
Definition push_backlog_stream (child_sockid listener_id : Z) : ST uds Z :=
  a ← the_sock listener_id;
  _ ← u_st 8 uds_word child_sockid;
  u_ring_write a sizeof_uds_tuple_stream backlog_size 8 uds_word.
Definition pull_backlog_stream (listener_id : Z) : ST uds Z :=
  a ← the_sock listener_id;
  _ ← u_st 8 uds_word (neg64 1);
  n ← u_ring_read a sizeof_uds_tuple_stream backlog_size 8 uds_word;
  if negb (n =? 0) then u_ld 8 uds_word else mret (neg64 1).

Definition handle_stream_bind (socket_id path : Z) : ST uds bool :=
  a ← the_sock socket_id;
  ok ← is_type a UDS_STREAM;
  if negb ok then mret false
  else
    _ ← u_strcpy fuel (a + ut_local_path) path;
    _ ← set_state a UDS_STATE_BOUND;
    mret true.
(** A socket that listens on [path]. *)
Definition listens_on (path i : Z) : ST uds bool :=
  t ← gets (fun s => usock s i);
  if t =? 0 then mret false
  else
    ok ← is_type t UDS_STREAM;
    if negb ok then mret false
    else
      e ← u_strequal fuel (t + ut_local_path) path;
      st ← u_ld 4 (t + ut_state);
      mret (e && (st =? uds_state_code UDS_STATE_LISTEN)).
Definition find_listening (path : Z) : ST uds (option Z) :=
  loop_m (Z.to_nat MAX_UDS_SOCKETS_COUNT) 0 (fun i =>
    b ← listens_on path i; mret (if b : bool then Some i else None)).
(** The number of the listening entry is returned as a truth value. *)
Definition handle_stream_listen (socket_id : Z) : ST uds bool :=
  a ← the_sock socket_id;
  ok ← is_type a UDS_STREAM;
  if negb ok then mret false
  else
    st ← u_ld 4 (a + ut_state);
    if negb (st =? uds_state_code UDS_STATE_BOUND) then mret false
    else
      other ← find_listening (a + ut_local_path);
      match other : option Z with
      | Some _ => mret false
      | None =>
          _ ← set_state a UDS_STATE_LISTEN;
          _ ← u_st 8 (a + ut_head) 0;
          _ ← u_st 8 (a + ut_tail) 0;
          _ ← u_upd (fun m => MemLib.st_le 1 m (a + ut_remote_path) 0);
          pid ← u_kern get_current_pid;
          r ← create_listen_stream pid a;
          mret (negb (r =? 0))
      end.
(** The first thread that sleeps on the flag; the answer is a truth value. *)
Definition resume_first_thread_pending_on_listen_stream (listener_id : Z) : ST uds bool :=
  a ← gets (fun s => usock s listener_id);
  let flag_addr := a + us_listen_wait_flag in
  r ← gets (fun s => find_idx (Z.to_nat MAX_THREADS_COUNT) 0 (fun i =>
        match thread (u_k s) i with
        | Some t => bool_decide (t_state t = THREAD_BLOCKED_UDS /\ t_sleep_flag_addr t = flag_addr)
        | None => false
        end));
  match r : option Z with
  | Some i => _ ← u_kern (modify (upd_thread i (set_t_state THREAD_READY))); mret (negb (i =? 0))
  | None => mret true
  end.
Definition handle_connect_stream (client_sock_id addr : Z) : ST uds bool :=
  client ← the_sock client_sock_id;
  ok ← is_type client UDS_STREAM;
  if negb ok then mret false
  else
    st ← u_ld 4 (client + ut_state);
    if negb (st =? uds_state_code UDS_STATE_CLOSED) && negb (st =? uds_state_code UDS_STATE_BOUND) then mret false
    else
      found ← find_listening (addr + sun_path);
      match found : option Z with
      | None => mret false
      | Some listening_sock_id =>
          _ ← set_state client UDS_STATE_BACKLOG_CLIENT;
          _ ← u_upd (fun m => erase_mem8 m uds_local sizeof_uds_tuple_stream);
          pid ← u_kern get_current_pid;
          server_sock_id ← create_socket_stream pid uds_local;
          server ← the_sock server_sock_id;
          _ ← set_state server UDS_STATE_BACKLOG_SERVER;
          _ ← u_st 4 (server + ut_type) (uds_type_code UDS_STREAM);
          _ ← u_st 8 (server + us_peer_id) client_sock_id;
          _ ← u_st 8 (client + us_peer_id) server_sock_id;
          _ ← push_backlog_stream server_sock_id listening_sock_id;
          _ ← resume_first_thread_pending_on_listen_stream listening_sock_id;
          mret true
      end.
(** What accept does with a connection it took from the backlog. *)
Definition accept_connection (server_sock_id : Z) : ST uds Z :=
  server ← the_sock server_sock_id;
  client_sock_id ← u_ld 8 (server + us_peer_id);
  client ← the_sock client_sock_id;
  _ ← set_state server UDS_STATE_ESTABLISHED;
  _ ← set_state client UDS_STATE_ESTABLISHED;
  pid ← u_kern get_current_pid;
  p ← u_kern (gets (fun k => proc k pid) ≫= deref);
  let fds := p_fd_addr p in
  m ← gets u_mem;
  match get_a_free_slot_with_size m fds 0 MAX_FD_INNER sizeof_file_inner with
  | None => panic
  | Some fd =>
      let newfd := fd_entry fds fd in
      _ ← u_st 4 (newfd + fi_type) (file_type_code FILE_SOCKET_UDS);
      _ ← u_st 4 (newfd + fi_open_flags) O_RDWR;
      _ ← u_st 8 (newfd + fi_res_id) server_sock_id;
      mret fd
  end.
(** The second half: the backlog is pulled again, also when the first pull
    found a connection. *)
Definition accept_again (listener_id : Z) : ST uds Z :=
  id ← pull_backlog_stream listener_id;
  if id =? neg64 1 then mret (-1) else accept_connection id.
(** [None]: the thread sleeps, and runs [accept_again] when it is woken. *)
Definition handle_stream_accept (listener_id : Z) : ST uds (option Z) :=
  a ← the_sock listener_id;
  ok ← is_type a UDS_STREAM;
  if negb ok then mret (Some (- EOPNOTSUPP))
  else
    id ← pull_backlog_stream listener_id;
    if id =? neg64 1 then
      _ ← u_kern (sleep_by_resource (a + us_listen_wait_flag) THREAD_BLOCKED_UDS); mret None
    else r ← accept_again listener_id; mret (Some r).

Definition stream_ring_size : Z := SOCKET_BLOCK_COUNT * 4096 - sizeof_uds_tuple_stream.
Definition socket_append_uds_stream (socket_id payload payload_len : Z) : ST uds Z :=
  a ← the_sock socket_id; u_ring_write a sizeof_uds_tuple_stream stream_ring_size payload_len payload.
(** The thread woken is one that waits to accept, not one that waits to read. *)
Definition handle_stream_established_packet (socket_id payload payload_len : Z) : ST uds bool :=
  a ← the_sock socket_id;
  ok ← is_type a UDS_STREAM;
  if negb ok then mret false
  else
    st ← u_ld 4 (a + ut_state);
    if negb (st =? uds_state_code UDS_STATE_ESTABLISHED) then mret false
    else
      _ ← socket_append_uds_stream socket_id payload payload_len;
      _ ← resume_first_thread_pending_on_listen_stream socket_id;
      mret false.
Definition handle_stream_close (socket_id : Z) : ST uds bool :=
  a ← the_sock socket_id;
  ok ← is_type a UDS_STREAM;
  if negb ok then mret false
  else
    st ← u_ld 4 (a + ut_state);
    if st =? uds_state_code UDS_STATE_CLOSED then mret false
    else
      _ ← set_state a UDS_STATE_CLOSED;
      _ ← resume_first_thread_pending_on_listen_stream socket_id;
      _ ← u_kern get_current_pid;
      lid ← u_ld 8 (a + us_listen_id);
      _ ← delete_listen_i_uds lid;
      _ ← delete_socket_i_uds socket_id;
      mret true.
(** [None]: the thread sleeps, and reads again when it is woken. *)
Definition read_socket_stream_again (socket_id payload payload_len : Z) : ST uds bool :=
  a ← the_sock socket_id;
  rs ← u_ring_read a sizeof_uds_tuple_stream stream_ring_size payload_len payload; mret (negb (rs =? 0)).
Definition read_socket_stream (socket_id payload payload_len : Z) : ST uds (option bool) :=
  a ← the_sock socket_id;
  rs ← u_ring_read a sizeof_uds_tuple_stream stream_ring_size payload_len payload;
  if negb (rs =? 0) then mret (Some true)
  else _ ← u_kern (sleep_by_resource (a + ut_recv_wait_flag) THREAD_BLOCKED_UDS); mret None.
(** [now]: the clock. *)
Definition handle_stream (now : timeval) (socket_id buf buf_len : Z) : ST uds Z :=
  a ← the_sock socket_id;
  ok ← is_type a UDS_STREAM;
  if negb ok then mret (neg64 ECONNRESET)
  else
    st ← u_ld 4 (a + ut_state);
    if negb (st =? uds_state_code UDS_STATE_ESTABLISHED) then mret (neg64 ECONNRESET)
    else
      _ ← handle_stream_established_packet socket_id buf buf_len;
      _ ← u_st 8 (a + ut_time_sec) (tv_sec now);
      _ ← u_st 4 (a + ut_time_microsec) (tv_microsec now);
      mret 0.

(** ** Dispatch *)
Definition handle_uds (now : timeval) (uds_sock_id buf buf_len : Z) : ST uds unit :=
  a ← the_sock uds_sock_id;
  dg ← is_type a UDS_DGRAM;
  _ ← when dg (handle_dgram fuel uds_sock_id buf buf_len);
  sm ← is_type a UDS_STREAM;
  when sm (_ ← handle_stream now uds_sock_id buf buf_len; mret tt).
(** The receiver is looked up by path for both types. *)
Definition uds_send_dispatch (now : timeval) (sender data len dst_addr : Z) : ST uds bool :=
  dst ← (if dst_addr =? 0 then a ← the_sock sender; mret (a + ut_remote_path) else mret dst_addr);
  receiver ← find_socket_uds_with_local_addr fuel dst;
  if receiver =? neg64 1 then mret false
  else _ ← handle_uds now receiver data len; mret true.
Definition nic_send_dgram_package (now : timeval) (socket_id payload payload_len : Z) : ST uds bool :=
  _ ← uds_send_dispatch now socket_id payload payload_len 0; mret true.
Definition send_stream_established_packet (now : timeval) (socket_id payload payload_len : Z) : ST uds bool :=
  a ← the_sock socket_id;
  ok ← is_type a UDS_STREAM;
  if negb ok then mret false
  else
    st ← u_ld 4 (a + ut_state);
    if negb (st =? uds_state_code UDS_STATE_ESTABLISHED) then mret false
    else _ ← uds_send_dispatch now socket_id payload payload_len 0; mret true.

(** One round of the kernel thread over the first 512 slots.
    [NET_STATE_TIME_WAIT] is the number 10, which no local socket has. *)
Definition stream_round (now : timeval) (i : Z) : ST uds unit :=
  a ← the_sock i;
  ok ← is_type a UDS_STREAM;
  if negb ok then mret tt
  else
    retry ← u_ld 1 (a + us_retry_count);
    _ ← when ((0 <? retry) && (retry <? 4))
          (l ← u_ld 8 (a + 4096 * 4 - 8);
           let len := u32 l in
           _ ← uds_send_dispatch now i (a + sizeof_uds_tuple_stream) (if 1500 <? len then 1500 else len) 0;
           r ← u_ld 1 (a + us_retry_count);
           u_st 1 (a + us_retry_count) (u8 (r + 1)));
    st ← u_ld 4 (a + ut_state);
    when (st =? 10)
      (r ← u_ld 1 (a + us_retry_count);
       _ ← u_st 1 (a + us_retry_count) (u8 (r + 1));
       sec ← u_ld 8 (a + ut_time_sec);
       us ← u_ld 4 (a + ut_time_microsec);
       when (_later (subtract_time_us now 60) (Timeval sec us))
         (_ ← u_st 4 (a + ut_state) 0; _ ← delete_socket_i_uds i; mret tt)).
Definition kernel_thread_stream_round (now : timeval) : ST uds unit := for_m (Z.to_nat (4096 / 8)) 0 (stream_round now).
End Stream.

(** ** The rings behind the structures *)
Definition u_ring (m : mem) (a off len : Z) : list Z :=
  byte_queue m (a + off) len (ld_le 8 m (a + ut_tail)) (ld_le 8 m (a + ut_head)).
(** The ring lies behind the two positions, which are inside it. *)
Definition ring_ok (m : mem) (a off len : Z) : Prop :=
  sizeof_uds_tuple <= off /\ 0 < len < 2 ^ 64 /\
  0 <= ld_le 8 m (a + ut_tail) < len /\ 0 <= ld_le 8 m (a + ut_head) < len.

Section Rings.
(** Memory that differs elsewhere holds the same ring. *)
Lemma u_ring_frame m m' a off len : ring_ok m a off len ->
  (forall x, a + ut_head <= x < a + off + len -> ld m' x = ld m x) ->
  ring_ok m' a off len /\ u_ring m' a off len = u_ring m a off len.
Proof.
  unfold ring_ok, u_ring, ut_head, ut_tail, sizeof_uds_tuple. intros (Ho & Hl & Ht & Hh) H.
  assert (E1 : ld_le 8 m' (a + 264) = ld_le 8 m (a + 264)) by (apply ld_le_frame; intros x Hx; apply H; lia).
  assert (E2 : ld_le 8 m' (a + 256) = ld_le 8 m (a + 256)) by (apply ld_le_frame; intros x Hx; apply H; lia).
  rewrite E1, E2. split; [tauto|]. apply byte_queue_frame; [lia|lia|]. intros x Hx. apply H. lia.
Qed.
Lemma u_ring_write_spec s a off len n inp :
  ring_ok (u_mem s) a off len -> 0 <= n < 2 ^ 64 -> a + off + len <= inp \/ inp + n <= a + off ->
  exists m' k,
    u_ring_write a off len n inp s = Done (Z.of_nat k, set_u_mem m' s) /\
    Z.of_nat k = Z.min n (len - 1 - Z.of_nat (length (u_ring (u_mem s) a off len))) /\
    ring_ok m' a off len /\
    u_ring m' a off len = u_ring (u_mem s) a off len ++ cells (u_mem s) inp k /\
    (forall x, ~ (a + off <= x < a + off + len) -> ~ (a + ut_head <= x < a + ut_tail) -> ld m' x = ld (u_mem s) x).
Proof.
  unfold ring_ok, u_ring, ut_head, ut_tail, sizeof_uds_tuple. intros (Ho & Hl & Ht & Hh) Hn Hd.
  destruct (fifo_write8_queue (a + off) len Hl (u_mem s) _ _ n inp Ht Hh Hn Hd) as (m1 & hd & k & E & Hk & Hhd & HQ & HF).
  exists (st_le 8 m1 (a + 256) hd), k.
  assert (Et : ld_le 8 (st_le 8 m1 (a + 256) hd) (a + 264) = ld_le 8 (u_mem s) (a + 264)).
  { rewrite ld_le_st_le_ne by lia. apply ld_le_frame. intros x Hx. apply HF. lia. }
  rewrite ld_le_st8, Et by lia. repeat apply conj; try assumption; try lia.
  - unfold u_ring_write, u_ld, u_upd, ut_head, ut_tail. rewrite !gets_bind, E. reflexivity.
  - rewrite <- HQ. apply byte_queue_frame; [lia|lia|]. intros x Hx. apply st_le_ld_ne. lia.
  - intros x H1 H2. rewrite st_le_ld_ne by lia. apply HF, H1.
Qed.
Lemma u_ring_read_spec s a off len n out :
  ring_ok (u_mem s) a off len -> 0 <= n < 2 ^ 64 -> a + off + len <= out \/ out + n <= a + ut_head ->
  exists m' k,
    u_ring_read a off len n out s = Done (Z.of_nat k, set_u_mem m' s) /\
    Z.of_nat k = Z.min n (Z.of_nat (length (u_ring (u_mem s) a off len))) /\
    ring_ok m' a off len /\
    u_ring (u_mem s) a off len = cells m' out k ++ u_ring m' a off len /\
    (forall x, ~ (out <= x < out + n) -> ~ (a + ut_tail <= x < a + sizeof_uds_tuple) -> ld m' x = ld (u_mem s) x).
Proof.
  unfold ring_ok, u_ring, ut_head, ut_tail, sizeof_uds_tuple. intros (Ho & Hl & Ht & Hh) Hn Hd.
  assert (Hd' : a + off + len <= out \/ out + n <= a + off) by lia.
  destruct (fifo_read8_queue (a + off) len Hl (u_mem s) _ _ n out Ht Hh Hn Hd') as (m1 & tl & k & E & Hk & Htl & HQ & HF).
  exists (st_le 8 m1 (a + 264) tl), k.
  assert (Eh : ld_le 8 (st_le 8 m1 (a + 264) tl) (a + 256) = ld_le 8 (u_mem s) (a + 256)).
  { rewrite ld_le_st_le_ne by lia. apply ld_le_frame. intros x Hx. apply HF. lia. }
  rewrite ld_le_st8, Eh by lia. repeat apply conj; try assumption; try lia.
  - unfold u_ring_read, u_ld, u_upd, ut_head, ut_tail. rewrite !gets_bind, E. reflexivity.
  - rewrite HQ. f_equal.
    + apply cells_ext. intros x Hx. symmetry. apply st_le_ld_ne. lia.
    + symmetry. apply byte_queue_frame; [lia|lia|]. intros x Hx. apply st_le_ld_ne. lia.
  - intros x H1 H2. rewrite st_le_ld_ne by lia. apply HF, H1.
Qed.
End Rings.

(** ** The backlog as a queue of socket numbers *)
Definition id_bytes (c : Z) : list Z := cells (st_le 8 ∅ 0 c) 0 8.
Definition backlog_is (m : mem) (a : Z) (q : list Z) : Prop :=
  ring_ok m a sizeof_uds_tuple_stream backlog_size /\
  Forall (fun c => 0 <= c < 2 ^ 64 - 1) q /\
  u_ring m a sizeof_uds_tuple_stream backlog_size = concat (map id_bytes q).
(** The local word of the two calls does not lie in the socket. *)
Definition word_apart {UE : UdsEnv} (a : Z) : Prop := a + 6 * 4096 <= uds_word \/ uds_word + 8 <= a.
(** Only the word and the read position may differ. *)
Definition pulled {UE : UdsEnv} (a : Z) (s s' : uds) : Prop :=
  u_k s' = u_k s /\ uds_socket_global s' = uds_socket_global s /\ uds_listen_global s' = uds_listen_global s /\
  forall x, ~ (uds_word <= x < uds_word + 8) -> ~ (a + ut_tail <= x < a + sizeof_uds_tuple) -> ld (u_mem s') x = ld (u_mem s) x.

Section Backlog.
Context {M : Machine} {UE : UdsEnv}.
Lemma cells_st8 m a v : cells (st_le 8 m a v) a 8 = id_bytes v.
Proof.
  apply list_eq. intros i. destruct (decide (i < 8)%nat) as [Hi|Hi].
  - unfold id_bytes. rewrite !lookup_cells by lia. f_equal. rewrite !st_le_ld.
    repeat (ztest; cbn [andb]); try lia. f_equal. f_equal. lia.
  - rewrite !lookup_ge_None_2 by (unfold id_bytes; rewrite length_cells; lia). reflexivity.
Qed.
Lemma ld_le_id_bytes m a c : 0 <= c < 2 ^ 64 -> cells m a 8 = id_bytes c -> ld_le 8 m a = c.
Proof.
  intros Hc H. unfold id_bytes in H. rewrite (ld_le_cells 8 _ _ _ _ H). apply ld_le_st8, Hc.
Qed.
Lemma length_id_bytes c : length (id_bytes c) = 8%nat.
Proof. apply length_cells. Qed.
Lemma length_ids q : length (concat (map id_bytes q)) = (8 * length q)%nat.
Proof. induction q as [|c q IH]; cbn [map concat]; [reflexivity|]. rewrite length_app, length_id_bytes, IH. cbn. lia. Qed.
Lemma the_sock_ok {A} s L a (f : Z -> ST uds A) : usock s L = a -> a <> 0 -> (the_sock L ≫= f) s = f a s.
Proof.
  intros E Ha. unfold the_sock. cbv [mbind st_bind gets]. rewrite E. unfold nonnull.
  rewrite (proj2 (Z.eqb_neq a 0) Ha). reflexivity.
Qed.
Lemma is_type_ok {A} s a t (f : bool -> ST uds A) : (is_type a t ≫= f) s = f (ld_le 4 (u_mem s) (a + ut_type) =? uds_type_code t) s.
Proof. reflexivity. Qed.

Lemma pull_backlog_spec s L a q :
  usock s L = a -> a <> 0 -> word_apart a -> backlog_is (u_mem s) a q ->
  exists s', pull_backlog_stream L s = Done (match q with [] => neg64 1 | c :: _ => c end, s') /\
    backlog_is (u_mem s') a (tl q) /\ pulled a s s'.
Proof.
  unfold word_apart. intros E Ha Hw (Hok & Hq & HR).
  unfold pull_backlog_stream. rewrite (the_sock_ok s L a) by assumption.
  unfold u_st, u_upd. rewrite modify_bind. set (m0 := st_le 8 (u_mem s) uds_word (neg64 1)).
  assert (H0 : forall x, a <= x < a + 6 * 4096 -> ld m0 x = ld (u_mem s) x)
    by (intros x Hx; apply st_le_ld_ne; lia).
  destruct (u_ring_frame (u_mem s) m0 a sizeof_uds_tuple_stream backlog_size Hok) as [Hok0 HR0].
  { intros x Hx. apply H0. unfold ut_head, sizeof_uds_tuple_stream, backlog_size, SOCKET_BLOCK_COUNT,
      TCP_ADDITIONAL_SOCKET_BLOCK_COUNT, sizeof_uds_tuple_stream in Hx. lia. }
  destruct (u_ring_read_spec (set_u_mem m0 s) a sizeof_uds_tuple_stream backlog_size 8 uds_word Hok0)
    as (m1 & k & E1 & Hk & Hok1 & HR1 & HF1); [lia| |].
  { unfold ut_head, sizeof_uds_tuple_stream, backlog_size, SOCKET_BLOCK_COUNT,
      TCP_ADDITIONAL_SOCKET_BLOCK_COUNT, sizeof_uds_tuple_stream. lia. }
  cbn [u_mem set_u_mem] in Hk, HR1, HF1. rewrite HR0, HR in HR1, Hk. rewrite length_ids in Hk.
  assert (HP : pulled a s (set_u_mem m1 s)).
  { repeat apply conj; try reflexivity. intros x H1 H2. cbn [u_mem set_u_mem]. rewrite HF1 by assumption.
    apply st_le_ld_ne; lia. }
  rewrite (bind_done _ _ _ _ _ E1).
  destruct q as [|c q]; cbn [map concat length] in *.
  - replace k with 0%nat in * by lia. cbn [Z.of_nat negb Z.eqb]. exists (set_u_mem m1 s).
    split; [reflexivity|]. split; [|exact HP]. split; [exact Hok1|]. split; [constructor|]. symmetry. exact HR1.
  - replace k with 8%nat in * by lia. cbn [Z.of_nat negb Z.eqb Pos.of_succ_nat Pos.succ].
    inversion Hq as [|? ? Hc Hq']; subst.
    assert (HL : length (id_bytes c) = length (cells m1 uds_word 8)) by (rewrite length_id_bytes, length_cells; reflexivity).
    destruct (app_inj_1 _ _ _ _ HL HR1) as [HC HT].
    exists (set_u_mem m1 s). split; [|split; [|exact HP]].
    + etrans; [|exact (f_equal (fun v => Done (v, set_u_mem m1 s)) (ld_le_id_bytes m1 uds_word c ltac:(lia) (eq_sym HC)))].
      reflexivity.
    + split; [exact Hok1|]. split; [exact Hq'|]. symmetry. exact HT.
Qed.
Lemma pulled_trans a s s1 s2 : pulled a s s1 -> pulled a s1 s2 -> pulled a s s2.
Proof.
  intros (A1 & B1 & C1 & D1) (A2 & B2 & C2 & D2). repeat apply conj; try congruence.
  intros x H1 H2. rewrite D2, D1 by assumption. reflexivity.
Qed.
Lemma push_backlog_spec s L a q c :
  usock s L = a -> a <> 0 -> word_apart a -> backlog_is (u_mem s) a q ->
  0 <= c < 2 ^ 64 - 1 -> 8 * (Z.of_nat (length q) + 1) < backlog_size ->
  exists s', push_backlog_stream c L s = Done (8, s') /\ backlog_is (u_mem s') a (q ++ [c]) /\
    u_k s' = u_k s /\ uds_socket_global s' = uds_socket_global s /\ uds_listen_global s' = uds_listen_global s /\
    forall x, ~ (uds_word <= x < uds_word + 8) -> ~ (a + ut_head <= x < a + ut_tail) ->
      ~ (a + sizeof_uds_tuple_stream <= x < a + 6 * 4096) -> ld (u_mem s') x = ld (u_mem s) x.
Proof.
  unfold word_apart. intros E Ha Hw (Hok & Hq & HR) Hc Hroom.
  unfold push_backlog_stream. rewrite (the_sock_ok s L a) by assumption.
  unfold u_st, u_upd. rewrite modify_bind. set (m0 := st_le 8 (u_mem s) uds_word c).
  assert (Hsz : sizeof_uds_tuple_stream + backlog_size = 6 * 4096) by reflexivity.
  destruct (u_ring_frame (u_mem s) m0 a sizeof_uds_tuple_stream backlog_size Hok) as [Hok0 HR0].
  { intros x Hx. apply st_le_ld_ne. unfold ut_head in Hx. lia. }
  destruct (u_ring_write_spec (set_u_mem m0 s) a sizeof_uds_tuple_stream backlog_size 8 uds_word Hok0)
    as (m1 & k & E1 & Hk & Hok1 & HR1 & HF1); [lia|unfold sizeof_uds_tuple_stream in *; lia|].
  cbn [u_mem set_u_mem] in Hk, HR1, HF1. rewrite HR0, HR in HR1, Hk. rewrite length_ids in Hk.
  replace k with 8%nat in * by lia. exists (set_u_mem m1 s). split; [exact E1|]. split.
  - split; [exact Hok1|]. split; [apply Forall_app; split; [exact Hq|repeat constructor; lia]|].
    etrans; [exact HR1|]. rewrite map_app, concat_app. f_equal. cbn [map concat]. rewrite app_nil_r. apply cells_st8.
  - repeat apply conj; try reflexivity. intros x H1 H2 H3. cbn [u_mem set_u_mem].
    rewrite HF1 by (assumption || lia). apply st_le_ld_ne; lia.
Qed.
End Backlog.

(** ** Connecting *)
Section Connect.
Context {M : Machine} {UE : UdsEnv} (fuel : nat).
Lemma loop_m_first {A} (f : Z -> ST uds (option A)) s a n i L :
  i <= L < i + Z.of_nat n -> (forall j, i <= j < L -> f j s = Done (None, s)) -> f L s = Done (Some a, s) ->
  loop_m n i f s = Done (Some a, s).
Proof.
  revert i. induction n as [|n IH]; intros i HL Hb HE; [lia|]. cbn [loop_m].
  destruct (Z.eq_dec i L) as [->|Hi].
  - rewrite (bind_done _ _ _ _ _ HE). reflexivity.
  - rewrite (bind_done _ _ _ _ _ (Hb i ltac:(lia))). apply IH; [lia| |exact HE]. intros j Hj. apply Hb. lia.
Qed.
(** [L] is the first socket that listens on the path. *)
Definition first_listening (path : Z) (s : uds) (L : Z) : Prop :=
  0 <= L < MAX_UDS_SOCKETS_COUNT /\ listens_on fuel path L s = Done (true, s) /\
  forall i, 0 <= i < L -> listens_on fuel path i s = Done (false, s).
Lemma find_listening_first path s L : first_listening path s L -> find_listening fuel path s = Done (Some L, s).
Proof.
  intros (HL & HT & HF). unfold find_listening.
  apply (loop_m_first _ s L _ 0 L); [unfold MAX_UDS_SOCKETS_COUNT in *; lia| |].
  - intros j Hj. rewrite (bind_done _ _ _ _ _ (HF j Hj)). reflexivity.
  - rewrite (bind_done _ _ _ _ _ HT). reflexivity.
Qed.
(** Two socket structures, or a structure and a local, do not overlap. *)
Definition apart (a b : Z) : Prop := a + 6 * 4096 <= b \/ b + 6 * 4096 <= a.
Definition local_apart (a : Z) : Prop := a + 6 * 4096 <= uds_local \/ uds_local + sizeof_uds_tuple_stream <= a.
(** The memory after the server's socket was set up and the peers were linked. *)
Definition linked (m : mem) (ac new C F : Z) : mem :=
  let m1 := erase_mem8 (st_le 4 m (ac + ut_state) (uds_state_code UDS_STATE_BACKLOG_CLIENT)) uds_local sizeof_uds_tuple_stream in
  let m2 := st_le 8 (memcpy m1 new uds_local sizeof_uds_tuple_stream) (new + ut_id) F in
  let m3 := st_le 4 (st_le 4 m2 (new + ut_state) (uds_state_code UDS_STATE_BACKLOG_SERVER)) (new + ut_type) (uds_type_code UDS_STREAM) in
  st_le 8 (st_le 8 m3 (new + us_peer_id) C) (ac + us_peer_id) F.
Lemma linked_frame m ac new C F x : local_apart new ->
  ~ (uds_local <= x < uds_local + sizeof_uds_tuple_stream) -> ~ (ac <= x < ac + 6 * 4096) -> ~ (new <= x < new + 6 * 4096) ->
  ld (linked m ac new C F) x = ld m x.
Proof.
  unfold linked, local_apart, ut_state, ut_id, ut_type, us_peer_id, sizeof_uds_tuple_stream. intros Hn H1 H2 H3.
  rewrite !st_le_ld_ne, memcpy_ne, erase_mem8_ne, st_le_ld_ne by lia. reflexivity.
Qed.
Lemma linked_server m ac new C F : local_apart new -> apart ac new -> 0 <= C < 2 ^ 64 ->
  let m' := linked m ac new C F in
  ld_le 4 m' (new + ut_state) = uds_state_code UDS_STATE_BACKLOG_SERVER /\
  ld_le 4 m' (new + ut_type) = uds_type_code UDS_STREAM /\ ld_le 8 m' (new + us_peer_id) = C.
Proof.
  unfold linked, local_apart, apart, ut_state, ut_id, ut_type, us_peer_id, sizeof_uds_tuple_stream. intros Hl Ha HC.
  rewrite !(ld_le_st_le_ne 4 8), (ld_le_st_le_ne 8 8) by lia. rewrite (ld_le_st_le_ne 4 4) by lia.
  rewrite ld_le_st8 by lia. repeat apply conj; try reflexivity; apply ld_le_st_le; cbn; lia.
Qed.
Lemma linked_client m ac new C F : local_apart ac -> local_apart new -> apart ac new -> 0 <= F < 2 ^ 64 ->
  let m' := linked m ac new C F in
  ld_le 4 m' (ac + ut_state) = uds_state_code UDS_STATE_BACKLOG_CLIENT /\ ld_le 8 m' (ac + us_peer_id) = F.
Proof.
  unfold linked, local_apart, apart, ut_state, ut_id, ut_type, us_peer_id, sizeof_uds_tuple_stream. intros Hl Hn Ha HF.
  rewrite ld_le_st8 by lia. split; [|reflexivity].
  rewrite (ld_le_st_le_ne 4 8), (ld_le_st_le_ne 4 8), !(ld_le_st_le_ne 4 4), (ld_le_st_le_ne 4 8) by lia.
  etrans; [|apply (ld_le_st_le 4 m (ac + 228)); cbn; lia].
  apply ld_le_frame. intros x Hx. rewrite memcpy_ne, erase_mem8_ne by lia. reflexivity.
Qed.

(** What a connection finds: the client, the first listening socket with its
    backlog [q], the first free slot [F] and the blocks [new] behind it. *)
Record connectable (s : uds) (C ac addr L al : Z) (q : list Z) (F b : Z) (k' : kstate) : Prop := {
  cn_client : usock s C = ac /\ ac <> 0 /\ 0 <= C < 2 ^ 64;
  cn_type : ld_le 4 (u_mem s) (ac + ut_type) = uds_type_code UDS_STREAM;
  cn_state : ld_le 4 (u_mem s) (ac + ut_state) = uds_state_code UDS_STATE_CLOSED \/
             ld_le 4 (u_mem s) (ac + ut_state) = uds_state_code UDS_STATE_BOUND;
  cn_listening : first_listening (addr + sun_path) s L;
  cn_listener : usock s L = al /\ al <> 0;
  cn_backlog : backlog_is (u_mem s) al q;
  cn_room : 8 * (Z.of_nat (length q) + 1) < backlog_size;
  cn_thread : is_Some (thread (u_k s) (gs8 (u_k s)));
  cn_slot : find_idx (Z.to_nat MAX_UDS_SOCKETS_COUNT) 0 (fun i => usock s i =? 0) = Some F;
  cn_blocks : get_continuous_free_blocks (SOCKET_BLOCK_COUNT + STREAM_ADDITIONAL_SOCKET_BLOCK_COUNT) (u_k s) = Done (b, k');
  cn_new : u64 (b * 4096 + HM) <> 0;
  cn_apart : apart ac al /\ apart ac (u64 (b * 4096 + HM)) /\ apart al (u64 (b * 4096 + HM));
  cn_local : local_apart ac /\ local_apart al /\ local_apart (u64 (b * 4096 + HM));
  cn_word : word_apart ac /\ word_apart al /\ word_apart (u64 (b * 4096 + HM))
}.
(** The state before the backlog is written. *)
Definition linked_state (s : uds) (ac C F b : Z) (k' : kstate) : uds :=
  let new := u64 (b * 4096 + HM) in
  Uds k' (linked (u_mem s) ac new C F) (<[F := new]> (uds_socket_global s)) (uds_listen_global s).
Lemma u_upd_run {A} g (f : unit -> ST uds A) s : (u_upd g ≫= f) s = f tt (set_u_mem (g (u_mem s)) s).
Proof. reflexivity. Qed.
Lemma u_ld_run {A} n a (f : Z -> ST uds A) s : (u_ld n a ≫= f) s = f (ld_le n (u_mem s) a) s.
Proof. reflexivity. Qed.
Lemma current_pid_run {A} (f : Z -> ST uds A) s t :
  thread (u_k s) (gs8 (u_k s)) = Some t -> (u_kern get_current_pid ≫= f) s = f (t_pid t) s.
Proof.
  intros Hth. assert (E : u_kern get_current_pid s = Done (t_pid t, s)); [|exact (bind_done _ _ _ _ _ E)].
  unfold u_kern, get_current_pid. rewrite gets_bind. unfold get_current_thread_id. rewrite deref_bind, Hth.
  destruct s; reflexivity.
Qed.
Lemma create_socket_stream_run s pid tup F b k' :
  find_idx (Z.to_nat MAX_UDS_SOCKETS_COUNT) 0 (fun i => usock s i =? 0) = Some F ->
  get_continuous_free_blocks (SOCKET_BLOCK_COUNT + STREAM_ADDITIONAL_SOCKET_BLOCK_COUNT) (u_k s) = Done (b, k') ->
  let new := u64 (b * 4096 + HM) in
  create_socket_stream pid tup s =
  Done (F, Uds k' (st_le 8 (memcpy (u_mem s) new tup sizeof_uds_tuple_stream) (new + ut_id) F)
             (<[F := new]> (uds_socket_global s)) (uds_listen_global s)).
Proof.
  intros HF Hb new. unfold create_socket_stream, place. unfold mbind at 1, st_bind at 1. rewrite gets_bind, HF.
  assert (E : u_kern (get_continuous_free_blocks (SOCKET_BLOCK_COUNT + STREAM_ADDITIONAL_SOCKET_BLOCK_COUNT)) s = Done (b, set_u_k k' s))
    by (unfold u_kern; rewrite Hb; reflexivity).
  rewrite (bind_done _ _ _ _ _ E). cbv zeta. rewrite modify_bind, u_upd_run. reflexivity.
Qed.
Lemma connect_runs s C ac addr L al q F b k' : connectable s C ac addr L al q F b k' ->
  handle_connect_stream fuel C addr s =
  (_ ← push_backlog_stream F L; _ ← resume_first_thread_pending_on_listen_stream L; mret true)
    (linked_state s ac C F b k').
Proof.
  intros [[Ec [Hac HC]] Ht Hs HL _ _ _ [t Hth] HF Hb Hnew _ _ _]. unfold handle_connect_stream.
  rewrite (the_sock_ok s C ac), is_type_ok, Ht, Z.eqb_refl by assumption. cbn [negb]. rewrite u_ld_run.
  replace (negb _ && negb _) with false by (destruct Hs as [-> | ->]; reflexivity).
  rewrite (bind_done _ _ _ _ _ (find_listening_first _ _ _ HL)).
  unfold set_state, u_st. rewrite !u_upd_run. rewrite (current_pid_run _ _ t) by exact Hth.
  match goal with |- (create_socket_stream ?p ?t ≫= _) ?s1 = _ =>
    rewrite (bind_done _ _ _ _ _ (create_socket_stream_run s1 p t F b k' HF Hb)) end.
  rewrite (the_sock_ok _ F (u64 (b * 4096 + HM))); [|unfold usock; cbn [uds_socket_global]; rewrite lookup_insert_eq; reflexivity|exact Hnew].
  rewrite !u_upd_run. unfold linked_state, linked. cbv zeta.
  cbn [set_u_mem u_mem u_k uds_socket_global uds_listen_global]. reflexivity.
Qed.
(** The backlog after the peers were linked. *)
Lemma linked_backlog s C ac addr L al q F b k' : connectable s C ac addr L al q F b k' ->
  usock (linked_state s ac C F b k') L = al /\ backlog_is (u_mem (linked_state s ac C F b k')) al q.
Proof.
  intros [_ _ _ _ [El Hal] (Hok & Hq & HR) _ _ HF _ _ (A1 & A2 & A3) (L1 & L2 & L3) _].
  apply find_idx_Some in HF as (_ & HF & _). split.
  - unfold usock, linked_state in *. cbn [uds_socket_global]. rewrite lookup_insert_ne; [exact El|].
    intros ->. apply Hal. rewrite <- El. apply Z.eqb_eq, HF.
  - cbn [u_mem linked_state]. destruct (u_ring_frame (u_mem s) (linked (u_mem s) ac (u64 (b * 4096 + HM)) C F) al
      sizeof_uds_tuple_stream backlog_size Hok) as [Hok' HR'].
    + intros x Hx. assert (Hx' : al <= x < al + 6 * 4096).
      { change (al + sizeof_uds_tuple_stream + backlog_size) with (al + 320 + (6 * 4096 - 320)) in Hx. unfold ut_head in Hx. lia. }
      unfold apart, local_apart in *. apply linked_frame; [exact L3|unfold sizeof_uds_tuple_stream in *; lia..].
    + split; [exact Hok'|]. split; [exact Hq|]. etrans; [exact HR'|exact HR].
Qed.
Lemma resume_run L s : exists r k', resume_first_thread_pending_on_listen_stream L s = Done (r, set_u_k k' s).
Proof.
  unfold resume_first_thread_pending_on_listen_stream. rewrite gets_bind. cbv zeta. rewrite gets_bind.
  destruct (find_idx _ _ _) as [i|]; cbn beta iota.
  - eexists _, _. reflexivity.
  - exists true, (u_k s). destruct s. reflexivity.
Qed.
Lemma listens_on_type path L s : listens_on fuel path L s = Done (true, s) ->
  ld_le 4 (u_mem s) (usock s L + ut_type) = uds_type_code UDS_STREAM.
Proof.
  unfold listens_on. rewrite gets_bind. destruct (usock s L =? 0); [intros [=]|]. rewrite is_type_ok.
  destruct (Z.eqb_spec (ld_le 4 (u_mem s) (usock s L + ut_type)) (uds_type_code UDS_STREAM)); [auto|intros [=]].
Qed.
(** The client and the server a connection leaves behind. *)
Definition peers_linked (m : mem) (ac new C F : Z) : Prop :=
  ld_le 4 m (ac + ut_state) = uds_state_code UDS_STATE_BACKLOG_CLIENT /\ ld_le 8 m (ac + us_peer_id) = F /\
  ld_le 4 m (new + ut_state) = uds_state_code UDS_STATE_BACKLOG_SERVER /\
  ld_le 4 m (new + ut_type) = uds_type_code UDS_STREAM /\ ld_le 8 m (new + us_peer_id) = C.
Lemma peers_linked_frame m m' ac new C F :
  (forall x, ac <= x < ac + 6 * 4096 \/ new <= x < new + 6 * 4096 -> ld m' x = ld m x) ->
  peers_linked m ac new C F -> peers_linked m' ac new C F.
Proof.
  intros H. unfold peers_linked, ut_state, us_peer_id, ut_type.
  rewrite !(ld_le_frame 4 m m'), !(ld_le_frame 8 m m') by (intros x Hx; apply H; lia). auto.
Qed.
Lemma push_and_resume s L al q ac new C F :
  usock s L = al -> al <> 0 -> backlog_is (u_mem s) al q -> 8 * (Z.of_nat (length q) + 1) < backlog_size ->
  0 <= F < 2 ^ 64 - 1 -> apart ac al -> apart al new -> word_apart ac -> word_apart al -> word_apart new ->
  ld_le 4 (u_mem s) (al + ut_type) = uds_type_code UDS_STREAM -> peers_linked (u_mem s) ac new C F ->
  exists s1,
    (_ ← push_backlog_stream F L; _ ← resume_first_thread_pending_on_listen_stream L; mret true) s = Done (true, s1) /\
    backlog_is (u_mem s1) al (q ++ [F]) /\ uds_socket_global s1 = uds_socket_global s /\
    ld_le 4 (u_mem s1) (al + ut_type) = uds_type_code UDS_STREAM /\ peers_linked (u_mem s1) ac new C F.
Proof.
  intros EL Hal HB Hroom HF A1 A3 W1 W2 W3 HT HP.
  destruct (push_backlog_spec s L al q F EL Hal W2 HB HF Hroom) as (s1 & E1 & HB1 & _ & Es & _ & HF1).
  rewrite (bind_done _ _ _ _ _ E1). destruct (resume_run L s1) as (r & k2 & E2). rewrite (bind_done _ _ _ _ _ E2).
  clear E1 E2 HB Hroom EL. exists (set_u_k k2 s1). split; [reflexivity|]. split; [exact HB1|]. split; [exact Es|].
  cbn [u_mem set_u_k]. unfold apart, word_apart, sizeof_uds_tuple_stream, ut_head, ut_tail in *. split.
  - rewrite <- HT. apply ld_le_frame. intros x Hx. unfold ut_type in Hx. apply HF1; lia.
  - apply (peers_linked_frame (u_mem s)); [|exact HP]. intros x Hx. apply HF1; lia.
Qed.
Lemma linked_peers m ac new C F : local_apart ac -> local_apart new -> apart ac new -> 0 <= F < 2 ^ 64 -> 0 <= C < 2 ^ 64 ->
  peers_linked (linked m ac new C F) ac new C F.
Proof.
  intros L1 L3 A2 HF HC. destruct (linked_client m ac new C F L1 L3 A2 HF) as [P1 P2].
  destruct (linked_server m ac new C F L3 A2 HC) as (P3 & P4 & P5).
  unfold peers_linked. split; [exact P1|]. split; [exact P2|]. split; [exact P3|]. split; [exact P4|exact P5].
Qed.
Lemma linked_type m ac new C F al : local_apart al -> local_apart new -> apart ac al -> apart al new ->
  ld_le 4 (linked m ac new C F) (al + ut_type) = ld_le 4 m (al + ut_type).
Proof.
  intros L2 L3 A1 A3. apply ld_le_frame. intros x Hx. pose proof L3 as L3'.
  unfold apart, local_apart, sizeof_uds_tuple_stream, ut_type in *. apply linked_frame; [exact L3'|unfold sizeof_uds_tuple_stream; lia..].
Qed.
Lemma connect_spec s C ac addr L al q F b k' : connectable s C ac addr L al q F b k' ->
  exists s1, handle_connect_stream fuel C addr s = Done (true, s1) /\
    backlog_is (u_mem s1) al (q ++ [F]) /\
    uds_socket_global s1 = <[F := u64 (b * 4096 + HM)]> (uds_socket_global s) /\
    usock s1 L = al /\ ld_le 4 (u_mem s1) (al + ut_type) = uds_type_code UDS_STREAM /\
    peers_linked (u_mem s1) ac (u64 (b * 4096 + HM)) C F.
Proof.
  intros H. rewrite (connect_runs _ _ _ _ _ _ _ _ _ _ H). destruct (linked_backlog _ _ _ _ _ _ _ _ _ _ H) as [EL HB].
  destruct H as [[Ec [Hac HC]] _ _ (_ & HLT & _) [El Hal] _ Hroom _ HF _ Hnew (A1 & A2 & A3) (L1 & L2 & L3) (W1 & W2 & W3)].
  apply find_idx_Some in HF as (HFr & _ & _).
  assert (HFr' : 0 <= F < 2 ^ 64 - 1) by (clear - HFr; unfold MAX_UDS_SOCKETS_COUNT in HFr; lia).
  assert (HF64 : 0 <= F < 2 ^ 64) by (clear - HFr'; lia).
  apply listens_on_type in HLT. rewrite El in HLT.
  destruct (push_and_resume _ L al q ac (u64 (b * 4096 + HM)) C F EL Hal HB Hroom HFr' A1 A3 W1 W2 W3
    (eq_trans (linked_type _ _ _ _ _ _ L2 L3 A1 A3) HLT) (linked_peers _ _ _ _ _ L1 L3 A2 HF64 HC)) as (s1 & E1 & HB1 & Es & HT & HP).
  exists s1. split; [exact E1|]. split; [exact HB1|]. split; [exact Es|]. split; [|split; [exact HT|exact HP]].
  etrans; [|exact EL]. unfold usock. rewrite Es. reflexivity.
Qed.
End Connect.

(** ** Addressing by path *)
Section Paths.
Context {M : Machine} {UE : UdsEnv} (fuel : nat).
(** [r] is the first socket bound to the path [P]; the slots before it are taken. *)
Definition first_bound (s : uds) (P : list Z) (r : Z) : Prop :=
  0 <= r < MAX_UDS_SOCKETS_COUNT /\ StrLib.cstr (u_mem s) (usock s r + ut_local_path) P /\
  (forall i, 0 <= i <= r -> usock s i <> 0) /\
  forall i, 0 <= i < r -> exists Q, StrLib.cstr (u_mem s) (usock s i + ut_local_path) Q /\ Q <> P.
Lemma find_by_path s path P r :
  first_bound s P r -> StrLib.cstr (u_mem s) path P -> slen P < Z.of_nat fuel ->
  find_socket_uds_with_local_addr fuel path s = Done (r, s).
Proof.
  intros (Hr & Hp & Hn & Ho) HP Hf. unfold find_socket_uds_with_local_addr.
  assert (E : forall i Q, 0 <= i <= r -> StrLib.cstr (u_mem s) (usock s i + ut_local_path) Q ->
    (t ← the_sock i; m ← gets u_mem; e ← ended (strcmp fuel m path (t + ut_local_path));
     mret (if negb (e =? 0) then Some i else None)) s = Done (if bool_decide (P = Q) then Some i else None, s)).
  { intros i Q Hi HQ. rewrite (the_sock_ok s i _ _ eq_refl (Hn i Hi)), gets_bind. unfold strcmp.
    rewrite (strcmp_loop_cstr fuel _ _ _ P Q HP HQ Hf). destruct (bool_decide (P = Q)); reflexivity. }
  assert (EL : loop_m (Z.to_nat MAX_UDS_SOCKETS_COUNT) 0 (fun i => t ← the_sock i; m ← gets u_mem;
      e ← ended (strcmp fuel m path (t + ut_local_path)); mret (if negb (e =? 0) then Some i else None)) s = Done (Some r, s)).
  { apply (loop_m_first _ s r _ 0 r); [unfold MAX_UDS_SOCKETS_COUNT in *; lia| |].
    - intros j Hj. destruct (Ho j Hj) as (Q & HQ & Hne). rewrite (E j Q) by (assumption || lia).
      rewrite bool_decide_false by congruence. reflexivity.
    - rewrite (E r P) by (assumption || lia). rewrite bool_decide_true by reflexivity. reflexivity. }
  rewrite (bind_done _ _ _ _ _ EL). reflexivity.
Qed.
Lemma dgram_packet_spec s path P r a data len :
  first_bound s P r -> StrLib.cstr (u_mem s) path P -> slen P < Z.of_nat fuel -> usock s r = a ->
  0 < len < 2 ^ 64 -> ring_ok (u_mem s) a sizeof_uds_tuple dgram_ring_size ->
  a + 5 * 4096 <= data \/ data + len <= a ->
  exists m' k,
    handle_dgram_packet fuel path data len s =
      Done (true, Uds (map_threads (fun _ => wake_on (a + ut_recv_wait_flag)) (u_k s)) m' (uds_socket_global s) (uds_listen_global s)) /\
    Z.of_nat k = Z.min len (dgram_ring_size - 1 - Z.of_nat (length (u_ring (u_mem s) a sizeof_uds_tuple dgram_ring_size))) /\
    u_ring m' a sizeof_uds_tuple dgram_ring_size = u_ring (u_mem s) a sizeof_uds_tuple dgram_ring_size ++ cells (u_mem s) data k /\
    (forall x, ~ (a + sizeof_uds_tuple <= x < a + 5 * 4096) -> ~ (a + ut_head <= x < a + ut_tail) -> ld m' x = ld (u_mem s) x).
Proof.
  intros HB HP Hf Ea Hl Hok Hd. unfold handle_dgram_packet. rewrite (proj2 (Z.eqb_neq len 0)) by lia.
  rewrite (bind_done _ _ _ _ _ (find_by_path s path P r HB HP Hf)).
  destruct HB as (Hr & _ & Hn & _). pose proof (Hn r ltac:(lia)) as Ha. rewrite Ea in Ha.
  assert (Hne : r <> neg64 1) by (change (neg64 1) with (2 ^ 64 - 1); unfold MAX_UDS_SOCKETS_COUNT in Hr; lia).
  rewrite (proj2 (Z.eqb_neq _ _) Hne), (the_sock_ok s r a) by assumption.
  assert (Hsz : sizeof_uds_tuple + dgram_ring_size = 5 * 4096) by reflexivity.
  destruct (u_ring_write_spec s a sizeof_uds_tuple dgram_ring_size len data Hok) as (m1 & k & E1 & Hk & _ & HR & HF);
    [lia|unfold sizeof_uds_tuple in *; lia|].
  exists m1, k. split; [|split; [exact Hk|split; [exact HR|]]].
  - assert (EA : socket_append_uds r data len s = Done (Z.of_nat k, set_u_mem m1 s))
      by (unfold socket_append_uds; rewrite (the_sock_ok s r a) by assumption; exact E1).
    rewrite (bind_done _ _ _ _ _ EA). reflexivity.
  - intros x H1 H2. apply HF; lia.
Qed.
End Paths.

Lemma accept_spec {UE : UdsEnv} (s : uds) (L a : Z) (q : list Z) :
  usock s L = a -> a <> 0 -> word_apart a ->
  ld_le 4 (u_mem s) (a + ut_type) = uds_type_code UDS_STREAM -> backlog_is (u_mem s) a q ->
  exists s', pulled a s s' /\ backlog_is (u_mem s') a (drop 2 q) /\
    handle_stream_accept L s =
    match q with
    | [] => (u_kern (sleep_by_resource (a + us_listen_wait_flag) THREAD_BLOCKED_UDS) ≫= fun _ => mret None) s'
    | [_] => Done (Some (-1), s')
    | _ :: c :: _ => (accept_connection c ≫= fun fd => mret (Some fd)) s'
    end.
Proof.
  intros E Ha Hw Ht Hq. unfold handle_stream_accept.
  rewrite (the_sock_ok s L a), is_type_ok, Ht, Z.eqb_refl by assumption. cbn [negb].
  destruct (pull_backlog_spec s L a q E Ha Hw Hq) as (s1 & E1 & Hq1 & HP1).
  rewrite (bind_done _ _ _ _ _ E1). destruct q as [|c q].
  - exists s1. rewrite Z.eqb_refl. auto.
  - destruct Hq as (_ & Hq & _). inversion Hq as [|? ? Hc Hq']; subst.
    assert (Hne : c <> neg64 1) by (change (neg64 1) with (2 ^ 64 - 1); lia).
    rewrite (proj2 (Z.eqb_neq _ _) Hne). unfold accept_again.
    assert (E' : usock s1 L = usock s L) by (unfold usock; destruct HP1 as (_ & -> & _); reflexivity).
    destruct (pull_backlog_spec s1 L _ q E' Ha Hw Hq1) as (s2 & E2 & Hq2 & HP2).
    exists s2. split; [exact (pulled_trans _ _ _ _ HP1 HP2)|]. split; [destruct q; exact Hq2|].
    unfold mbind at 1, st_bind at 1. rewrite (bind_done _ _ _ _ _ E2).
    destruct q as [|d q]; [reflexivity|]. inversion Hq' as [|? ? Hd _]; subst.
    assert (Hnd : d <> neg64 1) by (change (neg64 1) with (2 ^ 64 - 1); lia).
    rewrite (proj2 (Z.eqb_neq _ _) Hnd). reflexivity.
Qed.

(** ** Properties *)

(** Accepting pulls the backlog of the listening socket twice: an empty
    backlog puts the thread to sleep, a backlog of one connection loses it and
    returns -1, and a longer one drops the first connection and accepts the
    second; apart from the read position of the backlog no other memory
    changes before the connection is set up. *)
Theorem accept_pulls_twice {UE : UdsEnv} (s : uds) (L a : Z) (q : list Z) :
  usock s L = a -> a <> 0 -> word_apart a ->
  ld_le 4 (u_mem s) (a + ut_type) = uds_type_code UDS_STREAM -> backlog_is (u_mem s) a q ->
  exists s', pulled a s s' /\ backlog_is (u_mem s') a (drop 2 q) /\
    handle_stream_accept L s =
    match q with
    | [] => (u_kern (sleep_by_resource (a + us_listen_wait_flag) THREAD_BLOCKED_UDS) ≫= fun _ => mret None) s'
    | [_] => Done (Some (-1), s')
    | _ :: c :: _ => (accept_connection c ≫= fun fd => mret (Some fd)) s'
    end.
Proof. exact (accept_spec s L a q). Qed.

(** C20: Connecting a stream socket to a listening one takes the first free
    slot for the server's end, links the two ends and appends it to the
    backlog; and when it is the only connection, the listener's accept takes it
    off the backlog, returns -1 and leaves both ends unaccepted for ever. *)
Theorem single_connection_is_lost {M : Machine} {UE : UdsEnv} (fuel : nat) (s : uds) (C ac addr L al : Z) (q : list Z) (F b : Z) (k' : kstate) :
  connectable fuel s C ac addr L al q F b k' ->
  exists s1, handle_connect_stream fuel C addr s = Done (true, s1) /\
    uds_socket_global s1 = <[F := u64 (b * 4096 + HM)]> (uds_socket_global s) /\
    peers_linked (u_mem s1) ac (u64 (b * 4096 + HM)) C F /\ backlog_is (u_mem s1) al (q ++ [F]) /\
    (q = [] -> exists s2, handle_stream_accept L s1 = Done (Some (-1), s2) /\ backlog_is (u_mem s2) al [] /\
       peers_linked (u_mem s2) ac (u64 (b * 4096 + HM)) C F).
Proof.
  intros H. destruct (connect_spec _ _ _ _ _ _ _ _ _ _ _ H) as (s1 & E1 & HB & Es & EL & HT & HP).
  destruct H as [_ _ _ _ [_ Hal] _ _ _ _ _ _ (A1 & A2 & A3) _ (W1 & W2 & W3)].
  exists s1. split; [exact E1|]. split; [exact Es|]. split; [exact HP|]. split; [exact HB|]. intros ->.
  destruct (accept_spec s1 L al [F] EL Hal W2 HT HB) as (s2 & HPu & HB2 & E2). exists s2.
  split; [exact E2|]. split; [exact HB2|]. destruct HPu as (_ & _ & _ & HPu).
  apply (peers_linked_frame (u_mem s1)); [|exact HP]. intros x Hx.
  unfold apart, word_apart, ut_tail, sizeof_uds_tuple in *. apply HPu; lia.
Qed.

(** Data sent to a path is appended, as far as it fits, to the ring of the
    first datagram socket bound to that path, every thread that waits for that
    socket becomes ready, and no other byte changes. *)
Theorem datagram_reaches_first_bound (fuel : nat) (now : timeval) (s : uds)
    (sender data len dst : Z) (P : list Z) (r a : Z) :
  dst <> 0 -> first_bound s P r -> StrLib.cstr (u_mem s) dst P -> slen P < Z.of_nat fuel -> usock s r = a ->
  ld_le 4 (u_mem s) (a + ut_type) = uds_type_code UDS_DGRAM ->
  0 < len < 2 ^ 64 -> ring_ok (u_mem s) a sizeof_uds_tuple dgram_ring_size ->
  a + 5 * 4096 <= data \/ data + len <= a ->
  exists m' k,
    uds_send_dispatch fuel now sender data len dst s =
      Done (true, Uds (map_threads (fun _ => wake_on (a + ut_recv_wait_flag)) (u_k s)) m' (uds_socket_global s) (uds_listen_global s)) /\
    Z.of_nat k = Z.min len (dgram_ring_size - 1 - Z.of_nat (length (u_ring (u_mem s) a sizeof_uds_tuple dgram_ring_size))) /\
    u_ring m' a sizeof_uds_tuple dgram_ring_size = u_ring (u_mem s) a sizeof_uds_tuple dgram_ring_size ++ cells (u_mem s) data k /\
    (forall x, ~ (a + sizeof_uds_tuple <= x < a + 5 * 4096) -> ~ (a + ut_head <= x < a + ut_tail) -> ld m' x = ld (u_mem s) x).
Proof.
  intros Hdst HB HP Hf Ea HT Hl Hok Hd.
  destruct HB as (Hr & HPr & Hn & Ho). pose proof (conj Hr (conj HPr (conj Hn Ho)) : first_bound s P r) as HB.
  pose proof (Hn r ltac:(lia)) as Ha. rewrite Ea in Ha, HPr.
  destruct (dgram_packet_spec fuel s (a + ut_local_path) P r a data len HB HPr Hf Ea Hl Hok Hd) as (m' & k & E & Hk & HR & HF).
  exists m', k. split; [|split; [exact Hk|split; [exact HR|exact HF]]].
  unfold uds_send_dispatch. rewrite (proj2 (Z.eqb_neq dst 0) Hdst), mret_bind.
  rewrite (bind_done _ _ _ _ _ (find_by_path fuel s dst P r HB HP Hf)).
  assert (Hne : r <> neg64 1) by (change (neg64 1) with (2 ^ 64 - 1); unfold MAX_UDS_SOCKETS_COUNT in Hr; lia).
  rewrite (proj2 (Z.eqb_neq _ _) Hne). set (s' := Uds _ _ _ _) in *.
  assert (EU : handle_uds fuel now r data len s = Done (tt, s')); [|exact (bind_done _ _ _ _ _ EU)].
  unfold handle_uds. rewrite (the_sock_ok s r a) by assumption. rewrite is_type_ok, HT, Z.eqb_refl.
  assert (ED : handle_dgram fuel r data len s = Done (tt, s')).
  { unfold handle_dgram. rewrite (the_sock_ok s r a), (bind_done _ _ _ _ _ E) by assumption. reflexivity. }
  unfold when at 1. rewrite (bind_done _ _ _ _ _ ED), is_type_ok.
  assert (HT' : ld_le 4 (u_mem s') (a + ut_type) = uds_type_code UDS_DGRAM).
  { rewrite <- HT. apply ld_le_frame. intros x Hx. unfold ut_type in Hx. apply HF; unfold sizeof_uds_tuple, ut_head, ut_tail; lia. }
  rewrite HT'. reflexivity.
Qed.

(** ** Witnesses *)
#[local] Existing Instance small_machine.
Definition uds_env : UdsEnv := {| uds_local := 200; uds_word := 100; uds_tmp_buf := 2000 |}.
(** Socket 0 at 65536 listens on the path "a"; socket 1 at 131072 is unbound;
    an address with the path is at 1000. *)
Definition demo_uds_mem : mem :=
  list_to_map [(65536 + 8, 2); (65536 + 12, 97); (65536 + 228, 2); (131072 + 8, 2); (1002, 97)].
Definition demo_uds_kern : kstate := mark_blocks 10 0 (set_threads_info_ptr {[0 := zero_thread]} boot_state).
Definition demo_uds : uds := Uds demo_uds_kern demo_uds_mem {[0 := 65536; 1 := 131072]} ∅.
Lemma demo_connectable :
  @connectable small_machine uds_env 8 demo_uds 1 131072 1000 0 65536 [] 2 10 (mark_blocks 6 10 demo_uds_kern).
Proof.
  split.
  - split; [vm_compute; reflexivity|lia].
  - vm_compute; reflexivity.
  - left. vm_compute; reflexivity.
  - split; [unfold MAX_UDS_SOCKETS_COUNT; lia|]. split; [vm_compute; reflexivity|intros i Hi; lia].
  - split; [vm_compute; reflexivity|lia].
  - split; [|split; [constructor|vm_compute; reflexivity]].
    split; [unfold sizeof_uds_tuple, sizeof_uds_tuple_stream; lia|]. split; [vm_compute; auto|].
    split; vm_compute; split; congruence.
  - vm_compute; reflexivity.
  - vm_compute. eexists; reflexivity.
  - vm_compute; reflexivity.
  - vm_compute; reflexivity.
  - vm_compute; congruence.
  - unfold apart. change (u64 (10 * 4096 + HM)) with 0x40000000A000. lia.
  - unfold local_apart, sizeof_uds_tuple_stream. change (u64 (10 * 4096 + HM)) with 0x40000000A000. cbn [uds_local uds_env]. lia.
  - unfold word_apart. change (u64 (10 * 4096 + HM)) with 0x40000000A000. cbn [uds_word uds_env]. lia.
Qed.
Lemma single_connection_is_lost_witness :
  exists s1, @handle_connect_stream small_machine uds_env 8 1 1000 demo_uds = Done (true, s1) /\
    usock s1 2 = 0x40000000A000 /\
    exists s2, @handle_stream_accept uds_env 0 s1 = Done (Some (-1), s2) /\ backlog_is (u_mem s2) 65536 [].
Proof.
  destruct (@single_connection_is_lost small_machine uds_env 8 demo_uds 1 131072 1000 0 65536 [] 2 10 _ demo_connectable)
    as (s1 & E1 & Es & _ & _ & H). exists s1. split; [exact E1|]. split.
  - unfold usock. rewrite Es. vm_compute. reflexivity.
  - destruct (H eq_refl) as (s2 & E2 & HB & _). exists s2. exact (conj E2 HB).
Defined.
(** The same listener with the connections 5 and 1 in its backlog. *)
Definition demo_backlog_mem : mem := st_le 8 (st_le 8 (st_le 8 demo_uds_mem (65536 + 320) 5) (65536 + 328) 1) (65536 + 256) 16.
Lemma accept_pulls_twice_witness :
  exists s', @backlog_is (u_mem s') 65536 [] /\
    @handle_stream_accept uds_env 0 (set_u_mem demo_backlog_mem demo_uds) =
    (@accept_connection 1 ≫= fun fd => mret (Some fd)) s'.
Proof.
  destruct (@accept_pulls_twice uds_env (set_u_mem demo_backlog_mem demo_uds) 0 65536 [5; 1]) as (s' & _ & HB & E).
  - vm_compute; reflexivity.
  - lia.
  - right. vm_compute; congruence.
  - vm_compute; reflexivity.
  - split; [|split; [repeat constructor; lia|vm_compute; reflexivity]].
    split; [unfold sizeof_uds_tuple, sizeof_uds_tuple_stream; lia|]. split; [vm_compute; auto|].
    split; vm_compute; split; congruence.
  - exists s'. exact (conj HB E).
Defined.
(** Socket 0 at 65536 is unbound, socket 1 at 131072 is a datagram socket bound
    to "a"; the three bytes at 3000 are sent to the path at 1002. *)
Definition demo_dgram : uds :=
  Uds demo_uds_kern (list_to_map [(65536 + 8, 1); (131072 + 8, 1); (131072 + 12, 97); (1002, 97); (3000, 7); (3001, 8); (3002, 9)])
    {[0 := 65536; 1 := 131072]} ∅.
Lemma datagram_reaches_first_bound_witness :
  exists s', uds_send_dispatch 8 (Timeval 0 0) 0 3000 3 1002 demo_dgram = Done (true, s') /\
    u_ring (u_mem s') 131072 sizeof_uds_tuple dgram_ring_size = [7; 8; 9].
Proof.
  destruct (datagram_reaches_first_bound 8 (Timeval 0 0) demo_dgram 0 3000 3 1002 [97] 1 131072)
    as (m' & k & E & Hk & HR & _).
  - lia.
  - split; [unfold MAX_UDS_SOCKETS_COUNT; lia|]. split; [vm_compute; repeat split; congruence|]. split.
    + intros i Hi. assert (i = 0 \/ i = 1) as [-> | ->] by lia; vm_compute; congruence.
    + intros i Hi. assert (i = 0) as -> by lia. exists []. split; [vm_compute; reflexivity|congruence].
  - vm_compute; repeat split; congruence.
  - vm_compute; reflexivity.
  - vm_compute; reflexivity.
  - vm_compute; reflexivity.
  - lia.
  - split; [unfold sizeof_uds_tuple; lia|]. split; [vm_compute; auto|]. split; vm_compute; split; congruence.
  - right. lia.
  - eexists. split; [exact E|]. etrans; [exact HR|].
    assert (k = 3%nat) as ->; [|vm_compute; reflexivity]. apply Nat2Z.inj. etrans; [exact Hk|vm_compute; reflexivity].
Defined.
