(* ===== verification/Elf.v ===== *)
(** * Elf: the ELF loader and execve, src/core/elf/loader.h

    The loader reads the header and the program headers of a file, maps and
    fills the loadable segments, builds the initial stack and starts the main
    thread.  Memory is the view of the process that is loaded: the path and the
    argument strings lie in kernel memory, which every address space shares, so
    the switches of CR3 do not show in the model.  A local array that a failed
    read leaves unset holds the bytes of [stale]. *)
From Stdlib Require Import String Ascii.
From S2P Require Import Prelude Bytes MemLib StrLib Time KState Blocks Paging Threads Sched Ipc User Vfs Descr ProcCalls.
Open Scope Z_scope.

(** ** Data *)
Definition MAX_PHT_PER_ELF : Z := 16.
Definition AT_NULL : Z := 0.
Definition AT_PHDR : Z := 3.
Definition AT_PHENT : Z := 4.
Definition AT_PHNUM : Z := 5.
Definition AT_PAGESZ : Z := 6.
Definition AT_BASE : Z := 7.
Definition AT_ENTRY : Z := 9.
Definition AT_UID : Z := 11.
Definition AT_EUID : Z := 12.
Definition AT_GID : Z := 13.
Definition AT_EGID : Z := 14.
Definition AT_RANDOM : Z := 25.
Definition AT_EXECFN : Z := 31.
Definition PT_LOAD : Z := 1.
Definition PT_INTERP : Z := 3.

Definition le64 (s : list Z) (i : Z) : Z := le32 s i + 2 ^ 32 * le32 s (i + 4).
Record elf_header_t := ElfHeader { e_entry : Z; e_phoff : Z; e_phnum : Z }.
Definition sizeof_elf_header_t : Z := 64.
(** The fields the loader uses, at their packed offsets. *)
Definition elf_header (s : list Z) : elf_header_t := ElfHeader (le64 s 24) (le64 s 32) (le16 s 56).
Record pht_entry_t := PhtEntry { p_type : Z; p_offset : Z; p_vaddr : Z; p_filesz : Z; p_memsz : Z }.
Definition sizeof_pht_entry_t : Z := 56.
Definition pht_entry (s : list Z) (i : Z) : pht_entry_t :=
  let b := i * sizeof_pht_entry_t in
  PhtEntry (le32 s b) (le64 s (b + 8)) (le64 s (b + 16)) (le64 s (b + 32)) (le64 s (b + 40)).
Definition is_elf (s : list Z) : bool :=
  (byte s 0 =? 0x7F) && bool_decide (slice s 1 3 = chars "ELF"%string).

(** Uninitialised locals and the numbers [rand] gives. *)
Class ElfEnv := { stale : Z -> Z; elf_rand : nat -> Z }.

Definition count_strings (fuel : nat) (m : mem) (arr : Z) : option Z :=
  if arr =? 0 then Some 0 else count_str_arr fuel m arr.
Definition align_up (num alignment : Z) : Z := u64 (div_ceil num alignment * alignment).
Definition align_down_16_8 (num : Z) : Z :=
  let align_16 := num / 16 * 16 in
  u64 (u64 (if num mod 16 <? 8 then align_16 - 16 else align_16) + 8).

(** ** The initial stack *)
(** Copying the strings of an array below [rsp]: the addresses of the copies. *)
Fixpoint push_strings (n : nat) (fuel : nat) (m : mem) (arr i rsp : Z) : option (mem * Z * list Z) :=
  match n with
  | O => Some (m, rsp, [])
  | S n' =>
      let s := ld_le 8 m (arr + 8 * i) in
      l ← strlen fuel m s;
      let rsp' := u64 (rsp - (l + 1)) in
      r ← push_strings n' fuel (memcpy m rsp' s (l + 1)) arr (i + 1) rsp';
      let '(m', rsp'', ptrs) := r in Some (m', rsp'', rsp' :: ptrs)
  end.
Fixpoint random_bytes {EE : ElfEnv} (n i : nat) (m : mem) (a : Z) : mem :=
  match n with
  | O => m
  | S n' => random_bytes n' (S i) (st m (a + Z.of_nat i) (Z.land (elf_rand i) 0xFF)) a
  end.
(** A local array of words copied to [a]. *)
Fixpoint put_words (m : mem) (a : Z) (l : list Z) : mem :=
  match l with [] => m | w :: r => put_words (st_le 8 m a w) (a + 8) r end.
Definition auxv_default (phdr_addr count_loaded_sections entry ld_so_entry random arg0_ptr : Z) : list Z :=
  [AT_PHDR; phdr_addr; AT_PHENT; sizeof_pht_entry_t; AT_PHNUM; count_loaded_sections; AT_ENTRY; entry;
   AT_PAGESZ; 0x1000; AT_BASE; ld_so_entry; AT_RANDOM; random; AT_EXECFN; arg0_ptr; AT_UID; 0; AT_EUID; 0;
   AT_GID; 0; AT_EGID; 0; AT_NULL; 0].
Definition words (l : list Z) : Z := 8 * Z.of_nat (length l).
(** What is pushed below the strings: padding, auxiliary vector, null, argument
    pointers, null, environment pointers, the count and a zero. *)
Definition push_vectors (m : mem) (rsp0 : Z) (auxv argv_ptr envp_ptr : list Z) : mem * Z :=
  let rsp_bottom := u64 (rsp0 - words auxv - words argv_ptr - words envp_ptr - 8 - 16) in
  let padding_size := u64 (rsp_bottom - align_down_16_8 rsp_bottom) in
  let a0 := u64 (rsp0 - padding_size) in
  let m0 := erase_mem8 m a0 padding_size in
  let a1 := u64 (a0 - words auxv) in
  let m1 := put_words m0 a1 auxv in
  let a2 := u64 (a1 - 8) in
  let m2 := st_le 8 m1 a2 0 in
  let a3 := u64 (a2 - words argv_ptr) in
  let m3 := put_words m2 a3 argv_ptr in
  let a4 := u64 (a3 - 8) in
  let m4 := st_le 8 m3 a4 0 in
  let a5 := u64 (a4 - words envp_ptr) in
  let m5 := put_words m4 a5 envp_ptr in
  let a6 := u64 (a5 - 8) in
  let m6 := st_le 8 m5 a6 (Z.of_nat (length argv_ptr)) in
  let a7 := u64 (a6 - 8) in
  (st_le 8 m6 a7 0, a7).
Section Stack.
Context {EE : ElfEnv} (fuel : nat).
(** The memory and the stack pointer; [None]: a string has no end. *)
Definition stack_image (m : mem) (stack_addr argv envp phdr_addr count_loaded_sections ld_so_entry entry : Z) : option (mem * Z) :=
  argc ← count_strings fuel m argv;
  r ← push_strings (Z.to_nat argc) fuel m argv 0 (u64 (stack_addr - 8));
  let '(m1, rsp1, argv_ptr) := r in
  let arg0_ptr := default 0 (head argv_ptr) in
  let rsp2 := u64 (rsp1 - 8) in
  let m2 := st_le 8 m1 rsp2 0 in
  envc ← count_strings fuel m2 envp;
  r ← push_strings (Z.to_nat envc) fuel m2 envp 0 rsp2;
  let '(m3, rsp3, envp_ptr) := r in
  let rsp4 := u64 (rsp3 - 8) in
  let m4 := random_bytes 16 0 (st_le 8 m3 rsp4 0) rsp4 in
  Some (push_vectors m4 rsp4 (auxv_default phdr_addr count_loaded_sections entry ld_so_entry rsp4 arg0_ptr) argv_ptr envp_ptr).
End Stack.
Definition set_c_rsp (v : Z) (c : user_thread_context) : user_thread_context :=
  Context (c_r15 c) (c_r14 c) (c_r13 c) (c_r12 c) (c_r11 c) (c_r10 c) (c_r9 c) (c_r8 c) (c_rdi c) (c_rsi c)
    (c_rbp c) (c_rbx c) (c_rdx c) (c_rcx c) (c_rax c) (c_rip c) (c_cs c) (c_rflags c) v (c_ss c) (c_gs24 c)
    (xsave_area c) (fs_base c) (gs_base c).
Definition set_c_gs24 (v : Z) (c : user_thread_context) : user_thread_context :=
  Context (c_r15 c) (c_r14 c) (c_r13 c) (c_r12 c) (c_r11 c) (c_r10 c) (c_r9 c) (c_r8 c) (c_rdi c) (c_rsi c)
    (c_rbp c) (c_rbx c) (c_rdx c) (c_rcx c) (c_rax c) (c_rip c) (c_cs c) (c_rflags c) (c_rsp c) (c_ss c) v
    (xsave_area c) (fs_base c) (gs_base c).
Definition set_p_heap (v : Z) (p : process_info) : process_info :=
  ProcessInfo (p_pid p) (p_state p) (p_main_thread_id p) (p_signal p) (p_threads_count p) (p_pgid p) (p_sid p)
    (p_fd_addr p) (p_parent_pid p) v v (p_sig_handlers p) (p_uid p) (p_gid p) (p_euid p)
    (p_egid p) (p_reuid p) (p_regid p) (p_resuid p) (p_resgid p) (p_lock p) (p_return_code p) (p_sm p)
    (p_cmd_line p) (p_env p) (p_cwd p).

(** ** Loading *)
Section Load.
Context {M : Machine} {EE : ElfEnv} {disk : Type} `{PartitionDriver disk} (junk : Z) (v : vfs) (fuel : nat).

(** [n] bytes of a file in a local array: what the read does not fill is stale. *)
Definition read_local (p : path) (start n : Z) : ST (sys disk) (list Z) :=
  r ← on_fs (read_file junk v p 1 start n);
  let got := take (Z.to_nat n) (snd r : list Z) in
  mret (got ++ map stale (seqZ (Z.of_nat (length got)) (n - Z.of_nat (length got)))).

(** The loop runs over the addresses [i], [i + 4096], ... up to [stop]. *)
Fixpoint extend_loop (f : nat) (pid i stop : Z) : ST kstate unit :=
  if stop <? i then mret tt
  else
    match f with
    | O => fun _ => Stuck
    | S f' => _ ← increase_paging_of_process_with_virt_addr pid i; extend_loop f' pid (u64 (i + 4096)) stop
    end.
Definition extend_cr3 (pid virtual_mem_offset pht_size_in_mem : Z) : ST kstate unit :=
  extend_loop fuel pid (virtual_mem_offset / 4096 * 4096) (u64 (virtual_mem_offset + pht_size_in_mem)).
Definition load_pht_to_memory (p : path) (pht_e : pht_entry_t) (pid start_offset : Z) : ST (sys disk) Z :=
  if negb (p_type pht_e =? 1) then mret 0
  else
    let virtual_mem_offset := u64 (p_vaddr pht_e + start_offset) in
    _ ← on_kern (extend_cr3 pid virtual_mem_offset (p_memsz pht_e));
    if p_memsz pht_e <? p_filesz pht_e then mret (neg64 1)
    else
      r ← on_fs (read_file junk v p virtual_mem_offset (p_offset pht_e) (p_filesz pht_e));
      _ ← upd_mem (fun m => store_bytes m virtual_mem_offset (snd r));
      if fst r <? 0 then mret (neg64 2)
      else
        _ ← when (p_filesz pht_e <? p_memsz pht_e)
              (upd_mem (fun m => erase_mem8 m (u64 (virtual_mem_offset + p_filesz pht_e)) (p_memsz pht_e - p_filesz pht_e)));
        mret (p_memsz pht_e).
(** The header and the entries of a file, or the error. *)
Definition read_headers (p : path) : ST (sys disk) (Z + elf_header_t * list pht_entry_t) :=
  buffer_elf ← read_local p 0 4;
  if negb (is_elf buffer_elf) then mret (inl (neg64 1))
  else
    _ ← on_fs (stat_dirent junk v p);
    buffer_elf_header ← read_local p 0 sizeof_elf_header_t;
    let h := elf_header buffer_elf_header in
    if MAX_PHT_PER_ELF <? e_phnum h then mret (inl (neg64 2))
    else
      es ← read_local p (e_phoff h) (e_phnum h * sizeof_pht_entry_t);
      mret (inr (h, map (pht_entry es) (seqZ 0 (e_phnum h)))).
Definition load_all (p : path) (es : list pht_entry_t) (pid start_offset : Z) : ST (sys disk) unit :=
  foldr (fun e k => _ ← load_pht_to_memory p e pid start_offset; k) (mret tt) es.
Definition load_so (p : path) (pid start_offset : Z) : ST (sys disk) Z :=
  r ← read_headers p;
  match r : (Z + elf_header_t * list pht_entry_t) with
  | inl e => mret e
  | inr (h, es) => _ ← load_all p es pid start_offset; mret (u64 (e_entry h + start_offset))
  end.
(** The segments of the program: the error, or their total size and number. *)
Fixpoint load_segments (p : path) (es : list pht_entry_t) (pid last_memory_offset count : Z) : ST (sys disk) (Z + Z * Z) :=
  match es with
  | [] => mret (inr (last_memory_offset, count))
  | e :: es' =>
      n ← load_pht_to_memory p e pid 0;
      if (n =? neg64 1) || (n =? neg64 2) then mret (inl n)
      else if n =? 0 then load_segments p es' pid last_memory_offset count
      else load_segments p es' pid (u64 (last_memory_offset + n)) (count + 1)
  end.
(** Only whether there is an interpreter entry matters: its path is read and
    dropped, and the program [/ld.so] is used. *)
Definition has_interp (es : list pht_entry_t) : bool := existsb (fun e => p_type e =? PT_INTERP) es.
Definition read_interp (p : path) (es : list pht_entry_t) : ST (sys disk) unit :=
  match List.find (fun e => p_type e =? PT_INTERP) es with
  | Some e => _ ← read_local p (p_offset e) (p_filesz e); mret tt
  | None => mret tt
  end.
Definition heap_start (es : list pht_entry_t) : Z :=
  align_up (fold_left (fun h e =>
    if negb (p_type e =? PT_LOAD) then h
    else let seg_end := u64 (p_vaddr e + p_memsz e) in if h <? seg_end then seg_end else h) es 0) 0x1000.

(** A store through [((process_info_t * )&processes_info_ptr)[pid]]: the word
    [w] words behind the start of the table of pointers.  Behind the table lie
    the lock and the table of page tables; beyond that the store is not
    represented. *)
Definition store_bss (w x : Z) : ST kstate unit :=
  if w <? MAX_PROCESSES_COUNT then modify (set_proc_slot w x)
  else if w =? MAX_PROCESSES_COUNT then modify (set_processes_info_lock x)
  else if w <? MAX_PROCESSES_COUNT + 2 then mret tt
  else if w <? 2 * MAX_PROCESSES_COUNT + 2
  then modify (fun k => set_processes_cr3_ptr (<[w - (MAX_PROCESSES_COUNT + 2) := x]> (processes_cr3_ptr k)) k)
  else fun _ => Stuck.
Definition table_word (pid offset : Z) : Z := (pid * sizeof_process_info + offset) / 8.
(** The offsets of [main_thread_id] and [state]; [PROCESS_IDLE] is 2. *)
Definition store_main_thread (pid tid : Z) : ST kstate unit :=
  _ ← store_bss (table_word pid 16) tid; store_bss (table_word pid 8) 2.

Definition init_stack (tid argv envp phdr_addr count_loaded_sections ld_so_entry entry : Z) : ST (sys disk) unit :=
  t ← on_kern (gets (fun k => thread k tid) ≫= deref);
  m ← gets s_mem;
  match stack_image fuel m (t_stack_addr t) argv envp phdr_addr count_loaded_sections ld_so_entry entry with
  | None => stuck
  | Some (m', rsp) =>
      _ ← upd_mem (fun _ => m');
      on_kern (modify (upd_thread tid (fun t => set_t_context (set_c_rsp rsp (t_context t)) t)))
  end.
(** The slot of a new process, or the caller's. *)
Definition elf_pid (is_fork : bool) : ST kstate Z :=
  if is_fork then get_current_pid
  else pid ← free_slot_m proc_slot 0 MAX_PROCESSES_COUNT; _ ← setup_process_info pid pid; mret pid.
(** From the loaded segments on: the thread, its stack and the heap. *)
Definition start_program (pid : Z) (h : elf_header_t) (es : list pht_entry_t) (argv envp count thread_entry : Z) : ST (sys disk) Z :=
  tid ← on_kern (register_a_thread fuel pid thread_entry);
  _ ← on_kern (store_main_thread pid tid);
  _ ← init_stack tid argv envp (e_phoff h) count thread_entry (e_entry h);
  _ ← on_kern (gets (fun k => proc k pid) ≫= deref);
  _ ← on_kern (modify (upd_proc pid (fun p => set_p_heap (heap_start es) (set_p_signal 0 p))));
  _ ← on_kern (modify (upd_thread tid (set_t_state THREAD_READY)));
  mret pid.
Definition run_elf_process (p : path) (argv envp : Z) (is_fork : bool) : ST (sys disk) Z :=
  x ← on_kern allow_exec_path;
  rd ← (if x : bool then on_kern allow_read_path else mret false);
  if negb rd then mret (neg64 EACCES)
  else
    r ← read_headers p;
    match r : (Z + elf_header_t * list pht_entry_t) with
    | inl e => mret e
    | inr (h, es) =>
        pid ← on_kern (elf_pid is_fork);
        _ ← on_kern (create_page_table_for_process pid 1 1);
        l ← load_segments p es pid 0 0;
        match l : (Z + Z * Z) with
        | inl e => mret e
        | inr (last_memory_offset, count) =>
            _ ← read_interp p es;
            entry ← (if has_interp es then load_so (chars "/ld.so"%string) pid (u64 (div_ceil last_memory_offset 4096 * 4096))
                     else mret (e_entry h));
            if has_interp es && ((entry =? neg64 1) || (entry =? neg64 2)) then mret entry
            else start_program pid h es argv envp count entry
        end
    end.

Definition must_end {A} (o : option A) : ST (sys disk) A := match o with Some a => mret a | None => stuck end.
(** [sys_execve] of syscall2.h: the strings are copied to the kernel stack, at
    the addresses given. *)
Record exec_locals := ExecLocals { x_argv_strs : Z; x_argv : Z; x_envp_strs : Z; x_envp : Z; x_end_local : Z }.
Definition sys_execve (x : exec_locals) (p : path) (argv envp : Z) : ST (sys disk) unit :=
  pid ← on_kern get_current_pid;
  tid ← on_kern (gets get_current_thread_id);
  t ← on_kern (gets (fun k => thread k tid) ≫= deref);
  cr3_bk ← on_kern (gets (fun k => cr3_of k pid));
  m ← gets s_mem;
  m1 ← must_end (copy_str_arr fuel m argv (x_argv_strs x) (x_argv x));
  m2 ← must_end (copy_str_arr fuel m1 envp (x_envp_strs x) (x_envp x));
  _ ← upd_mem (fun _ => m2);
  _ ← on_kern (for_m 4 1 (fun i => modify (decrease_paging_of_process_with_virt_addr pid (u64 (t_stack_addr t - i * 4096)))));
  _ ← run_elf_process p (x_argv x) (x_envp x) true;
  _ ← on_kern (modify (free_page_hm cr3_bk 4));
  pr ← on_kern (gets (fun k => proc k pid) ≫= deref);
  nt ← on_kern (gets (fun k => thread k (p_main_thread_id pr)) ≫= deref);
  _ ← on_kern (modify (upd_thread (p_main_thread_id pr) (fun t => set_t_context (set_c_gs24 (t_stack_addr t) (t_context t)) t)));
  on_kern (end_thread (x_end_local x) tid 0).
End Load.

(** ** Arrays of strings *)
Section Strings.
(** The array at [arr], from index [i] on, holds pointers to the strings and a
    null; nothing of it lies in [lo, hi). *)
Fixpoint str_array (lo hi : Z) (m : mem) (arr i : Z) (strs : list (list Z)) : Prop :=
  (arr + 8 * i + 8 <= lo \/ hi <= arr + 8 * i) /\
  match strs with
  | [] => ld_le 8 m (arr + 8 * i) = 0
  | s :: r =>
      let p := ld_le 8 m (arr + 8 * i) in
      p <> 0 /\ StrLib.cstr m p s /\ (p + slen s < lo \/ hi <= p) /\ str_array lo hi m arr (i + 1) r
  end.
(** Where the copies go, and the room they take. *)
Fixpoint str_addrs (rsp : Z) (strs : list (list Z)) : list Z :=
  match strs with [] => [] | s :: r => let a := rsp - (slen s + 1) in a :: str_addrs a r end.
Fixpoint strs_size (strs : list (list Z)) : Z :=
  match strs with [] => 0 | s :: r => slen s + 1 + strs_size r end.

Lemma strs_size_nonneg strs : 0 <= strs_size strs.
Proof. induction strs as [|s r IH]; cbn [strs_size]; [lia|]. pose proof (slen_nonneg s). lia. Qed.
Lemma length_str_addrs rsp strs : length (str_addrs rsp strs) = length strs.
Proof. revert rsp. induction strs as [|s r IH]; intros rsp; cbn; [done|]. by rewrite IH. Qed.
Lemma str_array_ext lo hi m m' arr i strs :
  (forall x, x < lo \/ hi <= x -> ld m' x = ld m x) -> lo <= hi ->
  str_array lo hi m arr i strs -> str_array lo hi m' arr i strs.
Proof.
  intros H Hlo. revert i. induction strs as [|s r IH]; intros i; cbn [str_array]; intros [Hd HA]; split; try assumption.
  - rewrite <- HA. apply ld_le_frame. intros x Hx. apply H. lia.
  - assert (E : ld_le 8 m' (arr + 8 * i) = ld_le 8 m (arr + 8 * i)) by (apply ld_le_frame; intros x Hx; apply H; lia).
    rewrite E. destruct HA as (Hp & Hs & Hps & HA). split; [exact Hp|]. split; [|split; [exact Hps|apply IH; exact HA]].
    eapply cstr_ext; [|exact Hs]. intros x Hx. apply H. lia.
Qed.
Lemma str_array_narrow lo hi lo' hi' m arr i strs :
  lo <= lo' -> hi' <= hi -> str_array lo hi m arr i strs -> str_array lo' hi' m arr i strs.
Proof.
  intros Hl Hh. revert i. induction strs as [|s r IH]; intros i; cbn [str_array]; intros [Hd HA]; (split; [lia|]); [exact HA|].
  destruct HA as (Hp & Hs & Hps & HA). split; [exact Hp|]. split; [exact Hs|]. split; [lia|apply IH; exact HA].
Qed.
Lemma count_array lo hi m arr i strs fuel :
  str_array lo hi m arr i strs -> (length strs < fuel)%nat ->
  count_str_arr_loop fuel m arr i = Some (i + Z.of_nat (length strs)).
Proof.
  revert i fuel. induction strs as [|s r IH]; intros i fuel HA Hf; (destruct fuel as [|f]; [lia|]);
    cbn [count_str_arr_loop str_array length] in *; destruct HA as [_ HA].
  - rewrite HA. cbn. f_equal. lia.
  - destruct HA as (Hp & _ & _ & HA). rewrite (proj2 (Z.eqb_neq _ _) Hp).
    rewrite (IH (i + 1) f HA) by lia. f_equal. lia.
Qed.
Lemma memcpy_cstr m d p s : StrLib.cstr m p s -> p + slen s < d \/ d + slen s < p ->
  StrLib.cstr (memcpy m d p (slen s + 1)) d s.
Proof.
  intros Hs Hd. pose proof (slen_nonneg s).
  assert (H1 : forall x, d <= x <= d + slen s -> ld (memcpy m d p (slen s + 1)) x = ld m (p + (x - d))).
  { intros x Hx. rewrite memcpy_ld by lia. repeat (ztest; cbn [andb]); lia || done. }
  revert H1. generalize (memcpy m d p (slen s + 1)). intros m'. clear Hd. revert p d Hs.
  induction s as [|c s IH]; intros p d Hs H1; cbn [StrLib.cstr] in *.
  - rewrite H1 by (unfold slen; cbn; lia). rewrite Z.sub_diag, Z.add_0_r. exact Hs.
  - rewrite slen_cons in *. pose proof (slen_nonneg s). destruct Hs as (Hc & E & Hs). split; [exact Hc|]. split.
    + rewrite H1, Z.sub_diag, Z.add_0_r by lia. exact E.
    + apply (IH ltac:(lia) (p + 1) (d + 1) Hs). intros x Hx. rewrite H1 by lia. f_equal. lia.
Qed.
Lemma push_strings_spec strs : forall fuel m arr i rsp lo hi,
  str_array lo hi m arr i strs -> Forall (fun s => slen s < Z.of_nat fuel) strs ->
  0 <= lo -> lo <= rsp - strs_size strs -> rsp <= hi -> rsp < 2 ^ 64 ->
  exists m', push_strings (length strs) fuel m arr i rsp = Some (m', rsp - strs_size strs, str_addrs rsp strs) /\
    Forall2 (StrLib.cstr m') (str_addrs rsp strs) strs /\
    (forall x, x < rsp - strs_size strs \/ rsp <= x -> ld m' x = ld m x).
Proof.
  induction strs as [|s r IH]; intros fuel m arr i rsp lo hi HA Hf Hlo Hr Hhi H64;
    cbn [push_strings length str_addrs strs_size str_array] in *.
  - exists m. rewrite Z.sub_0_r. split; [done|]. split; [constructor|done].
  - pose proof (slen_nonneg s). pose proof (strs_size_nonneg r). inversion Hf as [|? ? Hfs Hfr]; subst.
    destruct HA as (Hd & Hp & Hs & Hps & HA). unfold strlen. rewrite (find_nul_cstr fuel m _ s Hs Hfs). cbn [mbind option_bind].
    set (p := ld_le 8 m (arr + 8 * i)) in *. replace (p + slen s - p) with (slen s) by lia. rewrite u64_id by lia.
    set (a := rsp - (slen s + 1)) in *. set (m1 := memcpy m a p (slen s + 1)).
    assert (HF1 : forall x, x < a \/ rsp <= x -> ld m1 x = ld m x) by (intros x Hx; apply memcpy_ne; lia).
    destruct (IH fuel m1 arr (i + 1) a lo hi) as (m' & E & HC & HF); try lia; [|exact Hfr|].
    { apply (str_array_ext lo hi m); [|lia|exact HA]. intros x Hx. apply HF1. lia. }
    exists m'. rewrite E. cbn [mbind option_bind]. split; [do 2 f_equal; f_equal; lia|]. split.
    + constructor; [|exact HC]. eapply cstr_ext; [|apply memcpy_cstr; [exact Hs|lia]]. intros x Hx. apply HF. lia.
    + intros x Hx. rewrite HF by lia. apply HF1. lia.
Qed.
End Strings.

(** ** The vectors below the strings *)
Section Vectors.
(** Consecutive words from [a] on. *)
Fixpoint words_at (m : mem) (a : Z) (l : list Z) : Prop :=
  match l with [] => True | w :: r => ld_le 8 m a = w /\ words_at m (a + 8) r end.
Definition u64s (l : list Z) : Prop := Forall (fun w => 0 <= w < 2 ^ 64) l.

Lemma words_cons w l : words (w :: l) = 8 + words l.
Proof. unfold words. cbn [length]. lia. Qed.
Lemma words_nonneg l : 0 <= words l.
Proof. unfold words. lia. Qed.
Lemma words_at_ext m m' a l : (forall x, a <= x < a + words l -> ld m' x = ld m x) -> words_at m a l -> words_at m' a l.
Proof.
  revert a. induction l as [|w l IH]; intros a H; cbn [words_at]; [done|]. rewrite words_cons in H. pose proof (words_nonneg l).
  intros [E HW]. split; [rewrite <- E; apply ld_le_frame; intros x Hx; apply H; lia|]. apply IH; [|exact HW]. intros x Hx. apply H. lia.
Qed.
Lemma words_at_app m a l l' : words_at m a (l ++ l') <-> words_at m a l /\ words_at m (a + words l) l'.
Proof.
  revert a. induction l as [|w l IH]; intros a; cbn [words_at app].
  - unfold words. cbn. rewrite Z.add_0_r. tauto.
  - rewrite IH, words_cons. replace (a + 8 + words l) with (a + (8 + words l)) by lia. tauto.
Qed.
Lemma put_words_frame l : forall m a x, x < a \/ a + words l <= x -> ld (put_words m a l) x = ld m x.
Proof.
  induction l as [|w l IH]; intros m a x H; cbn [put_words]; [done|]. rewrite words_cons in H. pose proof (words_nonneg l).
  rewrite IH by lia. apply st_le_ld_ne. lia.
Qed.
Lemma put_words_at l : forall m a, u64s l -> words_at (put_words m a l) a l.
Proof.
  induction l as [|w l IH]; intros m a Hl; cbn [put_words words_at]; [done|]. inversion Hl as [|? ? Hw Hl']; subst. split.
  - etrans; [|apply (ld_le_st8 m a w Hw)]. apply ld_le_frame. intros x Hx. apply put_words_frame. lia.
  - apply IH, Hl'.
Qed.
Lemma push_words m a l r : u64s l -> words_at m a r -> words_at (put_words m (a - words l) l) (a - words l) (l ++ r).
Proof.
  intros Hl Hr. apply words_at_app. split; [apply put_words_at, Hl|]. rewrite Z.sub_add.
  eapply words_at_ext; [|exact Hr]. intros x Hx. apply put_words_frame. lia.
Qed.
Lemma align_down_spec n : 16 <= n < 2 ^ 64 -> n - 15 <= align_down_16_8 n <= n /\ align_down_16_8 n mod 16 = 8.
Proof.
  intros Hn. unfold align_down_16_8. pose proof (Z.div_mod n 16 ltac:(lia)). pose proof (Z.mod_pos_bound n 16 ltac:(lia)).
  destruct (Z.ltb_spec (n mod 16) 8).
  - rewrite (u64_id (n / 16 * 16 - 16)), u64_id by lia. split; [lia|].
    replace (n / 16 * 16 - 16 + 8) with (8 + (n / 16 - 1) * 16) by lia. by rewrite Z.mod_add.
  - rewrite (u64_id (n / 16 * 16)), u64_id by lia. split; [lia|]. rewrite Z.add_comm. by rewrite Z.mod_add.
Qed.
(** What the entry code finds from the stack pointer up. *)
Definition stack_words (auxv argv_ptr envp_ptr : list Z) : list Z :=
  0 :: Z.of_nat (length argv_ptr) :: envp_ptr ++ 0 :: argv_ptr ++ 0 :: auxv.
Definition vectors_size (auxv argv_ptr envp_ptr : list Z) : Z := words auxv + words argv_ptr + words envp_ptr + 32.

Lemma push_vectors_spec m rsp0 auxv argv_ptr envp_ptr :
  u64s auxv -> u64s argv_ptr -> u64s envp_ptr -> vectors_size auxv argv_ptr envp_ptr + 32 <= rsp0 < 2 ^ 64 ->
  exists m' rsp, push_vectors m rsp0 auxv argv_ptr envp_ptr = (m', rsp) /\ rsp mod 16 = 0 /\
    rsp0 - vectors_size auxv argv_ptr envp_ptr - 16 < rsp <= rsp0 - vectors_size auxv argv_ptr envp_ptr /\
    words_at m' rsp (stack_words auxv argv_ptr envp_ptr) /\
    (forall x, x < rsp \/ rsp0 <= x -> ld m' x = ld m x).
Proof.
  unfold vectors_size. intros Ha Hg He Hr. pose proof (words_nonneg auxv). pose proof (words_nonneg argv_ptr). pose proof (words_nonneg envp_ptr).
  unfold push_vectors. set (bot := u64 (rsp0 - _ - _ - _ - 8 - 16)).
  assert (Eb : bot = rsp0 - words auxv - words argv_ptr - words envp_ptr - 24) by (unfold bot; rewrite u64_id by lia; lia).
  clearbody bot. destruct (align_down_spec bot ltac:(lia)) as [Hal Hm16]. revert Hal Hm16. generalize (align_down_16_8 bot). intros al Hal Hm16.
  rewrite (u64_id (bot - al)) by lia. rewrite (u64_id (rsp0 - (bot - al))) by lia. set (a0 := rsp0 - (bot - al)) in *.
  rewrite (u64_id (a0 - words auxv)) by lia. set (a1 := a0 - words auxv) in *.
  rewrite (u64_id (a1 - 8)) by lia. set (a2 := a1 - 8) in *.
  rewrite (u64_id (a2 - words argv_ptr)) by lia. set (a3 := a2 - words argv_ptr) in *.
  rewrite (u64_id (a3 - 8)) by lia. set (a4 := a3 - 8) in *.
  rewrite (u64_id (a4 - words envp_ptr)) by lia. set (a5 := a4 - words envp_ptr) in *.
  rewrite (u64_id (a5 - 8)) by lia. set (a6 := a5 - 8) in *.
  rewrite (u64_id (a6 - 8)) by lia. set (a7 := a6 - 8) in *.
  set (m0 := erase_mem8 m a0 (bot - al)). set (m1 := put_words m0 a1 auxv). set (m2 := st_le 8 m1 a2 0).
  set (m3 := put_words m2 a3 argv_ptr). set (m4 := st_le 8 m3 a4 0). set (m5 := put_words m4 a5 envp_ptr).
  set (m6 := st_le 8 m5 a6 _). exists (st_le 8 m6 a7 0), a7. split; [reflexivity|].
  assert (Ha7 : a7 = al - 8) by lia. split; [|split; [lia|split]].
  - pose proof (Z.div_mod al 16 ltac:(lia)) as Hdm. rewrite Ha7. replace (al - 8) with (al / 16 * 16) by lia. apply Z.mod_mul. lia.
  - unfold stack_words. assert (W1 : words_at m1 a1 auxv) by (apply put_words_at; exact Ha).
    assert (H0' : 0 <= 0 < 2 ^ 64) by lia.
    pose proof (push_words m1 a1 [0] auxv (Forall_cons _ _ _ H0' (Forall_nil _)) W1) as W2. fold a2 in W2. change (put_words m1 a2 [0]) with m2 in W2.
    pose proof (push_words m2 a2 argv_ptr _ Hg W2) as W3. fold a3 m3 in W3.
    pose proof (push_words m3 a3 [0] _ (Forall_cons _ _ _ H0' (Forall_nil _)) W3) as W4. fold a4 in W4. change (put_words m3 a4 [0]) with m4 in W4.
    pose proof (push_words m4 a4 envp_ptr _ He W4) as W5. fold a5 m5 in W5.
    assert (Hn : 0 <= Z.of_nat (length argv_ptr) < 2 ^ 64) by (unfold words in *; lia).
    pose proof (push_words m5 a5 [Z.of_nat (length argv_ptr)] _ (Forall_cons _ _ _ Hn (Forall_nil _)) W5) as W6.
    fold a6 in W6. change (put_words m5 a6 [Z.of_nat (length argv_ptr)]) with m6 in W6.
    exact (push_words m6 a6 [0] _ (Forall_cons _ _ _ H0' (Forall_nil _)) W6).
  - intros x Hx. rewrite st_le_ld_ne by lia. unfold m6. rewrite st_le_ld_ne by lia. unfold m5. rewrite put_words_frame by lia.
    unfold m4. rewrite st_le_ld_ne by lia. unfold m3. rewrite put_words_frame by lia. unfold m2. rewrite st_le_ld_ne by lia.
    unfold m1. rewrite put_words_frame by lia. unfold m0. rewrite erase_mem8_ne by lia. reflexivity.
Qed.
End Vectors.

(** ** The whole stack *)
Section Image.
Context {EE : ElfEnv}.
(** A null pointer, or an array of strings outside [lo, hi). *)
Definition args_of (lo hi : Z) (m : mem) (arr : Z) (strs : list (list Z)) : Prop :=
  (arr = 0 /\ strs = []) \/ (arr <> 0 /\ str_array lo hi m arr 0 strs).
Lemma args_of_ext lo hi m m' arr strs :
  (forall x, x < lo \/ hi <= x -> ld m' x = ld m x) -> lo <= hi -> args_of lo hi m arr strs -> args_of lo hi m' arr strs.
Proof. intros H Hl [HA|[Ha HA]]; [left; exact HA|right]. split; [exact Ha|]. exact (str_array_ext lo hi m m' arr 0 strs H Hl HA). Qed.
Lemma count_strings_spec lo hi m arr strs fuel : args_of lo hi m arr strs -> (length strs < fuel)%nat ->
  count_strings fuel m arr = Some (Z.of_nat (length strs)).
Proof.
  intros [[-> ->]|[Ha HA]] Hf; unfold count_strings; [reflexivity|]. rewrite (proj2 (Z.eqb_neq arr 0) Ha).
  exact (count_array lo hi m arr 0 strs fuel HA Hf).
Qed.
Lemma push_args_spec strs fuel m arr rsp lo hi :
  args_of lo hi m arr strs -> Forall (fun s => slen s < Z.of_nat fuel) strs ->
  0 <= lo -> lo <= rsp - strs_size strs -> rsp <= hi -> rsp < 2 ^ 64 ->
  exists m', push_strings (length strs) fuel m arr 0 rsp = Some (m', rsp - strs_size strs, str_addrs rsp strs) /\
    Forall2 (StrLib.cstr m') (str_addrs rsp strs) strs /\
    (forall x, x < rsp - strs_size strs \/ rsp <= x -> ld m' x = ld m x).
Proof.
  intros [[-> ->]|[Ha HA]] Hf H0 H1 H2 H3.
  - exists m. cbn. rewrite Z.sub_0_r. split; [done|]. split; [constructor|done].
  - exact (push_strings_spec strs fuel m arr 0 rsp lo hi HA Hf H0 H1 H2 H3).
Qed.
Lemma random_bytes_ld n : forall i m a x,
  ld (random_bytes n i m a) x =
  if (a + Z.of_nat i <=? x) && (x <? a + Z.of_nat i + Z.of_nat n) then Z.land (elf_rand (Z.to_nat (x - a))) 0xFF else ld m x.
Proof.
  induction n as [|n IH]; intros i m a x; cbn [random_bytes].
  - repeat (ztest; cbn [andb]); lia || done.
  - rewrite IH, ld_st. repeat (ztest; cbn [andb]); try lia; try done. do 2 f_equal. lia.
Qed.
Lemma str_addrs_range strs : forall rsp a, a ∈ str_addrs rsp strs -> rsp - strs_size strs <= a < rsp.
Proof.
  induction strs as [|s r IH]; intros rsp a; cbn [str_addrs strs_size]; [intros H; inversion H|].
  pose proof (slen_nonneg s). pose proof (strs_size_nonneg r). intros [->|Ha]%elem_of_cons; [lia|]. specialize (IH _ _ Ha). lia.
Qed.
Lemma str_addrs_u64 strs rsp : strs_size strs <= rsp < 2 ^ 64 -> u64s (str_addrs rsp strs).
Proof. intros H. apply Forall_forall. intros a Ha. apply list_elem_of_In, str_addrs_range in Ha. lia. Qed.
Lemma str_addrs_end strs : forall rsp a s, (a, s) ∈ zip (str_addrs rsp strs) strs -> rsp - strs_size strs <= a /\ a + slen s < rsp.
Proof.
  induction strs as [|s0 r IH]; intros rsp a s; cbn [str_addrs strs_size zip]; [intros H; inversion H|].
  pose proof (strs_size_nonneg r). intros [[= -> ->]|H']%elem_of_cons; [lia|].
  destruct (IH _ _ _ H'). pose proof (slen_nonneg s0). lia.
Qed.
Lemma str_addrs_last strs : forall rsp, strs <> [] -> list.last (str_addrs rsp strs) = Some (rsp - strs_size strs).
Proof.
  induction strs as [|s r IH]; intros rsp Hne; [done|]. cbn [str_addrs strs_size]. destruct r as [|s' r].
  - cbn. f_equal. lia.
  - etrans; [|etrans; [apply (IH (rsp - (slen s + 1))); discriminate|f_equal; lia]]. reflexivity.
Qed.
Lemma zip_cstr m (l : list Z) (r : list (list Z)) a s : Forall2 (StrLib.cstr m) l r -> (a, s) ∈ zip l r -> StrLib.cstr m a s.
Proof.
  intros H. induction H as [|x y l r Hx H IH]; cbn [zip]; [intros Hz; inversion Hz|].
  intros [[= -> ->]|Hz]%elem_of_cons; [exact Hx|exact (IH Hz)].
Qed.
(** Copies stay where they are when the memory changes elsewhere. *)
Lemma copies_ext m m' rsp strs :
  (forall x, rsp - strs_size strs <= x < rsp -> ld m' x = ld m x) ->
  Forall2 (StrLib.cstr m) (str_addrs rsp strs) strs -> Forall2 (StrLib.cstr m') (str_addrs rsp strs) strs.
Proof.
  revert rsp. induction strs as [|s r IH]; intros rsp; cbn [str_addrs strs_size]; intros H HF; [constructor|].
  pose proof (slen_nonneg s). pose proof (strs_size_nonneg r). inversion HF as [|? ? ? ? Hs HF']; subst. constructor.
  - eapply cstr_ext; [|exact Hs]. intros x Hx. apply H. lia.
  - apply IH; [|exact HF']. intros x Hx. apply H. lia.
Qed.

(** The addresses: [R2] below the arguments and their null, [R] below the
    environment and its null, where the random bytes go. *)
Definition env_top (S : Z) (args : list (list Z)) : Z := S - 8 - strs_size args - 8.
Definition random_at (S : Z) (args envs : list (list Z)) : Z := env_top S args - strs_size envs - 8.
Definition image_auxv (S phdr count entry ldso : Z) (args envs : list (list Z)) : list Z :=
  auxv_default phdr count entry ldso (random_at S args envs) (default 0 (head (str_addrs (S - 8) args))).
Record stack_ok (fuel : nat) (lo S : Z) (m : mem) (argv envp : Z) (args envs : list (list Z)) : Prop := {
  so_argv : args_of lo S m argv args;
  so_envp : args_of lo S m envp envs;
  so_fuel : Forall (fun s => slen s < Z.of_nat fuel) (args ++ envs);
  so_count : (length args < fuel)%nat /\ (length envs < fuel)%nat;
  so_room : 0 <= lo /\ S < 2 ^ 64 /\
    lo <= S - (strs_size args + strs_size envs + 8 * Z.of_nat (length args) + 8 * Z.of_nat (length envs) + 304)
}.
Lemma image_auxv_u64 S phdr count entry ldso args envs : 0 <= random_at S args envs -> S < 2 ^ 64 -> u64s [phdr; count; entry; ldso] ->
  u64s (image_auxv S phdr count entry ldso args envs).
Proof.
  intros HR HS Hu. unfold random_at, env_top in HR. pose proof (strs_size_nonneg args). pose proof (strs_size_nonneg envs).
  assert (Ha : 0 <= default 0 (head (str_addrs (S - 8) args)) < 2 ^ 64).
  { destruct args as [|s r]; cbn [str_addrs head default]; [cbn; lia|]. cbn [strs_size] in *. pose proof (slen_nonneg s). pose proof (strs_size_nonneg r). cbn. lia. }
  unfold u64s in *. repeat match goal with H : Forall _ (_ :: _) |- _ => inversion H; clear H; subst end.
  unfold image_auxv, auxv_default, random_at, env_top, AT_PHDR, AT_PHENT, AT_PHNUM, AT_ENTRY, AT_PAGESZ, AT_BASE, AT_RANDOM, AT_EXECFN,
    AT_UID, AT_EUID, AT_GID, AT_EGID, AT_NULL, sizeof_pht_entry_t.
  repeat (constructor; [lia|]). constructor.
Qed.
Lemma stack_image_spec fuel lo S m argv envp args envs phdr count ldso entry :
  stack_ok fuel lo S m argv envp args envs -> u64s [phdr; count; entry; ldso] ->
  exists m' rsp,
    stack_image fuel m S argv envp phdr count ldso entry = Some (m', rsp) /\
    rsp mod 16 = 0 /\ lo <= rsp /\
    words_at m' rsp (stack_words (image_auxv S phdr count entry ldso args envs)
                       (str_addrs (S - 8) args) (str_addrs (env_top S args) envs)) /\
    Forall2 (StrLib.cstr m') (str_addrs (S - 8) args) args /\
    (forall a s, (a, s) ∈ zip (str_addrs (env_top S args) envs) envs -> random_at S args envs + 16 <= a -> StrLib.cstr m' a s) /\
    (forall i, 0 <= i < 16 -> ld m' (random_at S args envs + i) = Z.land (elf_rand (Z.to_nat i)) 0xFF) /\
    (forall x, x < lo \/ S <= x -> ld m' x = ld m x).
Proof.
  intros [HA HE Hf [Hc1 Hc2] (Hlo & HS & Hroom)] Hu. apply Forall_app in Hf as [Hf1 Hf2].
  pose proof (strs_size_nonneg args). pose proof (strs_size_nonneg envs).
  unfold stack_image. rewrite (count_strings_spec _ _ _ _ _ _ HA Hc1). cbn [mbind option_bind].
  rewrite Nat2Z.id, (u64_id (S - 8)) by lia.
  destruct (push_args_spec args fuel m argv (S - 8) lo S HA Hf1) as (m1 & E1 & HC1 & HF1); [lia..|].
  rewrite E1. cbn [mbind option_bind]. rewrite (u64_id (S - 8 - strs_size args - 8)) by lia.
  fold (env_top S args). set (R2 := env_top S args) in *. set (m2 := st_le 8 m1 R2 0).
  assert (ER2 : R2 = S - 8 - strs_size args - 8) by reflexivity. clearbody R2.
  assert (HF2 : forall x, x < lo \/ S <= x -> ld m2 x = ld m x).
  { intros x Hx. unfold m2. rewrite st_le_ld_ne by lia. apply HF1. lia. }
  rewrite (count_strings_spec lo S m2 envp envs fuel) by (exact Hc2 || (apply (args_of_ext lo S m); [exact HF2|lia|exact HE])).
  cbn [mbind option_bind]. rewrite Nat2Z.id.
  destruct (push_args_spec envs fuel m2 envp R2 lo S) as (m3 & E3 & HC3 & HF3);
    [apply (args_of_ext lo S m); [exact HF2|lia|exact HE]|exact Hf2|lia..|].
  rewrite E3. cbn [mbind option_bind]. rewrite (u64_id (R2 - strs_size envs - 8)) by lia.
  assert (ER : random_at S args envs = R2 - strs_size envs - 8) by (unfold random_at, env_top; lia).
  assert (EX : auxv_default phdr count entry ldso (R2 - strs_size envs - 8) (default 0 (head (str_addrs (S - 8) args))) =
               image_auxv S phdr count entry ldso args envs) by (unfold image_auxv; rewrite ER; reflexivity).
  rewrite EX. clear EX. pose proof (image_auxv_u64 S phdr count entry ldso args envs ltac:(lia) HS Hu) as HX.
  assert (HXl : words (image_auxv S phdr count entry ldso args envs) = 208) by reflexivity.
  set (aux := image_auxv _ _ _ _ _ _ _) in *. clearbody aux. rewrite ER in *. clear ER. set (R := R2 - strs_size envs - 8) in *.
  set (m4 := random_bytes 16 0 _ R).
  destruct (push_vectors_spec m4 R aux (str_addrs (S - 8) args) (str_addrs R2 envs)) as (m' & rsp & E & H16 & Hrsp & HW & HF);
    unfold vectors_size, words in *; rewrite ?length_str_addrs in *;
    [exact HX|apply str_addrs_u64; lia|apply str_addrs_u64; lia|lia|].
  assert (HF4 : forall x, x < R \/ R + 16 <= x -> ld m4 x = ld m3 x).
  { intros x Hx. unfold m4. rewrite random_bytes_ld. repeat (ztest; cbn [andb]); try lia; apply st_le_ld_ne; lia. }
  exists m', rsp. rewrite E. split; [reflexivity|]. split; [exact H16|]. split; [lia|]. split; [exact HW|]. split; [|split; [|split]].
  - apply (copies_ext m1); [|exact HC1]. intros x Hx. rewrite HF, HF4, HF3 by lia. unfold m2. apply st_le_ld_ne. lia.
  - intros a s Hz Ha. destruct (str_addrs_end _ _ _ _ Hz) as [_ Hend]. eapply cstr_ext; [|exact (zip_cstr _ _ _ _ _ HC3 Hz)].
    intros x Hx. rewrite HF by lia. apply HF4. lia.
  - intros i Hi. rewrite HF by lia. unfold m4. rewrite random_bytes_ld. repeat (ztest; cbn [andb]); try lia. do 2 f_equal. lia.
  - intros x Hx. rewrite HF, HF4, HF3 by lia. apply HF2, Hx.
Qed.
End Image.

(** ** Mapping and filling a segment *)
Section Segment.
Context {M : Machine}.
Lemma extend_loop_for n : forall f pid base j stop k,
  0 <= base + j * 4096 -> base + (j + Z.of_nat n) * 4096 < 2 ^ 64 ->
  stop < base + (j + Z.of_nat n) * 4096 -> base + (j + Z.of_nat n - 1) * 4096 <= stop -> (n <= f)%nat ->
  extend_loop f pid (base + j * 4096) stop k =
  for_m n j (fun i => _ ← increase_paging_of_process_with_virt_addr pid (u64 (base + i * 4096)); mret tt) k.
Proof.
  induction n as [|n IH]; intros f pid base j stop k H0 H64 Hs Hl Hf.
  - destruct f; cbn [extend_loop for_m]; destruct (Z.ltb_spec stop (base + j * 4096)); lia || reflexivity.
  - destruct f as [|f]; [lia|]. cbn [extend_loop for_m]. destruct (Z.ltb_spec stop (base + j * 4096)); [lia|].
    rewrite (u64_id (base + j * 4096)) by lia. unfold mbind, st_bind.
    destruct (increase_paging_of_process_with_virt_addr pid (base + j * 4096) k) as [[r k1]| | |]; try reflexivity.
    rewrite u64_id by lia. replace (base + j * 4096 + 4096) with (base + (j + 1) * 4096) by lia.
    rewrite (IH f pid base (j + 1) stop k1) by lia. reflexivity.
Qed.
(** How many pages the loop of [extend_cr3] visits: from the page of [va] to the
    page of [va + len], the byte behind the segment, inclusive. *)
Definition extend_pages (va len : Z) : Z := (va + len) / 4096 - va / 4096 + 1.
Lemma extend_cr3_spec fuel pid va len k :
  machine_ok -> pt_wf k (cr3_of k pid) -> 0 <= va -> 0 <= len -> va + len + 4096 <= HM ->
  extend_pages va len <= Z.of_nat fuel -> 4 * extend_pages va len <= Z.of_nat (length (free_list k)) ->
  exists k', extend_cr3 fuel pid va len k = Done (tt, k') /\ pt_wf k' (cr3_of k' pid) /\ mem_only k k' /\
    (forall x, 0 <= x < HM -> is_paged k' pid x = is_paged k pid x || in_range (va / 4096) (extend_pages va len) (x / 4096)).
Proof.
  unfold extend_pages. intros Mok W Hva Hlen Hend Hf Hfree. unfold extend_cr3.
  pose proof (Z.div_mod va 4096 ltac:(lia)). pose proof (Z.mod_pos_bound va 4096 ltac:(lia)).
  pose proof (Z.div_mod (va + len) 4096 ltac:(lia)). pose proof (Z.mod_pos_bound (va + len) 4096 ltac:(lia)).
  rewrite (u64_id (va + len)) by (unfold HM in *; lia). set (n := Z.to_nat ((va + len) / 4096 - va / 4096 + 1)).
  assert (Hle : va / 4096 <= (va + len) / 4096) by (apply Z.div_le_mono; lia).
  destruct (map_range_spec Mok n 0 (va / 4096 * 4096) pid k W) as (k' & E & H1' & H2' & _ & H3'); [lia..|].
  exists k'. split; [|split; [exact H1'|split; [exact H2'|]]].
  - rewrite <- E. replace (va / 4096 * 4096) with (va / 4096 * 4096 + 0 * 4096) at 1 by lia.
    apply extend_loop_for; unfold HM in *; lia.
  - intros x Hx. rewrite H3' by exact Hx. rewrite Z.div_mul, Z.add_0_r by lia. do 2 f_equal. lia.
Qed.
End Segment.

(** Bytes placed at [va], and the range from [a] to [b] behind it cleared. *)
Lemma filled_image (m : mem) (va a b : Z) (bytes : list Z) :
  let m1 := store_bytes m va bytes in
  let m2 := if a <? b then erase_mem8 m1 (va + a) (b - a) else m1 in
  Z.of_nat (length bytes) <= a -> Z.of_nat (length bytes) <= b ->
  cells m2 va (length bytes) = bytes /\ (forall x, va + a <= x < va + b -> ld m2 x = 0) /\
  (forall x, x < va \/ va + b <= x -> ld m2 x = ld m x).
Proof.
  intros m1 m2 Ha Hb. assert (H2 : forall x, ld m2 x = if (va + a <=? x) && (x <? va + b) then 0 else ld m1 x).
  { intros x. unfold m2. destruct (Z.ltb_spec a b).
    - rewrite erase_mem8_ld by lia. repeat (ztest; cbn [andb]); lia || reflexivity.
    - repeat (ztest; cbn [andb]); lia || reflexivity. }
  split; [|split].
  - rewrite <- (cells_store m va bytes) at 2. apply cells_ext. intros x Hx. rewrite H2.
    repeat (ztest; cbn [andb]); lia || reflexivity.
  - intros x Hx. rewrite H2. repeat (ztest; cbn [andb]); lia || reflexivity.
  - intros x Hx. rewrite H2. unfold m1. rewrite store_bytes_ld. repeat (ztest; cbn [andb]); lia || reflexivity.
Qed.

(** ** Ending the caller *)
Section Ending.
Lemma on_kern_split {disk A : Type} (c : ST kstate A) (s s' : sys disk) a :
  on_kern c s = Done (a, s') -> exists k, c (s_k s) = Done (a, k) /\ s' = set_s_k k s.
Proof.
  unfold on_kern, on_sm, on_k. fold (s_k s). destruct (c (s_k s)) as [[b k]| | |]; try discriminate.
  intros [= <- <-]. exists k. split; reflexivity.
Qed.
Lemma get_current_pid_keeps k pid k' : get_current_pid k = Done (pid, k') -> k' = k.
Proof.
  unfold get_current_pid. rewrite gets_bind, deref_bind. destruct (thread k _) as [t|]; [|discriminate]. by intros [= _ <-].
Qed.
Lemma end_thread_dead {M : Machine} a tid rc k k' : end_thread a tid rc k = Done (tt, k') ->
  exists t, thread k' tid = Some t /\ t_state t = THREAD_DEAD.
Proof.
  unfold end_thread. rewrite deref_bind. destruct (thread k tid) as [t|] eqn:Et; [|discriminate]. rewrite modify_bind.
  set (k1 := upd_thread tid _ k). assert (H1 : thread k1 tid = Some (set_t_state THREAD_DEAD t)).
  { unfold thread, k1, upd_thread in *. cbn. rewrite lookup_alter_eq, Et. reflexivity. }
  intros E. apply bind_done_inv in E as (u & k2 & E2 & E).
  assert (H2 : exists t2, thread k2 tid = Some t2 /\ t_state t2 = THREAD_DEAD).
  { unfold when in E2. destruct (negb _); injection E2 as _ <-; [|eauto].
    unfold thread, upd_thread in *. cbn [threads_info_ptr set_threads_info_ptr]. rewrite lookup_alter_eq, H1. eexists. split; reflexivity. }
  assert (HR : threads_info_ptr k' = threads_info_ptr k2).
  { apply (for_m_rel (fun x y => threads_info_ptr y = threads_info_ptr x) _ _ _ _ _ ltac:(intros ?; reflexivity)
      ltac:(intros ? ? ? ? ?; etrans; eassumption)) in E; [exact E|]. intros j y z [= <-]. by apply (set_block_frame threads_info_ptr). }
  unfold thread in *. rewrite HR. exact H2.
Qed.
End Ending.

(** ** Properties *)

(** C21: Loading a program segment, with four free blocks for each page: the
    pages from that of its first byte to that of the byte behind its last become
    mapped and no other.  These are the pages of the segment, and one page more
    when it ends on a page boundary.  The bytes of the file are placed at its
    address, the rest of its memory size is cleared, no other byte changes and
    that size is returned; but a segment without bytes in the file is refused
    with -2, so a program with a purely zero-initialised segment does not start. *)
Theorem elf_segment_loaded {M : Machine} {disk : Type} `{PartitionDriver disk} (junk : Z) (v : vfs) (fuel : nat)
    (s : sys disk) (p : path) (e : pht_entry_t) (pid off : Z) :
  let va := p_vaddr e + off in
  let n := extend_pages va (p_memsz e) in
  machine_ok -> pt_wf (s_k s) (cr3_of (s_k s) pid) -> p_type e = PT_LOAD ->
  0 < va -> 0 <= p_filesz e <= p_memsz e -> va + p_memsz e + 4096 <= HM ->
  n <= Z.of_nat fuel -> 4 * n <= Z.of_nat (length (free_list (s_k s))) ->
  (p_filesz e = 0 -> exists s', load_pht_to_memory junk v fuel p e pid off s = Done (neg64 2, s') /\ s_mem s' = s_mem s) /\
  (forall bytes d', 0 < p_filesz e -> Z.of_nat (length bytes) = p_filesz e ->
    read_file junk v p va (p_offset e) (p_filesz e) (s_disk s) = Done ((0, bytes), d') ->
    exists s', load_pht_to_memory junk v fuel p e pid off s = Done (p_memsz e, s') /\ s_disk s' = d' /\
      (forall x, 0 <= x < HM -> is_paged (s_k s') pid x = is_paged (s_k s) pid x || ((va / 4096 <=? x / 4096) && (x / 4096 <=? (va + p_memsz e) / 4096))) /\
      (forall x, va <= x < va + p_memsz e -> is_paged (s_k s') pid x = true) /\
      ((va + p_memsz e) mod 4096 = 0 ->
       is_paged (s_k s') pid (va + p_memsz e) = true /\
       forall x, va <= x < va + p_memsz e -> x / 4096 <> (va + p_memsz e) / 4096) /\
      cells (s_mem s') va (length bytes) = bytes /\
      (forall x, va + p_filesz e <= x < va + p_memsz e -> ld (s_mem s') x = 0) /\
      (forall x, x < va \/ va + p_memsz e <= x -> ld (s_mem s') x = ld (s_mem s) x)).
Proof.
  intros va n Mok W Ht Hva Hsz Hend Hf Hfree.
  destruct (extend_cr3_spec fuel pid va (p_memsz e) (s_k s) Mok W ltac:(lia) ltac:(lia) Hend Hf Hfree) as (k' & E & _ & _ & HP).
  assert (Hgo : load_pht_to_memory junk v fuel p e pid off s =
    (r ← on_fs (read_file junk v p va (p_offset e) (p_filesz e));
     _ ← upd_mem (fun m => store_bytes m va (snd r));
     if fst r <? 0 then mret (neg64 2)
     else
       _ ← when (p_filesz e <? p_memsz e) (upd_mem (fun m => erase_mem8 m (va + p_filesz e) (p_memsz e - p_filesz e)));
       mret (p_memsz e)) (set_s_k k' s)).
  { unfold load_pht_to_memory. rewrite Ht. change (negb (PT_LOAD =? 1)) with false. cbv iota zeta.
    rewrite (u64_id (p_vaddr e + off)), (u64_id (p_vaddr e + off + _)) by (fold va; unfold HM in *; lia). fold va.
    rewrite (bind_done _ _ _ _ _ (on_kern_done _ s tt k' E)).
    destruct (Z.ltb_spec (p_memsz e) (p_filesz e)); [lia|reflexivity]. }
  rewrite Hgo. clear Hgo. split.
  - intros Hz. assert (ER : read_file junk v p va (p_offset e) (p_filesz e) (s_disk s) = Done ((- EINVAL, []), s_disk s)).
    { unfold read_file. rewrite Hz, orb_true_r. reflexivity. }
    assert (EF : on_fs (read_file junk v p va (p_offset e) (p_filesz e)) (set_s_k k' s) = Done ((- EINVAL, []), set_s_k k' s)).
    { unfold on_fs. cbn [s_disk set_s_k]. rewrite ER. destruct s as [[]]. reflexivity. }
    rewrite (bind_done _ _ _ _ _ EF). eexists. split; [reflexivity|]. destruct s as [[]]. reflexivity.
  - intros bytes d' Hpos Hlen ER. set (s1 := Sys (s_sm (set_s_k k' s)) (s_mem s) (fd_global s) (pipe_global s) d').
    assert (EF : on_fs (read_file junk v p va (p_offset e) (p_filesz e)) (set_s_k k' s) = Done ((0, bytes), s1)).
    { unfold on_fs. cbn [s_disk set_s_k]. rewrite ER. reflexivity. }
    rewrite (bind_done _ _ _ _ _ EF). set (m1 := store_bytes (s_mem s) va bytes).
    set (m2 := if p_filesz e <? p_memsz e then erase_mem8 m1 (va + p_filesz e) (p_memsz e - p_filesz e) else m1).
    assert (HP' : forall x, 0 <= x < HM -> is_paged k' pid x =
      is_paged (s_k s) pid x || ((va / 4096 <=? x / 4096) && (x / 4096 <=? (va + p_memsz e) / 4096))).
    { intros x Hx. rewrite HP by done. unfold in_range, extend_pages. f_equal. f_equal.
      destruct (Z.ltb_spec (x / 4096) (va / 4096 + ((va + p_memsz e) / 4096 - va / 4096 + 1))),
        (Z.leb_spec (x / 4096) ((va + p_memsz e) / 4096)); lia || done. }
    assert (Hin : forall x, va <= x <= va + p_memsz e -> is_paged k' pid x = true).
    { intros x Hx. rewrite HP' by lia. pose proof (Z.div_le_mono va x 4096 ltac:(lia) ltac:(lia)).
      pose proof (Z.div_le_mono x (va + p_memsz e) 4096 ltac:(lia) ltac:(lia)).
      destruct (Z.leb_spec (va / 4096) (x / 4096)), (Z.leb_spec (x / 4096) ((va + p_memsz e) / 4096)); lia || apply orb_true_r. }
    exists (set_s_mem m2 s1). split; [|split; [reflexivity|split; [exact HP'|split; [intros x Hx; apply Hin; lia|split]]]].
    + unfold when, m2. cbn [fst snd]. destruct (p_filesz e <? p_memsz e); reflexivity.
    + intros Hmod. split; [apply Hin; lia|]. intros x Hx Ex.
      pose proof (Z.div_mod (va + p_memsz e) 4096 ltac:(lia)). pose proof (Z.div_mod x 4096 ltac:(lia)).
      pose proof (Z.mod_pos_bound x 4096 ltac:(lia)). lia.
    + cbn [s_mem set_s_mem]. apply filled_image; lia.
Qed.

(** C14: The initial stack: from the 16-aligned stack pointer up lie a zero, the
    number of arguments, the environment pointers, a null, the argument
    pointers, a null and the auxiliary vector; every argument pointer points to
    a copy of its string, and nothing outside the stack changes.  The sixteen
    random bytes are written over the null and the eight bytes above it, where
    the last environment string starts; the copies above them are intact. *)
Theorem initial_stack_layout {EE : ElfEnv} {disk : Type} (fuel : nat) (s : sys disk) (tid lo argv envp : Z) (t : thread_info)
    (args envs : list (list Z)) (phdr count ldso entry : Z) :
  let S := t_stack_addr t in
  let R := random_at S args envs in
  thread (s_k s) tid = Some t -> stack_ok fuel lo S (s_mem s) argv envp args envs -> u64s [phdr; count; entry; ldso] ->
  exists s' rsp, init_stack fuel tid argv envp phdr count ldso entry s = Done (tt, s') /\
    thread (s_k s') tid = Some (set_t_context (set_c_rsp rsp (t_context t)) t) /\
    rsp mod 16 = 0 /\ lo <= rsp /\
    words_at (s_mem s') rsp (stack_words (image_auxv S phdr count entry ldso args envs)
                               (str_addrs (S - 8) args) (str_addrs (env_top S args) envs)) /\
    Forall2 (StrLib.cstr (s_mem s')) (str_addrs (S - 8) args) args /\
    (forall a x, (a, x) ∈ zip (str_addrs (env_top S args) envs) envs -> R + 16 <= a -> StrLib.cstr (s_mem s') a x) /\
    (envs <> [] -> list.last (str_addrs (env_top S args) envs) = Some (R + 8)) /\
    (forall i, 0 <= i < 16 -> ld (s_mem s') (R + i) = Z.land (elf_rand (Z.to_nat i)) 0xFF) /\
    (forall x, x < lo \/ S <= x -> ld (s_mem s') x = ld (s_mem s) x).
Proof.
  intros S R Ht Hok Hu.
  destruct (stack_image_spec fuel lo S (s_mem s) argv envp args envs phdr count ldso entry Hok Hu)
    as (m' & rsp & E & H16 & Hlo & HW & HC & HE & HR & HF).
  set (f := fun t => set_t_context (set_c_rsp rsp (t_context t)) t).
  exists (set_s_k (upd_thread tid f (s_k s)) (set_s_mem m' s)), rsp. split.
  - unfold init_stack. assert (Et : on_kern (gets (fun k => thread k tid) ≫= deref) s = Done (t, s)).
    { rewrite <- (set_s_k_same s) at 2. apply on_kern_done. cbv [mbind st_bind gets]. rewrite Ht. reflexivity. }
    rewrite (bind_done _ _ _ _ _ Et), gets_bind. fold S. rewrite E. reflexivity.
  - split; [|split; [exact H16|split; [exact Hlo|split; [exact HW|split; [exact HC|split; [exact HE|split; [|split; [exact HR|exact HF]]]]]]]].
    + unfold thread, upd_thread in *. cbn [s_k set_s_k s_sm sk threads_info_ptr set_threads_info_ptr].
      rewrite lookup_alter_eq, Ht. reflexivity.
    + intros Hne. unfold R, random_at. replace (env_top S args - strs_size envs - 8 + 8) with (env_top S args - strs_size envs) by lia.
      apply str_addrs_last, Hne.
Qed.

(** A call of execve ends the calling thread whatever becomes of the new
    program: the result of the loader is not looked at, so also a path that
    does not exist or is no ELF file ends the caller instead of giving it an
    error number. *)
Theorem execve_ends_caller {M : Machine} {EE : ElfEnv} {disk : Type} `{PartitionDriver disk} (junk : Z) (v : vfs) (fuel : nat)
    (x : exec_locals) (p : path) (argv envp : Z) (s s' : sys disk) :
  sys_execve junk v fuel x p argv envp s = Done (tt, s') ->
  exists t, thread (s_k s') (gs8 (s_k s)) = Some t /\ t_state t = THREAD_DEAD.
Proof.
  intros E. unfold sys_execve in E.
  apply bind_done_inv in E as (pid & s1 & E1 & E). apply on_kern_split in E1 as (k1 & E1 & ->).
  apply get_current_pid_keeps in E1 as ->. rewrite set_s_k_same in E.
  apply bind_done_inv in E as (tid & s2 & E2 & E). apply on_kern_split in E2 as (k2 & [= <- <-] & ->).
  repeat (apply bind_done_inv in E as (? & ? & _ & E)).
  apply on_kern_split in E as (k' & E & ->). exact (end_thread_dead _ _ _ _ _ E).
Qed.

(** *** Witnesses *)
#[local] Existing Instance small_machine.
#[local] Instance demo_elf_env : ElfEnv := {| stale _ := 0; elf_rand i := 1000 + Z.of_nat i |}.
Definition elf_sys (k : kstate) (m : mem) (d : list Z) : sys (list Z) := Sys (SmState k ∅ ∅) m ∅ ∅ d.
Definition demo_segment : pht_entry_t := PhtEntry PT_LOAD 2 0x6010 3 8.
Lemma elf_segment_loaded_witness :
  exists s', load_pht_to_memory 0 demo_vfs 4 [47; 112] demo_segment 2 0 (elf_sys demo_pt ∅ [1; 2; 3; 4; 5; 6]) = Done (8, s') /\
    is_paged (s_k s') 2 0x6017 = true /\ cells (s_mem s') 0x6010 3 = [3; 4; 5].
Proof.
  destruct (elf_segment_loaded 0 demo_vfs 4 (elf_sys demo_pt ∅ [1; 2; 3; 4; 5; 6]) [47; 112] demo_segment 2 0) as [_ H].
  - apply small_machine_ok.
  - apply demo_pt_wf.
  - reflexivity.
  - vm_compute. reflexivity.
  - cbn. lia.
  - vm_compute. discriminate.
  - vm_compute. discriminate.
  - vm_compute. discriminate.
  - destruct (H [3; 4; 5] [1; 2; 3; 4; 5; 6]) as (s' & E & _ & HP & _ & _ & HC & _); [reflexivity|reflexivity|vm_compute; reflexivity|].
    exists s'. split; [exact E|]. split; [|exact HC]. rewrite (HP 0x6017 ltac:(unfold HM; lia)). vm_compute. reflexivity.
Defined.

(** Thread 5 with its stack at 0x10000, the arguments "ls" and "-l" and the
    environment "A=b". *)
Definition demo_args_mem : mem :=
  list_to_map ([(100, 108); (101, 115); (110, 45); (111, 108); (120, 65); (121, 61); (122, 98);
                (200, 100); (208, 110); (300, 120)] : list (Z * Z)).
Definition demo_stack_sys : sys (list Z) :=
  elf_sys (set_thread 5 (new_thread 2 5 THREAD_RUNNING 0x10000 0 0 zero_context) boot_state) demo_args_mem [].
Lemma demo_stack_ok : stack_ok 9 0xF000 0x10000 demo_args_mem 200 300 [[108; 115]; [45; 108]] [[65; 61; 98]].
Proof.
  split.
  - right. split; [discriminate|]. vm_compute. repeat split; try discriminate; left; discriminate || reflexivity.
  - right. split; [discriminate|]. vm_compute. repeat split; try discriminate; left; discriminate || reflexivity.
  - repeat constructor.
  - cbn. lia.
  - cbn. unfold slen. cbn. lia.
Qed.
Lemma initial_stack_layout_witness :
  exists s' rsp, init_stack 9 5 200 300 64 2 0x400000 0x400000 demo_stack_sys = Done (tt, s') /\
    ld_le 8 (s_mem s') (rsp + 8) = 2 /\ StrLib.cstr (s_mem s') (0x10000 - 8 - 3) [108; 115] /\
    ld (s_mem s') (0x10000 - 8 - 6 - 8 - 4) = Z.land 1008 0xFF.
Proof.
  destruct (initial_stack_layout 9 demo_stack_sys 5 0xF000 200 300 (new_thread 2 5 THREAD_RUNNING 0x10000 0 0 zero_context)
    [[108; 115]; [45; 108]] [[65; 61; 98]] 64 2 0x400000 0x400000) as (s' & rsp & E & _ & _ & _ & HW & HC & _ & _ & HR & _).
  - reflexivity.
  - exact demo_stack_ok.
  - repeat constructor; lia.
  - exists s', rsp. split; [exact E|]. split; [exact (proj1 (proj2 HW))|]. split.
    + inversion HC as [|? ? ? ? Hs _]; subst. exact Hs.
    + exact (HR 8 ltac:(lia)).
Defined.

(** An execve of a file that is no ELF file: thread 5 of process 2 ends. *)
Definition demo_exec : sys (list Z) := elf_sys (upd_proc 2 (set_p_main_thread_id 5) demo_calls) ∅ [1; 2; 3; 4; 5; 6].
Definition demo_locals : exec_locals := ExecLocals 0x70000 0x71000 0x72000 0x73000 0x50000.
Lemma execve_ends_caller_witness :
  exists s' t, sys_execve 0 demo_vfs 9 demo_locals [47; 112] 0x100 0x100 demo_exec = Done (tt, s') /\
    thread (s_k s') 5 = Some t /\ t_state t = THREAD_DEAD.
Proof.
  assert (D : is_done (sys_execve 0 demo_vfs 9 demo_locals [47; 112] 0x100 0x100 demo_exec) = true) by (vm_compute; reflexivity).
  destruct (sys_execve 0 demo_vfs 9 demo_locals [47; 112] 0x100 0x100 demo_exec) as [[[] s']| | |] eqn:E; try discriminate D.
  destruct (execve_ends_caller 0 demo_vfs 9 demo_locals [47; 112] 0x100 0x100 demo_exec s' E) as (t & Ht & Hd).
  exists s', t. split; [reflexivity|]. split; [exact Ht|exact Hd].
Defined.
