(* ===== verification/SockCalls.v ===== *)
(** * SockCalls: the socket calls of src/core/syscall/syscall3.h

    The calls look up a descriptor of the calling process and hand over to the
    internet sockets ([Inet], [Tcp]) or the local sockets ([Uds]).  Both share
    the kernel's tables and the memory; the state joins them.  A call that
    sleeps gives [None]; what it does when it runs again is a definition of its
    own.  Where the code reads or writes a table of pointers as if it held the
    structures themselves, the model does the same. *)
From S2P Require Import Prelude Bytes MemLib StrLib Time KState Blocks Threads Vfs Descr Inet Packet Tcp Uds.
Open Scope Z_scope.

Definition AF_UNIX : Z := 1.
Definition AF_INET : Z := 2.
Definition SOCK_STREAM : Z := 1.
Definition SOCK_DGRAM : Z := 2.
Definition PROTO_NONE : Z := 0.
Definition MAX_LISTEN_BACKLOG : Z := 128.
Definition EPROTONOSUPPORT : Z := 93.
Definition EAFNOSUPPORT : Z := 97.
Definition EADDRINUSE : Z := 98.
Definition EISCONN : Z := 106.
Definition EINPROGRESS : Z := 115.
(** Offsets in [struct sockaddr]. *)
Definition sizeof_sockaddr : Z := 16.
Definition sin_family : Z := 0.
Definition sin_port : Z := 2.
Definition sin_addr : Z := 4.
(** Offsets in [struct net_tuple] and [struct net_tuple_tcp]. *)
Definition nt_local_ip_l : Z := 8.
Definition nt_remote_ip_l : Z := 24.
Definition nt_local_port : Z := 32.
Definition nt_remote_port : Z := 36.
Definition nt_protocol : Z := 40.
Definition nt_state : Z := 44.
Definition nt_send_retry_count : Z := 104.
Definition net_state_code (s : net_state_t) : Z :=
  match s with
  | NET_STATE_CLOSED => 0 | NET_STATE_LISTEN => 1 | NET_STATE_SYN_SENT => 2 | NET_STATE_SYN_RECEIVED => 3
  | NET_STATE_ESTABLISHED => 4 | NET_STATE_FIN_WAIT_1 => 5 | NET_STATE_FIN_WAIT_2 => 6 | NET_STATE_CLOSE_WAIT => 7
  | NET_STATE_CLOSING => 8 | NET_STATE_LAST_ACK => 9 | NET_STATE_TIME_WAIT => 10
  end.

(** ** State *)
Record socks := Socks { sc_net : net; sc_uds_sockets : gmap Z Z; sc_uds_listens : gmap Z Z; sc_fd_global : gmap Z Z }.
Definition set_sc_net (n : net) (s : socks) : socks := Socks n (sc_uds_sockets s) (sc_uds_listens s) (sc_fd_global s).
Definition set_sc_fdg (g : gmap Z Z) (s : socks) : socks := Socks (sc_net s) (sc_uds_sockets s) (sc_uds_listens s) g.
Definition sc_k (s : socks) : kstate := nk (sc_net s).
Definition sc_mem (s : socks) : mem := net_mem (sc_net s).
(** The local sockets' view of the same kernel and memory. *)
Definition sc_uds (s : socks) : uds := Uds (sc_k s) (sc_mem s) (sc_uds_sockets s) (sc_uds_listens s).

Section Lift.
Definition on_net {A} (c : ST net A) : ST socks A := fun s =>
  match c (sc_net s) with
  | Done (a, n) => Done (a, set_sc_net n s)
  | Panicked => Panicked | Faulted => Faulted | Stuck => Stuck
  end.
Definition on_uds {A} (c : ST uds A) : ST socks A := fun s =>
  match c (sc_uds s) with
  | Done (a, u) =>
      Done (a, Socks (set_net_mem (u_mem u) (set_nk (u_k u) (sc_net s))) (uds_socket_global u) (uds_listen_global u) (sc_fd_global s))
  | Panicked => Panicked | Faulted => Faulted | Stuck => Stuck
  end.
Definition sk_kern {A} (c : ST kstate A) : ST socks A := on_net (liftk c).
Definition sk_ld (n : nat) (a : Z) : ST socks Z := gets (fun s => ld_le n (sc_mem s) a).
Definition sk_st (n : nat) (a v : Z) : ST socks unit :=
  on_net (modify (fun x => set_net_mem (st_le n (net_mem x) a v) x)).
(** The descriptor table of the calling process. *)
Definition sk_fds : ST socks Z :=
  pid ← sk_kern get_current_pid;
  p ← (gets (fun s => proc (sc_k s) pid) ≫= deref);
  mret (p_fd_addr p).
Definition sk_type (fds sockfd : Z) : ST socks Z := sk_ld 4 (fd_entry fds sockfd + fi_type).
Definition sk_res (fds sockfd : Z) : ST socks Z := sk_ld 8 (fd_entry fds sockfd + fi_res_id).
Definition is_inet (ty : Z) : bool := ty =? file_type_code FILE_SOCKET.
Definition is_uds (ty : Z) : bool := ty =? file_type_code FILE_SOCKET_UDS.
(** The structure of an internet socket, and an update of it. *)
Definition sk_sock (id : Z) : ST socks net_tuple_tcp := on_net (get_sock id).
Definition sk_upd (id : Z) (f : net_tuple_tcp -> net_tuple_tcp) : ST socks unit :=
  on_net (modify (fun n => upd_sock_at (sock_ptr n id) f n)).
(** The structure of a local socket, followed. *)
Definition sk_usock (id : Z) : ST socks Z := on_uds (the_sock id).
Definition res_of (o : option Z) : Z := match o with Some i => i | None => neg64 1 end.
(** The first zero of the [n + 1] words of a table. *)
Definition free_word (words : Z -> Z) (n : Z) : ST socks Z :=
  match get_a_free_slot words 0 n with Some i => mret i | None => panic end.
End Lift.

(** ** Creating and naming *)
Section Calls.
Context {M : Machine} {UE : UdsEnv} (e : net_env) (depth fuel : nat).

(** The descriptor and the entry of the global table. *)
Definition fill_fd (fds fd_id global_fd_id res_id : Z) (ft : file_type) : ST socks unit :=
  let f := fd_entry fds fd_id in
  _ ← sk_st 8 (f + fi_global_id) global_fd_id;
  _ ← sk_st 8 (f + fi_offset) 0;
  _ ← sk_st 4 (f + fi_type) (file_type_code ft);
  _ ← sk_st 8 (f + fi_res_id) res_id;
  b ← sk_kern get_a_free_block_addr;
  _ ← modify (fun s => set_sc_fdg (<[global_fd_id := b]> (sc_fd_global s)) s);
  _ ← sk_st 8 (b + file_offset) 0;
  sk_st 4 (b + file_type_at) (file_type_code ft).
(** The local structure with its type, as the callee gets it. *)
Definition local_tuple (size type : Z) : ST socks unit :=
  _ ← on_uds (u_upd (fun m => erase_mem8 m uds_local size));
  sk_st 4 (uds_local + ut_type) type.
(** The slot of the descriptor table is the number of a zero word, used as the
    number of a structure; an internet socket's result is the socket's number. *)
Definition sys_socket (domain type protocol_ : Z) : ST socks Z :=
  fds ← sk_fds;
  pid ← sk_kern get_current_pid;
  m ← gets sc_mem;
  fd_id ← free_word (fun i => ld_le 8 m (fds + 8 * i)) MAX_FD_INNER;
  g ← gets sc_fd_global;
  global_fd_id ← free_word (fun i => default 0 (g !! i)) MAX_FD;
  if domain =? AF_INET then
    r ← (if ((protocol_ =? TCP) || (protocol_ =? PROTO_NONE)) && (type =? SOCK_STREAM) then
           i ← on_net (create_socket_tcp e (upd_tuple (set_protocol TCP) zero_tuple_tcp)); mret (Some (res_of i))
         else if ((protocol_ =? UDP) || (protocol_ =? PROTO_NONE)) && (type =? SOCK_DGRAM) then
           i ← on_net (create_socket_udp (set_protocol TCP zero_tuple)); mret (Some (res_of i))
         else mret None);
    match r : option Z with
    | None => mret (neg64 EAFNOSUPPORT)
    | Some res_id => _ ← fill_fd fds fd_id global_fd_id res_id FILE_SOCKET; mret res_id
    end
  else if domain =? AF_UNIX then
    r ← (if (protocol_ =? 0) && (type =? SOCK_STREAM) then
           _ ← local_tuple sizeof_uds_tuple_stream (uds_type_code UDS_STREAM);
           i ← on_uds (create_socket_stream pid uds_local); mret (Some i)
         else if (protocol_ =? 0) && (type =? SOCK_DGRAM) then
           _ ← local_tuple sizeof_uds_tuple (uds_type_code UDS_DGRAM);
           i ← on_uds (create_socket_dgram pid uds_local); mret (Some i)
         else mret None);
    match r : option Z with
    | None => mret (neg64 EAFNOSUPPORT)
    | Some res_id => _ ← fill_fd fds fd_id global_fd_id res_id FILE_SOCKET_UDS; mret fd_id
    end
  else mret (neg64 EAFNOSUPPORT).

(** The address an argument names, in the order of the host. *)
Definition addr_ip (addr : Z) : ST socks Z := a ← sk_ld 4 (addr + sin_addr); mret (ntohl a).
Definition addr_port (addr : Z) : ST socks Z := p ← sk_ld 2 (addr + sin_port); mret (ntohs p).
(** [file_exists]: whether the path is the name of a file. *)
Definition sys_bind (sockfd addr addrlen : Z) (file_exists : bool) : ST socks Z :=
  fds ← sk_fds;
  ty ← (if MAX_FD <=? sockfd then mret 0 else sk_type fds sockfd);
  if (MAX_FD <=? sockfd) || negb (is_inet ty) && negb (is_uds ty) then mret (neg64 EBADF)
  else if addr =? 0 then mret (neg64 EINVAL)
  else
    ip ← sk_ld 4 (addr + sin_addr);
    if (addrlen <? sizeof_sockaddr) && (ip =? AF_INET) then mret (neg64 EINVAL)
    else
      res_id ← sk_res fds sockfd;
      family ← sk_ld 2 (addr + sin_family);
      if negb (family =? AF_INET) then
        used ← on_uds (uds_addr_in_use fuel (addr + sun_path) file_exists);
        if used : bool then mret (neg64 EADDRINUSE)
        else
          a ← sk_usock res_id;
          t ← sk_ld 4 (a + ut_type);
          _ ← (if t =? uds_type_code UDS_DGRAM then on_uds (handle_dgram_bind fuel res_id (addr + sun_path))
               else on_uds (handle_stream_bind fuel res_id (addr + sun_path)));
          mret 0
      else
        t ← sk_sock res_id;
        ip ← addr_ip addr;
        port ← addr_port addr;
        used ← gets (fun s => port_in_use (sc_net s) ip port (protocol (tuple t)));
        if used : bool then mret (neg64 EADDRINUSE)
        else _ ← sk_upd res_id (upd_tuple (fun u => set_local_port port (set_local_ip_l ip u))); mret 0.

(** The internet branch works on the structure of the local socket, at the
    offsets of an internet one. *)
Definition connect_inet (res_id t addr : Z) : ST socks Z :=
  ip ← addr_ip addr;
  _ ← sk_st 8 (t + nt_remote_ip_l) ip;
  port ← addr_port addr;
  _ ← sk_st 4 (t + nt_remote_port) port;
  lp ← sk_ld 4 (t + nt_local_port);
  _ ← when (lp =? 0)
        (_ ← sk_st 8 (t + nt_local_ip_l) INADDR_ANY;
         pr ← sk_ld 2 (t + nt_protocol);
         p ← on_net (allocate_random_high_port pr);
         sk_st 4 (t + nt_local_port) p);
  pr ← sk_ld 2 (t + nt_protocol);
  st ← sk_ld 4 (t + nt_state);
  if pr =? TCP then
    if st =? net_state_code NET_STATE_CLOSED then
      _ ← sk_st 1 (t + nt_send_retry_count) 1;
      rs ← on_net (tcp_send_syn e (nic_send_dispatch e depth) res_id);
      _ ← when (0 <=? rs) (sk_st 4 (t + nt_state) (net_state_code NET_STATE_SYN_SENT));
      mret (neg64 EINPROGRESS)
    else if st =? net_state_code NET_STATE_SYN_SENT then mret (neg64 EINPROGRESS)
    else if st =? net_state_code NET_STATE_ESTABLISHED then mret 0
    else mret (neg64 EISCONN)
  else if pr =? UDP then _ ← sk_st 4 (t + nt_state) (net_state_code NET_STATE_ESTABLISHED); mret 0
  else mret (neg64 EPROTONOSUPPORT).
Definition sys_connect (sockfd addr addrlen : Z) : ST socks Z :=
  fds ← sk_fds;
  ty ← (if MAX_FD <=? sockfd then mret 0 else sk_type fds sockfd);
  if (MAX_FD <=? sockfd) || negb (is_uds ty) then mret (neg64 EBADF)
  else
    res_id ← sk_res fds sockfd;
    t ← gets (fun s => usock (sc_uds s) res_id);
    if t =? 0 then mret (neg64 1)
    else
      family ← sk_ld 2 (addr + sin_family);
      if family =? AF_UNIX then
        ty ← sk_ld 4 (t + ut_type);
        if ty =? uds_type_code UDS_DGRAM then b ← on_uds (handle_connect_dgram fuel res_id addr); mret (Z.b2z b)
        else if ty =? uds_type_code UDS_STREAM then b ← on_uds (handle_connect_stream fuel res_id addr); mret (Z.b2z b)
        else mret (neg64 EPROTONOSUPPORT)
      else if family =? AF_INET then connect_inet res_id t addr
      else mret (neg64 EAFNOSUPPORT).

(** [backlog_] is a signed number. *)
Definition clamp_backlog (b : Z) : Z := if b <? 0 then 0 else if MAX_LISTEN_BACKLOG <? b then MAX_LISTEN_BACKLOG else b.
Definition sys_listen (sockfd backlog_ : Z) : ST socks Z :=
  fds ← sk_fds;
  if MAX_FD <=? sockfd then mret (neg64 EBADF)
  else
    res_id ← sk_res fds sockfd;
    ty ← sk_type fds sockfd;
    if is_uds ty then
      a ← sk_usock res_id;
      t ← sk_ld 4 (a + ut_type);
      if negb (t =? uds_type_code UDS_STREAM) then mret (neg64 EOPNOTSUPP)
      else b ← on_uds (handle_stream_listen fuel res_id); mret (Z.b2z b)
    else if is_inet ty then
      t ← sk_sock res_id;
      if negb (protocol (tuple t) =? TCP) then mret (neg64 EOPNOTSUPP)
      else if decide (state (tuple t) <> NET_STATE_CLOSED) then mret (neg64 EINVAL)
      else
        _ ← sk_upd res_id (fun t => upd_tuple (Inet.set_state NET_STATE_LISTEN) (set_backlog (clamp_backlog backlog_) t));
        t ← sk_sock res_id;
        lid ← on_net (create_listen (tuple t));
        _ ← sk_upd res_id (set_listen_id (res_of lid));
        _ ← sk_upd res_id (upd_tuple (set_last_updated (now e)));
        mret 0
    else mret (neg64 ENOTSOCK).

(** [((struct net_tuple * )&socket_global)[idx].state = ...]: the upper half of
    a pointer of the table. *)
Definition store_table_state (idx code : Z) : ST socks unit :=
  let w := (idx * sizeof_net_tuple + nt_state) / 8 in
  if (0 <=? w) && (w <? MAX_SOCKETS_COUNT) then
    on_net (modify (fun n => set_socket_global (<[w := u32 (sock_ptr n w) + 2 ^ 32 * code]> (socket_global n)) n))
  else stuck.
Definition accept_inet (sockfd idx : Z) : ST socks Z :=
  _ ← store_table_state idx (net_state_code NET_STATE_ESTABLISHED);
  fds ← sk_fds;
  m ← gets sc_mem;
  match get_a_free_slot_with_size m fds 0 MAX_FD_INNER sizeof_file_inner with
  | None => panic
  | Some fd =>
      let newfd := fd_entry fds fd in
      _ ← sk_st 4 (newfd + fi_type) (file_type_code FILE_SOCKET);
      flags ← sk_ld 4 (fd_entry fds sockfd + fi_open_flags);
      _ ← sk_st 4 (newfd + fi_open_flags) flags;
      _ ← sk_st 8 (newfd + fi_res_id) idx;
      mret fd
  end.
Definition sys_accept (sockfd : Z) : ST socks (option Z) :=
  fds ← sk_fds;
  listen_id ← sk_res fds sockfd;
  ty ← sk_type fds sockfd;
  if is_uds ty then
    a ← sk_usock listen_id;
    t ← sk_ld 4 (a + ut_type);
    if t =? uds_type_code UDS_DGRAM then mret (Some 0)
    else if t =? uds_type_code UDS_STREAM then on_uds (handle_stream_accept listen_id)
    else mret (Some (neg64 EPROTONOSUPPORT))
  else if is_inet ty then
    t ← sk_sock listen_id;
    if negb (protocol (tuple t) =? TCP) then mret (Some (neg64 EINVAL))
    else if decide (state (tuple t) <> NET_STATE_LISTEN) then mret (Some (neg64 EINVAL))
    else
      a ← gets (fun s => sock_ptr (sc_net s) listen_id);
      idx ← on_net (find_ready_connection e listen_id);
      if idx =? -1 then
        _ ← sk_kern (sleep_by_resource (listen_wait_flag_addr a) THREAD_BLOCKED_NETWORK); mret None
      else r ← accept_inet sockfd idx; mret (Some r)
  else mret (Some (neg64 ENOTSOCK)).
Definition sys_accept_resume (sockfd listen_id : Z) : ST socks Z :=
  idx ← on_net (find_ready_connection e listen_id);
  if idx =? -1 then mret (neg64 EAGAIN) else accept_inet sockfd idx.

(** ** Data *)
(** The peer a socket has must be the one named, when one is set. *)
Definition other_peer (t : net_tuple_tcp) (ip port : Z) : bool :=
  (negb (remote_ip_l (tuple t) =? 0) && negb (ip =? remote_ip_l (tuple t)))
  || (negb (remote_port (tuple t) =? 0) && negb (port =? remote_port (tuple t))).
Definition name_peer (res_id ip port : Z) : ST socks unit :=
  sk_upd res_id (upd_tuple (fun u => set_remote_port port (set_remote_ip_l ip u))).
Definition sys_sendto (sockfd buf len flags dest_addr : Z) : ST socks (option Z) :=
  fds ← sk_fds;
  res_id ← sk_res fds sockfd;
  ty ← sk_type fds sockfd;
  if is_uds ty then
    dst ← (if dest_addr =? 0 then a ← sk_usock res_id; mret (a + ut_remote_path) else mret (dest_addr + sun_path));
    b ← on_uds (uds_send_dispatch fuel (now e) res_id buf len dst); mret (Some (Z.b2z b))
  else if is_inet ty then
    t ← sk_sock res_id;
    if decide (state (tuple t) <> NET_STATE_ESTABLISHED) then mret (Some (neg64 1))
    else if protocol (tuple t) =? UDP then
      if dest_addr =? 0 then fault
      else
        ip ← addr_ip dest_addr;
        port ← addr_port dest_addr;
        if other_peer t ip port then mret (Some (neg64 1))
        else _ ← name_peer res_id ip port; b ← on_net (nic_send_udp_package e depth res_id buf len); mret (Some (Z.b2z b))
    else if protocol (tuple t) =? TCP then
      ip ← addr_ip dest_addr;
      port ← addr_port dest_addr;
      if negb (dest_addr =? 0) && other_peer t ip port then mret (Some (neg64 1))
      else
        _ ← when (negb (dest_addr =? 0)) (name_peer res_id ip port);
        on_net (tcp_copy_payload_and_send_established e (nic_send_dispatch e depth) res_id buf len)
    else mret (Some len)
  else mret (Some (neg64 ENOTSOCK)).
(** [flags & MSG_DONTWAIT > 0] is [flags & 1]; the result is the length asked
    for, whatever was read. *)
Definition sys_recvfrom (junk sockfd buf len flags : Z) : ST socks (option Z) :=
  fds ← sk_fds;
  res_id ← sk_res fds sockfd;
  ty ← sk_type fds sockfd;
  let nonblock := negb (Z.land flags 1 =? 0) in
  if is_uds ty then
    a ← sk_usock res_id;
    t ← sk_ld 4 (a + ut_type);
    asleep ← (if t =? uds_type_code UDS_DGRAM then
                r ← on_uds (read_socket_dgram junk a buf len nonblock); mret (negb (bool_decide (is_Some (fst r))))
              else if t =? uds_type_code UDS_STREAM then
                r ← on_uds (read_socket_stream res_id buf len); mret (negb (bool_decide (is_Some r)))
              else mret false);
    mret (if asleep : bool then None else Some len)
  else if is_inet ty then
    t ← sk_sock res_id;
    a ← gets (fun s => sock_ptr (sc_net s) res_id);
    asleep ← (if protocol (tuple t) =? UDP then
                r ← on_net (read_socket_udp e a buf len nonblock);
                mret (receive_blocking (tuple t) && negb nonblock && negb (bool_decide (is_Some r)))
              else if protocol (tuple t) =? TCP then
                r ← on_net (read_socket_tcp res_id buf len); mret (negb (bool_decide (is_Some r)))
              else mret false);
    mret (if asleep : bool then None else Some len)
  else mret (Some (neg64 ENOTSOCK)).

(** ** Closing and names *)
Definition SHUT_RD : Z := 0.
Definition SHUT_WR : Z := 1.
Definition SHUT_RDWR : Z := 2.
Definition shut_state (s : net_state_t) : net_state_t :=
  match s with
  | NET_STATE_ESTABLISHED => NET_STATE_FIN_WAIT_1
  | NET_STATE_CLOSE_WAIT => NET_STATE_LAST_ACK
  | _ => NET_STATE_CLOSING
  end.
Definition shut (res_id : Z) : ST socks unit :=
  sk_upd res_id (upd_tuple (fun u => Inet.set_state (shut_state (state u)) u)).
Definition send_fin (res_id : Z) : ST socks unit :=
  _ ← on_net (tcp_send_fin e (nic_send_dispatch e depth) res_id); mret tt.
(** The branch of the local sockets is behind the test that refuses them. *)
Definition sys_shutdown (sockfd how : Z) : ST socks Z :=
  fds ← sk_fds;
  if MAX_FD_INNER <=? sockfd then mret (neg64 EBADF)
  else
    ty ← sk_type fds sockfd;
    if negb (is_inet ty) then mret (neg64 ENOTSOCK)
    else
      res_id ← sk_res fds sockfd;
      t ← sk_sock res_id;
      if protocol (tuple t) =? TCP then
        if how =? SHUT_RD then mret 0
        else if how =? SHUT_WR then _ ← shut res_id; _ ← send_fin res_id; mret 0
        else if how =? SHUT_RDWR then _ ← send_fin res_id; _ ← shut res_id; mret 0
        else mret (neg64 EINVAL)
      else if protocol (tuple t) =? UDP then
        if (how =? SHUT_RD) || (how =? SHUT_WR) || (how =? SHUT_RDWR)
        then _ ← sk_upd res_id (upd_tuple (Inet.set_state NET_STATE_CLOSED)); mret 0
        else mret (neg64 EINVAL)
      else mret (neg64 EINVAL).

(** A field of [((struct net_tuple * )socket_global)[res_id]]: [n] bytes at an
    offset inside one pointer of the table. *)
Definition table_field (res_id off n : Z) : ST socks Z :=
  let b := res_id * sizeof_net_tuple + off in
  if (0 <=? b) && (b <? 8 * MAX_SOCKETS_COUNT) then
    gets (fun s => Z.shiftr (sock_ptr (sc_net s) (b / 8)) (8 * (b mod 8)) mod 2 ^ (8 * n))
  else stuck.
Definition put_name (addr ip port : Z) : ST socks Z :=
  _ ← sk_st 4 (addr + sin_addr) ip;
  _ ← sk_st 2 (addr + sin_port) port;
  _ ← sk_st 2 (addr + sin_family) AF_INET;
  mret 0.
Definition sys_getsockname (sockfd addr : Z) : ST socks Z :=
  fds ← sk_fds;
  res_id ← sk_res fds sockfd;
  ip ← table_field res_id nt_local_ip_l 8;
  port ← table_field res_id nt_local_port 4;
  put_name addr ip port.
Definition sys_getpeername (sockfd addr : Z) : ST socks Z :=
  fds ← sk_fds;
  res_id ← sk_res fds sockfd;
  ip ← table_field res_id nt_remote_ip_l 8;
  port ← table_field res_id nt_remote_port 4;
  put_name addr ip port.
Definition sys_setsockopt : ST socks Z := mret 0.
End Calls.

(** ** Lemmas *)
(** The calling thread, its process and the descriptor table. *)
Definition caller_fds (s : socks) (fds : Z) : Prop :=
  exists t p, thread (sc_k s) (gs8 (sc_k s)) = Some t /\ proc (sc_k s) (t_pid t) = Some p /\ p_fd_addr p = fds.
Definition entry_type (s : socks) (fds fd : Z) : Z := ld_le 4 (sc_mem s) (fd_entry fds fd + fi_type).
Definition entry_res (s : socks) (fds fd : Z) : Z := ld_le 8 (sc_mem s) (fd_entry fds fd + fi_res_id).

Section Runs.
Lemma set_sc_net_same s : set_sc_net (sc_net s) s = s.
Proof. by destruct s. Qed.
Lemma sk_fds_run {A} s fds (f : Z -> ST socks A) : caller_fds s fds -> (sk_fds ≫= f) s = f fds s.
Proof.
  intros (t & p & Ht & Hp & <-). assert (E : sk_fds s = Done (p_fd_addr p, s)); [|exact (bind_done _ _ _ _ _ E)].
  assert (EP : sk_kern get_current_pid s = Done (t_pid t, s)).
  { unfold sk_kern, on_net, liftk, get_current_pid. cbv [mbind st_bind gets]. unfold get_current_thread_id.
    unfold sc_k in *. rewrite Ht. cbn. by destruct s as [[]]. }
  unfold sk_fds. rewrite (bind_done _ _ _ _ _ EP), deref_bind, Hp. reflexivity.
Qed.
Lemma sk_type_run {A} s fds fd (f : Z -> ST socks A) : (sk_type fds fd ≫= f) s = f (entry_type s fds fd) s.
Proof. reflexivity. Qed.
Lemma sk_res_run {A} s fds fd (f : Z -> ST socks A) : (sk_res fds fd ≫= f) s = f (entry_res s fds fd) s.
Proof. reflexivity. Qed.
Lemma sk_ld_run {A} s n a (f : Z -> ST socks A) : (sk_ld n a ≫= f) s = f (ld_le n (sc_mem s) a) s.
Proof. reflexivity. Qed.
Lemma sk_sock_run {A} s id t (f : net_tuple_tcp -> ST socks A) : sock (sc_net s) id = Some t -> (sk_sock id ≫= f) s = f t s.
Proof.
  intros E. assert (ES : sk_sock id s = Done (t, s)); [|exact (bind_done _ _ _ _ _ ES)].
  unfold sk_sock, on_net, get_sock. cbv [mbind st_bind gets deref]. rewrite E. cbn. by rewrite set_sc_net_same.
Qed.
Lemma addr_run {A} s addr (f : Z -> Z -> ST socks A) :
  (ip ← addr_ip addr; port ← addr_port addr; f ip port) s =
  f (ntohl (ld_le 4 (sc_mem s) (addr + sin_addr))) (ntohs (ld_le 2 (sc_mem s) (addr + sin_port))) s.
Proof. reflexivity. Qed.

(** An internet address, and the call that binds to it. *)
Record inet_addr (s : socks) (addr addrlen ip port : Z) : Prop := {
  ia_addr : addr <> 0 /\ sizeof_sockaddr <= addrlen;
  ia_family : ld_le 2 (sc_mem s) (addr + sin_family) = AF_INET;
  ia_ip : ntohl (ld_le 4 (sc_mem s) (addr + sin_addr)) = ip;
  ia_port : ntohs (ld_le 2 (sc_mem s) (addr + sin_port)) = port
}.
Lemma bind_inet_run {UE : UdsEnv} fuel s fds fd addr addrlen ip port fe t :
  caller_fds s fds -> 0 <= fd < MAX_FD -> entry_type s fds fd = file_type_code FILE_SOCKET ->
  inet_addr s addr addrlen ip port -> sock (sc_net s) (entry_res s fds fd) = Some t ->
  sys_bind fuel fd addr addrlen fe s =
  if port_in_use (sc_net s) ip port (protocol (tuple t)) then Done (neg64 EADDRINUSE, s)
  else Done (0, set_sc_net (upd_sock_at (sock_ptr (sc_net s) (entry_res s fds fd))
                              (upd_tuple (fun u => set_local_port port (set_local_ip_l ip u))) (sc_net s)) s).
Proof.
  intros HC Hfd HT [[Ha Hl] Hf Hip Hport] Hs. unfold sys_bind. rewrite (sk_fds_run s fds) by exact HC.
  rewrite (proj2 (Z.leb_gt MAX_FD fd)) by lia. rewrite sk_type_run, HT. unfold is_inet. rewrite Z.eqb_refl. cbn [negb orb andb].
  rewrite (proj2 (Z.eqb_neq addr 0) Ha), sk_ld_run. rewrite (proj2 (Z.ltb_ge addrlen sizeof_sockaddr)) by lia. cbn [andb].
  rewrite sk_res_run, sk_ld_run, Hf, Z.eqb_refl. cbn [negb]. rewrite (sk_sock_run _ _ t) by exact Hs.
  rewrite addr_run, Hip, Hport, gets_bind. destruct (port_in_use _ _ _ _); reflexivity.
Qed.
End Runs.

(** ** Properties *)

(** An internet socket cannot be connected and a local one cannot be shut
    down: on a descriptor of type FILE_SOCKET, connect fails with EBADF before
    it looks at the address, and on one of type FILE_SOCKET_UDS, shutdown fails
    with ENOTSOCK; neither changes anything. *)
Theorem calls_refuse_their_sockets {M : Machine} {UE : UdsEnv} (e : net_env) (depth fuel : nat)
    (s : socks) (fds fd addr addrlen how : Z) :
  caller_fds s fds -> 0 <= fd < MAX_FD_INNER ->
  (entry_type s fds fd = file_type_code FILE_SOCKET -> sys_connect e depth fuel fd addr addrlen s = Done (neg64 EBADF, s)) /\
  (entry_type s fds fd = file_type_code FILE_SOCKET_UDS -> sys_shutdown e depth fd how s = Done (neg64 ENOTSOCK, s)).
Proof.
  intros HC Hfd. assert (MAX_FD_INNER < MAX_FD) by reflexivity. split; intros HT.
  - unfold sys_connect. rewrite (sk_fds_run s fds) by exact HC. rewrite (proj2 (Z.leb_gt MAX_FD fd)) by lia.
    rewrite sk_type_run, HT. reflexivity.
  - unfold sys_shutdown. rewrite (sk_fds_run s fds) by exact HC. rewrite (proj2 (Z.leb_gt MAX_FD_INNER fd)) by lia.
    rewrite sk_type_run, HT. reflexivity.
Qed.

(** The names of the sockets the search looks at decide whether a port is taken. *)
Lemma port_in_use_ext n n' ip port proto :
  (forall i, 0 <= i < NETWORKS_KSIZE -> sock n' i = sock n i) -> port_in_use n' ip port proto = port_in_use n ip port proto.
Proof.
  intros HE. unfold port_in_use. f_equal. apply bool_decide_ext. erewrite find_idx_ext; [reflexivity|]. intros k Hk. cbv beta.
  rewrite HE; [reflexivity|]. rewrite Z2Nat.id in Hk by (unfold NETWORKS_KSIZE; lia). lia.
Qed.
Lemma sock_upd n r f t i : sock n r = Some t ->
  sock (upd_sock_at (sock_ptr n r) f n) i = if decide (sock_ptr n i = sock_ptr n r) then Some (f t) else sock n i.
Proof.
  intros Hr. unfold sock, upd_sock_at, sock_ptr in *. cbn [sock_heap set_sock_heap socket_global].
  rewrite lookup_alter. repeat case_decide; try congruence. by rewrite Hr.
Qed.
Definition named (s : socks) (r ip port : Z) : Prop :=
  exists t, sock (sc_net s) r = Some t /\ local_ip_l (tuple t) = ip /\ local_port (tuple t) = port.

(** C31: Binding an internet socket to an address and port that the search for
    conflicts finds free succeeds and names the socket so.  From then on binding
    another socket of the protocol to the same address fails with EADDRINUSE if
    the first socket lies in one of the slots the search looks at, the first
    4096 of the 5120.  If it lies behind them (and shares its structure with
    none of those slots) the second bind succeeds, and both sockets have the
    same address and port. *)
Theorem bind_is_exclusive {UE : UdsEnv} (fuel : nat) (s : socks) (fds fd1 fd2 addr addrlen ip port : Z) (fe fe' : bool)
    (t1 t2 : net_tuple_tcp) :
  let r1 := entry_res s fds fd1 in
  let r2 := entry_res s fds fd2 in
  caller_fds s fds -> 0 <= fd1 < MAX_FD -> 0 <= fd2 < MAX_FD ->
  entry_type s fds fd1 = file_type_code FILE_SOCKET -> entry_type s fds fd2 = file_type_code FILE_SOCKET ->
  inet_addr s addr addrlen ip port ->
  sock (sc_net s) r1 = Some t1 -> sock (sc_net s) r2 = Some t2 ->
  protocol (tuple t2) = protocol (tuple t1) -> 0 <= r1 < MAX_SOCKETS_COUNT ->
  port_in_use (sc_net s) ip port (protocol (tuple t1)) = false ->
  exists s1, sys_bind fuel fd1 addr addrlen fe s = Done (0, s1) /\ named s1 r1 ip port /\
    (r1 < NETWORKS_KSIZE -> sys_bind fuel fd2 addr addrlen fe' s1 = Done (neg64 EADDRINUSE, s1)) /\
    (NETWORKS_KSIZE <= r1 -> (forall i, 0 <= i < NETWORKS_KSIZE -> sock_ptr (sc_net s) i <> sock_ptr (sc_net s) r1) ->
     exists s2, sys_bind fuel fd2 addr addrlen fe' s1 = Done (0, s2) /\ named s2 r1 ip port /\ named s2 r2 ip port).
Proof.
  intros r1 r2 HC H1 H2 T1 T2 HA S1 S2 HP HR HU. rewrite (bind_inet_run fuel s fds fd1 addr addrlen ip port fe t1), HU by assumption. fold r1.
  set (f := upd_tuple _). set (n1 := upd_sock_at (sock_ptr (sc_net s) r1) f (sc_net s)).
  set (s1 := set_sc_net n1 s). exists s1. split; [reflexivity|].
  assert (Eall : forall i, sock n1 i = if decide (sock_ptr (sc_net s) i = sock_ptr (sc_net s) r1) then Some (f t1) else sock (sc_net s) i).
  { intros i. by apply sock_upd. }
  assert (E1 : sock n1 r1 = Some (f t1)) by (rewrite Eall; by rewrite decide_True).
  split; [exists (f t1); split; [exact E1|split; reflexivity]|].
  assert (E2 : exists t2', sock n1 r2 = Some t2' /\ protocol (tuple t2') = protocol (tuple t1)).
  { rewrite Eall. case_decide; [by exists (f t1)|by exists t2]. }
  destruct E2 as (t2' & E2 & HP2).
  assert (HC1 : caller_fds s1 fds) by exact HC. assert (HA1 : inet_addr s1 addr addrlen ip port) by (destruct HA; split; assumption).
  rewrite (bind_inet_run fuel s1 fds fd2 addr addrlen ip port fe' t2') by assumption. rewrite HP2. split.
  - intros Hlt. replace (port_in_use (sc_net s1) ip port (protocol (tuple t1))) with true; [reflexivity|].
    unfold port_in_use. symmetry. apply bool_decide_eq_true. intros HN. rewrite find_idx_None in HN.
    specialize (HN r1 ltac:(rewrite Z2Nat.id by (unfold NETWORKS_KSIZE; lia); lia)). change (sc_net s1) with n1 in HN. rewrite E1 in HN.
    unfold f, upd_tuple in HN. cbn in HN. rewrite !Z.eqb_refl in HN. discriminate HN.
  - intros Hge Hap. change (sc_net s1) with n1. rewrite (port_in_use_ext (sc_net s)), HU.
    2: { intros i Hi. rewrite Eall. by rewrite decide_False by (by apply Hap). }
    change (entry_res s1 fds fd2) with r2. fold f. eexists. split; [reflexivity|]. unfold named. cbn [sc_net set_sc_net].
    rewrite !(sock_upd n1 r2 f t2') by exact E2. rewrite (decide_True (P := sock_ptr n1 r2 = sock_ptr n1 r2)) by done. split; [|by exists (f t2')].
    case_decide; [by exists (f t2')|]. by exists (f t1).
Qed.

(** Accepting an internet connection marks the wrong thing: instead of the
    connection's structure, the store hits the table of pointers, where the
    upper half of the pointer of slot 13 idx + 5 is overwritten, so a socket in
    that slot is lost; the accepted connection keeps its state. *)
Theorem accept_overwrites_pointer (s : socks) (idx : Z) :
  0 <= idx -> 13 * idx + 5 < MAX_SOCKETS_COUNT ->
  exists s', store_table_state idx (net_state_code NET_STATE_ESTABLISHED) s = Done (tt, s') /\
    sock_ptr (sc_net s') (13 * idx + 5) = u32 (sock_ptr (sc_net s) (13 * idx + 5)) + 2 ^ 34 /\
    (HM <= sock_ptr (sc_net s) (13 * idx + 5) -> sock_ptr (sc_net s') (13 * idx + 5) <> sock_ptr (sc_net s) (13 * idx + 5)) /\
    sock (sc_net s') idx = sock (sc_net s) idx.
Proof.
  intros H0 H1. unfold store_table_state.
  assert (EW : (idx * sizeof_net_tuple + nt_state) / 8 = 13 * idx + 5).
  { unfold sizeof_net_tuple, nt_state. replace (idx * 104 + 44) with (4 + (13 * idx + 5) * 8) by lia. rewrite Z.div_add by lia. reflexivity. }
  rewrite EW. rewrite (proj2 (Z.leb_le 0 (13 * idx + 5))), (proj2 (Z.ltb_lt _ _) H1) by lia. cbn [andb].
  eexists. split; [reflexivity|]. cbn [sc_net set_sc_net].
  set (x := sock_ptr (sc_net s) (13 * idx + 5)). set (n' := set_socket_global _ _).
  assert (EP : sock_ptr n' (13 * idx + 5) = u32 x + 2 ^ 34)
    by (unfold sock_ptr, n'; cbn [socket_global set_socket_global]; rewrite lookup_insert_eq; reflexivity).
  rewrite EP. split; [reflexivity|]. split.
  - pose proof (u32_range x). unfold HM. lia.
  - unfold sock, sock_ptr, n'. cbn [socket_global set_socket_global sock_heap]. rewrite lookup_insert_ne by lia. reflexivity.
Qed.

(** *** Witnesses *)
(** Thread 0 of process 0 with its descriptors at 4096; descriptors 3 and 4 are
    the internet sockets 1 and 2, descriptor 5 is a local socket; the address
    10.0.0.1, port 80 is at 100. *)
Definition demo_fd (fd ty res : Z) (m : mem) : mem :=
  st_le 8 (st_le 4 m (fd_entry 4096 fd + fi_type) ty) (fd_entry 4096 fd + fi_res_id) res.
Definition demo_sock_mem : mem :=
  st_le 4 (st_le 2 (st_le 2 (demo_fd 3 5 1 (demo_fd 4 5 2 (demo_fd 5 6 0 ∅))) 100 2) 102 (htons 80)) 104 (htonl 0x0A000001).
Definition demo_sock_kern : kstate :=
  set_proc_at 0x5000 (new_process 0 PROCESS_RUNNING 0 0 4096 0) (set_proc_slot 0 0x5000 (set_thread 0 zero_thread boot_state)).
Definition demo_socks : socks :=
  Socks (Net demo_sock_kern demo_sock_mem {[1 := 70000; 2 := 80000]} ∅ {[70000 := zero_tuple_tcp; 80000 := zero_tuple_tcp]}
           ∅ ∅ ∅ (E1000 ∅ 0 ∅ ∅ 0 ∅ ∅) 0 49152 0) ∅ ∅ ∅.
Lemma demo_sock_caller : caller_fds demo_socks 4096.
Proof. eexists _, _. split; [reflexivity|]. split; reflexivity. Qed.
Definition demo_sock_env : net_env := NetEnv (Timeval 0 0) 0 0 zero_tuple_tcp [] (Nic 0 [] ∅ 0 0) 9000.
Definition demo_sock_local : UdsEnv := {| uds_local := 200; uds_word := 600; uds_tmp_buf := 2000 |}.
Lemma calls_refuse_their_sockets_witness :
  @sys_connect small_machine demo_sock_local demo_sock_env 1 8 3 100 16 demo_socks = Done (neg64 EBADF, demo_socks) /\
  @sys_shutdown small_machine demo_sock_env 1 5 2 demo_socks = Done (neg64 ENOTSOCK, demo_socks).
Proof.
  split.
  - apply (@calls_refuse_their_sockets small_machine demo_sock_local demo_sock_env 1 8 demo_socks 4096 3 100 16 0 demo_sock_caller);
      [unfold MAX_FD_INNER; lia|vm_compute; reflexivity].
  - apply (@calls_refuse_their_sockets small_machine demo_sock_local demo_sock_env 1 8 demo_socks 4096 5 100 16 2 demo_sock_caller);
      [unfold MAX_FD_INNER; lia|vm_compute; reflexivity].
Defined.
Lemma bind_is_exclusive_witness :
  exists s1, @sys_bind 8 3 100 16 false demo_socks = Done (0, s1) /\ @sys_bind 8 4 100 16 false s1 = Done (neg64 EADDRINUSE, s1).
Proof.
  destruct (@bind_is_exclusive demo_sock_local 8 demo_socks 4096 3 4 100 16 0x0A000001 80 false false zero_tuple_tcp zero_tuple_tcp)
    as (s1 & E1 & _ & E2 & _).
  - exact demo_sock_caller.
  - unfold MAX_FD; lia.
  - unfold MAX_FD; lia.
  - vm_compute; reflexivity.
  - vm_compute; reflexivity.
  - split; [split; [lia|unfold sizeof_sockaddr; lia]|vm_compute; reflexivity..].
  - vm_compute; reflexivity.
  - vm_compute; reflexivity.
  - reflexivity.
  - vm_compute; split; [discriminate|reflexivity].
  - vm_compute; reflexivity.
  - exists s1. split; [exact E1|]. apply E2. vm_compute. reflexivity.
Defined.
Lemma accept_overwrites_pointer_witness :
  exists s', store_table_state 2 4 demo_socks = Done (tt, s') /\ sock_ptr (sc_net s') 31 = 2 ^ 34.
Proof.
  destruct (accept_overwrites_pointer demo_socks 2) as (s' & E & H1 & _); [lia|unfold MAX_SOCKETS_COUNT; lia|].
  exists s'. split; [exact E|]. etrans; [exact H1|vm_compute; reflexivity].
Defined.
