(* ===== verification/Wide.v ===== *)
(** * Wide: wide strings and module lists, src/core/exe/common.h

    The conversions between UTF-8 and UTF-16, the counted wide strings and the
    doubly linked lists of loaded modules that a Windows program finds in its
    environment block. *)
From S2P Require Import Prelude Bytes MemLib StrLib.
Open Scope Z_scope.

(** ** Conversions *)
Definition UNI_REPLACEMENT_CHAR : Z := 0xFFFD.
(** The code point at [i] and the index behind it; [get] reads the input. *)
Definition utf8_decode (get : Z -> Z) (in_len i : Z) : Z * Z :=
  let c := get i in
  if c <? 0x80 then (c, i + 1)
  else if (Z.land c 0xE0 =? 0xC0) && (i + 1 <? in_len) then
    (Z.lor (Z.shiftl (Z.land c 0x1F) 6) (Z.land (get (i + 1)) 0x3F), i + 2)
  else if (Z.land c 0xF0 =? 0xE0) && (i + 2 <? in_len) then
    (Z.lor (Z.lor (Z.shiftl (Z.land c 0x0F) 12) (Z.shiftl (Z.land (get (i + 1)) 0x3F) 6)) (Z.land (get (i + 2)) 0x3F), i + 3)
  else if (Z.land c 0xF8 =? 0xF0) && (i + 3 <? in_len) then
    (Z.lor (Z.lor (Z.lor (Z.shiftl (Z.land c 0x07) 18) (Z.shiftl (Z.land (get (i + 1)) 0x3F) 12))
                  (Z.shiftl (Z.land (get (i + 2)) 0x3F) 6)) (Z.land (get (i + 3)) 0x3F), i + 4)
  else (UNI_REPLACEMENT_CHAR, i + 1).
(** The units of a code point. *)
Definition utf16_units (cp : Z) : list Z :=
  if cp <=? 0xFFFF then [cp]
  else let cp := cp - 0x10000 in [Z.lor 0xD800 (Z.shiftr cp 10); Z.lor 0xDC00 (Z.land cp 0x3FF)].
Fixpoint put16 (m : mem) (a : Z) (l : list Z) : mem :=
  match l with [] => m | w :: r => put16 (st_le 2 m a w) (a + 2) r end.
(** The number of units written; [None]: out of fuel. *)
Fixpoint utf8_to_utf16_loop (fuel : nat) (m : mem) (inp in_len out out_len i o : Z) : option (mem * Z) :=
  if (i <=? in_len) && (o <? out_len) then
    match fuel with
    | O => None
    | S f =>
        let '(cp, i') := utf8_decode (fun k => ld m (inp + k)) in_len i in
        let u := utf16_units cp in
        if out_len <? o + Z.of_nat (length u) then Some (m, o)
        else utf8_to_utf16_loop f (put16 m (out + 2 * o) u) inp in_len out out_len i' (o + Z.of_nat (length u))
    end
  else Some (m, o).
Definition utf8_to_utf16 (m : mem) (inp in_len out out_len : Z) : option (mem * Z) :=
  utf8_to_utf16_loop (S (S (Z.to_nat in_len))) m inp in_len out out_len 0 0.

Definition is_high (u : Z) : bool := (0xD800 <=? u) && (u <=? 0xDBFF).
Definition is_low (u : Z) : bool := (0xDC00 <=? u) && (u <=? 0xDFFF).
Definition utf16_decode (get : Z -> Z) (in_len i : Z) : Z * Z :=
  let cp := get i in
  let i := i + 1 in
  if is_high cp && (i <? in_len) && is_low (get i)
  then (Z.shiftl (cp - 0xD800) 10 + (get i - 0xDC00) + 0x10000, i + 1) else (cp, i).
(** The bytes of a code point. *)
Definition utf8_bytes (cp : Z) : list Z :=
  if cp <? 0x80 then [cp]
  else if cp <? 0x800 then [Z.lor 0xC0 (Z.shiftr cp 6); Z.lor 0x80 (Z.land cp 0x3F)]
  else if cp <? 0x10000 then
    [Z.lor 0xE0 (Z.shiftr cp 12); Z.lor 0x80 (Z.land (Z.shiftr cp 6) 0x3F); Z.lor 0x80 (Z.land cp 0x3F)]
  else
    [Z.lor 0xF0 (Z.shiftr cp 18); Z.lor 0x80 (Z.land (Z.shiftr cp 12) 0x3F);
     Z.lor 0x80 (Z.land (Z.shiftr cp 6) 0x3F); Z.lor 0x80 (Z.land cp 0x3F)].
Fixpoint utf16_to_utf8_loop (fuel : nat) (m : mem) (inp in_len out out_len i o : Z) : option (mem * Z) :=
  if (i <=? in_len) && (o <=? out_len) then
    match fuel with
    | O => None
    | S f =>
        let '(cp, i') := utf16_decode (fun k => ld_le 2 m (inp + 2 * k)) in_len i in
        let b := utf8_bytes cp in
        if out_len <? o + Z.of_nat (length b) then Some (m, o)
        else utf16_to_utf8_loop f (store_bytes m (out + o) (map u8 b)) inp in_len out out_len i' (o + Z.of_nat (length b))
    end
  else Some (m, o).
Definition utf16_to_utf8 (m : mem) (inp in_len out out_len : Z) : option (mem * Z) :=
  utf16_to_utf8_loop (S (S (Z.to_nat in_len))) m inp in_len out out_len 0 0.

(** ** Counted strings *)
(** Offsets in [UNICODE_STRING] and in the strings with a buffer of their own. *)
Definition us_length : Z := 0.
Definition us_maximum : Z := 2.
Definition us_buffer : Z := 8.
Definition ustr_data : Z := 16.
Section Counted.
Context (fuel : nat).
(** [utf8_to_ustr32] ... [utf8_to_ustr1024]: [n] units of buffer.  The length is
    that of the UTF-8 string. *)
Definition utf8_to_ustr (n : Z) (m : mem) (utf8_str ustr : Z) : option mem :=
  len ← strlen fuel m utf8_str;
  '(m1, _) ← utf8_to_utf16 m utf8_str len (ustr + ustr_data) n;
  Some (st_le 8 (st_le 2 (st_le 2 m1 (ustr + us_length) (len * 2)) (ustr + us_maximum) (n * 2)) (ustr + us_buffer) (ustr + ustr_data)).
Definition ustr_to_utf8 (m : mem) (ustr utf8_str max_utf8_len : Z) : option mem :=
  let len := ld_le 2 m (ustr + us_length) in
  let buf := ld_le 8 m (ustr + us_buffer) in
  '(m0, utf8_len) ← utf16_to_utf8 m buf len 0 0;
  if (utf8_len =? 0) || (max_utf8_len <=? utf8_len) then Some m0
  else
    '(m1, _) ← utf16_to_utf8 m0 buf len utf8_str max_utf8_len;
    Some (st m1 (utf8_str + utf8_len) 0).
(** The last separator of a path. *)
Fixpoint last_slash (f : nat) (m : mem) (p found : Z) : option Z :=
  match f with
  | O => None
  | S f' =>
      let c := ld m p in
      if c =? 0 then Some found
      else last_slash f' m (p + 1) (if (c =? 92) || (c =? 47) then p else found)
  end.
(** [file_name] is the address of the local buffer. *)
Definition extract_file_name_from_path_utf16 (file_name : Z) (m : mem) (path file_name_u : Z) : option mem :=
  sl ← last_slash fuel m path 0;
  l ← strlen fuel m path;
  utf8_to_ustr 256 (memcpy m file_name (if sl =? 0 then path else sl + 1) (l + 1)) file_name file_name_u.
Definition ustrlen (m : mem) (ustr : Z) : Z :=
  if (ustr =? 0) || (ld_le 8 m (ustr + us_buffer) =? 0) then 0 else ld_le 2 m (ustr + us_length) / 2.
(** The second string goes to half the length of the first, in bytes. *)
Definition ustrconcat (m : mem) (dest src1 src2 : Z) : mem :=
  if (dest =? 0) || (src1 =? 0) || (src2 =? 0) then m
  else
    let l1 := ld_le 2 m (src1 + us_length) in
    let l2 := ld_le 2 m (src2 + us_length) in
    if ld_le 2 m (dest + us_maximum) <? l1 + l2 then m
    else
      let d := ld_le 8 m (dest + us_buffer) in
      let m1 := memcpy m d (ld_le 8 m (src1 + us_buffer)) l1 in
      let m2 := memcpy m1 (d + l1 / 2) (ld_le 8 m1 (src2 + us_buffer)) l2 in
      st_le 2 m2 (dest + us_length) (l1 + l2).
Definition ustrcpy_from_str (m : mem) (dst src : Z) : option mem :=
  l ← strlen fuel m src;
  '(m1, n) ← utf8_to_utf16 m src l (ld_le 8 m (dst + us_buffer)) (ld_le 2 m (dst + us_maximum) / 2);
  Some (st_le 2 m1 (dst + us_length) (n * 2)).

(** ** Lists of modules *)
(** [LIST_ENTRY]: next at 0, prev at 8. *)
Definition le_next : Z := 0.
Definition le_prev : Z := 8.
Definition add_item_to_bottom_of_linked_list (m : mem) (list item : Z) : mem :=
  if ld_le 8 m (list + le_next) =? 0 then
    st_le 8 (st_le 8 (st_le 8 (st_le 8 m (list + le_next) item) (list + le_prev) item) (item + le_next) list) (item + le_prev) list
  else
    let last := ld_le 8 m (list + le_prev) in
    st_le 8 (st_le 8 (st_le 8 (st_le 8 m (last + le_next) item) (item + le_prev) last) (item + le_next) list) (list + le_prev) item.
(** Offsets in [struct loaded_dll] and [struct list_loaded_dlls]. *)
Definition sizeof_loaded_dll : Z := 376.
Definition ld_dll_base : Z := 48.
Definition ld_full_name_u : Z := 56.
Definition ld_base_name_u : Z := 72.
Definition ld_full_name : Z := 88.
Definition ld_name : Z := 344.
Definition ll_load : Z := 16.
Definition ll_memory : Z := 32.
Definition ll_init : Z := 48.
Definition sizeof_list_loaded_dlls : Z := 64.
Definition add_dll_to_bottom_of_linked_list (m : mem) (new_dll_id loaded_dlls_list loaded_dll : Z) : mem :=
  let d := loaded_dll + sizeof_loaded_dll * new_dll_id in
  let m1 := add_item_to_bottom_of_linked_list m (loaded_dlls_list + ll_load) d in
  let m2 := add_item_to_bottom_of_linked_list m1 (loaded_dlls_list + ll_memory) (d + 16) in
  add_item_to_bottom_of_linked_list m2 (loaded_dlls_list + ll_init) (d + 32).
(** [path_u], [name] and [file_name] are the addresses of the local buffers;
    the name of a module is copied behind the 32 bytes it has. *)
Definition setup_base_name_full_path (path_u name file_name : Z) (m : mem) (path d : Z) : option mem :=
  l ← strlen fuel m path;
  let m1 := st_le 8 (st_le 2 (st_le 2 m (d + ld_full_name_u) l) (d + ld_full_name_u + us_maximum) 256)
              (d + ld_full_name_u + us_buffer) (d + ld_full_name) in
  m2 ← utf8_to_ustr 256 m1 path path_u;
  let m3 := memcpy m2 (d + ld_full_name) (path_u + ustr_data) (ld_le 2 m2 (path_u + us_length) + 2) in
  m4 ← extract_file_name_from_path_utf16 file_name m3 path name;
  let nl := ld_le 2 m4 (name + us_length) in
  let m5 := memcpy m4 (d + ld_name) (name + ustr_data) (nl + 2) in
  Some (st_le 8 (st_le 2 (st_le 2 m5 (d + ld_base_name_u) nl) (d + ld_base_name_u + us_maximum) 32)
          (d + ld_base_name_u + us_buffer) (d + ld_name)).
Definition add_loaded_dll (path_u name file_name : Z) (m : mem) (dll_id path loaded_dlls_list loaded_dll image_base_addr : Z) : option mem :=
  let d := loaded_dll + sizeof_loaded_dll * dll_id in
  m1 ← setup_base_name_full_path path_u name file_name (st_le 8 m (d + ld_dll_base) image_base_addr) path d;
  Some (add_dll_to_bottom_of_linked_list m1 dll_id loaded_dlls_list loaded_dll).
End Counted.

(** ** Code points *)
Definition scalar (cp : Z) : Prop := 0 <= cp < 0xD800 \/ 0xE000 <= cp < 0x110000.
Definition utf8_of (cps : list Z) : list Z := concat (map utf8_bytes cps).
Definition utf16_of (cps : list Z) : list Z := concat (map utf16_units cps).
(** Units in memory. *)
Fixpoint at16 (m : mem) (a : Z) (l : list Z) : Prop :=
  match l with [] => True | w :: r => ld_le 2 m a = w /\ at16 m (a + 2) r end.

Section Bits.
(** A fact about the small numbers, by trying them all. *)
Lemma below (n : nat) (P : Z -> bool) : forallb (fun i => P (Z.of_nat i)) (seq 0 n) = true -> forall x, 0 <= x < Z.of_nat n -> P x = true.
Proof.
  intros H x Hx. rewrite forallb_forall in H. specialize (H (Z.to_nat x)). rewrite Z2Nat.id in H by lia.
  apply H, in_seq. lia.
Qed.
Lemma lead2 q : 2 <= q < 32 -> (Z.lor 0xC0 q <? 0x80) = false /\ Z.land (Z.lor 0xC0 q) 0xE0 = 0xC0 /\ Z.land (Z.lor 0xC0 q) 0x1F = q /\ 0 <= Z.lor 0xC0 q < 256.
Proof.
  intros Hq. pose proof (below 32 (fun q => negb (Z.lor 0xC0 q <? 0x80) && (Z.land (Z.lor 0xC0 q) 0xE0 =? 0xC0)
    && (Z.land (Z.lor 0xC0 q) 0x1F =? q) && (0 <=? Z.lor 0xC0 q) && (Z.lor 0xC0 q <? 256)) eq_refl q ltac:(lia)) as H.
  cbv beta in H. repeat (apply andb_true_iff in H as [H ?]). zbool. repeat split; lia.
Qed.
Lemma lead3 q : 0 <= q < 16 -> (Z.lor 0xE0 q <? 0x80) = false /\ Z.land (Z.lor 0xE0 q) 0xE0 = 0xE0 /\ Z.land (Z.lor 0xE0 q) 0xF0 = 0xE0 /\ Z.land (Z.lor 0xE0 q) 0x0F = q /\ 0 <= Z.lor 0xE0 q < 256.
Proof.
  intros Hq. pose proof (below 16 (fun q => negb (Z.lor 0xE0 q <? 0x80) && (Z.land (Z.lor 0xE0 q) 0xE0 =? 0xE0) && (Z.land (Z.lor 0xE0 q) 0xF0 =? 0xE0)
    && (Z.land (Z.lor 0xE0 q) 0x0F =? q) && (0 <=? Z.lor 0xE0 q) && (Z.lor 0xE0 q <? 256)) eq_refl q ltac:(lia)) as H.
  cbv beta in H. repeat (apply andb_true_iff in H as [H ?]). zbool. repeat split; lia.
Qed.
Lemma lead4 q : 0 <= q < 8 -> (Z.lor 0xF0 q <? 0x80) = false /\ Z.land (Z.lor 0xF0 q) 0xE0 = 0xE0 /\ Z.land (Z.lor 0xF0 q) 0xF0 = 0xF0 /\
  Z.land (Z.lor 0xF0 q) 0xF8 = 0xF0 /\ Z.land (Z.lor 0xF0 q) 0x07 = q /\ 0 <= Z.lor 0xF0 q < 256.
Proof.
  intros Hq. pose proof (below 8 (fun q => negb (Z.lor 0xF0 q <? 0x80) && (Z.land (Z.lor 0xF0 q) 0xE0 =? 0xE0) && (Z.land (Z.lor 0xF0 q) 0xF0 =? 0xF0)
    && (Z.land (Z.lor 0xF0 q) 0xF8 =? 0xF0) && (Z.land (Z.lor 0xF0 q) 0x07 =? q) && (0 <=? Z.lor 0xF0 q) && (Z.lor 0xF0 q <? 256)) eq_refl q ltac:(lia)) as H.
  cbv beta in H. repeat (apply andb_true_iff in H as [H ?]). zbool. repeat split; lia.
Qed.
Lemma follow r : 0 <= r < 64 -> Z.land (Z.lor 0x80 r) 0x3F = r /\ 0 <= Z.lor 0x80 r < 256.
Proof.
  intros Hr. pose proof (below 64 (fun r => (Z.land (Z.lor 0x80 r) 0x3F =? r) && (0 <=? Z.lor 0x80 r) && (Z.lor 0x80 r <? 256)) eq_refl r ltac:(lia)) as H.
  cbv beta in H. repeat (apply andb_true_iff in H as [H ?]). zbool. lia.
Qed.
(** The six-bit digits of a code point. *)
Lemma low6 x : Z.land x 0x3F = x mod 64.
Proof. change 0x3F with (Z.ones 6). apply Z.land_ones. lia. Qed.
Lemma follow6 r : 0 <= r < 64 -> Z.lor 0x80 r mod 64 = r.
Proof. intros Hr. rewrite <- low6. apply follow, Hr. Qed.
Lemma shr x k : 0 <= k -> Z.shiftr x k = x / 2 ^ k.
Proof. intros. apply Z.shiftr_div_pow2. lia. Qed.
Lemma join2 a b : 0 <= b < 64 -> Z.lor (Z.shiftl a 6) b = a * 64 + b.
Proof. intros. apply (lor_shiftl a b 6); lia. Qed.
Lemma join3 a b c : 0 <= b < 64 -> 0 <= c < 64 -> Z.lor (Z.lor (Z.shiftl a 12) (Z.shiftl b 6)) c = a * 4096 + b * 64 + c.
Proof.
  intros Hb Hc. change 12 with (6 + 6). rewrite <- Z.shiftl_shiftl by lia. rewrite <- Z.shiftl_lor, join2, join2 by lia. lia.
Qed.
Lemma join4 a b c d : 0 <= b < 64 -> 0 <= c < 64 -> 0 <= d < 64 ->
  Z.lor (Z.lor (Z.lor (Z.shiftl a 18) (Z.shiftl b 12)) (Z.shiftl c 6)) d = a * 262144 + b * 4096 + c * 64 + d.
Proof.
  intros Hb Hc Hd. change 18 with (12 + 6). change (Z.shiftl b 12) with (Z.shiftl b (6 + 6)).
  rewrite <- (Z.shiftl_shiftl a 12 6), <- (Z.shiftl_shiftl b 6 6) by lia. rewrite <- !Z.shiftl_lor, join2 by lia.
  rewrite join3 by lia. lia.
Qed.
End Bits.

(** ** Decoding what was encoded *)
Section Decode.
Fixpoint reads (get : Z -> Z) (i : Z) (l : list Z) : Prop :=
  match l with [] => True | x :: r => get i = x /\ reads get (i + 1) r end.
Ltac digits cp :=
  pose proof (Z.div_mod cp 64 ltac:(lia)); pose proof (Z.mod_pos_bound cp 64 ltac:(lia));
  pose proof (Z.div_mod (cp / 64) 64 ltac:(lia)); pose proof (Z.mod_pos_bound (cp / 64) 64 ltac:(lia)).
Lemma utf8_bytes_range cp : scalar cp -> Forall (fun b => 0 <= b < 256) (utf8_bytes cp).
Proof.
  unfold scalar. intros H. unfold utf8_bytes. rewrite !low6, !shr by lia.
  change (2 ^ 6) with 64; change (2 ^ 12) with 4096; change (2 ^ 18) with 262144.
  assert (HM : forall x, 0 <= x mod 64 < 64) by (intros; apply Z.mod_pos_bound; lia).
  destruct (Z.ltb_spec cp 0x80); [repeat constructor; lia|]. destruct (Z.ltb_spec cp 0x800); [|destruct (Z.ltb_spec cp 0x10000)].
  - constructor; [apply lead2; split; [apply Z.div_le_lower_bound|apply Z.div_lt_upper_bound]; lia|].
    constructor; [apply follow, HM|constructor].
  - constructor; [apply lead3; split; [apply Z.div_pos|apply Z.div_lt_upper_bound]; lia|].
    do 2 (constructor; [apply follow, HM|]). constructor.
  - constructor; [apply lead4; split; [apply Z.div_pos|apply Z.div_lt_upper_bound]; lia|].
    do 3 (constructor; [apply follow, HM|]). constructor.
Qed.
Lemma decode_utf8_bytes get in_len i cp :
  scalar cp -> reads get i (utf8_bytes cp) -> cp < 0x80 \/ i + Z.of_nat (length (utf8_bytes cp)) <= in_len ->
  utf8_decode get in_len i = (cp, i + Z.of_nat (length (utf8_bytes cp))).
Proof.
  unfold scalar, utf8_decode, utf8_bytes. intros Hs. rewrite !low6, !shr by lia.
  change (2 ^ 6) with 64; change (2 ^ 12) with 4096; change (2 ^ 18) with 262144.
  assert (E12 : cp / 4096 = cp / 64 / 64) by (rewrite Z.div_div by lia; reflexivity).
  assert (E18 : cp / 262144 = cp / 64 / 64 / 64) by (rewrite !Z.div_div by lia; reflexivity).
  digits cp. pose proof (Z.div_mod (cp / 64 / 64) 64 ltac:(lia)). pose proof (Z.mod_pos_bound (cp / 64 / 64) 64 ltac:(lia)).
  destruct (Z.ltb_spec cp 0x80).
  - cbn [reads length]. intros [-> _] _. destruct (Z.ltb_spec cp 0x80); [reflexivity|lia].
  - destruct (Z.ltb_spec cp 0x800); [|destruct (Z.ltb_spec cp 0x10000)]; cbn [reads length]; intros Hr Hl.
    + destruct Hr as (E0 & E1 & _). rewrite E0, E1.
      destruct (lead2 (cp / 64)) as (-> & -> & -> & _); [split; [apply Z.div_le_lower_bound|apply Z.div_lt_upper_bound]; lia|].
      rewrite (follow6 (cp mod 64)) by lia.
      destruct (Z.ltb_spec (i + 1) in_len); [|lia]. cbn [Z.eqb Pos.eqb andb]. rewrite join2 by lia. f_equal. lia.
    + destruct Hr as (E0 & E1 & E2 & _). replace (i + 1 + 1) with (i + 2) in E2 by lia. rewrite E0, E1, E2.
      rewrite E12 in *. assert (0 <= cp / 64 / 64 < 16) by (rewrite <- E12; split; [apply Z.div_pos|apply Z.div_lt_upper_bound]; lia).
      destruct (lead3 (cp / 64 / 64)) as (-> & -> & -> & -> & _); [lia|].
      rewrite (follow6 (cp mod 64)) by lia. rewrite (follow6 ((cp / 64) mod 64)) by lia.
      destruct (Z.ltb_spec (i + 2) in_len); [|lia]. cbn [Z.eqb Pos.eqb andb]. rewrite join3 by lia. f_equal. lia.
    + destruct Hr as (E0 & E1 & E2 & E3 & _). replace (i + 1 + 1 + 1) with (i + 3) in E3 by lia. replace (i + 1 + 1) with (i + 2) in E2 by lia.
      rewrite E0, E1, E2, E3. rewrite E18, E12 in *.
      assert (0 <= cp / 64 / 64 / 64 < 8) by (rewrite <- E18; split; [apply Z.div_pos|apply Z.div_lt_upper_bound]; lia).
      destruct (lead4 (cp / 64 / 64 / 64)) as (-> & -> & -> & -> & -> & _); [lia|].
      rewrite (follow6 (cp mod 64)) by lia. rewrite (follow6 ((cp / 64) mod 64)) by lia.
      rewrite (follow6 ((cp / 64 / 64) mod 64)) by lia.
      destruct (Z.ltb_spec (i + 3) in_len); [|lia]. cbn [Z.eqb Pos.eqb andb]. rewrite join4 by lia. f_equal. lia.
Qed.
Lemma utf16_units_range cp : scalar cp -> Forall (fun w => 0 <= w < 2 ^ 16) (utf16_units cp).
Proof.
  unfold scalar, utf16_units. intros H. destruct (Z.leb_spec cp 0xFFFF); [repeat constructor; lia|]. cbv zeta.
  change 0xD800 with (Z.shiftl 54 10). change 0xDC00 with (Z.shiftl 55 10). change 0x3FF with (Z.ones 10).
  rewrite Z.land_ones, shr by lia. pose proof (Z.mod_pos_bound (cp - 65536) (2 ^ 10) ltac:(lia)).
  assert (0 <= (cp - 65536) / 2 ^ 10 < 2 ^ 10) by (split; [apply Z.div_pos|apply Z.div_lt_upper_bound]; lia).
  rewrite !lor_shiftl by lia. repeat constructor; lia.
Qed.
Lemma decode_utf16_units get in_len i cp :
  scalar cp -> reads get i (utf16_units cp) -> cp <= 0xFFFF \/ i + Z.of_nat (length (utf16_units cp)) <= in_len ->
  utf16_decode get in_len i = (cp, i + Z.of_nat (length (utf16_units cp))).
Proof.
  unfold scalar, utf16_decode, utf16_units. intros Hs. destruct (Z.leb_spec cp 0xFFFF); cbn [reads length].
  - intros [E _] _. rewrite E. unfold is_high. destruct (Z.leb_spec 0xD800 cp), (Z.leb_spec cp 0xDBFF); cbn [andb]; lia || reflexivity.
  - cbv zeta. change 0xD800 with (Z.shiftl 54 10). change 0xDC00 with (Z.shiftl 55 10). change 0x3FF with (Z.ones 10).
    rewrite Z.land_ones, shr by lia. set (y := cp - 65536). pose proof (Z.div_mod y (2 ^ 10) ltac:(lia)).
    pose proof (Z.mod_pos_bound y (2 ^ 10) ltac:(lia)).
    assert (0 <= y / 2 ^ 10 < 2 ^ 10) by (split; [apply Z.div_pos|apply Z.div_lt_upper_bound]; lia).
    rewrite !lor_shiftl by lia. intros (E0 & E1 & _) Hl. rewrite E0, E1. unfold is_high, is_low.
    change (Z.shiftl 54 10) with 55296. change (Z.shiftl 55 10) with 56320. cbn [length Z.of_nat Pos.of_succ_nat Pos.succ] in *.
    repeat (match goal with |- context [?a <=? ?b] => destruct (Z.leb_spec a b); [|lia] | |- context [?a <? ?b] => destruct (Z.ltb_spec a b); [|lia] end).
    cbn [andb]. rewrite Z.shiftl_mul_pow2 by lia. f_equal; lia.
Qed.
End Decode.

(** ** The loops *)
Section Loops.
Lemma reads_app get i l r : reads get i (l ++ r) <-> reads get i l /\ reads get (i + Z.of_nat (length l)) r.
Proof.
  revert i. induction l as [|x l IH]; intros i; cbn [reads app length].
  - rewrite Z.add_0_r. tauto.
  - rewrite IH. replace (i + 1 + Z.of_nat (length l)) with (i + Z.of_nat (S (length l))) by lia. tauto.
Qed.
Lemma reads_ext get get' i l : (forall k, i <= k < i + Z.of_nat (length l) -> get' k = get k) -> reads get i l -> reads get' i l.
Proof.
  revert i. induction l as [|x l IH]; intros i H; cbn [reads length] in *; [done|]. intros [E HR].
  split; [rewrite H by lia; exact E|]. apply IH; [|exact HR]. intros k Hk. apply H. lia.
Qed.
Lemma at16_reads m a l : at16 m a l <-> reads (fun k => ld_le 2 m (a + 2 * k)) 0 l.
Proof.
  assert (H : forall i, at16 m (a + 2 * i) l <-> reads (fun k => ld_le 2 m (a + 2 * k)) i l).
  { induction l as [|x l IH]; intros i; cbn [at16 reads]; [done|].
    replace (a + 2 * i + 2) with (a + 2 * (i + 1)) by lia. by rewrite IH. }
  rewrite <- H. by rewrite Z.mul_0_r, Z.add_0_r.
Qed.
Lemma at16_ext m m' a l : (forall x, a <= x < a + 2 * Z.of_nat (length l) -> ld m' x = ld m x) -> at16 m a l -> at16 m' a l.
Proof.
  revert a. induction l as [|w l IH]; intros a H; cbn [at16 length] in *; [done|]. intros [E HA].
  split; [rewrite <- E; apply ld_le_frame; intros x Hx; apply H; lia|]. apply IH; [|exact HA]. intros x Hx. apply H. lia.
Qed.
Lemma at16_app m a l r : at16 m a (l ++ r) <-> at16 m a l /\ at16 m (a + 2 * Z.of_nat (length l)) r.
Proof.
  revert a. induction l as [|w l IH]; intros a; cbn [at16 app length].
  - rewrite Z.mul_0_r, Z.add_0_r. tauto.
  - rewrite IH. replace (a + 2 + 2 * Z.of_nat (length l)) with (a + 2 * Z.of_nat (S (length l))) by lia. tauto.
Qed.
Lemma put16_frame l : forall m a x, x < a \/ a + 2 * Z.of_nat (length l) <= x -> ld (put16 m a l) x = ld m x.
Proof.
  induction l as [|w l IH]; intros m a x H; cbn [put16 length] in *; [done|]. rewrite IH by lia. apply st_le_ld_ne. lia.
Qed.
Lemma put16_at l : forall m a, Forall (fun w => 0 <= w < 2 ^ 16) l -> at16 (put16 m a l) a l.
Proof.
  induction l as [|w l IH]; intros m a Hl; cbn [put16 at16]; [done|]. inversion Hl as [|? ? Hw Hl']; subst. split; [|apply IH, Hl'].
  etrans; [|apply (ld_le_st_le 2 m a w); exact Hw]. apply ld_le_frame. intros x Hx. apply put16_frame. lia.
Qed.
Lemma utf8_bytes_pos cp : (0 < length (utf8_bytes cp))%nat.
Proof. unfold utf8_bytes. repeat case_match; cbn; lia. Qed.
Lemma utf16_units_pos cp : (0 < length (utf16_units cp))%nat.
Proof. unfold utf16_units. repeat case_match; cbn; lia. Qed.
Lemma utf8_small cp : cp < 0x80 -> utf8_bytes cp = [cp] /\ utf16_units cp = [cp].
Proof. intros H. unfold utf8_bytes, utf16_units. destruct (Z.ltb_spec cp 0x80), (Z.leb_spec cp 0xFFFF); lia || done. Qed.

(** From index [i] on, the rest [cps] of the string and the null behind it. *)
Lemma utf8_loop cps : forall fuel m inp in_len out out_len i o,
  Forall scalar cps -> reads (fun k => ld m (inp + k)) i (utf8_of cps ++ [0]) ->
  0 <= i -> i + Z.of_nat (length (utf8_of cps)) = in_len -> (length cps < fuel)%nat ->
  0 <= o -> o + Z.of_nat (length (utf16_of cps)) + 1 <= out_len ->
  (inp + in_len < out \/ out + 2 * out_len <= inp) ->
  exists m', utf8_to_utf16_loop fuel m inp in_len out out_len i o = Some (m', o + Z.of_nat (length (utf16_of cps)) + 1) /\
    at16 m' (out + 2 * o) (utf16_of cps ++ [0]) /\
    (forall x, x < out + 2 * o \/ out + 2 * out_len <= x -> ld m' x = ld m x).
Proof.
  induction cps as [|cp cps IH]; intros fuel m inp in_len out out_len i o Hs HR Hi Hn Hf Ho Hroom Hd;
    (destruct fuel as [|f]; [cbn in Hf; lia|]); cbn [utf8_to_utf16_loop].
  - cbn in Hn, Hroom, HR. destruct HR as [E0 _].
    destruct (Z.leb_spec i in_len), (Z.ltb_spec o out_len); try lia. cbn [andb].
    rewrite (decode_utf8_bytes _ in_len i 0) by (cbn; unfold scalar; lia || auto). destruct (utf8_small 0 ltac:(lia)) as [-> ->].
    cbn [length]. change (Z.of_nat 1) with 1. destruct (Z.ltb_spec out_len (o + 1)); [lia|].
    exists (put16 m (out + 2 * o) [0]). split.
    + destruct f; cbn [utf8_to_utf16_loop]; destruct (Z.leb_spec (i + 1) in_len); try lia; cbn [andb]; do 2 f_equal; cbn; lia.
    + split; [apply put16_at; repeat constructor; lia|]. intros x Hx. apply put16_frame. cbn. lia.
  - inversion Hs as [|? ? Hcp Hs']; subst.
    unfold utf8_of, utf16_of in *. cbn [map concat] in *. rewrite length_app in *. rewrite <- app_assoc in HR.
    apply reads_app in HR as [HR1 HR2]. pose proof (utf8_bytes_pos cp). pose proof (utf16_units_pos cp).
    set (bl := Z.of_nat (length (utf8_bytes cp))) in *. set (ul := Z.of_nat (length (utf16_units cp))) in *.
    destruct (Z.leb_spec i (i + Z.of_nat (length (utf8_bytes cp) + length (concat (map utf8_bytes cps))))), (Z.ltb_spec o out_len); try lia.
    cbn [andb]. rewrite (decode_utf8_bytes _ _ i cp Hcp HR1) by lia. fold bl ul. destruct (Z.ltb_spec out_len (o + ul)); [lia|].
    set (m1 := put16 m (out + 2 * o) (utf16_units cp)).
    assert (HF1 : forall x, x < out + 2 * o \/ out + 2 * (o + ul) <= x -> ld m1 x = ld m x)
      by (intros x Hx; apply put16_frame; lia).
    destruct (IH f m1 inp (i + Z.of_nat (length (utf8_bytes cp) + length (concat (map utf8_bytes cps)))) out out_len (i + bl) (o + ul))
      as (m' & E & HA & HF); [exact Hs'| |lia|lia|cbn in Hf; lia|lia|lia|lia|].
    { eapply reads_ext; [|exact HR2]. intros k Hk. rewrite length_app in Hk. cbn [length] in Hk. apply HF1. lia. }
    exists m'. split; [rewrite E; f_equal; f_equal; rewrite length_app; unfold ul; lia|]. split.
    + rewrite <- app_assoc. apply at16_app. split.
      * eapply at16_ext; [|apply put16_at, utf16_units_range, Hcp]. intros x Hx. apply HF. lia.
      * fold ul. replace (out + 2 * o + 2 * ul) with (out + 2 * (o + ul)) by lia. exact HA.
    + intros x Hx. rewrite HF by lia. apply HF1. lia.
Qed.
(** Bytes in memory. *)
Lemma store_reads l : forall m a o, reads (fun k => ld (store_bytes m (a + o) l) (a + k)) o l.
Proof.
  induction l as [|b l IH]; intros m a o; cbn [store_bytes reads]; [done|]. split.
  - rewrite store_bytes_ld. destruct (Z.leb_spec (a + o + 1) (a + o)); [lia|]. cbn [andb]. rewrite ld_st. by rewrite Z.eqb_refl.
  - replace (a + o + 1) with (a + (o + 1)) by lia. apply IH.
Qed.
Lemma store_frame l m a x : x < a \/ a + Z.of_nat (length l) <= x -> ld (store_bytes m a l) x = ld m x.
Proof.
  intros H. rewrite store_bytes_ld. destruct (Z.leb_spec a x), (Z.ltb_spec x (a + Z.of_nat (length l))); lia || reflexivity.
Qed.
Lemma map_u8_utf8 cp : scalar cp -> map u8 (utf8_bytes cp) = utf8_bytes cp.
Proof.
  intros H. apply utf8_bytes_range in H. induction H as [|b l Hb _ IH]; cbn [map]; [done|]. by rewrite IH, u8_id.
Qed.
Lemma utf16_loop cps : forall fuel m inp in_len out out_len i o,
  Forall scalar cps -> reads (fun k => ld_le 2 m (inp + 2 * k)) i (utf16_of cps ++ [0]) ->
  0 <= i -> i + Z.of_nat (length (utf16_of cps)) = in_len -> (length cps < fuel)%nat ->
  0 <= o -> o + Z.of_nat (length (utf8_of cps)) + 1 <= out_len ->
  (inp + 2 * in_len + 1 < out \/ out + out_len <= inp) ->
  exists m', utf16_to_utf8_loop fuel m inp in_len out out_len i o = Some (m', o + Z.of_nat (length (utf8_of cps)) + 1) /\
    reads (fun k => ld m' (out + k)) o (utf8_of cps ++ [0]) /\
    (forall x, x < out + o \/ out + out_len <= x -> ld m' x = ld m x).
Proof.
  induction cps as [|cp cps IH]; intros fuel m inp in_len out out_len i o Hs HR Hi Hn Hf Ho Hroom Hd;
    (destruct fuel as [|f]; [cbn in Hf; lia|]); cbn [utf16_to_utf8_loop].
  - cbn in Hn, Hroom, HR. destruct HR as [E0 _].
    destruct (Z.leb_spec i in_len), (Z.leb_spec o out_len); try lia. cbn [andb].
    rewrite (decode_utf16_units _ in_len i 0) by (cbn; unfold scalar; lia || auto). destruct (utf8_small 0 ltac:(lia)) as [-> ->].
    cbn [length]. change (Z.of_nat 1) with 1. destruct (Z.ltb_spec out_len (o + 1)); [lia|].
    exists (store_bytes m (out + o) [0]). split.
    + destruct f; cbn [utf16_to_utf8_loop]; destruct (Z.leb_spec (i + 1) in_len); try lia; cbn [andb]; do 2 f_equal; cbn; lia.
    + split; [apply store_reads|]. intros x Hx. apply store_frame. cbn. lia.
  - inversion Hs as [|? ? Hcp Hs']; subst.
    unfold utf8_of, utf16_of in *. cbn [map concat] in *. rewrite length_app in *. rewrite <- app_assoc in HR.
    apply reads_app in HR as [HR1 HR2]. pose proof (utf8_bytes_pos cp). pose proof (utf16_units_pos cp).
    set (bl := Z.of_nat (length (utf8_bytes cp))) in *. set (ul := Z.of_nat (length (utf16_units cp))) in *.
    destruct (Z.leb_spec i (i + Z.of_nat (length (utf16_units cp) + length (concat (map utf16_units cps))))), (Z.leb_spec o out_len); try lia.
    cbn [andb]. rewrite (decode_utf16_units _ _ i cp Hcp HR1) by lia. fold bl ul. destruct (Z.ltb_spec out_len (o + bl)); [lia|].
    rewrite map_u8_utf8 by exact Hcp. set (m1 := store_bytes m (out + o) (utf8_bytes cp)).
    assert (HF1 : forall x, x < out + o \/ out + (o + bl) <= x -> ld m1 x = ld m x) by (intros x Hx; apply store_frame; lia).
    destruct (IH f m1 inp (i + Z.of_nat (length (utf16_units cp) + length (concat (map utf16_units cps)))) out out_len (i + ul) (o + bl))
      as (m' & E & HA & HF); [exact Hs'| |lia|lia|cbn in Hf; lia|lia|lia|lia|].
    { eapply reads_ext; [|exact HR2]. intros k Hk. rewrite length_app in Hk. cbn [length] in Hk.
      apply ld_le_frame. intros x Hx. apply HF1. lia. }
    exists m'. split; [rewrite E; f_equal; f_equal; rewrite length_app; unfold bl; lia|]. split.
    + rewrite <- app_assoc. apply reads_app. split; [|exact HA].
      eapply reads_ext; [|apply (store_reads (utf8_bytes cp) m out o)]. intros k Hk. apply HF. lia.
    + intros x Hx. rewrite HF by lia. apply HF1. lia.
Qed.
End Loops.

(** ** Strings there and back *)
Section Roundtrip.
Lemma reads_cells m a l i : reads (fun k => ld m (a + k)) i l <-> cells m (a + i) (length l) = l.
Proof.
  revert i. induction l as [|b l IH]; intros i; cbn [reads cells length]; [done|].
  rewrite IH. replace (a + i + 1) with (a + (i + 1)) by lia. split; [by intros [-> ->]|]. intros E. by injection E.
Qed.
Lemma utf8_of_length cps : (length cps <= length (utf8_of cps))%nat.
Proof.
  induction cps as [|cp cps IH]; [done|]. unfold utf8_of in *. cbn [map concat length]. rewrite length_app.
  pose proof (utf8_bytes_pos cp). lia.
Qed.
Lemma utf16_of_length cps : (length cps <= length (utf16_of cps))%nat.
Proof.
  induction cps as [|cp cps IH]; [done|]. unfold utf16_of in *. cbn [map concat length]. rewrite length_app.
  pose proof (utf16_units_pos cp). lia.
Qed.

(** C18: UTF-16 keeps a string: for Unicode scalar values [cps], the bytes of
    their UTF-8 encoding followed by a null are converted to the UTF-16 encoding
    followed by a null, and converting that back gives the same bytes and the
    null; nothing is written outside the two output buffers.  Both loops end
    within the fuel that the length of the input gives. *)
Theorem utf_roundtrip (m : mem) (cps : list Z) (inp mid mid_len out out_len : Z) :
  let n8 := Z.of_nat (length (utf8_of cps)) in
  let n16 := Z.of_nat (length (utf16_of cps)) in
  Forall scalar cps -> cells m inp (S (length (utf8_of cps))) = utf8_of cps ++ [0] ->
  n16 + 1 <= mid_len -> n8 + 1 <= out_len ->
  inp + n8 < mid \/ mid + 2 * mid_len <= inp ->
  mid + 2 * mid_len <= out \/ out + out_len <= mid ->
  exists m1 m2,
    utf8_to_utf16 m inp n8 mid mid_len = Some (m1, n16 + 1) /\
    at16 m1 mid (utf16_of cps ++ [0]) /\
    utf16_to_utf8 m1 mid n16 out out_len = Some (m2, n8 + 1) /\
    cells m2 out (S (length (utf8_of cps))) = utf8_of cps ++ [0] /\
    (forall x, x < mid \/ mid + 2 * mid_len <= x -> x < out \/ out + out_len <= x -> ld m2 x = ld m x).
Proof.
  intros n8 n16 Hs HC Hmid Hout Hd1 Hd2.
  assert (Hlen : S (length (utf8_of cps)) = length (utf8_of cps ++ [0])) by (rewrite length_app; cbn; lia).
  rewrite Hlen in HC |- *. rewrite <- (Z.add_0_r inp) in HC. apply reads_cells in HC.
  pose proof (utf8_of_length cps). pose proof (utf16_of_length cps).
  destruct (utf8_loop cps (S (S (Z.to_nat n8))) m inp n8 mid mid_len 0 0) as (m1 & E1 & H1 & F1); try assumption; try lia.
  rewrite Z.mul_0_r, Z.add_0_r in H1.
  destruct (utf16_loop cps (S (S (Z.to_nat n16))) m1 mid n16 out out_len 0 0) as (m2 & E2 & H2 & F2);
    [assumption|by apply at16_reads|lia..|].
  exists m1, m2. split; [exact E1|]. split; [exact H1|]. split; [exact E2|]. split.
  - rewrite <- (Z.add_0_r out). by apply reads_cells.
  - intros x Hx Hy. rewrite F2, F1 by lia. done.
Qed.
Lemma utf_roundtrip_witness :
  let cps := [0x41; 0xE9; 0x20AC; 0x1F600] in
  let m := store_bytes ∅ 100 (utf8_of cps ++ [0]) in
  utf8_of cps = [0x41; 0xC3; 0xA9; 0xE2; 0x82; 0xAC; 0xF0; 0x9F; 0x98; 0x80] /\
  utf16_of cps = [0x41; 0xE9; 0x20AC; 0xD83D; 0xDE00] /\
  exists m1 m2, utf8_to_utf16 m 100 10 200 16 = Some (m1, 6) /\ at16 m1 200 (utf16_of cps ++ [0]) /\
    utf16_to_utf8 m1 200 5 300 16 = Some (m2, 11) /\ cells m2 300 11 = utf8_of cps ++ [0] /\
    (forall x, x < 200 \/ 232 <= x -> x < 300 \/ 316 <= x -> ld m2 x = ld m x).
Proof.
  intros cps m. split; [vm_compute; reflexivity|]. split; [vm_compute; reflexivity|].
  apply (utf_roundtrip m cps 100 200 16 300 16).
  - repeat constructor; unfold scalar; lia.
  - vm_compute. reflexivity.
  - vm_compute. discriminate.
  - vm_compute. discriminate.
  - left. vm_compute. reflexivity.
  - left. vm_compute. discriminate.
Defined.
End Roundtrip.

(** ** The lists of modules *)
Section Lists.
(** The entries [l] form a ring behind [from], which [until] closes. *)
Fixpoint chain (m : mem) (from : Z) (l : list Z) (until : Z) : Prop :=
  match l with
  | [] => ld_le 8 m (from + le_next) = until /\ ld_le 8 m (until + le_prev) = from
  | x :: r => ld_le 8 m (from + le_next) = x /\ ld_le 8 m (x + le_prev) = from /\ chain m x r until
  end.
(** The list of a head: an empty one is all zero, the others are rings. *)
Definition listed (m : mem) (head : Z) (l : list Z) : Prop :=
  match l with [] => ld_le 8 m (head + le_next) = 0 | _ => chain m head l head end.
Definition apart (a b : Z) : Prop := a + 16 <= b \/ b + 16 <= a.
(** Entries that do not share memory, in the address space, none null. *)
Definition entry (x : Z) : Prop := 0 < x < 2 ^ 64 - 16.
Definition entries (l : list Z) : Prop := Forall entry l /\ ForallOrdPairs apart l.
Lemma apart_sym a b : apart a b -> apart b a.
Proof. unfold apart. lia. Qed.
(** The last entry, or the head. *)
Definition lst (from : Z) (l : list Z) : Z := List.last l from.
Lemma lst_cons from x r : lst from (x :: r) = lst x r.
Proof.
  unfold lst. revert from x. induction r as [|y r IH]; intros from x; [done|]. transitivity (List.last (y :: r) from); [done|].
  etrans; [apply IH|symmetry; apply IH].
Qed.
Lemma lst_in from l : lst from l = from \/ In (lst from l) l.
Proof.
  revert from. induction l as [|x r IH]; intros from; [by left|]. rewrite lst_cons. right.
  destruct (IH x) as [-> | H]; [by left|by right].
Qed.
Lemma chain_until m l : forall from until, chain m from l until -> ld_le 8 m (until + le_prev) = lst from l.
Proof.
  induction l as [|x r IH]; intros from until; cbn [chain]; [by intros [_ ->]|]. intros (_ & _ & H). rewrite lst_cons. by apply IH.
Qed.
Lemma chain_frame m m' l : forall from until,
  (forall x a, x = from \/ x = until \/ In x l -> x <= a < x + 16 -> ld m' a = ld m a) -> chain m from l until -> chain m' from l until.
Proof.
  induction l as [|x r IH]; intros from until HF; cbn [chain].
  - intros [A B]. split; (etrans; [|eassumption]); apply ld_le_frame; intros a Ha; unfold le_next, le_prev in *;
      [apply (HF from)|apply (HF until)]; lia || tauto.
  - intros (A & B & HC). split; [|split].
    + etrans; [|exact A]. apply ld_le_frame. intros a Ha. unfold le_next in Ha. apply (HF from); [tauto|lia].
    + etrans; [|exact B]. apply ld_le_frame. intros a Ha. unfold le_prev in Ha. apply (HF x); [cbn; tauto|lia].
    + apply IH; [|exact HC]. intros y a Hy. apply HF. cbn [In]. destruct Hy as [->|[->|Hy]]; auto.
Qed.
(** An entry linked in behind the last one. *)
Lemma chain_snoc m m' item until l : forall from,
  chain m from l until ->
  ForallOrdPairs apart (from :: l) -> Forall (apart item) (until :: from :: l) -> Forall (apart until) l -> until = from \/ apart until from ->
  (forall a, (a < lst from l \/ lst from l + 8 <= a) -> (a < until + 8 \/ until + 16 <= a) -> (a < item \/ item + 16 <= a) -> ld m' a = ld m a) ->
  ld_le 8 m' (lst from l + le_next) = item -> ld_le 8 m' (item + le_prev) = lst from l ->
  ld_le 8 m' (item + le_next) = until -> ld_le 8 m' (until + le_prev) = item ->
  chain m' from (l ++ [item]) until.
Proof.
  unfold le_next, le_prev. induction l as [|x r IH]; intros from HC HP HI HU Hfu HF E1 E2 E3 E4; cbn [chain app]; [auto|].
  destruct HC as (C1 & C2 & HC). rewrite lst_cons in *. rewrite !Forall_cons_iff in HI. rewrite Forall_cons_iff in HU.
  destruct HI as (Iu & If & Ix & Ir), HU as [Hux HU].
  inversion HP as [|? ? Hfrom HP']; subst a l. inversion HP' as [|? ? Hx HP'']; subst a l. rewrite Forall_cons_iff in Hfrom. destruct Hfrom as [Hfx Hfr].
  assert (Hl : lst x r = x \/ apart x (lst x r)).
  { destruct (lst_in x r) as [H|H]; [auto|]. right. rewrite Forall_forall in Hx. apply Hx, H. }
  assert (Hlf : apart from (lst x r)).
  { destruct (lst_in x r) as [->|H]; [exact Hfx|]. rewrite Forall_forall in Hfr. apply Hfr, H. }
  split; [|split]; [etrans; [|exact C1]|etrans; [|exact C2]|].
  - apply ld_le_frame. intros a Ha. unfold apart, le_next, le_prev in *. apply HF; lia.
  - apply ld_le_frame. intros a Ha. unfold apart, le_next, le_prev in *. apply HF; lia.
  - apply IH; try assumption; [by rewrite !Forall_cons_iff|by right].
Qed.
(** What one insertion changes. *)
Lemma add_item_frame m head item l a :
  listed m head l -> entries (item :: head :: l) ->
  Forall (fun x => a < x \/ x + 16 <= a) (item :: head :: l) -> ld (add_item_to_bottom_of_linked_list m head item) a = ld m a.
Proof.
  intros HL [HE HP] Ha. rewrite !Forall_cons_iff in Ha. destruct Ha as (Hi & Hh & Hl). unfold add_item_to_bottom_of_linked_list.
  case_match; rewrite ?st_le_ld_ne by (unfold le_next, le_prev; lia); [done|].
  destruct l as [|x r]; [cbn [listed] in HL; rewrite HL in *; discriminate|].
  cbn [listed] in HL. rewrite (chain_until m (x :: r) head head HL). rewrite st_le_ld_ne; [done|].
  rewrite lst_cons. rewrite Forall_forall in Hl. unfold le_next.
  destruct (lst_in x r) as [->|H']; [specialize (Hl x (or_introl eq_refl))|specialize (Hl _ (or_intror H'))]; lia.
Qed.
Ltac word := unfold le_next, le_prev; repeat (rewrite ld_le_st_le_ne by lia); apply ld_le_st_le; cbn; lia.
Lemma add_item_listed m head item l :
  listed m head l -> entries (item :: head :: l) -> listed (add_item_to_bottom_of_linked_list m head item) head (l ++ [item]).
Proof.
  intros HL [HE HP]. inversion HP as [|? ? Hi HP1]; subst. inversion HP1 as [|? ? Hh HP2]; subst.
  rewrite !Forall_cons_iff in HE. destruct HE as (Ei & Eh & El).
  pose proof Hi as Hi'. rewrite Forall_cons_iff in Hi'. destruct Hi' as [Hih _]. unfold add_item_to_bottom_of_linked_list.
  unfold entry, apart in *. destruct l as [|x r].
  - cbn [listed] in HL. rewrite HL. cbn [Z.eqb app listed chain]. unfold le_next, le_prev.
    repeat split; word.
  - pose proof HL as HL'. cbn [listed chain] in HL'. destruct HL' as (En & _).
    assert (Ex : 0 < x < 2 ^ 64 - 16) by (inversion El; assumption).
    rewrite En. destruct (Z.eqb_spec x 0); [lia|]. cbn [listed] in HL. rewrite (chain_until m (x :: r) head head HL).
    assert (HlE : 0 < lst x r < 2 ^ 64 - 16 /\ apart head (lst x r) /\ apart item (lst x r)).
    { rewrite Forall_forall in El, Hh, Hi. destruct (lst_in x r) as [->|H'].
      - split; [lia|]. split; [apply Hh; by left|apply Hi; right; by left].
      - split; [apply El; by right|]. split; [apply Hh; by right|apply Hi; right; by right]. }
    destruct HlE as (HlE & Hhl & Hil). unfold apart in Hhl, Hil. cbn [app listed].
    change (x :: r ++ [item]) with ((x :: r) ++ [item]). apply (chain_snoc m); try assumption; try (by left).
    + rewrite Forall_cons_iff. split; [exact Hih|exact Hi].
    + rewrite lst_cons. intros a A1 A2 A3. rewrite !st_le_ld_ne by (unfold le_next, le_prev; lia). done.
    + rewrite lst_cons. word.
    + rewrite lst_cons. word.
    + rewrite lst_cons. word.
    + rewrite lst_cons. word.
Qed.
Lemma listed_frame m m' head l :
  (forall x a, In x (head :: l) -> x <= a < x + 16 -> ld m' a = ld m a) -> listed m head l -> listed m' head l.
Proof.
  intros HF. destruct l as [|x r]; cbn [listed].
  - intros <-. apply ld_le_frame. intros a Ha. apply (HF head); [by left|unfold le_next in Ha; lia].
  - apply chain_frame. intros y a Hy. apply HF. destruct Hy as [->|[->|Hy]]; [by left|by left|by right].
Qed.
Lemma add_item_other m head item l head' l' :
  listed m head l -> entries (item :: head :: l) -> Forall (fun x => Forall (apart x) (item :: head :: l)) (head' :: l') ->
  listed m head' l' -> listed (add_item_to_bottom_of_linked_list m head item) head' l'.
Proof.
  intros HL HE HA. apply listed_frame. intros x a Hx Ha. apply (add_item_frame m head item l); [exact HL|exact HE|].
  rewrite Forall_forall in HA. specialize (HA x Hx). eapply Forall_impl; [|exact HA]. unfold apart. cbn. lia.
Qed.
Lemma entries_app l r : entries (l ++ r) <-> entries l /\ entries r /\ Forall (fun x => Forall (apart x) r) l.
Proof.
  unfold entries. induction l as [|x l IH]; cbn [app].
  - split; [intros H; split; [split; constructor|split; [exact H|constructor]]|tauto].
  - split.
    + intros [HF HP]. inversion HP as [|? ? K1 K2]; inversion HF; subst. rewrite Forall_app in K1. destruct K1 as [K1 K3].
      destruct (proj1 IH) as ((A & B) & C & D); [tauto|]. repeat split; try constructor; tauto.
    + intros ([HF HP] & HR & HX). inversion HF; inversion HP; inversion HX; subst.
      destruct (proj2 IH) as [A B]; [tauto|]. split; constructor; try assumption. rewrite Forall_app. tauto.
Qed.
Lemma apart_flip l r : Forall (fun x => Forall (apart x) r) l -> Forall (fun y => Forall (apart y) l) r.
Proof. rewrite !Forall_forall. intros H y Hy. rewrite Forall_forall. intros x Hx. apply apart_sym. specialize (H x Hx). rewrite Forall_forall in H. auto. Qed.

(** C19: A module joins its three lists: where the entries of the load-order, the
    memory-order and the initialisation-order lists of a process and the three
    entries of the new module are separate, adding the module appends its entry
    to each list, every list stays a ring linked in both directions with its
    head, and nothing but the entries is written. *)
Theorem module_joins_lists (m : mem) (id lists dll : Z) (l1 l2 l3 : list Z) :
  let d := dll + sizeof_loaded_dll * id in
  let all := (d :: lists + ll_load :: l1) ++ (d + 16 :: lists + ll_memory :: l2) ++ (d + 32 :: lists + ll_init :: l3) in
  let m' := add_dll_to_bottom_of_linked_list m id lists dll in
  listed m (lists + ll_load) l1 -> listed m (lists + ll_memory) l2 -> listed m (lists + ll_init) l3 -> entries all ->
  listed m' (lists + ll_load) (l1 ++ [d]) /\ listed m' (lists + ll_memory) (l2 ++ [d + 16]) /\ listed m' (lists + ll_init) (l3 ++ [d + 32]) /\
  (forall a, Forall (fun x => a < x \/ x + 16 <= a) all -> ld m' a = ld m a).
Proof.
  intros d all m' L1 L2 L3 HE. unfold all in HE. apply entries_app in HE as (E1 & HE & X1). apply entries_app in HE as (E2 & E3 & X23).
  assert (X12 : Forall (fun x => Forall (apart x) (d + 16 :: lists + ll_memory :: l2)) (d :: lists + ll_load :: l1))
    by (eapply Forall_impl; [|exact X1]; cbv beta; intros x; rewrite Forall_app; tauto).
  assert (X13 : Forall (fun x => Forall (apart x) (d + 32 :: lists + ll_init :: l3)) (d :: lists + ll_load :: l1))
    by (eapply Forall_impl; [|exact X1]; cbv beta; intros x; rewrite Forall_app; tauto).
  unfold m', add_dll_to_bottom_of_linked_list. fold d. set (m1 := add_item_to_bottom_of_linked_list m _ _).
  assert (A2 : listed m1 (lists + ll_memory) l2) by (apply (add_item_other _ _ _ l1); try assumption; apply apart_flip in X12; by inversion X12).
  assert (A3 : listed m1 (lists + ll_init) l3) by (apply (add_item_other _ _ _ l1); try assumption; apply apart_flip in X13; by inversion X13).
  assert (A1 : listed m1 (lists + ll_load) (l1 ++ [d])) by (by apply add_item_listed).
  set (m2 := add_item_to_bottom_of_linked_list m1 _ _).
  assert (B3 : listed m2 (lists + ll_init) l3) by (apply (add_item_other _ _ _ l2); try assumption; apply apart_flip in X23; by inversion X23).
  assert (R : forall P, Forall P (d :: lists + ll_load :: l1) -> Forall P (lists + ll_load :: l1 ++ [d])).
  { intros P. rewrite !Forall_cons_iff, Forall_app, Forall_singleton. tauto. }
  assert (R2 : forall P, Forall P (d + 16 :: lists + ll_memory :: l2) -> Forall P (lists + ll_memory :: l2 ++ [d + 16])).
  { intros P. rewrite !Forall_cons_iff, Forall_app, Forall_singleton. tauto. }
  assert (B1 : listed m2 (lists + ll_load) (l1 ++ [d])) by (apply (add_item_other _ _ _ l2); try assumption; by apply R).
  assert (B2 : listed m2 (lists + ll_memory) (l2 ++ [d + 16])) by (by apply add_item_listed).
  split; [apply (add_item_other _ _ _ l3); try assumption; by apply R|].
  split; [apply (add_item_other _ _ _ l3); try assumption; by apply R2|].
  split; [by apply add_item_listed|]. intros a Ha. unfold all in Ha. rewrite !Forall_app in Ha. destruct Ha as (H1 & H2 & H3).
  etrans; [by apply (add_item_frame m2 _ _ l3)|]. etrans; [by apply (add_item_frame m1 _ _ l2)|]. by apply (add_item_frame m _ _ l1).
Qed.
(** Two modules loaded one after the other. *)
Lemma module_joins_lists_witness :
  let m := add_dll_to_bottom_of_linked_list ∅ 0 1000 2000 in
  let m' := add_dll_to_bottom_of_linked_list m 1 1000 2000 in
  listed m' 1016 [2000; 2376] /\ listed m' 1032 [2016; 2392] /\ listed m' 1048 [2032; 2408] /\
  (forall a, Forall (fun x => a < x \/ x + 16 <= a) [2376; 1016; 2000; 2392; 1032; 2016; 2408; 1048; 2032] -> ld m' a = ld m a).
Proof.
  intros m m'. apply (module_joins_lists m 1 1000 2000 [2000] [2016] [2032]).
  1-3: vm_compute; repeat split.
  unfold sizeof_loaded_dll, ll_load, ll_memory, ll_init. cbn [app].
  split; repeat match goal with |- ForallOrdPairs _ _ => constructor | |- Forall _ _ => constructor end; unfold entry, apart; lia.
Defined.
End Lists.

(** Reading a counted string back as UTF-8 never converts anything: the pass
    that is to count the bytes has no room for one, finds none, and the routine
    returns with its output and the rest of memory as they were. *)
Theorem ustr_to_utf8_does_nothing (m : mem) (ustr utf8_str max_utf8_len : Z) : ustr_to_utf8 m ustr utf8_str max_utf8_len = Some m.
Proof.
  assert (L : forall inp n, utf16_to_utf8 m inp n 0 0 = Some (m, 0)).
  { intros inp n. unfold utf16_to_utf8. cbn [utf16_to_utf8_loop].
    destruct (Z.leb_spec 0 n); [|reflexivity]. cbn [Z.leb Z.compare andb]. destruct (utf16_decode _ n 0) as [cp i'].
    pose proof (utf8_bytes_pos cp). destruct (Z.ltb_spec 0 (0 + Z.of_nat (length (utf8_bytes cp)))); [reflexivity|lia]. }
  unfold ustr_to_utf8. rewrite L. reflexivity.
Qed.
