(* ===== verification/Pe.v ===== *)
(** * Pe: the loader of Windows programs, src/core/exe/loader.h

    Headers and sections of an image, relocation, the export tables, the
    process and thread environment blocks and the start of a program.  Memory is
    the view of the process that is loaded, as in [Elf]; the statics of the file
    that are only written are left out.  The addresses inside an image are taken
    not to wrap around. *)
From Stdlib Require Import String Ascii.
From S2P Require Import Prelude Bytes MemLib StrLib Time KState Blocks Paging Threads Sched Ipc User Vfs Descr ProcCalls Elf Wide.
Open Scope Z_scope.

(** ** Data *)
Definition IMAGE_DIRECTORY_ENTRY_EXPORT : Z := 0.
Definition IMAGE_DIRECTORY_ENTRY_BASERELOC : Z := 5.
Definition MAX_DLL_LIST_BLOCKS_COUNT : Z := 64.
Definition MAX_ARGV_ENVP_CWD_LEN : Z := 4096.
Definition KUSER_SHARED_DATA : Z := 0x7FFE0000.
Definition ENOEXEC : Z := 114.
(** Fields at their packed offsets. *)
Definition dos_e_magic (s : list Z) : Z := le16 s 0.
Definition dos_e_lfanew (s : list Z) : Z := le32 s 60.
Record pe_file_header := PeFileHeader { number_of_sections : Z; size_of_optional_header : Z }.
Definition sizeof_pe_file_header : Z := 20.
Definition file_header (s : list Z) (i : Z) : pe_file_header := PeFileHeader (le16 s (i + 2)) (le16 s (i + 16)).
Record pe_optional_header64 := PeOptionalHeader64 {
  oh_magic : Z; oh_image_base : Z; oh_size_of_image : Z; oh_size_of_headers : Z;
  oh_export_rva : Z; oh_reloc_rva : Z; oh_reloc_size : Z
}.
Definition oh_directories : Z := 112.
Definition sizeof_data_directory : Z := 8.
Definition directory_at (i : Z) : Z := oh_directories + sizeof_data_directory * i.
Definition optional_header64 (s : list Z) : pe_optional_header64 :=
  PeOptionalHeader64 (le16 s 0) (le64 s 24) (le32 s 56) (le32 s 60)
    (le32 s (directory_at IMAGE_DIRECTORY_ENTRY_EXPORT))
    (le32 s (directory_at IMAGE_DIRECTORY_ENTRY_BASERELOC)) (le32 s (directory_at IMAGE_DIRECTORY_ENTRY_BASERELOC + 4)).
Definition sizeof_pe_optional_header64 : Z := 240.
Record pe_section_header := PeSectionHeader {
  sh_virtual_size : Z; sh_virtual_address : Z; sh_size_of_raw_data : Z; sh_pointer_to_raw_data : Z
}.
Definition sizeof_pe_section_header : Z := 40.
Definition section_header (s : list Z) : pe_section_header := PeSectionHeader (le32 s 8) (le32 s 12) (le32 s 16) (le32 s 20).
(** [pe_relocation_block]. *)
Definition rb_page_rva : Z := 0.
Definition rb_block_size : Z := 4.
Definition sizeof_pe_relocation_block : Z := 8.
(** [pe_export_directory]. *)
Definition ed_number_of_names : Z := 24.
Definition ed_address_of_functions : Z := 28.
Definition ed_address_of_names : Z := 32.
Definition ed_address_of_name_ordinals : Z := 36.

(** ** Relocation *)
(** One entry of the block at [blk]; the page of the block is read each time. *)
Definition reloc_entry (m : mem) (blk entry base dist : Z) : mem :=
  let entry_type := Z.shiftr entry 12 in
  let patch_addr := u32 (ld_le 4 m (blk + rb_page_rva) + Z.land entry 0x0FFF) + base in
  if entry_type =? 10 then st_le 8 m patch_addr (ld_le 8 m patch_addr + dist)
  else if entry_type =? 3 then st_le 4 m patch_addr (ld_le 4 m patch_addr + dist)
  else m.
Fixpoint reloc_entries (n : nat) (m : mem) (blk i base dist : Z) : mem :=
  match n with
  | O => m
  | S n' =>
      let entry := ld_le 2 m (blk + sizeof_pe_relocation_block + 2 * i) in
      reloc_entries n' (reloc_entry m blk entry base dist) blk (i + 1) base dist
  end.
(** Every block takes at least eight bytes, so [size / 8 + 1] rounds suffice. *)
Fixpoint reloc_blocks (fuel : nat) (m : mem) (table off size base dist : Z) : mem :=
  match fuel with
  | O => m
  | S f =>
      if negb (off <? size) then m
      else
        let blk := table + off in
        let bs := ld_le 4 m (blk + rb_block_size) in
        if bs <? sizeof_pe_relocation_block then m
        else
          let m' := reloc_entries (Z.to_nat ((bs - sizeof_pe_relocation_block) / 2)) m blk 0 base dist in
          reloc_blocks f m' table (off + bs) size base dist
  end.
Definition pe_image_relocation (oh : pe_optional_header64) (base dist : Z) (m : mem) : mem :=
  if oh_reloc_size oh =? 0 then m
  else reloc_blocks (S (Z.to_nat (oh_reloc_size oh / sizeof_pe_relocation_block))) m (oh_reloc_rva oh + base) 0 (oh_reloc_size oh) base dist.

(** ** Export tables *)
Definition get_opt_header64 (m : mem) (base : Z) : Z := ld_le 4 m (base + 60) + 4 + sizeof_pe_file_header + base.
Definition opt_directory (opt i : Z) : Z := opt + directory_at i.
Section Exports.
Context (fuel : nat).
(** The index of the first of [n] names from [i] on that equals [name]. *)
Fixpoint export_index (n : nat) (m : mem) (table base name i : Z) : option (option Z) :=
  match n with
  | O => Some None
  | S n' =>
      let name_rvas := base + ld_le 4 m (table + ed_address_of_names) in
      r ← strcmp fuel m (base + ld_le 4 m (name_rvas + 4 * i)) name;
      if negb (r =? 0) then Some (Some i) else export_index n' m table base name (i + 1)
  end.
(** The entry of the function table that a name index leads to. *)
Definition export_slot (m : mem) (table base i : Z) : Z :=
  let ordinal := ld_le 2 m (base + ld_le 4 m (table + ed_address_of_name_ordinals) + 2 * i) in
  base + ld_le 4 m (table + ed_address_of_functions) + 4 * ordinal.
(** The address of the entry, 0 if there is none; [dir] is the directory. *)
Definition pe_find_export_addr_pointer_by_name (m : mem) (name dir base : Z) : option Z :=
  let table := ld_le 4 m dir + base in
  r ← export_index (Z.to_nat (ld_le 4 m (table + ed_number_of_names))) m table base name 0;
  Some (match r with None => 0 | Some i => export_slot m table base i end).
(** The number of names is read again each time; [n] is the fuel. *)
Fixpoint patch_loop (n : nat) (m : mem) (ntdll_dir ninja_table ntdll ninja i : Z) : option mem :=
  if negb (i <? ld_le 4 m (ninja_table + ed_number_of_names)) then Some m
  else
    match n with
    | O => None
    | S n' =>
        let name := ld_le 4 m (ld_le 4 m (ninja_table + ed_address_of_names) + ninja + 4 * i) + ninja in
        if name =? 0 then Some m
        else
          let rva := ld_le 4 m (export_slot m ninja_table ninja i) in
          p ← pe_find_export_addr_pointer_by_name m name ntdll_dir ntdll;
          patch_loop n' (if negb (p =? 0) then st_le 4 m p (rva + ninja - ntdll) else m) ntdll_dir ninja_table ntdll ninja (i + 1)
    end.
Definition patch_export (m : mem) (ntdll ninja : Z) : option mem :=
  let ntdll_dir := opt_directory (get_opt_header64 m ntdll) IMAGE_DIRECTORY_ENTRY_EXPORT in
  let ninja_table := ld_le 4 m (opt_directory (get_opt_header64 m ninja) IMAGE_DIRECTORY_ENTRY_EXPORT) + ninja in
  patch_loop (Z.to_nat (ld_le 4 m (ninja_table + ed_number_of_names))) m ntdll_dir ninja_table ntdll ninja 0.
(** [LdrInitializeThunk] in the table of a module, 0 if there is none. *)
Definition find_thunk (m : mem) (export_rva base thunk_name : Z) : option Z :=
  let table := base + export_rva in
  r ← export_index (Z.to_nat (ld_le 4 m (table + ed_number_of_names))) m table base thunk_name 0;
  Some (match r with None => 0 | Some i => base + ld_le 4 m (export_slot m table base i) end).
End Exports.

(** ** The environment blocks *)
(** Offsets in [PEB], [RTL_CRITICAL_SECTION], [process_params], [TEB]. *)
Definition peb_ImageBaseAddress : Z := 0x10.
Definition peb_loaded_dlls : Z := 0x18.
Definition peb_process_params : Z := 0x20.
Definition peb_FastPebLock : Z := 0x38.
Definition peb_TlsBitmap : Z := 0x78.
Definition peb_TlsBitmapBuffer : Z := 0x80.
Definition peb_SessionId : Z := 0x90.
Definition peb_lock : Z := 0x98.
Definition peb_process_params_buf : Z := 0xC0.
Definition peb_argv_envp_cwd_buf : Z := 0x148.
Definition sizeof_PEB : Z := 0x1148.
Definition cs_LockCount : Z := 8.
Definition sizeof_RTL_CRITICAL_SECTION : Z := 40.
Definition pp_CurrentDirectoryPath : Z := 0x38.
Definition pp_DllPath : Z := 0x50.
Definition pp_ImagePathName : Z := 0x60.
Definition pp_CommandLine : Z := 0x70.
Definition pp_Environment : Z := 0x80.
Definition tib_ExceptionList : Z := 0.
Definition tib_StackBase : Z := 8.
Definition tib_StackLimit : Z := 16.
Definition tib_Self : Z := 48.
Definition teb_ClientIdUniqueProcess : Z := 0x40.
Definition teb_ClientIdUniqueThread : Z := 0x48.
Definition teb_ProcessEnvironmentBlock : Z := 0x60.
Definition ku_SystemCallFlag : Z := 0x308.
Definition ku_SystemCallDispatcher : Z := 0x1000.
(** Where the locals and the string literals of the loader lie. *)
Record pe_locals := PeLocals {
  x_path_u : Z; x_name : Z; x_file_name : Z; x_ntdll_str : Z; x_ninja_str : Z; x_thunk_str : Z;
  x_argv_hm : Z; x_envp_hm : Z; x_current_dir_hm : Z
}.
(** [erase_block] on a page of the process. *)
Definition erase_page (m : mem) (a : Z) : mem := erase_mem8 m a 4096.
Section Blocks.
Context (fuel : nat) (x : pe_locals).
(** A counted string of the parameters, with its buffer. *)
Definition put_param (m : mem) (ustr buf src : Z) : option mem :=
  ustrcpy_from_str fuel (st_le 8 (st_le 2 m (ustr + us_maximum) 512) (ustr + us_buffer) buf) ustr src.
(** The strings of the parameters; [DllPath] is set through the pointer, which
    is only set at the end. *)
Definition put_params (m : mem) (peb argv envp envp_len cwd path : Z) : option mem :=
  let buf := peb + peb_argv_envp_cwd_buf in
  let pp := peb + peb_process_params_buf in
  m1 ← put_param m (pp + pp_CommandLine) buf argv;
  '(m2, _) ← utf8_to_utf16 m1 envp envp_len (buf + 1024) MAX_ARGV_ENVP_CWD_LEN;
  let m3 := st_le 8 (st_le 2 m2 (buf + 1024 + 2 * envp_len) 0) (pp + pp_Environment) (buf + 1024) in
  m4 ← put_param m3 (pp + pp_CurrentDirectoryPath) (buf + 2 * 1024) cwd;
  let old := ld_le 8 m4 (peb + peb_process_params) in
  let m5 := st_le 8 m4 (old + pp_DllPath + us_buffer) (ld_le 8 m4 (old + pp_CommandLine + us_buffer)) in
  m6 ← put_param m5 (pp + pp_ImagePathName) (buf + 3 * 1024) path;
  Some (st_le 8 m6 (peb + peb_process_params) pp).
(** The lists of modules with the program and its two libraries. *)
Definition put_modules (m : mem) (list dlls path main ntdll ninja : Z) : option mem :=
  let m0 := fold_left (fun m o => st_le 8 m (list + o) 0)
              [ll_load + le_next; ll_load + le_prev; ll_memory + le_next; ll_memory + le_prev; ll_init + le_next; ll_init + le_prev] m in
  m1 ← add_loaded_dll fuel (x_path_u x) (x_name x) (x_file_name x) m0 0 path list dlls main;
  m2 ← add_loaded_dll fuel (x_path_u x) (x_name x) (x_file_name x) m1 1 (x_ntdll_str x) list dlls ntdll;
  add_loaded_dll fuel (x_path_u x) (x_name x) (x_file_name x) m2 2 (x_ninja_str x) list dlls ninja.
Definition put_teb (m : mem) (peb teb pid tid : Z) : mem :=
  let m1 := st_le 8 m (teb + tib_ExceptionList) 0x12345678 in
  let m2 := st_le 8 m1 (teb + teb_ClientIdUniqueProcess) pid in
  let m3 := st_le 8 m2 (teb + teb_ClientIdUniqueThread) tid in
  let m4 := st_le 8 m3 (teb + tib_StackBase) (HM - 4096) in
  let m5 := st_le 8 m4 (teb + tib_StackLimit) (HM - 4096 - 5 * 4096) in
  let m6 := st_le 8 m5 (teb + tib_Self) teb in
  let m7 := st_le 8 m6 (peb + peb_FastPebLock) (peb + peb_lock) in
  let m8 := st_le 4 (memset m7 (peb + peb_lock) 0 sizeof_RTL_CRITICAL_SECTION) (peb + peb_lock + cs_LockCount) (-1) in
  let m9 := st_le 8 m8 (peb + peb_TlsBitmap) (peb + peb_TlsBitmapBuffer) in
  let m10 := st_le 4 (st_le 4 m9 (peb + peb_TlsBitmapBuffer) 0) (peb + peb_TlsBitmapBuffer + 4) 0 in
  st_le 8 m10 (teb + teb_ProcessEnvironmentBlock) peb.
End Blocks.
Definition get_base_address_from_peb (m : mem) (peb dll_id : Z) : Z :=
  let d := peb + 4096 * 4 + sizeof_loaded_dll * dll_id in
  if negb (d =? 0) then ld_le 8 m (d + ld_dll_base) else 0.

(** ** Loading *)
Definition set_c_gs_base (v : Z) (c : user_thread_context) : user_thread_context :=
  Context (c_r15 c) (c_r14 c) (c_r13 c) (c_r12 c) (c_r11 c) (c_r10 c) (c_r9 c) (c_r8 c) (c_rdi c) (c_rsi c)
    (c_rbp c) (c_rbx c) (c_rdx c) (c_rcx c) (c_rax c) (c_rip c) (c_cs c) (c_rflags c) (c_rsp c) (c_ss c) (c_gs24 c)
    (xsave_area c) (fs_base c) v.
Definition set_c_rip (v : Z) (c : user_thread_context) : user_thread_context :=
  Context (c_r15 c) (c_r14 c) (c_r13 c) (c_r12 c) (c_r11 c) (c_r10 c) (c_r9 c) (c_r8 c) (c_rdi c) (c_rsi c)
    (c_rbp c) (c_rbx c) (c_rdx c) (c_rcx c) (c_rax c) v (c_cs c) (c_rflags c) (c_rsp c) (c_ss c) (c_gs24 c)
    (xsave_area c) (fs_base c) (gs_base c).
Section Load.
Context {M : Machine} {EE : ElfEnv} {disk : Type} `{PartitionDriver disk} (junk : Z) (v : vfs) (fuel : nat) (x : pe_locals).

Definition on_mem_opt (f : mem -> option mem) : ST (sys disk) unit :=
  m ← gets s_mem; m' ← must_end (f m); upd_mem (fun _ => m').
(** A read into the memory of the process. *)
Definition read_to (p : path) (addr start n : Z) : ST (sys disk) Z :=
  r ← on_fs (read_file junk v p addr start n);
  _ ← upd_mem (fun m => store_bytes m addr (snd r));
  mret (fst r).
Definition map_pages_at (pid addr : Z) (n : nat) : ST (sys disk) unit :=
  on_kern (for_m n 0 (fun i => _ ← increase_paging_of_process_with_virt_addr pid (u64 (addr + i * 4096)); mret tt)).
Definition pe_load_section_to_memory (p : path) (sh : pe_section_header) (image_base : Z) : ST (sys disk) Z :=
  let virtual_address := u64 (sh_virtual_address sh + image_base) in
  let copy_size := if sh_virtual_size sh <? sh_size_of_raw_data sh then sh_virtual_size sh else sh_size_of_raw_data sh in
  rs ← (if 0 <? sh_size_of_raw_data sh then read_to p virtual_address (sh_pointer_to_raw_data sh) copy_size else mret 0);
  if rs <? 0 then mret rs
  else
    _ ← when (sh_size_of_raw_data sh <? sh_virtual_size sh)
          (upd_mem (fun m => erase_mem8 m (u64 (virtual_address + sh_size_of_raw_data sh)) (sh_virtual_size sh - sh_size_of_raw_data sh)));
    mret 0.
Definition setup_kuser_shared_data (pid : Z) : ST (sys disk) unit :=
  _ ← map_pages_at pid KUSER_SHARED_DATA 2;
  upd_mem (fun m =>
    st_le 8 (st (erase_page (erase_page m KUSER_SHARED_DATA) (KUSER_SHARED_DATA + 4096)) (KUSER_SHARED_DATA + ku_SystemCallFlag) 0)
      (KUSER_SHARED_DATA + ku_SystemCallDispatcher) 0).
(** The new top of memory and the address of the thread block, or -1. *)
Definition setup_peb_and_teb0 (pid path tid top main ntdll ninja argv envp cwd : Z) : ST (sys disk) (Z * Z) :=
  _ ← map_pages_at pid top 4;
  let peb := top in
  let top := u64 (top + 4 * 4096) in
  let list := peb + sizeof_PEB in
  _ ← upd_mem (fun m => st_le 4 m (peb + peb_SessionId) 0);
  _ ← upd_mem (fun m => st_le 8 (st (st_le 4 m list sizeof_list_loaded_dlls) (list + 4) 1) (list + 8) 0);
  _ ← upd_mem (fun m => st_le 8 m (peb + peb_ImageBaseAddress) main);
  m ← gets s_mem;
  argv_len ← must_end (strlen fuel m argv);
  envp_len ← must_end (strlen fuel m envp);
  cwd_len ← must_end (strlen fuel m cwd);
  path_len ← must_end (strlen fuel m path);
  if MAX_ARGV_ENVP_CWD_LEN <? argv_len + envp_len + cwd_len + path_len + 4 then mret (top, neg64 1)
  else
    _ ← on_mem_opt (fun m => put_params fuel m peb argv envp envp_len cwd path);
    let dlls := top in
    _ ← for_m (Z.to_nat MAX_DLL_LIST_BLOCKS_COUNT) 0 (fun i =>
          _ ← map_pages_at pid (u64 (dlls + i * 4096)) 1; upd_mem (fun m => erase_page m (u64 (dlls + i * 4096))));
    let top := u64 (dlls + MAX_DLL_LIST_BLOCKS_COUNT * 4096) in
    _ ← on_mem_opt (fun m => put_modules fuel x m list dlls path main ntdll ninja);
    _ ← upd_mem (fun m => st_le 8 m (peb + peb_loaded_dlls) list);
    let teb := peb + sizeof_PEB + sizeof_list_loaded_dlls in
    _ ← upd_mem (fun m => put_teb m peb teb pid tid);
    mret (top, teb).
(** The optional header in its local array: zeroed, read, and stale behind it. *)
Definition read_optional (p : path) (start opt_size : Z) : ST (sys disk) (list Z) :=
  r ← on_fs (read_file junk v p 1 start opt_size);
  let got := take (Z.to_nat opt_size) (snd r : list Z) in
  mret (got ++ map (fun _ => 0) (seqZ (Z.of_nat (length got)) (opt_size - Z.of_nat (length got)))
            ++ map stale (seqZ opt_size (sizeof_pe_optional_header64 - opt_size))).
(** The three headers of a file and the offset of the second, or the error. *)
Definition read_pe_headers (p : path) : ST (sys disk) (Z + Z * pe_file_header * pe_optional_header64) :=
  dos ← read_local junk v p 0 64;
  if negb (dos_e_magic dos =? 0x5A4D) then mret (inl (- ENOEXEC))
  else
    let off := dos_e_lfanew dos in
    sig ← read_local junk v p off 24;
    if negb (bool_decide (slice sig 0 4 = [80; 69; 0; 0])) then mret (inl (- ENOEXEC))
    else
      let fh := file_header sig 4 in
      opt ← read_optional p (off + 4 + sizeof_pe_file_header) (size_of_optional_header fh);
      let oh := optional_header64 opt in
      if negb (oh_magic oh =? 0x20B) then mret (inl (- ENOEXEC)) else mret (inr (off, fh, oh)).
(** The result of a section is kept in an unsigned variable, so that the test
    for an error never holds. *)
Definition load_sections (p : path) (off : Z) (fh : pe_file_header) (base : Z) : ST (sys disk) unit :=
  for_m (Z.to_nat (number_of_sections fh)) 0 (fun i =>
    sh ← read_local junk v p (off + 4 + sizeof_pe_file_header + size_of_optional_header fh + i * sizeof_pe_section_header) sizeof_pe_section_header;
    _ ← pe_load_section_to_memory p (section_header sh) base; mret tt).
(** The result and the new top of memory. *)
Definition load_dll_by_name (name : path) (base pid : Z) : ST (sys disk) (Z * Z) :=
  if bool_decide (name = []) then mret (-1, base)
  else
    let p := chars "/dll/"%string ++ name in
    h ← read_pe_headers p;
    match h : (Z + Z * pe_file_header * pe_optional_header64) with
    | inl e => mret (e, base)
    | inr (off, fh, oh) =>
        _ ← on_kern (extend_cr3 fuel pid base (oh_size_of_image oh));
        _ ← read_to p base 0 (oh_size_of_headers oh);
        _ ← load_sections p off fh base;
        m ← gets s_mem;
        e ← must_end (find_thunk fuel m (oh_export_rva oh) base (x_thunk_str x));
        _ ← upd_mem (pe_image_relocation oh base (s64 (oh_image_base oh - base)));
        mret (e, u64 (base + div_ceil (oh_size_of_image oh) 4096 * 4096))
    end.
(** The command line and the environment are copied to the addresses that the
    words of the fresh stack hold. *)
Definition push_exe_stack (m : mem) (peb : Z) : option mem :=
  let sp := HM - 4096 - 8 in
  let m1 := st_le 8 m sp 0x12345678 in
  let m2 := st_le 8 m1 (sp - 8) peb in
  let sp := sp - 16 in
  let pp := ld_le 8 m2 (peb + peb_process_params) in
  n ← wstrlen fuel m2 (ld_le 8 m2 (pp + pp_CommandLine + us_buffer));
  let m3 := memcpy m2 (ld_le 8 m2 sp) (ld_le 8 m2 (pp + pp_CommandLine + us_buffer)) (n * 2 + 2) in
  n' ← wstrlen fuel m3 (ld_le 8 m3 (pp + pp_CommandLine + us_buffer));
  let sp := sp - 8 * (n' * 2 + 2) in
  k ← wstrlen fuel m3 (ld_le 8 m3 (pp + pp_Environment));
  Some (memcpy m3 (ld_le 8 m3 sp) (ld_le 8 m3 (pp + pp_Environment)) (k * 2 + 2)).
Definition load_or_panic (name : path) (top pid : Z) : ST (sys disk) (Z * Z) :=
  r ← load_dll_by_name name top pid;
  if fst r <? 0 then panic else mret r.
(** [path_addr] is where the path [p] lies.  The process structure is looked up
    before it exists: the thread is stored through the null pointer. *)
Definition run_exe_process (p : path) (path_addr argv envp current_dir : Z) : ST (sys disk) Z :=
  xa ← on_kern allow_exec_path;
  rd ← (if xa : bool then on_kern allow_read_path else mret false);
  if negb rd then mret (neg64 EACCES)
  else
    h ← read_pe_headers p;
    match h : (Z + Z * pe_file_header * pe_optional_header64) with
    | inl e => mret (u64 e)
    | inr (off, fh, oh) =>
        let base := oh_image_base oh in
        pid ← on_kern (free_slot_m proc_slot 0 MAX_PROCESSES_COUNT);
        new_proc ← on_kern (gets (fun k => proc_slot k pid));
        _ ← on_kern (setup_process_info pid pid);
        let start_block := base / 4096 in
        let end_block := div_ceil (u64 (base + oh_size_of_image oh)) 4096 in
        _ ← on_kern (create_page_table_for_process pid (u64 (end_block - start_block)) start_block);
        tid ← on_kern (register_a_thread fuel pid 0);
        _ ← upd_mem (fun m => st_le 8 m (new_proc + 16) tid);
        _ ← on_mem_opt (fun m => m1 ← strcpy fuel m (x_argv_hm x) argv; m2 ← strcpy fuel m1 (x_envp_hm x) envp;
                                 strcpy fuel m2 (x_current_dir_hm x) current_dir);
        _ ← read_to p base 0 (oh_size_of_headers oh);
        _ ← load_sections p off fh base;
        let ntdll := u64 (end_block * 4096) in
        r1 ← load_or_panic (chars "ntdll.dll"%string) ntdll pid;
        let ninja := snd r1 in
        r2 ← load_or_panic (chars "ninja.dll"%string) ninja pid;
        _ ← on_mem_opt (fun m => patch_export fuel m ntdll ninja);
        let peb := snd r2 in
        r3 ← setup_peb_and_teb0 pid path_addr tid peb base ntdll ninja (x_argv_hm x) (x_envp_hm x) (x_current_dir_hm x);
        _ ← on_kern (gets (fun k => thread k tid) ≫= deref);
        _ ← on_kern (modify (upd_thread tid (fun t => set_t_context (set_c_gs_base (snd r3) (t_context t)) t)));
        _ ← on_mem_opt (fun m => push_exe_stack m peb);
        _ ← setup_kuser_shared_data pid;
        _ ← on_kern (modify (upd_thread tid (fun t => set_t_state THREAD_READY (set_t_context_type CONTEXT_TYPE_SSE
              (set_t_context (set_c_rip (fst r2) (t_context t)) t)))));
        mret 0
    end.
End Load.

(** ** Relocation tables *)
Section Relocation.
Lemma ld_le_st_le_mod k : forall m a w, ld_le k (st_le k m a w) a = w mod 256 ^ Z.of_nat k.
Proof.
  intros m a w. rewrite <- (ld_le_st_le k m a (w mod 256 ^ Z.of_nat k)) by (apply Z.mod_pos_bound; lia).
  f_equal. revert m a w. induction k as [|k IH]; intros m a w; cbn [st_le]; [done|]. rewrite (IH _ _ (Z.shiftr w 8)).
  rewrite !Z.shiftr_div_pow2 by lia. change (2 ^ 8) with 256. rewrite Nat2Z.inj_succ, Z.pow_succ_r by lia. unfold u8.
  rewrite (Z.rem_mul_r w 256 (256 ^ Z.of_nat k)) by lia. rewrite (Z.mul_comm 256 ((w / 256) mod _)), Z.div_add, Z_mod_plus_full by lia.
  pose proof (Z.mod_pos_bound w 256 ltac:(lia)). rewrite (Z.div_small (w mod 256) 256), Z.add_0_l, Z.mod_mod by lia. reflexivity.
Qed.
(** A place an entry refers to: its type and its address. *)
Definition site : Type := Z * Z.
Definition width (s : site) : Z := if fst s =? 10 then 8 else if fst s =? 3 then 4 else 0.
Definition patch (dist : Z) (m : mem) (s : site) : mem :=
  let a := snd s in
  if fst s =? 10 then st_le 8 m a (ld_le 8 m a + dist) else if fst s =? 3 then st_le 4 m a (ld_le 4 m a + dist) else m.
(** The blocks of a table: a page and its entries. *)
Definition block : Type := Z * list Z.
Definition block_size (b : block) : Z := 8 + 2 * Z.of_nat (length (snd b)).
Definition site_of (page base e : Z) : site := (Z.shiftr e 12, u32 (page + Z.land e 0x0FFF) + base).
Definition block_sites (base : Z) (b : block) : list site := map (site_of (fst b) base) (snd b).
Definition sites (base : Z) (bs : list block) : list site := concat (map (block_sites base) bs).
Definition table_size (bs : list block) : Z := foldr (fun b n => block_size b + n) 0 bs.
Fixpoint table_at (m : mem) (a : Z) (bs : list block) : Prop :=
  match bs with
  | [] => True
  | b :: r => ld_le 4 m a = fst b /\ ld_le 4 m (a + 4) = block_size b /\ at16 m (a + 8) (snd b) /\ table_at m (a + block_size b) r
  end.
Definition clear_of (lo hi : Z) (s : site) : Prop := snd s + width s <= lo \/ hi <= snd s.
Definition separate (s t : site) : Prop := snd s + width s <= snd t \/ snd t + width t <= snd s.

Lemma patch_frame dist m s x : x < snd s \/ snd s + width s <= x -> ld (patch dist m s) x = ld m x.
Proof. unfold patch, width. intros H. repeat case_match; try done; apply st_le_ld_ne; lia. Qed.
Lemma patches_frame dist l : forall m x, Forall (fun s => x < snd s \/ snd s + width s <= x) l -> ld (fold_left (patch dist) l m) x = ld m x.
Proof.
  induction l as [|s l IH]; intros m x H; [done|]. inversion H; subst. cbn [fold_left]. rewrite IH by assumption. by apply patch_frame.
Qed.
Lemma width_nonneg s : 0 <= width s.
Proof. unfold width. repeat case_match; lia. Qed.
Lemma patches_clear dist l m lo hi x : Forall (clear_of lo hi) l -> lo <= x < hi -> ld (fold_left (patch dist) l m) x = ld m x.
Proof. intros H Hx. apply patches_frame. eapply Forall_impl; [|exact H]. unfold clear_of. cbn. intros s Hs. pose proof (width_nonneg s). lia. Qed.
Lemma table_length bs : 8 * Z.of_nat (length bs) <= table_size bs.
Proof. induction bs as [|b r IH]; cbn [length table_size foldr]; [lia|]. fold (table_size r). unfold block_size. lia. Qed.
Lemma reloc_table_ext m m' bs : forall a, (forall x, a <= x < a + table_size bs -> ld m' x = ld m x) -> table_at m a bs -> table_at m' a bs.
Proof.
  induction bs as [|b r IH]; intros a H; cbn [table_at table_size foldr] in *; [done|]. fold (table_size r) in H.
  pose proof (table_length r). unfold block_size in H.
  intros (E1 & E2 & H1 & H2).
  split; [etrans; [|exact E1]; apply ld_le_frame; intros; apply H; lia|].
  split; [etrans; [|exact E2]; apply ld_le_frame; intros; apply H; lia|].
  split; [eapply at16_ext; [|exact H1]; intros; apply H; lia|]. apply IH; [|exact H2]. intros x Hx. unfold block_size in Hx. apply H. lia.
Qed.
(** The entries of one block. *)
Lemma reloc_entries_spec es : forall m blk page i base dist lo hi,
  ld_le 4 m blk = page -> at16 m (blk + 8 + 2 * i) es -> 0 <= i ->
  lo <= blk -> blk + 8 + 2 * (i + Z.of_nat (length es)) <= hi -> Forall (clear_of lo hi) (map (site_of page base) es) ->
  reloc_entries (length es) m blk i base dist = fold_left (patch dist) (map (site_of page base) es) m.
Proof.
  induction es as [|e es IH]; intros m blk page i base dist lo hi HP HA Hi Hlo Hhi HC; [done|].
  cbn [reloc_entries length map fold_left at16] in *. destruct HA as [HE HA]. rewrite Forall_cons_iff in HC. destruct HC as [Hc HC']. subst page.
  unfold sizeof_pe_relocation_block. rewrite HE. unfold reloc_entry, rb_page_rva. rewrite Z.add_0_r.
  change (reloc_entries (length es) (patch dist m (site_of (ld_le 4 m blk) base e)) blk (i + 1) base dist =
    fold_left (patch dist) (map (site_of (ld_le 4 m blk) base) es) (patch dist m (site_of (ld_le 4 m blk) base e))).
  assert (HF : forall x, lo <= x < hi -> ld (patch dist m (site_of (ld_le 4 m blk) base e)) x = ld m x).
  { intros x Hx. apply patch_frame. unfold clear_of in Hc. pose proof (width_nonneg (site_of (ld_le 4 m blk) base e)). lia. }
  apply (IH _ blk _ (i + 1) base dist lo hi); try assumption; try lia.
  - apply ld_le_frame. intros x Hx. apply HF. lia.
  - replace (blk + 8 + 2 * (i + 1)) with (blk + 8 + 2 * i + 2) by lia. eapply at16_ext; [|exact HA]. intros x Hx. apply HF. lia.
Qed.
Lemma reloc_blocks_spec bs : forall fuel m table off size base dist,
  table_at m (table + off) bs -> off + table_size bs = size -> 0 <= off -> (length bs < fuel)%nat ->
  Forall (clear_of table (table + size)) (sites base bs) ->
  reloc_blocks fuel m table off size base dist = fold_left (patch dist) (sites base bs) m.
Proof.
  induction bs as [|b r IH]; intros fuel m table off size base dist HT HS Hoff Hf HC;
    (destruct fuel as [|f]; [cbn in Hf; lia|]); cbn [reloc_blocks].
  - cbn in HS. destruct (Z.ltb_spec off size); [lia|]. done.
  - cbn [table_at table_size foldr] in *. fold (table_size r) in HS. destruct HT as (E1 & E2 & HA & HT).
    pose proof (table_length r).
    unfold sites in *. cbn [map concat] in *. rewrite Forall_app in HC. destruct HC as [HC1 HC2]. rewrite fold_left_app.
    pose proof (eq_refl (block_size b)) as Hbs. unfold block_size in Hbs at 2.
    unfold rb_block_size, sizeof_pe_relocation_block. rewrite E2.
    destruct (Z.ltb_spec off size); [|lia]. destruct (Z.ltb_spec (block_size b) 8); [lia|]. cbn [negb].
    replace (Z.to_nat ((block_size b - 8) / 2)) with (length (snd b))
      by (rewrite Hbs; replace (8 + 2 * Z.of_nat (length (snd b)) - 8) with (Z.of_nat (length (snd b)) * 2) by lia; rewrite Z.div_mul by lia; lia).
    rewrite (reloc_entries_spec (snd b) m (table + off) (fst b) 0 base dist table (table + size));
      [|exact E1|by rewrite Z.mul_0_r, Z.add_0_r|lia|lia|lia|exact HC1].
    fold (block_sites base b). apply IH; [|lia|lia|cbn in Hf; lia|exact HC2].
    rewrite Z.add_assoc. eapply reloc_table_ext; [|exact HT]. intros x Hx. eapply patches_clear; [exact HC1|lia].
Qed.
Lemma patches_word dist l : forall m s, ForallOrdPairs separate l -> In s l -> fst s = 10 ->
  ld_le 8 (fold_left (patch dist) l m) (snd s) = u64 (ld_le 8 m (snd s) + dist).
Proof.
  induction l as [|t l IH]; intros m s HP Hin H10; [done|]. inversion HP as [|? ? HT HP']; subst. cbn [fold_left].
  destruct Hin as [-> | Hin].
  - etrans; [apply (ld_le_frame 8 (patch dist m s))|].
    + intros x Hx. apply patches_frame. eapply Forall_impl; [|exact HT]. unfold separate, width at 1. rewrite H10. cbn. intros; lia.
    + unfold patch. rewrite H10. cbn [Z.eqb Pos.eqb]. apply ld_le_st_le_mod.
  - rewrite IH by assumption. f_equal. f_equal. apply ld_le_frame. intros x Hx. apply patch_frame.
    rewrite Forall_forall in HT. specialize (HT s Hin). unfold separate in HT. unfold width at 2 in HT. rewrite H10 in HT. cbn in HT. lia.
Qed.
End Relocation.

(** ** Properties of relocation *)
Section Relocated.
Lemma pe_relocation_sites oh base dist m bs :
  let table := oh_reloc_rva oh + base in
  table_at m table bs -> table_size bs = oh_reloc_size oh -> Forall (clear_of table (table + oh_reloc_size oh)) (sites base bs) ->
  pe_image_relocation oh base dist m = fold_left (patch dist) (sites base bs) m.
Proof.
  intros table HT HS HC. pose proof (table_length bs). unfold pe_image_relocation. destruct (Z.eqb_spec (oh_reloc_size oh) 0).
  - destruct bs as [|b r]; [done|]. cbn [length] in *. lia.
  - apply reloc_blocks_spec; [by rewrite Z.add_0_r|lia|lia| |exact HC]. unfold sizeof_pe_relocation_block.
    assert (Z.of_nat (length bs) <= oh_reloc_size oh / 8) by (apply Z.div_le_lower_bound; lia). lia.
Qed.

(** Relocation: for a well-formed table whose places lie outside it and do
    not overlap, every 64-bit place ends up as its old value plus the distance,
    modulo 2^64, and nothing outside the places changes, table included. *)
Theorem relocation_adds_distance (oh : pe_optional_header64) (base dist : Z) (m : mem) (bs : list block) :
  let table := oh_reloc_rva oh + base in
  let m' := pe_image_relocation oh base dist m in
  table_at m table bs -> table_size bs = oh_reloc_size oh ->
  Forall (clear_of table (table + oh_reloc_size oh)) (sites base bs) -> ForallOrdPairs separate (sites base bs) ->
  (forall a, In (10, a) (sites base bs) -> ld_le 8 m' a = u64 (ld_le 8 m a + dist)) /\
  (forall x, Forall (fun s => x < snd s \/ snd s + width s <= x) (sites base bs) -> ld m' x = ld m x) /\
  table_at m' table bs.
Proof.
  intros table m' HT HS HC HP. unfold m'. rewrite (pe_relocation_sites oh base dist m bs HT HS HC). split; [|split].
  - intros a Ha. apply (patches_word dist _ m (10, a) HP Ha eq_refl).
  - intros x. apply patches_frame.
  - eapply reloc_table_ext; [|exact HT]. intros x Hx. eapply patches_clear; [exact HC|lia].
Qed.

(** The loader relocates in the wrong direction: a pointer of a module, built
    for address [image_base] and loaded at [base], is moved by their difference
    taken the other way round, so it points to its target only when the module
    is loaded where it was built for. *)
Theorem relocation_backwards (oh : pe_optional_header64) (base rva a : Z) (m : mem) (bs : list block) :
  let table := oh_reloc_rva oh + base in
  let ib := oh_image_base oh in
  let m' := pe_image_relocation oh base (s64 (oh_image_base oh - base)) m in
  table_at m table bs -> table_size bs = oh_reloc_size oh ->
  Forall (clear_of table (table + oh_reloc_size oh)) (sites base bs) -> ForallOrdPairs separate (sites base bs) ->
  In (10, a) (sites base bs) -> 0 <= ib < 2 ^ 47 -> 0 <= base < 2 ^ 47 -> 0 <= rva < 2 ^ 32 -> ld_le 8 m a = ib + rva ->
  ld_le 8 m' a = u64 (2 * ib - base + rva) /\ (ld_le 8 m' a = base + rva <-> base = ib).
Proof.
  intros table ib m' HT HS HC HP Ha Hib Hb Hr E. unfold m'. rewrite (pe_relocation_sites oh base _ m bs HT HS HC).
  assert (Es : s64 (oh_image_base oh - base) = ib - base) by (apply s64_id; fold ib; lia). rewrite Es.
  rewrite (patches_word _ _ m (10, a) HP Ha eq_refl). cbn [snd]. rewrite E.
  replace (ib + rva + (ib - base)) with (2 * ib - base + rva) by lia. split; [reflexivity|].
  unfold u64. destruct (Z_lt_le_dec (2 * ib - base + rva) 0) as [Hn|Hn].
  - rewrite <- (Z_mod_plus_full _ 1), Z.mod_small by lia. lia.
  - rewrite Z.mod_small by lia. lia.
Qed.
(** A table with one block: a 64-bit place at 0x1010, an entry to skip. *)
Definition demo_blocks : list block := [(0x1000, [0xA010; 0x0000])].
Definition demo_oh : pe_optional_header64 := PeOptionalHeader64 0x20B 0x180000000 0x4000 0x400 0 0x2000 12.
Definition demo_reloc : mem :=
  st_le 8 (put16 (st_le 4 (st_le 4 ∅ 0x12000 0x1000) 0x12004 12) 0x12008 [0xA010; 0x0000]) 0x11010 0x180001234.
Lemma relocation_adds_distance_witness :
  let m' := pe_image_relocation demo_oh 0x10000 (-5) demo_reloc in
  (forall a, In (10, a) (sites 0x10000 demo_blocks) -> ld_le 8 m' a = u64 (ld_le 8 demo_reloc a + -5)) /\
  (forall x, Forall (fun s => x < snd s \/ snd s + width s <= x) (sites 0x10000 demo_blocks) -> ld m' x = ld demo_reloc x) /\
  table_at m' 0x12000 demo_blocks.
Proof.
  apply (relocation_adds_distance demo_oh 0x10000 (-5) demo_reloc demo_blocks).
  - vm_compute. repeat split.
  - reflexivity.
  - repeat (constructor; [vm_compute; left; discriminate|]). constructor.
  - repeat (constructor; [repeat (constructor; [vm_compute; right; discriminate|]); constructor|]). constructor.
Defined.
Lemma relocation_backwards_witness :
  let m' := pe_image_relocation demo_oh 0x10000 (s64 (0x180000000 - 0x10000)) demo_reloc in
  ld_le 8 m' 0x11010 = 0x2FFFF1234 /\ (ld_le 8 m' 0x11010 = 0x11234 <-> 0x10000 = 0x180000000).
Proof.
  apply (relocation_backwards demo_oh 0x10000 0x1234 0x11010 demo_reloc demo_blocks).
  - vm_compute. repeat split.
  - reflexivity.
  - repeat (constructor; [vm_compute; left; discriminate|]). constructor.
  - repeat (constructor; [repeat (constructor; [vm_compute; right; discriminate|]); constructor|]). constructor.
  - vm_compute. left. reflexivity.
  - cbn. lia.
  - lia.
  - lia.
  - vm_compute. reflexivity.
Defined.
End Relocated.

(** ** Export tables *)
Section ExportTables.
Context (fuel : nat).
Definition out (lo hi a n : Z) : Prop := a + n <= lo \/ hi <= a.
Definition names_at (m : mem) (table base : Z) : Z := base + ld_le 4 m (table + ed_address_of_names).
Definition ords_at (m : mem) (table base : Z) : Z := base + ld_le 4 m (table + ed_address_of_name_ordinals).
Definition functions_at (m : mem) (table base : Z) : Z := base + ld_le 4 m (table + ed_address_of_functions).
(** The names and ordinals of an export directory, none of it in [lo, hi). *)
Record exports (lo hi : Z) (m : mem) (table base : Z) (names : list (list Z)) (ords : list Z) : Prop := {
  ex_count : ld_le 4 m (table + ed_number_of_names) = Z.of_nat (length names);
  ex_length : length ords = length names;
  ex_dir : out lo hi (table + ed_number_of_names) 16;
  ex_names : forall i s, names !! i = Some s ->
    let w := names_at m table base + 4 * Z.of_nat i in
    let p := base + ld_le 4 m w in
    p <> 0 /\ StrLib.cstr m p s /\ slen s < Z.of_nat fuel /\ out lo hi w 4 /\ out lo hi p (slen s + 1);
  ex_ords : forall i o, ords !! i = Some o ->
    let w := ords_at m table base + 2 * Z.of_nat i in ld_le 2 m w = o /\ out lo hi w 2
}.
Definition agree (lo hi : Z) (m m' : mem) : Prop := forall x, x < lo \/ hi <= x -> ld m' x = ld m x.
Lemma agree_ld lo hi m m' n a : agree lo hi m m' -> out lo hi a (Z.of_nat n) -> ld_le n m' a = ld_le n m a.
Proof. unfold agree, out. intros HA Ho. apply ld_le_frame. intros x Hx. apply HA. lia. Qed.
Lemma exports_agree lo hi m m' table base names ords :
  lo <= hi -> agree lo hi m m' -> exports lo hi m table base names ords ->
  exports lo hi m' table base names ords /\ names_at m' table base = names_at m table base /\
  ords_at m' table base = ords_at m table base /\ functions_at m' table base = functions_at m table base.
Proof.
  intros Hlo HA HX. pose proof (ex_dir _ _ _ _ _ _ _ HX) as HD. unfold ed_number_of_names, out in HD.
  assert (EN : names_at m' table base = names_at m table base) by (unfold names_at, ed_address_of_names; f_equal; apply (agree_ld lo hi _ _ 4 _ HA); unfold out; lia).
  assert (EO : ords_at m' table base = ords_at m table base) by (unfold ords_at, ed_address_of_name_ordinals; f_equal; apply (agree_ld lo hi _ _ 4 _ HA); unfold out; lia).
  assert (EF : functions_at m' table base = functions_at m table base) by (unfold functions_at, ed_address_of_functions; f_equal; apply (agree_ld lo hi _ _ 4 _ HA); unfold out; lia).
  split; [|done]. destruct HX as [H1 H2 H3 H4 H5]. constructor; [|exact H2|exact H3| |].
  - rewrite <- H1. apply (agree_ld lo hi _ _ 4 _ HA). unfold out, ed_number_of_names. lia.
  - intros i s Hi. cbv zeta. rewrite EN. specialize (H4 i s Hi). cbv zeta in H4. destruct H4 as (A & B & C & D & E).
    rewrite (agree_ld lo hi m m' 4 _ HA) by exact D. split; [exact A|]. split; [|tauto].
    eapply cstr_ext; [|exact B]. intros x Hx. apply HA. unfold out in E. lia.
  - intros i o Hi. cbv zeta. rewrite EO. specialize (H5 i o Hi). cbv zeta in H5. destruct H5 as [A B].
    rewrite (agree_ld lo hi m m' 2 _ HA) by exact B. done.
Qed.
(** The search finds the first name that is equal. *)
Lemma export_index_spec lo hi m table base names ords name s :
  exports lo hi m table base names ords -> StrLib.cstr m name s ->
  forall k j, (j + k = length names)%nat -> (forall i, (i < j)%nat -> names !! i <> Some s) ->
  exists r, export_index fuel k m table base name (Z.of_nat j) = Some r /\
    match r with
    | Some z => exists i, z = Z.of_nat i /\ names !! i = Some s
    | None => forall i, names !! i <> Some s
    end.
Proof.
  intros HX HS. induction k as [|k IH]; intros j Hj Hlt; cbn [export_index].
  - exists None. split; [done|]. intros i Hi. destruct (lt_dec i j) as [H|H]; [by apply (Hlt i H)|].
    apply lookup_lt_Some in Hi. lia.
  - destruct (lookup_lt_is_Some_2 names j) as [t Ht]; [lia|].
    destruct (ex_names _ _ _ _ _ _ _ HX j t Ht) as (Hp & HC & Hf & _).
    unfold strcmp, names_at in *. rewrite (strcmp_loop_cstr fuel m _ name t s HC HS Hf). cbn [mbind option_bind].
    case_bool_decide as Hts.
    + subst t. cbn. exists (Some (Z.of_nat j)). split; [done|]. by exists j.
    + cbn. replace (Z.of_nat j + 1) with (Z.of_nat (S j)) by lia. apply IH; [lia|].
      intros i Hi. destruct (decide (i = j)) as [->|Hne]; [congruence|]. apply Hlt. lia.
Qed.
Lemma export_slot_at lo hi m table base names ords i o :
  exports lo hi m table base names ords -> ords !! i = Some o ->
  export_slot m table base (Z.of_nat i) = functions_at m table base + 4 * o.
Proof.
  intros HX Ho. destruct (ex_ords _ _ _ _ _ _ _ HX i o Ho) as [E _]. unfold export_slot, ords_at, functions_at in *. by rewrite E.
Qed.
Lemma find_export_spec lo hi m dir table base names ords name s :
  ld_le 4 m dir + base = table -> exports lo hi m table base names ords -> StrLib.cstr m name s -> NoDup names ->
  exists p, pe_find_export_addr_pointer_by_name fuel m name dir base = Some p /\
    (forall i o, names !! i = Some s -> ords !! i = Some o -> p = functions_at m table base + 4 * o) /\
    ((forall i, names !! i <> Some s) -> p = 0) /\
    (p = 0 \/ exists i o, names !! i = Some s /\ ords !! i = Some o /\ p = functions_at m table base + 4 * o).
Proof.
  intros HD HX HS HN. unfold pe_find_export_addr_pointer_by_name. rewrite HD, (ex_count _ _ _ _ _ _ _ HX), Nat2Z.id.
  destruct (export_index_spec lo hi m table base names ords name s HX HS (length names) 0) as (r & E & Hr); [lia|lia|].
  change (Z.of_nat 0) with 0 in E. rewrite E. cbn [mbind option_bind]. destruct r as [z|].
  - destruct Hr as (i & -> & Hi).
    assert (Hl : (i < length ords)%nat) by (rewrite (ex_length _ _ _ _ _ _ _ HX); by eapply lookup_lt_Some).
    destruct (lookup_lt_is_Some_2 ords i Hl) as [o Ho]. rewrite (export_slot_at _ _ _ _ _ _ _ _ _ HX Ho). eexists. split; [done|].
    split; [|split].
    + intros j o' Hj Ho'. assert (j = i) as -> by (eapply NoDup_lookup; eassumption). congruence.
    + intros Hno. by destruct (Hno i).
    + right. eauto.
  - exists 0. split; [done|]. split; [|split; [done|by left]]. intros i o Hi. by destruct (Hr i).
Qed.
End ExportTables.

(** ** Redirected exports *)
Section Redirect.
Context (fuel : nat) (m : mem) (ntdll ninja dir tbl ntbl nf : Z).
Context (names njnames : list (list Z)) (ords njords : list Z).
(** The function table of the system library. *)
Let ft : Z := functions_at m tbl ntdll.
Let hi : Z := ft + 4 * nf.
Definition redirected (j : nat) : Z := (ld_le 4 m (export_slot m ntbl ninja (Z.of_nat j)) + ninja - ntdll) mod 2 ^ 32.
(** Two libraries whose tables are separate from the function table of the
    first, each with different names. *)
Record two_libraries : Prop := {
  tl_dir : ld_le 4 m dir + ntdll = tbl /\ out ft hi dir 4;
  tl_ntdll : exports fuel ft hi m tbl ntdll names ords;
  tl_ninja : exports fuel ft hi m ntbl ninja njnames njords;
  tl_functions : forall j o, njords !! j = Some o -> out ft hi (functions_at m ntbl ninja + 4 * o) 4;
  tl_names : NoDup names /\ NoDup njnames;
  tl_ords : NoDup ords /\ Forall (fun o => 0 <= o < nf) ords;
  tl_pos : 0 < ft /\ 0 <= nf
}.
Context (HT : two_libraries).
(** After the first [j] names of the second library. *)
Definition patched_upto (j : nat) (m' : mem) : Prop :=
  agree ft hi m m' /\
  forall i s o, names !! i = Some s -> ords !! i = Some o ->
    (forall k, njnames !! k = Some s -> (k < j)%nat -> ld_le 4 m' (ft + 4 * o) = redirected k) /\
    ((forall k, njnames !! k = Some s -> (j <= k)%nat) -> ld_le 4 m' (ft + 4 * o) = ld_le 4 m (ft + 4 * o)).
Lemma ord_range i o : ords !! i = Some o -> 0 <= o < nf.
Proof.
  intros H. destruct (tl_ords HT) as [_ HF]. rewrite Forall_forall in HF. apply HF. apply list_elem_of_In. by eapply list_elem_of_lookup_2.
Qed.
Lemma redirected_agree m' j o : agree ft hi m m' -> njords !! j = Some o ->
  ld_le 4 m' (export_slot m' ntbl ninja (Z.of_nat j)) = ld_le 4 m (export_slot m ntbl ninja (Z.of_nat j)).
Proof.
  intros HA Ho. destruct (tl_pos HT). assert (Hlo : ft <= hi) by (unfold hi; lia).
  destruct (exports_agree fuel ft hi m m' ntbl ninja njnames njords Hlo HA (tl_ninja HT)) as (HX & _ & _ & EF).
  rewrite (export_slot_at _ _ _ _ _ _ _ _ _ _ HX Ho), (export_slot_at _ _ _ _ _ _ _ _ _ _ (tl_ninja HT) Ho), EF.
  apply (agree_ld ft hi _ _ 4 _ HA). by apply (tl_functions HT j).
Qed.
(** One store into the function table. *)
Lemma store_slot m' i o w : agree ft hi m m' -> ords !! i = Some o ->
  agree ft hi m (st_le 4 m' (ft + 4 * o) w) /\
  ld_le 4 (st_le 4 m' (ft + 4 * o) w) (ft + 4 * o) = w mod 2 ^ 32 /\
  forall i' o', i' <> i -> ords !! i' = Some o' -> ld_le 4 (st_le 4 m' (ft + 4 * o) w) (ft + 4 * o') = ld_le 4 m' (ft + 4 * o').
Proof.
  intros HA Ho. pose proof (ord_range i o Ho). split; [|split].
  - intros x Hx. rewrite st_le_ld_ne by (unfold hi in Hx; lia). by apply HA.
  - apply (ld_le_st_le_mod 4).
  - intros i' o' Hne Ho'. apply ld_le_st_le_ne. assert (o' <> o); [|lia]. intros ->. apply Hne.
    destruct (tl_ords HT) as [HN _]. by eapply NoDup_lookup.
Qed.
Lemma patch_step j s m' : patched_upto j m' -> njnames !! j = Some s ->
  exists p, pe_find_export_addr_pointer_by_name fuel m' (ninja + ld_le 4 m' (names_at m' ntbl ninja + 4 * Z.of_nat j)) dir ntdll = Some p /\
    patched_upto (S j) (if negb (p =? 0) then st_le 4 m' p (ld_le 4 m' (export_slot m' ntbl ninja (Z.of_nat j)) + ninja - ntdll) else m').
Proof.
  intros [HA HP] Hs. destruct (tl_pos HT) as [Hft Hnf]. assert (Hlo : ft <= hi) by (unfold hi; lia).
  destruct (exports_agree fuel ft hi m m' tbl ntdll names ords Hlo HA (tl_ntdll HT)) as (HX & _ & _ & EF). fold ft in EF.
  destruct (exports_agree fuel ft hi m m' ntbl ninja njnames njords Hlo HA (tl_ninja HT)) as (HX' & _ & _ & _).
  destruct (ex_names _ _ _ _ _ _ _ _ HX' j s Hs) as (_ & HC & _). destruct (tl_dir HT) as [HD HDo]. destruct (tl_names HT) as [HN HN'].
  assert (Hl : (j < length njords)%nat) by (rewrite (ex_length _ _ _ _ _ _ _ _ HX'); by eapply lookup_lt_Some).
  destruct (lookup_lt_is_Some_2 njords j Hl) as [oj Hoj]. rewrite (redirected_agree m' j oj HA Hoj).
  destruct (find_export_spec fuel ft hi m' dir tbl ntdll names ords (ninja + ld_le 4 m' (names_at m' ntbl ninja + 4 * Z.of_nat j)) s) as (p & E & Hp & H0 & Hcase); try eassumption.
  { rewrite (agree_ld ft hi _ _ 4 _ HA) by exact HDo. exact HD. }
  rewrite EF in Hp, Hcase. exists p. split; [exact E|]. destruct Hcase as [-> | (i & o & Hi & Ho & ->)].
  - cbn [negb Z.eqb]. split; [exact HA|]. intros i' s' o' Hi' Ho'. destruct (HP i' s' o' Hi' Ho') as [P1 P2]. split.
    + intros k Hk Hlt. destruct (decide (k = j)) as [->|]; [|apply P1; [exact Hk|lia]]. exfalso.
      assert (s' = s) as -> by congruence. specialize (Hp i' o' Hi' Ho'). pose proof (ord_range i' o' Ho'). lia.
    + intros Hge. apply P2. intros k Hk. specialize (Hge k Hk). lia.
  - pose proof (ord_range i o Ho). destruct (Z.eqb_spec (ft + 4 * o) 0); [lia|]. cbn [negb].
    set (w := ld_le 4 m (export_slot m ntbl ninja (Z.of_nat j)) + ninja - ntdll).
    destruct (store_slot m' i o w HA Ho) as (SA & SW & SF). split; [exact SA|].
    intros i' s' o' Hi' Ho'. destruct (HP i' s' o' Hi' Ho') as [P1 P2]. destruct (decide (i' = i)) as [->|Hne].
    + assert (s' = s) as -> by congruence. assert (o' = o) as -> by congruence. split.
      * intros k Hk _. assert (k = j) as -> by (eapply NoDup_lookup; eassumption). exact SW.
      * intros Hge. specialize (Hge j Hs). lia.
    + rewrite (SF i' o' Hne Ho'). split.
      * intros k Hk Hlt. apply P1; [exact Hk|]. assert (k <> j); [|lia]. intros ->. apply Hne. eapply NoDup_lookup; [exact HN|exact Hi'|congruence].
      * intros Hge. apply P2. intros k Hk. specialize (Hge k Hk). lia.
Qed.
Lemma patch_loop_spec n : forall j m', patched_upto j m' -> (j + n = length njnames)%nat ->
  exists m2, patch_loop fuel n m' dir ntbl ntdll ninja (Z.of_nat j) = Some m2 /\ patched_upto (length njnames) m2.
Proof.
  induction n as [|n IH]; intros j m' HP Hj; pose proof HP as [HA _];
    (assert (Hlo : ft <= hi) by (destruct (tl_pos HT); unfold hi; lia));
    destruct (exports_agree fuel ft hi m m' ntbl ninja njnames njords Hlo HA (tl_ninja HT)) as (HX' & _);
    cbn [patch_loop]; rewrite (ex_count _ _ _ _ _ _ _ _ HX').
  - destruct (Z.ltb_spec (Z.of_nat j) (Z.of_nat (length njnames))); [lia|]. exists m'. split; [done|].
    by replace (length njnames) with j by lia.
  - destruct (Z.ltb_spec (Z.of_nat j) (Z.of_nat (length njnames))); [|lia]. cbn [negb].
    destruct (lookup_lt_is_Some_2 njnames j) as [s Hs]; [lia|].
    destruct (ex_names _ _ _ _ _ _ _ _ HX' j s Hs) as (Hnz & _).
    replace (ld_le 4 m' (ld_le 4 m' (ntbl + ed_address_of_names) + ninja + 4 * Z.of_nat j) + ninja)
      with (ninja + ld_le 4 m' (names_at m' ntbl ninja + 4 * Z.of_nat j))
      by (unfold names_at; rewrite (Z.add_comm ninja (ld_le 4 m' (ntbl + _))); apply Z.add_comm).
    destruct (Z.eqb_spec (ninja + ld_le 4 m' (names_at m' ntbl ninja + 4 * Z.of_nat j)) 0); [contradiction|].
    destruct (patch_step j s m' HP Hs) as (p & E & HP'). rewrite E. cbn [mbind option_bind].
    replace (Z.of_nat j + 1) with (Z.of_nat (S j)) by lia. apply IH; [exact HP'|lia].
Qed.
Lemma patched_start : patched_upto 0 m.
Proof. split; [done|]. intros i s o _ _. split; [lia|done]. Qed.
End Redirect.

(** C15: The exports of the system library are redirected: for two libraries in
    memory whose tables are separate and whose names differ, patching ends;
    afterwards every name that ntdll and ninja both export leads, through the
    tables of ntdll, to the function of ninja (modulo 2^32), every other name of
    ntdll leads where it did, and only the function table of ntdll is written. *)
Theorem patch_export_redirects (fuel : nat) (m : mem) (ntdll ninja nf : Z) (names njnames : list (list Z)) (ords njords : list Z) :
  let dir := opt_directory (get_opt_header64 m ntdll) IMAGE_DIRECTORY_ENTRY_EXPORT in
  let tbl := ld_le 4 m dir + ntdll in
  let ntbl := ld_le 4 m (opt_directory (get_opt_header64 m ninja) IMAGE_DIRECTORY_ENTRY_EXPORT) + ninja in
  let ft := functions_at m tbl ntdll in
  two_libraries fuel m ntdll ninja dir tbl ntbl nf names njnames ords njords ->
  exists m', patch_export fuel m ntdll ninja = Some m' /\
    (forall x, x < ft \/ ft + 4 * nf <= x -> ld m' x = ld m x) /\
    (forall i s o, names !! i = Some s -> ords !! i = Some o ->
      (forall j, njnames !! j = Some s ->
         ld_le 4 m' (ft + 4 * o) = (ld_le 4 m (export_slot m ntbl ninja (Z.of_nat j)) + ninja - ntdll) mod 2 ^ 32) /\
      ((forall j, njnames !! j <> Some s) -> ld_le 4 m' (ft + 4 * o) = ld_le 4 m (ft + 4 * o))).
Proof.
  intros dir tbl ntbl ft HT.
  destruct (patch_loop_spec fuel m ntdll ninja dir tbl ntbl nf names njnames ords njords HT (length njnames) 0 m) as (m' & E & HA & HP);
    [apply patched_start|lia|].
  exists m'. split; [|split; [exact HA|]].
  - unfold patch_export. fold dir. fold ntbl. rewrite (ex_count _ _ _ _ _ _ _ _ (tl_ninja _ _ _ _ _ _ _ _ _ _ _ _ HT)), Nat2Z.id. exact E.
  - intros i s o Hi Ho. destruct (HP i s o Hi Ho) as [P1 P2]. split.
    + intros j Hj. apply (P1 j Hj). by eapply lookup_lt_Some.
    + intros Hno. apply P2. intros k Hk. by destruct (Hno k).
Qed.
(** A library exporting A and B, and one that replaces B. *)
Definition demo_words (m : mem) (l : list (Z * Z)) : mem := fold_left (fun m e => st_le 4 m (fst e) (snd e)) l m.
Definition demo_libraries : mem :=
  demo_words (put16 (put16 ∅ 0x1340 [1; 0]) 0x2340 [0])
    [(0x103C, 0); (0x1088, 0x200); (0x1218, 2); (0x121C, 0x300); (0x1220, 0x320); (0x1224, 0x340);
     (0x1300, 0x10); (0x1304, 0x20); (0x1320, 0x360); (0x1324, 0x370); (0x1360, 65); (0x1370, 66);
     (0x203C, 0); (0x2088, 0x200); (0x2218, 1); (0x221C, 0x300); (0x2220, 0x320); (0x2224, 0x340);
     (0x2300, 0x50); (0x2320, 0x360); (0x2360, 66)].
Ltac each_export :=
  repeat match goal with
  | |- forall i _, _ !! i = Some _ -> _ => let i := fresh "i" in intros i ? Hi; do 3 (try destruct i as [|i]); try discriminate Hi; injection Hi as <-
  end.
Lemma patch_export_redirects_witness :
  exists m', patch_export 8 demo_libraries 0x1000 0x2000 = Some m' /\ ld_le 4 m' 0x1300 = 0x1050 /\ ld_le 4 m' 0x1304 = 0x20.
Proof.
  destruct (patch_export_redirects 8 demo_libraries 0x1000 0x2000 2 [[65]; [66]] [[66]] [1; 0] [0]) as (m' & E & _ & H).
  - constructor.
    + split; [reflexivity|vm_compute; left; discriminate].
    + constructor; [vm_compute; reflexivity|reflexivity|vm_compute; left; discriminate| |]; each_export; vm_compute; repeat split; discriminate || (left; discriminate) || (right; discriminate).
    + constructor; [vm_compute; reflexivity|reflexivity|vm_compute; right; discriminate| |]; each_export; vm_compute; repeat split; discriminate || (left; discriminate) || (right; discriminate).
    + each_export. vm_compute. right. discriminate.
    + split; apply (bool_decide_unpack _); vm_compute; exact I.
    + split; [apply (bool_decide_unpack _); vm_compute; exact I|]. repeat constructor; vm_compute; (reflexivity || discriminate).
    + vm_compute. split; [reflexivity|discriminate].
  - exists m'. split; [exact E|]. split.
    + exact (proj1 (H 1%nat [66] 0 eq_refl eq_refl) 0%nat eq_refl).
    + apply (proj2 (H 0%nat [65] 1 eq_refl eq_refl)). intros [|j]; discriminate.
Defined.

(** Loading a section of a Windows image places the bytes that the file has
    for it, cut at its virtual size, clears the rest of the virtual size and
    touches nothing else; it maps no page. *)
Theorem pe_section_loaded {disk : Type} `{PartitionDriver disk} (junk : Z) (v : vfs) (s : sys disk) (p : path)
    (sh : pe_section_header) (base : Z) (bytes : list Z) (d' : disk) :
  let va := sh_virtual_address sh + base in
  let raw := sh_size_of_raw_data sh in
  let virt := sh_virtual_size sh in
  0 < raw -> 0 <= virt -> 0 < va -> va + raw + virt < 2 ^ 64 -> Z.of_nat (length bytes) = Z.min raw virt ->
  read_file junk v p va (sh_pointer_to_raw_data sh) (Z.min raw virt) (s_disk s) = Done ((0, bytes), d') ->
  exists s', pe_load_section_to_memory junk v p sh base s = Done (0, s') /\ s_k s' = s_k s /\ s_disk s' = d' /\
    cells (s_mem s') va (length bytes) = bytes /\
    (forall x, va + raw <= x < va + virt -> ld (s_mem s') x = 0) /\
    (forall x, x < va \/ va + virt <= x -> ld (s_mem s') x = ld (s_mem s) x).
Proof.
  intros va raw virt Hraw Hvirt Hva H64 Hlen HR. unfold pe_load_section_to_memory. fold raw virt.
  rewrite (u64_id (sh_virtual_address sh + base)) by (fold va; lia). fold va.
  replace (if virt <? raw then virt else raw) with (Z.min raw virt) by (destruct (Z.ltb_spec virt raw); lia).
  destruct (Z.ltb_spec 0 raw); [|lia]. rewrite (u64_id (va + raw)) by lia.
  set (s1 := Sys (s_sm s) (store_bytes (s_mem s) va bytes) (fd_global s) (pipe_global s) d').
  assert (ER : read_to junk v p va (sh_pointer_to_raw_data sh) (Z.min raw virt) s = Done (0, s1)).
  { unfold read_to. assert (EF : on_fs (read_file junk v p va (sh_pointer_to_raw_data sh) (Z.min raw virt)) s =
      Done ((0, bytes), Sys (s_sm s) (s_mem s) (fd_global s) (pipe_global s) d')) by (unfold on_fs; rewrite HR; reflexivity).
    rewrite (bind_done _ _ _ _ _ EF). reflexivity. }
  rewrite (bind_done _ _ _ _ _ ER). change (0 <? 0) with false. cbv iota.
  set (m1 := store_bytes (s_mem s) va bytes). set (m2 := if raw <? virt then erase_mem8 m1 (va + raw) (virt - raw) else m1).
  exists (set_s_mem m2 s1). split; [unfold when, m2; destruct (raw <? virt); reflexivity|]. split; [reflexivity|]. split; [reflexivity|].
  cbn [s_mem set_s_mem]. apply filled_image; lia.
Qed.
Definition demo_section : pe_section_header := PeSectionHeader 8 0x2000 3 2.
Lemma pe_section_loaded_witness :
  exists s', pe_load_section_to_memory 0 demo_vfs [47; 112] demo_section 0x10000 (elf_sys demo_pt ∅ [1; 2; 3; 4; 5; 6]) = Done (0, s') /\
    cells (s_mem s') 0x12000 3 = [3; 4; 5] /\ ld (s_mem s') 0x12007 = 0.
Proof.
  destruct (pe_section_loaded 0 demo_vfs (elf_sys demo_pt ∅ [1; 2; 3; 4; 5; 6]) [47; 112] demo_section 0x10000 [3; 4; 5] [1; 2; 3; 4; 5; 6])
    as (s' & E & _ & _ & HC & HZ & _).
  - reflexivity.
  - discriminate.
  - reflexivity.
  - reflexivity.
  - reflexivity.
  - vm_compute. reflexivity.
  - exists s'. split; [exact E|]. split; [exact HC|]. apply HZ. vm_compute. split; [discriminate|reflexivity].
Defined.
