(* ===== verification/ProcFs.v ===== *)
(** * ProcFs: the contents of special files, src/core/filesytem/special_file.h

    Reading and listing the files below [/proc], [/dev] and [/sys].  The texts
    are lists of characters; [int_text] is what [int_to_str] writes.  The
    buffers that the code uses before it sets them hold the string
    [status_stale]; the result of a routine that ends without a return statement
    is [no_result].  The local arrays have the sizes of the code: a text that
    does not fit its array is a fault. *)
From Stdlib Require Import String Ascii.
From S2P Require Import Prelude Bytes MemLib StrLib Time KState Blocks Paging Threads Sched Ipc User Vfs Descr ProcCalls.
Open Scope Z_scope.

(** ** Texts *)
Definition MAX_CMD_LINE_LEN : Z := 512.
Definition MAX_ENV_LEN : Z := 512.
Definition MAX_CWD_LEN : Z := 1024.
Definition DT_DIR : Z := 4.
Definition DT_REG : Z := 8.
Fixpoint text (l : list Z) : path := match l with [] => [] | c :: r => if c =? 0 then [] else c :: text r end.
Definition pad (n : Z) (l : list Z) : list Z := take (Z.to_nat n) l ++ replicate (Z.to_nat n - length l) 0.
(** The three arrays at the end of a process structure, one behind the other. *)
Definition arrays (p : process_info) : list Z := pad MAX_CMD_LINE_LEN (p_cmd_line p) ++ pad MAX_ENV_LEN (p_env p) ++ pad MAX_CWD_LEN (p_cwd p).
Definition cmd_line (p : process_info) : list Z := arrays p.
Definition env (p : process_info) : list Z := drop (Z.to_nat MAX_CMD_LINE_LEN) (arrays p).
Definition cwd (p : process_info) : list Z := drop (Z.to_nat (MAX_CMD_LINE_LEN + MAX_ENV_LEN)) (arrays p).
Definition int_text (value : Z) : path :=
  let sign := value <? 0 in
  let tmp := push_digits_do 11 (if sign then s32 (- value) else value) [] in
  if sign then 45 :: tmp else tmp.
Definition parse_int (s : path) : Z := default 0 (str_to_int (S (length s)) (store_bytes ∅ 0 (s ++ [0])) 0).

(** Up to a blank, the end or the length of the array. *)
Fixpoint exe_loop (n : nat) (l : list Z) : path :=
  match n, l with
  | S n', c :: r => if (c =? 32) || (c =? 0) then [] else c :: exe_loop n' r
  | _, _ => []
  end.
Definition get_exe_name (p : process_info) : path := exe_loop (Z.to_nat MAX_CMD_LINE_LEN) (cmd_line p).
Fixpoint last_slash_from (i : nat) (l : path) (found : option nat) : option nat :=
  match l with [] => found | c :: r => last_slash_from (S i) r (if c =? slash then Some i else found) end.
(** The part behind the last separator, cut where the separator was: the
    terminator is written at its index.  [None]: without a separator the unsigned
    index runs below zero. *)
Definition get_last_exe_name (p : process_info) : option path :=
  let t := text (cmd_line p) in
  match last_slash_from 0 t None with
  | Some i => Some (take i (drop (S i) t))
  | None => None
  end.
(** The last byte written for it: the copy, or the terminator behind the copy. *)
Definition last_exe_extent (p : process_info) : Z :=
  let t := text (cmd_line p) in
  match last_slash_from 0 t None with
  | Some i => Z.max (Z.of_nat i) (Z.of_nat (length t - S i))
  | None => 0
  end.
Definition process_state_to_str (s : process_state) : path :=
  match s with
  | PROCESS_NOT_EXIST => chars "Not Exist"
  | PROCESS_RUNNING => chars "Running"
  | PROCESS_IDLE => chars "Idle"
  | PROCESS_STOPPED => chars "Stopped"
  | PROCESS_ENDED_BUT_NOT_CLEANED => chars "Ended But Not Cleaned"
  | PROCESS_HANDLING_SIGNAL => chars "Handling Signal"
  end.
Definition line (label : string) (val : path) (unit : string) : path := chars label ++ val ++ chars unit ++ [10].
Definition status_text (stale name : path) (pid : Z) (p : process_info) : path :=
  stale ++ line "Name: " name "" ++ line "State: " (process_state_to_str (p_state p)) "" ++
  line "Pid: " (int_text (s32 pid)) "" ++ line "Ppid: " (int_text (s32 (p_parent_pid p))) "" ++
  line "Uid: " (int_text (s32 (p_uid p))) "" ++ line "Gid: " (int_text (s32 (p_gid p))) "" ++
  line "Threads: " (int_text (s32 (p_threads_count p))) "" ++
  line "VmSize: " (int_text 0) " kB" ++ line "VmRSS: " (int_text 0) " kB".
Definition stat_text (stale name : path) (pid : Z) (p : process_info) : path :=
  let field (t : path) : path := t ++ chars " " in
  stale ++ field name ++ field (process_state_to_str (p_state p)) ++ field (int_text (s32 pid)) ++
  field (int_text (s32 (p_parent_pid p))) ++ field (int_text (s32 (p_uid p))) ++ field (int_text (s32 (p_gid p))) ++
  field (int_text (s32 (p_threads_count p))) ++ field (int_text 0) ++ int_text 0.

(** ** Reading *)
(** A device of the table: its path and the read routine of its driver, which
    takes a block number and a buffer. *)
Section Read.
Context {M : Machine} {disk : Type} (fuel : nat) (status_stale : path) (no_result dir_junk : Z).
Definition device : Type := path * option (Z -> Z -> ST (sys disk) Z).
Context (devices : list device).

Definition target (pid : Z) : ST (sys disk) (option process_info) := on_kern (gets (fun k => proc k pid)).
(** At most [count] characters; what lies behind an array is not represented. *)
Definition give (buf count : Z) (t : list Z) : ST (sys disk) unit := upd_mem (fun m => store_bytes m buf (take (Z.to_nat count) t)).
(** The text and its terminator in an array of [size] bytes. *)
Definition in_array (size : Z) (t : path) : ST (sys disk) unit :=
  if Z.of_nat (length t) <? size then mret tt else fault.
(** Written to [status_info[1024]] behind the text [before]. *)
Definition name_or_fault (before : path) (p : process_info) : ST (sys disk) path :=
  match get_last_exe_name p with
  | Some n => if Z.of_nat (length before) + last_exe_extent p <? 1024 then mret n else fault
  | None => fault
  end.
Definition read_status_proc (buf pid count : Z) : ST (sys disk) unit :=
  t ← target pid;
  match t : option process_info with
  | None => mret tt
  | Some p =>
      name ← name_or_fault (status_stale ++ chars "Name: ") p;
      _ ← in_array 20 (process_state_to_str (p_state p));
      _ ← in_array 1024 (status_text status_stale name pid p);
      give buf count (status_text status_stale name pid p)
  end.
(** The text is put together in a local array and dropped. *)
Definition read_status_stat (buf pid count : Z) : ST (sys disk) unit :=
  t ← target pid;
  match t : option process_info with
  | None => mret tt
  | Some p =>
      name ← name_or_fault status_stale p;
      _ ← in_array 20 (process_state_to_str (p_state p));
      in_array 1024 (stat_text status_stale name pid p)
  end.
Definition read_maps_proc (buf pid count : Z) : ST (sys disk) unit := mret tt.
Definition read_mem_proc (buf pid count : Z) : ST (sys disk) unit := mret tt.
Definition read_proc_cwd (buf pid count : Z) : ST (sys disk) unit :=
  t ← target pid; match t : option process_info with None => mret tt | Some p => give buf count (text (cwd p)) end.
Definition read_proc_exe (buf pid count : Z) : ST (sys disk) unit :=
  t ← target pid; match t : option process_info with None => mret tt | Some p => _ ← in_array 256 (get_exe_name p); give buf count (get_exe_name p) end.
Definition read_fd_file (fd_str : path) (buf pid count : Z) : ST (sys disk) Z :=
  let fd := s32 (parse_int fd_str) in
  t ← target pid;
  match t : option process_info with
  | None => mret (- EINVAL)
  | Some p =>
      gid ← ld64 (fd_entry (p_fd_addr p) fd + fi_global_id);
      q ← path_of fuel gid;
      _ ← give buf count q;
      mret no_result
  end.
(** [pid_str] and [fd_str] have 20 bytes, [filename] has 64. *)
Definition DIRENT_NAME_MAX_LENGTH : Z := 64.
Definition read_proc_file (p : path) (buf start count : Z) : ST (sys disk) Z :=
  c2 ← lift (get_path_at_lv p 2 20);
  match c2 : option path with
  | None => mret (- EINVAL)
  | Some pid_str =>
      let pid := u64 (parse_int pid_str) in
      c3 ← lift (get_path_at_lv p 3 DIRENT_NAME_MAX_LENGTH);
      match c3 : option path with
      | None => mret (- EINVAL)
      | Some filename =>
          let named (s : string) : bool := bool_decide (filename = chars s) in
          if (count_path_level p =? 3) && bool_decide (filename ∈ proc_files) then
            _ ← (if named "cmdline"%string then t ← target pid; q ← deref t; give buf count (cmd_line q)
                 else if named "environ"%string then t ← target pid; q ← deref t; give buf count (env q)
                 else if named "status"%string then read_status_proc buf pid count
                 else if named "stat"%string then read_status_stat buf pid count
                 else if named "maps"%string then read_maps_proc buf pid count
                 else if named "mem"%string then read_mem_proc buf pid count
                 else if named "cwd"%string then read_proc_cwd buf pid count
                 else read_proc_exe buf pid count);
            mret count
          else if (count_path_level p =? 4) && named "fd"%string then
            fd_str ← lift (get_child_path_at_level dir_junk 20 4 p);
            read_fd_file fd_str buf pid count
          else mret (- EINVAL)
      end
  end.
Definition read_sys_file (p : path) (buf start count : Z) : ST (sys disk) Z := mret 0.
Definition read_dev_file (p : path) (buf start count : Z) : ST (sys disk) Z :=
  match List.find (fun d : device => bool_decide (fst d = p)) devices with
  | None => mret no_result
  | Some (_, None) => mret (- EINVAL)
  | Some (_, Some rd) => rd (start / 4096) buf
  end.
Definition or_einval (c : ST (sys disk) Z) : ST (sys disk) Z := rs ← c; mret (if 0 <=? rs then rs else - EINVAL).
Definition sys_read_special_file (fd buf count : Z) : ST (sys disk) Z :=
  fds ← current_fds;
  let file := fd_entry fds fd in
  start_pos ← ld64 (file + fi_offset);
  gid ← ld64 (file + fi_global_id);
  p ← path_of fuel gid;
  if starts_with (chars "/proc/") p then or_einval (read_proc_file p buf start_pos count)
  else if starts_with (chars "/dev/") p then or_einval (read_dev_file p buf start_pos count)
  else if starts_with (chars "/sys/") p then or_einval (read_sys_file p buf start_pos count)
  else mret (- EINVAL).

(** ** Listing *)
Definition sizeof_dirent_in_list : Z := 24.
Definition create_dirent_in_list (m : mem) (output : Z) (fake_name : path) (fake_offset : Z) (is_dir : bool) : mem :=
  if output =? 0 then m
  else
    let m1 := st_le 8 (st_le 8 m output 0) (output + 8) fake_offset in
    let m2 := st_le 2 m1 (output + 16) (sizeof_dirent_in_list + Z.of_nat (length fake_name) + 1) in
    let m3 := st m2 (output + 18) (if is_dir then DT_DIR else DT_REG) in
    store_bytes m3 (output + 19) (fake_name ++ [0]).
(** An empty slot of the process table is a null pointer. *)
Fixpoint list_processes (n : nat) (i buf count byte_written : Z) : ST (sys disk) Z :=
  match n with
  | O => mret byte_written
  | S n' =>
      t ← target i; q ← deref t;
      if bool_decide (p_state q = PROCESS_NOT_EXIST) then mret byte_written
      else if count <? byte_written + sizeof_dirent_in_list + 20 then mret byte_written
      else
        let s := int_text (s32 i) in
        _ ← upd_mem (fun m => create_dirent_in_list m (buf + byte_written) s (i + 1) true);
        list_processes n' (i + 1) buf count (byte_written + sizeof_dirent_in_list + Z.of_nat (length s) + 1)
  end.
Fixpoint list_names (l : list path) (buf count byte_written : Z) : ST (sys disk) Z :=
  match l with
  | [] => mret byte_written
  | s :: r =>
      let len := Z.of_nat (length s) in
      if count <? byte_written + sizeof_dirent_in_list + len + 1 then mret byte_written
      else
        _ ← upd_mem (fun m => create_dirent_in_list m (buf + byte_written) s (byte_written + 1) (bool_decide (s ∈ proc_folders)));
        list_names r buf count (byte_written + sizeof_dirent_in_list + len + 1)
  end.
(** The size of the buffer is not looked at. *)
Fixpoint list_fds (n : nat) (fds i buf byte_written : Z) : ST (sys disk) Z :=
  match n with
  | O => mret byte_written
  | S n' =>
      ty ← ld32 (fd_entry fds i + fi_type);
      if ty =? file_type_code FILE_NONE then list_fds n' fds (i + 1) buf byte_written
      else
        let s := int_text (s32 i) in
        _ ← upd_mem (fun m => create_dirent_in_list m (buf + byte_written) s (byte_written + 1) true);
        list_fds n' fds (i + 1) buf (byte_written + sizeof_dirent_in_list + Z.of_nat (length s) + 1)
  end.
Definition sys_list_dir_special_file (fd buf count : Z) : ST (sys disk) Z :=
  fds ← current_fds;
  gid ← ld64 (fd_entry fds fd + fi_global_id);
  p ← path_of fuel gid;
  if bool_decide (p = chars "/proc") || bool_decide (p = chars "/proc/") then list_processes (Z.to_nat MAX_PROCESSES_COUNT) 0 buf count 0
  else if bool_decide (p = chars "/dev") || bool_decide (p = chars "/sys") then mret 0
  else if starts_with (chars "/proc/") p then
    pid_str ← lift (get_path_at_lv p 2 20);
    let pid := u64 (parse_int (default [] (pid_str : option path))) in
    if count_path_level p =? 2 then list_names proc_files buf count 0
    else
      lv3_name ← lift (get_path_at_lv p 3 DIRENT_NAME_MAX_LENGTH);
      if (count_path_level p =? 3) && bool_decide (lv3_name = Some (chars "fd")) then
        t ← target pid; q ← deref t; list_fds (Z.to_nat MAX_FD_INNER) (p_fd_addr q) 0 buf 0
      else mret no_result
  else if starts_with (chars "/dev/") p || starts_with (chars "/sys/") p then mret 0
  else mret (- EINVAL).
Definition sys_write_special_file (fd buf count : Z) : ST (sys disk) Z := mret (neg64 EINVAL).
End Read.

(** ** Paths *)
Section Paths.
Definition plain (s : path) : Prop := Forall (fun c => c <> slash) s.
Lemma lv_start_plain s : plain s -> forall r i n level, n < level -> lv_start (s ++ r) i n level = lv_start r (i + length s) n level.
Proof.
  induction s as [|c s IH]; intros HP r i n level Hn; cbn [app length]; [by rewrite Nat.add_0_r|].
  inversion HP as [|? ? Hc HP']; subst. cbn [lv_start]. destruct (Z.eqb_spec c slash); [contradiction|]. destruct (Z.leb_spec level n); [lia|].
  rewrite IH by assumption. f_equal. lia.
Qed.
Lemma until_slash_app s r : plain s -> until_slash (s ++ slash :: r) = s.
Proof.
  induction s as [|c s IH]; intros HP; cbn [app until_slash]; [by rewrite Z.eqb_refl|].
  inversion HP as [|? ? Hc HP']; subst. destruct (Z.eqb_spec c slash); [contradiction|]. by rewrite IH.
Qed.
Lemma until_slash_plain s : plain s -> until_slash s = s.
Proof.
  induction s as [|c s IH]; intros HP; cbn [until_slash]; [done|]. inversion HP as [|? ? Hc HP']; subst.
  destruct (Z.eqb_spec c slash); [contradiction|]. by rewrite IH.
Qed.
Lemma slashes_plain s : plain s -> slashes s = 0.
Proof.
  unfold slashes. induction s as [|c s IH]; intros HP; [done|]. inversion HP as [|? ? Hc HP']; subst.
  rewrite filter_cons. destruct (decide (c = slash)); [contradiction|]. by apply IH.
Qed.
Lemma slashes_cons_slash s : slashes (slash :: s) = slashes s + 1.
Proof. change (slash :: s) with ([slash] ++ s). rewrite slashes_app. change (slashes [slash]) with 1. lia. Qed.
Lemma plain_take n s : plain s -> plain (take n s).
Proof. apply Forall_take. Qed.
(** The components of [/proc/A/B] and of [/proc/A/B/C]. *)
Definition proc_path (a b : path) : path := chars "/proc/" ++ a ++ slash :: b.
Lemma proc_lv2 a b size : plain a -> Z.of_nat (length a) < size -> get_path_at_lv (proc_path a b) 2 size = Done (Some a).
Proof.
  intros HA Hl. unfold get_path_at_lv, proc_path. change (chars "/proc/") with [47; 112; 114; 111; 99; 47].
  change (lv_start _ 0 0 2) with (Some 5%nat). cbn [drop app]. cbv zeta.
  rewrite drop_0, until_slash_app by exact HA. by destruct (Z.ltb_spec (Z.of_nat (length a)) size); [|lia].
Qed.
Lemma proc_lv3 a b size : plain a -> Z.of_nat (length (until_slash b)) < size -> get_path_at_lv (proc_path a b) 3 size = Done (Some (until_slash b)).
Proof.
  intros HA Hl. unfold get_path_at_lv, proc_path. change (chars "/proc/") with [47; 112; 114; 111; 99; 47]. cbn [app].
  change (lv_start _ 0 0 3) with (lv_start (a ++ slash :: b) 6 2 3). rewrite lv_start_plain by (done || lia).
  cbn [lv_start]. rewrite Z.eqb_refl. change (3 <=? 2 + 1) with true. cbn [Nat.add drop]. cbv zeta.
  change (a ++ slash :: b) with (a ++ [slash] ++ b). rewrite app_assoc. replace (S (length a)) with (length (a ++ [slash])) by (rewrite length_app; cbn; lia).
  rewrite drop_app_length. by destruct (Z.ltb_spec (Z.of_nat (length (until_slash b))) size); [|lia].
Qed.
Lemma slashes_proc a b : plain a -> slashes (proc_path a b) = slashes b + 3.
Proof. intros HA. unfold proc_path. rewrite !slashes_app, (slashes_plain a), slashes_cons_slash by exact HA. change (slashes (chars "/proc/")) with 2. lia. Qed.
Lemma proc_path_take a b : b <> [] -> take (length (proc_path a b) - 1) (proc_path a b) = proc_path a (take (length b - 1) b).
Proof.
  intros Hb. unfold proc_path. rewrite !length_app. cbn [length]. destruct b as [|c b]; [done|]. cbn [length].
  rewrite !take_app. rewrite !take_ge by lia. f_equal. f_equal.
  replace (length (chars "/proc/") + (length a + S (S (length b))) - 1 - length (chars "/proc/") - length a)%nat with (S (length b)) by lia.
  replace (S (length b) - 1)%nat with (length b) by lia. done.
Qed.
Lemma level_proc a b : plain a -> b <> [] -> count_path_level (proc_path a b) = slashes (take (length b - 1) b) + 3.
Proof. intros HA Hb. unfold count_path_level. by rewrite proc_path_take, slashes_proc. Qed.
(** Four separators are too few for the fifth component. *)
Lemma down_loop_short n : forall i p cnt level, 0 <= level < 2 ^ 63 -> 0 <= cnt ->
  cnt + slashes (drop i p) <= level -> (i + n = length p)%nat -> down_loop n i p cnt level = length p.
Proof.
  induction n as [|n IH]; intros i p cnt level Hl Hc Hs Hi; cbn [down_loop]; [lia|].
  destruct (lookup_lt_is_Some_2 p i) as [c Hci]; [lia|]. unfold char_at. rewrite Hci. cbn [default].
  rewrite (drop_S p c i Hci) in Hs. change (c :: drop (S i) p) with ([c] ++ drop (S i) p) in Hs. rewrite slashes_app in Hs.
  assert (0 <= slashes (drop (S i) p)) by (unfold slashes; lia).
  assert (E : slashes [c] = if c =? slash then 1 else 0).
  { unfold slashes. rewrite filter_cons. destruct (Z.eqb_spec c slash), (decide (c = slash)); done. }
  rewrite E in Hs. rewrite (u64_id (level + 1)) by lia. unfold id.
  destruct (c =? slash); [destruct (Z.eqb_spec (cnt + 1) (level + 1))|destruct (Z.eqb_spec cnt (level + 1))]; try lia; apply IH; lia.
Qed.
Lemma child_short junk level p : 0 <= level < 2 ^ 63 -> slashes p <= level -> get_child_path_at_level junk 20 level p = Done (if junk =? 0 then [] else [junk]).
Proof.
  intros Hl Hs. unfold get_child_path_at_level. rewrite down_loop_short by (rewrite ?drop_0; lia). by rewrite drop_all.
Qed.
Lemma last_slash_spec d name : plain name -> forall i f, last_slash_from i (d ++ slash :: name) f = Some (i + length d)%nat.
Proof.
  intros HP. assert (Hend : forall i f, last_slash_from i name f = f).
  { induction HP as [|c l Hc _ IH]; intros i f; cbn [last_slash_from]; [done|]. destruct (Z.eqb_spec c slash); [contradiction|apply IH]. }
  induction d as [|c d IH]; intros i f; cbn [app last_slash_from length].
  - rewrite Z.eqb_refl, Hend. f_equal. lia.
  - rewrite IH. f_equal. lia.
Qed.
Lemma last_exe_name p d name : text (cmd_line p) = d ++ slash :: name -> plain name -> get_last_exe_name p = Some (take (length d) name).
Proof.
  intros E HP. unfold get_last_exe_name. rewrite E, last_slash_spec by exact HP. cbn [Nat.add]. f_equal. f_equal.
  change (d ++ slash :: name) with (d ++ [slash] ++ name). rewrite app_assoc. replace (S (length d)) with (length (d ++ [slash])) by (rewrite length_app; cbn; lia).
  by rewrite drop_app_length.
Qed.
End Paths.

Lemma lift_bind {S A B : Type} (a : A) (k : A -> ST S B) (s : S) : (lift (Done a) ≫= k) s = k a s.
Proof. reflexivity. Qed.
(** A number takes at most twelve characters. *)
Lemma length_int_text v : (length (int_text v) <= 12)%nat.
Proof.
  assert (G : forall f v l, (length (push_digits_do f v l) <= f + length l)%nat).
  { induction f as [|f IH]; intros w l; cbn [push_digits_do]; [lia|]. case_match; [etrans; [apply IH|]|]; cbn [length]; lia. }
  unfold int_text. destruct (v <? 0); cbn [length]; match goal with |- context [push_digits_do 11 ?w []] => specialize (G 11%nat w []) end;
    cbn [length] in G; lia.
Qed.
Lemma length_status stale name pid p : (length (status_text stale name pid p) <= length stale + length name + 200)%nat.
Proof.
  unfold status_text, line. rewrite !length_app.
  assert (length (process_state_to_str (p_state p)) <= 21)%nat by (destruct (p_state p); cbn; lia).
  repeat match goal with |- context [length (int_text ?v)] => pose proof (length_int_text v); generalize dependent (length (int_text v)); intros end.
  cbn [length chars map list_ascii_of_string app]. lia.
Qed.

(** ** Properties *)
Section Properties.
Context {M : Machine} {disk : Type} (fuel : nat) (stale : path) (no_result dir_junk : Z).

(** Reading [/proc/N/status] of a process started as [d/name] succeeds: the
    buffer receives the first characters of the status text, as many as asked
    for, and nothing else changes.  The text starts with whatever the
    uninitialised array holds, the name is cut to as many characters as the
    directory part has (so it is empty for a program in the root directory), and
    the result is the length asked for even if the text is shorter.  The text
    has to fit its array of 1024 bytes; the name of the state of a process that
    has ended does not fit the 20 bytes it is copied to, and the call overruns
    the stack. *)
Theorem proc_status_text (s : sys disk) (a d name : path) (pid buf start count : Z) (p : process_info) :
  let t := status_text stale (take (length d) name) pid p in
  let call := read_proc_file fuel stale no_result dir_junk (proc_path a (chars "status")) buf start count s in
  plain a -> Z.of_nat (length a) < 20 -> u64 (parse_int a) = pid -> proc (s_k s) pid = Some p ->
  text (cmd_line p) = d ++ slash :: name -> plain name -> 0 <= count ->
  Z.of_nat (length stale) + Z.of_nat (length d) + Z.of_nat (length name) < 800 ->
  (p_state p = PROCESS_ENDED_BUT_NOT_CLEANED -> call = Faulted) /\
  (p_state p <> PROCESS_ENDED_BUT_NOT_CLEANED ->
   exists s', call = Done (count, s') /\
    cells (s_mem s') buf (Nat.min (Z.to_nat count) (length t)) = take (Z.to_nat count) t /\
    (forall x, x < buf \/ buf + Z.min count (Z.of_nat (length t)) <= x -> ld (s_mem s') x = ld (s_mem s) x) /\ s_k s' = s_k s).
Proof.
  intros t call HA Hla Hpid Hp Hcmd HN Hc Hfit. set (m' := store_bytes (s_mem s) buf (take (Z.to_nat count) t)).
  assert (EC : call = (_ ← read_status_proc stale buf pid count; mret count) s).
  { unfold call, read_proc_file. rewrite proc_lv2, proc_lv3, level_proc by (done || (cbn; unfold DIRENT_NAME_MAX_LENGTH; lia)).
    rewrite lift_bind. change (until_slash (chars "status")) with (chars "status"). rewrite Hpid.
    rewrite lift_bind.
    change ((slashes (take (length (chars "status") - 1) (chars "status")) + 3 =? 3) && bool_decide (chars "status" ∈ proc_files)) with true.
    cbv iota. change (bool_decide (chars "status" = chars "cmdline")) with false. change (bool_decide (chars "status" = chars "environ")) with false.
    change (bool_decide (chars "status" = chars "status")) with true. reflexivity. }
  assert (ER : read_status_proc stale buf pid count s =
    (_ ← in_array 20 (process_state_to_str (p_state p)); _ ← in_array 1024 t; give buf count t) s).
  { unfold read_status_proc, target. assert (ET : on_kern (gets (fun k => proc k pid)) s = Done (Some p, s)).
    { rewrite <- (set_s_k_same s) at 2. apply on_kern_done. unfold gets. by rewrite Hp. }
    rewrite (bind_done _ _ _ _ _ ET). unfold name_or_fault, last_exe_extent. rewrite (last_exe_name p d name Hcmd HN), Hcmd, last_slash_spec by exact HN.
    rewrite !length_app. cbn [length Nat.add]. destruct (Z.ltb_spec (Z.of_nat (length stale + length (chars "Name: ")) +
      Z.max (Z.of_nat (length d)) (Z.of_nat (length d + S (length name) - S (length d)))) 1024); [reflexivity|].
    change (length (chars "Name: ")) with 6%nat in *. lia. }
  rewrite EC. split; intros Hst.
  - unfold mbind at 1, st_bind at 1. rewrite ER, Hst. reflexivity.
  - assert (H20 : Z.of_nat (length (process_state_to_str (p_state p))) < 20) by (destruct (p_state p); try done; cbn; lia).
    assert (Ht : Z.of_nat (length t) < 1024).
    { unfold t. pose proof (length_status stale (take (length d) name) pid p). rewrite length_take in *. lia. }
    exists (set_s_mem m' s). split; [|split; [|split; [|by destruct s as [[]]]]].
    + rewrite (bind_done _ _ s tt (set_s_mem m' s)); [reflexivity|]. rewrite ER. unfold in_array.
      destruct (Z.ltb_spec (Z.of_nat (length (process_state_to_str (p_state p)))) 20); [|lia].
      destruct (Z.ltb_spec (Z.of_nat (length t)) 1024); [reflexivity|lia].
    + cbn [s_mem set_s_mem]. unfold m'. rewrite <- (length_take t (Z.to_nat count)). apply cells_store.
    + cbn [s_mem set_s_mem]. intros x Hx. unfold m'. rewrite store_bytes_ld, length_take.
      destruct (Z.leb_spec buf x), (Z.ltb_spec x (buf + Z.of_nat (Nat.min (Z.to_nat count) (length t)))); lia || reflexivity.
Qed.

(** Every number below [/proc/N/fd] reads the same descriptor: the path has
    one component fewer than the routine that is to extract the number asks for,
    so the number is never looked at. *)
Theorem proc_fd_ignores_number (s : sys disk) (a n1 n2 : path) (buf start count : Z) :
  plain a -> Z.of_nat (length a) < 20 -> plain n1 -> plain n2 -> n1 <> [] -> n2 <> [] ->
  read_proc_file fuel stale no_result dir_junk (proc_path a (chars "fd/" ++ n1)) buf start count s =
  read_proc_file fuel stale no_result dir_junk (proc_path a (chars "fd/" ++ n2)) buf start count s.
Proof.
  intros HA Hla H1 H2 N1 N2.
  assert (R : forall n, plain n -> n <> [] ->
    read_proc_file fuel stale no_result dir_junk (proc_path a (chars "fd/" ++ n)) buf start count s =
    read_fd_file fuel no_result (if dir_junk =? 0 then [] else [dir_junk]) buf (u64 (parse_int a)) count s).
  { intros n Hn Hne. assert (EF : until_slash (chars "fd/" ++ n) = chars "fd").
    { change (chars "fd/" ++ n) with (chars "fd" ++ slash :: n). apply until_slash_app. repeat constructor; discriminate. }
    unfold read_proc_file. rewrite proc_lv2, proc_lv3, level_proc, EF by (done || (by destruct n) || (rewrite ?EF; vm_compute; done)).
    rewrite lift_bind. cbv zeta. rewrite lift_bind.
    change (chars "fd/" ++ n) with (chars "fd" ++ slash :: n).
    destruct n as [|c n]; [done|]. rewrite length_app. cbn [length].
    replace (length (chars "fd") + S (S (length n)) - 1)%nat with (length (chars "fd") + S (length n))%nat by lia.
    rewrite take_app_add. cbn [take]. rewrite slashes_app, slashes_cons_slash, (slashes_plain (take _ _)) by (by apply plain_take).
    change (slashes (chars "fd")) with 0. cbn [Z.add Z.eqb Pos.eqb Pos.add Pos.succ andb].
    change (bool_decide (chars "fd" = chars "fd")) with true. cbv iota.
    rewrite child_short; [reflexivity|lia|]. rewrite slashes_proc, slashes_app, slashes_cons_slash, (slashes_plain (c :: n)) by done.
    change (slashes (chars "fd")) with 0. lia. }
  rewrite !R by assumption. reflexivity.
Qed.

(** Listing [/proc] runs into the first gap of the process table: where the
    first [n] slots hold processes, slot [n] is empty and the buffer has room,
    the call dereferences a null pointer and does not return. *)
Theorem list_proc_faults (s : sys disk) (n : nat) (buf count : Z) :
  Z.of_nat n < MAX_PROCESSES_COUNT -> 60 * (Z.of_nat n + 1) <= count ->
  (forall i, 0 <= i < Z.of_nat n -> exists p, proc (s_k s) i = Some p /\ p_state p <> PROCESS_NOT_EXIST) -> proc (s_k s) (Z.of_nat n) = None ->
  list_processes (Z.to_nat MAX_PROCESSES_COUNT) 0 buf count 0 s = Faulted.
Proof.
  intros Hn Hc HP HN.
  assert (G : forall j f i bw (st : sys disk), (j <= n)%nat -> i = Z.of_nat n - Z.of_nat j -> (j < f)%nat -> s_k st = s_k s -> bw + 60 * (Z.of_nat j + 1) <= count ->
    list_processes f i buf count bw st = Faulted).
  { induction j as [|j IH]; intros f i bw st Hj Hi Hf Hk Hbw; (destruct f as [|f]; [lia|]); cbn [list_processes];
      (assert (ET : target i st = Done (proc (s_k s) i, st))
        by (unfold target; rewrite <- Hk; etrans; [apply (on_kern_done _ st (proc (s_k st) i) (s_k st)); reflexivity|by rewrite set_s_k_same]));
      rewrite (bind_done _ _ _ _ _ ET).
    - replace i with (Z.of_nat n) by lia. rewrite HN. reflexivity.
    - destruct (HP i) as (p & Ep & Hp); [lia|]. rewrite Ep. rewrite (bind_done (deref (Some p)) _ st p st eq_refl). rewrite bool_decide_eq_false_2 by exact Hp.
      unfold sizeof_dirent_in_list. pose proof (length_int_text (s32 i)) as HT. destruct (Z.ltb_spec count (bw + 24 + 20)); [lia|].
      unfold upd_mem. rewrite modify_bind. apply IH; [lia|lia|lia|by destruct st as [[]]|lia]. }
  apply (G n); [lia|lia|unfold MAX_PROCESSES_COUNT in *; lia|reflexivity|lia].
Qed.
End Properties.

(** *** Witnesses *)
#[local] Existing Instance small_machine.
(** Two processes, the second started as [/bin/shell]. *)
Definition demo_cmd (t : path) (p : process_info) : process_info :=
  ProcessInfo (p_pid p) (p_state p) (p_main_thread_id p) (p_signal p) (p_threads_count p) (p_pgid p) (p_sid p)
    (p_fd_addr p) (p_parent_pid p) (p_heap_start_addr p) (p_heap_end_addr p) (p_sig_handlers p) (p_uid p) (p_gid p) (p_euid p)
    (p_egid p) (p_reuid p) (p_regid p) (p_resuid p) (p_resgid p) (p_lock p) (p_return_code p) (p_sm p) t (p_env p) (p_cwd p).
Definition demo_shell : process_info := demo_cmd (chars "/bin/shell") (new_process 1 PROCESS_RUNNING 1 1 0 0).
Definition demo_proc_sys : sys unit :=
  Sys (SmState (set_proc_slot 0 0x5000 (set_proc_slot 1 0x6000
        (set_proc_at 0x5000 (new_process 0 PROCESS_IDLE 0 0 0 0) (set_proc_at 0x6000 demo_shell boot_state)))) ∅ ∅) ∅ ∅ ∅ tt.
Lemma proc_status_text_witness :
  exists s', read_proc_file 9 [] 7 0 (chars "/proc/1/status") 0x9000 0 20 demo_proc_sys = Done (20, s') /\
    cells (s_mem s') 0x9000 20 = chars "Name: shel" ++ [10] ++ chars "State: Ru".
Proof.
  destruct (proc_status_text 9 [] 7 0 demo_proc_sys (chars "1") (chars "/bin") (chars "shell") 1 0x9000 0 20 demo_shell)
    as [_ H].
  - repeat constructor; discriminate.
  - vm_compute. reflexivity.
  - vm_compute. reflexivity.
  - vm_compute. reflexivity.
  - vm_compute. reflexivity.
  - repeat constructor; discriminate.
  - discriminate.
  - vm_compute. reflexivity.
  - destruct H as (s' & E & HC & _); [discriminate|]. exists s'. split; [exact E|]. transitivity (take 20 (status_text [] (take 4 (chars "shell")) 1 demo_shell)); [|vm_compute; reflexivity].
    exact HC.
Defined.
Lemma proc_fd_ignores_number_witness :
  read_proc_file 9 [] 7 0 (chars "/proc/1/fd/3") 0x9000 0 20 demo_proc_sys = read_proc_file 9 [] 7 0 (chars "/proc/1/fd/88") 0x9000 0 20 demo_proc_sys.
Proof.
  apply (proc_fd_ignores_number 9 [] 7 0 demo_proc_sys (chars "1") (chars "3") (chars "88") 0x9000 0 20);
    (discriminate || (repeat constructor; discriminate)).
Defined.
Lemma list_proc_faults_witness : list_processes (Z.to_nat MAX_PROCESSES_COUNT) 0 0x9000 200 0 demo_proc_sys = Faulted.
Proof.
  apply (list_proc_faults demo_proc_sys 2 0x9000 200).
  - vm_compute. reflexivity.
  - vm_compute. discriminate.
  - intros i Hi. assert (i = 0 \/ i = 1) as [-> | ->] by lia; eexists; (split; [vm_compute; reflexivity|discriminate]).
  - vm_compute. reflexivity.
Defined.
