(* ===== verification/Dispatch.v ===== *)
(** * Dispatch: the system call table, src/core/syscall/syscall.h and syscall4.h

    The table as the list of its designated initialisers, where a later one for
    the same number replaces an earlier one, the dispatch on the number, the
    calls of syscall4.h, and the calls of the other files that work on the
    shared state as handlers of the table.  What a call prints goes through the
    class [Console]. *)
From Stdlib Require Import String Ascii.
From S2P Require Import Prelude Bytes MemLib StrLib Time KState Blocks Paging Threads Sched Ipc User Vfs Descr ProcCalls.
Open Scope Z_scope.

(** ** Calls of syscall4.h *)
Definition FUTEX_CMD_MASK : Z := 0x3f.
Definition FUTEX_WAIT : Z := 0.
Definition FUTEX_WAKE : Z := 1.
Definition FUTEX_REQUEUE : Z := 3.
(** [None]: another command, for which the routine has no return statement. *)
Definition sys_futex (now : timeval) (user_word : Z -> Z) (uaddr op val : Z) (timeout : option timespec) (uaddr2 val3 : Z) : ST kstate (option Z) :=
  let cmd := Z.land op FUTEX_CMD_MASK in
  if cmd =? FUTEX_WAIT then
    tid ← gets get_current_thread_id; r ← pause_thread_futex now user_word tid uaddr val timeout; mret (Some r)
  else if cmd =? FUTEX_WAKE then r ← resume_thread_futex now uaddr; mret (Some r)
  else if cmd =? FUTEX_REQUEUE then r ← move_futex now user_word uaddr uaddr2 val3; mret (Some r)
  else mret None.
Definition sys_mount (alloc : bool) (src dst : path) (flags : Z) (v : vfs) : outcome (Z * vfs) := mount alloc src dst flags v.
Definition sys_get_main_tid (pid : Z) : ST kstate Z :=
  p ← (gets (fun k => proc k pid) ≫= deref); mret (p_main_thread_id p).
Definition RB_RESTART : Z := 0.
Definition RB_POWEROFF : Z := 1.
Definition RB_HALT : Z := 2.
(** Where the machine ends up, or the result of the call. *)
Inductive reboot_end := Restarted | PoweredOff | Halted | Returned (rc : Z).
(** The loop names the processes one by one, and ends the calling one each
    time. *)
Definition sys_reboot (code : Z) : ST kstate reboot_end :=
  _ ← for_m (Z.to_nat MAX_PROCESSES_COUNT) 0 (fun i =>
        p ← gets (fun k => proc k i);
        match p : option process_info with
        | Some q => if p_pid q =? 0 then mret tt else mark_process_as_ended
        | None => mark_process_as_ended
        end);
  mret (if code =? RB_RESTART then Restarted else if code =? RB_POWEROFF then PoweredOff
        else if code =? RB_HALT then Halted else Returned (-1)).

(** ** The table *)
(** The calls of syscall1.h to syscall4.h; the last two have no entry. *)
Inductive call :=
  C_read | C_write | C_open | C_close | C_stat | C_poll | C_seek | C_reboot | C_rename | C_mkdir | C_unlink | C_mount
| C_pipe | C_pipe2 | C_mmap | C_munmap | C_brk | C_time | C_gettimeofday | C_clock_gettime | C_clock_settime
| C_clock_getres | C_adjtimex | C_sleep | C_getrandom | C_rt_sigaction | C_sigprocmask | C_rt_sigreturn
| C_rt_sigqueueinfo | C_rt_tgsigqueueinfo | C_getpid | C_clone | C_fork | C_execve | C_exit | C_waitpid | C_kill
| C_setpgid | C_getppid | C_setsid | C_getpgid | C_getsid | C_exit_group | C_tgkill | C_futex | C_tcsetpgrp
| C_socket | C_connect | C_accept | C_sendto | C_recvfrom | C_shutdown | C_bind | C_listen | C_getsockname
| C_getpeername | C_setsockopt | C_getuid | C_getgid | C_setuid | C_setgid | C_geteuid | C_getegid | C_setreuid
| C_setregid | C_setresuid | C_setresgid | C_get_main_tid | C_echo | C_ioctl | C_dup2.
#[global] Instance call_eq_dec : EqDecision call.
Proof. solve_decision. Defined.
Definition initialisers : list (Z * call) :=
  [(0, C_read); (1, C_write); (2, C_open); (3, C_close); (4, C_stat); (7, C_poll); (8, C_seek); (10, C_reboot);
   (82, C_rename); (83, C_mkdir); (87, C_unlink); (231, C_mount);
   (22, C_pipe); (293, C_pipe2);
   (9, C_mmap); (11, C_munmap); (12, C_brk);
   (201, C_time); (96, C_gettimeofday); (228, C_clock_gettime); (227, C_clock_settime); (229, C_clock_getres);
   (124, C_adjtimex); (35, C_sleep);
   (318, C_getrandom);
   (13, C_rt_sigaction); (14, C_sigprocmask); (15, C_rt_sigreturn); (314, C_rt_sigqueueinfo); (315, C_rt_tgsigqueueinfo);
   (39, C_getpid); (56, C_clone); (57, C_fork); (59, C_execve); (60, C_exit); (61, C_waitpid); (62, C_kill);
   (109, C_setpgid); (110, C_getppid); (112, C_setsid); (121, C_getpgid); (124, C_getsid); (231, C_exit_group); (234, C_tgkill);
   (202, C_futex);
   (215, C_tcsetpgrp);
   (41, C_socket); (42, C_connect); (43, C_accept); (44, C_sendto); (45, C_recvfrom); (48, C_shutdown); (49, C_bind);
   (50, C_listen); (51, C_getsockname); (52, C_getpeername); (54, C_setsockopt);
   (102, C_getuid); (104, C_getgid); (105, C_setuid); (106, C_setgid); (107, C_geteuid); (108, C_getegid);
   (113, C_setreuid); (114, C_setregid); (117, C_setresuid); (119, C_setresgid);
   (776, C_get_main_tid); (800, C_echo)].
(** The last initialiser of a number counts. *)
Definition syscall_table (num : Z) : option call :=
  fold_left (fun found e => if fst e =? num then Some (snd e) else found) initialisers None.
Definition n_syscalls : Z := 1 + fold_left (fun n e => Z.max n (fst e)) initialisers 0.

(** ** Dispatch *)
Class Console (S : Type) := { c_echo : path -> ST S unit; c_echoi : Z -> ST S unit }.
(** The routine behind each entry, with its six arguments. *)
Definition handlers (S : Type) : Type := call -> list Z -> ST S Z.
Section Dispatch.
Context {S : Type} `{Console S} (h : handlers S).
Definition syscall_dispatch (num : Z) (args : list Z) : ST S Z :=
  match (if n_syscalls <=? num then None else syscall_table num) with
  | None => mret (neg64 1)
  | Some c =>
      _ ← c_echo (chars "sys "); _ ← c_echoi num; _ ← c_echo (chars ": ");
      if num =? 57 then _ ← c_echo [10]; h C_fork args
      else if num =? 56 then _ ← c_echo [10]; h C_clone args
      else r ← h c args; _ ← c_echoi r; _ ← c_echo [10]; mret r
  end.
End Dispatch.

(** ** Handlers *)
Section Handlers.
Context {M : Machine} {disk : Type} `{PartitionDriver disk} (junk : Z) (v : vfs) (fuel : nat) (regs : fork_regs).
(** The calls that work on other parts of the kernel, and what the register of
    the result holds after a call without one. *)
Context (other : handlers (sys disk)) (unset : Z).
Definition arg (args : list Z) (i : nat) : Z := nth i args 0.
(** Arguments are converted to the types of the routines. *)
Definition kernel_call : handlers (sys disk) := fun c args =>
  let a := arg args in
  match c with
  | C_close => sys_close (s32 (a 0%nat))
  | C_mmap => sys_mmap junk v fuel (a 0%nat) (a 1%nat) (a 2%nat) (a 3%nat) (a 4%nat) (a 5%nat)
  | C_munmap => sys_munmap (a 0%nat) (a 1%nat)
  | C_brk => sys_brk (a 0%nat)
  | C_rt_sigaction => sys_rt_sigaction (s32 (a 0%nat)) (a 1%nat) (a 2%nat) (a 3%nat)
  | C_sigprocmask => sigprocmask (s32 (a 0%nat)) (a 1%nat) (a 2%nat)
  | C_rt_sigreturn => on_kern sys_rt_sigreturn
  | C_rt_tgsigqueueinfo => on_kern (rt_tgsigqueueinfo fuel (s32 (a 0%nat)) (s32 (a 1%nat)) (s32 (a 2%nat)))
  | C_getpid => sys_getpid
  | C_clone => sys_clone regs (a 0%nat) (a 1%nat) (a 2%nat) (a 3%nat) (a 4%nat)
  | C_fork => sys_fork regs
  | C_waitpid => on_kern (sys_waitpid (a 0%nat))
  | C_kill => on_kern (sys_kill fuel (a 0%nat) (u8 (a 1%nat)))
  | C_setpgid => on_kern (sys_setpgid (a 0%nat) (a 1%nat))
  | C_getppid => sys_getppid
  | C_setsid => on_kern sys_setsid
  | C_getpgid => on_kern (sys_getpgid (a 0%nat))
  | C_getsid => on_kern (sys_getsid (a 0%nat))
  | C_tgkill => on_kern (sys_tgkill fuel (a 0%nat) (a 1%nat) (s32 (a 2%nat)))
  | C_getuid => on_kern sys_getuid
  | C_getgid => on_kern sys_getgid
  | C_setuid => on_kern (sys_setuid (a 0%nat))
  | C_setgid => on_kern (sys_setgid (a 0%nat))
  | C_geteuid => on_kern sys_geteuid
  | C_getegid => on_kern sys_getegid
  | C_setreuid => on_kern (sys_setreuid (a 0%nat))
  | C_setregid => on_kern (sys_setregid (a 0%nat))
  | C_setresuid => on_kern (sys_setresuid (a 0%nat))
  | C_setresgid => on_kern (sys_setresgid (a 0%nat))
  | C_get_main_tid => on_kern (sys_get_main_tid (a 0%nat))
  | C_exit => _ ← sys_exit (s32 (a 0%nat)); mret unset
  | C_exit_group => _ ← sys_exit_group (s32 (a 0%nat)); mret unset
  | _ => other c args
  end.
Definition kernel_calls : handlers (sys disk) := fun c args => r ← kernel_call c args; mret (u64 r).
End Handlers.

(** ** Properties *)
Lemma table_in (l : list (Z * call)) num c : forall found, fold_left (fun found e => if fst e =? num then Some (snd e) else found) l found = Some c ->
  found = Some c \/ In (num, c) l.
Proof.
  induction l as [|[n d] l IH]; intros found E; cbn [fold_left] in E; [by left|]. destruct (IH _ E) as [H|H]; [|by right; right].
  cbn [fst snd] in H. destruct (Z.eqb_spec n num) as [->|]; [|by left]. injection H as ->. right. by left.
Qed.
Lemma table_entry num c : syscall_table num = Some c -> In (num, c) initialisers.
Proof. intros E. destruct (table_in _ _ _ _ E) as [H|H]; [discriminate|exact H]. Qed.
(** Every entry but the two that are replaced is found under its number, and no
    call has two numbers. *)
Lemma table_consistent :
  forallb (fun e => bool_decide (syscall_table (fst e) = Some (snd e)) ||
    bool_decide (snd e = C_mount) || bool_decide (snd e = C_adjtimex)) initialisers = true.
Proof. vm_compute. reflexivity. Qed.
Lemma table_unique :
  forallb (fun e => forallb (fun e' => implb (bool_decide (snd e = snd e')) (fst e =? fst e')) initialisers) initialisers = true.
Proof. vm_compute. reflexivity. Qed.
Lemma one_number n1 n2 c : In (n1, c) initialisers -> In (n2, c) initialisers -> n1 = n2.
Proof.
  intros H1 H2. pose proof table_unique as U. rewrite forallb_forall in U. specialize (U _ H1). cbv beta in U.
  rewrite forallb_forall in U. specialize (U _ H2). cbn [fst snd] in U. rewrite bool_decide_eq_true_2 in U by done. cbn in U. lia.
Qed.

(** The calls no number reaches: [sys_ioctl] and [dup2] have no entry, and the
    entries of [sys_mount] and [sys_adjtimex] are replaced by later ones. *)
Definition unreachable (c : call) : Prop := c = C_mount \/ c = C_adjtimex \/ c = C_ioctl \/ c = C_dup2.
(** The system call table: a call is reached by some number, and then by exactly
    one, unless it is [sys_ioctl], [dup2], [sys_mount] or [sys_adjtimex], which
    no number reaches: the first two have no entry, and later entries for 231
    and 124 replace those of the others, so a program that mounts a file system
    ends its process group, and one that adjusts the clock asks for a session.
    Numbers outside the table get -1 and change nothing. *)
Theorem syscall_table_reach {S : Type} `{Console S} (h : handlers S) :
  (forall c, (exists num, syscall_table num = Some c) <-> ~ unreachable c) /\
  (forall c n1 n2, syscall_table n1 = Some c -> syscall_table n2 = Some c -> n1 = n2) /\
  syscall_table 231 = Some C_exit_group /\ syscall_table 124 = Some C_getsid /\
  (forall num args s, n_syscalls <= num \/ syscall_table num = None -> syscall_dispatch h num args s = Done (2 ^ 64 - 1, s)) /\
  (forall h' : handlers S, (forall c, ~ unreachable c -> h' c = h c) ->
     forall num args s, syscall_dispatch h' num args s = syscall_dispatch h num args s).
Proof.
  assert (HN : forall num c, syscall_table num = Some c -> ~ unreachable c).
  { intros num c E. pose proof (table_entry num c E) as HI. intros [-> | [-> | [-> | ->]]].
    - assert (num = 231) as -> by (apply (one_number _ _ C_mount HI); vm_compute; tauto). discriminate E.
    - assert (num = 124) as -> by (apply (one_number _ _ C_adjtimex HI); vm_compute; tauto). discriminate E.
    - vm_compute in HI. destruct_or! HI; try discriminate HI; contradiction.
    - vm_compute in HI. destruct_or! HI; try discriminate HI; contradiction. }
  split; [|split; [|split; [reflexivity|split; [reflexivity|split]]]].
  - intros c. split; [intros [num E]; exact (HN num c E)|]. intros HU.
    assert (HI : exists num, In (num, c) initialisers).
    { assert (existsb (fun e => bool_decide (snd e = c)) initialisers = true) as HX by (destruct c; try reflexivity; destruct HU; unfold unreachable; tauto).
      apply existsb_exists in HX as ([n d] & HI & Hd). apply bool_decide_eq_true in Hd as <-. by exists n. }
    destruct HI as [num HI]. exists num. pose proof table_consistent as T. rewrite forallb_forall in T. specialize (T _ HI). cbn [fst snd] in T.
    rewrite !orb_true_iff, !bool_decide_eq_true in T. destruct T as [[T|T]|T]; [exact T|destruct HU; unfold unreachable; tauto..].
  - intros c n1 n2 E1 E2. apply (one_number n1 n2 c); by apply table_entry.
  - intros num args s Hn. unfold syscall_dispatch. destruct (Z.leb_spec n_syscalls num); [reflexivity|].
    destruct Hn as [Hn | ->]; [lia|reflexivity].
  - intros h' Hh num args s. unfold syscall_dispatch. destruct (n_syscalls <=? num); [reflexivity|].
    destruct (syscall_table num) as [c|] eqn:E; [|reflexivity]. 
    rewrite (Hh c (HN num c E)), (Hh C_fork), (Hh C_clone) by (intros HU; unfold unreachable in HU; destruct_or! HU; discriminate). reflexivity.
Qed.
