(* ===== verification/NinjaLib.v ===== *)
(** * NinjaLib: the run-time library of Windows programs

    Models src/core/exe/ninja/ntdll/libs.h (memory, strings, system calls of a
    user program) and the part of ntdll_libs.h that repeats
    src/core/exe/common.h for user programs.  A user program sees its own
    memory; it enters the kernel with one instruction and jumps into libraries
    that are not part of the repository, both behind the class [UserMachine]. *)
From Stdlib Require Import String Ascii.
From S2P Require Import Prelude Bytes MemLib StrLib Wide.
Open Scope Z_scope.

(** ** The user program and its surroundings *)
(** The memory of the process and what the kernel keeps for it. *)
Record ustate (K : Type) := UState { u_mem : mem; u_kern : K }.
Arguments UState {K} _ _.
Arguments u_mem {K} _.
Arguments u_kern {K} _.
(** [sys_insn]: the syscall instruction with rax and the six argument
    registers; [call_code]: a call of loaded code; [gs_base]: the base of the
    gs segment, the thread block; [lit]: where a string literal lies. *)
Class UserMachine (K : Type) := {
  sys_insn : Z -> list Z -> ST (ustate K) Z;
  call_code : Z -> list Z -> ST (ustate K) unit;
  gs_base : Z;
  lit : string -> Z
}.

(** ** Memory and strings *)
Definition nt_memcpy (m : mem) (dst src n : Z) : mem := memcpy_loop (Z.to_nat n) m dst src 0.
Definition nt_memset (m : mem) (dst c n : Z) : mem := memset_loop (Z.to_nat n) m dst c.
Definition nt_memcmp (m : mem) (a b n : Z) : Z := memcmp_loop (Z.to_nat n) m a b 0.
Definition nt_erase_mem8 (m : mem) (map_addr len : Z) : mem := erase_mem8_loop (Z.to_nat len) m map_addr 0.
Definition nt_strconcat (fuel : nat) (m : mem) (dest s1 s2 : Z) : option mem :=
  '(m1, d1) ← copy_chars fuel m dest s1;
  '(m2, d2) ← copy_chars fuel m1 d1 s2;
  Some (st m2 d2 0).
Definition nt_div_ceil (a b : Z) : Z := if a mod b =? 0 then a / b else u64 (a / b + 1).
(** The memory and the number of bytes copied. *)
Definition mem_cpy (m : mem) (dest src n : Z) : mem * Z := (memcpy_loop (Z.to_nat n) m dest src 0, n).
(** The first zero word of [start .. stop], both ends included. *)
Definition nt_get_a_free_slot (m : mem) (map_ptr start stop : Z) : Z :=
  default (-1) (find_idx (Z.to_nat (stop - start + 1)) start (fun i => ld_le 8 m (map_ptr + 8 * i) =? 0)).
(** [n] zero bytes from [a] on. *)
Fixpoint zero_bytes (n : nat) (m : mem) (a : Z) : bool :=
  match n with
  | O => true
  | S n' => (ld m a =? 0) && zero_bytes n' m (a + 1)
  end.
Fixpoint nt_slot_loop (fuel : nat) (m : mem) (map_addr i stop unit_byte_size : Z) : option Z :=
  if u64 (i + unit_byte_size) <=? stop then
    match fuel with
    | O => None
    | S f =>
        if zero_bytes (Z.to_nat unit_byte_size) m (map_addr + i) then Some (i / unit_byte_size)
        else nt_slot_loop f m map_addr (u64 (i + unit_byte_size)) stop unit_byte_size
    end
  else Some (-1).
(** One more round than the units that fit; [None] only for units of size 0. *)
Definition nt_get_a_free_slot_with_size (m : mem) (map_addr start stop unit_byte_size : Z) : option Z :=
  nt_slot_loop (S (Z.to_nat ((stop - start) / unit_byte_size))) m map_addr start stop unit_byte_size.
Definition nt_erase_block (m : mem) (ptr : Z) : mem := erase_mem64_loop (Z.to_nat (4096 / 8)) m ptr 0.
Definition nt_strcmp (fuel : nat) (m : mem) (s1 s2 : Z) : option bool := strcmp_loop fuel m s1 s2.
Definition nt_strlen (fuel : nat) (m : mem) (s : Z) : option Z := p ← find_nul fuel m s; Some (p - s).
(** [c += 'a' - 'A'] for a capital. *)
Definition lower (c : Z) : Z := if (65 <=? c) && (c <=? 90) then c + 32 else c.
Fixpoint strcmp_i (fuel : nat) (m : mem) (s1 s2 : Z) : option bool :=
  match fuel with
  | O => None
  | S f =>
      if negb (ld m s1 =? 0) && negb (ld m s2 =? 0) then
        if negb (lower (ld m s1) =? lower (ld m s2)) then Some false else strcmp_i f m (s1 + 1) (s2 + 1)
      else l1 ← nt_strlen (S f) m s1; l2 ← nt_strlen (S f) m s2; Some (l1 =? l2)
  end.
Fixpoint strcmp_iw (fuel : nat) (m : mem) (s1 s2 : Z) : option bool :=
  match fuel with
  | O => None
  | S f =>
      if negb (ld_le 2 m s1 =? 0) && negb (ld_le 2 m s2 =? 0) then
        if negb (lower (ld_le 2 m s1) =? lower (ld_le 2 m s2)) then Some false else strcmp_iw f m (s1 + 2) (s2 + 2)
      else Some ((ld_le 2 m s1 =? 0) && (ld_le 2 m s2 =? 0))
  end.
Fixpoint strlen_w16_loop (fuel : nat) (m : mem) (inp i : Z) : option Z :=
  match fuel with
  | O => None
  | S f => if ld_le 2 m (inp + 2 * i) =? 0 then Some i else strlen_w16_loop f m inp (i + 1)
  end.
Definition strlen_w16 (fuel : nat) (m : mem) (inp : Z) : option Z := strlen_w16_loop fuel m inp 0.

(** ** Error numbers, errorno.h of the directory *)
Definition nt_ENOEXEC : Z := 8.
Definition STATUS_SUCCESS : Z := 0x00000000.
Definition STATUS_NOT_IMPLEMENTED : Z := 0xC0000002.
Definition STATUS_INVALID_PARAMETER : Z := 0xC000000D.
Definition STATUS_NO_MEMORY : Z := 0xC0000017.
Definition STATUS_ACCESS_VIOLATION : Z := 0xC0000005.
Definition STATUS_INVALID_HANDLE : Z := 0xC0000008.
Definition STATUS_OBJECT_NAME_NOT_FOUND : Z := 0xC0000034.
Definition STATUS_OBJECT_PATH_NOT_FOUND : Z := 0xC000003A.
Definition STATUS_OBJECT_NAME_COLLISION : Z := 0xC0000035.
Definition STATUS_BUFFER_TOO_SMALL : Z := 0xC0000023.
Definition STATUS_DISK_FULL : Z := 0xC000007F.
(** [switch] with constant results. *)
Fixpoint select (cases : list (Z * Z)) (other x : Z) : Z :=
  match cases with
  | [] => other
  | (c, r) :: l => if x =? c then r else select l other x
  end.
Definition ntstatus_to_winerror (st : Z) : Z :=
  select [(STATUS_SUCCESS, 0); (STATUS_ACCESS_VIOLATION, 5); (STATUS_INVALID_HANDLE, 6); (STATUS_OBJECT_NAME_NOT_FOUND, 2);
          (STATUS_OBJECT_PATH_NOT_FOUND, 3); (STATUS_OBJECT_NAME_COLLISION, 80); (STATUS_NO_MEMORY, 14); (STATUS_BUFFER_TOO_SMALL, 122);
          (STATUS_NOT_IMPLEMENTED, 120); (STATUS_INVALID_PARAMETER, 87); (STATUS_DISK_FULL, 112)] 31 st.
Definition ntstatus_to_errno (st : Z) : Z :=
  select [(STATUS_SUCCESS, 0); (STATUS_ACCESS_VIOLATION, 14); (STATUS_INVALID_HANDLE, 9); (STATUS_OBJECT_NAME_NOT_FOUND, 2);
          (STATUS_OBJECT_PATH_NOT_FOUND, 2); (STATUS_OBJECT_NAME_COLLISION, 17); (STATUS_NO_MEMORY, 12); (STATUS_BUFFER_TOO_SMALL, 34);
          (STATUS_NOT_IMPLEMENTED, 38); (STATUS_INVALID_PARAMETER, 22); (STATUS_DISK_FULL, 28)] 5 st.

(** ** System calls *)
Definition SYS_mmap : Z := 9.
Definition SYS_getpid : Z := 39.
Definition SYS_gettid : Z := 186.
Definition PROT_RWE : Z := Z.lor 1 (Z.lor 2 4).
Definition MAP_ANON : Z := 0x20.
Definition MAP_PRIV : Z := 0x02.
Definition MAP_FIXED_NOREPLACE : Z := 0x100000.
Section Calls.
Context {K : Type} `{UserMachine K} (fuel : nat).
Definition umem {A} (f : mem -> A) : ST (ustate K) A := gets (fun s => f (u_mem s)).
Definition set_umem (f : mem -> mem) : ST (ustate K) unit := modify (fun s => UState (f (u_mem s)) (u_kern s)).
(** A loop over memory that ends within the fuel. *)
Definition ends {A} (f : mem -> option A) : ST (ustate K) A := fun s => match f (u_mem s) with Some a => Done (a, s) | None => Stuck end.
Definition set_ends (f : mem -> option mem) : ST (ustate K) unit := m ← ends f; set_umem (fun _ => m).

Definition callsys (sysnum arg1 arg2 arg3 arg4 arg5 arg6 : Z) : ST (ustate K) Z :=
  r ← sys_insn sysnum [arg1; arg2; arg3; arg4; arg5; arg6]; mret (s64 r).
Definition nt_echo (str : Z) : ST (ustate K) Z :=
  len ← ends (fun m => nt_strlen fuel m str); callsys 1 1 str len 0 0 0.
(** [nt_echo] of a literal, whose length is fixed. *)
Definition nt_echo_lit (s : string) : ST (ustate K) Z := callsys 1 1 (lit s) (Z.of_nat (String.length s)) 0 0 0.
Definition nt_read_file (path buf offset len : Z) : ST (ustate K) Z :=
  fd ← callsys 257 (-100) path 0 0 0 0;
  if fd <? 0 then mret fd
  else
    ret ← callsys 17 fd buf len offset 0 0;
    _ ← callsys 3 fd 0 0 0 0 0;
    mret ret.
Definition nt_extend_cr3 (addr size : Z) : ST (ustate K) Z :=
  ret ← callsys SYS_mmap addr size PROT_RWE (Z.lor (Z.lor MAP_PRIV MAP_ANON) MAP_FIXED_NOREPLACE) (neg64 1) 0;
  mret (if ret <? 0 then 0 else ret).
Definition alloc1 (addr : Z) : ST (ustate K) Z :=
  ret ← callsys SYS_mmap addr 4096 PROT_RWE (Z.lor (Z.lor MAP_PRIV MAP_ANON) MAP_FIXED_NOREPLACE) (neg64 1) 0;
  mret (if ret <? 0 then 0 else ret).
Definition get_pid : ST (ustate K) Z := callsys SYS_getpid 0 0 0 0 0 0.
Definition get_tid : ST (ustate K) Z := callsys SYS_gettid 0 0 0 0 0 0.
Definition set_gsbase (addr : Z) : ST (ustate K) unit := _ ← callsys 158 0x1001 addr 0 0 0 0; mret tt.
(** A word of the thread block. *)
Definition gs_word (off : Z) : ST (ustate K) Z := umem (fun m => ld_le 8 m (gs_base + off)).
(** The digit of [x] at place [i] from the left. *)
Definition hex_digit (x i : Z) : Z :=
  let nibble := Z.land (Z.shiftr x ((15 - i) * 4)) 0xF in
  if nibble <? 10 then 48 + nibble else 97 + (nibble - 10).
(** [buf] is the address of the local array. *)
Definition nt_echoi (buf x : Z) : ST (ustate K) unit :=
  _ ← set_umem (fun m => st (store_bytes m buf (map (hex_digit x) (seqZ 0 16))) (buf + 16) 0);
  _ ← nt_echo buf; mret tt.
Fixpoint echow_loop (f : nat) (inp i : Z) : ST (ustate K) unit :=
  match f with
  | O => fun _ => Stuck
  | S f' =>
      c ← umem (fun m => ld m (inp + i));
      if c =? 0 then mret tt else _ ← callsys 1 1 (inp + i) 1 0 0 0; echow_loop f' inp (i + 2)
  end.
(** The literal is a line feed. *)
Definition newline : string := String (ascii_of_nat 10) EmptyString.
Definition echow (inp : Z) : ST (ustate K) unit :=
  _ ← echow_loop fuel inp 0; _ ← nt_echo_lit newline; mret tt.
End Calls.

(** ** Wide strings in the user program *)
(** As in the kernel, with one more round allowed. *)
Fixpoint nt_utf8_to_utf16_loop (fuel : nat) (m : mem) (inp in_len out out_len i o : Z) : option (mem * Z) :=
  if (i <=? in_len) && (o <=? out_len) then
    match fuel with
    | O => None
    | S f =>
        let '(cp, i') := utf8_decode (fun k => ld m (inp + k)) in_len i in
        let u := utf16_units cp in
        if out_len <? o + Z.of_nat (length u) then Some (m, o)
        else nt_utf8_to_utf16_loop f (put16 m (out + 2 * o) u) inp in_len out out_len i' (o + Z.of_nat (length u))
    end
  else Some (m, o).
Definition nt_utf8_to_utf16 (m : mem) (inp in_len out out_len : Z) : option (mem * Z) :=
  nt_utf8_to_utf16_loop (S (S (Z.to_nat in_len))) m inp in_len out out_len 0 0.
Definition nt_utf16_to_utf8 (m : mem) (inp in_len out out_len : Z) : option (mem * Z) :=
  utf16_to_utf8_loop (S (S (Z.to_nat in_len))) m inp in_len out out_len 0 0.
Section Counted.
Context (fuel : nat).
(** [utf8_to_ustr32] ... [utf8_to_ustr1024]. *)
Definition nt_utf8_to_ustr (n : Z) (m : mem) (utf8_str ustr : Z) : option mem :=
  len ← nt_strlen fuel m utf8_str;
  '(m1, _) ← nt_utf8_to_utf16 m utf8_str len (ustr + ustr_data) n;
  Some (st_le 8 (st_le 2 (st_le 2 m1 (ustr + us_length) (len * 2)) (ustr + us_maximum) (n * 2)) (ustr + us_buffer) (ustr + ustr_data)).
Definition nt_ustr_to_utf8 (m : mem) (ustr utf8_str max_utf8_len : Z) : option mem :=
  let len := ld_le 2 m (ustr + us_length) in
  let buf := ld_le 8 m (ustr + us_buffer) in
  '(m0, utf8_len) ← nt_utf16_to_utf8 m buf len 0 0;
  if (utf8_len =? 0) || (max_utf8_len <=? utf8_len) then Some m0
  else
    '(m1, _) ← nt_utf16_to_utf8 m0 buf len utf8_str max_utf8_len;
    Some (st m1 (utf8_str + utf8_len) 0).
Definition nt_extract_file_name_from_path_utf16 (file_name : Z) (m : mem) (path file_name_u : Z) : option mem :=
  sl ← last_slash fuel m path 0;
  l ← nt_strlen fuel m path;
  nt_utf8_to_ustr 256 (nt_memcpy m file_name (if sl =? 0 then path else sl + 1) (l + 1)) file_name file_name_u.
Definition nt_ustrlen (m : mem) (ustr : Z) : Z :=
  if (ustr =? 0) || (ld_le 8 m (ustr + us_buffer) =? 0) then 0 else ld_le 2 m (ustr + us_length) / 2.
(** Here the buffer is an array of units. *)
Definition nt_ustrconcat (m : mem) (dest src1 src2 : Z) : mem :=
  if (dest =? 0) || (src1 =? 0) || (src2 =? 0) then m
  else
    let l1 := ld_le 2 m (src1 + us_length) in
    let l2 := ld_le 2 m (src2 + us_length) in
    if ld_le 2 m (dest + us_maximum) <? l1 + l2 then m
    else
      let m1 := nt_memcpy m (ld_le 8 m (dest + us_buffer)) (ld_le 8 m (src1 + us_buffer)) l1 in
      let m2 := nt_memcpy m1 (ld_le 8 m1 (dest + us_buffer) + 2 * (ld_le 2 m1 (src1 + us_length) / 2))
                  (ld_le 8 m1 (src2 + us_buffer)) (ld_le 2 m1 (src2 + us_length)) in
      st_le 2 m2 (dest + us_length) (l1 + l2).
Definition nt_ustrcpy_from_str (m : mem) (dst src : Z) : option mem :=
  l ← nt_strlen fuel m src;
  '(m1, n) ← nt_utf8_to_utf16 m src l (ld_le 8 m (dst + us_buffer)) (ld_le 2 m (dst + us_maximum) / 2);
  Some (st_le 2 m1 (dst + us_length) (n * 2)).

(** ** The lists of modules *)
Definition nt_add_item_to_bottom_of_linked_list (m : mem) (list item : Z) : mem :=
  if ld_le 8 m (list + le_next) =? 0 then
    st_le 8 (st_le 8 (st_le 8 (st_le 8 m (list + le_next) item) (list + le_prev) item) (item + le_next) list) (item + le_prev) list
  else
    let last := ld_le 8 m (list + le_prev) in
    st_le 8 (st_le 8 (st_le 8 (st_le 8 m (last + le_next) item) (item + le_prev) last) (item + le_next) list) (list + le_prev) item.
Definition nt_add_dll_to_bottom_of_linked_list (m : mem) (new_dll_id loaded_dlls_list loaded_dll : Z) : mem :=
  let d := loaded_dll + sizeof_loaded_dll * new_dll_id in
  let m1 := nt_add_item_to_bottom_of_linked_list m (loaded_dlls_list + ll_load) d in
  let m2 := nt_add_item_to_bottom_of_linked_list m1 (loaded_dlls_list + ll_memory) (d + 16) in
  nt_add_item_to_bottom_of_linked_list m2 (loaded_dlls_list + ll_init) (d + 32).
Definition nt_setup_base_name_full_path (path_u name file_name : Z) (m : mem) (path d : Z) : option mem :=
  l ← nt_strlen fuel m path;
  let m1 := st_le 8 (st_le 2 (st_le 2 m (d + ld_full_name_u) l) (d + ld_full_name_u + us_maximum) 256)
              (d + ld_full_name_u + us_buffer) (d + ld_full_name) in
  m2 ← nt_utf8_to_ustr 256 m1 path path_u;
  let m3 := nt_memcpy m2 (d + ld_full_name) (path_u + ustr_data) (ld_le 2 m2 (path_u + us_length) + 2) in
  m4 ← nt_extract_file_name_from_path_utf16 file_name m3 path name;
  let nl := ld_le 2 m4 (name + us_length) in
  let m5 := nt_memcpy m4 (d + ld_name) (name + ustr_data) (nl + 2) in
  Some (st_le 8 (st_le 2 (st_le 2 m5 (d + ld_base_name_u) nl) (d + ld_base_name_u + us_maximum) 32)
          (d + ld_base_name_u + us_buffer) (d + ld_name)).
Definition nt_add_loaded_dll (path_u name file_name : Z) (m : mem) (dll_id path loaded_dlls_list loaded_dll image_base_addr : Z) : option mem :=
  let d := loaded_dll + sizeof_loaded_dll * dll_id in
  m1 ← nt_setup_base_name_full_path path_u name file_name (st_le 8 m (d + ld_dll_base) image_base_addr) path d;
  Some (nt_add_dll_to_bottom_of_linked_list m1 dll_id loaded_dlls_list loaded_dll).
End Counted.

(** ** The copies agree with the kernel *)
Section Same.
Lemma utf8_decode_next get n i : i < snd (utf8_decode get n i).
Proof. unfold utf8_decode. cbv zeta. repeat case_match; cbn [snd]; lia. Qed.
(** The additional round never writes. *)
Lemma nt_utf8_loop_same fuel : forall m inp in_len out out_len i o,
  in_len - i + 1 < Z.of_nat fuel ->
  nt_utf8_to_utf16_loop fuel m inp in_len out out_len i o = utf8_to_utf16_loop fuel m inp in_len out out_len i o.
Proof.
  induction fuel as [|f IH]; intros m inp in_len out out_len i o Hf; cbn [nt_utf8_to_utf16_loop utf8_to_utf16_loop].
  - destruct (Z.leb_spec i in_len); [lia|done].
  - destruct (Z.leb_spec i in_len); [|done]. cbn [andb].
    pose proof (utf8_decode_next (fun k => ld m (inp + k)) in_len i) as Hi.
    destruct (utf8_decode _ in_len i) as [cp i'] eqn:E. cbn [snd] in Hi. cbv zeta.
    pose proof (utf16_units_pos cp). destruct (Z.leb_spec o out_len), (Z.ltb_spec o out_len); try lia; try done.
    + case_match; [done|]. apply IH. lia.
    + destruct (Z.ltb_spec out_len (o + Z.of_nat (length (utf16_units cp)))); [done|lia].
Qed.
Lemma nt_utf8_same m inp in_len out out_len : nt_utf8_to_utf16 m inp in_len out out_len = utf8_to_utf16 m inp in_len out out_len.
Proof. apply nt_utf8_loop_same. lia. Qed.
Lemma nt_ustr_same fuel n m s u : nt_utf8_to_ustr fuel n m s u = utf8_to_ustr fuel n m s u.
Proof. unfold nt_utf8_to_ustr, utf8_to_ustr. change (nt_strlen fuel m s) with (strlen fuel m s). destruct (strlen fuel m s); [|done]. cbn [mbind option_bind]. by rewrite nt_utf8_same. Qed.
Lemma nt_setup_same fuel pu nm fnm m path d :
  nt_setup_base_name_full_path fuel pu nm fnm m path d = setup_base_name_full_path fuel pu nm fnm m path d.
Proof.
  unfold nt_setup_base_name_full_path, setup_base_name_full_path. change (nt_strlen fuel m path) with (strlen fuel m path).
  destruct (strlen fuel m path); [|done]. cbn [mbind option_bind]. rewrite nt_ustr_same. destruct (utf8_to_ustr _ _ _ _ _) as [m2|]; [|done].
  cbn [mbind option_bind]. unfold nt_extract_file_name_from_path_utf16, extract_file_name_from_path_utf16, nt_memcpy, memcpy.
  set (m3 := memcpy_loop _ m2 _ _ _). change (nt_strlen fuel m3 path) with (strlen fuel m3 path).
  destruct (last_slash fuel m3 path 0); [|done]. cbn [mbind option_bind]. destruct (strlen fuel m3 path); [|done]. cbn [mbind option_bind].
  by rewrite nt_ustr_same.
Qed.
(** Comparison without regard to case: equality of the strings in small letters. *)
Lemma strcmp_i_cstr fuel : forall m p q a b,
  cstr m p a -> cstr m q b -> slen a < Z.of_nat fuel -> slen b < Z.of_nat fuel ->
  strcmp_i fuel m p q = Some (bool_decide (map lower a = map lower b)).
Proof.
  induction fuel as [|f IH]; intros m p q a b Ha Hb Hfa Hfb; [pose proof (slen_nonneg a); lia|].
  assert (HN : forall r s, cstr m r s -> slen s < Z.of_nat (S f) -> nt_strlen (S f) m r = Some (slen s)).
  { intros r s Hs Hl. unfold nt_strlen. rewrite (find_nul_cstr _ _ _ s Hs Hl). cbn. f_equal. lia. }
  cbn [strcmp_i]. destruct a as [|c a], b as [|d b].
  1-3: rewrite (HN p _ Ha Hfa), (HN q _ Hb Hfb); cbn [cstr] in Ha, Hb; first [rewrite Ha|rewrite Hb, andb_false_r]; cbn; f_equal; unfold slen; cbn; done.
  - cbn [cstr] in Ha, Hb. destruct Ha as (Hc & -> & Ha), Hb as (Hd & -> & Hb). rewrite slen_cons in *.
    rewrite (proj2 (Z.eqb_neq c 0) Hc), (proj2 (Z.eqb_neq d 0) Hd). cbn [negb andb map].
    destruct (Z.eqb_spec (lower c) (lower d)) as [E|Hne]; cbn [negb].
    + rewrite (IH m (p + 1) (q + 1) a b Ha Hb) by lia. f_equal. apply bool_decide_ext. rewrite E. split; congruence.
    + f_equal. symmetry. apply bool_decide_false. congruence.
Qed.
(** Wide strings end with a zero unit. *)
Definition wstr (m : mem) (p : Z) (s : list Z) : Prop := at16 m p (s ++ [0]) /\ Forall (fun w => w <> 0) s.
Lemma wstr_cons m p w s : wstr m p (w :: s) <-> w <> 0 /\ ld_le 2 m p = w /\ wstr m (p + 2) s.
Proof. unfold wstr. cbn [app at16]. rewrite List.Forall_cons_iff. tauto. Qed.
Lemma wstr_nil m p : wstr m p [] <-> ld_le 2 m p = 0.
Proof. unfold wstr. cbn [app at16]. pose proof (Forall_nil_2 (fun w : Z => w <> 0)). tauto. Qed.
Lemma strcmp_iw_wstr fuel : forall m p q a b,
  wstr m p a -> wstr m q b -> slen a < Z.of_nat fuel -> strcmp_iw fuel m p q = Some (bool_decide (map lower a = map lower b)).
Proof.
  induction fuel as [|f IH]; intros m p q a b Ha Hb Hf; [pose proof (slen_nonneg a); lia|].
  cbn [strcmp_iw]. destruct a as [|c a], b as [|d b]; rewrite ?wstr_cons, ?wstr_nil in *.
  - rewrite Ha, Hb. done.
  - destruct Hb as (Hd & -> & _). rewrite Ha. cbn [Z.eqb negb andb map]. by rewrite (proj2 (Z.eqb_neq d 0) Hd).
  - destruct Ha as (Hc & -> & _). rewrite Hb. by rewrite (proj2 (Z.eqb_neq c 0) Hc).
  - destruct Ha as (Hc & -> & Ha), Hb as (Hd & -> & Hb). rewrite slen_cons in *.
    rewrite (proj2 (Z.eqb_neq c 0) Hc), (proj2 (Z.eqb_neq d 0) Hd). cbn [negb andb map].
    destruct (Z.eqb_spec (lower c) (lower d)) as [E|Hne]; cbn [negb].
    + rewrite (IH m (p + 2) (q + 2) a b Ha Hb) by lia. f_equal. apply bool_decide_ext. rewrite E. split; congruence.
    + f_equal. symmetry. apply bool_decide_false. congruence.
Qed.
Lemma strlen_w16_wstr fuel m p s : wstr m p s -> slen s < Z.of_nat fuel -> strlen_w16 fuel m p = Some (slen s).
Proof.
  unfold strlen_w16. enough (H : forall i, wstr m (p + 2 * i) s -> slen s < Z.of_nat fuel -> strlen_w16_loop fuel m p i = Some (i + slen s)).
  { intros Hs. apply (H 0). by rewrite Z.mul_0_r, Z.add_0_r. }
  revert s. induction fuel as [|f IH]; intros s i Hs Hf; [pose proof (slen_nonneg s); lia|]. cbn [strlen_w16_loop].
  destruct s as [|w s]; rewrite ?wstr_cons, ?wstr_nil in Hs.
  - rewrite Hs. cbn. f_equal. unfold slen; cbn; lia.
  - destruct Hs as (Hw & -> & Hs). rewrite (proj2 (Z.eqb_neq w 0) Hw). rewrite slen_cons in *.
    replace (p + 2 * i + 2) with (p + 2 * (i + 1)) in Hs by lia. rewrite (IH s (i + 1) Hs) by lia. f_equal. lia.
Qed.
(** A string of ASCII characters and the buffer that just holds it. *)
Lemma ascii_loop s : forall fuel m p i q out o n,
  StrLib.cstr m (p + i) s -> Forall (fun c => 0 < c < 128) s -> o + slen s + 1 = n -> i + slen s + 1 = q -> 0 <= o -> (length s < fuel)%nat ->
  (p + i + slen s < out + 2 * o \/ out + 2 * n <= p + i) ->
  exists m', utf8_to_utf16_loop fuel m p q out n i o = Some (m', n) /\ wstr m' (out + 2 * o) s /\
    (forall x, x < out + 2 * o \/ out + 2 * n <= x -> ld m' x = ld m x).
Proof.
  induction s as [|c s IH]; intros fuel m p i q out o n Hc Hs Hn Hq Ho Hf Hd; (destruct fuel as [|f]; [cbn in Hf; lia|]); cbn [utf8_to_utf16_loop].
  - unfold slen in *. cbn [length Z.of_nat cstr] in *. destruct (Z.leb_spec i q), (Z.ltb_spec o n); try lia. cbn [andb].
    unfold utf8_decode. rewrite Hc. cbn [Z.ltb Z.compare]. change (utf16_units 0) with [0]. cbn [length]. change (Z.of_nat 1) with 1.
    destruct (Z.ltb_spec n (o + 1)); [lia|]. exists (put16 m (out + 2 * o) [0]). split; [|split].
    + destruct f; cbn [utf8_to_utf16_loop]; (destruct (Z.ltb_spec (o + 1) n); [lia|]); rewrite andb_false_r; do 2 f_equal; lia.
    + split; [|constructor]. apply put16_at. repeat constructor; lia.
    + intros x Hx. apply put16_frame. cbn. lia.
  - rewrite slen_cons in *. pose proof (slen_nonneg s). cbn [cstr length] in *. destruct Hc as (Hc0 & Ec & Hc). apply Forall_cons_iff in Hs as [Hr Hs].
    destruct (Z.leb_spec i q), (Z.ltb_spec o n); try lia. cbn [andb]. unfold utf8_decode. rewrite Ec. destruct (Z.ltb_spec c 128); [|lia].
    destruct (utf8_small c ltac:(lia)) as [_ ->]. cbn [length]. change (Z.of_nat 1) with 1. destruct (Z.ltb_spec n (o + 1)); [lia|].
    set (m1 := put16 m (out + 2 * o) [c]).
    assert (F : forall x, x < out + 2 * o \/ out + 2 * o + 2 <= x -> ld m1 x = ld m x) by (intros; apply put16_frame; cbn; lia).
    destruct (IH f m1 p (i + 1) q out (o + 1) n) as (m' & E & HW & HF); try lia; try assumption.
    { replace (p + (i + 1)) with (p + i + 1) by lia. eapply cstr_ext; [|exact Hc]. intros x Hx. apply F. lia. }
    exists m'. split; [exact E|]. split.
    + apply wstr_cons. split; [lia|]. replace (out + 2 * o + 2) with (out + 2 * (o + 1)) by lia. split; [|exact HW].
      etrans; [|apply (put16_at [c] m (out + 2 * o)); repeat constructor; lia]. apply ld_le_frame. intros x Hx. apply HF. lia.
    + intros x Hx. rewrite HF by lia. apply F. lia.
Qed.
Lemma ascii_to_utf16 m p s out : StrLib.cstr m p s -> Forall (fun c => 0 < c < 128) s ->
  (p + slen s < out \/ out + 2 * (slen s + 1) <= p) ->
  exists m', nt_utf8_to_utf16 m p (slen s + 1) out (slen s + 1) = Some (m', slen s + 1) /\ wstr m' out s /\
    (forall x, x < out \/ out + 2 * (slen s + 1) <= x -> ld m' x = ld m x).
Proof.
  intros Hc Hs Hd. rewrite nt_utf8_same. destruct (ascii_loop s (S (S (Z.to_nat (slen s + 1)))) m p 0 (slen s + 1) out 0 (slen s + 1))
    as (m' & E & HW & HF); try lia; try assumption; [by rewrite Z.add_0_r|unfold slen; lia|].
  rewrite Z.mul_0_r, Z.add_0_r in HW, HF. by exists m'.
Qed.
(** A free slot of a table in memory is the first all-zero one. *)
Lemma zero_bytes_true n : forall m a, zero_bytes n m a = true <-> forall x, a <= x < a + Z.of_nat n -> ld m x = 0.
Proof.
  induction n as [|n IH]; intros m a; cbn [zero_bytes]; [split; [intros _ x ?; lia|done]|].
  rewrite andb_true_iff, Z.eqb_eq, IH. split.
  - intros [E H] x Hx. destruct (Z.eq_dec x a) as [->|]; [done|]. apply H. lia.
  - intros H. split; [apply H; lia|]. intros x Hx. apply H. lia.
Qed.
Lemma nt_slot_loop_find (k : nat) : forall fuel m a i u,
  0 < u -> 0 <= i -> (i + Z.of_nat k) * u < 2 ^ 64 - u -> (k < fuel)%nat ->
  nt_slot_loop fuel m a (i * u) ((i + Z.of_nat k) * u) u =
  Some (default (-1) (find_idx k i (fun j => zero_bytes (Z.to_nat u) m (a + j * u)))).
Proof.
  induction k as [|k IH]; intros fuel m a i u Hu Hi Hb Hf.
  - destruct fuel as [|f]; [lia|]. cbn [nt_slot_loop find_idx]. rewrite Z.add_0_r in *. rewrite u64_id by nia.
    destruct (Z.leb_spec (i * u + u) (i * u)); [lia|done].
  - destruct fuel as [|f]; [lia|]. cbn [nt_slot_loop find_idx]. rewrite u64_id by nia.
    destruct (Z.leb_spec (i * u + u) ((i + Z.of_nat (S k)) * u)); [|nia].
    destruct (zero_bytes _ m (a + i * u)); [cbn; f_equal; apply Z.div_mul; lia|].
    replace (i * u + u) with ((i + 1) * u) by lia. replace (i + Z.of_nat (S k)) with (i + 1 + Z.of_nat k) by lia.
    apply IH; lia.
Qed.
Lemma nt_free_slot m a n u : 0 < u -> 0 <= n -> n * u < 2 ^ 64 - u ->
  nt_get_a_free_slot_with_size m a 0 (n * u) u =
  Some (default (-1) (find_idx (Z.to_nat n) 0 (fun j => zero_bytes (Z.to_nat u) m (a + j * u)))).
Proof.
  intros Hu Hn Hb. unfold nt_get_a_free_slot_with_size. rewrite Z.sub_0_r, Z.div_mul by lia.
  pose proof (nt_slot_loop_find (Z.to_nat n) (S (Z.to_nat n)) m a 0 u Hu ltac:(lia)) as H.
  rewrite Z2Nat.id in H by lia. cbn [Z.mul Z.add] in H. apply H; lia.
Qed.
End Same.

(** The string conversion and the registration of a module that a user
    program has agree with the ones of the kernel on every input: the further
    round its loop allows when the output is full writes nothing. *)
Theorem user_library_as_kernel (fuel : nat) (m : mem) (inp in_len out out_len path_u name file_name dll_id path list dlls base : Z) :
  nt_utf8_to_utf16 m inp in_len out out_len = utf8_to_utf16 m inp in_len out out_len /\
  nt_add_loaded_dll fuel path_u name file_name m dll_id path list dlls base =
    add_loaded_dll fuel path_u name file_name m dll_id path list dlls base.
Proof.
  split; [apply nt_utf8_same|]. unfold nt_add_loaded_dll, add_loaded_dll. cbv zeta. by rewrite nt_setup_same.
Qed.
