(* ===== verification/Seh.v ===== *)
(** * Seh: exceptions of Windows programs, src/core/exe/ninja/ntdll/seh.h

    The table of loaded images, the search for the image an exception comes
    from and the undoing of a prologue.  The trap frame, the tables and the
    unwind data are in the memory of the program; the registers that the code
    collects are the record [rewind_state]. *)
From S2P Require Import Prelude Bytes MemLib StrLib Wide NinjaLib.
Open Scope Z_scope.

(** ** Data *)
(** [struct pdata_entry] and the table of 256 of them. *)
Definition pd_rip_start : Z := 0.
Definition pd_rip_end : Z := 8.
Definition pd_pdata_start : Z := 16.
Definition sizeof_pdata_entry : Z := 24.
Definition pdata_count : Z := 256.
(** [struct runtime_function]. *)
Definition rf_BeginAddress : Z := 0.
Definition rf_EndAddress : Z := 4.
Definition rf_UnwindData : Z := 8.
(** [struct unwind_code]: two bytes, the operation in the low half of the second. *)
Record unwind_code := UnwindCode { CodeOffset : Z; UnwindOp : Z; OpInfo : Z }.
Definition unwind_code_at (m : mem) (a : Z) : unwind_code :=
  UnwindCode (ld m a) (Z.land (ld m (a + 1)) 0xF) (Z.shiftr (ld m (a + 1)) 4).
(** [struct unwind_info]: bit fields of the first byte, then the codes. *)
Definition ui_Version (m : mem) (a : Z) : Z := Z.land (ld m a) 0x7.
Definition ui_Flags (m : mem) (a : Z) : Z := Z.shiftr (ld m a) 3.
Definition ui_CountOfCodes (m : mem) (a : Z) : Z := ld m (a + 2).
Definition ui_UnwindCode : Z := 4.
(** [struct trap_frame]. *)
Definition tf_r15 : Z := 0.
Definition tf_r14 : Z := 8.
Definition tf_r13 : Z := 16.
Definition tf_r12 : Z := 24.
Definition tf_rdi : Z := 64.
Definition tf_rsi : Z := 72.
Definition tf_rbx : Z := 88.
Definition tf_rip : Z := 120.
Definition tf_rsp : Z := 144.
Record rewind_state := RewindState {
  rs_rip : Z; rs_rsp : Z; rs_rbx : Z; rs_rdi : Z; rs_rsi : Z; rs_r12 : Z; rs_r13 : Z; rs_r14 : Z; rs_r15 : Z
}.

(** ** The table of images *)
Section Table.
Context (pdata_table : Z).
Definition add_pdata_entry_when_load_image (m : mem) (exception_directory image_base image_size : Z) : option (mem * Z) :=
  free_slot ← nt_get_a_free_slot_with_size m pdata_table 0 (pdata_count * sizeof_pdata_entry) sizeof_pdata_entry;
  if free_slot =? -1 then Some (m, -1)
  else
    let e := pdata_table + sizeof_pdata_entry * free_slot in
    let m1 := st_le 8 m (e + pd_rip_start) image_base in
    let m2 := st_le 8 m1 (e + pd_rip_end) (u64 (image_base + image_size)) in
    Some (st_le 8 m2 (e + pd_pdata_start) (u64 (ld_le 4 m2 exception_directory + image_base)), 0).
(** The address of the first entry that covers [rip]. *)
Definition covers (m : mem) (rip i : Z) : bool :=
  let e := pdata_table + sizeof_pdata_entry * i in
  (ld_le 8 m (e + pd_rip_start) <=? rip) && (rip <? ld_le 8 m (e + pd_rip_end)).
Definition find_pdata (m : mem) (rip : Z) : option Z :=
  i ← find_idx (Z.to_nat pdata_count) 0 (covers m rip); Some (pdata_table + sizeof_pdata_entry * i).

(** ** Undoing a prologue *)
(** The register a number stands for; the code has no entry for rbp. *)
Definition set_reg (n v : Z) (s : rewind_state) : rewind_state :=
  let '(RewindState rip rsp rbx rdi rsi r12 r13 r14 r15) := s in
  if n =? 3 then RewindState rip rsp v rdi rsi r12 r13 r14 r15
  else if n =? 5 then RewindState rip rsp rbx rdi v r12 r13 r14 r15
  else if n =? 6 then RewindState rip rsp rbx v rsi r12 r13 r14 r15
  else if n =? 12 then RewindState rip rsp rbx rdi rsi v r13 r14 r15
  else if n =? 13 then RewindState rip rsp rbx rdi rsi r12 v r14 r15
  else if n =? 14 then RewindState rip rsp rbx rdi rsi r12 r13 v r15
  else if n =? 15 then RewindState rip rsp rbx rdi rsi r12 r13 r14 v
  else s.
Definition set_rs_rip (v : Z) (s : rewind_state) : rewind_state :=
  let '(RewindState _ rsp rbx rdi rsi r12 r13 r14 r15) := s in RewindState v rsp rbx rdi rsi r12 r13 r14 r15.
Definition add_rsp (n : Z) (s : rewind_state) : rewind_state :=
  let '(RewindState rip rsp rbx rdi rsi r12 r13 r14 r15) := s in RewindState rip (u64 (rsp + n)) rbx rdi rsi r12 r13 r14 r15.
(** [code] is the address of the code; operands follow it. *)
Definition do_rewind_once_step (m : mem) (code : Z) (s : rewind_state) : rewind_state :=
  let c := unwind_code_at m code in
  let val := ld_le 8 m (rs_rsp s) in
  if UnwindOp c =? 0 then add_rsp 8 (set_reg (OpInfo c) val s)
  else if UnwindOp c =? 1 then add_rsp (ld_le 2 m (code + 2) * 8) s
  else if UnwindOp c =? 2 then add_rsp (OpInfo c * 8 + 8) s
  else if UnwindOp c =? 3 then add_rsp (if OpInfo c =? 0 then ld_le 2 m (code + 2) * 8 else ld_le 4 m (code + 2)) s
  else if UnwindOp c =? 4 then add_rsp 8 (set_reg (OpInfo c) val s)
  else if UnwindOp c =? 5 then add_rsp 8 (set_rs_rip val (set_reg (OpInfo c) val s))
  else if UnwindOp c =? 8 then add_rsp 16 s
  else if UnwindOp c =? 9 then add_rsp 16 s
  else if UnwindOp c =? 10 then add_rsp (if negb (Z.land (OpInfo c) 1 =? 0) then 8 * 9 else 8 * 7) s
  else s.
(** The code at [n - 1] first, the one at 0 last. *)
Fixpoint rewind_codes (n : nat) (m : mem) (codes rip_rva : Z) (s : rewind_state) : rewind_state :=
  match n with
  | O => s
  | S i =>
      let code := codes + 2 * Z.of_nat i in
      rewind_codes i m codes rip_rva (if rip_rva <? CodeOffset (unwind_code_at m code) then s else do_rewind_once_step m code s)
  end.
(** The function in use after the label [restart_unwind]; the unwind data stay
    the same in every round. *)
Fixpoint restart_unwind (fuel : nat) (m : mem) (unwind_info run_func : Z) : option Z :=
  if negb (Z.land (ui_Flags m unwind_info) 0x4 =? 0) then
    match fuel with
    | O => None
    | S f => restart_unwind f m unwind_info (unwind_info + ui_UnwindCode + 2 * ui_CountOfCodes m unwind_info)
    end
  else Some run_func.
(** The registers the trap frame holds. *)
Definition frame_state (m : mem) (tf : Z) : rewind_state :=
  let w o := ld_le 8 m (tf + o) in
  RewindState (w tf_rip) (w tf_rsp) (w tf_rbx) (w tf_rdi) (w tf_rsi) (w tf_r12) (w tf_r13) (w tf_r14) (w tf_r15).
(** [Some None]: the call returns; [Some (Some s)]: [jump_with_state] continues
    at the instruction and the stack of [s]; [None]: still in the loop. *)
Definition do_rewind (fuel : nat) (m : mem) (tf run_func image_base : Z) : option (option rewind_state) :=
  let unwind_info := ld_le 4 m (run_func + rf_UnwindData) + image_base in
  let rip_rva := u32 (ld_le 8 m (tf + tf_rip) - image_base - ld_le 4 m (run_func + rf_BeginAddress)) in
  if negb (ui_Version m unwind_info =? 1) then Some None
  else
    _ ← restart_unwind fuel m unwind_info run_func;
    Some (Some (rewind_codes (Z.to_nat (ui_CountOfCodes m unwind_info)) m (unwind_info + ui_UnwindCode) rip_rva (frame_state m tf))).
Definition KiDispatchException (fuel : nat) (m : mem) (tf : Z) : option (option rewind_state) :=
  match find_pdata m (ld_le 8 m (tf + tf_rip)) with
  | None => Some None
  | Some e => do_rewind fuel m tf (ld_le 8 m (e + pd_pdata_start)) (ld_le 8 m (e + pd_rip_start))
  end.
End Table.

(** ** Prologues *)
(** What a prologue does: a push of a register or a reservation of [8 k + 8]
    bytes; the machine that runs it and the codes that describe it. *)
Inductive prolog_op := Push (r : Z) | Alloc (k : Z).
Definition run_op (regs : Z -> Z) (op : prolog_op) (ms : mem * Z) : mem * Z :=
  match op with
  | Push r => (st_le 8 (fst ms) (snd ms - 8) (regs r), snd ms - 8)
  | Alloc k => (fst ms, snd ms - (8 * k + 8))
  end.
Definition run_prolog (regs : Z -> Z) (ops : list prolog_op) (ms : mem * Z) : mem * Z := fold_left (fun s op => run_op regs op s) ops ms.
Definition op_code (op : prolog_op) : Z * Z := match op with Push r => (0, r) | Alloc k => (2, k) end.
Definition op_size (op : prolog_op) : Z := match op with Push _ => 8 | Alloc k => 8 * k + 8 end.
Definition ops_size (ops : list prolog_op) : Z := foldr (fun op n => op_size op + n) 0 ops.
(** The codes from [a] on, in the order given. *)
Fixpoint codes_at (m : mem) (a bound : Z) (ops : list prolog_op) : Prop :=
  match ops with
  | [] => True
  | op :: r =>
      CodeOffset (unwind_code_at m a) <= bound /\ UnwindOp (unwind_code_at m a) = fst (op_code op) /\
      OpInfo (unwind_code_at m a) = snd (op_code op) /\ codes_at m (a + 2) bound r
  end.
Definition get_reg (n : Z) (s : rewind_state) : Z :=
  if n =? 3 then rs_rbx s else if n =? 12 then rs_r12 s else if n =? 13 then rs_r13 s else if n =? 14 then rs_r14 s
  else if n =? 15 then rs_r15 s else if n =? 5 then rs_rsi s else if n =? 6 then rs_rdi s else 0.

Section Prologues.
Definition op_ok (op : prolog_op) : Prop := match op with Push _ => True | Alloc k => 0 <= k end.
Lemma ops_size_nonneg ops : Forall op_ok ops -> 0 <= ops_size ops.
Proof. induction 1 as [|op ops Hop _ IH]; cbn [ops_size foldr]; [lia|]. fold (ops_size ops). destruct op; cbn in *; lia. Qed.
Lemma codes_at_app m bound l r : forall a, codes_at m a bound (l ++ r) <-> codes_at m a bound l /\ codes_at m (a + 2 * Z.of_nat (length l)) bound r.
Proof.
  induction l as [|op l IH]; intros a; cbn [app codes_at length].
  - rewrite Z.mul_0_r, Z.add_0_r. tauto.
  - rewrite IH. replace (a + 2 + 2 * Z.of_nat (length l)) with (a + 2 * Z.of_nat (S (length l))) by lia. tauto.
Qed.
(** What a step does to one operation. *)
Definition undo (m : mem) (s : rewind_state) (op : prolog_op) : rewind_state :=
  match op with
  | Push r => add_rsp 8 (set_reg r (ld_le 8 m (rs_rsp s)) s)
  | Alloc k => add_rsp (k * 8 + 8) s
  end.
(** The codes are kept with the last operation first; the loop starts at the
    other end, so it undoes the first operation first. *)
Lemma rewind_codes_rev m a bound ops : forall s,
  codes_at m a bound (rev ops) -> rewind_codes (length ops) m a bound s = fold_left (undo m) ops s.
Proof.
  induction ops as [|op ops IH]; intros s H; [done|]. cbn [rev] in H. apply codes_at_app in H as [Hr Hop].
  rewrite length_rev in Hop. cbn [codes_at length rewind_codes fold_left] in *.
  destruct Hop as (Hb & Ho & Hi & _).
  destruct (Z.ltb_spec bound (CodeOffset (unwind_code_at m (a + 2 * Z.of_nat (length ops))))); [lia|].
  rewrite IH by exact Hr. f_equal. unfold do_rewind_once_step. rewrite Ho, Hi. by destruct op.
Qed.
Lemma set_reg_rsp n v s : rs_rsp (set_reg n v s) = rs_rsp s /\ rs_rip (set_reg n v s) = rs_rip s.
Proof. destruct s. unfold set_reg. repeat case_match; done. Qed.
Lemma undo_rsp m op s : rs_rsp (undo m s op) = u64 (rs_rsp s + op_size op) /\ rs_rip (undo m s op) = rs_rip s.
Proof.
  destruct op; cbn [undo op_size].
  - destruct (set_reg_rsp r (ld_le 8 m (rs_rsp s)) s) as [E1 E2]. revert E1 E2. destruct (set_reg _ _ _). cbn. by intros -> ->.
  - destruct s; cbn. split; [f_equal; lia|done].
Qed.
Lemma undo_all_rsp m ops : forall s, Forall op_ok ops -> 0 <= rs_rsp s -> rs_rsp s + ops_size ops < 2 ^ 64 ->
  rs_rsp (fold_left (undo m) ops s) = rs_rsp s + ops_size ops /\ rs_rip (fold_left (undo m) ops s) = rs_rip s.
Proof.
  induction ops as [|op ops IH]; intros s Hok H0 H; cbn [fold_left ops_size foldr]; [split; [lia|done]|].
  fold (ops_size ops). inversion Hok as [|? ? Hop Hok']; subst. pose proof (ops_size_nonneg ops Hok').
  cbn [ops_size foldr] in H. fold (ops_size ops) in H. destruct (undo_rsp m op s) as [E1 E2].
  assert (0 <= op_size op) by (destruct op; cbn in *; lia). rewrite u64_id in E1 by lia.
  destruct (IH (undo m s op) Hok') as [-> ->]; [lia|lia|]. split; [lia|exact E2].
Qed.
Lemma run_prolog_rsp regs ops : forall m r, snd (run_prolog regs ops (m, r)) = r - ops_size ops.
Proof.
  induction ops as [|op ops IH]; intros m r; [cbn; lia|]. cbn [run_prolog fold_left ops_size foldr]. fold (ops_size ops).
  change (fold_left _ ops ?x) with (run_prolog regs ops x). destruct op; cbn [run_op fst snd op_size]; rewrite IH; lia.
Qed.
(** Pushes go down from the old top of the stack. *)
Lemma pushes_words regs rs : forall m r x, r <= x -> ld (fst (run_prolog regs (map Push rs) (m, r))) x = ld m x.
Proof.
  induction rs as [|n rs IH]; intros m r x Hx; [done|]. cbn [map run_prolog fold_left run_op fst snd].
  change (fold_left _ (map Push rs) ?y) with (run_prolog regs (map Push rs) y). rewrite IH by lia. apply st_le_ld_ne. lia.
Qed.
Lemma pushed_word regs rs : forall m r (i : nat) n, rs !! i = Some n -> 0 <= regs n < 2 ^ 64 ->
  ld_le 8 (fst (run_prolog regs (map Push rs) (m, r))) (r - 8 * (Z.of_nat i + 1)) = regs n.
Proof.
  induction rs as [|k rs IH]; intros m r i n Hi Hn; [done|]. cbn [map run_prolog fold_left run_op fst snd].
  change (fold_left _ (map Push rs) ?y) with (run_prolog regs (map Push rs) y). destruct i as [|i]; cbn in Hi.
  - injection Hi as ->. replace (r - 8 * (Z.of_nat 0 + 1)) with (r - 8) by lia.
    etrans; [|exact (ld_le_st8 m (r - 8) (regs n) Hn)]. apply ld_le_frame. intros x Hx. apply pushes_words. lia.
  - rewrite <- (IH (st_le 8 m (r - 8) (regs k)) (r - 8) i n Hi Hn). f_equal. lia.
Qed.
(** The registers that step by step get the words from the stack pointer up. *)
Definition callee_saved (n : Z) : Prop := n = 3 \/ n = 12 \/ n = 13 \/ n = 14 \/ n = 15.
Lemma get_set_reg n k v s : callee_saved n -> get_reg n (set_reg k v s) = if n =? k then v else get_reg n s.
Proof.
  unfold callee_saved. intros Hn. destruct s. unfold set_reg. destruct Hn as [->|[->|[->|[->| ->]]]];
    repeat match goal with |- context [k =? ?c] => destruct (Z.eqb_spec k c) as [->|]; [done|] end;
    match goal with |- context [?c =? k] => destruct (Z.eqb_spec c k); [lia|done] end.
Qed.
Lemma get_add_rsp n k s : get_reg n (add_rsp k s) = get_reg n s.
Proof. by destruct s. Qed.
Lemma undo_pushes_other m rs n : forall s, callee_saved n -> n ∉ rs -> get_reg n (fold_left (undo m) (map Push rs) s) = get_reg n s.
Proof.
  induction rs as [|k rs IH]; intros s Hn Hin; [done|]. apply not_elem_of_cons in Hin as [Hk Hin].
  cbn [map fold_left undo]. rewrite IH, get_add_rsp, get_set_reg by done. by rewrite (proj2 (Z.eqb_neq n k)).
Qed.
Lemma undo_pushes m rs : forall s (j : nat) n, NoDup rs -> rs !! j = Some n -> callee_saved n ->
  0 <= rs_rsp s -> rs_rsp s + 8 * slen rs < 2 ^ 64 ->
  get_reg n (fold_left (undo m) (map Push rs) s) = ld_le 8 m (rs_rsp s + 8 * Z.of_nat j).
Proof.
  induction rs as [|k rs IH]; intros s j n Hnd Hj Hn H0 Hb; [done|]. inversion Hnd as [|? ? Hk Hnd']; subst. rewrite slen_cons in Hb.
  pose proof (slen_nonneg rs). cbn [map fold_left]. destruct j as [|j]; cbn in Hj.
  - injection Hj as ->. rewrite undo_pushes_other by done. cbn [undo]. rewrite get_add_rsp, get_set_reg, Z.eqb_refl by done. f_equal. lia.
  - destruct (undo_rsp m (Push k) s) as [E _]. cbn [op_size] in E. rewrite u64_id in E by lia.
    rewrite (IH (undo m s (Push k)) j n Hnd' Hj Hn) by lia. f_equal. lia.
Qed.
Lemma ops_size_pushes rs : ops_size (map Push rs) = 8 * slen rs.
Proof. induction rs as [|k rs IH]; [done|]. rewrite slen_cons. cbn [map ops_size foldr op_size]. fold (ops_size (map Push rs)). lia. Qed.
Lemma restart_plain fuel m ui rf : Z.land (ui_Flags m ui) 0x4 = 0 -> restart_unwind fuel m ui rf = Some rf.
Proof. intros E. destruct fuel; cbn [restart_unwind]; by rewrite E. Qed.
End Prologues.

(** The unwind data of [ops] at [ui] for a function whose prologue is complete,
    with a trap frame at [tf]. *)
Definition describes (m : mem) (tf rf base : Z) (ops : list prolog_op) : Prop :=
  let ui := ld_le 4 m (rf + rf_UnwindData) + base in
  ui_Version m ui = 1 /\ Z.land (ui_Flags m ui) 0x4 = 0 /\ ui_CountOfCodes m ui = Z.of_nat (length ops) /\
  codes_at m (ui + ui_UnwindCode) (u32 (ld_le 8 m (tf + tf_rip) - base - ld_le 4 m (rf + rf_BeginAddress))) (rev ops).

(** Undoing a complete prologue of pushes and reservations ends with the
    stack pointer the function was entered with, but at the instruction of the
    exception instead of the return address, and, because the codes are taken in
    the order of the prologue, a register gets the word that was pushed at the
    mirrored place: only a prologue with one push restores its register. *)
Theorem rewind_mirrors_registers (fuel : nat) (regs : Z -> Z) (ops : list prolog_op) (m0 m : mem) (rsp0 rsp tf rf base : Z) :
  run_prolog regs ops (m0, rsp0) = (m, rsp) -> Forall op_ok ops -> describes m tf rf base ops ->
  ld_le 8 m (tf + tf_rsp) = rsp -> 0 <= rsp -> rsp0 < 2 ^ 64 ->
  exists s, do_rewind fuel m tf rf base = Some (Some s) /\ rs_rsp s = rsp0 /\ rs_rip s = ld_le 8 m (tf + tf_rip) /\
    (forall rs (i j : nat) n k, ops = map Push rs -> NoDup rs -> (i + j + 1 = length rs)%nat ->
       rs !! i = Some n -> rs !! j = Some k -> callee_saved n -> 0 <= regs k < 2 ^ 64 -> get_reg n s = regs k).
Proof.
  intros Hrun Hok (HV & HF & HC & Hcodes) Hrsp H0 Hb. unfold do_rewind. rewrite HV, (restart_plain _ _ _ _ HF), HC.
  rewrite Nat2Z.id. cbn [Z.eqb Pos.eqb negb mbind option_bind].
  pose proof (run_prolog_rsp regs ops m0 rsp0) as Hs. rewrite Hrun in Hs. cbn [snd] in Hs.
  rewrite rewind_codes_rev by exact Hcodes. eexists. split; [done|].
  assert (E : rs_rsp (frame_state m tf) = rsp) by exact Hrsp.
  destruct (undo_all_rsp m ops (frame_state m tf) Hok) as [-> ->]; [lia|lia|]. split; [lia|]. split; [done|].
  intros rs i j n k -> Hnd Hij Hi Hj Hn Hk. rewrite ops_size_pushes in Hs.
  rewrite (undo_pushes m rs _ i n Hnd Hi Hn) by (unfold slen in *; lia).
  rewrite <- (pushed_word regs rs m0 rsp0 j k Hj Hk), Hrun. cbn [fst]. f_equal. rewrite E. unfold slen in Hs. lia.
Qed.

(** A function whose unwind data are chained to those of another is never
    unwound: the loop looks at the same flags again in every round. *)
Theorem chained_unwind_never_ends (m : mem) (tf rf base : Z) :
  ui_Version m (ld_le 4 m (rf + rf_UnwindData) + base) = 1 ->
  Z.land (ui_Flags m (ld_le 4 m (rf + rf_UnwindData) + base)) 0x4 <> 0 ->
  forall fuel, do_rewind fuel m tf rf base = None.
Proof.
  intros HV HF fuel. unfold do_rewind. rewrite HV. cbn [Z.eqb Pos.eqb negb].
  set (ui := ld_le 4 m (rf + rf_UnwindData) + base) in *. apply Z.eqb_neq in HF. generalize rf.
  enough (H : forall r, restart_unwind fuel m ui r = None) by (intros; by rewrite H).
  induction fuel as [|f IH]; intros r; cbn [restart_unwind]; rewrite HF; [done|apply IH].
Qed.

(** C40: An image that is entered into the table when it is loaded takes the first
    free slot, and an exception inside the image finds this slot when no earlier
    slot covers the instruction; nothing outside the slot changes. *)
Theorem registered_image_found (T : Z) (m : mem) (dir base size rip i : Z) :
  find_idx (Z.to_nat pdata_count) 0 (fun j => zero_bytes (Z.to_nat sizeof_pdata_entry) m (T + j * sizeof_pdata_entry)) = Some i ->
  0 <= base -> base + size < 2 ^ 64 -> base <= rip < base + size ->
  (forall j, 0 <= j < i -> covers T m rip j = false) ->
  dir + 4 <= T \/ T + pdata_count * sizeof_pdata_entry <= dir ->
  exists m', add_pdata_entry_when_load_image T m dir base size = Some (m', 0) /\
    find_pdata T m' rip = Some (T + sizeof_pdata_entry * i) /\
    ld_le 8 m' (T + sizeof_pdata_entry * i + pd_pdata_start) = u64 (ld_le 4 m dir + base) /\
    (forall x, x < T + sizeof_pdata_entry * i \/ T + sizeof_pdata_entry * i + sizeof_pdata_entry <= x -> ld m' x = ld m x).
Proof.
  unfold pdata_count, sizeof_pdata_entry, pd_pdata_start. intros Hi Hb Hs Hr Hj Hd. pose proof Hi as Hf. apply find_idx_Some in Hi as (Hi & _ & _).
  unfold add_pdata_entry_when_load_image. rewrite nt_free_slot by (unfold sizeof_pdata_entry, pdata_count; lia).
  unfold pdata_count, sizeof_pdata_entry, pd_rip_start, pd_rip_end, pd_pdata_start. rewrite Hf. cbn [default mbind option_bind from_option id].
  destruct (Z.eqb_spec i (-1)); [lia|]. rewrite (u64_id (base + size)) by lia. rewrite Z.add_0_r.
  set (e := T + 24 * i) in *. set (m2 := st_le 8 _ (e + 8) _).
  set (v := u64 (ld_le 4 m2 dir + base)). pose proof (u64_range (ld_le 4 m2 dir + base)).
  assert (F : forall x, x < e \/ e + 24 <= x -> ld (st_le 8 m2 (e + 16) v) x = ld m x)
    by (intros x Hx; unfold m2; rewrite !st_le_ld_ne by lia; done).
  assert (F0 : ld_le 8 (st_le 8 m2 (e + 16) v) e = base)
    by (rewrite ld_le_st_le_ne by lia; unfold m2; rewrite ld_le_st_le_ne by lia; apply ld_le_st8; lia).
  assert (F1 : ld_le 8 (st_le 8 m2 (e + 16) v) (e + 8) = base + size)
    by (rewrite ld_le_st_le_ne by lia; apply ld_le_st8; lia).
  eexists. split; [done|]. split; [|split; [|exact F]].
  - unfold find_pdata. replace (find_idx _ _ _) with (Some i); [done|]. symmetry. apply find_idx_Some. change (Z.of_nat _) with 256.
    unfold covers, sizeof_pdata_entry, pd_rip_start, pd_rip_end in *. split; [lia|]. split.
    + fold e. rewrite Z.add_0_r, F0, F1. destruct (Z.leb_spec base rip), (Z.ltb_spec rip (base + size)); lia || done.
    + intros k Hk. rewrite <- (Hj k Hk). f_equal; f_equal; apply ld_le_frame; intros x Hx; apply F; unfold e; lia.
  - rewrite ld_le_st8 by lia. unfold v. do 2 f_equal. apply ld_le_frame. intros x Hx. unfold m2. rewrite !st_le_ld_ne by (unfold e; lia). done.
Qed.

(** ** Witnesses *)
(** A function at 0x1000 of an image at 0x400000 that pushes rbx and r12, with
    its data, a trap frame and the stack after the prologue. *)
Definition demo_regs (r : Z) : Z := 1000 + r.
Definition demo_code : mem :=
  store_bytes (st_le 8 (st_le 8 (st_le 4 (st_le 4 ∅ 0x402000 0x1000) 0x402008 0x3000) (0x500000 + tf_rip) 0x401010) (0x500000 + tf_rsp) 0x6FFFF0)
    0x403000 [1; 4; 2; 0; 3; 0xC0; 1; 0x30].
Definition demo_stack : mem * Z := run_prolog demo_regs [Push 3; Push 12] (demo_code, 0x700000).
Lemma rewind_mirrors_registers_witness :
  exists s, do_rewind 5 demo_stack.1 0x500000 0x402000 0x400000 = Some (Some s) /\ rs_rsp s = 0x700000 /\
    get_reg 3 s = demo_regs 12 /\ get_reg 12 s = demo_regs 3.
Proof.
  destruct (rewind_mirrors_registers 5 demo_regs [Push 3; Push 12] demo_code demo_stack.1 0x700000 demo_stack.2 0x500000 0x402000 0x400000)
    as (s & E & H1 & _ & H2); [reflexivity|repeat constructor|vm_compute; repeat split; discriminate|vm_compute; reflexivity|vm_compute; discriminate|reflexivity|].
  exists s. split; [exact E|]. split; [exact H1|].
  assert (ND : NoDup [3; 12]) by (apply (bool_decide_unpack _); vm_compute; exact I).
  split; [apply (H2 [3; 12] 0%nat 1%nat 3 12)|apply (H2 [3; 12] 1%nat 0%nat 12 3)];
    first [reflexivity|exact ND|unfold callee_saved; lia|vm_compute; split; congruence].
Defined.
Lemma chained_unwind_never_ends_witness : forall fuel, do_rewind fuel (st demo_code 0x403000 0x21) 0x500000 0x402000 0x400000 = None.
Proof. apply chained_unwind_never_ends; vm_compute; congruence. Defined.
Lemma registered_image_found_witness :
  exists m', add_pdata_entry_when_load_image 0x600000 demo_code 0x402000 0x400000 0x5000 = Some (m', 0) /\ find_pdata 0x600000 m' 0x401010 = Some 0x600000.
Proof.
  destruct (registered_image_found 0x600000 demo_code 0x402000 0x400000 0x5000 0x401010 0) as (m' & E & F & _);
    [vm_compute; reflexivity|lia|lia|lia|lia|unfold pdata_count, sizeof_pdata_entry; lia|]. exists m'. split; [exact E|exact F].
Defined.
