(* ===== verification/NtImport.v ===== *)
(** * NtImport: relocation and import resolution of Windows programs

    Models the last part of src/core/exe/ninja/ntdll/ntdll_libs.h: splitting of
    forwarded names, relocation of a library, search of exports and filling of
    the import table of the image that asked for them. *)
From Stdlib Require Import String.
From S2P Require Import Prelude Bytes MemLib StrLib Wide Pe NinjaLib.
Open Scope Z_scope.

(** ** Data *)
Definition IMAGE_ORDINAL_FLAG64 : Z := 0x8000000000000000.
Definition IMAGE_DIRECTORY_ENTRY_IMPORT : Z := 1.
(** [struct data_directory]. *)
Definition dd_virtual_address : Z := 0.
Definition dd_size : Z := 4.
(** [struct pe_image_import_descriptor]. *)
Definition id_original_first_thunk : Z := 0.
Definition id_name : Z := 12.
Definition id_first_thunk : Z := 16.
Definition sizeof_import_descriptor : Z := 20.
(** [struct pe_export_directory], the field not used by the kernel. *)
Definition ed_base : Z := 16.
(** [struct image_import_by_name]. *)
Definition ibn_name : Z := 2.
(** [struct forwarded_import] and the table of 32768 of them (ninja_dll.c). *)
Definition fi_import_addr : Z := 0.
Definition fi_import_str : Z := 8.
Definition sizeof_forwarded_import : Z := 16.
Definition forwarded_imports_count : Z := 32768.
(** Where the global variables lie. *)
Record nt_globals := NtGlobals { g_forwarded_imports : Z; g_pdata_table : Z; g_peb_addrx : Z; g_tttx : Z }.

(** ** Forwarded names *)
(** The first dot of the [n] characters from [i] on, 0 if there is none. *)
Fixpoint dot_loop (n : nat) (m : mem) (s i : Z) : Z :=
  match n with
  | O => 0
  | S n' => if ld m (s + i) =? 46 then i else dot_loop n' m s (i + 1)
  end.
Definition extract_dllname_and_funcname_in_forwarded_import_string (fuel : nat) (m : mem) (import_str dll_name func_name : Z)
  : option (mem * bool) :=
  l ← nt_strlen fuel m import_str;
  let pos := dot_loop (Z.to_nat l) m import_str 0 in
  if pos =? 0 then Some (m, false)
  else
    let m1 := st (nt_memcpy m dll_name import_str pos) (dll_name + pos) 0 in
    l1 ← nt_strlen fuel m1 import_str;
    let m2 := nt_memcpy m1 func_name (import_str + pos + 1) (u64 (l1 - pos - 1)) in
    l2 ← nt_strlen fuel m2 import_str;
    Some (st m2 (u64 (func_name + (l2 - pos - 1))) 0, true).

(** ** Relocation *)
(** The entries [i .. count) of the block at [blk]. *)
Fixpoint reloc1_entries (fuel : nat) (m : mem) (blk i count base dist : Z) : option mem :=
  if i <? count then
    match fuel with
    | O => None
    | S f =>
        let entry := ld_le 2 m (blk + 8 + i * 2) in
        reloc1_entries f (reloc_entry m blk entry base dist) blk (i + 1) count base dist
    end
  else Some m.
(** The number of entries is computed with the size of a 32-bit word. *)
Fixpoint reloc1_blocks (fuel : nat) (m : mem) (table off size base dist : Z) : option mem :=
  if off <? size then
    match fuel with
    | O => None
    | S f =>
        let blk := table + off in
        let bs := ld_le 4 m (blk + rb_block_size) in
        let entry_count := u64 (bs - sizeof_pe_relocation_block) / 4 in
        m' ← reloc1_entries (S (Z.to_nat size)) m blk 0 entry_count base dist;
        reloc1_blocks f m' table (off + bs) size base dist
    end
  else Some m.
(** [opt] is the address of the optional header. *)
Definition pe_image_relocation1 (fuel : nat) (m : mem) (opt base dist : Z) : option (mem * bool) :=
  let dir := opt_directory opt IMAGE_DIRECTORY_ENTRY_BASERELOC in
  let va := ld_le 4 m (dir + dd_virtual_address) in
  let size := ld_le 4 m (dir + dd_size) in
  if size =? 0 then Some (m, false)
  else m' ← reloc1_blocks fuel m (va + base) 0 size base dist; Some (m', true).

(** ** Exports *)
Definition pe_thunk_is_ordinal (thunk_rva : Z) : bool := negb (Z.land thunk_rva IMAGE_ORDINAL_FLAG64 =? 0).
(** The table of functions is taken for an array of 64-bit words. *)
Definition pe_find_export_real_address_by_ordinal (m : mem) (ordinal_number dir base : Z) : Z :=
  let table := ld_le 4 m (dir + dd_virtual_address) + base in
  let ordinal_index := u64 (ordinal_number - ld_le 4 m (table + ed_base)) in
  let functions := ld_le 4 m (table + ed_address_of_functions) + base in
  u64 (ld_le 8 m (u64 (functions + 8 * ordinal_index)) + base).
(** The index of the first of [n] names from [i] on that equals [name] but for
    the case of letters. *)
Fixpoint export_index_i (fuel n : nat) (m : mem) (table base name i : Z) : option (option Z) :=
  match n with
  | O => Some None
  | S n' =>
      let name_rvas := base + ld_le 4 m (table + ed_address_of_names) in
      r ← strcmp_i fuel m (base + ld_le 4 m (name_rvas + 4 * i)) name;
      if r : bool then Some (Some i) else export_index_i fuel n' m table base name (i + 1)
  end.
(** 0: no such name. *)
Definition pe_find_export_rva_by_name1 (fuel : nat) (m : mem) (name dir base : Z) : option Z :=
  let table := ld_le 4 m (dir + dd_virtual_address) + base in
  r ← export_index_i fuel (Z.to_nat (ld_le 4 m (table + ed_number_of_names))) m table base name 0;
  Some (match r with None => 0 | Some i => s32 (ld_le 4 m (export_slot m table base i)) end).

(** ** Imports *)
(** The names are compared as wide strings though both are strings of bytes. *)
Fixpoint import_loop (fuel n : nat) (m : mem) (dir_va main_base name import_id : Z) : option Z :=
  match n with
  | O => Some (-1)
  | S n' =>
      let d := main_base + dir_va + import_id * sizeof_import_descriptor in
      if (ld_le 4 m (d + id_first_thunk) =? 0) && (ld_le 4 m (d + id_original_first_thunk) =? 0) then Some (-1)
      else
        r ← strcmp_iw fuel m (main_base + ld_le 4 m (d + id_name)) name;
        if r : bool then Some import_id else import_loop fuel n' m dir_va main_base name (import_id + 1)
  end.
Definition pe_find_main_import_descriptor (fuel : nat) (m : mem) (name main_dir main_base : Z) : option Z :=
  let len := ld_le 4 m (main_dir + dd_size) in
  if len =? 0 then Some (-1)
  else import_loop fuel (Z.to_nat (len / sizeof_import_descriptor)) m (ld_le 4 m (main_dir + dd_virtual_address)) main_base name 0.

Section Imports.
Context {K : Type} `{UserMachine K} (fuel : nat) (g : nt_globals).
(** What is stored for an import found at [rva]: an address, or a note that the
    export is forwarded to another library.  [true]: no room for the note. *)
Definition bind_thunk (thunk thunk_name rva dir base : Z) : ST (ustate K) bool :=
  va ← umem (fun m => ld_le 4 m (dir + dd_virtual_address));
  size ← umem (fun m => ld_le 4 m (dir + dd_size));
  if (rva <? va) || (u32 (va + size) <=? rva) then
    _ ← set_umem (fun m => st_le 8 m thunk (u64 (rva + base))); mret false
  else
    _ ← nt_echo_lit "Fwd Exp: "; _ ← nt_echo fuel thunk_name; _ ← nt_echo_lit newline;
    slot ← ends (fun m => nt_get_a_free_slot_with_size m (g_forwarded_imports g) 0 (forwarded_imports_count * sizeof_forwarded_import) sizeof_forwarded_import);
    if slot =? -1 then _ ← nt_echo_lit ("No free slot for forwarded import" ++ newline); mret true
    else
      let e := g_forwarded_imports g + slot * sizeof_forwarded_import in
      _ ← set_umem (fun m => st_le 8 m (e + fi_import_addr) thunk);
      _ ← set_umem (fun m => st_le 8 m (e + fi_import_str) (u64 (rva + base)));
      _ ← set_umem (fun m => st_le 8 m thunk 0x1234567890); mret false.
(** [true]: the call returned -1; the value at the end of the body is not
    given and no caller reads it. *)
Fixpoint thunk_loop (n : nat) (thunks i main_base dir base : Z) : ST (ustate K) bool :=
  match n with
  | O => fun _ => Stuck
  | S n' =>
      let thunk := thunks + 8 * i in
      t ← umem (fun m => ld_le 8 m thunk);
      if t =? 0 then mret false
      else if pe_thunk_is_ordinal t then
        _ ← set_umem (fun m => st_le 8 m thunk (pe_find_export_real_address_by_ordinal m (Z.land t (Z.lnot IMAGE_ORDINAL_FLAG64)) dir base));
        thunk_loop n' thunks (i + 1) main_base dir base
      else
        let thunk_name := u64 (t + main_base) + ibn_name in
        rva ← ends (fun m => pe_find_export_rva_by_name1 fuel m thunk_name dir base);
        if rva =? 0 then _ ← nt_echo_lit "Cannot find function in imported dll"; mret true
        else
          full ← bind_thunk thunk thunk_name rva dir base;
          if full : bool then mret true else thunk_loop n' thunks (i + 1) main_base dir base
  end.
Definition pe_update_all_main_thunks (import_desc_id main_dir dir main_base base : Z) : ST (ustate K) bool :=
  d ← umem (fun m => main_base + ld_le 4 m (main_dir + dd_virtual_address) + import_desc_id * sizeof_import_descriptor);
  first ← umem (fun m => ld_le 4 m (d + id_first_thunk));
  thunk_loop fuel (main_base + first) 0 main_base dir base.
(** [opt] is the optional header of the library, [base] where it lies. *)
Definition pe_iat_process (name main_dir opt main_base base : Z) : ST (ustate K) unit :=
  id ← ends (fun m => pe_find_main_import_descriptor fuel m name main_dir main_base);
  fifth ← umem (fun m => ld_le 8 m (ld_le 8 m (g_tttx g) + sizeof_loaded_dll * 5 + ld_dll_base));
  _ ← (if main_base =? fifth then nt_echo_lit ("Iating mscvrt" ++ newline) else mret 0);
  if id <? 0 then mret tt
  else _ ← pe_update_all_main_thunks id main_dir (opt_directory opt IMAGE_DIRECTORY_ENTRY_EXPORT) main_base base; mret tt.
End Imports.

(** ** Relocation: half of every block *)
Section Relocate.
Definition half (b : block) : block := (fst b, take (length (snd b) / 2) (snd b)).
Lemma reloc1_entries_eq fuel : forall m blk i count base dist, 0 <= i <= count -> count - i <= Z.of_nat fuel ->
  reloc1_entries fuel m blk i count base dist = Some (reloc_entries (Z.to_nat (count - i)) m blk i base dist).
Proof.
  induction fuel as [|f IH]; intros m blk i count base dist Hi Hf; cbn [reloc1_entries].
  - destruct (Z.ltb_spec i count); [lia|]. by replace (Z.to_nat (count - i)) with 0%nat by lia.
  - destruct (Z.ltb_spec i count).
    + rewrite IH by lia. replace (Z.to_nat (count - i)) with (S (Z.to_nat (count - (i + 1)))) by lia. cbn [reloc_entries].
      unfold sizeof_pe_relocation_block. by rewrite (Z.mul_comm i 2).
    + by replace (Z.to_nat (count - i)) with 0%nat by lia.
Qed.
Lemma half_count b : 8 <= block_size b < 2 ^ 32 -> u64 (block_size b - 8) / 4 = Z.of_nat (length (snd b) / 2).
Proof.
  unfold block_size. intros H. rewrite u64_id by lia. rewrite Nat2Z.inj_div. change (Z.of_nat 2) with 2.
  replace (8 + 2 * Z.of_nat (length (snd b)) - 8) with (Z.of_nat (length (snd b)) * 2) by lia.
  change 4 with (2 * 2). by rewrite <- Z.div_div, Z.div_mul by lia.
Qed.
Lemma reloc1_blocks_spec bs : forall fuel m table off size base dist,
  table_at m (table + off) bs -> off + table_size bs = size -> 0 <= off -> size < 2 ^ 32 -> (length bs <= fuel)%nat ->
  Forall (clear_of table (table + size)) (sites base (map half bs)) ->
  reloc1_blocks fuel m table off size base dist = Some (fold_left (patch dist) (sites base (map half bs)) m).
Proof.
  induction bs as [|b r IH]; intros fuel m table off size base dist HT HS Hoff Hsz Hf HC.
  - cbn in HS. destruct fuel; cbn [reloc1_blocks]; (destruct (Z.ltb_spec off size); [lia|done]).
  - destruct fuel as [|f]; [cbn in Hf; lia|]. cbn [reloc1_blocks].
    cbn [table_at table_size foldr] in *. fold (table_size r) in HS. destruct HT as (E1 & E2 & HA & HT). pose proof (table_length r).
    unfold sites in *. cbn [map concat] in *. rewrite Forall_app in HC. destruct HC as [HC1 HC2]. rewrite fold_left_app.
    pose proof (eq_refl (block_size b)) as Hbs. unfold block_size in Hbs at 2.
    unfold rb_block_size, sizeof_pe_relocation_block. rewrite E2, half_count by lia.
    destruct (Z.ltb_spec off size); [|lia].
    pose proof (Nat.Div0.div_le_upper_bound (length (snd b)) 2 (length (snd b)) ltac:(lia)) as Hh.
    rewrite reloc1_entries_eq by lia. cbn [mbind option_bind]. rewrite Z.sub_0_r, Nat2Z.id.
    assert (Ht : at16 m (table + off + 8 + 2 * 0) (take (length (snd b) / 2) (snd b))).
    { rewrite Z.mul_0_r, Z.add_0_r. rewrite <- (take_drop (length (snd b) / 2) (snd b)) in HA. by apply at16_app in HA as [HA _]. }
    assert (Hl : length (take (length (snd b) / 2) (snd b)) = (length (snd b) / 2)%nat) by (rewrite length_take; lia).
    rewrite <- Hl at 1. rewrite (reloc_entries_spec _ m (table + off) (fst b) 0 base dist table (table + size));
      [|exact E1|exact Ht|lia|lia|rewrite Hl; lia|exact HC1].
    change (map (site_of (fst b) base) _) with (block_sites base (half b)). apply IH; [|lia|lia|lia|cbn in Hf; lia|exact HC2].
    rewrite Z.add_assoc. eapply reloc_table_ext; [|exact HT]. intros x Hx. eapply patches_clear; [exact HC1|lia].
Qed.
End Relocate.

(** The library loader relocates in the right direction, unlike the kernel,
    but only the first half of the entries of every block: for a well-formed
    table whose places lie outside it and do not overlap, every 64-bit place of
    these halves is moved by the distance and no other byte changes. *)
Theorem library_half_relocated (fuel : nat) (m : mem) (opt base dist : Z) (bs : list block) :
  let dir := opt_directory opt IMAGE_DIRECTORY_ENTRY_BASERELOC in
  let table := ld_le 4 m dir + base in
  let moved := sites base (map half bs) in
  table_at m table bs -> ld_le 4 m (dir + dd_size) = table_size bs -> 0 < table_size bs < 2 ^ 32 -> (length bs <= fuel)%nat ->
  Forall (clear_of table (table + table_size bs)) moved -> ForallOrdPairs separate moved ->
  exists m', pe_image_relocation1 fuel m opt base dist = Some (m', true) /\
    (forall a, In (10, a) moved -> ld_le 8 m' a = u64 (ld_le 8 m a + dist)) /\
    (forall x, Forall (fun s => x < snd s \/ snd s + width s <= x) moved -> ld m' x = ld m x).
Proof.
  intros dir table moved HT HS Hsz Hf HC HP. unfold pe_image_relocation1. fold dir. unfold dd_virtual_address. rewrite Z.add_0_r, HS. fold table.
  destruct (Z.eqb_spec (table_size bs) 0); [lia|].
  rewrite (reloc1_blocks_spec bs fuel m table 0 (table_size bs) base dist); [|by rewrite Z.add_0_r|lia|lia|lia|lia|exact HC].
  fold moved. eexists. split; [done|]. split.
  - intros a Ha. apply (patches_word dist _ m (10, a) HP Ha eq_refl).
  - intros x. apply patches_frame.
Qed.

(** ** Imports found in the library *)
Section Resolve.
Context (fuel : nat).
Definition same_name (s t : list Z) : Prop := map lower s = map lower t.
(** The search finds the first name that is equal but for the case. *)
Lemma export_index_i_spec lo hi m table base names ords name s k :
  exports fuel lo hi m table base names ords -> StrLib.cstr m name s -> slen s < Z.of_nat fuel ->
  (exists t, names !! k = Some t /\ same_name t s) -> (forall i t, (i < k)%nat -> names !! i = Some t -> ~ same_name t s) ->
  forall n j, (j + n = length names)%nat -> (j <= k)%nat ->
  export_index_i fuel n m table base name (Z.of_nat j) = Some (Some (Z.of_nat k)).
Proof.
  intros HX HS Hf (t & Ht & Hst) Hlt. induction n as [|n IH]; intros j Hj Hk; cbn [export_index_i].
  - apply lookup_lt_Some in Ht. lia.
  - destruct (lookup_lt_is_Some_2 names j) as [u Hu]; [lia|].
    destruct (ex_names _ _ _ _ _ _ _ _ HX j u Hu) as (_ & HC & Hfu & _). unfold names_at in HC.
    rewrite (strcmp_i_cstr fuel m _ name u s HC HS Hfu Hf). cbn [mbind option_bind].
    destruct (decide (j = k)) as [->|Hne].
    + assert (u = t) as -> by congruence. by rewrite bool_decide_true.
    + rewrite bool_decide_false by (apply (Hlt j u); [lia|exact Hu]).
      replace (Z.of_nat j + 1) with (Z.of_nat (S j)) by lia. apply IH; lia.
Qed.
(** A name that no export bears. *)
Lemma export_index_i_none lo hi m table base names ords name s :
  exports fuel lo hi m table base names ords -> StrLib.cstr m name s -> slen s < Z.of_nat fuel ->
  (forall i t, names !! i = Some t -> ~ same_name t s) ->
  forall n j, (j + n = length names)%nat -> export_index_i fuel n m table base name (Z.of_nat j) = Some None.
Proof.
  intros HX HS Hf Hno. induction n as [|n IH]; intros j Hj; cbn [export_index_i]; [done|].
  destruct (lookup_lt_is_Some_2 names j) as [u Hu]; [lia|].
  destruct (ex_names _ _ _ _ _ _ _ _ HX j u Hu) as (_ & HC & Hfu & _). unfold names_at in HC.
  rewrite (strcmp_i_cstr fuel m _ name u s HC HS Hfu Hf). cbn [mbind option_bind].
  rewrite bool_decide_false by exact (Hno j u Hu).
  replace (Z.of_nat j + 1) with (Z.of_nat (S j)) by lia. apply IH; lia.
Qed.
Lemma find_rva_none lo hi m dir table base names ords name s :
  ld_le 4 m dir + base = table -> exports fuel lo hi m table base names ords -> StrLib.cstr m name s -> slen s < Z.of_nat fuel ->
  (forall i t, names !! i = Some t -> ~ same_name t s) -> pe_find_export_rva_by_name1 fuel m name dir base = Some 0.
Proof.
  intros HD HX HS Hf Hno. unfold pe_find_export_rva_by_name1, dd_virtual_address.
  rewrite Z.add_0_r, HD, (ex_count _ _ _ _ _ _ _ _ HX), Nat2Z.id.
  pose proof (export_index_i_none lo hi m table base names ords name s HX HS Hf Hno (length names) 0 eq_refl) as E.
  change (Z.of_nat 0) with 0 in E. by rewrite E.
Qed.
(** The name [s] leads through the tables at [table] to the address [rva] in the
    library, outside the export directory; none of it is in [lo, hi). *)
Record leads_to (lo hi : Z) (m : mem) (dir table base : Z) (names : list (list Z)) (ords : list Z) (s : list Z) (rva : Z) : Prop := {
  lt_match : exists k t o, names !! k = Some t /\ same_name t s /\ (forall i u, (i < k)%nat -> names !! i = Some u -> ~ same_name u s) /\
    ords !! k = Some o /\ ld_le 4 m (functions_at m table base + 4 * o) = rva /\ out lo hi (functions_at m table base + 4 * o) 4;
  lt_range : 0 < rva < 2 ^ 31;
  lt_direct : rva < ld_le 4 m dir \/ u32 (ld_le 4 m dir + ld_le 4 m (dir + dd_size)) <= rva
}.
Lemma find_rva_spec lo hi m dir table base names ords name s rva :
  ld_le 4 m dir + base = table -> exports fuel lo hi m table base names ords -> StrLib.cstr m name s -> slen s < Z.of_nat fuel ->
  leads_to lo hi m dir table base names ords s rva -> pe_find_export_rva_by_name1 fuel m name dir base = Some rva.
Proof.
  intros HD HX HS Hf [(k & t & o & Ht & Hst & Hlt & Ho & Hr & _) Hrg _]. unfold pe_find_export_rva_by_name1, dd_virtual_address.
  rewrite Z.add_0_r, HD, (ex_count _ _ _ _ _ _ _ _ HX), Nat2Z.id.
  pose proof (export_index_i_spec lo hi m table base names ords name s k HX HS Hf (ex_intro _ t (conj Ht Hst)) Hlt (length names) 0 eq_refl ltac:(lia)) as E.
  change (Z.of_nat 0) with 0 in E. rewrite E.
  cbn [mbind option_bind]. rewrite (export_slot_at _ _ _ _ _ _ _ _ _ _ HX Ho), Hr. f_equal. apply s32_id. lia.
Qed.
Lemma leads_to_agree lo hi m m' dir table base names ords s rva :
  lo <= hi -> agree lo hi m m' -> out lo hi dir 8 -> exports fuel lo hi m table base names ords ->
  leads_to lo hi m dir table base names ords s rva -> leads_to lo hi m' dir table base names ords s rva.
Proof.
  intros Hlo HA HD HX [(k & t & o & Ht & Hst & Hlt & Ho & Hr & Hout) Hrg Hd].
  destruct (exports_agree fuel lo hi m m' table base names ords Hlo HA HX) as (_ & _ & _ & EF). unfold out, dd_size in *.
  assert (E1 : ld_le 4 m' dir = ld_le 4 m dir) by (apply (agree_ld lo hi m m' 4 _ HA); unfold out; lia).
  assert (E2 : ld_le 4 m' (dir + 4) = ld_le 4 m (dir + 4)) by (apply (agree_ld lo hi m m' 4 _ HA); unfold out; lia).
  constructor; [|exact Hrg|unfold dd_size; by rewrite E1, E2].
  exists k, t, o. rewrite EF. do 4 (split; [done|]). split; [|exact Hout].
  rewrite <- Hr. apply (agree_ld lo hi m m' 4 _ HA). exact Hout.
Qed.
End Resolve.

Section Thunks.
Context {K : Type} `{UserMachine K} (fuel : nat) (g : nt_globals).
Context (T main_base dir table base : Z) (names : list (list Z)) (ords : list Z).
(** One import: the word in the table, the name it refers to and its address. *)
Record import := Import { im_word : Z; im_name : list Z; im_rva : Z }.
Definition import_ok (lo hi : Z) (m : mem) (i : import) : Prop :=
  0 < im_word i < 2 ^ 63 /\ StrLib.cstr m (u64 (im_word i + main_base) + ibn_name) (im_name i) /\ slen (im_name i) < Z.of_nat fuel /\
  out lo hi (u64 (im_word i + main_base) + ibn_name) (slen (im_name i) + 1) /\ 0 <= im_rva i + base < 2 ^ 64 /\
  leads_to lo hi m dir table base names ords (im_name i) (im_rva i).
(** The words of the table from index [j] on. *)
Fixpoint imports_at (m : mem) (j : Z) (l : list import) : Prop :=
  match l with
  | [] => True
  | i :: r => ld_le 8 m (T + 8 * j) = im_word i /\ imports_at m (j + 1) r
  end.
Lemma imports_ext m m' l : forall j, (forall x, T + 8 * j <= x -> ld m' x = ld m x) -> imports_at m j l -> imports_at m' j l.
Proof.
  induction l as [|i l IH]; intros j HE; cbn [imports_at].
  - done.
  - intros [<- Hl]. split; [apply ld_le_frame; intros x Hx; apply HE; lia|]. apply IH; [|exact Hl]. intros x Hx. apply HE. lia.
Qed.
Lemma not_ordinal t : 0 < t < 2 ^ 63 -> pe_thunk_is_ordinal t = false.
Proof.
  intros Ht. unfold pe_thunk_is_ordinal. change IMAGE_ORDINAL_FLAG64 with (2 ^ 63). apply negb_false_iff, Z.eqb_eq, Z.bits_inj'.
  intros n Hn. rewrite Z.land_spec, Z.bits_0, Z.pow2_bits_eqb by lia. destruct (Z.eqb_spec 63 n) as [<-|]; [|by rewrite andb_false_r].
  rewrite Z.testbit_odd, Z.shiftr_div_pow2, Z.div_small by lia. done.
Qed.
(** The round of one import. *)
Lemma thunk_round n m k j i l lo hi :
  imports_at m j (i :: l) -> import_ok lo hi m i -> ld_le 4 m dir + base = table -> exports fuel lo hi m table base names ords ->
  thunk_loop fuel g (S n) T j main_base dir base (UState m k) =
  thunk_loop fuel g n T (j + 1) main_base dir base (UState (st_le 8 m (T + 8 * j) (im_rva i + base)) k).
Proof.
  intros [Hw _] (Ht & HS & Hf & _ & Hb & HL) HD HX. cbn [thunk_loop]. cbv [mbind st_bind umem gets ends set_umem modify mret st_ret]. cbn [u_mem u_kern].
  rewrite Hw. destruct (Z.eqb_spec (im_word i) 0); [lia|]. rewrite not_ordinal by lia. cbn [u_mem].
  rewrite (find_rva_spec fuel lo hi m dir table base names ords _ _ _ HD HX HS Hf HL).
  destruct HL as [_ Hr Hdir]. destruct (Z.eqb_spec (im_rva i) 0); [lia|].
  unfold bind_thunk. cbv [mbind st_bind umem gets set_umem modify mret st_ret]. cbn [u_mem u_kern]. unfold dd_virtual_address. rewrite Z.add_0_r.
  assert (E : (im_rva i <? ld_le 4 m dir) || (u32 (ld_le 4 m dir + ld_le 4 m (dir + dd_size)) <=? im_rva i) = true).
  { apply orb_true_iff. destruct Hdir; [left|right]; zbool; lia. }
  rewrite E, u64_id by lia. done.
Qed.
Lemma import_ok_agree lo hi m m' i :
  lo <= hi -> agree lo hi m m' -> out lo hi dir 8 -> exports fuel lo hi m table base names ords -> import_ok lo hi m i -> import_ok lo hi m' i.
Proof.
  intros Hlo HA HD HX (H1 & H2 & H3 & H4 & H5 & H6). split; [done|]. split.
  - eapply cstr_ext; [|exact H2]. intros x Hx. apply HA. unfold out in H4. lia.
  - do 3 (split; [done|]). by eapply leads_to_agree.
Qed.
(** The rounds of the imports [l]; the loop goes on behind them. *)
Lemma thunk_loop_spec l : forall n m k j lo hi,
  imports_at m j l -> Forall (import_ok lo hi m) l -> ld_le 4 m dir + base = table -> out lo hi dir 8 ->
  exports fuel lo hi m table base names ords -> lo <= T + 8 * j -> T + 8 * (j + Z.of_nat (length l)) <= hi -> (length l <= n)%nat ->
  exists m', thunk_loop fuel g n T j main_base dir base (UState m k) =
      thunk_loop fuel g (n - length l) T (j + Z.of_nat (length l)) main_base dir base (UState m' k) /\
    (forall (i : nat) im, l !! i = Some im -> ld_le 8 m' (T + 8 * (j + Z.of_nat i)) = im_rva im + base) /\
    (forall x, x < T + 8 * j \/ T + 8 * (j + Z.of_nat (length l)) <= x -> ld m' x = ld m x).
Proof.
  induction l as [|i l IH]; intros n m k j lo hi HI HF HD Hdir HX Hlo Hhi Hn.
  - exists m. cbn [length]. by rewrite Nat.sub_0_r, Z.add_0_r.
  - destruct n as [|n]; [cbn in Hn; lia|].
    inversion HF as [|? ? Hi HF']; subst. rewrite (thunk_round n m k j i l lo hi HI Hi HD HX). cbn [imports_at length] in *. destruct HI as [_ HI].
    set (m1 := st_le 8 m (T + 8 * j) (im_rva i + base)).
    assert (F : forall x, x < T + 8 * j \/ T + 8 * j + 8 <= x -> ld m1 x = ld m x) by (intros; apply st_le_ld_ne; lia).
    assert (HA : agree lo hi m m1) by (intros x Hx; apply F; lia).
    assert (ED : ld_le 4 m1 dir = ld_le 4 m dir) by (apply (agree_ld lo hi m m1 4 _ HA); unfold out in *; lia).
    destruct (IH n m1 k (j + 1) lo hi) as (m' & E & HR & HO); [| |by rewrite ED|exact Hdir| |lia|lia|cbn in Hn; lia|].
    + eapply imports_ext; [|exact HI]. intros x Hx. apply F. lia.
    + eapply Forall_impl; [|exact HF']. intros im. cbv beta. by apply import_ok_agree; [lia|..].
    + apply (exports_agree fuel lo hi m m1); [lia|exact HA|exact HX].
    + exists m'. split; [rewrite E; f_equal; lia|]. split.
      * intros [|p] im Hp; cbn in Hp.
        -- injection Hp as <-. replace (j + Z.of_nat 0) with j by lia. etrans; [|apply (ld_le_st8 m (T + 8 * j) (im_rva i + base)); apply Hi].
           apply ld_le_frame. intros x Hx. apply HO. lia.
        -- rewrite <- (HR p im Hp). f_equal. lia.
      * intros x Hx. rewrite HO by lia. apply F. lia.
Qed.
(** Where the loop stops: at the zero word, and at a name the library lacks. *)
Lemma thunk_loop_end n m k j : ld_le 8 m (T + 8 * j) = 0 ->
  thunk_loop fuel g (S n) T j main_base dir base (UState m k) = Done (false, UState m k).
Proof. intros E. cbn [thunk_loop]. cbv [mbind st_bind umem gets mret st_ret]. cbn [u_mem]. by rewrite E. Qed.
Definition missing (lo hi : Z) (m : mem) (w : Z) (s : list Z) : Prop :=
  0 < w < 2 ^ 63 /\ StrLib.cstr m (u64 (w + main_base) + ibn_name) s /\ slen s < Z.of_nat fuel /\
  out lo hi (u64 (w + main_base) + ibn_name) (slen s + 1) /\ (forall i t, names !! i = Some t -> ~ same_name t s).
Lemma thunk_loop_missing n m k j lo hi w s : ld_le 8 m (T + 8 * j) = w -> missing lo hi m w s ->
  ld_le 4 m dir + base = table -> exports fuel lo hi m table base names ords ->
  thunk_loop fuel g (S n) T j main_base dir base (UState m k) =
  (_ ← nt_echo_lit "Cannot find function in imported dll"; mret true) (UState m k).
Proof.
  intros Hw (Ht & HS & Hf & _ & Hno) HD HX. cbn [thunk_loop]. cbv [mbind st_bind umem gets ends mret st_ret]. cbn [u_mem].
  rewrite Hw. destruct (Z.eqb_spec w 0); [lia|]. rewrite not_ordinal by lia. cbn [u_mem].
  by rewrite (find_rva_none fuel lo hi m dir table base names ords _ _ HD HX HS Hf Hno).
Qed.
End Thunks.

(** C16: Filling the import table of an image from a library.  For a run [l] of
    imports by name at the start of the table, each of which the library exports
    itself (not forwarded), under a name that may differ in the case of letters:
    every import of [l] is replaced by the address of its function, and nothing
    else changes.  If the table ends there, the call ends well; if the next
    import is a name the library does not export, the call prints a message and
    returns -1, and that import and all behind it are left unresolved. *)
Theorem imports_resolved {K : Type} `{UserMachine K} (fuel : nat) (g : nt_globals) (m : mem) (k : K)
    (id main_dir main_base dir base : Z) (names : list (list Z)) (ords : list Z) (l : list import) :
  let d := main_base + ld_le 4 m main_dir + id * sizeof_import_descriptor in
  let T := main_base + ld_le 4 m (d + id_first_thunk) in
  let table := ld_le 4 m dir + base in
  let hi := T + 8 * (Z.of_nat (length l) + 1) in
  let next := ld_le 8 m (T + 8 * Z.of_nat (length l)) in
  let call := pe_update_all_main_thunks fuel g id main_dir dir main_base base (UState m k) in
  imports_at T m 0 l -> Forall (import_ok fuel main_base dir table base names ords T hi m) l ->
  exports fuel T hi m table base names ords -> out T hi dir 8 -> (length l < fuel)%nat ->
  exists m',
    (forall (i : nat) im, l !! i = Some im -> ld_le 8 m' (T + 8 * Z.of_nat i) = im_rva im + base) /\
    (forall x, x < T \/ T + 8 * Z.of_nat (length l) <= x -> ld m' x = ld m x) /\
    (next = 0 -> call = Done (false, UState m' k)) /\
    (forall s, missing fuel main_base names T hi m next s ->
       call = (_ ← nt_echo_lit "Cannot find function in imported dll"; mret true) (UState m' k)).
Proof.
  intros d T table hi next call HI HF HX HD Hn.
  destruct (thunk_loop_spec fuel g T main_base dir table base names ords l fuel m k 0 T hi) as (m' & E & HR & HO);
    [exact HI|exact HF|reflexivity|exact HD|exact HX|lia|unfold hi; lia|lia|].
  exists m'. rewrite Z.mul_0_r, !Z.add_0_r in HO. rewrite Z.add_0_l in E, HO. split; [exact HR|]. split; [exact HO|].
  assert (EC : call = thunk_loop fuel g (fuel - length l) T (Z.of_nat (length l)) main_base dir base (UState m' k)).
  { unfold call, pe_update_all_main_thunks. cbv [mbind st_bind umem gets]. cbn [u_mem u_kern]. unfold dd_virtual_address.
    rewrite Z.add_0_r. exact E. }
  assert (EN : ld_le 8 m' (T + 8 * Z.of_nat (length l)) = next) by (apply ld_le_frame; intros x Hx; apply HO; lia).
  assert (HA : agree T hi m m') by (intros x Hx; apply HO; unfold hi in Hx; lia).
  replace (fuel - length l)%nat with (S (fuel - length l - 1)) in EC by lia. rewrite EC. split.
  - intros H0. apply thunk_loop_end. by rewrite EN.
  - intros s (H1 & H2 & H3 & H4 & H5).
    apply (thunk_loop_missing fuel g T main_base dir table base names ords _ _ _ _ T hi next s EN).
    + split; [exact H1|]. split; [|by auto]. eapply cstr_ext; [|exact H2]. intros x Hx. apply HA. unfold out in H4. lia.
    + unfold table. f_equal. apply (agree_ld T hi m m' 4 _ HA). unfold out in *. lia.
    + apply (exports_agree fuel T hi m m'); [unfold hi; lia|exact HA|exact HX].
Qed.

(** The library an import belongs to is looked for by comparing its name as a
    wide string: two equal names of even length are taken for different ones
    when the bytes behind their terminators differ. *)
Theorem import_names_compared_as_wide (fuel : nat) (m : mem) (p q : Z) (s : list Z) :
  Nat.Even (length s) -> slen s < 2 * Z.of_nat fuel -> StrLib.cstr m p s -> StrLib.cstr m q s -> Forall (fun c => 0 <= c < 256) s ->
  ld m (p + slen s + 1) <> ld m (q + slen s + 1) -> (forall x, 0 <= ld m x < 256) -> strcmp_iw fuel m p q = Some false.
Proof.
  intros He Hf Hp Hq Hs Hne Hb. revert p q s He Hf Hp Hq Hs Hne. induction fuel as [|f IH]; intros p q s He Hf Hp Hq Hs Hne; [pose proof (slen_nonneg s); lia|].
  cbn [strcmp_iw ld_le]. rewrite !Z.mul_0_r, !Z.add_0_r. destruct s as [|a [|b s]].
  - cbn [cstr] in Hp, Hq. unfold slen in Hne. cbn [length Z.of_nat] in Hne. rewrite !Z.add_0_r in Hne. rewrite Hp, Hq, !Z.add_0_l.
    pose proof (Hb (p + 1)). pose proof (Hb (q + 1)). unfold lower.
    destruct (Z.eqb_spec (256 * ld m (p + 1)) 0), (Z.eqb_spec (256 * ld m (q + 1)) 0); cbn [negb andb]; try lia; try done.
    destruct (Z.leb_spec (256 * ld m (p + 1)) 90), (Z.leb_spec (256 * ld m (q + 1)) 90); try lia. rewrite !andb_false_r.
    destruct (Z.eqb_spec (256 * ld m (p + 1)) (256 * ld m (q + 1))); [lia|done].
  - destruct He as [x Hx]. cbn in Hx. lia.
  - cbn [cstr] in Hp, Hq. destruct Hp as (Ha & Ep & Hb0 & Ep' & Hp), Hq as (_ & Eq & _ & Eq' & Hq). rewrite Ep, Ep', Eq, Eq'.
    apply Forall_cons_iff in Hs as [Hra Hs]. apply Forall_cons_iff in Hs as [Hrb Hs].
    destruct (Z.eqb_spec (a + 256 * b) 0); [lia|]. rewrite Z.eqb_refl. cbn [negb andb]. rewrite !slen_cons in *.
    apply (IH (p + 2) (q + 2) s); [destruct He as [x Hx]; exists (x - 1)%nat; cbn in Hx; lia|lia| | |exact Hs|].
    + by replace (p + 2) with (p + 1 + 1) by lia.
    + by replace (q + 2) with (q + 1 + 1) by lia.
    + replace (p + 2 + slen s + 1) with (p + (slen s + 1 + 1) + 1) by lia. by replace (q + 2 + slen s + 1) with (q + (slen s + 1 + 1) + 1) by lia.
Qed.

(** ** Witnesses *)
#[local] Instance still_machine : UserMachine unit := {| sys_insn := fun _ _ => mret 0; call_code := fun _ _ => mret tt; gs_base := 0; lit := fun _ => 0 |}.
Definition still_globals : nt_globals := NtGlobals 0x900000 0x980000 0x990000 0x990008.
(** A program at 0x8000 that imports "b" from the library of [demo_libraries]. *)
Definition demo_program : mem :=
  st_le 8 (demo_words demo_libraries [(0x8100, 0x200); (0x8210, 0x300); (0x8402, 98)]) 0x8300 0x400.
(** The same with a second import, "x", which the library lacks. *)
Definition demo_lacking : mem := st_le 8 (demo_words demo_program [(0x8412, 120)]) 0x8308 0x410.
Lemma imports_resolved_witness :
  exists m', pe_update_all_main_thunks 8 still_globals 0 0x8100 0x1088 0x8000 0x1000 (UState demo_lacking tt) = Done (true, UState m' tt) /\
    ld_le 8 m' 0x8300 = 0x1010 /\ ld_le 8 m' 0x8308 = 0x410.
Proof.
  destruct (imports_resolved 8 still_globals demo_lacking tt 0 0x8100 0x8000 0x1088 0x1000 [[65]; [66]] [1; 0] [Import 0x400 [98] 0x10])
    as (m' & HR & HO & _ & HM).
  - vm_compute. split; [reflexivity|exact I].
  - constructor; [|constructor]. unfold import_ok. cbn [im_word im_name im_rva].
    split; [lia|]. split; [vm_compute; repeat split; discriminate|]. split; [vm_compute; reflexivity|]. split; [vm_compute; right; discriminate|]. split; [lia|].
    constructor; [|lia|left; vm_compute; reflexivity].
    exists 1%nat, [66], 0. split; [reflexivity|]. split; [reflexivity|]. split; [|split; [reflexivity|split; [vm_compute; reflexivity|vm_compute; left; discriminate]]].
    intros [|i] u Hi; [intros [= <-]; vm_compute; discriminate|lia].
  - constructor; [vm_compute; reflexivity|reflexivity|vm_compute; left; discriminate| |].
    + intros [|[|i]] s [= <-]; vm_compute; repeat split; discriminate || (left; discriminate).
    + intros [|[|i]] o [= <-]; vm_compute; repeat split; left; discriminate.
  - vm_compute. left. discriminate.
  - cbn. lia.
  - exists m'. split; [|split].
    + rewrite (HM [120]); [reflexivity|].
      split; [vm_compute; split; reflexivity|]. split; [vm_compute; repeat split; discriminate|]. split; [vm_compute; reflexivity|].
      split; [vm_compute; right; discriminate|]. intros [|[|i]] t [= <-]; vm_compute; discriminate.
    + exact (HR 0%nat _ eq_refl).
    + etrans; [apply (ld_le_frame 8 demo_lacking)|vm_compute; reflexivity]. intros x Hx. apply HO. right. change (0x8308 <= x). lia.
Defined.
Lemma import_names_compared_as_wide_witness :
  strcmp_iw 4 (list_to_map [(100, 97); (101, 98); (103, 1); (104, 97); (105, 98)]) 100 104 = Some false.
Proof.
  apply (import_names_compared_as_wide 4 _ 100 104 [97; 98]); try (vm_compute; repeat split; discriminate).
  - exists 1%nat. reflexivity.
  - repeat constructor; discriminate.
  - intros x. apply bytes_ok_list. repeat constructor; cbn; lia.
Defined.
(** One block with two entries: the second is not applied. *)
Definition demo_half : mem :=
  put16 (demo_words (st_le 8 (st_le 8 ∅ 0x11010 7) 0x11020 7) [(0x9098, 0x2000); (0x909C, 12); (0x12000, 0x1000); (0x12004, 12)]) 0x12008 [0xA010; 0xA020].
Lemma library_half_relocated_witness :
  exists m', pe_image_relocation1 3 demo_half 0x9000 0x10000 5 = Some (m', true) /\ ld_le 8 m' 0x11010 = 12 /\ ld_le 8 m' 0x11020 = 7.
Proof.
  destruct (library_half_relocated 3 demo_half 0x9000 0x10000 5 [(0x1000, [0xA010; 0xA020])]) as (m' & E & H1 & H2).
  - vm_compute. repeat split.
  - vm_compute. reflexivity.
  - vm_compute. split; congruence.
  - cbn. lia.
  - constructor; [vm_compute; left; discriminate|constructor].
  - repeat constructor.
  - exists m'. split; [exact E|]. split; [exact (H1 0x11010 (or_introl eq_refl))|].
    etrans; [apply (ld_le_frame 8 demo_half)|vm_compute; reflexivity]. intros x Hx. apply H2. constructor; [|constructor]. right. change (0x11010 + 8 <= x). lia.
Defined.
