(* ===== verification/NtLoad.v ===== *)
(** * NtLoad: libraries and thread storage, src/core/exe/ninja/ntdll/tls.h

    The table of loaded modules, the sections of an image, the recursive loading
    of a library with everything it imports, and the set-up of thread-local
    storage.  The local arrays of the recursive call are at addresses given by
    the depth of the call; the variables that it gets by reference, the top of
    memory and the last module number, are passed and returned. *)
From Stdlib Require Import String.
From S2P Require Import Prelude Bytes MemLib StrLib Wide Pe NinjaLib Seh NtImport.
Open Scope Z_scope.

(** ** Data *)
Definition MAX_THREAD_PER_PROCESS : Z := 256.
Definition IMAGE_DIRECTORY_ENTRY_EXCEPTION : Z := 3.
Definition IMAGE_DIRECTORY_ENTRY_TLS : Z := 9.
Definition gs_teb : Z := 0x30.
Definition gs_peb : Z := 0x60.
(** [struct image_tls_directory64]. *)
Definition tls_StartAddressOfRawData : Z := 0.
Definition tls_EndAddressOfRawData : Z := 8.
Definition tls_AddressOfIndex : Z := 16.
Definition tls_AddressOfCallBacks : Z := 24.
(** [struct TEB] of the user program; the offset in its comment is another. *)
Definition teb_ThreadLocalStoragePointer : Z := 0x58.
Definition teb_TlsSlots : Z := 0x340.
(** Headers in memory. *)
Definition dh_e_lfanew : Z := 60.
Definition fh_number_of_sections : Z := 2.
Definition fh_size_of_optional_header : Z := 16.
Definition oh_address_of_entry_at : Z := 16.
Definition oh_image_base_at : Z := 24.
Definition oh_size_of_image_at : Z := 56.
Definition oh_size_of_headers_at : Z := 60.
Definition sh_virtual_size_at : Z := 8.
Definition sh_virtual_address_at : Z := 12.
Definition sh_size_of_raw_data_at : Z := 16.
Definition sh_pointer_to_raw_data_at : Z := 20.
(** The local arrays of [load_dll], and those of the routines it calls. *)
Record dll_frame := DllFrame { f_path : Z; f_dos : Z; f_sig : Z; f_opt : Z; f_sec : Z; f_iat : Z }.
Record nt_locals := NtLocals { l_wname : Z; l_path_u : Z; l_name : Z; l_file_name : Z; l_frame : nat -> dll_frame }.

(** ** Images in memory *)
Definition nt_get_opt_header64 (m : mem) (loaded_base_addr : Z) : Z :=
  ld_le 4 m (loaded_base_addr + dh_e_lfanew) + 4 + sizeof_pe_file_header + loaded_base_addr.
(** The first section with the name at [name]; 0 if there is none. *)
Fixpoint section_loop (fuel n : nat) (m : mem) (headers name i : Z) : option Z :=
  match n with
  | O => Some 0
  | S n' =>
      let h := headers + i * sizeof_pe_section_header in
      r ← strcmp_i fuel m h name;
      if r : bool then Some h else section_loop fuel n' m headers name (i + 1)
  end.
Definition find_section (fuel : nat) (m : mem) (base name : Z) : option Z :=
  let off := ld_le 4 m (base + dh_e_lfanew) in
  let fh := off + 4 + base in
  let opt := off + 4 + sizeof_pe_file_header + base in
  section_loop fuel (Z.to_nat (ld_le 2 m (fh + fh_number_of_sections))) m (opt + ld_le 2 m (fh + fh_size_of_optional_header)) name 0.
(** Exports, as in the kernel. *)
Definition pe_find_export_addr_pointer_by_name1 (fuel : nat) (m : mem) (name dir base : Z) : option Z :=
  let table := ld_le 4 m dir + base in
  r ← export_index fuel (Z.to_nat (ld_le 4 m (table + ed_number_of_names))) m table base name 0;
  Some (match r with None => 0 | Some i => export_slot m table base i end).
Fixpoint patch_loop1 (fuel n : nat) (m : mem) (ntdll_dir ninja_table ntdll ninja i : Z) : option mem :=
  if negb (i <? ld_le 4 m (ninja_table + ed_number_of_names)) then Some m
  else
    match n with
    | O => None
    | S n' =>
        let name := ld_le 4 m (ld_le 4 m (ninja_table + ed_address_of_names) + ninja + 4 * i) + ninja in
        if name =? 0 then Some m
        else
          let rva := ld_le 4 m (export_slot m ninja_table ninja i) in
          p ← pe_find_export_addr_pointer_by_name1 fuel m name ntdll_dir ntdll;
          patch_loop1 fuel n' (if negb (p =? 0) then st_le 4 m p (rva + ninja - ntdll) else m) ntdll_dir ninja_table ntdll ninja (i + 1)
    end.
Definition patch_export1 (fuel : nat) (m : mem) (ntdll ninja : Z) : option mem :=
  let ntdll_dir := opt_directory (nt_get_opt_header64 m ntdll) IMAGE_DIRECTORY_ENTRY_EXPORT in
  let ninja_table := ld_le 4 m (opt_directory (nt_get_opt_header64 m ninja) IMAGE_DIRECTORY_ENTRY_EXPORT) + ninja in
  patch_loop1 fuel (Z.to_nat (ld_le 4 m (ninja_table + ed_number_of_names))) m ntdll_dir ninja_table ntdll ninja 0.

Section Load.
Context {K : Type} `{UserMachine K} (fuel : nat) (g : nt_globals) (x : nt_locals).
(** ** The table of modules *)
Definition nt_base_of (m : mem) (dll_id : Z) : Z :=
  let d := u64 (ld_le 8 m (gs_base + gs_peb) + 4096 * 4 + sizeof_loaded_dll * dll_id) in
  if negb (d =? 0) then ld_le 8 m (d + ld_dll_base) else 0.
Definition nt_get_base_address_from_peb (dll_id : Z) : ST (ustate K) Z := umem (fun m => nt_base_of m dll_id).
Definition get_rdata_section (dll_id : Z) : ST (ustate K) Z := ends (fun m => find_section fuel m (nt_base_of m dll_id) (lit ".rdata")).
Definition get_text_section (dll_id : Z) : ST (ustate K) Z := ends (fun m => find_section fuel m (nt_base_of m dll_id) (lit ".text")).
Fixpoint dll_loop (n : nat) (m : mem) (dlls wname i : Z) : option Z :=
  match n with
  | O => Some (-1)
  | S n' =>
      let d := dlls + sizeof_loaded_dll * i in
      if ld_le 8 m (d + ld_dll_base) =? 0 then dll_loop n' m dlls wname (i + 1)
      else
        r ← strcmp_iw fuel m (d + ld_name) wname;
        if r : bool then Some i else dll_loop n' m dlls wname (i + 1)
  end.
Definition find_dll_loaded (dll_file_name : Z) : ST (ustate K) Z :=
  l ← ends (fun m => nt_strlen fuel m dll_file_name);
  _ ← set_ends (fun m => r ← nt_utf8_to_utf16 m dll_file_name (l + 1) (l_wname x) (l + 1); Some (fst r));
  peb ← gs_word gs_peb;
  ends (fun m => dll_loop (Z.to_nat MAX_THREAD_PER_PROCESS) m (peb + 4 * 4096) (l_wname x) 0).

(** ** Loading *)
(** [sh] is the address of the section header. *)
Definition pe_load_section_to_memory1 (path sh image_base : Z) : ST (ustate K) Z :=
  raw ← umem (fun m => ld_le 4 m (sh + sh_size_of_raw_data_at));
  ptr ← umem (fun m => ld_le 4 m (sh + sh_pointer_to_raw_data_at));
  vsize ← umem (fun m => ld_le 4 m (sh + sh_virtual_size_at));
  va ← umem (fun m => u64 (ld_le 4 m (sh + sh_virtual_address_at) + image_base));
  let copy_size := if vsize <? raw then vsize else raw in
  rs ← (if 0 <? raw then r ← nt_read_file path va ptr copy_size; mret (s32 r) else mret 0);
  if rs <? 0 then mret rs
  else
    _ ← when (raw <? vsize) (set_umem (fun m => nt_erase_mem8 m (u64 (va + raw)) (vsize - raw)));
    mret 0.
Definition alloc_pages (num_pages current_top_mem_addr : Z) : ST (ustate K) Z :=
  _ ← nt_extend_cr3 current_top_mem_addr (num_pages * 4096); mret current_top_mem_addr.
(** One section of [load_dll]; a failure is only reported. *)
Definition load_dll_section (f : dll_frame) (name top off opt_size i : Z) : ST (ustate K) unit :=
  _ ← nt_read_file (f_path f) (f_sec f) (off + 4 + sizeof_pe_file_header + opt_size + i * sizeof_pe_section_header) sizeof_pe_section_header;
  let xxxx := u64 (5394555049 - top) in
  odd ← umem (fun m =>
    let va := ld_le 4 m (f_sec f + sh_virtual_address_at) in
    (nt_memcmp m name (lit "msvcrt.dll") 11 =? 0) && (va <? xxxx) && (xxxx <? u32 (va + ld_le 4 m (f_sec f + sh_virtual_size_at))));
  _ ← (if odd : bool then nt_echo fuel (f_sec f) else mret 0);
  res ← pe_load_section_to_memory1 (f_path f) (f_sec f) top;
  if res <? 0 then _ ← nt_echo fuel name; _ ← nt_echo_lit ": Load section to memory failed"; mret tt else mret tt.
(** The headers of the file in the local arrays; the offset of the second and
    the size of the third one, or the error. *)
Definition load_dll_headers (f : dll_frame) : ST (ustate K) (Z + Z * Z) :=
  _ ← nt_read_file (f_path f) (f_dos f) 0 64;
  magic ← umem (fun m => ld_le 2 m (f_dos f));
  if negb (magic =? 0x5A4D) then mret (inl (- nt_ENOEXEC))
  else
    off ← umem (fun m => ld_le 4 m (f_dos f + dh_e_lfanew));
    _ ← nt_read_file (f_path f) (f_sig f) off 24;
    sig ← umem (fun m => cells m (f_sig f) 4);
    if negb (bool_decide (sig = [80; 69; 0; 0])) then mret (inl (- nt_ENOEXEC))
    else
      opt_size ← umem (fun m => ld_le 2 m (f_sig f + 4 + fh_size_of_optional_header));
      _ ← set_umem (fun m => nt_memset m (f_opt f) 0 opt_size);
      _ ← nt_read_file (f_path f) (f_opt f) (off + 4 + sizeof_pe_file_header) opt_size;
      magic ← umem (fun m => ld_le 2 m (f_opt f));
      if negb (magic =? 0x20B) then mret (inl (- nt_ENOEXEC)) else mret (inr (off, opt_size)).
(** The image, relocated, bound to its importer and entered into the lists. *)
Definition load_dll_image (f : dll_frame) (name main_base top iat_dir tls_id off opt_size : Z) : ST (ustate K) bool :=
  dist ← umem (fun m => s64 (top - ld_le 8 m (f_opt f + oh_image_base_at)));
  size ← umem (fun m => ld_le 4 m (f_opt f + oh_size_of_image_at));
  _ ← nt_extend_cr3 top size;
  hsize ← umem (fun m => ld_le 4 m (f_opt f + oh_size_of_headers_at));
  _ ← nt_read_file (f_path f) top 0 hsize;
  n ← umem (fun m => ld_le 2 m (f_sig f + 4 + fh_number_of_sections));
  _ ← for_m (Z.to_nat n) 0 (load_dll_section f name top off opt_size);
  ok ← ends (fun m => pe_image_relocation1 fuel m (f_opt f) top dist);
  _ ← set_umem (fun _ => fst ok);
  if negb (snd ok) then mret false
  else
    ninja ← nt_get_base_address_from_peb 2;
    _ ← set_ends (fun m => patch_export1 fuel m top ninja);
    _ ← pe_iat_process fuel g name iat_dir (f_opt f) main_base top;
    peb ← gs_word gs_peb;
    list ← umem (fun m => ld_le 8 m (peb + peb_loaded_dlls));
    _ ← set_ends (fun m => nt_add_loaded_dll fuel (l_path_u x) (l_name x) (l_file_name x) m (tls_id + 1) name list (peb + 4 * 4096) top);
    mret true.
(** The result, the new top of memory and the new number of the last module. *)
Fixpoint load_dll (depth : nat) (name main_base top iat_dir tls_id : Z) : ST (ustate K) (Z * Z * Z) :=
  match depth with
  | O => fun _ => Stuck
  | S d =>
      let f := l_frame x depth in
      _ ← nt_echo fuel name; _ ← nt_echo_lit (":" ++ newline);
      loaded_id ← find_dll_loaded name;
      if negb (loaded_id =? -1) then
        base ← nt_get_base_address_from_peb loaded_id;
        opt ← umem (fun m => nt_get_opt_header64 m base);
        _ ← pe_iat_process fuel g name iat_dir opt main_base base;
        mret (0, top, tls_id)
      else
        l ← ends (fun m => nt_strlen fuel m name);
        if l =? 0 then mret (-1, top, tls_id)
        else
          _ ← set_ends (fun m => nt_strconcat fuel m (f_path f) (lit "") name);
          h ← load_dll_headers f;
          match h : (Z + Z * Z) with
          | inl e => mret (e, top, tls_id)
          | inr (off, opt_size) =>
              ok ← load_dll_image f name main_base top iat_dir tls_id off opt_size;
              if negb ok then mret (-1, top, tls_id)
              else
                _ ← set_umem (fun m => nt_memcpy m (f_iat f) (opt_directory (f_opt f) IMAGE_DIRECTORY_ENTRY_IMPORT) sizeof_data_directory);
                va ← umem (fun m => ld_le 4 m (opt_directory (f_opt f) IMAGE_DIRECTORY_ENTRY_IMPORT));
                size ← umem (fun m => ld_le 4 m (f_opt f + oh_size_of_image_at));
                r ← (fix subs (n : nat) (desc top' tls' : Z) : ST (ustate K) (Z * Z) :=
                       match n with
                       | O => fun _ => Stuck
                       | S n' =>
                           nm ← umem (fun m => ld_le 4 m (desc + id_name));
                           if (desc =? 0) || (nm =? 0) then mret (top', tls')
                           else
                             s ← load_dll d (u64 (nm + top)) top top' (f_iat f) tls';
                             let '(lib_loaded, top1, tls1) := s in
                             _ ← (if lib_loaded <? 0 then _ ← nt_echo_lit "Load dll failed: "; nt_echo fuel (u64 (nm + top)) else mret 0);
                             subs n' (desc + sizeof_import_descriptor) top1 tls1
                       end) fuel (u64 (va + top)) (u64 (top + nt_div_ceil size 4096 * 4096)) (tls_id + 1);
                exc ← umem (fun m => u64 (ld_le 4 m (opt_directory (f_opt f) IMAGE_DIRECTORY_ENTRY_EXCEPTION) + top));
                p ← ends (fun m => add_pdata_entry_when_load_image (g_pdata_table g) m exc (fst r) size);
                _ ← set_umem (fun _ => fst p);
                mret (0, fst r, snd r)
          end
  end.

(** ** Thread storage *)
Fixpoint tls_callbacks (n : nat) (callback tls_id : Z) : ST (ustate K) unit :=
  match n with
  | O => fun _ => Stuck
  | S n' =>
      c ← umem (fun m => ld_le 8 m callback);
      if c =? 0 then mret tt
      else
        base ← nt_get_base_address_from_peb tls_id;
        _ ← call_code c [base; 1; 0];
        tls_callbacks n' (callback + 8) tls_id
  end.
(** The result and the new top of memory. *)
Definition process_tls (tls tls_id top tls_id_buf : Z) : ST (ustate K) (Z * Z) :=
  start ← umem (fun m => ld_le 8 m (tls + tls_StartAddressOfRawData));
  stop ← umem (fun m => ld_le 8 m (tls + tls_EndAddressOfRawData));
  if (start =? 0) || (stop =? 0) then mret (0, top)
  else
    _ ← set_umem (fun m => st_le 8 m (tls + tls_AddressOfIndex) (tls_id_buf + 4 * tls_id));
    _ ← set_umem (fun m => st_le 4 m (tls_id_buf + 4 * tls_id) tls_id);
    stop ← umem (fun m => ld_le 8 m (tls + tls_EndAddressOfRawData));
    start ← umem (fun m => ld_le 8 m (tls + tls_StartAddressOfRawData));
    let size := u64 (stop - start) in
    let top := u64 (nt_div_ceil top 4096 * 4096) in
    let count := nt_div_ceil size 4096 in
    addr ← alloc_pages count top;
    let top := u64 (top + count * 4096) in
    start ← umem (fun m => ld_le 8 m (tls + tls_StartAddressOfRawData));
    _ ← set_umem (fun m => nt_memcpy m addr start size);
    teb ← gs_word gs_teb;
    _ ← set_umem (fun m => if tls_id <? 64 then st_le 8 m (teb + teb_TlsSlots + 8 * tls_id) addr
                           else st_le 4 m (tls_id_buf + 4 * (tls_id - 64)) addr);
    cb ← umem (fun m => ld_le 8 m (tls + tls_AddressOfCallBacks));
    _ ← (if cb =? 0 then mret tt else tls_callbacks fuel cb tls_id);
    mret (1, top).
End Load.

(** ** The tables of the kernel and of the program agree *)
Section SamePatch.
Lemma patch_loop1_same fuel n : forall m dir nt ntdll ninja i, patch_loop1 fuel n m dir nt ntdll ninja i = patch_loop fuel n m dir nt ntdll ninja i.
Proof.
  induction n as [|n IH]; intros m dir nt ntdll ninja i; cbn [patch_loop1 patch_loop]; [done|]. case_match; [done|]. cbv zeta. case_match; [done|].
  change (pe_find_export_addr_pointer_by_name1 fuel) with (pe_find_export_addr_pointer_by_name fuel).
  destruct (pe_find_export_addr_pointer_by_name _ _ _ _ _); [|done]. cbn [mbind option_bind]. apply IH.
Qed.
End SamePatch.

Section Modules.
Context {K : Type} `{UserMachine K} (fuel : nat) (x : nt_locals).
(** Running a loop that ends, and one that changes memory. *)
Lemma ends_done {A B} (f : mem -> option A) (c : A -> ST (ustate K) B) m k a :
  f m = Some a -> (ends f ≫= c) (UState m k) = c a (UState m k).
Proof. intros E. unfold mbind, st_bind, ends. cbn [u_mem]. by rewrite E. Qed.
Lemma set_ends_done {B} (f : mem -> option mem) (c : unit -> ST (ustate K) B) m m' k :
  f m = Some m' -> (set_ends f ≫= c) (UState m k) = c tt (UState m' k).
Proof. intros E. unfold set_ends, mbind, st_bind, ends, set_umem, modify. cbn [u_mem u_kern]. by rewrite E. Qed.
Lemma umem_done {A B} (f : mem -> A) (c : A -> ST (ustate K) B) m k : (umem f ≫= c) (UState m k) = c (f m) (UState m k).
Proof. reflexivity. Qed.
Lemma set_umem_done {B} f (c : unit -> ST (ustate K) B) m k : (set_umem f ≫= c) (UState m k) = c tt (UState (f m) k).
Proof. reflexivity. Qed.
Lemma bind_bind {A B C} (a : ST (ustate K) A) (f : A -> ST (ustate K) B) (h : B -> ST (ustate K) C) s :
  ((a ≫= f) ≫= h) s = (a ≫= (fun v => f v ≫= h)) s.
Proof. unfold mbind, st_bind. by destruct (a s) as [[v s']| | |]. Qed.
(** Entry [i] of the table at [dlls]. *)
Definition module_base (m : mem) (dlls i : Z) : Z := ld_le 8 m (dlls + sizeof_loaded_dll * i + ld_dll_base).
Lemma dll_loop_spec n : forall m dlls w s (name_of : Z -> list Z) i,
  wstr m w s -> slen s < Z.of_nat fuel ->
  (forall j, i <= j < i + Z.of_nat n -> module_base m dlls j <> 0 ->
     wstr m (dlls + sizeof_loaded_dll * j + ld_name) (name_of j) /\ slen (name_of j) < Z.of_nat fuel) ->
  dll_loop fuel n m dlls w i =
  Some (default (-1) (find_idx n i (fun j => negb (module_base m dlls j =? 0) && bool_decide (map lower (name_of j) = map lower s)))).
Proof.
  induction n as [|n IH]; intros m dlls w s name_of i Hw Hf HM; cbn [dll_loop find_idx]; [done|].
  change (ld_le 8 m (dlls + sizeof_loaded_dll * i + ld_dll_base)) with (module_base m dlls i).
  destruct (Z.eqb_spec (module_base m dlls i) 0) as [E|Hne]; cbn [negb andb].
  - apply IH; [done|done|]. intros j Hj. apply HM. lia.
  - destruct (HM i ltac:(lia) Hne) as [Hn Hl]. rewrite (strcmp_iw_wstr fuel m _ w (name_of i) s Hn Hw Hl). cbn [mbind option_bind].
    case_bool_decide; [done|]. apply IH; [done|done|]. intros j Hj. apply HM. lia.
Qed.
End Modules.

(** C38: A library is found loaded exactly if an entry of the table of modules in
    use bears its name, whatever the case of the letters, and the first such
    entry is returned; only the local array is written. *)
Theorem find_dll_loaded_first {K : Type} `{UserMachine K} (fuel : nat) (x : nt_locals) (m : mem) (k : K) (p : Z) (s : list Z) (name_of : Z -> list Z) :
  let dlls := ld_le 8 m (gs_base + gs_peb) + 4 * 4096 in
  let w := l_wname x in
  let hi := w + 2 * (slen s + 1) in
  StrLib.cstr m p s -> Forall (fun c => 0 < c < 128) s -> slen s < Z.of_nat fuel ->
  out w hi p (slen s + 1) -> out w hi (gs_base + gs_peb) 8 -> out w hi dlls (sizeof_loaded_dll * MAX_THREAD_PER_PROCESS + 2 * Z.of_nat fuel) ->
  (forall j, 0 <= j < MAX_THREAD_PER_PROCESS -> module_base m dlls j <> 0 ->
     wstr m (dlls + sizeof_loaded_dll * j + ld_name) (name_of j) /\ slen (name_of j) < Z.of_nat fuel) ->
  exists m', find_dll_loaded fuel x p (UState m k) =
      Done (default (-1) (find_idx 256 0 (fun j => negb (module_base m dlls j =? 0) && bool_decide (map lower (name_of j) = map lower s))), UState m' k) /\
    (forall a, a < w \/ hi <= a -> ld m' a = ld m a).
Proof.
  intros dlls w hi Hs Ha Hf Hop Hog Hot HM. pose proof (slen_nonneg s). unfold out, MAX_THREAD_PER_PROCESS, sizeof_loaded_dll in *.
  destruct (ascii_to_utf16 m p s w Hs Ha) as (m' & E & HW & HF); [unfold hi in *; lia|]. fold hi in HF. exists m'. split; [|exact HF].
  unfold find_dll_loaded. erewrite ends_done; [|unfold nt_strlen; rewrite (find_nul_cstr fuel m p s Hs Hf); reflexivity].
  replace (p + slen s - p) with (slen s) by lia.
  erewrite set_ends_done; [|cbn [mbind option_bind]; fold w; rewrite E; reflexivity]. cbn [fst].
  unfold gs_word. rewrite umem_done.
  assert (Eg : ld_le 8 m' (gs_base + gs_peb) = ld_le 8 m (gs_base + gs_peb)) by (apply ld_le_frame; intros a Ha'; apply HF; lia).
  rewrite Eg. fold dlls w.
  assert (EB : forall j, 0 <= j < 256 -> module_base m' dlls j = module_base m dlls j).
  { intros j Hj. apply ld_le_frame. unfold sizeof_loaded_dll, ld_dll_base. intros a Ha'. apply HF. lia. }
  unfold ends. cbn [u_mem]. change MAX_THREAD_PER_PROCESS with 256.
  rewrite (dll_loop_spec fuel (Z.to_nat 256) m' dlls w s name_of 0 HW Hf).
  - do 3 f_equal. apply find_idx_ext. intros j Hj. by rewrite EB by lia.
  - intros j Hj Hne. rewrite EB in Hne by lia. destruct (HM j ltac:(lia) Hne) as [[Hn Hz] Hl]. split; [|exact Hl]. split; [|exact Hz].
    unfold slen in Hl. unfold sizeof_loaded_dll, ld_name in *. eapply at16_ext; [|exact Hn]. intros a Ha'. rewrite length_app in Ha'. cbn [length] in Ha'. apply HF. lia.
Qed.

(** ** Thread storage *)
(** [lia] with the hypotheses named and no others. *)
Tactic Notation (at level 0) "lia_on" ne_hyp_list(l) := clear - l; lia.
(** What the program relies on when it asks for memory: the call returns and
    changes nothing outside the pages asked for. *)
Definition mmap_frames {K : Type} `{UserMachine K} : Prop := forall addr size a3 a4 a5 a6 m k, exists r m' k',
  sys_insn SYS_mmap [addr; size; a3; a4; a5; a6] (UState m k) = Done (r, UState m' k') /\
  (forall a, a < addr \/ addr + size <= a -> ld m' a = ld m a).
Section Tls.
Context {K : Type} `{UserMachine K} (fuel : nat).
Lemma extend_done {B} (c : Z -> ST (ustate K) B) m k addr size : mmap_frames ->
  exists r m' k', (nt_extend_cr3 addr size ≫= c) (UState m k) = c r (UState m' k') /\ (forall a, a < addr \/ addr + size <= a -> ld m' a = ld m a).
Proof.
  intros HM. destruct (HM addr size PROT_RWE (Z.lor (Z.lor MAP_PRIV MAP_ANON) MAP_FIXED_NOREPLACE) (neg64 1) 0 m k) as (r & m' & k' & E & HF).
  exists (if s64 r <? 0 then 0 else s64 r), m', k'. split; [|exact HF].
  unfold nt_extend_cr3, callsys. cbv [mbind st_bind mret st_ret]. by rewrite E.
Qed.
End Tls.

(** For a module among the first 64 with thread data and no callbacks, setting
    up thread storage copies the data to fresh pages at the top of memory, stores
    their address in the slot of the module and its number in the table of
    indices; it redirects the index pointer of the module instead of writing
    through it, so the variable that the code of the module reads stays as it was. *)
Theorem tls_block_installed {K : Type} `{UserMachine K} (fuel : nat) (m : mem) (k : K) (tls id top buf var : Z) :
  let start := ld_le 8 m (tls + tls_StartAddressOfRawData) in
  let size := ld_le 8 m (tls + tls_EndAddressOfRawData) - start in
  let addr := nt_div_ceil top 4096 * 4096 in
  let room := nt_div_ceil size 4096 * 4096 in
  let slot := ld_le 8 m (gs_base + gs_teb) + teb_TlsSlots + 8 * id in
  mmap_frames -> 0 <= id < 64 -> start <> 0 -> 0 < size <= room -> 0 <= addr -> addr + room < 2 ^ 64 -> 0 <= buf < 2 ^ 63 ->
  ld_le 8 m (tls + tls_EndAddressOfRawData) <> 0 -> 0 <= size < 2 ^ 64 -> ld_le 8 m (tls + tls_AddressOfCallBacks) = 0 ->
  ld_le 8 m (tls + tls_AddressOfIndex) = var ->
  (* the regions lie apart *)
  tls + 40 <= addr -> start + size <= addr -> buf + 256 <= addr -> slot + 8 <= addr -> var + 4 <= addr -> gs_base + gs_teb + 8 <= addr ->
  out buf (buf + 256) tls 40 -> out buf (buf + 256) start size -> out buf (buf + 256) (gs_base + gs_teb) 8 -> out buf (buf + 256) var 4 ->
  out buf (buf + 256) slot 8 -> out tls (tls + 40) slot 8 -> out tls (tls + 40) (gs_base + gs_teb) 8 -> out tls (tls + 40) start size ->
  out tls (tls + 40) var 4 -> out var (var + 4) slot 8 ->
  exists m' k', process_tls fuel tls id top buf (UState m k) = Done ((1, addr + room), UState m' k') /\
    cells m' addr (Z.to_nat size) = cells m start (Z.to_nat size) /\
    ld_le 8 m' slot = addr /\ ld_le 4 m' (buf + 4 * id) = id /\
    ld_le 8 m' (tls + tls_AddressOfIndex) = buf + 4 * id /\ ld_le 4 m' var = ld_le 4 m var.
Proof.
  intros start size addr room slot HM Hid Hs Hsz Ha Hr Hbuf He Hszr Hcb Hvar A1 A2 A3 A4 A5 A6 O1 O2 O3 O4 O5 O6 O7 O8 O9 O10.
  unfold out, tls_StartAddressOfRawData, tls_EndAddressOfRawData, tls_AddressOfIndex, tls_AddressOfCallBacks in *.
  unfold process_tls. rewrite !umem_done. unfold tls_StartAddressOfRawData, tls_EndAddressOfRawData, tls_AddressOfIndex, tls_AddressOfCallBacks.
  fold start. rewrite (proj2 (Z.eqb_neq start 0) Hs), (proj2 (Z.eqb_neq _ 0) He). cbn [orb].
  rewrite !set_umem_done, !umem_done.
  set (m2 := st_le 4 (st_le 8 m (tls + 16) (buf + 4 * id)) (buf + 4 * id) id).
  assert (F2 : forall a, (a < tls + 16 \/ tls + 24 <= a) -> (a < buf \/ buf + 256 <= a) -> ld m2 a = ld m a)
    by (intros a B1 B2; unfold m2; rewrite !st_le_ld_ne by lia_on Hid B1 B2; done).
  assert (E1 : ld_le 8 m2 (tls + 8) = ld_le 8 m (tls + 8)) by (apply ld_le_frame; intros a B; apply F2; lia_on B O1).
  assert (E0 : ld_le 8 m2 (tls + 0) = start) by (apply ld_le_frame; intros a B; apply F2; lia_on B O1).
  rewrite E1, E0. fold size. rewrite (u64_id size) by lia_on Hszr. fold addr. rewrite (u64_id addr) by lia_on Ha Hr Hsz.
  unfold alloc_pages. change (nt_div_ceil size 4096 * 4096) with room. rewrite bind_bind.
  match goal with |- context [(nt_extend_cr3 addr room ≫= ?c) (UState m2 k)] => destruct (extend_done c m2 k addr room HM) as (r & m3 & k3 & -> & F3) end.
  assert (F32 : forall a, a < addr -> (a < tls + 16 \/ tls + 24 <= a) -> (a < buf \/ buf + 256 <= a) -> ld m3 a = ld m a)
    by (intros a B1 B2 B3; rewrite F3 by (by left); by apply F2).
  rewrite mret_bind, umem_done. assert (E3 : ld_le 8 m3 (tls + 0) = start) by (apply ld_le_frame; intros a B; apply F32; lia_on B A1 O1). rewrite E3.
  rewrite set_umem_done. set (m4 := nt_memcpy m3 addr start size).
  assert (F4 : forall a, a < addr -> ld m4 a = ld m3 a) by (intros a B; unfold m4; apply memcpy_ne; lia_on B Hsz A2).
  unfold gs_word. rewrite umem_done, set_umem_done, umem_done. rewrite (proj2 (Z.ltb_lt id 64) (proj2 Hid)).
  assert (E4 : ld_le 8 m4 (gs_base + gs_teb) = ld_le 8 m (gs_base + gs_teb))
    by (apply ld_le_frame; intros a B; rewrite F4 by lia_on B A6; apply F32; lia_on B A6 O3 O7).
  rewrite E4. fold slot. set (m5 := st_le 8 m4 slot addr).
  assert (F5 : forall a, a < addr -> (a < tls + 16 \/ tls + 24 <= a) -> (a < buf \/ buf + 256 <= a) -> (a < slot \/ slot + 8 <= a) -> ld m5 a = ld m a)
    by (intros a B1 B2 B3 B4; unfold m5; rewrite st_le_ld_ne by lia_on B4; rewrite F4 by done; by apply F32).
  assert (E5 : ld_le 8 m5 (tls + 24) = 0) by (rewrite <- Hcb; apply ld_le_frame; intros a B; apply F5; lia_on B A1 O1 O6). rewrite E5. cbn [Z.eqb].
  exists m5, k3. rewrite mret_bind. split; [by rewrite u64_id by lia_on Ha Hr Hsz|].
  assert (G : forall a, a < addr -> (a < slot \/ slot + 8 <= a) -> ld m5 a = ld m2 a)
    by (intros a B1 B2; unfold m5; rewrite st_le_ld_ne by lia_on B2; rewrite F4 by done; apply F3; by left).
  split; [|split; [|split; [|split]]].
  - transitivity (cells m4 addr (Z.to_nat size)); [apply cells_ext; intros a B; unfold m5; rewrite st_le_ld_ne by lia_on B A4; done|].
    unfold m4, nt_memcpy. change (memcpy_loop _ m3 addr start 0) with (memcpy m3 addr start size). rewrite cells_memcpy by lia_on A2 Hsz.
    apply cells_ext. intros a B. apply F32; lia_on B A2 Hsz O2 O8.
  - unfold m5. apply ld_le_st8. lia_on Ha Hr Hsz.
  - transitivity (ld_le 4 m2 (buf + 4 * id)); [apply ld_le_frame; intros a B; apply G; lia_on B A3 Hid O5|]. apply ld_le_st_le. lia_on Hid.
  - transitivity (ld_le 8 m2 (tls + 16)); [apply ld_le_frame; intros a B; apply G; lia_on B A1 O6|].
    unfold m2. rewrite ld_le_st_le_ne by lia_on O1 Hid. apply ld_le_st8. lia_on Hbuf Hid.
  - apply ld_le_frame. intros a B. apply F5; lia_on B A5 O4 O9 O10.
Qed.

(** ** Witnesses *)
#[local] Instance calm_machine : UserMachine unit := {| sys_insn := fun _ _ => mret 0; call_code := fun _ _ => mret tt; gs_base := 0x100; lit := fun _ => 0 |}.
Definition calm_locals : nt_locals := NtLocals 0x600 0x700 0x900 0xB00 (fun _ => DllFrame 0xC00 0xD00 0xD40 0xD60 0xE60 0xEA0).
(** Module 1 is called AB. *)
Definition demo_modules : mem :=
  put16 (st_le 8 (st_le 8 (store_bytes ∅ 0x500 [97; 98; 0]) 0x160 0x100000) (0x104000 + 376 + 48) 1) (0x104000 + 376 + 344) [65; 66; 0].
Lemma find_dll_loaded_first_witness : exists m', find_dll_loaded 8 calm_locals 0x500 (UState demo_modules tt) = Done (1, UState m' tt).
Proof.
  destruct (find_dll_loaded_first 8 calm_locals demo_modules tt 0x500 [97; 98] (fun j => if j =? 1 then [65; 66] else [])) as (m' & E & _).
  - vm_compute. repeat split; discriminate.
  - repeat constructor; lia.
  - vm_compute. reflexivity.
  - vm_compute. left. discriminate.
  - vm_compute. left. discriminate.
  - vm_compute. right. discriminate.
  - change (ld_le 8 demo_modules (gs_base + gs_peb) + 4 * 4096) with 0x104000. intros j Hj Hne. unfold module_base, sizeof_loaded_dll, ld_dll_base, ld_name, MAX_THREAD_PER_PROCESS in *.
    destruct (Z.eqb_spec j 1) as [->|Hj1].
    + split; [vm_compute; split; [repeat split|repeat constructor; discriminate]|vm_compute; reflexivity].
    + destruct Hne. transitivity (ld_le 8 ∅ (0x104000 + 376 * j + 48)); [|reflexivity]. apply ld_le_frame. intros a Ha. unfold demo_modules.
      rewrite put16_frame by (cbn [length Z.of_nat Pos.of_succ_nat Pos.succ]; lia).
      rewrite !st_le_ld_ne by lia. rewrite store_frame by (cbn; lia). done.
  - exists m'. rewrite E. vm_compute. reflexivity.
Defined.
Lemma calm_mmap : mmap_frames.
Proof. intros addr size a3 a4 a5 a6 m k. exists 0, m, k. split; [reflexivity|done]. Qed.
(** Eight bytes of thread data of module 1. *)
Definition demo_tls : mem :=
  fold_left (fun m e => st_le 8 m (fst e) (snd e)) [(0x130, 0x2000); (0x3000, 0x4000); (0x3008, 0x4008); (0x3010, 0x5000); (0x4000, 77)] ∅.
Lemma tls_block_installed_witness :
  exists m' k', process_tls 8 0x3000 1 0x10000 0x6000 (UState demo_tls tt) = Done ((1, 0x11000), UState m' k') /\
    ld_le 8 m' 0x2348 = 0x10000 /\ ld_le 8 m' 0x3010 = 0x6004 /\ ld_le 4 m' 0x5000 = 0.
Proof.
  destruct (tls_block_installed 8 demo_tls tt 0x3000 1 0x10000 0x6000 0x5000) as (m' & k' & E & _ & H1 & _ & H2 & H3);
    [exact calm_mmap|vm_compute; solve [repeat split; congruence|left; congruence|right; congruence] ..|].
  exists m', k'. split; [exact E|]. split; [exact H1|]. split; [exact H2|]. rewrite H3. vm_compute. reflexivity.
Defined.
(** The two loaders patch the exports of a library in the same way. *)
Theorem patch_export1_as_kernel (fuel : nat) (m : mem) (ntdll ninja : Z) : patch_export1 fuel m ntdll ninja = patch_export fuel m ntdll ninja.
Proof. apply patch_loop1_same. Qed.
