(* ===== verification/Crt.v ===== *)
(** * Crt: the C run time of Windows programs, src/core/exe/ninja/ntdll/crt.h

    Command line, security cookie, heap, the few library calls that are
    provided, and the jump into the program.  The global variables and the local
    arrays are in memory at given addresses; the time stamp counter is an
    argument. *)
From Stdlib Require Import String.
From S2P Require Import Prelude Bytes MemLib StrLib Wide Pe NinjaLib Seh NtImport NtLoad.
Open Scope Z_scope.

(** ** Data *)
Definition nt_HEAP_START : Z := 0x100000000.
Definition peb_ProcessHeap : Z := 0x30.
(** The global variables, and the local arrays of [crt_init_c] and [echoi]. *)
Record crt_vars := CrtVars {
  v_security_cookie : Z; v_security_cookie_complement : Z; v_heap_top : Z;
  v_echoi_buf : Z; v_cookie : Z; v_argv_buf : Z; v_argv_ptr_buf : Z; v_envp_buf : Z; v_envp_ptr_buf : Z
}.
(** Where [crt_init_c] jumps: the instruction, the stack pointer, the argument. *)
Record start_jump := StartJump { j_rip : Z; j_rsp : Z; j_rcx : Z }.

(** ** The command line *)
Definition is_blank (c : Z) : bool := (c =? 32) || (c =? 9) || (c =? 10).
Fixpoint count_argv_loop (n : nat) (m : mem) (argv i : Z) (last_white : bool) (count : Z) : Z :=
  match n with
  | O => count
  | S n' =>
      if is_blank (ld_le 2 m (argv + 2 * i)) then count_argv_loop n' m argv (i + 1) true count
      else count_argv_loop n' m argv (i + 1) false (if last_white then count else u64 (count + 1))
  end.
Definition count_argv (fuel : nat) (m : mem) (argv : Z) : option Z :=
  len ← strlen_w16 fuel m argv; Some (count_argv_loop (Z.to_nat len) m argv 0 false 0).
(** The copy with blanks replaced; the length is taken anew in every round. *)
Fixpoint split_copy (fuel n : nat) (m : mem) (argv_str argv_buf i : Z) : option mem :=
  len ← strlen_w16 fuel m argv_str;
  if i <? len then
    match n with
    | O => None
    | S n' =>
        let c := ld_le 2 m (argv_str + 2 * i) in
        split_copy fuel n' (st_le 2 m (argv_buf + 2 * i) (if is_blank c then 0 else c)) argv_str argv_buf (i + 1)
    end
  else Some m.
(** The pointers to the words; the length is the one of the buffer as bytes. *)
Fixpoint split_ptrs (fuel n : nat) (m : mem) (argv_buf argv_ptr_buf i arg_index : Z) (last_null : bool) : option (mem * Z) :=
  len ← nt_strlen fuel m argv_buf;
  if i <? len then
    match n with
    | O => None
    | S n' =>
        if ld_le 2 m (argv_buf + 2 * i) =? 0 then split_ptrs fuel n' m argv_buf argv_ptr_buf (i + 1) arg_index true
        else if last_null then
          split_ptrs fuel n' (st_le 8 m (argv_ptr_buf + 8 * (arg_index + 1)) (argv_buf + 2 * i)) argv_buf argv_ptr_buf (i + 1) (arg_index + 1) false
        else split_ptrs fuel n' m argv_buf argv_ptr_buf (i + 1) arg_index false
    end
  else Some (m, arg_index).
Definition split (fuel : nat) (m : mem) (argv_str argv_buf argv_ptr_buf : Z) : option mem :=
  m1 ← split_copy fuel fuel m argv_str argv_buf 0;
  r ← split_ptrs fuel fuel (st_le 8 m1 argv_ptr_buf argv_buf) argv_buf argv_ptr_buf 1 0 false;
  Some (st_le 8 (fst r) (argv_ptr_buf + 8 * snd r) 0).
(** [~cookie] and the replacement of the two forbidden values. *)
Definition cookie_of (tsc pid tid addr : Z) : Z :=
  let cookie := Z.lxor (Z.lxor (Z.lxor (Z.lxor (Z.lxor 0 tsc) (u64 (Z.shiftl pid 32))) (u64 (Z.shiftl tid 16))) addr) 0x4222 in
  if (cookie =? 0) || (cookie =? 0x2B992DDFA232) then Z.lxor cookie 0xBB40E64E else cookie.

Section Crt.
Context {K : Type} `{UserMachine K} (fuel : nat) (v : crt_vars).
Definition get_main_entry_pointaddr : ST (ustate K) Z :=
  base ← nt_get_base_address_from_peb 0;
  umem (fun m => u64 (ld_le 4 m (nt_get_opt_header64 m base + oh_address_of_entry_at) + base)).
Definition init_global_vars (tsc : Z) : ST (ustate K) unit :=
  pid ← get_pid;
  tid ← get_tid;
  let cookie := cookie_of tsc pid tid (v_cookie v) in
  _ ← set_umem (fun m => st_le 8 m (v_security_cookie v) cookie);
  set_umem (fun m => st_le 8 m (v_security_cookie_complement v) (Z.lnot cookie)).
Definition init_heap : ST (ustate K) unit :=
  peb ← gs_word gs_peb;
  _ ← get_pid;
  top ← umem (fun m => ld_le 8 m (v_heap_top v));
  _ ← nt_extend_cr3 top (4096 * 4);
  _ ← set_umem (fun m => st_le 8 m (peb + peb_ProcessHeap) (ld_le 8 m (v_heap_top v)));
  set_umem (fun m => st_le 8 m (v_heap_top v) (ld_le 8 m (v_heap_top v) - 4096 * 4)).
Definition exit_process (ret : Z) : ST (ustate K) unit := _ ← callsys 60 ret 0 0 0 0 0; mret tt.
Definition getmainargs : ST (ustate K) Z := _ ← nt_echo_lit " getmainargs"; mret 0.
Definition malloc (size : Z) : ST (ustate K) Z :=
  _ ← nt_echo_lit " malloc:";
  let block_count := u64 (size + 4095) / 4096 in
  top ← umem (fun m => ld_le 8 m (v_heap_top v));
  _ ← nt_extend_cr3 top (u64 (block_count * 4096));
  allocated_addr ← umem (fun m => ld_le 8 m (v_heap_top v));
  _ ← nt_echoi fuel (v_echoi_buf v) allocated_addr;
  _ ← set_umem (fun m => st_le 8 m (v_heap_top v) (ld_le 8 m (v_heap_top v) + block_count * 4096));
  mret allocated_addr.
Definition free : ST (ustate K) unit := _ ← nt_echo_lit " free"; mret tt.
Definition onexit : ST (ustate K) Z := _ ← nt_echo_lit " _onexit"; mret 1.
Definition exit : ST (ustate K) Z := _ ← nt_echo_lit " exit"; _ ← exit_process 0; mret 1.
Definition WriteConsoleA (buf : Z) : ST (ustate K) bool :=
  _ ← nt_echo_lit newline; _ ← nt_echo fuel buf; _ ← nt_echo_lit newline; mret true.
(** [test]: the descriptor of msvcrt.dll; one without name is looked at again. *)
Fixpoint test_find (n : nat) (base iat_entry : Z) : ST (ustate K) (Z * Z) :=
  match n with
  | O => fun _ => Stuck
  | S n' =>
      name ← umem (fun m => ld_le 4 m (iat_entry + id_name));
      if name =? 0 then test_find n' base iat_entry
      else
        same ← umem (fun m => nt_memcmp m (u64 (name + base)) (lit "msvcrt.dll") 10);
        if same =? 0 then umem (fun m => (ld_le 4 m (iat_entry + id_original_first_thunk), ld_le 4 m (iat_entry + id_first_thunk)))
        else test_find n' base (iat_entry + sizeof_import_descriptor)
  end.
Fixpoint test_print (n : nat) (base names addrs i : Z) : ST (ustate K) unit :=
  match n with
  | O => fun _ => Stuck
  | S n' =>
      imp ← umem (fun m => ld_le 8 m (names + 8 * i));
      imp1 ← umem (fun m => ld_le 8 m (addrs + 8 * i));
      if imp =? 0 then mret tt
      else
        _ ← nt_echo fuel (u64 (imp + base) + ibn_name); _ ← nt_echo_lit " : "; _ ← nt_echoi fuel (v_echoi_buf v) imp1; _ ← nt_echo_lit newline;
        test_print n' base names addrs (i + 1)
  end.
Definition test : ST (ustate K) unit :=
  base ← nt_get_base_address_from_peb 0;
  va ← umem (fun m => ld_le 4 m (opt_directory (nt_get_opt_header64 m base) IMAGE_DIRECTORY_ENTRY_IMPORT));
  t ← test_find fuel base (u64 (va + base));
  test_print fuel base (u64 (fst t + base)) (u64 (snd t + base)) 0.
Definition crt_init_c (tsc : Z) : ST (ustate K) start_jump :=
  peb ← gs_word gs_peb;
  let params := peb + peb_process_params_buf in
  argv ← umem (fun m => ld_le 8 m (params + pp_CommandLine + us_buffer));
  _ ← ends (fun m => strlen_w16 fuel m argv);
  _ ← ends (fun m => count_argv fuel m argv);
  _ ← set_ends (fun m => split fuel m argv (v_argv_buf v) (v_argv_ptr_buf v));
  envp ← umem (fun m => ld_le 8 m (params + pp_Environment));
  _ ← ends (fun m => strlen_w16 fuel m envp);
  _ ← ends (fun m => count_argv fuel m envp);
  _ ← set_ends (fun m => split fuel m envp (v_envp_buf v) (v_envp_ptr_buf v));
  _ ← init_global_vars tsc;
  _ ← init_heap;
  entry_point ← get_main_entry_pointaddr;
  let new_stack_top := 0x400000000000 - 4096 in
  _ ← nt_extend_cr3 (new_stack_top - 40960) 40960;
  _ ← test;
  _ ← set_umem (fun m => st_le 8 m (new_stack_top - 8) 0);
  mret (StartJump entry_point (new_stack_top - 8 - 0x200) peb).
End Crt.

(** ** The command line *)
Section CommandLine.
(** The characters that are neither blank nor the first behind a blank. *)
Fixpoint inner_chars (last_white : bool) (s : list Z) : Z :=
  match s with
  | [] => 0
  | c :: r => if is_blank c then inner_chars true r else (if last_white then 0 else 1) + inner_chars false r
  end.
Lemma inner_chars_range b s : 0 <= inner_chars b s <= slen s.
Proof.
  revert b. induction s as [|c s IH]; intros b; cbn [inner_chars]; [unfold slen; cbn; lia|]. rewrite slen_cons.
  pose proof (IH true). pose proof (IH false). repeat case_match; lia.
Qed.
Lemma count_loop_spec s : forall m p i b n, at16 m (p + 2 * i) s -> 0 <= n -> n + slen s < 2 ^ 64 ->
  count_argv_loop (length s) m p i b n = n + inner_chars b s.
Proof.
  induction s as [|c s IH]; intros m p i b n HA Hn Hb; cbn [count_argv_loop length inner_chars at16] in *; [lia|].
  destruct HA as [-> HA]. rewrite slen_cons in Hb. replace (p + 2 * i + 2) with (p + 2 * (i + 1)) in HA by lia. pose proof (slen_nonneg s).
  destruct (is_blank c); [by rewrite IH by (done || lia)|]. destruct b; [by rewrite IH by (done || lia)|].
  rewrite u64_id, IH by (done || lia). lia.
Qed.
Definition blank_to_nul (c : Z) : Z := if is_blank c then 0 else c.
Lemma wstr_ext m m' p s : (forall x, p <= x < p + 2 * (slen s + 1) -> ld m' x = ld m x) -> wstr m p s -> wstr m' p s.
Proof.
  intros HE [HA HZ]. split; [|exact HZ]. eapply at16_ext; [|exact HA]. intros x Hx. rewrite length_app in Hx. cbn [length] in Hx.
  apply HE. unfold slen. lia.
Qed.
Lemma split_copy_spec fuel p b full : forall rest n m i,
  wstr m p full -> Forall (fun w => 0 <= w < 2 ^ 16) full -> slen full < Z.of_nat fuel -> i + slen rest = slen full -> 0 <= i ->
  at16 m (p + 2 * i) rest -> Forall (fun w => 0 <= w < 2 ^ 16) rest -> (length rest <= n)%nat ->
  (b + 2 * slen full <= p \/ p + 2 * (slen full + 1) <= b) ->
  exists m', split_copy fuel n m p b i = Some m' /\ at16 m' (b + 2 * i) (map blank_to_nul rest) /\
    (forall x, x < b + 2 * i \/ b + 2 * slen full <= x -> ld m' x = ld m x) /\ (forall x, b + 2 * i <= x < b + 2 * slen full -> 0 <= ld m' x < 256).
Proof.
  induction rest as [|c rest IH]; intros n m i Hw Hf Hl Hi H0 HA Hr Hn Hd.
  - unfold slen in Hi at 1. cbn in Hi. exists m. split; [|split; [done|split; [done|intros; lia]]].
    destruct n; cbn [split_copy]; rewrite (strlen_w16_wstr fuel m p full Hw Hl); cbn [mbind option_bind]; (destruct (Z.ltb_spec i (slen full)); [lia|done]).
  - rewrite slen_cons in Hi. pose proof (slen_nonneg rest). destruct n as [|n]; [cbn in Hn; lia|]. cbn [split_copy].
    rewrite (strlen_w16_wstr fuel m p full Hw Hl). cbn [mbind option_bind]. destruct (Z.ltb_spec i (slen full)); [|lia].
    cbn [at16 length] in *. destruct HA as [-> HA]. apply Forall_cons_iff in Hr as [Hc Hr]. cbv zeta. fold (blank_to_nul c).
    set (m1 := st_le 2 m (b + 2 * i) (blank_to_nul c)).
    assert (F : forall x, x < b + 2 * i \/ b + 2 * i + 2 <= x -> ld m1 x = ld m x) by (intros; apply st_le_ld_ne; lia).
    destruct (IH n m1 (i + 1)) as (m' & E & HM & HF & HB); try lia; try assumption.
    + eapply wstr_ext; [|exact Hw]. intros x Hx. apply F. lia.
    + replace (p + 2 * (i + 1)) with (p + 2 * i + 2) by lia. eapply at16_ext; [|exact HA]. intros x Hx. unfold slen in *. apply F. lia.
    + exists m'. split; [exact E|]. split.
      * cbn [map at16]. replace (b + 2 * i + 2) with (b + 2 * (i + 1)) by lia. split; [|exact HM].
        etrans; [|apply (ld_le_st_le 2 m (b + 2 * i) (blank_to_nul c)); unfold blank_to_nul; case_match; change (256 ^ Z.of_nat 2) with (2 ^ 16); lia].
        apply ld_le_frame. intros x Hx. apply HF. lia.
      * split; [intros x Hx; rewrite HF by lia; apply F; lia|]. intros x Hx. destruct (Z_lt_le_dec x (b + 2 * (i + 1))); [|apply HB; lia].
        rewrite HF by lia. unfold m1. rewrite st_le_ld. destruct (Z.leb_spec (b + 2 * i) x), (Z.ltb_spec x (b + 2 * i + Z.of_nat 2)); try lia.
        apply u8_range.
Qed.
End CommandLine.

(** The number of arguments is miscounted: the routine counts the characters
    that are not blank and do not follow a blank, so a command line of one word
    has as many arguments as the word has letters. *)
Theorem count_argv_counts_characters (fuel : nat) (m : mem) (p : Z) (s : list Z) :
  wstr m p s -> slen s < Z.of_nat fuel -> slen s < 2 ^ 64 ->
  count_argv fuel m p = Some (inner_chars false s) /\ (Forall (fun c => is_blank c = false) s -> count_argv fuel m p = Some (slen s)).
Proof.
  intros Hw Hf Hb. unfold count_argv. rewrite (strlen_w16_wstr fuel m p s Hw Hf). cbn [mbind option_bind]. unfold slen at 1 2. rewrite Nat2Z.id.
  destruct Hw as [HA _]. apply at16_app in HA as [HA _]. rewrite count_loop_spec by (rewrite ?Z.mul_0_r, ?Z.add_0_r; done || lia). split; [done|].
  intros Hn. f_equal. rewrite Z.add_0_l. clear -Hn. induction Hn as [|c s Hc Hn IH]; [done|]. cbn [inner_chars]. rewrite Hc, IH, slen_cons. lia.
Qed.

(** Splitting a command line never yields an argument: the length of the copy
    is taken as that of a string of bytes, which ends inside the first character
    below 256, so the vector of pointers is closed at its first entry. *)
Theorem split_yields_no_arguments (fuel : nat) (m : mem) (p b q c : Z) (s : list Z) :
  wstr m p (c :: s) -> Forall (fun w => 0 <= w < 2 ^ 16) (c :: s) -> c < 256 -> slen (c :: s) < Z.of_nat fuel ->
  (b + 2 * slen (c :: s) <= p \/ p + 2 * (slen (c :: s) + 1) <= b) -> (q + 8 <= b \/ b + 2 * slen (c :: s) <= q) ->
  exists m', split fuel m p b q = Some m' /\ ld_le 8 m' q = 0 /\
    (forall x, x < b \/ b + 2 * slen (c :: s) <= x -> x < q \/ q + 8 <= x -> ld m' x = ld m x).
Proof.
  intros Hw Hr Hc Hf Hd Hq. pose proof Hw as [HA _]. apply at16_app in HA as [HA _].
  destruct (split_copy_spec fuel p b (c :: s) (c :: s) fuel m 0) as (m1 & E & HM & HF & HB); rewrite ?Z.mul_0_r, ?Z.add_0_r; try done; try lia.
  { unfold slen in Hf. cbn [length] in *. lia. }
  rewrite Z.mul_0_r, Z.add_0_r in HM, HF, HB. cbn [map at16] in HM. destruct HM as [Hu _]. rewrite slen_cons in *. pose proof (slen_nonneg s).
  unfold split. rewrite E. cbn [mbind option_bind]. set (m2 := st_le 8 m1 q b).
  assert (Hb : ld m2 b + 256 * ld m2 (b + 1) = blank_to_nul c).
  { rewrite <- Hu. cbn [ld_le]. rewrite Z.mul_0_r, Z.add_0_r. unfold m2. rewrite !st_le_ld_ne by lia. done. }
  assert (Hlen : exists l, nt_strlen fuel m2 b = Some l /\ l <= 1).
  { destruct fuel as [|[|f]]; [lia|lia|]. unfold nt_strlen. cbn [find_nul]. destruct (Z.eqb_spec (ld m2 b) 0) as [|Hne]; [exists 0; split; [cbn; f_equal|]; lia|].
    assert (ld m2 (b + 1) = 0) as ->; [|exists 1; split; [cbn; f_equal|]; lia].
    assert (R : 0 <= ld m2 b < 256 /\ 0 <= ld m2 (b + 1) < 256); [|apply Forall_cons_iff in Hr as [Hr _]; unfold blank_to_nul in Hb; case_match; lia].
    unfold m2. rewrite !st_le_ld_ne by lia. split; apply HB; lia. }
  destruct Hlen as (l & El & Hl). exists (st_le 8 m2 q 0). split; [|split].
  - destruct fuel as [|f]; [lia|]. cbn [split_ptrs]. rewrite El. cbn [mbind option_bind]. destruct (Z.ltb_spec 1 l); [lia|]. cbn. by rewrite Z.add_0_r.
  - apply ld_le_st8. lia.
  - intros x Hx1 Hx2. unfold m2. rewrite !st_le_ld_ne by lia. apply HF. lia.
Qed.

(** ** The heap *)
(** A system call that returns and leaves the memory of the caller alone. *)
Definition keeps_memory {K : Type} `{UserMachine K} (n : Z) : Prop :=
  forall args m k, exists r k', sys_insn n args (UState m k) = Done (r, UState m k').
(** Whole pages for [n] bytes. *)
Definition pages (n : Z) : Z := u64 (n + 4095) / 4096 * 4096.
Lemma pages_spec n : 0 <= n < 2 ^ 63 -> n <= pages n < n + 4096.
Proof. intros Hn. unfold pages. rewrite u64_id by lia. pose proof (Z.div_mod (n + 4095) 4096 ltac:(lia)). pose proof (Z.mod_pos_bound (n + 4095) 4096 ltac:(lia)). lia. Qed.
Section Heap.
Context {K : Type} `{UserMachine K} (fuel : nat) (v : crt_vars).
Context (Hwrite : keeps_memory 1) (Hpid : keeps_memory SYS_getpid) (Hmmap : mmap_frames) (Hfuel : (16 < fuel)%nat).
Lemma callsys_done {B} n a1 a2 a3 a4 a5 a6 (c : Z -> ST (ustate K) B) m k : keeps_memory n ->
  exists r k', (callsys n a1 a2 a3 a4 a5 a6 ≫= c) (UState m k) = c r (UState m k').
Proof.
  intros Hn. destruct (Hn [a1; a2; a3; a4; a5; a6] m k) as (r & k' & E). exists (s64 r), k'. unfold callsys. cbv [mbind st_bind mret st_ret]. by rewrite E.
Qed.
Lemma hex_digit_pos x i : 0 < hex_digit x i < 256.
Proof.
  unfold hex_digit. cbv zeta. generalize (Z.shiftr x ((15 - i) * 4)). intros y.
  change 15 with (Z.ones 4). rewrite Z.land_ones by lia. pose proof (Z.mod_pos_bound y (2 ^ 4) ltac:(lia)). destruct (Z.ltb_spec (y mod 2 ^ 4) 10); lia.
Qed.
Lemma echoi_done {B} buf x (c : unit -> ST (ustate K) B) m k :
  exists m' k', (nt_echoi fuel buf x ≫= c) (UState m k) = c tt (UState m' k') /\ (forall a, a < buf \/ buf + 17 <= a -> ld m' a = ld m a).
Proof.
  set (l := map (hex_digit x) (seqZ 0 16)). set (m1 := st (store_bytes m buf l) (buf + 16) 0).
  assert (Hl : length l = 16%nat) by (unfold l; by rewrite length_map, length_seqZ).
  assert (HP : Forall (fun c => 0 < c < 256) l) by (apply Forall_forall; unfold l; intros d Hd; apply in_map_iff in Hd as (i & <- & _); apply hex_digit_pos).
  assert (HF : forall a, a < buf \/ buf + 17 <= a -> ld m1 a = ld m a)
    by (intros a Ha; unfold m1; rewrite ld_st_ne by lia; apply store_frame; rewrite Hl; lia).
  assert (HS : StrLib.cstr m1 buf l).
  { apply cstr_chars. unfold slen. rewrite Hl. split; [|apply ld_st_eq].
    apply (chars_ext (store_bytes m buf l)); [unfold slen; rewrite Hl; intros a Ha; apply ld_st_ne; lia|].
    clear -HP. generalize m buf. induction HP as [|d l Hd _ IH]; intros m' a; cbn [chars store_bytes]; [done|].
    split; [lia|]. split; [|apply IH]. rewrite store_frame by lia. apply ld_st_eq. }
  unfold nt_echoi. rewrite bind_bind, set_umem_done. fold l m1. rewrite bind_bind. unfold nt_echo. rewrite bind_bind.
  erewrite ends_done; [|unfold nt_strlen; rewrite (find_nul_cstr fuel m1 buf l HS) by (unfold slen; rewrite Hl; lia); reflexivity].
  match goal with |- context [(callsys 1 ?a ?b ?d ?e ?f ?g ≫= ?h) (UState m1 k)] => destruct (callsys_done 1 a b d e f g h m1 k Hwrite) as (r & k' & ->) end.
  exists m1, k'. rewrite mret_bind. done.
Qed.
(** One allocation with the top at [T]. *)
Lemma malloc_step {B} (c : Z -> ST (ustate K) B) n m k T :
  ld_le 8 m (v_heap_top v) = T -> 0 <= n < 2 ^ 63 -> 0 <= T -> T + pages n < 2 ^ 64 ->
  v_heap_top v + 8 <= T -> v_echoi_buf v + 17 <= T -> out (v_heap_top v) (v_heap_top v + 8) (v_echoi_buf v) 17 ->
  exists m' k', (malloc fuel v n ≫= c) (UState m k) = c T (UState m' k') /\ ld_le 8 m' (v_heap_top v) = T + pages n /\
    (forall x, x < T -> x < v_heap_top v \/ v_heap_top v + 8 <= x -> x < v_echoi_buf v \/ v_echoi_buf v + 17 <= x -> ld m' x = ld m x).
Proof.
  intros ET Hn H0 HT H1 H2 Ho. unfold out in Ho. pose proof (pages_spec n Hn). unfold malloc. rewrite bind_bind. unfold nt_echo_lit.
  match goal with |- context [(callsys 1 ?a ?b ?d ?e ?f ?g ≫= ?h) (UState m k)] => destruct (callsys_done 1 a b d e f g h m k Hwrite) as (r & k1 & ->) end.
  cbv zeta. change (u64 (n + 4095) / 4096 * 4096) with (pages n). rewrite bind_bind, umem_done, ET, (u64_id (pages n)) by lia. rewrite bind_bind.
  match goal with |- context [(nt_extend_cr3 T (pages n) ≫= ?h) (UState m k1)] => destruct (extend_done h m k1 T (pages n) Hmmap) as (r2 & m2 & k2 & -> & F2) end.
  assert (E2 : ld_le 8 m2 (v_heap_top v) = T) by (rewrite <- ET; apply ld_le_frame; intros x Hx; apply F2; lia).
  rewrite bind_bind, umem_done, E2, bind_bind.
  match goal with |- context [(nt_echoi fuel ?b T ≫= ?h) (UState m2 k2)] => destruct (echoi_done b T h m2 k2) as (m3 & k3 & -> & F3) end.
  rewrite bind_bind, set_umem_done, mret_bind.
  assert (E3 : ld_le 8 m3 (v_heap_top v) = T) by (rewrite <- E2; apply ld_le_frame; intros x Hx; apply F3; lia). rewrite E3.
  eexists _, k3. split; [reflexivity|]. split; [apply ld_le_st8; lia|].
  intros x X1 X2 X3. rewrite st_le_ld_ne by lia. rewrite F3 by lia. apply F2. lia.
Qed.
End Heap.

(** After the set-up of the heap the blocks of successive allocations do not
    overlap each other; but the top was moved below the process heap instead of
    above it, so that a first block of more than four pages contains the process
    heap. *)
Theorem malloc_runs_into_process_heap {K : Type} `{UserMachine K} (fuel : nat) (v : crt_vars) (m : mem) (k : K) (n1 n2 T : Z) :
  let peb := ld_le 8 m (gs_base + gs_peb) in
  keeps_memory 1 -> keeps_memory SYS_getpid -> mmap_frames -> (16 < fuel)%nat ->
  ld_le 8 m (v_heap_top v) = T -> 0 <= n1 < 2 ^ 48 -> 0 <= n2 < 2 ^ 48 -> 4096 * 4 <= T < 2 ^ 48 ->
  v_heap_top v + 8 <= T - 4096 * 4 -> v_echoi_buf v + 17 <= T - 4096 * 4 -> peb + peb_ProcessHeap + 8 <= T - 4096 * 4 ->
  out (v_heap_top v) (v_heap_top v + 8) (v_echoi_buf v) 17 -> out (v_heap_top v) (v_heap_top v + 8) (peb + peb_ProcessHeap) 8 ->
  out (v_echoi_buf v) (v_echoi_buf v + 17) (peb + peb_ProcessHeap) 8 ->
  exists a b m' k', (_ ← init_heap v; a ← malloc fuel v n1; b ← malloc fuel v n2; mret (a, b)) (UState m k) = Done ((a, b), UState m' k') /\
    a + n1 <= b /\ ld_le 8 m' (peb + peb_ProcessHeap) = T /\ (4096 * 4 < n1 -> a <= T < a + n1).
Proof.
  intros peb HW HG HM Hfu ET Hn1 Hn2 HT H1 H2 H3 O1 O2 O3. unfold out in O1, O2, O3.
  unfold init_heap, gs_word. rewrite bind_bind, umem_done. fold peb. rewrite bind_bind. unfold get_pid.
  match goal with |- context [(callsys SYS_getpid ?a ?b ?d ?e ?f ?g ≫= ?h) (UState m k)] => destruct (callsys_done SYS_getpid a b d e f g h m k HG) as (r & k1 & ->) end.
  rewrite bind_bind, umem_done, ET, bind_bind.
  match goal with |- context [(nt_extend_cr3 T ?n ≫= ?h) (UState m k1)] => destruct (extend_done h m k1 T n HM) as (r2 & m2 & k2 & -> & F2) end.
  assert (E2 : ld_le 8 m2 (v_heap_top v) = T) by (rewrite <- ET; apply ld_le_frame; intros x Hx; apply F2; lia).
  rewrite bind_bind, set_umem_done, set_umem_done, E2, ld_le_st_le_ne, E2 by lia.
  set (m3 := st_le 8 (st_le 8 m2 (peb + peb_ProcessHeap) T) (v_heap_top v) (T - 4096 * 4)).
  assert (E3 : ld_le 8 m3 (v_heap_top v) = T - 4096 * 4) by (apply ld_le_st8; lia).
  pose proof (pages_spec n1 ltac:(lia)). pose proof (pages_spec n2 ltac:(lia)).
  match goal with |- context [(malloc fuel v n1 ≫= ?h) (UState m3 k2)] =>
    destruct (malloc_step fuel v HW HM Hfu h n1 m3 k2 (T - 4096 * 4) E3) as (m4 & k4 & -> & E4 & F4); [lia|lia|lia|lia|lia|unfold out; lia|] end.
  match goal with |- context [(malloc fuel v n2 ≫= ?h) (UState m4 k4)] =>
    destruct (malloc_step fuel v HW HM Hfu h n2 m4 k4 (T - 4096 * 4 + pages n1) E4) as (m5 & k5 & -> & E5 & F5); [lia|lia|lia|lia|lia|unfold out; lia|] end.
  eexists _, _, m5, k5. split; [reflexivity|]. split; [lia|]. split; [|lia].
  transitivity (ld_le 8 m3 (peb + peb_ProcessHeap)); [apply ld_le_frame; intros x Hx; rewrite F5, F4 by lia; done|].
  unfold m3. rewrite ld_le_st_le_ne by lia. apply ld_le_st8. lia.
Qed.

(** Neither forbidden value is ever stored as the security cookie. *)
Theorem cookie_not_forbidden (tsc pid tid addr : Z) : cookie_of tsc pid tid addr <> 0 /\ cookie_of tsc pid tid addr <> 0x2B992DDFA232.
Proof.
  unfold cookie_of. cbv zeta. generalize (Z.lxor (Z.lxor (Z.lxor (Z.lxor (Z.lxor 0 tsc) (u64 (Z.shiftl pid 32))) (u64 (Z.shiftl tid 16))) addr) 0x4222).
  intros c. destruct (Z.eqb_spec c 0) as [->|]; [split; discriminate|]. destruct (Z.eqb_spec c 0x2B992DDFA232) as [->|]; [split; discriminate|done].
Qed.

(** ** The listing of imports *)
Section Test.
Context {K : Type} `{UserMachine K}.
Lemma test_find_stuck l : forall n base d s,
  (forall i, 0 <= i < Z.of_nat l -> let e := d + sizeof_import_descriptor * i in
     ld_le 4 (u_mem s) (e + id_name) <> 0 /\ nt_memcmp (u_mem s) (u64 (ld_le 4 (u_mem s) (e + id_name) + base)) (lit "msvcrt.dll") 10 <> 0) ->
  ld_le 4 (u_mem s) (d + sizeof_import_descriptor * Z.of_nat l + id_name) = 0 -> test_find n base d s = Stuck.
Proof.
  induction l as [|l IH]; intros n base d s Hall H0.
  - rewrite Z.mul_0_r, Z.add_0_r in H0. induction n as [|n IHn]; [done|]. cbn [test_find]. unfold mbind, st_bind, umem, gets. by rewrite H0.
  - destruct n as [|n]; [done|]. destruct (Hall 0 ltac:(lia)) as [H1 H2]. rewrite Z.mul_0_r, Z.add_0_r in H1, H2.
    cbn [test_find]. unfold mbind, st_bind, umem, gets. rewrite (proj2 (Z.eqb_neq _ 0) H1), (proj2 (Z.eqb_neq _ 0) H2). apply IH.
    + intros i Hi. specialize (Hall (i + 1) ltac:(lia)). cbv zeta in *.
      by replace (d + sizeof_import_descriptor + sizeof_import_descriptor * i) with (d + sizeof_import_descriptor * (i + 1)) by (unfold sizeof_import_descriptor; lia).
    + rewrite <- H0. f_equal. unfold sizeof_import_descriptor. lia.
Qed.
End Test.

(** A program that does not import msvcrt.dll never starts: the listing of
    imports before its entry looks at the end of the import table for ever. *)
Theorem start_needs_msvcrt {K : Type} `{UserMachine K} (v : crt_vars) (s : ustate K) (l : nat) :
  let base := nt_base_of (u_mem s) 0 in
  let d := u64 (ld_le 4 (u_mem s) (opt_directory (nt_get_opt_header64 (u_mem s) base) IMAGE_DIRECTORY_ENTRY_IMPORT) + base) in
  (forall i, 0 <= i < Z.of_nat l -> let name := ld_le 4 (u_mem s) (d + sizeof_import_descriptor * i + id_name) in
     name <> 0 /\ nt_memcmp (u_mem s) (u64 (name + base)) (lit "msvcrt.dll") 10 <> 0) ->
  ld_le 4 (u_mem s) (d + sizeof_import_descriptor * Z.of_nat l + id_name) = 0 ->
  forall fuel, test fuel v s = Stuck.
Proof.
  intros base d Hall H0 fuel. unfold test, nt_get_base_address_from_peb. unfold mbind at 1 2 3, st_bind at 1 2 3, umem, gets. fold base. fold d.
  by rewrite (test_find_stuck l fuel base d s Hall H0).
Qed.

(** ** Witnesses *)
#[local] Existing Instance calm_machine.
Definition demo_line : mem := put16 ∅ 0x1000 [97; 98; 32; 99; 0].
Lemma demo_line_wstr : wstr demo_line 0x1000 [97; 98; 32; 99].
Proof. split; [vm_compute; repeat split|repeat constructor; discriminate]. Qed.
Lemma count_argv_counts_characters_witness : count_argv 9 demo_line 0x1000 = Some 2.
Proof.
  destruct (count_argv_counts_characters 9 demo_line 0x1000 [97; 98; 32; 99]) as [E _]; [exact demo_line_wstr|vm_compute; reflexivity|vm_compute; reflexivity|exact E].
Defined.
Lemma split_yields_no_arguments_witness : exists m', split 9 demo_line 0x1000 0x2000 0x3000 = Some m' /\ ld_le 8 m' 0x3000 = 0.
Proof.
  destruct (split_yields_no_arguments 9 demo_line 0x1000 0x2000 0x3000 97 [98; 32; 99]) as (m' & E & H0 & _);
    [exact demo_line_wstr|repeat constructor; lia|lia|vm_compute; reflexivity|right; vm_compute; discriminate|right; vm_compute; discriminate|].
  exists m'. split; [exact E|exact H0].
Defined.
Definition demo_vars : crt_vars := CrtVars 0x2000 0x2008 0x2010 0x2020 0x2040 0x3000 0x4000 0x5000 0x6000.
Definition demo_heap : mem := st_le 8 (st_le 8 ∅ 0x160 0x100000) 0x2010 nt_HEAP_START.
Lemma malloc_runs_into_process_heap_witness :
  exists a b m' k', (_ ← init_heap demo_vars; a ← malloc 20 demo_vars 20000; b ← malloc 20 demo_vars 1; mret (a, b)) (UState demo_heap tt) = Done ((a, b), UState m' k') /\
    a <= nt_HEAP_START < a + 20000.
Proof.
  destruct (malloc_runs_into_process_heap 20 demo_vars demo_heap tt 20000 1 nt_HEAP_START) as (a & b & m' & k' & E & _ & _ & Ho);
    [intros args m k; by exists 0, k|intros args m k; by exists 0, k|exact calm_mmap|lia|vm_compute; reflexivity|lia|lia|unfold nt_HEAP_START; lia
    |vm_compute; discriminate|vm_compute; discriminate|vm_compute; discriminate|vm_compute; right; discriminate|vm_compute; right; discriminate|vm_compute; right; discriminate|].
  exists a, b, m', k'. split; [exact E|apply Ho; lia].
Defined.
Definition demo_no_msvcrt : mem :=
  demo_words (st_le 8 (st_le 8 ∅ 0x160 0x100000) 0x104030 0x8000) [(0x8090, 0x200); (0x820C, 0x300); (0x8300, 120)].
Lemma start_needs_msvcrt_witness : forall fuel, test fuel demo_vars (UState demo_no_msvcrt tt) = Stuck.
Proof.
  apply (start_needs_msvcrt demo_vars (UState demo_no_msvcrt tt) 1); [|vm_compute; reflexivity].
  intros i Hi. replace i with 0 by lia. vm_compute. split; discriminate.
Defined.
