(* ===== verification/NtStart.v ===== *)
(** * NtStart: start of a Windows program, src/core/exe/ninja/ntdll/ninja_dll.c

    [LdrInitializeThunk], the first code that runs in the program: it loads the
    imported libraries, resolves forwarded imports, sets up thread storage and
    runs the entry points of the libraries before it jumps to the program. *)
From Stdlib Require Import String.
From S2P Require Import Prelude Bytes MemLib StrLib Wide Pe NinjaLib Seh NtImport NtLoad Crt.
Open Scope Z_scope.

(** The local arrays of the file. *)
Record start_locals := StartLocals {
  s_dll_full_name : Z; s_func_name : Z; s_import_directory : Z; s_all_crt : Z; s_continuous_crt : Z
}.

Section Start.
Context {K : Type} `{UserMachine K} (fuel : nat) (g : nt_globals) (x : nt_locals) (v : crt_vars) (w : start_locals).
(** ** Entry points and thread storage *)
Definition run_dll_entry_point (base_addr : Z) : ST (ustate K) unit :=
  entry_rva ← umem (fun m => ld_le 4 m (nt_get_opt_header64 m base_addr + oh_address_of_entry_at));
  if entry_rva =? 0 then mret tt else call_code (u64 (entry_rva + base_addr)) [base_addr; 1; 0].
Definition run_dll_entry_point1 (base_addr : Z) : ST (ustate K) unit :=
  entry_rva ← umem (fun m => ld_le 4 m (nt_get_opt_header64 m base_addr + oh_address_of_entry_at));
  if entry_rva =? 0 then mret tt else call_code (u64 (entry_rva + base_addr)) [base_addr; 1; 0].
(** The new top of memory. *)
Definition find_and_process_tls (dll_id top tls_id_buf : Z) : ST (ustate K) Z :=
  base ← nt_get_base_address_from_peb dll_id;
  va ← umem (fun m => ld_le 4 m (opt_directory (nt_get_opt_header64 m base) IMAGE_DIRECTORY_ENTRY_TLS));
  if va =? 0 then mret top
  else r ← process_tls fuel (u64 (va + base)) dll_id top tls_id_buf; mret (snd r).

(** ** Forwarded imports *)
(** [import] is the entry of the table. *)
Definition resolve_forwarded_import (import loaded_dll_id func_name : Z) : ST (ustate K) unit :=
  base ← nt_get_base_address_from_peb loaded_dll_id;
  dir ← umem (fun m => opt_directory (nt_get_opt_header64 m base) IMAGE_DIRECTORY_ENTRY_EXPORT);
  rva ← ends (fun m => pe_find_export_rva_by_name1 fuel m func_name dir base);
  if rva <? 0 then _ ← nt_echo_lit ("Cannot find function in forwarded import dll" ++ newline); mret tt
  else
    va ← umem (fun m => ld_le 4 m (dir + dd_virtual_address));
    size ← umem (fun m => ld_le 4 m (dir + dd_size));
    if (rva <? va) || (u32 (va + size) <=? rva) then
      _ ← set_umem (fun m => st_le 8 m (ld_le 8 m (import + fi_import_addr)) (u64 (rva + base)));
      _ ← set_umem (fun m => st_le 8 m (import + fi_import_addr) 0);
      set_umem (fun m => st_le 8 m (import + fi_import_str) 0)
    else set_umem (fun m => st_le 8 m (import + fi_import_str) (u64 (rva + base))).
(** One entry of the table in a pass; the top of memory and the number of the
    last module are kept. *)
Definition forwarded_entry (main_base i : Z) (tt' : Z * Z * bool) : ST (ustate K) (Z * Z * bool) :=
  let '(top, tls_id, list_empty) := tt' in
  let import := g_forwarded_imports g + sizeof_forwarded_import * i in
  a ← umem (fun m => ld_le 8 m (import + fi_import_addr));
  if a =? 0 then mret (top, tls_id, list_empty)
  else
    _ ← set_ends (fun m => r ← extract_dllname_and_funcname_in_forwarded_import_string fuel m (ld_le 8 m (import + fi_import_str)) (s_dll_full_name w) (s_func_name w); Some (fst r));
    _ ← set_ends (fun m => nt_strconcat fuel m (s_dll_full_name w) (s_dll_full_name w) (lit ".dll"));
    _ ← find_dll_loaded fuel x (s_dll_full_name w);
    loaded_dll_id ← find_dll_loaded fuel x (s_dll_full_name w);
    r ← (if loaded_dll_id =? -1 then
           l ← load_dll fuel g x fuel (s_dll_full_name w) main_base top (s_import_directory w) tls_id;
           id ← find_dll_loaded fuel x (s_dll_full_name w);
           mret (id, snd (fst l), snd l)
         else mret (loaded_dll_id, top, tls_id));
    let '(id, top, tls_id) := r : Z * Z * Z in
    _ ← resolve_forwarded_import import id (s_func_name w);
    mret (top, tls_id, false).
Fixpoint forwarded_pass (n : nat) (main_base i : Z) (t : Z * Z * bool) : ST (ustate K) (Z * Z * bool) :=
  match n with
  | O => mret t
  | S n' => t' ← forwarded_entry main_base i t; forwarded_pass n' main_base (i + 1) t'
  end.
(** At most [o] passes, fewer when the table is empty. *)
Fixpoint forwarded_passes (o : nat) (main_base top tls_id : Z) : ST (ustate K) (Z * Z) :=
  match o with
  | O => mret (top, tls_id)
  | S o' =>
      t ← forwarded_pass (Z.to_nat forwarded_imports_count) main_base 0 (top, tls_id, true);
      let '(top', tls_id', list_empty) := t in
      if list_empty : bool then mret (top', tls_id') else forwarded_passes o' main_base top' tls_id'
  end.

(** ** Initialisers *)
(** [arr[get_a_free_slot(arr, 0, 1024)] = p]; the arrays have 1024 entries. *)
Definition push_slot (arr p : Z) (m : mem) : mem := st_le 8 m (u64 (arr + 8 * nt_get_a_free_slot m arr 0 1024)) p.
Fixpoint push_all (n : nat) (j : Z) (m : mem) : mem :=
  match n with
  | O => m
  | S n' =>
      let p := ld_le 8 m (s_continuous_crt w + 8 * j) in
      push_all n' (j + 1) (if p =? 0 then m else push_slot (s_all_crt w) p m)
  end.
Fixpoint scan_rdata (n : nat) (m : mem) (text_start text_stop rdata rdata_start i count : Z) : option mem :=
  if i <? ld_le 4 m (rdata + sh_virtual_size_at) / 8 then
    match n with
    | O => None
    | S n' =>
        let p := ld_le 8 m (rdata_start + i * 8) in
        if (text_start <=? p) && (p <? text_stop) then
          scan_rdata n' (push_slot (s_continuous_crt w) p m) text_start text_stop rdata rdata_start (i + 1) (count + 1)
        else if p =? 0 then scan_rdata n' m text_start text_stop rdata rdata_start (i + 1) count
        else
          let m1 := if 3 <? count then push_all 1024 0 m else m in
          scan_rdata n' (nt_memset m1 (s_continuous_crt w) 0 (8 * 1024)) text_start text_stop rdata rdata_start (i + 1) 0
    end
  else Some m.
Definition run_crt (dll_id : Z) : ST (ustate K) unit :=
  base ← nt_get_base_address_from_peb dll_id;
  text ← get_text_section fuel dll_id;
  _ ← (if text =? 0 then fault else mret tt);
  text_start ← umem (fun m => u64 (ld_le 4 m (text + sh_virtual_address_at) + base));
  text_size ← umem (fun m => ld_le 4 m (text + sh_virtual_size_at));
  rdata ← get_rdata_section fuel dll_id;
  _ ← (if rdata =? 0 then fault else mret tt);
  rdata_start ← umem (fun m => u64 (ld_le 4 m (rdata + sh_virtual_address_at) + base));
  _ ← set_ends (fun m => scan_rdata fuel m text_start (u64 (text_start + text_size)) rdata rdata_start 0 0);
  for_m 1024 0 (fun i =>
    p ← umem (fun m => ld_le 8 m (s_all_crt w + 8 * i));
    if p =? 0 then mret tt else call_code p []).

(** ** The start *)
(** The libraries the program imports; a failure ends the loop. *)
Fixpoint load_imports (n : nat) (main_base desc top tls_id : Z) : ST (ustate K) (Z * Z) :=
  match n with
  | O => fun _ => Stuck
  | S n' =>
      nm ← umem (fun m => ld_le 4 m (desc + id_name));
      if (desc =? 0) || (nm =? 0) then mret (top, tls_id)
      else
        r ← load_dll fuel g x fuel (u64 (nm + main_base)) main_base top (s_import_directory w) tls_id;
        let '(result, top', tls') := r in
        if result <? 0 then mret (top', tls') else load_imports n' main_base (desc + sizeof_import_descriptor) top' tls'
  end.
Fixpoint tls_all (n : nat) (i top tls_id_buf : Z) : ST (ustate K) Z :=
  match n with
  | O => fun _ => Stuck
  | S n' =>
      base ← nt_get_base_address_from_peb i;
      if base =? 0 then mret top
      else top' ← find_and_process_tls i top tls_id_buf; tls_all n' (i + 1) top' tls_id_buf
  end.
(** Module 5 is started before its address is looked at. *)
Fixpoint entries_all (n : nat) (i : Z) : ST (ustate K) unit :=
  match n with
  | O => fun _ => Stuck
  | S n' =>
      base ← nt_get_base_address_from_peb i;
      if i =? 5 then _ ← run_dll_entry_point1 base; entries_all n' (i + 1)
      else if base =? 0 then mret tt
      else _ ← run_dll_entry_point base; entries_all n' (i + 1)
  end.
(** The first three modules once more. *)
Fixpoint tls_first (n : nat) (i top tls_id_buf : Z) : ST (ustate K) Z :=
  match n with
  | O => mret top
  | S n' =>
      base ← nt_get_base_address_from_peb i;
      text ← get_text_section fuel i;
      _ ← (if text =? 0 then fault else mret tt);
      if base =? 0 then mret top
      else top' ← find_and_process_tls i top tls_id_buf; tls_first n' (i + 1) top' tls_id_buf
  end.
Definition LdrInitializeThunk (tsc : Z) : ST (ustate K) start_jump :=
  peb ← gs_word gs_peb;
  _ ← set_umem (fun m => st_le 8 m (g_peb_addrx g) peb);
  _ ← set_umem (fun m => st_le 8 m (g_tttx g) (u64 (peb + 4 * 4096)));
  teb ← gs_word gs_teb;
  main_base ← nt_get_base_address_from_peb 0;
  main_opt ← umem (fun m => nt_get_opt_header64 m main_base);
  main_size ← umem (fun m => ld_le 4 m (main_opt + oh_size_of_image_at));
  let tls_id_buf := u64 (main_base + main_size + 0x1000000) in
  _ ← nt_extend_cr3 tls_id_buf (4096 * 2);
  _ ← set_umem (fun m => nt_erase_mem8 m tls_id_buf (4096 * 2));
  let top := u64 (tls_id_buf + 4096 * 2) in
  _ ← set_umem (fun m => st_le 8 m (teb + teb_ThreadLocalStoragePointer) tls_id_buf);
  ntdll ← nt_get_base_address_from_peb 1;
  ntdll_opt ← umem (fun m => nt_get_opt_header64 m ntdll);
  ntdll_exc ← umem (fun m => u64 (ld_le 4 m (opt_directory ntdll_opt IMAGE_DIRECTORY_ENTRY_EXCEPTION) + ntdll));
  ntdll_size ← umem (fun m => ld_le 4 m (ntdll_opt + oh_size_of_image_at));
  _ ← set_ends (fun m => r ← add_pdata_entry_when_load_image (g_pdata_table g) m ntdll_exc ntdll ntdll_size; Some (fst r));
  let main_imports := opt_directory main_opt IMAGE_DIRECTORY_ENTRY_IMPORT in
  _ ← pe_iat_process fuel g (lit "ntdll.dll") main_imports ntdll_opt main_base ntdll;
  _ ← set_umem (fun m => nt_memcpy m (s_import_directory w) main_imports sizeof_data_directory);
  va ← umem (fun m => ld_le 4 m (s_import_directory w));
  t1 ← load_imports fuel main_base (u64 (va + main_base)) top 2;
  t2 ← forwarded_passes 3 main_base (fst t1) (snd t1);
  top ← tls_all fuel 0 (fst t2) tls_id_buf;
  _ ← entries_all fuel 1;
  _ ← tls_first 3 0 top tls_id_buf;
  crt_init_c fuel v tsc.
End Start.

(** ** Splitting of a forwarded name *)
Section Split.
Lemma chars_move m m' s : forall p d, (forall i, 0 <= i < slen s -> ld m' (d + i) = ld m (p + i)) -> chars m p s -> chars m' d s.
Proof.
  induction s as [|c s IH]; intros p d HE; cbn [chars]; [done|]. rewrite slen_cons in HE. pose proof (slen_nonneg s). intros (Hc & E & Hs).
  split; [done|]. split; [rewrite <- (Z.add_0_r d), HE, Z.add_0_r by lia; done|].
  apply (IH (p + 1)); [|exact Hs]. intros i Hi. rewrite <- !Z.add_assoc. apply HE. lia.
Qed.
Lemma dot_loop_spec a : forall m s i n, chars m (s + i) a -> 46 ∉ a -> ld m (s + i + slen a) = 46 -> (length a < n)%nat -> dot_loop n m s i = i + slen a.
Proof.
  induction a as [|c a IH]; intros m s i n Hc Hn Hd Hl; (destruct n as [|n]; [cbn in Hl; lia|]); cbn [dot_loop chars] in *.
  - unfold slen in *. cbn in *. rewrite Z.add_0_r in Hd. rewrite Hd. cbn. lia.
  - destruct Hc as (_ & -> & Hc). apply not_elem_of_cons in Hn as [Hne Hn]. rewrite slen_cons in *. destruct (Z.eqb_spec c 46) as [->|]; [done|].
    rewrite (IH m s (i + 1) n); [lia|by replace (s + (i + 1)) with (s + i + 1) by lia|done|rewrite <- Hd; f_equal; lia|cbn in Hl; lia].
Qed.
End Split.

(** The text of a forwarded export, a library and a function joined by a dot,
    is taken apart into the two names it was joined from, in buffers that lie
    apart from it and from each other. *)
Theorem forwarded_name_splits (fuel : nat) (m : mem) (p d f : Z) (a b : list Z) :
  StrLib.cstr m p (a ++ 46 :: b) -> a <> [] -> 46 ∉ a -> slen (a ++ 46 :: b) < Z.of_nat fuel -> slen (a ++ 46 :: b) < 2 ^ 63 ->
  0 <= f < 2 ^ 63 -> out p (p + slen (a ++ 46 :: b) + 1) d (slen a + 1) -> out p (p + slen (a ++ 46 :: b) + 1) f (slen b + 1) ->
  out d (d + slen a + 1) f (slen b + 1) ->
  exists m', extract_dllname_and_funcname_in_forwarded_import_string fuel m p d f = Some (m', true) /\
    StrLib.cstr m' d a /\ StrLib.cstr m' f b /\
    (forall x, x < d \/ d + slen a + 1 <= x -> x < f \/ f + slen b + 1 <= x -> ld m' x = ld m x).
Proof.
  intros Hs Ha Hn Hf Hl Hr Od Of Odf. rewrite slen_app, slen_cons in *. pose proof (slen_nonneg b). unfold out in *.
  assert (0 < slen a) by (destruct a; [done|rewrite slen_cons; pose proof (slen_nonneg a); lia]).
  pose proof Hs as Hc. apply cstr_app in Hc as [Hca Hc]. cbn [cstr] in Hc. destruct Hc as (_ & Hdot & Hcb).
  assert (HL : forall m', (forall x, p <= x <= p + (slen a + (slen b + 1)) -> ld m' x = ld m x) -> nt_strlen fuel m' p = Some (slen a + (slen b + 1))).
  { intros m' HE. unfold nt_strlen. rewrite (find_nul_cstr fuel m' p (a ++ 46 :: b)); [rewrite slen_app, slen_cons; cbn; f_equal; lia| |rewrite slen_app, slen_cons; lia].
    eapply cstr_ext; [|exact Hs]. rewrite slen_app, slen_cons. exact HE. }
  unfold extract_dllname_and_funcname_in_forwarded_import_string. rewrite (HL m) by done. cbn [mbind option_bind].
  rewrite (dot_loop_spec a m p 0 (Z.to_nat (slen a + (slen b + 1)))); [|by rewrite Z.add_0_r|done|by rewrite Z.add_0_r|unfold slen; lia].
  rewrite Z.add_0_l. destruct (Z.eqb_spec (slen a) 0); [lia|].
  set (m1 := st (nt_memcpy m d p (slen a)) (d + slen a) 0).
  assert (F1 : forall x, x < d \/ d + slen a + 1 <= x -> ld m1 x = ld m x) by (intros x Hx; unfold m1; rewrite ld_st_ne by lia; apply memcpy_ne; lia).
  rewrite (HL m1) by (intros x Hx; apply F1; lia). cbn [mbind option_bind]. rewrite u64_id by lia.
  replace (slen a + (slen b + 1) - slen a - 1) with (slen b) by lia.
  set (m2 := nt_memcpy m1 f (p + slen a + 1) (slen b)).
  assert (F2 : forall x, x < f \/ f + slen b <= x -> ld m2 x = ld m1 x) by (intros x Hx; apply memcpy_ne; lia).
  rewrite (HL m2) by (intros x Hx; rewrite F2 by lia; apply F1; lia). cbn [mbind option_bind]. rewrite u64_id by lia.
  replace (slen a + (slen b + 1) - slen a - 1) with (slen b) by lia.
  exists (st m2 (f + slen b) 0). split; [done|]. split; [|split].
  - apply cstr_chars. rewrite ld_st_ne, F2 by lia. split; [|apply ld_st_eq].
    apply (chars_move m _ a p d); [|exact Hca]. intros i Hi. rewrite ld_st_ne, F2 by lia. unfold m1. rewrite ld_st_ne by lia.
    change (nt_memcpy m d p (slen a)) with (memcpy m d p (slen a)). rewrite memcpy_ld by lia. repeat (ztest; cbn [andb]); try lia. f_equal. lia.
  - apply cstr_chars. rewrite ld_st_eq. split; [|done]. apply cstr_chars in Hcb as [Hcb _].
    apply (chars_move m _ b (p + slen a + 1) f); [|exact Hcb]. intros i Hi. rewrite ld_st_ne by lia.
    unfold m2. change (nt_memcpy m1 f ?q (slen b)) with (memcpy m1 f q (slen b)). rewrite memcpy_ld by lia. repeat (ztest; cbn [andb]); try lia.
    replace (f + i - f) with i by lia. apply F1. lia.
  - intros x Hx1 Hx2. rewrite ld_st_ne, F2 by lia. apply F1. lia.
Qed.

(** ** Resolving a forwarded import *)
Section Forwarded.
Context {K : Type} `{UserMachine K} (fuel : nat).
(** The stores of an address found in the library itself. *)
Lemma resolve_direct m k import id name rva thunk :
  let base := nt_base_of m id in
  let dir := opt_directory (nt_get_opt_header64 m base) IMAGE_DIRECTORY_ENTRY_EXPORT in
  pe_find_export_rva_by_name1 fuel m name dir base = Some rva -> 0 <= rva -> 0 <= rva + base < 2 ^ 64 ->
  rva < ld_le 4 m dir \/ u32 (ld_le 4 m dir + ld_le 4 m (dir + dd_size)) <= rva ->
  ld_le 8 m (import + fi_import_addr) = thunk -> out import (import + sizeof_forwarded_import) thunk 8 ->
  exists m', resolve_forwarded_import fuel import id name (UState m k) = Done (tt, UState m' k) /\
    ld_le 8 m' thunk = rva + base /\ ld_le 8 m' (import + fi_import_addr) = 0 /\ ld_le 8 m' (import + fi_import_str) = 0 /\
    (forall a, a < thunk \/ thunk + 8 <= a -> a < import \/ import + sizeof_forwarded_import <= a -> ld m' a = ld m a).
Proof.
  intros base dir E Hr Hb Hd Ht Ho. unfold out, fi_import_addr, fi_import_str, sizeof_forwarded_import in *. rewrite Z.add_0_r in *.
  unfold resolve_forwarded_import, nt_get_base_address_from_peb. rewrite !umem_done. fold base dir. rewrite (ends_done _ _ _ _ _ E).
  destruct (Z.ltb_spec rva 0); [lia|]. rewrite !umem_done. unfold dd_virtual_address. rewrite Z.add_0_r.
  assert (ED : (rva <? ld_le 4 m dir) || (u32 (ld_le 4 m dir + ld_le 4 m (dir + dd_size)) <=? rva) = true) by (apply orb_true_iff; destruct Hd; [left|right]; zbool; lia).
  rewrite ED, !set_umem_done. unfold set_umem, modify, fi_import_addr, fi_import_str. cbn [u_mem u_kern]. rewrite Z.add_0_r, Ht, u64_id by lia.
  eexists. split; [reflexivity|]. split; [rewrite !ld_le_st_le_ne by lia; apply ld_le_st8; lia|].
  split; [rewrite ld_le_st_le_ne by lia; apply ld_le_st8; lia|]. split; [apply ld_le_st8; lia|].
  intros a Ha1 Ha2. by rewrite !st_le_ld_ne by lia.
Qed.
End Forwarded.

(** C39: A forwarded import whose library has been loaded and exports the function
    itself gets the address of the function, its entry of the table becomes free
    again, and nothing else changes. *)
Theorem forwarded_import_resolved {K : Type} `{UserMachine K} (fuel : nat) (m : mem) (k : K) (import id name rva thunk lo hi : Z)
    (names : list (list Z)) (ords : list Z) (s : list Z) :
  let base := nt_base_of m id in
  let dir := opt_directory (nt_get_opt_header64 m base) IMAGE_DIRECTORY_ENTRY_EXPORT in
  let table := ld_le 4 m dir + base in
  exports fuel lo hi m table base names ords -> StrLib.cstr m name s -> slen s < Z.of_nat fuel ->
  leads_to lo hi m dir table base names ords s rva -> 0 <= rva + base < 2 ^ 64 ->
  ld_le 8 m (import + fi_import_addr) = thunk -> out import (import + sizeof_forwarded_import) thunk 8 ->
  exists m', resolve_forwarded_import fuel import id name (UState m k) = Done (tt, UState m' k) /\
    ld_le 8 m' thunk = rva + base /\ ld_le 8 m' (import + fi_import_addr) = 0 /\ ld_le 8 m' (import + fi_import_str) = 0 /\
    (forall a, a < thunk \/ thunk + 8 <= a -> a < import \/ import + sizeof_forwarded_import <= a -> ld m' a = ld m a).
Proof.
  intros base dir table HX HS Hf HL Hb Ht Ho. pose proof (find_rva_spec fuel lo hi m dir table base names ords name s rva eq_refl HX HS Hf HL) as E.
  destruct HL as [_ Hr Hd]. apply (resolve_direct fuel m k import id name rva thunk E); try lia; done.
Qed.

(** A forwarded import whose library does not export the function is taken for
    resolved: it gets the address of the library itself, the header of its image,
    and no message is printed. *)
Theorem missing_forward_binds_header {K : Type} `{UserMachine K} (fuel : nat) (m : mem) (k : K) (import id name thunk lo hi : Z)
    (names : list (list Z)) (ords : list Z) (s : list Z) :
  let base := nt_base_of m id in
  let dir := opt_directory (nt_get_opt_header64 m base) IMAGE_DIRECTORY_ENTRY_EXPORT in
  exports fuel lo hi m (ld_le 4 m dir + base) base names ords -> StrLib.cstr m name s -> slen s < Z.of_nat fuel ->
  (forall i t, names !! i = Some t -> ~ same_name t s) -> 0 < ld_le 4 m dir -> 0 <= base < 2 ^ 64 ->
  ld_le 8 m (import + fi_import_addr) = thunk -> out import (import + sizeof_forwarded_import) thunk 8 ->
  exists m', resolve_forwarded_import fuel import id name (UState m k) = Done (tt, UState m' k) /\
    ld_le 8 m' thunk = base /\ ld_le 8 m' (import + fi_import_addr) = 0.
Proof.
  intros base dir HX HS Hf Hno Hv Hb Ht Ho. pose proof (find_rva_none fuel lo hi m dir _ base names ords name s eq_refl HX HS Hf Hno) as E.
  destruct (resolve_direct fuel m k import id name 0 thunk E) as (m' & E' & H1 & H2 & _); [lia|fold base; lia|left; exact Hv|exact Ht|exact Ho|].
  exists m'. split; [exact E'|]. split; [exact H1|exact H2].
Qed.

(** ** Witnesses *)
#[local] Existing Instance calm_machine.
(** Module 3 is the library of [demo_libraries]; "b" and "c" are looked for. *)
Definition demo_forward : mem :=
  demo_words (st_le 8 (st_le 8 (st_le 8 demo_libraries 0x160 0x100000) (0x104000 + 376 * 3 + 48) 0x1000) 0x900000 0x8300) [(0x5000, 98); (0x5010, 99); (0x108C, 0x28)].
Lemma demo_forward_exports : exports 8 0 0 demo_forward 0x1200 0x1000 [[65]; [66]] [1; 0].
Proof.
  constructor; [vm_compute; reflexivity|reflexivity|vm_compute; right; discriminate| |].
  - intros [|[|i]] s [= <-]; vm_compute; repeat split; discriminate || (right; discriminate).
  - intros [|[|i]] o [= <-]; vm_compute; repeat split; right; discriminate.
Qed.
Lemma forwarded_import_resolved_witness :
  exists m', resolve_forwarded_import 8 0x900000 3 0x5000 (UState demo_forward tt) = Done (tt, UState m' tt) /\ ld_le 8 m' 0x8300 = 0x1010.
Proof.
  destruct (forwarded_import_resolved 8 demo_forward tt 0x900000 3 0x5000 0x10 0x8300 0 0 [[65]; [66]] [1; 0] [98]) as (m' & E & H1 & _);
    [exact demo_forward_exports|vm_compute; repeat split; discriminate|vm_compute; reflexivity| |vm_compute; split; congruence|vm_compute; reflexivity|vm_compute; left; discriminate|].
  - constructor; [|lia|left; vm_compute; reflexivity]. exists 1%nat, [66], 0. split; [reflexivity|]. split; [reflexivity|].
    split; [|split; [reflexivity|split; [vm_compute; reflexivity|vm_compute; right; discriminate]]].
    intros [|i] u Hi; [intros [= <-]; vm_compute; discriminate|lia].
  - exists m'. split; [exact E|exact H1].
Defined.
Lemma missing_forward_binds_header_witness :
  exists m', resolve_forwarded_import 8 0x900000 3 0x5010 (UState demo_forward tt) = Done (tt, UState m' tt) /\ ld_le 8 m' 0x8300 = 0x1000.
Proof.
  destruct (missing_forward_binds_header 8 demo_forward tt 0x900000 3 0x5010 0x8300 0 0 [[65]; [66]] [1; 0] [99]) as (m' & E & H1 & _);
    [exact demo_forward_exports|vm_compute; repeat split; discriminate|vm_compute; reflexivity| |vm_compute; reflexivity|vm_compute; split; congruence|vm_compute; reflexivity|vm_compute; left; discriminate|].
  - intros [|[|i]] t [= <-]; vm_compute; discriminate.
  - exists m'. split; [exact E|exact H1].
Defined.
Lemma forwarded_name_splits_witness :
  exists m', extract_dllname_and_funcname_in_forwarded_import_string 9 (store_bytes ∅ 100 [97; 46; 98; 99; 0]) 100 200 300 = Some (m', true) /\
    StrLib.cstr m' 200 [97] /\ StrLib.cstr m' 300 [98; 99].
Proof.
  destruct (forwarded_name_splits 9 (store_bytes ∅ 100 [97; 46; 98; 99; 0]) 100 200 300 [97] [98; 99]) as (m' & E & H1 & H2 & _);
    [vm_compute; repeat split; discriminate|discriminate|apply (bool_decide_unpack _); vm_compute; exact I|vm_compute; reflexivity|vm_compute; reflexivity|lia
    |vm_compute; right; discriminate|vm_compute; right; discriminate|vm_compute; right; discriminate|].
  exists m'. split; [exact E|]. split; [exact H1|exact H2].
Defined.
