(* ===== verification/Boot.v ===== *)
(** * Boot: drivers, devices and the start of the kernel

    src/core/driver/driver.h, the registration of the disk driver and of the
    FAT32 file system in src/core/filesytem/filesystem.h, the first process and
    the per-core set-up of src/core/scheduler.h, and src/kernel.c.

    A function pointer is the name of the function it holds.  The tables of
    drivers are arrays of structures in zeroed memory: an absent key is an entry
    of zeros.  The devices are structures in blocks, [device_global] holds their
    addresses.  What the linker places is in [symbols]. *)
From Stdlib Require Import String.
From S2P Require Import Prelude Bytes MemLib StrLib Time KState Blocks Paging Threads Sched Ipc User Vfs Descr Elf Screen.
Open Scope Z_scope.

(** ** Structures *)
Inductive device_type := DEVICE_NOT_FOUND | DEVICE_BLOCK | DEVICE_CHAR | DEVICE_NOT_RW | DEVICE_OTHER.
#[export] Instance device_type_eq_dec : EqDecision device_type.
Proof. solve_decision. Defined.
Inductive routine :=
  Dummy | Is_ide_connected | Read_sector_ide | Write_sector_ide
| Fat32_read_file_bytes | Fat32_list_directory | Fat32_write_file_bytes | Fat32_create | Fat32_stat
| Fat32_truncate_file | Fat32_rmdir_entry | Fat32_rename.
(** [struct driver]. *)
Record driver := Driver {
  drv_name : path; drv_type : device_type;
  drv_probe : routine; drv_read_fn : routine; drv_write_fn : routine; drv_ioctl : routine
}.
Definition sizeof_driver : Z := 104.
Definition MAX_DRIVER : Z := 4096 * 2 / sizeof_driver.
(** [struct device], the fields in use; the driver by its index. *)
Record disk_device := Device { dev_path : path; dev_driver : Z }.
(** [struct vfs_partition_driver]. *)
Record partition_driver := PartitionDriverTable {
  fs_name : path; pd_probe : routine; pd_read : routine; pd_list : routine; pd_write : routine; pd_chmod : routine;
  pd_create : routine; pd_stat : routine; pd_truncate : routine; pd_delete : routine; pd_rename : routine
}.
Definition sizeof_partition_driver : Z := 144.
(** [struct vfs_partition], with [struct fat32_identification_data] in its
    buffer; the host device by its address. *)
Record partition := Partition {
  pt_path : path; pt_driver : Z; pt_host_device : Z; pt_ide_channel : Z; pt_part_id : Z
}.
(** [core_info_t], the fields set at the start of a core. *)
Record core_info := CoreInfo { co_apic_id : Z; co_rsp : Z }.
Definition AP_STACK64_SIZE : Z := 4 * 4096.
Definition sizeof_core_info : Z := 40.

(** ** State *)
Section Kernel.
Context {disk : Type}.
Record boot := Boot {
  b_sys : sys disk;
  b_idt : gmap Z idt_entry;
  driver_global : gmap Z driver;
  device_global : gmap Z Z;
  device_heap : gmap Z disk_device;
  partition_driver_global : gmap Z partition_driver;
  b_partitions : gmap Z partition;
  b_mounts : gmap Z mount_point;
  cores_info : gmap Z core_info;
  b_gs_base : Z;
  b_screen : screen;
  start_flag : Z;
  core0_prepared : Z
}.
Definition set_b_sys (v : sys disk) (b : boot) : boot :=
  Boot v (b_idt b) (driver_global b) (device_global b) (device_heap b) (partition_driver_global b) (b_partitions b)
    (b_mounts b) (cores_info b) (b_gs_base b) (b_screen b) (start_flag b) (core0_prepared b).
Definition set_b_idt (v : gmap Z idt_entry) (b : boot) : boot :=
  Boot (b_sys b) v (driver_global b) (device_global b) (device_heap b) (partition_driver_global b) (b_partitions b)
    (b_mounts b) (cores_info b) (b_gs_base b) (b_screen b) (start_flag b) (core0_prepared b).
Definition set_driver (i : Z) (v : driver) (b : boot) : boot :=
  Boot (b_sys b) (b_idt b) (<[i := v]> (driver_global b)) (device_global b) (device_heap b) (partition_driver_global b)
    (b_partitions b) (b_mounts b) (cores_info b) (b_gs_base b) (b_screen b) (start_flag b) (core0_prepared b).
Definition set_device_at (a : Z) (v : disk_device) (b : boot) : boot :=
  Boot (b_sys b) (b_idt b) (driver_global b) (device_global b) (<[a := v]> (device_heap b)) (partition_driver_global b)
    (b_partitions b) (b_mounts b) (cores_info b) (b_gs_base b) (b_screen b) (start_flag b) (core0_prepared b).
Definition set_device_slot (i a : Z) (b : boot) : boot :=
  Boot (b_sys b) (b_idt b) (driver_global b) (<[i := a]> (device_global b)) (device_heap b) (partition_driver_global b)
    (b_partitions b) (b_mounts b) (cores_info b) (b_gs_base b) (b_screen b) (start_flag b) (core0_prepared b).
Definition set_partition_driver (i : Z) (v : partition_driver) (b : boot) : boot :=
  Boot (b_sys b) (b_idt b) (driver_global b) (device_global b) (device_heap b) (<[i := v]> (partition_driver_global b))
    (b_partitions b) (b_mounts b) (cores_info b) (b_gs_base b) (b_screen b) (start_flag b) (core0_prepared b).
Definition set_partition (i : Z) (v : partition) (b : boot) : boot :=
  Boot (b_sys b) (b_idt b) (driver_global b) (device_global b) (device_heap b) (partition_driver_global b)
    (<[i := v]> (b_partitions b)) (b_mounts b) (cores_info b) (b_gs_base b) (b_screen b) (start_flag b) (core0_prepared b).
Definition set_b_mounts (v : gmap Z mount_point) (b : boot) : boot :=
  Boot (b_sys b) (b_idt b) (driver_global b) (device_global b) (device_heap b) (partition_driver_global b)
    (b_partitions b) v (cores_info b) (b_gs_base b) (b_screen b) (start_flag b) (core0_prepared b).
Definition set_core (i : Z) (v : core_info) (gs : Z) (b : boot) : boot :=
  Boot (b_sys b) (b_idt b) (driver_global b) (device_global b) (device_heap b) (partition_driver_global b)
    (b_partitions b) (b_mounts b) (<[i := v]> (cores_info b)) gs (b_screen b) (start_flag b) (core0_prepared b).
Definition set_b_screen (f : screen -> screen) (b : boot) : boot :=
  Boot (b_sys b) (b_idt b) (driver_global b) (device_global b) (device_heap b) (partition_driver_global b)
    (b_partitions b) (b_mounts b) (cores_info b) (b_gs_base b) (f (b_screen b)) (start_flag b) (core0_prepared b).
Definition set_start_flag (v : Z) (b : boot) : boot :=
  Boot (b_sys b) (b_idt b) (driver_global b) (device_global b) (device_heap b) (partition_driver_global b)
    (b_partitions b) (b_mounts b) (cores_info b) (b_gs_base b) (b_screen b) v (core0_prepared b).
Definition set_core0_prepared (v : Z) (b : boot) : boot :=
  Boot (b_sys b) (b_idt b) (driver_global b) (device_global b) (device_heap b) (partition_driver_global b)
    (b_partitions b) (b_mounts b) (cores_info b) (b_gs_base b) (b_screen b) (start_flag b) v.

Definition on_sys {A} (c : ST (sys disk) A) : ST boot A := fun b =>
  match c (b_sys b) with
  | Done (a, s) => Done (a, set_b_sys s b)
  | Panicked => Panicked | Faulted => Faulted | Stuck => Stuck
  end.
Definition on_bk {A} (c : ST kstate A) : ST boot A := on_sys (on_kern c).
(** The tables of the file calls. *)
Definition vfs_of (b : boot) : vfs := Vfs (b_mounts b) (pt_path <$> b_partitions b).

(** ** Drivers and devices *)
(** The first entry of zeros of a table of [8192 / size] structures. *)
Definition free_driver_slot {A} (table : gmap Z A) (size : Z) : ST boot Z := fun b =>
  match find_idx (Z.to_nat (4096 * 2 / size)) 0 (fun i => bool_decide (table !! i = None)) with
  | Some i => Done (i, b)
  | None => Panicked
  end.
Definition find_driver_by_name (b : boot) (name : path) : option Z :=
  find_idx (Z.to_nat MAX_DRIVER) 0 (fun i =>
    match driver_global b !! i with
    | Some d => negb (bool_decide (drv_type d = DEVICE_NOT_FOUND)) && (str_cmp (drv_name d) name =? 0)
    | None => false
    end).
Definition device_ptr (b : boot) (i : Z) : Z := default 0 (device_global b !! i).
Definition find_device_by_name (b : boot) (name : path) : Z :=
  match find_idx (Z.to_nat MAX_DEVICE) 0 (fun i =>
          match device_heap b !! device_ptr b i with
          | Some d => negb (device_ptr b i =? 0) && (str_cmp (dev_path d) name =? 0)
          | None => false
          end) with
  | Some i => i
  | None => -1
  end.

Context {M : Machine}.
Definition init_driver_ide : ST boot unit :=
  table ← gets driver_global;
  ide_driver_id ← free_driver_slot table sizeof_driver;
  _ ← modify (set_driver ide_driver_id
        (Driver (chars "ide") DEVICE_BLOCK Is_ide_connected Read_sector_ide Write_sector_ide Dummy));
  ide_device ← on_bk get_a_free_block_addr;
  _ ← modify (set_device_at ide_device (Device (chars "/dev/ide0") ide_driver_id));
  modify (set_device_slot 0 ide_device).
(** [mount] of vfs.h with its allocation. *)
Definition boot_mount (src dest : path) (flags : Z) : ST boot Z := fun b =>
  match on_bk get_a_free_block_addr b with
  | Done (_, b') =>
      match mount true src dest flags (vfs_of b) with
      | Done (r, v) => Done (r, if r =? -1 then b else set_b_mounts (mount_global v) b')
      | Panicked => Panicked | Faulted => Faulted | Stuck => Stuck
      end
  | Panicked =>
      match mount false src dest flags (vfs_of b) with
      | Done (r, _) => Done (r, b)
      | Panicked => Panicked | Faulted => Faulted | Stuck => Stuck
      end
  | Faulted => Faulted | Stuck => Stuck
  end.
(** The set-up ends when the device was found; otherwise the entry before the
    table is taken, the last word of the memory of [driver_global]. *)
Definition init_vfs_fat32 : ST boot unit :=
  table ← gets partition_driver_global;
  fat32_driver_id ← free_driver_slot table sizeof_partition_driver;
  _ ← modify (set_partition_driver fat32_driver_id
        (PartitionDriverTable (chars "fat32") Dummy Fat32_read_file_bytes Fat32_list_directory Fat32_write_file_bytes Dummy
           Fat32_create Fat32_stat Fat32_truncate_file Fat32_rmdir_entry Fat32_rename));
  _ ← on_bk get_a_free_block_addr;
  dev_id ← gets (fun b => find_device_by_name b (chars "/dev/ide0"));
  if negb (dev_id =? -1) then mret tt
  else
    host ← gets (fun b => device_ptr b dev_id);
    _ ← modify (set_partition 0 (Partition (chars "/dev/sda1") fat32_driver_id host 0 0));
    _ ← boot_mount (chars "/dev/sda") (chars "/") 0;
    mret tt.

(** ** The first process and the cores *)
Record symbols := Symbols {
  y_keyboard : Z; y_mouse : Z; y_tick : Z; y_dummy1 : Z; y_invalid_opcode : Z; y_float_error : Z; y_e1000 : Z;
  y_kernel_thread_network : Z; y_rsp0_stack : Z; y_xsleep : Z; y_xsleep_top : Z;
  y_sections : seed_sections; y_begin_seed : Z; y_end_seed : Z;
  y_stack64_bottom_aps : Z; y_cores_info : Z; y_tmp : Z
}.
Context (y : symbols).
(** The image of the first process, and the zeros of its data section. *)
Definition copy_seed_to_memory (addr : Z) : ST boot unit :=
  _ ← on_sys (upd_mem (fun m => memcpy m addr (y_begin_seed y) (u64 (y_end_seed y - y_begin_seed y))));
  on_sys (upd_mem (fun m =>
    let (lo, hi) := seed_bss (y_sections y) in memset_loop (Z.to_nat (hi - lo)) m lo 0)).
Definition start_process_seed_from_ram (fuel : nat) : ST boot unit :=
  pid ← on_bk (free_slot_m proc_slot 2 MAX_PROCESSES_COUNT);
  _ ← on_bk (create_page_table_for_process pid (calc_process_seed_blocks_count (y_sections y)) 1);
  _ ← on_bk (setup_process_info pid pid);
  _ ← copy_seed_to_memory 0x1000;
  tid ← on_bk (register_a_thread fuel pid 0x1000);
  _ ← on_bk (gets (fun k => thread k tid) ≫= deref);
  on_bk (modify (upd_thread tid (set_t_state THREAD_READY))).
(** The hardware number of the core is read from its interrupt controller. *)
Definition set_gs_base (apic_id : Z) : ST boot unit :=
  modify (set_core apic_id (CoreInfo apic_id (u64 (y_stack64_bottom_aps y + u32 ((apic_id + 1) * AP_STACK64_SIZE))))
           (u64 (y_cores_info y + sizeof_core_info * apic_id))).

(** ** [kernel_main] *)
Definition boot_gates (idt : gmap Z idt_entry) : gmap Z idt_entry :=
  register_interrupt_handler 64 (y_e1000 y) 0 0x8E
    (register_interrupt_handler 0 (y_float_error y) 0 0x8E
      (register_interrupt_handler 6 (y_invalid_opcode y) 0 0x8E
        (register_interrupt_handler 3 (y_dummy1 y) 0 0x8E
          (register_interrupt_handler 1 (y_dummy1 y) 0 0x8E
            (register_interrupt_handler 32 (y_tick y) 0 0x8E
              (register_interrupt_handler 44 (y_mouse y) 0 0x8E
                (register_interrupt_handler 33 (y_keyboard y) 0 0x8E idt))))))).
Definition clear_tables (k : kstate) : kstate :=
  set_threads_info_ptr ∅ (set_processes_cr3_ptr ∅ (set_processes_info_ptr ∅ k)).
(** Up to the endless loop of [core_main], which a core enters with its
    interrupts enabled: the result is that of the first program. *)
Definition kernel_main {EE : ElfEnv} `{PartitionDriver disk} (junk : Z) (fuel : nat) (apic_id : Z) : ST boot Z :=
  _ ← modify (fun b => set_b_idt (boot_gates (b_idt b)) b);
  _ ← on_sys (upd_mem (fun m => erase_mem64 m (y_rsp0_stack y) 512));
  _ ← on_bk (modify clear_tables);
  _ ← on_bk setup_kernel_process;
  _ ← on_bk (register_a_kernel_thread (y_kernel_thread_network y));
  _ ← on_bk (start_idle_process (y_xsleep y) (y_xsleep_top y));
  _ ← start_process_seed_from_ram fuel;
  _ ← init_driver_ide;
  _ ← init_vfs_fat32;
  _ ← modify (set_start_flag 1);
  _ ← on_sys (st64 (y_tmp y) 0);
  v ← gets vfs_of;
  pid ← on_sys (run_elf_process junk v fuel (chars "/bin/testapp1.elf") (y_tmp y) (y_tmp y) false);
  _ ← modify (set_b_screen clear_screen);
  _ ← modify (set_b_screen (echo (chars " Carrot OS #: ")));
  _ ← modify (set_core0_prepared 1);
  _ ← set_gs_base apic_id;
  mret pid.
End Kernel.
Arguments boot : clear implicits.

(** ** Paging routines without a caller *)
Section Unused.
Context {M : Machine}.
(** [page] is an array type: [ptr[i] == 0] compares the address of a table
    4096 bytes further with null, and [i] has eight bits. *)
Fixpoint null_page_loop (fuel : nat) (base limit i : Z) : option Z :=
  match fuel with
  | O => None
  | S f =>
      if i <? limit then
        if u64 (base + 4096 * i) =? 0 then Some i else null_page_loop f base limit (u8 (i + 1))
      else Some i
  end.
Definition last_page (fuel : nat) (base limit : Z) : ST kstate Z :=
  match null_page_loop fuel base limit 0 with Some i => mret (u8 (i - 1)) | None => fun _ => Stuck end.
Definition flagged (addr : Z) : Z := Z.lor (Z.lor (Z.lor addr PTE_PRESENT) PTE_RW) PTE_USER.
(** A new table whose first word is set. *)
Definition first_word_table (v : Z) : ST kstate unit :=
  a ← get_a_free_block_addr;
  _ ← modify (erase_block a);
  modify (write_ram a v).
(** The addresses of the new tables are declared again in the inner blocks, so
    that the outer variables stay 0. *)
Definition increase_paging_of_process (fuel : nat) (pid : Z) : ST kstate unit :=
  l4 ← gets (fun k => cr3_of k pid);
  last_l4 ← last_page fuel l4 256;
  let l3 := page_line_to_addr (u64 (l4 + 4096 * last_l4)) in
  last_l3 ← last_page fuel l3 512;
  let l2 := page_line_to_addr (u64 (l3 + 4096 * last_l3)) in
  last_l2 ← last_page fuel l2 512;
  let l1 := page_line_to_addr (u64 (l2 + 4096 * last_l2)) in
  last_l1 ← last_page fuel l1 512;
  let temp := u64 (s32 (last_l4 * 512 * 512 * 512 + last_l3 * 512 * 512 + last_l2 * 512 + last_l1 + 1)) in
  new_mem ← get_a_free_block_addr;
  if negb (temp mod 512 =? 0) then modify (write_ram (u64 (l1 + 4096 * (last_l1 + 1))) (flagged new_mem))
  else
    _ ← first_word_table (flagged new_mem);
    if negb (temp mod (512 * 512) =? 0) then modify (write_ram (u64 (l2 + 4096 * (last_l2 + 1))) (flagged 0))
    else
      _ ← first_word_table (flagged 0);
      if negb (temp mod (512 * 512 * 512) =? 0) then modify (write_ram (u64 (l3 + 4096 * (last_l3 + 1))) (flagged 0))
      else
        _ ← first_word_table (flagged 0);
        modify (write_ram (u64 (l4 + 4096 * (last_l4 + 1))) (flagged 0)).
(** The table is read at the physical addresses of the entries. *)
Fixpoint free_page (page_addr : Z) (lv : nat) (k : kstate) : kstate :=
  free_block page_addr
    (iter_for 512 0 (fun i k =>
       let page_entry_addr := u64 (page_line_to_addr (entry k page_addr i) - HM) in
       match lv with
       | S (S _ as lv') => free_page page_entry_addr lv' k
       | _ => free_block page_entry_addr k
       end) k).

Lemma null_page_loop_never base fuel : forall i,
  HM <= base < 2 ^ 63 -> 0 <= i < 256 -> null_page_loop fuel base 256 i = None.
Proof.
  unfold HM. induction fuel as [|f IH]; intros i Hb Hi; [done|]. cbn [null_page_loop].
  destruct (Z.ltb_spec i 256); [|lia]. rewrite u64_id by lia.
  destruct (Z.eqb_spec (base + 4096 * i) 0); [lia|]. apply IH; [done|apply u8_range].
Qed.
End Unused.

(** ** Lemmas *)
Section BootLemmas.
Context {M : Machine} {disk : Type}.

Lemma on_bk_done {A} (c : ST kstate A) (b : boot disk) a k :
  c (s_k (b_sys b)) = Done (a, k) -> on_bk c b = Done (a, set_b_sys (set_s_k k (b_sys b)) b).
Proof. unfold on_bk, on_sys, on_kern, on_sm, on_k, s_k. intros E. rewrite E. done. Qed.

(** The allocator, seen from the boot state. *)
Lemma boot_alloc (b : boot disk) :
  machine_ok -> (0 < length (free_list (s_k (b_sys b))))%nat ->
  exists a k, on_bk get_a_free_block_addr b = Done (a, set_b_sys (set_s_k k (b_sys b)) b) /\
    S (length (free_list k)) = length (free_list (s_k (b_sys b))) /\ 0 < a.
Proof.
  intros Hm Hl. destruct (get_a_free_block_addr_done _ Hm Hl) as (c & E & Hc & Hr).
  eexists _, _. split; [exact (on_bk_done _ _ _ _ E)|]. split; [by apply free_list_alloc|unfold HM; lia].
Qed.

Lemma free_driver_slot_first {A} (table : gmap Z A) size (b : boot disk) :
  (0 < Z.to_nat (4096 * 2 / size))%nat -> table !! 0 = None -> free_driver_slot table size b = Done (0, b).
Proof.
  intros Hn H0. unfold free_driver_slot.
  assert (find_idx (Z.to_nat (4096 * 2 / size)) 0 (fun i => bool_decide (table !! i = None)) = Some 0) as ->; [|done].
  apply find_idx_Some. split; [lia|]. split; [by rewrite bool_decide_true|lia].
Qed.

(** A device is found by a name it does not have. *)
Lemma find_device_misses (b : boot disk) name a d :
  device_global b = {[0 := a]} -> device_heap b !! 0 = None -> device_heap b !! a = Some d -> dev_path d = name ->
  find_device_by_name b name = -1.
Proof.
  intros Hg Hz Ha Hn. unfold find_device_by_name.
  assert (find_idx (Z.to_nat MAX_DEVICE) 0 (fun i =>
    match device_heap b !! device_ptr b i with
    | Some d => negb (device_ptr b i =? 0) && (str_cmp (dev_path d) name =? 0) | None => false end) = None) as ->; [|done].
  apply find_idx_None. intros i _. unfold device_ptr. rewrite Hg. destruct (decide (i = 0)) as [->|Hi].
  - rewrite lookup_singleton_eq. cbn [default id]. rewrite Ha, str_cmp_spec, Hn, bool_decide_true by done. by rewrite andb_false_r.
  - rewrite lookup_singleton_ne by done. cbn [default id]. by rewrite Hz.
Qed.

(** With one mount, at the root, every absolute path that fits leads to it. *)
Lemma root_mount_found v mp p : mount_global v = {[0 := mp]} -> mp_dest mp = root -> path_fits (slash :: p) ->
  find_mount_by_path v (slash :: p) = Done 0.
Proof.
  intros Hm Hd Hb. pose proof (slashes_nonneg (slash :: p)).
  assert (M0 : mounted v 0 mp) by (split; [unfold MAX_MOUNT_POINT; lia|by rewrite Hm, lookup_singleton_eq]).
  assert (C0 : component_prefix (mp_dest mp) (slash :: p)) by (by left).
  destruct (component_prefix_level _ _ C0 Hb) as [Hlv _].
  destruct (mount_levels_spec v p Hb (Z.to_nat (slashes (slash :: p)))) as (j & mp' & E & [_ Hj] & _);
    [lia|exists 0, mp; split_and!; [done|done|lia]|].
  unfold find_mount_by_path. rewrite E. rewrite Hm in Hj. apply lookup_singleton_Some in Hj as [<- _]. done.
Qed.

Definition ide_driver : driver := Driver (chars "ide") DEVICE_BLOCK Is_ide_connected Read_sector_ide Write_sector_ide Dummy.
Definition ide_device (a : Z) (b : boot disk) : boot disk :=
  set_device_slot 0 a (set_device_at a (Device (chars "/dev/ide0") 0) (set_driver 0 ide_driver b)).
Lemma init_driver_ide_run (b : boot disk) :
  machine_ok -> driver_global b !! 0 = None -> (0 < length (free_list (s_k (b_sys b))))%nat ->
  exists a k, init_driver_ide b = Done (tt, set_b_sys (set_s_k k (b_sys b)) (ide_device a b)) /\
    S (length (free_list k)) = length (free_list (s_k (b_sys b))) /\ 0 < a.
Proof.
  intros Hm H0 Hl. destruct (boot_alloc (set_driver 0 ide_driver b) Hm Hl) as (a & k & E & L & Ha).
  exists a, k. split; [|by split]. unfold init_driver_ide. rewrite gets_bind.
  rewrite (bind_done _ _ _ _ _ (free_driver_slot_first _ sizeof_driver b ltac:(vm_compute; lia) H0)).
  rewrite modify_bind. fold ide_driver. rewrite (bind_done _ _ _ _ _ E). by rewrite modify_bind.
Qed.

Definition fat32_table : partition_driver :=
  PartitionDriverTable (chars "fat32") Dummy Fat32_read_file_bytes Fat32_list_directory Fat32_write_file_bytes Dummy
    Fat32_create Fat32_stat Fat32_truncate_file Fat32_rmdir_entry Fat32_rename.
Definition root_mount : mount_point := MountPoint (chars "/dev/sda") root 0 0.
Lemma mount_root_run v : mount_global v = ∅ -> partition_global v = {[0 := chars "/dev/sda1"]} ->
  mount true (chars "/dev/sda") (chars "/") 0 v = Done (0, Vfs {[0 := root_mount]} (partition_global v)).
Proof.
  destruct v as [mg pg]. cbn [mount_global partition_global]. intros -> ->. unfold mount.
  assert (get_a_free_slot (mount_word (Vfs ∅ {[0 := chars "/dev/sda1"]})) 0 MAX_MOUNT_POINT = Some 0) as ->; [|by vm_compute].
  apply find_idx_Some. unfold MAX_MOUNT_POINT. split; [lia|]. split; [done|lia].
Qed.
Lemma init_vfs_fat32_run (b : boot disk) :
  machine_ok -> partition_driver_global b !! 0 = None -> b_partitions b = ∅ -> b_mounts b = ∅ ->
  find_device_by_name b (chars "/dev/ide0") = -1 -> device_ptr b (-1) = 0 ->
  (2 <= length (free_list (s_k (b_sys b))))%nat ->
  exists k, init_vfs_fat32 b = Done (tt, set_b_sys (set_s_k k (b_sys b))
    (set_b_mounts {[0 := root_mount]} (set_partition 0 (Partition (chars "/dev/sda1") 0 0 0 0) (set_partition_driver 0 fat32_table b)))).
Proof.
  intros Hm H0 Hp Hmt Hf Hw Hl. destruct (boot_alloc (set_partition_driver 0 fat32_table b) Hm) as (a1 & k1 & E1 & L1 & _); [cbn; lia|].
  set (b2 := set_partition 0 (Partition (chars "/dev/sda1") 0 0 0 0) (set_b_sys (set_s_k k1 (b_sys b)) (set_partition_driver 0 fat32_table b))).
  destruct (boot_alloc b2 Hm) as (a2 & k2 & E2 & _ & _).
  { change (s_k (b_sys b2)) with k1. change (s_k (b_sys (set_partition_driver 0 fat32_table b))) with (s_k (b_sys b)) in L1. lia. }
  exists k2. unfold init_vfs_fat32. rewrite gets_bind.
  rewrite (bind_done _ _ _ _ _ (free_driver_slot_first _ sizeof_partition_driver b ltac:(vm_compute; lia) H0)).
  rewrite modify_bind. fold fat32_table. rewrite (bind_done _ _ _ _ _ E1), gets_bind.
  change (find_device_by_name (set_b_sys _ _) _) with (find_device_by_name b (chars "/dev/ide0")). rewrite Hf. change (negb (-1 =? -1)) with false. cbv iota.
  rewrite gets_bind. change (device_ptr (set_b_sys _ _) (-1)) with (device_ptr b (-1)). rewrite Hw, modify_bind. change (set_partition 0 _ (set_b_sys _ _)) with b2.
  erewrite (bind_done (boot_mount _ _ _) _ b2); [reflexivity|]. unfold boot_mount. rewrite E2, mount_root_run; [reflexivity|done|].
  unfold vfs_of, b2. cbn [partition_global b_partitions set_partition set_b_sys set_partition_driver]. rewrite Hp, insert_empty. by rewrite map_fmap_singleton.
Qed.
End BootLemmas.

(** ** Properties *)
Definition tables_empty {disk : Type} (b : boot disk) : Prop :=
  driver_global b = ∅ /\ device_global b = ∅ /\ device_heap b = ∅ /\ partition_driver_global b = ∅ /\
  b_partitions b = ∅ /\ b_mounts b = ∅.
Definition register_file_system {M : Machine} {disk : Type} : ST (boot disk) unit := _ ← init_driver_ide; init_vfs_fat32.

(** C17: The file system comes up in a fixed shape: from empty tables and three
    free blocks, registering the disk driver and the FAT32 file system
    completes; the driver, the device /dev/ide0 on it, the FAT32 driver and the
    partition /dev/sda1 are in the first slots, and every absolute path of at
    most 1022 characters is handed to that partition; a longer one overruns the
    array it is copied to.  The partition has no host device: the search for
    /dev/ide0 passes over the device of that name. *)
Theorem file_system_comes_up {M : Machine} {disk : Type} (b : boot disk) :
  machine_ok -> tables_empty b -> (3 <= length (free_list (s_k (b_sys b))))%nat ->
  exists b' a, register_file_system b = Done (tt, b') /\
    driver_global b' !! 0 = Some (Driver (chars "ide") DEVICE_BLOCK Is_ide_connected Read_sector_ide Write_sector_ide Dummy) /\
    device_ptr b' 0 = a /\ 0 < a /\ device_heap b' !! a = Some (Device (chars "/dev/ide0") 0) /\
    (fs_name <$> partition_driver_global b' !! 0) = Some (chars "fat32") /\
    b_partitions b' !! 0 = Some (Partition (chars "/dev/sda1") 0 0 0 0) /\
    find_device_by_name b' (chars "/dev/ide0") = -1 /\
    (exists mp, mount_global (vfs_of b') !! 0 = Some mp /\ mp_dest mp = root /\ mp_part mp = 0) /\
    forall p, (path_fits (slash :: p) -> find_mount_by_path (vfs_of b') (slash :: p) = Done 0) /\
      (~ path_fits (slash :: p) -> find_mount_by_path (vfs_of b') (slash :: p) = Faulted).
Proof.
  intros Hm (Hd & Hg & Hh & Hp & Hpt & Hmt) Hl.
  destruct (init_driver_ide_run b Hm) as (a & k1 & E1 & L1 & Ha); [by rewrite Hd|lia|].
  set (b1 := set_b_sys (set_s_k k1 (b_sys b)) (ide_device a b)) in *.
  assert (Hf : find_device_by_name b1 (chars "/dev/ide0") = -1).
  { apply (find_device_misses b1 _ a (Device (chars "/dev/ide0") 0)); unfold b1; cbn;
      rewrite ?Hg, ?Hh, ?lookup_insert_ne, ?lookup_insert_eq by lia; done. }
  destruct (init_vfs_fat32_run b1 Hm) as (k2 & E2); try done.
  { unfold b1. cbn. by rewrite Hp. }
  { unfold device_ptr, b1. cbn. rewrite Hg. by rewrite lookup_insert_ne. }
  { change (s_k (b_sys b1)) with k1. lia. }
  eexists _, a. split; [unfold register_file_system; rewrite (bind_done _ _ _ _ _ E1); exact E2|].
  unfold device_ptr, b1. cbn. rewrite !lookup_insert_eq. cbn.
  split_and!; try done.
  - exists root_mount. by rewrite lookup_singleton_eq.
  - intros p. split; [by apply (root_mount_found _ root_mount)|]. unfold path_fits. intros Hs. apply long_path_overflows. lia.
Qed.

(** The paging routine that is to append a page never returns, for any number
    of iterations: its first loop compares addresses of arrays with null and its
    counter wraps around. *)
Theorem increase_paging_of_process_never_returns {M : Machine} (fuel : nat) (pid : Z) (k : kstate) :
  HM <= cr3_of k pid < 2 ^ 63 -> increase_paging_of_process fuel pid k = Stuck.
Proof.
  intros Hr. unfold increase_paging_of_process. rewrite gets_bind. unfold mbind at 1, st_bind at 1, last_page at 1.
  by rewrite null_page_loop_never by (done || lia).
Qed.

(** After the first lines of [kernel_main] each of its eight vectors leads to
    its handler, through the kernel code segment, and no other gate changed. *)
Theorem boot_gates_lead (y : symbols) (idt : gmap Z idt_entry) (n h : Z) :
  (n, h) ∈ [(33, y_keyboard y); (44, y_mouse y); (32, y_tick y); (1, y_dummy1 y); (3, y_dummy1 y);
            (6, y_invalid_opcode y); (0, y_float_error y); (64, y_e1000 y)] ->
  0 <= h < 2 ^ 64 ->
  exists e, boot_gates y idt !! n = Some e /\ selector e = 0x08 /\
    offset_low e + offset_mid e * 2 ^ 16 + offset_high e * 2 ^ 32 = h.
Proof.
  intros Hin Hh. unfold boot_gates.
  assert (Hhit : forall g, exists e, register_interrupt_handler n h 0 0x8E g !! n = Some e /\ selector e = 0x08 /\
    offset_low e + offset_mid e * 2 ^ 16 + offset_high e * 2 ^ 32 = h).
  { intros g. destruct (idt_gate_roundtrip g n h 0 0x8E Hh) as (e & E & Et & _ & _ & _ & _ & Es & _). eauto. }
  assert (Hmiss : forall g a f, n <> a -> register_interrupt_handler a f 0 0x8E g !! n = g !! n).
  { intros g a f Hn. unfold register_interrupt_handler. by rewrite lookup_insert_ne. }
  rewrite !elem_of_cons, elem_of_nil in Hin. destruct_or? Hin; try done; injection Hin as -> ->;
    repeat first [apply Hhit | rewrite Hmiss by lia].
Qed.

(** ** Witnesses *)
Definition still_screen : screen := Screen ∅ 0 [].
Definition bare_boot : boot unit :=
  Boot (Sys (SmState boot_state ∅ ∅) ∅ ∅ ∅ tt) ∅ ∅ ∅ ∅ ∅ ∅ ∅ ∅ 0 still_screen 0 0.
Lemma file_system_comes_up_witness : exists b' : boot unit,
  @register_file_system small_machine unit bare_boot = Done (tt, b') /\
  b_partitions b' !! 0 = Some (Partition (chars "/dev/sda1") 0 0 0 0).
Proof.
  destruct (@file_system_comes_up small_machine unit bare_boot small_machine_ok) as (b' & a & E & _ & _ & _ & _ & _ & P & _).
  - repeat split.
  - vm_compute. lia.
  - exists b'. split; [exact E|exact P].
Defined.
Lemma increase_paging_of_process_never_returns_witness :
  @increase_paging_of_process small_machine 1000 2
    (set_processes_cr3_ptr {[2 := 0x400000200000]} boot_state) = Stuck.
Proof. apply (@increase_paging_of_process_never_returns small_machine). vm_compute. split; congruence. Defined.
Definition demo_symbols : symbols :=
  Symbols 0x400000001000 0x400000001100 0x400000001200 0x400000001300 0x400000001400 0x400000001500 0x400000001600
    0x400000001700 0x400000100000 0 0 (SeedSections (0, 0) (0, 0) (0, 0) (0, 0) (0, 0)) 0 0 0 0 0.
Lemma boot_gates_lead_witness : exists e, boot_gates demo_symbols ∅ !! 32 = Some e /\ selector e = 0x08.
Proof.
  destruct (boot_gates_lead demo_symbols ∅ 32 0x400000001200) as (e & E & S & _).
  - repeat (first [left; reflexivity | right]).
  - lia.
  - exists e. split; [exact E|exact S].
Defined.
