(* ===== verification/Nic.v ===== *)
(** * Nic: bringing up the network card, listening sockets taken down

    The set-up of the card of src/core/network/e1000.h on top of the
    configuration space (Pci) and the network tables (Inet), and the two
    routines of src/core/network/af_inet/af_inet.h about listening sockets.

    The registers of the card are behind the class [CardRegs]: reading one may
    change the card, writing one is up to it.  The addresses of the rings and of
    their buffers are those of the linker. *)
From S2P Require Import Prelude Bytes MemLib StrLib Time KState Blocks Threads Packet Inet Pci.
Open Scope Z_scope.

Class CardRegs := {
  reg_read : gmap Z Z -> Z -> Z * gmap Z Z;
  reg_write : gmap Z Z -> Z -> Z -> gmap Z Z
}.
Record card_layout := CardLayout { a_tx_ring : Z; a_tx_buffers : Z; a_rx_ring : Z; a_rx_buffers : Z }.

Definition E1000_TCTL : Z := 0x0400.
Definition E1000_TIPG : Z := 0x0410.
Definition E1000_TDBAL : Z := 0x3800.
Definition E1000_TDBAH : Z := 0x3804.
Definition E1000_TDLEN : Z := 0x3808.
Definition E1000_TDH : Z := 0x3810.
Definition E1000_RCTL : Z := 0x100.
Definition E1000_RDBAL : Z := 0x2800.
Definition E1000_RDBAH : Z := 0x2804.
Definition E1000_RDLEN : Z := 0x2808.
Definition E1000_RDH : Z := 0x2810.
Definition E1000_ICR : Z := 0xC0.
Definition E1000_IMS : Z := 0xD0.
Definition sizeof_e1000_desc : Z := 16.

Section Card.
Context {C : CardRegs} (ly : card_layout).
Definition wr (off v : Z) : ST net unit :=
  modify (fun s => set_card (set_regs (reg_write (regs (card s)) off (u32 v)) (card s)) s).
Definition rd (off : Z) : ST net Z := fun s =>
  let (v, r) := reg_read (regs (card s)) off in Done (v, set_card (set_regs r (card s)) s).

(** ** The rings *)
(** [for (i = 0; i < n; i++)]: address and status of the descriptors. *)
Fixpoint init_ring (n : nat) (i buffers status : Z) (ring : gmap Z e1000_desc) : gmap Z e1000_desc :=
  match n with
  | O => ring
  | S n' =>
      let d := default zero_desc (ring !! i) in
      init_ring n' (i + 1) buffers status
        (<[i := Desc (u64 (buffers + 2048 * i - HM)) (d_length d) (d_cmd d) status]> ring)
  end.
Definition e1000_init_tx : ST net unit :=
  _ ← modify (fun s => set_card (set_tx_ring (init_ring (Z.to_nat NUM_TX_DESC) 0 (a_tx_buffers ly) 1 (tx_ring (card s))) (card s)) s);
  _ ← wr E1000_TDBAL (a_tx_ring ly);
  _ ← wr E1000_TDBAH 0;
  _ ← wr E1000_TDLEN (NUM_TX_DESC * sizeof_e1000_desc);
  _ ← wr E1000_TDH 0;
  _ ← wr E1000_TDT 0;
  _ ← wr E1000_TCTL (Z.lor (Z.lor (Z.lor (Z.shiftl 1 1) (Z.shiftl 1 3)) (Z.shiftl 1 5)) (Z.shiftl 1 22));
  wr E1000_TIPG (Z.lor (Z.lor 10 (Z.shiftl 8 10)) (Z.shiftl 12 20)).
Definition e1000_init_rx : ST net unit :=
  _ ← modify (fun s => set_card (set_rx_ring (init_ring (Z.to_nat NUM_RX_DESC) 0 (a_rx_buffers ly) 0 (rx_ring (card s))) (card s)) s);
  _ ← wr E1000_RDBAL (a_rx_ring ly - HM);
  _ ← wr E1000_RDBAH 0;
  _ ← wr E1000_RDLEN (NUM_RX_DESC * sizeof_e1000_desc);
  _ ← wr E1000_RDH 0;
  _ ← wr E1000_RDT (NUM_RX_DESC - 1);
  wr E1000_RCTL (Z.lor (Z.lor (Z.lor (Z.lor (Z.shiftl 1 1) (Z.shiftl 1 3)) (Z.shiftl 1 4)) (Z.shiftl 1 15)) (Z.shiftl 1 26)).
(** [while (e1000_regs[0] & (1 << 26));] *)
Fixpoint wait_reset (fuel : nat) : ST net unit :=
  match fuel with
  | O => fun _ => Stuck
  | S f => c ← rd 0; if Z.testbit c 26 then wait_reset f else mret tt
  end.

(** ** The card *)
Section Init.
Context {hw : Type} `{PortIO32 hw} {M : Machine} (e : net_env) (dispatch : Z -> list Z -> ST net unit) (fuel : nat).
Definition on_hw {A} (c : ST hw A) : ST (hw * net) A := fun s =>
  match c (fst s) with
  | Done (a, h) => Done (a, (h, snd s))
  | Panicked => Panicked | Faulted => Faulted | Stuck => Stuck
  end.
Definition on_tables {A} (c : ST net A) : ST (hw * net) A := fun s =>
  match c (snd s) with
  | Done (a, n) => Done (a, (fst s, n))
  | Panicked => Panicked | Faulted => Faulted | Stuck => Stuck
  end.
(** The capability for message-signalled interrupts; 0: there is none. *)
Fixpoint find_msi_cap (n : nat) (bus dev cap : Z) : ST hw Z :=
  match n with
  | O => fun _ => Stuck
  | S n' =>
      if cap =? 0 then mret 0
      else
        id ← pci_read8 bus dev 0 cap;
        next ← pci_read8 bus dev 0 (u8 (cap + 1));
        if (id =? 0x05) || (id =? 0x11) then mret cap else find_msi_cap n' bus dev next
  end.
Definition assign_nic (nic_id regs_addr ipv4 masklen gateway : Z) : ST net unit :=
  _ ← get_nic nic_id;
  modify (upd_nic nic_id (fun n =>
    Nic 1 (nic_mac n) (<[0 := Ip 0 ipv4 4 masklen IP_PENDING (now e)]> (nic_ip n)) gateway regs_addr)).
Definition init_e1000 (ipv4 masklen gateway : Z) : ST (hw * net) unit :=
  p ← on_hw (find_first_e1000 fuel);
  let bus := found_bus p in let dev := found_dev p in
  _ ← on_hw (pci_read16 bus dev 0 0x04);
  _ ← on_hw (pci_write16 bus dev 0 0x04 (Z.lor (Z.lor (Z.shiftl 1 2) (Z.shiftl 1 1)) (Z.shiftl 1 0)));
  bar ← on_hw (pci_read32 bus dev 0 0x10);
  let bar0 := Z.land bar (u32 (Z.lnot 0xF)) in
  c ← on_tables (rd 0); _ ← on_tables (wr 0 (Z.lor c (Z.shiftl 1 26)));
  _ ← on_tables (wait_reset fuel);
  c ← on_tables (rd 0); _ ← on_tables (wr 0 (Z.land c (Z.lnot (Z.shiftl 1 1))));
  c ← on_tables (rd 0); _ ← on_tables (wr 0 (Z.land c (Z.lnot (Z.shiftl 1 18))));
  c ← on_tables (rd 0); _ ← on_tables (wr 0 (Z.lor c (Z.shiftl 1 6)));
  _ ← on_hw (pci_read16 bus dev 0 0x04); _ ← on_hw (pci_read16 bus dev 0 0x06); _ ← on_hw (pci_read8 bus dev 0 0x3C);
  first ← on_hw (pci_read8 bus dev 0 0x34);
  cap ← on_hw (find_msi_cap fuel bus dev first);
  if cap =? 0 then panic
  else
    _ ← on_hw (pci_write32 bus dev 0 (u8 (cap + 4)) 0xFEE00000);
    _ ← on_hw (pci_write32 bus dev 0 (u8 (cap + 8)) 0);
    _ ← on_hw (pci_write16 bus dev 0 (u8 (cap + 0x0C)) 0x40);
    ctrl ← on_hw (pci_read16 bus dev 0 (u8 (cap + 2)));
    _ ← on_hw (pci_write16 bus dev 0 (u8 (cap + 2)) (Z.lor ctrl 1));
    _ ← on_tables e1000_init_tx;
    _ ← on_tables e1000_init_rx;
    _ ← on_tables (wr 0xC4 0); _ ← on_tables (wr 0xE0 0); _ ← on_tables (wr 0x2820 0); _ ← on_tables (wr 0x282C 0);
    _ ← on_tables (wr 0xC4 0);
    _ ← on_tables (wr E1000_IMS 0x1F6DD);
    _ ← on_tables (rd E1000_ICR);
    r ← on_tables (gets (fun s => regs (card s)));
    mac ← on_hw (get_mac (fun a => fst (reg_read r (a - bar0))) bus dev);
    nic_id ← on_tables (register_nic e mac);
    _ ← on_tables (assign_nic nic_id bar0 ipv4 masklen gateway);
    on_tables (send_arp dispatch ipv4 nic_id false).
End Init.
End Card.

(** ** Listening sockets *)
(** The table of pointers is read as a structure: the fields are words of the
    table. *)
Definition count_sockets_backlog (id : Z) : ST net Z := fun s =>
  let w j := listen_ptr s (id + j) in
  let same (t : net_tuple) : bool :=
    (local_ip_l t =? w 1) && (remote_ip_l t =? w 3) && (local_port t =? u32 (w 4)) &&
    (remote_port t =? Z.shiftr (w 4) 32) && (protocol t =? u16 (w 5)) && bool_decide (state t = NET_STATE_SYN_RECEIVED) in
  match for_m (Z.to_nat MAX_SOCKETS_COUNT) 0 (fun i =>
     t ← (gets (fun a : Z * net => sock (snd a) i) ≫= deref);
     when (same (tuple t)) (modify (fun a => (u64 (fst a + 1), snd a)))) (0, s) with
  | Done (_, (n, s')) => Done (n, s')
  | Panicked => Panicked | Faulted => Faulted | Stuck => Stuck
  end.
(** The entry of the listening table is used as an index of the socket table;
    [MAX_LISTENS_COUNT] is added to an address. *)
Definition delete_listen (t : net_tuple) : ST net Z :=
  r ← loop_m (Z.to_nat MAX_LISTENS_COUNT) 0 (fun i =>
    l ← gets (fun s => listen_ptr s i);
    if l =? 0 then mret None
    else
      x ← get_sock i;
      if negb (bool_decide (tuple x = t)) then mret None
      else
        a ← gets (fun s => sock_ptr s i);
        _ ← modify (erase_sock_block a);
        _ ← modify (erase_sock_block (a + MAX_LISTENS_COUNT));
        _ ← modify (fun s => set_listen_global (<[i := 0]> (listen_global s)) s);
        mret (Some 0));
  mret (default (-1) r).

(** ** Lemmas *)
Section RingLemmas.
Lemma init_ring_lookup buffers status n : forall i ring j,
  init_ring n i buffers status ring !! j =
  if (i <=? j) && (j <? i + Z.of_nat n) then
    let d := default zero_desc (ring !! j) in Some (Desc (u64 (buffers + 2048 * j - HM)) (d_length d) (d_cmd d) status)
  else ring !! j.
Proof.
  induction n as [|n IH]; intros i ring j; cbn [init_ring].
  - destruct (Z.leb_spec i j), (Z.ltb_spec j (i + Z.of_nat 0)); cbn [andb]; done || lia.
  - rewrite IH. destruct (decide (j = i)) as [->|Hne].
    + destruct (Z.leb_spec (i + 1) i); [lia|]. cbn [andb]. rewrite lookup_insert_eq.
      destruct (Z.leb_spec i i), (Z.ltb_spec i (i + Z.of_nat (S n))); cbn [andb]; done || lia.
    + rewrite lookup_insert_ne by done.
      destruct (Z.leb_spec (i + 1) j), (Z.leb_spec i j), (Z.ltb_spec j (i + 1 + Z.of_nat n)), (Z.ltb_spec j (i + Z.of_nat (S n)));
        cbn [andb]; done || lia.
Qed.

(** The frames of a list, one after the other. *)
Fixpoint send_all (frames : list (list Z)) : ST net unit :=
  match frames with [] => mret tt | f :: r => _ ← e1000_send f; send_all r end.

(** The descriptors from the tail on are free; those before it have been used
    for [sent]. *)
Record tx_progress (buffers : Z) (sent : list (list Z)) (c : e1000_t) : Prop := {
  tp_tail : tx_tail c = Z.of_nat (length sent) mod NUM_TX_DESC;
  tp_free : forall j, Z.of_nat (length sent) <= j < NUM_TX_DESC -> exists l m,
    tx_ring c !! j = Some (Desc (u64 (buffers + 2048 * j - HM)) l m 1);
  tp_used : forall j f, sent !! j = Some f -> (length f <= 2048)%nat /\
    tx_ring c !! Z.of_nat j = Some (Desc (u64 (buffers + 2048 * Z.of_nat j - HM)) (u16 (Z.of_nat (length f))) 9 0) /\
    cells (tx_buffers c) (Z.of_nat j * 2048) (length f) = f
}.
Lemma send_progress buffers sent f s :
  tx_progress buffers sent (card s) -> (length sent < 16)%nat -> (length f <= 2048)%nat ->
  exists s', e1000_send f s = Done (tt, s') /\ tx_progress buffers (sent ++ [f]) (card s').
Proof.
  intros [Ht Hf Hu] Hl Hs. unfold e1000_send. rewrite Ht, Z.mod_small by (unfold NUM_TX_DESC; lia).
  destruct (Hf (Z.of_nat (length sent))) as (l & m & E); [unfold NUM_TX_DESC; lia|]. rewrite E. cbn [default id d_status d_addr].
  change (negb (Z.testbit 1 0)) with false. cbv iota. eexists. split; [reflexivity|].
  assert (Hlen : length (sent ++ [f]) = S (length sent)) by (rewrite length_app; cbn; lia).
  constructor; cbn [card set_card tx_tail tx_ring tx_buffers].
  - rewrite Hlen. f_equal. lia.
  - intros j Hj. rewrite Hlen in Hj. rewrite lookup_insert_ne by lia. apply Hf. lia.
  - intros j g Hg. apply lookup_snoc_Some in Hg as [[Hj Hg]|[-> ->]].
    + rewrite lookup_insert_ne by lia. destruct (Hu j g Hg) as (Hg' & Hd & Hc). split_and!; [done|done|]. rewrite <- Hc at 2.
      apply cells_ext. intros i Hi. rewrite store_bytes_ld.
      destruct (Z.leb_spec (Z.of_nat (length sent) * 2048) i); [lia|done].
    + rewrite lookup_insert_eq. split_and!; [done|done|apply cells_store].
Qed.
Lemma send_all_progress buffers frames : forall sent s,
  tx_progress buffers sent (card s) -> (length sent + length frames <= 16)%nat ->
  Forall (fun f => length f <= 2048)%nat frames ->
  exists s', send_all frames s = Done (tt, s') /\ tx_progress buffers (sent ++ frames) (card s').
Proof.
  induction frames as [|f r IH]; intros sent s Hp Hl Hf; cbn [send_all length] in *.
  - exists s. by rewrite app_nil_r.
  - inversion Hf as [|? ? Hf1 Hr]; subst. destruct (send_progress buffers sent f s Hp) as (s1 & E & Hp1); [lia|done|].
    destruct (IH (sent ++ [f]) s1 Hp1) as (s2 & E2 & Hp2); [rewrite length_app; cbn; lia|done|].
    exists s2. rewrite (bind_done _ _ _ _ _ E). split; [done|]. by rewrite <- app_assoc in Hp2.
Qed.
Lemma init_tx_progress {C : CardRegs} ly s : tx_tail (card s) = 0 ->
  exists s', e1000_init_tx ly s = Done (tt, s') /\ tx_progress (a_tx_buffers ly) [] (card s').
Proof.
  intros Ht. eexists. split; [reflexivity|]. constructor; cbn [card set_card set_regs set_tx_ring tx_tail tx_ring].
  - by rewrite Ht.
  - intros j Hj. rewrite init_ring_lookup. change (Z.of_nat (Z.to_nat NUM_TX_DESC)) with 16. unfold NUM_TX_DESC in Hj. cbn [length] in Hj.
    destruct (Z.leb_spec 0 j), (Z.ltb_spec j (0 + 16)); try lia. cbn [andb]. eauto.
  - intros j f Hf. by rewrite lookup_nil in Hf.
Qed.
End RingLemmas.

(** ** Properties *)
(** C37: The transmit ring, once set up, takes sixteen frames of at most 2048
    bytes without waiting for the card: each is copied whole into a buffer of
    its own and its descriptor holds the physical address of that buffer, the
    length and the command; the next frame waits until the card has sent one. *)
Theorem transmit_ring_takes_sixteen {C : CardRegs} (ly : card_layout) (s : net) (frames : list (list Z)) (more : list Z) :
  tx_tail (card s) = 0 -> (length frames <= 16)%nat -> Forall (fun f => length f <= 2048)%nat frames ->
  exists s', (_ ← e1000_init_tx ly; send_all frames) s = Done (tt, s') /\
    (forall j f, frames !! j = Some f ->
       tx_ring (card s') !! Z.of_nat j =
         Some (Desc (u64 (a_tx_buffers ly + 2048 * Z.of_nat j - HM)) (Z.of_nat (length f)) 9 0) /\
       cells (tx_buffers (card s')) (Z.of_nat j * 2048) (length f) = f) /\
    (length frames = 16%nat -> e1000_send more s' = Stuck).
Proof.
  intros Ht Hl Hf. destruct (init_tx_progress ly s Ht) as (s1 & E1 & P1).
  destruct (send_all_progress (a_tx_buffers ly) frames [] s1 P1) as (s' & E & [Hta Hfr Hu]); [done|done|].
  exists s'. split; [by rewrite (bind_done _ _ _ _ _ E1)|]. cbn [app] in *. split.
  - intros j f Hj. destruct (Hu j f Hj) as (Hlf & Hd & Hc). rewrite u16_id in Hd by lia. by split.
  - intros H16. unfold e1000_send. rewrite Hta, H16. change (Z.of_nat 16 mod NUM_TX_DESC) with (Z.of_nat 0).
    destruct (lookup_lt_is_Some_2 frames 0) as [f Hj]; [lia|]. destruct (Hu 0%nat f Hj) as (_ & Hd & _). by rewrite Hd.
Qed.

(** ** Witnesses *)
#[local] Instance plain_regs : CardRegs := {| reg_read r o := (default 0 (r !! o), r); reg_write r o v := <[o := v]> r |}.
Definition demo_layout : card_layout := CardLayout 0x400000300000 0x400000310000 0x400000320000 0x400000330000.
Lemma transmit_ring_takes_sixteen_witness : exists s',
  (_ ← e1000_init_tx demo_layout; send_all (replicate 16 [1; 2; 3])) demo_net = Done (tt, s') /\ e1000_send [9] s' = Stuck.
Proof.
  destruct (transmit_ring_takes_sixteen demo_layout demo_net (replicate 16 [1; 2; 3]) [9]) as (s' & E & _ & W).
  - vm_compute. reflexivity.
  - vm_compute. lia.
  - apply Forall_replicate. cbn. lia.
  - exists s'. split; [exact E|]. apply W. reflexivity.
Defined.
(** A card on bus 0 whose reset bit clears at once, with one capability. *)
Definition resetting_regs : CardRegs :=
  {| reg_read r o := (default 0 (r !! o), r);
     reg_write r o v := <[o := if o =? 0 then Z.land v (Z.lnot (Z.shiftl 1 26)) else v]> r |}.
Definition demo_pci : pci_file := PciFile 0 (fun a =>
  if a =? pci_address 0 3 0 0 then 0x100E8086 else if a =? pci_address 0 3 0 8 then 0x02000000
  else if a =? pci_address 0 3 0 0x10 then 0xFEBC0000 else if a =? pci_address 0 3 0 0x34 then 0x50
  else if a =? pci_address 0 3 0 0x50 then 0x0005 else if a <? pci_address 0 3 0 0 then 0xFFFFFFFF else 0).
Example card_comes_up :
  match @init_e1000 resetting_regs demo_layout pci_file _ small_machine demo_env (fun _ _ => mret tt) 3
          0x0A000005 24 0x0A000001 (demo_pci, demo_net) with
  | Done (_, (h, s)) =>
      Some ((fun n => (mmio_base n, nic_gateway n, ip_at n 0)) <$> nic_global s !! 2,
            regs (card s) !! E1000_TDLEN, regs (card s) !! E1000_IMS, pf_regs h (pci_address 0 3 0 0x50))
  | _ => None
  end = Some (Some (0xFEBC0000, 0x0A000001, Ip 0 0x0A000005 4 24 IP_PENDING (now demo_env)),
              Some 256, Some 0x1F6DD, 0x00010005).
Proof. vm_compute. reflexivity. Qed.
