(* ===== verification/FileCalls.v ===== *)
(** * FileCalls: the remaining calls on paths and descriptors

    What src/core/syscall/syscall1.h and syscall2.h have beyond Descr,
    ProcCalls, Term and Screen: reading directories and sockets through a
    descriptor, [sys_stat], [sys_ioctl], the foreground group of a terminal; and
    the helpers of src/core/filesytem/filesystem.h without a caller there. *)
From S2P Require Import Prelude Bytes MemLib StrLib Time KState Blocks Threads User Vfs Descr Inet Tcp Uds Screen Term.
Open Scope Z_scope.

(** ** Helpers *)
Fixpoint strncpy_loop (fuel : nat) (m : mem) (dst src i max_len : Z) : option (mem * Z) :=
  match fuel with
  | O => None
  | S f =>
      if negb (ld m (src + i) =? 0) && (i <? max_len - 1)
      then strncpy_loop f (st m (dst + i) (ld m (src + i))) dst src (i + 1) max_len
      else Some (st m (dst + i) 0, i)
  end.
(** The number of characters copied. *)
Definition strncpy (m : mem) (dst src max_len : Z) : option (mem * Z) :=
  if max_len =? 0 then Some (m, 0) else strncpy_loop (Z.to_nat max_len) m dst src 0 max_len.
(** The sector is read through a null device. *)
Definition get_partition_n {S : Type} (n : Z) : ST S Z :=
  if (n <? 0) || (4 <=? n) then mret (-1) else fault.

(** ** Calls on paths *)
(** [struct dirent_stat] of the call, and the fields of [struct DirentStat] it
    is filled from. *)
Record stat_buf := StatBuf {
  st_dev : Z; st_ino : Z; st_mode : Z; st_nlink : Z; st_uid : Z; st_gid : Z; st_size : Z; st_atime : Z; st_mtime : Z; st_ctime : Z
}.
Record stack_stat := StackStat {
  ss_type : path_type; ss_size : Z;
  ss_access : Z * Z; ss_modified : Z * Z; ss_creation : Z * Z
}.
Section Paths.
Context {disk : Type} `{PartitionDriver disk} (junk : Z) (v : vfs).
Definition stat_dirent_ret (p : path) : ST disk dirent_stat :=
  dispatch junk v (DirentStat PATH_NOT_FOUND 0) p (fun part child => drv_stat part child).
(** [real_stat] is the local structure, which is not set. *)
Definition stamp (dt : Z * Z) : Z := u64 (fst dt * 24 * 3600 + snd dt).
Definition sys_stat (real_stat : stack_stat) (p : option path) (stat_null : bool) : ST disk (Z * option stat_buf) :=
  match p with
  | None => mret (-1, None)
  | Some p =>
      if stat_null then mret (-1, None)
      else
        b ← path_exists junk v p;
        if negb b then mret (-1, None)
        else mret (0, Some (StatBuf 0 0 (Z.lor (if decide (ss_type real_stat = PATH_DIRECTORY) then 0x4000 else 0x8000) 511)
                       1 0 0 (ss_size real_stat) (stamp (ss_access real_stat)) (stamp (ss_modified real_stat))
                       (stamp (ss_creation real_stat))))
  end.
End Paths.

(** ** Calls on descriptors *)
(** The requests of terminals and frame buffers. *)
Class IoctlBackends (disk : Type) := {
  ioctl_tty : Z -> Z -> Z -> ST (sys disk) Z;
  ioctl_frame_buffer : Z -> Z -> Z -> ST (sys disk) Z
}.
Section Descriptors.
Context {M : Machine} {disk : Type} `{PartitionDriver disk} `{IoctlBackends disk} (junk : Z) (v : vfs).
(** [list_dir] is a [bool]: 1 for its errors, and without a value, the
    parameter [ret], when the directory was listed. *)
Definition sys_read_dir (ret : bool) (fuel : nat) (fd buf count : Z) : ST (sys disk) Z :=
  fds ← current_fds;
  let file := fd_entry fds fd in
  start_pos ← ld64 (file + fi_offset);
  gid ← ld64 (file + fi_global_id);
  p ← path_of fuel gid;
  bytes ← gets (fun s => cells (s_mem s) buf (Z.to_nat count));
  r ← on_fs (list_dir junk v p bytes start_pos count);
  let actual_read_len := match r : option (list Z) with None => 1 | Some _ => Z.b2z ret end in
  _ ← upd_mem (fun m => match r : option (list Z) with None => m | Some l => store_bytes m buf l end);
  _ ← add64 (file + fi_offset) actual_read_len;
  gid ← ld64 (file + fi_global_id);
  f ← gets (fun s => fdg s gid);
  _ ← add64 (f + file_offset) actual_read_len;
  mret actual_read_len.
Definition sys_ioctl_file (global_id request arg : Z) : ST (sys disk) Z := mret 0.
Definition sys_ioctl_pipe (res_id request arg : Z) : ST (sys disk) Z := mret 0.
Definition sys_ioctl_socket (res_id request arg : Z) : ST (sys disk) Z := mret 0.
Definition sys_ioctl (fd request arg : Z) : ST (sys disk) Z :=
  fds ← current_fds;
  let file := fd_entry fds fd in
  ty ← ld32 (file + fi_type);
  gid ← ld64 (file + fi_global_id);
  res_id ← ld64 (file + fi_res_id);
  if ty =? file_type_code FILE_NONE then mret (neg64 1)
  else if ty =? file_type_code FILE_REGULAR then sys_ioctl_file gid request arg
  else if ty =? file_type_code FILE_CHAR_DEV then mret 0
  else if ty =? file_type_code FILE_DIR then mret (neg64 1)
  else if ty =? file_type_code FILE_PIPE then sys_ioctl_pipe res_id request arg
  else if ty =? file_type_code FILE_SOCKET then sys_ioctl_socket res_id request arg
  else if ty =? file_type_code FILE_TTY then ioctl_tty res_id request arg
  else if ty =? file_type_code FILE_FRAME_BUFFER then ioctl_frame_buffer res_id request arg
  else mret (neg64 1).
End Descriptors.

(** ** Sockets and terminals *)
Definition sys_read_socket (socket_id buf count : Z) : ST net Z :=
  r ← read_socket_by_id socket_id buf count; mret (u64 r).
Definition sys_write_socket (id buf count : Z) : ST net Z := mret 0.
Definition sys_read_socket_uds (socket_id buf count : Z) : ST uds Z := read_socket_by_id_uds socket_id buf count.
Definition sys_write_socket_uds (id buf count : Z) : ST uds Z := socket_append_uds id buf count.

(** The first process of the group, which decides; the terminal is looked at
    only when it is written. *)
Definition first_of_group (k : kstate) (pgrp : Z) : option process_info :=
  i ← find_idx (Z.to_nat MAX_PROCESSES_COUNT) 0 (fun i =>
        match proc k i with Some q => negb (proc_slot k i =? 0) && (p_pgid q =? pgrp) | None => false end);
  proc k i.
Definition sys_tcsetpgrp (fd_id pgrp : Z) : ST term Z :=
  if MAX_FD <? fd_id then mret (neg64 100)
  else
    pid ← tm_kern get_current_pid;
    p ← (gets (fun s => proc (tm_k s) pid) ≫= deref);
    let fd := fd_entry (p_fd_addr p) fd_id in
    if fd =? 0 then mret (neg64 EBADF)
    else
      ty ← gets (fun s => ld_le 4 (tm_mem s) (fd + fi_type));
      if negb (ty =? file_type_code FILE_TTY) then mret (neg64 ENOTTY)
      else
        res_id ← gets (fun s => ld_le 8 (tm_mem s) (fd + fi_res_id));
        a ← gets (fun s => tty_ptr s res_id);
        q ← gets (fun s => first_of_group (tm_k s) pgrp);
        match q : option process_info with
        | Some q => if negb (p_sid q =? p_sid p) then mret (neg64 EPERM)
                    else _ ← (gets (fun s => tty_heap s !! a) ≫= deref); _ ← upd_tty a (set_foreground_pgid pgrp); mret 0
        | None => _ ← (gets (fun s => tty_heap s !! a) ≫= deref); _ ← upd_tty a (set_foreground_pgid pgrp); mret 0
        end.

(** ** Lemmas *)
Section CallLemmas.
Lemma cstr_store m a c x s : ~ (a <= x <= a + slen s) -> StrLib.cstr m a s -> StrLib.cstr (st m x c) a s.
Proof.
  intros Hx Hs. apply (cstr_ext m); [|done]. intros i Hi. apply ld_st_ne. lia.
Qed.
Lemma strncpy_loop_run max dst src fuel : forall m i s,
  StrLib.cstr m (src + i) s -> 0 <= i < max -> max - i <= Z.of_nat fuel ->
  (dst + max <= src + i \/ src + i + slen s < dst + i) ->
  exists m', strncpy_loop fuel m dst src i max = Some (m', i + Z.min (slen s) (max - 1 - i)) /\
    StrLib.cstr m' (dst + i) (take (Z.to_nat (max - 1 - i)) s) /\
    (forall x, ~ (dst + i <= x <= dst + i + Z.min (slen s) (max - 1 - i)) -> ld m' x = ld m x).
Proof.
  induction fuel as [|f IH]; intros m i s Hs Hi Hf Hd; [lia|]. cbn [strncpy_loop].
  pose proof (slen_nonneg s) as Hn. destruct s as [|c s].
  - cbn in Hs. rewrite Hs. cbn [Z.eqb negb andb]. eexists. split; [do 3 f_equal; unfold slen; cbn [length]; lia|].
    rewrite take_nil. split; [cbn; by rewrite ld_st_eq|]. intros x Hx. rewrite ld_st_ne; [done|]. unfold slen in Hx. cbn [length] in Hx. lia.
  - destruct Hs as (Hc0 & Hc & Hs). rewrite Hc. destruct (Z.eqb_spec c 0); [done|]. cbn [negb andb].
    assert (Hsl : slen (c :: s) = slen s + 1) by (unfold slen; cbn [length]; lia). rewrite Hsl in *. pose proof (slen_nonneg s).
    destruct (Z.ltb_spec i (max - 1)).
    + destruct (IH (st m (dst + i) c) (i + 1) s) as (m' & E & Hm' & Hk); [|lia|lia|lia|].
      { replace (src + (i + 1)) with (src + i + 1) by lia. apply cstr_store; [lia|done]. }
      exists m'. split; [rewrite E; do 2 f_equal; lia|].
      replace (Z.to_nat (max - 1 - i)) with (S (Z.to_nat (max - 1 - (i + 1)))) by lia. cbn [take].
      split.
      * cbn [StrLib.cstr]. split_and!; [done| |by replace (dst + i + 1) with (dst + (i + 1)) by lia].
        rewrite Hk by lia. by rewrite ld_st_eq.
      * intros x Hx. rewrite Hk by lia. apply ld_st_ne. lia.
    + replace (max - 1 - i) with 0 by lia. change (Z.to_nat 0) with 0%nat. cbn [take]. eexists.
      split; [do 3 f_equal; lia|]. split; [cbn; by rewrite ld_st_eq|]. intros x Hx. apply ld_st_ne. lia.
Qed.
End CallLemmas.

(** ** Properties *)
(** The bounded copy places the longest prefix that fits together with its
    terminator, returns its length and writes nothing behind it. *)
Theorem strncpy_fits (m : mem) (dst src max : Z) (s : list Z) :
  StrLib.cstr m src s -> 0 < max -> (dst + max <= src \/ src + slen s < dst) ->
  exists m', strncpy m dst src max = Some (m', Z.min (slen s) (max - 1)) /\
    StrLib.cstr m' dst (take (Z.to_nat (max - 1)) s) /\
    (forall x, ~ (dst <= x < dst + max) -> ld m' x = ld m x).
Proof.
  intros Hs Hm Hd. unfold strncpy. destruct (Z.eqb_spec max 0); [lia|].
  destruct (strncpy_loop_run max dst src (Z.to_nat max) m 0 s) as (m' & E & Hc & Hk); rewrite ?Z.add_0_r; [done|lia|lia|lia|].
  exists m'. rewrite Z.add_0_r, Z.add_0_l, Z.sub_0_r in *. split_and!; [done|done|]. intros x Hx. apply Hk. lia.
Qed.

(** Setting the foreground group of a terminal: the call fails and changes
    nothing when the descriptor is not a terminal, or when the first process of
    the group is in another session; otherwise the group of that terminal, and
    nothing else, is set. *)
Theorem sys_tcsetpgrp_outcome (s : term) (t : thread_info) (p : process_info) (fd_id pgrp a : Z) (y : tty) :
  let fd := fd_entry (p_fd_addr p) fd_id in
  thread (tm_k s) (gs8 (tm_k s)) = Some t -> proc (tm_k s) (t_pid t) = Some p ->
  0 < p_fd_addr p -> 0 <= fd_id <= MAX_FD ->
  tty_ptr s (ld_le 8 (tm_mem s) (fd + fi_res_id)) = a -> tty_heap s !! a = Some y ->
  (ld_le 4 (tm_mem s) (fd + fi_type) <> file_type_code FILE_TTY -> sys_tcsetpgrp fd_id pgrp s = Done (neg64 ENOTTY, s)) /\
  (ld_le 4 (tm_mem s) (fd + fi_type) = file_type_code FILE_TTY ->
   (forall q, first_of_group (tm_k s) pgrp = Some q -> p_sid q <> p_sid p -> sys_tcsetpgrp fd_id pgrp s = Done (neg64 EPERM, s)) /\
   ((forall q, first_of_group (tm_k s) pgrp = Some q -> p_sid q = p_sid p) ->
    sys_tcsetpgrp fd_id pgrp s = Done (0, set_tty_heap (<[a := set_foreground_pgid pgrp y]> (tty_heap s)) s))).
Proof.
  cbv zeta. intros Ht Hp Hfd Hid Ha Hy. unfold sys_tcsetpgrp. destruct (Z.ltb_spec MAX_FD fd_id); [lia|].
  assert (E : tm_kern get_current_pid s = Done (t_pid t, s)).
  { unfold tm_kern. rewrite (get_current_pid_done _ _ Ht). by destruct s. }
  rewrite (bind_done _ _ _ _ _ E), deref_bind, Hp.
  destruct (Z.eqb_spec (fd_entry (p_fd_addr p) fd_id) 0); [unfold fd_entry, sizeof_file_inner in *; lia|].
  rewrite gets_bind. split.
  - intros Hty. apply Z.eqb_neq in Hty. by rewrite Hty.
  - intros ->. rewrite Z.eqb_refl. cbn [negb]. rewrite !gets_bind, Ha. split.
    + intros q -> Hs. apply Z.eqb_neq in Hs. by rewrite Hs.
    + intros Hall. assert (Hset : (_ ← (gets (fun s => tty_heap s !! a) ≫= deref); _ ← upd_tty a (set_foreground_pgid pgrp); mret 0) s
        = Done (0, set_tty_heap (<[a := set_foreground_pgid pgrp y]> (tty_heap s)) s)).
      { rewrite deref_bind, Hy. unfold upd_tty. rewrite modify_bind.
        assert (alter (set_foreground_pgid pgrp) a (tty_heap s) = <[a := set_foreground_pgid pgrp y]> (tty_heap s)) as ->; [|done].
        apply map_eq. intros i. destruct (decide (i = a)) as [->|Hi];
          [by rewrite lookup_alter_eq, lookup_insert_eq, Hy|by rewrite lookup_alter_ne, lookup_insert_ne by done]. }
      destruct (first_of_group (tm_k s) pgrp) as [q|] eqn:Eq; [|exact Hset].
      rewrite (Hall q eq_refl), Z.eqb_refl. exact Hset.
Qed.

(** ** Witnesses *)
Definition demo_name : mem := list_to_map [(100, 97); (101, 98); (102, 99)].
Lemma strncpy_fits_witness : exists m', strncpy demo_name 200 100 3 = Some (m', 2) /\ StrLib.cstr m' 200 [97; 98].
Proof.
  destruct (strncpy_fits demo_name 200 100 3 [97; 98; 99]) as (m' & E & C & _).
  - vm_compute. repeat split; discriminate.
  - lia.
  - right. vm_compute. reflexivity.
  - exists m'. split; [exact E|exact C].
Defined.
Definition group_term : term :=
  let k := set_process_heap {[0x5000 := set_p_fd_addr 0x8000 (set_p_pgid 7 (set_p_sid 7 zero_process))]}
             (set_processes_info_ptr {[2 := 0x5000]}
                (set_threads_info_ptr {[0 := new_thread 2 0 THREAD_RUNNING 0 0 0 zero_context]} boot_state)) in
  Term k (st_le 8 (st_le 4 ∅ (0x8000 + fi_type) 7) (0x8000 + fi_res_id) 1) {[1 := 0x9000]}
    {[0x9000 := Tty 1 3 7 0 0 0 0 1 1 0 TTY_MODE_CLI]} (Screen ∅ 0 []) 0 false 0 0 (Mouse 0 false false false false false 0 0 0 0).
Lemma sys_tcsetpgrp_outcome_witness : exists s', sys_tcsetpgrp 0 7 group_term = Done (0, s') /\
  (foreground_pgid <$> tty_heap s' !! 0x9000) = Some 7.
Proof.
  destruct (sys_tcsetpgrp_outcome group_term (new_thread 2 0 THREAD_RUNNING 0 0 0 zero_context)
    (set_p_fd_addr 0x8000 (set_p_pgid 7 (set_p_sid 7 zero_process))) 0 7 0x9000 (Tty 1 3 7 0 0 0 0 1 1 0 TTY_MODE_CLI))
    as [_ H].
  - vm_compute. reflexivity.
  - vm_compute. reflexivity.
  - vm_compute. reflexivity.
  - unfold MAX_FD. lia.
  - vm_compute. reflexivity.
  - vm_compute. reflexivity.
  - destruct H as [_ H]; [vm_compute; reflexivity|]. eexists. split.
    + apply H. intros q Hq. vm_compute in Hq. injection Hq as <-. reflexivity.
    + vm_compute. reflexivity.
Defined.
